(* ===== verification/_CoqProject ===== *)
-Q . S2P
Prelude.v
Mem.v
Types.v
Spinlock.v
Kalloc.v
Vm.v
PageTable.v
Uvm.v
Kvm.v
AddrSpace.v
CopyUvm.v
Proc.v
Apic.v
ApicSpec.v
ProcSpec.v
SchedSpec.v
ProcMem.v
Access.v
Bytes.v
Sleeplock.v
Steady.v
Disk.v
Bio.v
BioSpec.v
Log.v
LogSpec.v
LogRoom.v
Inode.v
TxnSpec.v
Console.v
ConsoleSpec.v
Kbd.v
KbdSpec.v
Fs.v
FileSpec.v
AllocSpec.v
GrowSpec.v
DirSpec.v
PathSpec.v
NameSpec.v
LinkSpec.v
Pipe.v
File.v
ProcLife.v
Args.v
ArgsSpec.v
PipeSpec.v
Mmap.v
MmapSpec.v
SysFile.v
Exec.v
Syscall.v
Main.v
MainSpec.v
FaultSpec.v
Defects.v
Ulib.v
UlibSpec.v
Sh.v
ShSpec.v
ShRun.v
Umalloc.v
UmallocSpec.v
Mkfs.v
MkfsSpec.v
MountSpec.v
Progs.v
ProgsSpec.v
