(* ===== verification/Prelude.v ===== *)
(** * A verification library for the xv6 kernel with [mmap] and [munmap]

    The program is the teaching kernel xv6 for the x86 ([src/xv6-public]),
    extended with the system calls [mmap] and [munmap].  The library translates
    its C functions into Rocq functions, one definition per function or loop and
    under the names of the source, and proves what they do.

    ** Effects

    The global variables of the kernel are the fields of the record [kernel]
    ([Types]).  A C function is a value of [KM A]: from a state to an [outcome],
    which is a result with the next state, a call of [panic], an undefined
    access (null pointer, index out of bounds, signed overflow), a loop on a
    spinlock that another processor has, a switch to the scheduler with the rest of the thread, or a
    loop out of fuel.  Machine integers are integers with their wrap-around
    written out ([u32], [i32]).  Memory is a map of bytes, and user memory is
    accessed through the page tables in it ([Access]).  [wp m Q s] says that [m]
    returns from [s], and [Q] of its result; an equation [m s = Ret a s'] says
    more.

    ** Files

    - [Prelude], [Mem], [Types], [Bytes]: the monad, machine integers, records,
      memory and [string.c], the headers and the global state, words in blocks.
    - [Spinlock]: [spinlock.c], the current processor.
    - [Kalloc]: [kalloc.c].
    - [Vm] (definitions of [vm.c]); [PageTable], [Uvm], [Kvm], [AddrSpace],
      [CopyUvm] (its theorems: the view of the MMU, user pages, the kernel map,
      growing, shrinking, freeing, copying).
    - [Proc] ([proc.c] without files and mappings); [ProcSpec] (switching,
      sleeping, waking), [SchedSpec] (fairness), [ProcMem] (slots, sizes, reaping).
    - [Access]: virtual addresses.  [Steady]: the equations for critical
      sections that the layers above use.
    - [Apic], [ApicSpec]: [picirq.c], [ioapic.c], [lapic.c], [mp.c].
    - [Sleeplock], [Disk] ([memide.c], [ide.c]), [Bio], [Log], [Inode], [Fs]: the
      file system ([fs.c] is [Inode] and [Fs]).  Its theorems: [BioSpec] (the
      cache), [LogSpec] and [LogRoom] (commits, room in the log), [TxnSpec]
      (updates in a transaction, inodes), [FileSpec] (the bytes of a file),
      [AllocSpec] (free blocks), [GrowSpec] (files that grow),
      [DirSpec] and [NameSpec] (directories, the inode cache, path names),
      [PathSpec] (the elements of a path), [LinkSpec] (new directory entries).
    - [Console], [ConsoleSpec]: [console.c].  [Kbd], [KbdSpec]: [kbd.c] and
      [uart.c].  [Pipe], [PipeSpec]: [pipe.c].  [File]: [file.c].
    - [ProcLife]: [exit], [fork] and the pages of mappings in [proc.c].
    - [Args], [ArgsSpec]: the argument functions of [syscall.c].
    - [Mmap], [MmapSpec]: [sys_mmap] and [sys_munmap].  [SysFile]: the rest of
      [sysfile.c].  [Exec]: [exec.c].  [Syscall]: [sysproc.c], [syscall.c],
      [trap.c].  [FaultSpec]: the page fault handler.
    - [Main], [MainSpec]: [main.c].
    - [Defects]: concrete runs that end badly.
    - [Ulib], [UlibSpec]: the user library, [printf] and the lines of [grep].
    - [Sh] ([sh.c]); [ShSpec] (its parser), [ShRun] (the descriptors of the
      programs it starts and of the processes that wait for them).
    - [Umalloc], [UmallocSpec]: [umalloc.c].
    - [Mkfs], [MkfsSpec]: the image builder [mkfs.c] and the image it writes;
      [MountSpec]: the kernel's path lookup and [readi] on that image.
    - [Progs]: the main functions of the other user programs, as interaction
      trees over the system calls (the kernel answers an event); [ProgsSpec]:
      what [cat], [wc], [grep] and [ls] write for every kernel that keeps the
      contract of [read], in which a read may return any part of what is left.

    Components meet in classes: [Layout] and [LayoutOk] give the addresses the
    linker chooses, [DiskDriver] is what the buffer cache needs of a driver
    (both drivers are instances), [Ports] and [LocalApic] are reads of device
    registers, [CharSource] is what the console's interrupt handler needs of a
    device it takes characters from (the keyboard and the serial port are
    instances).

    ** What the theorems show

    - Locks: a critical section restores the processor; [acquire] returns, panics
      or spins exactly as it should.
    - Pages: [kalloc] and [kfree] are a stack; every routine of [vm.c] maps
      what it says, on success and on failure, and no page is lost or freed
      twice.
    - Processes: [sched] and [sleep] switch in a state in which a thread can be
      resumed; [sleep] does nothing before it has [ptable.lock], and a [wakeup]
      that gets this lock after it finds the process asleep; a pass of the scheduler runs every process
      that stays runnable; [allocproc], [growproc], [wait] and [kill] on every
      branch.
    - File system: the cache is a consistent view of the disk; updates in a
      transaction stay off the disk; a commit is atomic under a crash after any
      of its writes; the log does not overflow below the limit, and [begin_op]
      waits exactly when the log has no room; inodes are stored faithfully;
      [readi] returns the bytes of a file and [writei] replaces them and nothing
      else, with new blocks from the bitmap when the file grows; [balloc] and
      [bfree] take from and give back to the free blocks of the bitmap; [namex] finds the inode that the directories on the disk
      say, and the inode cache keeps one entry for each inode with the right
      number of references; [dirlink] adds one name to a directory.  The image
      builder writes a file system in which the kernel finds each file by its
      name and reads back its bytes.
    - Mappings: what [mmap] does to the descriptors, when they stay disjoint
      and in their region, and what a page fault does to the address space.
    - System calls: pointers and strings of the user are checked.
    - Devices: the configuration table of the machine gives the processors; after
      [main] has initialised the devices exactly the interrupts that [trap]
      handles are enabled; the scan codes of the keyboard edit the line as the
      keys that were pressed do.
    - Pipes are queues; console output stays on the screen.
    - User programs: the matcher of [grep] decides its patterns; [grep] prints
      the matching lines; [cat] copies its files, [wc] counts their lines, words
      and characters, [ls] prints a line for each entry.  The parser of the shell ends on
      every line and reads back every command; the programs of a command start
      with the descriptors that its pipes and redirections say, and no process
      that waits keeps an end of a pipe open.  The blocks that
      [malloc] hands out never overlap.

    The examples [mmap_collides], [mmap_misaligned], [mmap_guard_outside],
    [mmap_last_page_twice], [prot_chooses_frame], [log_overflows],
    [grep_drops_partial], [ulib_memmove_overlap] and those of [Defects] are runs
    in which the code does not do what it means to, and [growproc_shrink] says
    which shrinks of a process go wrong.

    ** Fuel

    A loop over a range has the number of its iterations as fuel, computed from
    its bounds, and the theorems on [wp] and on [Ret] show that it is enough.
    The parser of the shell takes its fuel from the length of the line, since
    every turn takes a token; the loops of the allocator, which follow its list,
    take it as an argument, of which the theorem says how much is enough.
    The loops of the user programs that run until the kernel says so are
    [ITree.iter], without fuel; the theorems show that they end.
    Loops that wait for another thread or a device, and the scheduler, which
    never ends, take their fuel from the class [Patience]: any positive number
    of turns is enough in the theorems, since a turn that waits ends in a switch.

    ** Concurrency

    Other processors appear in the holders of locks and in the states in which a
    switched thread is resumed.  Theorems that say [env] are about a thread that
    runs while no other one holds the static locks, as when it runs alone or
    between the critical sections of others.

    ** Not modelled

    Assembly ([bootasm.S], [entry.S], [swtch.S], [trapasm.S], ...) and the boot
    loader: machine code below the level of the state.  The test program
    [usertests.c].  The calls above the files and directories ([itrunc],
    [create], [exec] and others) are defined, without theorems of their own. *)

From stdpp Require Import base gmap strings list fin_maps.
From Stdlib Require Import ZArith Lia.

Open Scope Z_scope.

(** Closed literals such as [Z.to_nat 1048576] must not be unfolded into
    unary numbers by simplification. *)
Arguments Z.to_nat : simpl never.
Arguments Z.of_nat : simpl never.
Arguments Z.pow : simpl never.
Arguments Z.mul : simpl never.
Arguments Z.modulo : simpl never.
Arguments Z.div : simpl never.
Arguments Z.land : simpl never.
Arguments Z.lor : simpl never.
Arguments Z.lnot : simpl never.
Arguments Z.shiftl : simpl never.
Arguments Z.shiftr : simpl never.
Arguments Z.eqb : simpl never.
Arguments Z.ltb : simpl never.
Arguments Z.leb : simpl never.

(** ** Results of running kernel code

    [Ret a s] returns [a] in state [s].  [Panic] is a call of [panic].
    [Undef] is a C access whose behaviour is undefined (a null pointer, an
    index outside an array).  [Spin] is a processor that waits for a spinlock
    that no code of this processor will release.  [Switch s k] is a call of
    [swtch] to the scheduler: the thread stops in state [s] and [k] is its
    saved context, run on the state in which it is resumed.  [NoFuel] marks a
    loop whose fuel ran out. *)
Inductive outcome (S A : Type) : Type :=
| Ret (a : A) (s : S)
| Panic (msg : string) (s : S)
| Undef (why : string) (s : S)
| Spin (s : S)
| Switch (s : S) (k : S -> outcome S A)
| NoFuel (s : S).
Arguments Ret {S A} a s.
Arguments Panic {S A} msg s.
Arguments Undef {S A} why s.
Arguments Spin {S A} s.
Arguments Switch {S A} s k.
Arguments NoFuel {S A} s.

Definition K (S A : Type) : Type := S -> outcome S A.

Fixpoint obind {S A B : Type} (o : outcome S A) (f : A -> K S B) : outcome S B :=
  match o with
  | Ret a s => f a s
  | Panic msg s => Panic msg s
  | Undef why s => Undef why s
  | Spin s => Spin s
  | Switch s k => Switch s (fun s' => obind (k s') f)
  | NoFuel s => NoFuel s
  end.

Definition kret {S A : Type} (a : A) : K S A := fun s => Ret a s.
Definition kbind {S A B : Type} (m : K S A) (f : A -> K S B) : K S B :=
  fun s => obind (m s) f.
Definition kget {S T : Type} (f : S -> T) : K S T := fun s => Ret (f s) s.
Definition kmod {S : Type} (f : S -> S) : K S unit := fun s => Ret tt (f s).
Definition kpanic {S A : Type} (msg : string) : K S A := fun s => Panic msg s.
Definition kundef {S A : Type} (why : string) : K S A := fun s => Undef why s.

Declare Scope kern_scope.
Delimit Scope kern_scope with kern.
Notation "x <- m ;; k" := (kbind m (fun x => k))
  (at level 100, m at next level, right associativity) : kern_scope.
Notation "m ;;; k" := (kbind m (fun _ => k))
  (at level 100, right associativity) : kern_scope.
Notation "'when' c 'do' m" := (if c then m else kret tt)
  (at level 99, m at level 99) : kern_scope.
Open Scope kern_scope.

(** A C [for] loop over the elements of [l]; a body that yields [Some r]
    leaves the loop with [r] (a [break] or an early [return]). *)
Fixpoint kfor {S X R : Type} (l : list X) (body : X -> K S (option R)) : K S (option R) :=
  match l with
  | [] => kret None
  | x :: l' =>
      r <- body x ;;
      match r with
      | Some v => kret (Some v)
      | None => kfor l' body
      end
  end.

(** A [for] loop whose body always runs to its end. *)
Fixpoint keach {S X : Type} (l : list X) (body : X -> K S unit) : K S unit :=
  match l with
  | [] => kret tt
  | x :: l' => body x ;;; keach l' body
  end.

(** ** Weakest preconditions: the code returns, and [Q] holds of its result. *)
Definition wp {S A : Type} (m : K S A) (Q : A -> S -> Prop) (s : S) : Prop :=
  match m s with
  | Ret a s' => Q a s'
  | _ => False
  end.

Section Wp.
Context {S : Type}.

Lemma wp_ret {A} (a : A) Q (s : S) : Q a s -> wp (kret a) Q s.
Proof. done. Qed.

Lemma wp_get {T} (f : S -> T) Q (s : S) : Q (f s) s -> wp (kget f) Q s.
Proof. done. Qed.

Lemma wp_mod (f : S -> S) Q (s : S) : Q tt (f s) -> wp (kmod f) Q s.
Proof. done. Qed.

Lemma wp_bind {A B} (m : K S A) (f : A -> K S B) Q s :
  wp m (fun a s' => wp (f a) Q s') s -> wp (kbind m f) Q s.
Proof. unfold wp, kbind. destruct (m s); simpl; done. Qed.

Lemma wp_assoc {A B C} (m : K S A) (f : A -> K S B) (g : B -> K S C) Q s :
  wp (kbind (kbind m f) g) Q s -> wp (kbind m (fun a => kbind (f a) g)) Q s.
Proof. unfold wp, kbind. destruct (m s); simpl; done. Qed.

Lemma wp_mono {A} (m : K S A) (P Q : A -> S -> Prop) s :
  wp m P s -> (forall a s', P a s' -> Q a s') -> wp m Q s.
Proof. unfold wp. destruct (m s); eauto. Qed.

Lemma wp_run {A} (m : K S A) Q s :
  wp m Q s <-> exists a s', m s = Ret a s' /\ Q a s'.
Proof.
  unfold wp. split; [destruct (m s); by eauto|]. by intros (a & s' & -> & HQ).
Qed.

Lemma wp_of_run {A} (m : K S A) (Q : A -> S -> Prop) s a s' :
  m s = Ret a s' -> Q a s' -> wp m Q s.
Proof. unfold wp. by intros ->. Qed.

(** The rule for [keach]: an invariant indexed by the elements still to do. *)
Lemma wp_keach {X} (l : list X) (body : X -> K S unit) (I : list X -> S -> Prop) s :
  I l s ->
  (forall x l' s1, I (x :: l') s1 -> wp (body x) (fun _ => I l') s1) ->
  wp (keach l body) (fun _ => I []) s.
Proof.
  revert s; induction l as [|x l IH]; intros s HI Hb; simpl; [done|].
  apply wp_bind. eapply wp_mono; [by apply Hb|]. intros ? s' ?. eauto.
Qed.

(** The rule for [kfor]: the invariant until an iteration leaves the loop. *)
Lemma wp_kfor {X R} (l : list X) (body : X -> K S (option R))
    (I : list X -> S -> Prop) (Q : option R -> S -> Prop) s :
  I l s ->
  (forall x l' s1, I (x :: l') s1 ->
     wp (body x) (fun r s2 => match r with
                              | Some v => Q (Some v) s2
                              | None => I l' s2
                              end) s1) ->
  (forall s1, I [] s1 -> Q None s1) ->
  wp (kfor l body) Q s.
Proof.
  revert s; induction l as [|x l IH]; intros s HI Hb Hend; simpl; [by apply Hend|].
  apply wp_bind. eapply wp_mono; [by apply Hb|].
  intros [v|] s'; simpl; [done|]. eauto.
Qed.
End Wp.

(** The database of the development: the rules for the steps of the monad, the
    ranges of machine integers and what survives the changes of other fields. *)
Create HintDb kern.
#[export] Hint Resolve wp_ret wp_get wp_mod : kern.

(** ** Record update

    [s <| p := v |>] is the record [s] with its field [p] set to [v].  A
    record provides its eta expansion, from which [solve_updater] builds the
    setter of one field. *)
Class Updater {R T : Type} (p : R -> T) := update : (T -> T) -> R -> R.
Arguments update {R T} p {Updater} f s.

Ltac solve_updater eta p :=
  let f := fresh "f" in
  let s := fresh "s" in
  intros f s;
  let t := eval unfold eta in (eta s) in
  let t' := eval pattern (p s) in t in
  match t' with
  | ?g _ => let r := eval cbv beta in (g (f (p s))) in exact r
  end.

Notation "s <| p := v |>" := (update p (fun _ => v) s)
  (at level 1, p at level 9, v at level 200, format "s  <| p  :=  v |>") : kern_scope.
Notation "s <| p ::= f |>" := (update p f s)
  (at level 1, p at level 9, f at level 200, format "s  <| p  ::=  f |>") : kern_scope.

(** ** Machine integers *)
Definition u8 (z : Z) : Z := z mod 256.
Definition u16 (z : Z) : Z := z mod 65536.
Definition u32 (z : Z) : Z := z mod 4294967296.
Definition i32 (z : Z) : Z := (z + 2147483648) mod 4294967296 - 2147483648.

Lemma u8_range z : 0 <= u8 z < 256.
Proof. unfold u8. apply Z.mod_pos_bound. lia. Qed.

Lemma u32_range z : 0 <= u32 z < 4294967296.
Proof. unfold u32. apply Z.mod_pos_bound. lia. Qed.

Lemma i32_range z : -2147483648 <= i32 z < 2147483648.
Proof. unfold i32. pose proof (Z.mod_pos_bound (z + 2147483648) 4294967296). lia. Qed.

Lemma u32_id z : 0 <= z < 4294967296 -> u32 z = z.
Proof. intros. unfold u32. by apply Z.mod_small. Qed.

Lemma i32_id z : -2147483648 <= z < 2147483648 -> i32 z = z.
Proof. intros. unfold i32. rewrite Z.mod_small; lia. Qed.

#[export] Hint Resolve u8_range u32_range i32_range : kern.
#[export] Hint Rewrite u32_id i32_id using lia : kern.

Lemma u32_u32 z : u32 (u32 z) = u32 z.
Proof. unfold u32. by rewrite Z.mod_mod. Qed.

(** Disjoint bit ranges: [lor] is addition. *)
Lemma land_shiftl_low x k y : 0 <= k -> 0 <= y < 2 ^ k -> Z.land (Z.shiftl x k) y = 0.
Proof.
  intros Hk Hy. apply Z.bits_inj'; intros n Hn. rewrite Z.land_spec, Z.bits_0.
  destruct (decide (n < k)); [by rewrite Z.shiftl_spec_low|].
  destruct (decide (y = 0)) as [->|]; [by rewrite Z.bits_0, andb_false_r|].
  rewrite (Z.bits_above_log2 y n), ?andb_false_r; [done|lia|].
  apply Z.lt_le_trans with k; [apply Z.log2_lt_pow2; lia|lia].
Qed.

Lemma lor_shiftl_add x k y :
  0 <= k -> 0 <= y < 2 ^ k -> Z.lor (Z.shiftl x k) y = x * 2 ^ k + y.
Proof.
  intros Hk Hy. rewrite <- Z.shiftl_mul_pow2 by done.
  pose proof (land_shiftl_low x k y Hk Hy).
  by rewrite Z.add_nocarry_lxor, <- Z.lxor_lor.
Qed.

Lemma lor_mul_add x k y : 0 <= k -> 0 <= y < 2 ^ k -> Z.lor (x * 2 ^ k) y = x * 2 ^ k + y.
Proof. intros. rewrite <- Z.shiftl_mul_pow2 by done. rewrite lor_shiftl_add by done. by rewrite Z.shiftl_mul_pow2. Qed.

(** Clearing the low [k] bits rounds down to a multiple of [2 ^ k]. *)
Lemma land_lnot_ones a k : 0 <= k -> Z.land a (Z.lnot (2 ^ k - 1)) = a / 2 ^ k * 2 ^ k.
Proof.
  intros Hk. rewrite <- Z.ldiff_land. rewrite <- Z.shiftl_mul_pow2, <- Z.shiftr_div_pow2 by done.
  replace (2 ^ k - 1) with (Z.ones k) by (rewrite Z.ones_equiv; lia).
  by rewrite Z.ldiff_ones_r.
Qed.

Lemma land_bound a b : 0 <= a < 4294967296 -> 0 <= Z.land a b < 4294967296.
Proof.
  intros Ha. rewrite <- (u32_id a) by done. unfold u32. change 4294967296 with (2 ^ 32).
  rewrite <- (Z.land_ones a) by lia. rewrite <- Z.land_assoc, (Z.land_comm (Z.ones 32)), Z.land_assoc.
  rewrite Z.land_ones by lia. apply Z.mod_pos_bound. lia.
Qed.

(** C truth values. *)
Definition c_bool (b : bool) : Z := if b then 1 else 0.
Definition c_true (z : Z) : bool := negb (z =? 0).

(** ** Lists filtered through a partial function *)
Section Omap.
Context {A B : Type}.
Implicit Types (f g : A -> option B) (l : list A).

Lemma omap_ext_in f g l : (forall x, x ∈ l -> f x = g x) -> omap f l = omap g l.
Proof.
  induction l as [|x l IH]; intros H; [done|]. cbn. rewrite (H x) by set_solver.
  rewrite IH by (intros; apply H; set_solver). done.
Qed.

Lemma omap_inj_NoDup f l i j x :
  NoDup (omap f l) -> i ∈ l -> j ∈ l -> f i = Some x -> f j = Some x -> i = j.
Proof.
  intros Hnd Hi Hj Hfi Hfj.
  assert (Hin : forall k l', k ∈ l' -> f k = Some x -> x ∈ omap f l').
  { intros k l' Hk Hf. apply list_elem_of_omap. eauto. }
  induction l as [|y l IH]; [by apply not_elem_of_nil in Hi|].
  apply elem_of_cons in Hi as [->|Hi], Hj as [->|Hj]; [done| | |].
  - cbn in Hnd. rewrite Hfi in Hnd. apply NoDup_cons in Hnd as [Hno _]. destruct Hno. eauto.
  - cbn in Hnd. rewrite Hfj in Hnd. apply NoDup_cons in Hnd as [Hno _]. destruct Hno. eauto.
  - apply IH; [|done|done]. cbn in Hnd. destruct (f y); [by apply NoDup_cons in Hnd as [_ ?]|done].
Qed.

Lemma omap_insert_perm f g l i x :
  NoDup l -> i ∈ l -> f i = None -> g i = Some x ->
  (forall j, j ∈ l -> j <> i -> g j = f j) -> omap g l ≡ₚ x :: omap f l.
Proof.
  intros Hnd Hi Hf Hg Hother. apply list_elem_of_split in Hi as (l1 & l2 & ->).
  apply NoDup_app in Hnd as (H1 & H12 & H2). apply NoDup_cons in H2 as [H2 _].
  rewrite !omap_app. cbn. rewrite Hf, Hg.
  rewrite (omap_ext_in g f l1), (omap_ext_in g f l2).
  - symmetry. apply Permutation_middle.
  - intros j Hj. apply Hother; set_solver.
  - intros j Hj. apply Hother; set_solver.
Qed.
End Omap.
