(* ===== verification/Mem.v ===== *)
(** * Byte-addressed memory and the kernel's [string.c]

    The kernel reads and writes physical memory through the addresses of its
    direct map, so the memory of the model is a finite map from addresses to
    bytes; bytes that were never written read as zero.  [ld32] and [st32] are
    the little-endian word accesses of the x86.  The routines of
    [string.c] (and [stosb]/[stosl] of [x86.h] they use) are translated loop
    by loop and proved equal to their specification, byte by byte. *)

From stdpp Require Import base gmap strings list fin_maps.
From Stdlib Require Import ZArith Lia.
From S2P Require Import Prelude.

Abbreviation mem := (gmap Z Z).

Definition ld8 (m : mem) (a : Z) : Z := u8 (default 0 (m !! a)).
Definition st8 (m : mem) (a v : Z) : mem := <[a := u8 v]> m.

Definition ld32 (m : mem) (a : Z) : Z :=
  ld8 m a + 256 * ld8 m (a + 1) + 65536 * ld8 m (a + 2) + 16777216 * ld8 m (a + 3).
Definition st32 (m : mem) (a v : Z) : mem :=
  st8 (st8 (st8 (st8 m a v) (a + 1) (v / 256)) (a + 2) (v / 65536)) (a + 3) (v / 16777216).

(** Two memories are the same when every byte reads the same. *)
Definition meq (m1 m2 : mem) : Prop := forall a, ld8 m1 a = ld8 m2 a.
Infix "≈" := meq (at level 70, no associativity) : kern_scope.

(** ** The string instructions and [string.c] *)

Fixpoint stosb (m : mem) (addr data : Z) (cnt : nat) : mem :=
  match cnt with
  | O => m
  | S k => stosb (st8 m addr data) (addr + 1) data k
  end.

Fixpoint stosl (m : mem) (addr data : Z) (cnt : nat) : mem :=
  match cnt with
  | O => m
  | S k => stosl (st32 m addr data) (addr + 4) data k
  end.

Definition memset (m : mem) (dst c n : Z) : mem :=
  if (Z.rem (i32 dst) 4 =? 0) && (n mod 4 =? 0) then
    let c := Z.land c 255 in
    stosl m dst
      (Z.lor (Z.lor (Z.lor (Z.shiftl c 24) (Z.shiftl c 16)) (Z.shiftl c 8)) c)
      (Z.to_nat (n / 4))
  else stosb m dst c (Z.to_nat n).

Fixpoint memcmp_loop (m : mem) (s1 s2 : Z) (n : nat) : Z :=
  match n with
  | O => 0
  | S k =>
      if negb (ld8 m s1 =? ld8 m s2) then ld8 m s1 - ld8 m s2
      else memcmp_loop m (s1 + 1) (s2 + 1) k
  end.
Definition memcmp (m : mem) (v1 v2 n : Z) : Z := memcmp_loop m v1 v2 (Z.to_nat n).

(** [while(n-- > 0) *--d = *--s;] and [while(n-- > 0) *d++ = *s++;] *)
Fixpoint copy_down (m : mem) (d s : Z) (n : nat) : mem :=
  match n with
  | O => m
  | S k => copy_down (st8 m (d - 1) (ld8 m (s - 1))) (d - 1) (s - 1) k
  end.
Fixpoint copy_up (m : mem) (d s : Z) (n : nat) : mem :=
  match n with
  | O => m
  | S k => copy_up (st8 m d (ld8 m s)) (d + 1) (s + 1) k
  end.

Definition memmove (m : mem) (dst src n : Z) : mem :=
  if (src <? dst) && (dst <? src + n)
  then copy_down m (dst + n) (src + n) (Z.to_nat n)
  else copy_up m dst src (Z.to_nat n).

Definition memcpy (m : mem) (dst src n : Z) : mem := memmove m dst src n.

Fixpoint strncmp_loop (m : mem) (p q : Z) (n : nat) : Z :=
  match n with
  | O => 0
  | S k =>
      if c_true (ld8 m p) && (ld8 m p =? ld8 m q)
      then strncmp_loop m (p + 1) (q + 1) k
      else ld8 m p - ld8 m q
  end.
Definition strncmp (m : mem) (p q n : Z) : Z := strncmp_loop m p q (Z.to_nat n).

(** The second loop of [strncpy]. *)
Fixpoint strncpy_pad (m : mem) (s : Z) (n : nat) : mem :=
  match n with
  | O => m
  | S k => strncpy_pad (st8 m s 0) (s + 1) k
  end.
Fixpoint strncpy_loop (m : mem) (s t : Z) (n : nat) : mem :=
  match n with
  | O => m
  | S k =>
      let c := ld8 m t in
      let m := st8 m s c in
      if c_true c then strncpy_loop m (s + 1) (t + 1) k
      else strncpy_pad m (s + 1) k
  end.
Definition strncpy (m : mem) (s t n : Z) : mem := strncpy_loop m s t (Z.to_nat n).

Fixpoint safestrcpy_loop (m : mem) (s t : Z) (n : nat) : mem :=
  match n with
  | S k =>
      let c := ld8 m t in
      let m := st8 m s c in
      if c_true c then safestrcpy_loop m (s + 1) (t + 1) k
      else st8 m (s + 1) 0
  | O => st8 m s 0
  end.
Definition safestrcpy (m : mem) (s t n : Z) : mem :=
  if n <=? 0 then m else safestrcpy_loop m s t (Z.to_nat (n - 1)).

(** [strlen] stops at the first zero byte.  Bytes that were never written are
    zero, so a string has at most as many bytes as the memory has entries. *)
Fixpoint strlen_loop (m : mem) (s n : Z) (fuel : nat) : option Z :=
  match fuel with
  | O => None
  | S k => if c_true (ld8 m (s + n)) then strlen_loop m s (n + 1) k else Some n
  end.
Definition strlen (m : mem) (s : Z) : option Z := strlen_loop m s 0 (S (size m)).

(** ** Loads and stores *)

Lemma ld8_range m a : 0 <= ld8 m a < 256.
Proof. apply u8_range. Qed.

Lemma u8_ld8 m a : u8 (ld8 m a) = ld8 m a.
Proof. unfold ld8, u8. by rewrite Z.mod_mod. Qed.

Lemma ld8_st8 m a v b : ld8 (st8 m a v) b = if decide (a = b) then u8 v else ld8 m b.
Proof.
  unfold ld8, st8. rewrite lookup_insert. case_decide; [|done].
  simpl. unfold u8. by rewrite Z.mod_mod.
Qed.

Lemma ld8_st8_eq m a v : ld8 (st8 m a v) a = u8 v.
Proof. rewrite ld8_st8. by case_decide. Qed.

Lemma ld8_st8_ne m a v b : a <> b -> ld8 (st8 m a v) b = ld8 m b.
Proof. intros. rewrite ld8_st8. by case_decide. Qed.

#[global] Instance meq_equiv : Equivalence meq.
Proof.
  split; [by intros m a | by intros m1 m2 H a | intros m1 m2 m3 H1 H2 a].
  by rewrite H1, H2.
Qed.

#[global] Instance ld8_proper : Proper (meq ==> eq ==> eq) ld8.
Proof. intros m1 m2 H a ? <-. apply H. Qed.

#[global] Instance ld32_proper : Proper (meq ==> eq ==> eq) ld32.
Proof. intros m1 m2 H a ? <-. unfold ld32. by rewrite !H. Qed.

#[global] Instance st8_proper : Proper (meq ==> eq ==> eq ==> meq) st8.
Proof. intros m1 m2 H a ? <- v ? <- b. rewrite !ld8_st8. case_decide; [done|apply H]. Qed.

#[global] Instance stosb_proper : Proper (meq ==> eq ==> eq ==> eq ==> meq) stosb.
Proof.
  intros m1 m2 H a ? <- v ? <- n ? <-.
  revert m1 m2 a H; induction n as [|n IH]; intros m1 m2 a H; simpl; [done|].
  apply IH. by rewrite H.
Qed.

(** The byte [i] of a word. *)
Definition byte_of (v i : Z) : Z := u8 (v / 256 ^ i).

Lemma ld8_st32 m a v b :
  ld8 (st32 m a v) b = if decide (a <= b < a + 4) then byte_of v (b - a) else ld8 m b.
Proof.
  unfold st32, byte_of. rewrite !ld8_st8.
  repeat case_decide; try lia; try done.
  - by replace (b - a) with 3 by lia.
  - by replace (b - a) with 2 by lia.
  - by replace (b - a) with 1 by lia.
  - replace (b - a) with 0 by lia. by rewrite Z.pow_0_r, Z.div_1_r.
Qed.

Lemma ld8_st32_ne m a v b : b < a \/ a + 4 <= b -> ld8 (st32 m a v) b = ld8 m b.
Proof. intros. rewrite ld8_st32. case_decide; [lia|done]. Qed.

Lemma ld32_range m a : 0 <= ld32 m a < 4294967296.
Proof.
  unfold ld32.
  pose proof (ld8_range m a); pose proof (ld8_range m (a + 1));
  pose proof (ld8_range m (a + 2)); pose proof (ld8_range m (a + 3)). lia.
Qed.

Lemma u32_ld32 m a : u32 (ld32 m a) = ld32 m a.
Proof. apply u32_id, ld32_range. Qed.

Lemma bytes_word v :
  byte_of v 0 + 256 * byte_of v 1 + 65536 * byte_of v 2 + 16777216 * byte_of v 3 = u32 v.
Proof.
  unfold byte_of, u8, u32. rewrite Z.pow_0_r, Z.div_1_r, Z.pow_1_r.
  change (256 ^ 2) with 65536. change (256 ^ 3) with 16777216.
  Z.div_mod_to_equations. lia.
Qed.

Lemma ld32_st32_eq m a v : ld32 (st32 m a v) a = u32 v.
Proof.
  unfold ld32. rewrite !ld8_st32.
  repeat case_decide; try lia. rewrite <- (bytes_word v).
  replace (a - a) with 0 by lia. replace (a + 1 - a) with 1 by lia.
  replace (a + 2 - a) with 2 by lia. by replace (a + 3 - a) with 3 by lia.
Qed.

Lemma ld32_st32_ne m a v b : b + 4 <= a \/ a + 4 <= b -> ld32 (st32 m a v) b = ld32 m b.
Proof. intros. unfold ld32. rewrite !ld8_st32_ne by lia. done. Qed.

Lemma ld32_ext m1 m2 a : (forall b, a <= b < a + 4 -> ld8 m1 b = ld8 m2 b) -> ld32 m1 a = ld32 m2 a.
Proof. intros H. unfold ld32. by rewrite !H by lia. Qed.

(** A word whose four bytes are equal. *)
Lemma byte_of_repeat c i :
  0 <= c < 256 -> 0 <= i < 4 ->
  byte_of (Z.lor (Z.lor (Z.lor (Z.shiftl c 24) (Z.shiftl c 16)) (Z.shiftl c 8)) c) i = c.
Proof.
  intros Hc Hi.
  rewrite <- !Z.lor_assoc.
  rewrite (lor_shiftl_add c 8), (lor_shiftl_add c 16), (lor_shiftl_add c 24) by lia.
  unfold byte_of, u8.
  assert (i = 0 \/ i = 1 \/ i = 2 \/ i = 3) as [-> | [-> | [-> | ->]]] by lia;
    [rewrite Z.pow_0_r, Z.div_1_r|rewrite Z.pow_1_r
    |change (256 ^ 2) with 65536|change (256 ^ 3) with 16777216];
    change (2 ^ 24) with 16777216; change (2 ^ 16) with 65536; change (2 ^ 8) with 256;
    Z.div_mod_to_equations; lia.
Qed.

(** ** Specifications of the string routines *)

Lemma ld8_stosb m d c n a :
  ld8 (stosb m d c n) a = if decide (d <= a < d + Z.of_nat n) then u8 c else ld8 m a.
Proof.
  revert m d; induction n as [|n IH]; intros m d; cbn [stosb].
  - case_decide; [lia|done].
  - rewrite IH, ld8_st8. repeat case_decide; try lia; done.
Qed.

Lemma ld8_stosl m d v n a :
  ld8 (stosl m d v n) a =
    if decide (d <= a < d + 4 * Z.of_nat n) then byte_of v ((a - d) mod 4) else ld8 m a.
Proof.
  revert m d; induction n as [|n IH]; intros m d; cbn [stosl].
  - case_decide; [lia|done].
  - rewrite IH, ld8_st32. repeat case_decide; try lia; try done.
    + f_equal. replace (a - d) with (a - (d + 4) + 1 * 4) by lia. by rewrite Z.mod_add.
    + f_equal. by rewrite Z.mod_small by lia.
Qed.

Lemma u8_land c : Z.land c 255 = u8 c.
Proof. change 255 with (Z.ones 8). by rewrite Z.land_ones. Qed.

Lemma ld8_memset m d c n a :
  0 <= n -> ld8 (memset m d c n) a = if decide (d <= a < d + n) then u8 c else ld8 m a.
Proof.
  intros Hn. unfold memset. destruct (_ && _) eqn:E.
  - apply andb_true_iff in E as [_ E]. apply Z.eqb_eq in E.
    assert (Hn4 : Z.of_nat (Z.to_nat (n / 4)) = n / 4) by (apply Z2Nat.id, Z.div_pos; lia).
    rewrite ld8_stosl, Hn4.
    replace (4 * (n / 4)) with n by (Z.div_mod_to_equations; lia).
    case_decide; [|done]. rewrite u8_land. apply byte_of_repeat.
    + apply u8_range.
    + apply Z.mod_pos_bound. lia.
  - rewrite ld8_stosb, Z2Nat.id by done. done.
Qed.

Lemma ld8_copy_up m d s n a :
  d <= s \/ s + Z.of_nat n <= d ->
  ld8 (copy_up m d s n) a =
    if decide (d <= a < d + Z.of_nat n) then ld8 m (s + (a - d)) else ld8 m a.
Proof.
  revert m d s; induction n as [|n IH]; intros m d s Hds; cbn [copy_up].
  - case_decide; [lia|done].
  - rewrite IH by lia. rewrite !ld8_st8, u8_ld8.
    repeat case_decide; try lia; try done; f_equal; lia.
Qed.

Lemma ld8_copy_down m d s n a :
  s <= d ->
  ld8 (copy_down m d s n) a =
    if decide (d - Z.of_nat n <= a < d) then ld8 m (s - (d - a)) else ld8 m a.
Proof.
  revert m d s; induction n as [|n IH]; intros m d s Hds; cbn [copy_down].
  - case_decide; [lia|done].
  - rewrite IH by lia. rewrite !ld8_st8, u8_ld8.
    repeat case_decide; try lia; try done; f_equal; lia.
Qed.

Lemma ld8_memmove m d s n a :
  0 <= n ->
  ld8 (memmove m d s n) a = if decide (d <= a < d + n) then ld8 m (s + (a - d)) else ld8 m a.
Proof.
  intros Hn. unfold memmove.
  destruct (Z.ltb_spec s d), (Z.ltb_spec d (s + n)); simpl;
    rewrite ?ld8_copy_down, ?ld8_copy_up by lia;
    repeat case_decide; try lia; try done; f_equal; lia.
Qed.

(** A word read inside a range that [memset] cleared, or outside of it. *)
Lemma ld32_memset_in m d n a :
  d <= a -> a + 4 <= d + n -> ld32 (memset m d 0 n) a = 0.
Proof.
  intros. unfold ld32. rewrite !ld8_memset by lia. by rewrite !decide_True by lia.
Qed.

Lemma ld32_memset_out m d c n a :
  0 <= n -> a + 4 <= d \/ d + n <= a -> ld32 (memset m d c n) a = ld32 m a.
Proof. intros. apply ld32_ext; intros b Hb. rewrite ld8_memset by done. case_decide; [lia|done]. Qed.

Lemma ld32_memmove_out m d s n a :
  0 <= n -> a + 4 <= d \/ d + n <= a -> ld32 (memmove m d s n) a = ld32 m a.
Proof. intros. apply ld32_ext; intros b Hb. rewrite ld8_memmove by done. case_decide; [lia|done]. Qed.

Lemma ld32_memmove_in m d s n a :
  d <= a -> a + 4 <= d + n -> ld32 (memmove m d s n) a = ld32 m (s + (a - d)).
Proof.
  intros. unfold ld32. rewrite !ld8_memmove by lia. rewrite !decide_True by lia.
  by replace (s + (a + 1 - d)) with (s + (a - d) + 1) by lia;
  replace (s + (a + 2 - d)) with (s + (a - d) + 2) by lia;
  replace (s + (a + 3 - d)) with (s + (a - d) + 3) by lia.
Qed.

(** The C string at [p], cut after [n] bytes. *)
Fixpoint cstr (m : mem) (p : Z) (n : nat) : list Z :=
  match n with
  | O => []
  | S k => if c_true (ld8 m p) then ld8 m p :: cstr m (p + 1) k else []
  end.

Lemma c_true_false z : c_true z = false <-> z = 0.
Proof. unfold c_true. rewrite negb_false_iff. apply Z.eqb_eq. Qed.

Lemma c_true_true z : c_true z = true <-> z <> 0.
Proof. unfold c_true. rewrite negb_true_iff. apply Z.eqb_neq. Qed.

Lemma cstr_ext m1 m2 p n :
  (forall a, p <= a < p + Z.of_nat n -> ld8 m1 a = ld8 m2 a) -> cstr m1 p n = cstr m2 p n.
Proof.
  revert p; induction n as [|n IH]; intros p H; cbn [cstr]; [done|].
  rewrite (H p) by lia. destruct (c_true _); [|done].
  f_equal. apply IH. intros a Ha. apply H. lia.
Qed.

Lemma strncmp_loop_zero m p q n :
  strncmp_loop m p q n = 0 <-> cstr m p n = cstr m q n.
Proof.
  revert p q; induction n as [|n IH]; intros p q; cbn [strncmp_loop cstr]; [done|].
  pose proof (ld8_range m p); pose proof (ld8_range m q).
  destruct (c_true (ld8 m p)) eqn:Ep; simpl.
  - apply c_true_true in Ep as Hp. destruct (Z.eqb_spec (ld8 m p) (ld8 m q)) as [E|E].
    + rewrite <- E, Ep, IH. split; [by intros -> | by intros [= ?]].
    + split; [lia|]. destruct (c_true (ld8 m q)); [|done]. by intros [= ?].
  - apply c_true_false in Ep. destruct (c_true (ld8 m q)) eqn:Eq.
    + apply c_true_true in Eq. split; [lia|done].
    + apply c_true_false in Eq. split; [done|lia].
Qed.

Lemma ld8_strncpy_pad m s n a :
  ld8 (strncpy_pad m s n) a = if decide (s <= a < s + Z.of_nat n) then 0 else ld8 m a.
Proof.
  revert m s; induction n as [|n IH]; intros m s; cbn [strncpy_pad].
  - case_decide; [lia|done].
  - rewrite IH, ld8_st8. repeat case_decide; try lia; done.
Qed.

(** [strncpy] writes the string and pads it with zeros up to [n] bytes. *)
Lemma ld8_strncpy_loop m s t n a :
  s + Z.of_nat n <= t \/ t + Z.of_nat n <= s ->
  ld8 (strncpy_loop m s t n) a =
    if decide (s <= a < s + Z.of_nat n)
    then default 0 (cstr m t n !! Z.to_nat (a - s)) else ld8 m a.
Proof.
  revert m s t; induction n as [|n IH]; intros m s t Hst; cbn [strncpy_loop cstr].
  - case_decide; [lia|done].
  - destruct (c_true (ld8 m t)) eqn:Et.
    + rewrite IH by lia.
      rewrite (cstr_ext (st8 m s (ld8 m t)) m) by (intros; apply ld8_st8_ne; lia).
      rewrite ld8_st8, u8_ld8.
      repeat case_decide; try lia; try done.
      * replace (Z.to_nat (a - s)) with (S (Z.to_nat (a - (s + 1)))) by lia. done.
      * by replace (Z.to_nat (a - s)) with O by lia.
    + apply c_true_false in Et. rewrite ld8_strncpy_pad, ld8_st8, Et.
      repeat case_decide; try lia; done.
Qed.

Lemma safestrcpy_loop_frame m s t n a :
  a < s \/ s + Z.of_nat n < a -> ld8 (safestrcpy_loop m s t n) a = ld8 m a.
Proof.
  revert m s t; induction n as [|n IH]; intros m s t Ha; cbn [safestrcpy_loop].
  - apply ld8_st8_ne. lia.
  - destruct (c_true _); [rewrite IH by lia|rewrite ld8_st8_ne by lia]; apply ld8_st8_ne; lia.
Qed.

Lemma safestrcpy_loop_cstr m s t n :
  s + Z.of_nat n < t \/ t + Z.of_nat n <= s ->
  cstr (safestrcpy_loop m s t n) s (S n) = cstr m t n.
Proof.
  revert m s t; induction n as [|n IH]; intros m s t Hst; cbn [safestrcpy_loop].
  - cbn [cstr]. by rewrite ld8_st8_eq.
  - destruct (c_true (ld8 m t)) eqn:Et.
    + assert (Hhd : ld8 (safestrcpy_loop (st8 m s (ld8 m t)) (s + 1) (t + 1) n) s = ld8 m t).
      { rewrite safestrcpy_loop_frame, ld8_st8_eq by lia. apply u8_ld8. }
      cbn [cstr] in *. rewrite Hhd, Et. f_equal. rewrite (IH _ (s + 1) (t + 1)) by lia.
      apply cstr_ext. intros. apply ld8_st8_ne. lia.
    + cbn [cstr].
      rewrite ld8_st8_ne by lia. by rewrite ld8_st8_eq, u8_ld8, Et.
Qed.

(** Every byte of a run of nonzero bytes is an entry of the memory. *)
Lemma nonzero_run_size m s n :
  (forall i, 0 <= i < n -> ld8 m (s + i) <> 0) -> n <= Z.of_nat (size m).
Proof.
  intros H. destruct (decide (0 < n)); [|lia].
  assert (Hsub : list_to_set (seqZ s n) ⊆ dom m).
  { intros a Ha. apply elem_of_list_to_set, elem_of_seqZ in Ha.
    apply elem_of_dom. specialize (H (a - s)). replace (s + (a - s)) with a in H by lia.
    unfold ld8 in H. destruct (m !! a) eqn:E; [eauto|]. exfalso. apply H; [lia|done]. }
  apply subseteq_size in Hsub. rewrite size_list_to_set in Hsub by apply NoDup_seqZ.
  rewrite length_seqZ, size_dom in Hsub. lia.
Qed.

Lemma strlen_loop_spec m s n fuel :
  0 <= n -> (forall i, 0 <= i < n -> ld8 m (s + i) <> 0) ->
  Z.of_nat (size m) < n + Z.of_nat fuel ->
  exists k, strlen_loop m s n fuel = Some k /\ n <= k /\
    (forall i, 0 <= i < k -> ld8 m (s + i) <> 0) /\ ld8 m (s + k) = 0.
Proof.
  revert n; induction fuel as [|fuel IH]; intros n Hn Hnz Hf; cbn [strlen_loop].
  - pose proof (nonzero_run_size m s n Hnz). lia.
  - destruct (c_true (ld8 m (s + n))) eqn:E.
    + apply c_true_true in E. destruct (IH (n + 1)) as (k & -> & ? & ? & ?); [lia| |lia|].
      { intros i Hi. destruct (decide (i = n)) as [->|]; [done|]. apply Hnz. lia. }
      exists k. split; [done|]. split; [lia|done].
    + apply c_true_false in E. exists n. done.
Qed.
