(* ===== verification/Types.v ===== *)
(** * Constants, structures and global variables

    The headers of the kernel ([param.h], [memlayout.h], [mmu.h], [mmap.h],
    [spinlock.h], [proc.h], [file.h]) as Rocq constants and records, and the
    record [kernel] of all global variables, on which every operation of the
    library runs. *)

From stdpp Require Import base gmap strings list fin_maps.
From Stdlib Require Import ZArith Lia.
From S2P Require Import Prelude Mem.

(** ** [param.h], [memlayout.h], [mmu.h], [mmap.h] *)
Definition NPROC : nat := 64.
Definition KSTACKSIZE : Z := 4096.
Definition NOFILE : nat := 16.
Definition NFILE : nat := 100.

Definition EXTMEM : Z := 0x100000.
Definition PHYSTOP : Z := 0xE000000.
Definition DEVSPACE : Z := 0xFE000000.
Definition KERNBASE : Z := 0x80000000.
Definition KERNLINK : Z := KERNBASE + EXTMEM.

Definition V2P (a : Z) : Z := u32 (a - KERNBASE).
Definition P2V (a : Z) : Z := u32 (a + KERNBASE).

Definition FL_IF : Z := 0x200.
Definition SEG_KCODE : Z := 1.
Definition SEG_KDATA : Z := 2.
Definition SEG_UCODE : Z := 3.
Definition SEG_UDATA : Z := 4.
Definition SEG_TSS : Z := 5.
Definition DPL_USER : Z := 3.
Definition STA_X : Z := 8.
Definition STA_W : Z := 2.
Definition STA_R : Z := 2.
Definition STS_T32A : Z := 9.

Definition PGSIZE : Z := 4096.
Definition NPDENTRIES : Z := 1024.
Definition PTXSHIFT : Z := 12.
Definition PDXSHIFT : Z := 22.
Definition PDX (va : Z) : Z := Z.land (Z.shiftr (u32 va) PDXSHIFT) 0x3FF.
Definition PTX (va : Z) : Z := Z.land (Z.shiftr (u32 va) PTXSHIFT) 0x3FF.
Definition PGADDR (d t o : Z) : Z :=
  u32 (Z.lor (Z.lor (Z.shiftl d PDXSHIFT) (Z.shiftl t PTXSHIFT)) o).
Definition PGROUNDUP (sz : Z) : Z := Z.land (u32 (sz + PGSIZE - 1)) (Z.lnot (PGSIZE - 1)).
Definition PGROUNDDOWN (a : Z) : Z := Z.land (u32 a) (Z.lnot (PGSIZE - 1)).
Definition PTE_P : Z := 1.
Definition PTE_W : Z := 2.
Definition PTE_U : Z := 4.
Definition PTE_ADDR (pte : Z) : Z := Z.land (u32 pte) (Z.lnot 0xFFF).
Definition PTE_FLAGS (pte : Z) : Z := Z.land (u32 pte) 0xFFF.

Definition MAP_PRIVATE : Z := 1.
Definition MAP_SHARED : Z := 2.
Definition MAP_ANONYMOUS : Z := 4.
Definition MAP_FIXED : Z := 8.
Definition MAP_GROWSUP : Z := 16.
Definition MAP_ANON : Z := MAP_ANONYMOUS.
Definition VIRT_ADDR_START : Z := 0x60000000.
Definition VIRT_ADDR_END : Z := 0x80000000.
Definition PAGE_SIZE : Z := 4096.
Definition PAGE_LIMIT : nat := 32.

(** ** File system constants ([fs.h], [param.h], [stat.h], [buf.h], [fcntl.h]) *)
Definition ROOTINO : Z := 1.
Definition BSIZE : Z := 512.
Definition NDIRECT : Z := 12.
Definition NINDIRECT : Z := BSIZE / 4.
Definition MAXFILE : Z := NDIRECT + NINDIRECT.
Definition IPB : Z := BSIZE / 64.
Definition BPB : Z := BSIZE * 8.
Definition DIRSIZ : Z := 14.
Definition NINODE : nat := 50.
Definition NDEV : Z := 10.
Definition ROOTDEV : Z := 1.
Definition MAXARG : Z := 32.
Definition MAXOPBLOCKS : Z := 10.
Definition LOGSIZE : Z := MAXOPBLOCKS * 3.
Definition NBUF : nat := 30.
Definition FSSIZE : Z := 1000.
Definition B_VALID : Z := 2.
Definition B_DIRTY : Z := 4.
Definition T_DIR : Z := 1.
Definition T_FILE : Z := 2.
Definition T_DEV : Z := 3.
Definition O_RDONLY : Z := 0.
Definition O_WRONLY : Z := 1.
Definition O_RDWR : Z := 2.
Definition O_CREATE : Z := 0x200.
Definition CONSOLE : Z := 1.
Definition INPUT_BUF : Z := 128.

(** ** Addresses the linker chooses

    [data], [end] of [kernel.ld] and the entry points that [allocproc] stores
    in a new kernel stack, and the address of the task state of processor
    [i]. *)
Class Layout := {
  data : Z;
  kend : Z;
  trapret_addr : Z;
  forkret_addr : Z;
  ts_addr : nat -> Z
}.

(** What [kernel.ld] guarantees of them, for a kernel that fits in memory. *)
Class LayoutOk (L : Layout) : Prop := {
  data_aligned : data mod 4096 = 0;
  data_low : KERNLINK < data;
  data_kend : data < kend;
  kend_high : kend <= KERNBASE + PHYSTOP
}.

(** ** Locks and channels

    The address of a spinlock, and the [void *chan] on which a process
    sleeps, is the kernel object it points to. *)
Inductive lockid :=
| Lptable | Lkmem | Lftable | Licache | Lbcache | Llog | Lide | Lticks | Lcons
| Lpipe (p : Z)
| Lsleepbuf (i : nat)
| Lsleepinode (i : nat).

#[global] Instance lockid_eq_dec : EqDecision lockid.
Proof. solve_decision. Defined.

Definition lockid_code (l : lockid) : nat * Z :=
  match l with
  | Lptable => (0%nat, 0) | Lkmem => (1%nat, 0) | Lftable => (2%nat, 0)
  | Licache => (3%nat, 0) | Lbcache => (4%nat, 0) | Llog => (5%nat, 0)
  | Lide => (6%nat, 0) | Lticks => (7%nat, 0) | Lcons => (8%nat, 0)
  | Lpipe p => (9%nat, p)
  | Lsleepbuf i => (10%nat, Z.of_nat i)
  | Lsleepinode i => (11%nat, Z.of_nat i)
  end.

#[global] Instance lockid_code_inj : Inj (=) (=) lockid_code.
Proof. intros [] []; simpl; intros [=]; subst; try done; f_equal; by apply Nat2Z.inj. Qed.

Definition lockid_decode (c : nat * Z) : option lockid :=
  match c with
  | (0%nat, _) => Some Lptable | (1%nat, _) => Some Lkmem | (2%nat, _) => Some Lftable
  | (3%nat, _) => Some Licache | (4%nat, _) => Some Lbcache | (5%nat, _) => Some Llog
  | (6%nat, _) => Some Lide | (7%nat, _) => Some Lticks | (8%nat, _) => Some Lcons
  | (9%nat, p) => Some (Lpipe p)
  | (10%nat, i) => Some (Lsleepbuf (Z.to_nat i))
  | (11%nat, i) => Some (Lsleepinode (Z.to_nat i))
  | _ => None
  end.

#[global] Program Instance lockid_countable : Countable lockid :=
  inj_countable lockid_code lockid_decode _.
Next Obligation. intros []; simpl; try done; by rewrite Nat2Z.id. Qed.

Inductive chan :=
| Cproc (i : nat)
| Clog | Cticks | Ccons
| Cbuf (i : nat)
| Cpiperead (p : Z)
| Cpipewrite (p : Z)
| Csleepbuf (i : nat)
| Csleepinode (i : nat).

#[global] Instance chan_eq_dec : EqDecision chan.
Proof. solve_decision. Defined.

(** [struct spinlock]; [cpu] is the index of the holder in [cpus].  The
    debugging fields [name] and [pcs] are not kept. *)
Record spinlock := mk_spinlock { locked : Z; lk_cpu : option nat }.
Definition unlocked : spinlock := mk_spinlock 0 None.

(** ** Processors *)
Record segdesc := mk_segdesc {
  sd_lim_15_0 : Z; sd_base_15_0 : Z; sd_base_23_16 : Z; sd_type : Z; sd_s : Z;
  sd_dpl : Z; sd_p : Z; sd_lim_19_16 : Z; sd_avl : Z; sd_rsv1 : Z; sd_db : Z;
  sd_g : Z; sd_base_31_24 : Z
}.

Record taskstate := mk_taskstate { ts_ss0 : Z; ts_esp0 : Z; ts_iomb : Z }.
Definition eta_taskstate (x : taskstate) : taskstate := mk_taskstate (ts_ss0 x) (ts_esp0 x) (ts_iomb x).
#[global] Instance upd_ts_ss0 : Updater ts_ss0 := ltac:(solve_updater eta_taskstate ts_ss0).
#[global] Instance upd_ts_esp0 : Updater ts_esp0 := ltac:(solve_updater eta_taskstate ts_esp0).
#[global] Instance upd_ts_iomb : Updater ts_iomb := ltac:(solve_updater eta_taskstate ts_iomb).

(** The descriptor macros of [mmu.h]. *)
Definition SEG (type base lim dpl : Z) : segdesc :=
  mk_segdesc (Z.land (Z.shiftr lim 12) 0xffff) (Z.land (u32 base) 0xffff)
    (Z.land (Z.shiftr (u32 base) 16) 0xff) type 1 dpl 1 (Z.land (Z.shiftr (u32 lim) 28) 0xf) 0 0 1 1
    (Z.shiftr (u32 base) 24).
Definition SEG16 (type base lim dpl : Z) : segdesc :=
  mk_segdesc (Z.land lim 0xffff) (Z.land (u32 base) 0xffff)
    (Z.land (Z.shiftr (u32 base) 16) 0xff) type 1 dpl 1 (Z.land (Z.shiftr (u32 lim) 16) 0xf) 0 0 1 0
    (Z.shiftr (u32 base) 24).
Definition set_s (v : Z) (d : segdesc) : segdesc :=
  mk_segdesc (sd_lim_15_0 d) (sd_base_15_0 d) (sd_base_23_16 d) (sd_type d) v (sd_dpl d) (sd_p d)
    (sd_lim_19_16 d) (sd_avl d) (sd_rsv1 d) (sd_db d) (sd_g d) (sd_base_31_24 d).

Record cpu := mk_cpu {
  apicid : Z;
  ts : taskstate;
  gdt : gmap Z segdesc;
  started : Z;
  ncli : Z;
  intena : Z;
  cpu_proc : option nat
}.
Definition eta_cpu (c : cpu) : cpu :=
  mk_cpu (apicid c) (ts c) (gdt c) (started c) (ncli c) (intena c) (cpu_proc c).
#[global] Instance upd_apicid : Updater apicid := ltac:(solve_updater eta_cpu apicid).
#[global] Instance upd_ts : Updater ts := ltac:(solve_updater eta_cpu ts).
#[global] Instance upd_gdt : Updater gdt := ltac:(solve_updater eta_cpu gdt).
#[global] Instance upd_started : Updater started := ltac:(solve_updater eta_cpu started).
#[global] Instance upd_ncli : Updater ncli := ltac:(solve_updater eta_cpu ncli).
#[global] Instance upd_intena : Updater intena := ltac:(solve_updater eta_cpu intena).
#[global] Instance upd_cpu_proc : Updater cpu_proc := ltac:(solve_updater eta_cpu cpu_proc).

(** ** Processes, mappings and open files *)

(** [struct mmap_desc]: one page-sized piece of a mapping; [md_f] is an index
    of the file table, [None] for a null pointer. *)
Record mmap_desc := mk_mmap_desc {
  md_page : Z;
  md_length : Z;
  virtualAddress : Z;
  md_flags : Z;
  prot : Z;
  dirty : Z;
  shared : Z;
  valid : Z;
  guard_page : Z;
  hasFile : Z;
  isChildOfParent : Z;
  md_ref : Z;
  md_f : option nat;
  already_alloced : Z
}.
Definition eta_mmap_desc (x : mmap_desc) : mmap_desc :=
  mk_mmap_desc (md_page x) (md_length x) (virtualAddress x) (md_flags x) (prot x) (dirty x)
    (shared x) (valid x) (guard_page x) (hasFile x) (isChildOfParent x) (md_ref x) (md_f x)
    (already_alloced x).
#[global] Instance upd_md_page : Updater md_page := ltac:(solve_updater eta_mmap_desc md_page).
#[global] Instance upd_md_length : Updater md_length := ltac:(solve_updater eta_mmap_desc md_length).
#[global] Instance upd_virtualAddress : Updater virtualAddress := ltac:(solve_updater eta_mmap_desc virtualAddress).
#[global] Instance upd_md_flags : Updater md_flags := ltac:(solve_updater eta_mmap_desc md_flags).
#[global] Instance upd_prot : Updater prot := ltac:(solve_updater eta_mmap_desc prot).
#[global] Instance upd_dirty : Updater dirty := ltac:(solve_updater eta_mmap_desc dirty).
#[global] Instance upd_shared : Updater shared := ltac:(solve_updater eta_mmap_desc shared).
#[global] Instance upd_valid : Updater valid := ltac:(solve_updater eta_mmap_desc valid).
#[global] Instance upd_guard_page : Updater guard_page := ltac:(solve_updater eta_mmap_desc guard_page).
#[global] Instance upd_hasFile : Updater hasFile := ltac:(solve_updater eta_mmap_desc hasFile).
#[global] Instance upd_isChildOfParent : Updater isChildOfParent := ltac:(solve_updater eta_mmap_desc isChildOfParent).
#[global] Instance upd_md_ref : Updater md_ref := ltac:(solve_updater eta_mmap_desc md_ref).
#[global] Instance upd_md_f : Updater md_f := ltac:(solve_updater eta_mmap_desc md_f).
#[global] Instance upd_already_alloced : Updater already_alloced := ltac:(solve_updater eta_mmap_desc already_alloced).
Definition zero_desc : mmap_desc := mk_mmap_desc 0 0 0 0 0 0 0 0 0 0 0 0 None 0.

Inductive procstate := UNUSED | EMBRYO | SLEEPING | RUNNABLE | RUNNING | ZOMBIE.
#[global] Instance procstate_eq_dec : EqDecision procstate.
Proof. solve_decision. Defined.

(** [struct proc]; [parent], [ofile] and [cwd] are indices of the process,
    file and inode tables, [tf] and [pcontext] ([context]) addresses in the page
    [kstack], and [pname] the C string held in [name]. *)
Record proc := mk_proc {
  sz : Z;
  pgdir : Z;
  kstack : Z;
  state : procstate;
  pid : Z;
  parent : option nat;
  tf : Z;
  pcontext : Z;
  pchan : option chan;
  killed : Z;
  ofile : list (option nat);
  cwd : option nat;
  pname : list Z;
  mmaps : list mmap_desc;
  open_frames : Z
}.
Definition eta_proc (x : proc) : proc :=
  mk_proc (sz x) (pgdir x) (kstack x) (state x) (pid x) (parent x) (tf x) (pcontext x)
    (pchan x) (killed x) (ofile x) (cwd x) (pname x) (mmaps x) (open_frames x).
#[global] Instance upd_sz : Updater sz := ltac:(solve_updater eta_proc sz).
#[global] Instance upd_pgdir : Updater pgdir := ltac:(solve_updater eta_proc pgdir).
#[global] Instance upd_kstack : Updater kstack := ltac:(solve_updater eta_proc kstack).
#[global] Instance upd_state : Updater state := ltac:(solve_updater eta_proc state).
#[global] Instance upd_pid : Updater pid := ltac:(solve_updater eta_proc pid).
#[global] Instance upd_parent : Updater parent := ltac:(solve_updater eta_proc parent).
#[global] Instance upd_tf : Updater tf := ltac:(solve_updater eta_proc tf).
#[global] Instance upd_context : Updater pcontext := ltac:(solve_updater eta_proc pcontext).
#[global] Instance upd_pchan : Updater pchan := ltac:(solve_updater eta_proc pchan).
#[global] Instance upd_killed : Updater killed := ltac:(solve_updater eta_proc killed).
#[global] Instance upd_ofile : Updater ofile := ltac:(solve_updater eta_proc ofile).
#[global] Instance upd_cwd : Updater cwd := ltac:(solve_updater eta_proc cwd).
#[global] Instance upd_pname : Updater pname := ltac:(solve_updater eta_proc pname).
#[global] Instance upd_mmaps : Updater mmaps := ltac:(solve_updater eta_proc mmaps).
#[global] Instance upd_open_frames : Updater open_frames := ltac:(solve_updater eta_proc open_frames).
Definition zero_proc : proc :=
  mk_proc 0 0 0 UNUSED 0 None 0 0 None 0 (replicate NOFILE None) None []
    (replicate PAGE_LIMIT zero_desc) 0.

Inductive ftype := FD_NONE | FD_PIPE | FD_INODE.
#[global] Instance ftype_eq_dec : EqDecision ftype.
Proof. solve_decision. Defined.

Record file := mk_file {
  f_type : ftype;
  f_ref : Z;
  readable : Z;
  writable : Z;
  f_pipe : Z;
  f_ip : option nat;
  f_off : Z
}.
Definition eta_file (x : file) : file :=
  mk_file (f_type x) (f_ref x) (readable x) (writable x) (f_pipe x) (f_ip x) (f_off x).
#[global] Instance upd_f_type : Updater f_type := ltac:(solve_updater eta_file f_type).
#[global] Instance upd_f_ref : Updater f_ref := ltac:(solve_updater eta_file f_ref).
#[global] Instance upd_readable : Updater readable := ltac:(solve_updater eta_file readable).
#[global] Instance upd_writable : Updater writable := ltac:(solve_updater eta_file writable).
#[global] Instance upd_f_pipe : Updater f_pipe := ltac:(solve_updater eta_file f_pipe).
#[global] Instance upd_f_ip : Updater f_ip := ltac:(solve_updater eta_file f_ip).
#[global] Instance upd_f_off : Updater f_off := ltac:(solve_updater eta_file f_off).
Definition zero_file : file := mk_file FD_NONE 0 0 0 0 None 0.

(** [struct pipe]; the map [k_pipes] holds the pipe of a page by its address,
    its lock is [Lpipe]. *)
Record pipe := mk_pipe {
  pdata : list Z;
  nread : Z;
  nwrite : Z;
  readopen : Z;
  writeopen : Z
}.
Definition eta_pipe (x : pipe) : pipe :=
  mk_pipe (pdata x) (nread x) (nwrite x) (readopen x) (writeopen x).
#[global] Instance upd_pdata : Updater pdata := ltac:(solve_updater eta_pipe pdata).
#[global] Instance upd_nread : Updater nread := ltac:(solve_updater eta_pipe nread).
#[global] Instance upd_nwrite : Updater nwrite := ltac:(solve_updater eta_pipe nwrite).
#[global] Instance upd_readopen : Updater readopen := ltac:(solve_updater eta_pipe readopen).
#[global] Instance upd_writeopen : Updater writeopen := ltac:(solve_updater eta_pipe writeopen).

(** The physical page allocator's [kmem]. *)
Record kmem_t := mk_kmem {
  use_lock : Z;
  freelist : Z
}.
Definition eta_kmem_t (x : kmem_t) : kmem_t :=
  mk_kmem (use_lock x) (freelist x).
#[global] Instance upd_use_lock : Updater use_lock := ltac:(solve_updater eta_kmem_t use_lock).
#[global] Instance upd_freelist : Updater freelist := ltac:(solve_updater eta_kmem_t freelist).

(** ** The file system *)

(** [struct sleeplock]; the spinlock inside it is a [lockid], its name is not kept. *)
Record sleeplock := mk_sleeplock {
  sl_locked : Z;
  sl_pid : Z
}.
Definition eta_sleeplock (x : sleeplock) : sleeplock :=
  mk_sleeplock (sl_locked x) (sl_pid x).
#[global] Instance upd_sl_locked : Updater sl_locked := ltac:(solve_updater eta_sleeplock sl_locked).
#[global] Instance upd_sl_pid : Updater sl_pid := ltac:(solve_updater eta_sleeplock sl_pid).

Definition zero_sleeplock : sleeplock := mk_sleeplock 0 0.

(** [struct buf]; the order of [prev] and [next] is the list [k_lru], the queue
    through [qnext] the list [k_ideq], both of indices of [bcache.buf]. *)
Record buf := mk_buf {
  b_flags : Z;
  b_dev : Z;
  b_blockno : Z;
  b_lock : sleeplock;
  b_refcnt : Z;
  b_data : list Z
}.
Definition eta_buf (x : buf) : buf :=
  mk_buf (b_flags x) (b_dev x) (b_blockno x) (b_lock x) (b_refcnt x) (b_data x).
#[global] Instance upd_b_flags : Updater b_flags := ltac:(solve_updater eta_buf b_flags).
#[global] Instance upd_b_dev : Updater b_dev := ltac:(solve_updater eta_buf b_dev).
#[global] Instance upd_b_blockno : Updater b_blockno := ltac:(solve_updater eta_buf b_blockno).
#[global] Instance upd_b_lock : Updater b_lock := ltac:(solve_updater eta_buf b_lock).
#[global] Instance upd_b_refcnt : Updater b_refcnt := ltac:(solve_updater eta_buf b_refcnt).
#[global] Instance upd_b_data : Updater b_data := ltac:(solve_updater eta_buf b_data).

Definition zero_buf : buf := mk_buf 0 0 0 zero_sleeplock 0 (replicate (Z.to_nat BSIZE) 0).

(** [struct inode] *)
Record inode := mk_inode {
  i_dev : Z;
  i_inum : Z;
  i_ref : Z;
  i_lock : sleeplock;
  i_valid : Z;
  i_type : Z;
  i_major : Z;
  i_minor : Z;
  i_nlink : Z;
  i_size : Z;
  i_addrs : list Z
}.
Definition eta_inode (x : inode) : inode :=
  mk_inode (i_dev x) (i_inum x) (i_ref x) (i_lock x) (i_valid x) (i_type x) (i_major x) (i_minor x) (i_nlink x) (i_size x) (i_addrs x).
#[global] Instance upd_i_dev : Updater i_dev := ltac:(solve_updater eta_inode i_dev).
#[global] Instance upd_i_inum : Updater i_inum := ltac:(solve_updater eta_inode i_inum).
#[global] Instance upd_i_ref : Updater i_ref := ltac:(solve_updater eta_inode i_ref).
#[global] Instance upd_i_lock : Updater i_lock := ltac:(solve_updater eta_inode i_lock).
#[global] Instance upd_i_valid : Updater i_valid := ltac:(solve_updater eta_inode i_valid).
#[global] Instance upd_i_type : Updater i_type := ltac:(solve_updater eta_inode i_type).
#[global] Instance upd_i_major : Updater i_major := ltac:(solve_updater eta_inode i_major).
#[global] Instance upd_i_minor : Updater i_minor := ltac:(solve_updater eta_inode i_minor).
#[global] Instance upd_i_nlink : Updater i_nlink := ltac:(solve_updater eta_inode i_nlink).
#[global] Instance upd_i_size : Updater i_size := ltac:(solve_updater eta_inode i_size).
#[global] Instance upd_i_addrs : Updater i_addrs := ltac:(solve_updater eta_inode i_addrs).

Definition zero_inode : inode :=
  mk_inode 0 0 0 zero_sleeplock 0 0 0 0 0 0 (replicate 13 0).

(** [struct superblock] *)
Record superblock := mk_superblock {
  sb_size : Z;
  sb_nblocks : Z;
  sb_ninodes : Z;
  sb_nlog : Z;
  sb_logstart : Z;
  sb_inodestart : Z;
  sb_bmapstart : Z
}.
Definition eta_superblock (x : superblock) : superblock :=
  mk_superblock (sb_size x) (sb_nblocks x) (sb_ninodes x) (sb_nlog x) (sb_logstart x) (sb_inodestart x) (sb_bmapstart x).
#[global] Instance upd_sb_size : Updater sb_size := ltac:(solve_updater eta_superblock sb_size).
#[global] Instance upd_sb_nblocks : Updater sb_nblocks := ltac:(solve_updater eta_superblock sb_nblocks).
#[global] Instance upd_sb_ninodes : Updater sb_ninodes := ltac:(solve_updater eta_superblock sb_ninodes).
#[global] Instance upd_sb_nlog : Updater sb_nlog := ltac:(solve_updater eta_superblock sb_nlog).
#[global] Instance upd_sb_logstart : Updater sb_logstart := ltac:(solve_updater eta_superblock sb_logstart).
#[global] Instance upd_sb_inodestart : Updater sb_inodestart := ltac:(solve_updater eta_superblock sb_inodestart).
#[global] Instance upd_sb_bmapstart : Updater sb_bmapstart := ltac:(solve_updater eta_superblock sb_bmapstart).

Definition zero_sb : superblock := mk_superblock 0 0 0 0 0 0 0.

(** [struct log], with the fields of its [struct logheader] *)
Record log_t := mk_log {
  lg_start : Z;
  lg_size : Z;
  lg_outstanding : Z;
  lg_committing : Z;
  lg_dev : Z;
  lg_n : Z;
  lg_block : list Z
}.
Definition eta_log_t (x : log_t) : log_t :=
  mk_log (lg_start x) (lg_size x) (lg_outstanding x) (lg_committing x) (lg_dev x) (lg_n x) (lg_block x).
#[global] Instance upd_lg_start : Updater lg_start := ltac:(solve_updater eta_log_t lg_start).
#[global] Instance upd_lg_size : Updater lg_size := ltac:(solve_updater eta_log_t lg_size).
#[global] Instance upd_lg_outstanding : Updater lg_outstanding := ltac:(solve_updater eta_log_t lg_outstanding).
#[global] Instance upd_lg_committing : Updater lg_committing := ltac:(solve_updater eta_log_t lg_committing).
#[global] Instance upd_lg_dev : Updater lg_dev := ltac:(solve_updater eta_log_t lg_dev).
#[global] Instance upd_lg_n : Updater lg_n := ltac:(solve_updater eta_log_t lg_n).
#[global] Instance upd_lg_block : Updater lg_block := ltac:(solve_updater eta_log_t lg_block).

Definition zero_log : log_t := mk_log 0 0 0 0 0 0 (replicate (Z.to_nat LOGSIZE) 0).

(** The functions registered in [devsw[i]]: those of the console. *)
Inductive devkind := DevConsole.

(** [struct gatedesc] of [mmu.h] and its macro. *)
Record gatedesc := mk_gate {
  gd_off_15_0 : Z; gd_cs : Z; gd_args : Z; gd_rsv1 : Z; gd_type : Z; gd_s : Z; gd_dpl : Z;
  gd_p : Z; gd_off_31_16 : Z
}.
Definition STS_IG32 : Z := 0xE.
Definition STS_TG32 : Z := 0xF.
Definition SETGATE (istrap sel off d : Z) : gatedesc :=
  mk_gate (Z.land (u32 off) 0xffff) sel 0 0 (if c_true istrap then STS_TG32 else STS_IG32) 0 d 1
    (Z.shiftr (u32 off) 16).

(** The line buffer [input] of [console.c] *)
Record input_t := mk_input {
  in_buf : list Z;
  in_r : Z;
  in_w : Z;
  in_e : Z
}.
Definition eta_input_t (x : input_t) : input_t :=
  mk_input (in_buf x) (in_r x) (in_w x) (in_e x).
#[global] Instance upd_in_buf : Updater in_buf := ltac:(solve_updater eta_input_t in_buf).
#[global] Instance upd_in_r : Updater in_r := ltac:(solve_updater eta_input_t in_r).
#[global] Instance upd_in_w : Updater in_w := ltac:(solve_updater eta_input_t in_w).
#[global] Instance upd_in_e : Updater in_e := ltac:(solve_updater eta_input_t in_e).

Definition zero_input : input_t := mk_input (replicate (Z.to_nat INPUT_BUF) 0) 0 0 0.

(** The devices, as far as the kernel keeps or changes their state: [hw_shift] is
    the static variable of [kbdgetc], [hw_scan] and [hw_rx] the bytes that wait in
    the keyboard controller and in the serial port; [hw_lapic] is the variable
    [lapic], [hw_lsent] what was written to the local APIC (register and value, the
    latest last); [hw_ioapic] holds the registers of the I/O APIC and
    [hw_ioapicid] the variable of [mp.c]. *)
Record devices := mk_devices {
  hw_shift : Z;
  hw_scan : list Z;
  hw_rx : list Z;
  hw_lapic : Z;
  hw_lsent : list (Z * Z);
  hw_ioapic : gmap Z Z;
  hw_ioapicid : Z
}.
Definition eta_devices (x : devices) : devices :=
  mk_devices (hw_shift x) (hw_scan x) (hw_rx x) (hw_lapic x) (hw_lsent x) (hw_ioapic x) (hw_ioapicid x).
#[global] Instance upd_hw_shift : Updater hw_shift := ltac:(solve_updater eta_devices hw_shift).
#[global] Instance upd_hw_scan : Updater hw_scan := ltac:(solve_updater eta_devices hw_scan).
#[global] Instance upd_hw_rx : Updater hw_rx := ltac:(solve_updater eta_devices hw_rx).
#[global] Instance upd_hw_lapic : Updater hw_lapic := ltac:(solve_updater eta_devices hw_lapic).
#[global] Instance upd_hw_lsent : Updater hw_lsent := ltac:(solve_updater eta_devices hw_lsent).
#[global] Instance upd_hw_ioapic : Updater hw_ioapic := ltac:(solve_updater eta_devices hw_ioapic).
#[global] Instance upd_hw_ioapicid : Updater hw_ioapicid := ltac:(solve_updater eta_devices hw_ioapicid).

Definition zero_devices : devices := mk_devices 0 [] [] 0xFEE00000 [] ∅ 0.

(** ** All global variables

    [k_if] is the interrupt flag, [k_apicid] the local APIC identifier,
    [k_cr3] and [k_tr] the page table and task registers of the processor
    that runs the code; [k_console] the messages [cprintf] printed; [k_disk] the
    blocks of the disk and [k_dwrites] the history of writes to it (the latest
    last), which tells what a crash may leave on the disk; [k_first] the static
    variable of [forkret]; [k_disksize] the number of blocks of the disk;
    [k_devsw] the device table; [k_cr2] the address of the last page fault;
    [k_idt] the interrupt descriptors; [k_conslocking], [k_panicked] the variables
    [cons.locking] and [panicked] of [console.c]; [k_crtpos] the cursor register
    of the screen, [k_uart] whether there is a serial port and [k_serial] what
    was sent on it; [k_ports] the byte last written to each I/O port;
    [k_hw] the other devices. *)
Record kernel := mk_kernel {
  k_if : bool;
  k_apicid : Z;
  k_cr3 : Z;
  k_tr : Z;
  k_cpus : list cpu;
  k_ncpu : Z;
  k_locks : gmap lockid spinlock;
  k_mem : mem;
  k_kmem : kmem_t;
  k_kpgdir : Z;
  k_ptable : list proc;
  k_initproc : option nat;
  k_nextpid : Z;
  k_ticks : Z;
  k_ftable : list file;
  k_pipes : gmap Z pipe;
  k_va_ptr : Z;
  k_console : list string;
  k_bufs : list buf;
  k_lru : list nat;
  k_ideq : list nat;
  k_havedisk1 : Z;
  k_disk : gmap Z (list Z);
  k_dwrites : list (Z * list Z);
  k_icache : list inode;
  k_sb : superblock;
  k_log : log_t;
  k_input : input_t;
  k_first : Z;
  k_disksize : Z;
  k_devsw : gmap Z devkind;
  k_cr2 : Z;
  k_idt : gmap Z gatedesc;
  k_conslocking : Z;
  k_panicked : Z;
  k_crtpos : Z;
  k_uart : Z;
  k_serial : list Z;
  k_ports : gmap Z Z;
  k_hw : devices
}.
Definition eta_kernel (x : kernel) : kernel :=
  mk_kernel (k_if x) (k_apicid x) (k_cr3 x) (k_tr x) (k_cpus x) (k_ncpu x) (k_locks x)
    (k_mem x) (k_kmem x) (k_kpgdir x) (k_ptable x) (k_initproc x) (k_nextpid x) (k_ticks x)
    (k_ftable x) (k_pipes x) (k_va_ptr x) (k_console x) (k_bufs x) (k_lru x) (k_ideq x)
    (k_havedisk1 x) (k_disk x) (k_dwrites x) (k_icache x) (k_sb x) (k_log x) (k_input x) (k_first x)
    (k_disksize x) (k_devsw x) (k_cr2 x) (k_idt x) (k_conslocking x) (k_panicked x) (k_crtpos x) (k_uart x) (k_serial x)
    (k_ports x) (k_hw x).
#[global] Instance upd_k_if : Updater k_if := ltac:(solve_updater eta_kernel k_if).
#[global] Instance upd_k_apicid : Updater k_apicid := ltac:(solve_updater eta_kernel k_apicid).
#[global] Instance upd_k_cr3 : Updater k_cr3 := ltac:(solve_updater eta_kernel k_cr3).
#[global] Instance upd_k_tr : Updater k_tr := ltac:(solve_updater eta_kernel k_tr).
#[global] Instance upd_k_cpus : Updater k_cpus := ltac:(solve_updater eta_kernel k_cpus).
#[global] Instance upd_k_ncpu : Updater k_ncpu := ltac:(solve_updater eta_kernel k_ncpu).
#[global] Instance upd_k_locks : Updater k_locks := ltac:(solve_updater eta_kernel k_locks).
#[global] Instance upd_k_mem : Updater k_mem := ltac:(solve_updater eta_kernel k_mem).
#[global] Instance upd_k_kmem : Updater k_kmem := ltac:(solve_updater eta_kernel k_kmem).
#[global] Instance upd_k_kpgdir : Updater k_kpgdir := ltac:(solve_updater eta_kernel k_kpgdir).
#[global] Instance upd_k_ptable : Updater k_ptable := ltac:(solve_updater eta_kernel k_ptable).
#[global] Instance upd_k_initproc : Updater k_initproc := ltac:(solve_updater eta_kernel k_initproc).
#[global] Instance upd_k_nextpid : Updater k_nextpid := ltac:(solve_updater eta_kernel k_nextpid).
#[global] Instance upd_k_ticks : Updater k_ticks := ltac:(solve_updater eta_kernel k_ticks).
#[global] Instance upd_k_ftable : Updater k_ftable := ltac:(solve_updater eta_kernel k_ftable).
#[global] Instance upd_k_pipes : Updater k_pipes := ltac:(solve_updater eta_kernel k_pipes).
#[global] Instance upd_k_va_ptr : Updater k_va_ptr := ltac:(solve_updater eta_kernel k_va_ptr).
#[global] Instance upd_k_console : Updater k_console := ltac:(solve_updater eta_kernel k_console).
#[global] Instance upd_k_bufs : Updater k_bufs := ltac:(solve_updater eta_kernel k_bufs).
#[global] Instance upd_k_lru : Updater k_lru := ltac:(solve_updater eta_kernel k_lru).
#[global] Instance upd_k_ideq : Updater k_ideq := ltac:(solve_updater eta_kernel k_ideq).
#[global] Instance upd_k_havedisk1 : Updater k_havedisk1 := ltac:(solve_updater eta_kernel k_havedisk1).
#[global] Instance upd_k_disk : Updater k_disk := ltac:(solve_updater eta_kernel k_disk).
#[global] Instance upd_k_dwrites : Updater k_dwrites := ltac:(solve_updater eta_kernel k_dwrites).
#[global] Instance upd_k_icache : Updater k_icache := ltac:(solve_updater eta_kernel k_icache).
#[global] Instance upd_k_sb : Updater k_sb := ltac:(solve_updater eta_kernel k_sb).
#[global] Instance upd_k_log : Updater k_log := ltac:(solve_updater eta_kernel k_log).
#[global] Instance upd_k_input : Updater k_input := ltac:(solve_updater eta_kernel k_input).
#[global] Instance upd_k_first : Updater k_first := ltac:(solve_updater eta_kernel k_first).
#[global] Instance upd_k_disksize : Updater k_disksize := ltac:(solve_updater eta_kernel k_disksize).
#[global] Instance upd_k_devsw : Updater k_devsw := ltac:(solve_updater eta_kernel k_devsw).
#[global] Instance upd_k_cr2 : Updater k_cr2 := ltac:(solve_updater eta_kernel k_cr2).
#[global] Instance upd_k_idt : Updater k_idt := ltac:(solve_updater eta_kernel k_idt).
#[global] Instance upd_k_conslocking : Updater k_conslocking := ltac:(solve_updater eta_kernel k_conslocking).
#[global] Instance upd_k_panicked : Updater k_panicked := ltac:(solve_updater eta_kernel k_panicked).
#[global] Instance upd_k_crtpos : Updater k_crtpos := ltac:(solve_updater eta_kernel k_crtpos).
#[global] Instance upd_k_uart : Updater k_uart := ltac:(solve_updater eta_kernel k_uart).
#[global] Instance upd_k_serial : Updater k_serial := ltac:(solve_updater eta_kernel k_serial).
#[global] Instance upd_k_ports : Updater k_ports := ltac:(solve_updater eta_kernel k_ports).
#[global] Instance upd_k_hw : Updater k_hw := ltac:(solve_updater eta_kernel k_hw).

Abbreviation KM := (K kernel).

Definition cprintf (msg : string) : KM unit := kmod (fun s => s <| k_console ::= fun l => l ++ [msg] |>).

Definition mem_read (a : Z) : KM Z := kget (fun s => ld32 (k_mem s) a).
Definition mem_write (a v : Z) : KM unit := kmod (fun s => s <| k_mem ::= fun m => st32 m a v |>).
Definition k_memset (a c n : Z) : KM unit := kmod (fun s => s <| k_mem ::= fun m => memset m a c n |>).
Definition k_memmove (d a n : Z) : KM unit := kmod (fun s => s <| k_mem ::= fun m => memmove m d a n |>).

(** Access to the process table; an index stands for a [struct proc *]. *)
Definition get_proc (i : nat) : KM proc := fun s =>
  match k_ptable s !! i with
  | Some p => Ret p s
  | None => Undef "ptable index" s
  end.
Definition set_proc (i : nat) (f : proc -> proc) : KM unit :=
  kmod (fun s => s <| k_ptable ::= alter f i |>).

(** A pointer that the code dereferences without a test. *)
Definition deref {A : Type} (o : option A) : KM A :=
  match o with
  | Some a => kret a
  | None => kundef "null pointer"
  end.

(** A kernel image of 100 KB, for concrete runs. *)
#[export] Instance demo_layout : Layout :=
  {| data := 0x8010a000; kend := 0x80119000; trapret_addr := 0x80106a00; forkret_addr := 0x80103a00;
     ts_addr := fun i => 0x80113000 + 176 * Z.of_nat i |}.
#[export] Instance demo_layout_ok : LayoutOk demo_layout.
Proof. split; cbv; (discriminate || reflexivity). Qed.

(** ** Page arithmetic *)

Lemma pgrounddown_eq a : 0 <= a < 4294967296 -> PGROUNDDOWN a = a / 4096 * 4096.
Proof.
  intros Ha. unfold PGROUNDDOWN, PGSIZE. rewrite u32_id by done.
  change (4096 - 1) with (2 ^ 12 - 1). by rewrite land_lnot_ones.
Qed.

Lemma pgroundup_eq a : 0 <= a <= 4294963200 -> PGROUNDUP a = (a + 4095) / 4096 * 4096.
Proof.
  intros Ha. unfold PGROUNDUP, PGSIZE. rewrite u32_id by lia.
  replace (a + 4096 - 1) with (a + 4095) by lia.
  change (4096 - 1) with (2 ^ 12 - 1). by rewrite land_lnot_ones.
Qed.
