(* ===== verification/Spinlock.v ===== *)
(** * Interrupts, processors and spinlocks

    [spinlock.c] and the processor lookup of [proc.c] ([mycpu], [cpuid],
    [myproc]).  A spinlock is held by one processor; taking it disables
    interrupts until the last lock is released.  The theorems show that a
    critical section leaves the processor as it found it and which misuse
    panics. *)

From stdpp Require Import base gmap strings list fin_maps.
From Stdlib Require Import ZArith Lia.
From S2P Require Import Prelude Mem Types.

(** ** The processor *)
Definition readeflags : KM Z := kget (fun s => if k_if s then FL_IF else 0).
Definition cli : KM unit := kmod (fun s => s <| k_if := false |>).
Definition sti : KM unit := kmod (fun s => s <| k_if := true |>).
Definition lapicid : KM Z := kget k_apicid.

Definition get_cpu (i : nat) : KM cpu := fun s =>
  match k_cpus s !! i with
  | Some c => Ret c s
  | None => Undef "cpus index" s
  end.
Definition set_cpu (i : nat) (f : cpu -> cpu) : KM unit :=
  kmod (fun s => s <| k_cpus ::= alter f i |>).

(** [mycpu] returns the index of the processor in [cpus]. *)
Definition mycpu : KM nat :=
  f <- readeflags ;;
  if c_true (Z.land f FL_IF) then kpanic "mycpu called with interrupts enabled" else
  id <- lapicid ;;
  n <- kget k_ncpu ;;
  r <- kfor (seq 0 (Z.to_nat n)) (fun i =>
         c <- get_cpu i ;;
         kret (if apicid c =? id then Some i else None)) ;;
  match r with
  | Some i => kret i
  | None => kpanic "unknown apicid"
  end.

Definition cpuid : KM Z := i <- mycpu ;; kret (Z.of_nat i).

(** ** Nested interrupt disabling *)
Definition pushcli : KM unit :=
  eflags <- readeflags ;;
  cli ;;;
  i <- mycpu ;;
  c <- get_cpu i ;;
  (when ncli c =? 0 do
     (i <- mycpu ;; set_cpu i (fun c => c <| intena := Z.land eflags FL_IF |>))) ;;;
  i <- mycpu ;;
  set_cpu i (fun c => c <| ncli ::= fun n => n + 1 |>).

Definition popcli : KM unit :=
  f <- readeflags ;;
  if c_true (Z.land f FL_IF) then kpanic "popcli - interruptible" else
  i <- mycpu ;;
  set_cpu i (fun c => c <| ncli ::= fun n => n - 1 |>) ;;;
  c <- get_cpu i ;;
  if ncli c <? 0 then kpanic "popcli" else
  i <- mycpu ;;
  c <- get_cpu i ;;
  when (ncli c =? 0) && c_true (intena c) do sti.

Definition myproc : KM (option nat) :=
  pushcli ;;;
  i <- mycpu ;;
  c <- get_cpu i ;;
  popcli ;;;
  kret (cpu_proc c).

(** ** Spinlocks *)
Definition get_lock (l : lockid) : KM spinlock :=
  kget (fun s => default unlocked (k_locks s !! l)).
Definition set_lock (l : lockid) (v : spinlock) : KM unit :=
  kmod (fun s => s <| k_locks ::= insert l v |>).

Definition initlock (l : lockid) : KM unit := set_lock l unlocked.

Definition holding (l : lockid) : KM bool :=
  pushcli ;;;
  lk <- get_lock l ;;
  r <- (if c_true (locked lk)
        then (i <- mycpu ;; kret (bool_decide (lk_cpu lk = Some i)))
        else kret false) ;;
  popcli ;;;
  kret r.

(** [xchg] stores 1 and returns the old value; a lock that is held by another
    processor keeps this one in the loop. *)
Definition acquire (l : lockid) : KM unit :=
  pushcli ;;;
  h <- holding l ;;
  if h then kpanic "acquire" else
  lk <- get_lock l ;;
  set_lock l (mk_spinlock 1 (lk_cpu lk)) ;;;
  if c_true (locked lk) then Spin else
  i <- mycpu ;;
  set_lock l (mk_spinlock 1 (Some i)).

Definition release (l : lockid) : KM unit :=
  h <- holding l ;;
  if negb h then kpanic "release" else
  lk <- get_lock l ;;
  set_lock l (mk_spinlock (locked lk) None) ;;;
  set_lock l (mk_spinlock 0 None) ;;;
  popcli.

(** ** The current processor *)

(** The processor the code runs on is [cpus[i]], which is [c]. *)
Definition on_cpu (s : kernel) (i : nat) (c : cpu) : Prop :=
  (Z.of_nat i < k_ncpu s) /\ k_cpus s !! i = Some c /\ apicid c = k_apicid s /\
  (forall j (d : cpu), (j < i)%nat -> k_cpus s !! j = Some d -> apicid d <> k_apicid s).

(** Interrupts are off while a lock is held. *)
Definition quiet (s : kernel) (i : nat) (c : cpu) : Prop :=
  on_cpu s i c /\ 0 <= ncli c /\ (k_if s = true -> ncli c = 0).

Definition free (s : kernel) (l : lockid) : Prop := k_locks s !! l = Some unlocked.

(** What [pushcli] and [popcli] do to the processor's record. *)
Definition if_flag (b : bool) : Z := if b then FL_IF else 0.
Definition pushc (b : bool) (c : cpu) : cpu :=
  (if ncli c =? 0 then c <| intena := if_flag b |> else c) <| ncli ::= fun n => n + 1 |>.
Definition popc (c : cpu) : cpu := c <| ncli ::= fun n => n - 1 |>.

Definition push (i : nat) (s : kernel) : kernel :=
  s <| k_if := false |> <| k_cpus ::= alter (pushc (k_if s)) i |>.
Definition pop_if (c : cpu) (b : bool) : bool :=
  if (ncli c =? 1) && c_true (intena c) then true else b.

Lemma if_flag_land (b : bool) : Z.land (if b then FL_IF else 0) FL_IF = if_flag b.
Proof. by destruct b. Qed.

Lemma mycpu_scan s i c j n :
  k_cpus s !! (j + i)%nat = Some c -> apicid c = k_apicid s -> (i < n)%nat ->
  (forall k (d : cpu), (j <= k < j + i)%nat -> k_cpus s !! k = Some d -> apicid d <> k_apicid s) ->
  kfor (seq j n) (fun i0 =>
     c0 <- get_cpu i0 ;;
     kret (if apicid c0 =? k_apicid s then Some i0 else None)) s = Ret (Some (j + i)%nat) s.
Proof.
  revert i j; induction n as [|n IH]; intros i j Hc Hid Hi Hno; [lia|].
  cbn [seq kfor]. unfold kbind at 1, get_cpu at 1, kbind at 1.
  destruct (k_cpus s !! j) as [d|] eqn:Hd.
  - cbn. destruct (Z.eqb_spec (apicid d) (k_apicid s)) as [E|E].
    + cbn. assert (i = O) as ->; [|by replace (j + 0)%nat with j by lia].
      destruct i; [done|]. exfalso. apply (Hno j d); [lia|done|done].
    + cbn. destruct i as [|i].
      { replace (j + 0)%nat with j in Hc by lia. congruence. }
      replace (j + S i)%nat with (S j + i)%nat in * by lia.
      apply IH; [done|done|lia|]. intros k d' Hk. apply Hno. lia.
  - exfalso. apply lookup_ge_None in Hd. apply lookup_lt_Some in Hc. lia.
Qed.

Lemma mycpu_run s i c : on_cpu s i c -> k_if s = false -> mycpu s = Ret i s.
Proof.
  intros (Hi & Hc & Hid & Hno) Hif.
  unfold mycpu, readeflags, lapicid, kbind, kget. rewrite Hif. cbn [obind].
  change (c_true (Z.land 0 FL_IF)) with false. cbn [obind].
  pose proof (mycpu_scan s i c 0 (Z.to_nat (k_ncpu s))) as Hscan.
  unfold kbind in Hscan. cbn [Nat.add] in Hscan.
  rewrite Hscan; [done|done|done|lia|]. intros k d Hk. apply Hno. lia.
Qed.

Lemma mycpu_panics s : k_if s = true -> mycpu s = Panic "mycpu called with interrupts enabled" s.
Proof. intros H. unfold mycpu, readeflags, kbind, kget. by rewrite H. Qed.

Lemma on_cpu_alter s i c f b :
  on_cpu s i c -> apicid (f c) = apicid c ->
  on_cpu (s <| k_if := b |> <| k_cpus ::= alter f i |>) i (f c).
Proof.
  intros (Hi & Hc & Hid & Hno) Hf. split; [done|]. cbn. split; [|split].
  - by rewrite list_lookup_alter_eq, Hc.
  - by rewrite Hf.
  - intros j d Hj. rewrite list_lookup_alter_ne by lia. by apply Hno.
Qed.

Lemma on_cpu_locks s i c f : on_cpu s i c -> on_cpu (s <| k_locks ::= f |>) i c.
Proof. done. Qed.

Lemma list_alter_id_at {A} (f : A -> A) (l : list A) i x :
  l !! i = Some x -> f x = x -> alter f i l = l.
Proof.
  intros Hx Hf. rewrite (list_alter_ext f id l l i); [by apply list_alter_id| |done].
  intros y Hy. by simplify_eq.
Qed.

(** Run the first statement of a sequence by the equation [lem]. *)
Ltac krun lem := unfold kbind at 1; cbv iota; rewrite lem; cbn [obind].

Lemma get_cpu_run s i c : on_cpu s i c -> get_cpu i s = Ret c s.
Proof. intros (_ & Hc & _). unfold get_cpu. by rewrite Hc. Qed.

Lemma set_cpus_ext (s : kernel) f g h :
  g (f (k_cpus s)) = h (k_cpus s) ->
  s <| k_cpus ::= f |> <| k_cpus ::= g |> = s <| k_cpus ::= h |>.
Proof. intros H. unfold update, upd_k_cpus. cbn. by rewrite H. Qed.

Lemma pushcli_run s i c : on_cpu s i c -> pushcli s = Ret tt (push i s).
Proof.
  intros Hon. unfold pushcli, readeflags, cli, kbind at 1 2, kget, kmod. cbn [obind].
  assert (Hon1 : on_cpu (s <| k_if := false |>) i c) by done.
  krun (mycpu_run _ _ _ Hon1 eq_refl). krun (get_cpu_run _ _ _ Hon1).
  unfold push, pushc. pose proof (proj1 (proj2 Hon)) as Hc. destruct (ncli c =? 0) eqn:E.
  - unfold kbind at 1. krun (mycpu_run _ _ _ Hon1 eq_refl). unfold set_cpu at 1, kmod at 1. cbn [obind].
    rewrite if_flag_land. set (f := fun c0 : cpu => c0 <| intena := if_flag (k_if s) |>).
    pose proof (on_cpu_alter _ _ _ f false Hon eq_refl) as Hon2. krun (mycpu_run _ _ _ Hon2 eq_refl).
    unfold set_cpu, kmod. f_equal. apply set_cpus_ext. subst f. simpl k_cpus.
    rewrite list_alter_alter_eq. apply list_alter_ext; [|done]. intros x Hx. simplify_eq/=. by rewrite E.
  - unfold kbind at 1. cbn [obind kret]. krun (mycpu_run _ _ _ Hon1 eq_refl).
    unfold set_cpu, kmod. f_equal. apply (set_cpus_ext (s <| k_if := false |>) id).
    apply list_alter_ext; [|done]. intros x Hx. simplify_eq/=. by rewrite E.
Qed.

Definition pop (i : nat) (c : cpu) (s : kernel) : kernel :=
  s <| k_cpus ::= alter popc i |> <| k_if := pop_if c (k_if s) |>.

Lemma popcli_run s i c :
  on_cpu s i c -> k_if s = false -> 1 <= ncli c -> popcli s = Ret tt (pop i c s).
Proof.
  intros Hon Hif Hn. unfold popcli, readeflags, kbind at 1, kget. rewrite Hif. cbn [obind].
  change (c_true (Z.land 0 FL_IF)) with false. cbv iota.
  krun (mycpu_run _ _ _ Hon Hif). unfold set_cpu, kbind at 1, kmod at 1. cbn [obind].
  fold popc.
  assert (Hon2 : on_cpu (s <| k_cpus ::= alter popc i |>) i (popc c)).
  { pose proof (on_cpu_alter _ _ _ popc (k_if s) Hon eq_refl) as H. by destruct s. }
  change (fun c : cpu => c <| ncli ::= fun n => n - 1 |>) with popc.
  krun (get_cpu_run _ _ _ Hon2). cbn [popc update upd_ncli ncli].
  destruct (Z.ltb_spec (ncli c - 1) 0); [lia|].
  krun (mycpu_run _ _ _ Hon2 Hif). krun (get_cpu_run _ _ _ Hon2).
  unfold pop, pop_if. cbn [popc update upd_ncli ncli intena].
  replace (ncli c - 1 =? 0) with (ncli c =? 1) by (destruct (Z.eqb_spec (ncli c) 1), (Z.eqb_spec (ncli c - 1) 0); lia).
  destruct (_ && _); [done|]. unfold kret. by destruct s.
Qed.

(** ** Lock operations as equations *)

Definition held (s : kernel) (l : lockid) (i : nat) : bool :=
  let lk := default unlocked (k_locks s !! l) in
  c_true (locked lk) && bool_decide (lk_cpu lk = Some i).

Lemma on_cpu_push s i c : on_cpu s i c -> on_cpu (push i s) i (pushc (k_if s) c).
Proof.
  intros H. apply (on_cpu_alter _ _ _ (pushc (k_if s)) false H).
  unfold pushc. by destruct (ncli c =? 0).
Qed.

Lemma ncli_pushc b c : ncli (pushc b c) = ncli c + 1.
Proof. unfold pushc. by destruct (ncli c =? 0). Qed.

Lemma popc_pushc b c : ncli c <> 0 -> popc (pushc b c) = c.
Proof.
  intros H. unfold popc, pushc. destruct (Z.eqb_spec (ncli c) 0); [done|].
  destruct c; unfold update, upd_ncli; cbn. f_equal. lia.
Qed.

Lemma pop_push_nested s i c :
  k_cpus s !! i = Some c -> k_if s = false -> 1 <= ncli c ->
  pop i (pushc (k_if s) c) (push i s) = s.
Proof.
  intros Hc Hif Hn. unfold pop, pop_if. rewrite ncli_pushc.
  destruct (Z.eqb_spec (ncli c + 1) 1); [lia|]. unfold push. rewrite Hif.
  change (k_if _) with false.
  rewrite (set_cpus_ext _ _ _ id).
  - destruct s; cbn in *. by subst.
  - cbn [k_cpus update upd_k_if]. rewrite list_alter_alter_eq.
    apply (list_alter_id_at _ _ _ c); [done|]. apply popc_pushc. lia.
Qed.

Lemma holding_run s i c l :
  on_cpu s i c -> k_if s = false -> 1 <= ncli c -> holding l s = Ret (held s l i) s.
Proof.
  intros Hon Hif Hn. unfold holding. krun (pushcli_run _ _ _ Hon).
  pose proof (on_cpu_push _ _ _ Hon) as Hon'.
  unfold get_lock, kget, kbind at 1. cbn [obind].
  change (k_locks (push i s)) with (k_locks s).
  unfold held. set (lk := default unlocked (k_locks s !! l)).
  assert (Hpop : popcli (push i s) = Ret tt s).
  { rewrite (popcli_run _ _ _ Hon') by (done || rewrite ncli_pushc; lia).
    rewrite pop_push_nested; [done|apply Hon|done|done]. }
  destruct (c_true (locked lk)); cbn [andb].
  - unfold kbind at 1 2. rewrite (mycpu_run _ _ _ Hon' eq_refl). cbn [obind kret].
    by krun Hpop.
  - unfold kbind at 1. cbn [obind kret]. by krun Hpop.
Qed.

Lemma held_free s l i : free s l -> held s l i = false.
Proof. unfold held. by intros ->. Qed.

Definition acq (i : nat) (l : lockid) (s : kernel) : kernel :=
  (push i s) <| k_locks ::= insert l (mk_spinlock 1 (Some i)) |>.
Definition rel (i : nat) (c : cpu) (l : lockid) (s : kernel) : kernel :=
  pop i c (s <| k_locks ::= insert l unlocked |>).

Lemma set_lock_set_lock l a b (s : kernel) :
  s <| k_locks ::= insert l a |> <| k_locks ::= insert l b |> = s <| k_locks ::= insert l b |>.
Proof. unfold update, upd_k_locks. cbn. by rewrite insert_insert_eq. Qed.

Lemma acquire_run s i c l :
  quiet s i c -> free s l -> acquire l s = Ret tt (acq i l s).
Proof.
  intros (Hon & Hn & _) Hfree. unfold acquire. krun (pushcli_run _ _ _ Hon).
  pose proof (on_cpu_push _ _ _ Hon) as Hon'.
  krun (holding_run _ _ _ l Hon' eq_refl ltac:(rewrite ncli_pushc; lia)).
  change (held (push i s) l i) with (held s l i). rewrite held_free by done. cbv iota.
  assert (Hget : get_lock l (push i s) = Ret unlocked (push i s)).
  { unfold get_lock, kget. change (k_locks (push i s)) with (k_locks s). by rewrite Hfree. }
  krun Hget.
  unfold set_lock, kmod, kbind at 1. cbn [obind].
  change (c_true (locked unlocked)) with false. cbv iota.
  set (s2 := (push i s) <| k_locks ::= insert l (mk_spinlock 1 (lk_cpu unlocked)) |>).
  assert (Hon2 : on_cpu s2 i (pushc (k_if s) c)) by done.
  krun (mycpu_run _ _ _ Hon2 eq_refl). unfold s2. by rewrite set_lock_set_lock.
Qed.

Lemma acquire_held s i c l :
  on_cpu s i c -> 0 <= ncli c -> held s l i = true -> acquire l s = Panic "acquire" (push i s).
Proof.
  intros Hon Hn Hh. unfold acquire. krun (pushcli_run _ _ _ Hon).
  pose proof (on_cpu_push _ _ _ Hon) as Hon'.
  krun (holding_run _ _ _ l Hon' eq_refl ltac:(rewrite ncli_pushc; lia)).
  change (held (push i s) l i) with (held s l i). by rewrite Hh.
Qed.

(** A lock that another processor has. *)
Definition elsewhere (s : kernel) (l : lockid) (i : nat) : Prop :=
  exists j, k_locks s !! l = Some (mk_spinlock 1 (Some j)) /\ j <> i.

Lemma acquire_elsewhere s i c l :
  quiet s i c -> elsewhere s l i -> acquire l s = Spin (push i s).
Proof.
  intros (Hon & Hn & _) (j & Hl & Hj). unfold acquire. krun (pushcli_run _ _ _ Hon).
  krun (holding_run _ _ _ l (on_cpu_push _ _ _ Hon) eq_refl ltac:(rewrite ncli_pushc; lia)).
  assert (Hget : get_lock l (push i s) = Ret (mk_spinlock 1 (Some j)) (push i s)).
  { unfold get_lock, kget. change (k_locks (push i s)) with (k_locks s). by rewrite Hl. }
  change (held (push i s) l i) with (held s l i). unfold held. rewrite Hl. cbn [default from_option id locked lk_cpu].
  rewrite bool_decide_eq_false_2 by congruence. rewrite andb_false_r. krun Hget.
  unfold set_lock, kmod, kbind at 1. cbn [obind lk_cpu locked]. change (c_true 1) with true. cbv iota. f_equal.
  unfold update, upd_k_locks. rewrite insert_id by done. by destruct (push i s).
Qed.

Lemma release_run s i c l :
  on_cpu s i c -> k_if s = false -> 1 <= ncli c -> held s l i = true ->
  release l s = Ret tt (rel i c l s).
Proof.
  intros Hon Hif Hn Hh. unfold release. krun (holding_run _ _ _ l Hon Hif Hn).
  rewrite Hh. cbn [negb]. unfold get_lock, kget, kbind at 1. cbn [obind].
  unfold set_lock, kmod, kbind at 1 2. cbn [obind]. rewrite set_lock_set_lock.
  by apply popcli_run.
Qed.

Lemma release_not_held s i c l :
  on_cpu s i c -> k_if s = false -> 1 <= ncli c -> held s l i = false ->
  release l s = Panic "release" s.
Proof.
  intros Hon Hif Hn Hh. unfold release. krun (holding_run _ _ _ l Hon Hif Hn). by rewrite Hh.
Qed.

(** ** Critical sections *)

(** The fields that lock operations change or read. *)
Definition core_same (s s' : kernel) : Prop :=
  k_if s' = k_if s /\ k_apicid s' = k_apicid s /\ k_cpus s' = k_cpus s /\
  k_ncpu s' = k_ncpu s /\ k_locks s' = k_locks s.

Definition recore (s0 s' : kernel) : kernel :=
  s' <| k_if := k_if s0 |> <| k_cpus := k_cpus s0 |> <| k_locks := k_locks s0 |>.

(** A pair of [pushcli] and [popcli] at depth zero records the interrupt flag. *)
Definition settlec (b : bool) (c : cpu) : cpu :=
  if ncli c =? 0 then c <| intena := if_flag b |> else c.
Definition settle (i : nat) (s : kernel) : kernel :=
  s <| k_cpus ::= alter (settlec (k_if s)) i |>.

Lemma core_same_refl s : core_same s s.
Proof. done. Qed.

Lemma core_same_trans s1 s2 s3 : core_same s1 s2 -> core_same s2 s3 -> core_same s1 s3.
Proof. unfold core_same. intros. destruct_and!. split_and!; congruence. Qed.

Lemma core_same_quiet s s' i c : core_same s s' -> quiet s i c -> quiet s' i c.
Proof.
  intros (H1 & H2 & H3 & H4 & H5). unfold quiet, on_cpu. by rewrite H1, H2, H3, H4.
Qed.

Lemma core_same_free s s' l : core_same s s' -> free s l -> free s' l.
Proof. intros (_ & _ & _ & _ & H). unfold free. by rewrite H. Qed.

Lemma popc_pushc_settlec b c : popc (pushc b c) = settlec b c.
Proof.
  unfold popc, pushc, settlec. destruct c as [a t g st n x p]; cbn. destruct (Z.eqb_spec n 0);
    unfold update, upd_ncli, upd_intena; cbn; f_equal; lia.
Qed.

Lemma pop_if_pushc s i c : quiet s i c -> pop_if (pushc (k_if s) c) false = k_if s.
Proof.
  intros (_ & Hn & Hif). unfold pop_if, pushc.
  destruct (Z.eqb_spec (ncli c) 0) as [E|E]; cbn.
  - rewrite E. by destruct (k_if s).
  - destruct (Z.eqb_spec (ncli c + 1) 1); [lia|]. destruct (k_if s); [|done]. lia.
Qed.

Lemma settle_nested s i c : k_cpus s !! i = Some c -> ncli c <> 0 -> settle i s = s.
Proof.
  intros Hc Hn. unfold settle. destruct s; unfold update, upd_k_cpus; cbn in *. f_equal.
  apply (list_alter_id_at _ _ _ c); [done|]. unfold settlec. by destruct (Z.eqb_spec (ncli c) 0).
Qed.

Lemma quiet_settle s i c : quiet s i c -> quiet (settle i s) i (settlec (k_if s) c).
Proof.
  intros (Hon & Hn & Hif). split.
  - pose proof (on_cpu_alter _ _ _ (settlec (k_if s)) (k_if s) Hon) as H.
    destruct s; apply H. unfold settlec. by destruct (ncli c =? 0).
  - unfold settlec. by destruct (ncli c =? 0).
Qed.

Lemma quiet_acq s i c l : quiet s i c -> quiet (acq i l s) i (pushc (k_if s) c).
Proof.
  intros (Hon & Hn & Hif). split; [by apply on_cpu_push in Hon|].
  rewrite ncli_pushc. split; [lia|done].
Qed.

Lemma held_acq s i l : held (acq i l s) l i = true.
Proof. unfold held, acq. cbn. rewrite lookup_insert_eq. cbn. by rewrite bool_decide_eq_true_2. Qed.

Lemma free_acq s i l l' : l <> l' -> free s l' -> free (acq i l s) l'.
Proof. intros. unfold free, acq. cbn. by rewrite lookup_insert_ne. Qed.

(** The end of a critical section whose body left the processor alone. *)
Lemma release_after s s' i c l :
  quiet s i c -> free s l -> core_same (acq i l s) s' ->
  release l s' = Ret tt (recore (settle i s) s').
Proof.
  intros Hq Hfree Hc. pose proof (quiet_acq _ _ _ l Hq) as Hqa.
  pose proof (core_same_quiet _ _ _ _ Hc Hqa) as (Hon & Hn & _).
  assert (Hh : held s' l i = true).
  { unfold held. destruct Hc as (_ & _ & _ & _ & ->). apply held_acq. }
  destruct Hc as (H1 & H2 & H3 & H4 & H5).
  rewrite (release_run _ _ _ l Hon); [|done|rewrite ncli_pushc in *; destruct Hq; lia|done].
  f_equal. unfold rel, pop, recore, settle.
  assert (E1 : alter popc i (k_cpus s') = alter (settlec (k_if s)) i (k_cpus s)).
  { rewrite H3. unfold acq, push. cbn [k_cpus update upd_k_cpus upd_k_locks upd_k_if].
    rewrite list_alter_alter_eq. apply list_alter_ext; [|done].
    intros x Hx. apply popc_pushc_settlec. }
  assert (E2 : pop_if (pushc (k_if s) c) (k_if s') = k_if s).
  { rewrite H1. by apply (pop_if_pushc _ i). }
  assert (E3 : <[l:=unlocked]> (k_locks s') = k_locks s).
  { rewrite H5. unfold acq. cbn. rewrite insert_insert_eq. by apply insert_id. }
  destruct s'; unfold update, upd_k_cpus, upd_k_if, upd_k_locks in *; cbn in *. by rewrite E1, E2, E3.
Qed.

(** A critical section restores the processor.  When [acquire(l)] runs on a
    free lock, the body returns and leaves the processor and the locks as
    [acquire] left them, then [release(l)] returns with the lock free again,
    every other lock unchanged, the interrupt flag as before the section and
    the nesting depth of [pushcli] back at its old value. *)
Theorem critical_section {A : Type} (s s' : kernel) (i : nat) (c : cpu) (l : lockid)
    (body : KM A) (a : A) :
  quiet s i c -> free s l ->
  body (acq i l s) = Ret a s' -> core_same (acq i l s) s' ->
  exists s'', (acquire l ;;; r <- body ;; release l ;;; kret r) s = Ret a s'' /\
    k_locks s'' = k_locks s /\ k_if s'' = k_if s /\ quiet s'' i (settlec (k_if s) c) /\
    k_mem s'' = k_mem s' /\ k_ptable s'' = k_ptable s'.
Proof.
  intros Hq Hf Hb Hc. exists (recore (settle i s) s').
  krun (acquire_run _ _ _ _ Hq Hf). krun Hb. krun (release_after _ _ _ _ _ Hq Hf Hc).
  split; [done|]. split; [done|]. split; [done|]. split; [|done].
  pose proof (quiet_settle _ _ _ Hq) as H. destruct Hc as (_ & Ha & _ & Hn & _).
  unfold quiet, on_cpu in *. cbn in *. by rewrite Ha, Hn.
Qed.

(** A uniprocessor with interrupts on, no lock held and process 0 running. *)
Definition boot_cpu : cpu := mk_cpu 0 (mk_taskstate 0 0 0) ∅ 1 0 0 (Some 0%nat).
Definition all_locks : gmap lockid spinlock :=
  list_to_map ((fun l => (l, unlocked)) <$>
    ([Lptable; Lkmem; Lftable; Licache; Lbcache; Llog; Lide; Lticks; Lcons] ++
     (Lsleepbuf <$> seq 0 NBUF) ++ (Lsleepinode <$> seq 0 NINODE))).
Definition boot : kernel :=
  mk_kernel true 0 0 0 [boot_cpu] 1 all_locks ∅ (mk_kmem 1 0) 0
    (replicate NPROC zero_proc) None 1 0 (replicate NFILE zero_file) ∅ VIRT_ADDR_START []
    (replicate NBUF zero_buf) (rev (seq 0 NBUF)) [] 1 ∅ [] (replicate NINODE zero_inode)
    zero_sb zero_log zero_input 1 FSSIZE {[CONSOLE := DevConsole]} 0 ∅ 1 0 0 1 [] ∅ zero_devices.

Lemma boot_on_cpu : on_cpu boot 0 boot_cpu.
Proof. split; [done|]. split; [done|]. split; [done|]. intros j d Hj. lia. Qed.

Lemma boot_quiet : quiet boot 0 boot_cpu.
Proof. split; [apply boot_on_cpu|]. split; [cbn; lia|done]. Qed.

Lemma critical_section_witness :
  exists s'', (acquire Lptable ;;; r <- kret 7 ;; release Lptable ;;; kret r) boot = Ret 7 s'' /\
    k_locks s'' = k_locks boot /\ k_if s'' = true /\ quiet s'' 0 (settlec true boot_cpu) /\
    k_mem s'' = ∅ /\ k_ptable s'' = k_ptable boot.
Proof.
  apply (critical_section boot (acq 0 Lptable boot) 0 boot_cpu Lptable (kret 7) 7);
    [apply boot_quiet | vm_compute; reflexivity | reflexivity | apply core_same_refl].
Defined.

(** What [acquire] does with a lock.  On a quiet processor it returns exactly
    when the lock is free; on a lock this processor already holds it panics
    instead of deadlocking; on a lock another processor holds it spins. *)
Theorem acquire_cases (s : kernel) (i : nat) (c : cpu) (l : lockid) (lk : spinlock) :
  quiet s i c -> k_locks s !! l = Some lk ->
  match acquire l s with
  | Ret _ s' => locked lk = 0 /\ held s' l i = true /\ k_if s' = false
  | Panic msg _ => msg = "acquire"%string /\ locked lk <> 0 /\ lk_cpu lk = Some i
  | Spin _ => locked lk <> 0 /\ lk_cpu lk <> Some i
  | _ => False
  end.
Proof.
  intros (Hon & Hn & Hif) Hl. destruct (held s l i) eqn:Hh.
  - rewrite (acquire_held _ _ _ _ Hon) by done. unfold held in Hh. rewrite Hl in Hh. cbn in Hh.
    apply andb_true_iff in Hh as [H1 H2]. apply bool_decide_eq_true in H2.
    by apply c_true_true in H1.
  - unfold acquire. krun (pushcli_run _ _ _ Hon). pose proof (on_cpu_push _ _ _ Hon) as Hon'.
    krun (holding_run _ _ _ l Hon' eq_refl ltac:(rewrite ncli_pushc; lia)).
    change (held (push i s) l i) with (held s l i). rewrite Hh. cbv iota.
    assert (Hget : get_lock l (push i s) = Ret lk (push i s)).
    { unfold get_lock, kget. change (k_locks (push i s)) with (k_locks s). by rewrite Hl. }
    krun Hget. unfold set_lock, kmod, kbind at 1. cbn [obind].
    unfold held in Hh. rewrite Hl in Hh. cbn in Hh.
    destruct (c_true (locked lk)) eqn:E; cbn in Hh.
    + apply c_true_true in E. by apply bool_decide_eq_false in Hh.
    + apply c_true_false in E.
      set (s2 := (push i s) <| k_locks ::= _ |>).
      assert (Hon2 : on_cpu s2 i (pushc (k_if s) c)) by done.
      krun (mycpu_run _ _ _ Hon2 eq_refl). unfold s2. rewrite set_lock_set_lock.
      split; [done|]. split; [apply held_acq|done].
Qed.

Lemma acquire_cases_witness :
  match acquire Lkmem (acq 0 Lkmem boot) with
  | Ret _ s' => locked (mk_spinlock 1 (Some 0%nat)) = 0 /\ held s' Lkmem 0 = true /\ k_if s' = false
  | Panic msg _ => msg = "acquire"%string /\ locked (mk_spinlock 1 (Some 0%nat)) <> 0 /\
                   lk_cpu (mk_spinlock 1 (Some 0%nat)) = Some 0%nat
  | Spin _ => locked (mk_spinlock 1 (Some 0%nat)) <> 0 /\ lk_cpu (mk_spinlock 1 (Some 0%nat)) <> Some 0%nat
  | _ => False
  end.
Proof.
  apply (acquire_cases (acq 0 Lkmem boot) 0 (pushc true boot_cpu) Lkmem (mk_spinlock 1 (Some 0%nat)));
    [apply (quiet_acq boot 0 boot_cpu), boot_quiet | vm_compute; reflexivity].
Defined.
