(* ===== verification/Kalloc.v ===== *)
(** * The physical page allocator

    [kalloc.c]: a linked list of free pages threaded through the pages
    themselves.  [heap s l] says that the list in memory is exactly the pages
    [l]; the theorems show that [kalloc], [kfree] and [freerange] implement a
    stack of pages and never hand out a page twice. *)

From stdpp Require Import base gmap strings list fin_maps.
From Stdlib Require Import ZArith Lia.
From S2P Require Import Prelude Mem Types Spinlock.

Section Kalloc.
Context `{L : Layout}.

Definition set_freelist (v : Z) : KM unit :=
  kmod (fun s => s <| k_kmem ::= fun km => km <| freelist := v |> |>).
Definition set_use_lock (v : Z) : KM unit :=
  kmod (fun s => s <| k_kmem ::= fun km => km <| use_lock := v |> |>).

Definition kfree (v : Z) : KM unit :=
  if c_true (v mod PGSIZE) || (v <? kend) || (PHYSTOP <=? V2P v) then kpanic "kfree" else
  k_memset v 1 PGSIZE ;;;
  ul <- kget (fun s => use_lock (k_kmem s)) ;;
  (when c_true ul do acquire Lkmem) ;;;
  fl <- kget (fun s => freelist (k_kmem s)) ;;
  mem_write v fl ;;;
  set_freelist v ;;;
  ul <- kget (fun s => use_lock (k_kmem s)) ;;
  when c_true ul do release Lkmem.

Definition kalloc : KM Z :=
  ul <- kget (fun s => use_lock (k_kmem s)) ;;
  (when c_true ul do acquire Lkmem) ;;;
  r <- kget (fun s => freelist (k_kmem s)) ;;
  (when c_true r do (n <- mem_read r ;; set_freelist n)) ;;;
  ul <- kget (fun s => use_lock (k_kmem s)) ;;
  (when c_true ul do release Lkmem) ;;;
  kret r.

Fixpoint freerange_loop (fuel : nat) (p vend : Z) : KM unit :=
  match fuel with
  | O => NoFuel
  | S k =>
      if p + PGSIZE <=? vend
      then kfree p ;;; freerange_loop k (p + PGSIZE) vend
      else kret tt
  end.
Definition freerange (vstart vend : Z) : KM unit :=
  let p := PGROUNDUP vstart in
  freerange_loop (S (Z.to_nat ((vend - p) / PGSIZE))) p vend.

Definition kinit1 (vstart vend : Z) : KM unit :=
  initlock Lkmem ;;;
  set_use_lock 0 ;;;
  freerange vstart vend.

Definition kinit2 (vstart vend : Z) : KM unit :=
  freerange vstart vend ;;;
  set_use_lock 1.

(** ** Pages and the free list *)

(** A page that [kfree] accepts. *)
Definition page_ok (v : Z) : Prop := v mod 4096 = 0 /\ kend <= v < KERNBASE + PHYSTOP.

#[global] Instance page_ok_dec v : Decision (page_ok v).
Proof. unfold page_ok. apply _. Defined.

Fixpoint chain (m : mem) (h : Z) (l : list Z) : Prop :=
  match l with
  | [] => h = 0
  | p :: l' => h = p /\ chain m (ld32 m p) l'
  end.

Definition heap (s : kernel) (l : list Z) : Prop :=
  chain (k_mem s) (freelist (k_kmem s)) l /\ Forall page_ok l /\ NoDup l.

(** ** Frames: what the allocator may change *)

(** A processor's record is the same but for [intena], which is only written
    when no lock is held. *)
Definition csim (c c' : cpu) : Prop := exists x, c' = c <| intena := x |> /\ (ncli c <> 0 -> x = intena c).

Definition mm_frame (s s' : kernel) : Prop :=
  exists m km cp co,
    s' = s <| k_mem := m |> <| k_kmem := km |> <| k_cpus := cp |> <| k_console := co |> /\
    Forall2 csim (k_cpus s) cp /\ use_lock km = use_lock (k_kmem s).

(** The allocator can be called. *)
Definition mm_ready (s : kernel) : Prop :=
  (exists i c, quiet s i c) /\ (use_lock (k_kmem s) <> 0 -> free s Lkmem).

(** Memory is unchanged outside the page at [v]. *)
Definition outside (v : Z) (m m' : mem) : Prop :=
  forall a, a < v \/ v + 4096 <= a -> ld8 m' a = ld8 m a.

Lemma csim_refl c : csim c c.
Proof. exists (intena c). split; [by destruct c|done]. Qed.

Lemma csim_trans c1 c2 c3 : csim c1 c2 -> csim c2 c3 -> csim c1 c3.
Proof. intros (x & -> & Hx) (y & -> & Hy). exists y. split; [done|]. intros H. by rewrite <- (Hx H), (Hy H). Qed.

Lemma csims_refl l : Forall2 csim l l.
Proof. induction l; constructor; auto using csim_refl. Qed.

Lemma csims_settle l i b : Forall2 csim l (alter (settlec b) i l).
Proof.
  revert i; induction l as [|c l IH]; intros [|i]; cbn; constructor;
    auto using csims_refl, csim_refl.
  unfold settlec. destruct (Z.eqb_spec (ncli c) 0); [|apply csim_refl]. by eexists.
Qed.

Lemma csims_quiet s s' i c :
  Forall2 csim (k_cpus s) (k_cpus s') ->
  k_if s' = k_if s -> k_apicid s' = k_apicid s -> k_ncpu s' = k_ncpu s ->
  quiet s i c -> exists c', quiet s' i c'.
Proof.
  intros Hc E1 E2 E3 ((H1 & H2 & H3 & H4) & H5 & H6).
  destruct (Forall2_lookup_l _ _ _ _ _ Hc H2) as (c' & Hc' & x & -> & _).
  exists (c <| intena := x |>). unfold quiet, on_cpu. rewrite E1, E2, E3.
  split; [|done]. split; [done|]. split; [done|]. split; [done|].
  intros j d Hj Hd. destruct (Forall2_lookup_r _ _ _ _ _ Hc Hd) as (d' & Hd' & y & -> & _).
  by apply (H4 j d').
Qed.

Lemma mm_frame_refl s : mm_frame s s.
Proof.
  exists (k_mem s), (k_kmem s), (k_cpus s), (k_console s).
  split; [by destruct s|]. split; [apply csims_refl|done].
Qed.

Lemma csims_trans l1 l2 l3 : Forall2 csim l1 l2 -> Forall2 csim l2 l3 -> Forall2 csim l1 l3.
Proof.
  intros H; revert l3; induction H; intros l3 H3; inversion H3; simplify_eq; constructor;
    eauto using csim_trans.
Qed.

Lemma mm_frame_trans s1 s2 s3 : mm_frame s1 s2 -> mm_frame s2 s3 -> mm_frame s1 s3.
Proof.
  intros (m & km & cp & co & -> & Hc & Hu) (m' & km' & cp' & co' & -> & Hc' & Hu').
  exists m', km', cp', co'. split; [done|]. split; [by eapply csims_trans|].
  by rewrite Hu', <- Hu.
Qed.

Lemma mm_frame_mem s f : mm_frame s (s <| k_mem ::= f |>).
Proof.
  exists (f (k_mem s)), (k_kmem s), (k_cpus s), (k_console s).
  split; [done|]. split; [apply csims_refl|done].
Qed.

Lemma mm_frame_ready s s' : mm_frame s s' -> mm_ready s -> mm_ready s'.
Proof.
  intros (m & km & cp & co & -> & Hc & Hu) [(i & c & Hq) Hf]. split.
  - exists i. by eapply (csims_quiet s).
  - cbn. rewrite Hu. apply Hf.
Qed.

Lemma outside_refl v m : outside v m m.
Proof. done. Qed.

Lemma freelist_eta (km : kmem_t) : mk_kmem (use_lock km) (freelist km) = km.
Proof. by destruct km. Qed.

(** [kfree] and [kalloc] run to their end, with or without the lock. *)
Lemma kfree_run v s :
  mm_ready s -> v mod 4096 = 0 -> kend <= v -> V2P v < PHYSTOP ->
  exists cp, Forall2 csim (k_cpus s) cp /\
    kfree v s = Ret tt (s <| k_mem := st32 (memset (k_mem s) v 1 PGSIZE) v (freelist (k_kmem s)) |>
                          <| k_kmem ::= fun km => km <| freelist := v |> |>
                          <| k_cpus := cp |>).
Proof.
  intros [(i & c & Hq) Hf] H1 H2 H3. unfold kfree, PGSIZE.
  rewrite H1. replace (v <? kend) with false by lia. replace (PHYSTOP <=? V2P v) with false by lia.
  change (c_true 0) with false. cbn [orb]. unfold k_memset, kget, kmod, kbind at 1 2. cbn [obind].
  set (s1 := s <| k_mem ::= fun m => memset m v 1 4096 |>).
  change (use_lock (k_kmem s1)) with (use_lock (k_kmem s)).
  destruct (c_true (use_lock (k_kmem s))) eqn:E.
  - apply c_true_true in E.
    assert (Hq1 : quiet s1 i c) by done. assert (Hf1 : free s1 Lkmem) by (by apply Hf).
    exists (alter (settlec (k_if s)) i (k_cpus s)). split; [apply csims_settle|].
    krun (acquire_run _ _ _ _ Hq1 Hf1). unfold mem_write, set_freelist, kmod, kbind. cbn [obind].
    match goal with |- context [c_true ?x] => change x with (use_lock (k_kmem s)) end.
    rewrite (proj2 (c_true_true _)) by done.
    erewrite release_after; [|exact Hq1|exact Hf1|done]. reflexivity.
  - exists (k_cpus s). split; [apply csims_refl|].
    unfold mem_write, set_freelist, kmod, kret, kbind. cbn [obind].
    match goal with |- context [c_true ?x] => change x with (use_lock (k_kmem s)) end.
    rewrite E. reflexivity.
Qed.

Lemma kalloc_run s :
  mm_ready s ->
  exists cp, Forall2 csim (k_cpus s) cp /\
    let r := freelist (k_kmem s) in
    kalloc s = Ret r (s <| k_kmem ::= fun km => km <| freelist := if c_true r then ld32 (k_mem s) r else r |> |>
                        <| k_cpus := cp |>).
Proof.
  intros [(i & c & Hq) Hf]. unfold kalloc, kget, kbind at 1. cbn [obind].
  destruct (c_true (use_lock (k_kmem s))) eqn:E.
  - exists (alter (settlec (k_if s)) i (k_cpus s)). split; [apply csims_settle|]. cbv zeta.
    apply c_true_true in E as E'.
    krun (acquire_run _ _ _ _ Hq (Hf E')). unfold kbind at 1. cbn [obind].
    change (k_kmem (acq _ _ _)) with (k_kmem s).
    destruct (c_true (freelist (k_kmem s))) eqn:Er;
      unfold mem_read, set_freelist, kget, kmod, kret, kbind; cbn [obind];
      match goal with |- context [c_true ?x] => change x with (use_lock (k_kmem s)) end;
      rewrite E; cbn [obind];
      (erewrite release_after; [|exact Hq|by apply Hf|done]); cbn [obind]; [done|].
    f_equal. unfold recore, settle, update, upd_k_kmem, upd_freelist. cbn. by rewrite freelist_eta.
  - exists (k_cpus s). split; [apply csims_refl|]. cbv zeta. unfold kret, kbind at 1 2. cbn [obind].
    destruct (c_true (freelist (k_kmem s))) eqn:Er;
      unfold mem_read, set_freelist, kget, kmod, kret, kbind; cbn [obind];
      match goal with |- context [c_true ?x] => change x with (use_lock (k_kmem s)) end;
      rewrite E; cbn [obind]; [done|].
    f_equal. unfold update, upd_k_kmem, upd_freelist. cbn. rewrite freelist_eta. by destruct s.
Qed.

(** ** Specifications *)

Lemma page_sep p q :
  p mod 4096 = 0 -> q mod 4096 = 0 -> p <> q -> p + 4096 <= q \/ q + 4096 <= p.
Proof. intros. Z.div_mod_to_equations. lia. Qed.

Lemma chain_ext m m' h l :
  (forall p, p ∈ l -> ld32 m' p = ld32 m p) -> chain m h l -> chain m' h l.
Proof.
  revert h; induction l as [|p l IH]; intros h Hm; cbn; [done|].
  intros [-> Hc]. split; [done|]. rewrite Hm by set_solver. apply IH; [set_solver|done].
Qed.

Lemma outside_ld32 v m m' a :
  outside v m m' -> a + 4 <= v \/ v + 4096 <= a -> ld32 m' a = ld32 m a.
Proof. intros H Ha. apply ld32_ext. intros b Hb. apply H. lia. Qed.

Lemma heap_outside s s' v l :
  heap s l -> outside v (k_mem s) (k_mem s') -> k_kmem s' = k_kmem s ->
  v mod 4096 = 0 -> v ∉ l -> heap s' l.
Proof.
  intros (Hc & Hok & Hnd) Ho Hk Hv Hin. split; [|done]. rewrite Hk.
  eapply chain_ext; [|done]. intros p Hp. eapply outside_ld32; [done|].
  rewrite Forall_forall in Hok. destruct (Hok p Hp) as [Ha _].
  destruct (page_sep p v Ha Hv); [set_solver|lia|lia].
Qed.

Lemma mm_frame_intro s m km cp :
  Forall2 csim (k_cpus s) cp -> use_lock km = use_lock (k_kmem s) ->
  mm_frame s (s <| k_mem := m |> <| k_kmem := km |> <| k_cpus := cp |>).
Proof. intros. exists m, km, cp, (k_console s). done. Qed.

Context {LO : LayoutOk L}.

Lemma page_ok_range p : page_ok p -> KERNBASE + EXTMEM < p /\ p + 4096 <= KERNBASE + PHYSTOP.
Proof.
  intros [H1 H2]. pose proof data_low. pose proof data_kend. unfold KERNLINK, KERNBASE, EXTMEM, PHYSTOP in *.
  split; [lia|]. Z.div_mod_to_equations. lia.
Qed.

Lemma page_ok_pos p : page_ok p -> 0 < p.
Proof. intros H%page_ok_range. unfold KERNBASE, EXTMEM in *. lia. Qed.

Lemma V2P_page p : page_ok p -> V2P p = p - KERNBASE.
Proof.
  intros H%page_ok_range. unfold V2P. apply u32_id. unfold KERNBASE, EXTMEM, PHYSTOP in *. lia.
Qed.

Lemma wp_kalloc s l :
  mm_ready s -> heap s l ->
  wp kalloc (fun r s' =>
    mm_frame s s' /\ k_mem s' = k_mem s /\
    match l with
    | [] => r = 0 /\ heap s' []
    | p :: l' => r = p /\ heap s' l'
    end) s.
Proof.
  intros Hr (Hc & Hok & Hnd). destruct (kalloc_run s Hr) as (cp & Hcp & Hrun).
  eapply wp_of_run; [exact Hrun|]. cbv zeta. split; [|split; [done|]].
  { by apply (mm_frame_intro s (k_mem s)). }
  destruct l as [|p l]; cbn in Hc.
  - split; [done|]. split; [|done]. cbn. by rewrite Hc.
  - destruct Hc as [Hp Hc]. split; [done|]. inversion_clear Hok. inversion_clear Hnd.
    split; [|done]. cbn. rewrite Hp.
    rewrite (proj2 (c_true_true _)); [done|]. assert (0 < p) by (by apply page_ok_pos). lia.
Qed.

Lemma wp_kfree s l v :
  mm_ready s -> heap s l -> page_ok v -> v ∉ l ->
  wp (kfree v) (fun _ s' =>
    mm_frame s s' /\ heap s' (v :: l) /\ outside v (k_mem s) (k_mem s')) s.
Proof.
  intros Hr Hh Hv Hin. pose proof (V2P_page v Hv) as HV. pose proof (page_ok_range v Hv) as Hrange.
  destruct (kfree_run v s Hr) as (cp & Hcp & Hrun); [apply Hv|apply Hv|unfold KERNBASE, PHYSTOP in *; lia|].
  eapply wp_of_run; [exact Hrun|].
  assert (Ho : outside v (k_mem s) (st32 (memset (k_mem s) v 1 PGSIZE) v (freelist (k_kmem s)))).
  { intros a Ha. unfold PGSIZE. rewrite ld8_st32_ne, ld8_memset by lia. by rewrite decide_False by lia. }
  split; [by apply (mm_frame_intro s)|]. split; [|done].
  destruct Hh as (Hc & Hok & Hnd). split; [|by split; constructor]. cbn. split; [done|].
  rewrite ld32_st32_eq. rewrite u32_id.
  - eapply chain_ext; [|exact Hc]. intros p Hp. eapply outside_ld32; [exact Ho|].
    rewrite Forall_forall in Hok. destruct (Hok p Hp) as [Ha _]. destruct Hv as [Hv' _].
    destruct (page_sep p v Ha Hv'); [set_solver|lia|lia].
  - destruct l as [|p l]; cbn in Hc; [lia|]. destruct Hc as [-> _].
    assert (H : page_ok p) by (by inversion Hok). apply page_ok_range in H.
    unfold KERNBASE, EXTMEM, PHYSTOP in *. lia.
Qed.

(** The [n] pages from [p] on, in the order [freerange] frees them. *)
Definition pages_from (p : Z) (n : nat) : list Z := (fun i => p + 4096 * Z.of_nat i) <$> seq 0 n.

Lemma pages_from_S p n : pages_from p (S n) = p :: pages_from (p + 4096) n.
Proof.
  unfold pages_from. cbn [seq fmap list_fmap]. f_equal; [lia|].
  rewrite <- (fmap_S_seq 0 n), <- list_fmap_compose. apply list_fmap_ext.
  intros i x _. cbn. lia.
Qed.

Lemma elem_of_pages_from p n v :
  v ∈ pages_from p n <-> exists i, (i < n)%nat /\ v = p + 4096 * Z.of_nat i.
Proof.
  unfold pages_from. rewrite list_elem_of_fmap. setoid_rewrite elem_of_seq. split.
  - intros (i & -> & Hi). exists i. split; [lia|done].
  - intros (i & Hi & ->). exists i. split; [done|lia].
Qed.

Lemma wp_freerange_loop fuel p vend s l n :
  mm_ready s -> heap s l -> n = Z.to_nat ((vend - p) / 4096) -> (n < fuel)%nat ->
  Forall page_ok (pages_from p n) -> (forall v, v ∈ pages_from p n -> v ∉ l) ->
  wp (freerange_loop fuel p vend) (fun _ s' =>
    mm_frame s s' /\ heap s' (rev (pages_from p n) ++ l)) s.
Proof.
  revert p s l n; induction fuel as [|fuel IH]; intros p s l n Hr Hh Hn Hfuel Hok Hdis; [lia|].
  cbn [freerange_loop]. unfold PGSIZE. destruct (Z.leb_spec (p + 4096) vend) as [Hle|Hgt].
  - assert (Hn' : n = S (Z.to_nat ((vend - (p + 4096)) / 4096))).
    { subst n. replace (vend - p) with (vend - (p + 4096) + 1 * 4096) by lia.
      rewrite Z.div_add by lia. rewrite Z2Nat.inj_add by (try apply Z.div_pos; lia). lia. }
    clear Hn. rewrite Hn' in *. rewrite pages_from_S in Hok, Hdis |- *.
    inversion_clear Hok as [|? ? Hp Hok'].
    apply wp_bind. eapply wp_mono; [apply wp_kfree; [done|done|done|apply Hdis; set_solver]|].
    intros _ s1 (Hf1 & Hh1 & _). cbv beta.
    eapply wp_mono; [eapply (IH (p + 4096) s1 (p :: l)); [by eapply mm_frame_ready|done|done|lia|done|]|].
    { intros v Hv. apply not_elem_of_cons. split; [|apply Hdis; set_solver].
      apply elem_of_pages_from in Hv as (i & _ & ->). lia. }
    intros _ s2 (Hf2 & Hh2). split; [by eapply mm_frame_trans|].
    cbn [rev]. by rewrite <- app_assoc.
  - assert (n = O) as ->.
    { subst n. rewrite Z2Nat.nonpos; [done|]. enough ((vend - p) / 4096 < 1) by lia.
      apply Z.div_lt_upper_bound; lia. }
    apply wp_ret. split; [apply mm_frame_refl|done].
Qed.

(** ** The allocator as a stack of pages *)

Inductive alloc_op := OpAlloc | OpFree (v : Z).

Fixpoint run_ops (ops : list alloc_op) : KM (list Z) :=
  match ops with
  | [] => kret []
  | OpAlloc :: ops' => r <- kalloc ;; rs <- run_ops ops' ;; kret (r :: rs)
  | OpFree v :: ops' => kfree v ;;; run_ops ops'
  end.

(** The specification: the results of the calls and the free pages left, for a
    sequence in which every freed page is a page that is not free. *)
Fixpoint stack_ops (ops : list alloc_op) (l : list Z) : option (list Z * list Z) :=
  match ops with
  | [] => Some ([], l)
  | OpAlloc :: ops' =>
      match l with
      | [] => '(rs, l') ← stack_ops ops' []; Some (0 :: rs, l')
      | p :: l1 => '(rs, l') ← stack_ops ops' l1; Some (p :: rs, l')
      end
  | OpFree v :: ops' => if decide (page_ok v /\ v ∉ l) then stack_ops ops' (v :: l) else None
  end.

(** C31: The linked list in memory refines a stack of pages.  Any sequence of
    [kalloc] and [kfree] calls in which only allocated pages are freed returns
    the pages the stack specification returns (0 when it is empty) and leaves
    exactly the specified pages on the free list, without duplicates. *)
Theorem kalloc_refines (ops : list alloc_op) (s : kernel) (l rs l' : list Z) :
  mm_ready s -> heap s l -> stack_ops ops l = Some (rs, l') ->
  wp (run_ops ops) (fun r s' => r = rs /\ heap s' l' /\ mm_frame s s') s.
Proof.
  revert s l rs l'; induction ops as [|[|v] ops IH]; intros s l rs l' Hr Hh Hspec; cbn in *.
  - simplify_eq. apply wp_ret. split; [done|]. split; [done|apply mm_frame_refl].
  - apply wp_bind. eapply wp_mono; [by apply wp_kalloc|]. intros r s1 (Hf1 & _ & Hl).
    apply wp_bind. pose proof (mm_frame_ready _ _ Hf1 Hr) as Hr1.
    destruct l as [|p l]; destruct Hl as [-> Hh1];
      [destruct (stack_ops ops []) as [[rs1 l1]|] eqn:E|destruct (stack_ops ops l) as [[rs1 l1]|] eqn:E];
      simplify_eq/=; (eapply wp_mono; [by eapply IH|]); intros ? s2 (-> & ? & ?); cbn;
      (split; [done|]); (split; [done|]); by eapply mm_frame_trans.
  - case_decide as Hd; [|done]. apply wp_bind.
    eapply wp_mono; [by apply wp_kfree; destruct Hd|]. intros _ s1 (Hf1 & Hh1 & _). cbv beta.
    eapply wp_mono; [eapply IH; [by eapply mm_frame_ready|done|done]|].
    intros ? s2 (-> & ? & ?). split; [done|]. split; [done|]. by eapply mm_frame_trans.
Qed.

(** [freerange] turns a range of memory into free pages.  For a range above
    the kernel image that holds no free page yet, it frees exactly the whole
    pages inside the range, each once, and no other page. *)
Theorem freerange_spec (vstart vend : Z) (s : kernel) (l : list Z) :
  mm_ready s -> heap s l ->
  kend <= vstart <= vend -> vend <= KERNBASE + PHYSTOP ->
  (forall v, v ∈ l -> v < vstart \/ vend <= v) ->
  wp (freerange vstart vend) (fun _ s' =>
    mm_frame s s' /\
    exists new, heap s' (new ++ l) /\
      forall v, v ∈ new <-> v mod 4096 = 0 /\ vstart <= v /\ v + 4096 <= vend) s.
Proof.
  intros Hr Hh Hlo Hhi Hdis. pose proof data_low. pose proof data_kend. pose proof kend_high.
  unfold freerange, KERNLINK, KERNBASE, EXTMEM, PHYSTOP in *.
  rewrite pgroundup_eq by lia. set (p := (vstart + 4095) / 4096 * 4096).
  assert (Hp : p mod 4096 = 0) by (unfold p; apply Z.mod_mul; lia).
  assert (Hp' : vstart <= p < vstart + 4096) by (unfold p; Z.div_mod_to_equations; lia).
  set (n := Z.to_nat ((vend - p) / 4096)).
  assert (Hin : forall v, v ∈ pages_from p n <-> v mod 4096 = 0 /\ vstart <= v /\ v + 4096 <= vend).
  { intros v. rewrite elem_of_pages_from. split.
    - intros (i & Hi & ->). split; [rewrite Z.mul_comm, Z.mod_add; lia|].
      split; [lia|]. subst n. assert (0 <= (vend - p) / 4096) by (destruct (Z.le_gt_cases 0 ((vend - p) / 4096)); lia).
      assert (Z.of_nat i < (vend - p) / 4096) by lia.
      pose proof (Z.mul_div_le (vend - p) 4096). lia.
    - intros (Hm & H1' & H2'). exists (Z.to_nat ((v - p) / 4096)).
      assert (Hpv : p <= v) by (Z.div_mod_to_equations; lia).
      assert (E : 4096 * ((v - p) / 4096) = v - p).
      { assert ((v - p) mod 4096 = 0) by (rewrite Zminus_mod, Hm, Hp; done). Z.div_mod_to_equations. lia. }
      assert (0 <= (v - p) / 4096) by (apply Z.div_pos; lia). subst n.
      rewrite Z2Nat.id by done. split; [|lia]. apply Z2Nat.inj_lt; [done|apply Z.div_pos; lia|].
      apply Z.lt_le_trans with ((v - p) / 4096 + 1); [lia|].
      apply Z.div_le_lower_bound; lia. }
  eapply wp_mono.
  - apply (wp_freerange_loop _ p vend s l n); [done|done|done|unfold PGSIZE; lia| |].
    + apply Forall_forall. intros v Hv'. apply Hin in Hv'. unfold page_ok, KERNBASE, PHYSTOP. lia.
    + intros v Hv' Hvl. apply Hin in Hv'. apply Hdis in Hvl. lia.
  - intros _ s' (Hf & Hh'). split; [done|]. exists (rev (pages_from p n)). split; [done|].
    intros v. rewrite list_elem_of_In, <- in_rev, <- list_elem_of_In. apply Hin.
Qed.

(** [kfree] checks its argument.  A page-aligned address between the end of
    the kernel and the top of physical memory is put on the free list; any
    other address panics before memory is touched. *)
Theorem kfree_guard (s : kernel) (v : Z) :
  mm_ready s -> 0 <= v < 4294967296 ->
  if decide (page_ok v)
  then exists s', kfree v s = Ret tt s' /\ freelist (k_kmem s') = v /\
         ld32 (k_mem s') v = u32 (freelist (k_kmem s)) /\ outside v (k_mem s) (k_mem s')
  else kfree v s = Panic "kfree" s.
Proof.
  intros Hr Hv. case_decide as Hok.
  - pose proof (V2P_page v Hok) as HV. pose proof (page_ok_range v Hok) as Hrange.
    destruct (kfree_run v s Hr) as (cp & Hcp & Hrun);
      [apply Hok|apply Hok|unfold KERNBASE, PHYSTOP in *; lia|].
    eexists. split; [exact Hrun|]. split; [done|]. split; [apply ld32_st32_eq|].
    intros a Ha. cbn. unfold PGSIZE. rewrite ld8_st32_ne, ld8_memset by lia. by rewrite decide_False by lia.
  - unfold kfree. destruct (_ || _) eqn:E; [done|]. exfalso. apply Hok.
    apply orb_false_iff in E as [E E3]. apply orb_false_iff in E as [E1 E2].
    apply c_true_false in E1. apply Z.ltb_ge in E2. apply Z.leb_gt in E3.
    split; [done|]. split; [done|]. pose proof data_low. pose proof data_kend.
    unfold V2P, KERNLINK, KERNBASE, EXTMEM, PHYSTOP in *. rewrite u32_id in E3 by lia. lia.
Qed.
End Kalloc.

(** ** Concrete runs *)

Lemma boot_ready : mm_ready boot.
Proof. split; [eexists; eexists; apply boot_quiet|]. intros _. reflexivity. Qed.

Lemma boot_heap : heap (L := demo_layout) boot [].
Proof. split; [reflexivity|]. split; constructor. Qed.

Lemma kalloc_refines_witness :
  wp (run_ops (L := demo_layout) [OpFree 0x80200000; OpFree 0x80201000; OpAlloc; OpAlloc; OpAlloc])
    (fun r s' => r = [0x80201000; 0x80200000; 0] /\ heap (L := demo_layout) s' [] /\ mm_frame boot s') boot.
Proof.
  apply (kalloc_refines (L := demo_layout) _ boot [] [0x80201000; 0x80200000; 0] []);
    [apply boot_ready | apply boot_heap | vm_compute; reflexivity].
Defined.

Lemma freerange_spec_witness :
  wp (freerange (L := demo_layout) 0x80200010 0x80204000) (fun _ s' =>
    mm_frame boot s' /\
    exists new, heap (L := demo_layout) s' (new ++ []) /\
      forall v, v ∈ new <-> v mod 4096 = 0 /\ 0x80200010 <= v /\ v + 4096 <= 0x80204000) boot.
Proof.
  apply (freerange_spec (L := demo_layout) 0x80200010 0x80204000 boot []);
    [apply boot_ready | apply boot_heap | vm_compute; split; discriminate
    | vm_compute; discriminate | intros v Hv; by apply not_elem_of_nil in Hv].
Defined.

Lemma kfree_guard_witness :
  if decide (page_ok (L := demo_layout) 0x80200001)
  then exists s', kfree (L := demo_layout) 0x80200001 boot = Ret tt s' /\ freelist (k_kmem s') = 0x80200001 /\
         ld32 (k_mem s') 0x80200001 = u32 (freelist (k_kmem boot)) /\
         outside 0x80200001 (k_mem boot) (k_mem s')
  else kfree (L := demo_layout) 0x80200001 boot = Panic "kfree" boot.
Proof. apply (kfree_guard (L := demo_layout) boot 0x80200001); [apply boot_ready | lia]. Defined.
