(* ===== verification/Vm.v ===== *)
(** * Virtual memory

    [vm.c]: two-level x86 page tables built in pages of the allocator.
    [pte_at] reads a page table the way the MMU does; the theorems show what
    each routine does to this view, for every virtual address, and that pages
    are neither lost nor shared. *)

From stdpp Require Import base gmap strings list fin_maps.
From Stdlib Require Import ZArith Lia.
From S2P Require Import Prelude Mem Types Spinlock Kalloc.

Section VmDefs.
Context `{L : Layout}.

(** ** Walking and mapping *)
Definition walkpgdir (pgdir va : Z) (alloc : bool) : KM Z :=
  let pde := pgdir + 4 * PDX va in
  e <- mem_read pde ;;
  if c_true (Z.land e PTE_P) then kret (P2V (PTE_ADDR e) + 4 * PTX va) else
  if negb alloc then kret 0 else
  pgtab <- kalloc ;;
  if pgtab =? 0 then kret 0 else
  k_memset pgtab 0 PGSIZE ;;;
  mem_write pde (Z.lor (Z.lor (Z.lor (V2P pgtab) PTE_P) PTE_W) PTE_U) ;;;
  kret (pgtab + 4 * PTX va).

(** The loop of [mappages]; the fuel is the number of pages of the range. *)
Fixpoint mappages_loop (fuel : nat) (pgdir a last pa perm : Z) : KM Z :=
  match fuel with
  | O => NoFuel
  | S k =>
      pte <- walkpgdir pgdir a true ;;
      if pte =? 0 then kret (-1) else
      v <- mem_read pte ;;
      if c_true (Z.land v PTE_P) then kpanic "remap" else
      mem_write pte (Z.lor (Z.lor pa perm) PTE_P) ;;;
      if a =? last then kret 0 else
      mappages_loop k pgdir (u32 (a + PGSIZE)) last (u32 (pa + PGSIZE)) perm
  end.

Definition mappages (pgdir va size pa perm : Z) : KM Z :=
  let a := PGROUNDDOWN va in
  let last := PGROUNDDOWN (u32 (u32 (va + size) - 1)) in
  mappages_loop (S (Z.to_nat (u32 (last - a) / PGSIZE))) pgdir a last pa perm.

(** ** Deallocation *)
Fixpoint deallocuvm_loop (fuel : nat) (pgdir a oldsz : Z) : KM unit :=
  match fuel with
  | O => NoFuel
  | S k =>
      if a <? oldsz then
        pte <- walkpgdir pgdir a false ;;
        if pte =? 0 then
          let a := u32 (PGADDR (PDX a + 1) 0 0 - PGSIZE) in
          deallocuvm_loop k pgdir (u32 (a + PGSIZE)) oldsz
        else
          v <- mem_read pte ;;
          (when c_true (Z.land v PTE_P) do
             (let pa := PTE_ADDR v in
              if pa =? 0 then kpanic "kfree" else
              kfree (P2V pa) ;;;
              mem_write pte 0)) ;;;
          deallocuvm_loop k pgdir (u32 (a + PGSIZE)) oldsz
      else kret tt
  end.

Definition deallocuvm (pgdir oldsz newsz : Z) : KM Z :=
  if oldsz <=? newsz then kret oldsz else
  let a := PGROUNDUP newsz in
  deallocuvm_loop (S (Z.to_nat ((oldsz - a + PGSIZE - 1) / PGSIZE))) pgdir a oldsz ;;;
  kret newsz.

Definition freevm (pgdir : Z) : KM unit :=
  if pgdir =? 0 then kpanic "freevm: no pgdir" else
  deallocuvm pgdir KERNBASE 0 ;;;
  keach (seqZ 0 NPDENTRIES) (fun i =>
    e <- mem_read (pgdir + 4 * i) ;;
    when c_true (Z.land e PTE_P) do kfree (P2V (PTE_ADDR e))) ;;;
  kfree pgdir.

(** ** Page tables for the kernel *)
Record kmap_entry := mk_kmap { virt : Z; phys_start : Z; phys_end : Z; perm : Z }.

Definition kmap : list kmap_entry :=
  [ mk_kmap KERNBASE 0 EXTMEM PTE_W;
    mk_kmap KERNLINK (V2P KERNLINK) (V2P data) 0;
    mk_kmap data (V2P data) PHYSTOP PTE_W;
    mk_kmap DEVSPACE DEVSPACE 0 PTE_W ].

Definition setupkvm : KM Z :=
  pgdir <- kalloc ;;
  if pgdir =? 0 then kret 0 else
  k_memset pgdir 0 PGSIZE ;;;
  if DEVSPACE <? P2V PHYSTOP then kpanic "PHYSTOP too high" else
  r <- kfor kmap (fun k =>
         r <- mappages pgdir (virt k) (u32 (phys_end k - phys_start k)) (phys_start k) (perm k) ;;
         if r <? 0 then freevm pgdir ;;; kret (Some 0) else kret None) ;;
  match r with
  | Some v => kret v
  | None => kret pgdir
  end.

Definition switchkvm : KM unit :=
  kmod (fun s => s <| k_cr3 := V2P (k_kpgdir s) |>).

Definition kvmalloc : KM unit :=
  pgdir <- setupkvm ;;
  kmod (fun s => s <| k_kpgdir := pgdir |>) ;;;
  switchkvm.

(** [seginit]; [lgdt] makes the processor use the [gdt] of its [struct cpu]. *)
Definition seginit : KM unit :=
  i <- cpuid ;;
  let c := Z.to_nat i in
  set_cpu c (fun c => c <| gdt ::= insert SEG_KCODE (SEG (Z.lor STA_X STA_R) 0 0xffffffff 0) |>) ;;;
  set_cpu c (fun c => c <| gdt ::= insert SEG_KDATA (SEG STA_W 0 0xffffffff 0) |>) ;;;
  set_cpu c (fun c => c <| gdt ::= insert SEG_UCODE (SEG (Z.lor STA_X STA_R) 0 0xffffffff DPL_USER) |>) ;;;
  set_cpu c (fun c => c <| gdt ::= insert SEG_UDATA (SEG STA_W 0 0xffffffff DPL_USER) |>).

(** [sizeof(struct taskstate)] is 104. *)
Definition switchuvm (op : option nat) : KM unit :=
  match op with
  | None => kpanic "switchuvm: no process"
  | Some ip =>
      p <- get_proc ip ;;
      if kstack p =? 0 then kpanic "switchuvm: no kstack" else
      if pgdir p =? 0 then kpanic "switchuvm: no pgdir" else
      pushcli ;;;
      i <- mycpu ;;
      set_cpu i (fun c => c <| gdt ::= insert SEG_TSS (SEG16 STS_T32A (ts_addr i) (104 - 1) 0) |>) ;;;
      set_cpu i (fun c => c <| gdt ::= alter (set_s 0) SEG_TSS |>) ;;;
      set_cpu i (fun c => c <| ts ::= fun t => t <| ts_ss0 := Z.shiftl SEG_KDATA 3 |> |>) ;;;
      set_cpu i (fun c => c <| ts ::= fun t => t <| ts_esp0 := kstack p + KSTACKSIZE |> |>) ;;;
      set_cpu i (fun c => c <| ts ::= fun t => t <| ts_iomb := 0xFFFF |> |>) ;;;
      kmod (fun s => s <| k_tr := Z.shiftl SEG_TSS 3 |>) ;;;
      kmod (fun s => s <| k_cr3 := V2P (pgdir p) |>) ;;;
      popcli
  end.

(** ** User memory *)
Definition inituvm (pgdir init sz : Z) : KM unit :=
  if PGSIZE <=? sz then kpanic "inituvm: more than a page" else
  mem <- kalloc ;;
  if mem =? 0 then kundef "inituvm: null page" else
  k_memset mem 0 PGSIZE ;;;
  mappages pgdir 0 PGSIZE (V2P mem) (Z.lor PTE_W PTE_U) ;;;
  k_memmove mem init sz.

Fixpoint allocuvm_loop (fuel : nat) (pgdir oldsz newsz a : Z) : KM Z :=
  match fuel with
  | O => NoFuel
  | S k =>
      if a <? newsz then
        mem <- kalloc ;;
        if mem =? 0 then
          cprintf "allocuvm out of memory" ;;;
          deallocuvm pgdir newsz oldsz ;;;
          kret 0
        else
          k_memset mem 0 PGSIZE ;;;
          r <- mappages pgdir a PGSIZE (V2P mem) (Z.lor PTE_W PTE_U) ;;
          if r <? 0 then
            cprintf "allocuvm out of memory (2)" ;;;
            deallocuvm pgdir newsz oldsz ;;;
            kfree mem ;;;
            kret 0
          else allocuvm_loop k pgdir oldsz newsz (u32 (a + PGSIZE))
      else kret newsz
  end.

Definition allocuvm (pgdir oldsz newsz : Z) : KM Z :=
  if KERNBASE <=? newsz then kret 0 else
  if newsz <? oldsz then kret oldsz else
  let a := PGROUNDUP oldsz in
  allocuvm_loop (S (Z.to_nat ((newsz - a + PGSIZE - 1) / PGSIZE))) pgdir oldsz newsz a.

Definition clearpteu (pgdir uva : Z) : KM unit :=
  pte <- walkpgdir pgdir uva false ;;
  if pte =? 0 then kpanic "clearpteu" else
  v <- mem_read pte ;;
  mem_write pte (Z.land v (Z.lnot PTE_U)).

Fixpoint copyuvm_loop (fuel : nat) (pgdir d sz i : Z) : KM bool :=
  match fuel with
  | O => NoFuel
  | S k =>
      if i <? sz then
        pte <- walkpgdir pgdir i false ;;
        if pte =? 0 then kpanic "copyuvm: pte should exist" else
        v <- mem_read pte ;;
        if negb (c_true (Z.land v PTE_P)) then kpanic "copyuvm: page not present" else
        let pa := PTE_ADDR v in
        let flags := PTE_FLAGS v in
        mem <- kalloc ;;
        if mem =? 0 then kret false else
        k_memmove mem (P2V pa) PGSIZE ;;;
        r <- mappages d i PGSIZE (V2P mem) flags ;;
        if r <? 0 then kfree mem ;;; kret false else
        copyuvm_loop k pgdir d sz (u32 (i + PGSIZE))
      else kret true
  end.

(** [copyuvm]; the loop returns [false] where the code jumps to [bad]. *)
Definition copyuvm (pgdir sz : Z) : KM Z :=
  d <- setupkvm ;;
  if d =? 0 then kret 0 else
  ok <- copyuvm_loop (S (Z.to_nat ((sz + PGSIZE - 1) / PGSIZE))) pgdir d sz 0 ;;
  if ok : bool then kret d else
  freevm d ;;;
  kret 0.

Definition uva2ka (pgdir uva : Z) : KM Z :=
  pte <- walkpgdir pgdir uva false ;;
  if pte =? 0 then kundef "uva2ka: null pte" else
  v <- mem_read pte ;;
  if Z.land v PTE_P =? 0 then kret 0 else
  if Z.land v PTE_U =? 0 then kret 0 else
  kret (P2V (PTE_ADDR v)).

(** [copyout]; the fuel is one more than the number of pages of the range. *)
Fixpoint copyout_loop (fuel : nat) (pgdir va buf len : Z) : KM Z :=
  match fuel with
  | O => NoFuel
  | S k =>
      if 0 <? len then
        let va0 := PGROUNDDOWN va in
        pa0 <- uva2ka pgdir va0 ;;
        if pa0 =? 0 then kret (-1) else
        let n := PGSIZE - (va - va0) in
        let n := if len <? n then len else n in
        k_memmove (pa0 + (va - va0)) buf n ;;;
        copyout_loop k pgdir (u32 (va0 + PGSIZE)) (buf + n) (len - n)
      else kret 0
  end.

Definition copyout (pgdir va p len : Z) : KM Z :=
  copyout_loop (S (S (Z.to_nat (len / PGSIZE + 1)))) pgdir va p len.
End VmDefs.
