(* ===== verification/PageTable.v ===== *)
(** * Page tables as the MMU reads them

    The view of a page directory in memory, its well-formedness with respect
    to the free list ([pt_inv]), and the specifications of [walkpgdir] and
    [mappages]. *)

From stdpp Require Import base gmap strings list fin_maps.
From Stdlib Require Import ZArith Lia.
From S2P Require Import Prelude Mem Types Spinlock Kalloc Vm.

(** ** Bits of addresses and entries *)

Lemma land_mask a k : 0 <= k -> Z.land a (2 ^ k - 1) = a mod 2 ^ k.
Proof.
  intros. replace (2 ^ k - 1) with (Z.ones k) by (rewrite Z.ones_equiv; lia). by apply Z.land_ones.
Qed.

Lemma pdx_eq va : 0 <= va < 4294967296 -> PDX va = va / 4194304.
Proof.
  intros H. unfold PDX, PDXSHIFT. rewrite u32_id by done. rewrite Z.shiftr_div_pow2 by lia.
  change 0x3FF with (2 ^ 10 - 1). rewrite land_mask by lia.
  change (2 ^ 22) with 4194304. change (2 ^ 10) with 1024. apply Z.mod_small.
  split; [apply Z.div_pos; lia|]. apply Z.div_lt_upper_bound; lia.
Qed.

Lemma ptx_eq va : 0 <= va < 4294967296 -> PTX va = (va / 4096) mod 1024.
Proof.
  intros H. unfold PTX, PTXSHIFT. rewrite u32_id by done. rewrite Z.shiftr_div_pow2 by lia.
  change 0x3FF with (2 ^ 10 - 1). by rewrite land_mask by lia.
Qed.

Lemma pdx_range va : 0 <= PDX va < 1024.
Proof.
  unfold PDX. change 0x3FF with (2 ^ 10 - 1). rewrite land_mask by lia.
  apply Z.mod_pos_bound. lia.
Qed.

Lemma ptx_range va : 0 <= PTX va < 1024.
Proof.
  unfold PTX. change 0x3FF with (2 ^ 10 - 1). rewrite land_mask by lia.
  apply Z.mod_pos_bound. lia.
Qed.

(** Addresses with the same directory and table index are on the same page. *)
Lemma pdx_ptx_page a b :
  0 <= a < 4294967296 -> 0 <= b < 4294967296 ->
  PDX a = PDX b -> PTX a = PTX b -> a / 4096 = b / 4096.
Proof.
  intros Ha Hb. rewrite !pdx_eq, !ptx_eq by done. intros H1 H2. Z.div_mod_to_equations. lia.
Qed.

Lemma page_pdx_ptx a b :
  0 <= a < 4294967296 -> 0 <= b < 4294967296 ->
  a / 4096 = b / 4096 -> PDX a = PDX b /\ PTX a = PTX b.
Proof.
  intros Ha Hb H. rewrite !pdx_eq, !ptx_eq by done. rewrite H. split; [|done].
  change 4194304 with (4096 * 1024). rewrite <- !Z.div_div by lia. by rewrite H.
Qed.

Definition present (e : Z) : bool := c_true (Z.land e PTE_P).

Lemma present_odd e : present e = negb (e mod 2 =? 0).
Proof. unfold present, c_true, PTE_P. change 1 with (2 ^ 1 - 1) at 1. by rewrite land_mask. Qed.

Lemma present_0 : present 0 = false.
Proof. done. Qed.

Lemma pte_addr_eq e : 0 <= e < 4294967296 -> PTE_ADDR e = e / 4096 * 4096.
Proof.
  intros. unfold PTE_ADDR. rewrite u32_id by done.
  change 0xFFF with (2 ^ 12 - 1). by rewrite land_lnot_ones.
Qed.

Lemma pte_flags_eq e : 0 <= e < 4294967296 -> PTE_FLAGS e = e mod 4096.
Proof. intros. unfold PTE_FLAGS. rewrite u32_id by done. change 0xFFF with (2 ^ 12 - 1). by rewrite land_mask. Qed.

Lemma lor_flags pa fl : pa mod 4096 = 0 -> 0 <= fl < 4096 -> Z.lor pa fl = pa + fl.
Proof.
  intros Hpa Hfl. assert (E : pa = pa / 4096 * 2 ^ 12) by (change (2 ^ 12) with 4096; Z.div_mod_to_equations; lia).
  rewrite E. by apply lor_mul_add.
Qed.

Lemma lor_bound a b k : 0 <= k -> 0 <= a < 2 ^ k -> 0 <= b < 2 ^ k -> 0 <= Z.lor a b < 2 ^ k.
Proof.
  intros Hk Ha Hb. split; [apply Z.lor_nonneg; lia|].
  rewrite <- (Z.mod_small a (2 ^ k)), <- (Z.mod_small b (2 ^ k)) by done.
  rewrite <- !Z.land_ones by done. rewrite <- Z.land_lor_distr_l. rewrite Z.land_ones by done.
  apply Z.mod_pos_bound. lia.
Qed.

(** The entry [mappages] writes. *)
Definition mk_pte (pa perm : Z) : Z := Z.lor (Z.lor pa perm) PTE_P.

Lemma mk_pte_eq pa perm :
  pa mod 4096 = 0 -> 0 <= perm < 4096 -> mk_pte pa perm = pa + Z.lor perm 1 /\ 0 <= Z.lor perm 1 < 4096.
Proof.
  intros Hpa Hp. unfold mk_pte, PTE_P.
  assert (Hb : 0 <= Z.lor perm 1 < 2 ^ 12) by (apply lor_bound; lia).
  split; [|done]. rewrite <- Z.lor_assoc. by apply lor_flags.
Qed.

Lemma present_mk_pte pa perm : present (mk_pte pa perm) = true.
Proof.
  unfold present, mk_pte, PTE_P. apply c_true_true. intros H.
  assert (Hb : Z.testbit (Z.land (Z.lor (Z.lor pa perm) 1) 1) 0 = true).
  { rewrite Z.land_spec, !Z.lor_spec. cbn. by rewrite orb_true_r. }
  rewrite H in Hb. done.
Qed.

Lemma mk_pte_fields pa perm :
  pa mod 4096 = 0 -> 0 <= pa < 4294967296 -> 0 <= perm < 4096 ->
  0 <= mk_pte pa perm < 4294967296 /\ PTE_ADDR (mk_pte pa perm) = pa /\
  PTE_FLAGS (mk_pte pa perm) = Z.lor perm 1.
Proof.
  intros Hm Hpa Hp. destruct (mk_pte_eq pa perm Hm Hp) as [E Hb].
  assert (Hr : 0 <= mk_pte pa perm < 4294967296) by (rewrite E; Z.div_mod_to_equations; lia).
  split; [done|]. rewrite pte_addr_eq, pte_flags_eq by done. rewrite E.
  split; Z.div_mod_to_equations; lia.
Qed.

(** ** The view of a page directory *)

Definition pde_at (m : mem) (pgdir i : Z) : Z := ld32 m (pgdir + 4 * i).
Definition pt_page (e : Z) : Z := P2V (PTE_ADDR e).
Definition pt_of (m : mem) (pgdir i : Z) : option Z :=
  if present (pde_at m pgdir i) then Some (pt_page (pde_at m pgdir i)) else None.

(** The page table pages of a directory. *)
Definition pts (m : mem) (pgdir : Z) : list Z := omap (pt_of m pgdir) (seqZ 0 1024).

Lemma pts_eq m pgdir : pts m pgdir = omap (pt_of m pgdir) (seqZ 0 1024).
Proof. reflexivity. Qed.

(** The address of the entry for [va], and the entry the MMU reads: 0 when the
    directory has no table for [va]. *)
Definition slot (m : mem) (pgdir va : Z) : Z :=
  pt_page (pde_at m pgdir (PDX va)) + 4 * PTX va.
Definition pte_at (m : mem) (pgdir va : Z) : Z :=
  if present (pde_at m pgdir (PDX va)) then ld32 m (slot m pgdir va) else 0.

Definition same_page (m m' : mem) (q : Z) : Prop :=
  forall a, q <= a < q + 4096 -> ld8 m' a = ld8 m a.
Definition keeps (own : list Z) (m m' : mem) : Prop := forall q, q ∈ own -> same_page m m' q.

Lemma same_page_ld32 m m' q a :
  same_page m m' q -> q <= a -> a + 4 <= q + 4096 -> ld32 m' a = ld32 m a.
Proof. intros H H1 H2. apply ld32_ext. intros b Hb. apply H. lia. Qed.

Lemma same_page_trans m1 m2 m3 q : same_page m1 m2 q -> same_page m2 m3 q -> same_page m1 m3 q.
Proof. intros H1 H2 a Ha. by rewrite H2, H1. Qed.

Lemma keeps_refl own m : keeps own m m.
Proof. by intros q Hq a Ha. Qed.

Lemma keeps_trans own m1 m2 m3 : keeps own m1 m2 -> keeps own m2 m3 -> keeps own m1 m3.
Proof. intros H1 H2 q Hq. eapply same_page_trans; eauto. Qed.

Lemma keeps_sub own own' m m' : (forall q, q ∈ own' -> q ∈ own) -> keeps own m m' -> keeps own' m m'.
Proof. intros Hs H q Hq. apply H. auto. Qed.

Lemma outside_same p q m m' :
  outside p m m' -> p mod 4096 = 0 -> q mod 4096 = 0 -> p <> q -> same_page m m' q.
Proof. intros Ho Hp Hq Hne a Ha. apply Ho. destruct (page_sep p q Hp Hq Hne); lia. Qed.

Lemma elem_of_pts m pgdir p :
  p ∈ pts m pgdir <-> exists i, 0 <= i < 1024 /\ present (pde_at m pgdir i) = true /\ p = pt_page (pde_at m pgdir i).
Proof.
  unfold pts, pt_of. rewrite list_elem_of_omap. setoid_rewrite elem_of_seqZ. split.
  - intros (i & Hi & E). exists i. destruct (present _); [|done]. simplify_eq. split; [lia|done].
  - intros (i & Hi & E & ->). exists i. rewrite E. split; [lia|done].
Qed.

Lemma pde_at_same m m' pgdir i :
  same_page m m' pgdir -> 0 <= i < 1024 -> pde_at m' pgdir i = pde_at m pgdir i.
Proof. intros H Hi. unfold pde_at. eapply same_page_ld32; [done|lia|lia]. Qed.

Lemma pts_same m m' pgdir : same_page m m' pgdir -> pts m' pgdir = pts m pgdir.
Proof.
  intros H. apply omap_ext_in. intros i Hi. apply elem_of_seqZ in Hi.
  unfold pt_of. by rewrite (pde_at_same m m') by (done || lia).
Qed.

(** Entries depend only on the directory and its tables. *)
Lemma pte_at_same m m' pgdir va :
  same_page m m' pgdir -> (forall p, p ∈ pts m pgdir -> same_page m m' p) ->
  pte_at m' pgdir va = pte_at m pgdir va.
Proof.
  intros H Hp. pose proof (pdx_range va). pose proof (ptx_range va). unfold pte_at, slot.
  rewrite (pde_at_same m m') by done. destruct (present _) eqn:E; [|done].
  eapply same_page_ld32; [apply Hp, elem_of_pts; eauto|lia|lia].
Qed.

Section Inv.
Context `{L : Layout}.

(** The directory, its tables, the free pages and other pages [own] are
    pairwise distinct pages, and the allocator can be called. *)
Definition pt_inv (s : kernel) (pgdir : Z) (l own : list Z) : Prop :=
  mm_ready s /\ heap s l /\ NoDup (l ++ pgdir :: pts (k_mem s) pgdir ++ own) /\
  Forall page_ok (pgdir :: pts (k_mem s) pgdir ++ own).

Lemma pt_inv_ready s pgdir l own : pt_inv s pgdir l own -> mm_ready s.
Proof. by intros (? & _). Qed.
Lemma pt_inv_heap s pgdir l own : pt_inv s pgdir l own -> heap s l.
Proof. by intros (_ & ? & _). Qed.

Lemma pt_inv_pgdir s pgdir l own : pt_inv s pgdir l own -> page_ok pgdir.
Proof. intros (_ & _ & _ & H). by inversion H. Qed.

Lemma pt_inv_pts s pgdir l own p : pt_inv s pgdir l own -> p ∈ pts (k_mem s) pgdir -> page_ok p /\ p <> pgdir /\ p ∉ l /\ p ∉ own.
Proof.
  intros (_ & _ & Hnd & Hok) Hp. rewrite Forall_forall in Hok. split; [apply Hok; set_solver|].
  apply NoDup_app in Hnd as (_ & Hl & Hnd). apply NoDup_cons in Hnd as [Hd Hnd].
  apply NoDup_app in Hnd as (_ & Ho & _). split; [set_solver|]. split; [|by apply Ho].
  intros Hpl. apply (Hl p Hpl). set_solver.
Qed.

Lemma pt_inv_own s pgdir l own q : pt_inv s pgdir l own -> q ∈ own -> page_ok q /\ q <> pgdir /\ q ∉ l /\ q ∉ pts (k_mem s) pgdir.
Proof.
  intros (_ & _ & Hnd & Hok) Hq. rewrite Forall_forall in Hok. split; [apply Hok; set_solver|].
  apply NoDup_app in Hnd as (_ & Hl & Hnd). apply NoDup_cons in Hnd as [Hd Hnd].
  apply NoDup_app in Hnd as (_ & Ho & _). split; [set_solver|]. split; [|intros Hc; by apply (Ho q)].
  intros Hpl. apply (Hl q Hpl). set_solver.
Qed.

Lemma pt_inv_free s pgdir l own p : pt_inv s pgdir l own -> p ∈ l -> page_ok p /\ p <> pgdir /\ p ∉ pts (k_mem s) pgdir /\ p ∉ own.
Proof.
  intros (_ & (_ & Hokl & _) & Hnd & _) Hp. rewrite Forall_forall in Hokl. split; [auto|].
  apply NoDup_app in Hnd as (_ & Hl & _). specialize (Hl p Hp). set_solver.
Qed.

(** Distinct present directory entries have distinct tables. *)
Lemma pt_inv_inj s pgdir l own i j :
  pt_inv s pgdir l own -> 0 <= i < 1024 -> 0 <= j < 1024 ->
  present (pde_at (k_mem s) pgdir i) = true -> present (pde_at (k_mem s) pgdir j) = true ->
  pt_page (pde_at (k_mem s) pgdir i) = pt_page (pde_at (k_mem s) pgdir j) -> i = j.
Proof.
  intros (_ & _ & Hnd & _) Hi Hj Pi Pj E.
  apply NoDup_app in Hnd as (_ & _ & Hnd). apply NoDup_cons in Hnd as [_ Hnd].
  apply NoDup_app in Hnd as (Hnd & _ & _).
  rewrite pts_eq in Hnd.
  apply (omap_inj_NoDup (pt_of (k_mem s) pgdir) (seqZ 0 1024) i j (pt_page (pde_at (k_mem s) pgdir i)));
    [done|apply elem_of_seqZ; lia|apply elem_of_seqZ; lia| |].
  - unfold pt_of. by rewrite Pi.
  - unfold pt_of. by rewrite Pj, E.
Qed.

Lemma pages_shuffle (pgdir : Z) (l pt own : list Z) :
  l ++ pgdir :: pt ++ own ≡ₚ pgdir :: (l ++ pt) ++ own.
Proof. rewrite <- app_assoc. symmetry. apply Permutation_middle. Qed.

(** Moving pages between the free list, the tables and the other pages keeps
    the invariant. *)
Lemma pt_inv_move s s' pgdir l l' own own' :
  pt_inv s pgdir l own -> mm_ready s' -> heap s' l' ->
  l' ++ pts (k_mem s') pgdir ++ own' ≡ₚ l ++ pts (k_mem s) pgdir ++ own ->
  pt_inv s' pgdir l' own'.
Proof.
  intros (_ & (_ & Hokl & _) & Hnd & Hok) Hr Hh Hp. split; [done|]. split; [done|].
  rewrite pages_shuffle, <- app_assoc in Hnd |- *. rewrite Hp. split; [done|].
  apply Forall_cons in Hok as [Hd Hok]. apply Forall_cons. split; [done|].
  assert (Hall : Forall page_ok (l' ++ pts (k_mem s') pgdir ++ own')).
  { rewrite Hp. by apply Forall_app. }
  by apply Forall_app in Hall as [_ ?].
Qed.

Lemma pt_inv_step s s' pgdir l l' own :
  pt_inv s pgdir l own -> mm_ready s' -> heap s' l' ->
  l' ++ pts (k_mem s') pgdir ≡ₚ l ++ pts (k_mem s) pgdir -> pt_inv s' pgdir l' own.
Proof.
  intros Hinv Hr Hh Hp. apply (pt_inv_move s s' pgdir l l' own own Hinv Hr Hh).
  rewrite !(app_assoc _ _ own). by rewrite Hp.
Qed.

Lemma pt_inv_own_perm s pgdir l own own' :
  pt_inv s pgdir l own -> own ≡ₚ own' -> pt_inv s pgdir l own'.
Proof.
  intros Hinv Hp. apply (pt_inv_move s s pgdir l l own own' Hinv);
    [apply Hinv|by eapply pt_inv_heap|by rewrite Hp].
Qed.

(** Writing in pages that are neither free nor the directory. *)
Lemma pt_inv_write s pgdir l own m :
  pt_inv s pgdir l own -> same_page (k_mem s) m pgdir ->
  (forall p, p ∈ l -> same_page (k_mem s) m p) ->
  pt_inv (s <| k_mem := m |>) pgdir l own.
Proof.
  intros Hinv Hd Hl. pose proof Hinv as (Hr & (Hc & Hok) & _).
  apply (pt_inv_step s _ pgdir l l own Hinv).
  - done.
  - split; [|done]. eapply chain_ext; [|exact Hc]. intros p Hp. cbn.
    apply (same_page_ld32 _ _ p); [by apply Hl|lia|lia].
  - cbn. by rewrite (pts_same (k_mem s) m).
Qed.
End Inv.

(** ** [walkpgdir] *)
Section Walk.
Context `{L : Layout} {LO : LayoutOk L}.

Lemma walk_present s pgdir va b :
  present (pde_at (k_mem s) pgdir (PDX va)) = true ->
  walkpgdir pgdir va b s = Ret (slot (k_mem s) pgdir va) s.
Proof. intros H. unfold walkpgdir, mem_read, kget, kbind. cbn [obind]. unfold present, pde_at in H. by rewrite H. Qed.

Lemma walk_absent s pgdir va :
  present (pde_at (k_mem s) pgdir (PDX va)) = false -> walkpgdir pgdir va false s = Ret 0 s.
Proof. intros H. unfold walkpgdir, mem_read, kget, kbind. cbn [obind]. unfold present, pde_at in H. by rewrite H. Qed.

Lemma pt_page_of_alloc p :
  page_ok p ->
  let e := u32 (Z.lor (Z.lor (Z.lor (V2P p) PTE_P) PTE_W) PTE_U) in
  present e = true /\ pt_page e = p.
Proof.
  intros Hp. pose proof (page_ok_range p Hp) as Hr. rewrite V2P_page by done.
  destruct Hp as [Hm _]. unfold KERNBASE, EXTMEM, PHYSTOP, PTE_P, PTE_W, PTE_U in *.
  rewrite <- !Z.lor_assoc. change (Z.lor 1 (Z.lor 2 4)) with 7.
  assert (Hm' : (p - 2147483648) mod 4096 = 0) by (Z.div_mod_to_equations; lia).
  rewrite lor_flags by (done || lia). rewrite u32_id by lia. split.
  - rewrite present_odd. apply negb_true_iff, Z.eqb_neq. Z.div_mod_to_equations. lia.
  - unfold pt_page. rewrite pte_addr_eq by lia. unfold P2V, KERNBASE. rewrite u32_id.
    + Z.div_mod_to_equations. lia.
    + Z.div_mod_to_equations. lia.
Qed.

(** Installing the cleared page [p] as the table of directory entry [PDX va]. *)
Lemma new_table_facts s pgdir p l own va :
  pt_inv s pgdir (p :: l) own -> present (pde_at (k_mem s) pgdir (PDX va)) = false ->
  let m := k_mem s in
  let m2 := st32 (memset m p 0 PGSIZE) (pgdir + 4 * PDX va)
              (Z.lor (Z.lor (Z.lor (V2P p) PTE_P) PTE_W) PTE_U) in
  (forall q, q mod 4096 = 0 -> q <> p -> q <> pgdir -> same_page m m2 q) /\
  present (pde_at m2 pgdir (PDX va)) = true /\ pt_page (pde_at m2 pgdir (PDX va)) = p /\
  (forall i, 0 <= i < 1024 -> i <> PDX va -> pde_at m2 pgdir i = pde_at m pgdir i) /\
  pts m2 pgdir ≡ₚ p :: pts m pgdir /\
  (forall v, pte_at m2 pgdir v = pte_at m pgdir v).
Proof.
  intros Hinv Habs m m2. subst m. pose proof (pdx_range va) as Hx.
  destruct (pt_inv_free _ _ _ _ p Hinv) as ((Hpm & Hpr) & Hpd & Hpp & Hpo); [set_solver|].
  pose proof (pt_inv_pgdir _ _ _ _ Hinv) as [Hdm Hdr].
  assert (Hpg : p + 4096 <= pgdir \/ pgdir + 4096 <= p) by (by apply page_sep).
  assert (Hsame : forall q, q mod 4096 = 0 -> q <> p -> q <> pgdir -> same_page (k_mem s) m2 q).
  { intros q Hq Hqp Hqd a Ha. unfold m2, PGSIZE.
    destruct (page_sep q p Hq Hpm Hqp), (page_sep q pgdir Hq Hdm Hqd);
      rewrite ld8_st32_ne, ld8_memset by lia; by rewrite decide_False by lia. }
  assert (Hpde : pde_at m2 pgdir (PDX va) = u32 (Z.lor (Z.lor (Z.lor (V2P p) PTE_P) PTE_W) PTE_U)).
  { unfold pde_at, m2. apply ld32_st32_eq. }
  destruct (pt_page_of_alloc p) as [Hpres Hpage]; [done|].
  assert (Hoth : forall i, 0 <= i < 1024 -> i <> PDX va -> pde_at m2 pgdir i = pde_at (k_mem s) pgdir i).
  { intros i Hi Hne. unfold pde_at, m2, PGSIZE. rewrite ld32_st32_ne by lia. apply ld32_memset_out; lia. }
  split; [done|]. split; [by rewrite Hpde|]. split; [by rewrite Hpde|]. split; [done|]. split.
  - rewrite !pts_eq. apply (omap_insert_perm _ _ _ (PDX va)).
    + apply NoDup_seqZ.
    + apply elem_of_seqZ. lia.
    + unfold pt_of. by rewrite Habs.
    + unfold pt_of. rewrite Hpde, Hpres. by rewrite Hpage.
    + intros j Hj Hne. apply elem_of_seqZ in Hj. unfold pt_of. by rewrite Hoth by lia.
  - intros v. pose proof (pdx_range v) as Hv. pose proof (ptx_range v) as Hv'. unfold pte_at, slot.
    destruct (decide (PDX v = PDX va)) as [->|Hne].
    + rewrite Hpde, Hpres, Hpage, Habs. unfold m2, PGSIZE. rewrite ld32_st32_ne by lia.
      apply ld32_memset_in; lia.
    + rewrite Hoth by done. destruct (present (pde_at (k_mem s) pgdir (PDX v))) eqn:E; [|done].
      assert (Hin : pt_page (pde_at (k_mem s) pgdir (PDX v)) ∈ pts (k_mem s) pgdir) by (apply elem_of_pts; eauto).
      destruct (pt_inv_pts _ _ _ _ _ Hinv Hin) as ((Hm & _) & Hnd & Hnl & _).
      apply (same_page_ld32 _ _ (pt_page (pde_at (k_mem s) pgdir (PDX v)))); [|lia|lia].
      apply Hsame; [done|set_solver|done].
Qed.

(** What a successful or failed walk guarantees. *)
Record walk_post (s : kernel) (pgdir va : Z) (l own : list Z) (r : Z) (s' : kernel) (l' : list Z) : Prop := {
  wk_frame : mm_frame s s';
  wk_inv : pt_inv s' pgdir l' own;
  wk_pages : l' ++ pts (k_mem s') pgdir ≡ₚ l ++ pts (k_mem s) pgdir;
  wk_pte : forall v, pte_at (k_mem s') pgdir v = pte_at (k_mem s) pgdir v;
  wk_keeps : keeps own (k_mem s) (k_mem s');
  wk_pde : forall i, 0 <= i < 1024 -> i <> PDX va ->
             pde_at (k_mem s') pgdir i = pde_at (k_mem s) pgdir i;
  wk_res : (r = 0 /\ l' = [] /\ l = [] /\ k_mem s' = k_mem s /\
            present (pde_at (k_mem s) pgdir (PDX va)) = false) \/
           (r = slot (k_mem s') pgdir va /\ r <> 0 /\
            present (pde_at (k_mem s') pgdir (PDX va)) = true)
}.

Lemma slot_nonzero s pgdir l own va :
  pt_inv s pgdir l own -> present (pde_at (k_mem s) pgdir (PDX va)) = true ->
  slot (k_mem s) pgdir va <> 0.
Proof.
  intros Hinv Hp. pose proof (pdx_range va). pose proof (ptx_range va).
  destruct (pt_inv_pts _ _ _ _ (pt_page (pde_at (k_mem s) pgdir (PDX va))) Hinv) as (Hok & _);
    [apply elem_of_pts; eauto|].
  pose proof (page_ok_pos _ Hok). unfold slot. lia.
Qed.

Lemma wp_walk s pgdir l own va :
  pt_inv s pgdir l own ->
  wp (walkpgdir pgdir va true) (fun r s' => exists l', walk_post s pgdir va l own r s' l') s.
Proof.
  intros Hinv. destruct (present (pde_at (k_mem s) pgdir (PDX va))) eqn:Hp.
  - eapply wp_of_run; [by apply walk_present|]. exists l.
    split; try done; [apply mm_frame_refl|].
    right. split; [done|]. split; [by eapply slot_nonzero|done].
  - pose proof (pt_inv_ready _ _ _ _ Hinv) as Hr. pose proof (pt_inv_heap _ _ _ _ Hinv) as Hh.
    unfold walkpgdir. apply wp_bind, wp_get. unfold present, pde_at in Hp. rewrite Hp. cbn [negb].
    apply wp_bind. eapply wp_mono; [by apply wp_kalloc|]. intros r s1 (Hf1 & Hm1 & Hl).
    pose proof (mm_frame_ready _ _ Hf1 Hr) as Hr1.
    destruct l as [|p l]; destruct Hl as [-> Hh1].
    + apply wp_ret. exists []. split; try (by rewrite Hm1); [done| |by left].
      apply (pt_inv_step s _ _ [] _ _ Hinv); [done|done|by rewrite Hm1].
    + destruct (pt_inv_free _ _ _ _ p Hinv) as (Hpok & Hpd & Hpp & Hpo); [set_solver|].
      pose proof (page_ok_pos _ Hpok). destruct (Z.eqb_spec p 0); [lia|].
      destruct (new_table_facts s pgdir p l own va Hinv Hp) as (Hsame & Hpres & Hpage & Hoth & Hpts & Hpte).
      do 2 (apply wp_bind; apply wp_mod). apply wp_ret. exists l.
      set (m2 := st32 (memset (k_mem s) p 0 PGSIZE) (pgdir + 4 * PDX va)
              (Z.lor (Z.lor (Z.lor (V2P p) PTE_P) PTE_W) PTE_U)) in *.
      set (s2 := s1 <| k_mem ::= _ |> <| k_mem ::= _ |>).
      assert (Hm2 : k_mem s2 = m2) by (unfold s2, m2; cbn; by rewrite Hm1).
      assert (Hf2 : mm_frame s s2).
      { eapply mm_frame_trans; [exact Hf1|]. exists (k_mem s2), (k_kmem s1), (k_cpus s1), (k_console s1).
        split; [done|]. split; [apply csims_refl|done]. }
      assert (Hinv2 : pt_inv s2 pgdir l own).
      { apply (pt_inv_step s _ _ (p :: l) _ _ Hinv); [done| |].
        - destruct Hh1 as (Hc & Hok & Hnd). split; [|done]. rewrite Hm2.
          eapply chain_ext; [|exact Hc]. intros q Hq. rewrite Hm1.
          destruct (pt_inv_free _ _ _ _ q Hinv) as ((Hqm & _) & Hqd & _); [by apply list_elem_of_further|].
          apply (same_page_ld32 _ _ q); [|lia|lia]. apply Hsame; [done| |done].
          destruct Hh as (_ & _ & [Hnd' _]%NoDup_cons). by intros ->.
        - rewrite Hm2, Hpts. by rewrite <- Permutation_middle. }
      split; rewrite ?Hm2; try done.
      * by rewrite Hpts, <- Permutation_middle.
      * intros q Hq. destruct (pt_inv_own _ _ _ _ q Hinv Hq) as ((Hqm & _) & Hqd & Hql & _).
        apply Hsame; [done| |done]. intros ->. by apply Hql, list_elem_of_here.
      * right. split; [unfold slot; by rewrite Hpage|]. split; [|done].
        pose proof (ptx_range va). lia.
Qed.

(** Writing the entry of [va] changes the view at the page of [va] only. *)
Lemma write_pte s pgdir l own va v :
  pt_inv s pgdir l own -> 0 <= va < 4294967296 ->
  present (pde_at (k_mem s) pgdir (PDX va)) = true ->
  let m := k_mem s in let m' := st32 m (slot m pgdir va) v in
  pt_inv (s <| k_mem := m' |>) pgdir l own /\ keeps own m m' /\ pts m' pgdir = pts m pgdir /\
  (forall i, 0 <= i < 1024 -> pde_at m' pgdir i = pde_at m pgdir i) /\
  (forall w, 0 <= w < 4294967296 ->
     pte_at m' pgdir w = if decide (w / 4096 = va / 4096) then u32 v else pte_at m pgdir w).
Proof.
  intros Hinv Hva Hp m m'. pose proof (pdx_range va) as Hx. pose proof (ptx_range va) as Hx'.
  set (p := pt_page (pde_at m pgdir (PDX va))).
  assert (Hin : p ∈ pts m pgdir) by (apply elem_of_pts; eauto).
  destruct (pt_inv_pts _ _ _ _ _ Hinv Hin) as ((Hpm & Hpr) & Hpd & Hpl & Hpo).
  assert (Hsame : forall q, q mod 4096 = 0 -> q <> p -> same_page m m' q).
  { intros q Hq Hne a Ha. unfold m', slot. fold p.
    destruct (page_sep q p Hq Hpm Hne); apply ld8_st32_ne; lia. }
  pose proof (pt_inv_pgdir _ _ _ _ Hinv) as [Hdm _].
  assert (Hdir : same_page m m' pgdir) by (apply Hsame; [done|congruence]).
  assert (Hpde : forall i, 0 <= i < 1024 -> pde_at m' pgdir i = pde_at m pgdir i)
    by (intros; by apply pde_at_same).
  split; [|split; [|split; [|split; [done|]]]].
  - apply pt_inv_write; [done|done|]. intros q Hq.
    destruct (pt_inv_free _ _ _ _ q Hinv Hq) as ((Hqm & _) & _). apply Hsame; [done|set_solver].
  - intros q Hq. destruct (pt_inv_own _ _ _ _ q Hinv Hq) as ((Hqm & _) & _).
    apply Hsame; [done|set_solver].
  - by apply pts_same.
  - intros w Hw. pose proof (pdx_range w) as Hwx. pose proof (ptx_range w) as Hwx'.
    unfold pte_at at 1, slot at 1. rewrite Hpde by done.
    case_decide as Hd.
    + destruct (page_pdx_ptx w va Hw Hva Hd) as [E1 E2]. rewrite E1, E2. unfold m in *. rewrite Hp.
      apply ld32_st32_eq.
    + unfold pte_at. destruct (present (pde_at m pgdir (PDX w))) eqn:Ew; [|done]. unfold slot.
      destruct (decide (PDX w = PDX va)) as [E1|Hne].
      * assert (PTX w <> PTX va). { intros E2. apply Hd. by apply pdx_ptx_page. }
        rewrite E1. apply ld32_st32_ne. fold p. unfold slot. fold p. lia.
      * set (q := pt_page (pde_at m pgdir (PDX w))).
        assert (Hq : q ∈ pts m pgdir) by (apply elem_of_pts; eauto).
        destruct (pt_inv_pts _ _ _ _ _ Hinv Hq) as ((Hqm & _) & _).
        apply (same_page_ld32 _ _ q); [|lia|lia]. apply Hsame; [done|].
        intros E. apply Hne. by apply (pt_inv_inj _ _ _ _ _ _ Hinv).
Qed.
End Walk.

(** ** [mappages] *)
Section Map.
Context `{L : Layout} {LO : LayoutOk L}.

(** [v] is on one of the pages from [a] to [last]. *)
Definition in_pages (a last v : Z) : Prop := a / 4096 <= v / 4096 <= last / 4096.

#[global] Instance in_pages_dec a last v : Decision (in_pages a last v).
Proof. unfold in_pages. apply _. Defined.

(** The entry for [v] when the pages from [a] on are mapped to [pa] on. *)
Definition entry_for (a pa perm v : Z) : Z := mk_pte (u32 (pa + (v / 4096 * 4096 - a))) perm.

(** What [mappages] guarantees, whether it returns 0 or -1. *)
Record map_post (s : kernel) (pgdir a last pa perm : Z) (l own : list Z)
    (r : Z) (s' : kernel) (l' : list Z) : Prop := {
  mp_frame : mm_frame s s';
  mp_inv : pt_inv s' pgdir l' own;
  mp_pages : l' ++ pts (k_mem s') pgdir ≡ₚ l ++ pts (k_mem s) pgdir;
  mp_keeps : keeps own (k_mem s) (k_mem s');
  mp_pde : forall i, 0 <= i < 1024 -> present (pde_at (k_mem s') pgdir i) = true ->
             present (pde_at (k_mem s) pgdir i) = true \/ PDX a <= i <= PDX last;
  mp_mono : forall i, 0 <= i < 1024 -> present (pde_at (k_mem s) pgdir i) = true ->
             present (pde_at (k_mem s') pgdir i) = true;
  mp_out : forall v, 0 <= v < 4294967296 -> ~ in_pages a last v ->
             pte_at (k_mem s') pgdir v = pte_at (k_mem s) pgdir v;
  mp_res :
    (r = 0 /\
     (forall v, 0 <= v < 4294967296 -> in_pages a last v ->
        pte_at (k_mem s') pgdir v = entry_for a pa perm v) /\
     (forall i, PDX a <= i <= PDX last -> present (pde_at (k_mem s') pgdir i) = true)) \/
    (r = -1 /\ l' = [] /\
     (exists i, PDX a <= i <= PDX last /\ present (pde_at (k_mem s') pgdir i) = false) /\
     pte_at (k_mem s') pgdir last = pte_at (k_mem s) pgdir last /\
     (forall v, 0 <= v < 4294967296 -> in_pages a last v ->
        pte_at (k_mem s') pgdir v = pte_at (k_mem s) pgdir v \/
        pte_at (k_mem s') pgdir v = entry_for a pa perm v))
}.

Lemma pdx_mono a b : 0 <= a -> a <= b -> b < 4294967296 -> PDX a <= PDX b.
Proof. intros. rewrite !pdx_eq by lia. apply Z.div_le_mono; lia. Qed.

Lemma entry_for_step a pa perm v : entry_for (a + 4096) (u32 (pa + 4096)) perm v = entry_for a pa perm v.
Proof.
  unfold entry_for. f_equal. unfold u32. rewrite Zplus_mod_idemp_l. f_equal. lia.
Qed.

(** One iteration: a walk and a write. *)
Record map_step (s : kernel) (pgdir a pa perm : Z) (l own : list Z) (s2 : kernel) (l2 : list Z) : Prop := {
  ms_frame : mm_frame s s2;
  ms_inv : pt_inv s2 pgdir l2 own;
  ms_pages : l2 ++ pts (k_mem s2) pgdir ≡ₚ l ++ pts (k_mem s) pgdir;
  ms_keeps : keeps own (k_mem s) (k_mem s2);
  ms_pde : forall i, 0 <= i < 1024 -> i <> PDX a ->
             pde_at (k_mem s2) pgdir i = pde_at (k_mem s) pgdir i;
  ms_pres : present (pde_at (k_mem s2) pgdir (PDX a)) = true;
  ms_pte : forall v, 0 <= v < 4294967296 ->
             pte_at (k_mem s2) pgdir v =
             if decide (v / 4096 = a / 4096) then mk_pte pa perm else pte_at (k_mem s) pgdir v
}.

Lemma map_step_walk s s1 pgdir a pa perm l l1 own r :
  walk_post s pgdir a l own r s1 l1 -> r <> 0 -> 0 <= a < 4294967296 ->
  pa mod 4096 = 0 -> 0 <= pa < 4294967296 -> 0 <= perm < 4096 ->
  map_step s pgdir a pa perm l own (s1 <| k_mem ::= fun m => st32 m r (mk_pte pa perm) |>) l1.
Proof.
  intros [Hf1 Hi1 Hp1 Hv1 Hk1 Hd1 Hr1] Hr Ha Hpm Hpa Hperm.
  destruct Hr1 as [(? & _)|(-> & _ & Hpres)]; [done|].
  destruct (write_pte s1 pgdir l1 own a (mk_pte pa perm) Hi1 Ha Hpres) as (Hi2 & Hk2 & Hp2 & Hd2 & Hv2).
  destruct (mk_pte_fields pa perm Hpm Hpa Hperm) as (Hrange & _).
  pose proof (pdx_range a). split.
  - eapply mm_frame_trans; [exact Hf1|]. by apply (mm_frame_mem s1).
  - exact Hi2.
  - cbn [k_mem update upd_k_mem]. rewrite Hp2. exact Hp1.
  - eapply keeps_trans; [exact Hk1|exact Hk2].
  - intros i Hi Hne. cbn [k_mem update upd_k_mem]. rewrite Hd2 by done. by apply Hd1.
  - cbn [k_mem update upd_k_mem]. by rewrite Hd2.
  - intros v Hv. cbn [k_mem update upd_k_mem]. rewrite Hv2 by done. rewrite u32_id by done.
    by rewrite Hv1.
Qed.

Lemma entry_for_self a pa perm v :
  a mod 4096 = 0 -> 0 <= pa < 4294967296 -> v / 4096 = a / 4096 ->
  entry_for a pa perm v = mk_pte pa perm.
Proof.
  intros Ha Hpa E. unfold entry_for. rewrite E.
  replace (pa + (a / 4096 * 4096 - a)) with pa by (Z.div_mod_to_equations; lia).
  by rewrite u32_id.
Qed.

Lemma map_step_last s pgdir a pa perm l own s2 l2 :
  map_step s pgdir a pa perm l own s2 l2 -> a mod 4096 = 0 -> 0 <= pa < 4294967296 ->
  map_post s pgdir a a pa perm l own 0 s2 l2.
Proof.
  intros [Hf Hi Hp Hk Hd Hpres Hv] Ha Hpa. split; try done.
  - intros i Hir. destruct (decide (i = PDX a)) as [->|Hne]; [right; lia|]. left. by rewrite <- Hd.
  - intros i Hir. destruct (decide (i = PDX a)) as [->|Hne]; [done|]. by rewrite Hd.
  - intros v Hr Hn. rewrite Hv by done. rewrite decide_False; [done|]. unfold in_pages in Hn. lia.
  - left. split; [done|]. split.
    + intros v Hr Hn. rewrite Hv by done. unfold in_pages in Hn.
      rewrite decide_True by lia. rewrite entry_for_self by (done || lia). done.
    + intros i Hir. by replace i with (PDX a) by lia.
Qed.

Lemma page_step a : a mod 4096 = 0 -> (a + 4096) / 4096 = a / 4096 + 1.
Proof. intros. Z.div_mod_to_equations. lia. Qed.

Lemma pdx_step a : 0 <= a -> a + 4096 < 4294967296 -> PDX a <= PDX (a + 4096) <= PDX a + 1.
Proof. intros. rewrite !pdx_eq by lia. Z.div_mod_to_equations. lia. Qed.

Lemma map_step_cons s pgdir a last pa perm l own s2 l2 r s' l' :
  map_step s pgdir a pa perm l own s2 l2 ->
  map_post s2 pgdir (a + 4096) last (u32 (pa + 4096)) perm l2 own r s' l' ->
  a mod 4096 = 0 -> last mod 4096 = 0 -> 0 <= a -> a < last -> last < 4294967296 -> 0 <= pa < 4294967296 ->
  map_post s pgdir a last pa perm l own r s' l'.
Proof.
  intros [Hf Hi Hp Hk Hd Hpres Hv] [Hf' Hi' Hp' Hk' Hd' Hm' Ho' Hr'] Ham Hlm Ha Hal Hlast Hpa.
  assert (Hal' : a + 4096 <= last) by (Z.div_mod_to_equations; lia).
  pose proof (pdx_range a) as Hxa. pose proof (pdx_step a Ha ltac:(lia)) as Hxs.
  pose proof (pdx_mono (a + 4096) last ltac:(lia) Hal' Hlast) as Hxm.
  pose proof (page_step a Ham) as Hstep.
  assert (Hpl : a / 4096 < last / 4096) by (Z.div_mod_to_equations; lia).
  assert (Hin : forall v, in_pages a last v <-> v / 4096 = a / 4096 \/ in_pages (a + 4096) last v)
    by (intros v; unfold in_pages; rewrite Hstep; lia).
  assert (Hself : forall v, 0 <= v < 4294967296 -> v / 4096 = a / 4096 ->
            pte_at (k_mem s') pgdir v = entry_for a pa perm v).
  { intros v Hvr E. rewrite Ho' by (done || (unfold in_pages; lia)). rewrite Hv by done.
    rewrite decide_True by done. by rewrite entry_for_self. }
  split.
  - by eapply mm_frame_trans.
  - done.
  - by rewrite Hp'.
  - by eapply keeps_trans.
  - intros i Hir Hpi. destruct (Hd' i Hir Hpi) as [H|H]; [|right; lia].
    destruct (decide (i = PDX a)) as [->|Hne]; [right; lia|left; by rewrite <- Hd].
  - intros i Hir Hpi. apply Hm'; [done|].
    destruct (decide (i = PDX a)) as [->|Hne]; [done|by rewrite Hd].
  - intros v Hvr Hn. rewrite Hin in Hn. rewrite Ho' by tauto. rewrite Hv by done.
    by rewrite decide_False by tauto.
  - destruct Hr' as [(-> & Hval & Hpd)|(-> & -> & (i & Hir & Hab) & Hla & Hval)]; [left|right].
    + split; [done|]. split.
      * intros v Hvr [E|H]%Hin; [by apply Hself|]. rewrite Hval by done. apply entry_for_step.
      * intros i Hir. destruct (decide (i = PDX a)) as [->|Hne]; [by apply Hm'|apply Hpd; lia].
    + split; [done|]. split; [done|]. split; [exists i; split; [lia|done]|]. split.
      * rewrite Hla. rewrite Hv by lia. by rewrite decide_False by lia.
      * intros v Hvr Hiv. destruct (decide (v / 4096 = a / 4096)) as [E|Hne]; [right; by apply Hself|].
        apply Hin in Hiv as [?|Hiv]; [done|].
        destruct (Hval v Hvr Hiv) as [E|E]; rewrite E; [left|right; apply entry_for_step].
        rewrite Hv by done. by rewrite decide_False.
Qed.

Lemma wp_mappages_loop fuel s pgdir a last pa perm l own :
  pt_inv s pgdir l own ->
  a mod 4096 = 0 -> last mod 4096 = 0 -> 0 <= a -> a <= last -> last < 4294967296 ->
  pa mod 4096 = 0 -> 0 <= pa < 4294967296 -> 0 <= perm < 4096 ->
  (forall v, 0 <= v < 4294967296 -> in_pages a last v -> present (pte_at (k_mem s) pgdir v) = false) ->
  (Z.to_nat ((last - a) / 4096) < fuel)%nat ->
  wp (mappages_loop fuel pgdir a last pa perm)
     (fun r s' => exists l', map_post s pgdir a last pa perm l own r s' l') s.
Proof.
  revert s a pa l; induction fuel as [|fuel IH];
    intros s a pa l Hinv Ham Hlm Ha Hal Hlast Hpm Hpa Hperm Habs Hfuel; [lia|].
  cbn [mappages_loop]. apply wp_bind. eapply wp_mono; [by apply wp_walk|].
  intros r s1 (l1 & Hw).
  assert (Hra : 0 <= a < 4294967296) by lia.
  assert (Hmono : PDX a <= PDX last) by (apply pdx_mono; lia).
  pose proof (wk_pte _ _ _ _ _ _ _ _ Hw a) as Hv1.
  destruct (wk_res _ _ _ _ _ _ _ _ Hw) as [(-> & -> & -> & Em & Hab)|(-> & Hnz & Hpres)].
  { cbn. apply wp_ret. exists []. pose proof (pdx_range a) as Hx.
    destruct Hw as [Hf1 Hi1 Hp1 _ _ _ _]. split; rewrite ?Em; try done; [tauto|].
    right. split; [done|]. split; [done|]. split; [exists (PDX a); split; [lia|done]|].
    split; [done|]. auto. }
  destruct (Z.eqb_spec (slot (k_mem s1) pgdir a) 0) as [?|_]; [done|].
  apply wp_bind, wp_get.
  assert (Ea : ld32 (k_mem s1) (slot (k_mem s1) pgdir a) = pte_at (k_mem s1) pgdir a)
    by (unfold pte_at; by rewrite Hpres).
  rewrite Ea, Hv1. fold (present (pte_at (k_mem s) pgdir a)).
  rewrite Habs by (done || (unfold in_pages; split; [lia|apply Z.div_le_mono; lia])).
  apply wp_bind, wp_mod. fold (mk_pte pa perm).
  pose proof (map_step_walk _ _ _ _ _ _ _ _ _ _ Hw Hnz Hra Hpm Hpa Hperm) as Hstep.
  set (s2 := s1 <| k_mem ::= _ |>) in *.
  destruct (Z.eqb_spec a last) as [<-|Hne].
  { apply wp_ret. exists l1. by apply map_step_last. }
  assert (Hal' : a + 4096 <= last) by (Z.div_mod_to_equations; lia).
  unfold PGSIZE. rewrite (u32_id (a + 4096)) by lia.
  eapply wp_mono.
  - apply (IH s2 (a + 4096) (u32 (pa + 4096)) l1).
    + apply (ms_inv _ _ _ _ _ _ _ _ _ Hstep).
    + Z.div_mod_to_equations; lia.
    + done.
    + lia.
    + done.
    + done.
    + unfold u32. Z.div_mod_to_equations. lia.
    + apply u32_range.
    + done.
    + intros v Hv Hin. rewrite (ms_pte _ _ _ _ _ _ _ _ _ Hstep) by done.
      unfold in_pages in *. rewrite page_step in Hin by done.
      rewrite decide_False by lia. apply Habs; [done|lia].
    + replace (last - a) with (last - (a + 4096) + 1 * 4096) in Hfuel by lia.
      rewrite Z.div_add in Hfuel by lia. assert (0 <= (last - (a + 4096)) / 4096) by (apply Z.div_pos; lia). lia.
  - intros r s' (l' & Hpost). exists l'. eapply map_step_cons; try done; lia.
Qed.

(** [mappages] on a range of whole pages that are not mapped. *)
Lemma wp_mappages s pgdir va size pa perm l own :
  pt_inv s pgdir l own ->
  0 <= va -> va mod 4096 = 0 -> 0 < size -> va + size <= 4294967296 ->
  pa mod 4096 = 0 -> 0 <= pa < 4294967296 -> 0 <= perm < 4096 ->
  let last := (va + size - 1) / 4096 * 4096 in
  (forall v, 0 <= v < 4294967296 -> in_pages va last v -> present (pte_at (k_mem s) pgdir v) = false) ->
  wp (mappages pgdir va size pa perm)
     (fun r s' => exists l', map_post s pgdir va last pa perm l own r s' l') s.
Proof.
  intros Hinv Hva Hvm Hsz Hend Hpm Hpa Hperm last Habs. unfold mappages.
  assert (E1 : u32 (u32 (va + size) - 1) = va + size - 1).
  { unfold u32. rewrite Zminus_mod_idemp_l. apply Z.mod_small. lia. }
  rewrite E1. rewrite !pgrounddown_eq by lia.
  replace (va / 4096 * 4096) with va by (Z.div_mod_to_equations; lia). fold last.
  assert (Hlast : va <= last < 4294967296) by (unfold last; Z.div_mod_to_equations; lia).
  apply wp_mappages_loop; try done; try lia.
  - unfold last. by rewrite Z.mod_mul.
  - unfold PGSIZE. rewrite u32_id by lia. lia.
Qed.
End Map.
