(* ===== verification/Uvm.v ===== *)
(** * User address spaces

    The pages a directory maps below [KERNBASE], and what the routines of
    [vm.c] that build, grow, shrink, copy and destroy an address space do to
    them. *)

From stdpp Require Import base gmap strings list fin_maps.
From Stdlib Require Import ZArith Lia.
From S2P Require Import Prelude Mem Types Spinlock Kalloc Vm PageTable.

(** ** The pages of a user address space *)

(** The page that an entry maps, as a kernel address. *)
Definition pte_page (e : Z) : Z := P2V (PTE_ADDR e).
Definition upage (m : mem) (pgdir a : Z) : option Z :=
  if present (pte_at m pgdir a) then Some (pte_page (pte_at m pgdir a)) else None.

(** The page addresses below [KERNBASE]. *)
Definition uaddrs : list Z := (fun i => i * 4096) <$> seqZ 0 524288.
Definition upages (m : mem) (pgdir : Z) : list Z := omap (upage m pgdir) uaddrs.

Lemma upages_eq m pgdir : upages m pgdir = omap (upage m pgdir) uaddrs.
Proof. reflexivity. Qed.

Lemma uaddrs_eq : uaddrs = (fun i => i * 4096) <$> seqZ 0 524288.
Proof. reflexivity. Qed.

Lemma elem_of_uaddrs a : a ∈ uaddrs <-> a mod 4096 = 0 /\ 0 <= a < KERNBASE.
Proof.
  unfold uaddrs, KERNBASE. rewrite list_elem_of_fmap. setoid_rewrite elem_of_seqZ. split.
  - intros (i & -> & Hi). split; [by rewrite Z.mod_mul|lia].
  - intros [Hm Hr]. exists (a / 4096). Z.div_mod_to_equations. lia.
Qed.

Lemma NoDup_uaddrs : NoDup uaddrs.
Proof.
  unfold uaddrs. apply NoDup_fmap; [intros x y; lia|apply NoDup_seqZ].
Qed.

#[global] Opaque uaddrs upages pts.

(** Entries are the same at all addresses of a page. *)
Lemma pte_at_page m pgdir v w :
  0 <= v < 4294967296 -> 0 <= w < 4294967296 -> v / 4096 = w / 4096 ->
  pte_at m pgdir v = pte_at m pgdir w.
Proof.
  intros Hv Hw E. destruct (page_pdx_ptx v w Hv Hw E) as [E1 E2].
  unfold pte_at, slot. by rewrite E1, E2.
Qed.

Lemma elem_of_upages m pgdir q :
  q ∈ upages m pgdir <->
  exists v, 0 <= v < KERNBASE /\ present (pte_at m pgdir v) = true /\ q = pte_page (pte_at m pgdir v).
Proof.
  rewrite upages_eq, list_elem_of_omap. unfold upage, KERNBASE. split.
  - intros (a & [_ Ha]%elem_of_uaddrs & E). exists a. destruct (present _); [|done]. by simplify_eq.
  - intros (v & Hv & Hp & ->). exists (v / 4096 * 4096).
    assert (E : pte_at m pgdir (v / 4096 * 4096) = pte_at m pgdir v)
      by (apply pte_at_page; Z.div_mod_to_equations; lia).
    rewrite E, Hp. split; [|done]. apply elem_of_uaddrs. unfold KERNBASE.
    split; [by rewrite Z.mod_mul|]. Z.div_mod_to_equations; lia.
Qed.

(** The user pages depend only on the user entries. *)
Lemma upages_ext m m' pgdir pgdir' :
  (forall v, 0 <= v < KERNBASE -> pte_at m' pgdir' v = pte_at m pgdir v) ->
  upages m' pgdir' = upages m pgdir.
Proof.
  intros H. rewrite !upages_eq. apply omap_ext_in. intros a [_ Ha]%elem_of_uaddrs.
  unfold upage. by rewrite H.
Qed.

(** Adding one entry adds its page; read backwards, clearing one removes it. *)
Lemma upages_add m m' pgdir a :
  0 <= a < KERNBASE -> present (pte_at m pgdir a) = false ->
  present (pte_at m' pgdir a) = true ->
  (forall v, 0 <= v < 4294967296 -> v / 4096 <> a / 4096 -> pte_at m' pgdir v = pte_at m pgdir v) ->
  upages m' pgdir ≡ₚ pte_page (pte_at m' pgdir a) :: upages m pgdir.
Proof.
  intros Ha H1 H2 Ho. rewrite !upages_eq. unfold KERNBASE in *.
  assert (E : forall x, pte_at x pgdir (a / 4096 * 4096) = pte_at x pgdir a)
    by (intros; apply pte_at_page; Z.div_mod_to_equations; lia).
  apply (omap_insert_perm _ _ _ (a / 4096 * 4096)).
  - apply NoDup_uaddrs.
  - apply elem_of_uaddrs. unfold KERNBASE. split; [by rewrite Z.mod_mul|Z.div_mod_to_equations; lia].
  - unfold upage. by rewrite E, H1.
  - unfold upage. by rewrite E, H2.
  - intros j [Hj1 Hj2]%elem_of_uaddrs Hne. unfold upage, KERNBASE in *. rewrite Ho; [done|lia|].
    Z.div_mod_to_equations. lia.
Qed.

(** Distinct user pages are mapped to distinct pages of memory. *)
Lemma upages_inj m pgdir v w :
  NoDup (upages m pgdir) -> 0 <= v < KERNBASE -> 0 <= w < KERNBASE ->
  present (pte_at m pgdir v) = true -> present (pte_at m pgdir w) = true ->
  pte_page (pte_at m pgdir v) = pte_page (pte_at m pgdir w) -> v / 4096 = w / 4096.
Proof.
  intros Hnd Hv Hw Pv Pw E. rewrite upages_eq in Hnd. unfold KERNBASE in *.
  assert (Ev : forall x, 0 <= x < 2147483648 ->
            pte_at m pgdir (x / 4096 * 4096) = pte_at m pgdir x /\ x / 4096 * 4096 ∈ uaddrs).
  { intros x Hx. split; [apply pte_at_page; Z.div_mod_to_equations; lia|].
    apply elem_of_uaddrs. unfold KERNBASE. split; [by rewrite Z.mod_mul|Z.div_mod_to_equations; lia]. }
  destruct (Ev v Hv) as [Ev1 Ev2], (Ev w Hw) as [Ew1 Ew2].
  assert (H : v / 4096 * 4096 = w / 4096 * 4096); [|lia].
  apply (omap_inj_NoDup (upage m pgdir) uaddrs _ _ (pte_page (pte_at m pgdir v))); try done; unfold upage.
  - by rewrite Ev1, Pv.
  - by rewrite Ew1, Pw, E.
Qed.

(** ** Releasing user pages *)
Section Dealloc.
Context `{L : Layout} {LO : LayoutOk L}.

(** The directory, its tables, its user pages, the free pages and the pages
    [own] of other parts are pairwise distinct. *)
Definition as_inv (s : kernel) (pgdir : Z) (l own : list Z) : Prop :=
  pt_inv s pgdir l (upages (k_mem s) pgdir ++ own).

Lemma as_inv_upage s pgdir l own v :
  as_inv s pgdir l own -> 0 <= v < KERNBASE -> present (pte_at (k_mem s) pgdir v) = true ->
  let q := pte_page (pte_at (k_mem s) pgdir v) in
  page_ok q /\ q <> pgdir /\ q ∉ l /\ q ∉ pts (k_mem s) pgdir /\ q ∈ upages (k_mem s) pgdir.
Proof.
  intros Hinv Hv Hp q. assert (Hq : q ∈ upages (k_mem s) pgdir) by (apply elem_of_upages; eauto).
  destruct (pt_inv_own _ _ _ _ q Hinv) as (? & ? & ? & ?); [apply elem_of_app; by left|done].
Qed.

Lemma as_inv_NoDup s pgdir l own : as_inv s pgdir l own -> NoDup (upages (k_mem s) pgdir).
Proof.
  intros (_ & _ & Hnd & _). apply NoDup_app in Hnd as (_ & _ & Hnd). apply NoDup_cons in Hnd as [_ Hnd].
  apply NoDup_app in Hnd as (_ & _ & Hnd). by apply NoDup_app in Hnd as (? & _).
Qed.

(** A page that is neither the directory nor a table can change freely. *)
Lemma view_outside s s' pgdir l own q :
  pt_inv s pgdir l own -> outside q (k_mem s) (k_mem s') -> page_ok q -> q <> pgdir ->
  q ∉ pts (k_mem s) pgdir ->
  pts (k_mem s') pgdir = pts (k_mem s) pgdir /\
  (forall i, 0 <= i < 1024 -> pde_at (k_mem s') pgdir i = pde_at (k_mem s) pgdir i) /\
  forall v, pte_at (k_mem s') pgdir v = pte_at (k_mem s) pgdir v.
Proof.
  intros Hinv Ho [Hq _] Hqd Hqp. pose proof (pt_inv_pgdir _ _ _ _ Hinv) as [Hd _].
  assert (Hsd : same_page (k_mem s) (k_mem s') pgdir) by (by apply (outside_same q)).
  split; [by apply pts_same|]. split; [intros; by apply pde_at_same|].
  intros v. apply pte_at_same; [done|]. intros p Hp.
  destruct (pt_inv_pts _ _ _ _ p Hinv Hp) as ((Hpm & _) & _).
  apply (outside_same q); try done. congruence.
Qed.

Lemma wp_free_user s pgdir l own a :
  as_inv s pgdir l own -> 0 <= a < KERNBASE -> present (pte_at (k_mem s) pgdir a) = true ->
  let q := pte_page (pte_at (k_mem s) pgdir a) in
  wp (kfree q ;;; mem_write (slot (k_mem s) pgdir a) 0) (fun _ s' =>
    mm_frame s s' /\ as_inv s' pgdir (q :: l) own /\
    upages (k_mem s) pgdir ≡ₚ q :: upages (k_mem s') pgdir /\
    pts (k_mem s') pgdir = pts (k_mem s) pgdir /\
    keeps (upages (k_mem s') pgdir ++ own) (k_mem s) (k_mem s') /\
    forall v, 0 <= v < 4294967296 -> pte_at (k_mem s') pgdir v =
      if decide (v / 4096 = a / 4096) then 0 else pte_at (k_mem s) pgdir v) s.
Proof.
  intros Hinv Ha Hp q. destruct (as_inv_upage _ _ _ _ _ Hinv Ha Hp) as (Hok & Hqd & Hql & Hqp & Hqu). fold q in Hok, Hqd, Hql, Hqp, Hqu.
  apply list_elem_of_split in Hqu as (u1 & u2 & Hu). set (u := u1 ++ u2).
  assert (Hperm : upages (k_mem s) pgdir ≡ₚ q :: u) by (rewrite Hu; unfold u; by rewrite Permutation_middle).
  apply wp_bind. eapply wp_mono; [by apply (wp_kfree s l); [apply Hinv|eapply pt_inv_heap| |]|].
  intros _ s1 (Hf1 & Hh1 & Ho1).
  destruct (view_outside s s1 pgdir l _ q Hinv Ho1 Hok Hqd Hqp) as (Hpts1 & Hpde1 & Hpte1).
  assert (Hi1 : pt_inv s1 pgdir (q :: l) (u ++ own)).
  { apply (pt_inv_move s s1 pgdir l (q :: l) _ _ Hinv); [by eapply mm_frame_ready, Hinv|done|].
    rewrite Hpts1, Hperm. solve_Permutation. }
  assert (Ha' : 0 <= a < 4294967296) by (unfold KERNBASE in *; lia).
  assert (Hpd : present (pde_at (k_mem s) pgdir (PDX a)) = true).
  { unfold pte_at in Hp. by destruct (present (pde_at _ _ _)). }
  pose proof (pdx_range a) as Hx.
  assert (Hslot : slot (k_mem s1) pgdir a = slot (k_mem s) pgdir a) by (unfold slot; by rewrite Hpde1).
  destruct (write_pte s1 pgdir (q :: l) (u ++ own) a 0 Hi1 Ha') as (Hi2 & Hk2 & Hpts2 & _ & Hpte2);
    [by rewrite Hpde1|].
  rewrite Hslot in *. apply wp_mod.
  set (s2 := s1 <| k_mem ::= _ |>).
  assert (Hpte : forall v, 0 <= v < 4294967296 -> pte_at (k_mem s2) pgdir v =
      if decide (v / 4096 = a / 4096) then 0 else pte_at (k_mem s) pgdir v).
  { intros v Hv. etrans; [by apply Hpte2|]. by rewrite Hpte1. }
  assert (Hup : upages (k_mem s) pgdir ≡ₚ q :: upages (k_mem s2) pgdir).
  { apply upages_add; [done| |done|]; [by rewrite Hpte, decide_True|].
    intros v Hv Hne. by rewrite Hpte, decide_False. }
  assert (Hu2 : u ≡ₚ upages (k_mem s2) pgdir) by (apply (Permutation_cons_inv (a := q)); by rewrite <- Hperm).
  split; [eapply mm_frame_trans; [exact Hf1|apply mm_frame_mem]|].
  split; [by eapply pt_inv_own_perm, Permutation_app_tail|].
  split; [done|]. split; [etrans; [exact Hpts2|done]|]. split; [|done].
  intros p Hpin. rewrite <- Hu2 in Hpin. eapply same_page_trans; [|by apply Hk2].
  destruct (pt_inv_own _ _ _ _ p Hi1 Hpin) as ((Hpm & _) & _ & Hpl & _).
  apply (outside_same q); [done|apply Hok|done|]. intros ->. by apply Hpl, list_elem_of_here.
Qed.

(** [v] is on a page that [deallocuvm] visits between [a] and [oldsz]. *)
Definition visits (a oldsz v : Z) : Prop := a <= v /\ v / 4096 * 4096 < oldsz.

#[global] Instance visits_dec a oldsz v : Decision (visits a oldsz v).
Proof. unfold visits. apply _. Defined.

Record dealloc_post (s : kernel) (pgdir a oldsz : Z) (l own : list Z) (s' : kernel) (l' : list Z) : Prop := {
  dp_frame : mm_frame s s';
  dp_inv : as_inv s' pgdir l' own;
  dp_pages : l' ++ upages (k_mem s') pgdir ≡ₚ l ++ upages (k_mem s) pgdir;
  dp_pts : pts (k_mem s') pgdir = pts (k_mem s) pgdir;
  dp_keeps : keeps (upages (k_mem s') pgdir ++ own) (k_mem s) (k_mem s');
  dp_pte : forall v, 0 <= v < 4294967296 -> pte_at (k_mem s') pgdir v =
    if decide (visits a oldsz v /\ present (pte_at (k_mem s) pgdir v) = true)
    then 0 else pte_at (k_mem s) pgdir v
}.

Lemma dealloc_none s pgdir a oldsz l own :
  as_inv s pgdir l own -> a mod 4096 = 0 -> oldsz <= a -> dealloc_post s pgdir a oldsz l own s l.
Proof.
  intros Hinv Hm Ha. split; try done; [apply mm_frame_refl|].
  intros v Hv. rewrite decide_False; [done|]. intros [[H1 H2] _]. Z.div_mod_to_equations. lia.
Qed.

Lemma dealloc_skip s pgdir a a' oldsz l own s' l' :
  dealloc_post s pgdir a' oldsz l own s' l' -> a <= a' ->
  (forall v, 0 <= v < 4294967296 -> a <= v < a' -> present (pte_at (k_mem s) pgdir v) = false) ->
  dealloc_post s pgdir a oldsz l own s' l'.
Proof.
  intros [H1 H2 H3 H4 H5 H6] Ha Hab. split; try done.
  intros v Hv. rewrite H6 by done. unfold visits.
  destruct (decide (a <= v < a')) as [Hin|Hout].
  - rewrite Hab by done. rewrite !decide_False; [done| |]; by intros [_ ?].
  - apply decide_ext. split; intros [[? ?] ?]; (split; [lia|done]).
Qed.

Lemma dealloc_cons s pgdir a oldsz l own q s1 s' l' :
  as_inv s pgdir l own -> a mod 4096 = 0 -> 0 <= a < oldsz -> oldsz <= KERNBASE ->
  mm_frame s s1 -> upages (k_mem s) pgdir ≡ₚ q :: upages (k_mem s1) pgdir ->
  pts (k_mem s1) pgdir = pts (k_mem s) pgdir ->
  keeps (upages (k_mem s1) pgdir ++ own) (k_mem s) (k_mem s1) ->
  present (pte_at (k_mem s) pgdir a) = true ->
  (forall v, 0 <= v < 4294967296 -> pte_at (k_mem s1) pgdir v =
      if decide (v / 4096 = a / 4096) then 0 else pte_at (k_mem s) pgdir v) ->
  dealloc_post s1 pgdir (a + 4096) oldsz (q :: l) own s' l' ->
  dealloc_post s pgdir a oldsz l own s' l'.
Proof.
  intros Hinv Hm Ha Hold Hf Hup Hpts Hk Hp Hpte [H1 H2 H3 H4 H5 H6].
  assert (Hsub : forall p, p ∈ upages (k_mem s') pgdir -> p ∈ upages (k_mem s1) pgdir).
  { intros p (v & Hv & Hpv & ->)%elem_of_upages. apply elem_of_upages. exists v.
    rewrite H6 in Hpv |- * by (unfold KERNBASE in *; lia). case_decide; [done|]. done. }
  split; try done.
  - by eapply mm_frame_trans.
  - rewrite H3, Hup. solve_Permutation.
  - by rewrite H4.
  - eapply keeps_trans; [|done]. eapply keeps_sub; [|exact Hk]. intros p. rewrite !elem_of_app. intuition.
  - intros v Hv. rewrite H6 by done. rewrite !Hpte by done. unfold visits.
    destruct (decide (v / 4096 = a / 4096)) as [E|Hne].
    + rewrite decide_False by (by intros [_ ?]). rewrite decide_True; [done|].
      split; [|rewrite <- Hp; f_equal; apply pte_at_page; unfold KERNBASE in *; (done || lia)].
      Z.div_mod_to_equations. lia.
    + apply decide_ext. split; intros [[? ?] ?]; (split; [|done]); Z.div_mod_to_equations; lia.
Qed.

Lemma pte_page_nonnull e : page_ok (pte_page e) -> PTE_ADDR e <> 0.
Proof. intros H E. apply page_ok_range in H. unfold pte_page in H. rewrite E in H. vm_compute in H. by destruct H. Qed.

Lemma next_dir a :
  0 <= a < KERNBASE ->
  u32 (u32 (PGADDR (PDX a + 1) 0 0 - PGSIZE) + PGSIZE) = (PDX a + 1) * 4194304 /\ a < (PDX a + 1) * 4194304 <= KERNBASE.
Proof.
  unfold KERNBASE. intros Ha. unfold PGADDR, PDXSHIFT, PTXSHIFT, PGSIZE.
  rewrite Z.lor_0_r. change (Z.shiftl 0 12) with 0. rewrite Z.lor_0_r.
  rewrite Z.shiftl_mul_pow2 by lia. change (2 ^ 22) with 4194304.
  assert (Hr : a < (PDX a + 1) * 4194304 <= 2147483648)
    by (rewrite pdx_eq by lia; Z.div_mod_to_equations; lia).
  split; [|done]. rewrite (u32_id (_ * _)) by lia.
  rewrite (u32_id (_ - _)) by (rewrite pdx_eq in * by lia; Z.div_mod_to_equations; lia).
  rewrite u32_id; lia.
Qed.

Lemma wp_deallocuvm_loop fuel s pgdir a oldsz l own :
  as_inv s pgdir l own -> a mod 4096 = 0 -> 0 <= a -> oldsz <= KERNBASE ->
  (Z.to_nat ((oldsz - a + 4095) / 4096) < fuel)%nat ->
  wp (deallocuvm_loop fuel pgdir a oldsz) (fun _ s' => exists l', dealloc_post s pgdir a oldsz l own s' l') s.
Proof.
  revert s a l; induction fuel as [|fuel IH]; intros s a l Hinv Hm Ha Hold Hfuel; [lia|].
  cbn [deallocuvm_loop]. destruct (Z.ltb_spec a oldsz) as [Hlt|Hge].
  2:{ apply wp_ret. exists l. by apply dealloc_none. }
  assert (Har : 0 <= a < KERNBASE) by lia.
  assert (Hfu : forall a', a + 4096 <= a' -> (Z.to_nat ((oldsz - a' + 4095) / 4096) < fuel)%nat).
  { intros a' Ha'. assert ((oldsz - a' + 4095) / 4096 + 1 <= (oldsz - a + 4095) / 4096); [|
      assert (1 <= (oldsz - a + 4095) / 4096) by (apply Z.div_le_lower_bound; lia); lia].
    transitivity ((oldsz - (a + 4096) + 4095) / 4096 + 1); [apply Z.add_le_mono_r, Z.div_le_mono; lia|].
    replace (oldsz - a + 4095) with (oldsz - (a + 4096) + 4095 + 1 * 4096) by lia.
    rewrite Z.div_add by lia. lia. }
  assert (Hn : u32 (a + 4096) = a + 4096) by (apply u32_id; unfold KERNBASE in *; lia).
  assert (Hm' : (a + 4096) mod 4096 = 0) by (Z.div_mod_to_equations; lia).
  destruct (present (pde_at (k_mem s) pgdir (PDX a))) eqn:Hd.
  - apply wp_bind. eapply wp_of_run; [by apply walk_present|].
    destruct (Z.eqb_spec (slot (k_mem s) pgdir a) 0) as [E|_]; [by eapply slot_nonzero in E|].
    apply wp_bind, wp_get.
    assert (Ea : ld32 (k_mem s) (slot (k_mem s) pgdir a) = pte_at (k_mem s) pgdir a)
      by (unfold pte_at; by rewrite Hd).
    rewrite Ea. fold (present (pte_at (k_mem s) pgdir a)).
    destruct (present (pte_at (k_mem s) pgdir a)) eqn:Hp; unfold PGSIZE; rewrite Hn.
    + destruct (as_inv_upage _ _ _ _ _ Hinv Har Hp) as (Hok & _).
      destruct (Z.eqb_spec (PTE_ADDR (pte_at (k_mem s) pgdir a)) 0) as [E|_]; [by apply pte_page_nonnull in E|].
      apply wp_bind. eapply wp_mono; [by apply (wp_free_user s pgdir l own a)|].
      intros _ s1 (Hf1 & Hi1 & Hu1 & Hp1 & Hk1 & Hv1).
      eapply wp_mono; [apply (IH s1 (a + 4096) _ Hi1); [done|lia|done|by apply Hfu]|].
      intros _ s' (l' & Hpost). exists l'. by eapply dealloc_cons.
    + apply wp_bind, wp_ret.
      eapply wp_mono; [apply (IH s (a + 4096) _ Hinv); [done|lia|done|by apply Hfu]|].
      intros _ s' (l' & Hpost). exists l'. eapply dealloc_skip; [done|lia|].
      intros v Hv Hva. rewrite <- Hp. f_equal. apply pte_at_page; [done|unfold KERNBASE in *; lia|].
      Z.div_mod_to_equations. lia.
  - apply wp_bind. eapply wp_of_run; [by apply walk_absent|]. cbn [Z.eqb].
    change (0 =? 0) with true. cbv iota zeta.
    destruct (next_dir a Har) as [E Hr]. rewrite E.
    set (a' := (PDX a + 1) * 4194304) in *.
    assert (Hbig : a' mod 4096 = 0 /\ a + 4096 <= a') by (unfold a' in *; Z.div_mod_to_equations; lia).
    eapply wp_mono; [apply (IH s a' _ Hinv); [apply Hbig|lia|done|apply Hfu, Hbig]|].
    intros _ s' (l' & Hpost). exists l'. eapply dealloc_skip; [done|lia|].
    intros v Hv Hva. assert (Ex : PDX v = PDX a).
    { unfold a', KERNBASE in *. rewrite !pdx_eq in * by lia. Z.div_mod_to_equations. lia. }
    unfold pte_at. by rewrite Ex, Hd.
Qed.

Lemma wp_deallocuvm s pgdir oldsz newsz l own :
  as_inv s pgdir l own -> 0 <= newsz < oldsz -> oldsz <= KERNBASE ->
  wp (deallocuvm pgdir oldsz newsz) (fun r s' => r = newsz /\
    exists l', dealloc_post s pgdir ((newsz + 4095) / 4096 * 4096) oldsz l own s' l') s.
Proof.
  intros Hinv Hn Ho. unfold deallocuvm. destruct (Z.leb_spec oldsz newsz); [lia|].
  rewrite pgroundup_eq by (unfold KERNBASE in *; lia).
  apply wp_bind. eapply wp_mono; [apply wp_deallocuvm_loop; [exact Hinv| | |done|]|].
  - by rewrite Z.mod_mul.
  - Z.div_mod_to_equations; lia.
  - unfold PGSIZE. replace (_ + 4096 - 1) with (oldsz - (newsz + 4095) / 4096 * 4096 + 4095) by lia. lia.
  - intros ? s' Hpost. by apply wp_ret.
Qed.

Lemma upages_none m pgdir :
  (forall v, 0 <= v < KERNBASE -> present (pte_at m pgdir v) = false) -> upages m pgdir = [].
Proof.
  intros H. destruct (upages m pgdir) as [|q u] eqn:E; [done|].
  assert (Hq : q ∈ upages m pgdir) by (rewrite E; apply list_elem_of_here).
  apply elem_of_upages in Hq as (v & Hv & Hp & _). by rewrite H in Hp.
Qed.

(** The state of [freevm]'s loop over the directory: the tables of the entries
    [ixs] are still to be freed. *)
Record free_tables (s : kernel) (pgdir : Z) (l own : list Z) (ixs : list Z) (s' : kernel) (l' : list Z) : Prop := {
  ft_frame : mm_frame s s';
  ft_heap : heap s' l';
  ft_pages : l' ++ omap (pt_of (k_mem s) pgdir) ixs ≡ₚ l ++ pts (k_mem s) pgdir;
  ft_dir : same_page (k_mem s) (k_mem s') pgdir;
  ft_keeps : keeps own (k_mem s) (k_mem s');
  ft_range : Forall (fun i => 0 <= i < 1024) ixs
}.

Lemma wp_free_table s pgdir l own i ixs s1 l1 :
  pt_inv s pgdir l own -> free_tables s pgdir l own (i :: ixs) s1 l1 ->
  wp (e <- mem_read (pgdir + 4 * i) ;; when c_true (Z.land e PTE_P) do kfree (P2V (PTE_ADDR e)))
     (fun _ s2 => exists l2, free_tables s pgdir l own ixs s2 l2) s1.
Proof.
  intros Hinv [Hf Hh Hp Hd Hk Hr]. apply Forall_cons in Hr as [Hi Hr].
  apply wp_bind, wp_get. fold (pde_at (k_mem s1) pgdir i). rewrite (pde_at_same (k_mem s)) by done.
  fold (present (pde_at (k_mem s) pgdir i)). cbn [omap list_omap] in Hp. unfold pt_of at 1 in Hp.
  destruct (present (pde_at (k_mem s) pgdir i)) eqn:E; [|apply wp_ret; by exists l1].
  fold (pt_page (pde_at (k_mem s) pgdir i)). set (p := pt_page _) in *.
  destruct (pt_inv_pts _ _ _ _ p Hinv) as ((Hpm & Hpr) & Hpd & _ & Hpo); [apply elem_of_pts; eauto|].
  assert (Hpl : p ∉ l1).
  { destruct Hinv as (_ & _ & Hnd & _). rewrite pages_shuffle in Hnd.
    apply NoDup_cons in Hnd as [_ Hnd]. apply NoDup_app in Hnd as (Hnd & _ & _).
    rewrite <- Hp in Hnd. apply NoDup_app in Hnd as (_ & Hdis & _).
    intros Hin. apply (Hdis p Hin), list_elem_of_here. }
  eapply wp_mono; [apply (wp_kfree s1 l1); [by eapply mm_frame_ready, Hinv|done|done|done]|].
  intros _ s2 (Hf2 & Hh2 & Ho2). exists (p :: l1). split; try done.
  - by eapply mm_frame_trans.
  - rewrite <- Hp. cbn. apply Permutation_middle.
  - eapply same_page_trans; [exact Hd|]. apply (outside_same p); [done|done| |done].
    by apply pt_inv_pgdir in Hinv as [? _].
  - eapply keeps_trans; [exact Hk|]. intros q Hq.
    destruct (pt_inv_own _ _ _ _ q Hinv Hq) as ((Hqm & _) & _).
    apply (outside_same p); [done|done|done|]. congruence.
Qed.

Lemma wp_freevm s pgdir l own :
  as_inv s pgdir l own ->
  wp (freevm pgdir) (fun _ s' => mm_frame s s' /\ keeps own (k_mem s) (k_mem s') /\
    exists l', heap s' l' /\
      l' ≡ₚ pgdir :: l ++ pts (k_mem s) pgdir ++ upages (k_mem s) pgdir) s.
Proof.
  intros Hinv. unfold freevm. pose proof (pt_inv_pgdir _ _ _ _ Hinv) as Hpg.
  pose proof (page_ok_pos _ Hpg). destruct (Z.eqb_spec pgdir 0); [lia|].
  apply wp_bind. eapply wp_mono; [by apply (wp_deallocuvm s pgdir KERNBASE 0 l own)|].
  intros r s1 (-> & l1 & [Hf1 Hi1 Hp1 Ht1 Hk1 Hv1]).
  assert (Hu1 : upages (k_mem s1) pgdir = []).
  { apply upages_none. intros v Hv. rewrite Hv1 by (unfold KERNBASE in *; lia).
    case_decide as Hc; [done|]. apply not_true_is_false. intros Hp. apply Hc. split; [|done].
    unfold visits, KERNBASE in *. change ((0 + 4095) / 4096 * 4096) with 0. Z.div_mod_to_equations; lia. }
  unfold as_inv in Hi1. rewrite Hu1 in *. cbn [app] in *. rewrite app_nil_r in Hp1.
  apply wp_bind.
  eapply wp_mono; [apply (wp_keach _ _ (fun ixs s2 => exists l2, free_tables s1 pgdir l1 own ixs s2 l2))|].
  - exists l1. split; [apply mm_frame_refl|by eapply pt_inv_heap|by rewrite pts_eq|done|done|].
    apply Forall_forall. intros i Hi%elem_of_seqZ. unfold NPDENTRIES in *. lia.
  - intros i ixs s2 (l2 & Hft). by eapply wp_free_table.
  - intros _ s2 (l2 & [Hf2 Hh2 Hp2 Hd2 Hk2 _]). cbn in Hp2. rewrite app_nil_r in Hp2.
    assert (Hpl : pgdir ∉ l2).
    { destruct Hi1 as (_ & _ & Hnd & _). rewrite pages_shuffle in Hnd.
      apply NoDup_cons in Hnd as [Hno _]. rewrite Hp2. intros Hin. apply Hno, elem_of_app. by left. }
    eapply wp_mono; [apply (wp_kfree s2 l2); [by eapply mm_frame_ready, Hi1|done|done|done]|].
    intros _ s3 (Hf3 & Hh3 & Ho3). split; [by do 2 (eapply mm_frame_trans; [done|])|]. split.
    + eapply keeps_trans; [exact Hk1|]. eapply keeps_trans; [exact Hk2|]. intros q Hq.
      destruct (pt_inv_own _ _ _ _ q Hi1 Hq) as ((Hqm & _) & Hqd & _).
      apply (outside_same pgdir); [done|apply Hpg|done|done].
    + exists (pgdir :: l2). split; [done|]. rewrite Hp2, Hp1, Ht1. apply perm_skip.
      rewrite <- app_assoc. apply Permutation_app_head, Permutation_app_comm.
Qed.
End Dealloc.
