(* ===== verification/Kvm.v ===== *)
(** * The kernel half of an address space

    [setupkvm] of [vm.c]: every address space maps the kernel in the same way,
    given by the table [kmap].  The specification [kspec] says what the entry
    of each virtual address is. *)

From stdpp Require Import base gmap strings list fin_maps.
From Stdlib Require Import ZArith Lia Sorted.
From S2P Require Import Prelude Mem Types Spinlock Kalloc Vm PageTable Uvm.

Section Kvm.
Context `{L : Layout} {LO : LayoutOk L}.

(** ** What [kmap] prescribes *)
Definition ksize (k : kmap_entry) : Z := u32 (phys_end k - phys_start k).
Definition klast (k : kmap_entry) : Z := (virt k + ksize k - 1) / 4096 * 4096.
Definition kfold (ks : list kmap_entry) (v e : Z) : Z :=
  foldr (fun k acc => if decide (in_pages (virt k) (klast k) v)
                      then entry_for (virt k) (phys_start k) (perm k) v else acc) e ks.

(** The entry of [v] in every page directory, where the kernel maps it. *)
Definition kspec (v : Z) : Z := kfold kmap v 0.

(** The directory entries the kernel mappings need. *)
Definition kdirs : list Z := seqZ 512 56 ++ seqZ 1016 8.

Record kmap_ok (k : kmap_entry) : Prop := {
  ko_base : KERNBASE <= virt k;
  ko_virt : virt k mod 4096 = 0;
  ko_size : 0 < ksize k;
  ko_end : virt k + ksize k <= 4294967296;
  ko_phys : phys_start k mod 4096 = 0 /\ 0 <= phys_start k < 4294967296;
  ko_perm : 0 <= perm k < 4096;
  ko_dirs : forall i, PDX (virt k) <= i <= PDX (klast k) -> i ∈ kdirs
}.

(** The ranges are in increasing order and do not overlap. *)
Definition kbefore (k k' : kmap_entry) : Prop := klast k < virt k'.

Lemma kdirs_in i : i ∈ kdirs <-> 512 <= i < 568 \/ 1016 <= i < 1024.
Proof. unfold kdirs. rewrite elem_of_app, !elem_of_seqZ. lia. Qed.

Lemma V2P_link a : KERNBASE <= a < 4294967296 -> V2P a = a - KERNBASE.
Proof. intros. unfold V2P. apply u32_id. unfold KERNBASE in *. lia. Qed.

Ltac kmap_consts := unfold KERNLINK, KERNBASE, EXTMEM, PHYSTOP, DEVSPACE, PTE_W in *.

Lemma mk_kmap_ok va ps pe pm :
  KERNBASE <= va -> va mod 4096 = 0 -> ps mod 4096 = 0 -> 0 <= ps < 4294967296 -> 0 <= pm < 4096 ->
  let n := u32 (pe - ps) in
  0 < n -> va + n <= 4294967296 ->
  (va / 4194304 >= 512 /\ (va + n - 1) / 4194304 < 568 \/ va / 4194304 >= 1016) ->
  kmap_ok (mk_kmap va ps pe pm).
Proof.
  intros H1 H2 H3 H4 H5 n H6 H7 H8. split; unfold klast, ksize; cbn; try done. fold n.
  unfold KERNBASE in *. clearbody n. intros i. set (w := (va + n - 1) / 4096 * 4096).
  assert (Hw : va + n - 4096 <= w <= va + n - 1) by (subst w; Z.div_mod_to_equations; lia).
  assert (Hw' : va <= w) by (subst w; Z.div_mod_to_equations; lia).
  clearbody w. rewrite !pdx_eq by lia. rewrite kdirs_in.
  assert (w / 4194304 <= (va + n - 1) / 4194304) by (apply Z.div_le_mono; lia).
  assert (w / 4194304 < 1024) by (apply Z.div_lt_upper_bound; lia). intros ?. destruct H8; lia.
Qed.

(** [kmap] with the addresses the linker gave. *)
Lemma kmap_eq :
  kmap = [mk_kmap 2147483648 0 1048576 2; mk_kmap 2148532224 1048576 (data - 2147483648) 0;
          mk_kmap data (data - 2147483648) 234881024 2; mk_kmap 4261412864 4261412864 0 2] /\
  2148532224 < data < 2382364672 /\ data mod 4096 = 0.
Proof.
  pose proof data_low. pose proof data_kend. pose proof kend_high. pose proof data_aligned.
  assert (V2 : V2P data = data - 2147483648) by (apply V2P_link; kmap_consts; lia).
  unfold kmap. rewrite V2. kmap_consts. split; [done|]. lia.
Qed.

Lemma kmap_all_ok : Forall kmap_ok kmap.
Proof.
  destruct kmap_eq as (-> & Hd & Hm). unfold KERNBASE in *.
  repeat (apply Forall_cons; split); [| | | |done]; apply mk_kmap_ok; unfold KERNBASE; try done; try lia.
  - left. vm_compute. by split.
  - rewrite u32_id; lia.
  - rewrite u32_id; lia.
  - rewrite u32_id by lia. left. split; [done|]. apply Z.div_lt_upper_bound; lia.
  - Z.div_mod_to_equations; lia.
  - rewrite u32_id; lia.
  - rewrite u32_id; lia.
  - rewrite u32_id by lia. left. split; [|apply Z.div_lt_upper_bound; lia].
    apply Z.le_ge, Z.div_le_lower_bound; lia.
  - right. done.
Qed.

Lemma kmap_sorted : StronglySorted kbefore kmap.
Proof.
  destruct kmap_eq as (-> & Hd & Hm). unfold kbefore, klast, ksize.
  repeat apply SSorted_cons; repeat (apply Forall_cons; split); try apply SSorted_nil; try done;
    cbn [virt phys_start phys_end]; rewrite ?u32_id by lia; Z.div_mod_to_equations; lia.
Qed.

(** ** Page directories under construction *)

(** At most one table for each kernel directory entry. *)
Lemma pts_kdirs m pgdir :
  (forall i, 0 <= i < 1024 -> present (pde_at m pgdir i) = true -> i ∈ kdirs) ->
  pts m pgdir = omap (pt_of m pgdir) kdirs.
Proof.
  intros H. rewrite pts_eq. unfold kdirs.
  replace (seqZ 0 1024) with (seqZ 0 512 ++ seqZ 512 56 ++ seqZ 568 448 ++ seqZ 1016 8)
    by (change 1024 with (512 + (56 + (448 + 8))); by rewrite !seqZ_app by lia).
  assert (E : forall a n, (forall i, a <= i < a + n -> 0 <= i < 1024 /\ i ∉ kdirs) ->
            omap (pt_of m pgdir) (seqZ a n) = []).
  { intros a n Hi. rewrite (omap_ext_in _ (fun _ => None)).
    - clear. induction (seqZ a n); done.
    - intros i Hin%elem_of_seqZ. destruct (Hi i Hin) as [Hr Hk]. unfold pt_of.
      destruct (present _) eqn:Ep; [by apply H in Ep|done]. }
  rewrite !omap_app, (E 0), (E 568); [done| |]; intros i Hi; rewrite kdirs_in; lia.
Qed.

Lemma omap_length_le {A B} (f : A -> option B) l : (length (omap f l) <= length l)%nat.
Proof. induction l as [|x l IH]; cbn; [lia|]. destruct (f x); cbn; lia. Qed.

Lemma omap_length_lt {A B} (f : A -> option B) l x : x ∈ l -> f x = None -> (length (omap f l) < length l)%nat.
Proof.
  intros (l1 & l2 & ->)%list_elem_of_split Hx. rewrite omap_app, !length_app. cbn. rewrite Hx.
  pose proof (omap_length_le f l1). pose proof (omap_length_le f l2). lia.
Qed.

Lemma omap_length_eq {A B} (f : A -> option B) l : (forall x, x ∈ l -> f x <> None) -> length (omap f l) = length l.
Proof.
  induction l as [|x l IH]; intros H; [done|]. cbn. destruct (f x) eqn:E.
  - cbn. rewrite IH; [done|]. intros y Hy. apply H. by apply list_elem_of_further.
  - destruct (H x); [apply list_elem_of_here|done].
Qed.

(** The state of [setupkvm] between two calls of [mappages]: [l1] are the
    pages that were free when the directory [p] had been allocated. *)
Record kvm_state (s0 : kernel) (p : Z) (l1 own : list Z) (s : kernel) (l : list Z) : Prop := {
  kv_frame : mm_frame s0 s;
  kv_inv : pt_inv s p l own;
  kv_pages : l ++ pts (k_mem s) p ≡ₚ l1;
  kv_keeps : keeps own (k_mem s0) (k_mem s);
  kv_dirs : forall i, 0 <= i < 1024 -> present (pde_at (k_mem s) p i) = true -> i ∈ kdirs;
  kv_user : forall v, 0 <= v < KERNBASE -> pte_at (k_mem s) p v = 0
}.

Lemma kvm_upages s0 p l1 own s l : kvm_state s0 p l1 own s l -> upages (k_mem s) p = [].
Proof. intros H. apply upages_none. intros v Hv. by rewrite (kv_user _ _ _ _ _ _ H). Qed.

(** One entry of [kmap]. *)
Lemma wp_kmap_step s0 p l1 own s l k :
  kvm_state s0 p l1 own s l -> kmap_ok k ->
  (forall v, 0 <= v < 4294967296 -> in_pages (virt k) (klast k) v -> present (pte_at (k_mem s) p v) = false) ->
  wp (mappages p (virt k) (ksize k) (phys_start k) (perm k)) (fun r s' => exists l',
    kvm_state s0 p l1 own s' l' /\
    map_post s p (virt k) (klast k) (phys_start k) (perm k) l own r s' l') s.
Proof.
  intros [Hf Hi Hp Hk Hd Hu] [H1 H2 H3 H4 [H5 H5'] H6 H7] Habs. unfold KERNBASE in *.
  eapply wp_mono; [apply wp_mappages; try done; lia|].
  intros r s' (l' & Hpost). exists l'. split; [|done].
  destruct Hpost as [Hf' Hi' Hp' Hk' Hd' Hm' Ho' Hr']. split.
  - by eapply mm_frame_trans.
  - done.
  - by rewrite Hp'.
  - by eapply keeps_trans.
  - intros i Hir Hpi. destruct (Hd' i Hir Hpi); [auto|]. by apply H7.
  - intros v Hv. unfold KERNBASE in *. rewrite Ho' by (lia || (unfold in_pages; Z.div_mod_to_equations; lia)).
    by apply Hu.
Qed.

(** When a table is missing there were fewer free pages than tables. *)
Lemma kvm_short s0 p l1 own s i :
  kvm_state s0 p l1 own s [] -> i ∈ kdirs -> present (pde_at (k_mem s) p i) = false ->
  (length l1 < 64)%nat.
Proof.
  intros H Hi Hp. rewrite <- (Permutation_length (kv_pages _ _ _ _ _ _ H)). cbn [app].
  rewrite pts_kdirs by apply H. apply (omap_length_lt (pt_of (k_mem s) p) kdirs i Hi).
  unfold pt_of. by rewrite Hp.
Qed.

(** The entries of the ranges [ks] are still absent. *)
Definition unmapped (ks : list kmap_entry) (m : mem) (p : Z) : Prop :=
  forall k v, k ∈ ks -> 0 <= v < 4294967296 -> in_pages (virt k) (klast k) v -> present (pte_at m p v) = false.

Definition kvm_done (s : kernel) (p : Z) (ks : list kmap_entry) (s' : kernel) : Prop :=
  (forall v, 0 <= v < 4294967296 -> pte_at (k_mem s') p v = kfold ks v (pte_at (k_mem s) p v)) /\
  (forall i, 0 <= i < 1024 -> present (pde_at (k_mem s) p i) = true -> present (pde_at (k_mem s') p i) = true) /\
  (forall k i, k ∈ ks -> PDX (virt k) <= i <= PDX (klast k) -> present (pde_at (k_mem s') p i) = true).

Lemma kmap_pages_disjoint k k' v :
  kmap_ok k' -> kbefore k k' -> in_pages (virt k') (klast k') v -> ~ in_pages (virt k) (klast k) v.
Proof.
  intros [] Hb H1 H2. unfold kbefore, in_pages, klast in *. Z.div_mod_to_equations. lia.
Qed.

Lemma kfold_before k ks v e :
  Forall kmap_ok ks -> Forall (kbefore k) ks -> in_pages (virt k) (klast k) v -> kfold ks v e = e.
Proof.
  intros Hok Hb Hin. induction Hb as [|k' ks Hk _ IH]; [done|]. apply Forall_cons in Hok as [Hk' Hok]. cbn.
  rewrite decide_False; [by apply IH|]. intros Hin'. by eapply kmap_pages_disjoint.
Qed.

Lemma kvm_done_cons s s1 p k ks s' l own l1 :
  Forall kmap_ok ks -> Forall (kbefore k) ks ->
  map_post s p (virt k) (klast k) (phys_start k) (perm k) l own 0 s1 l1 ->
  kvm_done s1 p ks s' -> kvm_done s p (k :: ks) s'.
Proof.
  intros Hk Hb [_ _ _ _ _ Hmono Hout Hres] (Hv & Hm & Hd).
  destruct Hres as [(_ & Hval & Hpd)|(? & _)]; [|done].
  assert (Hr : forall i, PDX (virt k) <= i <= PDX (klast k) -> 0 <= i < 1024)
    by (intros i; pose proof (pdx_range (virt k)); pose proof (pdx_range (klast k)); lia).
  split; [|split].
  - intros v Hvr. rewrite Hv by done. cbn. case_decide as Hin.
    + rewrite Hval by done. by apply (kfold_before k).
    + by rewrite Hout.
  - auto.
  - intros k' i [->|Hin]%elem_of_cons Hir; [|by eapply Hd]. apply Hm; auto.
Qed.

Lemma wp_kmap_loop s0 p l1 own ks s l :
  Forall kmap_ok ks -> StronglySorted kbefore ks ->
  kvm_state s0 p l1 own s l -> unmapped ks (k_mem s) p ->
  wp (kfor ks (fun k =>
         r <- mappages p (virt k) (u32 (phys_end k - phys_start k)) (phys_start k) (perm k) ;;
         if r <? 0 then freevm p ;;; kret (Some 0) else kret None))
     (fun r s' => match r with
      | None => exists l', kvm_state s0 p l1 own s' l' /\ kvm_done s p ks s'
      | Some v => v = 0 /\ (length l1 < 64)%nat /\ mm_frame s0 s' /\ keeps own (k_mem s0) (k_mem s') /\
                  exists l', heap s' l' /\ l' ≡ₚ p :: l1
      end) s.
Proof.
  revert s l; induction ks as [|k ks IH]; intros s l Hok Hs Hst Hun; cbn [kfor].
  { apply wp_ret. exists l. split; [done|]. split; [done|]. split; [done|]. by intros k i ?%not_elem_of_nil. }
  apply Forall_cons in Hok as [Hk Hok]. apply StronglySorted_inv in Hs as [Hs Hb].
  apply wp_bind, wp_bind. fold (ksize k). eapply wp_mono.
  { apply (wp_kmap_step s0 p l1 own s l k); [done|done|]. intros v. apply Hun, list_elem_of_here. }
  intros r s1 (l2 & Hst1 & Hpost). pose proof (mp_res _ _ _ _ _ _ _ _ _ _ _ Hpost) as Hres.
  destruct Hres as [(-> & _)|(-> & -> & (i & Hi & Hab) & _)]; [change (0 <? 0) with false|change (-1 <? 0) with true]; cbv iota.
  - apply wp_ret. cbv beta iota. eapply wp_mono; [apply (IH s1 l2); [done|done|done|]|].
    + intros k' v Hk' Hv Hin. rewrite Forall_forall in Hb, Hok.
      rewrite (mp_out _ _ _ _ _ _ _ _ _ _ _ Hpost); [|done|apply (kmap_pages_disjoint k k'); auto].
      eapply Hun; [by apply list_elem_of_further|done|done].
    + intros [v|] s'; [done|]. intros (l' & Hst' & Hdone). exists l'. split; [done|].
      by eapply kvm_done_cons.
  - apply wp_bind.
    assert (Has : as_inv s1 p [] own) by (unfold as_inv; rewrite (kvm_upages _ _ _ _ _ _ Hst1); apply Hst1).
    eapply wp_mono; [by apply wp_freevm|]. intros _ s' (Hf & Hkp & l' & Hh & Hp). apply wp_ret.
    apply wp_ret. split; [done|]. split; [eapply kvm_short; [done| |done]; by apply Hk|].
    split; [eapply mm_frame_trans; [apply Hst1|done]|].
    split; [eapply keeps_trans; [apply Hst1|done]|]. exists l'. split; [done|]. rewrite Hp.
    rewrite (kvm_upages _ _ _ _ _ _ Hst1), app_nil_r. cbn [app]. apply perm_skip, (kv_pages _ _ _ _ _ _ Hst1).
Qed.

(** A cleared directory maps nothing. *)
Lemma cleared_dir s p l own :
  mm_ready s -> heap s (p :: l) -> NoDup (p :: l ++ own) -> Forall page_ok own ->
  forall s1, mm_frame s s1 -> k_mem s1 = k_mem s -> heap s1 l ->
  kvm_state s p l own (s1 <| k_mem ::= fun m => memset m p 0 4096 |>) l /\
  forall v, pte_at (memset (k_mem s1) p 0 4096) p v = 0.
Proof.
  intros Hr (_ & Hok & _) Hnd Hown s1 Hf Em (Hc & Hokl & Hndl).
  apply Forall_cons in Hok as [[Hpm Hpr] _]. apply NoDup_cons in Hnd as [Hno Hnd].
  assert (Hzero : forall i, 0 <= i < 1024 -> pde_at (memset (k_mem s1) p 0 4096) p i = 0)
    by (intros; apply ld32_memset_in; lia).
  assert (Hpts : pts (memset (k_mem s1) p 0 4096) p = []).
  { rewrite pts_eq, (omap_ext_in _ (fun _ => None)); [induction (seqZ 0 1024); done|].
    intros i Hi%elem_of_seqZ. unfold pt_of. by rewrite Hzero by lia. }
  assert (Hsame : forall q, page_ok q -> q <> p -> same_page (k_mem s1) (memset (k_mem s1) p 0 4096) q).
  { intros q [Hqm _] Hne a Ha. rewrite ld8_memset by lia. destruct (page_sep q p Hqm Hpm Hne);
      by rewrite decide_False by lia. }
  rewrite Forall_forall in Hokl, Hown.
  split; [split|]; cbn [k_mem update upd_k_mem].
  - eapply mm_frame_trans; [exact Hf|apply mm_frame_mem].
  - split; [by apply (mm_frame_ready s); [eapply mm_frame_trans; [exact Hf|apply mm_frame_mem]|]|].
    split; [|split].
    + split; [|split; [by apply Forall_forall|done]]. eapply chain_ext; [|exact Hc].
      intros q Hq. cbn. apply (same_page_ld32 _ _ q); [|lia|lia]. apply Hsame; [auto|].
      intros ->. apply Hno, elem_of_app. by left.
    + cbn [k_mem update upd_k_mem]. rewrite Hpts. rewrite <- Permutation_middle. by apply NoDup_cons.
    + cbn [k_mem update upd_k_mem]. rewrite Hpts. apply Forall_cons. split; [done|by apply Forall_forall].
  - rewrite Hpts. by rewrite app_nil_r.
  - rewrite <- Em. intros q Hq. apply Hsame; [auto|]. intros ->. apply Hno, elem_of_app. by right.
  - intros j Hj. by rewrite Hzero.
  - intros v _. unfold pte_at. pose proof (pdx_range v). by rewrite Hzero.
  - intros v. unfold pte_at. pose proof (pdx_range v). by rewrite Hzero.
Qed.

Lemma kdirs_covered i : i ∈ kdirs -> exists k, k ∈ kmap /\ PDX (virt k) <= i <= PDX (klast k).
Proof.
  rewrite kdirs_in. destruct kmap_eq as (-> & Hd & Hm). intros [Hi|Hi].
  - destruct (decide (i <= data / 4194304)) as [Hle|Hgt]; [destruct (decide (i = data / 4194304)) as [He|Hne]|].
    + eexists. split; [by do 2 apply list_elem_of_further; apply list_elem_of_here|].
      unfold klast, ksize. cbn [virt phys_start phys_end]. rewrite u32_id by lia.
      rewrite !pdx_eq by (Z.div_mod_to_equations; lia). split; [lia|]. rewrite He.
      apply Z.div_le_mono; [lia|]. Z.div_mod_to_equations; lia.
    + eexists. split; [by apply list_elem_of_further; apply list_elem_of_here|].
      unfold klast, ksize. cbn [virt phys_start phys_end]. rewrite u32_id by lia.
      rewrite !pdx_eq by (Z.div_mod_to_equations; lia). change (2148532224 / 4194304) with 512. split; [lia|].
      apply Z.div_le_lower_bound; [lia|]. Z.div_mod_to_equations; lia.
    + eexists. split; [by do 2 apply list_elem_of_further; apply list_elem_of_here|].
      unfold klast, ksize. cbn [virt phys_start phys_end]. rewrite u32_id by lia.
      rewrite !pdx_eq by (Z.div_mod_to_equations; lia). split; [lia|].
      apply Z.div_le_lower_bound; [lia|]. Z.div_mod_to_equations; lia.
  - eexists. split; [by do 3 apply list_elem_of_further; apply list_elem_of_here|].
    change (PDX _) with 1016 at 1. change (PDX _) with 1023. lia.
Qed.

Lemma kvm_full s0 p l1 own s s' l' :
  kvm_state s0 p l1 own s' l' -> kvm_done s p kmap s' -> length l1 = (length l' + 64)%nat.
Proof.
  intros Hst (_ & _ & Hd). rewrite <- (Permutation_length (kv_pages _ _ _ _ _ _ Hst)), length_app. f_equal.
  rewrite pts_kdirs by apply Hst. rewrite omap_length_eq; [done|]. intros i (k & Hk & Hi)%kdirs_covered.
  unfold pt_of. by rewrite (Hd k i).
Qed.

(** What [setupkvm] does, by the number of free pages. *)
Lemma wp_setupkvm s l own :
  mm_ready s -> heap s l -> NoDup (l ++ own) -> Forall page_ok own ->
  wp setupkvm (fun r s' =>
    mm_frame s s' /\ keeps own (k_mem s) (k_mem s') /\ exists l', heap s' l' /\
    if decide (65 <= length l)%nat
    then pt_inv s' r l' own /\ r :: l' ++ pts (k_mem s') r ≡ₚ l /\ length l = (length l' + 65)%nat /\
         forall v, 0 <= v < 4294967296 -> pte_at (k_mem s') r v = kspec v
    else r = 0 /\ l' ≡ₚ l) s.
Proof.
  intros Hr Hh Hnd Hown. unfold setupkvm. apply wp_bind. eapply wp_mono; [by apply wp_kalloc|].
  intros r s1 (Hf1 & Em1 & Hl). destruct l as [|p l]; destruct Hl as [-> Hh1].
  { apply wp_ret. split; [done|]. split; [by rewrite Em1|]. by exists []. }
  assert (Hpok : page_ok p) by (destruct Hh as (_ & Hok & _); by apply Forall_cons in Hok as [? _]).
  pose proof (page_ok_pos p Hpok). destruct (Z.eqb_spec p 0); [lia|].
  destruct (cleared_dir s p l own Hr Hh Hnd Hown s1 Hf1 Em1 Hh1) as [Hst Hzero].
  apply wp_bind, wp_mod. change (DEVSPACE <? P2V PHYSTOP) with false. cbv iota. unfold PGSIZE.
  set (s2 := s1 <| k_mem ::= _ |>) in *.
  apply wp_bind. eapply wp_mono.
  { apply (wp_kmap_loop s p l own kmap s2 l kmap_all_ok kmap_sorted Hst).
    intros k v _ _ _. unfold s2. cbn. by rewrite Hzero. }
  intros [v|] s' Hpost; apply wp_ret.
  - destruct Hpost as (-> & Hlen & Hf & Hk & l' & Hh' & Hp). split; [done|]. split; [done|]. exists l'.
    split; [done|]. rewrite decide_False by (cbn; lia). done.
  - destruct Hpost as (l' & Hst' & Hdone). pose proof (kvm_full _ _ _ _ _ _ _ Hst' Hdone) as Hlen.
    pose proof Hst' as [Hf Hi Hp Hk _ _]. split; [done|]. split; [done|]. exists l'.
    split; [by eapply pt_inv_heap|]. rewrite decide_True by (cbn; lia).
    split; [done|]. split; [by rewrite Hp|]. split; [cbn; lia|]. intros v Hv.
    destruct Hdone as (Hpte & _). rewrite Hpte by done. unfold s2. cbn. by rewrite Hzero.
Qed.

(** ** The map of the kernel, address by address *)

(** Physical memory appears at [KERNBASE], the kernel text read-only, devices
    are mapped to themselves, and nothing else is mapped; no entry has
    [PTE_U]. *)
Definition kernel_pte (v : Z) : Z :=
  let page := v / 4096 * 4096 in
  if v <? KERNBASE then 0
  else if v <? KERNBASE + PHYSTOP then
    mk_pte (page - KERNBASE) (if (KERNLINK <=? v) && (v <? data) then 0 else PTE_W)
  else if v <? DEVSPACE then 0
  else mk_pte page PTE_W.

Lemma in_pages_iff a n v :
  a mod 4096 = 0 -> n mod 4096 = 0 -> 0 < n ->
  in_pages a ((a + n - 1) / 4096 * 4096) v <-> a <= v < a + n.
Proof. intros. unfold in_pages. Z.div_mod_to_equations. lia. Qed.

Lemma in_pages_bool {A} a n v (x y : A) :
  a mod 4096 = 0 -> n mod 4096 = 0 -> 0 < n ->
  (if decide (in_pages a ((a + n - 1) / 4096 * 4096) v) then x else y) =
  (if (a <=? v) && (v <? a + n) then x else y).
Proof.
  intros H1 H2 H3. pose proof (in_pages_iff a n v H1 H2 H3) as H.
  case_decide as Hd; rewrite H in Hd; destruct (Z.leb_spec a v), (Z.ltb_spec v (a + n)); cbn; done || lia.
Qed.

Lemma kspec_eq v : 0 <= v < 4294967296 -> kspec v = kernel_pte v.
Proof.
  intros Hv. unfold kspec, kernel_pte. destruct kmap_eq as (-> & Hd & Hm).
  assert (Hm' : (data - 2147483648 - 1048576) mod 4096 = 0 /\ (234881024 - (data - 2147483648)) mod 4096 = 0)
    by (Z.div_mod_to_equations; lia).
  unfold kfold, klast, ksize. cbn [foldr virt phys_start phys_end perm].
  rewrite !u32_id by lia. change (u32 (0 - 4261412864)) with 33554432.
  change KERNBASE with 2147483648. change KERNLINK with 2148532224. change DEVSPACE with 4261412864.
  change PHYSTOP with 234881024. change PTE_W with 2.
  rewrite !in_pages_bool by (done || lia || apply Hm').
  unfold entry_for.
    repeat match goal with |- context [?a <? ?b] => destruct (Z.ltb_spec a b); try lia end;
    repeat match goal with |- context [?a <=? ?b] => destruct (Z.leb_spec a b); try lia end;
    cbn [andb]; try done; f_equal; rewrite u32_id; Z.div_mod_to_equations; lia.
Qed.

(** C32: [setupkvm] builds the kernel half of an address space, or nothing.
    With 65 free pages or more it returns a page directory in which every
    virtual address has the entry the memory map prescribes (physical memory
    at [KERNBASE] with the kernel text not writable, devices at the top,
    nothing for the user and no entry with [PTE_U]) and it takes exactly 65
    pages, the directory and 64 tables, from the free list.  With fewer pages it
    returns 0 and every page it had taken is free again.  Pages of others
    keep their contents, and the "remap" panic of [mappages] is not reached. *)
Theorem setupkvm_spec (s : kernel) (l own : list Z) :
  mm_ready s -> heap s l -> NoDup (l ++ own) -> Forall page_ok own ->
  wp setupkvm (fun r s' =>
    mm_frame s s' /\ keeps own (k_mem s) (k_mem s') /\ exists l', heap s' l' /\
    if decide (65 <= length l)%nat
    then r <> 0 /\ r :: l' ++ pts (k_mem s') r ≡ₚ l /\ length l = (length l' + 65)%nat /\
         forall v, 0 <= v < 4294967296 -> pte_at (k_mem s') r v = kernel_pte v
    else r = 0 /\ l' ≡ₚ l) s.
Proof.
  intros Hr Hh Hnd Hown. eapply wp_mono; [by apply wp_setupkvm|].
  intros r s' (Hf & Hk & l' & Hh' & Hcase). split; [done|]. split; [done|]. exists l'. split; [done|].
  case_decide; [|done]. destruct Hcase as (Hi & Hp & Hlen & Hpte).
  pose proof (page_ok_pos _ (pt_inv_pgdir _ _ _ _ Hi)). split; [lia|]. split; [done|]. split; [done|].
  intros v Hv. rewrite Hpte by done. by apply kspec_eq.
Qed.
End Kvm.

(** ** Concrete runs *)

(** A machine with [n] free pages above the kernel. *)
Definition demo_pages (n : nat) : list Z := (fun i => 0x80200000 + 4096 * Z.of_nat i) <$> seq 0 n.
Fixpoint thread_list (l : list Z) (m : mem) : mem :=
  match l with
  | [] => m
  | p :: l' => st32 (thread_list l' m) p (default 0 (head l'))
  end.
Definition demo (n : nat) : kernel :=
  boot <| k_mem := thread_list (demo_pages n) ∅ |>
       <| k_kmem := mk_kmem 1 (default 0 (head (demo_pages n))) |>.

Lemma demo_ready n : mm_ready (demo n).
Proof. split; [eexists; eexists; apply boot_quiet|]. intros _. reflexivity. Qed.

Fixpoint chainb (m : mem) (h : Z) (l : list Z) : bool :=
  match l with
  | [] => h =? 0
  | p :: l' => (h =? p) && chainb m (ld32 m p) l'
  end.

Lemma chainb_ok m h l : chainb m h l = true -> chain m h l.
Proof.
  revert h; induction l as [|p l IH]; intros h; cbn; [apply Z.eqb_eq|].
  intros [H1%Z.eqb_eq H2]%andb_true_iff. auto.
Qed.

Lemma demo_heap n :
  chainb (k_mem (demo n)) (freelist (k_kmem (demo n))) (demo_pages n) &&
  bool_decide (Forall (page_ok (L := demo_layout)) (demo_pages n)) && bool_decide (NoDup (demo_pages n)) = true ->
  heap (L := demo_layout) (demo n) (demo_pages n).
Proof.
  intros [[H1 H2]%andb_true_iff H3]%andb_true_iff. split; [by apply chainb_ok|].
  apply bool_decide_eq_true in H2, H3. done.
Qed.

Lemma demo_NoDup n : bool_decide (NoDup (demo_pages n)) = true -> NoDup (demo_pages n ++ []).
Proof. rewrite app_nil_r. apply bool_decide_eq_true. Qed.

Lemma setupkvm_spec_witness :
  wp (setupkvm (L := demo_layout)) (fun r s' =>
    mm_frame (demo 66) s' /\ keeps [] (k_mem (demo 66)) (k_mem s') /\ exists l', heap (L := demo_layout) s' l' /\
    if decide (65 <= length (demo_pages 66))%nat
    then r <> 0 /\ r :: l' ++ pts (k_mem s') r ≡ₚ demo_pages 66 /\ length (demo_pages 66) = (length l' + 65)%nat /\
         forall v, 0 <= v < 4294967296 -> pte_at (k_mem s') r v = kernel_pte (L := demo_layout) v
    else r = 0 /\ l' ≡ₚ demo_pages 66) (demo 66).
Proof.
  apply (setupkvm_spec (L := demo_layout) (demo 66) (demo_pages 66) []);
    [apply demo_ready | apply demo_heap; vm_compute; reflexivity
    | apply demo_NoDup; vm_compute; reflexivity | apply Forall_nil_2].
Defined.

(** ** A small address space

    One page table, whose pages 0 and 1 are mapped for the user. *)
Definition demo_dir : Z := 0x80300000.
Definition demo_tab : Z := 0x80301000.
Definition demo_u0 : Z := 0x80302000.
Definition demo_u1 : Z := 0x80310000.
Definition demo_as (n : nat) : kernel :=
  (demo n) <| k_mem ::= fun m =>
    st32 (st32 (st32 m demo_dir (Z.lor (V2P demo_tab) 7)) demo_tab (Z.lor (V2P demo_u0) 7))
         (demo_tab + 4) (Z.lor (V2P demo_u1) 7) |>.

(** A directory without user tables but the first one has its user pages
    there. *)
Definition upages0 (m : mem) (pgdir : Z) : list Z :=
  omap (upage m pgdir) ((fun i => i * 4096) <$> seqZ 0 1024).

Lemma upages_first m pgdir :
  forallb (fun i => negb (present (pde_at m pgdir i))) (seqZ 1 511) = true ->
  upages m pgdir = upages0 m pgdir.
Proof.
  intros H. rewrite upages_eq. unfold upages0.
  assert (E1 : uaddrs = ((fun i => i * 4096) <$> seqZ 0 1024) ++ ((fun i => i * 4096) <$> seqZ 1024 523264)).
  { rewrite uaddrs_eq, <- fmap_app. change 524288 with (1024 + 523264). by rewrite seqZ_app by lia. }
  rewrite E1, omap_app, (omap_ext_in _ (fun _ => None) ((fun i => i * 4096) <$> seqZ 1024 523264)).
  - assert (E : forall l : list Z, omap (fun _ => None : option Z) l = []) by (induction l; done).
    by rewrite E, app_nil_r.
  - intros a (i & -> & Hi%elem_of_seqZ)%list_elem_of_fmap. unfold upage, pte_at.
    rewrite (pdx_eq (i * 4096)) by lia.
    rewrite forallb_forall in H. specialize (H (i * 4096 / 4194304)).
    rewrite negb_true_iff in H. rewrite H; [done|].
    apply list_elem_of_In, elem_of_seqZ. Z.div_mod_to_equations. lia.
Qed.

Definition as_check (s : kernel) (pgdir : Z) (l own : list Z) : bool :=
  let m := k_mem s in
  let pages := pgdir :: pts m pgdir ++ upages0 m pgdir ++ own in
  forallb (fun i => negb (present (pde_at m pgdir i))) (seqZ 1 511) &&
  chainb m (freelist (k_kmem s)) l && bool_decide (Forall (page_ok (L := demo_layout)) (l ++ pages)) &&
  bool_decide (NoDup (l ++ pages)).

Lemma as_check_ok s pgdir l own :
  mm_ready s -> as_check s pgdir l own = true -> as_inv (L := demo_layout) s pgdir l own.
Proof.
  intros Hr H. unfold as_check in H. repeat rewrite andb_true_iff in H. destruct H as (((H1 & H2) & H3) & H4).
  apply bool_decide_eq_true in H3, H4. unfold as_inv, pt_inv. rewrite (upages_first _ _ H1).
  apply Forall_app in H3 as [H3 H3']. pose proof H4 as (H4' & _ & _)%NoDup_app.
  split; [done|]. split; [|done]. split; [by apply chainb_ok|]. done.
Qed.

Lemma demo_as_ready n : mm_ready (demo_as n).
Proof. split; [eexists; eexists; apply boot_quiet|]. intros _. reflexivity. Qed.
