(* ===== verification/AddrSpace.v ===== *)
(** * Growing, copying and reading address spaces

    [allocuvm], [copyuvm], [inituvm], [clearpteu], [uva2ka] and [copyout] of
    [vm.c].  The theorems say which pages an operation takes and gives back on
    every branch, what each virtual address is mapped to afterwards and what
    the user finds there. *)

From stdpp Require Import base gmap strings list fin_maps.
From Stdlib Require Import ZArith Lia.
From S2P Require Import Prelude Mem Types Spinlock Kalloc Vm PageTable Uvm Kvm.

Section Alloc.
Context `{L : Layout} {LO : LayoutOk L}.

(** A user mapping of the page [p] reads back as [p]. *)
Lemma pte_page_of p perm :
  page_ok p -> 0 <= perm < 4096 ->
  0 <= mk_pte (V2P p) perm < 4294967296 /\ pte_page (mk_pte (V2P p) perm) = p /\
  V2P p mod 4096 = 0 /\ 0 <= V2P p < 4294967296.
Proof.
  intros Hp Hperm. pose proof (page_ok_range p Hp) as Hr. destruct Hp as [Hm Hk].
  rewrite V2P_page by done. unfold KERNBASE, EXTMEM, PHYSTOP in *.
  assert (Hm' : (p - 2147483648) mod 4096 = 0) by (Z.div_mod_to_equations; lia).
  destruct (mk_pte_fields (p - 2147483648) perm Hm' ltac:(lia) Hperm) as (H1 & H2 & _).
  split; [done|]. split; [|split; [done|lia]]. unfold pte_page. rewrite H2.
  unfold P2V, KERNBASE. rewrite u32_id; lia.
Qed.

Lemma pages_eq_sym (v a : Z) : a mod 4096 = 0 -> in_pages a a v <-> v / 4096 = a / 4096.
Proof. unfold in_pages. lia. Qed.

(** Mapping the allocated page [p] at the user address [a]. *)
Lemma wp_map_user s pgdir l own a p perm :
  pt_inv s pgdir l (p :: upages (k_mem s) pgdir ++ own) ->
  a mod 4096 = 0 -> 0 <= a < KERNBASE -> 0 <= perm < 4096 ->
  present (pte_at (k_mem s) pgdir a) = false ->
  wp (mappages pgdir a PGSIZE (V2P p) perm) (fun r s' => exists l',
    mm_frame s s' /\ keeps (p :: upages (k_mem s) pgdir ++ own) (k_mem s) (k_mem s') /\
    l' ++ pts (k_mem s') pgdir ≡ₚ l ++ pts (k_mem s) pgdir /\
    ((r = 0 /\ as_inv s' pgdir l' own /\ upages (k_mem s') pgdir ≡ₚ p :: upages (k_mem s) pgdir /\
      (forall v, 0 <= v < 4294967296 -> pte_at (k_mem s') pgdir v =
         if decide (v / 4096 = a / 4096) then mk_pte (V2P p) perm else pte_at (k_mem s) pgdir v)) \/
     (r = -1 /\ l' = [] /\ as_inv s' pgdir [] (p :: own) /\
      upages (k_mem s') pgdir = upages (k_mem s) pgdir /\
      (forall v, 0 <= v < 4294967296 -> pte_at (k_mem s') pgdir v = pte_at (k_mem s) pgdir v)))) s.
Proof.
  intros Hinv Ham Ha Hperm Habs. destruct (pt_inv_own _ _ _ _ p Hinv) as (Hok & _); [apply list_elem_of_here|].
  destruct (pte_page_of p perm Hok Hperm) as (Hr & Hpg & Hpm & Hpr). unfold KERNBASE, PGSIZE in *.
  assert (Hlast : (a + 4096 - 1) / 4096 * 4096 = a) by (Z.div_mod_to_equations; lia).
  eapply wp_mono.
  { apply (wp_mappages s pgdir a 4096 (V2P p) perm l _ Hinv); try done; try lia.
    rewrite Hlast. intros v Hv Hin. rewrite <- Habs. f_equal. apply pte_at_page; [done|lia|unfold in_pages in Hin; lia]. }
  rewrite Hlast. intros r s' (l' & [Hf Hi Hp Hk _ _ Hout Hres]). exists l'.
  split; [done|]. split; [done|]. split; [done|].
  destruct Hres as [(-> & Hval & _)|(-> & -> & _ & Hla & _)]; [left|right]; (split; [done|]).
  - assert (Hpte : forall v, 0 <= v < 4294967296 -> pte_at (k_mem s') pgdir v =
         if decide (v / 4096 = a / 4096) then mk_pte (V2P p) perm else pte_at (k_mem s) pgdir v).
    { intros v Hv. case_decide; [|apply Hout; [done|unfold in_pages; lia]].
      rewrite Hval by (done || (unfold in_pages; lia)). by apply entry_for_self. }
    assert (Hup : upages (k_mem s') pgdir ≡ₚ p :: upages (k_mem s) pgdir).
    { pose proof (upages_add (k_mem s) (k_mem s') pgdir a) as Hadd.
      rewrite Hpte, decide_True, Hpg in Hadd by (done || lia). apply Hadd; [done|done|apply present_mk_pte|].
      intros v Hv Hne. by rewrite Hpte, decide_False. }
    split; [|done]. eapply pt_inv_own_perm; [exact Hi|]. by rewrite Hup.
  - assert (Hpte : forall v, 0 <= v < 4294967296 -> pte_at (k_mem s') pgdir v = pte_at (k_mem s) pgdir v).
    { intros v Hv. destruct (decide (v / 4096 = a / 4096)) as [E|Hne]; [|apply Hout; [done|unfold in_pages; lia]].
      rewrite !(pte_at_page _ _ v a) by (done || lia). done. }
    assert (Hup : upages (k_mem s') pgdir = upages (k_mem s) pgdir)
      by (apply upages_ext; intros; apply Hpte; unfold KERNBASE in *; lia).
    split; [done|]. split; [|done]. eapply pt_inv_own_perm; [exact Hi|]. rewrite Hup. apply Permutation_middle.
Qed.

(** Allocating a page and clearing it. *)
Lemma kalloc_page s pgdir l own s1 p :
  as_inv s pgdir (p :: l) own -> mm_frame s s1 -> k_mem s1 = k_mem s -> heap s1 l ->
  forall m', outside p (k_mem s) m' ->
  let s2 := s1 <| k_mem := m' |> in
  mm_frame s s2 /\ pt_inv s2 pgdir l (p :: upages (k_mem s2) pgdir ++ own) /\
  keeps (upages (k_mem s) pgdir ++ own) (k_mem s) (k_mem s2) /\
  pts (k_mem s2) pgdir = pts (k_mem s) pgdir /\ upages (k_mem s2) pgdir = upages (k_mem s) pgdir /\
  forall v, pte_at (k_mem s2) pgdir v = pte_at (k_mem s) pgdir v.
Proof.
  intros Hinv Hf Em Hh m' Ho s2.
  destruct (pt_inv_free _ _ _ _ p Hinv) as (Hok & Hpd & Hpp & Hpo); [apply list_elem_of_here|].
  destruct (view_outside s s2 pgdir _ _ p Hinv Ho Hok Hpd Hpp) as (Hpts & _ & Hpte).
  assert (Hf2 : mm_frame s s2) by (eapply mm_frame_trans; [exact Hf|apply (mm_frame_mem s1 (fun _ => m'))]).
  assert (Hup : upages (k_mem s2) pgdir = upages (k_mem s) pgdir) by (by apply upages_ext).
  assert (Hpl : p ∉ l) by (destruct Hinv as (_ & (_ & _ & Hnd) & _); by apply NoDup_cons in Hnd as [? _]).
  split; [done|]. split; [|split; [|done]].
  - apply (pt_inv_move s s2 pgdir (p :: l) l _ _ Hinv); [by eapply mm_frame_ready, Hinv| |].
    + apply (heap_outside s1 s2 p l Hh); [rewrite Em; exact Ho|done|apply Hok|done].
    + rewrite Hpts, Hup. solve_Permutation.
  - intros q Hq. destruct (pt_inv_own _ _ _ _ q Hinv Hq) as ((Hqm & _) & _).
    apply (outside_same p); [done|apply Hok|done|]. congruence.
Qed.

Definition zeroed (m : mem) (p : Z) : Prop := forall a, p <= a < p + 4096 -> ld8 m a = 0.

Lemma outside_memset m p c : outside p m (memset m p c 4096).
Proof. intros a Ha. rewrite ld8_memset by lia. by rewrite decide_False by lia. Qed.

(** ** [allocuvm] *)

(** The state of the loop at [a]: the pages from [a0] to [a] are new. *)
Record alloc_upto (s0 : kernel) (pgdir a0 a : Z) (own : list Z) (s : kernel) : Prop := {
  au_frame : mm_frame s0 s;
  au_keeps : keeps (upages (k_mem s0) pgdir ++ own) (k_mem s0) (k_mem s);
  au_old : forall v, 0 <= v < 4294967296 -> ~ (a0 <= v < a) ->
             pte_at (k_mem s) pgdir v = pte_at (k_mem s0) pgdir v;
  au_new : forall v, 0 <= v < 4294967296 -> a0 <= v < a -> exists p,
             pte_at (k_mem s) pgdir v = mk_pte (V2P p) 6 /\ page_ok p /\ zeroed (k_mem s) p
}.

(** Every page is accounted for. *)
Definition conserved (pgdir : Z) (s0 : kernel) (l0 : list Z) (s : kernel) (l : list Z) : Prop :=
  l ++ pts (k_mem s) pgdir ++ upages (k_mem s) pgdir ≡ₚ
  l0 ++ pts (k_mem s0) pgdir ++ upages (k_mem s0) pgdir.

(** What a failed [allocuvm] leaves: the address space it was given. *)
Record alloc_fail (s0 : kernel) (pgdir a0 newsz : Z) (l0 own : list Z) (s : kernel) (l : list Z) : Prop := {
  af_frame : mm_frame s0 s;
  af_inv : as_inv s pgdir l own;
  af_pages : l ++ pts (k_mem s) pgdir ≡ₚ l0 ++ pts (k_mem s0) pgdir;
  af_upages : upages (k_mem s) pgdir = upages (k_mem s0) pgdir;
  af_keeps : keeps (upages (k_mem s0) pgdir ++ own) (k_mem s0) (k_mem s);
  af_pte : forall v, 0 <= v < 4294967296 ->
             if decide (visits a0 newsz v) then present (pte_at (k_mem s) pgdir v) = false
             else pte_at (k_mem s) pgdir v = pte_at (k_mem s0) pgdir v
}.

Lemma upages_ext' m m' pgdir :
  (forall v, 0 <= v < KERNBASE -> pte_at m' pgdir v = pte_at m pgdir v \/
     present (pte_at m' pgdir v) = false /\ present (pte_at m pgdir v) = false) ->
  upages m' pgdir = upages m pgdir.
Proof.
  intros H. rewrite !upages_eq. apply omap_ext_in. intros a [_ Ha]%elem_of_uaddrs. unfold upage.
  destruct (H a Ha) as [->|[-> ->]]; done.
Qed.

(** [deallocuvm] undoes the allocations. *)
Lemma alloc_undo s0 pgdir a0 a newsz l0 own own' s l s' l' :
  alloc_upto s0 pgdir a0 a own s -> conserved pgdir s0 l0 s (l ++ own') ->
  (forall v, 0 <= v < 4294967296 -> visits a0 newsz v -> present (pte_at (k_mem s0) pgdir v) = false) ->
  (forall v, a0 <= v < a -> visits a0 newsz v) ->
  dealloc_post s pgdir a0 newsz l (own' ++ own) s' l' ->
  mm_frame s0 s' /\ as_inv s' pgdir l' (own' ++ own) /\
  upages (k_mem s') pgdir = upages (k_mem s0) pgdir /\
  (l' ++ own') ++ pts (k_mem s') pgdir ≡ₚ l0 ++ pts (k_mem s0) pgdir /\
  keeps (upages (k_mem s0) pgdir ++ own) (k_mem s0) (k_mem s') /\
  (forall v, 0 <= v < 4294967296 ->
     if decide (visits a0 newsz v) then present (pte_at (k_mem s') pgdir v) = false
     else pte_at (k_mem s') pgdir v = pte_at (k_mem s0) pgdir v).
Proof.
  intros [Hf Hk Hold Hnew] Hcons Habs Hvis [Hf' Hi' Hp' Ht' Hk' Hv'].
  assert (Hpte : forall v, 0 <= v < 4294967296 ->
     if decide (visits a0 newsz v) then present (pte_at (k_mem s') pgdir v) = false
     else pte_at (k_mem s') pgdir v = pte_at (k_mem s0) pgdir v).
  { intros v Hv. rewrite Hv' by done. destruct (decide (visits a0 newsz v)) as [Hin|Hout].
    - case_decide as Hc; [done|]. apply not_true_is_false. tauto.
    - rewrite decide_False by tauto. apply Hold; [done|]. intros Hin. by apply Hout, Hvis. }
  assert (Hup : upages (k_mem s') pgdir = upages (k_mem s0) pgdir).
  { apply upages_ext'. intros v Hv. assert (Hv2 : 0 <= v < 4294967296) by (unfold KERNBASE in *; lia).
    specialize (Hpte v Hv2). case_decide; [right; auto|by left]. }
  split; [by eapply mm_frame_trans|]. split; [done|]. split; [done|]. split; [|split; [|done]].
  - rewrite Ht'. apply (Permutation_app_inv_r (upages (k_mem s0) pgdir)). rewrite <- !app_assoc.
    etrans; [|exact Hcons]. rewrite <- Hup at 1. rewrite <- app_assoc.
    transitivity ((l' ++ upages (k_mem s') pgdir) ++ own' ++ pts (k_mem s) pgdir); [solve_Permutation|].
    rewrite Hp'. solve_Permutation.
  - eapply keeps_trans; [exact Hk|]. eapply keeps_sub; [|exact Hk']. rewrite Hup.
    intros q. rewrite !elem_of_app. tauto.
Qed.

Lemma alloc_upto_step s0 pgdir a0 a own s s3 p :
  alloc_upto s0 pgdir a0 a own s -> a mod 4096 = 0 -> a0 <= a -> 0 <= a < KERNBASE ->
  mm_frame s s3 -> keeps (upages (k_mem s) pgdir ++ own) (k_mem s) (k_mem s3) ->
  page_ok p -> zeroed (k_mem s3) p ->
  (forall q, q ∈ upages (k_mem s0) pgdir -> q ∈ upages (k_mem s) pgdir) ->
  (forall v, 0 <= v < 4294967296 -> pte_at (k_mem s3) pgdir v =
     if decide (v / 4096 = a / 4096) then mk_pte (V2P p) 6 else pte_at (k_mem s) pgdir v) ->
  a0 mod 4096 = 0 -> a + 4096 <= KERNBASE -> 0 <= a0 ->
  alloc_upto s0 pgdir a0 (a + 4096) own s3.
Proof.
  intros [Hf Hk Hold Hnew] Ham Ha0 Ha Hf3 Hk3 Hok Hz Hsub Hpte Ha0m Hkb Ha0p. split.
  - by eapply mm_frame_trans.
  - eapply keeps_trans; [exact Hk|]. eapply keeps_sub; [|exact Hk3].
    intros q. rewrite !elem_of_app. intros [?|?]; auto.
  - intros v Hv Hout. rewrite Hpte by done.
    rewrite decide_False by (Z.div_mod_to_equations; lia). apply Hold; [done|lia].
  - intros v Hv Hin. rewrite Hpte by done. case_decide as Hd; [by exists p|].
    assert (Hin' : a0 <= v < a) by (Z.div_mod_to_equations; lia).
    destruct (Hnew v Hv Hin') as (q & Hq & Hqok & Hqz). exists q. split; [done|]. split; [done|].
    intros b Hb. rewrite <- (Hqz b Hb). apply (Hk3 q); [|done]. apply elem_of_app. left.
    apply elem_of_upages. exists v. rewrite Hq. unfold KERNBASE in *.
    destruct (pte_page_of q 6 Hqok ltac:(lia)) as (_ & -> & _).
    split; [lia|]. split; [apply present_mk_pte|done].
Qed.

Lemma alloc_upto_sub s0 pgdir a0 a own s q :
  alloc_upto s0 pgdir a0 a own s ->
  (forall v, 0 <= v < 4294967296 -> a0 <= v < a -> present (pte_at (k_mem s0) pgdir v) = false) ->
  q ∈ upages (k_mem s0) pgdir -> q ∈ upages (k_mem s) pgdir.
Proof.
  intros [_ _ Hold _] Habs. rewrite !elem_of_upages. intros (v & Hv & Hp & ->). exists v.
  assert (Hv2 : 0 <= v < 4294967296) by (unfold KERNBASE in *; lia).
  rewrite Hold; [done|done|]. intros Hin. by rewrite Habs in Hp.
Qed.

Lemma alloc_upto_mem s0 pgdir a0 a own s s2 :
  alloc_upto s0 pgdir a0 a own s -> mm_frame s s2 -> k_mem s2 = k_mem s -> alloc_upto s0 pgdir a0 a own s2.
Proof. intros [H1 H2 H3 H4] Hf E. split; rewrite ?E; try done. by eapply mm_frame_trans. Qed.

Lemma as_inv_mem s s2 pgdir l own :
  as_inv s pgdir l own -> mm_frame s s2 -> k_mem s2 = k_mem s -> heap s2 l -> as_inv s2 pgdir l own.
Proof.
  intros Hinv Hf E Hh. apply (pt_inv_move s s2 pgdir l l _ _ Hinv); [by eapply mm_frame_ready, Hinv|done|].
  by rewrite E.
Qed.

Lemma mm_frame_cprintf s f : mm_frame s (s <| k_console ::= f |>).
Proof.
  exists (k_mem s), (k_kmem s), (k_cpus s), (f (k_console s)).
  split; [by destruct s|]. split; [apply csims_refl|done].
Qed.

Lemma heap_cprintf s f l : heap s l -> heap (s <| k_console ::= f |>) l.
Proof. done. Qed.

Lemma alloc_upto_view s0 pgdir a0 a own s s3 :
  alloc_upto s0 pgdir a0 a own s -> mm_frame s s3 ->
  keeps (upages (k_mem s) pgdir ++ own) (k_mem s) (k_mem s3) ->
  (forall v, 0 <= v < 4294967296 -> a0 <= v < a -> present (pte_at (k_mem s0) pgdir v) = false) ->
  (forall v, 0 <= v < 4294967296 -> pte_at (k_mem s3) pgdir v = pte_at (k_mem s) pgdir v) ->
  a <= KERNBASE -> alloc_upto s0 pgdir a0 a own s3.
Proof.
  intros Hup Hf3 Hk3 Habs Hpte Ha. pose proof Hup as [Hf Hk Hold Hnew]. split.
  - by eapply mm_frame_trans.
  - eapply keeps_trans; [exact Hk|]. eapply keeps_sub; [|exact Hk3].
    intros q. rewrite !elem_of_app. intros [?|?]; [left; by eapply alloc_upto_sub|by right].
  - intros v Hv Hout. rewrite Hpte by done. by apply Hold.
  - intros v Hv Hin. destruct (Hnew v Hv Hin) as (q & Hq & Hqok & Hqz). exists q.
    rewrite Hpte by done. split; [done|]. split; [done|].
    intros b Hb. rewrite <- (Hqz b Hb). apply (Hk3 q); [|done]. apply elem_of_app. left.
    apply elem_of_upages. exists v. rewrite Hq.
    destruct (pte_page_of q 6 Hqok ltac:(lia)) as (_ & -> & _).
    split; [lia|]. split; [apply present_mk_pte|done].
Qed.

(** Giving back a page that is not mapped. *)
Lemma wp_kfree_own s pgdir l p own :
  as_inv s pgdir l (p :: own) ->
  wp (kfree p) (fun _ s' => mm_frame s s' /\ as_inv s' pgdir (p :: l) own /\
    pts (k_mem s') pgdir = pts (k_mem s) pgdir /\ upages (k_mem s') pgdir = upages (k_mem s) pgdir /\
    (forall v, pte_at (k_mem s') pgdir v = pte_at (k_mem s) pgdir v) /\
    keeps (upages (k_mem s) pgdir ++ own) (k_mem s) (k_mem s')) s.
Proof.
  intros Hinv. assert (Hin : p ∈ upages (k_mem s) pgdir ++ p :: own).
  { apply elem_of_app. right. apply list_elem_of_here. }
  destruct (pt_inv_own _ _ _ _ p Hinv Hin) as (Hok & Hpd & Hpl & Hpp).
  eapply wp_mono; [apply (wp_kfree s l p); [apply Hinv|by eapply pt_inv_heap|done|done]|].
  intros _ s' (Hf & Hh & Ho).
  destruct (view_outside s s' pgdir _ _ p Hinv Ho Hok Hpd Hpp) as (Hpts & _ & Hpte).
  assert (Hup : upages (k_mem s') pgdir = upages (k_mem s) pgdir) by (by apply upages_ext).
  assert (Hi : as_inv s' pgdir (p :: l) own).
  { apply (pt_inv_move s s' pgdir l (p :: l) _ _ Hinv); [by eapply mm_frame_ready, Hinv|done|].
    rewrite Hpts, Hup. solve_Permutation. }
  split; [done|]. split; [done|]. split; [done|]. split; [done|]. split; [done|].
  intros q Hq. rewrite <- Hup in Hq. destruct (pt_inv_own _ _ _ _ q Hi Hq) as ((Hqm & _) & _ & Hql & _).
  apply (outside_same p); [done|apply Hok|done|]. intros ->. by apply Hql, list_elem_of_here.
Qed.

Lemma wp_alloc_undo s0 s pgdir oldsz newsz a l0 l own own' :
  let a0 := (oldsz + 4095) / 4096 * 4096 in
  0 <= oldsz < newsz -> newsz < KERNBASE ->
  alloc_upto s0 pgdir a0 a own s -> as_inv s pgdir l (own' ++ own) -> conserved pgdir s0 l0 s (l ++ own') ->
  (forall v, 0 <= v < 4294967296 -> visits a0 newsz v -> present (pte_at (k_mem s0) pgdir v) = false) ->
  (forall v, a0 <= v < a -> visits a0 newsz v) ->
  wp (deallocuvm pgdir newsz oldsz) (fun _ s' => exists l',
    mm_frame s0 s' /\ as_inv s' pgdir l' (own' ++ own) /\
    upages (k_mem s') pgdir = upages (k_mem s0) pgdir /\
    (l' ++ own') ++ pts (k_mem s') pgdir ≡ₚ l0 ++ pts (k_mem s0) pgdir /\
    keeps (upages (k_mem s0) pgdir ++ own) (k_mem s0) (k_mem s') /\
    (forall v, 0 <= v < 4294967296 ->
       if decide (visits a0 newsz v) then present (pte_at (k_mem s') pgdir v) = false
       else pte_at (k_mem s') pgdir v = pte_at (k_mem s0) pgdir v)) s.
Proof.
  intros a0 Hold Hnew Hup Hinv Hcons Habs Hvis.
  eapply wp_mono; [apply (wp_deallocuvm s pgdir newsz oldsz l (own' ++ own) Hinv); lia|].
  intros r s' (_ & l' & Hpost). exists l'. by eapply alloc_undo.
Qed.

(** The result of [allocuvm] when it has work to do. *)
Definition alloc_result (s0 : kernel) (pgdir a0 newsz : Z) (l0 own : list Z) (r : Z) (s : kernel) : Prop :=
  exists l,
    (r = newsz /\ as_inv s pgdir l own /\ conserved pgdir s0 l0 s l /\
     exists a, alloc_upto s0 pgdir a0 a own s /\ forall v, a0 <= v < a <-> visits a0 newsz v) \/
    (r = 0 /\ alloc_fail s0 pgdir a0 newsz l0 own s l).

Section AllocLoop.
Variables (s0 : kernel) (pgdir oldsz newsz : Z) (l0 own : list Z).
Let a0 := (oldsz + 4095) / 4096 * 4096.
Hypothesis Hold : 0 <= oldsz.
Hypothesis Hnew : newsz < KERNBASE.
Hypothesis Habs : forall v, 0 <= v < 4294967296 -> visits a0 newsz v -> present (pte_at (k_mem s0) pgdir v) = false.

(** The two error paths: without a page, and without a page table for page [p]. *)
Lemma wp_alloc_nomem msg s a :
  oldsz < newsz -> alloc_upto s0 pgdir a0 a own s -> as_inv s pgdir [] own -> conserved pgdir s0 l0 s [] ->
  (forall v, a0 <= v < a -> visits a0 newsz v) ->
  wp (cprintf msg ;;; deallocuvm pgdir newsz oldsz ;;; kret 0) (alloc_result s0 pgdir a0 newsz l0 own) s.
Proof.
  intros Hlt Hup Hinv Hcons Hvis. apply wp_bind, wp_mod. apply wp_bind. set (s2 := s <| k_console ::= _ |>).
  eapply wp_mono.
  { apply (wp_alloc_undo s0 s2 pgdir oldsz newsz a l0 [] own []); [lia|done| | |exact Hcons|done|done].
    - apply (alloc_upto_mem _ _ _ _ _ s); [done|apply mm_frame_cprintf|done].
    - apply (as_inv_mem s); [done|apply mm_frame_cprintf|done|apply (pt_inv_heap _ _ _ _ Hinv)]. }
  intros _ s' (l' & Hf & Hi & Hu & Hp & Hk & Hv). apply wp_ret. exists l'. right. split; [done|].
  rewrite app_nil_r in Hp. by split.
Qed.

Lemma wp_alloc_notable msg s a p :
  oldsz < newsz -> alloc_upto s0 pgdir a0 a own s -> as_inv s pgdir [] (p :: own) -> conserved pgdir s0 l0 s [p] ->
  (forall v, a0 <= v < a -> visits a0 newsz v) ->
  wp (cprintf msg ;;; deallocuvm pgdir newsz oldsz ;;; kfree p ;;; kret 0) (alloc_result s0 pgdir a0 newsz l0 own) s.
Proof.
  intros Hlt Hup Hinv Hcons Hvis. apply wp_bind, wp_mod. apply wp_bind. set (s2 := s <| k_console ::= _ |>).
  eapply wp_mono.
  { apply (wp_alloc_undo s0 s2 pgdir oldsz newsz a l0 [] own [p]); [lia|done| |exact Hinv|exact Hcons|done|done].
    apply (alloc_upto_mem _ _ _ _ _ s); [done|apply mm_frame_cprintf|done]. }
  intros _ s5 (l5 & Hf5 & Hi5 & Hu5 & Hp5 & Hk5 & Hv5). apply wp_bind.
  eapply wp_mono; [apply (wp_kfree_own s5 pgdir l5 p own Hi5)|].
  intros _ s6 (Hf6 & Hi6 & Hp6 & Hu6 & Hv6 & Hk6). apply wp_ret. exists (p :: l5). right. split; [done|].
  split; [by eapply mm_frame_trans|done| |by rewrite Hu6| |].
  - rewrite Hp6, <- Hp5. solve_Permutation.
  - eapply keeps_trans; [exact Hk5|]. by rewrite <- Hu5.
  - intros v Hv. rewrite Hv6. by apply Hv5.
Qed.

(** The page [p] mapped at [a] in state [s3]. *)
Lemma alloc_mapped s s1 s3 a l l3 p :
  let s2 := s1 <| k_mem := memset (k_mem s1) p 0 4096 |> in
  alloc_upto s0 pgdir a0 a own s -> page_ok p -> a mod 4096 = 0 -> a0 <= a -> 0 <= a < KERNBASE ->
  mm_frame s s2 -> keeps (upages (k_mem s) pgdir ++ own) (k_mem s) (k_mem s2) ->
  upages (k_mem s2) pgdir = upages (k_mem s) pgdir -> (forall v, pte_at (k_mem s2) pgdir v = pte_at (k_mem s) pgdir v) ->
  conserved pgdir s0 l0 s2 (l ++ [p]) ->
  mm_frame s2 s3 -> keeps (p :: upages (k_mem s2) pgdir ++ own) (k_mem s2) (k_mem s3) ->
  l3 ++ pts (k_mem s3) pgdir ≡ₚ l ++ pts (k_mem s2) pgdir -> upages (k_mem s3) pgdir ≡ₚ p :: upages (k_mem s2) pgdir ->
  (forall v, 0 <= v < 4294967296 -> pte_at (k_mem s3) pgdir v =
     if decide (v / 4096 = a / 4096) then mk_pte (V2P p) 6 else pte_at (k_mem s2) pgdir v) ->
  (forall v, a0 <= v < a -> visits a0 newsz v) ->
  alloc_upto s0 pgdir a0 (a + 4096) own s3 /\ conserved pgdir s0 l0 s3 l3.
Proof.
  intros s2 Hup Hpok Ham Ha Har Hf2 Hk2 Hu2 Hv2 Hcons2 Hf3 Hk3 Hp3 Hu3 Hv3 Hvis. split.
  - assert (Ha0 : a0 mod 4096 = 0 /\ 0 <= a0) by (unfold a0; Z.div_mod_to_equations; lia).
    apply (alloc_upto_step s0 pgdir a0 a own s s3 p Hup); try done; try lia.
    + by eapply mm_frame_trans.
    + eapply keeps_trans; [exact Hk2|]. eapply keeps_sub; [|exact Hk3]. rewrite Hu2. intros q Hq. by apply list_elem_of_further.
    + intros b Hb. rewrite (Hk3 p) by (done || apply list_elem_of_here).
      unfold s2. cbn. rewrite ld8_memset by lia. by rewrite decide_True.
    + intros q. apply (alloc_upto_sub _ _ _ _ _ _ _ Hup). auto.
    + intros v Hv. rewrite Hv3 by done. by rewrite Hv2.
    + unfold KERNBASE in *. Z.div_mod_to_equations. lia.
  - unfold conserved in *. rewrite <- Hcons2, Hu3.
    transitivity (p :: (l3 ++ pts (k_mem s3) pgdir) ++ upages (k_mem s2) pgdir); [solve_Permutation|].
    rewrite Hp3. solve_Permutation.
Qed.

Lemma wp_allocuvm_loop fuel : forall s a l,
  alloc_upto s0 pgdir a0 a own s -> as_inv s pgdir l own -> conserved pgdir s0 l0 s l ->
  a mod 4096 = 0 -> a0 <= a -> (a0 < a -> a < newsz + 4096) ->
  (Z.to_nat ((newsz - a + 4095) / 4096) < fuel)%nat ->
  wp (allocuvm_loop fuel pgdir oldsz newsz a) (alloc_result s0 pgdir a0 newsz l0 own) s.
Proof.
  assert (Ha0 : a0 mod 4096 = 0 /\ oldsz <= a0 < oldsz + 4096) by (unfold a0; Z.div_mod_to_equations; lia).
  induction fuel as [|fuel IH]; intros s a l Hup Hinv Hcons Ham Ha Hend Hfuel; [lia|].
  cbn [allocuvm_loop].
  assert (Hvis : forall v, a0 <= v < a -> visits a0 newsz v)
    by (intros v Hv; unfold visits; Z.div_mod_to_equations; lia).
  destruct (Z.ltb_spec a newsz) as [Hlt|Hge].
  2:{ apply wp_ret. exists l. left. split; [done|]. split; [done|]. split; [done|]. exists a. split; [done|].
      intros v. split; [apply Hvis|]. unfold visits. Z.div_mod_to_equations. lia. }
  assert (Har : 0 <= a < KERNBASE) by lia.
  apply wp_bind. eapply wp_mono; [apply wp_kalloc; [apply Hinv|by eapply pt_inv_heap]|].
  intros r s1 (Hf1 & Em1 & Hl). destruct l as [|p l]; destruct Hl as [-> Hh1].
  - change (0 =? 0) with true. cbv iota. apply (wp_alloc_nomem _ s1 a); [lia| | | |done].
    + by apply (alloc_upto_mem _ _ _ _ _ s).
    + by apply (as_inv_mem s).
    + unfold conserved. by rewrite Em1.
  - destruct (pt_inv_free _ _ _ _ p Hinv) as (Hpok & _); [apply list_elem_of_here|].
    pose proof (page_ok_pos p Hpok). destruct (Z.eqb_spec p 0); [lia|].
    apply wp_bind, wp_mod. unfold PGSIZE at 1.
    assert (Ho : outside p (k_mem s) (memset (k_mem s1) p 0 4096)) by (rewrite Em1; apply outside_memset).
    destruct (kalloc_page s pgdir l own s1 p Hinv Hf1 Em1 Hh1 _ Ho) as (Hf2 & Hi2 & Hk2 & Ht2 & Hu2 & Hv2).
    set (s2 := s1 <| k_mem := _ |>) in Hf2, Hi2, Hk2, Ht2, Hu2, Hv2.
    change (s1 <| k_mem ::= _ |>) with s2.
    assert (Hcons2 : conserved pgdir s0 l0 s2 (l ++ [p])).
    { unfold conserved in *. rewrite Ht2, Hu2, <- Hcons. solve_Permutation. }
    assert (Ha2 : present (pte_at (k_mem s2) pgdir a) = false).
    { rewrite Hv2, (au_old _ _ _ _ _ _ Hup); [|unfold KERNBASE in *; lia|lia].
      apply Habs; [unfold KERNBASE in *; lia|]. unfold visits. Z.div_mod_to_equations. lia. }
    apply wp_bind. eapply wp_mono; [by apply (wp_map_user s2 pgdir l own a p 6 Hi2)|].
    intros r s3 (l3 & Hf3 & Hk3 & Hp3 & Hcase).
    destruct Hcase as [(-> & Hi3 & Hu3 & Hv3)|(-> & -> & Hi3 & Hu3 & Hv3)].
    + change (0 <? 0) with false. cbv iota. unfold PGSIZE. rewrite u32_id by (unfold KERNBASE in *; lia).
      destruct (alloc_mapped s s1 s3 a l l3 p) as [Hup3 Hcons3]; try done.
      apply (IH s3 (a + 4096) l3); [done..|Z.div_mod_to_equations; lia|lia|lia|].
      replace (newsz - a + 4095) with (newsz - (a + 4096) + 4095 + 1 * 4096) in Hfuel by lia.
      rewrite Z.div_add in Hfuel by lia. assert (0 <= (newsz - (a + 4096) + 4095) / 4096) by (apply Z.div_pos; lia). lia.
    + change (-1 <? 0) with true. cbv iota. apply (wp_alloc_notable _ s3 a p); [lia| |done| |done].
      * apply (alloc_upto_view _ _ _ _ _ s); [done|by eapply mm_frame_trans| |auto| |lia].
        -- eapply keeps_trans; [exact Hk2|]. eapply keeps_sub; [|exact Hk3]. rewrite Hu2.
           intros q Hq. by apply list_elem_of_further.
        -- intros v Hv. rewrite <- Hv2. by apply Hv3.
      * unfold conserved in *. rewrite <- Hcons2, Hu3. cbn [app] in Hp3 |- *. rewrite Hp3. solve_Permutation.
Qed.
End AllocLoop.

Lemma wp_allocuvm s pgdir oldsz newsz l own :
  as_inv s pgdir l own -> 0 <= oldsz <= newsz -> newsz < KERNBASE ->
  let a0 := (oldsz + 4095) / 4096 * 4096 in
  (forall v, 0 <= v < 4294967296 -> visits a0 newsz v -> present (pte_at (k_mem s) pgdir v) = false) ->
  wp (allocuvm pgdir oldsz newsz) (alloc_result s pgdir a0 newsz l own) s.
Proof.
  intros Hinv Hold Hnew a0 Habs. unfold allocuvm.
  destruct (Z.leb_spec KERNBASE newsz); [lia|]. destruct (Z.ltb_spec newsz oldsz); [lia|].
  rewrite pgroundup_eq by (unfold KERNBASE in *; lia). fold a0.
  assert (Ha0 : a0 mod 4096 = 0 /\ 0 <= a0) by (unfold a0; Z.div_mod_to_equations; lia).
  apply (wp_allocuvm_loop s pgdir oldsz newsz l own (proj1 Hold) Hnew Habs _ s a0 l); try done; try lia.
  - split; [apply mm_frame_refl|done|done|]. intros v Hv ?. lia.
  - unfold conserved. reflexivity.
  - unfold PGSIZE. replace (newsz - a0 + 4096 - 1) with (newsz - a0 + 4095) by lia. apply Nat.lt_succ_diag_r.
Qed.

(** C7: [allocuvm] grows an address space or leaves it as it was.  A size of
    [KERNBASE] or more is refused and a shrinking size does nothing.  Otherwise
    either it returns the new size and every page between the old and the new
    size is mapped, writable by the user, to a zeroed page of its own, or it returns
    0, nothing new is mapped and every page it took is free again; in both
    cases the old mappings, their contents and the pages of others are
    unchanged and no page is lost. *)
Theorem allocuvm_spec (s : kernel) (pgdir oldsz newsz : Z) (l own : list Z) :
  as_inv s pgdir l own -> 0 <= oldsz -> 0 <= newsz ->
  let a0 := (oldsz + 4095) / 4096 * 4096 in
  (forall v, 0 <= v < 4294967296 -> visits a0 newsz v -> present (pte_at (k_mem s) pgdir v) = false) ->
  wp (allocuvm pgdir oldsz newsz) (fun r s' =>
    if KERNBASE <=? newsz then r = 0 /\ s' = s
    else if newsz <? oldsz then r = oldsz /\ s' = s
    else alloc_result s pgdir a0 newsz l own r s') s.
Proof.
  intros Hinv Hold Hnew a0 Habs.
  destruct (Z.leb_spec KERNBASE newsz) as [H|H]; [|destruct (Z.ltb_spec newsz oldsz) as [H'|H']].
  - unfold allocuvm. destruct (Z.leb_spec KERNBASE newsz); [by apply wp_ret|lia].
  - unfold allocuvm. destruct (Z.leb_spec KERNBASE newsz); [lia|].
    destruct (Z.ltb_spec newsz oldsz); [by apply wp_ret|lia].
  - by apply wp_allocuvm.
Qed.

(** C37: [deallocuvm] releases exactly the pages above the new size.  It returns
    the new size; every page between the new and the old size is unmapped and
    back on the free list, every other mapping and its contents are unchanged,
    the page tables stay and no page is lost or freed twice. *)
Theorem deallocuvm_spec (s : kernel) (pgdir oldsz newsz : Z) (l own : list Z) :
  as_inv s pgdir l own -> 0 <= newsz -> oldsz <= KERNBASE ->
  wp (deallocuvm pgdir oldsz newsz) (fun r s' =>
    if oldsz <=? newsz then r = oldsz /\ s' = s
    else r = newsz /\ exists l', dealloc_post s pgdir ((newsz + 4095) / 4096 * 4096) oldsz l own s' l') s.
Proof.
  intros Hinv Hn Ho. destruct (Z.leb_spec oldsz newsz) as [Hle|Hgt].
  - unfold deallocuvm. destruct (Z.leb_spec oldsz newsz); [by apply wp_ret|lia].
  - by apply wp_deallocuvm.
Qed.

(** C9: [freevm] gives back a whole address space.  The free list afterwards is
    the old one with the directory, all its page tables and all its user pages,
    each exactly once; pages of others keep their contents. *)
Theorem freevm_spec (s : kernel) (pgdir : Z) (l own : list Z) :
  as_inv s pgdir l own ->
  wp (freevm pgdir) (fun _ s' => mm_frame s s' /\ keeps own (k_mem s) (k_mem s') /\
    exists l', heap s' l' /\ l' ≡ₚ pgdir :: l ++ pts (k_mem s) pgdir ++ upages (k_mem s) pgdir) s.
Proof. apply wp_freevm. Qed.

(** Growing and shrinking is a round trip.  When [allocuvm] succeeds,
    [deallocuvm] back to the old size restores the entry of every virtual
    address (or leaves it not present where it was not) and the user pages, and
    returns the pages to the free list up to the page tables that were added. *)
Theorem grow_shrink (s : kernel) (pgdir oldsz newsz : Z) (l own : list Z) :
  as_inv s pgdir l own -> 0 <= oldsz < newsz -> newsz < KERNBASE ->
  let a0 := (oldsz + 4095) / 4096 * 4096 in
  (forall v, 0 <= v < 4294967296 -> visits a0 newsz v -> present (pte_at (k_mem s) pgdir v) = false) ->
  wp (r <- allocuvm pgdir oldsz newsz ;; if r =? 0 then kret 0 else deallocuvm pgdir r oldsz)
     (fun r s' => (r = 0 \/ r = oldsz) /\ exists l', alloc_fail s pgdir a0 newsz l own s' l') s.
Proof.
  intros Hinv Hold Hnew a0 Habs. apply wp_bind.
  eapply wp_mono; [apply (wp_allocuvm s pgdir oldsz newsz l own Hinv); [lia|done|done]|].
  intros r s1 (l1 & [(-> & Hi & Hc & a & Hup & Hvis)|(-> & Hfail)]).
  - destruct (Z.eqb_spec newsz 0); [lia|].
    assert (Hc' : conserved pgdir s l s1 (l1 ++ [])) by (by rewrite app_nil_r).
    assert (Hvis' : forall v, a0 <= v < a -> visits a0 newsz v) by (intros v; apply Hvis).
    eapply wp_mono; [apply (wp_deallocuvm s1 pgdir newsz oldsz l1 own Hi); lia|].
    intros r s2 (-> & l2 & Hd). split; [by right|]. exists l2.
    destruct (alloc_undo s pgdir a0 a newsz l own [] s1 l1 s2 l2 Hup Hc' Habs Hvis' Hd)
      as (H1 & H2 & H3 & H4 & H5 & H6). rewrite app_nil_r in H4. by split.
  - change (0 =? 0) with true. cbv iota. apply wp_ret. split; [by left|]. by exists l1.
Qed.
End Alloc.

(** ** Concrete runs *)

(** No page from [lo] on below the first table's end is present. *)
Definition none_from (m : mem) (pgdir lo hi : Z) : bool :=
  forallb (fun i => negb (present (pte_at m pgdir (i * 4096)))) (seqZ (lo / 4096) ((hi + 4095) / 4096 - lo / 4096)).

Lemma none_from_ok m pgdir lo hi v :
  lo mod 4096 = 0 -> 0 <= lo -> hi <= KERNBASE -> none_from m pgdir lo hi = true ->
  0 <= v < 4294967296 -> visits lo hi v -> present (pte_at m pgdir v) = false.
Proof.
  intros Hm Hlo Hhi H Hv [H1 H2]. unfold none_from, KERNBASE in *. rewrite forallb_forall in H.
  rewrite (pte_at_page m pgdir v (v / 4096 * 4096)) by (Z.div_mod_to_equations; lia).
  apply negb_true_iff, H, list_elem_of_In, elem_of_seqZ. Z.div_mod_to_equations. lia.
Qed.

Lemma allocuvm_spec_witness :
  wp (allocuvm (L := demo_layout) demo_dir 8192 20000) (fun r s' =>
    if KERNBASE <=? 20000 then r = 0 /\ s' = demo_as 6
    else if 20000 <? 8192 then r = 8192 /\ s' = demo_as 6
    else alloc_result (L := demo_layout) (demo_as 6) demo_dir ((8192 + 4095) / 4096 * 4096) 20000 (demo_pages 6) [] r s') (demo_as 6).
Proof.
  apply (allocuvm_spec (L := demo_layout) (demo_as 6) demo_dir 8192 20000 (demo_pages 6) []).
  - apply as_check_ok; [apply demo_as_ready|vm_compute; reflexivity].
  - vm_compute; discriminate.
  - vm_compute; discriminate.
  - intros v. apply none_from_ok; vm_compute; (reflexivity || discriminate).
Defined.

Lemma deallocuvm_spec_witness :
  wp (deallocuvm (L := demo_layout) demo_dir 8192 100) (fun r s' =>
    if 8192 <=? 100 then r = 8192 /\ s' = demo_as 2
    else r = 100 /\ exists l', dealloc_post (L := demo_layout) (demo_as 2) demo_dir ((100 + 4095) / 4096 * 4096) 8192 (demo_pages 2) [] s' l') (demo_as 2).
Proof.
  apply (deallocuvm_spec (L := demo_layout) (demo_as 2) demo_dir 8192 100 (demo_pages 2) []).
  - apply as_check_ok; [apply demo_as_ready|vm_compute; reflexivity].
  - vm_compute; discriminate.
  - vm_compute; discriminate.
Defined.

Lemma freevm_spec_witness :
  wp (freevm (L := demo_layout) demo_dir) (fun _ s' => mm_frame (demo_as 2) s' /\ keeps [demo_u1 + 4096] (k_mem (demo_as 2)) (k_mem s') /\
    exists l', heap (L := demo_layout) s' l' /\
      l' ≡ₚ demo_dir :: demo_pages 2 ++ pts (k_mem (demo_as 2)) demo_dir ++ upages (k_mem (demo_as 2)) demo_dir) (demo_as 2).
Proof.
  apply (freevm_spec (L := demo_layout) (demo_as 2) demo_dir (demo_pages 2) [demo_u1 + 4096]).
  apply as_check_ok; [apply demo_as_ready|vm_compute; reflexivity].
Defined.

Lemma grow_shrink_witness :
  wp (r <- allocuvm (L := demo_layout) demo_dir 8000 20000 ;;
      if r =? 0 then kret 0 else deallocuvm (L := demo_layout) demo_dir r 8000)
     (fun r s' => (r = 0 \/ r = 8000) /\
        exists l', alloc_fail (L := demo_layout) (demo_as 6) demo_dir ((8000 + 4095) / 4096 * 4096) 20000 (demo_pages 6) [] s' l') (demo_as 6).
Proof.
  apply (grow_shrink (L := demo_layout) (demo_as 6) demo_dir 8000 20000 (demo_pages 6) []).
  - apply as_check_ok; [apply demo_as_ready|vm_compute; reflexivity].
  - vm_compute; split; [discriminate|reflexivity].
  - vm_compute; reflexivity.
  - intros v. apply none_from_ok; vm_compute; (reflexivity || discriminate).
Defined.
