(* ===== verification/CopyUvm.v ===== *)
(** * Copying an address space and writing to user memory

    [copyuvm] (the memory half of [fork]), [uva2ka], [copyout], [clearpteu]
    and [inituvm] of [vm.c]. *)

From stdpp Require Import base gmap strings list fin_maps.
From Stdlib Require Import ZArith Lia.
From S2P Require Import Prelude Mem Types Spinlock Kalloc Vm PageTable Uvm Kvm AddrSpace.

Section Copy.
Context `{L : Layout} {LO : LayoutOk L}.

(** All pages of an address space. *)
Definition space (m : mem) (p : Z) : list Z := p :: pts m p ++ upages m p.

Lemma perm_swap_blocks (d p : Z) (A B C D own : list Z) :
  d :: A ++ B ++ (p :: C ++ D) ++ own ≡ₚ p :: C ++ D ++ (d :: A ++ B) ++ own.
Proof.
  transitivity (((d :: A ++ B) ++ (p :: C ++ D)) ++ own); [by repeat (cbn; rewrite <- ?app_assoc)|].
  rewrite (Permutation_app_comm (d :: A ++ B)). by repeat (cbn; rewrite <- ?app_assoc).
Qed.

(** Two address spaces can be looked at from either side. *)
Lemma as_inv_swap s d p l own :
  as_inv s d l (space (k_mem s) p ++ own) -> as_inv s p l (space (k_mem s) d ++ own).
Proof.
  intros (Hr & Hh & Hnd & Hok). unfold as_inv, pt_inv, space in *.
  pose proof (perm_swap_blocks d p (pts (k_mem s) d) (upages (k_mem s) d)
    (pts (k_mem s) p) (upages (k_mem s) p) own) as E.
  split; [done|]. split; [done|]. by rewrite <- E.
Qed.

Lemma keeps_space m m' p :
  keeps (space m p) m m' ->
  (forall v, pte_at m' p v = pte_at m p v) /\ space m' p = space m p.
Proof.
  intros Hk. unfold space in *.
  assert (Hd : same_page m m' p) by (apply Hk, list_elem_of_here).
  assert (Hpte : forall v, pte_at m' p v = pte_at m p v).
  { intros v. apply pte_at_same; [done|]. intros q Hq. apply Hk, list_elem_of_further, elem_of_app. by left. }
  split; [done|]. rewrite (pts_same m m' p Hd). by rewrite (upages_ext m m' p p).
Qed.

(** The entry [e'] maps a copy of the page of [e], with the same flags. *)
Definition copy_of (m0 m : mem) (e e' : Z) : Prop :=
  exists p, page_ok p /\ e' = mk_pte (V2P p) (PTE_FLAGS e) /\
    forall b, 0 <= b < 4096 -> ld8 m (p + b) = ld8 m0 (pte_page e + b).

(** The state of the loop of [copyuvm] at [i]. *)
Record copy_upto (s0 : kernel) (pgdir d i : Z) (l0 own : list Z) (s : kernel) (l : list Z) : Prop := {
  cu_frame : mm_frame s0 s;
  cu_inv : as_inv s d l (space (k_mem s0) pgdir ++ own);
  cu_cons : conserved d s0 l0 s l;
  cu_keeps : keeps (space (k_mem s0) pgdir ++ own) (k_mem s0) (k_mem s);
  cu_old : forall v, 0 <= v < 4294967296 -> i <= v -> pte_at (k_mem s) d v = pte_at (k_mem s0) d v;
  cu_new : forall v, 0 <= v < i ->
             copy_of (k_mem s0) (k_mem s) (pte_at (k_mem s0) pgdir v) (pte_at (k_mem s) d v)
}.

Lemma pte_flags_range e : 0 <= PTE_FLAGS e < 4096.
Proof.
  unfold PTE_FLAGS. change 0xFFF with (2 ^ 12 - 1). rewrite land_mask by lia. apply Z.mod_pos_bound. lia.
Qed.

Lemma copy_of_keeps m0 m m' e e' own :
  keeps own m m' -> pte_page e' ∈ own -> copy_of m0 m e e' -> copy_of m0 m' e e'.
Proof.
  intros Hk Hin (p & Hok & -> & Hb). exists p. split; [done|]. split; [done|]. intros b Hr.
  destruct (pte_page_of p (PTE_FLAGS e) Hok (pte_flags_range e)) as (_ & E & _). rewrite E in Hin.
  rewrite (Hk p Hin) by lia. by apply Hb.
Qed.

Lemma copy_of_present m0 m e e' : copy_of m0 m e e' -> present e' = true.
Proof. intros (p & _ & -> & _). apply present_mk_pte. Qed.

(** One page is copied and mapped. *)
Lemma copy_upto_step s0 pgdir d i l0 own s l s3 l3 p :
  copy_upto s0 pgdir d i l0 own s l -> i mod 4096 = 0 -> 0 <= i -> i + 4096 <= KERNBASE ->
  mm_frame s s3 -> as_inv s3 d l3 (space (k_mem s0) pgdir ++ own) -> conserved d s0 l0 s3 l3 ->
  keeps (upages (k_mem s) d ++ space (k_mem s0) pgdir ++ own) (k_mem s) (k_mem s3) ->
  page_ok p ->
  (forall b, 0 <= b < 4096 -> ld8 (k_mem s3) (p + b) = ld8 (k_mem s0) (pte_page (pte_at (k_mem s0) pgdir i) + b)) ->
  (forall v, 0 <= v < 4294967296 -> pte_at (k_mem s3) d v =
     if decide (v / 4096 = i / 4096) then mk_pte (V2P p) (PTE_FLAGS (pte_at (k_mem s0) pgdir i))
     else pte_at (k_mem s) d v) ->
  copy_upto s0 pgdir d (i + 4096) l0 own s3 l3.
Proof.
  intros [Hf Hi Hc Hk Hold Hnew] Him Hi0 Hik Hf3 Hi3 Hc3 Hk3 Hok Hb Hpte. unfold KERNBASE in *. split.
  - by eapply mm_frame_trans.
  - done.
  - done.
  - eapply keeps_trans; [exact Hk|]. eapply keeps_sub; [|exact Hk3]. intros q Hq. apply elem_of_app. by right.
  - intros v Hv Hge. rewrite Hpte by done. rewrite decide_False by (Z.div_mod_to_equations; lia).
    apply Hold; [done|lia].
  - intros v Hv. rewrite Hpte by lia. case_decide as Hd.
    + exists p. rewrite (pte_at_page _ _ v i) by (done || lia). split; [done|]. by split.
    + assert (Hv' : 0 <= v < i) by (Z.div_mod_to_equations; lia).
      eapply copy_of_keeps; [exact Hk3| |by apply Hnew].
      apply elem_of_app. left. apply elem_of_upages. exists v. unfold KERNBASE. split; [lia|]. split; [|done].
      by eapply copy_of_present, Hnew.
Qed.

(** What the loop leaves when it stops early: nothing is lost. *)
Record copy_fail (s0 : kernel) (pgdir d : Z) (l0 own : list Z) (s : kernel) (l : list Z) : Prop := {
  cf_frame : mm_frame s0 s;
  cf_inv : as_inv s d l (space (k_mem s0) pgdir ++ own);
  cf_cons : conserved d s0 l0 s l;
  cf_keeps : keeps (space (k_mem s0) pgdir ++ own) (k_mem s0) (k_mem s)
}.

Lemma conserved_trans d s0 l0 s1 l1 s2 l2 :
  conserved d s0 l0 s1 l1 -> conserved d s1 l1 s2 l2 -> conserved d s0 l0 s2 l2.
Proof. unfold conserved. intros H1 H2. by rewrite H2. Qed.

(** The parent's entry for a mapped address, found without allocation. *)
Lemma walk_mapped s pgdir l own v :
  as_inv s pgdir l own -> present (pte_at (k_mem s) pgdir v) = true ->
  exists a, walkpgdir pgdir v false s = Ret a s /\ a <> 0 /\ ld32 (k_mem s) a = pte_at (k_mem s) pgdir v.
Proof.
  intros Hinv Hp. assert (Hd : present (pde_at (k_mem s) pgdir (PDX v)) = true).
  { unfold pte_at in Hp. by destruct (present (pde_at _ _ _)). }
  exists (slot (k_mem s) pgdir v). split; [by apply walk_present|].
  split; [by eapply slot_nonzero|]. unfold pte_at. by rewrite Hd.
Qed.

Lemma copy_upto_parent s0 pgdir d i l0 own s l :
  copy_upto s0 pgdir d i l0 own s l ->
  (forall v, pte_at (k_mem s) pgdir v = pte_at (k_mem s0) pgdir v) /\
  as_inv s pgdir l (space (k_mem s) d ++ own).
Proof.
  intros [_ Hi _ Hk _ _].
  destruct (keeps_space (k_mem s0) (k_mem s) pgdir) as [Hpte Hsp].
  { eapply keeps_sub; [|exact Hk]. intros q Hq. apply elem_of_app. by left. }
  split; [done|]. apply as_inv_swap. by rewrite Hsp.
Qed.

Lemma wp_copy_page s0 pgdir d i l0 own s l s1 p :
  copy_upto s0 pgdir d i l0 own s (p :: l) ->
  i mod 4096 = 0 -> 0 <= i -> i + 4096 <= KERNBASE ->
  present (pte_at (k_mem s0) pgdir i) = true -> pte_at (k_mem s0) d i = 0 ->
  mm_frame s s1 -> k_mem s1 = k_mem s -> heap s1 l ->
  let e := pte_at (k_mem s0) pgdir i in
  wp (k_memmove p (pte_page e) PGSIZE ;;; mappages d i PGSIZE (V2P p) (PTE_FLAGS e)) (fun r s3 => exists l3,
    (r = 0 /\ copy_upto s0 pgdir d (i + 4096) l0 own s3 l3) \/
    (r = -1 /\ mm_frame s0 s3 /\ as_inv s3 d [] (p :: space (k_mem s0) pgdir ++ own) /\
     conserved d s0 l0 s3 [p] /\ keeps (space (k_mem s0) pgdir ++ own) (k_mem s0) (k_mem s3))) s1.
Proof.
  intros Hup Him Hi0 Hik Hpi Hzi Hf1 Em1 Hh1 e. pose proof Hup as [Hf Hinv Hc Hk Hold Hnew].
  destruct (pt_inv_free _ _ _ _ p Hinv) as (Hpok & _ & _ & Hpo); [apply list_elem_of_here|].
  apply wp_bind, wp_mod. unfold PGSIZE at 1.
  assert (Ho : outside p (k_mem s) (memmove (k_mem s1) p (pte_page e) 4096)).
  { intros b Hb. rewrite Em1, ld8_memmove by lia. by rewrite decide_False by lia. }
  destruct (kalloc_page s d l _ s1 p Hinv Hf1 Em1 Hh1 _ Ho) as (Hf2 & Hi2 & Hk2 & Ht2 & Hu2 & Hv2).
  set (s2 := s1 <| k_mem := _ |>) in Hf2, Hi2, Hk2, Ht2, Hu2, Hv2.
  change (s1 <| k_mem ::= _ |>) with s2.
  assert (Hcons2 : conserved d s0 l0 s2 (l ++ [p])).
  { unfold conserved in *. rewrite Ht2, Hu2, <- Hc. solve_Permutation. }
  eapply wp_mono.
  { apply (wp_map_user s2 d l _ i p (PTE_FLAGS e) Hi2); [done|lia|apply pte_flags_range|].
    rewrite Hv2, Hold by (unfold KERNBASE in *; lia). by rewrite Hzi. }
  intros r s3 (l3 & Hf3 & Hk3 & Hp3 & Hcase). exists l3.
  assert (Hk23 : keeps (upages (k_mem s) d ++ space (k_mem s0) pgdir ++ own) (k_mem s) (k_mem s3)).
  { eapply keeps_trans; [exact Hk2|]. eapply keeps_sub; [|exact Hk3]. rewrite Hu2.
    intros q Hq. by apply list_elem_of_further. }
  destruct Hcase as [(-> & Hi3 & Hu3 & Hv3)|(-> & -> & Hi3 & Hu3 & Hv3)]; [left|right]; (split; [done|]).
  - apply (copy_upto_step s0 pgdir d i l0 own s (p :: l) s3 l3 p Hup); try done.
    + by eapply mm_frame_trans.
    + unfold conserved in *. rewrite <- Hcons2, Hu3.
      transitivity (p :: (l3 ++ pts (k_mem s3) d) ++ upages (k_mem s2) d); [solve_Permutation|].
      rewrite Hp3. solve_Permutation.
    + intros b Hb. rewrite (Hk3 p) by (apply list_elem_of_here || lia).
      unfold s2. cbn. rewrite ld8_memmove by lia. rewrite decide_True by lia. rewrite Em1.
      replace (pte_page e + (p + b - p)) with (pte_page e + b) by lia.
      apply (Hk (pte_page e)); [|unfold e; lia]. apply elem_of_app. left. apply list_elem_of_further, elem_of_app. right.
      apply elem_of_upages. exists i. unfold KERNBASE in *. split; [lia|done].
    + intros v Hv. rewrite Hv3 by done. by rewrite Hv2.
  - split; [by do 2 (eapply mm_frame_trans; [done|])|]. split; [done|]. split.
    + unfold conserved in *. rewrite <- Hcons2, Hu3. cbn [app] in Hp3 |- *. rewrite Hp3. solve_Permutation.
    + eapply keeps_trans; [exact Hk|]. eapply keeps_sub; [|exact Hk23]. intros q Hq. apply elem_of_app. by right.
Qed.

Lemma wp_copyuvm_loop fuel s0 s pgdir d sz i l0 l own :
  copy_upto s0 pgdir d i l0 own s l ->
  i mod 4096 = 0 -> 0 <= i -> (0 < i -> i < sz + 4096) -> sz <= KERNBASE -> (Z.to_nat ((sz - i + 4095) / 4096) < fuel)%nat ->
  (forall v, 0 <= v < sz -> present (pte_at (k_mem s0) pgdir v) = true) ->
  (forall v, 0 <= v < KERNBASE -> pte_at (k_mem s0) d v = 0) ->
  wp (copyuvm_loop fuel pgdir d sz i) (fun ok s' => exists l',
    if ok : bool then exists i', (forall v, 0 <= v < i' <-> visits 0 sz v) /\ copy_upto s0 pgdir d i' l0 own s' l'
    else copy_fail s0 pgdir d l0 own s' l') s.
Proof.
  intros Hup Him Hi0 His Hsz Hfuel Hpres Hzero. revert s i l Hup Him Hi0 His Hfuel.
  induction fuel as [|fuel IH]; intros s i l Hup Him Hi0 His Hfuel; [lia|].
  cbn [copyuvm_loop]. destruct (Z.ltb_spec i sz) as [Hlt|Hge].
  2:{ apply wp_ret. exists l. exists i. split; [|done]. intros v. unfold visits. Z.div_mod_to_equations. lia. }
  destruct (copy_upto_parent _ _ _ _ _ _ _ _ Hup) as [Hppte Hpinv].
  pose proof Hup as [Hf Hinv Hc Hk Hold Hnew].
  assert (Hpi : present (pte_at (k_mem s) pgdir i) = true) by (rewrite Hppte; apply Hpres; lia).
  destruct (walk_mapped s pgdir l _ i Hpinv Hpi) as (a & Hwalk & Hnz & Hld).
  apply wp_bind. eapply wp_of_run; [exact Hwalk|]. destruct (Z.eqb_spec a 0); [done|].
  apply wp_bind, wp_get. rewrite Hld. fold (present (pte_at (k_mem s) pgdir i)). rewrite Hpi. cbn [negb].
  rewrite Hppte. set (e := pte_at (k_mem s0) pgdir i) in *.
  apply wp_bind. eapply wp_mono; [apply wp_kalloc; [apply Hinv|by eapply pt_inv_heap]|].
  intros r s1 (Hf1 & Em1 & Hl). destruct l as [|p l]; destruct Hl as [-> Hh1].
  { apply wp_ret. exists []. split; [by eapply mm_frame_trans|by apply (as_inv_mem s)| |by rewrite Em1].
    unfold conserved in *. by rewrite Em1. }
  destruct (pt_inv_free _ _ _ _ p Hinv) as (Hpok & _); [apply list_elem_of_here|].
  pose proof (page_ok_pos p Hpok). destruct (Z.eqb_spec p 0); [lia|].
  assert (Hik : i + 4096 <= KERNBASE) by (unfold KERNBASE in *; Z.div_mod_to_equations; lia).
  apply wp_assoc, wp_bind. fold (pte_page e). eapply wp_mono.
  { apply (wp_copy_page s0 pgdir d i l0 own s l s1 p); try done; [apply Hpres; lia|apply Hzero; lia]. }
  intros r s3 (l3 & [(-> & Hup3)|(-> & Hf3 & Hi3 & Hc3 & Hk3)]).
  - change (0 <? 0) with false. cbv iota. unfold PGSIZE. rewrite u32_id by (unfold KERNBASE in *; lia).
    apply (IH s3 (i + 4096) l3 Hup3); [Z.div_mod_to_equations; lia|lia|lia|].
    replace (sz - i + 4095) with (sz - (i + 4096) + 4095 + 1 * 4096) in Hfuel by lia.
    rewrite Z.div_add in Hfuel by lia.
    assert (0 <= (sz - (i + 4096) + 4095) / 4096) by (apply Z.div_pos; lia). lia.
  - change (-1 <? 0) with true. cbv iota. apply wp_bind.
    eapply wp_mono; [apply (wp_kfree_own s3 d [] p _ Hi3)|].
    intros _ s4 (Hf4 & Hi4 & Hp4 & Hu4 & Hv4 & Hk4). apply wp_ret. exists [p].
    split; [by eapply mm_frame_trans|done| |].
    + unfold conserved in *. by rewrite Hp4, Hu4.
    + eapply keeps_trans; [exact Hk3|]. eapply keeps_sub; [|exact Hk4]. intros q Hq. apply elem_of_app. by right.
Qed.

Lemma as_inv_pages s pgdir l own :
  as_inv s pgdir l own -> NoDup (l ++ space (k_mem s) pgdir ++ own) /\
  Forall page_ok (space (k_mem s) pgdir ++ own).
Proof.
  intros (_ & _ & Hnd & Hok). unfold space. cbn [app]. by rewrite <- app_assoc.
Qed.

(** The start of the loop: [setupkvm] has returned [d]. *)
Lemma copy_start s pgdir l own s1 d l1 :
  as_inv s pgdir l own -> mm_frame s s1 -> keeps (space (k_mem s) pgdir ++ own) (k_mem s) (k_mem s1) ->
  pt_inv s1 d l1 (space (k_mem s) pgdir ++ own) ->
  (forall v, 0 <= v < 4294967296 -> pte_at (k_mem s1) d v = kspec v) ->
  (forall v, pte_at (k_mem s1) pgdir v = pte_at (k_mem s) pgdir v) /\
  space (k_mem s1) pgdir = space (k_mem s) pgdir /\
  (forall v, 0 <= v < KERNBASE -> pte_at (k_mem s1) d v = 0) /\
  upages (k_mem s1) d = [] /\ copy_upto s1 pgdir d 0 l1 own s1 l1.
Proof.
  intros Hinv Hf Hk Hi Hpte. destruct (keeps_space (k_mem s) (k_mem s1) pgdir) as [Hpp Hsp].
  { eapply keeps_sub; [|exact Hk]. intros q Hq. apply elem_of_app. by left. }
  assert (Hz : forall v, 0 <= v < KERNBASE -> pte_at (k_mem s1) d v = 0).
  { intros v Hv. unfold KERNBASE in *. rewrite Hpte, kspec_eq by lia. unfold kernel_pte, KERNBASE.
    by destruct (Z.ltb_spec v 2147483648); [|lia]. }
  assert (Hu : upages (k_mem s1) d = []) by (apply upages_none; intros v Hv; by rewrite Hz).
  split; [done|]. split; [done|]. split; [done|]. split; [done|].
  split; [apply mm_frame_refl| |unfold conserved; reflexivity|done|done|intros v Hv; lia].
  unfold as_inv. by rewrite Hu, Hsp.
Qed.

Lemma visits_mapped m pgdir sz v :
  (forall v, 0 <= v < sz -> present (pte_at m pgdir v) = true) -> 0 <= sz <= KERNBASE ->
  visits 0 sz v -> pte_page (pte_at m pgdir v) ∈ upages m pgdir.
Proof.
  unfold KERNBASE. intros H Hsz [Hv0 Hv]. apply elem_of_upages. exists v. unfold KERNBASE.
  assert (Hr : v < 2147483648) by (Z.div_mod_to_equations; lia).
  split; [lia|]. split; [|done]. rewrite <- (H (v / 4096 * 4096)) by (Z.div_mod_to_equations; lia).
  f_equal. apply pte_at_page; Z.div_mod_to_equations; lia.
Qed.

Lemma copy_of_source m m1 m' e e' own :
  keeps own m m1 -> pte_page e ∈ own -> copy_of m1 m' e e' -> copy_of m m' e e'.
Proof.
  intros Hk Hin (p & Hok & He & Hb). exists p. split; [done|]. split; [done|]. intros b Hr.
  rewrite Hb by done. apply (Hk _ Hin). lia.
Qed.

(** C8: [copyuvm] makes an independent copy of an address space.  When the pages
    below [sz] are mapped it does not panic, and either it returns a new
    directory in which every page below [sz] is mapped, with the flags of the
    original, to a page of its own with the same contents, nothing else is
    mapped for the user and the kernel half is the standard one; or it returns
    0 and the free list has exactly the pages it had.  The original address
    space and all other pages keep their contents, and no page is lost. *)
Theorem copyuvm_spec (s : kernel) (pgdir sz : Z) (l own : list Z) :
  as_inv s pgdir l own -> 0 <= sz <= KERNBASE ->
  (forall v, 0 <= v < sz -> present (pte_at (k_mem s) pgdir v) = true) ->
  wp (copyuvm pgdir sz) (fun r s' =>
    mm_frame s s' /\ keeps (space (k_mem s) pgdir ++ own) (k_mem s) (k_mem s') /\ exists l',
    if r =? 0 then heap s' l' /\ l' ≡ₚ l
    else
      as_inv s' r l' (space (k_mem s) pgdir ++ own) /\ l' ++ space (k_mem s') r ≡ₚ l /\
      (forall v, 0 <= v < 4294967296 ->
         if decide (visits 0 sz v)
         then copy_of (k_mem s) (k_mem s') (pte_at (k_mem s) pgdir v) (pte_at (k_mem s') r v)
         else pte_at (k_mem s') r v = kernel_pte v)) s.
Proof.
  intros Hinv Hsz Hpres. destruct (as_inv_pages _ _ _ _ Hinv) as [Hnd Hok].
  unfold copyuvm. apply wp_bind.
  eapply wp_mono; [apply (wp_setupkvm s l _ ltac:(apply Hinv) ltac:(by eapply pt_inv_heap) Hnd Hok)|].
  intros d s1 (Hf1 & Hk1 & l1 & Hh1 & Hcase).
  destruct (decide (65 <= length l)%nat) as [_|_].
  2:{ destruct Hcase as [-> Hp]. apply wp_ret. split; [done|]. split; [done|]. by exists l1. }
  destruct Hcase as (Hi1 & Hp1 & _ & Hpte1).
  pose proof (page_ok_pos _ (pt_inv_pgdir _ _ _ _ Hi1)). destruct (Z.eqb_spec d 0); [lia|].
  destruct (copy_start s pgdir l own s1 d l1 Hinv Hf1 Hk1 Hi1 Hpte1) as (Hpp & Hsp & Hz & Hu & Hup).
  assert (Hall : forall s2 l2, conserved d s1 l1 s2 l2 -> d :: l2 ++ pts (k_mem s2) d ++ upages (k_mem s2) d ≡ₚ l).
  { intros s2 l2 Hc. unfold conserved in Hc. rewrite Hc, Hu, app_nil_r. exact Hp1. }
  apply wp_bind. eapply wp_mono.
  { apply (wp_copyuvm_loop _ s1 s1 pgdir d sz 0 l1 l1 own Hup); try done; try lia.
    - unfold PGSIZE. rewrite Z.sub_0_r. replace (sz + 4096 - 1) with (sz + 4095) by lia. apply Nat.lt_succ_diag_r.
    - intros v Hv. rewrite Hpp. by apply Hpres. }
  intros [] s2 (l2 & Hres).
  - destruct Hres as (i & Hi & [Hf2 Hi2 Hc2 Hk2 Hold Hnew]). rewrite Hsp in *. apply wp_ret.
    split; [by eapply mm_frame_trans|]. split; [by eapply keeps_trans|]. exists l2.
    destruct (Z.eqb_spec d 0); [done|]. split; [done|]. split; [rewrite <- (Hall _ _ Hc2); symmetry; apply Permutation_middle|].
    intros v Hv. case_decide as Hd.
    + apply (copy_of_source _ (k_mem s1) _ _ _ _ Hk1).
      * apply elem_of_app. left. apply list_elem_of_further, elem_of_app. right. by eapply visits_mapped.
      * rewrite <- Hpp. by apply Hnew, Hi.
    + rewrite Hold; [rewrite Hpte1 by done; by apply kspec_eq|done|].
      assert (~ (0 <= v < i)) by (by rewrite Hi). lia.
  - destruct Hres as [Hf2 Hi2 Hc2 Hk2]. rewrite Hsp in *. apply wp_bind.
    eapply wp_mono; [apply (wp_freevm s2 d l2 _ Hi2)|]. intros _ s3 (Hf3 & Hk3 & l3 & Hh3 & Hp3). apply wp_ret.
    split; [by do 2 (eapply mm_frame_trans; [done|])|]. split; [by do 2 (eapply keeps_trans; [done|])|].
    exists l3. split; [done|]. by rewrite Hp3, (Hall _ _ Hc2).
Qed.
End Copy.

(** ** Writing to user memory *)
Section CopyOut.
Context `{L : Layout} {LO : LayoutOk L}.

(** The byte the user reads at [v]. *)
Definition uld8 (m : mem) (pgdir v : Z) : Z := ld8 m (pte_page (pte_at m pgdir v) + v mod 4096).

(** The user may access the page of this entry. *)
Definition user_ok (e : Z) : bool := present e && c_true (Z.land e PTE_U).

Lemma uva2ka_run s pgdir l own v :
  as_inv s pgdir l own -> present (pde_at (k_mem s) pgdir (PDX v)) = true -> 0 <= v < KERNBASE ->
  exists a, uva2ka pgdir v s = Ret a s /\
    if user_ok (pte_at (k_mem s) pgdir v) then a = pte_page (pte_at (k_mem s) pgdir v) /\ a <> 0 else a = 0.
Proof.
  intros Hinv Hd Hv. unfold uva2ka, kbind. rewrite (walk_present _ _ _ _ Hd). cbn [obind].
  destruct (Z.eqb_spec (slot (k_mem s) pgdir v) 0) as [E|_]; [by eapply slot_nonzero in E|].
  unfold mem_read, kget. cbn [obind].
  assert (Ea : ld32 (k_mem s) (slot (k_mem s) pgdir v) = pte_at (k_mem s) pgdir v)
    by (unfold pte_at; by rewrite Hd).
  rewrite Ea. unfold user_ok, present, c_true.
  destruct (Z.eqb_spec (Z.land (pte_at (k_mem s) pgdir v) PTE_P) 0) as [E|E]; cbn [negb andb]; [by eexists|].
  destruct (Z.eqb_spec (Z.land (pte_at (k_mem s) pgdir v) PTE_U) 0) as [E'|E']; cbn [negb]; [by eexists|].
  eexists. split; [done|]. split; [done|].
  destruct (as_inv_upage s pgdir l own v Hinv Hv) as (Hok & _); [unfold present; by apply c_true_true|].
  pose proof (page_ok_pos _ Hok). unfold pte_page in *. lia.
Qed.

(** Writing inside the user page [q] leaves the address space as it is. *)
Lemma user_write s pgdir l own q m' :
  as_inv s pgdir l own -> q ∈ upages (k_mem s) pgdir -> outside q (k_mem s) m' ->
  let s' := s <| k_mem := m' |> in
  as_inv s' pgdir l own /\ keeps own (k_mem s) m' /\
  (forall v, pte_at m' pgdir v = pte_at (k_mem s) pgdir v) /\ upages m' pgdir = upages (k_mem s) pgdir /\
  (forall i, 0 <= i < 1024 -> pde_at m' pgdir i = pde_at (k_mem s) pgdir i).
Proof.
  intros Hinv Hq Ho s'.
  destruct (pt_inv_own _ _ _ _ q Hinv) as (Hok & Hqd & Hql & Hqp); [apply elem_of_app; by left|].
  destruct (view_outside s s' pgdir _ _ q Hinv Ho Hok Hqd Hqp) as (Hpts & Hpde & Hpte).
  assert (Hup : upages m' pgdir = upages (k_mem s) pgdir) by (by apply upages_ext).
  split; [|split; [|done]].
  - apply (pt_inv_move s s' pgdir l l _ _ Hinv); [apply Hinv| |by rewrite Hpts; cbn; rewrite Hup].
    apply (heap_outside s s' q l); [by eapply pt_inv_heap|done|done|apply Hok|done].
  - intros p Hp. assert (Hp' : p ∈ upages (k_mem s) pgdir ++ own) by (apply elem_of_app; by right).
    destruct (pt_inv_own _ _ _ _ p Hinv Hp') as ((Hpm & _) & _).
    apply (outside_same q); [done|apply Hok|done|]. intros ->.
    destruct Hinv as (_ & _ & Hnd & _). apply NoDup_app in Hnd as (_ & _ & Hnd).
    apply NoDup_cons in Hnd as [_ Hnd]. apply NoDup_app in Hnd as (_ & _ & Hnd).
    apply NoDup_app in Hnd as (_ & Hdis & _). by apply (Hdis p).
Qed.

(** One chunk of [copyout]: [k] bytes from [buf] to the page of [va]. *)
Lemma copy_chunk s pgdir l own va buf k :
  as_inv s pgdir l own -> 0 <= va < KERNBASE -> 0 <= k -> va mod 4096 + k <= 4096 ->
  present (pte_at (k_mem s) pgdir va) = true ->
  let m := k_mem s in let q := pte_page (pte_at m pgdir va) in
  let m' := memmove m (q + va mod 4096) buf k in
  outside q m m' /\
  forall v, 0 <= v < KERNBASE -> present (pte_at m pgdir v) = true ->
    ld8 m' (pte_page (pte_at m pgdir v) + v mod 4096) =
    if decide (va <= v < va + k) then ld8 m (buf + (v - va)) else uld8 m pgdir v.
Proof.
  intros Hinv Hva Hk Hoff Hp m q m'. pose proof (Z.mod_pos_bound va 4096 ltac:(lia)) as Hb.
  destruct (as_inv_upage s pgdir l own va Hinv Hva Hp) as (Hqok & _).
  split. { intros a Ha. unfold m'. rewrite ld8_memmove by lia. by rewrite decide_False by lia. }
  intros v Hv Hpv. pose proof (Z.mod_pos_bound v 4096 ltac:(lia)) as Hbv. unfold m'. rewrite ld8_memmove by lia.
  destruct (decide (v / 4096 = va / 4096)) as [E|Hne].
  - assert (Eq : pte_page (pte_at m pgdir v) = q)
      by (unfold q; f_equal; apply pte_at_page; unfold KERNBASE in *; (done || lia)).
    rewrite Eq. unfold uld8. rewrite Eq. repeat case_decide; try done; try (Z.div_mod_to_equations; lia).
    f_equal. Z.div_mod_to_equations. lia.
  - destruct (as_inv_upage s pgdir l own v Hinv Hv Hpv) as (Hvok & _).
    assert (Hd : pte_page (pte_at m pgdir v) <> q).
    { intros E. apply Hne. by apply (upages_inj m pgdir v va (as_inv_NoDup _ _ _ _ Hinv)). }
    assert (Hout : ~ (va <= v < va + k)) by (Z.div_mod_to_equations; lia).
    rewrite (decide_False _ _ Hout). rewrite decide_False; [done|].
    pose proof (page_sep _ q (proj1 Hvok) (proj1 Hqok) Hd) as Hsep. unfold m in *. lia.
Qed.

(** [n] bytes were copied. *)
Record copyout_post (s : kernel) (pgdir va buf len : Z) (l own : list Z) (r : Z) (s' : kernel) (n : Z) : Prop := {
  co_frame : mm_frame s s';
  co_inv : as_inv s' pgdir l own;
  co_keeps : keeps own (k_mem s) (k_mem s');
  co_pte : forall v, pte_at (k_mem s') pgdir v = pte_at (k_mem s) pgdir v;
  co_len : 0 <= n <= len;
  co_ok : forall v, va <= v < va + n -> user_ok (pte_at (k_mem s) pgdir v) = true;
  co_bytes : forall v, 0 <= v < KERNBASE -> present (pte_at (k_mem s) pgdir v) = true ->
    uld8 (k_mem s') pgdir v =
    if decide (va <= v < va + n) then ld8 (k_mem s) (buf + (v - va)) else uld8 (k_mem s) pgdir v;
  co_res : (r = 0 /\ n = len) \/ (r = -1 /\ n < len /\ user_ok (pte_at (k_mem s) pgdir (va + n)) = false)
}.

Lemma copyout_stop s pgdir va buf len l own r :
  as_inv s pgdir l own -> 0 <= len ->
  (r = 0 /\ len = 0 \/ r = -1 /\ 0 < len /\ user_ok (pte_at (k_mem s) pgdir va) = false) ->
  copyout_post s pgdir va buf len l own r s 0.
Proof.
  intros Hinv Hlen Hr. split; try done; [apply mm_frame_refl|intros; lia| |].
  - intros v _ _. by rewrite decide_False by lia.
  - rewrite Z.add_0_r. destruct Hr as [[-> ->]|Hr]; [by left|by right].
Qed.

Lemma copyout_cons s pgdir va buf len l own r k m' s' n :
  as_inv s pgdir l own -> 0 <= va -> va + len <= KERNBASE -> 0 < k <= len -> va mod 4096 + k <= 4096 ->
  user_ok (pte_at (k_mem s) pgdir va) = true ->
  m' = memmove (k_mem s) (pte_page (pte_at (k_mem s) pgdir va) + va mod 4096) buf k ->
  (forall a, buf <= a < buf + len -> a / 4096 * 4096 ∉ upages (k_mem s) pgdir) ->
  copyout_post (s <| k_mem := m' |>) pgdir (va + k) (buf + k) (len - k) l own r s' n ->
  copyout_post s pgdir va buf len l own r s' (n + k).
Proof.
  intros Hinv Hva Hend Hk Hoff Huok Em' Hbuf [Hf Hi Hkp Hpte Hlen Hok Hby Hres]. subst m'.
  set (m' := memmove _ _ _ _) in *. cbn [k_mem update upd_k_mem] in Hkp, Hpte, Hok, Hby, Hres.
  assert (Hva' : 0 <= va < KERNBASE) by lia.
  pose proof Huok as [Hp _]%andb_true_iff.
  destruct (copy_chunk s pgdir l own va buf k Hinv Hva' ltac:(lia) Hoff Hp) as [Ho Hch]. fold m' in Ho, Hch.
  destruct (as_inv_upage s pgdir l own va Hinv Hva' Hp) as ((Hqm & _) & _ & _ & _ & Hqu).
  destruct (user_write s pgdir l own _ m' Hinv Hqu Ho) as (_ & Hk1 & Hpte1 & Hup1 & _).
  split; try done.
  - by eapply keeps_trans.
  - intros v. by rewrite Hpte.
  - lia.
  - intros v Hv. destruct (decide (v < va + k)) as [Hlt|Hge].
    + rewrite <- Huok. f_equal. apply pte_at_page; unfold KERNBASE in *; [lia|lia|]. Z.div_mod_to_equations. lia.
    + rewrite <- Hpte1. apply Hok. lia.
  - intros v Hv Hpv. rewrite Hby by (done || by rewrite Hpte1). unfold uld8 at 1. rewrite Hpte1, Hch by done.
    repeat case_decide; try lia; try done.
    replace (buf + k + (v - (va + k))) with (buf + (v - va)) by lia. apply Ho.
    assert (Hne : (buf + (v - va)) / 4096 * 4096 <> pte_page (pte_at (k_mem s) pgdir va))
      by (intros E; apply (Hbuf (buf + (v - va))); [lia|by rewrite E]).
    destruct (page_sep _ _ (Z.mod_mul ((buf + (v - va)) / 4096) 4096 ltac:(lia)) Hqm Hne);
      Z.div_mod_to_equations; lia.
  - replace (va + (n + k)) with (va + k + n) by lia. rewrite <- Hpte1. destruct Hres as [[? ?]|(? & ? & ?)]; [left|right]; (split; [done|]); [lia|]. split; [lia|done].
Qed.

Lemma wp_copyout_loop fuel s pgdir va buf len l own :
  as_inv s pgdir l own -> 0 <= va -> 0 <= len -> va + len <= KERNBASE ->
  (forall v, va <= v < va + len -> present (pde_at (k_mem s) pgdir (PDX v)) = true) ->
  (forall a, buf <= a < buf + len -> a / 4096 * 4096 ∉ upages (k_mem s) pgdir) ->
  (Z.to_nat ((va mod 4096 + len + 4095) / 4096) < fuel)%nat ->
  wp (copyout_loop fuel pgdir va buf len)
     (fun r s' => exists n, copyout_post s pgdir va buf len l own r s' n) s.
Proof.
  revert s va buf len; induction fuel as [|fuel IH]; intros s va buf len Hinv Hva Hlen Hend Hpde Hbuf Hfuel; [lia|].
  cbn [copyout_loop]. destruct (Z.ltb_spec 0 len) as [Hpos|Hz].
  2:{ apply wp_ret. exists 0. apply copyout_stop; [done|done|]. left. split; [done|lia]. }
  assert (Hva' : 0 <= va < KERNBASE) by lia. unfold KERNBASE in *.
  rewrite pgrounddown_eq by lia. set (va0 := va / 4096 * 4096).
  assert (Hva0 : va - va0 = va mod 4096 /\ 0 <= va0 <= va) by (unfold va0; Z.div_mod_to_equations; lia).
  assert (Hpg : va0 / 4096 = va / 4096) by (unfold va0; by rewrite Z.div_mul).
  pose proof (Z.mod_pos_bound va 4096 ltac:(lia)) as Hb.
  destruct (page_pdx_ptx va0 va ltac:(lia) ltac:(lia) Hpg) as [Epd _].
  destruct (uva2ka_run s pgdir l own va0 Hinv) as (a & Hrun & Ha); [rewrite Epd; apply Hpde; lia|unfold KERNBASE; lia|].
  apply wp_bind. eapply wp_of_run; [exact Hrun|].
  rewrite (pte_at_page (k_mem s) pgdir va0 va) in Ha by (done || lia).
  destruct (user_ok (pte_at (k_mem s) pgdir va)) eqn:Hu.
  2:{ subst a. change (0 =? 0) with true. cbv iota. apply wp_ret. exists 0.
      apply copyout_stop; [done|done|]. right. by split. }
  destruct Ha as [-> Hnz]. destruct (Z.eqb_spec (pte_page (pte_at (k_mem s) pgdir va)) 0); [done|].
  destruct Hva0 as [Eoff Hva0]. rewrite Eoff. unfold PGSIZE. cbv zeta.
  set (k := if len <? 4096 - va mod 4096 then len else 4096 - va mod 4096).
  assert (Hk : 0 < k <= len /\ va mod 4096 + k <= 4096 /\ (k = len \/ va + k = va0 + 4096))
    by (unfold k; destruct (Z.ltb_spec len (4096 - va mod 4096)); lia).
  apply wp_bind, wp_mod.
  set (m' := memmove (k_mem s) (pte_page (pte_at (k_mem s) pgdir va) + va mod 4096) buf k).
  change (s <| k_mem ::= _ |>) with (s <| k_mem := m' |>).
  pose proof Hu as [Hp _]%andb_true_iff.
  destruct (copy_chunk s pgdir l own va buf k Hinv Hva' ltac:(lia) ltac:(lia) Hp) as [Ho _].
  destruct (as_inv_upage s pgdir l own va Hinv Hva' Hp) as (_ & _ & _ & _ & Hqu).
  destruct (user_write s pgdir l own _ m' Hinv Hqu Ho) as (Hi1 & _ & _ & Hup1 & Hpde1).
  destruct Hk as (Hk1 & Hk2 & Hk3). rewrite u32_id by lia.
  assert (Hgo : wp (copyout_loop fuel pgdir (va0 + 4096) (buf + k) (len - k))
     (fun r s' => exists n, copyout_post (s <| k_mem := m' |>) pgdir (va + k) (buf + k) (len - k) l own r s' n)
     (s <| k_mem := m' |>)).
  { destruct Hk3 as [->|Hk3].
    - destruct fuel as [|fuel]; [exfalso|].
      + assert (1 <= (va mod 4096 + len + 4095) / 4096) by (apply Z.div_le_lower_bound; lia). lia.
      + cbn [copyout_loop]. destruct (Z.ltb_spec 0 (len - len)); [lia|]. apply wp_ret. exists 0.
        apply copyout_stop; [done|lia|]. left. split; [done|lia].
    - rewrite <- Hk3. apply IH; [done|lia|lia|lia| | |].
      + intros v Hv. cbn. rewrite Hpde1 by apply pdx_range. apply Hpde. lia.
      + intros b Hbb. cbn. rewrite Hup1. apply Hbuf. lia.
      + replace ((va + k) mod 4096) with 0 by (rewrite Hk3; unfold va0; Z.div_mod_to_equations; lia).
        replace (va mod 4096 + len + 4095) with (0 + (len - k) + 4095 + 1 * 4096) in Hfuel by lia.
        rewrite Z.div_add in Hfuel by lia.
        assert (0 <= (0 + (len - k) + 4095) / 4096) by (apply Z.div_pos; lia). lia. }
  eapply wp_mono; [exact Hgo|]. intros r s' (nb & Hpost). exists (nb + k).
  eapply copyout_cons; try done; unfold KERNBASE; lia.
Qed.

(** C38: [copyout] writes through the user's page table.  For a range below
    [KERNBASE] whose directory entries are present, it copies bytes up to the
    first page that is not a present user page: it returns 0 when there is
    none and -1 otherwise.  Afterwards the user reads the copied bytes at the
    range and what it read before at every other mapped address, also when the
    range crosses pages that are not adjacent in memory; no mapping changes. *)
Theorem copyout_spec (s : kernel) (pgdir va p len : Z) (l own : list Z) :
  as_inv s pgdir l own -> 0 <= va -> 0 <= len -> va + len <= KERNBASE ->
  (forall v, va <= v < va + len -> present (pde_at (k_mem s) pgdir (PDX v)) = true) ->
  (forall a, p <= a < p + len -> a / 4096 * 4096 ∉ upages (k_mem s) pgdir) ->
  wp (copyout pgdir va p len) (fun r s' => exists n, copyout_post s pgdir va p len l own r s' n) s.
Proof.
  intros Hinv Hva Hlen Hend Hpde Hbuf. apply wp_copyout_loop; try done.
  unfold PGSIZE. pose proof (Z.mod_pos_bound va 4096 ltac:(lia)).
  assert ((va mod 4096 + len + 4095) / 4096 <= len / 4096 + 2).
  { transitivity ((len + 2 * 4096) / 4096); [apply Z.div_le_mono; lia|]. rewrite Z.div_add by lia. lia. }
  assert (0 <= len / 4096) by (apply Z.div_pos; lia). lia.
Qed.

(** [clearpteu] makes one page inaccessible to the user.  It panics when the
    address has no page table; otherwise the page of [uva] loses [PTE_U], so
    that [copyout] to it fails, it keeps its address and its other flags, and
    the entry of every other page is unchanged. *)
Theorem clearpteu_spec (s : kernel) (pgdir uva : Z) (l own : list Z) :
  as_inv s pgdir l own -> 0 <= uva < KERNBASE ->
  if present (pde_at (k_mem s) pgdir (PDX uva))
  then wp (clearpteu pgdir uva) (fun _ s' =>
    pt_inv s' pgdir l (upages (k_mem s) pgdir ++ own) /\ keeps (upages (k_mem s) pgdir ++ own) (k_mem s) (k_mem s') /\
    user_ok (pte_at (k_mem s') pgdir uva) = false /\
    forall v, 0 <= v < 4294967296 -> pte_at (k_mem s') pgdir v =
      if decide (v / 4096 = uva / 4096) then Z.land (pte_at (k_mem s) pgdir v) (Z.lnot PTE_U)
      else pte_at (k_mem s) pgdir v) s
  else clearpteu pgdir uva s = Panic "clearpteu" s.
Proof.
  intros Hinv Hv. unfold KERNBASE in *. destruct (present (pde_at (k_mem s) pgdir (PDX uva))) eqn:Hd.
  2:{ unfold clearpteu, kbind. by rewrite (walk_absent _ _ _ Hd). }
  unfold clearpteu. apply wp_bind. eapply wp_of_run; [by apply walk_present|].
  destruct (Z.eqb_spec (slot (k_mem s) pgdir uva) 0) as [E|_]; [by eapply slot_nonzero in E|].
  apply wp_bind, wp_get, wp_mod.
  assert (Ea : ld32 (k_mem s) (slot (k_mem s) pgdir uva) = pte_at (k_mem s) pgdir uva)
    by (unfold pte_at; by rewrite Hd).
  rewrite Ea. set (e := pte_at (k_mem s) pgdir uva).
  assert (He : 0 <= Z.land e (Z.lnot PTE_U) < 4294967296).
  { pose proof (ld32_range (k_mem s) (slot (k_mem s) pgdir uva)) as Hr. rewrite Ea in Hr. fold e in Hr.
    by apply land_bound. }
  destruct (write_pte s pgdir l _ uva (Z.land e (Z.lnot PTE_U)) Hinv ltac:(lia) Hd) as (Hi & Hk & _ & _ & Hpte).
  rewrite u32_id in Hpte by done.
  split; [done|]. split; [done|]. split.
  - cbn. rewrite Hpte, decide_True by (done || lia). unfold user_ok.
    rewrite <- Z.land_assoc. rewrite (Z.land_comm (Z.lnot PTE_U)), Z.land_lnot_diag, Z.land_0_r. by rewrite andb_false_r.
  - intros v Hvr. cbn. rewrite Hpte by done. case_decide as Hc; [|done].
    by rewrite (pte_at_page _ _ v uva) by (done || lia).
Qed.
End CopyOut.

(** ** Concrete runs *)

Lemma demo_mapped v : 0 <= v < 8000 -> present (pte_at (k_mem (demo_as 70)) demo_dir v) = true.
Proof.
  intros Hv. destruct (decide (v < 4096)).
  - rewrite (pte_at_page _ _ v 0) by (Z.div_mod_to_equations; lia). vm_compute. reflexivity.
  - rewrite (pte_at_page _ _ v 4096) by (Z.div_mod_to_equations; lia). vm_compute. reflexivity.
Qed.

Lemma copyuvm_spec_witness :
  wp (copyuvm (L := demo_layout) demo_dir 8000) (fun r s' =>
    mm_frame (demo_as 70) s' /\ keeps (space (k_mem (demo_as 70)) demo_dir ++ []) (k_mem (demo_as 70)) (k_mem s') /\ exists l',
    if r =? 0 then heap (L := demo_layout) s' l' /\ l' ≡ₚ demo_pages 70
    else
      as_inv (L := demo_layout) s' r l' (space (k_mem (demo_as 70)) demo_dir ++ []) /\ l' ++ space (k_mem s') r ≡ₚ demo_pages 70 /\
      (forall v, 0 <= v < 4294967296 ->
         if decide (visits 0 8000 v)
         then copy_of (L := demo_layout) (k_mem (demo_as 70)) (k_mem s') (pte_at (k_mem (demo_as 70)) demo_dir v) (pte_at (k_mem s') r v)
         else pte_at (k_mem s') r v = kernel_pte (L := demo_layout) v)) (demo_as 70).
Proof.
  apply (copyuvm_spec (L := demo_layout) (demo_as 70) demo_dir 8000 (demo_pages 70) []).
  - apply as_check_ok; [apply demo_as_ready|vm_compute; reflexivity].
  - vm_compute; split; discriminate.
  - apply demo_mapped.
Defined.

Lemma demo_pde v : 4000 <= v < 4000 + 200 -> present (pde_at (k_mem (demo_as 2)) demo_dir (PDX v)) = true.
Proof.
  intros Hv. replace (PDX v) with 0; [vm_compute; reflexivity|].
  rewrite pdx_eq by lia. symmetry. apply Z.div_small. lia.
Qed.

Lemma demo_buf a : 0x80108000 <= a < 0x80108000 + 200 -> a / 4096 * 4096 ∉ upages (k_mem (demo_as 2)) demo_dir.
Proof.
  intros Ha. replace (a / 4096 * 4096) with 0x80108000 by (Z.div_mod_to_equations; lia).
  rewrite upages_first by (vm_compute; reflexivity). vm_compute upages0.
  rewrite !not_elem_of_cons. split; [discriminate|]. split; [discriminate|]. apply not_elem_of_nil.
Qed.

Lemma copyout_spec_witness :
  wp (copyout demo_dir 4000 0x80108000 200) (fun r s' =>
    exists n, copyout_post (L := demo_layout) (demo_as 2) demo_dir 4000 0x80108000 200 (demo_pages 2) [] r s' n) (demo_as 2).
Proof.
  apply (copyout_spec (L := demo_layout) (demo_as 2) demo_dir 4000 0x80108000 200 (demo_pages 2) []).
  - apply as_check_ok; [apply demo_as_ready|vm_compute; reflexivity].
  - vm_compute; discriminate.
  - vm_compute; discriminate.
  - vm_compute; discriminate.
  - apply demo_pde.
  - apply demo_buf.
Defined.

Lemma clearpteu_spec_witness :
  if present (pde_at (k_mem (demo_as 2)) demo_dir (PDX 4100))
  then wp (clearpteu demo_dir 4100) (fun _ s' =>
    pt_inv (L := demo_layout) s' demo_dir (demo_pages 2) (upages (k_mem (demo_as 2)) demo_dir ++ []) /\
    keeps (upages (k_mem (demo_as 2)) demo_dir ++ []) (k_mem (demo_as 2)) (k_mem s') /\
    user_ok (pte_at (k_mem s') demo_dir 4100) = false /\
    forall v, 0 <= v < 4294967296 -> pte_at (k_mem s') demo_dir v =
      if decide (v / 4096 = 4100 / 4096) then Z.land (pte_at (k_mem (demo_as 2)) demo_dir v) (Z.lnot PTE_U)
      else pte_at (k_mem (demo_as 2)) demo_dir v) (demo_as 2)
  else clearpteu demo_dir 4100 (demo_as 2) = Panic "clearpteu" (demo_as 2).
Proof.
  apply (clearpteu_spec (L := demo_layout) (demo_as 2) demo_dir 4100 (demo_pages 2) []).
  - apply as_check_ok; [apply demo_as_ready|vm_compute; reflexivity].
  - vm_compute; split; [discriminate|reflexivity].
Defined.
