(* ===== verification/Proc.v ===== *)
(** * Processes and the scheduler

    [proc.c] without its file and mapping parts: process slots, the switch
    between a process and the scheduler, sleeping and waking, [wait] and
    [kill].  A call of [swtch] is the outcome [Switch]: it carries the state at
    the switch and the rest of the thread. *)

From stdpp Require Import base gmap strings list fin_maps.
From Stdlib Require Import ZArith Lia.
From S2P Require Import Prelude Mem Types Spinlock Kalloc Vm.

(** How often a thread that waits in a loop for a condition goes to sleep
    again before the model gives up on it with [NoFuel]. *)
Class Patience := patience : nat.

(** ** Switching *)

(** [swtch] to the scheduler (or back): the thread continues with its saved
    context in the state in which it is resumed. *)
Definition swtch : KM unit := fun s => Switch s (fun s' => Ret tt s').

Definition sched : KM unit :=
  mp <- myproc ;;
  h <- holding Lptable ;;
  if negb h then kpanic "sched ptable.lock" else
  i <- mycpu ;;
  c <- get_cpu i ;;
  if negb (ncli c =? 1) then kpanic "sched locks" else
  ip <- deref mp ;;
  p <- get_proc ip ;;
  if bool_decide (state p = RUNNING) then kpanic "sched running" else
  f <- readeflags ;;
  if c_true (Z.land f FL_IF) then kpanic "sched interruptible" else
  i <- mycpu ;;
  c <- get_cpu i ;;
  let intena0 := intena c in
  swtch ;;;
  i <- mycpu ;;
  set_cpu i (fun c => c <| intena := intena0 |>).

Definition yield : KM unit :=
  acquire Lptable ;;;
  mp <- myproc ;;
  ip <- deref mp ;;
  set_proc ip (fun p => p <| state := RUNNABLE |>) ;;;
  sched ;;;
  release Lptable.

Definition pinit : KM unit := initlock Lptable.

(** ** Sleeping and waking *)
Definition sleep (ch : option chan) (olk : option lockid) : KM unit :=
  mp <- myproc ;;
  match mp with
  | None => kpanic "sleep"
  | Some ip =>
      match olk with
      | None => kpanic "sleep without lk"
      | Some lk =>
          (when negb (bool_decide (lk = Lptable)) do (acquire Lptable ;;; release lk)) ;;;
          set_proc ip (fun p => p <| pchan := ch |>) ;;;
          set_proc ip (fun p => p <| state := SLEEPING |>) ;;;
          sched ;;;
          set_proc ip (fun p => p <| pchan := None |>) ;;;
          when negb (bool_decide (lk = Lptable)) do (release Lptable ;;; acquire lk)
      end
  end.

Definition wakeup1 (ch : option chan) : KM unit :=
  keach (seq 0 NPROC) (fun i =>
    p <- get_proc i ;;
    when bool_decide (state p = SLEEPING) && bool_decide (pchan p = ch) do
      set_proc i (fun p => p <| state := RUNNABLE |>)).

Definition wakeup (ch : option chan) : KM unit :=
  acquire Lptable ;;;
  wakeup1 ch ;;;
  release Lptable.

Definition kill (pid0 : Z) : KM Z :=
  acquire Lptable ;;;
  r <- kfor (seq 0 NPROC) (fun i =>
         p <- get_proc i ;;
         if pid p =? pid0 then
           set_proc i (fun p => p <| killed := 1 |>) ;;;
           (when bool_decide (state p = SLEEPING) do set_proc i (fun p => p <| state := RUNNABLE |>)) ;;;
           release Lptable ;;;
           kret (Some 0)
         else kret None) ;;
  match r with
  | Some v => kret v
  | None => release Lptable ;;; kret (-1)
  end.

Section ProcDefs.
Context `{L : Layout} `{Pt : Patience}.

(** ** Process slots *)
Definition TF_SIZE : Z := 76.
Definition CTX_SIZE : Z := 20.

(** The body of the loop of [allocproc] over the descriptors of slot [i]. *)
Definition clear_map (i j : nat) : KM unit :=
  set_proc i (fun p => p <| mmaps ::= alter (fun d => d <| valid := 0 |>) j |>) ;;;
  set_proc i (fun p => p <| mmaps ::= alter (fun d => d <| isChildOfParent := 0 |>) j |>).

(** The second half of [allocproc]: the kernel stack of slot [i]. *)
Definition allocproc_stack (i : nat) : KM (option nat) :=
  ks <- kalloc ;;
  set_proc i (fun p => p <| kstack := ks |>) ;;;
  if ks =? 0 then
    set_proc i (fun p => p <| state := UNUSED |>) ;;; kret None
  else
    let sp := ks + KSTACKSIZE in
    let sp := sp - TF_SIZE in
    set_proc i (fun p => p <| tf := sp |>) ;;;
    let sp := sp - 4 in
    mem_write sp trapret_addr ;;;
    let sp := sp - CTX_SIZE in
    set_proc i (fun p => p <| pcontext := sp |>) ;;;
    k_memset sp 0 CTX_SIZE ;;;
    mem_write (sp + 16) forkret_addr ;;;
    kret (Some i).

Definition allocproc : KM (option nat) :=
  acquire Lptable ;;;
  r <- kfor (seq 0 NPROC) (fun i =>
         p <- get_proc i ;;
         kret (if bool_decide (state p = UNUSED) then Some i else None)) ;;
  match r with
  | None => release Lptable ;;; kret None
  | Some i =>
      set_proc i (fun p => p <| state := EMBRYO |>) ;;;
      n <- kget k_nextpid ;;
      kmod (fun s => s <| k_nextpid := i32 (n + 1) |>) ;;;
      set_proc i (fun p => p <| pid := n |>) ;;;
      set_proc i (fun p => p <| open_frames := 0 |>) ;;;
      keach (seq 0 PAGE_LIMIT) (clear_map i) ;;;
      release Lptable ;;;
      allocproc_stack i
  end.

Definition growproc (n : Z) : KM Z :=
  mp <- myproc ;;
  ip <- deref mp ;;
  p <- get_proc ip ;;
  let fin sz' := set_proc ip (fun p => p <| sz := sz' |>) ;;; switchuvm (Some ip) ;;; kret 0 in
  if 0 <? n then
    sz' <- allocuvm (pgdir p) (sz p) (u32 (sz p + n)) ;;
    if sz' =? 0 then kret (-1) else fin sz'
  else if n <? 0 then
    sz' <- deallocuvm (pgdir p) (sz p) (u32 (sz p + n)) ;;
    if sz' =? 0 then kret (-1) else fin sz'
  else fin (sz p).

(** [wait] found the zombie child [p] in slot [i]. *)
Definition reap (i : nat) (p : proc) : KM unit :=
  kfree (kstack p) ;;;
  set_proc i (fun p => p <| kstack := 0 |>) ;;;
  freevm (pgdir p) ;;;
  set_proc i (fun p => p <| pid := 0 |>) ;;;
  set_proc i (fun p => p <| parent := None |>) ;;;
  set_proc i (fun p => p <| pname := [] |>) ;;;
  set_proc i (fun p => p <| killed := 0 |>) ;;;
  set_proc i (fun p => p <| state := UNUSED |>) ;;;
  release Lptable.

(** One pass of [wait] over the slots [l]: the pid of the child that was
    reaped, and whether there are children. *)
Fixpoint wait_scan (me : nat) (l : list nat) (havekids : bool) : KM (option Z * bool) :=
  match l with
  | [] => kret (None, havekids)
  | i :: l' =>
      p <- get_proc i ;;
      if negb (bool_decide (parent p = Some me)) then wait_scan me l' havekids else
      if bool_decide (state p = ZOMBIE) then reap i p ;;; kret (Some (pid p), true)
      else wait_scan me l' true
  end.

Fixpoint wait_loop (fuel : nat) (me : nat) : KM Z :=
  match fuel with
  | O => NoFuel
  | S k =>
      r <- wait_scan me (seq 0 NPROC) false ;;
      match fst r with
      | Some pid => kret pid
      | None =>
          p <- get_proc me ;;
          if negb (snd r) || c_true (killed p) then release Lptable ;;; kret (-1) else
          sleep (Some (Cproc me)) (Some Lptable) ;;;
          wait_loop k me
      end
  end.

Definition wait : KM Z :=
  mp <- myproc ;;
  acquire Lptable ;;;
  me <- deref mp ;;
  wait_loop patience me.

(** ** The scheduler *)

(** The body of the scheduler's loop over the table, on processor [c]. *)
Definition scheduler_body (c : nat) (i : nat) : KM unit :=
  p <- get_proc i ;;
  when bool_decide (state p = RUNNABLE) do
    (set_cpu c (fun x => x <| cpu_proc := Some i |>) ;;;
     switchuvm (Some i) ;;;
     set_proc i (fun p => p <| state := RUNNING |>) ;;;
     swtch ;;;
     switchkvm ;;;
     set_cpu c (fun x => x <| cpu_proc := None |>)).

Definition scheduler_scan (c : nat) : KM unit := keach (seq 0 NPROC) (scheduler_body c).

(** The scheduler never returns: [rounds] passes over the table. *)
Fixpoint scheduler_loop (rounds : nat) (c : nat) : KM unit :=
  match rounds with
  | O => NoFuel
  | S k =>
      sti ;;;
      acquire Lptable ;;;
      scheduler_scan c ;;;
      release Lptable ;;;
      scheduler_loop k c
  end.

Definition scheduler : KM unit :=
  c <- mycpu ;;
  set_cpu c (fun x => x <| cpu_proc := None |>) ;;;
  scheduler_loop patience c.
End ProcDefs.
