(* ===== verification/Apic.v ===== *)
(** * Interrupt controllers and processors

    [picirq.c], [ioapic.c], [lapic.c] and [mp.c].  What a read of an I/O port or
    of a register of the local APIC yields is the hardware's, a parameter; the
    writes are kept in the state.  The registers of the I/O APIC hold what was
    written to them.  [lapicw] reads a register after each write to wait for it;
    the read changes nothing and is left out, as are the delays, which are empty
    in the code.  The configuration tables of the machine are bytes of the
    kernel's memory, where [P2V] finds them. *)

From stdpp Require Import base gmap strings list fin_maps.
From Stdlib Require Import ZArith Lia.
From S2P Require Import Prelude Mem Types Spinlock Kalloc Vm Proc.

(** ** Ports *)
Class Ports := inb : Z -> KM Z.
Class LocalApic := lapic_read : Z -> KM Z.
Definition outb (port v : Z) : KM unit := kmod (fun s => s <| k_ports ::= insert port (u8 v) |>).

Definition T_IRQ0 : Z := 32.
Definition IRQ_TIMER : Z := 0.
Definition IRQ_KBD : Z := 1.
Definition IRQ_COM1 : Z := 4.
Definition IRQ_IDE : Z := 14.
Definition IRQ_ERROR : Z := 19.
Definition IRQ_SPURIOUS : Z := 31.

Definition set_hw (f : devices -> devices) : KM unit := kmod (fun s => s <| k_hw ::= f |>).

(** ** [picirq.c] *)
Definition IO_PIC1 : Z := 0x20.
Definition IO_PIC2 : Z := 0xA0.
Definition picinit : KM unit := outb (IO_PIC1 + 1) 0xFF ;;; outb (IO_PIC2 + 1) 0xFF.

(** ** [ioapic.c] *)
Module Ioapic.
Definition REG_ID : Z := 0x00.
Definition REG_VER : Z := 0x01.
Definition REG_TABLE : Z := 0x10.
Definition INT_DISABLED : Z := 0x00010000.

Definition ioapicread (reg : Z) : KM Z := kget (fun s => default 0 (hw_ioapic (k_hw s) !! reg)).
Definition ioapicwrite (reg data : Z) : KM unit := set_hw (fun d => d <| hw_ioapic ::= insert reg (u32 data) |>).

Definition ioapicinit : KM unit :=
  v <- ioapicread REG_VER ;;
  let maxintr := Z.land (Z.shiftr v 16) 0xFF in
  r <- ioapicread REG_ID ;;
  let id := Z.shiftr r 24 in
  ioapicid <- kget (fun s => hw_ioapicid (k_hw s)) ;;
  (when negb (id =? ioapicid) do cprintf "ioapicinit: id isn't equal to ioapicid; not a MP") ;;;
  keach (seqZ 0 (maxintr + 1)) (fun i =>
    ioapicwrite (REG_TABLE + 2 * i) (Z.lor INT_DISABLED (T_IRQ0 + i)) ;;;
    ioapicwrite (REG_TABLE + 2 * i + 1) 0).

Definition ioapicenable (irq cpunum : Z) : KM unit :=
  ioapicwrite (REG_TABLE + 2 * irq) (T_IRQ0 + irq) ;;;
  ioapicwrite (REG_TABLE + 2 * irq + 1) (Z.shiftl cpunum 24).

End Ioapic.

(** ** [lapic.c] *)
Module Lapic.
Definition ID : Z := 0x0020 / 4.
Definition VER : Z := 0x0030 / 4.
Definition TPR : Z := 0x0080 / 4.
Definition EOI : Z := 0x00B0 / 4.
Definition SVR : Z := 0x00F0 / 4.
Definition ENABLE : Z := 0x00000100.
Definition ESR : Z := 0x0280 / 4.
Definition ICRLO : Z := 0x0300 / 4.
Definition INIT : Z := 0x00000500.
Definition STARTUP : Z := 0x00000600.
Definition DELIVS : Z := 0x00001000.
Definition ASSERT : Z := 0x00004000.
Definition LEVEL : Z := 0x00008000.
Definition BCAST : Z := 0x00080000.
Definition ICRHI : Z := 0x0310 / 4.
Definition TIMER : Z := 0x0320 / 4.
Definition X1 : Z := 0x0000000B.
Definition PERIODIC : Z := 0x00020000.
Definition PCINT : Z := 0x0340 / 4.
Definition LINT0 : Z := 0x0350 / 4.
Definition LINT1 : Z := 0x0360 / 4.
Definition ERROR : Z := 0x0370 / 4.
Definition MASKED : Z := 0x00010000.
Definition TICR : Z := 0x0380 / 4.
Definition TDCR : Z := 0x03E0 / 4.

Definition lapicw (index value : Z) : KM unit := set_hw (fun d => d <| hw_lsent ::= fun l => l ++ [(index, u32 value)] |>).

Definition lapiceoi : KM unit :=
  l <- kget (fun s => hw_lapic (k_hw s)) ;;
  when c_true l do lapicw EOI 0.

Definition CMOS_PORT : Z := 0x70.
Definition CMOS_RETURN : Z := 0x71.

(** [wrv = P2V(0x40<<4 | 0x67)]: two 16-bit stores. *)
Definition store16 (a v : Z) : KM unit := kmod (fun s => s <| k_mem ::= fun m => st8 (st8 m a v) (a + 1) (v / 256) |>).

Definition lapicstartap (apicid addr : Z) : KM unit :=
  outb CMOS_PORT 0xF ;;;
  outb (CMOS_PORT + 1) 0x0A ;;;
  let wrv := P2V (Z.lor (Z.shiftl 0x40 4) 0x67) in
  store16 wrv 0 ;;;
  store16 (wrv + 2) (Z.shiftr addr 4) ;;;
  lapicw ICRHI (Z.shiftl apicid 24) ;;;
  lapicw ICRLO (Z.lor (Z.lor INIT LEVEL) ASSERT) ;;;
  lapicw ICRLO (Z.lor INIT LEVEL) ;;;
  keach (seqZ 0 2) (fun _ =>
    lapicw ICRHI (Z.shiftl apicid 24) ;;;
    lapicw ICRLO (Z.lor STARTUP (Z.shiftr addr 12))).

Section ApicDefs.
Context `{Pt : Patience} `{P : Ports} `{LA : LocalApic}.

(** [while(lapic[ICRLO] & DELIVS);] *)
Fixpoint wait_delivery (fuel : nat) : KM unit :=
  match fuel with
  | O => NoFuel
  | S k => r <- lapic_read ICRLO ;; when negb (Z.land r DELIVS =? 0) do wait_delivery k
  end.

Definition lapicinit : KM unit :=
  l <- kget (fun s => hw_lapic (k_hw s)) ;;
  if negb (c_true l) then kret tt else
  lapicw SVR (Z.lor ENABLE (T_IRQ0 + IRQ_SPURIOUS)) ;;;
  lapicw TDCR X1 ;;;
  lapicw TIMER (Z.lor PERIODIC (T_IRQ0 + IRQ_TIMER)) ;;;
  lapicw TICR 10000000 ;;;
  lapicw LINT0 MASKED ;;;
  lapicw LINT1 MASKED ;;;
  v <- lapic_read VER ;;
  (when 4 <=? Z.land (Z.shiftr v 16) 0xFF do lapicw PCINT MASKED) ;;;
  lapicw ERROR (T_IRQ0 + IRQ_ERROR) ;;;
  lapicw ESR 0 ;;;
  lapicw ESR 0 ;;;
  lapicw EOI 0 ;;;
  lapicw ICRHI 0 ;;;
  lapicw ICRLO (Z.lor (Z.lor BCAST INIT) LEVEL) ;;;
  wait_delivery patience ;;;
  lapicw TPR 0.

(** *** The clock *)
Record rtcdate := mk_rtcdate { second : Z; minute : Z; hour : Z; day : Z; month : Z; year : Z }.

Definition CMOS_STATA : Z := 0x0a.
Definition CMOS_STATB : Z := 0x0b.
Definition CMOS_UIP : Z := Z.shiftl 1 7.

Definition cmos_read (reg : Z) : KM Z := outb CMOS_PORT reg ;;; inb CMOS_RETURN.

Definition fill_rtcdate : KM rtcdate :=
  sec <- cmos_read 0x00 ;;
  min <- cmos_read 0x02 ;;
  hr <- cmos_read 0x04 ;;
  dy <- cmos_read 0x07 ;;
  mon <- cmos_read 0x08 ;;
  yr <- cmos_read 0x09 ;;
  kret (mk_rtcdate sec min hr dy mon yr).

Definition rtc_same (a b : rtcdate) : bool :=
  (second a =? second b) && (minute a =? minute b) && (hour a =? hour b) && (day a =? day b) && (month a =? month b) && (year a =? year b).

(** The loop until two readings agree. *)
Fixpoint cmostime_loop (fuel : nat) : KM rtcdate :=
  match fuel with
  | O => NoFuel
  | S k =>
      t1 <- fill_rtcdate ;;
      a <- cmos_read CMOS_STATA ;;
      if negb (Z.land a CMOS_UIP =? 0) then cmostime_loop k else
      t2 <- fill_rtcdate ;;
      if rtc_same t1 t2 then kret t1 else cmostime_loop k
  end.

Definition CONV (x : Z) : Z := u32 (Z.shiftr x 4 * 10 + Z.land x 0xf).

Definition cmostime : KM rtcdate :=
  sb <- cmos_read CMOS_STATB ;;
  let bcd := Z.land sb (Z.shiftl 1 2) =? 0 in
  t1 <- cmostime_loop patience ;;
  let t1 := if bcd then mk_rtcdate (CONV (second t1)) (CONV (minute t1)) (CONV (hour t1)) (CONV (day t1)) (CONV (month t1)) (CONV (year t1)) else t1 in
  kret (mk_rtcdate (second t1) (minute t1) (hour t1) (day t1) (month t1) (u32 (year t1 + 2000))).
End ApicDefs.

End Lapic.

(** ** [mp.c] *)
Module Mp.
Definition NCPU : Z := 8.

Definition load (m : mem) (a n : Z) : list Z := (fun i => ld8 m (a + i)) <$> seqZ 0 n.
Definition ld16 (m : mem) (a : Z) : Z := ld8 m a + 256 * ld8 m (a + 1).

Definition sum (m : mem) (addr len : Z) : Z := u8 (foldl Z.add 0 (load m addr len)).

(** [struct mp]: 16 bytes. *)
Definition sizeof_mp : Z := 16.
Definition mp_physaddr (m : mem) (p : Z) : Z := ld32 m (p + 4).
Definition mp_imcrp (m : mem) (p : Z) : Z := ld8 m (p + 12).
(** [struct mpconf]: 44 bytes. *)
Definition sizeof_mpconf : Z := 44.
Definition conf_length (m : mem) (c : Z) : Z := ld16 m (c + 4).
Definition conf_version (m : mem) (c : Z) : Z := ld8 m (c + 6).
Definition conf_lapicaddr (m : mem) (c : Z) : Z := ld32 m (c + 36).
Definition sizeof_mpproc : Z := 20.
Definition sizeof_mpioapic : Z := 8.

Definition MPPROC : Z := 0x00.
Definition MPBUS : Z := 0x01.
Definition MPIOAPIC : Z := 0x02.
Definition MPIOINTR : Z := 0x03.
Definition MPLINTR : Z := 0x04.

(** Pointers to tables; 0 is the null pointer. *)
Fixpoint mpsearch1_loop (n : nat) (m : mem) (p : Z) : Z :=
  match n with
  | O => 0
  | S k =>
      if bool_decide (load m p 4 = [95; 77; 80; 95]) && (sum m p sizeof_mp =? 0) then p
      else mpsearch1_loop k m (p + sizeof_mp)
  end.
Definition mpsearch1 (m : mem) (a len : Z) : Z := mpsearch1_loop (Z.to_nat ((len + sizeof_mp - 1) / sizeof_mp)) m (P2V a).

Definition mpsearch (m : mem) : Z :=
  let bda := P2V 0x400 in
  let p := Z.shiftl (Z.lor (Z.shiftl (ld8 m (bda + 0x0F)) 8) (ld8 m (bda + 0x0E))) 4 in
  let mp := if negb (p =? 0) then mpsearch1 m p 1024
            else mpsearch1 m (u32 (Z.lor (Z.shiftl (ld8 m (bda + 0x14)) 8) (ld8 m (bda + 0x13)) * 1024 - 1024)) 1024 in
  if negb (mp =? 0) then mp else mpsearch1 m 0xF0000 0x10000.

(** The structure and the configuration table it points to. *)
Definition mpconfig (m : mem) : option (Z * Z) :=
  let mp := mpsearch m in
  if (mp =? 0) || (mp_physaddr m mp =? 0) then None else
  let conf := P2V (mp_physaddr m mp) in
  if negb (bool_decide (load m conf 4 = [80; 67; 77; 80])) then None else
  if negb (conf_version m conf =? 1) && negb (conf_version m conf =? 4) then None else
  if negb (sum m conf (conf_length m conf) =? 0) then None else
  Some (mp, conf).

(** The loop over the entries; the result is [ismp].  In the [default] case the
    [break] leaves only the [switch], and the loop goes on at the same [p]. *)
Fixpoint mpinit_loop (fuel : nat) (p e : Z) (ismp : bool) : KM bool :=
  match fuel with
  | O => NoFuel
  | S k =>
      if negb (p <? e) then kret ismp else
      ty <- kget (fun s => ld8 (k_mem s) p) ;;
      if ty =? MPPROC then
        id <- kget (fun s => ld8 (k_mem s) (p + 1)) ;;
        n <- kget k_ncpu ;;
        (when n <? NCPU do
           (set_cpu (Z.to_nat n) (fun c => c <| apicid := id |>) ;;;
            kmod (fun s => s <| k_ncpu ::= Z.add 1 |>))) ;;;
        mpinit_loop k (p + sizeof_mpproc) e ismp
      else if ty =? MPIOAPIC then
        no <- kget (fun s => ld8 (k_mem s) (p + 1)) ;;
        set_hw (fun d => d <| hw_ioapicid := no |>) ;;;
        mpinit_loop k (p + sizeof_mpioapic) e ismp
      else if (ty =? MPBUS) || (ty =? MPIOINTR) || (ty =? MPLINTR) then
        mpinit_loop k (p + 8) e ismp
      else mpinit_loop k p e false
  end.

Definition mpinit `{Pt : Patience} `{P : Ports} : KM unit :=
  o <- kget (fun s => mpconfig (k_mem s)) ;;
  match o with
  | None => kpanic "Expect to run on an SMP"
  | Some (mp, conf) =>
      l <- kget (fun s => conf_lapicaddr (k_mem s) conf) ;;
      set_hw (fun d => d <| hw_lapic := l |>) ;;;
      len <- kget (fun s => conf_length (k_mem s) conf) ;;
      ismp <- mpinit_loop patience (conf + sizeof_mpconf) (conf + len) true ;;
      if negb ismp then kpanic "Didn't find a suitable machine" else
      i <- kget (fun s => mp_imcrp (k_mem s) mp) ;;
      when negb (i =? 0) do
        (outb 0x22 0x70 ;;;
         v <- inb 0x23 ;;
         outb 0x23 (Z.lor v 1))
  end.
End Mp.
