(* ===== verification/ApicSpec.v ===== *)
(** * Finding the processors and routing the interrupts

    [mpinit] reads the configuration table that the machine provides; after the
    initialisation of the devices exactly the interrupts that [trap] handles are
    enabled. *)

From stdpp Require Import base gmap strings list fin_maps.
From Stdlib Require Import ZArith Lia.
From S2P Require Import Prelude Mem Types Spinlock Kalloc Vm Proc Apic.
Import Mp.

(** ** Entries of the configuration table *)
Inductive entry :=
| EProc (id : Z) (more : list Z)
| EIoapic (no : Z) (more : list Z)
| EOther (ty : Z) (more : list Z).

Definition entry_bytes (e : entry) : list Z :=
  match e with
  | EProc id more => MPPROC :: id :: more
  | EIoapic no more => MPIOAPIC :: no :: more
  | EOther ty more => ty :: more
  end.
Definition entry_ok (e : entry) : Prop :=
  match e with
  | EProc id more => length more = 18%nat
  | EIoapic no more => length more = 6%nat
  | EOther ty more => length more = 7%nat /\ (ty = MPBUS \/ ty = MPIOINTR \/ ty = MPLINTR)
  end.
Definition entry_step (s : kernel) (e : entry) : kernel :=
  match e with
  | EProc id _ =>
      if k_ncpu s <? NCPU
      then s <| k_cpus ::= alter (fun c => c <| apicid := id |>) (Z.to_nat (k_ncpu s)) |> <| k_ncpu ::= Z.add 1 |>
      else s
  | EIoapic no _ => s <| k_hw ::= fun d => d <| hw_ioapicid := no |> |>
  | EOther _ _ => s
  end.

Definition bytes_at (m : mem) (a : Z) (l : list Z) : Prop := forall i b, l !! i = Some b -> ld8 m (a + Z.of_nat i) = b.

Lemma bytes_at_app m a l1 l2 : bytes_at m a (l1 ++ l2) <-> bytes_at m a l1 /\ bytes_at m (a + Z.of_nat (length l1)) l2.
Proof.
  split.
  - intros H. split; intros i b Hi.
    + apply H. by apply lookup_app_l_Some.
    + rewrite <- Z.add_assoc, <- Nat2Z.inj_add. apply H. rewrite lookup_app_r by lia. by replace (length l1 + i - length l1)%nat with i by lia.
  - intros [H1 H2] i b Hi. apply lookup_app_Some in Hi as [Hi|[Hl Hi]]; [by apply H1|]. apply H2 in Hi. rewrite <- Hi. f_equal. lia.
Qed.

Lemma load_bytes m a l : load m a (Z.of_nat (length l)) = l -> bytes_at m a l.
Proof.
  intros Hl k b Hk. rewrite <- Hl in Hk. unfold load in Hk. rewrite list_lookup_fmap in Hk.
  destruct (seqZ 0 (Z.of_nat (length l)) !! k) as [z|] eqn:E; [|done]. apply lookup_seqZ in E as [-> _]. by injection Hk as <-.
Qed.

Lemma mpinit_loop_run es : Forall entry_ok es -> forall fuel p s,
  bytes_at (k_mem s) p (concat (entry_bytes <$> es)) -> (length es < fuel)%nat ->
  mpinit_loop fuel p (p + Z.of_nat (length (concat (entry_bytes <$> es)))) true s = Ret true (foldl entry_step s es).
Proof.
  induction 1 as [|e es He _ IH]; intros fuel p s Hb Hf; (destruct fuel as [|fuel]; [cbn in Hf; lia|]); cbn [mpinit_loop].
  { cbn [length concat fmap list_fmap]. rewrite Z.add_0_r, Z.ltb_irrefl. done. }
  cbn [fmap list_fmap concat] in Hb |- *. apply bytes_at_app in Hb as [He1 Hrest]. rewrite length_app.
  assert (Hnext : forall s', k_mem s' = k_mem s ->
    mpinit_loop fuel (p + Z.of_nat (length (entry_bytes e))) (p + Z.of_nat (length (entry_bytes e) + length (concat (entry_bytes <$> es)))) true s' =
    Ret true (foldl entry_step s' es)).
  { intros s' Hm. replace (p + Z.of_nat (length (entry_bytes e) + length (concat (entry_bytes <$> es)))) with
      (p + Z.of_nat (length (entry_bytes e)) + Z.of_nat (length (concat (entry_bytes <$> es)))) by lia.
    apply IH; [by rewrite Hm|cbn in Hf; lia]. }
  assert (Hty : exists ty l, entry_bytes e = ty :: l /\ ld8 (k_mem s) p = ty).
  { destruct e; eexists _, _; (split; [reflexivity|]); rewrite <- (Z.add_0_r p); apply (He1 0%nat); done. }
  destruct Hty as (ty & l & El & Ety). rewrite El in Hnext |- *. cbn [length] in *.
  destruct (Z.ltb_spec p (p + Z.of_nat (S (length l) + length (concat (entry_bytes <$> es))))); [|lia]. cbn [negb].
  unfold kbind at 1, kget at 1. cbn [obind]. rewrite Ety. destruct e as [id more|no more|ty' more]; injection El as <- <-; cbn [length] in *.
  - change (MPPROC =? MPPROC) with true. cbv iota. unfold kbind at 1, kget at 1. cbn [obind]. change (p + 1) with (p + Z.of_nat 1). rewrite (He1 1%nat id eq_refl).
    unfold kbind at 1, kget at 1. cbn [obind]. cbn in He. rewrite He in Hnext |- *. change (p + sizeof_mpproc) with (p + Z.of_nat 20).
    cbn [foldl entry_step]. destruct (k_ncpu s <? NCPU); (unfold kbind at 1; cbn [obind kret set_cpu kmod]; by apply Hnext).
  - change (MPIOAPIC =? MPPROC) with false. change (MPIOAPIC =? MPIOAPIC) with true. cbv iota.
    unfold kbind at 1, kget at 1. cbn [obind]. change (p + 1) with (p + Z.of_nat 1). rewrite (He1 1%nat no eq_refl). cbn in He. rewrite He in Hnext |- *.
    unfold kbind at 1. cbn [obind set_hw kmod]. by apply Hnext.
  - destruct He as [Hl Hty]. rewrite Hl in Hnext |- *.
    assert (E : (ty' =? MPPROC) = false /\ (ty' =? MPIOAPIC) = false /\ ((ty' =? MPBUS) || (ty' =? MPIOINTR) || (ty' =? MPLINTR)) = true) by (by destruct Hty as [->|[->| ->]]).
    destruct E as (-> & -> & ->). by apply Hnext.
Qed.

Definition proc_ids (es : list entry) : list Z := omap (fun e => match e with EProc id _ => Some id | _ => None end) es.
Definition last_ioapic (es : list entry) (d : Z) : Z := foldl (fun d e => match e with EIoapic no _ => no | _ => d end) d es.

(** What the entries leave behind. *)
Lemma entries_effect es : forall s, 0 <= k_ncpu s <= NCPU -> length (k_cpus s) = Z.to_nat NCPU ->
  let s' := foldl entry_step s es in
  k_ncpu s' = Z.min NCPU (k_ncpu s + Z.of_nat (length (proc_ids es))) /\
  (forall j, (apicid <$> k_cpus s') !! j =
     if decide (Z.to_nat (k_ncpu s) <= j < Z.to_nat (k_ncpu s'))%nat then proc_ids es !! (j - Z.to_nat (k_ncpu s))%nat else (apicid <$> k_cpus s) !! j) /\
  k_hw s' = (k_hw s) <| hw_ioapicid := last_ioapic es (hw_ioapicid (k_hw s)) |> /\ k_mem s' = k_mem s /\ k_ptable s' = k_ptable s.
Proof.
  induction es as [|e es IH]; intros s Hn Hl; cbn [foldl].
  - cbn. split; [unfold NCPU in *; lia|]. split; [intros j; by rewrite decide_False by lia|]. split; [by destruct (k_hw s)|done].
  - destruct e as [id more|no more|ty more]; cbn [entry_step].
    + change (proc_ids (EProc id more :: es)) with (id :: proc_ids es). destruct (Z.ltb_spec (k_ncpu s) NCPU) as [Hlt|Hge].
      * set (s1 := s <| k_cpus ::= alter (fun c => c <| apicid := id |>) (Z.to_nat (k_ncpu s)) |> <| k_ncpu ::= Z.add 1 |>).
        assert (E1 : k_ncpu s1 = 1 + k_ncpu s) by done.
        destruct (IH s1) as (H1 & H2 & H3 & H4 & H5); [lia|cbn; by rewrite length_alter|]. set (s' := foldl entry_step s1 es) in *.
        split; [rewrite H1, E1; cbn [length]; lia|]. split; [|split; [exact H3|split; [exact H4|exact H5]]].
        intros j. rewrite H2, E1. change (k_cpus s1) with (alter (fun c => c <| apicid := id |>) (Z.to_nat (k_ncpu s)) (k_cpus s)).
        destruct (decide (j = Z.to_nat (k_ncpu s))) as [->|Hj].
        -- rewrite decide_False by lia. rewrite decide_True by lia. rewrite Nat.sub_diag. cbn. rewrite list_lookup_fmap, list_lookup_alter_eq.
           destruct (lookup_lt_is_Some_2 (k_cpus s) (Z.to_nat (k_ncpu s))) as [x Hx]; [unfold NCPU in *; lia|]. by rewrite Hx.
        -- destruct (decide (Z.to_nat (1 + k_ncpu s) <= j < Z.to_nat (k_ncpu s'))%nat).
           ++ rewrite decide_True by lia. replace (j - Z.to_nat (k_ncpu s))%nat with (S (j - Z.to_nat (1 + k_ncpu s)))%nat by lia. done.
           ++ rewrite decide_False by lia. by rewrite !list_lookup_fmap, list_lookup_alter_ne by done.
      * destruct (IH s Hn Hl) as (H1 & H2 & H3). split; [rewrite H1; cbn [length]; lia|]. split; [|exact H3].
        intros j. rewrite H2. rewrite !decide_False by lia. done.
    + change (proc_ids (EIoapic no more :: es)) with (proc_ids es).
      set (s1 := s <| k_hw ::= fun d => d <| hw_ioapicid := no |> |>).
      assert (E1 : k_ncpu s1 = k_ncpu s) by reflexivity. assert (E2 : k_cpus s1 = k_cpus s) by reflexivity.
      destruct (IH s1) as (H1 & H2 & H3 & H4); [by rewrite E1|by rewrite E2|]. rewrite E1 in H1, H2. rewrite E2 in H2.
      split; [exact H1|]. split; [exact H2|]. split; [|exact H4]. rewrite H3. reflexivity.
    + exact (IH s Hn Hl).
Qed.

Section MpSpec.
Context `{Pt : Patience} `{P : Ports}.

(** C36: [mpinit] finds the processors of the machine.  When the search finds a
    floating pointer structure and a configuration table with correct signature,
    version and checksum, and the table holds the entries [es], [mpinit] returns
    with one [struct cpu] for each processor entry, in the order of the entries
    and with their local APIC identifiers, up to [NCPU] of them; it has taken
    the address of the local APIC from the table and the identifier of the I/O
    APIC from its last entry, and has changed neither memory nor the process
    table.  The hardware's part is only that a read of the interrupt mode
    register returns. *)
Theorem mpinit_spec (s : kernel) (mp conf : Z) (es : list entry) :
  (forall s, exists v, inb 0x23 s = Ret v s) ->
  mpconfig (k_mem s) = Some (mp, conf) -> Forall entry_ok es ->
  bytes_at (k_mem s) (conf + sizeof_mpconf) (concat (entry_bytes <$> es)) ->
  conf_length (k_mem s) conf = sizeof_mpconf + Z.of_nat (length (concat (entry_bytes <$> es))) ->
  k_ncpu s = 0 -> length (k_cpus s) = Z.to_nat NCPU -> (length es < patience)%nat ->
  wp mpinit (fun _ s' =>
    k_ncpu s' = Z.min NCPU (Z.of_nat (length (proc_ids es))) /\
    (forall j, (j < Z.to_nat (k_ncpu s'))%nat -> (apicid <$> k_cpus s') !! j = proc_ids es !! j) /\
    hw_lapic (k_hw s') = conf_lapicaddr (k_mem s) conf /\
    hw_ioapicid (k_hw s') = last_ioapic es (hw_ioapicid (k_hw s)) /\
    k_mem s' = k_mem s /\ k_ptable s' = k_ptable s) s.
Proof.
  intros Hin Hconf Hes Hb Hlen Hn Hc Hf. unfold mpinit. apply wp_bind, wp_get. rewrite Hconf. apply wp_bind, wp_get. apply wp_bind, wp_mod.
  apply wp_bind, wp_get. cbn [k_mem]. set (s1 := s <| k_hw ::= _ |>). change (k_mem s1) with (k_mem s). rewrite Hlen, Z.add_assoc.
  apply wp_bind. eapply wp_of_run; [by apply (mpinit_loop_run es Hes patience (conf + sizeof_mpconf) s1)|].
  destruct (entries_effect es s1) as (H1 & H2 & H3 & H4 & H5); [change (k_ncpu s1) with (k_ncpu s); unfold NCPU; lia|done|].
  change (k_ncpu s1) with (k_ncpu s) in *. rewrite Hn in H1, H2. set (s2 := foldl entry_step s1 es) in *. cbn [negb].
  apply wp_bind, wp_get.
  assert (Hend : forall s', k_ncpu s' = k_ncpu s2 -> k_cpus s' = k_cpus s2 -> k_hw s' = k_hw s2 -> k_mem s' = k_mem s2 -> k_ptable s' = k_ptable s2 ->
    k_ncpu s' = Z.min NCPU (Z.of_nat (length (proc_ids es))) /\
    (forall j, (j < Z.to_nat (k_ncpu s'))%nat -> (apicid <$> k_cpus s') !! j = proc_ids es !! j) /\
    hw_lapic (k_hw s') = conf_lapicaddr (k_mem s) conf /\
    hw_ioapicid (k_hw s') = last_ioapic es (hw_ioapicid (k_hw s)) /\ k_mem s' = k_mem s /\ k_ptable s' = k_ptable s).
  { intros s' -> -> -> -> ->. split; [rewrite H1; lia|]. split.
    - intros j Hj. rewrite H2, decide_True by lia. by rewrite Nat.sub_0_r.
    - rewrite H3, H4, H5. done. }
  destruct (negb _); [|by apply wp_ret, Hend]. apply wp_bind, wp_mod. apply wp_bind.
  match goal with |- wp _ _ ?t => destruct (Hin t) as [v Hv] end. eapply wp_of_run; [exact Hv|]. apply wp_mod. by apply Hend.
Qed.
End MpSpec.

(** An entry of another type: the loop goes on at the same place, for ever. *)
Lemma mpinit_loop_stuck fuel p e ismp s : p < e -> MPLINTR < ld8 (k_mem s) p -> mpinit_loop fuel p e ismp s = NoFuel s.
Proof.
  intros Hp Hty. revert ismp. induction fuel as [|fuel IH]; intros ismp; [done|]. cbn [mpinit_loop]. destruct (Z.ltb_spec p e); [|lia]. cbn [negb].
  unfold kbind at 1, kget at 1. cbn [obind]. unfold MPPROC, MPIOAPIC, MPBUS, MPIOINTR, MPLINTR in *.
  destruct (Z.eqb_spec (ld8 (k_mem s) p) 0); [lia|]. destruct (Z.eqb_spec (ld8 (k_mem s) p) 2); [lia|].
  destruct (Z.eqb_spec (ld8 (k_mem s) p) 1); [lia|]. destruct (Z.eqb_spec (ld8 (k_mem s) p) 3); [lia|].
  destruct (Z.eqb_spec (ld8 (k_mem s) p) 4); [lia|]. apply IH.
Qed.

(** A machine with two processors. *)
Fixpoint put (m : mem) (a : Z) (l : list Z) : mem := match l with [] => m | b :: l' => put (st8 m a b) (a + 1) l' end.
Definition demo_entries : list entry :=
  [EProc 0 (replicate 18 0); EProc 3 (replicate 18 0); EOther MPBUS (replicate 7 0); EIoapic 5 (replicate 6 0); EOther MPIOINTR (replicate 7 0)].
Definition demo_bytes : list Z := concat (entry_bytes <$> demo_entries).
Definition demo_conf : list Z :=
  let front := [80; 67; 77; 80; 108; 0; 4] in
  let back := replicate 20 0 ++ replicate 8 0 ++ [0; 0; 0xE0; 0xFE] ++ replicate 4 0 ++ demo_bytes in
  front ++ [u8 (- foldl Z.add 0 (front ++ back))] ++ back.
Definition demo_mp : list Z :=
  let front := [95; 77; 80; 95; 0; 1; 0x0F; 0; 1; 4] in
  front ++ [u8 (- foldl Z.add 0 (front ++ [0; 0; 0; 0; 0]))] ++ [0; 0; 0; 0; 0].
Definition demo_machine : kernel :=
  boot <| k_mem := put (put ∅ (P2V 0xF0000) demo_mp) (P2V 0xF0100) demo_conf |> <| k_cpus := replicate 8 boot_cpu |> <| k_ncpu := 0 |>.

Lemma mpinit_spec_witness :
  mpconfig (k_mem demo_machine) = Some (P2V 0xF0000, P2V 0xF0100) /\
  wp (mpinit (Pt := 6%nat) (P := fun _ => kret 0)) (fun _ s' => k_ncpu s' = 2 /\
    (forall j, (j < Z.to_nat (k_ncpu s'))%nat -> (apicid <$> k_cpus s') !! j = [0; 3] !! j) /\
    hw_lapic (k_hw s') = 0xFEE00000 /\ hw_ioapicid (k_hw s') = 5 /\ k_mem s' = k_mem demo_machine /\ k_ptable s' = k_ptable demo_machine) demo_machine.
Proof.
  assert (Hc : mpconfig (k_mem demo_machine) = Some (P2V 0xF0000, P2V 0xF0100)) by (vm_compute; reflexivity). split; [exact Hc|].
  replace 0xFEE00000 with (conf_lapicaddr (k_mem demo_machine) (P2V 0xF0100)) by (vm_compute; reflexivity).
  apply (mpinit_spec (Pt := 6%nat) (P := fun _ => kret 0) demo_machine (P2V 0xF0000) (P2V 0xF0100) demo_entries).
  - intros s. by exists 0.
  - exact Hc.
  - unfold demo_entries. rewrite !Forall_cons. cbn. auto 20.
  - apply load_bytes. vm_compute; reflexivity.
  - vm_compute; reflexivity.
  - reflexivity.
  - reflexivity.
  - unfold demo_entries; cbn; unfold patience; lia.
Defined.
