(* ===== verification/ProcSpec.v ===== *)
(** * Processes: sleeping, waking and switching

    What a thread guarantees when it gives up the processor and what it finds
    when it is resumed, for [sched], [yield], [sleep], [wakeup], [kill] and the
    scheduler. *)

From stdpp Require Import base gmap strings list fin_maps.
From Stdlib Require Import ZArith Lia.
From S2P Require Import Prelude Mem Types Spinlock Kalloc Vm Proc.

(** ** Running with locks held *)

(** The code runs on processor [i] with interrupts off, at depth [n] of
    [pushcli]. *)
Definition at_depth (s : kernel) (i : nat) (c : cpu) (n : Z) : Prop :=
  on_cpu s i c /\ k_if s = false /\ ncli c = n.

Lemma at_depth_quiet s i c n : at_depth s i c n -> 0 <= n -> quiet s i c.
Proof. intros (H1 & H2 & H3) Hn. split; [done|]. rewrite H2. split; [lia|done]. Qed.

Lemma settle_at s i c n : at_depth s i c n -> 1 <= n -> settle i s = s.
Proof. intros ((_ & Hc & _) & _ & Hn) H. apply (settle_nested s i c Hc). lia. Qed.

Lemma myproc_run s i c n : at_depth s i c n -> 1 <= n -> myproc s = Ret (cpu_proc c) s.
Proof.
  intros (Hon & Hif & Hn) H1. unfold myproc. krun (pushcli_run _ _ _ Hon).
  pose proof (on_cpu_push _ _ _ Hon) as Hon'. krun (mycpu_run _ _ _ Hon' eq_refl).
  krun (get_cpu_run _ _ _ Hon'). krun (popcli_run _ _ _ Hon' eq_refl ltac:(rewrite ncli_pushc; lia)).
  rewrite pop_push_nested; [|apply Hon|done|lia]. unfold kret. f_equal.
  unfold pushc. by destruct (ncli c =? 0).
Qed.

(** Without a lock held, [myproc] only records the interrupt flag. *)
Lemma pop_push_settle s i c :
  quiet s i c -> pop i (pushc (k_if s) c) (push i s) = settle i s.
Proof.
  intros Hq. unfold pop. change (k_if (push i s)) with false. rewrite (pop_if_pushc s i c Hq).
  assert (E : alter popc i (alter (pushc (k_if s)) i (k_cpus s)) = alter (settlec (k_if s)) i (k_cpus s)).
  { rewrite list_alter_alter_eq. apply list_alter_ext; [|done]. intros x _. apply popc_pushc_settlec. }
  transitivity (s <| k_cpus := alter popc i (alter (pushc (k_if s)) i (k_cpus s)) |>); [reflexivity|].
  rewrite E. reflexivity.
Qed.

Lemma myproc_quiet s i c : quiet s i c -> myproc s = Ret (cpu_proc c) (settle i s).
Proof.
  intros Hq. pose proof Hq as (Hon & Hn & _). unfold myproc. krun (pushcli_run _ _ _ Hon).
  pose proof (on_cpu_push _ _ _ Hon) as Hon'. krun (mycpu_run _ _ _ Hon' eq_refl).
  krun (get_cpu_run _ _ _ Hon'). krun (popcli_run _ _ _ Hon' eq_refl ltac:(rewrite ncli_pushc; lia)).
  rewrite (pop_push_settle s i c Hq). unfold kret. f_equal. unfold pushc. by destruct (ncli c =? 0).
Qed.

Lemma get_proc_run s ip p : k_ptable s !! ip = Some p -> get_proc ip s = Ret p s.
Proof. intros H. unfold get_proc. by rewrite H. Qed.

Lemma at_depth_other s s' i c n :
  at_depth s i c n -> k_if s' = k_if s -> k_cpus s' = k_cpus s -> k_apicid s' = k_apicid s ->
  k_ncpu s' = k_ncpu s -> at_depth s' i c n.
Proof.
  intros ((H1 & H2 & H3 & H4) & H5 & H6) E1 E2 E3 E4.
  unfold at_depth, on_cpu. by rewrite E1, E2, E3, E4.
Qed.

Lemma core_upd (s : kernel) lk cp b :
  cp = k_cpus s -> b = k_if s ->
  s <| k_locks := lk |> <| k_cpus := cp |> <| k_if := b |> = s <| k_locks := lk |>.
Proof. by intros -> ->. Qed.

(** Exchanging a lock for [ptable.lock], as [sleep] does on its way in. *)
Lemma exchange_lock s i c lk lk' :
  at_depth s i c 1 -> held s lk i = true -> free s lk' -> lk <> lk' ->
  (acquire lk' ;;; release lk) s =
  Ret tt (s <| k_locks ::= fun m => <[lk := unlocked]> (<[lk' := mk_spinlock 1 (Some i)]> m) |>).
Proof.
  intros Hd Hh Hf Hne. pose proof (at_depth_quiet _ _ _ _ Hd ltac:(lia)) as Hq.
  destruct Hd as (Hon & Hif & Hn). krun (acquire_run _ _ _ _ Hq Hf).
  pose proof (quiet_acq _ _ _ lk' Hq) as (Hon' & _).
  assert (Hh' : held (acq i lk' s) lk i = true).
  { unfold held in *. unfold acq. cbn. by rewrite lookup_insert_ne. }
  rewrite (release_run _ _ _ lk Hon' eq_refl ltac:(rewrite ncli_pushc; lia) Hh'). f_equal.
  unfold rel, pop, pop_if. rewrite ncli_pushc, Hn. change (1 + 1 =? 1) with false. cbn [andb].
  assert (E : alter popc i (alter (pushc (k_if s)) i (k_cpus s)) = k_cpus s).
  { rewrite list_alter_alter_eq. apply (list_alter_id_at _ _ _ c); [apply Hon|]. apply popc_pushc. lia. }
  exact (core_upd s (<[lk := unlocked]> (<[lk' := mk_spinlock 1 (Some i)]> (k_locks s))) _ false E (eq_sym Hif)).
Qed.

(** ** [sched] *)

(** The rest of [sched] after the switch. *)
Definition resume_sched (intena0 : Z) : KM unit :=
  i <- mycpu ;; set_cpu i (fun c => c <| intena := intena0 |>).

Lemma sched_run s i c ip p :
  at_depth s i c 1 -> held s Lptable i = true -> cpu_proc c = Some ip ->
  k_ptable s !! ip = Some p -> state p <> RUNNING ->
  sched s = Switch s (resume_sched (intena c)).
Proof.
  intros Hd Hh Hp Hpt Hst. pose proof Hd as (Hon & Hif & Hn). unfold sched.
  krun (myproc_run _ _ _ _ Hd ltac:(lia)). rewrite Hp.
  krun (holding_run _ _ _ Lptable Hon Hif ltac:(lia)). rewrite Hh. cbn [negb].
  krun (mycpu_run _ _ _ Hon Hif). krun (get_cpu_run _ _ _ Hon). rewrite Hn. change (1 =? 1) with true. cbn [negb].
  unfold deref, kret, kbind at 1. cbn [obind]. krun (get_proc_run _ _ _ Hpt).
  rewrite bool_decide_eq_false_2 by done. unfold readeflags, kget, kbind at 1. rewrite Hif. cbn [obind].
  change (c_true (Z.land 0 FL_IF)) with false. cbv iota.
  krun (mycpu_run _ _ _ Hon Hif). krun (get_cpu_run _ _ _ Hon).
  unfold swtch, kbind. cbn [obind]. reflexivity.
Qed.

Lemma resume_sched_run s i c n v :
  at_depth s i c n ->
  resume_sched v s = Ret tt (s <| k_cpus ::= alter (fun c => c <| intena := v |>) i |>) /\
  at_depth (s <| k_cpus ::= alter (fun c => c <| intena := v |>) i |>) i (c <| intena := v |>) n.
Proof.
  intros (Hon & Hif & Hn). unfold resume_sched. krun (mycpu_run _ _ _ Hon Hif). split; [done|].
  set (f := fun c : cpu => c <| intena := v |>).
  pose proof (on_cpu_alter _ _ _ f (k_if s) Hon eq_refl) as H. split; [|done]. by destruct s.
Qed.

(** [sched] refuses to switch in a wrong state.  Called by a process that
    runs on processor [i], it panics unless [ptable.lock] is held by this
    processor, no other lock is held, the process is no longer marked
    [RUNNING] and interrupts are off; otherwise it switches and, when it is
    resumed, restores the saved interrupt state of the thread on the processor it
    then runs on. *)
Theorem sched_spec (s : kernel) (i : nat) (c : cpu) (ip : nat) (p : proc) :
  on_cpu s i c -> k_if s = false -> 1 <= ncli c -> cpu_proc c = Some ip -> k_ptable s !! ip = Some p ->
  match sched s with
  | Switch s1 k => s1 = s /\ held s Lptable i = true /\ ncli c = 1 /\ state p <> RUNNING /\
      forall s2 j c2 n, at_depth s2 j c2 n ->
        k s2 = Ret tt (s2 <| k_cpus ::= alter (fun d => d <| intena := intena c |>) j |>)
  | Panic msg s1 => s1 = s /\
      (msg = "sched ptable.lock" /\ held s Lptable i = false \/
       msg = "sched locks" /\ ncli c <> 1 \/ msg = "sched running" /\ state p = RUNNING)%string
  | _ => False
  end.
Proof.
  intros Hon Hif Hn Hp Hpt.
  assert (Hd : at_depth s i c (ncli c)) by done.
  destruct (held s Lptable i) eqn:Hh; [destruct (decide (ncli c = 1)) as [E|E]; [destruct (decide (state p = RUNNING)) as [Hr|Hr]|]|].
  - unfold sched. krun (myproc_run _ _ _ _ Hd Hn). rewrite Hp. krun (holding_run _ _ _ Lptable Hon Hif Hn).
    rewrite Hh. cbn [negb]. krun (mycpu_run _ _ _ Hon Hif). krun (get_cpu_run _ _ _ Hon). rewrite E.
    change (1 =? 1) with true. cbn [negb]. unfold deref, kret, kbind at 1. cbn [obind].
    krun (get_proc_run _ _ _ Hpt). rewrite bool_decide_eq_true_2 by done. cbn. tauto.
  - rewrite E in Hd. rewrite (sched_run s i c ip p Hd Hh Hp Hpt Hr). split; [done|]. split; [done|].
    split; [done|]. split; [done|]. intros s2 j c2 n Hd2. by apply (resume_sched_run s2 j c2 n).
  - unfold sched. krun (myproc_run _ _ _ _ Hd Hn). krun (holding_run _ _ _ Lptable Hon Hif Hn). rewrite Hh. cbn [negb].
    krun (mycpu_run _ _ _ Hon Hif). krun (get_cpu_run _ _ _ Hon).
    destruct (Z.eqb_spec (ncli c) 1); [done|]. cbn. tauto.
  - unfold sched. krun (myproc_run _ _ _ _ Hd Hn). krun (holding_run _ _ _ Lptable Hon Hif Hn). rewrite Hh. cbn. tauto.
Qed.

(** ** Loops over the process table *)

Lemma ptable_id (s : kernel) f : f (k_ptable s) = k_ptable s -> s <| k_ptable ::= f |> = s.
Proof. intros H. unfold update, upd_k_ptable. rewrite H. by destruct s. Qed.

Lemma ptable_compose (s : kernel) f g h :
  g (f (k_ptable s)) = h (k_ptable s) -> s <| k_ptable ::= f |> <| k_ptable ::= g |> = s <| k_ptable ::= h |>.
Proof. intros H. unfold update, upd_k_ptable. cbn. by rewrite H. Qed.

Lemma alter_mid {A} (f : A -> A) (l1 l2 : list A) x : alter f (length l1) (l1 ++ x :: l2) = l1 ++ f x :: l2.
Proof. induction l1 as [|y l1 IH]; cbn; [done|]. by rewrite IH. Qed.

Lemma alter_as_insert {A} (f : A -> A) (l : list A) i x : l !! i = Some x -> alter f i l = <[i := f x]> l.
Proof.
  intros Hx. apply list_eq. intros n. destruct (decide (n = i)) as [->|Hn].
  - rewrite list_lookup_alter_eq, Hx, list_lookup_insert_eq; [done|]. by eapply lookup_lt_Some.
  - by rewrite list_lookup_alter_ne, list_lookup_insert_ne.
Qed.

(** A loop that updates every process by [f] maps [f] over the table. *)
Lemma keach_procs (f : proc -> proc) (body : nat -> KM unit) s :
  (forall s i p, k_ptable s !! i = Some p -> body i s = Ret tt (s <| k_ptable ::= alter f i |>)) ->
  length (k_ptable s) = NPROC ->
  keach (seq 0 NPROC) body s = Ret tt (s <| k_ptable ::= fmap f |>).
Proof.
  intros Hb Hlen.
  assert (Hgen : forall l2 l1 s, k_ptable s = l1 ++ l2 ->
    keach (seq (length l1) (length l2)) body s = Ret tt (s <| k_ptable := l1 ++ (f <$> l2) |>)).
  { induction l2 as [|p l2 IH]; intros l1 s1 Hs; cbn [length seq keach].
    - unfold kret. f_equal. symmetry. apply ptable_id. cbn. by rewrite Hs.
    - assert (Hi : k_ptable s1 !! length l1 = Some p) by (rewrite Hs; by apply list_lookup_middle).
      krun (Hb s1 _ p Hi).
      specialize (IH (l1 ++ [f p]) (s1 <| k_ptable ::= alter f (length l1) |>)).
      rewrite length_app, Nat.add_comm in IH. cbn [length Nat.add] in IH. rewrite IH.
      + f_equal. cbn [fmap list_fmap]. by rewrite <- (app_assoc l1).
      + cbn. rewrite Hs, alter_mid. by rewrite <- app_assoc. }
  specialize (Hgen (k_ptable s) [] s eq_refl). rewrite Hlen in Hgen. exact Hgen.
Qed.

Definition wake (ch : option chan) (p : proc) : proc :=
  if bool_decide (state p = SLEEPING) && bool_decide (pchan p = ch) then p <| state := RUNNABLE |> else p.

Lemma wakeup1_run ch s :
  length (k_ptable s) = NPROC -> wakeup1 ch s = Ret tt (s <| k_ptable ::= fmap (wake ch) |>).
Proof.
  intros Hlen. unfold wakeup1. apply keach_procs; [|done]. intros s1 i p Hp.
  krun (get_proc_run _ _ _ Hp). destruct (_ && _) eqn:E.
  - unfold set_proc, kmod. f_equal. unfold update, upd_k_ptable. f_equal. apply list_alter_ext; [|done].
    intros x Hx. simplify_eq. unfold wake. by rewrite E.
  - unfold kret. f_equal. symmetry. apply ptable_id. apply (list_alter_id_at _ _ _ p Hp). unfold wake. by rewrite E.
Qed.

(** The effect of a critical section on the table alone. *)
Lemma wakeup_run s i c ch :
  quiet s i c -> free s Lptable -> length (k_ptable s) = NPROC ->
  wakeup ch s = Ret tt ((settle i s) <| k_ptable ::= fmap (wake ch) |>).
Proof.
  intros Hq Hf Hlen. unfold wakeup. krun (acquire_run _ _ _ _ Hq Hf).
  krun (wakeup1_run ch (acq i Lptable s) Hlen). erewrite release_after; [|exact Hq|exact Hf|done]. done.
Qed.

(** ** [sleep] *)

Lemma rel_quiet s i c l : at_depth s i c 1 -> quiet (rel i c l s) i (popc c).
Proof.
  intros (Hon & Hif & Hn). split; [|cbn; rewrite Hn; split; [lia|done]].
  by apply (on_cpu_alter _ _ _ popc (pop_if c (k_if s)) Hon eq_refl).
Qed.

(** Giving up [ptable.lock] for [lk], as [sleep] does on its way out. *)
Lemma back_to_lock s j c lk :
  at_depth s j c 1 -> held s Lptable j = true -> free s lk -> lk <> Lptable ->
  exists s', (release Lptable ;;; acquire lk) s = Ret tt s' /\ (exists c', at_depth s' j c' 1 /\ cpu_proc c' = cpu_proc c) /\
    held s' lk j = true /\ free s' Lptable /\ k_ptable s' = k_ptable s /\ k_mem s' = k_mem s /\
    forall l, l <> lk -> l <> Lptable -> k_locks s' !! l = k_locks s !! l.
Proof.
  intros Hd Hh Hf Hne. pose proof Hd as (Hon & Hif & Hn).
  krun (release_run _ _ _ Lptable Hon Hif ltac:(lia) Hh).
  assert (Hf' : free (rel j c Lptable s) lk) by (unfold free, rel; cbn; by rewrite lookup_insert_ne).
  pose proof (rel_quiet _ _ _ Lptable Hd) as Hq. rewrite (acquire_run _ _ _ _ Hq Hf').
  eexists. split; [done|]. pose proof (quiet_acq _ _ _ lk Hq) as (Hon' & _).
  split; [eexists; split; [split; [exact Hon'|split; [done|]]|]|].
  - rewrite ncli_pushc. cbn. lia.
  - unfold pushc. by destruct (_ =? _).
  - split; [apply held_acq|]. split; [apply free_acq; [done|]|].
    + unfold free, rel. cbn. apply lookup_insert_eq.
    + split; [done|]. split; [done|]. intros l H1 H2. unfold acq, rel. cbn. by rewrite !lookup_insert_ne.
Qed.

(** The state in which the scheduler resumes a thread that sleeps for [lk]. *)
Definition resumable (s : kernel) (j : nat) (c : cpu) (lk : lockid) : Prop :=
  at_depth s j c 1 /\ held s Lptable j = true /\ free s lk.

(** The state in which process [ip] has gone to sleep. *)
Definition asleep (s : kernel) (i ip : nat) (ch : chan) (lk : lockid) : kernel :=
  s <| k_locks ::= fun m => <[lk := unlocked]> (<[Lptable := mk_spinlock 1 (Some i)]> m) |>
    <| k_ptable ::= alter (fun q => q <| pchan := Some ch |> <| state := SLEEPING |>) ip |>.

Lemma held_asleep s i ip ch lk : lk <> Lptable -> held (asleep s i ip ch lk) Lptable i = true.
Proof.
  intros Hne. unfold held, asleep. cbn. rewrite lookup_insert_ne, lookup_insert_eq by done. cbn. by rewrite bool_decide_eq_true_2.
Qed.

Lemma sleep_run s i c ip p ch lk :
  at_depth s i c 1 -> cpu_proc c = Some ip -> k_ptable s !! ip = Some p ->
  lk <> Lptable -> held s lk i = true -> free s Lptable ->
  sleep (Some ch) (Some lk) s = Switch (asleep s i ip ch lk) (fun s2 =>
    obind (resume_sched (intena c) s2) (fun _ =>
      set_proc ip (fun p => p <| pchan := None |>) ;;; (release Lptable ;;; acquire lk))).
Proof.
  intros Hd Hp Hpt Hne Hh Hf. unfold sleep. krun (myproc_run _ _ _ _ Hd ltac:(lia)). rewrite Hp.
  rewrite bool_decide_eq_false_2 by done. cbn [negb]. krun (exchange_lock s i c lk Lptable Hd Hh Hf Hne).
  unfold set_proc at 1 2, kmod, kbind at 1 2. cbn [obind].
  rewrite (ptable_compose _ _ _ (alter (fun q => q <| pchan := Some ch |> <| state := SLEEPING |>) ip))
    by apply list_alter_alter_eq.
  fold (asleep s i ip ch lk). unfold kbind at 1. erewrite (sched_run (asleep s i ip ch lk) i c ip); [done|done|by apply held_asleep|done| |].
  - cbn. by rewrite list_lookup_alter_eq, Hpt.
  - done.
Qed.

(** Without [ptable.lock], [sleep] spins with nothing done. *)
Lemma sleep_elsewhere s i c ip ch lk :
  at_depth s i c 1 -> cpu_proc c = Some ip -> lk <> Lptable -> elsewhere s Lptable i ->
  sleep (Some ch) (Some lk) s = Spin (push i s).
Proof.
  intros Hd Hp Hne Hb. unfold sleep. krun (myproc_run _ _ _ _ Hd ltac:(lia)). rewrite Hp.
  rewrite bool_decide_eq_false_2 by done. cbn [negb]. unfold kbind at 1 2.
  by rewrite (acquire_elsewhere s i c Lptable (at_depth_quiet _ _ _ _ Hd ltac:(lia)) Hb).
Qed.

(** Where the process table is that of [s1], in which processor [i] has
    [ptable.lock] and process [ip] is [q]: a [wakeup] on [ch] by another
    processor spins while [i] has the lock, and makes the process [RUNNABLE]
    once the lock is free. *)
Definition wakes (s1 : kernel) (i ip : nat) (q : proc) (ch : chan) : Prop :=
  forall s2 j c2, quiet s2 j c2 -> k_ptable s2 = k_ptable s1 -> length (k_ptable s1) = NPROC ->
    (k_locks s2 !! Lptable = k_locks s1 !! Lptable -> j <> i -> wakeup (Some ch) s2 = Spin (push j s2)) /\
    (free s2 Lptable -> exists s3, wakeup (Some ch) s2 = Ret tt s3 /\ free s3 Lptable /\
       k_ptable s3 !! ip = Some (q <| state := RUNNABLE |>)).

Lemma wakes_sleeper s1 i ip q ch :
  k_ptable s1 !! ip = Some q -> state q = SLEEPING -> pchan q = Some ch ->
  k_locks s1 !! Lptable = Some (mk_spinlock 1 (Some i)) -> wakes s1 i ip q ch.
Proof.
  intros Hq Hs Hc Hl s2 j c2 Hquiet Hpt Hlen. split.
  - intros Hl2 Hj. unfold wakeup, kbind at 1. rewrite (acquire_elsewhere s2 j c2); [done|done|]. exists i. rewrite Hl2. by split.
  - intros Hf. rewrite (wakeup_run s2 j c2) by (done || by rewrite Hpt). eexists. split; [done|]. split; [done|].
    cbn. rewrite list_lookup_fmap, Hpt, Hq. unfold wake. cbn. by rewrite !bool_decide_eq_true_2.
Qed.

(** C21: [sleep] does not lose a wakeup.  Let a process that holds only [lk] call
    [sleep(chan, lk)].  While another processor has [ptable.lock], it spins with
    the process table and the locks unchanged: it does not mark itself and does
    not give up [lk] before it has [ptable.lock].  When [ptable.lock] is free,
    it reaches the switch with [lk] released, [ptable.lock] held and itself
    marked [SLEEPING] on [chan].  From then on, a [wakeup] on [chan] spins as
    long as this processor has [ptable.lock], and makes the process [RUNNABLE]
    when the lock has been released with the table as it was at the switch.
    When the scheduler resumes it, on any processor, it returns with [lk] held,
    [ptable.lock] free and its channel cleared. *)
Theorem sleep_spec (s : kernel) (i : nat) (c : cpu) (ip : nat) (p : proc) (ch : chan) (lk : lockid) :
  at_depth s i c 1 -> cpu_proc c = Some ip -> k_ptable s !! ip = Some p ->
  lk <> Lptable -> held s lk i = true ->
  (elsewhere s Lptable i -> exists s1, sleep (Some ch) (Some lk) s = Spin s1 /\
     k_ptable s1 = k_ptable s /\ k_locks s1 = k_locks s) /\
  (free s Lptable -> exists s1 k q, sleep (Some ch) (Some lk) s = Switch s1 k /\
    free s1 lk /\ held s1 Lptable i = true /\
    k_ptable s1 = <[ip := q]> (k_ptable s) /\ state q = SLEEPING /\ pchan q = Some ch /\
    k_mem s1 = k_mem s /\ wakes s1 i ip q ch /\
    forall s2 j c2, resumable s2 j c2 lk ->
      exists s3, k s2 = Ret tt s3 /\ held s3 lk j = true /\ free s3 Lptable /\
        (exists c3, at_depth s3 j c3 1 /\ cpu_proc c3 = cpu_proc c2) /\
        k_ptable s3 = alter (fun q => q <| pchan := None |>) ip (k_ptable s2) /\ k_mem s3 = k_mem s2).
Proof.
  intros Hd Hp Hpt Hne Hh. split; [intros Hb; rewrite (sleep_elsewhere s i c ip) by done; by eexists|].
  intros Hf. rewrite (sleep_run s i c ip p ch lk) by done.
  set (q := p <| pchan := Some ch |> <| state := SLEEPING |>).
  assert (Eq : k_ptable (asleep s i ip ch lk) = <[ip := q]> (k_ptable s)) by (cbn; by rewrite (alter_as_insert _ (k_ptable s) ip p Hpt)).
  eexists _, _, q. split; [done|]. split; [unfold free; cbn; apply lookup_insert_eq|]. split; [by apply held_asleep|].
  split; [done|]. split; [done|]. split; [done|]. split; [done|]. split.
  { apply wakes_sleeper; [|done|done|].
    - rewrite Eq. apply list_lookup_insert_eq. by eapply lookup_lt_Some.
    - cbn. by rewrite lookup_insert_ne, lookup_insert_eq by done. }
  intros s2 j c2 (Hd2 & Hh2 & Hf2). cbn beta.
  destruct (resume_sched_run s2 j c2 1 (intena c) Hd2) as [-> Hd3]. cbn [obind].
  unfold set_proc, kbind at 1, kmod. cbn [obind].
  set (s2' := (s2 <| k_cpus ::= _ |>) <| k_ptable ::= _ |>).
  assert (Hd3' : at_depth s2' j (c2 <| intena := intena c |>) 1) by exact Hd3.
  destruct (back_to_lock s2' j _ lk Hd3' Hh2 Hf2 Hne) as (s3 & -> & Hc3 & Hh3 & Hf3 & Hpt3 & Hm3 & _).
  exists s3. split; [done|]. split; [done|]. split; [done|]. split; [done|]. by rewrite Hpt3, Hm3.
Qed.

(** ** [switchuvm] and the scheduler *)
Section Sched.
Context `{L : Layout}.

(** What [switchuvm(p)] writes in the processor's record. *)
Definition load_tss (i : nat) (p : proc) (c : cpu) : cpu :=
  c <| gdt ::= fun g => alter (set_s 0) SEG_TSS (<[SEG_TSS := SEG16 STS_T32A (ts_addr i) 103 0]> g) |>
    <| ts ::= fun t => t <| ts_ss0 := Z.shiftl SEG_KDATA 3 |> <| ts_esp0 := kstack p + KSTACKSIZE |>
                         <| ts_iomb := 0xFFFF |> |>.

Definition install (i : nat) (p : proc) (s : kernel) : kernel :=
  s <| k_cpus ::= alter (load_tss i p) i |> <| k_tr := Z.shiftl SEG_TSS 3 |> <| k_cr3 := V2P (pgdir p) |>.

Lemma popc_load_pushc b i p c : popc (load_tss i p (pushc b c)) = load_tss i p (settlec b c).
Proof.
  rewrite <- popc_pushc_settlec. unfold popc, load_tss. by destruct (pushc b c).
Qed.

Lemma ncli_load i p c : ncli (load_tss i p c) = ncli c.
Proof. done. Qed.

Lemma intena_load i p c : intena (load_tss i p c) = intena c.
Proof. done. Qed.

Lemma install_eq (s : kernel) i p cp b :
  cp = alter (load_tss i p) i (k_cpus (settle i s)) -> b = k_if s ->
  s <| k_tr := Z.shiftl SEG_TSS 3 |> <| k_cr3 := V2P (pgdir p) |> <| k_cpus := cp |> <| k_if := b |> =
  install i p (settle i s).
Proof. by intros -> ->. Qed.

Lemma switchuvm_quiet s i c ip p :
  quiet s i c -> k_ptable s !! ip = Some p -> kstack p <> 0 -> pgdir p <> 0 ->
  switchuvm (Some ip) s = Ret tt (install i p (settle i s)).
Proof.
  intros Hq Hpt Hk Hg. pose proof Hq as (Hon & Hn & _). unfold switchuvm. krun (get_proc_run _ _ _ Hpt).
  destruct (Z.eqb_spec (kstack p) 0); [done|]. destruct (Z.eqb_spec (pgdir p) 0); [done|].
  krun (pushcli_run _ _ _ Hon). pose proof (on_cpu_push _ _ _ Hon) as Hon'.
  krun (mycpu_run _ _ _ Hon' eq_refl). unfold set_cpu, kmod. unfold kbind. cbn [obind].
  match goal with |- popcli ?x = _ => set (s1 := x) end.
  assert (Ecp : k_cpus s1 = alter (load_tss i p) i (k_cpus (push i s))).
  { unfold s1. cbn [k_cpus update upd_k_cpus upd_k_tr upd_k_cr3]. rewrite !list_alter_alter_eq. reflexivity. }
  assert (Hon1 : on_cpu s1 i (load_tss i p (pushc (k_if s) c))).
  { destruct Hon' as (A1 & A2 & A3 & A4). unfold on_cpu. rewrite Ecp.
    change (k_ncpu s1) with (k_ncpu (push i s)). change (k_apicid s1) with (k_apicid (push i s)).
    split; [done|]. split; [by rewrite list_lookup_alter_eq, A2|]. split; [done|].
    intros j d Hj. rewrite list_lookup_alter_ne by lia. by apply A4. }
  rewrite (popcli_run _ _ _ Hon1 eq_refl) by (rewrite ncli_load, ncli_pushc; lia). f_equal.
  assert (E : alter popc i (k_cpus s1) = alter (load_tss i p) i (k_cpus (settle i s))).
  { rewrite Ecp. unfold push, settle. cbn [k_cpus update upd_k_cpus upd_k_if]. rewrite !list_alter_alter_eq.
    apply list_alter_ext; [|done]. intros x _. apply popc_load_pushc. }
  assert (Eif : pop_if (load_tss i p (pushc (k_if s) c)) false = k_if s).
  { etrans; [|exact (pop_if_pushc s i c Hq)]. reflexivity. }
  etrans; [|exact (install_eq s i p _ _ E Eif)]. reflexivity.
Qed.

Lemma switchuvm_run s i c n ip p :
  at_depth s i c n -> 1 <= n -> k_ptable s !! ip = Some p -> kstack p <> 0 -> pgdir p <> 0 ->
  switchuvm (Some ip) s = Ret tt (install i p s).
Proof.
  intros Hd H1 Hpt Hk Hg. rewrite <- (settle_at s i c n Hd H1) at 2.
  apply (switchuvm_quiet s i c); [apply (at_depth_quiet s i c n Hd); lia|done|done|done].
Qed.

(** The state in which processor [j] enters process [ip]. *)
Definition entered (j ip : nat) (p : proc) (s : kernel) : kernel :=
  (install j p (s <| k_cpus ::= alter (fun x => x <| cpu_proc := Some ip |>) j |>))
    <| k_ptable ::= alter (fun p => p <| state := RUNNING |>) ip |>.

(** The scheduler after a process has switched back. *)
Definition after_run (j : nat) (s : kernel) : kernel :=
  s <| k_cr3 := V2P (k_kpgdir s) |> <| k_cpus ::= alter (fun x => x <| cpu_proc := None |>) j |>.

Lemma at_depth_alter s j c n f :
  at_depth s j c n -> apicid (f c) = apicid c -> ncli (f c) = ncli c ->
  at_depth (s <| k_cpus ::= alter f j |>) j (f c) n.
Proof.
  intros (Hon & Hif & Hn) H1 H2. split; [|split; [done|by rewrite H2]].
  pose proof (on_cpu_alter _ _ _ f (k_if s) Hon H1) as H. by destruct s.
Qed.

Lemma scheduler_body_run s j c ip p :
  at_depth s j c 1 -> k_ptable s !! ip = Some p -> kstack p <> 0 -> pgdir p <> 0 ->
  scheduler_body j ip s =
  if bool_decide (state p = RUNNABLE)
  then Switch (entered j ip p s) (fun s2 => Ret tt (after_run j s2)) else Ret tt s.
Proof.
  intros Hd Hpt Hk Hg. unfold scheduler_body. krun (get_proc_run _ _ _ Hpt).
  destruct (bool_decide _) eqn:E; [|done].
  unfold set_cpu at 1, kmod at 1, kbind at 1. cbn [obind].
  set (f := fun x : cpu => x <| cpu_proc := Some ip |>).
  pose proof (at_depth_alter s j c 1 f Hd eq_refl eq_refl) as Hd1.
  krun (switchuvm_run _ j (f c) 1 ip p Hd1 ltac:(lia) Hpt Hk Hg). reflexivity.
Qed.

Lemma at_depth_entered s j c ip p :
  at_depth s j c 1 -> exists c', at_depth (entered j ip p s) j c' 1 /\ cpu_proc c' = Some ip /\
    ts_esp0 (ts c') = kstack p + KSTACKSIZE.
Proof.
  intros Hd. set (f := fun x : cpu => x <| cpu_proc := Some ip |>).
  pose proof (at_depth_alter s j c 1 f Hd eq_refl eq_refl) as Hd1.
  pose proof (at_depth_alter _ j _ 1 (load_tss j p) Hd1 eq_refl eq_refl) as Hd2.
  exists (load_tss j p (f c)). split; [|done]. exact Hd2.
Qed.

Lemma scan_from s j c a n :
  at_depth s j c 1 -> length (k_ptable s) = (a + n)%nat ->
  (forall i p, k_ptable s !! i = Some p -> state p = RUNNABLE -> kstack p <> 0 /\ pgdir p <> 0) ->
  match keach (seq a n) (scheduler_body j) s with
  | Ret _ s' => s' = s /\ forall i p, (a <= i)%nat -> k_ptable s !! i = Some p -> state p <> RUNNABLE
  | Switch s1 k => exists ip p, (a <= ip)%nat /\ k_ptable s !! ip = Some p /\ state p = RUNNABLE /\
      (forall i q, (a <= i < ip)%nat -> k_ptable s !! i = Some q -> state q <> RUNNABLE) /\
      s1 = entered j ip p s /\
      forall s2, k s2 = keach (seq (S ip) (a + n - S ip)) (scheduler_body j) (after_run j s2)
  | _ => False
  end.
Proof.
  intros Hd. revert a; induction n as [|n IH]; intros a Hlen Hok; cbn [seq keach].
  - split; [done|]. intros i p Hi Hp. apply lookup_lt_Some in Hp. lia.
  - destruct (lookup_lt_is_Some_2 (k_ptable s) a) as [p Hp]; [lia|].
    unfold kbind at 1. destruct (decide (state p = RUNNABLE)) as [E|E].
    + destruct (Hok a p Hp E) as [Hk Hg]. rewrite (scheduler_body_run s j c a p Hd Hp Hk Hg).
      rewrite bool_decide_eq_true_2 by done. cbn [obind].
      exists a, p. split; [lia|]. split; [done|]. split; [done|]. split; [lia|]. split; [done|].
      intros s2. replace (a + S n - S a)%nat with n by lia. reflexivity.
    + assert (Hrun : scheduler_body j a s = Ret tt s).
      { unfold scheduler_body. krun (get_proc_run _ _ _ Hp). by rewrite bool_decide_eq_false_2. }
      rewrite Hrun. cbn [obind]. specialize (IH (S a) ltac:(lia) Hok).
      destruct (keach (seq (S a) n) (scheduler_body j) s) as [u s'|msg s'|w s'|s'|s1 k|s']; try done.
      * destruct IH as [-> IH]. split; [done|]. intros i q Hi Hq.
        destruct (decide (i = a)) as [->|Hne]; [by simplify_eq|]. apply (IH i q); [lia|done].
      * destruct IH as (ip & q & H1 & H2 & H3 & H4 & H5 & H6). exists ip, q.
        split; [lia|]. split; [done|]. split; [done|]. split; [|split; [done|]].
        -- intros i r Hi Hr. destruct (decide (i = a)) as [->|Hne]; [by simplify_eq|]. apply (H4 i r); [lia|done].
        -- intros s2. rewrite H6. by replace (a + S n - S ip)%nat with (S a + n - S ip)%nat by lia.
Qed.

(** The scheduler runs a runnable process in its own address space.  A pass
    over the table that holds [ptable.lock] either finds no [RUNNABLE] process
    and changes nothing, or switches to the first one: at the switch that
    process is [RUNNING] and is the processor's current process, its page table
    and kernel stack are installed, every other process is unchanged, and the
    state is one in which a thread that went to [sleep] can be resumed.  When
    the process switches back the kernel page table is loaded, the processor has
    no process and the pass goes on with the next slot. *)
Theorem scheduler_spec (s : kernel) (j : nat) (c : cpu) :
  at_depth s j c 1 -> held s Lptable j = true -> length (k_ptable s) = NPROC ->
  (forall i p, k_ptable s !! i = Some p -> state p = RUNNABLE -> kstack p <> 0 /\ pgdir p <> 0) ->
  match scheduler_scan j s with
  | Ret _ s' => s' = s /\ forall i p, k_ptable s !! i = Some p -> state p <> RUNNABLE
  | Switch s1 k => exists ip p, k_ptable s !! ip = Some p /\ state p = RUNNABLE /\
      (forall i q, (i < ip)%nat -> k_ptable s !! i = Some q -> state q <> RUNNABLE) /\
      k_ptable s1 = alter (fun p => p <| state := RUNNING |>) ip (k_ptable s) /\
      k_cr3 s1 = V2P (pgdir p) /\
      (exists c1, cpu_proc c1 = Some ip /\ ts_esp0 (ts c1) = kstack p + KSTACKSIZE /\
         forall lk, free s lk -> resumable s1 j c1 lk) /\
      forall s2, k s2 = keach (seq (S ip) (NPROC - S ip)) (scheduler_body j) (after_run j s2)
  | _ => False
  end.
Proof.
  intros Hd Hh Hlen Hok. pose proof (scan_from s j c 0 NPROC Hd Hlen Hok) as H. unfold scheduler_scan.
  destruct (keach (seq 0 NPROC) (scheduler_body j) s) as [u s'|msg s'|w s'|s'|s1 k|s']; try done.
  - destruct H as [-> H]. split; [done|]. intros i p. apply H. lia.
  - destruct H as (ip & p & _ & H2 & H3 & H4 & -> & H6). exists ip, p.
    split; [done|]. split; [done|]. split; [intros i q Hi; apply H4; lia|]. split; [done|]. split; [done|].
    split; [|exact H6]. destruct (at_depth_entered s j c ip p Hd) as (c1 & Hd1 & Hc1 & Ht1).
    exists c1. split; [done|]. split; [done|]. intros lk Hf. by split.
Qed.
End Sched.

(** ** Searching the table *)

Lemma kfor_from {R} (P : proc -> Prop) `{forall p, Decision (P p)} (body : nat -> KM (option R)) s l1 l2 :
  (forall i p, k_ptable s !! i = Some p -> ~ P p -> body i s = Ret None s) ->
  k_ptable s = l1 ++ l2 ->
  kfor (seq (length l1) (length l2)) body s =
  match list_find P l2 with
  | None => Ret None s
  | Some (k, _) => obind (body (length l1 + k)%nat s) (fun r => match r with
      | Some v => kret (Some v)
      | None => kfor (seq (S (length l1 + k)) (length l2 - S k)) body
      end)
  end.
Proof.
  intros Hno. revert l1; induction l2 as [|p l2 IH]; intros l1 Hs; cbn [length seq kfor list_find]; [done|].
  destruct (decide (P p)) as [Hp|Hp].
  - replace (length l1 + 0)%nat with (length l1) by lia. unfold kbind. replace (S (length l2) - 1)%nat with (length l2) by lia.
    reflexivity.
  - unfold kbind at 1. rewrite (Hno (length l1) p); [|rewrite Hs; by apply list_lookup_middle|done]. cbn [obind].
    specialize (IH (l1 ++ [p])). rewrite length_app, Nat.add_comm in IH. cbn [length Nat.add] in IH.
    rewrite IH by (by rewrite Hs, <- app_assoc).
    destruct (list_find P l2) as [[k q]|]; cbn; [|done].
    replace (length l1 + S k)%nat with (S (length l1 + k)) by lia. done.
Qed.

Lemma kfor_first {R} (P : proc -> Prop) `{forall p, Decision (P p)} (body : nat -> KM (option R)) s :
  (forall i p, k_ptable s !! i = Some p -> ~ P p -> body i s = Ret None s) ->
  length (k_ptable s) = NPROC ->
  kfor (seq 0 NPROC) body s =
  match list_find P (k_ptable s) with
  | None => Ret None s
  | Some (k, _) => obind (body k s) (fun r => match r with
      | Some v => kret (Some v)
      | None => kfor (seq (S k) (NPROC - S k)) body
      end)
  end.
Proof.
  intros Hno Hlen. pose proof (kfor_from P body s [] (k_ptable s) Hno eq_refl) as Hf.
  cbn [length Nat.add] in Hf. by rewrite Hlen in Hf.
Qed.

(** What [kill] does to its process. *)
Definition killp (p : proc) : proc :=
  (if bool_decide (state p = SLEEPING) then p <| state := RUNNABLE |> else p) <| killed := 1 |>.

(** [kill] marks exactly one process.  It finds the first process with the
    given pid, marks it killed and makes it runnable when it sleeps, so that it
    can notice, and returns 0; without such a process it returns -1.  No other
    process changes, and the locks are as before. *)
Theorem kill_spec (s : kernel) (i : nat) (c : cpu) (pid0 : Z) :
  quiet s i c -> free s Lptable -> length (k_ptable s) = NPROC ->
  kill pid0 s =
  match list_find (fun p => pid p = pid0) (k_ptable s) with
  | Some (ip, p) => Ret 0 ((settle i s) <| k_ptable ::= <[ip := killp p]> |>)
  | None => Ret (-1) (settle i s)
  end.
Proof.
  intros Hq Hf Hlen. unfold kill. krun (acquire_run _ _ _ _ Hq Hf).
  set (s1 := acq i Lptable s). unfold kbind at 1.
  rewrite (kfor_first (fun p => pid p = pid0)); [|intros k p Hp Hne|exact Hlen].
  2:{ krun (get_proc_run _ _ _ Hp). destruct (Z.eqb_spec (pid p) pid0); done. }
  change (k_ptable s1) with (k_ptable s).
  destruct (list_find _ (k_ptable s)) as [[ip p]|] eqn:E.
  - apply list_find_Some in E as (Hp & Hpid & _). krun (get_proc_run s1 ip p Hp).
    destruct (Z.eqb_spec (pid p) pid0); [|done]. unfold set_proc, kmod, kbind at 1. cbn [obind].
    set (s2 := s1 <| k_ptable ::= _ |>).
    assert (E2 : forall s3, s3 = s1 <| k_ptable ::= <[ip := killp p]> |> ->
              (release Lptable ;;; kret (Some 0)) s3 = Ret (Some 0) ((settle i s) <| k_ptable ::= <[ip := killp p]> |>)).
    { intros s3 ->. unfold kbind. erewrite release_after; [|exact Hq|exact Hf|done]. reflexivity. }
    destruct (bool_decide (state p = SLEEPING)) eqn:Es; unfold kret at 1, kbind at 1; cbn [obind].
    + rewrite E2; [done|]. unfold s2. apply ptable_compose. rewrite list_alter_alter_eq.
      rewrite (alter_as_insert _ (k_ptable s1) ip p Hp). f_equal. unfold killp. by rewrite Es.
    + rewrite E2; [done|]. unfold s2, update, upd_k_ptable. f_equal.
      rewrite (alter_as_insert _ (k_ptable s1) ip p Hp). f_equal. unfold killp. by rewrite Es.
  - cbn [obind]. unfold kbind. unfold s1. erewrite release_after; [|exact Hq|exact Hf|done].
    reflexivity.
Qed.

(** ** Concrete runs *)

(** Process 0 runs, process 2 is runnable, process 5 sleeps. *)
Definition demo_proc (st : procstate) (n : Z) (ch : option chan) : proc :=
  zero_proc <| state := st |> <| pid := n |> <| kstack := 0x80400000 + 4096 * n |>
            <| pgdir := 0x80500000 + 4096 * n |> <| pchan := ch |>.
Definition demo_procs (st : procstate) : kernel :=
  boot <| k_ptable ::= fun l =>
    <[0%nat := demo_proc st 1 None]> (<[2%nat := demo_proc RUNNABLE 3 None]>
      (<[5%nat := demo_proc SLEEPING 6 (Some Cticks)]> l)) |>.

Lemma demo_depth st l : at_depth (acq 0 l (demo_procs st)) 0 (pushc true boot_cpu) 1.
Proof.
  assert (Hq : quiet (demo_procs st) 0 boot_cpu) by exact boot_quiet.
  pose proof (quiet_acq _ _ _ l Hq) as (Hon & _). split; [exact Hon|]. split; reflexivity.
Qed.

Lemma sched_spec_witness :
  match sched (acq 0 Lptable (demo_procs SLEEPING)) with
  | Switch s1 k => s1 = acq 0 Lptable (demo_procs SLEEPING) /\ held (acq 0 Lptable (demo_procs SLEEPING)) Lptable 0 = true /\
      ncli (pushc true boot_cpu) = 1 /\ state (demo_proc SLEEPING 1 None) <> RUNNING /\
      forall s2 j c2 n, at_depth s2 j c2 n ->
        k s2 = Ret tt (s2 <| k_cpus ::= alter (fun d => d <| intena := intena (pushc true boot_cpu) |>) j |>)
  | Panic msg s1 => s1 = acq 0 Lptable (demo_procs SLEEPING) /\
      (msg = "sched ptable.lock" /\ held (acq 0 Lptable (demo_procs SLEEPING)) Lptable 0 = false \/
       msg = "sched locks" /\ ncli (pushc true boot_cpu) <> 1 \/
       msg = "sched running" /\ state (demo_proc SLEEPING 1 None) = RUNNING)%string
  | _ => False
  end.
Proof.
  apply (sched_spec (acq 0 Lptable (demo_procs SLEEPING)) 0 (pushc true boot_cpu) 0 (demo_proc SLEEPING 1 None));
    [apply demo_depth | reflexivity | vm_compute; discriminate | reflexivity | reflexivity].
Defined.

(** The processor's process sleeps on the ticks, with [ptable.lock] free and with
    it at another processor. *)
Lemma sleep_spec_witness :
  (exists s1, sleep (Some Cticks) (Some Lticks)
      ((acq 0 Lticks (demo_procs RUNNING)) <| k_locks ::= <[Lptable := mk_spinlock 1 (Some 1%nat)]> |>) = Spin s1) /\
  exists s1 k q, sleep (Some Cticks) (Some Lticks) (acq 0 Lticks (demo_procs RUNNING)) = Switch s1 k /\
    free s1 Lticks /\ held s1 Lptable 0 = true /\
    k_ptable s1 = <[0%nat := q]> (k_ptable (acq 0 Lticks (demo_procs RUNNING))) /\
    state q = SLEEPING /\ pchan q = Some Cticks /\ wakes s1 0 0 q Cticks.
Proof.
  split.
  - destruct (sleep_spec ((acq 0 Lticks (demo_procs RUNNING)) <| k_locks ::= <[Lptable := mk_spinlock 1 (Some 1%nat)]> |>)
      0 (pushc true boot_cpu) 0 (demo_proc RUNNING 1 None) Cticks Lticks) as [H _];
      [apply (demo_depth RUNNING Lticks) | reflexivity | reflexivity | discriminate | vm_compute; reflexivity |].
    destruct H as (s1 & H & _); [exists 1%nat; split; [vm_compute; reflexivity|discriminate]|]. exists s1. exact H.
  - destruct (sleep_spec (acq 0 Lticks (demo_procs RUNNING)) 0 (pushc true boot_cpu) 0 (demo_proc RUNNING 1 None) Cticks Lticks) as [_ H];
      [apply demo_depth | reflexivity | reflexivity | discriminate | vm_compute; reflexivity |].
    destruct H as (s1 & k & q & H1 & H2 & H3 & H4 & H5 & H6 & _ & H7 & _); [vm_compute; reflexivity|].
    exists s1, k, q. split; [exact H1|]. split; [exact H2|]. split; [exact H3|]. split; [exact H4|]. split; [exact H5|]. split; [exact H6|exact H7].
Defined.

Lemma demo_runnable i p :
  k_ptable (acq 0 Lptable (demo_procs SLEEPING)) !! i = Some p -> state p = RUNNABLE -> kstack p <> 0 /\ pgdir p <> 0.
Proof.
  change (k_ptable _) with (k_ptable (demo_procs SLEEPING)). unfold demo_procs. cbn [k_ptable update upd_k_ptable].
  assert (Hz : forall i p, k_ptable boot !! i = Some p -> p = zero_proc).
  { intros j q H. by apply lookup_replicate in H as [-> _]. }
  intros H Hr. destruct (decide (i = 0%nat)) as [->|H0]; [cbn in H; by simplify_eq|].
  rewrite list_lookup_insert_ne in H by done.
  destruct (decide (i = 2%nat)) as [->|H2]; [cbn in H; by simplify_eq|].
  rewrite list_lookup_insert_ne in H by done.
  destruct (decide (i = 5%nat)) as [->|H5]; [cbn in H; by simplify_eq|].
  rewrite list_lookup_insert_ne in H by done. apply Hz in H as ->. done.
Qed.

Lemma scheduler_spec_witness :
  match scheduler_scan (L := demo_layout) 0 (acq 0 Lptable (demo_procs SLEEPING)) with
  | Ret _ s' => s' = acq 0 Lptable (demo_procs SLEEPING) /\
      forall i p, k_ptable (acq 0 Lptable (demo_procs SLEEPING)) !! i = Some p -> state p <> RUNNABLE
  | Switch s1 k => exists ip p, k_ptable (acq 0 Lptable (demo_procs SLEEPING)) !! ip = Some p /\ state p = RUNNABLE /\
      (forall i q, (i < ip)%nat -> k_ptable (acq 0 Lptable (demo_procs SLEEPING)) !! i = Some q -> state q <> RUNNABLE) /\
      k_ptable s1 = alter (fun p => p <| state := RUNNING |>) ip (k_ptable (acq 0 Lptable (demo_procs SLEEPING))) /\
      k_cr3 s1 = V2P (pgdir p) /\
      (exists c1, cpu_proc c1 = Some ip /\ ts_esp0 (ts c1) = kstack p + KSTACKSIZE /\
         forall lk, free (acq 0 Lptable (demo_procs SLEEPING)) lk -> resumable s1 0 c1 lk) /\
      forall s2, k s2 = keach (seq (S ip) (NPROC - S ip)) (scheduler_body (L := demo_layout) 0) (after_run 0 s2)
  | _ => False
  end.
Proof.
  apply (scheduler_spec (L := demo_layout) (acq 0 Lptable (demo_procs SLEEPING)) 0 (pushc true boot_cpu));
    [apply demo_depth | vm_compute; reflexivity | vm_compute; reflexivity | apply demo_runnable].
Defined.

Lemma kill_spec_witness :
  kill 6 (demo_procs RUNNING) =
  match list_find (fun p => pid p = 6) (k_ptable (demo_procs RUNNING)) with
  | Some (ip, p) => Ret 0 ((settle 0 (demo_procs RUNNING)) <| k_ptable ::= <[ip := killp p]> |>)
  | None => Ret (-1) (settle 0 (demo_procs RUNNING))
  end.
Proof.
  apply (kill_spec (demo_procs RUNNING) 0 boot_cpu 6); [exact boot_quiet | reflexivity | vm_compute; reflexivity].
Defined.
