(* ===== verification/SchedSpec.v ===== *)
(** * Fairness of the scheduler

    A pass of the scheduler over the process table, together with what the
    processes do while they run. *)

From stdpp Require Import base gmap strings list fin_maps.
From Stdlib Require Import ZArith Lia Sorted.
From S2P Require Import Prelude Mem Types Spinlock Kalloc Vm Proc ProcSpec.

Section Fair.
Context `{L : Layout}.

(** A pass to its end.  At every switch the process of processor [j] runs, and
    [world] is the state in which it switches back; the result lists the
    processes that were run. *)
Fixpoint pass (fuel j : nat) (world : kernel -> kernel) (o : outcome kernel unit) : option (list nat * kernel) :=
  match o with
  | Ret _ s => Some ([], s)
  | Switch s1 k =>
      match fuel, k_cpus s1 !! j ≫= cpu_proc with
      | S n, Some ip => prod_map (cons ip) id <$> pass n j world (k (world s1))
      | _, _ => None
      end
  | _ => None
  end.

(** A state in which the scheduler of processor [j] goes through the table. *)
Record passing (j : nat) (s : kernel) : Prop := {
  pa_cpu : exists c, at_depth s j c 1;
  pa_lock : held s Lptable j = true;
  pa_len : length (k_ptable s) = NPROC;
  pa_ok : forall i p, k_ptable s !! i = Some p -> state p = RUNNABLE -> kstack p <> 0 /\ pgdir p <> 0
}.

Definition runnable (s : kernel) (i : nat) : Prop := state <$> k_ptable s !! i = Some RUNNABLE.

(** What the processes keep when one of them runs and switches back: the
    scheduler can go on, and the process [me] stays runnable. *)
Definition keeps (j me : nat) (world : kernel -> kernel) : Prop :=
  forall s1, passing j s1 -> passing j (world s1) /\
    (k_cpus s1 !! j ≫= cpu_proc <> Some me -> runnable s1 me -> runnable (world s1) me).

Lemma passing_entered j s ip p :
  passing j s -> k_ptable s !! ip = Some p -> passing j (entered j ip p s) /\ k_cpus (entered j ip p s) !! j ≫= cpu_proc = Some ip.
Proof.
  intros [[c Hc] H2 H3 H4] Hp. destruct (at_depth_entered s j c ip p Hc) as (c1 & Hd1 & Hc1 & _). split.
  - split; [by exists c1|done|by cbn; rewrite length_alter|].
    cbn. intros i q Hq Hr. destruct (decide (i = ip)) as [->|Hi].
    + rewrite list_lookup_alter_eq, Hp in Hq. cbn in Hq. by simplify_eq.
    + rewrite list_lookup_alter_ne in Hq by done. by apply (H4 i).
  - destruct Hd1 as ((_ & -> & _) & _). done.
Qed.

Lemma passing_after j s : passing j s -> passing j (after_run j s).
Proof.
  intros [[c Hc] H2 H3 H4]. split; [|done..]. eexists. unfold after_run.
  apply (at_depth_alter (s <| k_cr3 := V2P (k_kpgdir s) |>)); [|done..]. by apply (at_depth_other s).
Qed.

Lemma runnable_entered j s ip p i : i <> ip -> runnable s i -> runnable (entered j ip p s) i.
Proof. intros Hi. unfold runnable. cbn. by rewrite list_lookup_alter_ne. Qed.

Lemma pass_from j me world : keeps j me world -> forall n a s fuel,
  passing j s -> (a + n = NPROC)%nat -> (n <= fuel)%nat ->
  exists tr s', pass fuel j world (keach (seq a n) (scheduler_body j) s) = Some (tr, s') /\ passing j s' /\
    StronglySorted lt tr /\ Forall (le a) tr /\ ((a <= me)%nat -> runnable s me -> me ∈ tr).
Proof.
  intros Hw. induction n as [n IH] using lt_wf_ind. intros a s fuel Hs Han Hf.
  pose proof (pa_len _ _ Hs) as Hlen. destruct (pa_cpu _ _ Hs) as [c Hc].
  pose proof (scan_from s j c a n Hc ltac:(lia) (pa_ok _ _ Hs)) as H.
  destruct (keach (seq a n) (scheduler_body j) s) as [u s'|msg s'|w s'|s'|s1 k|s']; try done.
  - destruct H as [-> H]. exists [], s. destruct fuel; (split; [done|split; [done|split; [constructor|split; [constructor|]]]]);
      intros Ha (p & Hp & E)%fmap_Some; by destruct (H me p Ha Hp).
  - destruct H as (ip & p & Ha & Hp & Hr & Hfirst & -> & Hk). pose proof (lookup_lt_Some _ _ _ Hp) as Hip.
    destruct (passing_entered j s ip p Hs Hp) as [Hs1 Hcur]. destruct (Hw _ Hs1) as [Hs2 Hme]. rewrite Hcur in Hme.
    destruct fuel as [|fuel]; [lia|]. cbn [pass]. rewrite Hcur, Hk.
    destruct (IH (a + n - S ip)%nat ltac:(lia) (S ip) (after_run j (world (entered j ip p s))) fuel) as (tr & s' & -> & H1 & H2 & H3 & H4);
      [by apply passing_after|lia|lia|].
    exists (ip :: tr), s'. split; [done|]. split; [done|]. split; [by constructor|]. split.
    + constructor; [done|]. eapply Forall_impl; [exact H3|]. cbn. intros x Hx. lia.
    + intros Hm Hrun. apply elem_of_cons. destruct (decide (me = ip)) as [->|Hne]; [by left|right]. apply H4.
      * pose proof Hrun as (q & Hq & E)%fmap_Some. destruct (decide (me < ip)%nat); [|lia].
        by destruct (Hfirst me q ltac:(lia) Hq).
      * apply Hme; [congruence|]. by apply runnable_entered.
Qed.

(** C22: No runnable process starves.  A pass of the scheduler over the table
    ends, whatever the processes it runs do to the table, and runs every process
    at most once, in the order of the slots; and it runs each process that is
    runnable when the pass starts and that no other process makes wait. *)
Theorem scheduler_fair (s : kernel) (j me : nat) (world : kernel -> kernel) :
  passing j s -> keeps j me world -> runnable s me ->
  exists tr s', pass NPROC j world (scheduler_scan j s) = Some (tr, s') /\ me ∈ tr /\ StronglySorted lt tr /\ passing j s'.
Proof.
  intros Hs Hw Hr. destruct (pass_from j me world Hw NPROC 0 s NPROC Hs eq_refl (le_n _)) as (tr & s' & H1 & H2 & H3 & _ & H4).
  exists tr, s'. split; [done|]. split; [by apply H4; [lia|]|done].
Qed.
End Fair.

(** ** A concrete pass: every process goes to sleep at once *)
Definition dozing (j : nat) (s : kernel) : kernel :=
  match k_cpus s !! j ≫= cpu_proc with
  | Some ip => s <| k_ptable ::= alter (fun p => p <| state := SLEEPING |>) ip |>
  | None => s
  end.

Lemma dozing_keeps j me : keeps j me (dozing j).
Proof.
  intros s1 [[c Hc] H2 H3 H4]. unfold dozing. destruct (k_cpus s1 !! j ≫= cpu_proc) as [ip|]; [|by split; [split; [by exists c|done..]|]]. split.
  - split; [by exists c|done|by cbn; rewrite length_alter|]. cbn. intros i q Hq Hr. destruct (decide (i = ip)) as [->|Hi].
    + rewrite list_lookup_alter_eq in Hq. destruct (k_ptable s1 !! ip); [|done]. cbn in Hq. by simplify_eq.
    + rewrite list_lookup_alter_ne in Hq by done. by apply (H4 i).
  - intros Hne. unfold runnable. cbn. rewrite list_lookup_alter_ne by congruence. done.
Qed.

Lemma scheduler_fair_witness :
  exists tr s', pass NPROC 0 (dozing 0) (scheduler_scan (L := demo_layout) 0 (acq 0 Lptable (demo_procs SLEEPING))) = Some (tr, s') /\
    2%nat ∈ tr /\ StronglySorted lt tr /\ passing 0 s'.
Proof.
  apply (scheduler_fair (L := demo_layout)); [|apply dozing_keeps|vm_compute; reflexivity].
  split; [exists (pushc true boot_cpu); apply demo_depth|vm_compute; reflexivity|vm_compute; reflexivity|apply demo_runnable].
Defined.
