(* ===== verification/ProcMem.v ===== *)
(** * Process slots and process memory

    What [allocproc], [growproc] and [wait] of [proc.c] do to the process
    table, to the free list and to the address spaces. *)

From stdpp Require Import base gmap strings list fin_maps.
From Stdlib Require Import ZArith Lia.
From S2P Require Import Prelude Mem Types Spinlock Kalloc Vm PageTable Uvm Kvm AddrSpace CopyUvm Proc ProcSpec.

(** ** [allocproc] *)

Definition invalidate (d : mmap_desc) : mmap_desc := d <| valid := 0 |> <| isChildOfParent := 0 |>.

Definition alters {A} (g : A -> A) (js : list nat) (l : list A) : list A :=
  foldl (fun l j => alter g j l) l js.

Lemma alters_all {A} (g : A -> A) (l : list A) : alters g (seq 0 (length l)) l = g <$> l.
Proof.
  assert (H : forall l2 l1, alters g (seq (length l1) (length l2)) (l1 ++ l2) = l1 ++ (g <$> l2)).
  { induction l2 as [|x l2 IH]; intros l1; cbn; [done|]. rewrite alter_mid.
    specialize (IH (l1 ++ [g x])). rewrite length_app, Nat.add_comm in IH. cbn in IH.
    rewrite <- !app_assoc in IH. exact IH. }
  apply (H l []).
Qed.

Lemma clear_map_run i j s :
  clear_map i j s = Ret tt (s <| k_ptable ::= alter (fun p => p <| mmaps ::= alter invalidate j |>) i |>).
Proof.
  unfold clear_map, set_proc, kmod, kbind. cbn [obind]. f_equal. apply ptable_compose.
  rewrite list_alter_alter_eq. apply list_alter_ext; [|done]. intros p Hp. cbn.
  unfold update, upd_mmaps. cbn. f_equal. by rewrite list_alter_alter_eq.
Qed.

Lemma clear_maps_run i s js :
  keach js (clear_map i) s = Ret tt (s <| k_ptable ::= alter (fun p => p <| mmaps ::= alters invalidate js |>) i |>).
Proof.
  revert s; induction js as [|j js IH]; intros s; cbn [keach].
  - unfold kret. f_equal. symmetry. apply ptable_id. rewrite (list_alter_ext _ id _ (k_ptable s)); [apply list_alter_id; done| |done].
    intros p Hp. by destruct p.
  - krun (clear_map_run i j s). rewrite IH. f_equal. apply ptable_compose. rewrite list_alter_alter_eq.
    by apply list_alter_ext.
Qed.

Section Alloc.
Context `{L : Layout} {LO : LayoutOk L}.

(** A slot that was given to a new process. *)
Definition embryo (n : Z) (p : proc) : proc :=
  p <| state := EMBRYO |> <| pid := n |> <| open_frames := 0 |> <| mmaps ::= fmap invalidate |>.

Definition with_stack (ks : Z) (p : proc) : proc :=
  p <| kstack := ks |> <| tf := ks + 4020 |> <| pcontext := ks + 3996 |>.

(** The memory of a fresh kernel stack: the context starts at [forkret], which
    returns to [trapret]. *)
Definition fresh_stack (m : mem) (ks : Z) : Prop :=
  ld32 m (ks + 4016) = u32 trapret_addr /\ ld32 m (ks + 3996 + 16) = u32 forkret_addr /\
  forall a, ks + 3996 <= a -> a + 4 <= ks + 3996 + 16 -> ld32 m a = 0.

(** The first half of [allocproc]: a slot is taken under the lock. *)
Lemma take_slot s i c ip p :
  quiet s i c -> free s Lptable -> length (k_ptable s) = NPROC ->
  list_find (fun p => state p = UNUSED) (k_ptable s) = Some (ip, p) -> length (mmaps p) = PAGE_LIMIT ->
  allocproc s = allocproc_stack ip
    ((settle i s) <| k_nextpid := i32 (k_nextpid s + 1) |> <| k_ptable ::= <[ip := embryo (k_nextpid s) p]> |>).
Proof.
  intros Hq Hf Hlen Hfind Hml. unfold allocproc. krun (acquire_run _ _ _ _ Hq Hf). set (s1 := acq i Lptable s).
  unfold kbind at 1. rewrite (kfor_first (fun p => state p = UNUSED)); [|intros k q Hk Hne|exact Hlen].
  2:{ krun (get_proc_run _ _ _ Hk). by rewrite bool_decide_eq_false_2. }
  change (k_ptable s1) with (k_ptable s). rewrite Hfind. apply list_find_Some in Hfind as (Hp & Hst & _).
  krun (get_proc_run s1 ip p Hp). rewrite bool_decide_eq_true_2 by done. cbn [obind kret].
  unfold set_proc at 1 2 3. unfold kmod, kget. unfold kbind at 1 2 3 4 5. cbn [obind].
  unfold kbind at 1. rewrite clear_maps_run. cbn [obind]. unfold kbind at 1.
  erewrite release_after; [|exact Hq|exact Hf|done]. cbn [obind]. f_equal.
  assert (E : alter (fun p => p <| mmaps ::= alters invalidate (seq 0 PAGE_LIMIT) |>) ip
     (alter (fun p => p <| open_frames := 0 |>) ip (alter (fun p => p <| pid := k_nextpid s |>) ip
       (alter (fun p => p <| state := EMBRYO |>) ip (k_ptable s)))) = <[ip := embryo (k_nextpid s) p]> (k_ptable s)).
  { rewrite !list_alter_alter_eq. rewrite (alter_as_insert _ (k_ptable s) ip p Hp). f_equal.
    unfold embryo. rewrite <- Hml. cbn [compose]. unfold update at 1 5, upd_mmaps. f_equal. apply alters_all. }
  transitivity ((settle i s) <| k_nextpid := i32 (k_nextpid s + 1) |> <| k_ptable := <[ip := embryo (k_nextpid s) p]> (k_ptable s) |>);
    [rewrite <- E|]; reflexivity.
Qed.

Lemma mm_ready_settle s i c : quiet s i c -> mm_ready s -> mm_ready (settle i s).
Proof.
  intros Hq [_ Hf]. split; [|done]. exists i, (settlec (k_if s) c). by apply quiet_settle.
Qed.

Lemma mm_ready_core s s' :
  mm_ready s -> k_if s' = k_if s -> k_apicid s' = k_apicid s -> k_cpus s' = k_cpus s -> k_ncpu s' = k_ncpu s ->
  k_locks s' = k_locks s -> use_lock (k_kmem s') = use_lock (k_kmem s) -> mm_ready s'.
Proof.
  intros [(i & c & Hq) Hf] E1 E2 E3 E4 E5 E6. split.
  - exists i, c. apply (core_same_quiet s); [|done]. by split_and!.
  - rewrite E6. intros H. unfold free. rewrite E5. by apply Hf.
Qed.

(** The writes of [allocproc] to a new kernel stack. *)
Definition stack_mem (m : mem) (ks : Z) : mem :=
  st32 (memset (st32 m (ks + 4096 - 76 - 4) trapret_addr) (ks + 4096 - 76 - 4 - 20) 0 20)
    (ks + 4096 - 76 - 4 - 20 + 16) forkret_addr.

Lemma stack_mem_ok m ks : fresh_stack (stack_mem m ks) ks /\ outside ks m (stack_mem m ks).
Proof.
  unfold fresh_stack, stack_mem. split; [split; [|split]|].
  - rewrite ld32_st32_ne by lia. rewrite ld32_memset_out by lia. rewrite <- (ld32_st32_eq m (ks + 4016)). f_equal; f_equal; lia.
  - replace (ks + 4096 - 76 - 4 - 20 + 16) with (ks + 3996 + 16) by lia. apply ld32_st32_eq.
  - intros a H1 H2. rewrite ld32_st32_ne by lia. apply ld32_memset_in; lia.
  - intros a Ha. rewrite ld8_st32_ne by lia. rewrite ld8_memset by lia. rewrite decide_False by lia.
    by rewrite ld8_st32_ne by lia.
Qed.

(** The second half of [allocproc], after slot [ip] was taken as [q]. *)
Lemma wp_stack s1 pt ip q l n :
  mm_ready (s1 <| k_nextpid := n |> <| k_ptable ::= <[ip := q]> |>) -> heap s1 l -> (ip < length (k_ptable s1))%nat ->
  pt = k_ptable s1 ->
  wp (allocproc_stack ip) (fun r s' => mm_ready s' /\ k_nextpid s' = n /\
    match l with
    | [] => r = None /\ heap s' [] /\ k_mem s' = k_mem s1 /\
        k_ptable s' = <[ip := q <| kstack := 0 |> <| state := UNUSED |>]> pt
    | ks :: l' => r = Some ip /\ heap s' l' /\ k_ptable s' = <[ip := with_stack ks q]> pt /\
        fresh_stack (k_mem s') ks /\ outside ks (k_mem s1) (k_mem s')
    end) (s1 <| k_nextpid := n |> <| k_ptable ::= <[ip := q]> |>).
Proof.
  intros Hr Hh Hip ->. set (s2 := (s1 <| k_nextpid := n |>) <| k_ptable ::= _ |>) in *.
  unfold allocproc_stack. apply wp_bind. eapply wp_mono; [by apply (wp_kalloc s2 l)|].
  intros ks s3 (Hf & Em & Hl). pose proof (mm_frame_ready _ _ Hf Hr) as Hr3.
  destruct Hf as (m & km & cp & co & -> & Hcp & Hul). cbn in Em. subst m.
  set (s3 := ((((s2 <| k_mem := _ |>) <| k_kmem := _ |>) <| k_cpus := _ |>) <| k_console := _ |>)) in *.
  assert (Hq : k_ptable s3 !! ip = Some q) by (cbn; by apply list_lookup_insert_eq).
  destruct l as [|p l]; destruct Hl as [-> Hh3].
  - apply wp_bind, wp_mod. change (0 =? 0) with true. cbv iota. apply wp_bind, wp_mod, wp_ret.
    split; [by apply (mm_ready_core s3)|]. split; [done|]. split; [done|]. split; [done|]. split; [done|].
    cbn. rewrite list_alter_alter_eq. rewrite (alter_as_insert _ _ ip q) by (by apply list_lookup_insert_eq).
    by rewrite list_insert_insert_eq.
  - destruct Hh as (_ & Hokl & Hndl). apply Forall_cons in Hokl as [Hpok _]. apply NoDup_cons in Hndl as [Hpl _]. pose proof (page_ok_pos p Hpok).
    apply wp_bind, wp_mod. destruct (Z.eqb_spec p 0); [lia|]. unfold KSTACKSIZE, TF_SIZE, CTX_SIZE.
    do 5 (apply wp_bind, wp_mod). apply wp_ret. cbn zeta.
    destruct (stack_mem_ok (k_mem s1) p) as [Hfr Hout].
    split; [by apply (mm_ready_core s3)|]. split; [done|]. split; [done|]. split; [|split; [|split; [exact Hfr|exact Hout]]].
    + eapply (heap_outside s3 _ p l Hh3); [exact Hout|done|apply Hpok|done].
    + cbn. rewrite !list_alter_alter_eq. rewrite (alter_as_insert _ _ ip q) by (by apply list_lookup_insert_eq).
      rewrite list_insert_insert_eq. f_equal. unfold with_stack.
      replace (p + 4020) with (p + 4096 - 76) by lia.
      by replace (p + 3996) with (p + 4096 - 76 - 4 - 20) by lia.
Qed.

(** [allocproc] hands out a fresh slot or changes nothing that matters.  It
    takes the first [UNUSED] slot, gives it the next pid, marks it [EMBRYO]
    with every mapping descriptor invalid, and gives it a kernel stack from the
    free list whose saved context starts at [forkret] with [trapret] as return
    address, below the trap frame.  Without a slot it returns 0 and the table
    is unchanged; without a page it returns 0 and the slot is [UNUSED] again.
    Every other slot and all memory outside the new stack are unchanged. *)
Theorem allocproc_spec (s : kernel) (i : nat) (c : cpu) (l : list Z) :
  quiet s i c -> free s Lptable -> mm_ready s -> heap s l ->
  length (k_ptable s) = NPROC -> Forall (fun p => length (mmaps p) = PAGE_LIMIT) (k_ptable s) ->
  wp allocproc (fun r s' =>
    mm_ready s' /\
    match list_find (fun p => state p = UNUSED) (k_ptable s) with
    | None => r = None /\ k_ptable s' = k_ptable s /\ heap s' l /\ k_mem s' = k_mem s
    | Some (ip, p) =>
        k_nextpid s' = i32 (k_nextpid s + 1) /\
        match l with
        | [] => r = None /\ heap s' [] /\ k_mem s' = k_mem s /\
            k_ptable s' = <[ip := (embryo (k_nextpid s) p) <| kstack := 0 |> <| state := UNUSED |>]> (k_ptable s)
        | ks :: l' => r = Some ip /\ heap s' l' /\
            k_ptable s' = <[ip := with_stack ks (embryo (k_nextpid s) p)]> (k_ptable s) /\
            fresh_stack (k_mem s') ks /\ outside ks (k_mem s) (k_mem s')
        end
    end) s.
Proof.
  intros Hq Hf Hr Hh Hlen Hml.
  destruct (list_find (fun p => state p = UNUSED) (k_ptable s)) as [[ip p]|] eqn:Hfind.
  2:{ unfold wp, allocproc. krun (acquire_run _ _ _ _ Hq Hf).
      unfold kbind at 1. rewrite (kfor_first (fun p => state p = UNUSED)); [|intros k q Hk Hne|exact Hlen].
      2:{ krun (get_proc_run _ _ _ Hk). by rewrite bool_decide_eq_false_2. }
      change (k_ptable (acq i Lptable s)) with (k_ptable s). rewrite Hfind. cbn [obind]. unfold kbind.
      erewrite release_after; [|exact Hq|exact Hf|done]. cbn [obind kret].
      split; [|done]. by apply (mm_ready_settle s i c). }
  pose proof Hfind as (Hp & _ & _)%list_find_Some.
  assert (Hmp : length (mmaps p) = PAGE_LIMIT).
  { rewrite Forall_forall in Hml. apply Hml. by eapply list_elem_of_lookup_2. }
  unfold wp. rewrite (take_slot s i c ip p Hq Hf Hlen Hfind Hmp).
  apply (wp_stack (settle i s) (k_ptable s) ip (embryo (k_nextpid s) p) l (i32 (k_nextpid s + 1)));
    [|done|by eapply lookup_lt_Some|done].
  apply (mm_ready_core (settle i s)); try done. by apply (mm_ready_settle s i c).
Qed.
End Alloc.

(** ** [growproc] *)
Section Grow.
Context `{L : Layout} {LO : LayoutOk L}.

Lemma heap_core s s' l : heap s l -> k_mem s' = k_mem s -> k_kmem s' = k_kmem s -> heap s' l.
Proof. intros (H1 & H2) E1 E2. split; [|done]. by rewrite E1, E2. Qed.

(** An address space does not depend on the other parts of the state. *)
Lemma as_inv_core s s' pgdir l own :
  as_inv s pgdir l own -> mm_ready s' -> k_mem s' = k_mem s -> k_kmem s' = k_kmem s -> as_inv s' pgdir l own.
Proof.
  intros (_ & Hh & Hnd & Hok) Hr Em Ek. unfold as_inv, pt_inv in *. rewrite Em.
  split; [done|]. split; [by apply (heap_core s)|done].
Qed.

Lemma mm_ready_install s i c p : quiet s i c -> mm_ready s -> mm_ready (install i p s).
Proof.
  intros (Hon & Hn & Hif) [_ Hf]. split; [|done]. exists i, (load_tss i p c). split.
  - pose proof (on_cpu_alter _ _ _ (load_tss i p) (k_if s) Hon eq_refl) as H. by destruct s.
  - done.
Qed.

(** The end of [growproc]: the new size is stored and the page table reloaded. *)
Definition grown (i ip : nat) (p : proc) (sz' : Z) (s : kernel) : kernel :=
  let s1 := s <| k_ptable ::= alter (fun p => p <| sz := sz' |>) ip |> in
  install i (p <| sz := sz' |>) (settle i s1).

Lemma grown_run s i c ip p sz' :
  quiet s i c -> k_ptable s !! ip = Some p -> kstack p <> 0 -> pgdir p <> 0 ->
  (set_proc ip (fun p => p <| sz := sz' |>) ;;; switchuvm (Some ip) ;;; kret 0) s = Ret 0 (grown i ip p sz' s).
Proof.
  intros Hq Hp Hk Hg. unfold set_proc, kmod, kbind at 1. cbn [obind].
  set (s1 := s <| k_ptable ::= _ |>). assert (Hq1 : quiet s1 i c) by exact Hq.
  assert (Hp1 : k_ptable s1 !! ip = Some (p <| sz := sz' |>)) by (cbn; by rewrite list_lookup_alter_eq, Hp).
  krun (switchuvm_quiet s1 i c ip _ Hq1 Hp1 Hk Hg). reflexivity.
Qed.

Lemma grown_facts s i c ip p sz' pgdir l own :
  quiet s i c -> as_inv s pgdir l own ->
  as_inv (grown i ip p sz' s) pgdir l own /\ k_mem (grown i ip p sz' s) = k_mem s /\
  k_ptable (grown i ip p sz' s) = alter (fun p => p <| sz := sz' |>) ip (k_ptable s) /\
  k_cr3 (grown i ip p sz' s) = V2P (Types.pgdir p).
Proof.
  intros Hq Hinv. split; [|done]. apply (as_inv_core s); [done| |done|done].
  set (s1 := s <| k_ptable ::= alter (fun p => p <| sz := sz' |>) ip |>).
  assert (Hq1 : quiet s1 i c) by exact Hq.
  assert (Hr1 : mm_ready s1) by (apply (mm_ready_core s); try done; apply Hinv).
  apply (mm_ready_install _ i (settlec (k_if s1) c)); [by apply quiet_settle|by apply (mm_ready_settle s1 i c)].
Qed.

Lemma mm_frame_quiet s s' i c : mm_frame s s' -> quiet s i c -> exists c', quiet s' i c'.
Proof.
  intros (m & km & cp & co & -> & Hc & _) Hq. by apply (csims_quiet s _ i c).
Qed.

Lemma mm_frame_ptable s s' : mm_frame s s' -> k_ptable s' = k_ptable s.
Proof. by intros (m & km & cp & co & -> & _). Qed.

(** [growproc] with a positive argument grows the process or leaves it as it
    was.  It fails when the new size reaches [KERNBASE].  On success the size
    of the process is the sum, every new page is mapped, writable by the user,
    to a zeroed page, and the page table is reloaded; on failure the process
    table and the user pages are unchanged.  In both cases the old pages keep
    their contents and no page is lost. *)
Theorem growproc_grow (s : kernel) (i : nat) (c : cpu) (ip : nat) (p : proc) (n : Z) (l own : list Z) :
  quiet s i c -> cpu_proc c = Some ip -> k_ptable s !! ip = Some p -> kstack p <> 0 ->
  as_inv s (pgdir p) l own -> 0 <= sz p < KERNBASE -> 0 < n < 2147483648 ->
  let a0 := (sz p + 4095) / 4096 * 4096 in
  (forall v, 0 <= v < 4294967296 -> visits a0 (sz p + n) v -> present (pte_at (k_mem s) (pgdir p) v) = false) ->
  wp (growproc n) (fun r s' =>
    if KERNBASE <=? sz p + n then r = -1 /\ s' = settle i s
    else exists l', as_inv s' (pgdir p) l' own /\ conserved (pgdir p) s l s' l' /\
      keeps (upages (k_mem s) (pgdir p) ++ own) (k_mem s) (k_mem s') /\
      ((r = 0 /\ k_ptable s' = alter (fun q => q <| sz := sz p + n |>) ip (k_ptable s) /\
        k_cr3 s' = V2P (pgdir p) /\
        forall v, 0 <= v < 4294967296 ->
          if decide (visits a0 (sz p + n) v)
          then exists q, pte_at (k_mem s') (pgdir p) v = mk_pte (V2P q) 6 /\ zeroed (k_mem s') q
          else pte_at (k_mem s') (pgdir p) v = pte_at (k_mem s) (pgdir p) v) \/
       (r = -1 /\ k_ptable s' = k_ptable s /\ upages (k_mem s') (pgdir p) = upages (k_mem s) (pgdir p)))) s.
Proof.
  intros Hq Hc Hp Hk Hinv Hsz Hn a0 Habs.
  pose proof (page_ok_pos _ (pt_inv_pgdir _ _ _ _ Hinv)) as Hpg.
  unfold growproc. apply wp_bind. eapply wp_of_run; [by apply myproc_quiet|]. rewrite Hc.
  apply wp_bind, wp_ret. apply wp_bind. eapply wp_of_run; [by apply get_proc_run|].
  destruct (Z.ltb_spec 0 n); [|lia]. set (s0 := settle i s).
  assert (Hq0 : quiet s0 i (settlec (k_if s) c)) by (by apply quiet_settle).
  assert (Hi0 : as_inv s0 (pgdir p) l own).
  { apply (as_inv_core s); [done|by apply (mm_ready_settle s i c); [|apply Hinv]|done|done]. }
  unfold KERNBASE in *. rewrite (u32_id (sz p + n)) by lia. apply wp_bind.
  destruct (Z.leb_spec 2147483648 (sz p + n)) as [Hbig|Hsmall].
  { unfold allocuvm, KERNBASE. destruct (Z.leb_spec 2147483648 (sz p + n)); [|lia].
    apply wp_ret. change (0 =? 0) with true. cbv iota. by apply wp_ret. }
  eapply wp_mono; [apply (wp_allocuvm s0 (pgdir p) (sz p) (sz p + n) l own Hi0); [lia|unfold KERNBASE; lia|exact Habs]|].
  intros r s1 (l1 & [(-> & Hi1 & Hc1 & a & Hup & Hvis)|(-> & Hfail)]).
  - destruct (Z.eqb_spec (sz p + n) 0); [lia|]. destruct Hup as [Hf1 Hk1 Hold Hnew].
    destruct (mm_frame_quiet _ _ _ _ Hf1 Hq0) as (c1 & Hq1).
    assert (Hp1 : k_ptable s1 !! ip = Some p) by (by rewrite (mm_frame_ptable _ _ Hf1)).
    eapply wp_of_run; [apply (grown_run s1 i c1 ip p (sz p + n) Hq1 Hp1 Hk); lia|].
    destruct (grown_facts s1 i c1 ip p (sz p + n) (pgdir p) l1 own Hq1 Hi1) as (Hi2 & Hm2 & Hpt2 & Hcr).
    exists l1. split; [done|]. unfold conserved. rewrite Hm2. split; [exact Hc1|]. split; [exact Hk1|].
    left. split; [done|]. split; [by rewrite Hpt2, (mm_frame_ptable _ _ Hf1)|]. split; [done|].
    intros v Hv. case_decide as Hd.
    + apply Hvis in Hd. destruct (Hnew v Hv Hd) as (q & Hq' & _ & Hz). by exists q.
    + rewrite Hold; [done|done|]. intros Hin. by apply Hd, Hvis.
  - change (0 =? 0) with true. cbv iota. apply wp_ret. destruct Hfail as [Hf1 Hi1 Hp1 Hu1 Hk1 _].
    exists l1. split; [done|]. split; [|split; [done|]].
    + unfold conserved. rewrite Hu1, !(app_assoc _ _ (upages _ _)). by rewrite Hp1.
    + right. split; [done|]. split; [by rewrite (mm_frame_ptable _ _ Hf1)|done].
Qed.

Lemma same_size (l : list proc) ip p : l !! ip = Some p -> alter (fun q => q <| sz := sz p |>) ip l = l.
Proof. intros Hp. apply (list_alter_id_at _ _ _ p Hp). by destruct p. Qed.

(** Shrinking to size 0 frees the memory but not the size.  [growproc] with
    the negated size of the process releases every user page below it, yet
    returns -1, because it takes the new size 0 for a failure, and leaves the
    size of the process at its old value.  A shrink to a positive size returns
    0, sets the size and releases the pages above it.  A shrink below 0 also
    returns 0, but does nothing: the pages and the size stay as they are. *)
Theorem growproc_shrink (s : kernel) (i : nat) (c : cpu) (ip : nat) (p : proc) (n : Z) (l own : list Z) :
  quiet s i c -> cpu_proc c = Some ip -> k_ptable s !! ip = Some p -> kstack p <> 0 ->
  as_inv s (pgdir p) l own -> 0 < sz p < KERNBASE -> -2147483648 <= n < 0 ->
  wp (growproc n) (fun r s' => exists l', as_inv s' (pgdir p) l' own /\
    l' ++ upages (k_mem s') (pgdir p) ≡ₚ l ++ upages (k_mem s) (pgdir p) /\
    keeps (upages (k_mem s') (pgdir p) ++ own) (k_mem s) (k_mem s') /\
    (r = if sz p + n =? 0 then -1 else 0) /\
    k_ptable s' = (if sz p + n <=? 0 then k_ptable s else alter (fun q => q <| sz := sz p + n |>) ip (k_ptable s)) /\
    forall v, 0 <= v < 4294967296 -> pte_at (k_mem s') (pgdir p) v =
      if decide (0 <= sz p + n /\ visits ((sz p + n + 4095) / 4096 * 4096) (sz p) v /\
                 present (pte_at (k_mem s) (pgdir p) v) = true)
      then 0 else pte_at (k_mem s) (pgdir p) v) s.
Proof.
  intros Hq Hc Hp Hk Hinv Hsz Hn.
  pose proof (page_ok_pos _ (pt_inv_pgdir _ _ _ _ Hinv)) as Hpg.
  unfold growproc. apply wp_bind. eapply wp_of_run; [by apply myproc_quiet|]. rewrite Hc.
  apply wp_bind, wp_ret. apply wp_bind. eapply wp_of_run; [by apply get_proc_run|].
  destruct (Z.ltb_spec 0 n); [lia|]. destruct (Z.ltb_spec n 0); [|lia]. set (s0 := settle i s).
  assert (Hq0 : quiet s0 i (settlec (k_if s) c)) by (by apply quiet_settle).
  assert (Hi0 : as_inv s0 (pgdir p) l own).
  { apply (as_inv_core s); [done|by apply (mm_ready_settle s i c); [|apply Hinv]|done|done]. }
  unfold KERNBASE in *. apply wp_bind. destruct (Z.ltb_spec (sz p + n) 0) as [Hneg|Hpos].
  - assert (Hu : u32 (sz p + n) = sz p + n + 4294967296) by (unfold u32; Z.div_mod_to_equations; lia).
    unfold deallocuvm. destruct (Z.leb_spec (sz p) (u32 (sz p + n))); [|lia].
    apply wp_ret. destruct (Z.eqb_spec (sz p) 0); [lia|].
    eapply wp_of_run; [apply (grown_run s0 i _ ip p (sz p) Hq0 Hp Hk); lia|].
    destruct (grown_facts s0 i _ ip p (sz p) (pgdir p) l own Hq0 Hi0) as (Hi2 & Hm2 & Hpt2 & _).
    exists l. rewrite Hm2. split; [done|]. split; [done|]. split; [done|].
    destruct (Z.eqb_spec (sz p + n) 0); [lia|]. split; [done|]. destruct (Z.leb_spec (sz p + n) 0); [|lia].
    split; [rewrite Hpt2; by apply same_size|]. intros v Hv. rewrite decide_False by lia. done.
  - rewrite (u32_id (sz p + n)) by lia.
    eapply wp_mono; [apply (wp_deallocuvm s0 (pgdir p) (sz p) (sz p + n) l own Hi0); unfold KERNBASE; lia|].
    intros r s1 (-> & l1 & [Hf1 Hi1 Hp1 Ht1 Hk1 Hv1]).
    assert (Hpte : forall v, 0 <= v < 4294967296 -> pte_at (k_mem s1) (pgdir p) v =
      if decide (0 <= sz p + n /\ visits ((sz p + n + 4095) / 4096 * 4096) (sz p) v /\
                 present (pte_at (k_mem s) (pgdir p) v) = true)
      then 0 else pte_at (k_mem s) (pgdir p) v).
    { intros v Hv. rewrite Hv1 by done. change (k_mem s0) with (k_mem s).
      apply decide_ext. intuition. }
    destruct (mm_frame_quiet _ _ _ _ Hf1 Hq0) as (c1 & Hq1).
    pose proof (mm_frame_ptable _ _ Hf1) as Hpt1. change (k_ptable s0) with (k_ptable s) in Hpt1.
    destruct (Z.eqb_spec (sz p + n) 0) as [E|E].
    + apply wp_ret. exists l1. destruct (Z.leb_spec (sz p + n) 0); [|lia].
      split; [done|]. split; [done|]. split; [done|]. split; [done|]. by split.
    + destruct (Z.leb_spec (sz p + n) 0); [lia|].
      assert (Hp1' : k_ptable s1 !! ip = Some p) by (by rewrite Hpt1).
      eapply wp_of_run; [apply (grown_run s1 i c1 ip p (sz p + n) Hq1 Hp1' Hk); lia|].
      destruct (grown_facts s1 i c1 ip p (sz p + n) (pgdir p) l1 own Hq1 Hi1) as (Hi2 & Hm2 & Hpt2 & _).
      exists l1. rewrite Hm2. split; [done|]. split; [done|]. split; [done|]. split; [done|].
      split; [by rewrite Hpt2, Hpt1|done].
Qed.
End Grow.

(** ** [wait] *)
Section Wait.
Context `{L : Layout} {LO : LayoutOk L} `{Pt : Patience}.

Definition is_child (me : nat) (p : proc) : bool := bool_decide (parent p = Some me).
Definition reaped (p : proc) : proc :=
  p <| kstack := 0 |> <| pid := 0 |> <| parent := None |> <| pname := [] |> <| killed := 0 |> <| state := UNUSED |>.

Lemma wait_scan_from me s l1 l2 hk :
  k_ptable s = l1 ++ l2 ->
  wait_scan me (seq (length l1) (length l2)) hk s =
  match list_find (fun p => parent p = Some me /\ state p = ZOMBIE) l2 with
  | None => Ret (None, hk || existsb (is_child me) l2) s
  | Some (k, p) => (reap (length l1 + k) p ;;; kret (Some (pid p), true)) s
  end.
Proof.
  revert l1 hk; induction l2 as [|p l2 IH]; intros l1 hk Hs; cbn [length seq wait_scan list_find existsb].
  { by rewrite orb_false_r. }
  assert (Hp : k_ptable s !! length l1 = Some p) by (rewrite Hs; by apply list_lookup_middle).
  krun (get_proc_run _ _ _ Hp). unfold is_child at 1.
  assert (IH' : forall hk, wait_scan me (seq (S (length l1)) (length l2)) hk s =
    match list_find (fun p => parent p = Some me /\ state p = ZOMBIE) l2 with
    | None => Ret (None, hk || existsb (is_child me) l2) s
    | Some (k, p) => (reap (length l1 + S k) p ;;; kret (Some (pid p), true)) s
    end).
  { intros hk'. specialize (IH (l1 ++ [p]) hk'). rewrite length_app, Nat.add_comm in IH. cbn [length Nat.add] in IH.
    rewrite IH by (by rewrite Hs, <- app_assoc). destruct (list_find _ l2) as [[k q]|]; [|done].
    by replace (length l1 + S k)%nat with (S (length l1 + k)) by lia. }
  destruct (decide (parent p = Some me)) as [Hpar|Hpar].
  - rewrite bool_decide_eq_true_2 by done. cbn [negb orb].
    destruct (decide (state p = ZOMBIE)) as [Hz|Hz].
    + rewrite bool_decide_eq_true_2 by done. rewrite decide_True by done. by rewrite Nat.add_0_r.
    + rewrite bool_decide_eq_false_2 by done. rewrite decide_False by tauto. rewrite IH'. cbn [orb].
      destruct (list_find _ l2) as [[k q]|]; cbn; [done|]. by rewrite orb_true_r.
  - rewrite bool_decide_eq_false_2 by done. cbn [negb orb]. rewrite decide_False by tauto. rewrite IH'.
    by destruct (list_find _ l2) as [[k q]|].
Qed.

Lemma wait_scan_eq me s :
  length (k_ptable s) = NPROC ->
  wait_scan me (seq 0 NPROC) false s =
  match list_find (fun p => parent p = Some me /\ state p = ZOMBIE) (k_ptable s) with
  | None => Ret (None, existsb (is_child me) (k_ptable s)) s
  | Some (k, p) => (reap k p ;;; kret (Some (pid p), true)) s
  end.
Proof.
  intros Hlen. pose proof (wait_scan_from me s [] (k_ptable s) false eq_refl) as H. cbn [length Nat.add orb] in H.
  by rewrite Hlen in H.
Qed.

Lemma mm_frame_depth s s' i c n : mm_frame s s' -> at_depth s i c n -> n <> 0 -> at_depth s' i c n.
Proof.
  intros (m & km & cp & co & -> & Hc & _) ((H1 & H2 & H3 & H4) & H5 & H6) Hn.
  destruct (Forall2_lookup_l _ _ _ _ _ Hc H2) as (c' & Hc' & x & -> & Hx).
  rewrite Hx in Hc' by congruence. assert (E : c <| intena := intena c |> = c) by (by destruct c). rewrite E in Hc'.
  split; [|done]. split; [done|]. split; [done|]. split; [done|].
  intros j d Hj Hd. destruct (Forall2_lookup_r _ _ _ _ _ Hc Hd) as (d' & Hd' & y & -> & _). by apply (H4 j d').
Qed.

Lemma mm_frame_locks s s' : mm_frame s s' -> k_locks s' = k_locks s.
Proof. by intros (m & km & cp & co & -> & _). Qed.

(** Reaping gives every page of the child back and frees its slot. *)
Lemma wp_reap s i c ip q l own :
  at_depth s i c 1 -> held s Lptable i = true -> k_ptable s !! ip = Some q ->
  as_inv s (pgdir q) l (kstack q :: own) ->
  wp (reap ip q) (fun _ s' => exists s0 l',
    s' = rel i c Lptable s0 /\ at_depth s0 i c 1 /\ k_locks s0 = k_locks s /\ heap s' l' /\
    l' ≡ₚ kstack q :: space (k_mem s) (pgdir q) ++ l /\ keeps own (k_mem s) (k_mem s') /\
    k_ptable s' = <[ip := reaped q]> (k_ptable s)) s.
Proof.
  intros Hd Hh Hq Hinv. unfold reap. apply wp_bind.
  eapply wp_mono; [apply (wp_kfree_own s (pgdir q) l (kstack q) own Hinv)|].
  intros _ s1 (Hf1 & Hi1 & Ht1 & Hu1 & _ & Hk1). apply wp_bind, wp_mod.
  set (s2 := s1 <| k_ptable ::= _ |>).
  assert (Hi2 : as_inv s2 (pgdir q) (kstack q :: l) own).
  { apply (as_inv_core s1); [done| |done|done]. apply (mm_ready_core s1); try done. apply Hi1. }
  apply wp_bind. eapply wp_mono; [apply (wp_freevm s2 (pgdir q) _ _ Hi2)|].
  intros _ s3 (Hf3 & Hk3 & l3 & Hh3 & Hp3).
  do 5 (apply wp_bind, wp_mod). set (s4 := s3 <| k_ptable ::= _ |> <| k_ptable ::= _ |> <| k_ptable ::= _ |> <| k_ptable ::= _ |> <| k_ptable ::= _ |>).
  pose proof (mm_frame_depth _ _ _ _ _ Hf1 Hd ltac:(lia)) as Hd1. assert (Hd2 : at_depth s2 i c 1) by exact Hd1.
  pose proof (mm_frame_depth _ _ _ _ _ Hf3 Hd2 ltac:(lia)) as Hd3. assert (Hd4 : at_depth s4 i c 1) by exact Hd3.
  assert (El : k_locks s4 = k_locks s).
  { change (k_locks s4) with (k_locks s3). rewrite (mm_frame_locks _ _ Hf3).
    change (k_locks s2) with (k_locks s1). apply (mm_frame_locks _ _ Hf1). }
  assert (Hh4 : held s4 Lptable i = true) by (unfold held; rewrite El; exact Hh).
  pose proof Hd4 as (Hon4 & Hif4 & Hn4).
  eapply wp_of_run; [apply (release_run s4 i c Lptable Hon4 Hif4); [lia|done]|].
  exists s4, l3. split; [done|]. split; [done|]. split; [done|]. split; [by apply (heap_core s3)|]. split; [|split].
  - rewrite Hp3. change (k_mem s2) with (k_mem s1). rewrite Ht1, Hu1. unfold space. cbn [app].
    rewrite <- !app_assoc. rewrite (Permutation_app_comm l). rewrite <- !app_assoc. solve_Permutation.
  - eapply keeps_trans; [|exact Hk3]. eapply keeps_sub; [|exact Hk1]. intros r Hr. apply elem_of_app. by right.
  - change (k_ptable (rel i c Lptable s4)) with (k_ptable s4). unfold s4. cbn [k_ptable update upd_k_ptable].
    rewrite (mm_frame_ptable _ _ Hf3). unfold s2. cbn [k_ptable update upd_k_ptable].
    rewrite (mm_frame_ptable _ _ Hf1). rewrite !list_alter_alter_eq. by rewrite (alter_as_insert _ _ ip q Hq).
Qed.

Lemma acq_depth s i c l : quiet s i c -> ncli c = 0 -> at_depth (acq i l s) i (pushc (k_if s) c) 1.
Proof.
  intros Hq Hn. pose proof (quiet_acq s i c l Hq) as (Hon & _). split; [done|]. split; [done|].
  rewrite ncli_pushc. lia.
Qed.

(** Releasing the only lock restores the interrupt flag. *)
Lemma rel_if s i c l s0 :
  quiet s i c -> k_if s0 = false -> k_if (rel i (pushc (k_if s) c) l s0) = k_if s.
Proof.
  intros Hq Hif. unfold rel, pop. cbn. rewrite Hif. by apply (pop_if_pushc s i c).
Qed.

Lemma sleep_ptable_run s i c ip p ch :
  at_depth s i c 1 -> held s Lptable i = true -> cpu_proc c = Some ip -> k_ptable s !! ip = Some p ->
  exists k, sleep (Some ch) (Some Lptable) s =
    Switch (s <| k_ptable ::= <[ip := p <| pchan := Some ch |> <| state := SLEEPING |>]> |>) k.
Proof.
  intros Hd Hh Hc Hp. unfold sleep. krun (myproc_run _ _ _ _ Hd ltac:(lia)). rewrite Hc.
  rewrite bool_decide_eq_true_2 by done. cbn [negb]. unfold kret at 1, set_proc, kmod, kbind at 1 2 3. cbn [obind].
  rewrite (ptable_compose s _ _ <[ip := p <| pchan := Some ch |> <| state := SLEEPING |>]>)
    by (rewrite list_alter_alter_eq; by rewrite (alter_as_insert _ _ ip p Hp)).
  set (s1 := s <| k_ptable ::= _ |>).
  assert (Hp1 : k_ptable s1 !! ip = Some (p <| pchan := Some ch |> <| state := SLEEPING |>)).
  { unfold s1. cbn. apply list_lookup_insert_eq. by eapply lookup_lt_Some. }
  krun (sched_run s1 i c ip _ Hd Hh Hc Hp1 ltac:(done)). by eexists.
Qed.

(** C33: [wait] reaps a zombie child, completely.  When the caller has a zombie
    child, [wait] returns the pid of the first one; its slot is [UNUSED] again and
    its kernel stack, page directory, page tables and user pages are back on
    the free list, each exactly once.  Without children, or when the caller
    was killed, it returns -1 and changes nothing.  Otherwise it goes to sleep
    on its own process, holding [ptable.lock], where [exit] of a child wakes
    it. *)
Theorem wait_spec (s : kernel) (i : nat) (c : cpu) (me : nat) (p : proc) (l own : list Z) :
  quiet s i c -> ncli c = 0 -> cpu_proc c = Some me -> k_ptable s !! me = Some p ->
  free s Lptable -> length (k_ptable s) = NPROC -> (0 < patience)%nat ->
  (forall ip q, list_find (fun q => parent q = Some me /\ state q = ZOMBIE) (k_ptable s) = Some (ip, q) ->
     as_inv (acq i Lptable (settle i s)) (pgdir q) l (kstack q :: own)) ->
  match list_find (fun q => parent q = Some me /\ state q = ZOMBIE) (k_ptable s) with
  | Some (ip, q) => wp wait (fun r s' =>
      r = pid q /\ free s' Lptable /\ k_if s' = k_if s /\ k_ptable s' = <[ip := reaped q]> (k_ptable s) /\
      keeps own (k_mem s) (k_mem s') /\
      exists l', heap s' l' /\ l' ≡ₚ kstack q :: space (k_mem s) (pgdir q) ++ l) s
  | None =>
      if negb (existsb (is_child me) (k_ptable s)) || c_true (killed p)
      then wp wait (fun r s' => r = -1 /\ k_ptable s' = k_ptable s /\ k_mem s' = k_mem s /\ k_locks s' = k_locks s) s
      else exists s1 k, wait s = Switch s1 k /\ held s1 Lptable i = true /\ k_mem s1 = k_mem s /\
             k_ptable s1 = <[me := p <| pchan := Some (Cproc me) |> <| state := SLEEPING |>]> (k_ptable s)
  end.
Proof.
  intros Hq Hn Hc Hp Hf Hlen Hpat Hinv. unfold wait. set (s0 := settle i s) in *.
  pose proof (quiet_settle s i c Hq) as Hq0. fold s0 in Hq0. set (c0 := settlec (k_if s) c) in *.
  assert (Hc0 : cpu_proc c0 = Some me /\ ncli c0 = 0) by (unfold c0, settlec; by rewrite Hn).
  pose proof (acq_depth s0 i c0 Lptable Hq0 (proj2 Hc0)) as Hd. set (s1 := acq i Lptable s0) in *.
  assert (Hrun : forall f : nat -> KM Z, (mp <- myproc ;; acquire Lptable ;;; me <- deref mp ;; f me) s = f me s1).
  { intros f. krun (myproc_quiet s i c Hq). fold s0. rewrite Hc. krun (acquire_run s0 i c0 Lptable Hq0 Hf). reflexivity. }
  unfold patience in *. destruct Pt as [|fuel]; [lia|]. cbn [wait_loop].
  pose proof (wait_scan_eq me s1 Hlen) as Hscan. change (k_ptable s1) with (k_ptable s) in Hscan.
  destruct (list_find _ (k_ptable s)) as [[ip q]|] eqn:Hfind.
  - unfold wp. rewrite Hrun. unfold kbind at 1. rewrite Hscan.
    pose proof Hfind as (Hip & _ & _)%list_find_Some.
    pose proof (wp_reap s1 i _ ip q l own Hd (held_acq s0 i Lptable) Hip (Hinv ip q eq_refl)) as Hreap.
    apply wp_run in Hreap as (u & s' & Hr & s3 & l' & -> & Hd3 & El & Hh' & Hp' & Hk' & Hpt').
    unfold kbind at 1. rewrite Hr. cbn [obind kret fst]. split; [done|].
    split; [unfold free, rel; cbn; apply lookup_insert_eq|]. split; [|split; [exact Hpt'|split; [exact Hk'|by exists l']]].
    apply (rel_if s0 i c0 Lptable s3 Hq0). apply Hd3.
  - assert (Hp1 : k_ptable s1 !! me = Some p) by exact Hp.
    destruct (negb (existsb (is_child me) (k_ptable s)) || c_true (killed p)) eqn:Ek.
    + unfold wp. rewrite Hrun. krun Hscan. cbn [fst snd]. krun (get_proc_run s1 me p Hp1). rewrite Ek.
      unfold kbind. unfold s1. erewrite release_after; [|exact Hq0|exact Hf|done]. done.
    + rewrite Hrun. krun Hscan. cbn [fst snd]. krun (get_proc_run s1 me p Hp1). rewrite Ek.
      assert (Hc1 : cpu_proc (pushc (k_if s0) c0) = Some me) by (unfold pushc; destruct (_ =? _); apply Hc0).
      destruct (sleep_ptable_run s1 i _ me p (Cproc me) Hd (held_acq s0 i Lptable) Hc1 Hp1) as (k & Hsl).
      krun Hsl. eexists _, _. split; [done|]. split; [exact (held_acq s0 i Lptable)|]. done.
Qed.
End Wait.

(** ** Concrete runs *)

(** Process 0 with the address space [demo_dir] of [n] bytes; process 0 with a
    zombie child in slot 3, whose address space that is. *)
Definition demo_user (n : Z) : proc :=
  (demo_proc RUNNING 1 None) <| pgdir := demo_dir |> <| sz := n |>.
Definition demo_life (pages : nat) (n : Z) : kernel :=
  (demo_as pages) <| k_ptable ::= fun l => <[0%nat := demo_user n]> l |>.
Definition demo_zombie : proc :=
  (demo_proc ZOMBIE 4 None) <| pgdir := demo_dir |> <| parent := Some 0%nat |>.
Definition demo_family : kernel :=
  (demo_as 2) <| k_ptable ::= fun l =>
    <[0%nat := demo_proc RUNNING 1 None]> (<[3%nat := demo_zombie]> l) |>.

Lemma demo_life_ready pages n : mm_ready (demo_life pages n).
Proof. split; [eexists; eexists; apply boot_quiet|]. intros _. reflexivity. Qed.

Lemma allocproc_spec_witness :
  wp (allocproc (L := demo_layout)) (fun r s' =>
    mm_ready s' /\
    match list_find (fun p => state p = UNUSED) (k_ptable (demo_procs RUNNING)) with
    | None => r = None /\ k_ptable s' = k_ptable (demo_procs RUNNING) /\ heap (L := demo_layout) s' [] /\
        k_mem s' = k_mem (demo_procs RUNNING)
    | Some (ip, p) =>
        k_nextpid s' = i32 (k_nextpid (demo_procs RUNNING) + 1) /\
        (r = None /\ heap (L := demo_layout) s' [] /\ k_mem s' = k_mem (demo_procs RUNNING) /\
            k_ptable s' = <[ip := (embryo (k_nextpid (demo_procs RUNNING)) p) <| kstack := 0 |> <| state := UNUSED |>]>
              (k_ptable (demo_procs RUNNING)))
    end) (demo_procs RUNNING).
Proof.
  apply (allocproc_spec (L := demo_layout) (demo_procs RUNNING) 0 boot_cpu []);
    [exact boot_quiet | vm_compute; reflexivity | exact boot_ready | exact boot_heap | vm_compute; reflexivity
    | apply (bool_decide_eq_true_1 (Forall (fun p => length (mmaps p) = PAGE_LIMIT) _)); vm_compute; reflexivity].
Defined.

Lemma demo_life_absent v : 0 <= v < 4294967296 -> visits ((8192 + 4095) / 4096 * 4096) (8192 + 9000) v ->
  present (pte_at (k_mem (demo_life 6 8192)) demo_dir v) = false.
Proof.
  intros Hv Hvis.
  assert (E : v / 4096 = 2 \/ v / 4096 = 3 \/ v / 4096 = 4).
  { unfold visits in Hvis. Z.div_mod_to_equations. lia. }
  destruct E as [E | [E | E]];
    [rewrite (pte_at_page _ _ v 8192)|rewrite (pte_at_page _ _ v 12288)|rewrite (pte_at_page _ _ v 16384)];
    try (rewrite E; reflexivity); try lia; vm_compute; reflexivity.
Qed.

Lemma growproc_grow_witness :
  wp (growproc (L := demo_layout) 9000) (fun r s' =>
    if KERNBASE <=? 8192 + 9000 then r = -1 /\ s' = settle 0 (demo_life 6 8192)
    else exists l', as_inv (L := demo_layout) s' demo_dir l' [] /\
      conserved demo_dir (demo_life 6 8192) (demo_pages 6) s' l' /\
      keeps (upages (k_mem (demo_life 6 8192)) demo_dir ++ []) (k_mem (demo_life 6 8192)) (k_mem s') /\
      ((r = 0 /\ k_ptable s' = alter (fun q => q <| sz := 8192 + 9000 |>) 0%nat (k_ptable (demo_life 6 8192)) /\
        k_cr3 s' = V2P demo_dir /\
        forall v, 0 <= v < 4294967296 ->
          if decide (visits ((8192 + 4095) / 4096 * 4096) (8192 + 9000) v)
          then exists q, pte_at (k_mem s') demo_dir v = mk_pte (V2P q) 6 /\ zeroed (k_mem s') q
          else pte_at (k_mem s') demo_dir v = pte_at (k_mem (demo_life 6 8192)) demo_dir v) \/
       (r = -1 /\ k_ptable s' = k_ptable (demo_life 6 8192) /\
        upages (k_mem s') demo_dir = upages (k_mem (demo_life 6 8192)) demo_dir))) (demo_life 6 8192).
Proof.
  apply (growproc_grow (L := demo_layout) (demo_life 6 8192) 0 boot_cpu 0 (demo_user 8192) 9000 (demo_pages 6) []).
  - exact boot_quiet.
  - reflexivity.
  - reflexivity.
  - vm_compute; discriminate.
  - apply as_check_ok; [apply demo_life_ready|vm_compute; reflexivity].
  - vm_compute; split; [discriminate|reflexivity].
  - lia.
  - apply demo_life_absent.
Defined.

Lemma growproc_shrink_witness :
  wp (growproc (L := demo_layout) (-8192)) (fun r s' => exists l', as_inv (L := demo_layout) s' demo_dir l' [] /\
    l' ++ upages (k_mem s') demo_dir ≡ₚ demo_pages 2 ++ upages (k_mem (demo_life 2 8192)) demo_dir /\
    keeps (upages (k_mem s') demo_dir ++ []) (k_mem (demo_life 2 8192)) (k_mem s') /\
    (r = if 8192 + -8192 =? 0 then -1 else 0) /\
    k_ptable s' = (if 8192 + -8192 <=? 0 then k_ptable (demo_life 2 8192)
                   else alter (fun q => q <| sz := 8192 + -8192 |>) 0%nat (k_ptable (demo_life 2 8192))) /\
    forall v, 0 <= v < 4294967296 -> pte_at (k_mem s') demo_dir v =
      if decide (0 <= 8192 + -8192 /\ visits ((8192 + -8192 + 4095) / 4096 * 4096) 8192 v /\
                 present (pte_at (k_mem (demo_life 2 8192)) demo_dir v) = true)
      then 0 else pte_at (k_mem (demo_life 2 8192)) demo_dir v) (demo_life 2 8192).
Proof.
  apply (growproc_shrink (L := demo_layout) (demo_life 2 8192) 0 boot_cpu 0 (demo_user 8192) (-8192) (demo_pages 2) []).
  - exact boot_quiet.
  - reflexivity.
  - reflexivity.
  - vm_compute; discriminate.
  - apply as_check_ok; [apply demo_life_ready|vm_compute; reflexivity].
  - vm_compute; split; reflexivity.
  - lia.
Defined.

Lemma demo_family_inv ip q :
  list_find (fun q => parent q = Some 0%nat /\ state q = ZOMBIE) (k_ptable demo_family) = Some (ip, q) ->
  as_inv (L := demo_layout) (acq 0 Lptable (settle 0 demo_family)) (pgdir q) (demo_pages 2) [kstack q].
Proof.
  intros H. assert (E : list_find (fun q => parent q = Some 0%nat /\ state q = ZOMBIE) (k_ptable demo_family)
    = Some (3%nat, demo_zombie)) by (vm_compute; reflexivity).
  rewrite E in H. injection H as <- <-. apply as_check_ok; [|vm_compute; reflexivity].
  assert (Hq : quiet demo_family 0 boot_cpu) by exact boot_quiet.
  pose proof (quiet_settle _ _ _ Hq) as Hq0. pose proof (quiet_acq _ _ _ Lptable Hq0) as Hq1.
  split; [eexists; eexists; exact Hq1|]. intros _. reflexivity.
Qed.

Lemma wait_spec_witness :
  wp (wait (L := demo_layout) (Pt := 1%nat)) (fun r s' =>
      r = pid demo_zombie /\ free s' Lptable /\ k_if s' = k_if demo_family /\
      k_ptable s' = <[3%nat := reaped demo_zombie]> (k_ptable demo_family) /\
      keeps [] (k_mem demo_family) (k_mem s') /\
      exists l', heap (L := demo_layout) s' l' /\
        l' ≡ₚ kstack demo_zombie :: space (k_mem demo_family) demo_dir ++ demo_pages 2) demo_family.
Proof.
  pose proof (wait_spec (L := demo_layout) (Pt := 1%nat) demo_family 0 boot_cpu 0 (demo_proc RUNNING 1 None) (demo_pages 2) []) as H.
  assert (E : list_find (fun q => parent q = Some 0%nat /\ state q = ZOMBIE) (k_ptable demo_family)
    = Some (3%nat, demo_zombie)) by (vm_compute; reflexivity).
  rewrite E in H. apply H.
  - exact boot_quiet.
  - reflexivity.
  - reflexivity.
  - reflexivity.
  - vm_compute; reflexivity.
  - vm_compute; reflexivity.
  - unfold patience. lia.
  - intros ip q Hf. rewrite <- E in Hf. exact (demo_family_inv ip q Hf).
Defined.
