(* ===== verification/Access.v ===== *)
(** * Virtual addresses

    The kernel reads and writes user memory through the page table that [cr3]
    selects.  [translate] is the walk of the processor for a supervisor access
    (the kernel runs with [CR0_WP], see [entry.S], so that a write needs the
    write permission at both levels).  Addresses from [KERNBASE] up are the
    kernel's direct map, present in every page table.  An access without a
    translation faults; the nested fault of kernel code is not followed, it is
    the outcome [Undef]. *)

From stdpp Require Import base gmap strings list fin_maps.
From Stdlib Require Import ZArith Lia.
From S2P Require Import Prelude Mem Types Spinlock.

Definition pte_allows (e : Z) (write : bool) : bool :=
  c_true (Z.land e PTE_P) && (negb write || c_true (Z.land e PTE_W)).

Definition translate (m : mem) (cr3 va : Z) (write : bool) : option Z :=
  if KERNBASE <=? va then Some va else
  let pde := ld32 m (P2V cr3 + 4 * PDX va) in
  if negb (pte_allows pde write) then None else
  let pte := ld32 m (P2V (PTE_ADDR pde) + 4 * PTX va) in
  if negb (pte_allows pte write) then None else
  Some (P2V (PTE_ADDR pte) + va mod 4096).

Definition load8 (va : Z) : KM Z := fun s =>
  match translate (k_mem s) (k_cr3 s) va false with
  | Some a => Ret (ld8 (k_mem s) a) s
  | None => Undef "page fault" s
  end.
Definition store8 (va v : Z) : KM unit := fun s =>
  match translate (k_mem s) (k_cr3 s) va true with
  | Some a => Ret tt (s <| k_mem ::= fun m => st8 m a v |>)
  | None => Undef "page fault" s
  end.

(** A word, and [n] bytes, at a virtual address. *)
Definition load32 (va : Z) : KM Z :=
  b0 <- load8 va ;;
  b1 <- load8 (va + 1) ;;
  b2 <- load8 (va + 2) ;;
  b3 <- load8 (va + 3) ;;
  kret (b0 + 256 * b1 + 65536 * b2 + 16777216 * b3).

Definition store32 (va v : Z) : KM unit :=
  store8 va v ;;;
  store8 (va + 1) (v / 256) ;;;
  store8 (va + 2) (v / 65536) ;;;
  store8 (va + 3) (v / 16777216).

Definition store16 (va v : Z) : KM unit :=
  store8 va v ;;;
  store8 (va + 1) (v / 256).

Fixpoint load_bytes (va : Z) (n : nat) : KM (list Z) :=
  match n with
  | O => kret []
  | S k => b <- load8 va ;; l <- load_bytes (va + 1) k ;; kret (b :: l)
  end.

Fixpoint store_bytes (va : Z) (l : list Z) : KM unit :=
  match l with
  | [] => kret tt
  | b :: l' => store8 va b ;;; store_bytes (va + 1) l'
  end.

(** The destination and the source of a copy: an address, or an object on the
    kernel stack (which has no address in the model), of which the bytes are
    handed over. *)
Inductive place := At (va : Z) | Local.
Inductive source := From (va : Z) | Bytes (l : list Z).

Definition put (d : place) (k : Z) (l : list Z) : KM unit :=
  match d with
  | At va => store_bytes (u32 (va + k)) l
  | Local => kret tt
  end.
Definition fetch (x : source) (k n : Z) : KM (list Z) :=
  match x with
  | From va => load_bytes (u32 (va + k)) (Z.to_nat n)
  | Bytes l => kret (take (Z.to_nat n) (drop (Z.to_nat k) l))
  end.

(** ** Structures in a block of bytes *)

Definition i16 (z : Z) : Z := (z + 32768) mod 65536 - 32768.
Definition byte_at (d : list Z) (o : Z) : Z := default 0 (d !! Z.to_nat o).
Definition get16 (d : list Z) (o : Z) : Z := byte_at d o + 256 * byte_at d (o + 1).
Definition get32 (d : list Z) (o : Z) : Z :=
  byte_at d o + 256 * byte_at d (o + 1) + 65536 * byte_at d (o + 2) + 16777216 * byte_at d (o + 3).
Definition put8 (d : list Z) (o v : Z) : list Z := <[Z.to_nat o := u8 v]> d.
Definition put16 (d : list Z) (o v : Z) : list Z := put8 (put8 d o v) (o + 1) (v / 256).
Definition put32 (d : list Z) (o v : Z) : list Z :=
  put8 (put8 (put8 (put8 d o v) (o + 1) (v / 256)) (o + 2) (v / 65536)) (o + 3) (v / 16777216).

(** [memmove] into and out of the bytes of a block. *)
Definition get_bytes (d : list Z) (o n : Z) : list Z := take (Z.to_nat n) (drop (Z.to_nat o) d).
Fixpoint put_bytes (d : list Z) (o : Z) (l : list Z) : list Z :=
  match l with
  | [] => d
  | b :: l' => put_bytes (put8 d o b) (o + 1) l'
  end.

(** Fields of the current process. *)
Definition mine {A : Type} (f : proc -> A) : KM A :=
  mp <- myproc ;;
  ip <- deref mp ;;
  p <- get_proc ip ;;
  kret (f p).
