(* ===== verification/Bytes.v ===== *)
(** * Words in blocks of bytes

    Reading back what was stored in a block, for the bytes, half words and
    words of on-disk structures. *)

From stdpp Require Import base gmap strings list fin_maps.
From Stdlib Require Import ZArith Lia.
From S2P Require Import Prelude Mem Types Spinlock Access.

Lemma length_put8 d o v : length (put8 d o v) = length d.
Proof. unfold put8. apply length_insert. Qed.

Lemma length_put16 d o v : length (put16 d o v) = length d.
Proof. unfold put16. by rewrite !length_put8. Qed.

Lemma length_put32 d o v : length (put32 d o v) = length d.
Proof. unfold put32. by rewrite !length_put8. Qed.

Lemma byte_at_put8 d o v o' :
  0 <= o < Z.of_nat (length d) -> 0 <= o' ->
  byte_at (put8 d o v) o' = if decide (o' = o) then u8 v else byte_at d o'.
Proof.
  intros Ho Ho'. unfold byte_at, put8. case_decide as E.
  - subst. rewrite list_lookup_insert_eq by lia. done.
  - rewrite list_lookup_insert_ne by lia. done.
Qed.

Ltac byte_steps :=
  repeat (rewrite byte_at_put8 by (rewrite ?length_put8; lia)); repeat case_decide; try lia.

Lemma u8_word v : u8 v + 256 * u8 (v / 256) + 65536 * u8 (v / 65536) + 16777216 * u8 (v / 16777216) = u32 v.
Proof. unfold u8, u32. Z.div_mod_to_equations. lia. Qed.

Lemma u8_half v : u8 v + 256 * u8 (v / 256) = u16 v.
Proof. unfold u8, u16. Z.div_mod_to_equations. lia. Qed.

Lemma get32_put32_eq d o v : 0 <= o -> o + 4 <= Z.of_nat (length d) -> get32 (put32 d o v) o = u32 v.
Proof. intros H1 H2. rewrite <- u8_word. unfold get32, put32. byte_steps. Qed.

Lemma get32_put32_ne d o v o' :
  0 <= o -> o + 4 <= Z.of_nat (length d) -> 0 <= o' -> o' + 4 <= o \/ o + 4 <= o' ->
  get32 (put32 d o v) o' = get32 d o'.
Proof. intros H1 H2 H3 H4. unfold get32, put32. byte_steps. Qed.

Lemma get16_put16_eq d o v : 0 <= o -> o + 2 <= Z.of_nat (length d) -> get16 (put16 d o v) o = u16 v.
Proof. intros H1 H2. rewrite <- u8_half. unfold get16, put16. byte_steps. Qed.

Lemma get16_put16_ne d o v o' :
  0 <= o -> o + 2 <= Z.of_nat (length d) -> 0 <= o' -> o' + 2 <= o \/ o + 2 <= o' ->
  get16 (put16 d o v) o' = get16 d o'.
Proof. intros H1 H2 H3 H4. unfold get16, put16. byte_steps. Qed.

Lemma get16_put32_ne d o v o' :
  0 <= o -> o + 4 <= Z.of_nat (length d) -> 0 <= o' -> o' + 2 <= o \/ o + 4 <= o' ->
  get16 (put32 d o v) o' = get16 d o'.
Proof. intros H1 H2 H3 H4. unfold get16, put32. byte_steps. Qed.

Lemma get32_put16_ne d o v o' :
  0 <= o -> o + 2 <= Z.of_nat (length d) -> 0 <= o' -> o' + 4 <= o \/ o + 2 <= o' ->
  get32 (put16 d o v) o' = get32 d o'.
Proof. intros H1 H2 H3 H4. unfold get32, put16. byte_steps. Qed.

Lemma i32_u32 v : i32 (u32 v) = i32 v.
Proof. unfold i32, u32. rewrite Zplus_mod_idemp_l. done. Qed.

Lemma i16_u16 v : i16 (u16 v) = i16 v.
Proof. unfold i16, u16. rewrite Zplus_mod_idemp_l. done. Qed.

Lemma i16_id v : -32768 <= v < 32768 -> i16 v = v.
Proof. intros H. unfold i16. rewrite Z.mod_small; lia. Qed.

Lemma u32_i32 v : u32 (i32 v) = u32 v.
Proof. unfold i32, u32. Z.div_mod_to_equations. lia. Qed.
