(* ===== verification/Sleeplock.v ===== *)
(** * Sleep locks

    [sleeplock.c].  The sleep locks of the kernel are those of the buffers and
    of the inodes; the spinlock inside one is a lock of [k_locks], and its
    address is the channel on which its waiters sleep. *)

From stdpp Require Import base gmap strings list fin_maps.
From Stdlib Require Import ZArith Lia.
From S2P Require Import Prelude Mem Types Spinlock Kalloc Vm Proc Access.

(** ** Buffers and inodes; an index stands for a pointer. *)
Definition get_buf (i : nat) : KM buf := fun s =>
  match k_bufs s !! i with
  | Some b => Ret b s
  | None => Undef "bcache index" s
  end.
Definition set_buf (i : nat) (f : buf -> buf) : KM unit := kmod (fun s => s <| k_bufs ::= alter f i |>).
Definition get_inode (i : nat) : KM inode := fun s =>
  match k_icache s !! i with
  | Some x => Ret x s
  | None => Undef "icache index" s
  end.
Definition set_inode (i : nat) (f : inode -> inode) : KM unit := kmod (fun s => s <| k_icache ::= alter f i |>).

(** ** The locks *)
Inductive slock := SBuf (i : nat) | SInode (i : nat).
Definition sl_spin (l : slock) : lockid :=
  match l with SBuf i => Lsleepbuf i | SInode i => Lsleepinode i end.
Definition sl_chan (l : slock) : chan :=
  match l with SBuf i => Csleepbuf i | SInode i => Csleepinode i end.
Definition get_sl (l : slock) : KM sleeplock :=
  match l with
  | SBuf i => b <- get_buf i ;; kret (b_lock b)
  | SInode i => x <- get_inode i ;; kret (i_lock x)
  end.
Definition set_sl (l : slock) (f : sleeplock -> sleeplock) : KM unit :=
  match l with
  | SBuf i => set_buf i (fun b => b <| b_lock ::= f |>)
  | SInode i => set_inode i (fun x => x <| i_lock ::= f |>)
  end.

Definition initsleeplock (l : slock) : KM unit :=
  initlock (sl_spin l) ;;;
  set_sl l (fun x => x <| sl_locked := 0 |>) ;;;
  set_sl l (fun x => x <| sl_pid := 0 |>).

Section SleeplockDefs.
Context `{Pt : Patience}.

(** [while (lk->locked) sleep(lk, &lk->lk);] *)
Fixpoint acquiresleep_loop (fuel : nat) (l : slock) : KM unit :=
  match fuel with
  | O => NoFuel
  | S k =>
      x <- get_sl l ;;
      if c_true (sl_locked x) then sleep (Some (sl_chan l)) (Some (sl_spin l)) ;;; acquiresleep_loop k l
      else kret tt
  end.

Definition acquiresleep (l : slock) : KM unit :=
  acquire (sl_spin l) ;;;
  acquiresleep_loop patience l ;;;
  set_sl l (fun x => x <| sl_locked := 1 |>) ;;;
  n <- mine pid ;;
  set_sl l (fun x => x <| sl_pid := n |>) ;;;
  release (sl_spin l).
End SleeplockDefs.

Definition releasesleep (l : slock) : KM unit :=
  acquire (sl_spin l) ;;;
  set_sl l (fun x => x <| sl_locked := 0 |>) ;;;
  set_sl l (fun x => x <| sl_pid := 0 |>) ;;;
  wakeup (Some (sl_chan l)) ;;;
  release (sl_spin l).

Definition holdingsleep (l : slock) : KM bool :=
  acquire (sl_spin l) ;;;
  x <- get_sl l ;;
  r <- (if c_true (sl_locked x) then (n <- mine pid ;; kret (sl_pid x =? n)) else kret false) ;;
  release (sl_spin l) ;;;
  kret r.
