(* ===== verification/Steady.v ===== *)
(** * Steady states

    A state is steady when the interrupt flag that [pushcli] records at depth
    zero is recorded already, as it is after the first lock operation of a
    system call.  In a steady state a critical section leaves the processor
    exactly as it was, so that operations built from critical sections are
    equations between states.  [env] collects what the file system relies on
    while one process runs in it: the processor is steady, the locks are free,
    and the process is in the table. *)

From stdpp Require Import base gmap strings list fin_maps.
From Stdlib Require Import ZArith Lia.
From S2P Require Import Prelude Mem Types Spinlock Kalloc Vm Proc ProcSpec Access Sleeplock.

Definition steady (s : kernel) (i : nat) (c : cpu) : Prop := quiet s i c /\ settlec (k_if s) c = c.

Lemma settle_steady s i c : steady s i c -> settle i s = s.
Proof.
  intros ((Hon & _) & Hs). unfold settle, update, upd_k_cpus.
  rewrite (list_alter_id_at _ (k_cpus s) i c); [by destruct s|apply Hon|done].
Qed.

Lemma steady_acq s i c l : steady s i c -> steady (acq i l s) i (pushc (k_if s) c).
Proof.
  intros (Hq & _). split; [by apply quiet_acq|]. unfold settlec. rewrite ncli_pushc.
  destruct Hq as (_ & Hn & _). by destruct (Z.eqb_spec (ncli c + 1) 0); [lia|].
Qed.

(** Locks are the only core field that may differ. *)
Lemma steady_ext s s' i c :
  k_if s' = k_if s -> k_apicid s' = k_apicid s -> k_cpus s' = k_cpus s -> k_ncpu s' = k_ncpu s ->
  steady s i c -> steady s' i c.
Proof. intros H1 H2 H3 H4 (Hq & Hs). unfold steady, quiet, on_cpu in *. by rewrite H1, H2, H3, H4. Qed.

Lemma recore_acq s i l : recore s (acq i l s) = s.
Proof. by destruct s. Qed.

Lemma release_acq s i c l : steady s i c -> free s l -> release l (acq i l s) = Ret tt s.
Proof.
  intros Hs Hf. erewrite (release_after s _ i c l (proj1 Hs) Hf) by done.
  by rewrite (settle_steady _ _ _ Hs), recore_acq.
Qed.

Lemma acquire_steady s i c l : steady s i c -> free s l -> acquire l s = Ret tt (acq i l s).
Proof. intros Hs Hf. by apply (acquire_run s i c l (proj1 Hs) Hf). Qed.

Lemma myproc_steady s i c : steady s i c -> myproc s = Ret (cpu_proc c) s.
Proof. intros Hs. rewrite (myproc_quiet s i c (proj1 Hs)). by rewrite (settle_steady _ _ _ Hs). Qed.

Lemma wakeup_steady s i c ch :
  steady s i c -> free s Lptable -> length (k_ptable s) = NPROC ->
  wakeup ch s = Ret tt (s <| k_ptable ::= fmap (wake ch) |>).
Proof.
  intros Hs Hf Hl. rewrite (wakeup_run s i c ch (proj1 Hs) Hf Hl). by rewrite (settle_steady _ _ _ Hs).
Qed.

(** ** The environment of a running process *)

(** The locks that are not held between the statements of a system call. *)
Definition static_lock (l : lockid) : Prop :=
  match l with
  | Lpipe _ => False
  | Lsleepbuf i => (i < NBUF)%nat
  | Lsleepinode i => (i < NINODE)%nat
  | _ => True
  end.

Record env (s : kernel) (i : nat) (c : cpu) (me : nat) (p : proc) : Prop := {
  env_steady : steady s i c;
  env_locks : forall l, static_lock l -> free s l;
  env_cur : cpu_proc c = Some me;
  env_proc : k_ptable s !! me = Some p;
  env_run : state p = RUNNING;
  env_len : length (k_ptable s) = NPROC
}.

Lemma wake_running ch p : state p = RUNNING -> wake ch p = p.
Proof. intros H. unfold wake. rewrite H. by rewrite bool_decide_eq_false_2. Qed.

(** The environment survives every change of other fields, and wakeups. *)
Lemma env_ext s s' i c me p :
  env s i c me p ->
  k_if s' = k_if s -> k_apicid s' = k_apicid s -> k_cpus s' = k_cpus s -> k_ncpu s' = k_ncpu s ->
  k_locks s' = k_locks s -> k_ptable s' = k_ptable s -> env s' i c me p.
Proof.
  intros [H1 H2 H3 H4 H5 H6] E1 E2 E3 E4 E5 E6. split; [by apply (steady_ext s)| |done|by rewrite E6|done|by rewrite E6].
  intros l Hl. unfold free. rewrite E5. by apply H2.
Qed.

Lemma env_wake s i c me p ch : env s i c me p -> env (s <| k_ptable ::= fmap (wake ch) |>) i c me p.
Proof.
  intros [H1 H2 H3 H4 H5 H6]. split; [done|done|done| |done|].
  - cbn. rewrite list_lookup_fmap, H4. cbn. by rewrite wake_running.
  - cbn. by rewrite length_fmap.
Qed.

Lemma env_wakeup s i c me p ch :
  env s i c me p -> wakeup ch s = Ret tt (s <| k_ptable ::= fmap (wake ch) |>).
Proof. intros H. apply (wakeup_steady s i c); [apply H|by apply (env_locks _ _ _ _ _ H)|apply H]. Qed.

Lemma mine_steady {A} (f : proc -> A) s i c me p :
  steady s i c -> cpu_proc c = Some me -> k_ptable s !! me = Some p -> mine f s = Ret (f p) s.
Proof.
  intros Hs Hc Hp. unfold mine. krun (myproc_steady s i c Hs). rewrite Hc.
  unfold deref, kret, kbind at 1. cbn [obind]. by krun (get_proc_run s me p Hp).
Qed.

Lemma env_mine {A} (f : proc -> A) s i c me p : env s i c me p -> mine f s = Ret (f p) s.
Proof. intros H. by apply (mine_steady f s i c me p); apply H. Qed.

(** The same inside a critical section. *)
Lemma cpu_proc_pushc b c : cpu_proc (pushc b c) = cpu_proc c.
Proof. unfold pushc. by destruct (ncli c =? 0). Qed.

Lemma env_mine_acq {A} (f : proc -> A) s i c me p l : env s i c me p -> mine f (acq i l s) = Ret (f p) (acq i l s).
Proof.
  intros H. apply (mine_steady f _ i (pushc (k_if s) c) me p); [apply steady_acq, H| |apply H].
  rewrite cpu_proc_pushc. apply H.
Qed.

Lemma env_wakeup_acq s i c me p l ch :
  env s i c me p -> l <> Lptable ->
  wakeup ch (acq i l s) = Ret tt (acq i l (s <| k_ptable ::= fmap (wake ch) |>)).
Proof.
  intros H Hl. rewrite (wakeup_steady (acq i l s) i (pushc (k_if s) c)); [done|apply steady_acq, H| |apply H].
  apply free_acq; [done|]. by apply (env_locks _ _ _ _ _ H).
Qed.

Lemma env_acquire s i c me p l : env s i c me p -> static_lock l -> acquire l s = Ret tt (acq i l s).
Proof. intros H Hl. apply (acquire_steady s i c); [apply H|by apply (env_locks _ _ _ _ _ H)]. Qed.

Lemma env_release s i c me p l : env s i c me p -> static_lock l -> release l (acq i l s) = Ret tt s.
Proof. intros H Hl. apply (release_acq s i c); [apply H|by apply (env_locks _ _ _ _ _ H)]. Qed.

(** ** Sleep locks *)

Definition sl_of (s : kernel) (l : slock) : option sleeplock :=
  match l with
  | SBuf k => b_lock <$> k_bufs s !! k
  | SInode k => i_lock <$> k_icache s !! k
  end.
Definition upd_sl (l : slock) (f : sleeplock -> sleeplock) (s : kernel) : kernel :=
  match l with
  | SBuf k => s <| k_bufs ::= alter (fun b => b <| b_lock ::= f |>) k |>
  | SInode k => s <| k_icache ::= alter (fun x => x <| i_lock ::= f |>) k |>
  end.
(** The lock with holder [n] ([0] when it is free). *)
Definition locked_by (n : Z) : sleeplock := mk_sleeplock 1 n.

Lemma get_sl_run s l x : sl_of s l = Some x -> get_sl l s = Ret x s.
Proof.
  destruct l as [k|k]; cbn; intros (y & Hy & ->)%fmap_Some; unfold get_sl, get_buf, get_inode, kbind; by rewrite Hy.
Qed.

Lemma set_sl_acq s l f i k : set_sl l f (acq i k s) = Ret tt (acq i k (upd_sl l f s)).
Proof. by destruct l. Qed.

Lemma upd_sl_compose s l f g : upd_sl l g (upd_sl l f s) = upd_sl l (fun x => g (f x)) s.
Proof.
  destruct l as [k|k]; cbn; unfold update, upd_k_bufs, upd_k_icache; cbn; by rewrite list_alter_alter_eq.
Qed.

Lemma sl_of_acq s l i k : sl_of (acq i k s) l = sl_of s l.
Proof. by destruct l. Qed.

Lemma env_upd_sl s i c me p l f : env s i c me p -> env (upd_sl l f s) i c me p.
Proof. intros H. destruct l; by apply (env_ext s). Qed.

#[export] Hint Resolve steady_acq env_wake env_upd_sl : kern.

Lemma sl_spin_neq l : sl_spin l <> Lptable.
Proof. by destruct l. Qed.

Section SleepRuns.
Variables (s : kernel) (i : nat) (c : cpu) (me : nat) (p : proc) (l : slock) (x : sleeplock).
Hypotheses (He : env s i c me p) (Hl : static_lock (sl_spin l)) (Hx : sl_of s l = Some x).

Lemma holdingsleep_run :
  holdingsleep l s = Ret (c_true (sl_locked x) && (sl_pid x =? pid p)) s.
Proof.
  unfold holdingsleep. krun (env_acquire s i c me p _ He Hl).
  krun (get_sl_run (acq i (sl_spin l) s) l x ltac:(by rewrite sl_of_acq)).
  destruct (c_true (sl_locked x)); cbn [andb]; unfold kbind at 1.
  - krun (env_mine_acq pid s i c me p (sl_spin l) He). unfold kret. cbn [obind]. by krun (env_release s i c me p _ He Hl).
  - unfold kret. cbn [obind]. by krun (env_release s i c me p _ He Hl).
Qed.

Lemma acquiresleep_run `{Pt : Patience} :
  sl_locked x = 0 -> (0 < patience)%nat ->
  acquiresleep l s = Ret tt (upd_sl l (fun _ => locked_by (pid p)) s).
Proof.
  intros H0 Hpt. unfold acquiresleep. krun (env_acquire s i c me p _ He Hl).
  unfold patience in *. destruct Pt as [|k]; [lia|]. cbn [acquiresleep_loop].
  unfold kbind at 1. krun (get_sl_run (acq i (sl_spin l) s) l x ltac:(by rewrite sl_of_acq)).
  rewrite H0. change (c_true 0) with false. cbn [obind kret].
  krun (set_sl_acq s l (fun x => x <| sl_locked := 1 |>) i (sl_spin l)).
  pose proof (env_upd_sl s i c me p l (fun x => x <| sl_locked := 1 |>) He) as He1.
  krun (env_mine_acq pid _ i c me p (sl_spin l) He1). krun (set_sl_acq (upd_sl l (fun x => x <| sl_locked := 1 |>) s) l (fun x => x <| sl_pid := pid p |>) i (sl_spin l)).
  rewrite upd_sl_compose. rewrite (env_release _ i c me p _ (env_upd_sl s i c me p l _ He) Hl).
  reflexivity.
Qed.

Lemma releasesleep_run :
  releasesleep l s = Ret tt ((upd_sl l (fun _ => zero_sleeplock) s) <| k_ptable ::= fmap (wake (Some (sl_chan l))) |>).
Proof.
  unfold releasesleep. krun (env_acquire s i c me p _ He Hl).
  krun (set_sl_acq s l (fun x => x <| sl_locked := 0 |>) i (sl_spin l)).
  krun (set_sl_acq (upd_sl l (fun x => x <| sl_locked := 0 |>) s) l (fun x => x <| sl_pid := 0 |>) i (sl_spin l)).
  rewrite upd_sl_compose.
  pose proof (env_upd_sl s i c me p l (fun x => x <| sl_locked := 0 |> <| sl_pid := 0 |>) He) as He1.
  krun (env_wakeup_acq _ i c me p (sl_spin l) (Some (sl_chan l)) He1 (sl_spin_neq l)).
  rewrite (env_release _ i c me p _ (env_wake _ i c me p _ He1) Hl). reflexivity.
Qed.
End SleepRuns.

(** ** A kernel that runs one process *)

Definition run_cpu : cpu := boot_cpu <| intena := FL_IF |>.
Definition run_proc : proc := zero_proc <| state := RUNNING |> <| pid := 1 |>.
Definition running : kernel := boot <| k_cpus := [run_cpu] |> <| k_ptable ::= insert 0%nat run_proc |>.

Lemma running_locks l : static_lock l -> free running l.
Proof.
  destruct l as [| | | | | | | | |k|k|k]; cbn [static_lock]; intros Hl; try done.
  - assert (E : Forall (fun k => free running (Lsleepbuf k)) (seq 0 NBUF)) by (repeat constructor).
    rewrite Forall_forall in E. apply E, elem_of_seq. lia.
  - assert (E : Forall (fun k => free running (Lsleepinode k)) (seq 0 NINODE)) by (repeat constructor).
    rewrite Forall_forall in E. apply E, elem_of_seq. lia.
Qed.

Lemma running_env : env running 0 run_cpu 0 run_proc.
Proof.
  split; [|apply running_locks|done..]. split; [|done]. split; [|split; [cbn; lia|done]].
  split; [done|]. split; [done|]. split; [done|]. intros j d Hj. lia.
Qed.
