(* ===== verification/Disk.v ===== *)
(** * Disk drivers

    The contract between the buffer cache and a driver is the class
    [DiskDriver]: [iderw] synchronises a locked buffer with the disk.  The two
    drivers of the repository implement it: [memide.c], which keeps the disk in
    memory, and [ide.c], which talks to an IDE controller through its
    registers and completes a request in its interrupt handler. *)

From stdpp Require Import base gmap strings list fin_maps.
From Stdlib Require Import ZArith Lia.
From S2P Require Import Prelude Mem Types Spinlock Kalloc Vm Proc Access Sleeplock Apic.

Class DiskDriver := iderw : nat -> KM unit.

(** ** The disk *)
Definition zero_block : list Z := replicate (Z.to_nat BSIZE) 0.
Definition disk_block (s : kernel) (b : Z) : list Z := default zero_block (k_disk s !! b).
Definition disk_write (b : Z) (d : list Z) : KM unit :=
  kmod (fun s => s <| k_disk ::= insert b d |>) ;;;
  kmod (fun s => s <| k_dwrites ::= fun l => l ++ [(b, d)] |>).

(** ** [memide.c] *)
Module Memide.

(** [_binary_fs_img_size] is an argument: the size of the linked image. *)
Definition ideinit_mem (img_size : Z) : KM unit :=
  kmod (fun s => s <| k_disksize := u32 img_size / BSIZE |>).

Definition ideintr_mem : KM unit := kret tt.

Definition iderw_mem (i : nat) : KM unit :=
  h <- holdingsleep (SBuf i) ;;
  if negb h then kpanic "iderw: buf not locked" else
  b <- get_buf i ;;
  if Z.land (b_flags b) (Z.lor B_VALID B_DIRTY) =? B_VALID then kpanic "iderw: nothing to do" else
  if negb (b_dev b =? 1) then kpanic "iderw: request not for disk 1" else
  n <- kget k_disksize ;;
  if u32 n <=? b_blockno b then kpanic "iderw: block out of range" else
  (if c_true (Z.land (b_flags b) B_DIRTY) then
     set_buf i (fun b => b <| b_flags ::= fun f => Z.land f (Z.lnot B_DIRTY) |>) ;;;
     disk_write (b_blockno b) (b_data b)
   else
     d <- kget (fun s => disk_block s (b_blockno b)) ;;
     set_buf i (fun b => b <| b_data := d |>)) ;;;
  set_buf i (fun b => b <| b_flags ::= fun f => Z.lor f B_VALID |>).
End Memide.

(** ** [ide.c] *)
Module Ide.

Definition SECTOR_SIZE : Z := 512.
Definition IDE_BSY : Z := 0x80.
Definition IDE_DRDY : Z := 0x40.
Definition IDE_DF : Z := 0x20.
Definition IDE_ERR : Z := 0x01.
Definition IDE_CMD_READ : Z := 0x20.
Definition IDE_CMD_WRITE : Z := 0x30.
Definition IDE_CMD_RDMUL : Z := 0xc4.
Definition IDE_CMD_WRMUL : Z := 0xc5.

(** The controller: what a read of a port yields is a parameter; the bytes
    written to the ports are kept in [k_ports] ([Apic]).  The data of a write goes to the
    block whose number the registers hold, on the drive they select; only
    drive 1 holds a file system. *)
Definition reg (s : kernel) (port : Z) : Z := default 0 (k_ports s !! port).
Definition lba (s : kernel) : Z :=
  reg s 0x1f3 + 256 * reg s 0x1f4 + 65536 * reg s 0x1f5 + 16777216 * (reg s 0x1f6 mod 16).
Definition drive (s : kernel) : Z := reg s 0x1f6 / 16 mod 2.
Definition outsl (d : list Z) : KM unit :=
  b <- kget lba ;;
  v <- kget drive ;;
  if v =? 1 then disk_write b d else kundef "disk 0".
Definition insl (i : nat) : KM unit :=
  d <- kget (fun s => disk_block s (lba s)) ;;
  v <- kget drive ;;
  if v =? 1 then set_buf i (fun b => b <| b_data := d |>) else kundef "disk 0".

Section IdeDefs.
Context `{Pt : Patience} `{P : Ports}.

(** [while(((r = inb(0x1f7)) & (IDE_BSY|IDE_DRDY)) != IDE_DRDY);] *)
Fixpoint idewait_loop (fuel : nat) : KM Z :=
  match fuel with
  | O => NoFuel
  | S k =>
      r <- inb 0x1f7 ;;
      if negb (Z.land r (Z.lor IDE_BSY IDE_DRDY) =? IDE_DRDY) then idewait_loop k else kret r
  end.

Definition idewait (checkerr : bool) : KM Z :=
  r <- idewait_loop patience ;;
  kret (if checkerr && negb (Z.land r (Z.lor IDE_DF IDE_ERR) =? 0) then -1 else 0).

Definition ideinit_ide : KM unit :=
  initlock Lide ;;;
  n <- kget k_ncpu ;;
  Ioapic.ioapicenable IRQ_IDE (n - 1) ;;;
  idewait false ;;;
  outb 0x1f6 (Z.lor 0xe0 (Z.shiftl 1 4)) ;;;
  kfor (seq 0 1000) (fun _ =>
    r <- inb 0x1f7 ;;
    if negb (r =? 0) then kmod (fun s => s <| k_havedisk1 := 1 |>) ;;; kret (Some tt) else kret None) ;;;
  outb 0x1f6 (Z.lor 0xe0 (Z.shiftl 0 4)).

Definition idestart (o : option nat) : KM unit :=
  match o with
  | None => kpanic "idestart"
  | Some i =>
      b <- get_buf i ;;
      if FSSIZE <=? b_blockno b then kpanic "incorrect blockno" else
      let sector_per_block := BSIZE / SECTOR_SIZE in
      let sector := b_blockno b * sector_per_block in
      let read_cmd := if sector_per_block =? 1 then IDE_CMD_READ else IDE_CMD_RDMUL in
      let write_cmd := if sector_per_block =? 1 then IDE_CMD_WRITE else IDE_CMD_WRMUL in
      if 7 <? sector_per_block then kpanic "idestart" else
      idewait false ;;;
      outb 0x3f6 0 ;;;
      outb 0x1f2 sector_per_block ;;;
      outb 0x1f3 (Z.land sector 0xff) ;;;
      outb 0x1f4 (Z.land (Z.shiftr sector 8) 0xff) ;;;
      outb 0x1f5 (Z.land (Z.shiftr sector 16) 0xff) ;;;
      outb 0x1f6 (Z.lor (Z.lor 0xe0 (Z.shiftl (Z.land (b_dev b) 1) 4)) (Z.land (Z.shiftr sector 24) 0x0f)) ;;;
      if c_true (Z.land (b_flags b) B_DIRTY) then
        outb 0x1f7 write_cmd ;;;
        outsl (b_data b)
      else outb 0x1f7 read_cmd
  end.

Definition ideintr_ide : KM unit :=
  acquire Lide ;;;
  q <- kget k_ideq ;;
  match q with
  | [] => release Lide
  | i :: q' =>
      kmod (fun s => s <| k_ideq := q' |>) ;;;
      b <- get_buf i ;;
      (when negb (c_true (Z.land (b_flags b) B_DIRTY)) do
         (r <- idewait true ;; when 0 <=? r do insl i)) ;;;
      set_buf i (fun b => b <| b_flags ::= fun f => Z.lor f B_VALID |>) ;;;
      set_buf i (fun b => b <| b_flags ::= fun f => Z.land f (Z.lnot B_DIRTY) |>) ;;;
      wakeup (Some (Cbuf i)) ;;;
      q <- kget k_ideq ;;
      (match q with [] => kret tt | j :: _ => idestart (Some j) end) ;;;
      release Lide
  end.

(** [while((b->flags & (B_VALID|B_DIRTY)) != B_VALID) sleep(b, &idelock);] *)
Fixpoint iderw_loop (fuel : nat) (i : nat) : KM unit :=
  match fuel with
  | O => NoFuel
  | S k =>
      b <- get_buf i ;;
      if negb (Z.land (b_flags b) (Z.lor B_VALID B_DIRTY) =? B_VALID)
      then sleep (Some (Cbuf i)) (Some Lide) ;;; iderw_loop k i
      else kret tt
  end.

Definition iderw_ide (i : nat) : KM unit :=
  h <- holdingsleep (SBuf i) ;;
  if negb h then kpanic "iderw: buf not locked" else
  b <- get_buf i ;;
  if Z.land (b_flags b) (Z.lor B_VALID B_DIRTY) =? B_VALID then kpanic "iderw: nothing to do" else
  d1 <- kget k_havedisk1 ;;
  if negb (b_dev b =? 0) && negb (c_true d1) then kpanic "iderw: ide disk 1 not present" else
  acquire Lide ;;;
  kmod (fun s => s <| k_ideq ::= fun q => q ++ [i] |>) ;;;
  q <- kget k_ideq ;;
  (when bool_decide (head q = Some i) do idestart (Some i)) ;;;
  iderw_loop patience i ;;;
  release Lide.
End IdeDefs.
End Ide.

#[export] Instance memide : DiskDriver := Memide.iderw_mem.
Definition ide `{Patience} `{Ports} : DiskDriver := Ide.iderw_ide.
