(* ===== verification/Bio.v ===== *)
(** * The buffer cache

    [bio.c].  The circular list through [prev] and [next] is the list [k_lru] of
    the buffers from [head.next], the most recently used, to [head.prev]. *)

From stdpp Require Import base gmap strings list fin_maps.
From Stdlib Require Import ZArith Lia.
From S2P Require Import Prelude Mem Types Spinlock Kalloc Vm Proc Access Sleeplock Disk.

Definition binit : KM unit :=
  initlock Lbcache ;;;
  kmod (fun s => s <| k_lru := [] |>) ;;;
  keach (seq 0 NBUF) (fun i =>
    initsleeplock (SBuf i) ;;;
    kmod (fun s => s <| k_lru ::= cons i |>)).

Section BioDefs.
Context `{Pt : Patience} `{D : DiskDriver}.

Definition bget (dev blockno : Z) : KM nat :=
  acquire Lbcache ;;;
  lru <- kget k_lru ;;
  r <- kfor lru (fun i =>
         b <- get_buf i ;;
         if (b_dev b =? dev) && (b_blockno b =? blockno) then
           set_buf i (fun b => b <| b_refcnt ::= fun n => u32 (n + 1) |>) ;;;
           release Lbcache ;;;
           acquiresleep (SBuf i) ;;;
           kret (Some i)
         else kret None) ;;
  match r with
  | Some i => kret i
  | None =>
      r <- kfor (rev lru) (fun i =>
             b <- get_buf i ;;
             if (b_refcnt b =? 0) && (Z.land (b_flags b) B_DIRTY =? 0) then
               set_buf i (fun b => b <| b_dev := dev |>) ;;;
               set_buf i (fun b => b <| b_blockno := blockno |>) ;;;
               set_buf i (fun b => b <| b_flags := 0 |>) ;;;
               set_buf i (fun b => b <| b_refcnt := 1 |>) ;;;
               release Lbcache ;;;
               acquiresleep (SBuf i) ;;;
               kret (Some i)
             else kret None) ;;
      match r with
      | Some i => kret i
      | None => kpanic "bget: no buffers"
      end
  end.

Definition bread (dev blockno : Z) : KM nat :=
  i <- bget dev blockno ;;
  b <- get_buf i ;;
  (when Z.land (b_flags b) B_VALID =? 0 do iderw i) ;;;
  kret i.

Definition bwrite (i : nat) : KM unit :=
  h <- holdingsleep (SBuf i) ;;
  if negb h then kpanic "bwrite" else
  set_buf i (fun b => b <| b_flags ::= fun f => Z.lor f B_DIRTY |>) ;;;
  iderw i.
End BioDefs.

Definition brelse (i : nat) : KM unit :=
  h <- holdingsleep (SBuf i) ;;
  if negb h then kpanic "brelse" else
  releasesleep (SBuf i) ;;;
  acquire Lbcache ;;;
  set_buf i (fun b => b <| b_refcnt ::= fun n => u32 (n - 1) |>) ;;;
  b <- get_buf i ;;
  (when b_refcnt b =? 0 do
     kmod (fun s => s <| k_lru ::= fun l => i :: base.filter (fun j => j <> i) l |>)) ;;;
  release Lbcache.
