(* ===== verification/BioSpec.v ===== *)
(** * The buffer cache is a consistent view of the disk

    The cache invariant [cache] and what [bread], [bwrite] and [brelse] do to
    it, over the driver of [memide.c].  The buffers [held] are locked by the
    current process; [view] is the content of every block as the kernel sees
    it, from the cache or from the disk. *)

From stdpp Require Import base gmap strings list fin_maps.
From Stdlib Require Import ZArith Lia.
From S2P Require Import Prelude Mem Types Spinlock Kalloc Vm Proc ProcSpec Access Sleeplock Steady Disk Bio.

(** ** The invariant *)

Definition is_block (b : Z) (x : buf) : Prop := b_dev x = 1 /\ b_blockno x = b.
#[global] Instance is_block_dec b x : Decision (is_block b x).
Proof. unfold is_block. apply _. Defined.

Definition usable (fl : Z) : Prop := fl = 2 \/ fl = 6.

Record held_ok (n : Z) (x : buf) : Prop := {
  ho_lock : b_lock x = locked_by n;
  ho_ref : b_refcnt x = 1;
  ho_dev : b_dev x = 1;
  ho_flags : usable (b_flags x)
}.

(** A buffer no one holds: never used, or a block that is on the disk unless
    it is dirty. *)
Record idle_ok (s : kernel) (x : buf) : Prop := {
  io_lock : b_lock x = zero_sleeplock;
  io_ref : b_refcnt x = 0;
  io_state : (b_flags x = 0 /\ b_dev x = 0) \/ (usable (b_flags x) /\ b_dev x = 1);
  io_clean : b_flags x = 2 -> b_data x = disk_block s (b_blockno x)
}.

Definition block_ok (s : kernel) (b : Z) : Prop := 0 <= b < k_disksize s.

Record cache (s : kernel) (n : Z) (hd : list nat) : Prop := {
  ca_len : length (k_bufs s) = NBUF;
  ca_lru : k_lru s ≡ₚ seq 0 NBUF;
  ca_size : 0 <= k_disksize s < 4294967296;
  ca_disk : forall b, length (disk_block s b) = 512%nat;
  ca_data : forall k x, k_bufs s !! k = Some x -> length (b_data x) = 512%nat /\ (b_dev x = 1 -> block_ok s (b_blockno x));
  ca_held : forall k x, k_bufs s !! k = Some x -> k ∈ hd -> held_ok n x;
  ca_idle : forall k x, k_bufs s !! k = Some x -> k ∉ hd -> idle_ok s x;
  ca_uniq : forall j k x y, k_bufs s !! j = Some x -> k_bufs s !! k = Some y ->
    b_dev x = 1 -> b_dev y = 1 -> b_blockno x = b_blockno y -> j = k
}.

Definition view (s : kernel) (b : Z) : list Z :=
  match list_find (is_block b) (k_bufs s) with
  | Some (_, x) => b_data x
  | None => disk_block s b
  end.

(** What the operations of the cache may change. *)
Definition fs_frame (s s' : kernel) : Prop :=
  exists pt bs lru dk dw,
    s' = s <| k_ptable := pt |> <| k_bufs := bs |> <| k_lru := lru |> <| k_disk := dk |> <| k_dwrites := dw |>.

Lemma fs_frame_refl s : fs_frame s s.
Proof. exists (k_ptable s), (k_bufs s), (k_lru s), (k_disk s), (k_dwrites s). by destruct s. Qed.

Lemma fs_frame_trans s1 s2 s3 : fs_frame s1 s2 -> fs_frame s2 s3 -> fs_frame s1 s3.
Proof. intros (? & ? & ? & ? & ? & ->) (pt & bs & lru & dk & dw & ->). by exists pt, bs, lru, dk, dw. Qed.

Lemma fs_frame_bufs s f : fs_frame s (s <| k_bufs ::= f |>).
Proof. exists (k_ptable s), (f (k_bufs s)), (k_lru s), (k_disk s), (k_dwrites s). by destruct s. Qed.

(** ** The view *)

Lemma cached_at s n hd k x :
  cache s n hd -> k_bufs s !! k = Some x -> b_dev x = 1 ->
  list_find (is_block (b_blockno x)) (k_bufs s) = Some (k, x).
Proof.
  intros Hc Hx Hd. apply list_find_Some. split; [done|]. split; [done|].
  intros j y Hy Hj [H1 H2]. assert (j = k) by (eapply (ca_uniq _ _ _ Hc); eauto). lia.
Qed.

Lemma view_buf s n hd k x : cache s n hd -> k_bufs s !! k = Some x -> b_dev x = 1 -> view s (b_blockno x) = b_data x.
Proof. intros Hc Hx Hd. unfold view. by rewrite (cached_at s n hd k x Hc Hx Hd). Qed.

Lemma view_disk s b : (forall k x, k_bufs s !! k = Some x -> ~ is_block b x) -> view s b = disk_block s b.
Proof.
  intros H. unfold view. destruct (list_find _ _) as [[k x]|] eqn:E; [|done].
  apply list_find_Some in E as (Hx & Hb & _). by destruct (H k x Hx).
Qed.

(** A cached block, or none. *)
Lemma cached_cases s b :
  (exists k x, k_bufs s !! k = Some x /\ is_block b x) \/ (forall k x, k_bufs s !! k = Some x -> ~ is_block b x).
Proof.
  destruct (list_find (is_block b) (k_bufs s)) as [[k x]|] eqn:E.
  - apply list_find_Some in E as (Hx & Hb & _). eauto.
  - right. intros k x Hx. rewrite list_find_None in E. rewrite Forall_forall in E. apply E.
    by eapply list_elem_of_lookup_2.
Qed.

Lemma view_length s n hd b : cache s n hd -> length (view s b) = 512%nat.
Proof.
  intros Hc. unfold view. destruct (list_find _ _) as [[k x]|] eqn:E; [|by apply (ca_disk _ _ _ Hc)].
  apply list_find_Some in E as (Hx & _). by apply (ca_data _ _ _ Hc k x).
Qed.

(** ** Loops over the list of buffers *)

Lemma kfor_skip {S X R} (body : X -> K S (option R)) l1 l2 s :
  (forall x, x ∈ l1 -> body x s = Ret None s) -> kfor (l1 ++ l2) body s = kfor l2 body s.
Proof.
  induction l1 as [|x l1 IH]; intros H; [done|]. cbn [app kfor]. unfold kbind at 1.
  rewrite (H x) by apply list_elem_of_here. cbn [obind]. apply IH. intros y Hy. apply H. by apply list_elem_of_further.
Qed.

Lemma kfor_all {S X R} (body : X -> K S (option R)) l s :
  (forall x, x ∈ l -> body x s = Ret None s) -> kfor l body s = Ret None s.
Proof. intros H. rewrite <- (app_nil_r l), (kfor_skip body l [] s H). done. Qed.

Lemma kfor_hit {S X R} (body : X -> K S (option R)) x l s r s' :
  body x s = Ret (Some r) s' -> kfor (x :: l) body s = Ret (Some r) s'.
Proof. intros H. cbn [kfor]. unfold kbind. by rewrite H. Qed.

Lemma kfor_hit_at {S X R} (P : X -> Prop) `{!forall x, Decision (P x)} (body : X -> K S (option R)) l s :
  (exists x, x ∈ l /\ P x) -> (forall x, x ∈ l -> ~ P x -> body x s = Ret None s) ->
  exists x, x ∈ l /\ P x /\ forall r s', body x s = Ret (Some r) s' -> kfor l body s = Ret (Some r) s'.
Proof.
  intros (x & Hx & HP) Hno.
  destruct (list_find P l) as [[k y]|] eqn:E.
  2:{ rewrite list_find_None, Forall_forall in E. by destruct (E x Hx). }
  apply list_find_Some in E as (Hk & Hy & Hbefore). exists y.
  split; [by eapply list_elem_of_lookup_2|]. split; [done|]. intros r s' Hb.
  rewrite <- (take_drop_middle l k y Hk), kfor_skip; [by apply kfor_hit|].
  intros z Hz. apply list_elem_of_lookup in Hz as (j & Hj). apply lookup_take_Some in Hj as [Hj Hjk].
  apply Hno; [by eapply list_elem_of_lookup_2|]. by apply (Hbefore j z).
Qed.

Definition upd_buf (k : nat) (f : buf -> buf) (s : kernel) : kernel := s <| k_bufs ::= alter f k |>.

Lemma upd_buf_compose s k f g : upd_buf k g (upd_buf k f s) = upd_buf k (fun b => g (f b)) s.
Proof. unfold upd_buf, update, upd_k_bufs. cbn. by rewrite list_alter_alter_eq. Qed.

Lemma set_buf_run k f s : set_buf k f s = Ret tt (upd_buf k f s).
Proof. done. Qed.

Lemma get_buf_run k x s : k_bufs s !! k = Some x -> get_buf k s = Ret x s.
Proof. intros H. unfold get_buf. by rewrite H. Qed.

Lemma env_upd_buf s i c me p k f : env s i c me p -> env (upd_buf k f s) i c me p.
Proof. intros H. by apply (env_ext s). Qed.

#[export] Hint Resolve env_upd_buf : kern.

Lemma lookup_upd_buf s k f x : k_bufs s !! k = Some x -> k_bufs (upd_buf k f s) !! k = Some (f x).
Proof. intros H. unfold upd_buf. cbn. by rewrite list_lookup_alter_eq, H. Qed.

Section BioSpec.
Context `{Pt : Patience}.
Hypothesis Hpat : (0 < patience)%nat.

(** The lock of a buffer is taken, whatever else changed. *)
Lemma lock_buf s i c me p k x :
  env s i c me p -> (k < NBUF)%nat -> k_bufs s !! k = Some x -> b_lock x = zero_sleeplock ->
  acquiresleep (SBuf k) s = Ret tt (upd_buf k (fun b => b <| b_lock := locked_by (pid p) |>) s).
Proof.
  intros He Hk Hx Hl. apply (acquiresleep_run s i c me p (SBuf k) zero_sleeplock He Hk); [|done|done].
  cbn. rewrite Hx. cbn. by rewrite Hl.
Qed.

Definition claim (n : Z) (b : buf) : buf := b <| b_refcnt := 1 |> <| b_lock := locked_by n |>.
Definition recycle (bno n : Z) (b : buf) : buf :=
  b <| b_dev := 1 |> <| b_blockno := bno |> <| b_flags := 0 |> <| b_refcnt := 1 |> <| b_lock := locked_by n |>.

Definition avail (s : kernel) : Prop :=
  exists k x, k_bufs s !! k = Some x /\ b_refcnt x = 0 /\ Z.land (b_flags x) B_DIRTY = 0.

Lemma cache_lru s n hd k x : cache s n hd -> k_bufs s !! k = Some x -> k ∈ k_lru s /\ (k < NBUF)%nat.
Proof.
  clear Hpat. intros Hc Hx. apply lookup_lt_Some in Hx. rewrite (ca_len _ _ _ Hc) in Hx. split; [|done].
  rewrite (ca_lru _ _ _ Hc). apply elem_of_seq. lia.
Qed.

Lemma lru_lookup s n hd k : cache s n hd -> k ∈ k_lru s -> exists x, k_bufs s !! k = Some x.
Proof.
  intros Hc Hk. rewrite (ca_lru _ _ _ Hc) in Hk. apply elem_of_seq in Hk.
  apply lookup_lt_is_Some_2. rewrite (ca_len _ _ _ Hc). lia.
Qed.

(** [bget] on a block that is cached and free. *)
Lemma bget_cached s i c me p hd k x :
  env s i c me p -> cache s (pid p) hd -> k_bufs s !! k = Some x -> k ∉ hd -> b_dev x = 1 ->
  bget 1 (b_blockno x) s = Ret k (upd_buf k (claim (pid p)) s).
Proof.
  intros He Hc Hx Hk Hd. destruct (cache_lru _ _ _ _ _ Hc Hx) as [Hin Hlt].
  pose proof (ca_idle _ _ _ Hc k x Hx Hk) as Hidle.
  unfold bget. krun (env_acquire s i c me p Lbcache He I). unfold kget, kbind at 1. cbn [obind].
  change (k_lru (acq i Lbcache s)) with (k_lru s).
  match goal with |- context [kfor (k_lru s) ?b] => set (body := b) end.
  destruct (kfor_hit_at (fun j => j = k) body (k_lru s) (acq i Lbcache s)) as (j & _ & -> & Hhit).
  { eauto. }
  { intros j Hj Hne. destruct (lru_lookup _ _ _ _ Hc Hj) as (y & Hy). unfold body.
    krun (get_buf_run j y (acq i Lbcache s) Hy).
    destruct (Z.eqb_spec (b_dev y) 1) as [E1|]; [|done].
    destruct (Z.eqb_spec (b_blockno y) (b_blockno x)) as [E2|]; [|done].
    destruct Hne. by eapply (ca_uniq _ _ _ Hc). }
  unfold kbind at 1. rewrite (Hhit k (upd_buf k (claim (pid p)) s)); [done|].
  unfold body. krun (get_buf_run k x (acq i Lbcache s) Hx). rewrite Hd, Z.eqb_refl, Z.eqb_refl. cbn [andb].
  krun (set_buf_run k (fun b => b <| b_refcnt ::= fun n => u32 (n + 1) |>) (acq i Lbcache s)).
  set (s1 := upd_buf k (fun b => b <| b_refcnt ::= fun n => u32 (n + 1) |>) s).
  assert (He1 : env s1 i c me p) by (by apply env_upd_buf).
  change (upd_buf k _ (acq i Lbcache s)) with (acq i Lbcache s1).
  krun (env_release s1 i c me p Lbcache He1 I).
  krun (lock_buf s1 i c me p k (x <| b_refcnt ::= fun n => u32 (n + 1) |>) He1 Hlt
    ltac:(unfold s1; by rewrite (lookup_upd_buf s k _ x Hx)) (io_lock _ _ Hidle)).
  unfold kret. f_equal. unfold s1. rewrite upd_buf_compose. unfold upd_buf, update, upd_k_bufs. f_equal.
  apply list_alter_ext; [|done]. intros y Hy. simplify_eq. unfold claim, update, upd_b_refcnt, upd_b_lock. cbn.
  by rewrite (io_ref _ _ Hidle).
Qed.

(** [bget] on a block that is not cached: it recycles an available buffer. *)
Lemma bget_new s i c me p hd b :
  env s i c me p -> cache s (pid p) hd -> avail s -> (forall k x, k_bufs s !! k = Some x -> ~ is_block b x) ->
  exists k x, k_bufs s !! k = Some x /\ k ∉ hd /\ Z.land (b_flags x) B_DIRTY = 0 /\
    bget 1 b s = Ret k (upd_buf k (recycle b (pid p)) s).
Proof.
  intros He Hc (k0 & x0 & Hx0 & Hr0 & Hf0) Hno.
  unfold bget. krun (env_acquire s i c me p Lbcache He I). unfold kget, kbind at 1. cbn [obind].
  change (k_lru (acq i Lbcache s)) with (k_lru s).
  unfold kbind at 1. rewrite (kfor_all _ (k_lru s)).
  2:{ intros j Hj. destruct (lru_lookup _ _ _ _ Hc Hj) as (y & Hy).
      krun (get_buf_run j y (acq i Lbcache s) Hy). destruct (_ && _) eqn:E; [|done].
      apply andb_true_iff in E as [E1%Z.eqb_eq E2%Z.eqb_eq]. by destruct (Hno j y Hy). }
  cbn [obind].
  set (P := fun j : nat => match k_bufs s !! j with
    | Some x => b_refcnt x = 0 /\ Z.land (b_flags x) B_DIRTY = 0 | None => False end).
  assert (Pdec : forall j, Decision (P j)) by (intros j; unfold P; destruct (k_bufs s !! j); apply _).
  match goal with |- context [kfor (rev (k_lru s)) ?b] => set (body := b) end.
  destruct (kfor_hit_at P body (rev (k_lru s)) (acq i Lbcache s)) as (k & Hk & HP & Hhit).
  { exists k0. split; [|unfold P; by rewrite Hx0]. apply list_elem_of_In, in_rev. rewrite rev_involutive.
    apply list_elem_of_In. by apply (cache_lru _ _ _ _ _ Hc Hx0). }
  { intros j Hj HnP. apply list_elem_of_In, in_rev in Hj. apply list_elem_of_In in Hj.
    destruct (lru_lookup _ _ _ _ Hc Hj) as (y & Hy). unfold body.
    krun (get_buf_run j y (acq i Lbcache s) Hy). destruct (_ && _) eqn:E; [|done].
    apply andb_true_iff in E as [E1%Z.eqb_eq E2%Z.eqb_eq]. destruct HnP. unfold P. by rewrite Hy. }
  unfold P in HP. destruct (k_bufs s !! k) as [x|] eqn:Hx; [|done]. destruct HP as [Hr Hf].
  assert (Hnh : k ∉ hd). { intros Hh. pose proof (ho_ref _ _ (ca_held _ _ _ Hc k x Hx Hh)). lia. }
  pose proof (ca_idle _ _ _ Hc k x Hx Hnh) as Hidle. destruct (cache_lru _ _ _ _ _ Hc Hx) as [_ Hlt].
  exists k, x. split; [done|]. split; [done|]. split; [done|].
  unfold kbind at 1. rewrite (Hhit k (upd_buf k (recycle b (pid p)) s)); [done|].
  unfold body. krun (get_buf_run k x (acq i Lbcache s) Hx). rewrite Hr, Hf. change ((0 =? 0) && (0 =? 0)) with true. cbv iota.
  do 4 (unfold kbind at 1; rewrite set_buf_run; cbn [obind]). rewrite !upd_buf_compose.
  match goal with |- context [upd_buf k ?g _] => set (f := g) end.
  assert (He1 : env (upd_buf k f s) i c me p) by eauto with kern.
  change (upd_buf k f (acq i Lbcache s)) with (acq i Lbcache (upd_buf k f s)).
  krun (env_release _ i c me p Lbcache He1 I).
  krun (lock_buf _ i c me p k (f x) He1 Hlt (lookup_upd_buf s k f x Hx) (io_lock _ _ Hidle)).
  unfold kret. by rewrite upd_buf_compose.
Qed.

(** ** Changing one buffer *)

Lemma lookup_upd s k f j : k_bufs (upd_buf k f s) !! j = if decide (j = k) then f <$> k_bufs s !! k else k_bufs s !! j.
Proof.
  unfold upd_buf. cbn. case_decide as E; [subst; by rewrite list_lookup_alter_eq|by rewrite list_lookup_alter_ne].
Qed.

Lemma cache_upd s n hd hd' k f x :
  cache s n hd -> k_bufs s !! k = Some x ->
  length (b_data (f x)) = 512%nat -> (b_dev (f x) = 1 -> block_ok s (b_blockno (f x))) ->
  (k ∈ hd' -> held_ok n (f x)) -> (k ∉ hd' -> idle_ok s (f x)) ->
  (forall j, j <> k -> j ∈ hd' <-> j ∈ hd) ->
  (forall j y, j <> k -> k_bufs s !! j = Some y -> b_dev y = 1 -> b_dev (f x) = 1 -> b_blockno y <> b_blockno (f x)) ->
  cache (upd_buf k f s) n hd'.
Proof.
  intros [H1 H2 H3 H4 H5 H6 H7 H8] Hx Hlen Hblk Hheld Hidle Hhd Hun. split.
  - unfold upd_buf. cbn. by rewrite length_alter.
  - done.
  - done.
  - done.
  - intros j y. rewrite lookup_upd. case_decide as E; [rewrite Hx; cbn; intros [= <-]; by split|]. apply H5.
  - intros j y. rewrite lookup_upd. case_decide as E; [subst; rewrite Hx; cbn; intros [= <-]; auto|].
    intros Hy Hj. apply (H6 j y Hy). by apply Hhd.
  - intros j y. rewrite lookup_upd. case_decide as E.
    + subst. rewrite Hx. cbn. intros [= <-] Hk. by destruct (Hidle Hk).
    + intros Hy Hj. rewrite Hhd in Hj by done. by destruct (H7 j y Hy Hj).
  - intros j j' y y'. rewrite !lookup_upd. case_decide as E; case_decide as E'; subst; rewrite ?Hx; cbn; [done| | |by apply H8].
    + intros [= <-] Hy' D1 D2 Eb. by destruct (Hun j' y' E' Hy' D2 D1).
    + intros Hy [= <-] D1 D2 Eb. by destruct (Hun j y E Hy D1 D2).
Qed.

Lemma view_intro s b d :
  (forall k x, k_bufs s !! k = Some x -> is_block b x -> b_data x = d) ->
  ((forall k x, k_bufs s !! k = Some x -> ~ is_block b x) -> disk_block s b = d) -> view s b = d.
Proof.
  intros H1 H2. unfold view. destruct (list_find _ _) as [[k x]|] eqn:E.
  - apply list_find_Some in E as (Hx & Hb & _). eauto.
  - apply H2. intros k x Hx. rewrite list_find_None, Forall_forall in E. apply E. by eapply list_elem_of_lookup_2.
Qed.

(** The view changes only at the block of the buffer, when the old block of
    the buffer is on the disk or stays. *)
Lemma view_upd s n hd hd' k f x b :
  cache s n hd -> k_bufs s !! k = Some x -> cache (upd_buf k f s) n hd' ->
  (b_dev x = 1 -> b_blockno x <> b_blockno (f x) -> b_data x = disk_block s (b_blockno x)) -> b_dev (f x) = 1 ->
  view (upd_buf k f s) b = if decide (b = b_blockno (f x)) then b_data (f x) else view s b.
Proof.
  intros Hc Hx Hc' Hold Hd.
  assert (Hfx : k_bufs (upd_buf k f s) !! k = Some (f x)) by (by apply lookup_upd_buf).
  case_decide as E; [subst; by apply (view_buf _ _ _ _ _ Hc' Hfx Hd)|].
  apply view_intro.
  - intros j y. rewrite lookup_upd. case_decide as Ej.
    + subst j. rewrite Hx. cbn. intros [= <-] [_ ?]. congruence.
    + intros Hy [D B]. subst b. symmetry. by apply (view_buf s n hd j y Hc).
  - intros Hnone. change (disk_block (upd_buf k f s) b) with (disk_block s b).
    symmetry. apply view_intro; [|done]. intros j y Hy [D B].
    destruct (decide (j = k)) as [->|Ej].
    + simplify_eq. apply Hold; [done|congruence].
    + exfalso. apply (Hnone j y); [|done]. rewrite lookup_upd. by case_decide.
Qed.

(** ** [bread] *)

Definition read_in (s : kernel) (b n : Z) : buf :=
  mk_buf 2 1 b (locked_by n) 1 (disk_block s b).

Lemma iderw_read s i c me p k x :
  env s i c me p -> (k < NBUF)%nat -> k_bufs s !! k = Some x -> b_lock x = locked_by (pid p) ->
  b_flags x = 0 -> b_dev x = 1 -> 0 <= b_blockno x < k_disksize s -> k_disksize s < 4294967296 ->
  iderw k s = Ret tt (upd_buf k (fun b => b <| b_data := disk_block s (b_blockno x) |> <| b_flags := 2 |>) s).
Proof.
  intros He Hk Hx Hl Hf Hd Hb Hs. unfold iderw, memide, Memide.iderw_mem.
  krun (holdingsleep_run s i c me p (SBuf k) (locked_by (pid p)) He Hk ltac:(cbn; rewrite Hx; cbn; by rewrite Hl)).
  change (c_true (sl_locked (locked_by (pid p)))) with true. cbn [sl_pid locked_by]. rewrite Z.eqb_refl. cbn [andb negb].
  krun (get_buf_run k x s Hx). rewrite Hf, Hd. change (Z.land 0 (Z.lor B_VALID B_DIRTY) =? B_VALID) with false. cbn [negb].
  change (1 =? 1) with true. cbn [negb]. unfold kget at 1, kbind at 1. cbn [obind].
  rewrite u32_id by lia. destruct (Z.leb_spec (k_disksize s) (b_blockno x)); [lia|].
  change (c_true (Z.land 0 B_DIRTY)) with false. cbv iota. unfold kbind at 1, kget, kbind at 1. cbn [obind].
  rewrite !set_buf_run. cbn [obind]. rewrite set_buf_run, upd_buf_compose. f_equal.
  unfold upd_buf, update, upd_k_bufs. f_equal. apply list_alter_ext; [|done]. intros y Hy. simplify_eq.
  unfold update, upd_b_flags, upd_b_data. cbn. by rewrite Hf.
Qed.

Lemma cache_usable s n hd k x : cache s n hd -> k_bufs s !! k = Some x -> b_dev x = 1 -> usable (b_flags x).
Proof.
  intros Hc Hx Hd. destruct (decide (k ∈ hd)) as [Hk|Hk].
  - apply (ca_held _ _ _ Hc k x Hx Hk).
  - destruct (io_state _ _ (ca_idle _ _ _ Hc k x Hx Hk)) as [[_ ?]|[? _]]; [lia|done].
Qed.

(** What [bread] returns: the buffer [k] with the contents [y]. *)
Record bread_post (s : kernel) (n : Z) (hd : list nat) (b : Z) (k : nat) (y : buf) : Prop := {
  bp_new : k ∉ hd;
  bp_blockno : b_blockno y = b;
  bp_held : held_ok n y;
  bp_data : b_data y = view s b;
  bp_cache : cache (upd_buf k (fun _ => y) s) n (k :: hd);
  bp_view : forall b', view (upd_buf k (fun _ => y) s) b' = view s b';
  bp_clean : b_flags y = 2 -> b_data y = disk_block s b;
  bp_dirty : exists x, k_bufs s !! k = Some x /\ (b_flags x = 6 <-> b_flags y = 6) /\ (b_flags x = 6 -> b_blockno x = b)
}.

Lemma upd_buf_const s k f x : k_bufs s !! k = Some x -> upd_buf k f s = upd_buf k (fun _ => f x) s.
Proof.
  intros Hx. unfold upd_buf, update, upd_k_bufs. f_equal. apply list_alter_ext; [|done]. intros y Hy. by simplify_eq.
Qed.

Lemma bread_cached s i c me p hd k x :
  env s i c me p -> cache s (pid p) hd -> k_bufs s !! k = Some x -> k ∉ hd -> b_dev x = 1 ->
  bread 1 (b_blockno x) s = Ret k (upd_buf k (fun _ => claim (pid p) x) s) /\
  bread_post s (pid p) hd (b_blockno x) k (claim (pid p) x).
Proof.
  intros He Hc Hx Hk Hd. pose proof (cache_usable _ _ _ _ _ Hc Hx Hd) as Hu. split.
  - unfold bread. krun (bget_cached s i c me p hd k x He Hc Hx Hk Hd).
    krun (get_buf_run k (claim (pid p) x) _ (lookup_upd_buf s k _ x Hx)).
    assert (E : Z.land (b_flags (claim (pid p) x)) B_VALID =? 0 = false) by (by destruct Hu as [E|E]; cbn; rewrite E).
    rewrite E. unfold kret, kbind. cbn [obind]. by rewrite (upd_buf_const s k _ x Hx).
  - destruct (ca_data _ _ _ Hc k x Hx) as [Hlen Hblk].
    assert (Hcache : cache (upd_buf k (fun _ => claim (pid p) x) s) (pid p) (k :: hd)).
    { eapply (cache_upd s (pid p) hd (k :: hd) k (fun _ => claim (pid p) x)); [done|done|done|done| | | |].
      - intros _. split; done.
      - intros H. destruct H. apply list_elem_of_here.
      - intros j Hj. rewrite elem_of_cons. tauto.
      - intros j y Hj Hy D1 _ E. destruct Hj. by eapply (ca_uniq _ _ _ Hc). }
    split; [done|done|done| |done| | |].
    + symmetry. exact (view_buf s (pid p) hd k x Hc Hx Hd).
    + intros b'. rewrite (view_upd s (pid p) hd (k :: hd) k _ x b' Hc Hx Hcache); [|done|done].
      case_decide as E; [|done]. subst. symmetry. exact (view_buf s (pid p) hd k x Hc Hx Hd).
    + intros E. exact (io_clean _ _ (ca_idle _ _ _ Hc k x Hx Hk) E).
    + exists x. done.
Qed.

Lemma bread_new s i c me p hd b :
  env s i c me p -> cache s (pid p) hd -> avail s -> block_ok s b ->
  (forall k x, k_bufs s !! k = Some x -> ~ is_block b x) ->
  exists k, bread 1 b s = Ret k (upd_buf k (fun _ => read_in s b (pid p)) s) /\
    bread_post s (pid p) hd b k (read_in s b (pid p)).
Proof.
  intros He Hc Ha Hb Hno. destruct (bget_new s i c me p hd b He Hc Ha Hno) as (k & x & Hx & Hk & Hf & Hget).
  exists k. destruct (cache_lru _ _ _ _ _ Hc Hx) as [_ Hlt]. pose proof (ca_idle _ _ _ Hc k x Hx Hk) as Hidle. split.
  - unfold bread. krun Hget. krun (get_buf_run k (recycle b (pid p) x) _ (lookup_upd_buf s k _ x Hx)).
    change (Z.land (b_flags (recycle b (pid p) x)) B_VALID =? 0) with true. cbv iota.
    assert (He1 : env (upd_buf k (recycle b (pid p)) s) i c me p) by eauto with kern.
    pose proof (ca_size _ _ _ Hc) as Hsz.
    krun (iderw_read _ i c me p k (recycle b (pid p) x) He1 Hlt (lookup_upd_buf s k _ x Hx) eq_refl eq_refl eq_refl Hb (proj2 Hsz)).
    unfold kret. rewrite upd_buf_compose, (upd_buf_const s k _ x Hx). reflexivity.
  - assert (Hcache : cache (upd_buf k (fun _ => read_in s b (pid p)) s) (pid p) (k :: hd)).
    { eapply (cache_upd s (pid p) hd (k :: hd) k (fun _ => read_in s b (pid p))); [done|done|apply (ca_disk _ _ _ Hc)|done| | | |].
      - intros _. split; try done. by left.
      - intros H. destruct H. apply list_elem_of_here.
      - intros j Hj. rewrite elem_of_cons. tauto.
      - intros j y Hj Hy D1 _ E. by apply (Hno j y Hy). }
    split; [done|done| | |done| | |].
    + split; try done. by left.
    + symmetry. by apply view_disk.
    + intros b'. rewrite (view_upd s (pid p) hd (k :: hd) k _ x b' Hc Hx Hcache); [|intros D E|done].
      * case_decide as E; [|done]. subst. symmetry. by apply view_disk.
      * apply (io_clean _ _ Hidle). destruct (io_state _ _ Hidle) as [[? ?]|[[?|E'] _]]; [lia|done|].
        rewrite E' in Hf. done.
    + done.
    + exists x. split; [done|]. split.
      * split; [|done]. intros E. by rewrite E in Hf.
      * intros E. by rewrite E in Hf.
Qed.

(** [bread] in general: the block must not be held already, and a buffer must
    be available if it is not cached. *)
Lemma bread_run s i c me p hd b :
  env s i c me p -> cache s (pid p) hd -> block_ok s b ->
  (forall k x, k ∈ hd -> k_bufs s !! k = Some x -> b_blockno x <> b) ->
  avail s \/ (exists k x, k_bufs s !! k = Some x /\ is_block b x) ->
  exists k y, bread 1 b s = Ret k (upd_buf k (fun _ => y) s) /\ bread_post s (pid p) hd b k y.
Proof.
  intros He Hc Hb Hnh Hor. destruct (cached_cases s b) as [(k & x & Hx & Hd & <-)|Hno].
  - exists k, (claim (pid p) x). apply (bread_cached s i c me p hd k x He Hc Hx); [|done].
    intros Hk. by destruct (Hnh k x Hk Hx).
  - destruct Hor as [Ha|(k & x & Hx & Hbx)]; [|by destruct (Hno k x Hx)].
    destruct (bread_new s i c me p hd b He Hc Ha Hb Hno) as (k & Hk). by exists k, (read_in s b (pid p)).
Qed.

(** ** [bwrite] *)

Definition written (k : nat) (x : buf) (s : kernel) : kernel :=
  (upd_buf k (fun b => b <| b_flags := 2 |>) s) <| k_disk ::= insert (b_blockno x) (b_data x) |>
    <| k_dwrites ::= fun l => l ++ [(b_blockno x, b_data x)] |>.

Lemma disk_written s k x b :
  disk_block (written k x s) b = if decide (b = b_blockno x) then b_data x else disk_block s b.
Proof.
  unfold disk_block, written. cbn. case_decide as E; [subst; by rewrite lookup_insert_eq|by rewrite lookup_insert_ne].
Qed.

Lemma bwrite_run s i c me p hd k x :
  env s i c me p -> cache s (pid p) hd -> k ∈ hd -> k_bufs s !! k = Some x ->
  bwrite k s = Ret tt (written k x s).
Proof.
  clear Hpat. intros He Hc Hk Hx. destruct (ca_held _ _ _ Hc k x Hx Hk) as [Hl Hr Hd Hf].
  destruct (cache_lru _ _ _ _ _ Hc Hx) as [_ Hlt]. destruct (ca_data _ _ _ Hc k x Hx) as [Hlen Hb].
  pose proof (Hb Hd) as Hblk. pose proof (ca_size _ _ _ Hc) as Hsz. unfold block_ok in Hblk.
  assert (Hown : forall s', env s' i c me p -> b_lock <$> k_bufs s' !! k = Some (locked_by (pid p)) ->
    holdingsleep (SBuf k) s' = Ret true s').
  { intros s' He' Hs'. rewrite (holdingsleep_run s' i c me p (SBuf k) (locked_by (pid p)) He' Hlt Hs').
    change (c_true (sl_locked (locked_by (pid p)))) with true. cbn [sl_pid locked_by]. by rewrite Z.eqb_refl. }
  unfold bwrite. krun (Hown s He ltac:(by rewrite Hx; cbn; rewrite Hl)). cbn [negb].
  krun (set_buf_run k (fun b => b <| b_flags ::= fun f => Z.lor f B_DIRTY |>) s).
  set (s1 := upd_buf k _ s). assert (He1 : env s1 i c me p) by (by apply env_upd_buf).
  assert (Hx1 : k_bufs s1 !! k = Some (x <| b_flags := 6 |>)).
  { unfold s1. rewrite (lookup_upd_buf s k _ x Hx). f_equal. unfold update, upd_b_flags. cbn.
    by destruct Hf as [->| ->]. }
  unfold iderw, memide, Memide.iderw_mem. krun (Hown s1 He1 ltac:(rewrite Hx1; cbn; by rewrite Hl)). cbn [negb].
  krun (get_buf_run k _ s1 Hx1). cbn [b_flags b_dev b_blockno b_data update upd_b_flags]. rewrite Hd.
  change (Z.land 6 (Z.lor B_VALID B_DIRTY) =? B_VALID) with false. change (negb (1 =? 1)) with false. cbv iota.
  unfold kget, kbind at 1. cbn [obind]. change (k_disksize s1) with (k_disksize s). rewrite u32_id by lia.
  destruct (Z.leb_spec (k_disksize s) (b_blockno x)); [lia|]. change (c_true (Z.land 6 B_DIRTY)) with true. cbv iota.
  unfold kbind at 1 2. rewrite set_buf_run. cbn [obind]. unfold disk_write, kmod, kbind. cbn [obind]. rewrite set_buf_run.
  f_equal. set (g := fun b : buf => b <| b_flags ::= fun f => Z.lor f B_VALID |>).
  set (h := fun b : buf => b <| b_flags ::= fun f => Z.land f (Z.lnot B_DIRTY) |>).
  assert (E : alter g k (alter h k (k_bufs s1)) = alter (fun b : buf => b <| b_flags := 2 |>) k (k_bufs s)).
  { change (k_bufs s1) with (alter (fun b : buf => b <| b_flags ::= fun f => Z.lor f B_DIRTY |>) k (k_bufs s)).
    rewrite !list_alter_alter_eq. apply list_alter_ext; [|done]. intros y Hy. simplify_eq.
    unfold g, h, update, upd_b_flags. cbn. by destruct Hf as [->| ->]. }
  transitivity (s <| k_bufs := alter g k (alter h k (k_bufs s1)) |> <| k_disk ::= insert (b_blockno x) (b_data x) |>
    <| k_dwrites ::= fun l => l ++ [(b_blockno x, b_data x)] |>); [reflexivity|]. rewrite E. reflexivity.
Qed.

Lemma cache_written s n hd k x :
  cache s n hd -> k ∈ hd -> k_bufs s !! k = Some x -> cache (written k x s) n hd.
Proof.
  clear Hpat. intros Hc Hk Hx. destruct (ca_held _ _ _ Hc k x Hx Hk) as [Hl Hr Hd Hf]. destruct (ca_data _ _ _ Hc k x Hx) as [Hlen Hb].
  assert (Hc1 : cache (upd_buf k (fun b => b <| b_flags := 2 |>) s) n hd).
  { eapply (cache_upd s n hd hd k _ x); [done|done|done|done| |done|done|].
    - intros _. split; try done. by left.
    - intros j y Hj Hy D1 _ E. destruct Hj. by apply (ca_uniq _ _ _ Hc j k y x). }
  destruct Hc1 as [H1 H2 H3 H4 H5 H6 H7 H8]. split; [done|done|done| |done|done| |done].
  - intros b. rewrite disk_written. case_decide; [done|apply H4].
  - intros j y Hy Hj. destruct (H7 j y Hy Hj) as [G1 G2 G3 G4]. split; [done|done|done|].
    intros E. rewrite disk_written. case_decide as Eb; [|by apply G4]. exfalso.
    assert (j = k); [|by subst].
    apply (H8 j k y (x <| b_flags := 2 |>) Hy (lookup_upd_buf s k _ x Hx)); [|done|done].
    destruct G3 as [[? ?]|[? ?]]; [lia|done].
Qed.

Lemma view_written s n hd k x b :
  cache s n hd -> k ∈ hd -> k_bufs s !! k = Some x -> view (written k x s) b = view s b.
Proof.
  clear Hpat. intros Hc Hk Hx. destruct (ca_held _ _ _ Hc k x Hx Hk) as [Hl Hr Hd Hf]. symmetry. apply view_intro.
  - intros j y Hy [D <-]. pose proof (cache_written s n hd k x Hc Hk Hx) as Hc1.
    destruct (decide (j = k)) as [->|Hj].
    + simplify_eq. symmetry. exact (view_buf _ n hd k (x <| b_flags := 2 |>) Hc1 (lookup_upd_buf s k _ x Hx) Hd).
    + symmetry. apply (view_buf _ n hd j y Hc1); [|done]. change (k_bufs (upd_buf k (fun b => b <| b_flags := 2 |>) s) !! j = Some y).
      rewrite lookup_upd. by case_decide.
  - intros Hno. symmetry. rewrite view_disk.
    + rewrite disk_written. case_decide as E; [|done]. subst. by destruct (Hno k x Hx).
    + intros j y Hy Hb. change (k_bufs (written k x s)) with (k_bufs (upd_buf k (fun b => b <| b_flags := 2 |>) s)) in Hy.
      rewrite lookup_upd in Hy. case_decide as Ej; [|by apply (Hno j y)].
      rewrite Hx in Hy. cbn in Hy. injection Hy as <-. by apply (Hno k x Hx).
Qed.

(** ** [brelse] *)

Definition unhold (k : nat) (s : kernel) : kernel :=
  (upd_buf k (fun b => b <| b_lock := zero_sleeplock |> <| b_refcnt := 0 |>) s)
    <| k_ptable ::= fmap (wake (Some (Csleepbuf k))) |> <| k_lru ::= fun l => k :: base.filter (fun j => j <> k) l |>.

Lemma brelse_run s i c me p hd k x :
  env s i c me p -> cache s (pid p) hd -> k ∈ hd -> k_bufs s !! k = Some x -> brelse k s = Ret tt (unhold k s).
Proof.
  intros He Hc Hk Hx. destruct (ca_held _ _ _ Hc k x Hx Hk) as [Hl Hr Hd Hf].
  destruct (cache_lru _ _ _ _ _ Hc Hx) as [_ Hlt].
  assert (Hsl : sl_of s (SBuf k) = Some (locked_by (pid p))) by (cbn; rewrite Hx; cbn; by rewrite Hl).
  unfold brelse. krun (holdingsleep_run s i c me p (SBuf k) (locked_by (pid p)) He Hlt Hsl).
  change (c_true (sl_locked (locked_by (pid p)))) with true. cbn [sl_pid locked_by]. rewrite Z.eqb_refl. cbn [andb negb].
  krun (releasesleep_run s i c me p (SBuf k) He Hlt). cbn [upd_sl sl_chan].
  set (s1 := (s <| k_bufs ::= _ |>) <| k_ptable ::= _ |>).
  assert (He1 : env s1 i c me p) by (apply env_wake; by apply (env_ext s)).
  krun (env_acquire s1 i c me p Lbcache He1 I).
  krun (set_buf_run k (fun b => b <| b_refcnt ::= fun n => u32 (n - 1) |>) (acq i Lbcache s1)).
  set (f := fun b : buf => b <| b_refcnt ::= fun n => u32 (n - 1) |>).
  change (upd_buf k f (acq i Lbcache s1)) with (acq i Lbcache (upd_buf k f s1)).
  assert (Hx1 : k_bufs s1 !! k = Some (x <| b_lock := zero_sleeplock |>)).
  { unfold s1. cbn. by rewrite list_lookup_alter_eq, Hx. }
  krun (get_buf_run k _ (acq i Lbcache (upd_buf k f s1)) (lookup_upd_buf s1 k f _ Hx1)).
  assert (E0 : b_refcnt (f (x <| b_lock := zero_sleeplock |>)) =? 0 = true) by (cbn; by rewrite Hr).
  rewrite E0. unfold kmod, kbind. cbn [obind].
  match goal with |- release Lbcache ?t = _ => change t with (acq i Lbcache ((upd_buf k f s1) <| k_lru ::= fun l => k :: base.filter (fun j => j <> k) l |>)) end.
  rewrite (env_release _ i c me p Lbcache); [|apply (env_ext (upd_buf k f s1)); [by apply env_upd_buf|done..]|done].
  f_equal.
  assert (E : alter f k (alter (fun b : buf => b <| b_lock ::= fun _ => zero_sleeplock |>) k (k_bufs s)) =
    alter (fun b : buf => b <| b_lock := zero_sleeplock |> <| b_refcnt := 0 |>) k (k_bufs s)).
  { rewrite list_alter_alter_eq. apply list_alter_ext; [|done]. intros y Hy. simplify_eq.
    unfold f, update, upd_b_refcnt, upd_b_lock. cbn. by rewrite Hr. }
  transitivity (s <| k_bufs := alter f k (alter (fun b : buf => b <| b_lock ::= fun _ => zero_sleeplock |>) k (k_bufs s)) |>
    <| k_ptable ::= fmap (wake (Some (Csleepbuf k))) |> <| k_lru ::= fun l => k :: base.filter (fun j => j <> k) l |>);
    [reflexivity|]. rewrite E. reflexivity.
Qed.

Lemma filter_keep (k : nat) (l : list nat) : k ∉ l -> base.filter (fun j => j <> k) l = l.
Proof.
  induction l as [|j l IH]; intros Hk; [done|]. apply not_elem_of_cons in Hk as [Hj Hk].
  rewrite filter_cons_True by congruence. by rewrite IH.
Qed.

Lemma filter_move (k : nat) (l : list nat) : NoDup l -> k ∈ l -> k :: base.filter (fun j => j <> k) l ≡ₚ l.
Proof.
  induction l as [|j l IH]; intros Hnd Hk; [by apply not_elem_of_nil in Hk|].
  apply NoDup_cons in Hnd as [Hj Hnd]. destruct (decide (j = k)) as [->|Hne].
  - rewrite filter_cons_False by (intros H; by apply H). by rewrite filter_keep.
  - rewrite filter_cons_True by done. apply elem_of_cons in Hk as [->|Hk]; [done|].
    rewrite perm_swap. apply perm_skip. by apply IH.
Qed.

Lemma cache_unhold s n hd k x :
  cache s n (k :: hd) -> k ∉ hd -> k_bufs s !! k = Some x ->
  (b_flags x = 2 -> b_data x = disk_block s (b_blockno x)) -> cache (unhold k s) n hd.
Proof.
  clear Hpat. intros Hc Hk Hx Hclean. destruct (ca_held _ _ _ Hc k x Hx ltac:(apply list_elem_of_here)) as [Hl Hr Hd Hf].
  destruct (ca_data _ _ _ Hc k x Hx) as [Hlen Hb].
  assert (Hc1 : cache (upd_buf k (fun b => b <| b_lock := zero_sleeplock |> <| b_refcnt := 0 |>) s) n hd).
  { eapply (cache_upd s n (k :: hd) hd k _ x); [done|done|done|done|done| | |].
    - intros _. split; [done|done|by right|done].
    - intros j Hj. rewrite elem_of_cons. tauto.
    - intros j y Hj Hy D1 _ E. destruct Hj. by apply (ca_uniq _ _ _ Hc j k y x). }
  destruct Hc1 as [H1 H2 H3 H4 H5 H6 H7 H8]. split; [done| |done|done|done|done| |done].
  - change (k :: base.filter (fun j => j <> k) (k_lru s) ≡ₚ seq 0 NBUF).
    rewrite filter_move; [apply (ca_lru _ _ _ Hc)| |apply (cache_lru _ _ _ _ _ Hc Hx)].
    rewrite (ca_lru _ _ _ Hc). apply NoDup_seq.
  - intros j y Hy Hj. by destruct (H7 j y Hy Hj).
Qed.

Lemma view_unhold s n hd k x b :
  cache s n (k :: hd) -> k_bufs s !! k = Some x -> view (unhold k s) b = view s b.
Proof.
  clear Hpat. intros Hc Hx. symmetry. apply view_intro.
  - intros j y Hy [D <-]. unfold view.
    assert (E : list_find (is_block (b_blockno y)) (k_bufs (unhold k s)) =
      Some (j, if decide (j = k) then y <| b_lock := zero_sleeplock |> <| b_refcnt := 0 |> else y)).
    { change (k_bufs (unhold k s)) with (k_bufs (upd_buf k (fun b => b <| b_lock := zero_sleeplock |> <| b_refcnt := 0 |>) s)).
      apply list_find_Some. split; [rewrite lookup_upd; case_decide; subst; [by rewrite Hy|done]|].
      split; [by case_decide|]. intros j' y' Hy' Hlt [D' B']. rewrite lookup_upd in Hy'. case_decide as Ej.
      - subst. rewrite Hx in Hy'. cbn in Hy'. injection Hy' as <-.
        assert (k = j) by (by apply (ca_uniq _ _ _ Hc k j x y)). lia.
      - assert (j' = j) by (by apply (ca_uniq _ _ _ Hc j' j y' y)). lia. }
    rewrite E. by case_decide.
  - intros Hno. symmetry. rewrite view_disk; [done|]. intros j y Hy Hb.
    change (k_bufs (unhold k s)) with (k_bufs (upd_buf k (fun b => b <| b_lock := zero_sleeplock |> <| b_refcnt := 0 |>) s)) in Hy.
    rewrite lookup_upd in Hy. case_decide as Ej; [|by apply (Hno j y)].
    rewrite Hx in Hy. cbn in Hy. injection Hy as <-. by apply (Hno k x Hx).
Qed.

(** C24: [bread] on a consistent cache.  Whatever buffers the process already
    holds, reading a block it does not hold returns, provided the block is
    cached or some buffer is free and clean.  The buffer it returns is locked
    by the process and has the current contents of the block; no block
    changes, nothing is written to the disk, and the cache stays
    consistent. *)
Theorem bread_spec (s : kernel) i c me p hd b :
  env s i c me p -> cache s (pid p) hd -> block_ok s b ->
  (forall k x, k ∈ hd -> k_bufs s !! k = Some x -> b_blockno x <> b) ->
  avail s \/ (exists k x, k_bufs s !! k = Some x /\ is_block b x) ->
  exists k y s', bread 1 b s = Ret k s' /\ k_bufs s' !! k = Some y /\
    b_blockno y = b /\ b_data y = view s b /\ b_lock y = locked_by (pid p) /\
    cache s' (pid p) (k :: hd) /\ k_disk s' = k_disk s /\ k_dwrites s' = k_dwrites s /\
    forall b', view s' b' = view s b'.
Proof.
  intros He Hc Hb Hnh Hor. destruct (bread_run s i c me p hd b He Hc Hb Hnh Hor) as (k & y & Hr & Hp).
  destruct (bp_dirty _ _ _ _ _ _ Hp) as (x & Hx & _). exists k, y, (upd_buf k (fun _ => y) s).
  split; [done|]. split; [exact (lookup_upd_buf s k _ x Hx)|]. split; [apply Hp|]. split; [apply Hp|].
  split; [apply (bp_held _ _ _ _ _ _ Hp)|]. split; [apply Hp|]. split; [done|]. split; [done|]. apply Hp.
Qed.
End BioSpec.

(** ** Concrete caches *)

(** The running kernel with the buffers [used] and the disk [dk]. *)
Definition with_bufs (used : list buf) (dk : gmap Z (list Z)) : kernel :=
  running <| k_bufs := used ++ replicate (NBUF - length used) zero_buf |> <| k_disk := dk |>.

Lemma with_bufs_lookup used dk k x :
  k_bufs (with_bufs used dk) !! k = Some x -> x ∈ used \/ x = zero_buf.
Proof.
  intros Hx. apply list_elem_of_lookup_2, elem_of_app in Hx as [H|H]; [by left|right].
  apply list_elem_of_lookup in H as [j Hj]. by apply lookup_replicate in Hj as [-> _].
Qed.

Lemma with_bufs_cache used dk n :
  (length used <= NBUF)%nat -> (forall b, length (disk_block (with_bufs used dk) b) = 512%nat) ->
  Forall (fun x => idle_ok (with_bufs used dk) x /\ b_dev x = 1 /\ length (b_data x) = 512%nat /\ 0 <= b_blockno x < FSSIZE) used ->
  NoDup (b_blockno <$> used) -> cache (with_bufs used dk) n [].
Proof.
  intros Hlen Hdk Hused Hnd. rewrite Forall_forall in Hused. split; [| |done|done| | | |].
  - change (length (used ++ replicate (NBUF - length used) zero_buf) = NBUF). rewrite length_app, length_replicate. lia.
  - cbn. symmetry. apply Permutation_rev.
  - intros k x [Hx| ->]%with_bufs_lookup; [|done]. destruct (Hused x Hx) as (_ & _ & H1 & H2). done.
  - by intros k x _ ?%not_elem_of_nil.
  - intros k x [Hx| ->]%with_bufs_lookup _; [by apply Hused|]. split; try done. by left.
  - intros j k x y Hx Hy D1 D2 E.
    assert (Hin : forall k x, k_bufs (with_bufs used dk) !! k = Some x -> b_dev x = 1 -> used !! k = Some x).
    { intros k' x' H D. cbn in H. apply lookup_app_Some in H as [H|[_ H]]; [done|].
      apply lookup_replicate in H as [-> _]. done. }
    apply (NoDup_lookup (b_blockno <$> used) j k (b_blockno x)); [done|..]; rewrite list_lookup_fmap.
    + by rewrite (Hin j x Hx D1).
    + by rewrite (Hin k y Hy D2), E.
Qed.

Definition demo_bufs : kernel := with_bufs [mk_buf 2 1 7 zero_sleeplock 0 (replicate 512 5)] {[7 := replicate 512 5]}.

Lemma demo_disk_length b : length (disk_block demo_bufs b) = 512%nat.
Proof.
  unfold disk_block. cbn. destruct (decide (b = 7)) as [->|]; [by rewrite lookup_singleton_eq|by rewrite lookup_singleton_ne].
Qed.

Lemma demo_bufs_cache : cache demo_bufs (pid run_proc) [].
Proof.
  apply with_bufs_cache; [unfold NBUF; cbn; lia|apply demo_disk_length| |by repeat constructor; set_solver].
  apply Forall_singleton. split; [split; [done|done|right; split; [by left|done]|done]|].
  split; [done|]. split; [done|]. unfold FSSIZE. cbn. lia.
Qed.

Lemma bread_spec_witness :
  exists k y s', bread (Pt := 1%nat) 1 9 demo_bufs = Ret k s' /\ k_bufs s' !! k = Some y /\
    b_blockno y = 9 /\ b_data y = view demo_bufs 9 /\ b_lock y = locked_by 1 /\
    cache s' 1 [k] /\ k_disk s' = k_disk demo_bufs /\ k_dwrites s' = k_dwrites demo_bufs /\
    forall b', view s' b' = view demo_bufs b'.
Proof.
  apply (bread_spec (Pt := 1%nat) ltac:(unfold patience; lia) demo_bufs 0 run_cpu 0 run_proc [] 9).
  - by apply (env_ext running _ _ _ _ _ running_env).
  - apply demo_bufs_cache.
  - unfold block_ok. cbn. unfold FSSIZE. lia.
  - by intros k x ?%not_elem_of_nil.
  - left. by exists 1%nat, zero_buf.
Defined.
