(* ===== verification/Log.v ===== *)
(** * The log

    [log.c]: transactions over the buffer cache.  The header block of the log
    is the count and the block numbers, as little-endian words. *)

From stdpp Require Import base gmap strings list fin_maps.
From Stdlib Require Import ZArith Lia.
From S2P Require Import Prelude Mem Types Spinlock Kalloc Vm Proc Access Sleeplock Disk Bio.

Definition set_log (f : log_t -> log_t) : KM unit := kmod (fun s => s <| k_log ::= f |>).

(** [log.lh.block[i]], with the bounds of the array. *)
Definition get_block (i : Z) : KM Z := fun s =>
  if (0 <=? i) && (i <? LOGSIZE) then
    match lg_block (k_log s) !! Z.to_nat i with
    | Some b => Ret b s
    | None => Undef "log block index" s
    end
  else Undef "log block index" s.
Definition set_block (i v : Z) : KM unit :=
  if (0 <=? i) && (i <? LOGSIZE) then set_log (fun g => g <| lg_block ::= insert (Z.to_nat i) v |>)
  else kundef "log block index".

(** [struct superblock] at the start of a block. *)
Definition decode_sb (d : list Z) : superblock :=
  mk_superblock (get32 d 0) (get32 d 4) (get32 d 8) (get32 d 12) (get32 d 16) (get32 d 20) (get32 d 24).

Section LogDefs.
Context `{Pt : Patience} `{D : DiskDriver}.

(** [readsb] of [fs.c]. *)
Definition readsb (dev : Z) : KM superblock :=
  i <- bread dev 1 ;;
  b <- get_buf i ;;
  let sb := decode_sb (b_data b) in
  brelse i ;;;
  kret sb.

Definition install_trans : KM unit :=
  g <- kget k_log ;;
  keach (seqZ 0 (lg_n g)) (fun tail =>
    g <- kget k_log ;;
    lbuf <- bread (lg_dev g) (u32 (lg_start g + tail + 1)) ;;
    t <- get_block tail ;;
    dbuf <- bread (lg_dev g) (u32 t) ;;
    lb <- get_buf lbuf ;;
    set_buf dbuf (fun b => b <| b_data := b_data lb |>) ;;;
    bwrite dbuf ;;;
    brelse lbuf ;;;
    brelse dbuf).

Definition read_head : KM unit :=
  g <- kget k_log ;;
  i <- bread (lg_dev g) (u32 (lg_start g)) ;;
  b <- get_buf i ;;
  let n := i32 (get32 (b_data b) 0) in
  set_log (fun g => g <| lg_n := n |>) ;;;
  keach (seqZ 0 n) (fun k => set_block k (i32 (get32 (b_data b) (4 + 4 * k)))) ;;;
  brelse i.

Definition write_head : KM unit :=
  g <- kget k_log ;;
  i <- bread (lg_dev g) (u32 (lg_start g)) ;;
  set_buf i (fun b => b <| b_data ::= fun d => put32 d 0 (lg_n g) |>) ;;;
  keach (seqZ 0 (lg_n g)) (fun k =>
    v <- get_block k ;;
    set_buf i (fun b => b <| b_data ::= fun d => put32 d (4 + 4 * k) v |>)) ;;;
  bwrite i ;;;
  brelse i.

Definition recover_from_log : KM unit :=
  read_head ;;;
  install_trans ;;;
  set_log (fun g => g <| lg_n := 0 |>) ;;;
  write_head.

(** [sizeof(struct logheader)] is [4 + 4 * LOGSIZE]. *)
Definition initlog (dev : Z) : KM unit :=
  if BSIZE <=? 4 + 4 * LOGSIZE then kpanic "initlog: too big logheader" else
  initlock Llog ;;;
  sb <- readsb dev ;;
  set_log (fun g => g <| lg_start := i32 (sb_logstart sb) |>) ;;;
  set_log (fun g => g <| lg_size := i32 (sb_nlog sb) |>) ;;;
  set_log (fun g => g <| lg_dev := dev |>) ;;;
  recover_from_log.

(** The loop of [begin_op]. *)
Fixpoint begin_op_loop (fuel : nat) : KM unit :=
  match fuel with
  | O => NoFuel
  | S k =>
      g <- kget k_log ;;
      if c_true (lg_committing g) then sleep (Some Clog) (Some Llog) ;;; begin_op_loop k
      else if LOGSIZE <? lg_n g + (lg_outstanding g + 1) * MAXOPBLOCKS
      then sleep (Some Clog) (Some Llog) ;;; begin_op_loop k
      else
        set_log (fun g => g <| lg_outstanding ::= fun n => n + 1 |>) ;;;
        release Llog
  end.

Definition begin_op : KM unit :=
  acquire Llog ;;;
  begin_op_loop patience.

Definition write_log : KM unit :=
  g <- kget k_log ;;
  keach (seqZ 0 (lg_n g)) (fun tail =>
    g <- kget k_log ;;
    to <- bread (lg_dev g) (u32 (lg_start g + tail + 1)) ;;
    t <- get_block tail ;;
    from <- bread (lg_dev g) (u32 t) ;;
    fb <- get_buf from ;;
    set_buf to (fun b => b <| b_data := b_data fb |>) ;;;
    bwrite to ;;;
    brelse from ;;;
    brelse to).

Definition commit : KM unit :=
  g <- kget k_log ;;
  when 0 <? lg_n g do
    (write_log ;;;
     write_head ;;;
     install_trans ;;;
     set_log (fun g => g <| lg_n := 0 |>) ;;;
     write_head).

Definition end_op : KM unit :=
  acquire Llog ;;;
  set_log (fun g => g <| lg_outstanding ::= fun n => n - 1 |>) ;;;
  g <- kget k_log ;;
  if c_true (lg_committing g) then kpanic "log.committing" else
  do_commit <-
    (if lg_outstanding g =? 0 then set_log (fun g => g <| lg_committing := 1 |>) ;;; kret true
     else wakeup (Some Clog) ;;; kret false) ;;
  release Llog ;;;
  when (do_commit : bool) do
    (commit ;;;
     acquire Llog ;;;
     set_log (fun g => g <| lg_committing := 0 |>) ;;;
     wakeup (Some Clog) ;;;
     release Llog).
End LogDefs.

Definition log_write (i : nat) : KM unit :=
  g <- kget k_log ;;
  if (LOGSIZE <=? lg_n g) || (lg_size g - 1 <=? lg_n g) then kpanic "too big a transaction" else
  if lg_outstanding g <? 1 then kpanic "log_write outside of trans" else
  acquire Llog ;;;
  b <- get_buf i ;;
  g <- kget k_log ;;
  r <- kfor (seqZ 0 (lg_n g)) (fun k =>
         v <- get_block k ;;
         kret (if u32 v =? b_blockno b then Some k else None)) ;;
  let k := default (Z.max 0 (lg_n g)) r in
  set_block k (i32 (b_blockno b)) ;;;
  (when k =? lg_n g do set_log (fun g => g <| lg_n ::= fun n => n + 1 |>)) ;;;
  set_buf i (fun b => b <| b_flags ::= fun f => Z.lor f B_DIRTY |>) ;;;
  release Llog.
