(* ===== verification/LogSpec.v ===== *)
(** * The log makes transactions atomic

    The exact writes that [commit] sends to the disk, what recovery makes of
    any prefix of them, and the two together: a crash at any point of a commit
    leaves, after recovery, all of the transaction or none of it. *)

From stdpp Require Import base gmap strings list fin_maps.
From Stdlib Require Import ZArith Lia.
From S2P Require Import Prelude Mem Types Spinlock Kalloc Vm Proc ProcSpec Access Bytes Sleeplock Steady Disk Bio BioSpec Log.

(** ** Dirty blocks *)

Definition dirty (s : kernel) (b : Z) : Prop :=
  exists k x, k_bufs s !! k = Some x /\ is_block b x /\ b_flags x = 6.

Lemma dirty_upd s k f x b :
  k_bufs s !! k = Some x ->
  (is_block b x /\ b_flags x = 6 <-> is_block b (f x) /\ b_flags (f x) = 6) ->
  dirty (upd_buf k f s) b <-> dirty s b.
Proof.
  intros Hx Hf. split; intros (j & y & Hy & Hb).
  - rewrite lookup_upd in Hy. case_decide as E; [subst|by exists j, y].
    rewrite Hx in Hy. injection Hy as <-. exists k, x. split; [done|]. by apply Hf.
  - destruct (decide (j = k)) as [->|E].
    + simplify_eq. exists k, (f x). split; [by apply lookup_upd_buf|]. by apply Hf.
    + exists j, y. split; [|done]. rewrite lookup_upd. by case_decide.
Qed.

(** A buffer can be recycled as long as the held and the dirty ones do not
    fill the cache. *)
Lemma avail_count s n hd bl :
  cache s n hd -> (forall b, dirty s b -> b ∈ bl) -> (length hd + length bl < NBUF)%nat -> avail s.
Proof.
  intros Hc Hd Hlen. destruct (list_find (fun x => b_refcnt x = 0 /\ Z.land (b_flags x) B_DIRTY = 0) (k_bufs s)) as [[k x]|] eqn:E.
  { apply list_find_Some in E as (Hx & Hp & _). by exists k, x. }
  exfalso. rewrite list_find_None, Forall_forall in E.
  set (ks := List.filter (fun k => bool_decide (k ∉ hd)) (seq 0 NBUF)).
  assert (Hks : forall k, k ∈ ks -> exists x, k_bufs s !! k = Some x /\ b_dev x = 1 /\ b_blockno x ∈ bl).
  { intros k Hk. apply list_elem_of_In, filter_In in Hk as [Hk Hh]. apply bool_decide_eq_true in Hh.
    apply list_elem_of_In, elem_of_seq in Hk. rewrite <- (ca_len _ _ _ Hc) in Hk.
    destruct (lookup_lt_is_Some_2 (k_bufs s) k ltac:(lia)) as [x Hx]. exists x. split; [done|].
    destruct (ca_idle _ _ _ Hc k x Hx Hh) as [_ Hr Hst _].
    pose proof (E x (list_elem_of_lookup_2 _ _ _ Hx)) as Hn.
    destruct Hst as [[F _]|[[F|F] D]]; [by destruct Hn; rewrite F|by destruct Hn; rewrite F|].
    split; [done|]. apply Hd. by exists k, x. }
  assert (H1 : (NBUF <= length hd + length ks)%nat).
  { change NBUF with (length (seq 0 NBUF)) at 1. rewrite <- length_app. apply submseteq_length, NoDup_submseteq; [apply NoDup_seq|].
    intros k Hk. apply elem_of_app. destruct (decide (k ∈ hd)); [by left|right].
    apply list_elem_of_In, filter_In. split; [by apply list_elem_of_In|by apply bool_decide_eq_true]. }
  enough (length ks <= length bl)%nat by lia.
  set (f := fun k => default 0 (b_blockno <$> k_bufs s !! k)).
  rewrite <- (length_fmap f ks). apply submseteq_length, NoDup_submseteq.
  - apply NoDup_fmap_2_strong; [|apply NoDup_ListNoDup, List.NoDup_filter, NoDup_ListNoDup, NoDup_seq].
    intros j k Hj Hk Ef. destruct (Hks j Hj) as (x & Hx & Dx & _), (Hks k Hk) as (y & Hy & Dy & _).
    apply (ca_uniq _ _ _ Hc j k x y); [done..|]. unfold f in Ef. by rewrite Hx, Hy in Ef.
  - intros b (k & -> & Hk)%list_elem_of_fmap. destruct (Hks k Hk) as (x & Hx & _ & Hb). unfold f. by rewrite Hx.
Qed.

(** ** The log of a transaction *)

Definition nth_block (bl : list Z) (k : Z) : Z := default 0 (bl !! Z.to_nat k).

(** The header of the log with the block numbers [bl], over the old contents
    [d] of the block. *)
Definition head_of (bl : list Z) (d : list Z) : list Z :=
  foldl (fun d k => put32 d (4 + 4 * k) (nth_block bl k)) (put32 d 0 (Z.of_nat (length bl)))
    (seqZ 0 (Z.of_nat (length bl))).

(** The log in memory: it starts at block [st] and holds the blocks [bl],
    which are not blocks of the log itself. *)
Record txn (s : kernel) (st : Z) (bl : list Z) : Prop := {
  tx_dev : lg_dev (k_log s) = 1;
  tx_start : lg_start (k_log s) = st;
  tx_n : lg_n (k_log s) = Z.of_nat (length bl);
  tx_len : length (lg_block (k_log s)) = Z.to_nat LOGSIZE;
  tx_block : take (length bl) (lg_block (k_log s)) = bl;
  tx_max : Z.of_nat (length bl) < LOGSIZE;
  tx_area : 0 <= st /\ st + Z.of_nat (length bl) < k_disksize s;
  tx_home : forall b, b ∈ bl -> block_ok s b /\ (b < st \/ st + Z.of_nat (length bl) < b);
  tx_int : forall b, b ∈ bl -> b < 2147483648;
  tx_nodup : NoDup bl
}.

Lemma nth_block_elem bl k : 0 <= k < Z.of_nat (length bl) -> nth_block bl k ∈ bl.
Proof.
  intros H. unfold nth_block. destruct (lookup_lt_is_Some_2 bl (Z.to_nat k) ltac:(lia)) as [b Hb].
  rewrite Hb. by eapply list_elem_of_lookup_2.
Qed.

Lemma get_block_run s st bl k :
  txn s st bl -> 0 <= k < Z.of_nat (length bl) -> get_block k s = Ret (nth_block bl k) s.
Proof.
  intros H Hk. pose proof (tx_max _ _ _ H). unfold get_block.
  destruct (Z.leb_spec 0 k), (Z.ltb_spec k LOGSIZE); try lia. cbn [andb].
  unfold nth_block. rewrite <- (tx_block _ _ _ H), lookup_take_lt by lia.
  destruct (lookup_lt_is_Some_2 (lg_block (k_log s)) (Z.to_nat k)) as [b Hb]; [rewrite (tx_len _ _ _ H); lia|].
  by rewrite Hb.
Qed.

Lemma insert_app_snoc {A} (l1 l2 : list A) n x :
  length l1 = n -> (n < length l2)%nat -> <[n := x]> (l1 ++ drop n l2) = (l1 ++ [x]) ++ drop (n + 1) l2.
Proof.
  intros <- Hn. rewrite insert_app_r_alt by lia. rewrite Nat.sub_diag, <- app_assoc. f_equal.
  destruct (lookup_lt_is_Some_2 l2 (length l1) Hn) as [y Hy]. rewrite (drop_S _ _ _ Hy). cbn. by rewrite Nat.add_comm.
Qed.

Lemma seqZ_S m : 0 <= m -> seqZ 0 (m + 1) = seqZ 0 m ++ [m].
Proof. intros H. rewrite seqZ_app by lia. done. Qed.

(** Reading the header back. *)
Definition head_blocks (h : list Z) : list Z :=
  (fun k => i32 (get32 h (4 + 4 * k))) <$> seqZ 0 (i32 (get32 h 0)).

Lemma head_of_words bl d m :
  0 <= m <= Z.of_nat (length bl) -> Z.of_nat (length bl) < LOGSIZE -> length d = 512%nat ->
  let h := foldl (fun d k => put32 d (4 + 4 * k) (nth_block bl k)) (put32 d 0 (Z.of_nat (length bl))) (seqZ 0 m) in
  length h = 512%nat /\ get32 h 0 = u32 (Z.of_nat (length bl)) /\
  forall k, 0 <= k < m -> get32 h (4 + 4 * k) = u32 (nth_block bl k).
Proof.
  change LOGSIZE with 30. intros Hm Hl Hd. destruct Hm as [Hm Hle]. revert m Hm Hle.
  apply (natlike_ind (fun m => _ -> _)); cbn beta.
  - intros _. change (seqZ 0 0) with (@nil Z). cbn [foldl]. cbv zeta. rewrite length_put32. split; [done|]. split; [apply get32_put32_eq; lia|lia].
  - intros m Hm IH Hle. unfold Z.succ. rewrite (seqZ_S m Hm), foldl_app. cbn [foldl].
    destruct IH as (H1 & H2 & H3); [lia|]. cbv zeta. split; [by rewrite length_put32|]. split.
    + rewrite get32_put32_ne by lia. done.
    + intros k Hk. destruct (decide (k = m)) as [->|]; [apply get32_put32_eq; lia|].
      rewrite get32_put32_ne by lia. apply H3. lia.
Qed.

Lemma nth_block_seq bl : nth_block bl <$> seqZ 0 (Z.of_nat (length bl)) = bl.
Proof.
  apply list_eq. intros k. rewrite list_lookup_fmap. unfold nth_block.
  destruct (decide (k < length bl)%nat) as [Hk|Hk].
  - rewrite lookup_seqZ_lt by lia. cbn. destruct (lookup_lt_is_Some_2 bl k Hk) as [b Hb]. by rewrite Z.add_0_l, Nat2Z.id, Hb.
  - rewrite lookup_seqZ_ge by lia. cbn. symmetry. apply lookup_ge_None_2. lia.
Qed.

Lemma head_blocks_of bl d :
  Z.of_nat (length bl) < LOGSIZE -> length d = 512%nat -> (forall b, b ∈ bl -> 0 <= b < 2147483648) ->
  head_blocks (head_of bl d) = bl.
Proof.
  intros Hl Hd Hb. destruct (head_of_words bl d (Z.of_nat (length bl)) ltac:(lia) Hl Hd) as (H1 & H2 & H3).
  fold (head_of bl d) in *. unfold head_blocks.
  change LOGSIZE with 30 in Hl. rewrite H2, i32_u32, i32_id by lia.
  transitivity (nth_block bl <$> seqZ 0 (Z.of_nat (length bl))); [|apply nth_block_seq]. apply list_fmap_ext. intros j k Hk%list_elem_of_lookup_2%elem_of_seqZ.
  rewrite H3 by lia. rewrite i32_u32. apply i32_id. pose proof (Hb _ (nth_block_elem bl k ltac:(lia))). lia.
Qed.

Lemma txn_frame s s' st bl : txn s st bl -> fs_frame s s' -> txn s' st bl.
Proof. intros [? ? ? ? ? ? ? ? ? ?] (? & ? & ? & ? & ? & ->). by split. Qed.

(** ** Sequences of block writes *)

(** The blocks [f] after the writes [ws]. *)
Definition over (f : Z -> list Z) (ws : list (Z * list Z)) : Z -> list Z :=
  foldl (fun f w b => if decide (b = w.1) then w.2 else f b) f ws.

Lemma over_app f ws1 ws2 : over f (ws1 ++ ws2) = over (over f ws1) ws2.
Proof. apply foldl_app. Qed.

Lemma over_ext f g ws b : f b = g b -> over f ws b = over g ws b.
Proof. revert f g. induction ws as [|w ws IH]; intros f g H; [done|]. cbn. apply IH. by case_decide. Qed.

Lemma over_other f ws b : b ∉ ws.*1 -> over f ws b = f b.
Proof.
  revert f. induction ws as [|w ws IH]; intros f H; [done|]. cbn in H. apply not_elem_of_cons in H as [H1 H2].
  cbn. change (over (fun b => if decide (b = w.1) then w.2 else f b) ws b = f b).
  rewrite IH by done. by rewrite decide_False.
Qed.

Lemma over_hit f ws b d : NoDup ws.*1 -> (b, d) ∈ ws -> over f ws b = d.
Proof.
  revert f. induction ws as [|w ws IH]; intros f Hnd Hin; [by apply not_elem_of_nil in Hin|].
  cbn in Hnd. apply NoDup_cons in Hnd as [Hw Hnd]. apply elem_of_cons in Hin as [<-|Hin]; [|exact (IH _ Hnd Hin)].
  change (over (fun b' => if decide (b' = b) then d else f b') ws b = d). rewrite over_other by done. by rewrite decide_True.
Qed.

(** [s'] is [s] after the writes [ws] of a process [n] that holds no buffer. *)
Record writes (s s' : kernel) (n : Z) (ws : list (Z * list Z)) : Prop := {
  bw_frame : fs_frame s s';
  bw_env : forall i c me p, env s i c me p -> env s' i c me p;
  bw_cache : cache s' n [];
  bw_view : forall b', view s' b' = over (view s) ws b';
  bw_disk : forall b', disk_block s' b' = over (disk_block s) ws b';
  bw_trace : k_dwrites s' = k_dwrites s ++ ws;
  bw_dirty : forall b', dirty s' b' <-> dirty s b' /\ b' ∉ ws.*1
}.

Lemma writes_nil s n : cache s n [] -> writes s s n [].
Proof.
  intros H. split; [apply fs_frame_refl|done|done|done|done|by rewrite app_nil_r|].
  intros b. cbn. split; [|tauto]. intros Hb. split; [done|apply not_elem_of_nil].
Qed.

Lemma writes_trans s1 s2 s3 n ws1 ws2 : writes s1 s2 n ws1 -> writes s2 s3 n ws2 -> writes s1 s3 n (ws1 ++ ws2).
Proof.
  intros [A1 A2 A3 A4 A5 A6 A7] [B1 B2 B3 B4 B5 B6 B7]. split; [by eapply fs_frame_trans|auto|done| | | |].
  - intros b. rewrite B4, over_app. apply over_ext, A4.
  - intros b. rewrite B5, over_app. apply over_ext, A5.
  - by rewrite B6, A6, app_assoc.
  - intros b. rewrite B7, A7, fmap_app, elem_of_app. tauto.
Qed.

Lemma keach_app {S X} (l1 l2 : list X) (body : X -> K S unit) s s1 :
  keach l1 body s = Ret tt s1 -> keach (l1 ++ l2) body s = keach l2 body s1.
Proof.
  revert s. induction l1 as [|x l1 IH]; intros s; cbn [keach app]; [by intros [= ->]|].
  unfold kbind. destruct (body x s); cbn [obind]; try done. apply IH.
Qed.


(** A loop whose turns write a block each. *)
Lemma writes_loop s n body (w : Z -> Z * list Z) m :
  0 <= m -> cache s n [] ->
  (forall k s1, 0 <= k < m -> writes s s1 n (w <$> seqZ 0 k) -> exists s2, body k s1 = Ret tt s2 /\ writes s1 s2 n [w k]) ->
  exists s', keach (seqZ 0 m) body s = Ret tt s' /\ writes s s' n (w <$> seqZ 0 m).
Proof.
  intros Hm Hc. revert m Hm. apply (natlike_ind (fun m => _ -> _)); cbn beta.
  - intros _. exists s. split; [done|by apply writes_nil].
  - intros m Hm IH Hb. destruct IH as (s1 & E1 & W1); [intros; apply Hb; [lia|done]|].
    destruct (Hb m s1) as (s2 & E2 & W2); [lia|done|]. exists s2.
    unfold Z.succ. rewrite (seqZ_S m Hm), fmap_app. split; [|by apply (writes_trans s s1)].
    rewrite (keach_app _ _ _ _ _ E1). cbn [keach]. by krun E2.
Qed.

Section LogSpec.
Context `{Pt : Patience} (Hpat : (0 < patience)%nat).

Lemma bread_dirty s n hd b k y b' :
  cache s n hd -> bread_post s n hd b k y -> dirty (upd_buf k (fun _ => y) s) b' <-> dirty s b'.
Proof.
  intros Hc Hp. destruct (bp_dirty _ _ _ _ _ _ Hp) as (x & Hx & Hf & Hb). apply (dirty_upd s k _ x); [done|].
  pose proof (bp_held _ _ _ _ _ _ Hp) as [_ _ Hd _]. pose proof (bp_blockno _ _ _ _ _ _ Hp) as Hn.
  split; intros [[D B] F].
  - split; [split; [done|]|by apply Hf]. rewrite Hn, <- B. symmetry. by apply Hb.
  - apply Hf in F. split; [split|done].
    + destruct (io_state _ _ (ca_idle _ _ _ Hc k x Hx (bp_new _ _ _ _ _ _ Hp))) as [[E _]|[_ E]]; [lia|done].
    + rewrite <- B, Hn. by apply Hb.
Qed.

(** Changing the data of a held buffer. *)
Definition fill (k : nat) (d : list Z) (s : kernel) : kernel := upd_buf k (fun b => b <| b_data := d |>) s.

Lemma cache_fill s n hd k x d :
  cache s n hd -> k ∈ hd -> k_bufs s !! k = Some x -> length d = 512%nat ->
  cache (fill k d s) n hd /\
  forall b, view (fill k d s) b = if decide (b = b_blockno x) then d else view s b.
Proof.
  intros Hc Hk Hx Hl. destruct (ca_held _ _ _ Hc k x Hx Hk) as [H1 H2 H3 H4].
  assert (Hc' : cache (fill k d s) n hd).
  { eapply (cache_upd s n hd hd k _ x); [done|done|done|apply (ca_data _ _ _ Hc k x Hx)| |done|done|].
    - intros _. split; done.
    - intros j y Hj Hy D1 _ E. destruct Hj. by apply (ca_uniq _ _ _ Hc j k y x). }
  split; [done|]. intros b. unfold fill. by rewrite (view_upd s n hd hd k _ x b Hc Hx Hc').
Qed.

Lemma dirty_written s n hd k x b :
  cache s n hd -> k ∈ hd -> k_bufs s !! k = Some x ->
  dirty (written k x s) b <-> dirty s b /\ b <> b_blockno x.
Proof.
  intros Hc Hk Hx. destruct (ca_held _ _ _ Hc k x Hx Hk) as [_ _ Hd _].
  split.
  - intros (j & y & Hy & Hb & Hf). change (k_bufs (written k x s)) with (k_bufs (upd_buf k (fun b => b <| b_flags := 2 |>) s)) in Hy.
    rewrite lookup_upd in Hy. case_decide as E; [rewrite Hx in Hy; by injection Hy as <-|].
    split; [by exists j, y|]. intros ->. destruct E. destruct Hb. by apply (ca_uniq _ _ _ Hc j k y x).
  - intros [(j & y & Hy & Hb & Hf) Hne]. exists j, y. split; [|done].
    change (k_bufs (upd_buf k (fun b => b <| b_flags := 2 |>) s) !! j = Some y). rewrite lookup_upd. case_decide; [|done].
    subst. simplify_eq. by destruct Hb.
Qed.

Lemma dirty_unhold s k b : dirty (unhold k s) b <-> dirty s b.
Proof.
  destruct (k_bufs s !! k) as [x|] eqn:Hx.
  - by rewrite <- (dirty_upd s k (fun b => b <| b_lock := zero_sleeplock |> <| b_refcnt := 0 |>) x b Hx).
  - unfold dirty, unhold. cbn. enough (alter (fun b0 : buf => (b0 <| b_lock := zero_sleeplock |>) <| b_refcnt := 0 |>) k (k_bufs s) = k_bufs s) as -> by done.
    apply list_eq. intros j. destruct (decide (j = k)) as [->|]; [by rewrite list_lookup_alter_eq, Hx|by rewrite list_lookup_alter_ne].
Qed.

Lemma fs_frame_written s k x : fs_frame s (written k x s).
Proof.
  exists (k_ptable s), (k_bufs (written k x s)), (k_lru s), (k_disk (written k x s)), (k_dwrites (written k x s)).
  by destruct s.
Qed.

Lemma fs_frame_unhold s k : fs_frame s (unhold k s).
Proof.
  exists (k_ptable (unhold k s)), (k_bufs (unhold k s)), (k_lru (unhold k s)), (k_disk s), (k_dwrites s).
  by destruct s.
Qed.

Lemma env_written s i c me p k x : env s i c me p -> env (written k x s) i c me p.
Proof. intros H. by apply (env_ext s). Qed.

Lemma env_unhold s i c me p k : env s i c me p -> env (unhold k s) i c me p.
Proof.
  intros H. apply (env_ext ((upd_buf k (fun b => b <| b_lock := zero_sleeplock |> <| b_refcnt := 0 |>) s)
    <| k_ptable ::= fmap (wake (Some (Csleepbuf k))) |>)); [|done..]. apply env_wake. by apply env_upd_buf.
Qed.
#[local] Hint Resolve env_written env_unhold : kern.
#[local] Hint Resolve env_written env_unhold env_upd_buf : core.

(** The end of an update: the filled buffer [k] is written and released. *)
Lemma bwrite_brelse s i c me p k x :
  env s i c me p -> cache s (pid p) [k] -> k_bufs s !! k = Some x ->
  exists s', (bwrite k ;;; brelse k) s = Ret tt s' /\ writes s s' (pid p) [(b_blockno x, b_data x)].
Proof.
  intros He Hc Hx. assert (Hk : k ∈ [k]) by apply list_elem_of_here.
  destruct (ca_held _ _ _ Hc k x Hx Hk) as [_ _ Hd _].
  pose proof (cache_written s _ _ k x Hc Hk Hx) as Hc1. 
  assert (Hx1 : k_bufs (written k x s) !! k = Some (x <| b_flags := 2 |>)) by (exact (lookup_upd_buf s k _ x Hx)).
  exists (unhold k (written k x s)). split.
  - krun (bwrite_run s i c me p [k] k x He Hc Hk Hx).
    by apply (brelse_run _ i c me p [k] k (x <| b_flags := 2 |>)); [by apply env_written|..].
  - split.
    + eapply fs_frame_trans; [apply fs_frame_written|apply fs_frame_unhold].
    + auto.
    + apply (cache_unhold _ _ [] k (x <| b_flags := 2 |>) Hc1); [apply not_elem_of_nil|done|].
      intros _. rewrite disk_written. by rewrite decide_True.
    + intros b. rewrite (view_unhold _ _ [] k _ b Hc1 Hx1), (view_written s _ _ k x b Hc Hk Hx).
      unfold over. cbn. case_decide; [subst; by apply (view_buf s _ _ k x Hc)|done].
    + intros b. unfold over. cbn. exact (disk_written s k x b).
    + done.
    + intros b. rewrite dirty_unhold, (dirty_written s (pid p) [k] k x b Hc Hk Hx). cbn. by rewrite list_elem_of_singleton.
Qed.

Lemma cache_hd s n hd hd' : (forall k, k ∈ hd <-> k ∈ hd') -> cache s n hd -> cache s n hd'.
Proof.
  intros H [H1 H2 H3 H4 H5 H6 H7 H8]. split; try done; intros k x Hx Hk.
  - apply (H6 k x Hx). by apply H.
  - apply (H7 k x Hx). by rewrite H.
Qed.

(** The end of a copy: the block of [kd] gets the data of [ks]. *)
Lemma copy_out s i c me p kd ks xd xs :
  env s i c me p -> cache s (pid p) [kd; ks] -> kd <> ks ->
  k_bufs s !! kd = Some xd -> k_bufs s !! ks = Some xs ->
  (b_flags xs = 2 -> b_data xs = disk_block s (b_blockno xs)) ->
  exists s', (set_buf kd (fun b => b <| b_data := b_data xs |>) ;;; bwrite kd ;;; brelse ks ;;; brelse kd) s = Ret tt s' /\
    writes s s' (pid p) [(b_blockno xd, b_data xs)].
Proof.
  intros He Hc Hne Hxd Hxs Hclean. set (d := b_data xs).
  assert (Hkd : kd ∈ [kd; ks]) by set_solver. assert (Hks : ks ∈ [kd; ks]) by set_solver.
  destruct (cache_fill s _ _ kd xd d Hc Hkd Hxd (proj1 (ca_data _ _ _ Hc ks xs Hxs))) as [Hc1 Hv1].
  destruct (ca_held _ _ _ Hc ks xs Hxs Hks) as [_ _ Hsd _]. destruct (ca_held _ _ _ Hc kd xd Hxd Hkd) as [_ _ Hdd _].
  set (s1 := fill kd d s) in *. set (x1 := xd <| b_data := d |>).
  assert (Hx1 : k_bufs s1 !! kd = Some x1) by (exact (lookup_upd_buf s kd _ xd Hxd)).
  assert (He1 : env s1 i c me p) by (by apply env_upd_buf).
  pose proof (cache_written s1 _ _ kd x1 Hc1 Hkd Hx1) as Hc2. set (s2 := written kd x1 s1) in *.
  assert (He2 : env s2 i c me p) by (by apply env_written).
  assert (Hs2 : k_bufs s2 !! ks = Some xs).
  { change (k_bufs (upd_buf kd (fun b => b <| b_flags := 2 |>) s1) !! ks = Some xs).
    rewrite lookup_upd, decide_False by done. unfold s1, fill. by rewrite lookup_upd, decide_False. }
  assert (Hd2 : k_bufs s2 !! kd = Some (x1 <| b_flags := 2 |>)) by (exact (lookup_upd_buf s1 kd _ x1 Hx1)).
  assert (Hc2' : cache s2 (pid p) [ks; kd]) by (apply (cache_hd _ _ [kd; ks]); [set_solver|done]).
  assert (Hc3 : cache (unhold ks s2) (pid p) [kd]).
  { apply (cache_unhold _ _ _ ks xs Hc2'); [set_solver|done|]. intros E. unfold s2. rewrite disk_written.
    rewrite decide_False; [by apply Hclean|]. intros E'. destruct Hne.
    by apply (ca_uniq _ _ _ Hc kd ks xd xs). }
  assert (Hd3 : k_bufs (unhold ks s2) !! kd = Some (x1 <| b_flags := 2 |>)).
  { change (k_bufs (upd_buf ks (fun b => b <| b_lock := zero_sleeplock |> <| b_refcnt := 0 |>) s2) !! kd = Some (x1 <| b_flags := 2 |>)).
    by rewrite lookup_upd, decide_False. }
  exists (unhold kd (unhold ks s2)). split.
  - krun (set_buf_run kd (fun b => b <| b_data := d |>) s). fold (fill kd d s). fold s1.
    krun (bwrite_run s1 i c me p _ kd x1 He1 Hc1 Hkd Hx1). fold s2.
    krun (brelse_run s2 i c me p _ ks xs He2 Hc2 Hks Hs2).
    by apply (brelse_run _ i c me p [kd] kd (x1 <| b_flags := 2 |>)); [by apply env_unhold|done|set_solver|].
  - split.
    + apply (fs_frame_trans _ s1); [apply fs_frame_bufs|]. apply (fs_frame_trans _ s2); [apply fs_frame_written|].
      eapply fs_frame_trans; apply fs_frame_unhold.
    + eauto 6 with kern.
    + apply (cache_unhold _ _ [] kd (x1 <| b_flags := 2 |>) Hc3); [set_solver|done|].
      intros _. change (disk_block (unhold ks s2)) with (disk_block s2). unfold s2. by rewrite disk_written, decide_True.
    + intros b. rewrite (view_unhold _ _ [] kd _ b Hc3 Hd3), (view_unhold _ _ [kd] ks xs b Hc2' Hs2).
      unfold s2. by rewrite (view_written s1 _ _ kd x1 b Hc1 Hkd Hx1).
    + intros b. exact (disk_written s1 kd x1 b).
    + done.
    + intros b. rewrite !dirty_unhold. unfold s2. rewrite (dirty_written s1 (pid p) _ kd x1 b Hc1 Hkd Hx1).
      unfold s1, fill. rewrite (dirty_upd s kd _ xd b Hxd) by done. cbn. by rewrite list_elem_of_singleton.
Qed.

(** Reading a block of the log and then a home block: [bl] bounds the dirty
    blocks. *)
Record pair_read (s s2 : kernel) (n a t : Z) (ka kt : nat) (ya yt : buf) : Prop := {
  pr_frame : fs_frame s s2;
  pr_ne : ka <> kt;
  pr_a : k_bufs s2 !! ka = Some ya;
  pr_t : k_bufs s2 !! kt = Some yt;
  pr_ablock : b_blockno ya = a;
  pr_tblock : b_blockno yt = t;
  pr_adata : b_data ya = view s a;
  pr_tdata : b_data yt = view s t;
  pr_aclean : b_flags ya = 2 -> b_data ya = disk_block s2 a;
  pr_tclean : b_flags yt = 2 -> b_data yt = disk_block s2 t;
  pr_cache : cache s2 n [kt; ka];
  pr_env : forall i c me p, env s i c me p -> env s2 i c me p;
  pr_view : forall b, view s2 b = view s b;
  pr_disk : k_disk s2 = k_disk s;
  pr_trace : k_dwrites s2 = k_dwrites s;
  pr_dirty : forall b, dirty s2 b <-> dirty s b
}.

Lemma bread_pair s i c me p a t bl :
  env s i c me p -> cache s (pid p) [] -> block_ok s a -> block_ok s t -> a <> t ->
  (forall b, dirty s b -> b ∈ bl) -> (length bl < NBUF)%nat -> dirty s t \/ (S (length bl) < NBUF)%nat ->
  exists s1 ka s2 kt ya yt, bread 1 a s = Ret ka s1 /\ fs_frame s s1 /\ bread 1 t s1 = Ret kt s2 /\
    pair_read s s2 (pid p) a t ka kt ya yt.
Proof.
  intros He Hc Ha Ht Hne Hd Hl Hor.
  destruct (bread_run Hpat s i c me p [] a He Hc Ha) as (ka & ya & Hra & Hpa).
  { intros k x Hk. by apply not_elem_of_nil in Hk. }
  { left. by apply (avail_count s (pid p) [] bl). }
  pose proof (bp_cache _ _ _ _ _ _ Hpa) as Hc1. pose proof (bread_dirty s (pid p) [] a ka ya) as Hd1.
  destruct (bp_dirty _ _ _ _ _ _ Hpa) as (xa & Hxa & _).
  set (s1 := upd_buf ka (fun _ => ya) s) in *. assert (He1 : env s1 i c me p) by (by apply env_upd_buf).
  assert (Hya : k_bufs s1 !! ka = Some ya) by (exact (lookup_upd_buf s ka _ xa Hxa)).
  destruct (bread_run Hpat s1 i c me p [ka] t He1 Hc1 Ht) as (kt & yt & Hrt & Hpt).
  { intros k x Hk%list_elem_of_singleton. subst. rewrite Hya. intros [= <-]. by rewrite (bp_blockno _ _ _ _ _ _ Hpa). }
  { destruct Hor as [(k & x & Hx & Hb & Hf)%Hd1|Hor]; [right; by exists k, x|done|done|].
    left. apply (avail_count s1 (pid p) [ka] bl Hc1); [|done]. intros b Hb. apply Hd. by apply Hd1. }
  destruct (bp_dirty _ _ _ _ _ _ Hpt) as (xt & Hxt & _).
  assert (Hkne : ka <> kt) by (intros ->; apply (bp_new _ _ _ _ _ _ Hpt); apply list_elem_of_here).
  exists s1, ka, (upd_buf kt (fun _ => yt) s1), kt, ya, yt. split; [done|]. split; [apply fs_frame_bufs|]. split; [done|]. split.
  - eapply fs_frame_trans; apply fs_frame_bufs.
  - done.
  - by rewrite lookup_upd, decide_False.
  - exact (lookup_upd_buf s1 kt _ xt Hxt).
  - apply Hpa.
  - apply Hpt.
  - apply Hpa.
  - rewrite (bp_data _ _ _ _ _ _ Hpt). by apply Hpa.
  - apply (bp_clean _ _ _ _ _ _ Hpa).
  - apply (bp_clean _ _ _ _ _ _ Hpt).
  - apply Hpt.
  - eauto with kern.
  - intros b. rewrite (bp_view _ _ _ _ _ _ Hpt). apply Hpa.
  - done.
  - done.
  - intros b. rewrite (bread_dirty s1 (pid p) [ka] t kt yt b Hc1 Hpt). by apply Hd1.
Qed.

(** A turn of [write_log] and of [install_trans]: the blocks [a] of the log
    and [t] of the file system are read, and one is copied to the other. *)
Lemma txn_turn s i c me p st bl k :
  env s i c me p -> cache s (pid p) [] -> txn s st bl -> 0 <= k < Z.of_nat (length bl) ->
  (forall b, dirty s b -> b ∈ bl) ->
  dirty s (nth_block bl k) \/ (forall b, ~ dirty s b) ->
  exists s1 ka s2 kt ya yt, bread (lg_dev (k_log s)) (u32 (lg_start (k_log s) + k + 1)) s = Ret ka s1 /\
    get_block k s1 = Ret (nth_block bl k) s1 /\ bread (lg_dev (k_log s)) (u32 (nth_block bl k)) s1 = Ret kt s2 /\
    pair_read s s2 (pid p) (st + 1 + k) (nth_block bl k) ka kt ya yt.
Proof.
  intros He Hc Ht Hk Hd Hor. pose proof (ca_size _ _ _ Hc). pose proof (tx_max _ _ _ Ht).
  pose proof (tx_area _ _ _ Ht). destruct (tx_home _ _ _ Ht _ (nth_block_elem bl k Hk)) as [Hb Hout].
  rewrite (tx_dev _ _ _ Ht), (tx_start _ _ _ Ht). unfold block_ok in Hb. rewrite !u32_id by lia.
  replace (st + k + 1) with (st + 1 + k) by lia.
  assert (Hbl : exists bl', (forall b, dirty s b -> b ∈ bl') /\ (length bl' < NBUF)%nat /\
    (dirty s (nth_block bl k) \/ (S (length bl') < NBUF)%nat)).
  { destruct Hor as [Hor|Hor]; [exists bl|exists []]; change LOGSIZE with 30 in *; change NBUF with 30%nat.
    - split; [done|]. split; [lia|by left].
    - split; [by intros b ?%Hor|]. cbn. split; [lia|right; lia]. }
  destruct Hbl as (bl' & Hd' & Hlen & Hor').
  destruct (bread_pair s i c me p (st + 1 + k) (nth_block bl k) bl' He Hc) as (s1 & ka & s2 & kt & ya & yt & E1 & EL & E2 & Hp);
    [unfold block_ok; lia|done|lia|done|done|done|].
  exists s1, ka, s2, kt, ya, yt. split; [done|]. split; [|done]. apply (get_block_run s1 st); [by apply (txn_frame s)|done].
Qed.

Lemma pair_writes s s2 s3 n a t ka kt ya yt ws :
  pair_read s s2 n a t ka kt ya yt -> writes s2 s3 n ws -> writes s s3 n ws.
Proof.
  intros Hp [B1 B2 B3 B4 B5 B6 B7]. split.
  - eapply fs_frame_trans; [apply Hp|done].
  - intros i c me p He. by apply B2, Hp.
  - done.
  - intros b. rewrite B4. apply over_ext, Hp.
  - intros b. rewrite B5. apply over_ext. unfold disk_block. by rewrite (pr_disk _ _ _ _ _ _ _ _ _ Hp).
  - by rewrite B6, (pr_trace _ _ _ _ _ _ _ _ _ Hp).
  - intros b. by rewrite B7, (pr_dirty _ _ _ _ _ _ _ _ _ Hp).
Qed.

(** The writes of [write_log] and of [install_trans]. *)
Definition log_writes (st : Z) (bl : list Z) (f : Z -> list Z) : list (Z * list Z) :=
  (fun k => (st + 1 + k, f (nth_block bl k))) <$> seqZ 0 (Z.of_nat (length bl)).
Definition home_writes (st : Z) (bl : list Z) (f : Z -> list Z) : list (Z * list Z) :=
  (fun k => (nth_block bl k, f (st + 1 + k))) <$> seqZ 0 (Z.of_nat (length bl)).

Lemma write_log_run s i c me p st bl :
  env s i c me p -> cache s (pid p) [] -> txn s st bl -> (forall b, dirty s b <-> b ∈ bl) ->
  exists s', write_log s = Ret tt s' /\ writes s s' (pid p) (log_writes st bl (view s)).
Proof.
  intros He Hc Ht Hd. unfold write_log, log_writes. unfold kget at 1, kbind at 1. cbn [obind]. rewrite (tx_n _ _ _ Ht).
  apply writes_loop; [lia|done|]. intros k s1 Hk Hw.
  pose proof (bw_env _ _ _ _ Hw _ _ _ _ He) as He1. pose proof (txn_frame _ _ _ _ Ht (bw_frame _ _ _ _ Hw)) as Ht1.
  pose proof (nth_block_elem bl k Hk) as Hin. pose proof (tx_home _ _ _ Ht _ Hin) as [_ Hout].
  assert (Hnot : forall b, b ∈ bl -> b ∉ ((fun k => (st + 1 + k, view s (nth_block bl k))) <$> seqZ 0 k).*1).
  { intros b Hb. pose proof (tx_home _ _ _ Ht _ Hb). rewrite <- list_fmap_compose.
    intros (j & -> & Hj%elem_of_seqZ)%list_elem_of_fmap. cbn in *. lia. }
  unfold kget at 1, kbind at 1. cbn [obind].
  destruct (txn_turn s1 i c me p st bl k He1 (bw_cache _ _ _ _ Hw) Ht1 Hk) as (s2 & ka & s3 & kt & ya & yt & E1 & E2 & E3 & Hp).
  { intros b Hb. apply Hd. by apply (bw_dirty _ _ _ _ Hw). }
  { left. apply (bw_dirty _ _ _ _ Hw). split; [by apply Hd|by apply Hnot]. }
  krun E1. krun E2. krun E3. krun (get_buf_run kt yt s3 (pr_t _ _ _ _ _ _ _ _ _ Hp)).
  destruct (copy_out s3 i c me p ka kt ya yt) as (s4 & E4 & W4).
  { by apply Hp. }
  { eapply cache_hd; [|apply Hp]. set_solver. }
  { apply Hp. }
  { apply Hp. }
  { apply Hp. }
  { rewrite (pr_tblock _ _ _ _ _ _ _ _ _ Hp). apply Hp. }
  exists s4. split; [done|]. rewrite (pr_ablock _ _ _ _ _ _ _ _ _ Hp), (pr_tdata _ _ _ _ _ _ _ _ _ Hp) in W4.
  rewrite (bw_view _ _ _ _ Hw), over_other in W4 by (by apply Hnot). by apply (pair_writes s1 s3 _ _ _ _ _ _ _ _ _ Hp).
Qed.

Lemma nth_block_inj bl j k :
  NoDup bl -> 0 <= j < Z.of_nat (length bl) -> 0 <= k < Z.of_nat (length bl) -> nth_block bl j = nth_block bl k -> j = k.
Proof.
  intros Hnd Hj Hk. unfold nth_block.
  destruct (lookup_lt_is_Some_2 bl (Z.to_nat j) ltac:(lia)) as [x Hx].
  destruct (lookup_lt_is_Some_2 bl (Z.to_nat k) ltac:(lia)) as [y Hy]. rewrite Hx, Hy. cbn. intros ->.
  pose proof (NoDup_lookup _ _ _ _ Hnd Hx Hy). lia.
Qed.

(** The blocks of the transaction are dirty during a commit, and clean during
    recovery. *)
Lemma install_trans_run s i c me p st bl :
  env s i c me p -> cache s (pid p) [] -> txn s st bl ->
  (forall b, dirty s b <-> b ∈ bl) \/ (forall b, ~ dirty s b) ->
  exists s', install_trans s = Ret tt s' /\ writes s s' (pid p) (home_writes st bl (view s)).
Proof.
  intros He Hc Ht Hd. unfold install_trans, home_writes. unfold kget at 1, kbind at 1. cbn [obind]. rewrite (tx_n _ _ _ Ht).
  apply writes_loop; [lia|done|]. intros k s1 Hk Hw.
  pose proof (bw_env _ _ _ _ Hw _ _ _ _ He) as He1. pose proof (txn_frame _ _ _ _ Ht (bw_frame _ _ _ _ Hw)) as Ht1.
  assert (Hin : forall b, b ∈ ((fun k => (nth_block bl k, view s (st + 1 + k))) <$> seqZ 0 k).*1 ->
    exists j, 0 <= j < k /\ b = nth_block bl j).
  { intros b. rewrite <- list_fmap_compose. intros (j & -> & Hj%elem_of_seqZ)%list_elem_of_fmap. exists j. split; [lia|done]. }
  unfold kget at 1, kbind at 1. cbn [obind].
  destruct (txn_turn s1 i c me p st bl k He1 (bw_cache _ _ _ _ Hw) Ht1 Hk) as (s2 & ka & s3 & kt & ya & yt & E1 & E2 & E3 & Hp).
  { intros b [Hb _]%(bw_dirty _ _ _ _ Hw). destruct Hd as [Hd|Hd]; [by apply Hd|by destruct (Hd b)]. }
  { destruct Hd as [Hd|Hd]; [left|right; intros b [Hb _]%(bw_dirty _ _ _ _ Hw); by apply (Hd b)].
    apply (bw_dirty _ _ _ _ Hw). split; [by apply Hd, nth_block_elem|]. intros (j & Hj & E)%Hin.
    apply nth_block_inj in E; [lia|apply Ht|lia|lia]. }
  krun E1. krun E2. krun E3. krun (get_buf_run ka ya s3 (pr_a _ _ _ _ _ _ _ _ _ Hp)).
  destruct (copy_out s3 i c me p kt ka yt ya) as (s4 & E4 & W4); [by apply Hp|apply Hp|symmetry; apply Hp|apply Hp..| |].
  { rewrite (pr_ablock _ _ _ _ _ _ _ _ _ Hp). apply Hp. }
  exists s4. split; [done|]. rewrite (pr_tblock _ _ _ _ _ _ _ _ _ Hp), (pr_adata _ _ _ _ _ _ _ _ _ Hp) in W4.
  rewrite (bw_view _ _ _ _ Hw), over_other in W4; [by apply (pair_writes s1 s3 _ _ _ _ _ _ _ _ _ Hp)|].
  intros (j & Hj & E)%Hin. pose proof (tx_home _ _ _ Ht _ (nth_block_elem bl j ltac:(lia))). lia.
Qed.

Lemma length_head_of bl d : length (head_of bl d) = length d.
Proof.
  unfold head_of. generalize (seqZ 0 (Z.of_nat (length bl))). intros l.
  rewrite <- (length_put32 d 0 (Z.of_nat (length bl))). generalize (put32 d 0 (Z.of_nat (length bl))).
  induction l as [|k l IH]; intros d'; [done|]. cbn. by rewrite IH, length_put32.
Qed.

Lemma fill_fill s k d d' : fill k d' (fill k d s) = fill k d' s.
Proof. unfold fill. by rewrite upd_buf_compose. Qed.

Lemma set_data_run s k x (f : list Z -> list Z) :
  k_bufs s !! k = Some x -> set_buf k (fun b => b <| b_data ::= f |>) s = Ret tt (fill k (f (b_data x)) s).
Proof.
  intros Hx. rewrite set_buf_run. unfold fill.
  by rewrite (upd_buf_const s k _ x Hx), (upd_buf_const s k (fun b => b <| b_data := f (b_data x) |>) x Hx).
Qed.

Lemma head_loop s st bl k x l d :
  txn s st bl -> k_bufs s !! k = Some x -> (forall j, j ∈ l -> 0 <= j < Z.of_nat (length bl)) ->
  keach l (fun j => v <- get_block j ;; set_buf k (fun b => b <| b_data ::= fun d => put32 d (4 + 4 * j) v |>)) (fill k d s) =
    Ret tt (fill k (foldl (fun d j => put32 d (4 + 4 * j) (nth_block bl j)) d l) s).
Proof.
  intros Ht Hx. revert d. induction l as [|j l IH]; intros d Hl; [done|]. cbn [keach foldl].
  assert (Hj : 0 <= j < Z.of_nat (length bl)) by (apply Hl, list_elem_of_here).
  unfold kbind at 1 2. rewrite (get_block_run (fill k d s) st bl j); [|by apply (txn_frame s), fs_frame_bufs|done].
  cbn [obind]. rewrite (set_data_run (fill k d s) k (x <| b_data := d |>)); [|exact (lookup_upd_buf s k _ x Hx)].
  cbn [obind]. rewrite fill_fill. apply IH. intros j' Hj'. apply Hl. by apply list_elem_of_further.
Qed.

Lemma write_head_run s i c me p st bl :
  env s i c me p -> cache s (pid p) [] -> txn s st bl -> (forall b, dirty s b -> b ∈ bl) \/ (forall b, ~ dirty s b) ->
  exists s', write_head s = Ret tt s' /\ writes s s' (pid p) [(st, head_of bl (view s st))].
Proof.
  intros He Hc Ht Hd. pose proof (ca_size _ _ _ Hc). pose proof (tx_max _ _ _ Ht) as Hmax. pose proof (tx_area _ _ _ Ht).
  unfold write_head. unfold kget at 1, kbind at 1. cbn [obind].
  rewrite (tx_dev _ _ _ Ht), (tx_start _ _ _ Ht), (tx_n _ _ _ Ht), u32_id by lia.
  destruct (bread_run Hpat s i c me p [] st He Hc) as (k & y & Hr & Hp); [unfold block_ok; lia|set_solver| |].
  { left. destruct Hd as [Hd|Hd]; [apply (avail_count s (pid p) [] bl Hc Hd)|apply (avail_count s (pid p) [] [] Hc); [by intros b ?%Hd|]];
      change LOGSIZE with 30 in *; change NBUF with 30%nat; cbn; lia. }
  destruct (bp_dirty _ _ _ _ _ _ Hp) as (x & Hx & _). pose proof (bp_cache _ _ _ _ _ _ Hp) as Hc1.
  krun Hr. set (s1 := upd_buf k (fun _ => y) s) in *.
  assert (Hy : k_bufs s1 !! k = Some y) by (exact (lookup_upd_buf s k _ x Hx)).
  krun (set_data_run s1 k y (fun d => put32 d 0 (Z.of_nat (length bl))) Hy).
  krun (head_loop s1 st bl k y (seqZ 0 (Z.of_nat (length bl))) (put32 (b_data y) 0 (Z.of_nat (length bl)))
    (txn_frame _ _ _ _ Ht (fs_frame_bufs s _)) Hy ltac:(intros j Hj%elem_of_seqZ; lia)).
  change (foldl _ _ _) with (head_of bl (b_data y)). rewrite (bp_data _ _ _ _ _ _ Hp). set (d := head_of bl (view s st)).
  assert (Hld : length d = 512%nat) by (unfold d; rewrite length_head_of; by apply (view_length s (pid p) [])).
  destruct (cache_fill s1 (pid p) [k] k y d Hc1 ltac:(apply list_elem_of_here) Hy Hld) as [Hc2 Hv2].
  destruct (bwrite_brelse (fill k d s1) i c me p k (y <| b_data := d |>)) as (s' & E & W);
    [apply env_upd_buf; by apply env_upd_buf|done|exact (lookup_upd_buf s1 k _ y Hy)|].
  exists s'. split; [exact E|]. cbn in W. rewrite (bp_blockno _ _ _ _ _ _ Hp) in W. destruct W as [W1 W2 W3 W4 W5 W6 W7]. split.
  - eapply fs_frame_trans; [|done]. eapply fs_frame_trans; apply fs_frame_bufs.
  - eauto with kern.
  - done.
  - intros b. rewrite W4. unfold over. cbn. case_decide; [done|]. rewrite Hv2, (bp_blockno _ _ _ _ _ _ Hp), decide_False by done. apply Hp.
  - done.
  - done.
  - intros b. rewrite W7. unfold fill. rewrite (dirty_upd s1 k _ y b Hy) by done.
    unfold s1. by rewrite (bread_dirty s (pid p) [] st k y b Hc Hp).
Qed.

(** The log header in memory is apart from the cache. *)
Lemma cache_log s n hd f : cache s n hd -> cache (s <| k_log ::= f |>) n hd.
Proof.
  intros [H1 H2 H3 H4 H5 H6 H7 H8]. split; try done.
  intros k x Hx Hk. by destruct (H7 k x Hx Hk).
Qed.

Lemma writes_log s s' n ws f : writes s s' n ws -> writes (s <| k_log ::= f |>) (s' <| k_log ::= f |>) n ws.
Proof.
  intros [A1 A2 A3 A4 A5 A6 A7]. split; [|intros i c me p He|by apply cache_log|done..].
  - destruct A1 as (pt & bs & lru & dk & dw & ->). by exists pt, bs, lru, dk, dw.
  - apply (env_ext s'); [|done..]. apply A2. by apply (env_ext (s <| k_log ::= f |>)).
Qed.

Definition installs (bl : list Z) (f : Z -> list Z) : list (Z * list Z) :=
  (fun k => (nth_block bl k, f (nth_block bl k))) <$> seqZ 0 (Z.of_nat (length bl)).

(** The disk writes of a commit of the blocks [bl], with the contents [f] of
    the cache: the copies in the log, the header, the blocks themselves and
    the empty header. *)
Definition commit_writes (st : Z) (bl : list Z) (f : Z -> list Z) : list (Z * list Z) :=
  log_writes st bl f ++ [(st, head_of bl (f st))] ++ installs bl f ++ [(st, head_of [] (head_of bl (f st)))].

Lemma log_writes_fst st bl f b : b ∈ (log_writes st bl f).*1 <-> st < b <= st + Z.of_nat (length bl).
Proof.
  unfold log_writes. rewrite <- list_fmap_compose, list_elem_of_fmap. split.
  - intros (k & -> & Hk%elem_of_seqZ). cbn. lia.
  - intros Hb. exists (b - st - 1). split; [cbn; lia|]. apply elem_of_seqZ. lia.
Qed.

Lemma over_log_writes st bl f g k :
  0 <= k < Z.of_nat (length bl) -> over g (log_writes st bl f) (st + 1 + k) = f (nth_block bl k).
Proof.
  intros Hk. apply over_hit.
  - unfold log_writes. rewrite <- list_fmap_compose. apply NoDup_fmap_2_strong; [|apply NoDup_seqZ].
    intros x y _ _. cbn. lia.
  - apply list_elem_of_fmap. exists k. split; [done|]. apply elem_of_seqZ. lia.
Qed.

Definition no_log (s : kernel) : kernel := s <| k_log ::= fun g => g <| lg_n := 0 |> |>.

Lemma txn_none s st bl : txn s st bl -> txn (no_log s) st [].
Proof.
  intros [? ? ? ? ? ? ? ? ? ?]. split; try done.
  - cbn. lia.
  - by intros b ?%not_elem_of_nil.
  - by intros b ?%not_elem_of_nil.
  - constructor.
Qed.

Lemma commit_run s i c me p st bl :
  env s i c me p -> cache s (pid p) [] -> txn s st bl -> bl <> [] -> (forall b, dirty s b <-> b ∈ bl) ->
  exists s', commit s = Ret tt s' /\ writes (no_log s) s' (pid p) (commit_writes st bl (view s)).
Proof.
  intros He Hc Ht Hne Hd. unfold commit. unfold kget at 1, kbind at 1. cbn [obind]. rewrite (tx_n _ _ _ Ht).
  destruct (Z.ltb_spec 0 (Z.of_nat (length bl))); [|destruct bl; [done|cbn in *; lia]].
  destruct (write_log_run s i c me p st bl He Hc Ht Hd) as (s1 & E1 & W1). krun E1.
  pose proof (txn_frame _ _ _ _ Ht (bw_frame _ _ _ _ W1)) as Ht1. pose proof (bw_env _ _ _ _ W1 _ _ _ _ He) as He1.
  assert (Hd1 : forall b, dirty s1 b <-> b ∈ bl).
  { intros b. rewrite (bw_dirty _ _ _ _ W1), Hd. split; [tauto|]. intros Hb. split; [done|].
    rewrite log_writes_fst. pose proof (tx_home _ _ _ Ht b Hb). lia. }
  destruct (write_head_run s1 i c me p st bl He1 (bw_cache _ _ _ _ W1) Ht1) as (s2 & E2 & W2); [left; intros b; by rewrite Hd1|].
  krun E2. pose proof (txn_frame _ _ _ _ Ht1 (bw_frame _ _ _ _ W2)) as Ht2. pose proof (bw_env _ _ _ _ W2 _ _ _ _ He1) as He2.
  assert (Est : view s1 st = view s st).
  { rewrite (bw_view _ _ _ _ W1). apply over_other. rewrite log_writes_fst. lia. }
  rewrite Est in W2. pose proof (writes_trans _ _ _ _ _ _ W1 W2) as W12.
  assert (Hd2 : forall b, dirty s2 b <-> b ∈ bl).
  { intros b. rewrite (bw_dirty _ _ _ _ W2), Hd1. cbn. rewrite list_elem_of_singleton. split; [tauto|]. intros Hb. split; [done|].
    pose proof (tx_home _ _ _ Ht b Hb). lia. }
  destruct (install_trans_run s2 i c me p st bl He2 (bw_cache _ _ _ _ W2) Ht2 (or_introl Hd2)) as (s3 & E3 & W3). krun E3.
  assert (Eh : home_writes st bl (view s2) = installs bl (view s)).
  { apply list_fmap_ext. intros j k Hk%list_elem_of_lookup_2%elem_of_seqZ. f_equal.
    rewrite (bw_view _ _ _ _ W12), over_app, (over_other _ [_]).
    - apply over_log_writes. lia.
    - cbn. rewrite list_elem_of_singleton. lia. }
  rewrite Eh in W3. pose proof (writes_trans _ _ _ _ _ _ W12 W3) as W123.
  unfold set_log, kmod, kbind at 1. cbn [obind]. change (s3 <| k_log ::= _ |>) with (no_log s3).
  pose proof (bw_env _ _ _ _ W3 _ _ _ _ He2) as He3.
  pose proof (txn_none _ _ _ (txn_frame _ _ _ _ Ht2 (bw_frame _ _ _ _ W3))) as Ht3.
  pose proof (writes_log _ _ _ _ (fun g => g <| lg_n := 0 |>) W123) as W123'.
  destruct (write_head_run (no_log s3) i c me p st []) as (s4 & E4 & W4); [by apply (env_ext s3)|apply W123'|done| |].
  { right. intros b [Hb Hn]%(bw_dirty _ _ _ _ W3). apply Hd2 in Hb. destruct Hn. unfold installs.
    apply list_elem_of_lookup in Hb as [k Hk]. pose proof (lookup_lt_Some _ _ _ Hk). rewrite <- list_fmap_compose.
    apply list_elem_of_fmap. exists (Z.of_nat k). split; [cbn; unfold nth_block; by rewrite Nat2Z.id, Hk|].
    apply elem_of_seqZ. lia. }
  exists s4. split; [done|]. unfold commit_writes. rewrite 2 app_assoc. apply (writes_trans _ (no_log s3)); [done|].
  replace (head_of bl (view s st)) with (view (no_log s3) st); [done|].
  change (view (no_log s3) st) with (view s3 st). rewrite (bw_view _ _ _ _ W123), over_app, over_other, over_app.
  - cbn. by rewrite decide_True.
  - unfold installs. rewrite <- list_fmap_compose. intros (k & E & Hk%elem_of_seqZ)%list_elem_of_fmap. cbn in E.
    pose proof (tx_home _ _ _ Ht _ (nth_block_elem bl k ltac:(lia))). lia.
Qed.

(** ** Recovery *)

(** The log in memory with the header [h]. *)
Definition load_head (h : list Z) (g : log_t) : log_t :=
  g <| lg_n := i32 (get32 h 0) |>
    <| lg_block := head_blocks h ++ drop (Z.to_nat (i32 (get32 h 0))) (lg_block g) |>.

Lemma read_loop h g m s :
  0 <= m < LOGSIZE -> length (lg_block g) = Z.to_nat LOGSIZE -> k_log s = g ->
  keach (seqZ 0 m) (fun k => set_block k (i32 (get32 h (4 + 4 * k)))) s =
    Ret tt (s <| k_log := g <| lg_block := ((fun k => i32 (get32 h (4 + 4 * k))) <$> seqZ 0 m) ++ drop (Z.to_nat m) (lg_block g) |> |>).
Proof.
  intros [Hm Hlt] Hg Es. revert m Hm Hlt. apply (natlike_ind (fun m => _ -> _)); cbn beta.
  - intros _. cbn. rewrite drop_0. subst g. f_equal. destruct s as []. by destruct k_log.
  - intros m Hm IH Hlt. unfold Z.succ in *. rewrite (seqZ_S m Hm).
    rewrite (keach_app _ _ _ _ _ (IH ltac:(lia))). cbn [keach]. unfold set_block.
    destruct (Z.leb_spec 0 m), (Z.ltb_spec m LOGSIZE); try lia. cbn [andb].
    unfold set_log, kmod, kbind, kret. cbn [obind].
    transitivity (Ret tt (s <| k_log := g <| lg_block := <[Z.to_nat m := i32 (get32 h (4 + 4 * m))]>
      (((fun k => i32 (get32 h (4 + 4 * k))) <$> seqZ 0 m) ++ drop (Z.to_nat m) (lg_block g)) |> |>)); [by destruct s|].
    rewrite insert_app_snoc by (rewrite ?length_fmap, ?length_seqZ; lia).
    by rewrite fmap_app, Z2Nat.inj_add by lia.
Qed.

Lemma read_head_run s i c me p st :
  env s i c me p -> cache s (pid p) [] -> (forall b, ~ dirty s b) -> block_ok s st ->
  lg_dev (k_log s) = 1 -> lg_start (k_log s) = st -> length (lg_block (k_log s)) = Z.to_nat LOGSIZE ->
  0 <= i32 (get32 (view s st) 0) < LOGSIZE ->
  exists s', read_head s = Ret tt s' /\ writes (s <| k_log ::= load_head (view s st) |>) s' (pid p) [].
Proof.
  intros He Hc Hd Hst Hdev Hstart Hlen Hn. set (h := view s st) in *. pose proof (ca_size _ _ _ Hc).
  unfold read_head. unfold kget at 1, kbind at 1. cbn [obind]. unfold block_ok in Hst. rewrite Hdev, Hstart, u32_id by lia.
  destruct (bread_run Hpat s i c me p [] st He Hc Hst) as (k & y & Hr & Hp); [set_solver| |].
  { left. apply (avail_count s (pid p) [] [] Hc); [by intros b ?%Hd|]. change NBUF with 30%nat. cbn. lia. }
  destruct (bp_dirty _ _ _ _ _ _ Hp) as (x & Hx & _). krun Hr. set (s1 := upd_buf k (fun _ => y) s).
  assert (Hy : k_bufs s1 !! k = Some y) by (exact (lookup_upd_buf s k _ x Hx)).
  krun (get_buf_run k y s1 Hy). rewrite (bp_data _ _ _ _ _ _ Hp). fold h.
  unfold set_log, kmod, kbind at 1. cbn [obind].
  unfold kbind at 1. rewrite (read_loop h ((k_log s) <| lg_n := i32 (get32 h 0) |>)) by done. cbn [obind].
  set (sl := s <| k_log ::= load_head h |>). set (s2 := upd_buf k (fun _ => y) sl).
  match goal with |- exists s', brelse k ?t = Ret tt s' /\ _ => change t with s2 end.
  assert (Hel : forall i c me p, env sl i c me p -> env s2 i c me p) by (intros; by apply env_upd_buf).
  assert (Hc2 : cache s2 (pid p) [k]) by (exact (cache_log _ _ _ (load_head h) (bp_cache _ _ _ _ _ _ Hp))).
  exists (unhold k s2). split.
  - apply (brelse_run s2 i c me p [k] k y); [apply Hel; by apply (env_ext s)|done|apply list_elem_of_here|exact Hy].
  - split.
    + eapply fs_frame_trans; [apply fs_frame_bufs|apply fs_frame_unhold].
    + intros. apply env_unhold. by apply Hel.
    + apply (cache_unhold _ _ _ k y Hc2); [set_solver|done|]. rewrite (bp_blockno _ _ _ _ _ _ Hp). apply Hp.
    + intros b. rewrite (view_unhold _ _ [] k y b Hc2 Hy). apply Hp.
    + done.
    + cbn. by rewrite app_nil_r.
    + intros b. rewrite dirty_unhold. change (dirty s2 b) with (dirty s1 b). unfold s1. rewrite (bread_dirty _ _ _ _ _ _ b Hc Hp).
      cbn. split; [|by intros [? _]]. by intros ?%Hd.
Qed.

(** The disk that recovery makes of the disk [f]. *)
Definition recovered (st : Z) (f : Z -> list Z) : Z -> list Z :=
  over f (home_writes st (head_blocks (f st)) f ++ [(st, head_of [] (f st))]).

(** A header that recovery can follow. *)
Record head_ok (s : kernel) (st : Z) (h : list Z) : Prop := {
  hk_n : 0 <= i32 (get32 h 0) < LOGSIZE;
  hk_area : 0 <= st /\ st + i32 (get32 h 0) < k_disksize s;
  hk_home : forall b, b ∈ head_blocks h -> block_ok s b /\ (b < st \/ st + i32 (get32 h 0) < b);
  hk_nodup : NoDup (head_blocks h)
}.

Lemma length_head_blocks h : 0 <= i32 (get32 h 0) -> Z.of_nat (length (head_blocks h)) = i32 (get32 h 0).
Proof. intros H. unfold head_blocks. rewrite length_fmap, length_seqZ. lia. Qed.

Lemma view_clean s n b : cache s n [] -> ~ dirty s b -> view s b = disk_block s b.
Proof.
  intros Hc Hd. destruct (cached_cases s b) as [(k & x & Hx & D & <-)|Hno]; [|by apply view_disk].
  rewrite (view_buf s n [] k x Hc Hx D). destruct (ca_idle _ _ _ Hc k x Hx ltac:(set_solver)) as [_ _ Hst Hcl].
  apply Hcl. destruct Hst as [[_ ?]|[[?|F] _]]; [lia|done|]. destruct Hd. by exists k, x.
Qed.

Lemma recover_run s i c me p st :
  env s i c me p -> cache s (pid p) [] -> (forall b, ~ dirty s b) ->
  lg_dev (k_log s) = 1 -> lg_start (k_log s) = st -> length (lg_block (k_log s)) = Z.to_nat LOGSIZE ->
  head_ok s st (disk_block s st) ->
  exists s', recover_from_log s = Ret tt s' /\ cache s' (pid p) [] /\ lg_n (k_log s') = 0 /\
    forall b, disk_block s' b = recovered st (disk_block s) b /\ view s' b = disk_block s' b.
Proof.
  intros He Hc Hd Hdev Hstart Hlen [K1 K2 K3 K4].
  assert (Hvd : forall b, view s b = disk_block s b) by (intros b; by apply (view_clean s (pid p))).
  set (h := disk_block s st) in *. pose proof (length_head_blocks h (proj1 K1)) as Hnl.
  destruct (read_head_run s i c me p st He Hc Hd) as (s1 & E1 & W1); [unfold block_ok; lia|done|done|done|by rewrite Hvd|].
  rewrite Hvd in W1. fold h in W1. unfold recover_from_log. krun E1.
  assert (Ht : txn (s <| k_log ::= load_head h |>) st (head_blocks h)).
  { split; [done|done|done| |by apply take_app_length'|lia|cbn; lia| | |done].
    - cbn. rewrite length_app, length_drop, Hlen. change LOGSIZE with 30 in *. lia.
    - intros b Hb. rewrite Hnl. by apply K3.
    - intros b (k & -> & _)%list_elem_of_fmap. unfold i32. Z.div_mod_to_equations. lia. }
  pose proof (txn_frame _ _ _ _ Ht (bw_frame _ _ _ _ W1)) as Ht1.
  assert (He1 : env s1 i c me p) by (apply (bw_env _ _ _ _ W1); by apply (env_ext s)).
  assert (Hd1 : forall b, ~ dirty s1 b) by (intros b [Hb _]%(bw_dirty _ _ _ _ W1); by apply (Hd b)).
  destruct (install_trans_run s1 i c me p st _ He1 (bw_cache _ _ _ _ W1) Ht1 (or_intror Hd1)) as (s2 & E2 & W2). krun E2.
  pose proof (txn_none _ _ _ (txn_frame _ _ _ _ Ht1 (bw_frame _ _ _ _ W2))) as Ht2.
  unfold set_log, kmod, kbind at 1. cbn [obind]. change (s2 <| k_log ::= _ |>) with (no_log s2).
  assert (Hd2 : forall b, ~ dirty (no_log s2) b) by (intros b [Hb _]%(bw_dirty _ _ _ _ W2); by apply (Hd1 b)).
  destruct (write_head_run (no_log s2) i c me p st []) as (s3 & E3 & W3).
  { apply (env_ext s2); [|done..]. by apply (bw_env _ _ _ _ W2). }
  { apply cache_log, W2. }
  { done. }
  { by right. }
  exists s3. split; [done|]. split; [apply W3|]. split.
  { pose proof (tx_n _ _ _ (txn_frame _ _ _ _ Ht2 (bw_frame _ _ _ _ W3))) as H. exact H. }
  assert (Hv1 : forall b, view s1 b = disk_block s b) by (intros b; rewrite (bw_view _ _ _ _ W1); apply Hvd).
  assert (Eh : home_writes st (head_blocks h) (view s1) = home_writes st (head_blocks h) (disk_block s)).
  { apply list_fmap_ext. intros. f_equal. apply Hv1. }
  assert (Est : view (no_log s2) st = h).
  { change (view (no_log s2) st) with (view s2 st). rewrite (bw_view _ _ _ _ W2), over_other, Hv1; [done|].
    unfold home_writes. rewrite <- list_fmap_compose. intros (k & E & Hk%elem_of_seqZ)%list_elem_of_fmap. cbn in E.
    pose proof (K3 _ (nth_block_elem (head_blocks h) k ltac:(lia))). lia. }
  intros b. split; [|apply (view_clean s3 (pid p)); [apply W3|]; intros [Hb _]%(bw_dirty _ _ _ _ W3); by apply (Hd2 b)].
  rewrite (bw_disk _ _ _ _ W3), Est. unfold recovered. fold h. rewrite over_app. apply over_ext.
  change (disk_block (no_log s2) b) with (disk_block s2 b). rewrite (bw_disk _ _ _ _ W2), Eh. apply over_ext.
  apply (bw_disk _ _ _ _ W1).
Qed.

(** ** Crashes *)

(** [st] and the [n] blocks after it are the log. *)
Definition outside (st n b : Z) : Prop := b < st \/ st + n < b.

Lemma prefix_app_cases {A} (p l1 l2 : list A) :
  p `prefix_of` l1 ++ l2 -> p `prefix_of` l1 \/ exists p', p = l1 ++ p' /\ p' `prefix_of` l2.
Proof.
  intros H. destruct (prefix_weak_total p l1 (l1 ++ l2) H (prefix_app_r _ _ _ (reflexivity _))) as [Hp|[p' ->]]; [by left|right].
  exists p'. split; [done|]. by apply prefix_app_inv in H.
Qed.

Lemma prefix_fst (p ws : list (Z * list Z)) b : p `prefix_of` ws -> b ∈ p.*1 -> b ∈ ws.*1.
Proof. intros [k ->] H. rewrite fmap_app. apply elem_of_app. by left. Qed.

Lemma head_zero d : length d = 512%nat -> i32 (get32 (head_of [] d) 0) = 0.
Proof. intros Hd. change (head_of [] d) with (put32 d 0 0). rewrite get32_put32_eq by lia. done. Qed.

Section Crash.
Context (st : Z) (bl : list Z) (f f0 : Z -> list Z).
Let m : Z := Z.of_nat (length bl).
Hypothesis Hmax : m < LOGSIZE.
Hypothesis Hnd : NoDup bl.
Hypothesis Hout : forall b, b ∈ bl -> outside st m b /\ 0 <= b < 2147483648.
Hypothesis Hlen : length (f st) = 512%nat.
Hypothesis Hempty : i32 (get32 (f0 st) 0) = 0.
Hypothesis Hclean : forall b, b ∉ bl -> f b = f0 b.

Lemma installs_fst b : b ∈ (installs bl f).*1 <-> b ∈ bl.
Proof.
  unfold installs. rewrite <- list_fmap_compose, list_elem_of_fmap. split.
  - intros (k & -> & Hk%elem_of_seqZ). apply nth_block_elem. clear - Hk. lia.
  - intros Hb. rewrite <- (nth_block_seq bl) in Hb. apply list_elem_of_fmap in Hb as (k & -> & Hk). by exists k.
Qed.

Lemma over_installs g b : (b ∉ bl -> g b = f0 b) -> over g (installs bl f) b = f b.
Proof.
  intros Hg. destruct (decide (b ∈ bl)) as [Hb|Hb].
  - apply over_hit.
    + unfold installs. rewrite <- list_fmap_compose. change (NoDup (nth_block bl <$> seqZ 0 (Z.of_nat (length bl)))).
      by rewrite nth_block_seq.
    + rewrite <- (nth_block_seq bl) in Hb. apply list_elem_of_fmap in Hb as (k & -> & Hk). apply list_elem_of_fmap. by exists k.
  - rewrite over_other by (by rewrite installs_fst). by rewrite Hg, Hclean.
Qed.

Lemma recovered_empty g b : head_blocks (g st) = [] -> b <> st -> recovered st g b = g b.
Proof.
  intros Hg Hb. unfold recovered. rewrite Hg, over_app. cbn. by rewrite decide_False.
Qed.

Lemma head_empty d : i32 (get32 d 0) = 0 -> head_blocks d = [].
Proof. intros E. unfold head_blocks. by rewrite E. Qed.

Lemma head_of_nil d : length d = 512%nat -> head_blocks (head_of [] d) = [].
Proof. intros Hd. apply head_blocks_of; [done|done|]. by intros b ?%not_elem_of_nil. Qed.

(** Before the header is written. *)
Lemma crash_before P :
  P `prefix_of` log_writes st bl f ->
  over f0 P st = f0 st /\ forall b, outside st m b -> recovered st (over f0 P) b = f0 b.
Proof.
  intros HP. assert (Hst : over f0 P st = f0 st).
  { apply over_other. intros H%(prefix_fst _ _ _ HP). rewrite log_writes_fst in H. lia. }
  split; [done|]. intros b Hb. unfold outside, m in *. rewrite recovered_empty; [|rewrite Hst; by apply head_empty|lia].
  apply over_other. intros H%(prefix_fst _ _ _ HP). rewrite log_writes_fst in H. lia.
Qed.

(** After it, before it is cleared. *)
Lemma crash_between P :
  P `prefix_of` installs bl f ->
  let g := over f0 (log_writes st bl f ++ (st, head_of bl (f st)) :: P) in
  g st = head_of bl (f st) /\ forall b, outside st m b -> recovered st g b = f b.
Proof.
  intros HP g. assert (Hin : forall b, b ∈ P.*1 -> outside st m b).
  { intros b Hb%(prefix_fst _ _ _ HP). rewrite installs_fst in Hb. by apply Hout. }
  assert (Hg : forall b, b ∉ P.*1 -> g b = if decide (b = st) then head_of bl (f st) else over f0 (log_writes st bl f) b).
  { intros b Hb. unfold g. rewrite over_app. cbn. fold (over (over f0 (log_writes st bl f)) P).
    etransitivity; [exact (over_other _ P b Hb)|done]. }
  unfold outside, m in *.
  assert (Hst : g st = head_of bl (f st)) by (rewrite Hg, decide_True; [done|done|]; intros H%Hin; lia).
  split; [done|]. intros b Hb. unfold recovered. rewrite Hst, head_blocks_of; [|done|done|by apply Hout].
  assert (E : home_writes st bl g = installs bl f).
  { apply list_fmap_ext. intros j k Hk%list_elem_of_lookup_2%elem_of_seqZ. f_equal.
    rewrite Hg, decide_False, over_log_writes; [done|lia|lia|]. intros H%Hin. lia. }
  rewrite E, over_app, (over_other _ [_]) by (cbn; rewrite list_elem_of_singleton; lia).
  apply over_installs. intros Hnb. rewrite Hg, decide_False; [|lia|].
  - apply over_other. rewrite log_writes_fst. lia.
  - intros H%(prefix_fst _ _ _ HP). by rewrite installs_fst in H.
Qed.

(** After it is cleared. *)
Lemma crash_after :
  let g := over f0 (commit_writes st bl f) in
  g st = head_of [] (head_of bl (f st)) /\ forall b, outside st m b -> recovered st g b = f b.
Proof.
  intros g. unfold outside, m in *.
  assert (Hst : g st = head_of [] (head_of bl (f st))).
  { unfold g, commit_writes. rewrite !over_app. cbn. by rewrite decide_True. }
  split; [done|]. intros b Hb. rewrite recovered_empty; [|rewrite Hst; apply head_of_nil; by rewrite length_head_of|lia].
  unfold g, commit_writes. rewrite !over_app, (over_other _ [_]) by (cbn; rewrite list_elem_of_singleton; lia).
  apply over_installs. intros Hnb. rewrite (over_other _ [_]) by (cbn; rewrite list_elem_of_singleton; lia).
  apply over_other. rewrite log_writes_fst. lia.
Qed.

(** At any point of the commit the header on the disk is the empty one or that
    of the transaction, and recovery gives the old blocks or the new ones. *)
Lemma crash_cases P :
  P `prefix_of` commit_writes st bl f ->
  let g := over f0 P in
  (head_blocks (g st) = [] /\ i32 (get32 (g st) 0) = 0 \/ head_blocks (g st) = bl /\ i32 (get32 (g st) 0) = m) /\
  ((forall b, outside st m b -> recovered st g b = f0 b) \/ (forall b, outside st m b -> recovered st g b = f b)).
Proof.
  assert (Hmm : i32 (get32 (head_of bl (f st)) 0) = m).
  { destruct (head_of_words bl (f st) m) as (_ & E & _); [unfold m; lia|done|done|]. unfold head_of, m in *. rewrite E, i32_u32.
    apply i32_id. change LOGSIZE with 30 in Hmax. lia. }
  unfold commit_writes. intros [HP|(P1 & -> & HP)]%prefix_app_cases.
  { destruct (crash_before P HP) as [E H]. cbv zeta. rewrite E. split; [left; split; [by apply head_empty|done]|by left]. }
  destruct P1 as [|w P1].
  { rewrite app_nil_r. destruct (crash_before _ (reflexivity _)) as [E H]. cbv zeta. rewrite E.
    split; [left; split; [by apply head_empty|done]|by left]. }
  cbn [app] in HP. apply prefix_cons_inv_1 in HP as Ew. apply prefix_cons_inv_2 in HP. subst w.
  assert (Hmid : forall P, P `prefix_of` installs bl f ->
    let g := over f0 (log_writes st bl f ++ (st, head_of bl (f st)) :: P) in
    (head_blocks (g st) = [] /\ i32 (get32 (g st) 0) = 0 \/ head_blocks (g st) = bl /\ i32 (get32 (g st) 0) = m) /\
    ((forall b, outside st m b -> recovered st g b = f0 b) \/ (forall b, outside st m b -> recovered st g b = f b))).
  { intros P HP1. destruct (crash_between P HP1) as [E H]. cbv zeta. rewrite E. split; [right|by right].
    split; [|done]. apply head_blocks_of; [done|done|by apply Hout]. }
  apply prefix_app_cases in HP as [HP|(P2 & -> & HP)]; [by apply Hmid|].
  destruct P2 as [|w P2]; [rewrite app_nil_r; by apply Hmid|].
  apply prefix_cons_inv_1 in HP as Ew. apply prefix_cons_inv_2, prefix_nil_inv in HP. subst.
  destruct crash_after as [E H]. unfold commit_writes in E, H. cbn [app] in E, H. cbv zeta. rewrite E. split; [left|by right].
  split; [apply head_of_nil; by rewrite length_head_of|].
  apply head_zero. by rewrite length_head_of.
Qed.
End Crash.

(** A kernel that has just started: nothing is cached dirty, and [initlog] has
    found the log at [st]. *)
Record rebooted (r : kernel) (st size : Z) (i : nat) (c : cpu) (me : nat) (p : proc) : Prop := {
  rb_env : env r i c me p;
  rb_cache : cache r (pid p) [];
  rb_clean : forall b, ~ dirty r b;
  rb_dev : lg_dev (k_log r) = 1;
  rb_start : lg_start (k_log r) = st;
  rb_len : length (lg_block (k_log r)) = Z.to_nat LOGSIZE;
  rb_size : k_disksize r = size
}.

Lemma recovered_ext st f g b : (forall b, f b = g b) -> recovered st f b = recovered st g b.
Proof.
  intros H. unfold recovered. rewrite <- (H st).
  assert (E : home_writes st (head_blocks (f st)) f = home_writes st (head_blocks (f st)) g).
  { apply list_fmap_ext. intros. f_equal. apply H. }
  rewrite E. by apply over_ext.
Qed.

Lemma over_commit st bl f g b :
  NoDup bl -> outside st (Z.of_nat (length bl)) b -> (b ∉ bl -> g b = f b) -> over g (commit_writes st bl f) b = f b.
Proof.
  intros Hnd Hb Hg. unfold commit_writes, outside in *. rewrite !over_app, (over_other _ [_]) by (cbn; rewrite list_elem_of_singleton; lia).
  apply (over_installs bl f f); [done|done|]. intros Hnb.
  rewrite (over_other _ [_]) by (cbn; rewrite list_elem_of_singleton; lia).
  rewrite over_other by (rewrite log_writes_fst; lia). by apply Hg.
Qed.

(** What [crash_cases] needs of a transaction. *)
Lemma txn_crash s st bl n P :
  cache s n [] -> txn s st bl -> (forall b, dirty s b <-> b ∈ bl) -> i32 (get32 (disk_block s st) 0) = 0 ->
  P `prefix_of` commit_writes st bl (view s) ->
  let g := over (disk_block s) P in
  let m := Z.of_nat (length bl) in
  (head_blocks (g st) = [] /\ i32 (get32 (g st) 0) = 0 \/ head_blocks (g st) = bl /\ i32 (get32 (g st) 0) = m) /\
  ((forall b, outside st m b -> recovered st g b = disk_block s b) \/ (forall b, outside st m b -> recovered st g b = view s b)).
Proof.
  intros Hc Ht Hd H0 HP. apply (crash_cases st bl (view s)); [apply Ht|apply Ht| |by apply (view_length s n [])|done| |done].
  - intros b Hb. pose proof (tx_home _ _ _ Ht b Hb) as [? ?]. pose proof (tx_int _ _ _ Ht b Hb). unfold block_ok, outside in *. lia.
  - intros b Hb. apply (view_clean s n); [done|]. by rewrite Hd.
Qed.

Lemma commit_recovers s st bl n P r i c me p :
  cache s n [] -> txn s st bl -> (forall b, dirty s b <-> b ∈ bl) -> i32 (get32 (disk_block s st) 0) = 0 ->
  P `prefix_of` commit_writes st bl (view s) -> rebooted r st (k_disksize s) i c me p ->
  (forall b, disk_block r b = over (disk_block s) P b) ->
  exists r', recover_from_log r = Ret tt r' /\ cache r' (pid p) [] /\
    forall b, view r' b = recovered st (over (disk_block s) P) b.
Proof.
  intros Hc Ht Hd H0 HP [R1 R2 R3 R4 R5 R6 R7] Hr.
  destruct (txn_crash s st bl n P Hc Ht Hd H0 HP) as [Hhead _]. pose proof (tx_area _ _ _ Ht). pose proof (tx_max _ _ _ Ht).
  destruct (recover_run r i c me p st R1 R2 R3 R4 R5 R6) as (r' & E & Hc' & _ & Hv).
  - rewrite Hr. split.
    + destruct Hhead as [[_ ->]|[_ ->]]; [done|lia].
    + rewrite R7. destruct Hhead as [[_ ->]|[_ ->]]; lia.
    + unfold block_ok. rewrite R7. destruct Hhead as [[-> _]|[-> ->]]; [by intros b ?%not_elem_of_nil|apply Ht].
    + destruct Hhead as [[-> _]|[-> _]]; [constructor|apply Ht].
  - exists r'. split; [done|]. split; [done|]. intros b. destruct (Hv b) as [E1 ->]. rewrite E1. by apply recovered_ext.
Qed.

(** C1: Atomic commit.  A transaction whose blocks are the dirty blocks of the
    cache commits: [commit] returns, every block of the file system is on the
    disk as it was in the cache, and the header on the disk is empty again.
    Let [ws] be the block writes of the commit, in their order.  If the
    machine stops after any prefix of them, recovery at the next boot
    returns, and all the blocks outside the log are the old ones, or all of
    them are the new ones. *)
Theorem commit_atomic (s : kernel) i c me p st bl :
  env s i c me p -> cache s (pid p) [] -> txn s st bl -> bl <> [] -> (forall b, dirty s b <-> b ∈ bl) ->
  i32 (get32 (disk_block s st) 0) = 0 ->
  let fs_block b := outside st (Z.of_nat (length bl)) b in
  exists s' ws, commit s = Ret tt s' /\ cache s' (pid p) [] /\ lg_n (k_log s') = 0 /\
    i32 (get32 (disk_block s' st) 0) = 0 /\ k_dwrites s' = k_dwrites s ++ ws /\
    (forall b, fs_block b -> view s' b = view s b /\ disk_block s' b = view s b) /\
    forall P r i' c' me' p',
      P `prefix_of` ws -> rebooted r st (k_disksize s) i' c' me' p' -> (forall b, disk_block r b = over (disk_block s) P b) ->
      exists r', recover_from_log r = Ret tt r' /\ cache r' (pid p') [] /\
        ((forall b, fs_block b -> view r' b = disk_block s b) \/ (forall b, fs_block b -> view r' b = view s b)).
Proof.
  intros He Hc Ht Hne Hd He0 fs_block. destruct (commit_run s i c me p st bl He Hc Ht Hne Hd) as (s' & E & W).
  exists s', (commit_writes st bl (view s)). split; [done|]. split; [apply W|].
  split; [exact (tx_n _ _ _ (txn_frame _ _ _ _ (txn_none _ _ _ Ht) (bw_frame _ _ _ _ W)))|].
  assert (Hw : forall b, ~ dirty s b -> view s b = disk_block s b) by (intros b; by apply (view_clean s (pid p))).
  split; [|split; [apply W|split]].
  - rewrite (bw_disk _ _ _ _ W). unfold commit_writes. rewrite !over_app. cbn [over foldl fst snd]. rewrite decide_True by done.
    apply head_zero. rewrite length_head_of. by apply (view_length s (pid p) []).
  - intros b Hb. rewrite (bw_view _ _ _ _ W), (bw_disk _ _ _ _ W). split; (apply over_commit; [apply Ht|done|]); [done|].
    intros Hnb. symmetry. apply Hw. by rewrite Hd.
  - intros P r i' c' me' p' HP Hr Hrd.
    destruct (commit_recovers s st bl (pid p) P r i' c' me' p' Hc Ht Hd He0 HP Hr Hrd) as (r' & Er & Hcr & Hv).
    exists r'. split; [done|]. split; [done|].
    destruct (txn_crash s st bl (pid p) P Hc Ht Hd He0 HP) as [_ [Ho|Hn]]; [left|right]; intros b Hb; rewrite Hv; auto.
Qed.
End LogSpec.
#[export] Hint Resolve env_written env_unhold : kern.

(** ** A concrete transaction *)

(** Block 40 was written in a transaction with the log at block 2. *)
Definition demo_dirty : buf := mk_buf 6 1 40 zero_sleeplock 0 (replicate 512 5).
Definition demo_log (n : Z) : log_t := mk_log 2 30 0 1 1 n (40 :: replicate 29 0).
Definition demo_txn : kernel := (with_bufs [demo_dirty] ∅) <| k_log := demo_log 1 |>.
(** The machine stopped after the header was written. *)
Definition demo_crash : list (Z * list Z) := [(3, replicate 512 5); (2, head_of [40] zero_block)].
Definition demo_reboot : kernel :=
  (with_bufs [] (list_to_map (rev demo_crash))) <| k_log := demo_log 0 |>.

Lemma demo_txn_cache : cache demo_txn (pid run_proc) [].
Proof.
  apply (cache_log _ _ _ (fun _ => demo_log 1)). apply with_bufs_cache; [unfold NBUF; cbn; lia|done| |by repeat constructor; set_solver].
  apply Forall_singleton. split; [split; [done|done|right; split; [by right|done]|done]|].
  split; [done|]. split; [done|]. unfold FSSIZE. cbn. lia.
Qed.

Lemma demo_txn_ok : txn demo_txn 2 [40].
Proof.
  split; try done.
  - intros b ->%list_elem_of_singleton. unfold block_ok. change (k_disksize demo_txn) with 1000. cbn [length]. lia.
  - intros b ->%list_elem_of_singleton. lia.
  - apply NoDup_singleton.
Qed.

Lemma demo_txn_dirty b : dirty demo_txn b <-> b ∈ [40].
Proof.
  rewrite list_elem_of_singleton. split.
  - intros (k & x & Hx & [_ <-] & F). change (k_bufs (with_bufs [demo_dirty] ∅) !! k = Some x) in Hx.
    apply with_bufs_lookup in Hx as [Hx| ->]; [|done].
    by apply list_elem_of_singleton in Hx as ->.
  - intros ->. by exists 0%nat, demo_dirty.
Qed.

Lemma demo_reboot_disk b : disk_block demo_reboot b = over (disk_block demo_txn) demo_crash b.
Proof.
  unfold over, disk_block, demo_reboot, demo_crash. cbn -[head_of].
  destruct (decide (b = 2)) as [->|]; [by rewrite lookup_insert_eq|rewrite lookup_insert_ne by done].
  destruct (decide (b = 3)) as [->|]; [by rewrite lookup_insert_eq|by rewrite lookup_insert_ne].
Qed.

Lemma demo_rebooted : rebooted demo_reboot 2 (k_disksize demo_txn) 0 run_cpu 0 run_proc.
Proof.
  split; try done.
  - by apply (env_ext running _ _ _ _ _ running_env).
  - apply (cache_log _ _ _ (fun _ => demo_log 0)). apply with_bufs_cache; [unfold NBUF; cbn; lia| |constructor|constructor].
    intros b. change (length (disk_block demo_reboot b) = 512%nat). rewrite demo_reboot_disk. unfold over, demo_crash. cbn -[head_of].
    case_decide; [by rewrite length_head_of|by case_decide].
  - intros b (k & x & Hx & _ & F).
    change (k_bufs (with_bufs [] (list_to_map (rev demo_crash))) !! k = Some x) in Hx.
    apply with_bufs_lookup in Hx as [Hx| ->]; [by apply not_elem_of_nil in Hx|done].
Qed.

Lemma commit_atomic_witness :
  exists s' ws, commit (Pt := 1%nat) demo_txn = Ret tt s' /\ k_dwrites s' = ws /\
    (forall b, outside 2 1 b -> disk_block s' b = view demo_txn b) /\
    (demo_crash `prefix_of` ws -> exists r', recover_from_log (Pt := 1%nat) demo_reboot = Ret tt r' /\
      ((forall b, outside 2 1 b -> view r' b = disk_block demo_txn b) \/
       (forall b, outside 2 1 b -> view r' b = view demo_txn b))).
Proof.
  destruct (commit_atomic (Pt := 1%nat) ltac:(unfold patience; lia) demo_txn 0 run_cpu 0 run_proc 2 [40])
    as (s' & ws & E & _ & _ & _ & Ew & Hd & Hcrash).
  - by apply (env_ext running _ _ _ _ _ running_env).
  - apply demo_txn_cache.
  - apply demo_txn_ok.
  - done.
  - apply demo_txn_dirty.
  - vm_compute. reflexivity.
  - exists s', ws. split; [exact E|]. split; [exact Ew|]. split; [intros b Hb; by apply Hd|]. intros HP.
    destruct (Hcrash demo_crash demo_reboot 0%nat run_cpu 0%nat run_proc HP demo_rebooted demo_reboot_disk) as (r' & Er & _ & Hr).
    exists r'. split; [exact Er|exact Hr].
Defined.
