(* ===== verification/LogRoom.v ===== *)
(** * Space in the log

    What [begin_op] reserves and what [log_write] uses, for the calls of several
    operations in any order between two commits. *)

From stdpp Require Import base gmap strings list fin_maps.
From Stdlib Require Import ZArith Lia.
From S2P Require Import Prelude Mem Types Spinlock Kalloc Vm Proc ProcSpec Access Bytes Sleeplock Steady Disk Bio BioSpec Log LogSpec.

(** A call of an operation: the operations are numbered in the order in which
    they begin, and [Write j k] is a [log_write] of buffer [k] by operation [j]. *)
Inductive call := Begin | Write (j k : nat).
#[global] Instance call_eq_dec : EqDecision call.
Proof. solve_decision. Defined.

Section Room.
Context `{Pt : Patience}.

Definition run_call (o : call) : KM unit :=
  match o with
  | Begin => begin_op
  | Write _ k => log_write k
  end.
Definition run_calls (os : list call) : KM unit := keach os run_call.

(** Every operation writes at most [lim] blocks; [ws] written_by the blocks each has
    written so far. *)
Fixpoint within (lim : Z) (ws : list Z) (os : list call) : bool :=
  match os with
  | [] => true
  | Begin :: os' => within lim (ws ++ [0]) os'
  | Write j k :: os' =>
      match ws !! j with
      | Some w => (w <? lim) && (k <? NBUF)%nat && within lim (<[j := w + 1]> ws) os'
      | None => false
      end
  end.

Definition reserve (ws : list Z) : Z := foldr (fun w n => MAXOPBLOCKS - w + n) 0 ws.

(** The log has room for what the open operations may still write. *)
Record reserved (s : kernel) (ws : list Z) : Prop := {
  re_out : lg_outstanding (k_log s) = Z.of_nat (length ws);
  re_ws : Forall (fun w => 0 <= w <= MAXOPBLOCKS) ws;
  re_n : 0 <= lg_n (k_log s);
  re_room : lg_n (k_log s) + reserve ws <= LOGSIZE;
  re_size : lg_size (k_log s) = LOGSIZE;
  re_com : lg_committing (k_log s) = 0;
  re_blk : length (lg_block (k_log s)) = Z.to_nat LOGSIZE;
  re_bufs : length (k_bufs s) = NBUF
}.

Lemma reserve_app ws w : reserve (ws ++ [w]) = reserve ws + (MAXOPBLOCKS - w).
Proof. unfold reserve. induction ws as [|v ws IH]; cbn [app foldr]; lia. Qed.

Lemma reserve_insert ws j w v : ws !! j = Some w -> reserve (<[j := v]> ws) = reserve ws + w - v.
Proof.
  unfold reserve. revert j. induction ws as [|u ws IH]; intros [|j] H; [done..| |].
  - cbn in H. simplify_eq. cbn [insert list_insert foldr]. lia.
  - cbn in H. change (<[S j := v]> (u :: ws)) with (u :: <[j := v]> ws). cbn [foldr]. rewrite (IH j H). lia.
Qed.

Lemma reserve_bounds ws :
  Forall (fun w => 0 <= w <= MAXOPBLOCKS) ws -> 0 <= reserve ws <= MAXOPBLOCKS * Z.of_nat (length ws).
Proof. unfold reserve. induction 1; cbn [foldr length]; lia. Qed.

Lemma reserve_elem ws j w : Forall (fun w => 0 <= w <= MAXOPBLOCKS) ws -> ws !! j = Some w -> MAXOPBLOCKS - w <= reserve ws.
Proof.
  intros H. revert j. induction H as [|u ws Hu Hws IH]; intros [|j] Hj; [done..| |].
  - cbn in Hj. simplify_eq. pose proof (reserve_bounds ws Hws). change (reserve (w :: ws)) with (MAXOPBLOCKS - w + reserve ws). lia.
  - specialize (IH j Hj). change (reserve (u :: ws)) with (MAXOPBLOCKS - u + reserve ws). lia.
Qed.

(** The search of [log_write] for a block that is already in the log. *)
Lemma search_log s b (l : list Z) :
  Forall (fun k => 0 <= k < LOGSIZE) l -> length (lg_block (k_log s)) = Z.to_nat LOGSIZE ->
  exists r, kfor l (fun k => v <- get_block k ;; kret (if u32 v =? b then Some k else None)) s = Ret r s /\
    match r with Some k => k ∈ l | None => True end.
Proof.
  intros Hl Hb. induction Hl as [|k l Hk Hl IH]; [by exists None|]. cbn [kfor].
  destruct (lookup_lt_is_Some_2 (lg_block (k_log s)) (Z.to_nat k) ltac:(lia)) as [v Hv].
  assert (E : get_block k s = Ret v s).
  { unfold get_block. destruct (Z.leb_spec 0 k), (Z.ltb_spec k LOGSIZE); try lia. cbn [andb]. by rewrite Hv. }
  unfold kbind at 1 2. rewrite E. cbn [obind]. unfold kret at 1. cbn [obind]. destruct (u32 v =? b).
  - exists (Some k). split; [done|apply elem_of_cons; by left].
  - destruct IH as (r & -> & Hr). exists r. split; [done|]. destruct r; [|done]. apply elem_of_cons. by right.
Qed.

(** [log_write] with room: the log grows by at most one block. *)
Lemma log_write_room s i c me p ws k :
  env s i c me p -> reserved s ws -> (1 <= length ws)%nat -> lg_n (k_log s) < LOGSIZE - 1 -> (k < NBUF)%nat ->
  exists f g, log_write k s = Ret tt ((upd_buf k f s) <| k_log := g |>) /\
    lg_outstanding g = lg_outstanding (k_log s) /\ lg_size g = lg_size (k_log s) /\
    lg_committing g = lg_committing (k_log s) /\ length (lg_block g) = length (lg_block (k_log s)) /\
    lg_n (k_log s) <= lg_n g <= lg_n (k_log s) + 1.
Proof.
  intros He Hr Hws Hlt Hk. destruct Hr as [R1 _ R3 _ R5 _ R7 R8]. set (n := lg_n (k_log s)) in *.
  unfold log_write, kget at 1, kbind at 1. cbn [obind]. fold n. rewrite R5.
  destruct (Z.leb_spec LOGSIZE n), (Z.leb_spec (LOGSIZE - 1) n); try lia. cbn [orb].
  destruct (Z.ltb_spec (lg_outstanding (k_log s)) 1); [lia|].
  destruct (lookup_lt_is_Some_2 (k_bufs s) k ltac:(lia)) as [x Hx].
  krun (env_acquire s i c me p Llog He I). krun (get_buf_run k x (acq i Llog s) Hx). unfold kget at 1, kbind at 1. cbn [obind].
  change (lg_n (k_log (acq i Llog s))) with n.
  destruct (search_log (acq i Llog s) (b_blockno x) (seqZ 0 n)) as (r & E & Hr); [|done|].
  { apply Forall_forall. intros j Hj%elem_of_seqZ. lia. }
  krun E. cbv zeta. set (f := fun b : buf => b <| b_flags ::= fun fl => Z.lor fl B_DIRTY |>).
  assert (Hend : forall g, (set_buf k f ;;; release Llog) (acq i Llog (s <| k_log := g |>)) = Ret tt ((upd_buf k f s) <| k_log := g |>)).
  { intros g. krun (set_buf_run k f (acq i Llog (s <| k_log := g |>))).
    change (upd_buf k f (acq i Llog (s <| k_log := g |>))) with (acq i Llog (upd_buf k f (s <| k_log := g |>))).
    rewrite (env_release _ i c me p Llog); [done|apply env_upd_buf; by apply (env_ext s)|done]. }
  assert (Hset : forall j v, 0 <= j < LOGSIZE ->
    set_block j v (acq i Llog s) = Ret tt (acq i Llog (s <| k_log := (k_log s) <| lg_block ::= insert (Z.to_nat j) v |> |>))).
  { intros j v Hj. unfold set_block. by destruct (Z.leb_spec 0 j), (Z.ltb_spec j LOGSIZE); try lia. }
  destruct r as [j|]; cbn [default from_option id].
  - apply elem_of_seqZ in Hr. krun (Hset j (i32 (b_blockno x)) ltac:(lia)). destruct (Z.eqb_spec j n); [lia|].
    unfold kret at 1, kbind at 1. cbn [obind]. eexists f, _. split; [apply Hend|]. cbn. rewrite length_insert. repeat split; lia.
  - rewrite Z.max_r by lia. krun (Hset n (i32 (b_blockno x)) ltac:(lia)). rewrite Z.eqb_refl.
    unfold set_log at 1, kmod, kbind at 1. cbn [obind]. 
    exists f, ((k_log s) <| lg_block ::= insert (Z.to_nat n) (i32 (b_blockno x)) |> <| lg_n ::= fun n => n + 1 |>).
    split; [rewrite <- Hend; reflexivity|].
    cbn. rewrite length_insert. fold n. repeat split; lia.
Qed.

(** [begin_op] waits exactly without room for one more operation. *)
Lemma begin_op_room s i c me p ws :
  env s i c me p -> ncli c = 0 -> reserved s ws -> (0 < patience)%nat ->
  if LOGSIZE <? lg_n (k_log s) + (lg_outstanding (k_log s) + 1) * MAXOPBLOCKS
  then exists s1 k, begin_op s = Switch s1 k /\ k_log s1 = k_log s
  else begin_op s = Ret tt (s <| k_log ::= fun g => g <| lg_outstanding ::= fun n => n + 1 |> |>).
Proof.
  intros He Hd Hr Hp. set (room := LOGSIZE <? _).
  assert (E : begin_op s = if room then (sleep (Some Clog) (Some Llog) ;;; begin_op_loop (pred patience)) (acq i Llog s)
    else (set_log (fun g => g <| lg_outstanding ::= fun n => n + 1 |>) ;;; release Llog) (acq i Llog s)).
  { unfold begin_op. destruct patience as [|q]; [lia|].
    krun (env_acquire s i c me p Llog He I). cbn [begin_op_loop]. unfold kget at 1, kbind at 1. cbn [obind].
    change (k_log (acq i Llog s)) with (k_log s). rewrite (re_com _ _ Hr). change (c_true 0) with false. cbv iota.
    fold room. by destruct room. }
  rewrite E. destruct room.
  - pose proof He as [Hst Hlk Hc Hpt _ _]. destruct (steady_acq s i c Llog Hst) as [(Hon & Hn & Hi) _].
    unfold kbind at 1. erewrite (sleep_run (acq i Llog s) i (pushc (k_if s) c) me p Clog Llog).
    + by eexists _, _.
    + split; [exact Hon|]. split; [done|]. rewrite ncli_pushc. lia.
    + by rewrite cpu_proc_pushc.
    + exact Hpt.
    + done.
    + apply held_acq.
    + apply free_acq; [done|]. by apply Hlk.
  - unfold set_log, kmod, kbind at 1. cbn [obind].
    set (s' := s <| k_log ::= _ |>). apply (env_release s' i c me p Llog); [|done]. by apply (env_ext s).
Qed.

Lemma reserved_begin s ws :
  reserved s ws -> lg_n (k_log s) + (lg_outstanding (k_log s) + 1) * MAXOPBLOCKS <= LOGSIZE ->
  reserved (s <| k_log ::= fun g => g <| lg_outstanding ::= fun n => n + 1 |> |>) (ws ++ [0]).
Proof.
  intros [R1 R2 R3 R4 R5 R6 R7 R8] Hroom. pose proof (reserve_bounds ws R2). split; cbn; try done.
  - rewrite length_app. cbn. lia.
  - apply Forall_app. split; [done|]. constructor; [|constructor]. unfold MAXOPBLOCKS. lia.
  - rewrite reserve_app. rewrite R1 in Hroom. lia.
Qed.

Lemma reserved_write s ws j w f k g :
  reserved s ws -> ws !! j = Some w -> w < MAXOPBLOCKS ->
  lg_outstanding g = lg_outstanding (k_log s) -> lg_size g = lg_size (k_log s) ->
  lg_committing g = lg_committing (k_log s) -> length (lg_block g) = length (lg_block (k_log s)) ->
  lg_n (k_log s) <= lg_n g <= lg_n (k_log s) + 1 ->
  reserved ((upd_buf k f s) <| k_log := g |>) (<[j := w + 1]> ws).
Proof.
  intros [R1 R2 R3 R4 R5 R6 R7 R8] Hj Hw E1 E2 E3 E4 E5.
  pose proof (proj1 (Forall_lookup _ ws) R2 j w Hj) as Hw0. cbn in Hw0.
  split; cbn; rewrite ?E1, ?E2, ?E3, ?E4, ?length_insert, ?length_alter; try done.
  - apply Forall_insert; [done|lia].
  - lia.
  - rewrite (reserve_insert ws j w) by done. lia.
Qed.

(** The blocks each operation has written after some calls. *)
Fixpoint written_by (ws : list Z) (os : list call) : list Z :=
  match os with
  | [] => ws
  | Begin :: os' => written_by (ws ++ [0]) os'
  | Write j _ :: os' => written_by (alter (fun w => w + 1) j ws) os'
  end.

(** One more operation that writes [MAXOPBLOCKS] blocks fits in the log, and so
    do those that are open. *)
Definition fits (s : kernel) : Prop := lg_n (k_log s) + (lg_outstanding (k_log s) + 1) * MAXOPBLOCKS <= LOGSIZE.

(** What the calls do: those of [os1] return, and the next, if there is one, is a
    [begin_op] that waits. *)
Definition calls_run (s : kernel) (ws : list Z) (os os1 os2 : list call) : Prop :=
  exists s1, run_calls os1 s = Ret tt s1 /\ reserved s1 (written_by ws os1) /\
    (forall a b, os1 = a ++ Begin :: b -> exists sa, run_calls a s = Ret tt sa /\ fits sa) /\
    (os2 = [] \/ exists rest s2 k, os2 = Begin :: rest /\ ~ fits s1 /\ run_calls os s = Switch s2 k /\ k_log s2 = k_log s1).

(** One call that returns, in front of others. *)
Lemma calls_run_cons s s1 ws ws1 o os os1 os2 :
  run_call o s = Ret tt s1 -> (o = Begin -> fits s) -> (forall os, written_by ws (o :: os) = written_by ws1 os) ->
  calls_run s1 ws1 os os1 os2 -> calls_run s ws (o :: os) (o :: os1) os2.
Proof.
  intros Ho Hf Hc (s' & H1 & H2 & H3 & H4).
  assert (E : forall l, run_calls (o :: l) s = run_calls l s1) by (intros l; unfold run_calls; cbn [keach]; by krun Ho).
  exists s'. rewrite !E, Hc. split; [done|]. split; [done|]. split; [|done].
  intros [|x a] b Hab; [injection Hab as Hb _; exists s; split; [done|by apply Hf]|injection Hab as <- Hab].
  destruct (H3 a b Hab) as (sa & Ha & Hfa). exists sa. by rewrite E.
Qed.

(** C20: The log does not overflow.  Let no commit be running, and let several
    operations call [begin_op] and [log_write] in any order, each writing fewer
    than [MAXOPBLOCKS] blocks.  Then no [log_write] panics: the calls return one
    after the other, up to the end or up to a [begin_op] that waits.  When they
    have returned, the log has room for what each open operation, by the count
    of its own writes, may still write.  A [begin_op] returns only when the
    blocks in the log and [MAXOPBLOCKS] for each open operation and for the new
    one are at most [LOGSIZE]; it waits, with the log unchanged, only when they
    are more. *)
Theorem log_room (os : list call) : forall (s : kernel) i c me p ws lim,
  env s i c me p -> ncli c = 0 -> (0 < patience)%nat -> reserved s ws -> lim < MAXOPBLOCKS -> within lim ws os = true ->
  exists os1 os2, os = os1 ++ os2 /\ calls_run s ws os os1 os2.
Proof.
  induction os as [|o os IH]; intros s i c me p ws lim He Hd Hp Hr Hlim Hw.
  { exists [], []. split; [done|]. exists s. split; [done|]. split; [done|]. split; [intros [|? ?] ? ?; done|by left]. }
  destruct o as [|j k]; cbn [within] in Hw.
  - pose proof (begin_op_room s i c me p ws He Hd Hr Hp) as H.
    destruct (Z.ltb_spec LOGSIZE (lg_n (k_log s) + (lg_outstanding (k_log s) + 1) * MAXOPBLOCKS)) as [Hn|Hn].
    + destruct H as (s2 & k & E & El). exists [], (Begin :: os). split; [done|]. exists s. split; [done|]. split; [done|].
      split; [intros [|? ?] ? ?; done|]. right. exists os, s2. eexists. split; [done|]. split; [unfold fits; lia|]. split; [|done].
      unfold run_calls. cbn [keach run_call]. by krun E.
    + set (s1 := s <| k_log ::= fun g => g <| lg_outstanding ::= fun n => n + 1 |> |>) in H. assert (He1 : env s1 i c me p) by (by apply (env_ext s)).
      destruct (IH s1 i c me p (ws ++ [0]) lim He1 Hd Hp (reserved_begin s ws Hr Hn) Hlim Hw) as (os1 & os2 & -> & Hrun).
      exists (Begin :: os1), os2. split; [done|]. by apply (calls_run_cons s s1 ws (ws ++ [0])).
  - destruct (ws !! j) as [w|] eqn:Ej; [|done]. apply andb_true_iff in Hw as [[Hwl Hk]%andb_true_iff Hw].
    apply Z.ltb_lt in Hwl. apply Nat.ltb_lt in Hk. pose proof (reserve_elem ws j w (re_ws _ _ Hr) Ej).
    pose proof (re_room _ _ Hr). pose proof (lookup_lt_Some _ _ _ Ej).
    destruct (log_write_room s i c me p ws k He Hr ltac:(lia) ltac:(lia) Hk) as (f & g & E & E1 & E2 & E3 & E4 & E5).
    set (s1 := (upd_buf k f s) <| k_log := g |>) in E. assert (He1 : env s1 i c me p) by (by apply (env_ext s)).
    assert (Hr1 : reserved s1 (<[j := w + 1]> ws)) by (apply reserved_write; done || lia).
    destruct (IH s1 i c me p (<[j := w + 1]> ws) lim He1 Hd Hp Hr1 Hlim Hw) as (os1 & os2 & -> & Hrun).
    exists (Write j k :: os1), os2. split; [done|]. apply (calls_run_cons s s1 ws (<[j := w + 1]> ws)); [done|done| |done].
    intros l. cbn [written_by]. f_equal. rewrite list_insert_alter. apply list_alter_ext; [|done]. intros x Hx. congruence.
Qed.
End Room.

(** ** Concrete operations *)

(** An empty log of [LOGSIZE] blocks, as [mkfs] makes it, and buffers with
    different blocks. *)
Definition empty_log : kernel :=
  running <| k_log := mk_log 2 30 0 0 1 0 (replicate 30 0) |>
    <| k_bufs := (fun b => zero_buf <| b_flags := 2 |> <| b_dev := 1 |> <| b_blockno := b |>) <$> seqZ 100 30 |>.

Definition writes_of (j n : nat) : list call := Write j <$> seq (j * 10) n.

Lemma empty_log_env : env empty_log 0 run_cpu 0 run_proc.
Proof. exact (env_ext running empty_log 0 run_cpu 0 run_proc running_env eq_refl eq_refl eq_refl eq_refl eq_refl eq_refl). Qed.

(** Three operations with nine blocks each; the fourth waits. *)
Definition four_ops : list call := Begin :: Begin :: Begin :: writes_of 0 9 ++ writes_of 1 9 ++ writes_of 2 9 ++ [Begin].

Lemma log_room_witness : exists os1 os2, four_ops = os1 ++ os2 /\ calls_run (Pt := 1%nat) empty_log [] four_ops os1 os2.
Proof.
  apply (log_room (Pt := 1%nat) four_ops empty_log 0 run_cpu 0 run_proc [] 9);
    [exact empty_log_env|reflexivity|unfold patience; lia| |vm_compute; reflexivity|vm_compute; reflexivity].
  split; try reflexivity; try constructor; vm_compute; discriminate.
Defined.

(** Three operations that write the [MAXOPBLOCKS] blocks each that they may
    write do not fit: the log has [LOGSIZE] blocks with its header. *)
Example log_overflows :
  match run_calls (Pt := 1%nat) (Begin :: Begin :: Begin :: writes_of 0 10 ++ writes_of 1 10 ++ writes_of 2 10) empty_log with
  | Panic msg _ => msg = "too big a transaction"%string
  | _ => False
  end.
Proof. vm_compute. reflexivity. Qed.
