(* ===== verification/Inode.v ===== *)
(** * Blocks and inodes

    The first layers of [fs.c]: the block allocator, the inode cache and the
    map from the blocks of a file to the blocks of the disk. *)

From stdpp Require Import base gmap strings list fin_maps.
From Stdlib Require Import ZArith Lia.
From S2P Require Import Prelude Mem Types Spinlock Kalloc Vm Proc Access Sleeplock Disk Bio Log.

Definition IBLOCK (i : Z) (sb : superblock) : Z := u32 (i / IPB + sb_inodestart sb).
Definition BBLOCK (b : Z) (sb : superblock) : Z := u32 (b / BPB + sb_bmapstart sb).

(** ** [struct dinode] in the bytes of a block *)
Record dinode := mk_dinode {
  d_type : Z; d_major : Z; d_minor : Z; d_nlink : Z; d_size : Z; d_addrs : list Z
}.
Definition DINODE_SIZE : Z := 64.
Definition decode_dinode (d : list Z) (o : Z) : dinode :=
  mk_dinode (i16 (get16 d o)) (i16 (get16 d (o + 2))) (i16 (get16 d (o + 4))) (i16 (get16 d (o + 6)))
    (get32 d (o + 8)) ((fun k => get32 d (o + 12 + 4 * Z.of_nat k)) <$> seq 0 13).
Fixpoint put_words (d : list Z) (o : Z) (l : list Z) : list Z :=
  match l with
  | [] => d
  | v :: l' => put_words (put32 d o v) (o + 4) l'
  end.
Definition encode_dinode (d : list Z) (o : Z) (x : dinode) : list Z :=
  put_words (put32 (put16 (put16 (put16 (put16 d o (d_type x)) (o + 2) (d_major x)) (o + 4) (d_minor x))
    (o + 6) (d_nlink x)) (o + 8) (d_size x)) (o + 12) (d_addrs x).

Definition set_data (i : nat) (f : list Z -> list Z) : KM unit := set_buf i (fun b => b <| b_data ::= f |>).

(** ** Directly indexed reads of an inode's block numbers *)
Definition get_addr (ip : nat) (k : Z) : KM Z :=
  x <- get_inode ip ;;
  match i_addrs x !! Z.to_nat k with
  | Some a => kret a
  | None => kundef "addrs index"
  end.
Definition set_addr (ip : nat) (k v : Z) : KM unit :=
  set_inode ip (fun x => x <| i_addrs ::= insert (Z.to_nat k) v |>).

Section InodeDefs.
Context `{Pt : Patience} `{D : DiskDriver}.

(** ** Blocks *)
Definition bzero (dev bno : Z) : KM unit :=
  bp <- bread dev bno ;;
  set_data bp (fun _ => replicate (Z.to_nat BSIZE) 0) ;;;
  log_write bp ;;;
  brelse bp.

(** The inner loop of [balloc] over the bits of a bitmap block. *)
Definition balloc_scan (dev b : Z) (bp : nat) (sb : superblock) : KM (option Z) :=
  kfor (seqZ 0 (Z.min BPB (sb_size sb - b))) (fun bi =>
    x <- get_buf bp ;;
    let m := Z.shiftl 1 (bi mod 8) in
    if Z.land (byte_at (b_data x) (bi / 8)) m =? 0 then
      set_data bp (fun d => put8 d (bi / 8) (Z.lor (byte_at d (bi / 8)) m)) ;;;
      log_write bp ;;;
      brelse bp ;;;
      bzero dev (b + bi) ;;;
      kret (Some (b + bi))
    else kret None).

Definition balloc (dev : Z) : KM Z :=
  sb <- kget k_sb ;;
  r <- kfor ((fun k => k * BPB) <$> seqZ 0 ((sb_size sb + BPB - 1) / BPB)) (fun b =>
         bp <- bread dev (BBLOCK b sb) ;;
         r <- balloc_scan dev b bp sb ;;
         match r with
         | Some a => kret (Some a)
         | None => brelse bp ;;; kret None
         end) ;;
  match r with
  | Some a => kret a
  | None => kpanic "balloc: out of blocks"
  end.

Definition bfree (dev b : Z) : KM unit :=
  sb <- kget k_sb ;;
  bp <- bread dev (BBLOCK b sb) ;;
  let bi := b mod BPB in
  let m := Z.shiftl 1 (bi mod 8) in
  x <- get_buf bp ;;
  if Z.land (byte_at (b_data x) (bi / 8)) m =? 0 then kpanic "freeing free block" else
  set_data bp (fun d => put8 d (bi / 8) (Z.land (byte_at d (bi / 8)) (Z.lnot m))) ;;;
  log_write bp ;;;
  brelse bp.

(** ** The inode cache *)
Definition iinit (dev : Z) : KM unit :=
  initlock Licache ;;;
  keach (seq 0 NINODE) (fun i => initsleeplock (SInode i)) ;;;
  sb <- readsb dev ;;
  kmod (fun s => s <| k_sb := sb |>) ;;;
  cprintf "sb: size %d nblocks %d ninodes %d nlog %d logstart %d inodestart %d bmap start %d".

(** The loop of [iget]: the entry of the inode, or the first empty one. *)
Fixpoint iget_scan (dev inum : Z) (l : list nat) (empty : option nat) : KM (nat + option nat) :=
  match l with
  | [] => kret (inr empty)
  | i :: l' =>
      x <- get_inode i ;;
      if (0 <? i_ref x) && (i_dev x =? dev) && (i_inum x =? inum) then
        set_inode i (fun x => x <| i_ref ::= fun n => n + 1 |>) ;;;
        release Licache ;;;
        kret (inl i)
      else
        iget_scan dev inum l'
          (match empty with
           | None => if i_ref x =? 0 then Some i else None
           | Some e => Some e
           end)
  end.

Definition iget (dev inum : Z) : KM nat :=
  acquire Licache ;;;
  r <- iget_scan dev inum (seq 0 NINODE) None ;;
  match r with
  | inl i => kret i
  | inr None => kpanic "iget: no inodes"
  | inr (Some i) =>
      set_inode i (fun x => x <| i_dev := dev |>) ;;;
      set_inode i (fun x => x <| i_inum := inum |>) ;;;
      set_inode i (fun x => x <| i_ref := 1 |>) ;;;
      set_inode i (fun x => x <| i_valid := 0 |>) ;;;
      release Licache ;;;
      kret i
  end.

Definition ialloc (dev type : Z) : KM nat :=
  sb <- kget k_sb ;;
  r <- kfor (seqZ 1 (sb_ninodes sb - 1)) (fun inum =>
         bp <- bread dev (IBLOCK inum sb) ;;
         b <- get_buf bp ;;
         let o := inum mod IPB * DINODE_SIZE in
         if d_type (decode_dinode (b_data b) o) =? 0 then
           set_data bp (fun d => put_bytes d o (replicate (Z.to_nat DINODE_SIZE) 0)) ;;;
           set_data bp (fun d => put16 d o type) ;;;
           log_write bp ;;;
           brelse bp ;;;
           i <- iget dev inum ;;
           kret (Some i)
         else brelse bp ;;; kret None) ;;
  match r with
  | Some i => kret i
  | None => kpanic "ialloc: no inodes"
  end.

Definition iupdate (ip : nat) : KM unit :=
  sb <- kget k_sb ;;
  x <- get_inode ip ;;
  bp <- bread (i_dev x) (IBLOCK (i_inum x) sb) ;;
  let o := i_inum x mod IPB * DINODE_SIZE in
  set_data bp (fun d => encode_dinode d o
    (mk_dinode (i_type x) (i_major x) (i_minor x) (i_nlink x) (i_size x) (i_addrs x))) ;;;
  log_write bp ;;;
  brelse bp.

Definition idup (ip : nat) : KM nat :=
  acquire Licache ;;;
  set_inode ip (fun x => x <| i_ref ::= fun n => n + 1 |>) ;;;
  release Licache ;;;
  kret ip.

Definition ilock (oip : option nat) : KM unit :=
  match oip with
  | None => kpanic "ilock"
  | Some ip =>
      x <- get_inode ip ;;
      if i_ref x <? 1 then kpanic "ilock" else
      acquiresleep (SInode ip) ;;;
      x <- get_inode ip ;;
      when i_valid x =? 0 do
        (sb <- kget k_sb ;;
         bp <- bread (i_dev x) (IBLOCK (i_inum x) sb) ;;
         b <- get_buf bp ;;
         let di := decode_dinode (b_data b) (i_inum x mod IPB * DINODE_SIZE) in
         set_inode ip (fun x => x <| i_type := d_type di |>) ;;;
         set_inode ip (fun x => x <| i_major := d_major di |>) ;;;
         set_inode ip (fun x => x <| i_minor := d_minor di |>) ;;;
         set_inode ip (fun x => x <| i_nlink := d_nlink di |>) ;;;
         set_inode ip (fun x => x <| i_size := d_size di |>) ;;;
         set_inode ip (fun x => x <| i_addrs := d_addrs di |>) ;;;
         brelse bp ;;;
         set_inode ip (fun x => x <| i_valid := 1 |>) ;;;
         if d_type di =? 0 then kpanic "ilock: no type" else kret tt)
  end.

Definition iunlock (oip : option nat) : KM unit :=
  match oip with
  | None => kpanic "iunlock"
  | Some ip =>
      h <- holdingsleep (SInode ip) ;;
      if negb h then kpanic "iunlock" else
      x <- get_inode ip ;;
      if i_ref x <? 1 then kpanic "iunlock" else
      releasesleep (SInode ip)
  end.

(** ** The blocks of a file *)
Definition bmap (ip : nat) (bn : Z) : KM Z :=
  x <- get_inode ip ;;
  if bn <? NDIRECT then
    addr <- get_addr ip bn ;;
    if addr =? 0 then
      addr <- balloc (i_dev x) ;;
      set_addr ip bn addr ;;;
      kret addr
    else kret addr
  else
  let bn := bn - NDIRECT in
  if bn <? NINDIRECT then
    addr <- get_addr ip NDIRECT ;;
    addr <- (if addr =? 0 then
               addr <- balloc (i_dev x) ;;
               set_addr ip NDIRECT addr ;;;
               kret addr
             else kret addr) ;;
    bp <- bread (i_dev x) addr ;;
    b <- get_buf bp ;;
    let addr := get32 (b_data b) (4 * bn) in
    addr <- (if addr =? 0 then
               addr <- balloc (i_dev x) ;;
               set_data bp (fun d => put32 d (4 * bn) addr) ;;;
               log_write bp ;;;
               kret addr
             else kret addr) ;;
    brelse bp ;;;
    kret addr
  else kpanic "bmap: out of range".

Definition itrunc (ip : nat) : KM unit :=
  x <- get_inode ip ;;
  keach (seqZ 0 NDIRECT) (fun i =>
    a <- get_addr ip i ;;
    when c_true a do (bfree (i_dev x) a ;;; set_addr ip i 0)) ;;;
  a <- get_addr ip NDIRECT ;;
  (when c_true a do
     (bp <- bread (i_dev x) a ;;
      keach (seqZ 0 NINDIRECT) (fun j =>
        b <- get_buf bp ;;
        let a := get32 (b_data b) (4 * j) in
        when c_true a do bfree (i_dev x) a) ;;;
      brelse bp ;;;
      bfree (i_dev x) a ;;;
      set_addr ip NDIRECT 0)) ;;;
  set_inode ip (fun x => x <| i_size := 0 |>) ;;;
  iupdate ip.

Definition iput (ip : nat) : KM unit :=
  acquiresleep (SInode ip) ;;;
  x <- get_inode ip ;;
  (when c_true (i_valid x) && (i_nlink x =? 0) do
     (acquire Licache ;;;
      x <- get_inode ip ;;
      let r := i_ref x in
      release Licache ;;;
      when r =? 1 do
        (itrunc ip ;;;
         set_inode ip (fun x => x <| i_type := 0 |>) ;;;
         iupdate ip ;;;
         set_inode ip (fun x => x <| i_valid := 0 |>)))) ;;;
  releasesleep (SInode ip) ;;;
  acquire Licache ;;;
  set_inode ip (fun x => x <| i_ref ::= fun n => n - 1 |>) ;;;
  release Licache.

Definition iunlockput (ip : nat) : KM unit :=
  iunlock (Some ip) ;;;
  iput ip.

(** [struct stat] at the address [st]: [type], [dev], [ino], [nlink], [size]. *)
Definition stati (ip : nat) (st : Z) : KM unit :=
  x <- get_inode ip ;;
  store32 (st + 4) (i_dev x) ;;;
  store32 (st + 8) (i_inum x) ;;;
  store16 st (i_type x) ;;;
  store16 (st + 12) (i_nlink x) ;;;
  store32 (st + 16) (i_size x).
End InodeDefs.
