(* ===== verification/TxnSpec.v ===== *)
(** * Updates inside a transaction

    [log_write] and what an update of a block in a transaction does: the new
    contents are in the cache, the block is in the log, and the disk has not
    changed; the dirty blocks are the logged blocks, which is what a commit
    needs. *)

From stdpp Require Import base gmap strings list fin_maps.
From Stdlib Require Import ZArith Lia.
From S2P Require Import Prelude Mem Types Spinlock Kalloc Vm Proc ProcSpec Access Bytes Sleeplock Steady Disk Bio BioSpec Log LogSpec Inode.

(** A transaction is open; the log is the blocks from [st] on, and [bl] are the
    blocks written so far. *)
Record logging (s : kernel) (st : Z) (bl : list Z) : Prop := {
  lo_txn : txn s st bl;
  lo_size : lg_size (k_log s) = LOGSIZE;
  lo_area : st + LOGSIZE <= k_disksize s;
  lo_home : forall b, b ∈ bl -> b < st \/ st + LOGSIZE <= b;
  lo_open : 1 <= lg_outstanding (k_log s);
  lo_dirty : forall b, dirty s b <-> b ∈ bl
}.

(** The blocks of the log with [b] added. *)
Definition logged (bl : list Z) (b : Z) : list Z := if decide (b ∈ bl) then bl else bl ++ [b].

Lemma find_block s st bl b :
  txn s st bl -> 0 <= b < 4294967296 ->
  kfor (seqZ 0 (Z.of_nat (length bl))) (fun k => v <- get_block k ;; kret (if u32 v =? b then Some k else None)) s =
    Ret ((fun x => Z.of_nat (fst x)) <$> list_find (fun v => v = b) bl) s.
Proof.
  intros Ht Hb. set (body := fun k => _).
  assert (Hbody : forall k, 0 <= k < Z.of_nat (length bl) -> body k s = Ret (if decide (nth_block bl k = b) then Some k else None) s).
  { intros k Hk. unfold body. krun (get_block_run s st bl k Ht Hk). pose proof (tx_home _ _ _ Ht _ (nth_block_elem bl k Hk)) as [Hr _].
    pose proof (tx_int _ _ _ Ht _ (nth_block_elem bl k Hk)). unfold block_ok in Hr. rewrite u32_id by lia.
    case_decide as E; [by rewrite E, Z.eqb_refl|]. by rewrite (proj2 (Z.eqb_neq _ _) E). }
  destruct (list_find (fun v => v = b) bl) as [[j v]|] eqn:E; cbn [fmap option_fmap option_map fst].
  - apply list_find_Some in E as (Hj & -> & Hmin). pose proof (lookup_lt_Some _ _ _ Hj).
    replace (Z.of_nat (length bl)) with (Z.of_nat j + (Z.of_nat (length bl) - Z.of_nat j)) by lia.
    rewrite seqZ_app by lia. rewrite kfor_skip.
    + rewrite (seqZ_cons (0 + Z.of_nat j)) by lia. cbn [kfor]. krun (Hbody (0 + Z.of_nat j) ltac:(lia)).
      rewrite decide_True; [done|]. unfold nth_block. by rewrite Z.add_0_l, Nat2Z.id, Hj.
    + intros k Hk%elem_of_seqZ. rewrite Hbody by lia. rewrite decide_False; [done|]. intros E.
      destruct (lookup_lt_is_Some_2 bl (Z.to_nat k) ltac:(lia)) as [y Hy]. apply (Hmin _ y Hy); [lia|].
      unfold nth_block in E. by rewrite Hy in E.
  - rewrite list_find_None, Forall_forall in E. apply kfor_all. intros k Hk%elem_of_seqZ. rewrite Hbody by lia.
    rewrite decide_False; [done|]. intros Ek. apply (E _ (nth_block_elem bl k ltac:(lia))). exact Ek.
Qed.

(** The log after [log_write] of block [b]. *)
Definition log_add (bl : list Z) (b : Z) (g : log_t) : log_t :=
  if decide (b ∈ bl) then g
  else g <| lg_block ::= insert (length bl) b |> <| lg_n ::= fun n => n + 1 |>.

Lemma txn_acq s st bl i l : txn s st bl -> txn (acq i l s) st bl.
Proof. intros [? ? ? ? ? ? ? ? ? ?]. by split. Qed.

Lemma txn_lookup s st bl j b : txn s st bl -> bl !! j = Some b -> lg_block (k_log s) !! j = Some b.
Proof.
  intros Ht Hj. pose proof (lookup_lt_Some _ _ _ Hj). pose proof (tx_block _ _ _ Ht) as Hb.
  rewrite <- Hb, lookup_take_lt in Hj by done. done.
Qed.

Lemma log_write_run s i c me p st bl k x :
  env s i c me p -> logging s st bl -> Z.of_nat (length bl) < LOGSIZE - 1 ->
  k_bufs s !! k = Some x -> 0 <= b_blockno x < 2147483648 -> usable (b_flags x) ->
  log_write k s = Ret tt ((upd_buf k (fun b => b <| b_flags := 6 |>) s) <| k_log ::= log_add bl (b_blockno x) |>).
Proof.
  intros He [Ht Hsz _ _ Hopen _] Hlt Hx Hb Hf. pose proof (tx_n _ _ _ Ht) as Hn. unfold log_write, kget at 1, kbind at 1. cbn [obind].
  rewrite Hn, Hsz. destruct (Z.leb_spec LOGSIZE (Z.of_nat (length bl))), (Z.leb_spec (LOGSIZE - 1) (Z.of_nat (length bl))); try lia. cbn [orb].
  destruct (Z.ltb_spec (lg_outstanding (k_log s)) 1); [lia|].
  krun (env_acquire s i c me p Llog He I). krun (get_buf_run k x (acq i Llog s) Hx). unfold kget at 1, kbind at 1. cbn [obind].
  change (lg_n (k_log (acq i Llog s))) with (lg_n (k_log s)). rewrite Hn.
  krun (find_block (acq i Llog s) st bl (b_blockno x) (txn_acq _ _ _ _ _ Ht) ltac:(lia)). cbv zeta. rewrite Z.max_r by lia. rewrite i32_id by lia.
  set (f := fun b : buf => b <| b_flags ::= fun fl => Z.lor fl B_DIRTY |>).
  assert (Ef : forall s', k_bufs s' = k_bufs s -> upd_buf k f s' = upd_buf k (fun b => b <| b_flags := 6 |>) s').
  { intros s' Es. unfold upd_buf, update, upd_k_bufs. f_equal. rewrite Es. apply list_alter_ext; [|done].
    intros y Hy. simplify_eq. unfold f, update, upd_b_flags. cbn. by destruct Hf as [->| ->]. }
  assert (Hend : forall g, (set_buf k f ;;; release Llog) (acq i Llog (s <| k_log := g |>)) =
    Ret tt ((upd_buf k (fun b => b <| b_flags := 6 |>) s) <| k_log := g |>)).
  { intros g. unfold kbind. rewrite set_buf_run. cbn [obind]. change (upd_buf k f (acq i Llog (s <| k_log := g |>))) with (acq i Llog (upd_buf k f (s <| k_log := g |>))).
    rewrite (env_release _ i c me p Llog); [|apply env_upd_buf; by apply (env_ext s)|done]. by rewrite Ef. }
  change ((upd_buf k (fun b => b <| b_flags := 6 |>) s) <| k_log ::= log_add bl (b_blockno x) |>) with
    ((upd_buf k (fun b => b <| b_flags := 6 |>) s) <| k_log := log_add bl (b_blockno x) (k_log s) |>).
  unfold log_add. destruct (list_find (fun v => v = b_blockno x) bl) as [[j v]|] eqn:E; cbn [fmap option_fmap option_map fst default from_option id].
  - apply list_find_Some in E as (Hj & -> & _). pose proof (lookup_lt_Some _ _ _ Hj).
    rewrite decide_True by (by eapply list_elem_of_lookup_2). unfold set_block.
    destruct (Z.leb_spec 0 (Z.of_nat j)), (Z.ltb_spec (Z.of_nat j) LOGSIZE); try lia. cbn [andb]. unfold set_log, kmod, kbind at 1. cbn [obind].
    destruct (Z.eqb_spec (Z.of_nat j) (Z.of_nat (length bl))); [lia|]. unfold kret at 1, kbind at 1. cbn [obind].
    rewrite Nat2Z.id. 
    transitivity ((set_buf k f ;;; release Llog) (acq i Llog (s <| k_log := (k_log s) <| lg_block ::= insert j (b_blockno x) |> |>))); [reflexivity|].
    assert (Eg : (k_log s) <| lg_block ::= insert j (b_blockno x) |> = k_log s).
    { unfold update, upd_lg_block. rewrite list_insert_id by (by apply (txn_lookup s st bl)). by destruct (k_log s). }
    by rewrite Eg, Hend.
  - rewrite list_find_None, Forall_forall in E. rewrite decide_False by (intros Hin; by apply (E _ Hin)). unfold set_block.
    destruct (Z.leb_spec 0 (Z.of_nat (length bl))), (Z.ltb_spec (Z.of_nat (length bl)) LOGSIZE); try lia. cbn [andb].
    unfold set_log, kmod, kbind at 1. cbn [obind]. rewrite Z.eqb_refl. unfold kbind at 1. cbn [obind]. rewrite Nat2Z.id.
    rewrite <- Hend. f_equal.
Qed.

Lemma logged_elem bl b b' : b' ∈ logged bl b <-> b' ∈ bl \/ b' = b.
Proof.
  unfold logged. case_decide as E; [|by rewrite elem_of_app, list_elem_of_singleton].
  split; [by left|]. by intros [?| ->].
Qed.

Lemma logging_add s s' st bl b :
  logging s st bl -> k_log s' = log_add bl b (k_log s) -> k_disksize s' = k_disksize s ->
  (forall b', dirty s' b' <-> b' ∈ logged bl b) -> Z.of_nat (length bl) < LOGSIZE - 1 ->
  block_ok s b -> b < st \/ st + LOGSIZE <= b -> b < 2147483648 -> logging s' st (logged bl b).
Proof.
  intros [[T1 T2 T3 T4 T5 T6 T7 T8 T9 T10] L2 L3 L4 L5 L6] Hg Hsz Hd Hlt Hb Hout Hint. unfold logged, log_add, block_ok in *.
  change LOGSIZE with 30 in *. case_decide as E.
  - split; [split|..]; rewrite ?Hg, ?Hsz; unfold block_ok; rewrite ?Hsz; done.
  - assert (Hlen : Z.of_nat (length (bl ++ [b])) = Z.of_nat (length bl) + 1) by (rewrite length_app; cbn; lia).
    assert (Hin : forall b', b' ∈ bl ++ [b] -> 0 <= b' < k_disksize s /\ (b' < st \/ st + 30 <= b') /\ b' < 2147483648).
    { intros b' [Hb'|Hb'%list_elem_of_singleton]%elem_of_app; [|by subst].
      split; [apply T8, Hb'|]. split; [by apply L4|by apply T9]. }
    split; [split|..]; rewrite ?Hg, ?Hsz, ?Hlen; unfold block_ok; rewrite ?Hsz; unfold LOGSIZE, MAXOPBLOCKS; try done.
    + cbn. lia.
    + cbn. by rewrite length_insert.
    + cbn. rewrite length_app. cbn. rewrite Nat.add_1_r, (take_S_r _ _ b) by (apply list_lookup_insert_eq; rewrite T4; lia).
      by rewrite take_insert_ge, T5 by lia.
    + lia.
    + lia.
    + intros b' Hb'. destruct (Hin b' Hb') as (? & ? & ?). lia.
    + intros b' Hb'. apply (Hin b' Hb').
    + apply NoDup_app. split; [done|]. split; [|apply NoDup_singleton]. intros b' Hb' ->%list_elem_of_singleton. done.
    + intros b' Hb'. apply (Hin b' Hb').
Qed.

Lemma logging_ext s s' st bl :
  logging s st bl -> k_log s' = k_log s -> k_disksize s' = k_disksize s -> (forall b, dirty s' b <-> dirty s b) -> logging s' st bl.
Proof.
  intros [[T1 T2 T3 T4 T5 T6 T7 T8 T9 T10] L2 L3 L4 L5 L6] Hg Hsz Hd. unfold block_ok in *.
  split; [split|..]; rewrite ?Hg, ?Hsz; unfold block_ok; rewrite ?Hsz; try done. intros b. by rewrite Hd.
Qed.

(** What an update may change: sleepers are woken, the cache and the log. *)
Definition tx_frame (s s' : kernel) : Prop :=
  exists pt bs lru g, s' = s <| k_ptable := pt |> <| k_bufs := bs |> <| k_lru := lru |> <| k_log := g |>.

Lemma tx_frame_trans s1 s2 s3 : tx_frame s1 s2 -> tx_frame s2 s3 -> tx_frame s1 s3.
Proof. intros (? & ? & ? & ? & ->) (pt & bs & lru & g & ->). by exists pt, bs, lru, g. Qed.

Lemma tx_frame_buf s k f : tx_frame s (upd_buf k f s).
Proof. exists (k_ptable s), (alter f k (k_bufs s)), (k_lru s), (k_log s). by destruct s. Qed.

Lemma tx_frame_log s f : tx_frame s (s <| k_log ::= f |>).
Proof. exists (k_ptable s), (k_bufs s), (k_lru s), (f (k_log s)). by destruct s. Qed.

Lemma tx_frame_unhold s k : tx_frame s (unhold k s).
Proof. exists (k_ptable (unhold k s)), (k_bufs (unhold k s)), (k_lru (unhold k s)), (k_log s). by destruct s. Qed.

Section Update.
Context `{Pt : Patience} (Hpat : (0 < patience)%nat).

(** An update of a block: [bread], a change of the data, [log_write], [brelse]. *)
Definition update_block (b : Z) (f : list Z -> list Z) : KM unit :=
  k <- bread 1 b ;;
  set_data k f ;;;
  log_write k ;;;
  brelse k.

Record logged_update (s s' : kernel) (n : Z) (hd : list nat) (st : Z) (bl : list Z) (b : Z) (d : list Z) : Prop := {
  lu_cache : cache s' n hd;
  lu_log : logging s' st (logged bl b);
  lu_view : forall b', view s' b' = if decide (b' = b) then d else view s b';
  lu_disk : k_disk s' = k_disk s;
  lu_trace : k_dwrites s' = k_dwrites s;
  lu_env : forall i c me p, env s i c me p -> env s' i c me p;
  lu_frame : tx_frame s s';
  lu_held : forall j, j ∈ hd -> k_bufs s' !! j = k_bufs s !! j
}.

(** Marking a held buffer dirty. *)
Lemma dirty_mark s k y b' :
  k_bufs s !! k = Some y -> b_dev y = 1 ->
  dirty (upd_buf k (fun b => b <| b_flags := 6 |>) s) b' <-> dirty s b' \/ b' = b_blockno y.
Proof.
  intros Hy Hdev. set (y3 := y <| b_flags := 6 |>). set (s3 := upd_buf k _ s).
  assert (Hy3 : k_bufs s3 !! k = Some y3) by (exact (lookup_upd_buf s k _ y Hy)). split.
  - intros (j & z & Hz & [Dz Bz] & Fz). unfold s3 in Hz. rewrite lookup_upd in Hz. case_decide as Ej; [|left; by exists j, z].
    right. subst j. rewrite Hy in Hz. cbn in Hz. injection Hz as <-. by rewrite <- Bz.
  - intros [(j & z & Hz & [Dz Bz] & Fz)| ->]; [|by exists k, y3].
    destruct (decide (j = k)) as [->|Ej].
    + rewrite Hy in Hz. injection Hz as <-. exists k, y3. done.
    + exists j, z. split; [|done]. unfold s3. rewrite lookup_upd. by case_decide.
Qed.

Lemma cache_mark s n hd k y :
  cache s n (k :: hd) -> k_bufs s !! k = Some y -> b_dev y = 1 -> cache (upd_buf k (fun b => b <| b_flags := 6 |>) s) n (k :: hd).
Proof.
  intros Hc Hy Hdev. assert (Hk : k ∈ k :: hd) by apply list_elem_of_here. destruct (ca_held _ _ _ Hc k y Hy Hk) as [Y1 Y2 Y3 Y4].
  destruct (ca_data _ _ _ Hc k y Hy) as [Hl Hb]. eapply (cache_upd s n (k :: hd) (k :: hd) k _ y Hc Hy); [done|done| |done|done|].
  - intros _. split; try done. by right.
  - intros j z Hj Hz D1 _ E. destruct Hj. by apply (ca_uniq _ _ _ Hc j k z y).
Qed.

(** The end of an update: the held buffer gets its new contents, is logged and
    released. *)
Definition store_block (k : nat) (f : list Z -> list Z) : KM unit :=
  set_data k f ;;;
  log_write k ;;;
  brelse k.

Lemma store_block_run s i c me p hd st bl k y f :
  env s i c me p -> cache s (pid p) (k :: hd) -> k ∉ hd -> logging s st bl -> Z.of_nat (length bl) < LOGSIZE - 1 ->
  k_bufs s !! k = Some y -> b_blockno y < st \/ st + LOGSIZE <= b_blockno y -> b_blockno y < 2147483648 ->
  length (f (b_data y)) = 512%nat ->
  exists s', store_block k f s = Ret tt s' /\ logged_update s s' (pid p) hd st bl (b_blockno y) (f (b_data y)).
Proof.
  intros He Hc Hnk Hlog Hlt Hy Hout Hint Hd. unfold store_block, set_data. krun (set_data_run s k y f Hy). set (d := f (b_data y)) in *.
  assert (Hk : k ∈ k :: hd) by apply list_elem_of_here. destruct (ca_held _ _ _ Hc k y Hy Hk) as [Y1 Y2 Y3 Y4].
  destruct (ca_data _ _ _ Hc k y Hy) as [_ Hb]. specialize (Hb Y3). set (b := b_blockno y) in *.
  set (y2 := y <| b_data := d |>). set (s2 := fill k d s).
  assert (Hy2 : k_bufs s2 !! k = Some y2) by (exact (lookup_upd_buf s k _ y Hy)).
  assert (Hdirty : forall b', dirty s2 b' <-> dirty s b') by (intros b'; unfold s2, fill; by rewrite (dirty_upd s k _ y b' Hy)).
  assert (Hlog2 : logging s2 st bl) by (by apply (logging_ext s)).
  assert (He2 : env s2 i c me p) by (by apply env_upd_buf).
  krun (log_write_run s2 i c me p st bl k y2 He2 Hlog2 Hlt Hy2 ltac:(unfold y2; cbn; fold b; unfold block_ok in Hb; lia) Y4).
  change (b_blockno y2) with b. set (y3 := y2 <| b_flags := 6 |>). set (s3 := upd_buf k (fun b => b <| b_flags := 6 |>) s2).
  assert (Hy3 : k_bufs s3 !! k = Some y3) by (exact (lookup_upd_buf s2 k _ y2 Hy2)).
  destruct (cache_fill s (pid p) (k :: hd) k y d Hc Hk Hy Hd) as [Hc2 Hv2]. fold s2 in Hc2, Hv2.
  assert (Hc3 : cache s3 (pid p) (k :: hd)) by (by apply (cache_mark s2 _ hd k y2)).
  assert (Hd3 : forall b', dirty s3 b' <-> b' ∈ logged bl b).
  { intros b'. rewrite logged_elem, <- (lo_dirty _ _ _ Hlog b'), <- (Hdirty b'). by apply (dirty_mark s2 k y2). }
  set (s4 := s3 <| k_log ::= log_add bl b |>).
  assert (Hc4 : cache s4 (pid p) (k :: hd)) by (by apply cache_log).
  exists (unhold k s4). split.
  - apply (brelse_run s4 i c me p (k :: hd) k y3); [|done|done|done]. apply (env_ext s3); [|done..]. by apply env_upd_buf.
  - split.
    + by apply (cache_unhold s4 (pid p) hd k y3 Hc4).
    + apply (logging_add s); try done. intros b'. rewrite dirty_unhold. apply Hd3.
    + intros b'. rewrite (view_unhold s4 (pid p) hd k y3 b' Hc4 Hy3). change (view s4 b') with (view s3 b').
      unfold s3. rewrite (view_upd s2 (pid p) (k :: hd) (k :: hd) k _ y2 b' Hc2 Hy2 Hc3) by done. cbn. fold b.
      case_decide; [done|]. by rewrite Hv2, decide_False.
    + done.
    + done.
    + intros i' c' me' p' He'. apply env_unhold. apply (env_ext s3); [|done..]. unfold s3, s2, fill. eauto with kern.
    + eapply tx_frame_trans; [|apply tx_frame_unhold]. eapply tx_frame_trans; [|apply tx_frame_log].
      eapply tx_frame_trans; apply tx_frame_buf.
    + intros j Hj. assert (j <> k) by (intros ->; done). change (k_bufs (unhold k s4)) with (k_bufs (upd_buf k (fun b => b <| b_lock := zero_sleeplock |> <| b_refcnt := 0 |>) s3)).
      unfold s3, s2, fill. by rewrite !lookup_upd, !decide_False.
Qed.

Lemma update_held_run s i c me p hd st bl b f :
  env s i c me p -> cache s (pid p) hd -> logging s st bl -> Z.of_nat (length hd) + Z.of_nat (length bl) < LOGSIZE -> Z.of_nat (length bl) < LOGSIZE - 1 ->
  (forall k x, k ∈ hd -> k_bufs s !! k = Some x -> b_blockno x <> b) ->
  block_ok s b -> b < st \/ st + LOGSIZE <= b -> b < 2147483648 -> (forall d, length d = 512%nat -> length (f d) = 512%nat) ->
  exists s', update_block b f s = Ret tt s' /\ logged_update s s' (pid p) hd st bl b (f (view s b)).
Proof.
  intros He Hc Hlog Hlh Hlt Hne Hb Hout Hint Hf. unfold update_block.
  destruct (bread_run Hpat s i c me p hd b He Hc Hb Hne) as (k & y & Hr & Hp).
  { left. apply (avail_count s (pid p) hd bl Hc); [intros b'; apply (lo_dirty _ _ _ Hlog)|]. change LOGSIZE with 30 in *. change NBUF with 30%nat. lia. }
  destruct (bp_dirty _ _ _ _ _ _ Hp) as (x & Hx & _). pose proof (bp_cache _ _ _ _ _ _ Hp) as Hc1. krun Hr.
  set (s1 := upd_buf k (fun _ => y) s) in *. assert (Hy : k_bufs s1 !! k = Some y) by (exact (lookup_upd_buf s k _ x Hx)).
  pose proof (bp_blockno _ _ _ _ _ _ Hp) as Hyb. pose proof (bp_data _ _ _ _ _ _ Hp) as Hyd. pose proof (bp_new _ _ _ _ _ _ Hp) as Hnk.
  assert (Hdirty : forall b', dirty s1 b' <-> dirty s b') by (intros b'; by apply (bread_dirty Hpat s (pid p) hd b)).
  destruct (store_block_run s1 i c me p hd st bl k y f) as (s' & E & [U1 U2 U3 U4 U5 U6 U7 U8]); rewrite ?Hyb, ?Hyd in *; try done.
  - by apply env_upd_buf.
  - by apply (logging_ext s).
  - apply Hf. by apply (view_length s (pid p) hd).
  - exists s'. split; [exact E|]. split; [done|done| |done|done| | |].
    + intros b'. rewrite U3. case_decide; [done|]. apply Hp.
    + intros i' c' me' p' He'. apply U6. by apply env_upd_buf.
    + eapply tx_frame_trans; [apply tx_frame_buf|exact U7].
    + intros j Hj. rewrite U8 by done. unfold s1. rewrite lookup_upd, decide_False; [done|]. by intros ->.
Qed.

Lemma update_block_run s i c me p st bl b f :
  env s i c me p -> cache s (pid p) [] -> logging s st bl -> Z.of_nat (length bl) < LOGSIZE - 1 ->
  block_ok s b -> b < st \/ st + LOGSIZE <= b -> b < 2147483648 -> (forall d, length d = 512%nat -> length (f d) = 512%nat) ->
  exists s', update_block b f s = Ret tt s' /\ logged_update s s' (pid p) [] st bl b (f (view s b)).
Proof.
  intros He Hc Hlog Hlt Hb Hout Hint Hf. apply (update_held_run s i c me p [] st bl b f); try done; [cbn; lia|].
  intros k x Hk. by apply not_elem_of_nil in Hk.
Qed.
End Update.

(** ** Inodes on the disk *)

Record dinode_ok (x : dinode) : Prop := {
  do_shorts : Forall (fun v => -32768 <= v < 32768) [d_type x; d_major x; d_minor x; d_nlink x];
  do_size : 0 <= d_size x < 4294967296;
  do_addrs : length (d_addrs x) = 13%nat /\ Forall (fun v => 0 <= v < 4294967296) (d_addrs x)
}.

Lemma length_put_words l : forall d o, length (put_words d o l) = length d.
Proof. induction l as [|v l IH]; intros d o; [done|]. cbn. by rewrite IH, length_put32. Qed.

Lemma get32_put_words_out l : forall d o o',
  0 <= o -> o + 4 * Z.of_nat (length l) <= Z.of_nat (length d) -> 0 <= o' -> o' + 4 <= o \/ o + 4 * Z.of_nat (length l) <= o' ->
  get32 (put_words d o l) o' = get32 d o'.
Proof.
  induction l as [|v l IH]; intros d o o' H1 H2 H3 H4; [done|]. cbn [put_words length] in *.
  rewrite IH by (rewrite ?length_put32; lia). apply get32_put32_ne; lia.
Qed.

Lemma get16_put_words_out l : forall d o o',
  0 <= o -> o + 4 * Z.of_nat (length l) <= Z.of_nat (length d) -> 0 <= o' -> o' + 2 <= o \/ o + 4 * Z.of_nat (length l) <= o' ->
  get16 (put_words d o l) o' = get16 d o'.
Proof.
  induction l as [|v l IH]; intros d o o' H1 H2 H3 H4; [done|]. cbn [put_words length] in *.
  rewrite IH by (rewrite ?length_put32; lia). apply get16_put32_ne; lia.
Qed.

Lemma get32_put_words l : forall d o k v,
  0 <= o -> o + 4 * Z.of_nat (length l) <= Z.of_nat (length d) -> l !! k = Some v ->
  get32 (put_words d o l) (o + 4 * Z.of_nat k) = u32 v.
Proof.
  induction l as [|w l IH]; intros d o k v H1 H2 Hk; [by rewrite lookup_nil in Hk|]. cbn [put_words length] in *.
  destruct k as [|k]; cbn in Hk.
  - injection Hk as ->. rewrite get32_put_words_out by (rewrite ?length_put32; lia).
    replace (o + 4 * Z.of_nat 0) with o by lia. apply get32_put32_eq; lia.
  - replace (o + 4 * Z.of_nat (S k)) with (o + 4 + 4 * Z.of_nat k) by lia. apply IH; [lia|rewrite length_put32; lia|done].
Qed.

Lemma length_encode d o x : length (encode_dinode d o x) = length d.
Proof. unfold encode_dinode. by rewrite length_put_words, length_put32, !length_put16. Qed.

Ltac inode_side := rewrite ?length_put_words, ?length_put32, ?length_put16; lia.

Lemma decode_encode d o x :
  dinode_ok x -> 0 <= o -> o + 64 <= Z.of_nat (length d) -> decode_dinode (encode_dinode d o x) o = x.
Proof.
  intros [Hs Hz [Hl Ha]] Ho Hd. rewrite !Forall_cons in Hs. destruct Hs as (S1 & S2 & S3 & S4 & _).
  unfold decode_dinode, encode_dinode. destruct x as [ty ma mi nl sz ad]. cbn [d_type d_major d_minor d_nlink d_size d_addrs] in *. f_equal.
  - rewrite get16_put_words_out, get16_put32_ne, !get16_put16_ne, get16_put16_eq, i16_u16, i16_id by inode_side. done.
  - rewrite get16_put_words_out, get16_put32_ne, !get16_put16_ne, get16_put16_eq, i16_u16, i16_id by inode_side. done.
  - rewrite get16_put_words_out, get16_put32_ne, !get16_put16_ne, get16_put16_eq, i16_u16, i16_id by inode_side. done.
  - rewrite get16_put_words_out, get16_put32_ne, get16_put16_eq, i16_u16, i16_id by inode_side. done.
  - rewrite get32_put_words_out, get32_put32_eq, u32_id by inode_side. done.
  - apply list_eq. intros k. rewrite list_lookup_fmap. destruct (decide (k < 13)%nat).
    + rewrite lookup_seq_lt by done. cbn. destruct (lookup_lt_is_Some_2 ad k ltac:(lia)) as [v Hv].
      rewrite (get32_put_words _ _ _ _ v) by (inode_side || done). rewrite Hv, u32_id; [done|].
      rewrite Forall_forall in Ha. apply Ha. by eapply list_elem_of_lookup_2.
    + rewrite lookup_seq_ge by lia. cbn. symmetry. apply lookup_ge_None_2. lia.
Qed.

Lemma decode_encode_other d o o' x :
  length (d_addrs x) = 13%nat -> 0 <= o -> o + 64 <= Z.of_nat (length d) -> 0 <= o' -> o' + 64 <= o \/ o + 64 <= o' ->
  decode_dinode (encode_dinode d o x) o' = decode_dinode d o'.
Proof.
  intros Hl Ho Hd Ho' Hne. unfold decode_dinode, encode_dinode. f_equal.
  1-4: rewrite get16_put_words_out, get16_put32_ne, !get16_put16_ne by inode_side; done.
  - rewrite get32_put_words_out, get32_put32_ne, !get32_put16_ne by inode_side. done.
  - apply list_fmap_ext. intros j k [-> Hk]%lookup_seq. rewrite get32_put_words_out, get32_put32_ne, !get32_put16_ne by inode_side. done.
Qed.

Section Inodes.
Context `{Pt : Patience} (Hpat : (0 < patience)%nat).

(** The blocks after the updates [us], over the blocks [v]. *)
Definition updated (v : Z -> list Z) (us : list (Z * (list Z -> list Z))) : Z -> list Z :=
  foldl (fun v u b => if decide (b = u.1) then u.2 (v u.1) else v b) v us.

Lemma updated_ext us : forall v w b, (forall b, v b = w b) -> updated v us b = updated w us b.
Proof. induction us as [|u us IH]; intros v w b H; [apply H|]. apply IH. intros b'. cbn. case_decide; [f_equal|]; apply H. Qed.

(** C23: Updates inside a transaction stay off the disk and reach the log.  From
    an open transaction, any sequence of updates of blocks outside the log, not
    more than fit, returns; each block then has its last contents in the cache,
    the disk is unchanged and nothing was written to it, and the logged blocks
    are exactly the dirty ones, as a commit requires. *)
Theorem updates_logged (us : list (Z * (list Z -> list Z))) : forall (s : kernel) i c me p st bl,
  env s i c me p -> cache s (pid p) [] -> logging s st bl ->
  Z.of_nat (length bl) + Z.of_nat (length us) < LOGSIZE ->
  Forall (fun u => block_ok s u.1 /\ (u.1 < st \/ st + LOGSIZE <= u.1) /\ u.1 < 2147483648 /\
    forall d, length d = 512%nat -> length (u.2 d) = 512%nat) us ->
  exists s', keach us (fun u => update_block u.1 u.2) s = Ret tt s' /\ cache s' (pid p) [] /\
    logging s' st (foldl logged bl us.*1) /\ k_disk s' = k_disk s /\ k_dwrites s' = k_dwrites s /\
    forall b, view s' b = updated (view s) us b.
Proof.
  induction us as [|[b f] us IH]; intros s i c me p st bl He Hc Hl Hlt Hus; [by exists s|].
  apply Forall_cons in Hus as ((Hb & Hout & Hint & Hf) & Hus). cbn [length] in Hlt.
  destruct (update_block_run Hpat s i c me p st bl b f He Hc Hl) as (s1 & E1 & [U1 U2 U3 U4 U5 U6 U7]); [lia|done..|].
  assert (Hsz : k_disksize s1 = k_disksize s) by (by destruct U7 as (? & ? & ? & ? & ->)).
  assert (Hlen : (length (logged bl b) <= S (length bl))%nat) by (unfold logged; case_decide; rewrite ?length_app; cbn; lia).
  destruct (IH s1 i c me p st (logged bl b)) as (s2 & E2 & C2 & L2 & D2 & T2 & V2); [by apply U6|done|done|lia| |].
  - eapply Forall_impl; [exact Hus|]. intros u (H1 & H2). unfold block_ok in *. by rewrite Hsz.
  - exists s2. cbn [keach]. split; [cbn [fst snd]; by krun E1|]. split; [done|]. split; [done|].
    split; [by rewrite D2|]. split; [by rewrite T2|]. intros b'. rewrite V2. unfold updated. cbn [foldl fst snd].
    apply updated_ext. intros b''. apply U3.
Qed.

Definition inode_image (x : inode) : dinode :=
  mk_dinode (i_type x) (i_major x) (i_minor x) (i_nlink x) (i_size x) (i_addrs x).

(** [iupdate] writes exactly one inode.  Inside a transaction it returns;
    decoding the inode's slot of its block then gives the fields of the
    inode in memory, every other inode of the block and every other block are
    as before, the block is in the log, and the disk is unchanged. *)
Theorem iupdate_spec (s : kernel) i c me p st bl ip x :
  env s i c me p -> cache s (pid p) [] -> logging s st bl -> Z.of_nat (length bl) < LOGSIZE - 1 ->
  k_icache s !! ip = Some x -> i_dev x = 1 -> 0 <= i_inum x -> dinode_ok (inode_image x) ->
  let b := IBLOCK (i_inum x) (k_sb s) in
  let slot k := k mod IPB * DINODE_SIZE in
  block_ok s b -> b < st \/ st + LOGSIZE <= b -> b < 2147483648 ->
  exists s', iupdate ip s = Ret tt s' /\ cache s' (pid p) [] /\ logging s' st (logged bl b) /\
    k_disk s' = k_disk s /\ k_dwrites s' = k_dwrites s /\
    decode_dinode (view s' b) (slot (i_inum x)) = inode_image x /\
    (forall k, 0 <= k -> k mod IPB <> i_inum x mod IPB -> decode_dinode (view s' b) (slot k) = decode_dinode (view s b) (slot k)) /\
    (forall b', b' <> b -> view s' b' = view s b').
Proof.
  intros He Hc Hl Hlt Hx Hd Hi Hok b slot Hb Hout Hint.
  assert (Hslot : 0 <= slot (i_inum x) /\ slot (i_inum x) + 64 <= 512).
  { unfold slot. change IPB with 8. change DINODE_SIZE with 64. Z.div_mod_to_equations. lia. }
  destruct (update_block_run Hpat s i c me p st bl b (fun d => encode_dinode d (slot (i_inum x)) (inode_image x)) He Hc Hl Hlt Hb Hout Hint)
    as (s' & E & [U1 U2 U3 U4 U5 _ _]); [intros d Hd'; by rewrite length_encode|].
  exists s'. split.
  { unfold iupdate, kget, kbind at 1. cbn [obind]. unfold kbind at 1, get_inode. rewrite Hx. cbn [obind]. rewrite Hd. exact E. }
  pose proof (view_length s (pid p) [] b Hc) as Hv.
  split; [done|]. split; [done|]. split; [done|]. split; [done|]. split; [|split].
  - rewrite U3, decide_True by done. apply decode_encode; [done|lia|rewrite Hv; lia].
  - intros k Hk Hne. rewrite U3, decide_True by done. apply decode_encode_other; [apply Hok|lia|rewrite Hv; lia|..];
      unfold slot in *; change IPB with 8 in *; change DINODE_SIZE with 64 in *; Z.div_mod_to_equations; lia.
  - intros b' Hb'. by rewrite U3, decide_False.
Qed.
End Inodes.

(** ** A concrete transaction *)

(** The log is at block 2 and inodes start at block 32; inode 19 is in the cache. *)
Definition demo_inode : inode := zero_inode <| i_dev := 1 |> <| i_inum := 19 |> <| i_type := 2 |> <| i_nlink := 1 |> <| i_size := 700 |>
  <| i_addrs := 100 :: 101 :: replicate 11 0 |>.
Definition demo_open : kernel :=
  (with_bufs [] ∅) <| k_log := mk_log 2 30 1 0 1 0 (replicate 30 0) |> <| k_sb := mk_superblock 1000 941 200 30 2 32 58 |>
    <| k_icache ::= insert 0%nat demo_inode |>.

Lemma demo_open_env : env demo_open 0 run_cpu 0 run_proc.
Proof. exact (env_ext running demo_open 0 run_cpu 0 run_proc running_env eq_refl eq_refl eq_refl eq_refl eq_refl eq_refl). Qed.

Lemma cache_other s n hd g sb ic : cache s n hd -> cache (s <| k_log := g |> <| k_sb := sb |> <| k_icache ::= ic |>) n hd.
Proof. intros [H1 H2 H3 H4 H5 H6 H7 H8]. split; try done. intros k x Hx Hk. by destruct (H7 k x Hx Hk). Qed.

Lemma demo_open_cache : cache demo_open (pid run_proc) [].
Proof. apply cache_other, with_bufs_cache; [unfold NBUF; cbn; lia|done|constructor|constructor]. Qed.

Lemma demo_open_logging : logging demo_open 2 [].
Proof.
  split; try reflexivity; try (by intros b ?%not_elem_of_nil).
  - split; try reflexivity; try (by intros b ?%not_elem_of_nil); [|constructor].
    change (k_disksize demo_open) with 1000. cbn. lia.
  - vm_compute. discriminate.
  - intros b. split; [|by intros ?%not_elem_of_nil]. intros (k & x & Hx & _ & F).
    change (k_bufs (with_bufs [] ∅) !! k = Some x) in Hx.
    apply with_bufs_lookup in Hx as [Hx| ->]; [by apply not_elem_of_nil in Hx|done].
Qed.

Lemma updates_logged_witness :
  exists s', keach [(40, fun d => put32 d 0 7); (41, fun d => d); (40, fun d => put32 d 8 9)] (fun u => update_block (Pt := 1%nat) u.1 u.2) demo_open = Ret tt s' /\
    logging s' 2 [40; 41] /\ k_dwrites s' = k_dwrites demo_open.
Proof.
  destruct (updates_logged (Pt := 1%nat) ltac:(unfold patience; lia)
    [(40, fun d => put32 d 0 7); (41, fun d => d); (40, fun d => put32 d 8 9)] demo_open 0 run_cpu 0 run_proc 2 [])
    as (s' & H1 & _ & H2 & _ & H3 & _).
  - apply demo_open_env.
  - apply demo_open_cache.
  - apply demo_open_logging.
  - vm_compute. reflexivity.
  - unfold block_ok. change (k_disksize demo_open) with 1000. change LOGSIZE with 30.
    repeat (apply Forall_cons; split; [cbn [fst snd]; split; [lia|]; split; [lia|]; split; [lia|]; intros d Hd; rewrite ?length_put32; exact Hd|]).
    constructor.
  - exists s'. split; [exact H1|]. split; [exact H2|exact H3].
Defined.

Lemma iupdate_spec_witness :
  exists s', iupdate (Pt := 1%nat) 0 demo_open = Ret tt s' /\ logging s' 2 [34] /\
    decode_dinode (view s' 34) 192 = inode_image demo_inode.
Proof.
  destruct (iupdate_spec (Pt := 1%nat) ltac:(unfold patience; lia) demo_open 0 run_cpu 0 run_proc 2 [] 0 demo_inode)
    as (s' & H1 & _ & H2 & _ & _ & H3 & _).
  - apply demo_open_env.
  - apply demo_open_cache.
  - apply demo_open_logging.
  - vm_compute. reflexivity.
  - reflexivity.
  - reflexivity.
  - cbn. lia.
  - split; [repeat constructor; cbn; lia|cbn; lia|split; [reflexivity|repeat constructor; lia]].
  - unfold block_ok. change (k_disksize demo_open) with 1000. vm_compute. split; [discriminate|reflexivity].
  - right. vm_compute. discriminate.
  - vm_compute. reflexivity.
  - exists s'. split; [exact H1|]. split; [exact H2|exact H3].
Defined.
