(* ===== verification/Console.v ===== *)
(** * The console

    [console.c], the output routine of [uart.c], [procdump] of [proc.c] and
    [getcallerpcs] of [spinlock.c].  The screen memory is part of the kernel's
    memory, at [P2V(0xb8000)]; the cursor register of the controller is
    [k_crtpos] and the bytes sent on the serial line are [k_serial].  The polling
    of [uartputc] for an empty transmit register changes no state and is left
    out. *)

From stdpp Require Import base gmap strings list fin_maps.
From Stdlib Require Import ZArith Lia.
From S2P Require Import Prelude Mem Types Spinlock Kalloc Vm Proc Apic Access Sleeplock Disk Bio Log Inode.

Definition BACKSPACE : Z := 0x100.
Definition CTRL (x : Z) : Z := x - 64.
Definition crt : Z := P2V 0xb8000.
Definition mem_write16 (a v : Z) : KM unit :=
  kmod (fun s => s <| k_mem ::= fun m => st8 (st8 m a v) (a + 1) (v / 256) |>).

(** ** Output of one character *)
Definition uartputc (c : Z) : KM unit :=
  u <- kget k_uart ;;
  if negb (c_true u) then kret tt else kmod (fun s => s <| k_serial ::= fun l => l ++ [u8 c] |>).

Definition cgaputc (c : Z) : KM unit :=
  pos <- kget k_crtpos ;;
  pos <- (if c =? 10 then kret (pos + (80 - pos mod 80))
          else if c =? BACKSPACE then kret (if 0 <? pos then pos - 1 else pos)
          else mem_write16 (crt + 2 * pos) (Z.lor (Z.land c 0xff) 0x0700) ;;; kret (pos + 1)) ;;
  if (pos <? 0) || (25 * 80 <? pos) then kpanic "pos under/overflow" else
  pos <- (if 24 <=? pos / 80 then
            k_memmove crt (crt + 2 * 80) (2 * 23 * 80) ;;;
            let pos := pos - 80 in
            k_memset (crt + 2 * pos) 0 (2 * (24 * 80 - pos)) ;;;
            kret pos
          else kret pos) ;;
  kmod (fun s => s <| k_crtpos := u16 pos |>) ;;;
  mem_write16 (crt + 2 * pos) (Z.lor 32 0x0700).

Definition consputc (c : Z) : KM unit :=
  p <- kget k_panicked ;;
  if c_true p then cli ;;; Spin else
  (if c =? BACKSPACE then uartputc 8 ;;; uartputc 32 ;;; uartputc 8 else uartputc c) ;;;
  cgaputc c.

(** ** [printint] and [cprintf] *)

(** [digits[d]] of the lower-case table. *)
Definition digit (d : Z) : Z := if d <? 10 then 48 + d else 87 + d.

(** The [do]-[while] loop: the digits of [x], the last one first.  A 32-bit
    number has at most 32 of them. *)
Fixpoint digits_of (fuel : nat) (x base : Z) : list Z :=
  match fuel with
  | O => []
  | S k => digit (x mod base) :: (if x / base =? 0 then [] else digits_of k (x / base) base)
  end.

(** The characters [printint] sends to [consputc], in their order. *)
Definition printint_chars (xx base : Z) (sign : bool) : list Z :=
  let neg := sign && (xx <? 0) in
  let x := if neg then u32 (- xx) else u32 xx in
  let buf := digits_of 32 x base in
  rev (buf ++ (if neg then [45] else [])).
Definition printint (xx base : Z) (sign : bool) : KM unit := keach (printint_chars xx base sign) consputc.

(** The arguments of a call: words, and strings by their characters. *)
Inductive parg := PInt (z : Z) | PStr (s : option (list Z)).

Definition str_null : list Z := [40; 110; 117; 108; 108; 41].

Fixpoint cprintf_loop (fuel : nat) (fmt : list Z) (args : list parg) : KM unit :=
  match fuel, fmt with
  | O, _ => kret tt
  | _, [] => kret tt
  | S k, c :: r =>
      if negb (c =? 37) then consputc c ;;; cprintf_loop k r args else
      match r with
      | [] => kret tt
      | c :: r =>
          if c =? 100 then
            match args with
            | PInt z :: args' => printint (i32 z) 10 true ;;; cprintf_loop k r args'
            | _ => kundef "cprintf argument"
            end
          else if (c =? 120) || (c =? 112) then
            match args with
            | PInt z :: args' => printint (i32 z) 16 false ;;; cprintf_loop k r args'
            | _ => kundef "cprintf argument"
            end
          else if c =? 115 then
            match args with
            | PStr os :: args' => keach (default str_null os) consputc ;;; cprintf_loop k r args'
            | _ => kundef "cprintf argument"
            end
          else if c =? 37 then consputc 37 ;;; cprintf_loop k r args
          else consputc 37 ;;; consputc c ;;; cprintf_loop k r args
      end
  end.

Definition cprintf_fmt (fmt : option (list Z)) (args : list parg) : KM unit :=
  locking <- kget k_conslocking ;;
  (when c_true locking do acquire Lcons) ;;;
  match fmt with
  | None => kpanic "null fmt"
  | Some f => cprintf_loop (length f) f args ;;; when c_true locking do release Lcons
  end.

Definition str (s : string) : list Z := (fun a => Z.of_nat (Ascii.nat_of_ascii a)) <$> String.list_ascii_of_string s.

(** ** [getcallerpcs] and [procdump] *)
Fixpoint getcallerpcs_loop (n : nat) (ebp : Z) : KM (list Z) :=
  match n with
  | O => kret []
  | S k =>
      if (ebp =? 0) || (ebp <? KERNBASE) || (ebp =? 0xffffffff) then kret (replicate n 0) else
      pc <- mem_read (ebp + 4) ;;
      next <- mem_read ebp ;;
      l <- getcallerpcs_loop k next ;;
      kret (pc :: l)
  end.
Definition getcallerpcs (v : Z) : KM (list Z) := getcallerpcs_loop 10 (u32 (v - 8)).

Definition state_name (st : procstate) : string :=
  match st with
  | UNUSED => "unused" | EMBRYO => "embryo" | SLEEPING => "sleep "
  | RUNNABLE => "runble" | RUNNING => "run   " | ZOMBIE => "zombie"
  end.

Definition procdump : KM unit :=
  keach (seq 0 NPROC) (fun i =>
    p <- get_proc i ;;
    when negb (bool_decide (state p = UNUSED)) do
      (cprintf_fmt (Some (str "%d %s %s")) [PInt (pid p); PStr (Some (str (state_name (state p)))); PStr (Some (pname p))] ;;;
       (when bool_decide (state p = SLEEPING) do
          (ebp <- mem_read (pcontext p + 12) ;;
           pc <- getcallerpcs (ebp + 8) ;;
           kfor pc (fun v => if v =? 0 then kret (Some tt)
                             else cprintf_fmt (Some (str " %p")) [PInt v] ;;; kret None) ;;;
           kret tt)) ;;;
       cprintf_fmt (Some [10]) [])).

(** ** Input *)
Definition set_input (f : input_t -> input_t) : KM unit := kmod (fun s => s <| k_input ::= f |>).
Definition input_at (x : input_t) (k : Z) : Z := default 0 (in_buf x !! Z.to_nat (u32 k mod INPUT_BUF)).

(** Control-U: the loop runs at most as often as there are characters to erase. *)
Fixpoint kill_line (fuel : nat) : KM unit :=
  match fuel with
  | O => kret tt
  | S k =>
      x <- kget k_input ;;
      if negb (in_e x =? in_w x) && negb (input_at x (in_e x - 1) =? 10) then
        set_input (fun x => x <| in_e ::= fun e => u32 (e - 1) |>) ;;;
        consputc BACKSPACE ;;;
        kill_line k
      else kret tt
  end.

(** One iteration of the loop of [consoleintr], for the character [c]; the
    result says whether a process listing was asked for. *)
Definition consoleintr_char (c : Z) : KM bool :=
  if c =? CTRL 80 then kret true
  else if c =? CTRL 85 then
    x <- kget k_input ;;
    kill_line (Z.to_nat (u32 (in_e x - in_w x))) ;;;
    kret false
  else if (c =? CTRL 72) || (c =? 127) then
    x <- kget k_input ;;
    (when negb (in_e x =? in_w x) do
       (set_input (fun x => x <| in_e ::= fun e => u32 (e - 1) |>) ;;; consputc BACKSPACE)) ;;;
    kret false
  else
    x <- kget k_input ;;
    (when negb (c =? 0) && (u32 (in_e x - in_r x) <? INPUT_BUF) do
       (let c := if c =? 13 then 10 else c in
        set_input (fun x => x <| in_buf ::= insert (Z.to_nat (in_e x mod INPUT_BUF)) (u8 c) |>) ;;;
        set_input (fun x => x <| in_e ::= fun e => u32 (e + 1) |>) ;;;
        consputc c ;;;
        x <- kget k_input ;;
        when (c =? 10) || (c =? CTRL 68) || (in_e x =? u32 (in_r x + INPUT_BUF)) do
          (set_input (fun x => x <| in_w := in_e x |>) ;;;
           wakeup (Some Ccons)))) ;;;
    kret false.

(** [while((c = getc()) >= 0)]; [getc] reads the device that interrupted. *)
Fixpoint consoleintr_loop (fuel : nat) (getc : KM Z) (doprocdump : bool) : KM bool :=
  match fuel with
  | O => NoFuel
  | S k =>
      c <- getc ;;
      if 0 <=? c then
        b <- consoleintr_char c ;;
        consoleintr_loop k getc (doprocdump || b)
      else kret doprocdump
  end.

Section ConsoleDefs.
Context `{Pt : Patience} `{D : DiskDriver}.

Definition consoleintr (getc : KM Z) : KM unit :=
  acquire Lcons ;;;
  b <- consoleintr_loop patience getc false ;;
  release Lcons ;;;
  when (b : bool) do procdump.

(** [while(input.r == input.w)]: whether input arrived ([false] if killed). *)
Fixpoint consoleread_wait (fuel : nat) (ip : nat) : KM bool :=
  match fuel with
  | O => NoFuel
  | S k =>
      x <- kget k_input ;;
      if in_r x =? in_w x then
        killed0 <- mine killed ;;
        if c_true killed0 then release Lcons ;;; ilock (Some ip) ;;; kret false
        else sleep (Some Ccons) (Some Lcons) ;;; consoleread_wait k ip
      else kret true
  end.

(** [while(n > 0)]; the result is what is left of [n] and the bytes stored, and
    [None] if the process was killed. *)
Fixpoint consoleread_loop (fuel : nat) (ip : nat) (dst : place) (n target : Z) (acc : list Z)
  : KM (option (Z * list Z)) :=
  match fuel with
  | O => kret (Some (n, acc))
  | S k =>
      if negb (0 <? n) then kret (Some (n, acc)) else
      ok <- consoleread_wait patience ip ;;
      if negb ok then kret None else
      x <- kget k_input ;;
      let c := input_at x (in_r x) in
      set_input (fun x => x <| in_r ::= fun r => u32 (r + 1) |>) ;;;
      if c =? CTRL 68 then
        (when n <? target do set_input (fun x => x <| in_r ::= fun r => u32 (r - 1) |>)) ;;;
        kret (Some (n, acc))
      else
        put dst (target - n) [c] ;;;
        if c =? 10 then kret (Some (n - 1, acc ++ [c]))
        else consoleread_loop k ip dst (n - 1) target (acc ++ [c])
  end.

Definition consoleread (ip : nat) (dst : place) (n : Z) : KM (Z * list Z) :=
  iunlock (Some ip) ;;;
  let target := n in
  acquire Lcons ;;;
  r <- consoleread_loop (Z.to_nat n) ip dst n target [] ;;
  match r with
  | None => kret (-1, [])
  | Some (n, acc) =>
      release Lcons ;;;
      ilock (Some ip) ;;;
      kret (target - n, acc)
  end.

Definition consolewrite (ip : nat) (src : source) (n : Z) : KM Z :=
  iunlock (Some ip) ;;;
  acquire Lcons ;;;
  keach (seqZ 0 n) (fun i =>
    l <- fetch src i 1 ;;
    keach l (fun c => consputc (Z.land c 0xff))) ;;;
  release Lcons ;;;
  ilock (Some ip) ;;;
  kret n.
End ConsoleDefs.

Definition consoleinit : KM unit :=
  initlock Lcons ;;;
  kmod (fun s => s <| k_devsw ::= insert CONSOLE DevConsole |>) ;;;
  kmod (fun s => s <| k_conslocking := 1 |>) ;;;
  Ioapic.ioapicenable IRQ_KBD 0.
