(* ===== verification/ConsoleSpec.v ===== *)
(** * The console

    Output stays on the screen, and the input buffer is a line editor. *)

From stdpp Require Import base gmap strings list fin_maps.
From Stdlib Require Import ZArith Lia.
From S2P Require Import Prelude Mem Types Spinlock Kalloc Vm Proc ProcSpec Access Sleeplock Steady Console.

(** ** The screen *)

(** The cursor is on one of the first 24 lines. *)
Definition on_screen (s : kernel) : Prop := 0 <= k_crtpos s < 24 * 80 /\ k_panicked s = 0.

(** Only the screen, the cursor and the serial line change. *)
Definition display (s s' : kernel) : Prop :=
  on_screen s' /\ (forall a, a < crt \/ crt + 2 * 24 * 80 <= a -> ld8 (k_mem s') a = ld8 (k_mem s) a) /\
  exists m pos ser, s' = s <| k_mem := m |> <| k_crtpos := pos |> <| k_serial := ser |>.

Lemma display_refl s : on_screen s -> display s s.
Proof. intros H. split; [done|]. split; [done|]. exists (k_mem s), (k_crtpos s), (k_serial s). by destruct s. Qed.

Lemma display_trans s1 s2 s3 : display s1 s2 -> display s2 s3 -> display s1 s3.
Proof.
  intros (_ & M1 & m & pos & ser & ->) (H & M2 & m' & pos' & ser' & ->). split; [done|]. split.
  - intros a Ha. rewrite M2 by done. by apply M1.
  - by exists m', pos', ser'.
Qed.

Lemma uartputc_display s c : on_screen s -> wp (uartputc c) (fun _ s' => display s s') s.
Proof.
  intros H. unfold uartputc. apply wp_bind, wp_get. destruct (negb (c_true (k_uart s))); [by apply wp_ret, display_refl|].
  apply wp_mod. split; [done|]. split; [done|]. exists (k_mem s), (k_crtpos s), (k_serial s ++ [u8 c]). by destruct s.
Qed.

Lemma cgaputc_display s c : on_screen s -> wp (cgaputc c) (fun _ s' => display s s') s.
Proof.
  intros [Hp Hk]. unfold cgaputc. apply wp_bind, wp_get.
  apply wp_bind. apply (wp_mono _ (fun pos s1 => 0 <= pos <= 24 * 80 /\
    (forall a, a < crt \/ crt + 2 * 24 * 80 <= a -> ld8 (k_mem s1) a = ld8 (k_mem s) a) /\ exists m, s1 = s <| k_mem := m |>)).
  { destruct (c =? 10).
    - apply wp_ret. split; [Z.div_mod_to_equations; lia|]. split; [done|]. exists (k_mem s). by destruct s.
    - destruct (c =? BACKSPACE).
      + apply wp_ret. destruct (Z.ltb_spec 0 (k_crtpos s)); (split; [lia|]; split; [done|]; exists (k_mem s); by destruct s).
      + apply wp_bind, wp_mod, wp_ret. split; [lia|]. split.
        * intros a Ha. cbn. rewrite !ld8_st8_ne by lia. done.
        * eexists. reflexivity. }
  intros pos s1 (Hpos & M1 & m & ->).
  destruct (Z.ltb_spec pos 0), (Z.ltb_spec (25 * 80) pos); try lia. cbn [orb].
  apply wp_bind. apply (wp_mono _ (fun pos s2 => 0 <= pos < 24 * 80 /\
    (forall a, a < crt \/ crt + 2 * 24 * 80 <= a -> ld8 (k_mem s2) a = ld8 (k_mem s) a) /\ exists m, s2 = s <| k_mem := m |>)).
  { destruct (Z.leb_spec 24 (pos / 80)) as [Hs|Hs].
    - assert (pos = 24 * 80) as -> by (Z.div_mod_to_equations; lia).
      apply wp_bind, wp_mod. cbv zeta. apply wp_bind, wp_mod, wp_ret. split; [lia|]. split; [|eexists; reflexivity].
      intros a Ha. cbn. rewrite ld8_memset by lia. rewrite decide_False by lia. rewrite ld8_memmove by lia.
      rewrite decide_False by lia. by apply M1.
    - apply wp_ret. split; [Z.div_mod_to_equations; lia|]. split; [done|]. by exists m. }
  intros pos' s2 (Hpos' & M2 & m' & ->). apply wp_bind, wp_mod, wp_mod.
  split; [split; [cbn; unfold u16; rewrite Z.mod_small; lia|done]|]. split.
  - intros a Ha. cbn. rewrite !ld8_st8_ne by lia. by apply M2.
  - match goal with |- exists m pos ser, ?t = _ => exists (k_mem t), (k_crtpos t), (k_serial s) end. by destruct s.
Qed.

Lemma consputc_display s c : on_screen s -> wp (consputc c) (fun _ s' => display s s') s.
Proof.
  intros H. unfold consputc. apply wp_bind, wp_get. rewrite (proj2 H). change (c_true 0) with false. cbv iota.
  assert (Hu : forall c s1, display s s1 -> wp (uartputc c) (fun _ s' => display s s') s1).
  { intros c' s1 H1. eapply wp_mono; [apply uartputc_display, H1|]. intros [] s2 H2. by eapply display_trans. }
  pose proof (display_refl s H) as H0. apply wp_bind. apply (wp_mono _ (fun _ s' => display s s')).
  - destruct (c =? BACKSPACE); [|by apply Hu].
    apply wp_bind. eapply wp_mono; [by apply Hu|]. intros [] s1 H1. apply wp_bind. eapply wp_mono; [by apply Hu|]. intros [] s2 H2. by apply Hu.
  - intros [] s1 H1. eapply wp_mono; [apply cgaputc_display, H1|]. intros [] s2 H2. by eapply display_trans.
Qed.

(** C40: Output stays on the screen.  With the cursor on one of the first 24
    lines and no panic, printing any characters, special ones included, returns
    with the cursor there again; of the memory of the kernel only the cells of
    these lines change, and apart from the cursor register and the bytes sent on
    the serial line nothing else does. *)
Theorem console_output (s : kernel) (cs : list Z) :
  on_screen s -> wp (keach cs consputc) (fun _ s' => display s s') s.
Proof.
  revert s. induction cs as [|c cs IH]; intros s H; cbn [keach]; [by apply wp_ret, display_refl|].
  apply wp_bind. eapply wp_mono; [by apply consputc_display|]. intros [] s1 H1.
  eapply wp_mono; [apply IH, H1|]. intros [] s2 H2. by eapply display_trans.
Qed.

Lemma console_output_witness :
  wp (keach (str "hello, world" ++ [10; 256; 65]) consputc) (fun _ s' => display boot s') boot.
Proof. apply (console_output boot). split; [cbn; lia|reflexivity]. Defined.

(** ** The input line *)

(** Complete lines that wait for a reader, and the line that is edited. *)
Record editor := mk_editor { ed_done : list Z; ed_cur : list Z }.

(** The effect of a key. *)
Definition edit (c : Z) (ed : editor) : editor :=
  if c =? CTRL 80 then ed
  else if c =? CTRL 85 then mk_editor (ed_done ed) []
  else if (c =? CTRL 72) || (c =? 127) then mk_editor (ed_done ed) (removelast (ed_cur ed))
  else if negb (c =? 0) && (Z.of_nat (length (ed_done ed) + length (ed_cur ed)) <? INPUT_BUF) then
    let c := if c =? 13 then 10 else c in
    let cur := ed_cur ed ++ [c] in
    if (c =? 10) || (c =? CTRL 68) || (Z.of_nat (length (ed_done ed) + length cur) =? INPUT_BUF)
    then mk_editor (ed_done ed ++ cur) []
    else mk_editor (ed_done ed) cur
  else ed.

(** The bytes of the ring from [a], [n] of them. *)
Definition ring (x : input_t) (a n : Z) : list Z := (fun k => input_at x (a + k)) <$> seqZ 0 n.

Record input_rep (x : input_t) (ed : editor) : Prop := {
  ir_len : length (in_buf x) = Z.to_nat INPUT_BUF;
  ir_r : 0 <= in_r x < 4294967296;
  ir_w : 0 <= in_w x < 4294967296;
  ir_e : 0 <= in_e x < 4294967296;
  ir_order : u32 (in_w x - in_r x) + u32 (in_e x - in_w x) <= INPUT_BUF;
  ir_done : ed_done ed = ring x (in_r x) (u32 (in_w x - in_r x));
  ir_cur : ed_cur ed = ring x (in_w x) (u32 (in_e x - in_w x))
}.

Lemma length_ring x a n : 0 <= n -> Z.of_nat (length (ring x a n)) = n.
Proof. intros H. unfold ring. rewrite length_fmap, length_seqZ. lia. Qed.

Lemma ring_snoc x a n : 0 <= n -> ring x a (n + 1) = ring x a n ++ [input_at x (a + n)].
Proof. intros H. unfold ring. by rewrite seqZ_app, fmap_app by lia. Qed.

(** Writing at the end of the ring keeps what is in it. *)
Lemma ring_insert x x' a n k v :
  in_buf x' = <[Z.to_nat (k mod INPUT_BUF) := v]> (in_buf x) -> 0 <= k < 4294967296 ->
  (forall j, 0 <= j < n -> u32 (a + j) mod INPUT_BUF <> k mod INPUT_BUF) -> ring x' a n = ring x a n.
Proof.
  intros Hb Hk Hn. apply list_fmap_ext. intros i j Hj%list_elem_of_lookup_2%elem_of_seqZ. unfold input_at. rewrite Hb.
  rewrite list_lookup_insert_ne; [done|]. specialize (Hn j ltac:(lia)). unfold INPUT_BUF in *.
  pose proof (Z.mod_pos_bound (u32 (a + j)) 128). pose proof (Z.mod_pos_bound k 128). lia.
Qed.

Lemma rep_count x ed : input_rep x ed ->
  u32 (in_e x - in_r x) = Z.of_nat (length (ed_done ed) + length (ed_cur ed)) /\ (in_e x =? in_w x) = bool_decide (ed_cur ed = []).
Proof.
  intros [H1 H2 H3 H4 H5 H6 H7]. pose proof (u32_range (in_w x - in_r x)). pose proof (u32_range (in_e x - in_w x)).
  pose proof (length_ring x (in_r x) (u32 (in_w x - in_r x)) ltac:(lia)) as L1. rewrite <- H6 in L1.
  pose proof (length_ring x (in_w x) (u32 (in_e x - in_w x)) ltac:(lia)) as L2. rewrite <- H7 in L2. split.
  - rewrite Nat2Z.inj_add, L1, L2. unfold u32, INPUT_BUF in *. Z.div_mod_to_equations. lia.
  - destruct (Z.eqb_spec (in_e x) (in_w x)) as [E|E]; symmetry.
    + apply bool_decide_eq_true. rewrite E, Z.sub_diag in L2. change (u32 0) with 0 in L2. destruct (ed_cur ed); [done|cbn in L2; lia].
    + apply bool_decide_eq_false. intros Ec. rewrite Ec in L2. destruct E. unfold u32 in L2. cbn in L2. Z.div_mod_to_equations. lia.
Qed.

Lemma rep_back x ed :
  input_rep x ed -> ed_cur ed <> [] ->
  input_rep (x <| in_e ::= fun e => u32 (e - 1) |>) (mk_editor (ed_done ed) (removelast (ed_cur ed))).
Proof.
  intros Hx Hne. pose proof (proj2 (rep_count x ed Hx)) as Hc. rewrite bool_decide_eq_false_2 in Hc by done.
  apply Z.eqb_neq in Hc. destruct Hx as [H1 H2 H3 H4 H5 H6 H7].
  assert (E : u32 (u32 (in_e x - 1) - in_w x) = u32 (in_e x - in_w x) - 1) by (unfold u32; Z.div_mod_to_equations; lia).
  split; cbn; try done; [apply u32_range|unfold INPUT_BUF in *; lia|].
  rewrite E, H7. replace (u32 (in_e x - in_w x)) with (u32 (in_e x - in_w x) - 1 + 1) at 1 by lia.
  rewrite ring_snoc by (unfold u32 in *; Z.div_mod_to_equations; lia). by rewrite removelast_last.
Qed.

Lemma rep_push x ed c :
  input_rep x ed -> Z.of_nat (length (ed_done ed) + length (ed_cur ed)) < INPUT_BUF ->
  input_rep (x <| in_buf ::= insert (Z.to_nat (in_e x mod INPUT_BUF)) c |> <| in_e ::= fun e => u32 (e + 1) |>)
    (mk_editor (ed_done ed) (ed_cur ed ++ [c])).
Proof.
  intros Hx Hlt. rewrite <- (proj1 (rep_count x ed Hx)) in Hlt. destruct Hx as [H1 H2 H3 H4 H5 H6 H7].
  pose proof (u32_range (in_w x - in_r x)). pose proof (u32_range (in_e x - in_w x)).
  assert (E : u32 (u32 (in_e x + 1) - in_w x) = u32 (in_e x - in_w x) + 1) by (unfold u32, INPUT_BUF in *; Z.div_mod_to_equations; lia).
  assert (Es : u32 (in_w x + u32 (in_e x - in_w x)) = in_e x) by (unfold u32; Z.div_mod_to_equations; lia).
  split; cbn; try done.
  - by rewrite length_insert.
  - apply u32_range.
  - rewrite E. unfold u32, INPUT_BUF in *. Z.div_mod_to_equations. lia.
  - rewrite H6. symmetry. eapply (ring_insert x); [done|done|]. intros j Hj. unfold u32, INPUT_BUF in *. Z.div_mod_to_equations. lia.
  - rewrite E, ring_snoc, H7 by lia. f_equal.
    + symmetry. eapply (ring_insert x); [done|done|]. intros j Hj. unfold u32, INPUT_BUF in *. Z.div_mod_to_equations. lia.
    + unfold input_at. cbn. rewrite Es, list_lookup_insert_eq; [done|]. rewrite H1. unfold INPUT_BUF. Z.div_mod_to_equations. lia.
Qed.

Lemma rep_commit x ed :
  input_rep x ed -> input_rep (x <| in_w := in_e x |>) (mk_editor (ed_done ed ++ ed_cur ed) []).
Proof.
  intros [H1 H2 H3 H4 H5 H6 H7]. pose proof (u32_range (in_w x - in_r x)). pose proof (u32_range (in_e x - in_w x)).
  assert (E : u32 (in_e x - in_r x) = u32 (in_w x - in_r x) + u32 (in_e x - in_w x)) by (unfold u32, INPUT_BUF in *; Z.div_mod_to_equations; lia).
  split; cbn; try done.
  - rewrite E, Z.sub_diag. change (u32 0) with 0. lia.
  - rewrite E, H6, H7. unfold ring. rewrite seqZ_app, fmap_app by lia. f_equal. apply list_eq. intros k. rewrite !list_lookup_fmap.
    destruct (decide (Z.of_nat k < u32 (in_e x - in_w x))).
    + rewrite !lookup_seqZ_lt by lia. cbn. f_equal. unfold input_at.
      change (in_buf (x <| in_w := in_e x |>)) with (in_buf x).
      assert (Eu : u32 (in_w x + (0 + Z.of_nat k)) = u32 (in_r x + (0 + u32 (in_w x - in_r x) + Z.of_nat k))) by (unfold u32; Z.div_mod_to_equations; lia).
      by rewrite Eu.
    + by rewrite !lookup_seqZ_ge by lia.
  - by rewrite Z.sub_diag.
Qed.

(** The input devices. *)
Definition dev (s : kernel) : devices * Z := (k_hw s, k_uart s).

(** Inside the critical section of [consoleintr], with the input [x] and the
    devices in the state [d]. *)
Definition in_console (i : nat) (c : cpu) (me : nat) (p : proc) (d : devices * Z) (x : input_t) (st : kernel) : Prop :=
  exists s, st = acq i Lcons s /\ env s i c me p /\ on_screen s /\ k_input s = x /\ dev s = d.

Section Editing.
Context (i : nat) (c : cpu) (me : nat) (p : proc) (d : devices * Z).

Lemma in_console_set x st f : in_console i c me p d x st -> wp (set_input f) (fun _ st' => in_console i c me p d (f x) st') st.
Proof.
  intros (s & -> & He & Ho & <- & <-). apply wp_mod. exists (s <| k_input ::= f |>).
  split; [done|]. split; [by apply (env_ext s)|done].
Qed.

Lemma in_console_put x st ch : in_console i c me p d x st -> wp (consputc ch) (fun _ st' => in_console i c me p d x st') st.
Proof.
  intros (s & -> & He & Ho & <- & <-). eapply wp_mono; [by apply consputc_display|].
  intros [] st' (Ho' & _ & m & pos & ser & ->). exists (s <| k_mem := m |> <| k_crtpos := pos |> <| k_serial := ser |>).
  split; [done|]. split; [by apply (env_ext s)|done].
Qed.

Lemma in_console_wake x st ch : in_console i c me p d x st -> wp (wakeup ch) (fun _ st' => in_console i c me p d x st') st.
Proof.
  intros (s & -> & He & Ho & <- & <-). eapply wp_of_run; [by apply (env_wakeup_acq s i c me p Lcons ch He)|].
  eexists. split; [done|]. split; [by apply env_wake|done].
Qed.

Lemma in_console_input x st : in_console i c me p d x st -> k_input st = x.
Proof. by intros (s & -> & _ & _ & <- & _). Qed.

Lemma input_prev x ed :
  input_rep x ed -> ed_cur ed <> [] -> exists l, ed_cur ed = l ++ [input_at x (in_e x - 1)].
Proof.
  intros Hx Hne. pose proof (proj2 (rep_count x ed Hx)) as Hc. rewrite bool_decide_eq_false_2 in Hc by done.
  apply Z.eqb_neq in Hc. destruct Hx as [H1 H2 H3 H4 H5 H6 H7]. rewrite H7.
  replace (u32 (in_e x - in_w x)) with (u32 (in_e x - in_w x) - 1 + 1) by lia.
  rewrite ring_snoc by (unfold u32 in *; Z.div_mod_to_equations; lia). eexists. do 2 f_equal. unfold input_at.
  replace (u32 (in_w x + (u32 (in_e x - in_w x) - 1))) with (u32 (in_e x - 1)); [done|]. unfold u32. Z.div_mod_to_equations. lia.
Qed.

(** Control-U erases the line that is edited. *)
Lemma kill_line_spec fuel : forall x st ed,
  in_console i c me p d x st -> input_rep x ed -> 10 ∉ ed_cur ed -> (length (ed_cur ed) <= fuel)%nat ->
  wp (kill_line fuel) (fun _ st' => exists x', in_console i c me p d x' st' /\ input_rep x' (mk_editor (ed_done ed) [])) st.
Proof.
  induction fuel as [|fuel IH]; intros x st ed Hst Hx Hnl Hf.
  { apply wp_ret. exists x. split; [done|]. destruct ed as [dn cu]. destruct cu; [done|cbn in Hf; lia]. }
  cbn [kill_line]. apply wp_bind, wp_get. rewrite (in_console_input x st Hst). rewrite (proj2 (rep_count x ed Hx)).
  case_bool_decide as Ec; cbn [negb andb].
  { apply wp_ret. exists x. split; [done|]. destruct ed as [dn cu]. cbn in Ec. by subst. }
  destruct (input_prev x ed Hx Ec) as (l & El). destruct (Z.eqb_spec (input_at x (in_e x - 1)) 10) as [E|E].
  { rewrite El, E in Hnl. destruct Hnl. apply elem_of_app. right. apply list_elem_of_here. }
  cbn [negb]. apply wp_bind. eapply wp_mono; [by apply in_console_set|]. intros [] st1 H1.
  apply wp_bind. eapply wp_mono; [by apply in_console_put|]. intros [] st2 H2.
  apply (IH _ st2 (mk_editor (ed_done ed) (removelast (ed_cur ed))) H2 (rep_back x ed Hx Ec)); cbn; rewrite El, removelast_last.
  - intros Hin. apply Hnl. rewrite El. apply elem_of_app. by left.
  - rewrite El, length_app in Hf. cbn in Hf. lia.
Qed.

Lemma rep_room x ed : input_rep x ed -> (in_e x =? u32 (in_r x + INPUT_BUF)) = (Z.of_nat (length (ed_done ed) + length (ed_cur ed)) =? INPUT_BUF).
Proof.
  intros Hx. rewrite <- (proj1 (rep_count x ed Hx)). destruct Hx as [_ H2 _ H4 _ _ _]. unfold u32, INPUT_BUF.
  destruct (Z.eqb_spec (in_e x) ((in_r x + 128) mod 4294967296)), (Z.eqb_spec ((in_e x - in_r x) mod 4294967296) 128); try done;
    exfalso; Z.div_mod_to_equations; lia.
Qed.

(** The input buffer is a line editor.  For every key that the keyboard or the
    serial line delivers, an iteration of [consoleintr] does to the ring
    buffer what the key does to the abstract editor: it appends a character,
    commits the line at a newline, at control-D and when the buffer is full,
    erases the last character or the whole line, and ignores keys when there is
    no room.  Complete lines are never touched. *)
Lemma console_edit (x : input_t) (st : kernel) (ed : editor) (ch : Z) :
  in_console i c me p d x st -> input_rep x ed -> 10 ∉ ed_cur ed -> 0 <= ch < 256 ->
  wp (consoleintr_char ch) (fun b st' => b = (ch =? CTRL 80) /\
    exists x', in_console i c me p d x' st' /\ input_rep x' (edit ch ed) /\ 10 ∉ ed_cur (edit ch ed)) st.
Proof.
  intros Hst Hx Hnl Hch. unfold consoleintr_char, edit. destruct (ch =? CTRL 80) eqn:E1; [apply wp_ret; split; [done|]; by exists x|].
  destruct (ch =? CTRL 85) eqn:E2.
  { apply wp_bind, wp_get. rewrite (in_console_input _ _ Hst). apply wp_bind. eapply wp_mono.
    - apply (kill_line_spec _ x st ed Hst Hx Hnl). rewrite (ir_cur _ _ Hx). unfold ring. by rewrite length_fmap, length_seqZ.
    - intros [] st' (x' & H1 & H2). apply wp_ret. split; [done|]. exists x'. split; [done|]. split; [done|apply not_elem_of_nil]. }
  destruct ((ch =? CTRL 72) || (ch =? 127)) eqn:E3.
  { apply wp_bind, wp_get. rewrite (in_console_input _ _ Hst), (proj2 (rep_count x ed Hx)).
    apply wp_bind. case_bool_decide as Ec; cbn [negb].
    - apply wp_ret, wp_ret. split; [done|]. exists x. split; [done|]. destruct ed as [dn cu]. cbn in *. by subst.
    - apply wp_bind. eapply wp_mono; [by apply in_console_set|]. intros [] st1 H1.
      eapply wp_mono; [by apply in_console_put|]. intros [] st2 H2. apply wp_ret. split; [done|].
      eexists. split; [done|]. split; [by apply rep_back|]. destruct (input_prev x ed Hx Ec) as (l & El). cbn.
      rewrite El, removelast_last. intros Hin. apply Hnl. rewrite El. apply elem_of_app. by left. }
  apply wp_bind, wp_get. rewrite (in_console_input _ _ Hst), (proj1 (rep_count x ed Hx)).
  destruct (negb (ch =? 0) && (Z.of_nat (length (ed_done ed) + length (ed_cur ed)) <? INPUT_BUF)) eqn:E4.
  2:{ apply wp_bind, wp_ret, wp_ret. split; [done|]. by exists x. }
  apply andb_true_iff in E4 as [_ E4%Z.ltb_lt]. cbv zeta. set (c' := if ch =? 13 then 10 else ch).
  assert (Hu : u8 c' = c') by (unfold c', u8; destruct (ch =? 13); [done|]; apply Z.mod_small; lia).
  apply wp_bind, wp_bind. eapply wp_mono; [by apply in_console_set|]. intros [] st1 H1.
  apply wp_bind. eapply wp_mono; [by apply in_console_set|]. intros [] st2 H2.
  apply wp_bind. eapply wp_mono; [by apply in_console_put|]. intros [] st3 H3.
  apply wp_bind, wp_get. rewrite (in_console_input _ _ H3). rewrite Hu in H3 |- *.
  pose proof (rep_push x ed c' Hx E4) as Hp. rewrite (rep_room _ _ Hp). set (ed' := mk_editor _ _) in Hp |- *.
  change (length (ed_cur ed')) with (length (ed_cur ed ++ [c'])). change (ed_done ed') with (ed_done ed).
  destruct ((c' =? 10) || (c' =? CTRL 68) || _) eqn:E5.
  - apply wp_bind. eapply wp_mono; [by apply in_console_set|]. intros [] st4 H4.
    eapply wp_mono; [by apply in_console_wake|]. intros [] st5 H5. apply wp_ret. split; [done|].
    eexists. split; [done|]. split; [exact (rep_commit _ _ Hp)|apply not_elem_of_nil].
  - apply wp_ret, wp_ret. split; [done|]. eexists. split; [done|]. split; [exact Hp|].
    cbn. intros [Hin|Hin%list_elem_of_singleton]%elem_of_app; [done|]. rewrite <- Hin in E5. cbn in E5. discriminate.
Qed.
End Editing.
