(* ===== verification/Kbd.v ===== *)
(** * Keyboard and serial input

    [kbd.c] with the tables of [kbd.h], and the input side of [uart.c].  The
    keyboard controller holds the scan codes that were not read yet, the serial
    port the bytes that arrived; a read of the data port takes the first one. *)

From stdpp Require Import base gmap strings list fin_maps.
From Stdlib Require Import ZArith Lia.
From S2P Require Import Prelude Mem Types Spinlock Kalloc Vm Proc Apic Access Sleeplock Disk Bio Log Inode Console.

Module Kbd.
Definition SHIFT : Z := 1.
Definition CTL : Z := 2.
Definition ALT : Z := 4.
Definition CAPSLOCK : Z := 8.
Definition NUMLOCK : Z := 16.
Definition SCROLLLOCK : Z := 32.
Definition E0ESC : Z := 64.

(** A table with designated initialisers: the first elements, then some others;
    the rest are 0. *)
Definition designated (front : list Z) (others : list (Z * Z)) (i : Z) : Z :=
  match list_to_map (M := gmap Z Z) others !! i with
  | Some v => v
  | None => if i <? 0 then 0 else default 0 (front !! Z.to_nat i)
  end.

Definition shiftcode : Z -> Z := designated [] [(0x1D, CTL); (0x2A, SHIFT); (0x36, SHIFT); (0x38, ALT); (0x9D, CTL); (0xB8, ALT)].
Definition togglecode : Z -> Z := designated [] [(0x3A, CAPSLOCK); (0x45, NUMLOCK); (0x46, SCROLLLOCK)].

Definition keypad (enter div : Z) : list (Z * Z) :=
  [(0x9C, enter); (0xB5, div); (0xC8, 0xE2); (0xD0, 0xE3); (0xC9, 0xE6); (0xD1, 0xE7); (0xCB, 0xE4); (0xCD, 0xE5);
   (0x97, 0xE0); (0xCF, 0xE1); (0xD2, 0xE8); (0xD3, 0xE9)].

Definition normalmap : Z -> Z := designated
  ([0; 0x1B; 49; 50; 51; 52; 53; 54;
    55; 56; 57; 48; 45; 61; 8; 9;
    113; 119; 101; 114; 116; 121; 117; 105;
    111; 112; 91; 93; 10; 0; 97; 115;
    100; 102; 103; 104; 106; 107; 108; 59;
    39; 96; 0; 92; 122; 120; 99; 118;
    98; 110; 109; 44; 46; 47; 0; 42;
    0; 32; 0; 0; 0; 0; 0; 0;
    0; 0; 0; 0; 0; 0; 0; 55;
    56; 57; 45; 52; 53; 54; 43; 49;
    50; 51; 48; 46; 0; 0; 0; 0]) (keypad 10 47).

Definition shiftmap : Z -> Z := designated
  ([0; 27; 33; 64; 35; 36; 37; 94;
    38; 42; 40; 41; 95; 43; 8; 9;
    81; 87; 69; 82; 84; 89; 85; 73;
    79; 80; 123; 125; 10; 0; 65; 83;
    68; 70; 71; 72; 74; 75; 76; 58;
    34; 126; 0; 124; 90; 88; 67; 86;
    66; 78; 77; 60; 62; 63; 0; 42;
    0; 32; 0; 0; 0; 0; 0; 0;
    0; 0; 0; 0; 0; 0; 0; 55;
    56; 57; 45; 52; 53; 54; 43; 49;
    50; 51; 48; 46; 0; 0; 0; 0]) (keypad 10 47).

Definition C (x : Z) : Z := u8 (x - 64).

Definition ctlmap : Z -> Z := designated
  ([0; 0; 0; 0; 0; 0; 0; 0;
    0; 0; 0; 0; 0; 0; 0; 0;
    C 81; C 87; C 69; C 82; C 84; C 89; C 85; C 73;
    C 79; C 80; 0; 0; 13; 0; C 65; C 83;
    C 68; C 70; C 71; C 72; C 74; C 75; C 76; 0;
    0; 0; 0; C 92; C 90; C 88; C 67; C 86;
    C 66; C 78; C 77; 0; 0; C 47; 0; 0]) (keypad 13 (C 47)).

Definition charcode (i : Z) : Z -> Z :=
  if i =? 0 then normalmap else if i =? 1 then shiftmap else ctlmap.

(** The new value of [shift] and the result, for the byte [data]. *)
Definition kbd_step (shift data : Z) : Z * Z :=
  if data =? 0xE0 then (Z.lor shift E0ESC, 0)
  else if negb (Z.land data 0x80 =? 0) then
    let data := if negb (Z.land shift E0ESC =? 0) then data else Z.land data 0x7F in
    (Z.land shift (Z.lnot (Z.lor (shiftcode data) E0ESC)), 0)
  else
    let '(data, shift) :=
      if negb (Z.land shift E0ESC =? 0) then (Z.lor data 0x80, Z.land shift (Z.lnot E0ESC)) else (data, shift) in
    let shift := Z.lor shift (shiftcode data) in
    let shift := Z.lxor shift (togglecode data) in
    let c := charcode (Z.land shift (Z.lor CTL SHIFT)) data in
    let c := if negb (Z.land shift CAPSLOCK =? 0) then
               if (97 <=? c) && (c <=? 122) then c + (65 - 97)
               else if (65 <=? c) && (c <=? 90) then c + (97 - 65)
               else c
             else c in
    (shift, c).

Definition kbdgetc : KM Z :=
  q <- kget (fun s => hw_scan (k_hw s)) ;;
  match q with
  | [] => kret (-1)
  | b :: q' =>
      let data := u8 b in
      set_hw (fun d => d <| hw_scan := q' |>) ;;;
      shift <- kget (fun s => hw_shift (k_hw s)) ;;
      set_hw (fun d => d <| hw_shift := fst (kbd_step shift data) |>) ;;;
      kret (snd (kbd_step shift data))
  end.
End Kbd.

(** ** [uart.c] *)
Module Uart.
Definition COM1 : Z := 0x3f8.

Definition uartgetc : KM Z :=
  u <- kget k_uart ;;
  if negb (c_true u) then kret (-1) else
  q <- kget (fun s => hw_rx (k_hw s)) ;;
  match q with
  | [] => kret (-1)
  | b :: q' => set_hw (fun d => d <| hw_rx := q' |>) ;;; kret (u8 b)
  end.

Definition uartinit `{P : Ports} : KM unit :=
  outb (COM1 + 2) 0 ;;;
  outb (COM1 + 3) 0x80 ;;;
  outb (COM1 + 0) (115200 / 9600) ;;;
  outb (COM1 + 1) 0 ;;;
  outb (COM1 + 3) 0x03 ;;;
  outb (COM1 + 4) 0 ;;;
  outb (COM1 + 1) 0x01 ;;;
  r <- inb (COM1 + 5) ;;
  if r =? 0xFF then kret tt else
  kmod (fun s => s <| k_uart := 1 |>) ;;;
  inb (COM1 + 2) ;;;
  inb (COM1 + 0) ;;;
  Ioapic.ioapicenable IRQ_COM1 0 ;;;
  keach (str "xv6..." ++ [10]) uartputc.
End Uart.

Section IntrDefs.
Context `{Pt : Patience} `{D : DiskDriver}.
Definition kbdintr : KM unit := consoleintr Kbd.kbdgetc.
Definition uartintr : KM unit := consoleintr Uart.uartgetc.
End IntrDefs.
