(* ===== verification/KbdSpec.v ===== *)
(** * From keys to lines

    The interface between a device and the console: a source of characters.  The
    keyboard and the serial port implement it, and an interrupt edits the line
    with the characters that are waiting. *)

From stdpp Require Import base gmap strings list fin_maps.
From Stdlib Require Import ZArith Lia.
From S2P Require Import Prelude Mem Types Spinlock Kalloc Vm Proc ProcSpec Apic Access Sleeplock Steady Disk Bio Log Inode Console ConsoleSpec Kbd.

(** ** Sources of characters *)
Definition is_byte (c : Z) : Prop := 0 <= c < 256.

(** What [consoleintr] relies on: [getc] delivers the bytes that wait in the
    device and then -1, and changes nothing but the device.  [src_after] is the
    device when all were read. *)
Class CharSource (getc : KM Z) := {
  src_chars : devices * Z -> list Z;
  src_after : devices * Z -> devices;
  src_bytes : forall d, Forall is_byte (src_chars d);
  src_end : forall s, src_chars (dev s) = [] -> getc s = Ret (-1) s /\ src_after (dev s) = k_hw s;
  src_get : forall s c l, src_chars (dev s) = c :: l -> exists h, getc s = Ret c (s <| k_hw := h |>) /\
    src_chars (h, k_uart s) = l /\ src_after (h, k_uart s) = src_after (dev s)
}.

Lemma u8_byte b : is_byte (u8 b).
Proof. unfold is_byte, u8. pose proof (Z.mod_pos_bound b 256). lia. Qed.

(** ** The serial port *)
Definition uart_chars (d : devices * Z) : list Z := if c_true (snd d) then u8 <$> hw_rx (fst d) else [].
Definition uart_after (d : devices * Z) : devices := if c_true (snd d) then (fst d) <| hw_rx := [] |> else fst d.

#[export] Instance uart_source : CharSource Uart.uartgetc.
Proof.
  refine {| src_chars := uart_chars; src_after := uart_after |}; unfold uart_chars, uart_after.
- intros d. destruct (c_true (snd d)); [|constructor]. apply Forall_fmap, Forall_true. intros b. apply u8_byte.
- intros s H. unfold Uart.uartgetc. unfold kbind at 1, kget at 1. cbn [obind]. cbn in H. cbn. destruct (c_true (k_uart s)); [|done]. cbn [negb].
  unfold kbind, kget. cbn. destruct (hw_rx (k_hw s)) eqn:E; [|done]. split; [done|]. destruct (k_hw s). cbn in *. by subst.
- intros s c l H. unfold Uart.uartgetc. unfold kbind at 1, kget at 1. cbn [obind]. cbn in H. destruct (c_true (k_uart s)) eqn:Eu; [|done]. cbn [negb].
  unfold kbind at 1, kget at 1. cbn [obind]. destruct (hw_rx (k_hw s)) as [|b q]; [done|]. injection H as <- <-.
  exists ((k_hw s) <| hw_rx := q |>). split; [done|]. cbn. by rewrite Eu.
Defined.

(** ** The keyboard *)
Fixpoint decode (shift : Z) (scan : list Z) : list Z :=
  match scan with
  | [] => []
  | b :: scan' => snd (Kbd.kbd_step shift (u8 b)) :: decode (fst (Kbd.kbd_step shift (u8 b))) scan'
  end.

Lemma designated_byte front others i : forallb (fun c => (0 <=? c) && (c <? 256)) (front ++ others.*2) = true -> is_byte (Kbd.designated front others i).
Proof.
  intros H. rewrite forallb_forall in H. assert (Hb : forall c, c ∈ front ++ others.*2 -> is_byte c).
  { intros c Hc%list_elem_of_In%H. unfold is_byte. lia. }
  unfold Kbd.designated. destruct (list_to_map others !! i) as [v|] eqn:E.
  - apply elem_of_list_to_map_2 in E. apply Hb, elem_of_app. right. apply list_elem_of_fmap. by exists (i, v).
  - destruct (i <? 0); [unfold is_byte; lia|]. destruct (front !! Z.to_nat i) as [v|] eqn:Ef; [|unfold is_byte; cbn; lia].
    apply Hb, elem_of_app. left. by eapply list_elem_of_lookup_2.
Qed.

Lemma charcode_byte k i : is_byte (Kbd.charcode k i).
Proof. unfold Kbd.charcode. destruct (k =? 0); [|destruct (k =? 1)]; by apply designated_byte. Qed.

Lemma kbd_step_byte shift data : is_byte (snd (Kbd.kbd_step shift data)).
Proof.
  unfold Kbd.kbd_step. destruct (data =? 0xE0); [done|]. destruct (negb (Z.land data 0x80 =? 0)); [done|].
  destruct (if negb (Z.land shift Kbd.E0ESC =? 0) then _ else _) as [data' shift']. cbv zeta. cbn [snd].
  match goal with |- context [Kbd.charcode ?k ?i] => pose proof (charcode_byte k i); generalize dependent (Kbd.charcode k i) end.
  unfold is_byte. intros ch Hc. destruct (negb _); [|done].
  destruct (Z.leb_spec 97 ch), (Z.leb_spec ch 122); cbn [andb]; try lia; destruct (Z.leb_spec 65 ch), (Z.leb_spec ch 90); cbn [andb]; lia.
Qed.

Definition kbd_chars (d : devices * Z) : list Z := decode (hw_shift (fst d)) (hw_scan (fst d)).
Definition kbd_after (d : devices * Z) : devices :=
  (fst d) <| hw_scan := [] |> <| hw_shift := foldl (fun sh b => fst (Kbd.kbd_step sh (u8 b))) (hw_shift (fst d)) (hw_scan (fst d)) |>.

#[export] Instance kbd_source : CharSource Kbd.kbdgetc.
Proof.
  refine {| src_chars := kbd_chars; src_after := kbd_after |}; unfold kbd_chars, kbd_after.
- intros [d u]. cbn. generalize (hw_shift d). induction (hw_scan d) as [|b q IH]; intros sh; cbn; constructor; [apply kbd_step_byte|apply IH].
- intros s H. unfold Kbd.kbdgetc, kbind, kget. cbn in *. destruct (hw_scan (k_hw s)) eqn:E; [|done]. split; [done|]. destruct (k_hw s). cbn in *. by subst.
- intros s c l H. unfold Kbd.kbdgetc. unfold kbind at 1, kget at 1. cbn [obind]. cbn in H. destruct (hw_scan (k_hw s)) as [|b q] eqn:E; [done|]. cbn in H.
  injection H as <- <-. exists ((k_hw s) <| hw_scan := q |> <| hw_shift := fst (Kbd.kbd_step (hw_shift (k_hw s)) (u8 b)) |>). split; [done|]. split; [done|]. cbn. by rewrite E.
Defined.

(** ** Interrupts edit the line *)
Section Keys.
Context (i : nat) (c : cpu) (me : nat) (p : proc) (getc : KM Z) `{Src : !CharSource getc}.

Lemma keys_loop fuel : forall st x ed d b,
  in_console i c me p d x st -> input_rep x ed -> 10 ∉ ed_cur ed -> (length (src_chars d) < fuel)%nat ->
  wp (consoleintr_loop fuel getc b) (fun r st' => r = b || bool_decide (CTRL 80 ∈ src_chars d) /\
    exists x', in_console i c me p (src_after d, snd d) x' st' /\
      input_rep x' (foldl (fun e k => edit k e) ed (src_chars d)) /\ 10 ∉ ed_cur (foldl (fun e k => edit k e) ed (src_chars d))) st.
Proof.
  induction fuel as [|fuel IH]; intros st x ed d b Hst Hx Hnl Hf; [lia|]. cbn [consoleintr_loop].
  pose proof Hst as (s & -> & He & Ho & Hi & Hd). assert (Hds : dev (acq i Lcons s) = d) by (by rewrite <- Hd).
  destruct (src_chars d) as [|ch l] eqn:Ech.
  - rewrite <- Hds in Ech. unfold wp, kbind. destruct (src_end _ Ech) as [-> Hafter]. cbn. split; [by rewrite orb_false_r|]. exists x.
    split; [|done]. rewrite <- Hds, Hafter. by exists s.
  - pose proof (src_bytes d) as Hb. rewrite Ech in Hb. apply Forall_cons in Hb as [Hb _]. pose proof Ech as Ech'. rewrite <- Hds in Ech'.
    destruct (src_get _ ch l Ech') as (h & Eget & Hl & Ha). unfold wp, kbind at 1. rewrite Eget. cbn [obind].
    destruct (Z.leb_spec 0 ch); [|unfold is_byte in Hb; lia]. apply wp_bind. eapply wp_mono.
    + apply (console_edit i c me p (h, k_uart s) x _ ed ch); [|done|done|done].
      exists (s <| k_hw := h |>). split; [done|]. split; [by apply (env_ext s)|done].
    + intros r st' (-> & x' & Hst' & Hx' & Hnl'). cbn [length] in Hf. eapply wp_mono.
      * apply (IH st' x' (edit ch ed) (h, k_uart s)); [done|done|done|]. change (k_uart (acq i Lcons s)) with (k_uart s) in Hl. rewrite Hl. lia.
      * change (k_uart (acq i Lcons s)) with (k_uart s) in Hl. rewrite Hl. intros r st2 (-> & x2 & H1 & H2 & H3). split.
        { rewrite <- orb_assoc. f_equal. destruct (Z.eqb_spec ch (CTRL 80)) as [->|Hne]; cbn [orb].
          - by rewrite bool_decide_eq_true_2 by left.
          - apply bool_decide_ext. rewrite elem_of_cons. naive_solver. }
        exists x2. split; [|done]. cbn [snd] in H1. change (k_uart (acq i Lcons s)) with (k_uart s) in Ha. rewrite Ha, Hds in H1. by rewrite <- Hd in H1 |- *.
Qed.
End Keys.

(** ** A keyboard of keys

    Keys are pressed and released; the keys of the right-hand block send the
    escape byte first.  The modifiers are what the user holds and has locked. *)
Record mods := mk_mods { m_shift : bool; m_ctl : bool; m_alt : bool; m_caps : bool; m_num : bool; m_scroll : bool }.
Inductive key_event := Press (ext : bool) (code : Z) | Release (ext : bool) (code : Z).

Definition key_of (ext : bool) (code : Z) : Z := if ext then code + 128 else code.
Definition event_ok (e : key_event) : Prop :=
  match e with Press _ code => 0 <= code < 128 | Release _ code => 0 <= code < 128 /\ code <> 0x60 end.
Definition scan_codes (e : key_event) : list Z :=
  match e with
  | Press ext code => (if ext then [0xE0] else []) ++ [code]
  | Release ext code => (if ext then [0xE0] else []) ++ [code + 128]
  end.

Definition one_of (l : list Z) (k : Z) : bool := existsb (Z.eqb k) l.
Definition mods_step (m : mods) (e : key_event) : mods :=
  match e with
  | Press ext code =>
      let k := key_of ext code in
      mk_mods (m_shift m || one_of [0x2A; 0x36] k) (m_ctl m || one_of [0x1D; 0x9D] k) (m_alt m || one_of [0x38; 0xB8] k)
        (xorb (m_caps m) (k =? 0x3A)) (xorb (m_num m) (k =? 0x45)) (xorb (m_scroll m) (k =? 0x46))
  | Release ext code =>
      let k := key_of ext code in
      mk_mods (m_shift m && negb (one_of [0x2A; 0x36] k)) (m_ctl m && negb (one_of [0x1D; 0x9D] k)) (m_alt m && negb (one_of [0x38; 0xB8] k))
        (m_caps m) (m_num m) (m_scroll m)
  end.

Definition swap_case (c : Z) : Z :=
  if (97 <=? c) && (c <=? 122) then c - 32 else if (65 <=? c) && (c <=? 90) then c + 32 else c.

(** The character of a key; 0 for none. *)
Definition typed (m : mods) (e : key_event) : Z :=
  match e with
  | Release _ _ => 0
  | Press ext code =>
      let m' := mods_step m e in
      let k := key_of ext code in
      let c := if m_ctl m' then Kbd.ctlmap k else if m_shift m' then Kbd.shiftmap k else Kbd.normalmap k in
      if m_caps m' then swap_case c else c
  end.

Definition bits (m : mods) : Z :=
  Z.b2z (m_shift m) + 2 * Z.b2z (m_ctl m) + 4 * Z.b2z (m_alt m) + 8 * Z.b2z (m_caps m) + 16 * Z.b2z (m_num m) + 32 * Z.b2z (m_scroll m).

Definition step_ok (m : mods) (e : key_event) : bool :=
  let steps := foldl (fun a b => let r := Kbd.kbd_step (fst a) (u8 b) in (fst r, snd a ++ [snd r])) (bits m, []) (scan_codes e) in
  bool_decide (steps = (bits (mods_step m e), (match e with Press true _ | Release true _ => [0] | _ => [] end) ++ [typed m e])).

Definition bools : list bool := [false; true].
Lemma all_steps :
  forallb (fun a => forallb (fun b => forallb (fun c => forallb (fun d => forallb (fun e => forallb (fun f =>
    forallb (fun x => forallb (fun k => step_ok (mk_mods a b c d e f) (Press x k) && ((k =? 0x60) || step_ok (mk_mods a b c d e f) (Release x k)))
      (seqZ 0 128)) bools) bools) bools) bools) bools) bools) bools = true.
Proof. by vm_compute. Qed.

Lemma step_all m e : event_ok e -> step_ok m e = true.
Proof.
  intros He. pose proof all_steps as H. destruct m as [a b c d f g]. rewrite forallb_forall in H.
  assert (Hb : forall x, In x bools) by (intros []; cbn; auto).
  specialize (H a (Hb a)). rewrite forallb_forall in H. specialize (H b (Hb b)). rewrite forallb_forall in H.
  specialize (H c (Hb c)). rewrite forallb_forall in H. specialize (H d (Hb d)). rewrite forallb_forall in H.
  specialize (H f (Hb f)). rewrite forallb_forall in H. specialize (H g (Hb g)). rewrite forallb_forall in H.
  destruct e as [x k|x k]; specialize (H x (Hb x)); rewrite forallb_forall in H; cbn in He;
    (assert (Hk : In k (seqZ 0 128)) by (apply list_elem_of_In, elem_of_seqZ; lia)); specialize (H k Hk);
    apply andb_true_iff in H as [H1 H2]; [done|].
  apply orb_true_iff in H2 as [H2|H2]; [lia|done].
Qed.

Fixpoint mods_all (m : mods) (es : list key_event) : mods := match es with [] => m | e :: es' => mods_all (mods_step m e) es' end.
Fixpoint typed_all (m : mods) (es : list key_event) : list Z := match es with [] => [] | e :: es' => typed m e :: typed_all (mods_step m e) es' end.
Definition scan_all (es : list key_event) : list Z := concat (scan_codes <$> es).

Lemma decode_steps scan : forall sh acc,
  foldl (fun a b => let r := Kbd.kbd_step (fst a) (u8 b) in (fst r, snd a ++ [snd r])) (sh, acc) scan =
  (foldl (fun sh b => fst (Kbd.kbd_step sh (u8 b))) sh scan, acc ++ decode sh scan).
Proof. induction scan as [|b scan IH]; intros sh acc; cbn; [by rewrite app_nil_r|]. rewrite IH, <- app_assoc. done. Qed.

Lemma decode_app a b : forall sh, decode sh (a ++ b) = decode sh a ++ decode (foldl (fun sh b => fst (Kbd.kbd_step sh (u8 b))) sh a) b.
Proof. induction a as [|x a IH]; intros sh; cbn; [done|]. by rewrite IH. Qed.

Lemma events_steps es : Forall event_ok es -> forall m ed,
  foldl (fun sh b => fst (Kbd.kbd_step sh (u8 b))) (bits m) (scan_all es) = bits (mods_all m es) /\
  foldl (fun e k => edit k e) ed (decode (bits m) (scan_all es)) = foldl (fun e k => edit k e) ed (typed_all m es).
Proof.
  induction 1 as [|e es He _ IH]; intros m ed; [done|]. pose proof (step_all m e He) as H. unfold step_ok in H.
  rewrite decode_steps, bool_decide_eq_true in H. injection H as Hsh Hch. cbn [app] in Hch.
  change (scan_all (e :: es)) with (scan_codes e ++ scan_all es). rewrite foldl_app, decode_app, foldl_app, Hsh, Hch.
  destruct (IH (mods_step m e) (edit (typed m e) ed)) as [-> IH2]. split; [done|]. cbn [typed_all foldl]. rewrite <- IH2. f_equal.
  rewrite foldl_app. by destruct e as [[]|[]].
Qed.

(** C17: Typing edits the line.  Whatever keys were pressed and released, with
    the modifiers the user holds and has locked as the keyboard driver has
    recorded them, a keyboard interrupt takes all the scan codes from the
    controller and edits the current line as the typed characters edit it in the
    abstract line editor: letters in the case that shift and caps lock give,
    control characters when control is held, the keypad's keys, nothing for
    releases and unknown keys.  Complete lines are kept for the reader, the
    driver has recorded the new modifiers, the console lock is free again and
    the cursor is on the screen.  (Without control-P, which lists the
    processes.) *)
Theorem keyboard_line `{Pt : Patience} `{D : DiskDriver} (s : kernel) i c me p ed (m : mods) (es : list key_event) :
  env s i c me p -> on_screen s -> input_rep (k_input s) ed -> 10 ∉ ed_cur ed ->
  Forall event_ok es -> hw_scan (k_hw s) = scan_all es -> hw_shift (k_hw s) = bits m ->
  CTRL 80 ∉ decode (bits m) (scan_all es) -> (length (scan_all es) < patience)%nat ->
  wp kbdintr (fun _ s' => env s' i c me p /\ on_screen s' /\
    input_rep (k_input s') (foldl (fun e k => edit k e) ed (typed_all m es)) /\
    hw_scan (k_hw s') = [] /\ hw_shift (k_hw s') = bits (mods_all m es)) s.
Proof.
  intros He Ho Hx Hnl Hes Hscan Hshift Hp Hfuel. destruct (events_steps es Hes m ed) as [Hsh Hfold].
  assert (Hchars : src_chars (dev s) = decode (bits m) (scan_all es)) by (cbn; unfold kbd_chars; cbn; by rewrite Hscan, Hshift).
  unfold kbdintr, consoleintr. apply wp_bind. eapply wp_of_run; [by apply (env_acquire s i c me p Lcons He)|]. apply wp_bind.
  eapply wp_mono; [apply (keys_loop i c me p Kbd.kbdgetc patience (acq i Lcons s) (k_input s) ed (dev s) false); [by exists s|done|done|]|].
  - rewrite Hchars. clear - Hfuel. revert Hfuel. generalize (scan_all es) (bits m). intros l. generalize patience.
    intros n b Hl. assert (E : length (decode b l) = length l) by (revert b; induction l as [|x l IH]; intros b; cbn; [done|]; by rewrite IH by (cbn in Hl; lia)). lia.
  - rewrite Hchars, Hfold. intros r st (-> & x' & (s' & -> & He' & Ho' & <- & Hd) & Hx' & _). rewrite bool_decide_eq_false_2 by done. cbn [orb].
    apply wp_bind. eapply wp_of_run; [by apply (env_release s' i c me p Lcons He')|]. apply wp_ret. split; [done|]. split; [done|]. split; [done|].
    injection Hd as Hd _. rewrite Hd. cbn. by rewrite Hscan, Hshift.
Qed.

(** Shift down, [a] down and up, shift up, and the keypad's enter. *)
Definition demo_keys : list key_event := [Press false 0x2A; Press false 0x1E; Release false 0x1E; Release false 0x2A; Press true 0x1C].
Definition no_mods : mods := mk_mods false false false false false false.
Definition typing : kernel := running <| k_hw := zero_devices <| hw_scan := scan_all demo_keys |> |>.

Lemma keyboard_line_witness :
  wp (kbdintr (Pt := 10%nat)) (fun _ s' => env s' 0 run_cpu 0 run_proc /\ on_screen s' /\
    input_rep (k_input s') (mk_editor [65; 10] []) /\ hw_scan (k_hw s') = [] /\ hw_shift (k_hw s') = 0) typing.
Proof.
  apply (keyboard_line (Pt := 10%nat) typing 0 run_cpu 0 run_proc (mk_editor [] []) no_mods demo_keys).
  - apply (env_ext running); [apply running_env|done..].
  - split; [cbn; lia|reflexivity].
  - split; try reflexivity; try (cbn; lia). vm_compute. discriminate.
  - apply not_elem_of_nil.
  - repeat constructor; cbn; lia.
  - reflexivity.
  - reflexivity.
  - apply (bool_decide_unpack _). by vm_compute.
  - vm_compute. lia.
Defined.
