(* ===== verification/Fs.v ===== *)
(** * Files, directories and paths

    The upper layers of [fs.c].  A path and the name of a directory entry are
    C strings, given by their characters without the final zero. *)

From stdpp Require Import base gmap strings list fin_maps.
From Stdlib Require Import ZArith Lia.
From S2P Require Import Prelude Mem Types Spinlock Kalloc Vm Proc Access Sleeplock Disk Bio Log Inode Console.

(** ** Strings *)

(** [strncmp(p, q, n)] and [strncpy(s, t, n)] on the characters of a string
    (the string ends where the list does). *)
Fixpoint strncmp_str (p q : list Z) (n : nat) : Z :=
  match n with
  | O => 0
  | S k =>
      let c := default 0 (head p) in
      let d := default 0 (head q) in
      if c_true c && (c =? d) then strncmp_str (tail p) (tail q) k else c - d
  end.
Definition strncpy_str (t : list Z) (n : nat) : list Z := take n t ++ replicate (n - length t) 0.

Definition namecmp (s t : list Z) : Z := strncmp_str s t (Z.to_nat DIRSIZ).

(** The two loops of [skipelem]: over slashes, and over the characters of an
    element. *)
Fixpoint skip_slashes (path : list Z) : list Z :=
  match path with
  | c :: r => if c =? 47 then skip_slashes r else path
  | [] => []
  end.
Fixpoint take_elem (path : list Z) : list Z * list Z :=
  match path with
  | c :: r => if c =? 47 then ([], path) else let (s, r') := take_elem r in (c :: s, r')
  | [] => ([], [])
  end.

(** The name that is copied, and the rest of the path. *)
Definition skipelem (path : list Z) : option (list Z * list Z) :=
  match skip_slashes path with
  | [] => None
  | path =>
      let (s, path) := take_elem path in
      let name := if DIRSIZ <=? Z.of_nat (length s) then take (Z.to_nat DIRSIZ) s else s in
      Some (name, skip_slashes path)
  end.

(** ** [struct dirent] *)
Definition DIRENT_SIZE : Z := 16.
Record dirent := mk_dirent { de_inum : Z; de_name : list Z }.
Definition decode_dirent (d : list Z) : dirent := mk_dirent (get16 d 0) (get_bytes d 2 DIRSIZ).
Definition encode_dirent (x : dirent) : list Z := [u8 (de_inum x); u8 (de_inum x / 256)] ++ de_name x.

(** The offsets a loop over the entries of a directory of [sz] bytes visits. *)
Definition dir_offsets (from sz : Z) : list Z :=
  (fun k => k * DIRENT_SIZE) <$> seqZ (from / DIRENT_SIZE) ((sz + DIRENT_SIZE - 1) / DIRENT_SIZE - from / DIRENT_SIZE).

Section FsDefs.
Context `{Pt : Patience} `{D : DiskDriver}.

(** ** Reading and writing *)

(** The loops copy at least one byte each time round, a whole block except at
    the ends. *)
Definition io_fuel (n : Z) : nat := Z.to_nat (n / BSIZE + 3).

Fixpoint readi_loop (fuel : nat) (ip : nat) (dst : place) (tot off n : Z) (acc : list Z) : KM (list Z) :=
  match fuel with
  | O => NoFuel
  | S k =>
      if negb (tot <? n) then kret acc else
      addr <- bmap ip (off / BSIZE) ;;
      x <- get_inode ip ;;
      bp <- bread (i_dev x) addr ;;
      b <- get_buf bp ;;
      let m := Z.min (n - tot) (BSIZE - off mod BSIZE) in
      let l := get_bytes (b_data b) (off mod BSIZE) m in
      put dst tot l ;;;
      brelse bp ;;;
      readi_loop k ip dst (tot + m) (off + m) n (acc ++ l)
  end.

(** The result is the count and the bytes that were copied to [dst]. *)
Definition readi (ip : nat) (dst : place) (off n : Z) : KM (Z * list Z) :=
  x <- get_inode ip ;;
  if i_type x =? T_DEV then
    dev <- kget k_devsw ;;
    if (i_major x <? 0) || (NDEV <=? i_major x) then kret (-1, []) else
    match dev !! i_major x with
    | None => kret (-1, [])
    | Some DevConsole => consoleread ip dst (i32 n)
    end
  else if (i_size x <? off) || (u32 (off + n) <? off) then kret (-1, []) else
  let n := if i_size x <? off + n then i_size x - off else n in
  l <- readi_loop (io_fuel n) ip dst 0 off n [] ;;
  kret (n, l).

Fixpoint writei_loop (fuel : nat) (ip : nat) (src : source) (tot off n : Z) : KM Z :=
  match fuel with
  | O => NoFuel
  | S k =>
      if negb (tot <? n) then kret off else
      addr <- bmap ip (off / BSIZE) ;;
      x <- get_inode ip ;;
      bp <- bread (i_dev x) addr ;;
      let m := Z.min (n - tot) (BSIZE - off mod BSIZE) in
      l <- fetch src tot m ;;
      set_data bp (fun d => put_bytes d (off mod BSIZE) l) ;;;
      log_write bp ;;;
      brelse bp ;;;
      writei_loop k ip src (tot + m) (off + m) n
  end.

Definition writei (ip : nat) (src : source) (off n : Z) : KM Z :=
  x <- get_inode ip ;;
  if i_type x =? T_DEV then
    dev <- kget k_devsw ;;
    if (i_major x <? 0) || (NDEV <=? i_major x) then kret (-1) else
    match dev !! i_major x with
    | None => kret (-1)
    | Some DevConsole => consolewrite ip src (i32 n)
    end
  else if (i_size x <? off) || (u32 (off + n) <? off) then kret (-1) else
  if MAXFILE * BSIZE <? off + n then kret (-1) else
  off <- writei_loop (io_fuel n) ip src 0 off n ;;
  x <- get_inode ip ;;
  (when (0 <? n) && (i_size x <? off) do
     (set_inode ip (fun x => x <| i_size := off |>) ;;;
      iupdate ip)) ;;;
  kret n.

(** ** Directories *)
Definition dirlookup (dp : nat) (name : list Z) : KM (option (nat * Z)) :=
  x <- get_inode dp ;;
  if negb (i_type x =? T_DIR) then kpanic "dirlookup not DIR" else
  kfor (dir_offsets 0 (i_size x)) (fun off =>
    r <- readi dp Local off DIRENT_SIZE ;;
    if negb (fst r =? DIRENT_SIZE) then kpanic "dirlookup read" else
    let de := decode_dirent (snd r) in
    if de_inum de =? 0 then kret None else
    if namecmp name (de_name de) =? 0 then
      x <- get_inode dp ;;
      ip <- iget (i_dev x) (de_inum de) ;;
      kret (Some (ip, off))
    else kret None).

Definition dirlink (dp : nat) (name : list Z) (inum : Z) : KM Z :=
  r <- dirlookup dp name ;;
  match r with
  | Some (ip, _) => iput ip ;;; kret (-1)
  | None =>
      x <- get_inode dp ;;
      r <- kfor (dir_offsets 0 (i_size x)) (fun off =>
             r <- readi dp Local off DIRENT_SIZE ;;
             if negb (fst r =? DIRENT_SIZE) then kpanic "dirlink read" else
             kret (if de_inum (decode_dirent (snd r)) =? 0 then Some off else None)) ;;
      let off := default ((i_size x + DIRENT_SIZE - 1) / DIRENT_SIZE * DIRENT_SIZE) r in
      let de := mk_dirent (u16 inum) (strncpy_str name (Z.to_nat DIRSIZ)) in
      n <- writei dp (Bytes (encode_dirent de)) off DIRENT_SIZE ;;
      if negb (n =? DIRENT_SIZE) then kpanic "dirlink" else kret 0
  end.

(** ** Paths *)

(** The loop of [namex]; the result carries the last element in [name].  Every
    turn removes an element from the path. *)
Fixpoint namex_loop (fuel : nat) (path : list Z) (nameiparent : bool) (ip : nat) (name : list Z)
  : KM (option nat * list Z) :=
  match fuel with
  | O => NoFuel
  | S k =>
      match skipelem path with
      | None =>
          if nameiparent then iput ip ;;; kret (None, name) else kret (Some ip, name)
      | Some (name, path) =>
          ilock (Some ip) ;;;
          x <- get_inode ip ;;
          if negb (i_type x =? T_DIR) then iunlockput ip ;;; kret (None, name) else
          if nameiparent && bool_decide (path = []) then
            iunlock (Some ip) ;;; kret (Some ip, name)
          else
            next <- dirlookup ip name ;;
            match next with
            | None => iunlockput ip ;;; kret (None, name)
            | Some (next, _) => iunlockput ip ;;; namex_loop k path nameiparent next name
            end
      end
  end.

Definition namex (path : list Z) (nameiparent : bool) : KM (option nat * list Z) :=
  ip <- (if bool_decide (head path = Some 47) then iget ROOTDEV ROOTINO
         else (c <- mine cwd ;; c <- deref c ;; idup c)) ;;
  namex_loop (S (length path)) path nameiparent ip [].

Definition namei (path : list Z) : KM (option nat) :=
  r <- namex path false ;; kret (fst r).

Definition nameiparent (path : list Z) : KM (option nat * list Z) := namex path true.
End FsDefs.
