(* ===== verification/FileSpec.v ===== *)
(** * The bytes of a file

    [readi] and [writei] on a regular file: the blocks of an inode, direct and
    through the indirect block, make one array of bytes, of which [readi]
    returns a piece and in which [writei] replaces a piece, inside a
    transaction and with every other block as it was. *)

From stdpp Require Import base gmap strings list fin_maps.
From Stdlib Require Import ZArith Lia.
From S2P Require Import Prelude Mem Types Spinlock Kalloc Vm Proc ProcSpec Access Bytes Sleeplock Steady Disk Bio BioSpec Log LogSpec Inode TxnSpec Console Fs.

(** ** The blocks of an inode *)

Definition addr_of (x : inode) (k : Z) : Z := default 0 (i_addrs x !! Z.to_nat k).

(** The block number of block [bn] of the file. *)
Definition blk (s : kernel) (x : inode) (bn : Z) : Z :=
  if bn <? NDIRECT then addr_of x bn else get32 (view s (addr_of x NDIRECT)) (4 * (bn - NDIRECT)).

Definition file_byte (s : kernel) (x : inode) (k : Z) : Z := byte_at (view s (blk s x (k / BSIZE))) (k mod BSIZE).

(** The first [nb] blocks of the file are allocated. *)
Record file_ok (s : kernel) (x : inode) (nb : Z) : Prop := {
  fo_dev : i_dev x = 1;
  fo_max : nb <= MAXFILE;
  fo_addrs : length (i_addrs x) = 13%nat;
  fo_blk : forall bn, 0 <= bn < nb -> blk s x bn <> 0 /\ block_ok s (blk s x bn);
  fo_ind : NDIRECT < nb -> addr_of x NDIRECT <> 0 /\ block_ok s (addr_of x NDIRECT)
}.

(** ** Operations that change no block *)

Definition quiet_frame (s s' : kernel) (m : mem) : Prop :=
  exists pt bs lru, s' = s <| k_ptable := pt |> <| k_bufs := bs |> <| k_lru := lru |> <| k_mem := m |>.

(** From [s] to [s'] only the memory changes for the users of the cache: it
    is [m]. *)
Record quiet (s s' : kernel) (n : Z) (m : mem) : Prop := {
  qt_cache : cache s' n [];
  qt_view : forall b, view s' b = view s b;
  qt_dirty : forall b, dirty s' b <-> dirty s b;
  qt_env : forall i c me p, env s i c me p -> env s' i c me p;
  qt_frame : quiet_frame s s' m
}.

Lemma quiet_frame_trans s1 s2 s3 m m' : quiet_frame s1 s2 m -> quiet_frame s2 s3 m' -> quiet_frame s1 s3 m'.
Proof. intros (? & ? & ? & ->) (pt & bs & lru & ->). by exists pt, bs, lru. Qed.

Lemma quiet_trans s1 s2 s3 n m m' : quiet s1 s2 n m -> quiet s2 s3 n m' -> quiet s1 s3 n m'.
Proof.
  intros [A1 A2 A3 A4 A5] [B1 B2 B3 B4 B5]. split; [done| | |auto|by eapply quiet_frame_trans].
  - intros b. by rewrite B2.
  - intros b. by rewrite B3.
Qed.

Lemma quiet_refl s n : cache s n [] -> quiet s s n (k_mem s).
Proof.
  intros Hc. split; [done|done|done|done|]. exists (k_ptable s), (k_bufs s), (k_lru s). by destruct s.
Qed.

Lemma quiet_icache s s' n m : quiet s s' n m -> k_icache s' = k_icache s.
Proof. intros [_ _ _ _ (? & ? & ? & ->)]. done. Qed.
Lemma quiet_blk s s' n m x bn : quiet s s' n m -> blk s' x bn = blk s x bn.
Proof. intros H. unfold blk. by rewrite (qt_view _ _ _ _ H). Qed.
Lemma quiet_byte s s' n m x k : quiet s s' n m -> file_byte s' x k = file_byte s x k.
Proof. intros H. unfold file_byte. by rewrite (quiet_blk _ _ _ _ _ _ H), (qt_view _ _ _ _ H). Qed.
Lemma quiet_bytes s s' n m x (l : list Z) : quiet s s' n m -> file_byte s' x <$> l = file_byte s x <$> l.
Proof. intros H. apply list_fmap_ext. intros. by apply (quiet_byte _ _ _ _ _ _ H). Qed.
Lemma quiet_mem s s' n m : quiet s s' n m -> k_mem s' = m.
Proof. intros [_ _ _ _ (? & ? & ? & ->)]. done. Qed.
Lemma quiet_file_ok s s' n m x nb : quiet s s' n m -> file_ok s x nb -> file_ok s' x nb.
Proof.
  intros H [F1 F2 F3 F4 F5]. assert (E : k_disksize s' = k_disksize s) by (by destruct (qt_frame _ _ _ _ H) as (? & ? & ? & ->)).
  split; [done|done|done| |]; unfold block_ok in *; rewrite E; [|done].
  intros bn. rewrite (quiet_blk _ _ _ _ _ _ H). apply F4.
Qed.
Lemma quiet_logging s s' n m st bl : quiet s s' n m -> logging s st bl -> logging s' st bl.
Proof.
  intros H Hl. apply (logging_ext s); [done| | |apply H]; by destruct (qt_frame _ _ _ _ H) as (? & ? & ? & ->).
Qed.

(** The dirty blocks leave buffers for reading. *)
Definition roomy (s : kernel) : Prop := exists bl, (forall b, dirty s b -> b ∈ bl) /\ (length bl < NBUF)%nat.

Lemma quiet_roomy s s' n m : quiet s s' n m -> roomy s -> roomy s'.
Proof. intros H (bl & Hd & Hl). exists bl. split; [|done]. intros b Hb. by apply Hd, (qt_dirty _ _ _ _ H). Qed.

Lemma logging_roomy s st bl : logging s st bl -> roomy s.
Proof.
  intros H. exists bl. split; [intros b; apply (lo_dirty _ _ _ H)|]. pose proof (tx_max _ _ _ (lo_txn _ _ _ H)) as Hm.
  change LOGSIZE with 30 in Hm. unfold NBUF. lia.
Qed.

(** ** The destination of a copy *)

Fixpoint poke (m : mem) (va : Z) (l : list Z) : mem :=
  match l with
  | [] => m
  | b :: l' => poke (st8 m va b) (va + 1) l'
  end.

Lemma poke_app l l' : forall m va, poke m va (l ++ l') = poke (poke m va l) (va + Z.of_nat (length l)) l'.
Proof.
  induction l as [|b l IH]; intros m va; cbn [app poke length]; [by rewrite Z.add_0_r|].
  rewrite IH. f_equal. lia.
Qed.

Lemma poke_out l : forall m va a, a < va \/ va + Z.of_nat (length l) <= a -> ld8 (poke m va l) a = ld8 m a.
Proof.
  induction l as [|b l IH]; intros m va a Ha; [done|]. cbn [poke length] in *. rewrite IH by lia. apply ld8_st8_ne. lia.
Qed.

(** What was stored is what is loaded. *)
Lemma poke_in l : forall m va k b, l !! k = Some b -> ld8 (poke m va l) (va + Z.of_nat k) = u8 b.
Proof.
  induction l as [|b' l IH]; intros m va k b Hk; [by rewrite lookup_nil in Hk|]. cbn [poke]. destruct k as [|k]; cbn in Hk.
  - injection Hk as ->. rewrite Z.add_0_r, poke_out by lia. apply ld8_st8_eq.
  - replace (va + Z.of_nat (S k)) with (va + 1 + Z.of_nat k) by lia. by apply IH.
Qed.

(** An object on the stack, or [n] bytes of kernel memory. *)
Definition place_ok (dst : place) (n : Z) : Prop :=
  match dst with At va => KERNBASE <= va /\ va + n <= 4294967296 | Local => True end.
Definition landed (dst : place) (m : mem) (k : Z) (l : list Z) : mem :=
  match dst with At va => poke m (va + k) l | Local => m end.

Lemma landed_app dst m k l l' : landed dst m k (l ++ l') = landed dst (landed dst m k l) (k + Z.of_nat (length l)) l'.
Proof. destruct dst as [va|]; [|done]. cbn. rewrite poke_app. f_equal. lia. Qed.

Lemma store_bytes_kernel l : forall va s, KERNBASE <= va -> store_bytes va l s = Ret tt (s <| k_mem := poke (k_mem s) va l |>).
Proof.
  induction l as [|b l IH]; intros va s Hva; [by destruct s|]. cbn [store_bytes poke]. unfold kbind at 1, store8, translate.
  replace (KERNBASE <=? va) with true by lia. cbn [obind]. rewrite IH by lia. by destruct s.
Qed.

Lemma put_run dst n k l s :
  place_ok dst n -> 0 <= k < n -> put dst k l s = Ret tt (s <| k_mem := landed dst (k_mem s) k l |>).
Proof.
  destruct dst as [va|]; intros Hd Hk; [|by destruct s]. cbn [place_ok put landed] in *.
  assert (0 <= KERNBASE) by done. rewrite u32_id by lia. apply store_bytes_kernel. lia.
Qed.

(** ** Pieces of a block *)

Lemma get_bytes_seq d o m : 0 <= o -> 0 <= m -> o + m <= Z.of_nat (length d) -> get_bytes d o m = byte_at d <$> seqZ o m.
Proof.
  intros Ho Hm Hd. apply list_eq. intros k. unfold get_bytes. rewrite list_lookup_fmap.
  destruct (decide (Z.of_nat k < m)).
  - rewrite lookup_take_lt, lookup_drop, lookup_seqZ_lt by lia. cbn. unfold byte_at.
    destruct (lookup_lt_is_Some_2 d (Z.to_nat o + k)) as [b Hb]; [lia|].
    replace (Z.to_nat (o + Z.of_nat k)) with (Z.to_nat o + k)%nat by lia. by rewrite Hb.
  - rewrite lookup_take_ge, lookup_seqZ_ge by lia. done.
Qed.

(** The turns of the loops that remain when [r] bytes from offset [off] do. *)
Definition turns (off r : Z) : Z := if r <=? 0 then 0 else (off mod BSIZE + r + BSIZE - 1) / BSIZE.

Lemma turns_step off r :
  0 <= off -> 0 < r -> let m := Z.min r (BSIZE - off mod BSIZE) in
  0 < m <= r /\ turns off r = turns (off + m) (r - m) + 1 /\ (0 < r - m -> (off + m) / BSIZE = off / BSIZE + 1).
Proof.
  intros Ho Hr m. unfold turns, m. change BSIZE with 512. replace (r <=? 0) with false by lia.
  destruct (Z.min_spec r (512 - off mod 512)) as [[? ->]|[? ->]]; (split; [|split]); try case_match; Z.div_mod_to_equations; lia.
Qed.

Lemma turns_pos off r : 0 <= turns off r.
Proof. unfold turns. change BSIZE with 512. case_match; Z.div_mod_to_equations; lia. Qed.

Lemma turns_fuel off n : 0 <= off -> 0 <= n -> (Z.to_nat (turns off n) < io_fuel n)%nat.
Proof. intros Ho Hn. unfold turns, io_fuel. change BSIZE with 512. case_match; Z.div_mod_to_equations; lia. Qed.

Section Reading.
Context `{Pt : Patience} (Hpat : (0 < patience)%nat).

(** Reading a block: the buffer has its contents, and releasing it, with any
    change to memory and to the inode cache in between, changes no block. *)
Lemma peek_inodes s i c me p b :
  env s i c me p -> cache s (pid p) [] -> roomy s -> block_ok s b ->
  exists k y s1, bread 1 b s = Ret k s1 /\ k_bufs s1 !! k = Some y /\ b_data y = view s b /\ k_icache s1 = k_icache s /\ k_mem s1 = k_mem s /\
    forall m ic, exists s', brelse k (s1 <| k_mem := m |> <| k_icache := ic |>) = Ret tt (s' <| k_icache := ic |>) /\ quiet s s' (pid p) m.
Proof.
  intros He Hc (bl & Hbl & Hlen) Hb.
  destruct (bread_run Hpat s i c me p [] b He Hc Hb) as (k & y & Hr & Hp); [by intros k x ?%not_elem_of_nil| |].
  { left. apply (avail_count s (pid p) [] bl Hc); [done|]. cbn. lia. }
  destruct (bp_dirty _ _ _ _ _ _ Hp) as (x & Hx & _). pose proof (bp_cache _ _ _ _ _ _ Hp) as Hc1.
  exists k, y, (upd_buf k (fun _ => y) s). split; [done|]. split; [exact (lookup_upd_buf s k _ x Hx)|].
  split; [apply Hp|]. split; [done|]. split; [done|]. intros m ic. set (s1 := upd_buf k (fun _ => y) s) in *.
  set (s2 := s1 <| k_mem := m |>).
  assert (Hy : k_bufs s2 !! k = Some y) by (exact (lookup_upd_buf s k _ x Hx)).
  assert (Hc2 : forall ic, cache (s2 <| k_icache := ic |>) (pid p) [k]).
  { destruct Hc1 as [H1 H2 H3 H4 H5 H6 H7 H8]. split; try done. intros j z Hz Hj. by destruct (H7 j z Hz Hj). }
  assert (Hc3 : cache s2 (pid p) [k]) by exact (Hc2 (k_icache s2)).
  assert (He1 : forall i c me p, env s i c me p -> env s2 i c me p).
  { intros i' c' me' p' H. apply (env_ext s1); [|done..]. by apply env_upd_buf. }
  exists (unhold k s2). split.
  { rewrite (brelse_run (s2 <| k_icache := ic |>) i c me p [k] k y); [by destruct s| |done|apply list_elem_of_here|done].
    apply (env_ext s2); [by apply He1|done..]. }
  split.
  - apply (cache_unhold s2 (pid p) [] k y Hc3); [apply not_elem_of_nil|done|]. intros F.
    rewrite (bp_blockno _ _ _ _ _ _ Hp). by apply (bp_clean _ _ _ _ _ _ Hp).
  - intros b'. rewrite (view_unhold s2 (pid p) [] k y b' Hc3 Hy). change (view s2 b') with (view s1 b'). apply Hp.
  - intros b'. rewrite dirty_unhold. change (dirty s2 b') with (dirty s1 b'). by apply (bread_dirty Hpat s (pid p) [] b).
  - intros i' c' me' p' H. apply env_unhold. by apply He1.
  - exists (k_ptable (unhold k s2)), (k_bufs (unhold k s2)), (k_lru (unhold k s2)). by destruct s.
Qed.

Lemma peek_run s i c me p b :
  env s i c me p -> cache s (pid p) [] -> roomy s -> block_ok s b ->
  exists k y s1, bread 1 b s = Ret k s1 /\ k_bufs s1 !! k = Some y /\ b_data y = view s b /\ k_icache s1 = k_icache s /\ k_mem s1 = k_mem s /\
    forall m, exists s', brelse k (s1 <| k_mem := m |>) = Ret tt s' /\ quiet s s' (pid p) m.
Proof.
  intros He Hc Hr Hb. destruct (peek_inodes s i c me p b He Hc Hr Hb) as (k & y & s1 & H1 & H2 & H3 & H4 & H5 & H6).
  exists k, y, s1. split; [done|]. split; [done|]. split; [done|]. split; [done|]. split; [done|]. intros m.
  destruct (H6 m (k_icache s1)) as (s' & E & Q). exists s'. split; [|done].
  replace (s1 <| k_mem := m |> <| k_icache := k_icache s1 |>) with (s1 <| k_mem := m |>) in E by (by destruct s1).
  rewrite E. f_equal. destruct (qt_frame _ _ _ _ Q) as (? & ? & ? & ->). rewrite H4. by destruct s.
Qed.

Lemma get_inode_run s ip x : k_icache s !! ip = Some x -> get_inode ip s = Ret x s.
Proof. intros H. unfold get_inode. by rewrite H. Qed.

Lemma get_addr_run s ip x k :
  k_icache s !! ip = Some x -> length (i_addrs x) = 13%nat -> 0 <= k <= NDIRECT -> get_addr ip k s = Ret (addr_of x k) s.
Proof.
  intros Hx Hl Hk. unfold get_addr. krun (get_inode_run s ip x Hx). unfold addr_of.
  destruct (lookup_lt_is_Some_2 (i_addrs x) (Z.to_nat k)) as [a Ha]; [unfold NDIRECT in Hk; lia|]. by rewrite Ha.
Qed.

Lemma bmap_run s i c me p ip x nb bn :
  env s i c me p -> cache s (pid p) [] -> roomy s -> k_icache s !! ip = Some x -> file_ok s x nb -> 0 <= bn < nb ->
  exists s', bmap ip bn s = Ret (blk s x bn) s' /\ quiet s s' (pid p) (k_mem s).
Proof.
  intros He Hc Hr Hx Hf Hbn. destruct (fo_blk _ _ _ Hf bn Hbn) as [Hnz Hok]. pose proof (fo_max _ _ _ Hf) as Hmax.
  unfold bmap. krun (get_inode_run s ip x Hx). rewrite (fo_dev _ _ _ Hf). unfold blk in *. destruct (bn <? NDIRECT) eqn:E.
  - krun (get_addr_run s ip x bn Hx (fo_addrs _ _ _ Hf) ltac:(lia)). apply Z.eqb_neq in Hnz. rewrite Hnz.
    exists s. split; [done|by apply quiet_refl].
  - assert (E2 : bn - NDIRECT <? NINDIRECT = true) by (change MAXFILE with 140 in *; change NINDIRECT with 128; change NDIRECT with 12 in *; lia).
    rewrite E2. destruct (fo_ind _ _ _ Hf) as [Hiz Hiok]; [lia|].
    krun (get_addr_run s ip x NDIRECT Hx (fo_addrs _ _ _ Hf) ltac:(unfold NDIRECT; lia)).
    apply Z.eqb_neq in Hiz. rewrite Hiz. apply Z.eqb_neq in Hnz. unfold kret, kbind at 1. cbn [obind].
    destruct (peek_run s i c me p _ He Hc Hr Hiok) as (k & y & s1 & Hrd & Hy & Hd & _ & Hm & Hrel). krun Hrd.
    krun (get_buf_run k y s1 Hy). rewrite Hd, Hnz. unfold kbind at 1. cbn [obind].
    destruct (Hrel (k_mem s)) as (s' & Hb & Hq). exists s'. split; [|done]. rewrite <- Hm in Hb.
    replace (s1 <| k_mem := k_mem s1 |>) with s1 in Hb by (by destruct s1). by krun Hb.
Qed.

(** The part of a file in one block. *)
Lemma block_piece s n x off m :
  cache s n [] -> 0 <= off -> 0 < m -> off mod BSIZE + m <= BSIZE ->
  get_bytes (view s (blk s x (off / BSIZE))) (off mod BSIZE) m = file_byte s x <$> seqZ off m.
Proof.
  intros Hc Ho Hm Hb. change BSIZE with 512 in *. pose proof (view_length s n [] (blk s x (off / 512)) Hc) as Hl.
  rewrite get_bytes_seq by (Z.div_mod_to_equations; lia). apply list_eq. intros k. rewrite !list_lookup_fmap.
  destruct (decide (Z.of_nat k < m)); [|by rewrite !lookup_seqZ_ge by lia]. rewrite !lookup_seqZ_lt by lia. cbn. f_equal.
  unfold file_byte. change BSIZE with 512. 
  replace ((off + Z.of_nat k) / 512) with (off / 512) by (Z.div_mod_to_equations; lia).
  f_equal. Z.div_mod_to_equations. lia.
Qed.

Lemma readi_loop_run i c me p ip x nb dst n fuel : forall s tot off acc,
  env s i c me p -> cache s (pid p) [] -> roomy s -> k_icache s !! ip = Some x -> file_ok s x nb -> place_ok dst n ->
  0 <= tot <= n -> 0 <= off -> off + (n - tot) <= nb * BSIZE -> (Z.to_nat (turns off (n - tot)) < fuel)%nat ->
  let l := file_byte s x <$> seqZ off (n - tot) in
  exists s', readi_loop fuel ip dst tot off n acc s = Ret (acc ++ l) s' /\ quiet s s' (pid p) (landed dst (k_mem s) tot l).
Proof.
  induction fuel as [|fuel IH]; intros s tot off acc He Hc Hr Hx Hf Hd Ht Ho Hend Hfuel; [lia|]. cbn zeta. cbn [readi_loop].
  destruct (tot <? n) eqn:E; cbn [negb].
  2:{ replace (n - tot) with 0 by lia. exists s. rewrite app_nil_r. split; [done|].
      replace (landed dst (k_mem s) tot _) with (k_mem s) by (by destruct dst). by apply quiet_refl. }
  destruct (turns_step off (n - tot) Ho ltac:(lia)) as (Hm & Hts & Hsame). set (m := Z.min _ _) in *.
  assert (Hmb : off mod BSIZE + m <= BSIZE) by (unfold m; lia).
  assert (Hbn : 0 <= off / BSIZE < nb) by (change BSIZE with 512 in *; Z.div_mod_to_equations; lia).
  destruct (bmap_run s i c me p ip x nb (off / BSIZE) He Hc Hr Hx Hf Hbn) as (s1 & E1 & Q1). krun E1.
  pose proof (quiet_icache _ _ _ _ Q1) as I1. pose proof (qt_env _ _ _ _ Q1 _ _ _ _ He) as He1.
  pose proof (quiet_file_ok _ _ _ _ _ _ Q1 Hf) as Hf1. rewrite <- I1 in Hx. krun (get_inode_run s1 ip x Hx).
  rewrite (fo_dev _ _ _ Hf). rewrite <- (quiet_blk _ _ _ _ x (off / BSIZE) Q1).
  destruct (peek_run s1 i c me p (blk s1 x (off / BSIZE)) He1 (qt_cache _ _ _ _ Q1) (quiet_roomy _ _ _ _ Q1 Hr) (proj2 (fo_blk _ _ _ Hf1 _ Hbn)))
    as (k & y & s2 & E2 & Hy & Hdata & I2 & M2 & Hrel). krun E2. krun (get_buf_run k y s2 Hy). fold m. rewrite Hdata.
  rewrite (block_piece s1 (pid p) x off m (qt_cache _ _ _ _ Q1)) by lia.
  krun (put_run dst n tot (file_byte s1 x <$> seqZ off m) s2 Hd ltac:(lia)).
  destruct (Hrel (landed dst (k_mem s2) tot (file_byte s1 x <$> seqZ off m))) as (s3 & E3 & Q3). krun E3.
  pose proof (quiet_trans _ _ _ _ _ _ Q1 Q3) as Q13. rewrite (quiet_icache _ _ _ _ Q1), <- (quiet_icache _ _ _ _ Q13) in Hx.
  destruct (IH s3 (tot + m) (off + m) (acc ++ (file_byte s1 x <$> seqZ off m))) as (s' & E4 & Q4).
  - exact (qt_env _ _ _ _ Q13 _ _ _ _ He).
  - apply Q13.
  - exact (quiet_roomy _ _ _ _ Q13 Hr).
  - done.
  - exact (quiet_file_ok _ _ _ _ _ _ Q13 Hf).
  - done.
  - lia.
  - lia.
  - lia.
  - replace (n - (tot + m)) with (n - tot - m) by lia. pose proof (turns_pos (off + m) (n - tot - m)). lia.
  - exists s'. rewrite E4. pose proof (quiet_trans _ _ _ _ _ _ Q13 Q4) as Q. revert Q.
    rewrite (quiet_mem _ _ _ _ Q3), M2, (quiet_mem _ _ _ _ Q1), (quiet_bytes _ _ _ _ _ _ Q13), (quiet_bytes _ _ _ _ _ _ Q1).
    replace (n - (tot + m)) with (n - tot - m) by lia.
    assert (El : file_byte s x <$> seqZ off (n - tot) = (file_byte s x <$> seqZ off m) ++ (file_byte s x <$> seqZ (off + m) (n - tot - m)))
      by (rewrite <- fmap_app, <- seqZ_app by lia; do 2 f_equal; lia).
    rewrite El, <- app_assoc, landed_app.
    rewrite length_fmap, length_seqZ. replace (tot + Z.of_nat (Z.to_nat m)) with (tot + m) by lia. done.
Qed.

Lemma readi_run (s : kernel) i c me p ip x nb dst off n :
  env s i c me p -> cache s (pid p) [] -> roomy s -> k_icache s !! ip = Some x -> file_ok s x nb ->
  i_type x <> T_DEV -> 0 <= i_size x <= nb * BSIZE -> 0 <= off < 4294967296 -> 0 <= n < 4294967296 -> place_ok dst n ->
  if decide (i_size x < off \/ 4294967296 <= off + n) then readi ip dst off n s = Ret (-1, []) s
  else let m := Z.min n (i_size x - off) in
    let l := file_byte s x <$> seqZ off m in
    exists s', readi ip dst off n s = Ret (m, l) s' /\ quiet s s' (pid p) (landed dst (k_mem s) 0 l).
Proof.
  intros He Hc Hr Hx Hf Hty Hsz Ho Hn Hd. apply Z.eqb_neq in Hty.
  assert (E : (i_size x <? off) || (u32 (off + n) <? off) = bool_decide (i_size x < off \/ 4294967296 <= off + n)).
  { apply eq_true_iff_eq. rewrite orb_true_iff, !Z.ltb_lt, bool_decide_eq_true. unfold u32. Z.div_mod_to_equations. lia. }
  destruct (decide (i_size x < off \/ 4294967296 <= off + n)) as [Hbad|Hbad]; cbn zeta; unfold readi; krun (get_inode_run s ip x Hx);
    rewrite Hty, E; [by rewrite (bool_decide_eq_true_2 _ Hbad)|rewrite (bool_decide_eq_false_2 _ Hbad)].
  set (m := Z.min n (i_size x - off)).
  assert (Em : (if i_size x <? off + n then i_size x - off else n) = m) by (unfold m; case_match; lia). rewrite Em.
  destruct (readi_loop_run i c me p ip x nb dst m (io_fuel m) s 0 off [] He Hc Hr Hx Hf) as (s' & E' & Q); [|unfold m; lia..| |].
  - destruct dst; [|done]. cbn in *. unfold m. lia.
  - rewrite Z.sub_0_r. apply turns_fuel; unfold m; lia.
  - rewrite Z.sub_0_r in *. exists s'. split; [by krun E'|done].
Qed.
End Reading.

(** ** Writing over allocated blocks *)

Lemma length_put_bytes l : forall d o, length (put_bytes d o l) = length d.
Proof. induction l as [|b l IH]; intros d o; [done|]. cbn. by rewrite IH, length_put8. Qed.

Lemma byte_at_put_bytes l : forall d o o',
  0 <= o -> o + Z.of_nat (length l) <= Z.of_nat (length d) -> 0 <= o' ->
  byte_at (put_bytes d o l) o' = if decide (o <= o' < o + Z.of_nat (length l)) then u8 (byte_at l (o' - o)) else byte_at d o'.
Proof.
  induction l as [|b l IH]; intros d o o' Ho Hd Ho'; cbn [put_bytes length] in *; [by rewrite decide_False by lia|].
  rewrite IH, byte_at_put8 by (rewrite ?length_put8; lia). destruct (decide (o' = o)) as [->|Hne].
  - rewrite decide_False, decide_True by lia. unfold byte_at. by rewrite Z.sub_diag.
  - destruct (decide (o <= o' < o + Z.of_nat (S (length l)))).
    + rewrite decide_True by lia. unfold byte_at. replace (Z.to_nat (o' - o)) with (S (Z.to_nat (o' - (o + 1)))) by lia. done.
    + rewrite decide_False by lia. done.
Qed.

(** The bytes of a source: those of an object, or [n] bytes of kernel memory. *)
Definition source_ok (src : source) (n : Z) : Prop :=
  match src with From va => KERNBASE <= va /\ va + n <= 4294967296 | Bytes l => Z.of_nat (length l) = n end.
Definition source_bytes (src : source) (m : mem) (n : Z) : list Z :=
  match src with From va => ld8 m <$> seqZ va n | Bytes l => l end.

Lemma load_bytes_kernel k : forall va s, KERNBASE <= va -> load_bytes va k s = Ret (ld8 (k_mem s) <$> seqZ va (Z.of_nat k)) s.
Proof.
  induction k as [|k IH]; intros va s Hva; [done|]. cbn [load_bytes]. unfold kbind at 1, load8, translate.
  replace (KERNBASE <=? va) with true by lia. cbn [obind]. krun (IH (va + 1) s ltac:(lia)).
  rewrite (seqZ_cons va (Z.of_nat (S k))) by lia. cbn [fmap list_fmap]. unfold Z.succ. by replace (Z.pred (Z.of_nat (S k))) with (Z.of_nat k) by lia.
Qed.

Lemma source_length src m n : 0 <= n -> source_ok src n -> Z.of_nat (length (source_bytes src m n)) = n.
Proof. destruct src; intros Hn H; [|done]. cbn. rewrite length_fmap, length_seqZ. lia. Qed.

Lemma fetch_run src n k m s :
  source_ok src n -> 0 <= k < n -> 0 <= m -> k + m <= n ->
  fetch src k m s = Ret (get_bytes (source_bytes src (k_mem s) n) k m) s.
Proof.
  intros Hs Hk Hm Hkm. destruct src as [va|l]; [|done]. cbn [source_ok fetch source_bytes] in *. assert (0 <= KERNBASE) by done.
  rewrite u32_id by lia. rewrite load_bytes_kernel by lia. f_equal. unfold get_bytes.
  rewrite Z2Nat.id by lia. replace n with (k + (m + (n - k - m))) by lia. rewrite !seqZ_app, !fmap_app by lia.
  rewrite drop_app_length' by (rewrite length_fmap, length_seqZ; lia).
  by rewrite take_app_length' by (rewrite length_fmap, length_seqZ; lia).
Qed.

(** The blocks of the file are not shared, and the log is elsewhere. *)
Record file_sep (s : kernel) (x : inode) (nb st : Z) : Prop := {
  fp_inj : forall a b, 0 <= a < nb -> 0 <= b < nb -> blk s x a = blk s x b -> a = b;
  fp_ind : NDIRECT < nb -> forall a, 0 <= a < nb -> blk s x a <> addr_of x NDIRECT;
  fp_home : forall a, 0 <= a < nb -> (blk s x a < st \/ st + LOGSIZE <= blk s x a) /\ blk s x a < 2147483648
}.

(** The blocks that [r] bytes from [off] on touch. *)
Definition touched (s : kernel) (x : inode) (off r : Z) : list Z := blk s x <$> seqZ (off / BSIZE) (turns off r).

(** The bytes [f] with those from [off] on replaced by [l]. *)
Definition patched (f : Z -> Z) (off : Z) (l : list Z) (k : Z) : Z :=
  if decide (off <= k < off + Z.of_nat (length l)) then u8 (byte_at l (k - off)) else f k.

(** From [s] to [s'] the bytes from [off] on are replaced by [l]. *)
Record replaced (s s' : kernel) (n : Z) (x : inode) (nb off : Z) (l : list Z) : Prop := {
  rp_cache : cache s' n [];
  rp_blk : forall a, 0 <= a < nb -> blk s' x a = blk s x a;
  rp_byte : forall k, 0 <= k < nb * BSIZE ->
    file_byte s' x k = patched (file_byte s x) off l k;
  rp_view : forall b, (forall k, off <= k < off + Z.of_nat (length l) -> b <> blk s x (k / BSIZE)) -> view s' b = view s b;
  rp_disk : k_disk s' = k_disk s;
  rp_trace : k_dwrites s' = k_dwrites s;
  rp_env : forall i c me p, env s i c me p -> env s' i c me p;
  rp_frame : tx_frame s s'
}.

Lemma patched_app f g off l l' k :
  (g k = patched f off l k) -> patched g (off + Z.of_nat (length l)) l' k = patched f off (l ++ l') k.
Proof.
  intros Hg. unfold patched in *. rewrite length_app. unfold byte_at in *.
  destruct (decide (off + Z.of_nat (length l) <= k < _)).
  - rewrite decide_True by lia. rewrite lookup_app_r by lia. do 3 f_equal. lia.
  - rewrite Hg. destruct (decide (off <= k < off + Z.of_nat (length l))).
    + rewrite decide_True, lookup_app_l by lia. done.
    + by rewrite decide_False by lia.
Qed.

Lemma replaced_trans s1 s2 s3 n x nb off l l' :
  0 <= off -> off + Z.of_nat (length l) + Z.of_nat (length l') <= nb * BSIZE ->
  replaced s1 s2 n x nb off l -> replaced s2 s3 n x nb (off + Z.of_nat (length l)) l' -> replaced s1 s3 n x nb off (l ++ l').
Proof.
  intros Ho Hend [A1 A2 A3 A4 A5 A6 A7 A8] [B1 B2 B3 B4 B5 B6 B7 B8]. split; [done| | | |congruence|congruence|auto|].
  - intros a Ha. by rewrite B2, A2.
  - intros k Hk. rewrite B3 by done. apply patched_app. by apply A3.
  - intros b Hb. rewrite length_app in Hb. rewrite B4, A4; [done| |].
    + intros k Hk. apply Hb. lia.
    + intros k Hk. rewrite A2; [apply Hb; lia|]. change BSIZE with 512 in *. Z.div_mod_to_equations. lia.
  - by eapply tx_frame_trans.
Qed.

Lemma replaced_quiet s s' n x nb off : quiet s s' n (k_mem s) -> replaced s s' n x nb off [].
Proof.
  intros Q. split; try apply Q.
  - intros a _. by apply (quiet_blk _ _ _ _ _ _ Q).
  - intros k _. unfold patched. rewrite decide_False by (cbn; lia). by apply (quiet_byte _ _ _ _ _ _ Q).
  - intros b _. apply Q.
  - by destruct (qt_frame _ _ _ _ Q) as (? & ? & ? & ->).
  - by destruct (qt_frame _ _ _ _ Q) as (? & ? & ? & ->).
  - destruct (qt_frame _ _ _ _ Q) as (pt & bs & lru & ->). exists pt, bs, lru, (k_log s). by destruct s.
Qed.

Lemma replaced_file_ok s s' n x nb off l : replaced s s' n x nb off l -> file_ok s x nb -> file_ok s' x nb.
Proof.
  intros H [F1 F2 F3 F4 F5]. assert (E : k_disksize s' = k_disksize s) by (by destruct (rp_frame _ _ _ _ _ _ _ H) as (? & ? & ? & ? & ->)).
  split; [done|done|done| |]; unfold block_ok in *; rewrite E; [|done].
  intros bn Hbn. rewrite (rp_blk _ _ _ _ _ _ _ H) by done. by apply F4.
Qed.

Lemma replaced_file_sep s s' n x nb st off l : replaced s s' n x nb off l -> file_sep s x nb st -> file_sep s' x nb st.
Proof.
  intros H [P1 P2 P3]. pose proof (rp_blk _ _ _ _ _ _ _ H) as Hb. split.
  - intros a b Ha Hb'. rewrite !Hb by done. by apply P1.
  - intros Hn a Ha. rewrite Hb by done. by apply P2.
  - intros a Ha. rewrite Hb by done. by apply P3.
Qed.

Lemma replaced_icache s s' n x nb off l : replaced s s' n x nb off l -> k_icache s' = k_icache s /\ k_mem s' = k_mem s.
Proof. intros H. by destruct (rp_frame _ _ _ _ _ _ _ H) as (? & ? & ? & ? & ->). Qed.

Section Writing.
Context `{Pt : Patience} (Hpat : (0 < patience)%nat).

(** One block of the file with a piece of it replaced. *)
Lemma write_block s i c me p st bl x nb off l :
  env s i c me p -> cache s (pid p) [] -> logging s st bl -> Z.of_nat (length bl) < LOGSIZE - 1 ->
  file_ok s x nb -> file_sep s x nb st -> 0 <= off -> off mod BSIZE + Z.of_nat (length l) <= BSIZE -> l <> [] ->
  off + Z.of_nat (length l) <= nb * BSIZE ->
  let b := blk s x (off / BSIZE) in
  exists s', update_block b (fun d => put_bytes d (off mod BSIZE) l) s = Ret tt s' /\ logging s' st (logged bl b) /\
    replaced s s' (pid p) x nb off l.
Proof.
  intros He Hc Hl Hlt Hf Hs Ho Hm Hne Hend b. assert (Hl0 : (0 < length l)%nat) by (destruct l; [done|cbn; lia]).
  change BSIZE with 512 in *. assert (Hbn : 0 <= off / 512 < nb) by (Z.div_mod_to_equations; lia).
  destruct (fo_blk _ _ _ Hf _ Hbn) as [_ Hok]. destruct (fp_home _ _ _ _ Hs _ Hbn) as [Hout Hint].
  destruct (update_block_run Hpat s i c me p st bl b (fun d => put_bytes d (off mod 512) l) He Hc Hl Hlt Hok Hout Hint)
    as (s' & E & [U1 U2 U3 U4 U5 U6 U7]); [intros d Hd; by rewrite length_put_bytes|].
  exists s'. split; [done|]. split; [done|].
  assert (Hblk : forall a, 0 <= a < nb -> blk s' x a = blk s x a).
  { intros a Ha. unfold blk. destruct (a <? NDIRECT) eqn:Ea; [done|]. rewrite U3, decide_False; [done|].
    intros E'. apply (fp_ind _ _ _ _ Hs ltac:(lia) (off / 512) Hbn). done. }
  split; [done|done| | |done|done|done|done].
  - intros k Hk. unfold file_byte, patched. change BSIZE with 512 in *. assert (Hkb : 0 <= k / 512 < nb) by (Z.div_mod_to_equations; lia).
    rewrite Hblk, U3 by done. pose proof (view_length s (pid p) [] b Hc) as Hv. destruct (decide (k / 512 = off / 512)) as [Ek|Ek].
    + rewrite decide_True by (unfold b; by rewrite Ek). rewrite byte_at_put_bytes by (Z.div_mod_to_equations; lia).
      unfold b. rewrite Ek. destruct (decide (off <= k < off + _)).
      * rewrite decide_True by (Z.div_mod_to_equations; lia). do 2 f_equal. Z.div_mod_to_equations. lia.
      * rewrite decide_False by (Z.div_mod_to_equations; lia). done.
    + rewrite decide_False by (intros E'; apply Ek; by apply (fp_inj _ _ _ _ Hs)).
      rewrite decide_False by (Z.div_mod_to_equations; lia). done.
  - intros b' Hb'. rewrite U3, decide_False; [done|]. apply (Hb' off). lia.
Qed.

Lemma kbind_ret_inv {S A B} (m : K S A) (f : A -> K S B) s b s' :
  (a <- m ;; f a) s = Ret b s' -> exists a s1, m s = Ret a s1 /\ f a s1 = Ret b s'.
Proof. unfold kbind. destruct (m s) as [a s1| | | | |]; cbn [obind]; intros H; try discriminate. by exists a, s1. Qed.

(** The body of the loop of [writei] is an update of a block. *)
Lemma fetch_update {A} s s1 s' k b src tot m l o (rest : KM A) :
  bread 1 b s = Ret k s1 -> fetch src tot m s1 = Ret l s1 -> update_block b (fun d => put_bytes d o l) s = Ret tt s' ->
  (bp <- bread 1 b ;; l <- fetch src tot m ;; set_data bp (fun d => put_bytes d o l) ;;; log_write bp ;;; brelse bp ;;; rest) s = rest s'.
Proof.
  intros H1 H2 H3. unfold update_block in H3. apply kbind_ret_inv in H3 as (? & ? & E1 & H3).
  rewrite H1 in E1. injection E1 as <- <-. apply kbind_ret_inv in H3 as ([] & s2 & E2 & H3).
  apply kbind_ret_inv in H3 as ([] & s3 & E3 & E4). krun H1. krun H2. krun E2. krun E3. by krun E4.
Qed.

Lemma touched_step s x off r :
  0 <= off -> 0 < r -> let m := Z.min r (BSIZE - off mod BSIZE) in
  touched s x off r = blk s x (off / BSIZE) :: touched s x (off + m) (r - m).
Proof.
  intros Ho Hr m. destruct (turns_step off r Ho Hr) as (Hm & Ht & Hn). fold m in Hm, Ht, Hn. unfold touched. rewrite Ht.
  pose proof (turns_pos (off + m) (r - m)). rewrite seqZ_cons by lia. cbn [fmap list_fmap]. f_equal. unfold Z.succ.
  replace (Z.pred (turns (off + m) (r - m) + 1)) with (turns (off + m) (r - m)) by lia.
  destruct (decide (0 < r - m)); [by rewrite Hn|]. unfold turns. by replace (r - m <=? 0) with true by lia.
Qed.

Lemma touched_ext s s' n x nb o l off r :
  replaced s s' n x nb o l -> 0 <= off -> off + r <= nb * BSIZE -> touched s' x off r = touched s x off r.
Proof.
  intros H Ho Hr. apply list_fmap_ext. intros j a Ha%list_elem_of_lookup_2. apply elem_of_seqZ in Ha.
  apply (rp_blk _ _ _ _ _ _ _ H). unfold turns in Ha. change BSIZE with 512 in *. case_match; Z.div_mod_to_equations; lia.
Qed.

Lemma logged_length bl b : (length (logged bl b) <= S (length bl))%nat.
Proof. unfold logged. case_decide; rewrite ?length_app; cbn; lia. Qed.

Lemma foldl_logged_length l : forall bl, (length (foldl logged bl l) <= length bl + length l)%nat.
Proof. induction l as [|b l IH]; intros bl; cbn [foldl length]; [lia|]. pose proof (IH (logged bl b)). pose proof (logged_length bl b). lia. Qed.

(** One turn of the loop. *)
Lemma write_turn i c me p ip x nb st src n s bl tot off m :
  env s i c me p -> cache s (pid p) [] -> logging s st bl -> Z.of_nat (length bl) < LOGSIZE - 1 ->
  k_icache s !! ip = Some x -> file_ok s x nb -> file_sep s x nb st -> source_ok src n ->
  0 <= tot -> tot + m <= n -> 0 <= off -> 0 < m -> off mod BSIZE + m <= BSIZE -> off + m <= nb * BSIZE ->
  let l := get_bytes (source_bytes src (k_mem s) n) tot m in
  exists s', Z.of_nat (length l) = m /\ logging s' st (logged bl (blk s x (off / BSIZE))) /\ replaced s s' (pid p) x nb off l /\
    forall rest : KM Z, (addr <- bmap ip (off / BSIZE) ;; x <- get_inode ip ;; bp <- bread (i_dev x) addr ;; l <- fetch src tot m ;;
      set_data bp (fun d => put_bytes d (off mod BSIZE) l) ;;; log_write bp ;;; brelse bp ;;; rest) s = rest s'.
Proof.
  intros He Hc Hl Hroom Hx Hf Hp Hs Ht Htm Ho Hm Hmb Hend l.
  assert (Hbn : 0 <= off / BSIZE < nb) by (change BSIZE with 512 in *; Z.div_mod_to_equations; lia).
  destruct (bmap_run Hpat s i c me p ip x nb (off / BSIZE) He Hc (logging_roomy _ _ _ Hl) Hx Hf Hbn) as (s1 & E1 & Q1).
  pose proof (replaced_quiet _ _ _ x nb off Q1) as R1. destruct (replaced_icache _ _ _ _ _ _ _ R1) as [I1 M1].
  pose proof (qt_env _ _ _ _ Q1 _ _ _ _ He) as He1. pose proof (replaced_file_ok _ _ _ _ _ _ _ R1 Hf) as Hf1.
  pose proof (quiet_logging _ _ _ _ _ _ Q1 Hl) as Hl1. rewrite <- I1 in Hx. pose proof (quiet_blk _ _ _ _ x (off / BSIZE) Q1) as Hblk.
  destruct (peek_run Hpat s1 i c me p (blk s1 x (off / BSIZE)) He1 (qt_cache _ _ _ _ Q1) (logging_roomy _ _ _ Hl1) (proj2 (fo_blk _ _ _ Hf1 _ Hbn)))
    as (k & y & s2 & E2 & _ & _ & _ & M2 & _).
  assert (Hlen : Z.of_nat (length l) = m).
  { unfold l, get_bytes. rewrite length_take, length_drop. pose proof (source_length src (k_mem s) n ltac:(lia) Hs). lia. }
  destruct (write_block s1 i c me p st bl x nb off l He1 (qt_cache _ _ _ _ Q1) Hl1 Hroom Hf1
    (replaced_file_sep _ _ _ _ _ _ _ _ R1 Hp) Ho ltac:(lia) ltac:(intros E0; rewrite E0 in Hlen; cbn in Hlen; lia) ltac:(lia)) as (s3 & E3 & L3 & R3).
  exists s3. split; [done|]. split; [by rewrite <- Hblk|]. split.
  { apply (replaced_trans s s1 s3 (pid p) x nb off [] l Ho); [cbn [length]; lia|done|]. cbn [length]. by rewrite Z.add_0_r. }
  intros rest. krun E1. krun (get_inode_run s1 ip x Hx). rewrite (fo_dev _ _ _ Hf), <- Hblk.
  apply (fetch_update s1 s2 s3 k _ src tot m l _ _ E2); [|done]. rewrite (fetch_run src n) by (done || lia). by rewrite M2, M1.
Qed.

Lemma writei_loop_run i c me p ip x nb st src n fuel : forall s bl tot off,
  env s i c me p -> cache s (pid p) [] -> logging s st bl -> k_icache s !! ip = Some x -> file_ok s x nb -> file_sep s x nb st ->
  source_ok src n -> 0 <= tot <= n -> 0 <= off -> off + (n - tot) <= nb * BSIZE -> (Z.to_nat (turns off (n - tot)) < fuel)%nat ->
  Z.of_nat (length bl) + turns off (n - tot) < LOGSIZE ->
  exists s', writei_loop fuel ip src tot off n s = Ret (off + (n - tot)) s' /\
    logging s' st (foldl logged bl (touched s x off (n - tot))) /\
    replaced s s' (pid p) x nb off (get_bytes (source_bytes src (k_mem s) n) tot (n - tot)).
Proof.
  induction fuel as [|fuel IH]; intros s bl tot off He Hc Hl Hx Hf Hp Hs Ht Ho Hend Hfuel Hroom; [lia|]. cbn [writei_loop].
  destruct (tot <? n) eqn:E; cbn [negb].
  2:{ replace (n - tot) with 0 by lia. exists s. rewrite Z.add_0_r. split; [done|]. split; [done|].
      apply replaced_quiet. by apply quiet_refl. }
  destruct (turns_step off (n - tot) Ho ltac:(lia)) as (Hm & Hts & Hsame). rewrite (touched_step s x off (n - tot) Ho) by lia.
  set (m := Z.min _ _) in *. pose proof (turns_pos (off + m) (n - tot - m)) as Htp.
  destruct (write_turn i c me p ip x nb st src n s bl tot off m) as (s3 & Hlen & L3 & R3 & ->); [done|done|done|lia|done|done|done|done|lia|lia|done|lia|unfold m; lia|lia|].
  destruct (replaced_icache _ _ _ _ _ _ _ R3) as [I3 M3].
  destruct (IH s3 (logged bl (blk s x (off / BSIZE))) (tot + m) (off + m)) as (s' & E4 & L4 & R4); [| | | | | |done|lia|lia|lia|..].
  - exact (rp_env _ _ _ _ _ _ _ R3 _ _ _ _ He).
  - apply R3.
  - done.
  - by rewrite I3.
  - exact (replaced_file_ok _ _ _ _ _ _ _ R3 Hf).
  - exact (replaced_file_sep _ _ _ _ _ _ _ _ R3 Hp).
  - replace (n - (tot + m)) with (n - tot - m) by lia. lia.
  - replace (n - (tot + m)) with (n - tot - m) by lia. pose proof (logged_length bl (blk s x (off / BSIZE))). lia.
  - exists s'. rewrite E4. replace (n - (tot + m)) with (n - tot - m) in * by lia. split; [f_equal; lia|]. cbn [foldl].
    rewrite (touched_ext _ _ _ _ _ _ _ (off + m) (n - tot - m) R3) in L4 by lia. split; [done|].
    replace (get_bytes _ tot (n - tot)) with (get_bytes (source_bytes src (k_mem s) n) tot m ++ get_bytes (source_bytes src (k_mem s) n) (tot + m) (n - tot - m)).
    + apply (replaced_trans s s3); [lia| |done|rewrite Hlen, <- M3; done].
      rewrite Hlen. unfold get_bytes. rewrite length_take, length_drop. pose proof (source_length src (k_mem s) n ltac:(lia) Hs). lia.
    + unfold get_bytes. replace (Z.to_nat (n - tot)) with (Z.to_nat m + Z.to_nat (n - tot - m))%nat by lia.
      rewrite <- take_take_drop, drop_drop. do 3 f_equal. lia.
Qed.

(** ** The size of the file *)

Definition iblock (s : kernel) (x : inode) : Z := IBLOCK (i_inum x) (k_sb s).

(** The block of the inode is none of the blocks of the file. *)
Record inode_home (s : kernel) (x : inode) (nb st : Z) : Prop := {
  ih_inum : 0 <= i_inum x;
  ih_ok : block_ok s (iblock s x);
  ih_out : iblock s x < st \/ st + LOGSIZE <= iblock s x;
  ih_int : iblock s x < 2147483648;
  ih_blk : forall a, 0 <= a < nb -> blk s x a <> iblock s x;
  ih_ind : NDIRECT < nb -> addr_of x NDIRECT <> iblock s x
}.

Definition resized (x : inode) (z : Z) : inode := x <| i_size := z |>.
Definition slot_of (x : inode) : Z := i_inum x mod IPB * DINODE_SIZE.

Lemma alter_insert {A} (f : A -> A) (l : list A) k x : l !! k = Some x -> alter f k l = <[k := f x]> l.
Proof. revert k. induction l as [|y l IH]; intros [|k] H; cbn in *; [done|done|by injection H as ->|]. f_equal. by apply IH. Qed.

(** Setting the size and writing the inode back. *)
Lemma resize_run s i c me p st bl ip x nb z :
  env s i c me p -> cache s (pid p) [] -> logging s st bl -> Z.of_nat (length bl) < LOGSIZE - 1 ->
  k_icache s !! ip = Some x -> i_dev x = 1 -> dinode_ok (inode_image (resized x z)) -> inode_home s x nb st ->
  exists s', (set_inode ip (fun x => x <| i_size := z |>) ;;; iupdate ip) s = Ret tt s' /\
    k_icache s' = <[ip := resized x z]> (k_icache s) /\ logging s' st (logged bl (iblock s x)) /\ cache s' (pid p) [] /\
    decode_dinode (view s' (iblock s x)) (slot_of x) = inode_image (resized x z) /\
    (forall b, b <> iblock s x -> view s' b = view s b) /\ k_disk s' = k_disk s /\ k_dwrites s' = k_dwrites s /\
    (forall i c me p, env s i c me p -> env s' i c me p) /\ k_disksize s' = k_disksize s /\ k_sb s' = k_sb s.
Proof.
  intros He Hc Hl Hroom Hx Hd Hok Hh. unfold set_inode, kmod, kbind at 1. cbn [obind]. set (s1 := s <| k_icache ::= _ |>).
  assert (He1 : forall i c me p, env s i c me p -> env s1 i c me p) by (intros; by apply (env_ext s)).
  assert (Hc1 : cache s1 (pid p) []).
  { destruct Hc as [H1 H2 H3 H4 H5 H6 H7 H8]. split; try done. intros j y Hy Hj. by destruct (H7 j y Hy Hj). }
  assert (Hx1 : k_icache s1 !! ip = Some (resized x z)) by (unfold s1; cbn; by rewrite list_lookup_alter_eq, Hx).
  pose proof (ih_inum _ _ _ _ Hh) as Hin.
  assert (Hslot : 0 <= slot_of x /\ slot_of x + 64 <= 512).
  { unfold slot_of. change IPB with 8. change DINODE_SIZE with 64. Z.div_mod_to_equations. lia. }
  destruct (update_block_run Hpat s1 i c me p st bl (iblock s x) (fun d => encode_dinode d (slot_of x) (inode_image (resized x z)))
    (He1 _ _ _ _ He) Hc1 ltac:(by apply (logging_ext s)) Hroom (ih_ok _ _ _ _ Hh) (ih_out _ _ _ _ Hh) (ih_int _ _ _ _ Hh))
    as (s' & E & [U1 U2 U3 U4 U5 U6 U7]); [intros d Hd'; by rewrite length_encode|].
  exists s'. destruct U7 as (? & ? & ? & ? & E7). split.
  { unfold iupdate, kget, kbind at 1. cbn [obind]. krun (get_inode_run s1 ip (resized x z) Hx1).
    change (i_dev (resized x z)) with (i_dev x). rewrite Hd. exact E. }
  split; [rewrite E7; exact (alter_insert _ _ _ _ Hx)|]. split; [done|]. split; [done|]. split.
  { rewrite U3, decide_True by done. pose proof (view_length s1 (pid p) [] (iblock s x) Hc1). apply decode_encode; [done|lia|lia]. }
  split; [intros b Hb; by rewrite U3, decide_False|]. split; [done|]. split; [done|]. split; [auto|]. by rewrite E7.
Qed.

(** What [writei] leaves: the file as [x'], its bytes patched, and a file that
    can be read again. *)
Record written (s s' : kernel) (n : Z) (ip : nat) (x x' : inode) (nb off : Z) (l : list Z) : Prop := {
  wr_inode : k_icache s' !! ip = Some x';
  wr_icache : k_icache s' = <[ip := x']> (k_icache s);
  wr_sb : k_sb s' = k_sb s;
  wr_cache : cache s' n [];
  wr_file : file_ok s' x' nb;
  wr_byte : forall k, 0 <= k < nb * BSIZE -> file_byte s' x' k = patched (file_byte s x) off l k;
  wr_view : forall b, b <> iblock s x -> (forall k, off <= k < off + Z.of_nat (length l) -> b <> blk s x (k / BSIZE)) -> view s' b = view s b;
  wr_disk : k_disk s' = k_disk s;
  wr_trace : k_dwrites s' = k_dwrites s;
  wr_env : forall i c me p, env s i c me p -> env s' i c me p
}.

Lemma replaced_written s s' n ip x nb off l :
  k_icache s !! ip = Some x -> file_ok s x nb -> replaced s s' n x nb off l -> written s s' n ip x x nb off l.
Proof.
  intros Hx Hf R. destruct (replaced_icache _ _ _ _ _ _ _ R) as [I _]. split; try apply R.
  - by rewrite I.
  - by rewrite I, list_insert_id.
  - by destruct (rp_frame _ _ _ _ _ _ _ R) as (? & ? & ? & ? & ->).
  - exact (replaced_file_ok _ _ _ _ _ _ _ R Hf).
  - intros b _. apply R.
Qed.

Lemma resized_written s1 s2 s3 n ip x nb st off l z :
  file_ok s1 x nb -> inode_home s1 x nb st -> written s1 s2 n ip x x nb off l -> k_icache s3 = <[ip := resized x z]> (k_icache s2) -> cache s3 n [] ->
  (forall b, b <> iblock s1 x -> view s3 b = view s2 b) -> (forall a, 0 <= a < nb -> blk s2 x a = blk s1 x a) ->
  k_disk s3 = k_disk s2 -> k_dwrites s3 = k_dwrites s2 ->
  (forall i c me p, env s2 i c me p -> env s3 i c me p) -> k_disksize s3 = k_disksize s2 -> k_sb s3 = k_sb s2 ->
  written s1 s3 n ip x (resized x z) nb off l.
Proof.
  intros Hf Hh [W1 Wi Ws W2 W3 W4 W5 W6 W7 W8] Hx Hc Hv Hb2 Hd Ht He Hsz Hsb. pose proof (lookup_lt_Some _ _ _ W1) as Hlt.
  assert (Hblk : forall a, 0 <= a < nb -> blk s3 (resized x z) a = blk s2 x a).
  { intros a Ha. unfold blk. destruct (a <? NDIRECT) eqn:Ea; [done|]. rewrite Hv; [done|]. apply (ih_ind _ _ _ _ Hh). lia. }
  split; [by rewrite Hx, list_lookup_insert_eq|by rewrite Hx, Wi, list_insert_insert_eq|congruence|done| | | |congruence|congruence|auto].
  - destruct W3 as [F1 F2 F3 F4 F5]. split; [done|done|done| |unfold block_ok in *; by rewrite Hsz].
    intros a Ha. rewrite Hblk by done. unfold block_ok. rewrite Hsz. by apply F4.
  - intros k Hk. rewrite <- W4 by done. assert (0 <= k / BSIZE < nb) by (change BSIZE with 512 in *; Z.div_mod_to_equations; lia).
    unfold file_byte. rewrite Hblk, Hv; [done| |done]. rewrite Hb2 by done. by apply (ih_blk _ _ _ _ Hh).
  - intros b Hb1 Hbk. rewrite Hv by done. by apply W5.
Qed.

Lemma writei_run s i c me p st bl ip x nb src off n :
  env s i c me p -> cache s (pid p) [] -> logging s st bl -> k_icache s !! ip = Some x -> file_ok s x nb -> file_sep s x nb st ->
  inode_home s x nb st -> i_type x <> T_DEV -> 0 <= off <= i_size x -> 0 <= n -> off + n <= nb * BSIZE -> source_ok src n ->
  Z.of_nat (length bl) + turns off n + 1 < LOGSIZE ->
  let x' := resized x (Z.max (i_size x) (off + n)) in
  dinode_ok (inode_image x') ->
  exists s', writei ip src off n s = Ret n s' /\ written s s' (pid p) ip x x' nb off (source_bytes src (k_mem s) n) /\
    let bl' := foldl logged bl (touched s x off n) in
    logging s' st (if i_size x <? off + n then logged bl' (iblock s x) else bl') /\
    (i_size x < off + n -> decode_dinode (view s' (iblock s x)) (slot_of x) = inode_image x').
Proof.
  intros He Hc Hl Hx Hf Hp Hh Hty Ho Hn Hend Hs Hroom x' Hok. pose proof (fo_max _ _ _ Hf) as Hmax.
  change MAXFILE with 140 in Hmax. change BSIZE with 512 in Hend. apply Z.eqb_neq in Hty.
  unfold writei. krun (get_inode_run s ip x Hx). rewrite Hty, u32_id by lia.
  replace ((i_size x <? off) || (off + n <? off)) with false by (symmetry; apply orb_false_intro; lia).
  replace (MAXFILE * BSIZE <? off + n) with false by (change (MAXFILE * BSIZE) with 71680; lia).
  destruct (writei_loop_run i c me p ip x nb st src n (io_fuel n) s bl 0 off He Hc Hl Hx Hf Hp Hs) as (s1 & E1 & L1 & R1);
    rewrite ?Z.sub_0_r; [lia|lia|change BSIZE with 512; lia|apply turns_fuel; lia|lia|].
  rewrite Z.sub_0_r in *. krun E1. destruct (replaced_icache _ _ _ _ _ _ _ R1) as [I1 M1].
  assert (El : get_bytes (source_bytes src (k_mem s) n) 0 n = source_bytes src (k_mem s) n).
  { unfold get_bytes. apply take_ge. pose proof (source_length src (k_mem s) n Hn Hs). cbn. lia. }
  rewrite El in R1. pose proof (replaced_written _ _ _ ip _ _ _ _ Hx Hf R1) as W1. rewrite <- I1 in Hx. krun (get_inode_run s1 ip x Hx).
  destruct (i_size x <? off + n) eqn:Eg.
  2:{ rewrite andb_false_r. assert (Ex : x' = x) by (unfold x', resized; rewrite Z.max_l by lia; by destruct x). rewrite Ex.
      exists s1. split; [done|]. split; [done|]. cbn zeta. split; [done|lia]. }
  replace (0 <? n) with true by lia. cbn [andb].
  assert (Hib : iblock s1 x = iblock s x) by (by destruct (rp_frame _ _ _ _ _ _ _ R1) as (? & ? & ? & ? & ->)).
  assert (Hh1 : inode_home s1 x nb st).
  { destruct Hh as [A1 A2 A3 A4 A5 A6]. split; rewrite ?Hib; try done.
    - unfold block_ok in *. by destruct (rp_frame _ _ _ _ _ _ _ R1) as (? & ? & ? & ? & ->).
    - intros a Ha. rewrite (rp_blk _ _ _ _ _ _ _ R1) by done. by apply A5. }
  assert (Hlen : Z.of_nat (length (foldl logged bl (touched s x off n))) < LOGSIZE - 1).
  { pose proof (foldl_logged_length (touched s x off n) bl). pose proof (turns_pos off n).
    assert (length (touched s x off n) = Z.to_nat (turns off n)) by (unfold touched; by rewrite length_fmap, length_seqZ). lia. }
  assert (Ez : x' = resized x (off + n)) by (unfold x'; f_equal; lia). rewrite Ez in *.
  destruct (resize_run s1 i c me p st _ ip x nb (off + n) (rp_env _ _ _ _ _ _ _ R1 _ _ _ _ He) (rp_cache _ _ _ _ _ _ _ R1) L1 Hlen Hx (fo_dev _ _ _ Hf) Hok Hh1)
    as (s2 & E2 & X2 & L2 & C2 & D2 & V2 & K2 & T2 & N2 & Z2 & B2).
  exists s2. rewrite Hib in *. split; [by krun E2|]. split; [|split; [done|done]].
  eapply (resized_written s s1 s2 (pid p) ip x nb st off); try done. apply (rp_blk _ _ _ _ _ _ _ R1).
Qed.

(** C18: [readi] returns the bytes of the file.  On a regular file or directory
    whose blocks are allocated, direct and indirect, an offset past the end or
    a range that wraps around gives -1; otherwise the result is the number of
    bytes up to the end of the file, the bytes are those of the file from the
    offset on, they are what the destination then holds, and no block of the
    disk, the cache or the log changes. *)
Theorem readi_spec (s : kernel) i c me p ip x nb dst off n :
  env s i c me p -> cache s (pid p) [] -> roomy s -> k_icache s !! ip = Some x -> file_ok s x nb ->
  i_type x <> T_DEV -> 0 <= i_size x <= nb * BSIZE -> 0 <= off < 4294967296 -> 0 <= n < 4294967296 -> place_ok dst n ->
  if decide (i_size x < off \/ 4294967296 <= off + n) then readi ip dst off n s = Ret (-1, []) s
  else let m := Z.min n (i_size x - off) in
    let l := file_byte s x <$> seqZ off m in
    exists s', readi ip dst off n s = Ret (m, l) s' /\ quiet s s' (pid p) (landed dst (k_mem s) 0 l).
Proof. exact (readi_run Hpat s i c me p ip x nb dst off n). Qed.

(** C3: [writei] replaces bytes of the file, and nothing else.  Inside a
    transaction with room for the blocks touched, a write to a range whose
    blocks are allocated returns its length; the disk is unchanged and the
    blocks touched, with the inode's block if the file grew, are in the log;
    every other block has its contents; the inode in memory and, if the file
    grew, its copy on the way to the disk have the new size; and any later
    [readi] returns the bytes of the file with the range replaced by what was
    written. *)
Theorem writei_spec (s : kernel) i c me p st bl ip x nb src off n :
  env s i c me p -> cache s (pid p) [] -> logging s st bl -> k_icache s !! ip = Some x -> file_ok s x nb -> file_sep s x nb st ->
  inode_home s x nb st -> i_type x <> T_DEV -> 0 <= off <= i_size x -> i_size x <= nb * BSIZE -> 0 <= n -> off + n <= nb * BSIZE ->
  source_ok src n -> Z.of_nat (length bl) + turns off n + 1 < LOGSIZE ->
  let x' := resized x (Z.max (i_size x) (off + n)) in
  let data := source_bytes src (k_mem s) n in
  dinode_ok (inode_image x') ->
  exists s', writei ip src off n s = Ret n s' /\ k_icache s' !! ip = Some x' /\ cache s' (pid p) [] /\
    k_disk s' = k_disk s /\ k_dwrites s' = k_dwrites s /\
    (let bl' := foldl logged bl (touched s x off n) in
     logging s' st (if i_size x <? off + n then logged bl' (iblock s x) else bl')) /\
    (forall b, b <> iblock s x -> (forall k, off <= k < off + n -> b <> blk s x (k / BSIZE)) -> view s' b = view s b) /\
    (i_size x < off + n -> decode_dinode (view s' (iblock s x)) (slot_of x) = inode_image x') /\
    forall dst off' n', 0 <= off' <= i_size x' -> 0 <= n' -> off' + n' < 4294967296 -> place_ok dst n' ->
      let m := Z.min n' (i_size x' - off') in
      let l := patched (file_byte s x) off data <$> seqZ off' m in
      exists s'', readi ip dst off' n' s' = Ret (m, l) s'' /\ k_mem s'' = landed dst (k_mem s') 0 l.
Proof.
  intros He Hc Hl Hx Hf Hp Hh Hty Ho Hsz Hn Hend Hs Hroom x' data Hok.
  destruct (writei_run s i c me p st bl ip x nb src off n He Hc Hl Hx Hf Hp Hh Hty Ho Hn Hend Hs Hroom Hok) as (s' & E & W & L & D).
  fold x' data in W, D. pose proof (wr_view _ _ _ _ _ _ _ _ _ W) as Hv. unfold data in Hv. rewrite (source_length src (k_mem s) n Hn Hs) in Hv. exists s'. split; [done|]. split; [apply W|]. split; [apply W|]. split; [apply W|]. split; [apply W|].
  split; [done|]. split; [done|]. split; [done|].
  intros dst off' n' Ho' Hn' Hw Hd m l.
  pose proof (readi_run Hpat s' i c me p ip x' nb dst off' n' (wr_env _ _ _ _ _ _ _ _ _ W _ _ _ _ He) (wr_cache _ _ _ _ _ _ _ _ _ W)
    (logging_roomy _ _ _ L) (wr_inode _ _ _ _ _ _ _ _ _ W) (wr_file _ _ _ _ _ _ _ _ _ W) Hty) as HR.
  assert (Hm : i_size x' <= nb * BSIZE) by (cbn; lia). rewrite decide_False in HR by (cbn in *; lia).
  destruct HR as (s'' & E' & Q); [split; [cbn; lia|done]|lia|lia|done|]. fold m in E', Q.
  assert (El : file_byte s' x' <$> seqZ off' m = l).
  { apply list_fmap_ext. intros j k Hk%list_elem_of_lookup_2. apply elem_of_seqZ in Hk. apply W. unfold m in Hk. cbn in *. lia. }
  rewrite El in *. exists s''. split; [done|]. exact (quiet_mem _ _ _ _ Q).
Qed.
End Writing.

(** ** A concrete file *)

Lemma demo_file_ok : file_ok demo_open demo_inode 2.
Proof.
  split; [done|vm_compute; discriminate|done| |unfold NDIRECT; lia]. intros bn Hbn. unfold block_ok. change (k_disksize demo_open) with 1000.
  assert (bn = 0 \/ bn = 1) as [->| ->] by lia; vm_compute; (split; [discriminate|split; [discriminate|reflexivity]]).
Qed.

Lemma readi_spec_witness :
  readi (Pt := 1%nat) 0 Local 701 4 demo_open = Ret (-1, []) demo_open /\
  exists s', readi (Pt := 1%nat) 0 Local 690 40 demo_open = Ret (10, replicate 10 0) s'.
Proof.
  assert (H : forall off n, 0 <= off < 4294967296 -> 0 <= n < 4294967296 ->
    if decide (700 < off \/ 4294967296 <= off + n) then readi (Pt := 1%nat) 0 Local off n demo_open = Ret (-1, []) demo_open
    else exists s', readi (Pt := 1%nat) 0 Local off n demo_open = Ret (Z.min n (700 - off), file_byte demo_open demo_inode <$> seqZ off (Z.min n (700 - off))) s' /\
      quiet demo_open s' (pid run_proc) (k_mem demo_open)).
  { intros off n Ho Hn. apply (readi_spec (Pt := 1%nat) ltac:(unfold patience; lia) demo_open 0 run_cpu 0 run_proc 0 demo_inode 2 Local off n);
      [exact demo_open_env|exact demo_open_cache|exact (logging_roomy _ _ _ demo_open_logging)|reflexivity|exact demo_file_ok|discriminate| |done|done|exact I].
    change (i_size demo_inode) with 700. change BSIZE with 512. lia. }
  split.
  - pose proof (H 701 4 ltac:(lia) ltac:(lia)) as H1. rewrite decide_True in H1 by lia. exact H1.
  - pose proof (H 690 40 ltac:(lia) ltac:(lia)) as H1. rewrite decide_False in H1 by lia. destruct H1 as (s' & H1 & _).
    exists s'. rewrite H1. vm_compute. reflexivity.
Defined.

Lemma writei_spec_witness :
  exists s', writei (Pt := 1%nat) 0 (Bytes (replicate 300 7)) 500 300 demo_open = Ret 300 s' /\ logging s' 2 [100; 101; 34] /\
    exists s'', readi (Pt := 1%nat) 0 Local 498 4 s' = Ret (4, [0; 0; 7; 7]) s''.
Proof.
  destruct (writei_spec (Pt := 1%nat) ltac:(unfold patience; lia) demo_open 0 run_cpu 0 run_proc 2 [] 0 demo_inode 2 (Bytes (replicate 300 7)) 500 300)
    as (s' & E & _ & _ & _ & _ & L & _ & _ & R).
  - exact demo_open_env.
  - exact demo_open_cache.
  - exact demo_open_logging.
  - reflexivity.
  - exact demo_file_ok.
  - split; [| |].
    + intros a b Ha Hb. assert (a = 0 \/ a = 1) as [->| ->] by lia; assert (b = 0 \/ b = 1) as [->| ->] by lia; vm_compute; done.
    + unfold NDIRECT. lia.
    + intros a Ha. change LOGSIZE with 30. assert (a = 0 \/ a = 1) as [->| ->] by lia; vm_compute; (split; [right; discriminate|reflexivity]).
  - split; [done|vm_compute; split; [discriminate|reflexivity]|right; vm_compute; discriminate|vm_compute; reflexivity| |unfold NDIRECT; lia].
    intros a Ha. assert (a = 0 \/ a = 1) as [->| ->] by lia; vm_compute; discriminate.
  - discriminate.
  - change (i_size demo_inode) with 700. lia.
  - change (i_size demo_inode) with 700. change BSIZE with 512. lia.
  - lia.
  - change BSIZE with 512. lia.
  - reflexivity.
  - vm_compute. reflexivity.
  - split; [repeat constructor; cbn; lia|cbn; lia|split; [reflexivity|repeat constructor; lia]].
  - exists s'. split; [exact E|]. split; [exact L|]. destruct (R Local 498 4) as (s'' & E2 & _); [cbn; lia|lia|lia|exact I|].
    exists s''. rewrite E2. vm_compute. reflexivity.
Defined.
