(* ===== verification/AllocSpec.v ===== *)
(** * The allocation of disk blocks

    [balloc] and [bfree]: the bitmap of the disk as a list of free blocks, of
    which [balloc] takes the first and to which [bfree] returns one. *)

From stdpp Require Import base gmap strings list fin_maps.
From Stdlib Require Import ZArith Lia.
From S2P Require Import Prelude Mem Types Spinlock Kalloc Vm Proc ProcSpec Access Bytes Sleeplock Steady Disk Bio BioSpec Log LogSpec Inode TxnSpec Console Fs FileSpec.

(** ** Bits *)

Definition bit_of (d : list Z) (b : Z) : bool := Z.testbit (byte_at d (b / 8)) (b mod 8).
Definition set_bit (d : list Z) (i : Z) : list Z := put8 d (i / 8) (Z.lor (byte_at d (i / 8)) (Z.shiftl 1 (i mod 8))).
Definition clear_bit (d : list Z) (i : Z) : list Z := put8 d (i / 8) (Z.land (byte_at d (i / 8)) (Z.lnot (Z.shiftl 1 (i mod 8)))).

Lemma testbit_mask j k : 0 <= j -> 0 <= k -> Z.testbit (Z.shiftl 1 j) k = (k =? j).
Proof.
  intros Hj Hk. rewrite Z.shiftl_spec by done. destruct (Z.eqb_spec k j) as [->|Hne]; [by rewrite Z.sub_diag|].
  destruct (decide (k < j)); [by rewrite Z.testbit_neg_r by lia|]. apply (Z.pow2_bits_false 0). lia.
Qed.

Lemma land_bit x j : 0 <= j -> (Z.land x (Z.shiftl 1 j) =? 0) = negb (Z.testbit x j).
Proof.
  intros Hj. destruct (Z.testbit x j) eqn:E; cbn [negb].
  - apply Z.eqb_neq. intros H. pose proof (Z.land_spec x (Z.shiftl 1 j) j) as L. rewrite H, E, testbit_mask, Z.eqb_refl, Z.testbit_0_l in L by done. done.
  - apply Z.eqb_eq. apply Z.bits_inj'. intros k Hk. rewrite Z.land_spec, testbit_mask, Z.testbit_0_l by done.
    destruct (Z.eqb_spec k j) as [->|]; [by rewrite E|apply andb_false_r].
Qed.

Lemma bit_of_set d i b : length d = 512%nat -> 0 <= i < 4096 -> 0 <= b -> bit_of (set_bit d i) b = (b =? i) || bit_of d b.
Proof.
  intros Hl Hi Hb. unfold bit_of, set_bit. rewrite byte_at_put8 by (Z.div_mod_to_equations; lia).
  pose proof (Z.mod_pos_bound b 8 ltac:(lia)) as Hm. pose proof (Z.mod_pos_bound i 8 ltac:(lia)) as Hm'. destruct (decide (b / 8 = i / 8)) as [E|E].
  - unfold u8. change 256 with (2 ^ 8). rewrite Z.mod_pow2_bits_low, Z.lor_spec, testbit_mask, <- E, orb_comm by lia. f_equal.
    apply eq_true_iff_eq. rewrite !Z.eqb_eq. Z.div_mod_to_equations. lia.
  - replace (b =? i) with false; [done|]. symmetry. apply Z.eqb_neq. congruence.
Qed.

Lemma bit_of_clear d i b : length d = 512%nat -> 0 <= i < 4096 -> 0 <= b -> bit_of (clear_bit d i) b = negb (b =? i) && bit_of d b.
Proof.
  intros Hl Hi Hb. unfold bit_of, clear_bit. rewrite byte_at_put8 by (Z.div_mod_to_equations; lia).
  pose proof (Z.mod_pos_bound b 8 ltac:(lia)) as Hm. pose proof (Z.mod_pos_bound i 8 ltac:(lia)) as Hm'. destruct (decide (b / 8 = i / 8)) as [E|E].
  - unfold u8. change 256 with (2 ^ 8). rewrite Z.mod_pow2_bits_low, Z.land_spec, Z.lnot_spec, testbit_mask, <- E, andb_comm by lia. do 2 f_equal.
    apply eq_true_iff_eq. rewrite !Z.eqb_eq. Z.div_mod_to_equations. lia.
  - replace (b =? i) with false; [done|]. symmetry. apply Z.eqb_neq. congruence.
Qed.

(** ** The free blocks *)

Definition in_use (s : kernel) (b : Z) : bool := bit_of (view s (BBLOCK b (k_sb s))) (b mod BPB).

(** The free blocks, in order. *)
Definition free_list (s : kernel) : list Z := List.filter (fun b => negb (in_use s b)) (seqZ 0 (sb_size (k_sb s))).

Definition is_map (s : kernel) (b : Z) : Prop := sb_bmapstart (k_sb s) <= b <= sb_bmapstart (k_sb s) + sb_size (k_sb s) / BPB.

(** The bitmap is on the disk and outside the log, and neither the first block,
    nor the log, nor the bitmap itself is free. *)
Record bitmap_ok (s : kernel) (st : Z) : Prop := {
  bm_size : 0 <= sb_size (k_sb s) <= k_disksize s;
  bm_int : k_disksize s < 2147483648;
  bm_start : 0 <= sb_bmapstart (k_sb s);
  bm_end : sb_bmapstart (k_sb s) + sb_size (k_sb s) / BPB < k_disksize s;
  bm_out : forall b, is_map s b -> b < st \/ st + LOGSIZE <= b;
  bm_free : forall b, b ∈ free_list s -> 0 < b /\ ~ is_map s b /\ (b < st \/ st + LOGSIZE <= b)
}.

Lemma elem_free s b : b ∈ free_list s <-> 0 <= b < sb_size (k_sb s) /\ in_use s b = false.
Proof. unfold free_list. rewrite list_elem_of_In, filter_In, <- list_elem_of_In, elem_of_seqZ, Z.add_0_l, negb_true_iff. done. Qed.

Lemma bblock s st b : bitmap_ok s st -> 0 <= b < sb_size (k_sb s) -> BBLOCK b (k_sb s) = b / BPB + sb_bmapstart (k_sb s) /\ is_map s (BBLOCK b (k_sb s)).
Proof.
  intros [H1 H2 H3 H4 _ _] Hb. unfold is_map, BBLOCK in *. change BPB with 4096 in *.
  rewrite u32_id by (Z.div_mod_to_equations; lia). Z.div_mod_to_equations. lia.
Qed.

Lemma map_block s st b : bitmap_ok s st -> is_map s b -> block_ok s b /\ (b < st \/ st + LOGSIZE <= b) /\ b < 2147483648.
Proof. intros [H1 H2 H3 H4 H5 H6] Hb. pose proof Hb as [? ?]. unfold block_ok. split; [lia|]. split; [by apply H5|lia]. Qed.

Lemma filter_ext_in' {A} (f g : A -> bool) l : (forall x, x ∈ l -> f x = g x) -> List.filter f l = List.filter g l.
Proof. intros H. apply filter_ext_in. intros x Hx. apply H. by apply list_elem_of_In. Qed.

Lemma filter_twice {A} (f g : A -> bool) l : List.filter g (List.filter f l) = List.filter (fun x => f x && g x) l.
Proof. induction l as [|x l IH]; cbn; [done|]. destruct (f x) eqn:E; cbn; rewrite IH; done. Qed.

(** The bits of a block with one bit changed. *)
Lemma in_use_change s s' st b d g :
  bitmap_ok s st -> k_sb s' = k_sb s -> 0 <= b < sb_size (k_sb s) ->
  (forall m, is_map s m -> view s' m = if decide (m = BBLOCK b (k_sb s)) then d else view s m) ->
  (forall j, 0 <= j < BPB -> bit_of d j = if j =? b mod BPB then g else bit_of (view s (BBLOCK b (k_sb s))) j) ->
  forall b', 0 <= b' < sb_size (k_sb s) -> in_use s' b' = if b' =? b then g else in_use s b'.
Proof.
  intros Hm Hsb Hb Hv Hd b' Hb'. unfold in_use. rewrite Hsb. destruct (bblock s st b Hm Hb) as [E1 M1]. destruct (bblock s st b' Hm Hb') as [E2 M2].
  rewrite Hv by done. pose proof (Z.mod_pos_bound b' BPB eq_refl). case_decide as E.
  - rewrite Hd by done. rewrite <- E. rewrite E1, E2 in E. change BPB with 4096 in *.
    replace (b' mod 4096 =? b mod 4096) with (b' =? b); [done|]. apply eq_true_iff_eq. rewrite !Z.eqb_eq. Z.div_mod_to_equations. lia.
  - replace (b' =? b) with false; [done|]. symmetry. apply Z.eqb_neq. congruence.
Qed.

(** The first free block taken. *)
Lemma free_list_take s s' b rest :
  free_list s = b :: rest -> k_sb s' = k_sb s -> (forall b', 0 <= b' < sb_size (k_sb s) -> in_use s' b' = if b' =? b then true else in_use s b') ->
  free_list s' = rest.
Proof.
  intros Hf Hsb Hu. unfold free_list in *. rewrite Hsb.
  transitivity (List.filter (fun b' => negb (b' =? b)) (List.filter (fun b => negb (in_use s b)) (seqZ 0 (sb_size (k_sb s))))).
  - rewrite filter_twice. apply filter_ext_in'. intros x Hx%elem_of_seqZ. rewrite Hu by lia. by destruct (x =? b); cbn [negb andb]; rewrite ?andb_true_r, ?andb_false_r.
  - pose proof (NoDup_seqZ 0 (sb_size (k_sb s))) as Hnd. rewrite Hf. cbn [List.filter]. rewrite Z.eqb_refl. cbn [negb].
    assert (Hb : b ∉ rest).
    { assert (Hn : NoDup (b :: rest)) by (rewrite <- Hf; apply NoDup_ListNoDup, List.NoDup_filter, NoDup_ListNoDup, Hnd). by apply NoDup_cons in Hn as [? _]. }
    transitivity (List.filter (fun _ => true) rest); [|clear; induction rest as [|x l IH]; cbn; by rewrite ?IH].
    apply filter_ext_in'. intros x Hx. destruct (Z.eqb_spec x b); [by subst|done].
Qed.

(** ** Reading with buffers held *)

(** From [s] to [s'] no block changes, and the held buffers [hd] are as they were. *)
Record kept (s s' : kernel) (n : Z) (hd : list nat) : Prop := {
  kp_cache : cache s' n hd;
  kp_view : forall b, view s' b = view s b;
  kp_dirty : forall b, dirty s' b <-> dirty s b;
  kp_env : forall i c me p, env s i c me p -> env s' i c me p;
  kp_frame : quiet_frame s s' (k_mem s);
  kp_held : forall j, j ∈ hd -> k_bufs s' !! j = k_bufs s !! j
}.

Lemma kept_refl s n hd : cache s n hd -> kept s s n hd.
Proof. intros Hc. split; try done. exists (k_ptable s), (k_bufs s), (k_lru s). by destruct s. Qed.

Lemma kept_sb s s' n hd : kept s s' n hd -> k_sb s' = k_sb s /\ k_disksize s' = k_disksize s /\ k_log s' = k_log s.
Proof. intros [_ _ _ _ (? & ? & ? & ->) _]. done. Qed.

Lemma kept_logging s s' n hd st bl : kept s s' n hd -> logging s st bl -> logging s' st bl.
Proof. intros H Hl. destruct (kept_sb _ _ _ _ H) as (_ & E1 & E2). apply (logging_ext s); [done|done|done|apply H]. Qed.

Lemma kept_in_use s s' n hd b : kept s s' n hd -> in_use s' b = in_use s b.
Proof. intros H. unfold in_use. destruct (kept_sb _ _ _ _ H) as (-> & _). by rewrite (kp_view _ _ _ _ H). Qed.

Lemma kept_free s s' n hd : kept s s' n hd -> free_list s' = free_list s.
Proof. intros H. unfold free_list. destruct (kept_sb _ _ _ _ H) as (-> & _). apply filter_ext_in'. intros b _. by rewrite (kept_in_use _ _ _ _ _ H). Qed.

Lemma kept_bitmap s s' n hd st : kept s s' n hd -> bitmap_ok s st -> bitmap_ok s' st.
Proof.
  intros H [H1 H2 H3 H4 H5 H6]. destruct (kept_sb _ _ _ _ H) as (E1 & E2 & _). split; unfold is_map in *; rewrite ?E1, ?E2; try done.
  by rewrite (kept_free _ _ _ _ H).
Qed.

(** The blocks in the held buffers. *)
Definition holds (s : kernel) (hd : list nat) (b : Z) : Prop := exists k x, k ∈ hd /\ k_bufs s !! k = Some x /\ b_blockno x = b.

Lemma kept_holds s s' n hd b : kept s s' n hd -> holds s' hd b <-> holds s hd b.
Proof. intros H. split; intros (k & x & Hk & Hx & E); exists k, x; (split; [done|]); [rewrite <- (kp_held _ _ _ _ H)|rewrite (kp_held _ _ _ _ H)]; done. Qed.

(** The first element of a range that a test accepts. *)
Lemma filter_range f w : forall a,
  match List.filter f (seqZ a w) with
  | [] => forall j, a <= j < a + w -> f j = false
  | b :: _ => a <= b < a + w /\ f b = true /\ forall j, a <= j < b -> f j = false
  end.
Proof.
  remember (Z.to_nat w) as m eqn:Em. revert w Em. induction m as [|m IH]; intros w Em a.
  - unfold seqZ. rewrite <- Em. cbn. lia.
  - rewrite seqZ_cons by lia. cbn [List.filter]. destruct (f a) eqn:E.
    + split; [lia|]. split; [done|lia].
    + specialize (IH (Z.pred w) ltac:(lia) (Z.succ a)). destruct (List.filter f _).
      * intros j Hj. destruct (decide (j = a)) as [->|]; [done|]. apply IH. lia.
      * destruct IH as (H1 & H2 & H3). split; [lia|]. split; [done|]. intros j Hj. destruct (decide (j = a)) as [->|]; [done|]. apply H3. lia.
Qed.

Section Alloc.
Context `{Pt : Patience} (Hpat : (0 < patience)%nat).

(** A block read into a buffer; giving it back changes nothing. *)
Record peeked (s s1 : kernel) (n : Z) (hd : list nat) (b : Z) (k : nat) (y : buf) : Prop := {
  pk_new : k ∉ hd;
  pk_buf : k_bufs s1 !! k = Some y;
  pk_block : b_blockno y = b;
  pk_data : b_data y = view s b;
  pk_cache : cache s1 n (k :: hd);
  pk_view : forall b', view s1 b' = view s b';
  pk_dirty : forall b', dirty s1 b' <-> dirty s b';
  pk_env : forall i c me p, env s i c me p -> env s1 i c me p;
  pk_frame : quiet_frame s s1 (k_mem s);
  pk_held : forall j, j ∈ hd -> k_bufs s1 !! j = k_bufs s !! j;
  pk_clean : b_flags y = 2 -> b_data y = disk_block s b
}.

(** Giving a buffer back. *)
Lemma put_back s i c me p hd k y :
  env s i c me p -> cache s (pid p) (k :: hd) -> k ∉ hd -> k_bufs s !! k = Some y -> (b_flags y = 2 -> b_data y = disk_block s (b_blockno y)) ->
  exists s', brelse k s = Ret tt s' /\ kept s s' (pid p) hd.
Proof.
  intros He Hc Hn Hy Hcl. exists (unhold k s). split.
  { apply (brelse_run s i c me p (k :: hd) k y); [done|done|apply list_elem_of_here|done]. }
  split.
  - by apply (cache_unhold s (pid p) hd k y Hc Hn Hy).
  - intros b'. by rewrite (view_unhold s (pid p) hd k y b' Hc Hy).
  - intros b'. by rewrite dirty_unhold.
  - intros i' c' me' p' H. by apply env_unhold.
  - exists (k_ptable (unhold k s)), (k_bufs (unhold k s)), (k_lru (unhold k s)). by destruct s.
  - intros j Hj. change (k_bufs (unhold k s)) with (k_bufs (upd_buf k (fun b => b <| b_lock := zero_sleeplock |> <| b_refcnt := 0 |>) s)).
    rewrite lookup_upd, decide_False; [done|by intros ->].
Qed.

Lemma peek_held s i c me p hd bl b :
  env s i c me p -> cache s (pid p) hd -> (forall b, dirty s b -> b ∈ bl) -> (length hd + length bl < NBUF)%nat -> block_ok s b -> ~ holds s hd b ->
  exists k y s1, bread 1 b s = Ret k s1 /\ peeked s s1 (pid p) hd b k y /\ exists s', brelse k s1 = Ret tt s' /\ kept s s' (pid p) hd.
Proof.
  intros He Hc Hbl Hlen Hb Hh.
  destruct (bread_run Hpat s i c me p hd b He Hc Hb) as (k & y & Hr & Hp); [|left; by apply (avail_count s (pid p) hd bl Hc)|].
  { intros k x Hk Hx E. apply Hh. by exists k, x. }
  destruct (bp_dirty _ _ _ _ _ _ Hp) as (x & Hx & _). pose proof (bp_cache _ _ _ _ _ _ Hp) as Hc1. pose proof (bp_new _ _ _ _ _ _ Hp) as Hn.
  set (s1 := upd_buf k (fun _ => y) s) in *. exists k, y, s1. split; [done|].
  assert (Hy : k_bufs s1 !! k = Some y) by (exact (lookup_upd_buf s k _ x Hx)).
  assert (Hd : forall b', dirty s1 b' <-> dirty s b') by (intros b'; by apply (bread_dirty Hpat s (pid p) hd b)).
  assert (Hhd : forall j, j ∈ hd -> k_bufs s1 !! j = k_bufs s !! j) by (intros j Hj; unfold s1; rewrite lookup_upd, decide_False; [done|by intros ->]).
  split.
  { split; try done; try apply Hp; [by intros; apply env_upd_buf|].
    exists (k_ptable s), (k_bufs s1), (k_lru s). by destruct s. }
  destruct (put_back s1 i c me p hd k y) as (s' & E' & K1); try done; [by apply env_upd_buf| |].
  { rewrite (bp_blockno _ _ _ _ _ _ Hp). apply Hp. }
  exists s'. split; [done|]. destruct K1 as [K1 K2 K3 K4 K5 K6]. split; [done| | | | |].
  - intros b'. rewrite K2. apply Hp.
  - intros b'. by rewrite K3.
  - intros i' c' me' p' H. by apply K4, env_upd_buf.
  - by destruct K5 as (pt & bs & lru & ->); exists pt, bs, lru.
  - intros j Hj. by rewrite K6, Hhd.
Qed.

(** ** [balloc] *)

Definition zero_data : list Z := replicate (Z.to_nat BSIZE) 0.

(** Block [b] has become used: its bit is set and it is cleared. *)
Record taken (s s' : kernel) (n : Z) (hd : list nat) (st : Z) (bl : list Z) (b : Z) : Prop := {
  tk_cache : cache s' n hd;
  tk_log : logging s' st (logged (logged bl (BBLOCK b (k_sb s))) b);
  tk_view : forall b', view s' b' =
    if decide (b' = b) then zero_data
    else if decide (b' = BBLOCK b (k_sb s)) then set_bit (view s (BBLOCK b (k_sb s))) (b mod BPB) else view s b';
  tk_disk : k_disk s' = k_disk s;
  tk_trace : k_dwrites s' = k_dwrites s;
  tk_env : forall i c me p, env s i c me p -> env s' i c me p;
  tk_frame : tx_frame s s';
  tk_held : forall j, j ∈ hd -> k_bufs s' !! j = k_bufs s !! j
}.

Lemma quiet_tx_frame s s' : quiet_frame s s' (k_mem s) -> tx_frame s s'.
Proof. intros (pt & bs & lru & ->). exists pt, bs, lru, (k_log s). by destruct s. Qed.

Lemma kept_taken s s1 s2 n hd st bl b : kept s s1 n hd -> taken s1 s2 n hd st bl b -> taken s s2 n hd st bl b.
Proof.
  intros H [T1 T2 T3 T4 T5 T6 T7 T8]. destruct (kept_sb _ _ _ _ H) as (E & _). rewrite E in *. pose proof (kp_frame _ _ _ _ H) as (pt & bs & lru & Es).
  split; [done|done| |by rewrite T4, Es|by rewrite T5, Es|intros; apply T6; by apply H| |].
  - intros b'. rewrite T3. by rewrite !(kp_view _ _ _ _ H).
  - eapply tx_frame_trans; [apply quiet_tx_frame, H|done].
  - intros j Hj. rewrite T8 by done. by apply H.
Qed.

(** The bit that the loop tests. *)
Lemma scan_bit s st y b bi :
  bitmap_ok s st -> b mod BPB = 0 -> 0 <= b -> 0 <= bi < Z.min BPB (sb_size (k_sb s) - b) -> b_data y = view s (BBLOCK b (k_sb s)) ->
  (b + bi) mod BPB = bi /\ BBLOCK (b + bi) (k_sb s) = BBLOCK b (k_sb s) /\
  (Z.land (byte_at (b_data y) (bi / 8)) (Z.shiftl 1 (bi mod 8)) =? 0) = negb (in_use s (b + bi)).
Proof.
  intros Hm Hb H0 Hbi Hy. assert (E1 : (b + bi) mod BPB = bi) by (change BPB with 4096 in *; Z.div_mod_to_equations; lia).
  assert (E2 : BBLOCK (b + bi) (k_sb s) = BBLOCK b (k_sb s)).
  { unfold BBLOCK. do 2 f_equal. change BPB with 4096 in *. Z.div_mod_to_equations; lia. }
  split; [done|]. split; [done|]. rewrite land_bit by (apply Z.mod_pos_bound; lia). unfold in_use. by rewrite E1, E2, Hy.
Qed.

(** All blocks of the chunk are in use. *)
Lemma balloc_scan_none s s1 n hd st k y b :
  bitmap_ok s st -> b mod BPB = 0 -> 0 <= b -> peeked s s1 n hd (BBLOCK b (k_sb s)) k y ->
  (forall bi, 0 <= bi < Z.min BPB (sb_size (k_sb s) - b) -> in_use s (b + bi) = true) ->
  balloc_scan 1 b k (k_sb s) s1 = Ret None s1.
Proof.
  intros Hm Hb H0 Hp Hu. unfold balloc_scan. apply kfor_all. intros bi Hbi%elem_of_seqZ. krun (get_buf_run k y s1 (pk_buf _ _ _ _ _ _ _ Hp)).
  destruct (scan_bit s st y b bi Hm Hb H0 ltac:(lia) (pk_data _ _ _ _ _ _ _ Hp)) as (_ & _ & ->). by rewrite Hu by lia.
Qed.

Lemma store_then {A} k f (rest : KM A) s s' :
  store_block k f s = Ret tt s' -> (set_data k f ;;; log_write k ;;; brelse k ;;; rest) s = rest s'.
Proof.
  intros H. unfold store_block in H. apply kbind_ret_inv in H as ([] & s1 & E1 & H). apply kbind_ret_inv in H as ([] & s2 & E2 & E3).
  krun E1. krun E2. by krun E3.
Qed.

(** The room that [balloc] needs in the log and in the cache. *)
Definition alloc_room (hd : list nat) (bl : list Z) : Prop := Z.of_nat (length bl) + 2 < LOGSIZE /\ Z.of_nat (length hd) + Z.of_nat (length bl) + 1 < LOGSIZE.

(** The first free block of the chunk is taken. *)
Lemma balloc_scan_hit s s1 i c me p hd st bl k y b bi :
  env s i c me p -> logging s st bl -> alloc_room hd bl -> bitmap_ok s st -> b mod BPB = 0 -> 0 <= b -> 0 <= bi < Z.min BPB (sb_size (k_sb s) - b) ->
  peeked s s1 (pid p) hd (BBLOCK b (k_sb s)) k y -> (forall j, 0 <= j < bi -> in_use s (b + j) = true) -> in_use s (b + bi) = false -> ~ holds s hd (b + bi) ->
  exists s', balloc_scan 1 b k (k_sb s) s1 = Ret (Some (b + bi)) s' /\ taken s s' (pid p) hd st bl (b + bi).
Proof.
  intros He Hlog [R1 R2] Hm Hb H0 Hbi [P1 P2 P3 P4 P5 P6 P7 P8 P9 P10] Hu Hf Hh.
  assert (Hin : 0 <= b + bi < sb_size (k_sb s)) by lia. destruct (bm_free _ _ Hm (b + bi)) as (F1 & F2 & F3); [by apply elem_free|].
  destruct (scan_bit s st y b bi Hm Hb H0 Hbi P4) as (E1 & E2 & E3). destruct (bblock s st (b + bi) Hm Hin) as [_ Mb]. rewrite E2 in Mb.
  destruct (map_block s st _ Hm Mb) as (M1 & M2 & M3). pose proof (bm_size _ _ Hm) as S1. pose proof (bm_int _ _ Hm) as S2.
  assert (Hdk : k_log s1 = k_log s /\ k_disksize s1 = k_disksize s /\ k_disk s1 = k_disk s /\ k_dwrites s1 = k_dwrites s) by (by destruct P9 as (? & ? & ? & ->)).
  destruct Hdk as (D1 & D2 & D3 & D4).
  destruct (store_block_run Hpat s1 i c me p hd st bl k y (fun d => set_bit d bi)) as (s2 & Es & [U1 U2 U3 U4 U5 U6 U7 U8]);
    [by apply P8|done|done|by apply (logging_ext s)|lia|done|by rewrite P3|by rewrite P3| |].
  { unfold set_bit. rewrite length_put8. by apply (ca_data _ _ _ P5 k y). }
  rewrite P3, P4 in *. assert (D5 : k_disksize s2 = k_disksize s) by (destruct U7 as (? & ? & ? & ? & ->); done).
  pose proof (logged_length Hpat bl (BBLOCK b (k_sb s))) as Hll.
  destruct (update_held_run Hpat s2 i c me p hd st (logged bl (BBLOCK b (k_sb s))) (b + bi) (fun _ => zero_data)) as (s3 & Eb & [V1 V2 V3 V4 V5 V6 V7 V8]);
    [by apply U6, P8|done|done|lia|lia| |unfold block_ok; lia|done|lia|done|].
  { intros j x Hj Hx E. apply Hh. exists j, x. by rewrite <- P10, <- U8. }
  exists s3. split.
  - unfold balloc_scan. replace (Z.min BPB (sb_size (k_sb s) - b)) with (bi + (Z.min BPB (sb_size (k_sb s) - b) - bi)) by lia.
    rewrite seqZ_app by lia. rewrite kfor_skip.
    + rewrite (seqZ_cons (0 + bi)) by lia. apply kfor_hit. rewrite Z.add_0_l. krun (get_buf_run k y s1 P2). rewrite P4, E3, Hf. cbn [negb].
      rewrite (store_then k (fun d => set_bit d bi) _ s1 s2 Es). change (bzero 1 (b + bi)) with (update_block (b + bi) (fun _ => zero_data)). by krun Eb.
    + intros j Hj%elem_of_seqZ. krun (get_buf_run k y s1 P2). destruct (scan_bit s st y b j Hm Hb H0 ltac:(lia) P4) as (_ & _ & ->). by rewrite Hu by lia.
  - split; [done|by rewrite E2| |congruence|congruence|auto| |].
    + intros b'. rewrite V3, U3, E1, E2. case_decide; [done|]. by rewrite P6.
    + eapply tx_frame_trans; [by apply quiet_tx_frame|]. by eapply tx_frame_trans.
    + intros j Hj. by rewrite V8, U8, P10.
Qed.

(** No held buffer has a free block or a block of the bitmap. *)
Definition clear_of (s : kernel) (hd : list nat) : Prop := forall b, b ∈ free_list s \/ is_map s b -> ~ holds s hd b.

Lemma kept_clear s s' n hd : kept s s' n hd -> clear_of s hd -> clear_of s' hd.
Proof.
  intros H Hc b Hb. rewrite (kept_holds _ _ _ _ _ H). apply Hc. rewrite (kept_free _ _ _ _ H) in Hb. unfold is_map in *. by destruct (kept_sb _ _ _ _ H) as (<- & _).
Qed.

(** The body of the loop over the blocks of the bitmap. *)
Definition balloc_try (sb : superblock) (b : Z) : KM (option Z) :=
  bp <- bread 1 (BBLOCK b sb) ;;
  r <- balloc_scan 1 b bp sb ;;
  match r with
  | Some a => kret (Some a)
  | None => brelse bp ;;; kret None
  end.

(** The loop from block [j] of the bitmap on. *)
Lemma balloc_loop_run i c me p hd st bl sb w : forall (s : kernel) j,
  env s i c me p -> cache s (pid p) hd -> logging s st bl -> alloc_room hd bl -> bitmap_ok s st -> clear_of s hd -> k_sb s = sb ->
  0 <= j -> Z.of_nat w = (sb_size sb + BPB - 1) / BPB - j ->
  match List.filter (fun b => negb (in_use s b)) (seqZ (j * BPB) (sb_size sb - j * BPB)) with
  | [] => exists s', kfor ((fun k => k * BPB) <$> seqZ j (Z.of_nat w)) (balloc_try sb) s = Ret None s'
  | b :: _ => exists s', kfor ((fun k => k * BPB) <$> seqZ j (Z.of_nat w)) (balloc_try sb) s = Ret (Some b) s' /\ taken s s' (pid p) hd st bl b
  end.
Proof.
  induction w as [|w IH]; intros s j He Hc Hlog Hroom Hm Hcl Hsb Hj Hw.
  { pose proof (bm_size _ _ Hm). rewrite Hsb in *. unfold seqZ at 1. rewrite Z2Nat.nonpos by (change BPB with 4096 in *; Z.div_mod_to_equations; lia). cbn. by exists s. }
  assert (Hjs : j * BPB < sb_size sb) by (change BPB with 4096 in *; Z.div_mod_to_equations; lia).
  rewrite (seqZ_cons j) by lia. cbn [fmap list_fmap kfor]. replace (Z.pred (Z.of_nat (S w))) with (Z.of_nat w) by lia.
  set (b := j * BPB) in *.
  assert (Hb0 : b mod BPB = 0) by (unfold b; apply Z.mod_mul; done). assert (Hb : 0 <= b) by (unfold b; change BPB with 4096; lia).
  destruct (bblock s st b Hm ltac:(rewrite Hsb; lia)) as [_ Mb]. destruct (map_block s st _ Hm Mb) as (M1 & M2 & M3). destruct Hroom as [R1 R2].
  destruct (peek_held s i c me p hd bl (BBLOCK b (k_sb s)) He Hc) as (k & y & s1 & E1 & P & s2 & E2 & K);
    [intros b'; apply (lo_dirty _ _ _ Hlog)|change LOGSIZE with 30 in *; unfold NBUF; lia|done|apply Hcl; by right|].
  rewrite Hsb in E1. set (cw := Z.min BPB (sb_size sb - b)) in *.
  assert (Esplit : seqZ b (sb_size sb - b) = seqZ b cw ++ seqZ (Z.succ j * BPB) (sb_size sb - Z.succ j * BPB)).
  { replace (Z.succ j * BPB) with (b + BPB) by (unfold b; lia). unfold cw. destruct (decide (sb_size sb - b <= BPB)).
    - rewrite Z.min_r by lia. replace (seqZ (b + BPB) _) with (@nil Z); [by rewrite app_nil_r|]. unfold seqZ. by rewrite Z2Nat.nonpos by lia.
    - rewrite Z.min_l by lia. rewrite <- seqZ_app by (change BPB with 4096 in *; lia). f_equal. lia. }
  rewrite Esplit, List.filter_app. pose proof (filter_range (fun b => negb (in_use s b)) cw b) as Hfr. destruct (List.filter _ (seqZ b cw)) as [|a l].
  - specialize (IH s2 (Z.succ j) (kp_env _ _ _ _ K _ _ _ _ He) (kp_cache _ _ _ _ K) (kept_logging _ _ _ _ _ _ K Hlog) (conj R1 R2)
      (kept_bitmap _ _ _ _ _ K Hm) (kept_clear _ _ _ _ K Hcl)).
    destruct (kept_sb _ _ _ _ K) as (Ks & _). rewrite Ks in IH. specialize (IH Hsb ltac:(lia) ltac:(lia)).
    assert (Ek : balloc_try sb b s = Ret None s2).
    { unfold balloc_try. krun E1. pose proof (balloc_scan_none s s1 (pid p) hd st k y b Hm Hb0 Hb P) as En. rewrite Hsb in En. krun En. { by krun E2. }
      intros bi Hbi. specialize (Hfr (b + bi)). rewrite negb_false_iff in Hfr. apply Hfr. unfold cw. lia. }
    unfold kbind. rewrite Ek. cbn [obind app].
    replace (List.filter (fun b => negb (in_use s b)) _) with (List.filter (fun b => negb (in_use s2 b)) (seqZ (Z.succ j * BPB) (sb_size sb - Z.succ j * BPB))).
    2:{ apply filter_ext_in'. intros x _. by rewrite (kept_in_use _ _ _ _ _ K). }
    destruct (List.filter _ _) as [|a l]; [done|]. destruct IH as (s' & E' & T). exists s'. split; [exact E'|]. by apply (kept_taken s s2).
  - destruct Hfr as (H1 & H2 & H3). cbn [app]. apply negb_true_iff in H2.
    destruct (balloc_scan_hit s s1 i c me p hd st bl k y b (a - b) He Hlog (conj R1 R2) Hm Hb0 Hb) as (s' & E' & T);
      [rewrite Hsb; unfold cw in *; lia|done| |by replace (b + (a - b)) with a by lia| |].
    + intros q Hq. apply negb_false_iff, H3. lia.
    + apply Hcl. left. apply elem_free. rewrite Hsb. replace (b + (a - b)) with a by lia. split; [unfold cw in *; lia|done].
    + rewrite Hsb in E'. replace (b + (a - b)) with a in * by lia. exists s'. split; [|done]. unfold kbind, balloc_try at 1. krun E1. by krun E'.
Qed.

(** [balloc] takes the first free block, or panics when there is none. *)
Lemma balloc_run s i c me p hd st bl :
  env s i c me p -> cache s (pid p) hd -> logging s st bl -> alloc_room hd bl -> bitmap_ok s st -> clear_of s hd ->
  match free_list s with
  | [] => exists s', balloc 1 s = Panic "balloc: out of blocks" s'
  | b :: rest => exists s', balloc 1 s = Ret b s' /\ taken s s' (pid p) hd st bl b
  end.
Proof.
  intros He Hc Hlog Hroom Hm Hcl. pose proof (bm_size _ _ Hm) as Hs.
  assert (Hw : 0 <= (sb_size (k_sb s) + BPB - 1) / BPB) by (change BPB with 4096; Z.div_mod_to_equations; lia).
  pose proof (balloc_loop_run i c me p hd st bl (k_sb s) (Z.to_nat ((sb_size (k_sb s) + BPB - 1) / BPB)) s 0 He Hc Hlog Hroom Hm Hcl eq_refl ltac:(lia) ltac:(lia)) as H.
  rewrite Z2Nat.id in H by done. unfold free_list. change (0 * BPB) with 0 in H. rewrite Z.sub_0_r in H.
  destruct (List.filter _ _) as [|b rest]; [destruct H as (s' & E)|destruct H as (s' & E & T)]; exists s'; unfold balloc, kget, kbind at 1; cbn [obind]; fold (balloc_try (k_sb s)); [by krun E|split; [by krun E|done]].
Qed.
End Alloc.

(** What a taken block leaves of the bitmap. *)
Lemma taken_sb s s' n hd st bl b : taken s s' n hd st bl b ->
  k_sb s' = k_sb s /\ k_disksize s' = k_disksize s /\ k_icache s' = k_icache s /\ k_mem s' = k_mem s.
Proof. intros T. by destruct (tk_frame _ _ _ _ _ _ _ T) as (? & ? & ? & ? & ->). Qed.

Lemma taken_in_use s s' n hd st bl b :
  bitmap_ok s st -> cache s n hd -> b ∈ free_list s -> taken s s' n hd st bl b ->
  forall b', 0 <= b' < sb_size (k_sb s) -> in_use s' b' = if b' =? b then true else in_use s b'.
Proof.
  intros Hm Hc Hb T. destruct (taken_sb _ _ _ _ _ _ _ T) as (Hsb & _). destruct (bm_free _ _ Hm b Hb) as (_ & Hnm & _). apply elem_free in Hb as [Hr _].
  apply (in_use_change s s' st b (set_bit (view s (BBLOCK b (k_sb s))) (b mod BPB)) true Hm Hsb Hr).
  - intros m Hmm. rewrite (tk_view _ _ _ _ _ _ _ T). destruct (decide (m = b)) as [->|]; [by destruct (Hnm Hmm)|done].
  - intros j Hj. change BPB with 4096 in *. pose proof (Z.mod_pos_bound b 4096 eq_refl).
    rewrite bit_of_set; [by destruct (j =? b mod 4096)|by apply (view_length s n hd)|lia|lia].
Qed.

Lemma taken_free s s' n hd st bl b rest :
  bitmap_ok s st -> cache s n hd -> free_list s = b :: rest -> taken s s' n hd st bl b -> free_list s' = rest.
Proof.
  intros Hm Hc Hf T. apply (free_list_take s s' b rest Hf); [apply (taken_sb _ _ _ _ _ _ _ T)|].
  apply (taken_in_use s s' n hd st bl b Hm Hc); [rewrite Hf; apply list_elem_of_here|done].
Qed.

Lemma taken_bitmap s s' n hd st bl b rest :
  bitmap_ok s st -> cache s n hd -> free_list s = b :: rest -> taken s s' n hd st bl b -> bitmap_ok s' st.
Proof.
  intros Hm Hc Hf T. pose proof (taken_free _ _ _ _ _ _ _ _ Hm Hc Hf T) as Hf'. destruct (taken_sb _ _ _ _ _ _ _ T) as (Es & Ed & _).
  destruct Hm as [H1 H2 H3 H4 H5 H6]. split; unfold is_map in *; rewrite ?Es, ?Ed; try done. intros x Hx. rewrite Hf' in Hx. apply H6. rewrite Hf. by apply list_elem_of_further.
Qed.

Lemma freed_in_use s s' n hd st bl b :
  bitmap_ok s st -> cache s n hd -> 0 <= b < sb_size (k_sb s) ->
  logged_update s s' n hd st bl (BBLOCK b (k_sb s)) (clear_bit (view s (BBLOCK b (k_sb s))) (b mod BPB)) ->
  forall b', 0 <= b' < sb_size (k_sb s) -> in_use s' b' = if b' =? b then false else in_use s b'.
Proof.
  intros Hm Hc Hb [_ _ U3 _ _ _ U7 _]. apply (in_use_change s s' st b (clear_bit (view s (BBLOCK b (k_sb s))) (b mod BPB)) false Hm); [by destruct U7 as (? & ? & ? & ? & ->)|done| |].
  - intros m _. apply U3.
  - intros j Hj. change BPB with 4096 in *. pose proof (Z.mod_pos_bound b 4096 eq_refl).
    rewrite bit_of_clear; [by destruct (j =? b mod 4096)|by apply (view_length s n hd)|lia|lia].
Qed.

(** ** [bfree] *)

Section Free.
Context `{Pt : Patience} (Hpat : (0 < patience)%nat).

Lemma bfree_held_run s i c me p hd st bl b :
  env s i c me p -> cache s (pid p) hd -> logging s st bl -> Z.of_nat (length bl) + 1 < LOGSIZE -> Z.of_nat (length hd) + Z.of_nat (length bl) < LOGSIZE ->
  ~ holds s hd (BBLOCK b (k_sb s)) -> bitmap_ok s st -> 0 <= b < sb_size (k_sb s) ->
  if in_use s b
  then exists s', bfree 1 b s = Ret tt s' /\ logged_update s s' (pid p) hd st bl (BBLOCK b (k_sb s)) (clear_bit (view s (BBLOCK b (k_sb s))) (b mod BPB))
  else exists s', bfree 1 b s = Panic "freeing free block" s'.
Proof.
  intros He Hc Hlog Hroom Hroom2 Hh Hm Hb. destruct (bblock s st b Hm Hb) as [_ Mb]. destruct (map_block s st _ Hm Mb) as (M1 & M2 & M3).
  destruct (peek_held Hpat s i c me p hd bl (BBLOCK b (k_sb s)) He Hc) as (k & y & s1 & E1 & [P1 P2 P3 P4 P5 P6 P7 P8 P9 P10] & _);
    [intros b'; apply (lo_dirty _ _ _ Hlog)|change LOGSIZE with 30 in *; unfold NBUF; lia|done|done|].
  assert (Ebit : (Z.land (byte_at (b_data y) (b mod BPB / 8)) (Z.shiftl 1 ((b mod BPB) mod 8)) =? 0) = negb (in_use s b)).
  { rewrite land_bit by (apply Z.mod_pos_bound; lia). unfold in_use. by rewrite P4. }
  assert (E : bfree 1 b s = (if negb (in_use s b) then kpanic "freeing free block" else store_block k (fun d => clear_bit d (b mod BPB))) s1).
  { unfold bfree, kget, kbind at 1. cbn [obind]. krun E1. krun (get_buf_run k y s1 P2). by rewrite Ebit. }
  rewrite E. destruct (in_use s b); cbn [negb]; [|by exists s1].
  assert (Hdk : k_log s1 = k_log s /\ k_disksize s1 = k_disksize s /\ k_disk s1 = k_disk s /\ k_dwrites s1 = k_dwrites s) by (by destruct P9 as (? & ? & ? & ->)).
  destruct Hdk as (D1 & D2 & D3 & D4).
  destruct (store_block_run Hpat s1 i c me p hd st bl k y (fun d => clear_bit d (b mod BPB))) as (s' & Es & [U1 U2 U3 U4 U5 U6 U7 U8]);
    [by apply P8|done|done|by apply (logging_ext s)|lia|done|by rewrite P3|by rewrite P3| |].
  { unfold clear_bit. rewrite length_put8. by apply (ca_data _ _ _ P5 k y). }
  rewrite P3, P4 in *. exists s'. split; [done|]. split; [done|done| |congruence|congruence|auto| |].
  - intros b'. rewrite U3. case_decide; [done|]. apply P6.
  - eapply tx_frame_trans; [by apply quiet_tx_frame|done].
  - intros j Hj. by rewrite U8, P10.
Qed.

Lemma bfree_run s i c me p st bl b :
  env s i c me p -> cache s (pid p) [] -> logging s st bl -> Z.of_nat (length bl) + 1 < LOGSIZE -> bitmap_ok s st -> 0 <= b < sb_size (k_sb s) ->
  if in_use s b
  then exists s', bfree 1 b s = Ret tt s' /\ logged_update s s' (pid p) [] st bl (BBLOCK b (k_sb s)) (clear_bit (view s (BBLOCK b (k_sb s))) (b mod BPB))
  else exists s', bfree 1 b s = Panic "freeing free block" s'.
Proof.
  intros He Hc Hlog Hroom Hm Hb. apply (bfree_held_run s i c me p [] st bl b); try done; [cbn; lia|]. by intros (? & ? & ?%not_elem_of_nil & _).
Qed.

(** The allocator of disk blocks is a list of free blocks in the bitmap.
    Inside a transaction with room in the log, [balloc] takes the first free
    block, or panics when there is none; the block is then cleared and in use,
    the other free blocks are still free, no block but it and the bitmap has
    changed, and both are in the log, the disk unchanged.  [bfree] of the block
    gives the free list back as it was, and [bfree] of a free block panics. *)
Theorem balloc_spec (s : kernel) i c me p st bl :
  env s i c me p -> cache s (pid p) [] -> logging s st bl -> Z.of_nat (length bl) + 3 < LOGSIZE -> bitmap_ok s st ->
  (forall b, b ∈ free_list s -> exists s', bfree 1 b s = Panic "freeing free block" s') /\
  match free_list s with
  | [] => exists s', balloc 1 s = Panic "balloc: out of blocks" s'
  | b :: rest => exists s', balloc 1 s = Ret b s' /\ free_list s' = rest /\ view s' b = zero_data /\
      (forall b', b' <> b -> ~ is_map s b' -> view s' b' = view s b') /\ logging s' st (logged (logged bl (BBLOCK b (k_sb s))) b) /\
      cache s' (pid p) [] /\ bitmap_ok s' st /\ k_disk s' = k_disk s /\ k_dwrites s' = k_dwrites s /\
      exists s'', bfree 1 b s' = Ret tt s'' /\ free_list s'' = free_list s /\ k_disk s'' = k_disk s
  end.
Proof.
  intros He Hc Hlog Hroom Hm. split.
  { intros b [Hb Hu]%elem_free. pose proof (bfree_run s i c me p st bl b He Hc Hlog ltac:(lia) Hm Hb) as H. by rewrite Hu in H. }
  pose proof (balloc_run Hpat s i c me p [] st bl He Hc Hlog ltac:(split; cbn; lia) Hm ltac:(by intros b _ (? & ? & ?%not_elem_of_nil & _))) as H.
  destruct (free_list s) as [|b rest] eqn:Hf; [done|]. destruct H as (s' & E & T). exists s'. split; [done|].
  assert (Hin : b ∈ free_list s) by (rewrite Hf; apply list_elem_of_here). pose proof (taken_bitmap _ _ _ _ _ _ _ _ Hm Hc Hf T) as Hm'.
  pose proof (taken_in_use _ _ _ _ _ _ _ Hm Hc Hin T) as Hu. destruct (taken_sb _ _ _ _ _ _ _ T) as (Hsb & _).
  pose proof Hin as [Hr Hu0]%elem_free. destruct (bblock s st b Hm Hr) as [_ Mb].
  split; [by apply (taken_free _ _ _ _ _ _ _ _ Hm Hc Hf T)|]. split; [by rewrite (tk_view _ _ _ _ _ _ _ T), decide_True|].
  split; [intros b' H1 H2; rewrite (tk_view _ _ _ _ _ _ _ T), !decide_False; [done| |done]; by intros ->|].
  split; [apply T|]. split; [apply T|]. split; [done|]. split; [apply T|]. split; [apply T|].
  pose proof (logged_length Hpat bl (BBLOCK b (k_sb s))). pose proof (logged_length Hpat (logged bl (BBLOCK b (k_sb s))) b).
  pose proof (bfree_run s' i c me p st _ b (tk_env _ _ _ _ _ _ _ T _ _ _ _ He) (tk_cache _ _ _ _ _ _ _ T) (tk_log _ _ _ _ _ _ _ T) ltac:(lia) Hm' ltac:(by rewrite Hsb)) as H'.
  rewrite Hu, Z.eqb_refl in H' by done. destruct H' as (s'' & E' & U). exists s''. split; [done|]. split; [|rewrite (lu_disk _ _ _ _ _ _ _ _ U); apply T].
  rewrite <- Hf. unfold free_list. assert (Hsb2 : k_sb s'' = k_sb s) by (rewrite <- Hsb; by destruct (lu_frame _ _ _ _ _ _ _ _ U) as (? & ? & ? & ? & ->)).
  rewrite Hsb2. apply filter_ext_in'. intros x Hx%elem_of_seqZ. 
  rewrite (freed_in_use s' s'' _ _ _ _ b Hm' (tk_cache _ _ _ _ _ _ _ T) ltac:(by rewrite Hsb) U) by (rewrite Hsb; lia).
  rewrite Hu by lia. destruct (Z.eqb_spec x b) as [->|]; [by rewrite Hu0|done].
Qed.
End Free.

(** ** A concrete disk *)

(** The blocks up to 59 are in use. *)
Definition demo_map : list Z := replicate 7 255 ++ 15 :: replicate 504 0.
Definition demo_alloc : kernel :=
  (with_bufs [] {[58 := demo_map]}) <| k_log := mk_log 2 30 1 0 1 0 (replicate 30 0) |> <| k_sb := mk_superblock 1000 941 200 30 2 32 58 |>
    <| k_icache ::= insert 0%nat demo_inode |>.

Lemma demo_alloc_env : env demo_alloc 0 run_cpu 0 run_proc.
Proof. exact (env_ext running demo_alloc 0 run_cpu 0 run_proc running_env eq_refl eq_refl eq_refl eq_refl eq_refl eq_refl). Qed.

Lemma demo_alloc_cache : cache demo_alloc (pid run_proc) [].
Proof.
  assert (H : forall b, length (disk_block (with_bufs [] {[58 := demo_map]}) b) = 512%nat).
  { intros b. unfold disk_block. cbn. destruct (decide (b = 58)) as [->|]; [by rewrite lookup_singleton_eq|by rewrite lookup_singleton_ne]. }
  apply cache_other, with_bufs_cache; [unfold NBUF; cbn; lia|exact H|constructor|constructor].
Qed.

Lemma demo_alloc_logging : logging demo_alloc 2 [].
Proof. apply (logging_ext demo_open); [apply demo_open_logging|reflexivity|reflexivity|reflexivity]. Qed.

Lemma demo_alloc_free : free_list demo_alloc = seqZ 60 940.
Proof. vm_compute. reflexivity. Qed.

Lemma demo_alloc_bitmap : bitmap_ok demo_alloc 2.
Proof.
  assert (Em : forall b, is_map demo_alloc b -> b = 58) by (intros b [H1 H2]; change (58 <= b) in H1; change (b <= 58) in H2; lia).
  split; try (vm_compute; done).
  - intros b ->%Em. right. vm_compute. discriminate.
  - intros b. rewrite demo_alloc_free. intros Hb%elem_of_seqZ. change LOGSIZE with 30. split; [lia|]. split; [intros ->%Em; lia|lia].
Qed.

Lemma balloc_spec_witness : exists s', balloc (Pt := 1%nat) 1 demo_alloc = Ret 60 s' /\ free_list s' = seqZ 61 939 /\ logging s' 2 [58; 60] /\
  exists s'', bfree (Pt := 1%nat) 1 60 s' = Ret tt s'' /\ free_list s'' = seqZ 60 940.
Proof.
  destruct (balloc_spec (Pt := 1%nat) ltac:(unfold patience; lia) demo_alloc 0 run_cpu 0 run_proc 2 []) as [_ H].
  - apply demo_alloc_env.
  - apply demo_alloc_cache.
  - apply demo_alloc_logging.
  - vm_compute. reflexivity.
  - apply demo_alloc_bitmap.
  - rewrite demo_alloc_free in H. rewrite (seqZ_cons 60 940) in H by lia. change (Z.succ 60) with 61 in H. change (Z.pred 940) with 939 in H.
    destruct H as (s' & H1 & H2 & _ & _ & H3 & _ & _ & _ & _ & s'' & H4 & H5 & _). exists s'. split; [exact H1|]. split; [exact H2|].
    split; [exact H3|]. exists s''. split; [exact H4|]. rewrite H5. exact (eq_sym (seqZ_cons 60 940 ltac:(lia))).
Defined.
