(* ===== verification/GrowSpec.v ===== *)
(** * Files that grow

    [bmap] and [writei] past the last block of a file: the missing blocks, and
    the indirect block, come from the free list, and the file has the bytes that
    were written, with every block of another owner as it was. *)

From stdpp Require Import base gmap strings list fin_maps.
From Stdlib Require Import ZArith Lia.
From S2P Require Import Prelude Mem Types Spinlock Kalloc Vm Proc ProcSpec Access Bytes Sleeplock Steady Disk Bio BioSpec Log LogSpec Inode TxnSpec Console Fs FileSpec AllocSpec.

(** ** A file and its blocks *)

(** Block [b] is on the disk, in use, and neither in the log, the bitmap or the
    blocks of inodes. *)
Record owned (s : kernel) (x : inode) (st b : Z) : Prop := {
  ow_nz : b <> 0;
  ow_ok : block_ok s b;
  ow_out : b < st \/ st + LOGSIZE <= b;
  ow_int : b < 2147483648;
  ow_used : b ∉ free_list s;
  ow_map : ~ is_map s b;
  ow_inode : b <> iblock s x;
  ow_size : b < sb_size (k_sb s)
}.

Definition ind_of (x : inode) : Z := addr_of x NDIRECT.

(** The file has exactly its first [nb] blocks, and an indirect block when it
    needs one. *)
Record file_inv (s : kernel) (x : inode) (nb st : Z) : Prop := {
  fi_dev : i_dev x = 1;
  fi_nb : 0 <= nb <= MAXFILE;
  fi_addrs : length (i_addrs x) = 13%nat;
  fi_blk : forall a, 0 <= a < nb -> owned s x st (blk s x a);
  fi_inj : forall a b, 0 <= a < nb -> 0 <= b < nb -> blk s x a = blk s x b -> a = b;
  fi_none : forall a, nb <= a < NDIRECT -> addr_of x a = 0;
  fi_need : NDIRECT < nb -> ind_of x <> 0;
  fi_ind : ind_of x <> 0 -> owned s x st (ind_of x) /\ NDIRECT <= nb /\ (forall a, 0 <= a < nb -> blk s x a <> ind_of x) /\
    (forall a, nb <= a < MAXFILE -> blk s x a = 0);
  fi_inum : 0 <= i_inum x;
  fi_home : block_ok s (iblock s x) /\ (iblock s x < st \/ st + LOGSIZE <= iblock s x) /\ iblock s x < 2147483648 /\
    iblock s x ∉ free_list s /\ ~ is_map s (iblock s x)
}.

Lemma inv_file_ok s x nb st : file_inv s x nb st -> file_ok s x nb.
Proof.
  intros [F1 F2 F3 F4 F5 F6 F7 F8 F9 F10]. split; [done|lia|done| |].
  - intros a Ha. destruct (F4 a Ha). done.
  - intros Hn. specialize (F7 Hn). split; [done|]. by destruct (F8 F7) as [[] _].
Qed.

Lemma inv_file_sep s x nb st : file_inv s x nb st -> file_sep s x nb st.
Proof.
  intros [F1 F2 F3 F4 F5 F6 F7 F8 F9 F10]. split; [done| |].
  - intros Hn a Ha. destruct (F8 (F7 Hn)) as (_ & _ & H & _). by apply H.
  - intros a Ha. by destruct (F4 a Ha).
Qed.

Lemma inv_inode_home s x nb st : file_inv s x nb st -> inode_home s x nb st.
Proof.
  intros [F1 F2 F3 F4 F5 F6 F7 F8 F9 (H1 & H2 & H3 & H4 & H5)]. split; try done.
  - intros a Ha. by destruct (F4 a Ha).
  - intros Hn. destruct (F8 (F7 Hn)) as [[] _]. done.
Qed.

(** The blocks that the file occupies. *)
Definition weight (x : inode) (nb : Z) : Z := nb + (if ind_of x =? 0 then 0 else 1).

Lemma owned_ext s s' x x' st b :
  k_sb s' = k_sb s -> k_disksize s' = k_disksize s -> i_inum x' = i_inum x -> (forall b, b ∈ free_list s' -> b ∈ free_list s) ->
  owned s x st b -> owned s' x' st b.
Proof.
  intros E1 E2 E3 Hf [H1 H2 H3 H4 H5 H6 H7 H8]. split; unfold block_ok, is_map, iblock in *; rewrite ?E1, ?E2, ?E3; try done. intros H. by apply H5, Hf.
Qed.

(** A free block becomes block [nb] of the file. *)
Lemma file_inv_add s s' x x' nb st b rest :
  file_inv s x nb st -> bitmap_ok s st -> nb < MAXFILE -> free_list s = b :: rest -> free_list s' = rest ->
  k_sb s' = k_sb s -> k_disksize s' = k_disksize s -> (exists l, x' = x <| i_addrs := l |>) -> length (i_addrs x') = 13%nat ->
  (forall a, 0 <= a < nb -> blk s' x' a = blk s x a) -> blk s' x' nb = b ->
  (forall a, nb + 1 <= a < NDIRECT -> addr_of x' a = 0) -> ind_of x' = ind_of x -> (NDIRECT <= nb <-> ind_of x <> 0) ->
  (NDIRECT <= nb -> forall a, nb + 1 <= a < MAXFILE -> blk s' x' a = 0) ->
  file_inv s' x' (nb + 1) st.
Proof.
  intros [F1 F2 F3 F4 F5 F6 F7 F8 F9 (G1 & G2 & G3 & G4 & G5)] Hm Hmax Hf Hf' Esb Edk (l & Ex) Hl Hold Hnew Hnone Hind Hiff Hz.
  assert (Einum : i_inum x' = i_inum x) by (by rewrite Ex). assert (Edev : i_dev x' = i_dev x) by (by rewrite Ex).
  assert (Hsub : forall y, y ∈ free_list s' -> y ∈ free_list s) by (rewrite Hf, Hf'; intros y Hy; by apply list_elem_of_further).
  assert (Hb : b ∈ free_list s) by (rewrite Hf; apply list_elem_of_here). destruct (bm_free _ _ Hm b Hb) as (B1 & B2 & B3).
  pose proof (bm_size _ _ Hm) as S1. pose proof (bm_int _ _ Hm) as S2. pose proof Hb as [B4 _]%elem_free.
  assert (Hnd : b ∉ rest).
  { assert (Hn : NoDup (b :: rest)) by (rewrite <- Hf; apply NoDup_ListNoDup, List.NoDup_filter, NoDup_ListNoDup, NoDup_seqZ). by apply NoDup_cons in Hn as [? _]. }
  assert (Hib : iblock s' x' = iblock s x) by (unfold iblock; by rewrite Esb, Einum).
  assert (Own : owned s' x' st b).
  { split; [lia|unfold block_ok; lia|done|lia|by rewrite Hf'|unfold is_map in *; by rewrite Esb| |rewrite Esb; lia]. rewrite Hib. intros ->. done. }
  split; [congruence|lia|done| | |done| | |congruence|].
  - intros a Ha. destruct (decide (a = nb)) as [->|]; [by rewrite Hnew|]. rewrite Hold by lia. apply (owned_ext s s' x x'); try done. apply F4. lia.
  - intros a a' Ha Ha'. destruct (decide (a = nb)) as [->|Hn], (decide (a' = nb)) as [->|Hn']; [done| | |].
    + rewrite Hnew, Hold by lia. intros E. destruct (F4 a' ltac:(lia)) as [_ _ _ _ H _ _]. by rewrite <- E in H.
    + rewrite Hnew, Hold by lia. intros E. destruct (F4 a ltac:(lia)) as [_ _ _ _ H _ _]. by rewrite E in H.
    + rewrite !Hold by lia. apply F5; lia.
  - intros Hn. rewrite Hind. apply Hiff. lia.
  - rewrite Hind. intros Hnz. destruct (F8 Hnz) as (O & H1 & H2 & _). split; [by apply (owned_ext s s' x x')|]. split; [lia|]. split; [|by apply Hz].
    intros a Ha. destruct (decide (a = nb)) as [->|]; [|rewrite Hold by lia; apply H2; lia]. rewrite Hnew. intros ->. by destruct O as [_ _ _ _ O _ _].
  - rewrite Hib. unfold block_ok, is_map in *. rewrite Edk, Esb. split; [done|]. split; [done|]. split; [done|]. split; [|done]. intros H. by apply G4, Hsub.
Qed.

(** From [s] to [s'] the file [x] with [nb] blocks has become [x'] with [nb']
    blocks; the new ones are empty. *)
Record extended (s s' : kernel) (n : Z) (ip : nat) (x x' : inode) (nb nb' st : Z) : Prop := {
  ex_cache : cache s' n [];
  ex_inv : file_inv s' x' nb' st;
  ex_map : bitmap_ok s' st;
  ex_icache : k_icache s' = <[ip := x']> (k_icache s);
  ex_addrs : exists l, x' = x <| i_addrs := l |>;
  ex_blk : forall a, 0 <= a < nb -> blk s' x' a = blk s x a;
  ex_ind : ind_of x' = ind_of x \/ (ind_of x = 0 /\ ind_of x' ∈ free_list s);
  ex_zero : forall a, nb <= a < nb' -> view s' (blk s' x' a) = zero_data;
  ex_new : forall a, nb <= a < nb' -> blk s' x' a ∈ free_list s;
  ex_view : forall b, b ∉ free_list s -> ~ is_map s b -> b <> ind_of x -> view s' b = view s b;
  ex_free : exists used, free_list s = used ++ free_list s' /\ Z.of_nat (length used) = weight x' nb' - weight x nb;
  ex_disk : k_disk s' = k_disk s /\ k_dwrites s' = k_dwrites s /\ k_disksize s' = k_disksize s;
  ex_sb : k_sb s' = k_sb s /\ k_mem s' = k_mem s;
  ex_env : forall i c me p, env s i c me p -> env s' i c me p
}.

(** The blocks in the log: those of before, the bitmap, the indirect block and
    the blocks [D]. *)
Definition log_within (s : kernel) (x : inode) (bl D bl' : list Z) : Prop :=
  forall b, b ∈ bl' -> b ∈ bl \/ is_map s b \/ (ind_of x <> 0 /\ b = ind_of x) \/ b ∈ D.

(** The inode with a block number replaced. *)
Definition with_addr (x : inode) (k v : Z) : inode := x <| i_addrs ::= insert (Z.to_nat k) v |>.

Lemma addr_with x k v a : length (i_addrs x) = 13%nat -> 0 <= k <= NDIRECT -> 0 <= a -> addr_of (with_addr x k v) a = if decide (a = k) then v else addr_of x a.
Proof.
  intros Hl Hk Ha. unfold addr_of, with_addr. cbn. change NDIRECT with 12 in Hk. case_decide as E.
  - subst a. by rewrite list_lookup_insert_eq by lia.
  - by rewrite list_lookup_insert_ne by lia.
Qed.

Lemma zero_data_byte o : byte_at zero_data o = 0.
Proof. unfold byte_at, zero_data. destruct (replicate _ _ !! _) as [v|] eqn:E; [|done]. by apply lookup_replicate in E as [-> _]. Qed.

Lemma zero_data_word o : get32 zero_data o = 0.
Proof. unfold get32. by rewrite !zero_data_byte. Qed.

(** The bitmap is one block; the log holds no more than the bounds say. *)
Definition one_map (s : kernel) : Prop := 0 <= sb_size (k_sb s) < BPB.

Lemma within_length s x bl D bl' st :
  logging s st bl' -> one_map s -> log_within s x bl D bl' -> (length bl' <= length bl + length D + (if decide (ind_of x = 0%Z) then 1 else 2))%nat.
Proof.
  intros Hl Hs Hw. pose proof (tx_nodup _ _ _ (lo_txn _ _ _ Hl)) as Hnd. unfold one_map in Hs.
  set (all := sb_bmapstart (k_sb s) :: (if decide (ind_of x = 0) then [] else [ind_of x]) ++ bl ++ D).
  assert (Hsub : bl' ⊆+ all).
  { apply NoDup_submseteq; [done|]. intros b Hb. destruct (Hw b Hb) as [H|[[H1 H2]|[[H1 H2]|H]]]; unfold all; rewrite elem_of_cons, !elem_of_app.
    - right. right. by left.
    - left. rewrite Z.div_small in H2 by done. lia.
    - right. left. rewrite decide_False by done. subst b. apply list_elem_of_here.
    - right. right. by right. }
  apply submseteq_length in Hsub. revert Hsub. unfold all. cbn [length]. rewrite !length_app. case_decide; cbn; lia.
Qed.

Lemma within_add s s' x x' bl D bl1 D' bl2 :
  k_sb s' = k_sb s -> (ind_of x <> 0 -> ind_of x' = ind_of x) -> log_within s x bl D bl1 -> log_within s' x' bl1 D' bl2 -> log_within s x' bl (D' ++ D) bl2.
Proof.
  intros E Hi H1 H2 b Hb. unfold is_map in *. destruct (H2 b Hb) as [H|[H|[H|H]]].
  - destruct (H1 b H) as [?|[?|[[? ->]|?]]]; [by left|by right; left|right; right; left; by rewrite Hi|right; right; right; apply elem_of_app; by right].
  - right. left. unfold is_map in *. by rewrite E in H.
  - by right; right; left.
  - right. right. right. apply elem_of_app. by left.
Qed.

Lemma within_self s x bl : log_within s x bl [] bl.
Proof. intros b Hb. by left. Qed.

Section Grow.
Context `{Pt : Patience} (Hpat : (0 < patience)%nat).

Lemma set_addr_run s ip x k v : k_icache s !! ip = Some x -> set_addr ip k v s = Ret tt (s <| k_icache := <[ip := with_addr x k v]> (k_icache s) |>).
Proof. intros Hx. unfold set_addr, set_inode, kmod. f_equal. unfold update, upd_k_icache. by rewrite (alter_insert _ _ _ x Hx). Qed.

Lemma cache_icache s n hd ic : cache s n hd -> cache (s <| k_icache := ic |>) n hd.
Proof. intros [H1 H2 H3 H4 H5 H6 H7 H8]. split; try done. intros j y Hy Hj. by destruct (H7 j y Hy Hj). Qed.

(** [balloc] and the inode cache updated. *)
Lemma alloc_addr_run s i c me p st bl ip x k b rest :
  env s i c me p -> cache s (pid p) [] -> logging s st bl -> Z.of_nat (length bl) + 2 < LOGSIZE -> bitmap_ok s st ->
  free_list s = b :: rest -> k_icache s !! ip = Some x ->
  exists s1, (addr <- balloc 1 ;; set_addr ip k addr ;;; kret addr) s = Ret b (s1 <| k_icache := <[ip := with_addr x k b]> (k_icache s) |>) /\
    taken s s1 (pid p) [] st bl b.
Proof.
  intros He Hc Hlog Hroom Hm Hf Hx.
  pose proof (balloc_run Hpat s i c me p [] st bl He Hc Hlog ltac:(split; cbn; lia) Hm ltac:(by intros a _ (? & ? & ?%not_elem_of_nil & _))) as H.
  rewrite Hf in H. destruct H as (s1 & E & T). exists s1. split; [|done]. destruct (taken_sb _ _ _ _ _ _ _ T) as (_ & _ & Ei & _).
  krun E. rewrite <- Ei in Hx. krun (set_addr_run s1 ip x k b Hx). by rewrite Ei.
Qed.

(** What holds after [balloc] of block [b] for slot [k] of the inode. *)
Lemma slot_extended s s1 n st bl ip x k b rest nb nb' :
  let x' := with_addr x k b in
  let s' := s1 <| k_icache := <[ip := x']> (k_icache s) |> in
  cache s n [] -> bitmap_ok s st -> free_list s = b :: rest -> taken s s1 n [] st bl b -> k_icache s !! ip = Some x ->
  file_inv s' x' nb' st -> (forall a, 0 <= a < nb -> blk s' x' a = blk s x a) -> (ind_of x' = ind_of x \/ (ind_of x = 0 /\ ind_of x' = b)) ->
  (forall a, nb <= a < nb' -> blk s' x' a = b) -> weight x' nb' = weight x nb + 1 ->
  extended s s' n ip x x' nb nb' st.
Proof.
  intros x' s' Hc Hm Hf T Hx Hinv Hold Hind Hnew Hw. pose proof (taken_free _ _ _ _ _ _ _ _ Hm Hc Hf T) as Hf1.
  pose proof (taken_bitmap _ _ _ _ _ _ _ _ Hm Hc Hf T) as Hm1. destruct (taken_sb _ _ _ _ _ _ _ T) as (E1 & E2 & E3 & E4).
  destruct T as [T1 T2 T3 T4 T5 T6 T7 T8]. assert (Hb : b ∈ free_list s) by (rewrite Hf; apply list_elem_of_here).
  pose proof Hb as [Hr _]%elem_free. destruct (bblock s st b Hm Hr) as [_ Mb]. split; try done.
  - by apply cache_icache.
  - destruct Hm1 as [M1 M2 M3 M4 M5 M6]. by split.
  - by exists (i_addrs x').
  - destruct Hind as [?|[? ->]]; [by left|by right].
  - intros a Ha. rewrite Hnew by done. change (view s' b) with (view s1 b). by rewrite T3, decide_True.
  - intros a Ha. by rewrite Hnew.
  - intros a Ha1 Ha2 _. change (view s' a) with (view s1 a). rewrite T3, !decide_False; [done| |]; by intros ->.
  - exists [b]. split; [by rewrite Hf; change (free_list s') with (free_list s1); rewrite Hf1|]. cbn. lia.
  - intros i c me p He. by apply (env_ext s1); [apply T6|..].
Qed.

(** Logging a taken block. *)
Lemma taken_log s s1 n st bl b : bitmap_ok s st -> b ∈ free_list s -> taken s s1 n [] st bl b ->
  exists bl', logging s1 st bl' /\ forall a, a ∈ bl' -> a ∈ bl \/ is_map s a \/ a = b.
Proof.
  intros Hm [Hr _]%elem_free T. eexists. split; [apply T|]. intros a [Ha| ->]%logged_elem; [|by right; right].
  apply logged_elem in Ha as [Ha| ->]; [by left|]. right. left. by apply (bblock s st b Hm Hr).
Qed.

(** A direct block. *)
Lemma bmap_direct s i c me p st bl ip x nb :
  env s i c me p -> cache s (pid p) [] -> logging s st bl -> Z.of_nat (length bl) + 2 < LOGSIZE -> bitmap_ok s st ->
  k_icache s !! ip = Some x -> file_inv s x nb st -> nb < NDIRECT -> free_list s <> [] ->
  exists s' x' bl', bmap ip nb s = Ret (blk s' x' nb) s' /\ extended s s' (pid p) ip x x' nb (nb + 1) st /\
    logging s' st bl' /\ log_within s x' bl [blk s' x' nb] bl' /\ ind_of x' = ind_of x.
Proof.
  intros He Hc Hlog Hroom Hm Hx Hi Hnb Hne. destruct (free_list s) as [|b rest] eqn:Hf; [done|]. pose proof Hi as [F1 F2 F3 F4 F5 F6 F7 F8 F9 F10].
  destruct (alloc_addr_run s i c me p st bl ip x nb b rest He Hc Hlog Hroom Hm Hf Hx) as (s1 & E & T).
  set (x' := with_addr x nb b) in *. set (s' := s1 <| k_icache := <[ip := x']> (k_icache s) |>) in *.
  assert (Hb : b ∈ free_list s) by (rewrite Hf; apply list_elem_of_here).
  assert (Had : forall a, 0 <= a <= NDIRECT -> addr_of x' a = if decide (a = nb) then b else addr_of x a) by (intros a Ha; apply addr_with; [done|lia|lia]).
  assert (Hdir : forall a, 0 <= a < NDIRECT -> blk s' x' a = if decide (a = nb) then b else blk s x a).
  { intros a Ha. unfold blk. replace (a <? NDIRECT) with true by lia. apply Had. lia. }
  assert (Hnew : blk s' x' nb = b) by (by rewrite Hdir, decide_True by lia).
  assert (Hind : ind_of x' = ind_of x) by (unfold ind_of; rewrite Had, decide_False by lia; done).
  assert (Hi0 : ind_of x = 0) by (destruct (decide (ind_of x = 0)) as [|Hn]; [done|]; destruct (F8 Hn) as (_ & H & _); lia).
  destruct (taken_sb _ _ _ _ _ _ _ T) as (E1 & E2 & E3 & E4).
  assert (Hold : forall a, 0 <= a < nb -> blk s' x' a = blk s x a) by (intros a Ha; by rewrite Hdir, decide_False by lia).
  destruct (taken_log s s1 (pid p) st bl b Hm Hb T) as (bl' & L & W).
  exists s', x', bl'. rewrite Hnew. split; [|split; [|split; [by apply (logging_ext s1)|split; [|done]]]].
  3:{ intros a Ha. destruct (W a Ha) as [?|[?| ->]]; [by left|by right; left|]. right. right. right. apply list_elem_of_here. }
  - unfold bmap. krun (get_inode_run s ip x Hx). replace (nb <? NDIRECT) with true by lia. krun (get_addr_run Hpat s ip x nb Hx F3 ltac:(lia)).
    rewrite F6 by lia. cbn [Z.eqb]. rewrite F1. exact E.
  - apply (slot_extended s s1 (pid p) st bl ip x nb b rest nb (nb + 1)); try done.
    + apply (file_inv_add s s' x x' nb st b rest); try done.
      * change MAXFILE with 140. change NDIRECT with 12 in *. lia.
      * by apply (taken_free _ _ _ _ _ _ _ _ Hm Hc Hf T).
      * by exists (i_addrs x').
      * unfold x', with_addr. cbn. by rewrite length_insert.
      * intros a Ha. rewrite Had, decide_False by lia. apply F6. lia.
      * split; [lia|done].
      * lia.
    + by left.
    + intros a Ha. by replace a with nb by lia.
    + fold x'. unfold weight. rewrite Hind. lia.
Qed.

Lemma extended_refl s n ip x nb st :
  cache s n [] -> file_inv s x nb st -> bitmap_ok s st -> k_icache s !! ip = Some x -> extended s s n ip x x nb nb st.
Proof.
  intros Hc Hi Hm Hx. split; try done.
  - by rewrite list_insert_id.
  - exists (i_addrs x). by destruct x.
  - by left.
  - lia.
  - lia.
  - exists []. split; [done|]. cbn. lia.
Qed.

Lemma extended_trans s1 s2 s3 n ip x1 x2 x3 nb1 nb2 nb3 st :
  0 <= nb1 <= nb2 -> nb2 <= nb3 -> extended s1 s2 n ip x1 x2 nb1 nb2 st -> extended s2 s3 n ip x2 x3 nb2 nb3 st -> extended s1 s3 n ip x1 x3 nb1 nb3 st.
Proof.
  intros Hnb Hnb3 [A1 A2 A3 A4 [l A5] A6 A7 A8 Anew A9 (u & A10 & A11) (A12 & A13 & A14) (A15 & A16) A17] [B1 B2 B3 B4 [l' B5] B6 B7 B8 Bnew B9 (u' & B10 & B11) (B12 & B13 & B14) (B15 & B16) B17].
  assert (Hsub : forall b, b ∈ free_list s2 -> b ∈ free_list s1) by (intros b Hb; rewrite A10; apply elem_of_app; by right).
  assert (Hmap : forall b, is_map s2 b -> is_map s1 b) by (unfold is_map; by rewrite A15).
  split; try done; try congruence.
  - rewrite B4, A4. by rewrite list_insert_insert_eq.
  - exists l'. rewrite B5, A5. done.
  - intros a Ha. rewrite B6, A6 by lia. done.
  - destruct B7 as [->|[E Hin]]; [done|]. destruct A7 as [E'|[E' Hin']]; [right; split; [congruence|auto]|]. 
    right. split; [done|]. by apply Hsub.
  - intros a Ha. destruct (decide (a < nb2)); [|apply B8; lia]. rewrite B6 by lia.
    destruct (fi_blk _ _ _ _ A2 a ltac:(lia)) as [_ _ _ _ O1 O2 _]. rewrite B9; [apply A8; lia|done|done|].
    intros E. destruct (decide (ind_of x2 = 0)) as [E0|E0]; [destruct (fi_blk _ _ _ _ A2 a ltac:(lia)) as [O _ _ _ _ _ _]; congruence|].
    destruct (fi_ind _ _ _ _ A2 E0) as (_ & _ & H & _). by apply (H a ltac:(lia)).
  - intros a Ha. destruct (decide (a < nb2)); [rewrite B6 by lia; apply Anew; lia|]. apply Hsub, Bnew. lia.
  - intros b H1 H2 H3. rewrite B9; [by apply A9| | |].
    + intros Hb. by apply H1, Hsub.
    + intros Hb. by apply H2, Hmap.
    + intros ->. destruct A7 as [E|[_ Hin]]; [by rewrite E in H3|done].
  - exists (u ++ u'). rewrite A10, B10, app_assoc. split; [done|]. rewrite length_app. lia.
  - split; [congruence|]. split; congruence.
  - split; congruence.
  - auto.
Qed.

(** The indirect block. *)
Lemma bmap_ind s i c me p st bl ip x nb :
  env s i c me p -> cache s (pid p) [] -> logging s st bl -> Z.of_nat (length bl) + 2 < LOGSIZE -> bitmap_ok s st ->
  k_icache s !! ip = Some x -> file_inv s x nb st -> NDIRECT <= nb -> (ind_of x = 0 -> free_list s <> []) ->
  exists s' x' bl', (addr <- get_addr ip NDIRECT ;; if addr =? 0 then addr <- balloc 1 ;; set_addr ip NDIRECT addr ;;; kret addr else kret addr) s = Ret (ind_of x') s' /\
    extended s s' (pid p) ip x x' nb nb st /\ ind_of x' <> 0 /\ logging s' st bl' /\ log_within s x' bl [] bl'.
Proof.
  intros He Hc Hlog Hroom Hm Hx Hi Hnb Hne. pose proof Hi as [F1 F2 F3 F4 F5 F6 F7 F8 F9 F10].
  krun (get_addr_run Hpat s ip x NDIRECT Hx F3 ltac:(unfold NDIRECT; lia)). change (addr_of x NDIRECT) with (ind_of x).
  destruct (Z.eqb_spec (ind_of x) 0) as [E0|E0].
  2:{ exists s, x, bl. split; [done|]. split; [by apply extended_refl|]. split; [done|]. split; [done|]. intros b Hb. by left. }
  assert (nb = NDIRECT) as -> by (destruct (decide (NDIRECT < nb)) as [H|H]; [by destruct (F7 H)|lia]).
  assert (Hex : exists b rest, free_list s = b :: rest) by (specialize (Hne E0); destruct (free_list s) as [|b rest]; [done|by exists b, rest]).
  destruct Hex as (b & rest & Hf). clear Hne Hnb.
  destruct (alloc_addr_run s i c me p st bl ip x NDIRECT b rest He Hc Hlog Hroom Hm Hf Hx) as (s1 & E & T).
  set (x' := with_addr x NDIRECT b) in *. set (s' := s1 <| k_icache := <[ip := x']> (k_icache s) |>) in *.
  assert (Hb : b ∈ free_list s) by (rewrite Hf; apply list_elem_of_here). destruct (bm_free _ _ Hm b Hb) as (B1 & B2 & B3).
  assert (Had : forall a, 0 <= a <= NDIRECT -> addr_of x' a = if decide (a = NDIRECT) then b else addr_of x a) by (intros a Ha; apply addr_with; [done|unfold NDIRECT; lia|lia]).
  assert (Hind : ind_of x' = b) by (unfold ind_of; by rewrite Had, decide_True by (unfold NDIRECT; lia)).
  assert (Hold : forall a, 0 <= a < NDIRECT -> blk s' x' a = blk s x a).
  { intros a Ha. unfold blk. replace (a <? NDIRECT) with true by lia. by rewrite Had, decide_False by lia. }
  destruct (taken_sb _ _ _ _ _ _ _ T) as (E1 & E2 & E3 & E4). pose proof (taken_free _ _ _ _ _ _ _ _ Hm Hc Hf T) as Hf1.
  destruct (taken_log s s1 (pid p) st bl b Hm Hb T) as (bl' & L & W). exists s', x', bl'. rewrite Hind.
  split; [exact E|]. split; [|split; [lia|]; split; [by apply (logging_ext s1)|]].
  2:{ intros a Ha. destruct (W a Ha) as [?|[?| ->]]; [by left|by right; left|]. right. right. left. rewrite Hind. split; [lia|done]. }
  apply (slot_extended s s1 (pid p) st bl ip x NDIRECT b rest NDIRECT NDIRECT); try done; [|by right|lia|fold x'; unfold weight; rewrite Hind, E0; replace (b =? 0) with false by lia; change (0 =? 0) with true; cbn iota; lia].
  assert (Hsub : forall y, y ∈ free_list s' -> y ∈ free_list s) by (change (free_list s') with (free_list s1); rewrite Hf, Hf1; intros y Hy; by apply list_elem_of_further).
  destruct F10 as (G1 & G2 & G3 & G4 & G5). pose proof Hb as [B4 _]%elem_free. pose proof (bm_size _ _ Hm). pose proof (bm_int _ _ Hm).
  assert (Hnd : b ∉ free_list s').
  { change (free_list s') with (free_list s1). rewrite Hf1. assert (Hn : NoDup (b :: rest)) by (rewrite <- Hf; apply NoDup_ListNoDup, List.NoDup_filter, NoDup_ListNoDup, NoDup_seqZ). by apply NoDup_cons in Hn as [? _]. }
  fold x' s'. assert (Hib : iblock s' x' = iblock s x) by (unfold iblock; change (k_sb s') with (k_sb s1); by rewrite E1).
  split; [done|done|unfold x', with_addr; cbn; by rewrite length_insert| | |lia|by rewrite Hind; lia| |done|].
  - intros a Ha. rewrite Hold by done. apply (owned_ext s s' x x'); try done. by apply F4.
  - intros a a' Ha Ha'. rewrite !Hold by done. by apply F5.
  - intros _. rewrite Hind. split; [|split; [lia|split]].
    + split; [lia|unfold block_ok; change (k_disksize s') with (k_disksize s1); lia|done|lia|done|unfold is_map in *; change (k_sb s') with (k_sb s1); rewrite E1; exact B2| |change (k_sb s') with (k_sb s1); rewrite E1; lia]. rewrite Hib. intros Eb. apply G4. by rewrite <- Eb.
    + intros a Ha. rewrite Hold by done. intros E'. destruct (F4 a Ha) as [_ _ _ _ O _ _]. by rewrite E' in O.
    + intros a Ha. unfold blk. replace (a <? NDIRECT) with false by lia. change (addr_of x' NDIRECT) with (ind_of x'). rewrite Hind.
      change (view s' b) with (view s1 b). rewrite (tk_view _ _ _ _ _ _ _ T), decide_True by done. apply zero_data_word.
  - rewrite Hib. unfold block_ok, is_map in *. change (k_disksize s') with (k_disksize s1). change (k_sb s') with (k_sb s1). rewrite E1, E2.
    split; [done|]. split; [done|]. split; [done|]. split; [|done]. intros H'. by apply G4, Hsub.
Qed.

(** The part of [bmap] that works on the indirect block. *)
Definition bmap_entry (ind : Z) (o : Z) : KM Z :=
  bp <- bread 1 ind ;;
  b <- get_buf bp ;;
  let addr := get32 (b_data b) o in
  addr <- (if addr =? 0 then
             addr <- balloc 1 ;;
             set_data bp (fun d => put32 d o addr) ;;;
             log_write bp ;;;
             kret addr
           else kret addr) ;;
  brelse bp ;;;
  kret addr.

(** The state after an entry of the indirect block was filled. *)
Record entered (s s' : kernel) (n : Z) (st : Z) (bl : list Z) (ind o b : Z) (bl' : list Z) : Prop := {
  en_cache : cache s' n [];
  en_log : logging s' st bl';
  en_within : forall a, a ∈ bl' -> a ∈ bl \/ is_map s a \/ a = b \/ a = ind;
  en_view : forall a, a <> ind -> view s' a = if decide (a = b) then zero_data
    else if decide (a = BBLOCK b (k_sb s)) then set_bit (view s (BBLOCK b (k_sb s))) (b mod BPB) else view s a;
  en_ind : view s' ind = put32 (view s ind) o b;
  en_disk : k_disk s' = k_disk s /\ k_dwrites s' = k_dwrites s;
  en_env : forall i c me p, env s i c me p -> env s' i c me p;
  en_frame : tx_frame s s'
}.

Lemma bmap_entry_run s i c me p st bl x nb o b rest :
  env s i c me p -> cache s (pid p) [] -> logging s st bl -> Z.of_nat (length bl) + 3 < LOGSIZE -> bitmap_ok s st ->
  file_inv s x nb st -> ind_of x <> 0 -> free_list s = b :: rest -> get32 (view s (ind_of x)) o = 0 ->
  exists s' bl', bmap_entry (ind_of x) o s = Ret b s' /\ entered s s' (pid p) st bl (ind_of x) o b bl'.
Proof.
  intros He Hc Hlog Hroom Hm Hi Hnz Hf H0. destruct (fi_ind _ _ _ _ Hi Hnz) as ([O1 O2 O3 O4 O5 O6 O7] & _). set (ind := ind_of x) in *.
  destruct (peek_held Hpat s i c me p [] bl ind He Hc) as (k & y & s1 & E1 & [P1 P2 P3 P4 P5 P6 P7 P8 P9 P10] & _);
    [intros b'; apply (lo_dirty _ _ _ Hlog)|change LOGSIZE with 30 in *; unfold NBUF; cbn; lia|done|by intros (? & ? & ?%not_elem_of_nil & _)|].
  assert (Hdk : k_log s1 = k_log s /\ k_disksize s1 = k_disksize s /\ k_disk s1 = k_disk s /\ k_dwrites s1 = k_dwrites s /\ k_sb s1 = k_sb s) by (by destruct P9 as (? & ? & ? & ->)).
  destruct Hdk as (D1 & D2 & D3 & D4 & D5).
  assert (Hf1 : free_list s1 = b :: rest).
  { rewrite <- Hf. unfold free_list. rewrite D5. apply filter_ext_in'. intros a _. unfold in_use. by rewrite D5, P6. }
  assert (Hm1 : bitmap_ok s1 st). { destruct Hm as [M1 M2 M3 M4 M5 M6]. split; unfold is_map in *; rewrite ?D2, ?D5; try done. intros a. rewrite Hf1, <- Hf. apply M6. }
  assert (Hk : k ∈ [k]) by apply list_elem_of_here. pose proof (P8 _ _ _ _ He) as He1.
  assert (Hcl : clear_of s1 [k]).
  { intros a Ha (j & z & ->%list_elem_of_singleton & Hz & Ez). rewrite P2 in Hz. injection Hz as <-. rewrite P3 in Ez. subst a.
    unfold is_map in Ha. rewrite Hf1, <- Hf, D5 in Ha. by destruct Ha. }
  pose proof (balloc_run Hpat s1 i c me p [k] st bl He1 P5 ltac:(by apply (logging_ext s)) ltac:(split; cbn; lia) Hm1 Hcl) as H. rewrite Hf1 in H.
  destruct H as (s2 & E2 & T). destruct (taken_sb _ _ _ _ _ _ _ T) as (S1 & S2 & _). destruct T as [T1 T2 T3 T4 T5 T6 T7 T8].
  assert (Hy2 : k_bufs s2 !! k = Some y) by (by rewrite T8). set (bl2 := logged (logged bl (BBLOCK b (k_sb s1))) b) in *.
  assert (Hlen : Z.of_nat (length bl2) < LOGSIZE - 1).
  { pose proof (logged_length Hpat bl (BBLOCK b (k_sb s1))). pose proof (logged_length Hpat (logged bl (BBLOCK b (k_sb s1))) b). unfold bl2. lia. }
  assert (Hlf : length (put32 (b_data y) o b) = 512%nat) by (rewrite length_put32; by apply (ca_data _ _ _ P5 k y)).
  destruct (store_block_run Hpat s2 i c me p [] st bl2 k y (fun d => put32 d o b) (T6 _ _ _ _ He1) T1 P1 T2 Hlen Hy2 ltac:(by rewrite P3) ltac:(by rewrite P3) Hlf) as (s3 & E3 & [U1 U2 U3 U4 U5 U6 U7 U8]).
  rewrite P3, P4 in *. exists s3, (logged bl2 ind). split.
  - unfold bmap_entry. krun E1. krun (get_buf_run k y s1 P2). rewrite P4, H0. change (0 =? 0) with true. cbv zeta iota.
    unfold store_block in E3. apply kbind_ret_inv in E3 as ([] & s4 & A1 & A2). apply kbind_ret_inv in A2 as ([] & s5 & A2 & A3).
    unfold kbind at 1. krun E2. krun A1. krun A2. unfold kret at 1. cbn [obind]. by krun A3.
  - split; [done|done| | | |split; congruence|auto|].
    + intros a [Ha| ->]%logged_elem; [|by right; right; right]. apply logged_elem in Ha as [Ha| ->]; [|by right; right; left].
      apply logged_elem in Ha as [Ha| ->]; [by left|]. right. left. assert (Hb : b ∈ free_list s) by (rewrite Hf; apply list_elem_of_here).
      apply elem_free in Hb as [Hr _]. rewrite D5. by apply (bblock s st b Hm Hr).
    + intros a Ha. rewrite U3, decide_False by done. rewrite T3, !P6, D5. done.
    + by rewrite U3, decide_True.
    + eapply tx_frame_trans; [by apply quiet_tx_frame|]. by eapply tx_frame_trans.
Qed.

Lemma entered_free s s' n st bl ind o b bl' rest :
  bitmap_ok s st -> cache s n [] -> free_list s = b :: rest -> ~ is_map s ind -> entered s s' n st bl ind o b bl' ->
  free_list s' = rest /\ bitmap_ok s' st /\ k_sb s' = k_sb s /\ k_disksize s' = k_disksize s /\ k_icache s' = k_icache s /\ k_mem s' = k_mem s.
Proof.
  intros Hm Hc Hf Hni [N1 N2 N3 N4 N5 N6 N7 N8].
  assert (Hfr : k_sb s' = k_sb s /\ k_disksize s' = k_disksize s /\ k_icache s' = k_icache s /\ k_mem s' = k_mem s) by (by destruct N8 as (? & ? & ? & ? & ->)).
  destruct Hfr as (E1 & E2 & E3 & E4). assert (Hb : b ∈ free_list s) by (rewrite Hf; apply list_elem_of_here).
  destruct (bm_free _ _ Hm b Hb) as (_ & Hnm & _). apply elem_free in Hb as [Hr _].
  assert (Hf' : free_list s' = rest).
  { apply (free_list_take s s' b rest Hf E1). apply (in_use_change s s' st b (set_bit (view s (BBLOCK b (k_sb s))) (b mod BPB)) true Hm E1 Hr).
    - intros m Hmm. rewrite N4 by (intros ->; done). destruct (decide (m = b)) as [->|]; [by destruct (Hnm Hmm)|done].
    - intros j Hj. change BPB with 4096 in *. pose proof (Z.mod_pos_bound b 4096 eq_refl).
      rewrite bit_of_set; [by destruct (j =? b mod 4096)|by apply (view_length s n [])|lia|lia]. }
  split; [done|]. split; [|done]. destruct Hm as [H1 H2 H3 H4 H5 H6]. split; unfold is_map in *; rewrite ?E1, ?E2; try done.
  intros y Hy. rewrite Hf' in Hy. apply H6. rewrite Hf. by apply list_elem_of_further.
Qed.

Lemma entry_extended s s' n st bl bl' ip x nb b rest :
  cache s n [] -> bitmap_ok s st -> k_icache s !! ip = Some x -> file_inv s x nb st -> ind_of x <> 0 -> nb < MAXFILE -> free_list s = b :: rest ->
  entered s s' n st bl (ind_of x) (4 * (nb - NDIRECT)) b bl' -> extended s s' n ip x x nb (nb + 1) st /\ blk s' x nb = b.
Proof.
  intros Hc Hm Hx Hi Hnz Hmax Hf Hen. pose proof (fi_ind _ _ _ _ Hi Hnz) as ([O1 O2 O3 O4 O5 O6 O7] & Hnb & Hne & Hz).
  destruct (entered_free _ _ _ _ _ _ _ _ _ _ Hm Hc Hf O6 Hen) as (Hf' & Hm' & E1 & E2 & E3 & E4). destruct Hen as [N1 N2 N3 N4 N5 [N6 N7] N8 N9].
  assert (Hb : b ∈ free_list s) by (rewrite Hf; apply list_elem_of_here). destruct (bm_free _ _ Hm b Hb) as (B1 & B2 & B3).
  pose proof (bm_size _ _ Hm). pose proof (bm_int _ _ Hm). pose proof Hb as [Hr _]%elem_free. destruct (bblock s st b Hm Hr) as [_ Mb].
  pose proof (view_length s n [] (ind_of x) Hc) as Hvl. change MAXFILE with 140 in *. change NDIRECT with 12 in *.
  assert (Hblk : forall a, 0 <= a < 140 -> blk s' x a = if decide (a = nb) then b else blk s x a).
  { intros a Ha. unfold blk. change NDIRECT with 12. destruct (a <? 12) eqn:Ea; [by rewrite decide_False by lia|].
    change (addr_of x 12) with (ind_of x). rewrite N5. case_decide as Ed.
    - subst a. rewrite get32_put32_eq, u32_id by lia. done.
    - rewrite get32_put32_ne by lia. done. }
  assert (Hnew : blk s' x nb = b) by (rewrite Hblk, decide_True by (pose proof (fi_nb _ _ _ _ Hi); lia); done). split; [|done].
  assert (Hx' : exists l, x = x <| i_addrs := l |>) by (exists (i_addrs x); by destruct x). pose proof (fi_nb _ _ _ _ Hi) as Hnb0. 
  split; try done.
  - apply (file_inv_add s s' x x nb st b rest); try done.
    + apply Hi.
    + intros a Ha. by rewrite Hblk, decide_False by lia.
    + intros a Ha. change NDIRECT with 12 in *. lia.
    + intros _ a Ha. change MAXFILE with 140 in Ha. rewrite Hblk, decide_False by lia. apply Hz. lia.
  - by rewrite E3, list_insert_id.
  - intros a Ha. by rewrite Hblk, decide_False by lia.
  - by left.
  - intros a Ha. replace a with nb by lia. rewrite Hnew. rewrite N4, decide_True; [done|done|]. by intros ->.
  - intros a Ha. replace a with nb by lia. by rewrite Hnew.
  - intros a H1 H2 H3. rewrite N4 by done. rewrite !decide_False; [done| |]; by intros ->.
  - exists [b]. rewrite Hf, Hf'. split; [done|]. unfold weight. cbn. lia.
Qed.

(** The blocks that a file of [nb] blocks needs to get [nb'] of them. *)
Definition demand (x : inode) (nb nb' : Z) : Z := Z.max 0 (nb' - nb) + (if (ind_of x =? 0) && (NDIRECT <? nb') then 1 else 0).

Lemma extended_ind s s' n ip x x' nb nb' st : extended s s' n ip x x' nb nb' st -> ind_of x <> 0 -> ind_of x' = ind_of x.
Proof. intros X Hn. destruct (ex_ind _ _ _ _ _ _ _ _ _ X) as [?|[? _]]; [done|congruence]. Qed.

(** An indirect block of the file, behind the last one. *)
Lemma bmap_indirect s i c me p st base D bl ip x nb :
  env s i c me p -> cache s (pid p) [] -> logging s st bl -> one_map s -> log_within s x base D bl -> Z.of_nat (length base + length D) + 5 < LOGSIZE ->
  bitmap_ok s st -> k_icache s !! ip = Some x -> file_inv s x nb st -> NDIRECT <= nb < MAXFILE -> demand x nb (nb + 1) <= Z.of_nat (length (free_list s)) ->
  exists s' x' bl', bmap ip nb s = Ret (blk s' x' nb) s' /\ extended s s' (pid p) ip x x' nb (nb + 1) st /\
    logging s' st bl' /\ log_within s x' base (blk s' x' nb :: D) bl'.
Proof.
  intros He Hc Hlog Hone Hw Hroom Hm Hx Hi Hnb Hdem. pose proof (within_length _ _ _ _ _ _ Hlog Hone Hw) as Hlen.
  assert (Hdem' : 1 + (if ind_of x =? 0 then 1 else 0) <= Z.of_nat (length (free_list s))).
  { unfold demand in Hdem. replace (NDIRECT <? nb + 1) with true in Hdem by lia. rewrite andb_true_r in Hdem. lia. }
  destruct (bmap_ind s i c me p st bl ip x nb He Hc Hlog) as (s1 & x1 & bl1 & E1 & X1 & Hnz & L1 & W1); [case_decide; lia|done|done|done|lia| |].
  { intros E0 E. rewrite E0, E in Hdem'. change (length []) with 0%nat in Hdem'. change (0 =? 0) with true in Hdem'. lia. }
  assert (W1' : log_within s x1 base ([] ++ D) bl1) by (by apply (within_add s s x x1 base D bl); [|apply (extended_ind _ _ _ _ _ _ _ _ _ X1)|..]). cbn [app] in W1'.
  destruct (ex_free _ _ _ _ _ _ _ _ _ X1) as (u & Hu1 & Hu2). destruct (ex_sb _ _ _ _ _ _ _ _ _ X1) as [Es _].
  assert (Hf : exists b rest, free_list s1 = b :: rest).
  { rewrite Hu1, length_app in Hdem'. unfold weight in Hu2. apply Z.eqb_neq in Hnz. rewrite Hnz in Hu2.
    destruct (free_list s1) as [|b rest]; [cbn [length] in Hdem'; destruct (ind_of x =? 0); lia|by exists b, rest]. }
  destruct Hf as (b & rest & Hf). pose proof (ex_inv _ _ _ _ _ _ _ _ _ X1) as Hi1. pose proof (ex_map _ _ _ _ _ _ _ _ _ X1) as Hm1.
  assert (Hx1 : k_icache s1 !! ip = Some x1).
  { rewrite (ex_icache _ _ _ _ _ _ _ _ _ X1), list_lookup_insert_eq; [done|]. by eapply lookup_lt_Some. }
  assert (Hw1 : log_within s1 x1 base D bl1) by (intros a Ha; unfold is_map; rewrite Es; exact (W1' a Ha)).
  pose proof (within_length _ _ _ _ _ _ L1 ltac:(unfold one_map; by rewrite Es) Hw1) as Hlen1. rewrite decide_False in Hlen1 by done.
  destruct (bmap_entry_run s1 i c me p st bl1 x1 nb (4 * (nb - NDIRECT)) b rest (ex_env _ _ _ _ _ _ _ _ _ X1 _ _ _ _ He) (ex_cache _ _ _ _ _ _ _ _ _ X1) L1 ltac:(lia) Hm1 Hi1 Hnz Hf)
    as (s2 & bl2 & E2 & N2).
  { destruct (fi_ind _ _ _ _ Hi1 Hnz) as (_ & _ & _ & Hz). specialize (Hz nb ltac:(lia)). unfold blk in Hz. by replace (nb <? NDIRECT) with false in Hz by lia. }
  destruct (entry_extended s1 s2 (pid p) st bl1 bl2 ip x1 nb b rest (ex_cache _ _ _ _ _ _ _ _ _ X1) Hm1 Hx1 Hi1 Hnz ltac:(lia) Hf N2) as [X2 Hb].
  exists s2, x1, bl2. rewrite Hb. split; [|split; [|split; [apply N2|]]].
  - unfold bmap. krun (get_inode_run s ip x Hx). replace (nb <? NDIRECT) with false by lia.
    replace (nb - NDIRECT <? NINDIRECT) with true by (change MAXFILE with 140 in *; change NINDIRECT with 128; change NDIRECT with 12 in *; lia).
    rewrite (fi_dev _ _ _ _ Hi). apply kbind_ret_inv in E1 as (a & s' & A1 & A2). krun A1. krun A2. exact E2.
  - apply (extended_trans s s1 s2 (pid p) ip x x1 x1 nb nb (nb + 1)); [change NDIRECT with 12 in *; lia|lia|done|done].
  - intros a Ha. destruct (en_within _ _ _ _ _ _ _ _ _ N2 a Ha) as [H|[H|[->| ->]]].
    + destruct (W1' a H) as [?|[?|[?|?]]]; [by left|by right; left|by right; right; left|]. right. right. right. by apply list_elem_of_further.
    + right. left. unfold is_map in *. by rewrite Es in H.
    + right. right. right. apply list_elem_of_here.
    + by right; right; left.
Qed.

(** The same file over the same blocks. *)
Lemma file_inv_ext s s' x nb st :
  k_sb s' = k_sb s -> k_disksize s' = k_disksize s -> free_list s' = free_list s -> (ind_of x <> 0 -> view s' (ind_of x) = view s (ind_of x)) ->
  file_inv s x nb st -> file_inv s' x nb st /\ forall a, 0 <= a < nb -> blk s' x a = blk s x a.
Proof.
  intros E1 E2 Ef Hv [F1 F2 F3 F4 F5 F6 F7 F8 F9 F10].
  assert (Hib : iblock s' x = iblock s x) by (unfold iblock; by rewrite E1).
  assert (Hb : forall a, 0 <= a < nb \/ ind_of x <> 0 -> blk s' x a = blk s x a).
  { intros a Ha. unfold blk. destruct (a <? NDIRECT) eqn:Ea; [done|]. change (addr_of x NDIRECT) with (ind_of x). rewrite Hv; [done|].
    destruct Ha as [Ha|]; [|done]. apply F7. lia. }
  assert (Ho : forall b, owned s x st b -> owned s' x st b) by (intros b; apply owned_ext; try done; by rewrite Ef).
  split; [|auto]. split; try done.
  - intros a Ha. rewrite Hb by auto. auto.
  - intros a a' Ha Ha'. rewrite !Hb by auto. by apply F5.
  - intros Hn. destruct (F8 Hn) as (G1 & G2 & G3 & G4). split; [auto|]. split; [done|]. split; intros a Ha; rewrite Hb by auto; auto.
  - rewrite Hib, Ef. unfold block_ok, is_map in *. by rewrite E1, E2.
Qed.

Lemma bitmap_ext s s' st :
  k_sb s' = k_sb s -> k_disksize s' = k_disksize s -> bitmap_ok s st -> (forall b, is_map s b -> view s' b = view s b) ->
  free_list s' = free_list s /\ bitmap_ok s' st.
Proof.
  intros E1 E2 Hm Hv. assert (Ef : free_list s' = free_list s).
  { unfold free_list. rewrite E1. apply filter_ext_in'. intros b Hb%elem_of_seqZ. unfold in_use. rewrite E1, Hv; [done|]. apply (bblock s st b Hm). lia. }
  split; [done|]. destruct Hm as [H1 H2 H3 H4 H5 H6]. split; unfold is_map in *; rewrite ?E1, ?E2, ?Ef; done.
Qed.

Lemma quiet_extended s s' n ip x nb st :
  quiet s s' n (k_mem s) -> file_inv s x nb st -> bitmap_ok s st -> k_icache s !! ip = Some x -> extended s s' n ip x x nb nb st.
Proof.
  intros [Q1 Q2 Q3 Q4 (pt & bs & lru & Q5)] Hi Hm Hx.
  assert (Hs : k_sb s' = k_sb s /\ k_disksize s' = k_disksize s /\ k_icache s' = k_icache s) by (by rewrite Q5). destruct Hs as (E1 & E2 & E3).
  destruct (bitmap_ext s s' st E1 E2 Hm ltac:(auto)) as [Ef Hm']. destruct (file_inv_ext s s' x nb st E1 E2 Ef ltac:(auto) Hi) as [Hi' Hb].
  split; try done; try lia.
  - by rewrite E3, list_insert_id.
  - exists (i_addrs x). by destruct x.
  - exists []. rewrite Ef. split; [done|]. cbn. lia.
  - by rewrite Q5.
  - by rewrite Q5.
Qed.

(** [bmap] of a block of the file or of the one behind the last. *)
Lemma bmap_any s i c me p st base D bl ip x nb bn :
  env s i c me p -> cache s (pid p) [] -> logging s st bl -> one_map s -> log_within s x base D bl -> Z.of_nat (length base + length D) + 5 < LOGSIZE ->
  bitmap_ok s st -> k_icache s !! ip = Some x -> file_inv s x nb st -> 0 <= bn <= nb -> bn < MAXFILE -> demand x nb (bn + 1) <= Z.of_nat (length (free_list s)) ->
  exists s' x' bl', bmap ip bn s = Ret (blk s' x' bn) s' /\ extended s s' (pid p) ip x x' nb (Z.max nb (bn + 1)) st /\
    logging s' st bl' /\ log_within s x' base (blk s' x' bn :: D) bl' /\ (ind_of x' <> ind_of x -> NDIRECT < Z.max nb (bn + 1)).
Proof.
  intros He Hc Hlog Hone Hw Hroom Hm Hx Hi Hbn Hmax Hdem. destruct (decide (bn = nb)) as [->|Hne].
  - rewrite Z.max_r by lia. pose proof (within_length _ _ _ _ _ _ Hlog Hone Hw) as Hlen. destruct (decide (nb < NDIRECT)) as [Hd|Hd].
    + destruct (bmap_direct s i c me p st bl ip x nb He Hc Hlog) as (s' & x' & bl' & E & X & L & W & Hin); [case_decide; lia|done|done|done|done| |].
      { intros E. rewrite E in Hdem. unfold demand in Hdem. cbn [length] in Hdem. destruct ((ind_of x =? 0) && (NDIRECT <? nb + 1)); lia. }
      exists s', x', bl'. split; [done|]. split; [done|]. split; [done|]. split; [|done].
      apply (within_add s s x x' base D bl [blk s' x' nb] bl'); done.
    + destruct (bmap_indirect s i c me p st base D bl ip x nb He Hc Hlog Hone Hw Hroom Hm Hx Hi ltac:(lia) Hdem) as (s' & x' & bl' & E & X & L & W).
      exists s', x', bl'. split; [done|]. split; [done|]. split; [done|]. split; [done|]. lia.
  - rewrite Z.max_l by lia. destruct (bmap_run Hpat s i c me p ip x nb bn He Hc (logging_roomy _ _ _ Hlog) Hx (inv_file_ok _ _ _ _ Hi) ltac:(lia)) as (s' & E & Q).
    pose proof (quiet_extended _ _ _ ip _ _ _ Q Hi Hm Hx) as X. exists s', x, bl.
    rewrite (ex_blk _ _ _ _ _ _ _ _ _ X) by lia. split; [done|]. split; [done|]. split; [by apply (quiet_logging _ _ _ _ _ _ Q)|]. split; [|done].
    intros b Hb. destruct (Hw b Hb) as [?|[?|[?|?]]]; [by left|by right; left|by right; right; left|]. right. right. right. by apply list_elem_of_further.
Qed.

(** ** Writing *)

(** The bytes of the file, with zeros behind its last block. *)
Definition bytes_of (s : kernel) (x : inode) (nb k : Z) : Z := if decide (k < nb * BSIZE) then file_byte s x k else 0.

(** From [s] to [s'] the bytes of the file from [off] on were replaced by [l],
    and the file got the blocks that it needed. *)
Record appended (s s' : kernel) (n : Z) (ip : nat) (x x' : inode) (nb nb' st off : Z) (l : list Z) : Prop := {
  ap_cache : cache s' n [];
  ap_inv : file_inv s' x' nb' st;
  ap_map : bitmap_ok s' st;
  ap_icache : k_icache s' = <[ip := x']> (k_icache s);
  ap_addrs : exists la, x' = x <| i_addrs := la |>;
  ap_blk : forall a, 0 <= a < nb -> blk s' x' a = blk s x a;
  ap_ind : ind_of x' = ind_of x \/ (ind_of x = 0 /\ ind_of x' ∈ free_list s);
  ap_new : forall a, nb <= a < nb' -> blk s' x' a ∈ free_list s;
  ap_byte : forall k, 0 <= k -> bytes_of s' x' nb' k = patched (bytes_of s x nb) off l k;
  ap_view : forall b, b ∉ free_list s -> ~ is_map s b -> b <> ind_of x ->
    (forall k, off <= k < off + Z.of_nat (length l) -> k < nb * BSIZE -> b <> blk s x (k / BSIZE)) -> view s' b = view s b;
  ap_free : exists used, free_list s = used ++ free_list s' /\ Z.of_nat (length used) = weight x' nb' - weight x nb;
  ap_disk : k_disk s' = k_disk s /\ k_dwrites s' = k_dwrites s /\ k_disksize s' = k_disksize s;
  ap_sb : k_sb s' = k_sb s /\ k_mem s' = k_mem s;
  ap_env : forall i c me p, env s i c me p -> env s' i c me p
}.

Lemma appended_trans s1 s2 s3 n ip x1 x2 x3 nb1 nb2 nb3 st off l l' :
  0 <= nb1 <= nb2 -> nb2 <= nb3 -> 0 <= off -> appended s1 s2 n ip x1 x2 nb1 nb2 st off l -> appended s2 s3 n ip x2 x3 nb2 nb3 st (off + Z.of_nat (length l)) l' ->
  appended s1 s3 n ip x1 x3 nb1 nb3 st off (l ++ l').
Proof.
  intros Hnb Hnb3 Hoff [A1 A2 A3 A4 [la A5] A6 A7 A8 A9 A10 (u & A11 & A12) (A13 & A14 & A15) (A16 & A17) A18]
    [B1 B2 B3 B4 [lb B5] B6 B7 B8 B9 B10 (u' & B11 & B12) (B13 & B14 & B15) (B16 & B17) B18].
  assert (Hsub : forall b, b ∈ free_list s2 -> b ∈ free_list s1) by (intros b Hb; rewrite A11; apply elem_of_app; by right).
  split; try done; try congruence.
  - rewrite B4, A4. by rewrite list_insert_insert_eq.
  - exists lb. rewrite B5, A5. done.
  - intros a Ha. rewrite B6, A6 by lia. done.
  - destruct B7 as [->|[E Hin]]; [done|]. destruct A7 as [E'|[E' Hin']]; right; [split; [congruence|auto]|]. split; [done|]. by apply Hsub.
  - intros a Ha. destruct (decide (a < nb2)); [rewrite B6 by lia; apply A8; lia|]. apply Hsub, B8. lia.
  - intros k Hk. rewrite B9 by done. apply patched_app. by apply A9.
  - intros b H1 H2 H3 H4. rewrite length_app in H4. rewrite B10; [apply A10; try done; intros k Hk; apply H4; lia| | | |].
    + intros Hb. by apply H1, Hsub.
    + unfold is_map in *. by rewrite A16.
    + intros ->. destruct A7 as [E|[_ Hin]]; [by rewrite E in H3|done].
    + intros k Hk Hk2 ->. assert (Hkb : 0 <= k / BSIZE < nb2) by (change BSIZE with 512 in *; Z.div_mod_to_equations; lia).
      destruct (decide (k / BSIZE < nb1)) as [Hlt|Hge]; [|apply H1, A8; lia].
      rewrite A6 in H4 by lia. apply (H4 k); [lia| |done]. change BSIZE with 512 in *. Z.div_mod_to_equations. lia.
  - exists (u ++ u'). rewrite A11, B11, app_assoc. split; [done|]. rewrite length_app. lia.
  - split; [congruence|]. split; congruence.
  - split; congruence.
  - auto.
Qed.

(** A block of the file with a piece of it replaced, after [bmap]. *)
Lemma extended_appended s s1 s2 n ip x x1 nb nb1 st off l :
  0 <= nb <= nb1 -> 0 <= off -> l <> [] -> off mod BSIZE + Z.of_nat (length l) <= BSIZE -> off + Z.of_nat (length l) <= nb1 * BSIZE ->
  file_inv s x nb st -> extended s s1 n ip x x1 nb nb1 st -> replaced s1 s2 n x1 nb1 off l -> appended s s2 n ip x x1 nb nb1 st off l.
Proof.
  intros Hnb Hoff Hl Hmod Hend Hi X R. destruct X as [A1 A2 A3 A4 A5 A6 A7 A8 Anew A9 A11 (A13 & A14 & A15) (A16 & A17) A18].
  destruct (replaced_icache _ _ _ _ _ _ _ R) as [I2 M2]. assert (Hfr : k_sb s2 = k_sb s1 /\ k_disksize s2 = k_disksize s1) by (by destruct (rp_frame _ _ _ _ _ _ _ R) as (? & ? & ? & ? & ->)).
  destruct Hfr as [S2 Z2]. assert (Hl0 : (0 < length l)%nat) by (destruct l; [done|cbn; lia]). change BSIZE with 512 in *.
  assert (Hbn : forall k, off <= k < off + Z.of_nat (length l) -> k / 512 = off / 512 /\ 0 <= k / 512 < nb1) by (intros k Hk; Z.div_mod_to_equations; lia).
  assert (Hvo : forall b, (b <> blk s1 x1 (off / 512)) -> view s2 b = view s1 b).
  { intros b Hb. apply (rp_view _ _ _ _ _ _ _ R). intros k Hk. change BSIZE with 512. by destruct (Hbn k Hk) as [-> _]. }
  destruct (Hbn off ltac:(lia)) as [_ Hb0]. destruct (fi_blk _ _ _ _ A2 _ Hb0) as [O1 O2 O3 O4 O5 O6 O7].
  destruct (bitmap_ext s1 s2 st S2 Z2 A3) as [Ef Hm2]; [intros b Hb; apply Hvo; by intros ->|].
  destruct (file_inv_ext s1 s2 x1 nb1 st S2 Z2 Ef) as [Hi2 Hblk]; [|done|].
  { intros Hnz. apply Hvo. destruct (fi_ind _ _ _ _ A2 Hnz) as (_ & _ & H & _). intros E. by apply (H (off / 512) Hb0). }
  split; try done; try congruence.
  - apply R.
  - intros a Ha. rewrite Hblk by lia. by apply A6.
  - intros a Ha. rewrite Hblk by lia. by apply Anew.
  - intros k Hk. unfold bytes_of. change BSIZE with 512 in *. destruct (decide (k < nb1 * 512)) as [Hlt|Hge].
    + rewrite (rp_byte _ _ _ _ _ _ _ R) by (change BSIZE with 512; lia). unfold patched. case_decide; [done|]. assert (Hkb : 0 <= k / 512 < nb1) by (Z.div_mod_to_equations; lia).
      unfold file_byte. change BSIZE with 512. case_decide as Hk2.
      * assert (Hkb2 : 0 <= k / 512 < nb) by (Z.div_mod_to_equations; lia). rewrite A6 by done. destruct (fi_blk _ _ _ _ Hi _ Hkb2) as [P1 P2 P3 P4 P5 P6 P7].
        rewrite A9; [done|done|done|]. intros E. destruct (decide (ind_of x = 0)) as [E0|E0]; [congruence|]. destruct (fi_ind _ _ _ _ Hi E0) as (_ & _ & H' & _). by apply (H' (k / 512)).
      * rewrite A8 by (Z.div_mod_to_equations; lia). apply zero_data_byte.
    + unfold patched. rewrite !decide_False by lia. done.
  - intros b H1 H2 H3 H4. rewrite Hvo; [by apply A9|]. destruct (decide (off / 512 < nb)) as [Hlt|Hge].
    + rewrite A6 by lia. apply (H4 off); [lia|]. change BSIZE with 512. Z.div_mod_to_equations. lia.
    + intros ->. apply H1, Anew. lia.
  - by rewrite Ef.
  - rewrite (rp_disk _ _ _ _ _ _ _ R), (rp_trace _ _ _ _ _ _ _ R), Z2. done.
  - split; congruence.
  - intros i c me p He. apply (rp_env _ _ _ _ _ _ _ R). by apply A18.
Qed.

(** One turn of the loop. *)
Lemma grow_turn s i c me p st base D bl ip x nb src n tot off m :
  env s i c me p -> cache s (pid p) [] -> logging s st bl -> one_map s -> log_within s x base D bl -> Z.of_nat (length base + length D) + 5 < LOGSIZE ->
  bitmap_ok s st -> k_icache s !! ip = Some x -> file_inv s x nb st -> source_ok src n ->
  0 <= tot -> tot + m <= n -> 0 <= off <= nb * BSIZE -> 0 < m -> off mod BSIZE + m <= BSIZE -> off + m <= MAXFILE * BSIZE ->
  demand x nb (off / BSIZE + 1) <= Z.of_nat (length (free_list s)) ->
  let l := get_bytes (source_bytes src (k_mem s) n) tot m in
  exists s' x' bl' b, Z.of_nat (length l) = m /\ appended s s' (pid p) ip x x' nb (Z.max nb (off / BSIZE + 1)) st off l /\
    logging s' st bl' /\ log_within s x' base (b :: D) bl' /\ (ind_of x' <> ind_of x -> NDIRECT < Z.max nb (off / BSIZE + 1)) /\
    forall rest : KM Z, (addr <- bmap ip (off / BSIZE) ;; x <- get_inode ip ;; bp <- bread (i_dev x) addr ;; l <- fetch src tot m ;;
      set_data bp (fun d => put_bytes d (off mod BSIZE) l) ;;; log_write bp ;;; brelse bp ;;; rest) s = rest s'.
Proof.
  intros He Hc Hlog Hone Hw Hroom Hm Hx Hi Hs Ht Htm Ho Hm0 Hmb Hmax Hdem l. pose proof (fi_nb _ _ _ _ Hi) as Hnb. change BSIZE with 512 in *. change MAXFILE with 140 in *.
  assert (Hbn : 0 <= off / 512 <= nb) by (Z.div_mod_to_equations; lia). assert (Hbm : off / 512 < 140) by (Z.div_mod_to_equations; lia).
  destruct (bmap_any s i c me p st base D bl ip x nb (off / 512) He Hc Hlog Hone Hw Hroom Hm Hx Hi Hbn Hbm Hdem) as (s1 & x1 & bl1 & E1 & X1 & L1 & W1 & N1).
  set (nb1 := Z.max nb (off / 512 + 1)) in *. pose proof (ex_inv _ _ _ _ _ _ _ _ _ X1) as Hi1. set (b := blk s1 x1 (off / 512)) in *.
  assert (Hx1 : k_icache s1 !! ip = Some x1).
  { rewrite (ex_icache _ _ _ _ _ _ _ _ _ X1), list_lookup_insert_eq; [done|]. by eapply lookup_lt_Some. }
  pose proof (ex_env _ _ _ _ _ _ _ _ _ X1 _ _ _ _ He) as He1. pose proof (ex_cache _ _ _ _ _ _ _ _ _ X1) as Hc1. destruct (ex_sb _ _ _ _ _ _ _ _ _ X1) as [Es Em].
  assert (Hlen : Z.of_nat (length l) = m).
  { unfold l, get_bytes. rewrite length_take, length_drop. pose proof (source_length src (k_mem s) n ltac:(lia) Hs). lia. }
  assert (Hne : l <> []) by (intros E0; rewrite E0 in Hlen; cbn in Hlen; lia).
  assert (Hw1 : log_within s1 x1 base (b :: D) bl1) by (intros a Ha; unfold is_map; rewrite Es; exact (W1 a Ha)).
  pose proof (within_length _ _ _ _ _ _ L1 ltac:(unfold one_map; by rewrite Es) Hw1) as Hlen1. cbn [length] in Hlen1.
  assert (Hend : off + Z.of_nat (length l) <= nb1 * 512) by (unfold nb1; Z.div_mod_to_equations; lia).
  destruct (write_block Hpat s1 i c me p st bl1 x1 nb1 off l He1 Hc1 L1) as (s2 & E2 & L2 & R2);
    [case_decide; lia|by apply inv_file_ok in Hi1|by apply inv_file_sep|lia|by rewrite Hlen|done|done|]. change (blk s1 x1 (off / BSIZE)) with b in *.
  assert (Hb : block_ok s1 b) by (destruct (fi_blk _ _ _ _ Hi1 (off / 512)) as [_ O _ _ _ _ _]; [unfold nb1; lia|done]).
  destruct (peek_run Hpat s1 i c me p b He1 Hc1 (logging_roomy _ _ _ L1) Hb) as (k & y & s3 & E3 & _ & _ & _ & M3 & _).
  assert (Hnb1 : 0 <= nb <= nb1) by (unfold nb1; lia).
  exists s2, x1, (logged bl1 b), b. split; [done|]. split; [|split; [done|split; [|split; [done|]]]].
  - apply (extended_appended s s1 s2); try done; [lia|by rewrite Hlen].
  - intros a [Ha| ->]%logged_elem; [by apply W1|]. right. right. right. apply list_elem_of_here.
  - intros rest. krun E1. krun (get_inode_run s1 ip x1 Hx1). rewrite (fi_dev _ _ _ _ Hi1).
    apply (fetch_update s1 s3 s2 k b src tot m l _ _ E3); [|done]. rewrite (fetch_run src n) by (done || lia). by rewrite M3, Em.
Qed.

(** The blocks of [z] bytes. *)
Definition blocks (z : Z) : Z := (z + BSIZE - 1) / BSIZE.

(** The demand of the rest after a turn. *)
Lemma demand_step x x' nb nb' N used fr :
  demand x nb N <= used + fr -> used = weight x' nb' - weight x nb -> nb <= nb' <= Z.max nb N -> (ind_of x' <> ind_of x -> ind_of x = 0 /\ ind_of x' <> 0 /\ NDIRECT < nb') ->
  (ind_of x = 0 -> nb <= NDIRECT) -> demand x' nb' N <= fr.
Proof.
  unfold demand, weight. change NDIRECT with 12. intros H1 H2 H3 H4 H5. destruct (decide (ind_of x' = ind_of x)) as [E|E].
  - rewrite E in *. destruct (ind_of x =? 0); destruct (12 <? N) eqn:EN; cbn [andb] in *; lia.
  - destruct (H4 E) as (E0 & E1 & E2). specialize (H5 E0). rewrite E0 in *. apply Z.eqb_neq in E1. rewrite E1 in *. change (0 =? 0) with true in *.
    replace (12 <? N) with true in * by lia. cbn [andb] in *. lia.
Qed.

Lemma demand_mono x nb N N' : N <= N' -> demand x nb N <= demand x nb N'.
Proof. intros H. unfold demand. destruct (ind_of x =? 0); [|cbn; lia]. cbn [andb]. destruct (NDIRECT <? N) eqn:E1, (NDIRECT <? N') eqn:E2; lia. Qed.

Lemma appended_refl s n ip x nb st off :
  cache s n [] -> file_inv s x nb st -> bitmap_ok s st -> k_icache s !! ip = Some x -> appended s s n ip x x nb nb st off [].
Proof.
  intros Hc Hi Hm Hx. destruct (extended_refl s n ip x nb st Hc Hi Hm Hx) as [A1 A2 A3 A4 A5 A6 A7 A8 A9 A10 A11 A12 A13 A14]. split; try done.
  intros k Hk. unfold patched. rewrite decide_False by (cbn; lia). done.
Qed.

Lemma appended_ind s s' n ip x x' nb nb' st off l :
  bitmap_ok s st -> appended s s' n ip x x' nb nb' st off l -> (ind_of x' <> ind_of x -> NDIRECT < nb') -> ind_of x' <> ind_of x -> ind_of x = 0 /\ ind_of x' <> 0 /\ NDIRECT < nb'.
Proof.
  intros Hm A Hn Hne. destruct (ap_ind _ _ _ _ _ _ _ _ _ _ _ A) as [E|[E Hin]]; [done|]. destruct (bm_free _ _ Hm _ Hin) as (H & _). split; [done|]. split; [lia|auto].
Qed.

Lemma blocks_step off r N :
  0 <= off -> 0 < r -> blocks (off + r) = N -> let m := Z.min r (BSIZE - off mod BSIZE) in
  off / BSIZE + 1 <= N /\ (r = m -> N = off / BSIZE + 1) /\ off + m <= (off / BSIZE + 1) * BSIZE.
Proof. intros Ho Hr <- m. unfold blocks, m. change BSIZE with 512. split; [|split]; Z.div_mod_to_equations; lia. Qed.

Lemma grow_loop i c me p ip st src n base N fuel : forall s x nb D bl tot off,
  env s i c me p -> cache s (pid p) [] -> logging s st bl -> one_map s -> log_within s x base D bl ->
  Z.of_nat (length base + length D) + turns off (n - tot) + 4 < LOGSIZE ->
  bitmap_ok s st -> k_icache s !! ip = Some x -> file_inv s x nb st -> source_ok src n ->
  0 <= tot <= n -> 0 <= off <= nb * BSIZE -> off + (n - tot) <= MAXFILE * BSIZE -> (Z.to_nat (turns off (n - tot)) < fuel)%nat ->
  (tot < n -> blocks (off + (n - tot)) = N) -> demand x nb N <= Z.of_nat (length (free_list s)) ->
  exists s' x' bl' D', writei_loop fuel ip src tot off n s = Ret (off + (n - tot)) s' /\
    appended s s' (pid p) ip x x' nb (if tot <? n then Z.max nb N else nb) st off (get_bytes (source_bytes src (k_mem s) n) tot (n - tot)) /\
    logging s' st bl' /\ log_within s x' base D' bl' /\ Z.of_nat (length D') = Z.of_nat (length D) + turns off (n - tot).
Proof.
  induction fuel as [|fuel IH]; intros s x nb D bl tot off He Hc Hlog Hone Hw Hroom Hm Hx Hi Hs Ht Ho Hend Hfuel HN Hdem; [lia|]. cbn [writei_loop].
  destruct (tot <? n) eqn:E; cbn [negb].
  2:{ replace (n - tot) with 0 in * by lia. exists s, x, bl, D. rewrite Z.add_0_r. split; [done|]. split; [by apply appended_refl|]. split; [done|]. split; [done|].
      change (turns off 0) with 0. lia. }
  specialize (HN ltac:(lia)). destruct (turns_step off (n - tot) ltac:(lia) ltac:(lia)) as (Hm1 & Hts & _).
  destruct (blocks_step off (n - tot) N ltac:(lia) ltac:(lia) HN) as (HN1 & HN2 & HN3). set (m := Z.min _ _) in *.
  pose proof (turns_pos (off + m) (n - tot - m)) as Htp.
  assert (Hdem1 : demand x nb (off / BSIZE + 1) <= Z.of_nat (length (free_list s))) by (pose proof (demand_mono x nb (off / BSIZE + 1) N ltac:(lia)); lia).
  destruct (grow_turn s i c me p st base D bl ip x nb src n tot off m) as (s1 & x1 & bl1 & b & Hlen & A1 & L1 & W1 & N1 & ->);
    try done; [lia|lia|lia|lia|unfold m; lia|lia|].
  set (nb1 := Z.max nb (off / BSIZE + 1)) in *. pose proof A1 as [P1 P2 P3 P4 _ _ _ _ _ _ (u & P5 & P6) _ (P7 & P8) P9].
  assert (Hx1 : k_icache s1 !! ip = Some x1) by (rewrite P4, list_lookup_insert_eq; [done|]; by eapply lookup_lt_Some).
  assert (Hdem2 : demand x1 nb1 N <= Z.of_nat (length (free_list s1))).
  { apply (demand_step x x1 nb nb1 N (Z.of_nat (length u)) _); [|lia|unfold nb1; lia|by apply (appended_ind _ _ _ _ _ _ _ _ _ _ _ Hm A1)|].
    - rewrite P5, length_app in Hdem. lia.
    - intros E0. destruct (decide (NDIRECT < nb)) as [H|]; [by destruct (fi_need _ _ _ _ Hi H)|lia]. }
  destruct (IH s1 x1 nb1 (b :: D) bl1 (tot + m) (off + m)) as (s' & x' & bl' & D' & E4 & A4 & L4 & W4 & HD); try done.
  - auto.
  - unfold one_map. by rewrite P7.
  - intros a Ha. unfold is_map. rewrite P7. exact (W1 a Ha).
  - cbn [length]. replace (n - (tot + m)) with (n - tot - m) by lia. lia.
  - lia.
  - split; [lia|]. unfold nb1. change BSIZE with 512 in *. lia.
  - lia.
  - replace (n - (tot + m)) with (n - tot - m) by lia. lia.
  - intros _. rewrite <- HN. f_equal. lia.
  - exists s', x', bl', D'. rewrite E4. replace (n - (tot + m)) with (n - tot - m) in * by lia. split; [f_equal; lia|]. split; [|split; [done|split]].
    + replace (get_bytes _ tot (n - tot)) with (get_bytes (source_bytes src (k_mem s) n) tot m ++ get_bytes (source_bytes src (k_mem s) n) (tot + m) (n - tot - m)).
      2:{ unfold get_bytes. replace (Z.to_nat (n - tot)) with (Z.to_nat m + Z.to_nat (n - tot - m))%nat by lia. rewrite <- take_take_drop, drop_drop. do 3 f_equal. lia. }
      rewrite P8 in A4. replace (if tot + m <? n then Z.max nb1 N else nb1) with (Z.max nb N) in A4 by (unfold nb1; destruct (tot + m <? n) eqn:Em; lia).
      apply (appended_trans s s1 s' (pid p) ip x x1 x' nb nb1); try done; [pose proof (fi_nb _ _ _ _ Hi); unfold nb1; lia|unfold nb1; lia|lia|by rewrite Hlen].
    + intros a Ha. destruct (W4 a Ha) as [?|[?|[?|?]]]; [by left| |by right; right; left|by right; right; right]. right. left. unfold is_map in *. by rewrite P7 in *.
    + cbn [length] in HD. lia.
Qed.

(** ** The size *)

Lemma file_inv_addrs s x nb st : file_inv s x nb st -> Forall (fun v => 0 <= v < 4294967296) (i_addrs x).
Proof.
  intros Hi. apply Forall_lookup. intros k v Hk. pose proof (lookup_lt_Some _ _ _ Hk) as Hlt. rewrite (fi_addrs _ _ _ _ Hi) in Hlt.
  assert (Ev : v = addr_of x (Z.of_nat k)) by (unfold addr_of; by rewrite Nat2Z.id, Hk).
  assert (Hown : forall b, owned s x st b -> 0 <= b < 4294967296) by (intros b [_ H1 _ H2 _ _ _]; unfold block_ok in H1; lia). rewrite Ev.
  destruct (decide (Z.of_nat k = NDIRECT)) as [->|Hn].
  - change (addr_of x NDIRECT) with (ind_of x). destruct (decide (ind_of x = 0)) as [->|H0]; [lia|]. apply Hown. by apply (fi_ind _ _ _ _ Hi).
  - assert (Z.of_nat k < NDIRECT) by (change NDIRECT with 12 in *; lia). destruct (decide (Z.of_nat k < nb)) as [Hb|Hb]; [|rewrite (fi_none _ _ _ _ Hi) by lia; lia].
    apply Hown. pose proof (fi_blk _ _ _ _ Hi (Z.of_nat k) ltac:(lia)) as O. unfold blk in O. by replace (Z.of_nat k <? NDIRECT) with true in O by lia.
Qed.

Lemma file_inv_resized s x nb st z : file_inv s x nb st -> file_inv s (resized x z) nb st.
Proof.
  intros [F1 F2 F3 F4 F5 F6 F7 F8 F9 F10]. split; try done.
  - intros a Ha. destruct (F4 a Ha). by split.
  - intros Hn. destruct (F8 Hn) as ([O1 O2 O3 O4 O5 O6 O7] & H). by split.
Qed.

(** Writing the inode back changes nothing of the file. *)
Lemma resize_keeps s s' x nb st z :
  k_sb s' = k_sb s -> k_disksize s' = k_disksize s -> (forall b, b <> iblock s x -> view s' b = view s b) -> file_inv s x nb st -> bitmap_ok s st ->
  file_inv s' (resized x z) nb st /\ bitmap_ok s' st /\ free_list s' = free_list s /\ forall k, 0 <= k -> bytes_of s' (resized x z) nb k = bytes_of s x nb k.
Proof.
  intros E1 E2 Hv Hi Hm. destruct (fi_home _ _ _ _ Hi) as (_ & _ & _ & _ & Hnm).
  destruct (bitmap_ext s s' st E1 E2 Hm) as [Ef Hm']; [intros b Hb; apply Hv; by intros ->|].
  destruct (file_inv_ext s s' x nb st E1 E2 Ef) as [Hi' Hb]; [|done|].
  { intros Hn. apply Hv. by destruct (fi_ind _ _ _ _ Hi Hn) as ([] & _). }
  split; [by apply file_inv_resized|]. split; [done|]. split; [done|]. intros k Hk. unfold bytes_of. case_decide as Hlt; [|done].
  assert (Hkb : 0 <= k / BSIZE < nb) by (change BSIZE with 512 in *; Z.div_mod_to_equations; lia).
  change (file_byte s' (resized x z) k) with (file_byte s' x k). unfold file_byte. rewrite Hb by done. rewrite Hv; [done|]. by destruct (fi_blk _ _ _ _ Hi _ Hkb).
Qed.

Lemma image_ok s x nb st z :
  file_inv s x nb st -> Forall (fun v => -32768 <= v < 32768) [i_type x; i_major x; i_minor x; i_nlink x] -> 0 <= z < 4294967296 -> dinode_ok (inode_image (resized x z)).
Proof. intros Hi Hsh Hz. split; [exact Hsh|exact Hz|]. split; [apply (fi_addrs _ _ _ _ Hi)|by apply (file_inv_addrs s x nb st)]. Qed.

(** [writei] from the end of its loop on. *)
Lemma writei_after_loop s s1 ip x x1 src off n :
  k_icache s !! ip = Some x -> i_type x <> T_DEV -> 0 <= off <= i_size x -> 0 < n -> off + n <= MAXFILE * BSIZE ->
  writei_loop (io_fuel n) ip src 0 off n s = Ret (off + n) s1 -> k_icache s1 !! ip = Some x1 -> i_size x1 = i_size x ->
  writei ip src off n s = ((when i_size x <? off + n do (set_inode ip (fun x => x <| i_size := off + n |>) ;;; iupdate ip)) ;;; kret n) s1.
Proof.
  intros Hx Hty Ho Hn Hmax E1 Hx1 Hs1. apply Z.eqb_neq in Hty. assert (Hmax' : off + n <= 71680) by (exact Hmax).
  unfold writei. krun (get_inode_run s ip x Hx). rewrite Hty, u32_id by lia.
  replace ((i_size x <? off) || (off + n <? off)) with false by (symmetry; apply orb_false_intro; lia).
  replace (MAXFILE * BSIZE <? off + n) with false by lia. krun E1. krun (get_inode_run s1 ip x1 Hx1).
  replace (0 <? n) with true by lia. by rewrite Hs1.
Qed.

(** C39: [writei] makes a file grow.  Inside a transaction with room in the log
    and with enough free blocks, a write that starts inside the file and ends
    below the maximal size returns its length: the bytes of the range are
    replaced, new blocks are zero where they were not written, the missing
    blocks and the indirect block come from the front of the free list, the
    slot of the inode has the new size and block numbers, and the file is again
    well formed.  Blocks of other owners do not change, the disk is unchanged,
    and the log gets no more than a block for each block of the range, the
    bitmap, the indirect block and the inode. *)
Theorem writei_grows (s : kernel) i c me p st bl ip x nb src off n :
  env s i c me p -> cache s (pid p) [] -> logging s st bl -> one_map s -> bitmap_ok s st -> k_icache s !! ip = Some x -> file_inv s x nb st ->
  i_type x <> T_DEV -> Forall (fun v => -32768 <= v < 32768) [i_type x; i_major x; i_minor x; i_nlink x] ->
  0 <= off <= i_size x -> i_size x <= nb * BSIZE -> 0 < n -> off + n <= MAXFILE * BSIZE -> source_ok src n ->
  Z.of_nat (length bl) + turns off n + 4 < LOGSIZE ->
  let nb' := Z.max nb (blocks (off + n)) in
  demand x nb nb' <= Z.of_nat (length (free_list s)) ->
  exists s' x' bl', writei ip src off n s = Ret n s' /\ cache s' (pid p) [] /\ k_icache s' = <[ip := x']> (k_icache s) /\
    (exists la, x' = resized (x <| i_addrs := la |>) (Z.max (i_size x) (off + n))) /\ file_inv s' x' nb' st /\ bitmap_ok s' st /\
    (forall k, 0 <= k -> bytes_of s' x' nb' k = patched (bytes_of s x nb) off (source_bytes src (k_mem s) n) k) /\
    (forall b, b ∉ free_list s -> ~ is_map s b -> b <> ind_of x -> b <> iblock s x -> (forall a, 0 <= a < nb -> b <> blk s x a) -> view s' b = view s b) /\
    (exists used, free_list s = used ++ free_list s' /\ Z.of_nat (length used) = weight x' nb' - weight x nb) /\
    (i_size x < off + n -> decode_dinode (view s' (iblock s x)) (slot_of x) = inode_image x') /\
    logging s' st bl' /\ Z.of_nat (length bl') <= Z.of_nat (length bl) + turns off n + 3 /\ k_disk s' = k_disk s /\ k_dwrites s' = k_dwrites s.
Proof.
  intros He Hc Hlog Hone Hm Hx Hi Hty Hsh Ho Hsz Hn Hmax Hs Hroom nb' Hdem. pose proof (fi_nb _ _ _ _ Hi) as Hnb.
  assert (Hmax' : off + n <= 71680) by (exact Hmax).
  destruct (grow_loop i c me p ip st src n bl (blocks (off + n)) (io_fuel n) s x nb [] bl 0 off He Hc Hlog Hone (within_self s x bl)) as (s1 & x1 & bl1 & D & E1 & A1 & L1 & W1 & HD);
    rewrite ?Z.sub_0_r; try done; [rewrite Nat.add_0_r; lia|lia|lia|apply turns_fuel; lia| |].
  { pose proof (demand_mono x nb (blocks (off + n)) nb' ltac:(unfold nb'; lia)). lia. }
  rewrite Z.sub_0_r in *. replace (0 <? n) with true in A1 by lia. fold nb' in A1. cbn [length] in HD.
  replace (get_bytes _ 0 n) with (source_bytes src (k_mem s) n) in A1.
  2:{ unfold get_bytes. rewrite drop_0. symmetry. apply take_ge. pose proof (source_length src (k_mem s) n ltac:(lia) Hs). lia. }
  pose proof A1 as [P1 P2 P3 P4 (la & Px) P6 P7 P8 P9 P10 (u & P11 & P12) (P13 & P14 & P15) (P16 & P17) P18].
  assert (Hx1 : k_icache s1 !! ip = Some x1) by (rewrite P4, list_lookup_insert_eq; [done|]; by eapply lookup_lt_Some).
  assert (Hx1f : i_size x1 = i_size x /\ i_dev x1 = 1 /\ iblock s1 x1 = iblock s x /\ slot_of x1 = slot_of x).
  { unfold iblock, slot_of. rewrite P16, Px. split; [done|]. split; [apply (fi_dev _ _ _ _ Hi)|done]. }
  destruct Hx1f as (Hs1 & Hd1 & Hib & Hsl). assert (Hlen1 : Z.of_nat (length bl1) <= Z.of_nat (length bl) + turns off n + 2).
  { pose proof (within_length s1 x1 bl D bl1 st L1 ltac:(unfold one_map; by rewrite P16) ltac:(intros a Ha; unfold is_map; rewrite P16; exact (W1 a Ha))). case_decide; lia. }
  rewrite (writei_after_loop s s1 ip x x1 src off n Hx Hty Ho Hn Hmax E1 Hx1 Hs1). destruct (i_size x <? off + n) eqn:Eg.
  - assert (Hok : dinode_ok (inode_image (resized x1 (off + n)))) by (apply (image_ok s1 x1 nb' st); [done|by rewrite Px|lia]).
    destruct (resize_run Hpat s1 i c me p st bl1 ip x1 nb' (off + n) (P18 _ _ _ _ He) P1 L1 ltac:(lia) Hx1 Hd1 Hok (inv_inode_home _ _ _ _ P2))
      as (s2 & E2 & X2 & L2 & C2 & D2 & V2 & K2 & T2 & N2 & Z2 & B2). rewrite Hib, Hsl in *.
    destruct (resize_keeps s1 s2 x1 nb' st (off + n) B2 Z2 ltac:(by rewrite Hib) P2 P3) as (Hi2 & Hm2 & Hf2 & Hb2).
    exists s2, (resized x1 (off + n)), (logged bl1 (iblock s x)). split; [by krun E2|]. split; [done|]. split; [by rewrite X2, P4, list_insert_insert_eq|].
    split; [exists la; rewrite Z.max_r by lia; by rewrite Px|]. split; [done|]. split; [done|]. split; [intros k Hk; rewrite Hb2 by done; by apply P9|].
    split. { intros b H1 H2 H3 H4 H5. rewrite V2 by done. apply P10; try done. intros k Hk Hk2. apply H5. change BSIZE with 512 in *. Z.div_mod_to_equations. lia. }
    split; [exists u; by rewrite Hf2|]. split; [done|]. split; [done|]. pose proof (logged_length Hpat bl1 (iblock s x)). split; [lia|]. split; congruence.
  - exists s1, x1, bl1. split; [done|]. split; [done|]. split; [done|]. split; [exists la; rewrite Z.max_l by lia; rewrite Px; by destruct x|].
    split; [done|]. split; [done|]. split; [done|].
    split. { intros b H1 H2 H3 H4 H5. apply P10; try done. intros k Hk Hk2. apply H5. change BSIZE with 512 in *. Z.div_mod_to_equations. lia. }
    split; [by exists u|]. split; [lia|]. split; [done|]. split; [lia|done].
Qed.
End Grow.

(** ** A concrete file *)

(** Inode 19 has twelve full blocks, 100 to 111; blocks 60 to 99 and those from
    112 on are free. *)
Definition grow_map : list Z := replicate 7 255 ++ 15 :: replicate 4 0 ++ 240 :: 255 :: replicate 498 0.
Definition grow_inode : inode :=
  zero_inode <| i_dev := 1 |> <| i_inum := 19 |> <| i_type := 2 |> <| i_nlink := 1 |> <| i_size := 6144 |> <| i_addrs := seqZ 100 12 ++ [0] |>.
Definition demo_grow : kernel :=
  (with_bufs [] {[58 := grow_map]}) <| k_log := mk_log 2 30 1 0 1 0 (replicate 30 0) |> <| k_sb := mk_superblock 1000 941 200 30 2 32 58 |>
    <| k_icache ::= insert 0%nat grow_inode |>.

Lemma demo_grow_env : env demo_grow 0 run_cpu 0 run_proc.
Proof. exact (env_ext running demo_grow 0 run_cpu 0 run_proc running_env eq_refl eq_refl eq_refl eq_refl eq_refl eq_refl). Qed.

Lemma demo_grow_cache : cache demo_grow (pid run_proc) [].
Proof.
  assert (H : forall b, length (disk_block (with_bufs [] {[58 := grow_map]}) b) = 512%nat).
  { intros b. unfold disk_block. cbn. destruct (decide (b = 58)) as [->|]; [by rewrite lookup_singleton_eq|by rewrite lookup_singleton_ne]. }
  apply cache_other, with_bufs_cache; [unfold NBUF; cbn; lia|exact H|constructor|constructor].
Qed.

Lemma demo_grow_logging : logging demo_grow 2 [].
Proof. apply (logging_ext demo_open); [apply demo_open_logging|reflexivity|reflexivity|reflexivity]. Qed.

Lemma demo_grow_free b : b ∈ free_list demo_grow <-> 60 <= b < 100 \/ 112 <= b < 1000.
Proof.
  assert (E : free_list demo_grow = seqZ 60 40 ++ seqZ 112 888) by (vm_compute; reflexivity). rewrite E, elem_of_app, !elem_of_seqZ. lia.
Qed.

Lemma demo_grow_map b : is_map demo_grow b -> b = 58.
Proof. intros [H1 H2]. change (58 <= b) in H1. change (b <= 58) in H2. lia. Qed.

Lemma demo_grow_bitmap : bitmap_ok demo_grow 2.
Proof.
  split; try (vm_compute; done).
  - intros b ->%demo_grow_map. right. vm_compute. discriminate.
  - intros b Hb%demo_grow_free. change LOGSIZE with 30. split; [lia|]. split; [intros ->%demo_grow_map; lia|lia].
Qed.

Lemma demo_grow_blk a : 0 <= a < 12 -> blk demo_grow grow_inode a = 100 + a.
Proof.
  intros Ha. assert (H : Forall (fun a => blk demo_grow grow_inode a = 100 + a) (seqZ 0 12)) by (apply (bool_decide_unpack _); vm_compute; exact I).
  rewrite Forall_forall in H. apply H. apply elem_of_seqZ. lia.
Qed.

Lemma demo_grow_inv : file_inv demo_grow grow_inode 12 2.
Proof.
  assert (Hi : iblock demo_grow grow_inode = 34) by (vm_compute; reflexivity).
  split; try (vm_compute; done); try (cbn; lia).
  - intros a Ha. rewrite demo_grow_blk by done. split; rewrite ?Hi, ?demo_grow_free; unfold block_ok; change (k_disksize demo_grow) with 1000; change (sb_size (k_sb demo_grow)) with 1000; change LOGSIZE with 30; try lia.
    intros ?%demo_grow_map. lia.
  - intros a b Ha Hb. rewrite !demo_grow_blk by done. lia.
  - change NDIRECT with 12. lia.
  - rewrite Hi, demo_grow_free. unfold block_ok. change (k_disksize demo_grow) with 1000. change LOGSIZE with 30. split; [lia|]. split; [lia|]. split; [lia|]. split; [lia|].
    by intros ?%demo_grow_map.
Qed.

Lemma writei_grows_witness : exists s' x' bl', writei (Pt := 1%nat) 0 (Bytes (replicate 100 7)) 6100 100 demo_grow = Ret 100 s' /\
  logging s' 2 bl' /\ (length bl' <= 5)%nat /\ i_size x' = 6200 /\ k_icache s' !! 0%nat = Some x' /\
  bytes_of s' x' 13 6150 = 7 /\ bytes_of s' x' 13 6300 = 0 /\ decode_dinode (view s' 34) 192 = inode_image x'.
Proof.
  assert (Hd : demand grow_inode 12 (Z.max 12 (blocks (6100 + 100))) <= Z.of_nat (length (free_list demo_grow))) by (vm_compute; discriminate).
  destruct (writei_grows (Pt := 1%nat) ltac:(unfold patience; lia) demo_grow 0 run_cpu 0 run_proc 2 [] 0%nat grow_inode 12 (Bytes (replicate 100 7)) 6100 100)
    as (s' & x' & bl' & H1 & _ & H2 & (la & H3) & _ & _ & H4 & _ & _ & H5 & H6 & H7 & _).
  - apply demo_grow_env.
  - apply demo_grow_cache.
  - apply demo_grow_logging.
  - vm_compute. split; [discriminate|reflexivity].
  - apply demo_grow_bitmap.
  - vm_compute. reflexivity.
  - apply demo_grow_inv.
  - discriminate.
  - repeat constructor; cbn; lia.
  - cbn. lia.
  - vm_compute. discriminate.
  - lia.
  - vm_compute. discriminate.
  - reflexivity.
  - vm_compute. reflexivity.
  - exact Hd.
  - change (Z.max 12 (blocks (6100 + 100))) with 13 in *. exists s', x', bl'. split; [exact H1|]. split; [exact H6|].
    split; [change (turns 6100 100) with 2 in H7; cbn [length] in H7; lia|]. split; [rewrite H3; reflexivity|].
    split; [rewrite H2; reflexivity|]. rewrite !H4 by lia. split; [reflexivity|]. split; [|exact (H5 eq_refl)].
    unfold patched. rewrite decide_False by (cbn; lia). reflexivity.
Defined.
