(* ===== verification/DirSpec.v ===== *)
(** * Directories

    The inode cache hands out one entry per inode, and [dirlookup] finds the
    entry of a name in the bytes of a directory. *)

From stdpp Require Import base gmap strings list fin_maps.
From Stdlib Require Import ZArith Lia.
From S2P Require Import Prelude Mem Types Spinlock Kalloc Vm Proc ProcSpec Access Bytes Sleeplock Steady Disk Bio BioSpec Log LogSpec Inode TxnSpec Console Fs FileSpec.

(** ** The inode cache *)

Definition upd_inode (k : nat) (f : inode -> inode) (s : kernel) : kernel := s <| k_icache ::= alter f k |>.

Definition caches (inum : Z) (x : inode) : Prop := 0 < i_ref x /\ i_dev x = 1 /\ i_inum x = inum.
#[export] Instance caches_dec inum x : Decision (caches inum x).
Proof. unfold caches. apply _. Defined.

(** A reference to inode [inum] taken on its entry, or on an empty one. *)
Definition take_ref (inum : Z) (x : inode) : inode :=
  if decide (0 < i_ref x) then x <| i_ref ::= fun n => n + 1 |>
  else x <| i_dev := 1 |> <| i_inum := inum |> <| i_ref := 1 |> <| i_valid := 0 |>.

(** The entry that [iget] chooses: that of the inode, or if there is none an
    empty one. *)
Definition slot_for (s : kernel) (inum : Z) (ip : nat) : Prop :=
  exists x, k_icache s !! ip = Some x /\
    (caches inum x \/ i_ref x = 0 /\ forall j y, k_icache s !! j = Some y -> ~ caches inum y).

Lemma env_upd_inode s i c me p k f : env s i c me p -> env (upd_inode k f s) i c me p.
Proof. intros H. by apply (env_ext s). Qed.
#[export] Hint Resolve env_upd_inode : kern.

Lemma caches_true inum x : (0 <? i_ref x) && (i_dev x =? 1) && (i_inum x =? inum) = bool_decide (caches inum x).
Proof. apply eq_true_iff_eq. rewrite !andb_true_iff, Z.ltb_lt, !Z.eqb_eq, bool_decide_eq_true. unfold caches. tauto. Qed.

Lemma set_inode_acq s i l k f : set_inode k f (acq i l s) = Ret tt (acq i l (upd_inode k f s)).
Proof. done. Qed.

Lemma iget_scan_found s i c me p inum l : forall e ip x,
  env s i c me p -> (forall j, j ∈ l -> (j < length (k_icache s))%nat) ->
  ip ∈ l -> k_icache s !! ip = Some x -> caches inum x ->
  exists jp y, k_icache s !! jp = Some y /\ caches inum y /\
    iget_scan 1 inum l e (acq i Licache s) = Ret (inl jp) (upd_inode jp (take_ref inum) s).
Proof.
  induction l as [|j l IH]; intros e ip x He Hl Hip Hx Hc; [by apply not_elem_of_nil in Hip|]. cbn [iget_scan].
  destruct (lookup_lt_is_Some_2 (k_icache s) j) as [y Hy]; [apply Hl; apply list_elem_of_here|].
  krun (get_inode_run (acq i Licache s) j y Hy). rewrite caches_true. destruct (decide (caches inum y)) as [Hcy|Hcy].
  - rewrite (bool_decide_eq_true_2 _ Hcy). exists j, y. split; [done|]. split; [done|].
    set (f := fun x : inode => x <| i_ref ::= fun n => n + 1 |>). krun (set_inode_acq s i Licache j f).
    krun (env_release _ i c me p Licache (env_upd_inode _ _ _ _ _ j f He) I). unfold kret. f_equal.
    unfold upd_inode, update, upd_k_icache. f_equal. apply list_alter_ext; [|done]. intros z Hz. simplify_eq.
    unfold take_ref. by rewrite decide_True by apply Hcy.
  - rewrite (bool_decide_eq_false_2 _ Hcy). apply (IH _ ip x); [done| |  |done|done].
    + intros j' Hj'. apply Hl. by apply list_elem_of_further.
    + apply elem_of_cons in Hip as [->|Hip]; [|done]. by simplify_eq.
Qed.

Lemma iget_scan_none s i inum l : forall e,
  (forall j, j ∈ l -> exists y, k_icache s !! j = Some y /\ ~ caches inum y) ->
  exists r, iget_scan 1 inum l e (acq i Licache s) = Ret (inr r) (acq i Licache s) /\
    match e, r with
    | Some k, _ => r = Some k
    | None, Some k => exists y, k_icache s !! k = Some y /\ i_ref y = 0
    | None, None => forall j y, j ∈ l -> k_icache s !! j = Some y -> i_ref y <> 0
    end.
Proof.
  induction l as [|j l IH]; intros e Hl; cbn [iget_scan].
  { exists e. split; [done|]. destruct e; [done|]. by intros j y ?%not_elem_of_nil. }
  destruct (Hl j) as (y & Hy & Hcy); [apply list_elem_of_here|].
  krun (get_inode_run (acq i Licache s) j y Hy). rewrite caches_true, (bool_decide_eq_false_2 _ Hcy).
  destruct (IH (match e with None => if i_ref y =? 0 then Some j else None | Some e0 => Some e0 end)) as (r & E & Hr).
  { intros j' Hj'. apply Hl. by apply list_elem_of_further. }
  exists r. split; [done|]. destruct e as [k|]; [done|]. destruct (Z.eqb_spec (i_ref y) 0) as [E0|E0].
  - subst r. by exists y.
  - destruct r as [k|]; [done|]. intros j' y' [->|Hj']%elem_of_cons Hy'; [by simplify_eq|by apply (Hr j')].
Qed.

Lemma upd_inode_compose s k f g : upd_inode k g (upd_inode k f s) = upd_inode k (fun x => g (f x)) s.
Proof. unfold upd_inode, update, upd_k_icache. cbn. f_equal. apply list_alter_alter_eq. Qed.

Lemma upd_inode_ext s k f g : (forall x, k_icache s !! k = Some x -> f x = g x) -> upd_inode k f s = upd_inode k g s.
Proof. intros H. unfold upd_inode, update, upd_k_icache. f_equal. apply list_alter_ext; [|done]. intros x Hx. by apply H. Qed.

(** [iget] returns, if an entry is empty: the entry of the inode has one more
    reference, or an empty entry has its first. *)
Lemma iget_run s i c me p inum :
  env s i c me p -> length (k_icache s) = NINODE -> (exists k x, k_icache s !! k = Some x /\ i_ref x = 0) ->
  exists ip, slot_for s inum ip /\ iget 1 inum s = Ret ip (upd_inode ip (take_ref inum) s).
Proof.
  intros He Hlen (k0 & x0 & Hk0 & Hr0). unfold iget. krun (env_acquire s i c me p Licache He I).
  assert (Hall : forall j, j ∈ seq 0 NINODE -> (j < length (k_icache s))%nat) by (intros j Hj%elem_of_seq; lia).
  assert (Hin : forall j y, k_icache s !! j = Some y -> j ∈ seq 0 NINODE) by (intros j y Hy%lookup_lt_Some; apply elem_of_seq; lia).
  destruct (list_find (caches inum) (k_icache s)) as [[ip x]|] eqn:Ef.
  { apply list_find_Some in Ef as (Hx & Hc & _).
    destruct (iget_scan_found s i c me p inum (seq 0 NINODE) None ip x He Hall (Hin _ _ Hx) Hx Hc) as (jp & y & Hy & Hcy & E).
    exists jp. split; [exists y; auto|]. by krun E. }
  assert (Hno : forall j y, k_icache s !! j = Some y -> ~ caches inum y).
  { intros j y Hy. apply list_find_None in Ef. rewrite Forall_forall in Ef. apply Ef. by eapply list_elem_of_lookup_2. }
  destruct (iget_scan_none s i inum (seq 0 NINODE) None) as (r & E & Hr).
  { intros j Hj%Hall. destruct (lookup_lt_is_Some_2 _ _ Hj) as [y Hy]. exists y. split; [done|]. by apply (Hno j). }
  krun E. destruct r as [k|]; [|by destruct (Hr k0 x0 (Hin _ _ Hk0) Hk0)]. destruct Hr as (y & Hy & Hry).
  exists k. split; [exists y; auto|]. krun (set_inode_acq s i Licache k (fun x => x <| i_dev := 1 |>)).
  do 3 (unfold kbind at 1; rewrite set_inode_acq; cbn [obind]). rewrite !upd_inode_compose.
  set (f := fun x : inode => _). krun (env_release _ i c me p Licache (env_upd_inode _ _ _ _ _ k f He) I). unfold kret. f_equal.
  apply upd_inode_ext. intros z Hz. simplify_eq. unfold f, take_ref. rewrite decide_False by lia. done.
Qed.

(** ** Names *)

(** The characters of a name before its final zero. *)
Fixpoint cname (l : list Z) : list Z :=
  match l with
  | [] => []
  | c :: l' => if c =? 0 then [] else c :: cname l'
  end.

Lemma cname_strncpy nm n : 0 ∉ nm -> cname (strncpy_str nm n) = take n nm.
Proof.
  unfold strncpy_str. revert n. induction nm as [|ch nm IH]; intros n Hz.
  - rewrite take_nil. by destruct n.
  - apply not_elem_of_cons in Hz as [Hch Hz]. destruct n as [|n]; [done|]. cbn [take app length cname]. replace (ch =? 0) with false by lia. f_equal. by apply (IH n).
Qed.

Lemma strncmp_cname n : forall p q, 0 ∉ p -> length q = n -> strncmp_str p q n = 0 <-> take n p = cname q.
Proof.
  induction n as [|n IH]; intros p q Hp Hq; [destruct q; [|done]; by destruct p|]. destruct q as [|d q]; [done|].
  cbn [strncmp_str head tail default cname]. destruct p as [|c p]; cbn [head tail default option_map].
  - change (c_true 0 && (0 =? id d)) with false. cbn [take]. unfold id. destruct (Z.eqb_spec d 0); [subst; done|]. split; [lia|done].
  - apply not_elem_of_cons in Hp as [Hc Hp]. cbn. unfold c_true, id. replace (negb (c =? 0)) with true by lia. cbn [andb].
    destruct (Z.eqb_spec c d) as [->|Hne].
    + replace (d =? 0) with false by lia. rewrite IH by (done || (cbn in Hq; lia)). split; [intros ->; done|by intros [= ->]].
    + split; [lia|]. destruct (d =? 0); [done|]. intros [= ->]. done.
Qed.

(** ** Looking a name up *)

(** Entry [k] of the directory [x]. *)
Definition entry (s : kernel) (x : inode) (k : Z) : dirent := decode_dirent (file_byte s x <$> seqZ (k * DIRENT_SIZE) DIRENT_SIZE).
Definition entry_named (name : list Z) (de : dirent) : Prop := de_inum de <> 0 /\ cname (de_name de) = name.
#[export] Instance entry_named_dec name de : Decision (entry_named name de).
Proof. unfold entry_named. apply _. Defined.

(** The first entry among [ks] with the name. *)
Definition search (f : Z -> dirent) (name : list Z) (ks : list Z) : option Z := snd <$> list_find (fun k => entry_named name (f k)) ks.

Definition dir_entries (x : inode) : list Z := seqZ 0 (i_size x / DIRENT_SIZE).

Lemma search_cons f name k ks : search f name (k :: ks) = if decide (entry_named name (f k)) then Some k else search f name ks.
Proof.
  unfold search. cbn. case_decide; [done|]. by destruct (list_find _ ks) as [[]|].
Qed.

Lemma search_ext f g name ks : (forall k, f k = g k) -> search f name ks = search g name ks.
Proof. intros H. induction ks as [|k ks IH]; [done|]. by rewrite !search_cons, H, IH. Qed.

(** A directory that can be read: its blocks are allocated and it is a whole
    number of entries long. *)
Record dir_ok (s : kernel) (x : inode) : Prop := {
  dk_type : i_type x = T_DIR;
  dk_blocks : exists nb, file_ok s x nb /\ i_size x <= nb * BSIZE;
  dk_size : 0 <= i_size x /\ i_size x mod DIRENT_SIZE = 0
}.

Section Dirs.
Context `{Pt : Patience} (Hpat : (0 < patience)%nat).

Lemma quiet_entry s s' n m x k : quiet s s' n m -> entry s' x k = entry s x k.
Proof. intros Q. unfold entry. by rewrite (quiet_bytes _ _ _ _ _ _ Q). Qed.

Lemma quiet_dir_ok s s' n m x : quiet s s' n m -> dir_ok s x -> dir_ok s' x.
Proof. intros Q [D1 (nb & D2 & D3) D4]. split; [done| |done]. exists nb. split; [exact (quiet_file_ok _ _ _ _ _ _ Q D2)|done]. Qed.

Lemma read_entry s i c me p dp x k :
  env s i c me p -> cache s (pid p) [] -> roomy s -> k_icache s !! dp = Some x -> dir_ok s x -> k ∈ dir_entries x ->
  exists s', readi dp Local (k * DIRENT_SIZE) DIRENT_SIZE s = Ret (DIRENT_SIZE, file_byte s x <$> seqZ (k * DIRENT_SIZE) DIRENT_SIZE) s' /\
    quiet s s' (pid p) (k_mem s).
Proof.
  intros He Hc Hr Hx [Hty (nb & Hf & Hnb) [Hsz Hmod]] Hk. apply elem_of_seqZ in Hk. pose proof (fo_max _ _ _ Hf) as Hmax.
  change MAXFILE with 140 in Hmax. change DIRENT_SIZE with 16 in *. change BSIZE with 512 in *.
  assert (Hend : k * 16 + 16 <= i_size x) by (Z.div_mod_to_equations; lia).
  pose proof (readi_run Hpat s i c me p dp x nb Local (k * 16) 16 He Hc Hr Hx Hf) as H. rewrite decide_False in H by lia.
  destruct H as (s' & E & Q); [by rewrite Hty|change BSIZE with 512; lia|lia|lia|done|].
  rewrite Z.min_l in E by lia. by exists s'.
Qed.

(** The body of the loop of [dirlookup]. *)
Definition lookup_at (dp : nat) (name : list Z) (off : Z) : KM (option (nat * Z)) :=
  r <- readi dp Local off DIRENT_SIZE ;;
  if negb (fst r =? DIRENT_SIZE) then kpanic "dirlookup read" else
  let de := decode_dirent (snd r) in
  if de_inum de =? 0 then kret None else
  if namecmp name (de_name de) =? 0 then
    x <- get_inode dp ;;
    ip <- iget (i_dev x) (de_inum de) ;;
    kret (Some (ip, off))
  else kret None.

(** What a lookup needs of the state. *)
Record lookup_env (s : kernel) (n : Z) (dp : nat) (x : inode) : Prop := {
  le_cache : cache s n [];
  le_roomy : roomy s;
  le_inode : k_icache s !! dp = Some x;
  le_dir : dir_ok s x;
  le_dev : i_dev x = 1;
  le_len : length (k_icache s) = NINODE;
  le_free : exists k x, k_icache s !! k = Some x /\ i_ref x = 0
}.

Lemma quiet_lookup_env s s' n m dp x : quiet s s' n m -> lookup_env s n dp x -> lookup_env s' n dp x.
Proof.
  intros Q [L1 L2 L3 L4 L5 L6 L7]. pose proof (quiet_icache _ _ _ _ Q) as I. split; rewrite ?I; try done; [apply Q| |].
  - exact (quiet_roomy _ _ _ _ Q L2).
  - exact (quiet_dir_ok _ _ _ _ _ Q L4).
Qed.

Lemma quiet_slot_for s s' n m inum ip : quiet s s' n m -> slot_for s' inum ip -> slot_for s inum ip.
Proof. intros Q. unfold slot_for. by rewrite (quiet_icache _ _ _ _ Q). Qed.

(** What a lookup returns for entry [k]. *)
Definition found (s : kernel) (n : Z) (x : inode) (k : Z) (o : outcome kernel (option (nat * Z))) : Prop :=
  exists s' ip, let inum := de_inum (entry s x k) in quiet s s' n (k_mem s) /\ slot_for s inum ip /\
    o = Ret (Some (ip, k * DIRENT_SIZE)) (upd_inode ip (take_ref inum) s').
Definition not_found (s : kernel) (n : Z) (o : outcome kernel (option (nat * Z))) : Prop :=
  exists s', o = Ret None s' /\ quiet s s' n (k_mem s).

Lemma lookup_at_run s i c me p dp x name k :
  env s i c me p -> lookup_env s (pid p) dp x -> 0 ∉ name -> (length name <= Z.to_nat DIRSIZ)%nat -> k ∈ dir_entries x ->
  if decide (entry_named name (entry s x k)) then found s (pid p) x k (lookup_at dp name (k * DIRENT_SIZE) s)
  else not_found s (pid p) (lookup_at dp name (k * DIRENT_SIZE) s).
Proof.
  intros He [Hc Hr Hx Hd Hdev Hlen Hfree] Hz Hn Hk.
  destruct (read_entry s i c me p dp x k He Hc Hr Hx Hd Hk) as (s1 & E1 & Q1). pose proof (quiet_icache _ _ _ _ Q1) as I1.
  assert (Hnm : namecmp name (de_name (entry s x k)) = 0 <-> cname (de_name (entry s x k)) = name).
  { unfold namecmp. rewrite strncmp_cname; [|done|].
    - rewrite take_ge by done. split; intros ->; done.
    - unfold entry, decode_dirent. cbn [de_name]. unfold get_bytes. by rewrite length_take, length_drop, length_fmap, length_seqZ. }
  assert (E : lookup_at dp name (k * DIRENT_SIZE) s =
    (if de_inum (entry s x k) =? 0 then kret None else
     if namecmp name (de_name (entry s x k)) =? 0 then x0 <- get_inode dp ;; ip <- iget (i_dev x0) (de_inum (entry s x k)) ;; kret (Some (ip, k * DIRENT_SIZE))
     else kret None) s1).
  { unfold lookup_at. krun E1. cbn [fst snd]. rewrite Z.eqb_refl. cbn [negb]. reflexivity. }
  rewrite E. destruct (decide (entry_named name (entry s x k))) as [[M1 M2]|M].
  - apply Z.eqb_neq in M1. rewrite M1, (proj2 Hnm M2). change (0 =? 0) with true. cbv iota.
    krun (get_inode_run s1 dp x ltac:(by rewrite I1)). rewrite Hdev.
    destruct (iget_run s1 i c me p (de_inum (entry s x k)) (qt_env _ _ _ _ Q1 _ _ _ _ He)) as (ip & Hip & E2); [by rewrite I1|by rewrite I1|].
    exists s1, ip. split; [done|]. split; [exact (quiet_slot_for _ _ _ _ _ _ Q1 Hip)|]. by krun E2.
  - exists s1. split; [|done]. destruct (Z.eqb_spec (de_inum (entry s x k)) 0); [done|].
    destruct (Z.eqb_spec (namecmp name (de_name (entry s x k))) 0) as [E'|]; [|done]. destruct M. split; [done|]. by apply Hnm.
Qed.

Lemma dir_scan i c me p dp x name ks : forall s,
  env s i c me p -> lookup_env s (pid p) dp x -> 0 ∉ name -> (length name <= Z.to_nat DIRSIZ)%nat ->
  (forall k, k ∈ ks -> k ∈ dir_entries x) ->
  let o := kfor ((fun k => k * DIRENT_SIZE) <$> ks) (lookup_at dp name) s in
  match search (entry s x) name ks with Some k => found s (pid p) x k o | None => not_found s (pid p) o end.
Proof.
  induction ks as [|k ks IH]; intros s He Hl Hz Hn Hks o.
  { exists s. split; [done|apply quiet_refl, Hl]. }
  pose proof (lookup_at_run s i c me p dp x name k He Hl Hz Hn (Hks k ltac:(apply list_elem_of_here))) as H1.
  rewrite search_cons. destruct (decide (entry_named name (entry s x k))) as [M|M].
  { destruct H1 as (s' & ip & Q & Hip & E). exists s', ip. split; [done|]. split; [done|]. unfold o. cbn [fmap list_fmap kfor]. by krun E. }
  destruct H1 as (s1 & E1 & Q1).
  assert (Eo : o = kfor ((fun k => k * DIRENT_SIZE) <$> ks) (lookup_at dp name) s1) by (unfold o; cbn [fmap list_fmap kfor]; by krun E1). rewrite Eo.
  pose proof (IH s1 (qt_env _ _ _ _ Q1 _ _ _ _ He) (quiet_lookup_env _ _ _ _ _ _ Q1 Hl) Hz Hn ltac:(intros k' Hk'; apply Hks; by apply list_elem_of_further)) as H.
  cbn zeta in H. rewrite (search_ext _ (entry s x)) in H by (intros; by apply (quiet_entry _ _ _ _ _ _ Q1)).
  destruct (search (entry s x) name ks) as [k'|].
  - destruct H as (s' & ip & Q & Hip & E). rewrite (quiet_entry _ _ _ _ _ _ Q1) in Hip, E. rewrite (quiet_mem _ _ _ _ Q1) in Q.
    exists s', ip. split; [exact (quiet_trans _ _ _ _ _ _ Q1 Q)|]. split; [exact (quiet_slot_for _ _ _ _ _ _ Q1 Hip)|done].
  - destruct H as (s' & E & Q). rewrite (quiet_mem _ _ _ _ Q1) in Q. exists s'. split; [exact E|]. exact (quiet_trans _ _ _ _ _ _ Q1 Q).
Qed.

Lemma dir_offsets_entries x : 0 <= i_size x -> i_size x mod DIRENT_SIZE = 0 -> dir_offsets 0 (i_size x) = (fun k => k * DIRENT_SIZE) <$> dir_entries x.
Proof.
  intros H0 Hm. unfold dir_offsets, dir_entries. change DIRENT_SIZE with 16 in *. f_equal. change (0 / 16) with 0. f_equal.
  Z.div_mod_to_equations. lia.
Qed.

Lemma dirlookup_run s i c me p dp x name :
  env s i c me p -> lookup_env s (pid p) dp x -> 0 ∉ name -> (length name <= Z.to_nat DIRSIZ)%nat ->
  match search (entry s x) name (dir_entries x) with
  | Some k => found s (pid p) x k (dirlookup dp name s)
  | None => not_found s (pid p) (dirlookup dp name s)
  end.
Proof.
  intros He Hl Hz Hn. pose proof (dir_scan i c me p dp x name (dir_entries x) s He Hl Hz Hn (fun _ H => H)) as H. cbn zeta in H.
  destruct (dk_size _ _ (le_dir _ _ _ _ Hl)) as [H0 Hm]. rewrite <- dir_offsets_entries in H by done.
  assert (E : dirlookup dp name s = kfor (dir_offsets 0 (i_size x)) (lookup_at dp name) s).
  { unfold dirlookup. krun (get_inode_run s dp x (le_inode _ _ _ _ Hl)). by rewrite (dk_type _ _ (le_dir _ _ _ _ Hl)), Z.eqb_refl. }
  by rewrite E.
Qed.
End Dirs.
