(* ===== verification/PathSpec.v ===== *)
(** * Paths

    The path parser of [fs.c] against splitting at slashes, and the loop of
    [namex] that it drives. *)

From stdpp Require Import base gmap strings list fin_maps.
From Stdlib Require Import ZArith Lia FunctionalExtensionality.
From S2P Require Import Prelude Mem Types Spinlock Kalloc Vm Proc Access Sleeplock Disk Bio Log Inode Console Fs.

(** The fields of a path between its slashes. *)
Definition fields (path : list Z) : list (list Z) :=
  foldr (fun c fs => if c =? 47 then [] :: fs else match fs with f :: r => (c :: f) :: r | [] => [[c]] end) [[]] path.

(** The elements of a path: the fields that are not empty. *)
Definition elems (path : list Z) : list (list Z) := filter (fun f => f <> []) (fields path).

(** The elements that repeated calls of [skipelem] deliver. *)
Fixpoint skipelems (fuel : nat) (path : list Z) : option (list (list Z)) :=
  match fuel with
  | O => None
  | S k =>
      match skipelem path with
      | None => Some []
      | Some (name, path) => cons name <$> skipelems k path
      end
  end.

Lemma elems_skip path : elems (skip_slashes path) = elems path.
Proof.
  induction path as [|c r IH]; [done|]. cbn [skip_slashes]. destruct (c =? 47) eqn:E; [|done].
  rewrite IH. unfold elems. cbn [fields foldr]. rewrite E. by rewrite filter_cons_False by tauto.
Qed.

Lemma length_skip path : (length (skip_slashes path) <= length path)%nat.
Proof. induction path as [|c r IH]; [done|]. cbn [skip_slashes length]. destruct (c =? 47); cbn [length]; lia. Qed.

Lemma skip_head path c r : skip_slashes path = c :: r -> c <> 47.
Proof.
  induction path as [|d l IH]; [done|]. cbn [skip_slashes]. destruct (Z.eqb_spec d 47); [done|].
  intros H. by injection H as -> _.
Qed.

Lemma fields_cons path : exists f r, fields path = f :: r.
Proof.
  destruct path as [|c l]; [by exists [], []|]. cbn. destruct (c =? 47); [eauto|]. destruct (foldr _ _ l); eauto.
Qed.

Lemma take_elem_fields path :
  let (s, r) := take_elem path in
  (length path = length s + length r)%nat /\
  match r with [] => fields path = [s] | _ :: r' => fields path = s :: fields r' end.
Proof.
  induction path as [|c l IH]; [done|]. cbn [take_elem]. destruct (Z.eqb_spec c 47) as [->|Hc]; [done|].
  destruct (take_elem l) as [s r]. destruct IH as [Hlen IH]. split; [cbn; lia|].
  unfold fields in *. cbn [foldr]. destruct (Z.eqb_spec c 47); [done|]. by destruct r; rewrite IH.
Qed.

Lemma take_elem_slash path : match snd (take_elem path) with [] => True | c :: _ => c = 47 end.
Proof.
  induction path as [|c l IH]; [done|]. cbn [take_elem]. destruct (Z.eqb_spec c 47) as [->|Hc]; [done|].
  by destruct (take_elem l).
Qed.

(** One call of [skipelem]. *)
Lemma skipelem_spec path :
  match skipelem path with
  | None => elems path = []
  | Some (name, r) =>
      exists f, elems path = f :: elems r /\ name = take (Z.to_nat DIRSIZ) f /\ (length r < length path)%nat
  end.
Proof.
  unfold skipelem. pose proof (length_skip path) as Hl. destruct (skip_slashes path) as [|c l] eqn:E.
  - by rewrite <- elems_skip, E.
  - pose proof (skip_head _ _ _ E) as Hc. rewrite <- (elems_skip path), E.
    pose proof (take_elem_fields (c :: l)) as H. pose proof (take_elem_slash (c :: l)) as Hr.
    assert (Hs : fst (take_elem (c :: l)) <> []).
    { cbn [take_elem]. destruct (Z.eqb_spec c 47); [done|]. by destruct (take_elem l). }
    destruct (take_elem (c :: l)) as [s r]. cbn [fst snd] in *. destruct H as [Hlen H]. exists s. split.
    + rewrite elems_skip. unfold elems at 1. destruct r as [|d r']; rewrite H, filter_cons_True by done; [done|].
      subst d. unfold elems. f_equal.
    + split; [destruct (Z.leb_spec DIRSIZ (Z.of_nat (length s))); [done|]; rewrite take_ge; [done|lia]|].
      pose proof (length_skip r). destruct s; [done|]. cbn [length] in *. lia.
Qed.

Lemma skipelems_spec n : forall path, (length path < n)%nat ->
  skipelems n path = Some (take (Z.to_nat DIRSIZ) <$> elems path).
Proof.
  induction n as [|n IH]; intros path Hn; [lia|]. cbn [skipelems]. pose proof (skipelem_spec path) as H.
  destruct (skipelem path) as [[name r]|]; [|by rewrite H].
  destruct H as (f & -> & -> & Hr). by rewrite IH by lia.
Qed.

Section Paths.
Context `{Pt : Patience} `{D : DiskDriver}.

Lemma namex_loop_fuel n : forall m path np ip name, (length path < n)%nat -> (length path < m)%nat ->
  namex_loop n path np ip name = namex_loop m path np ip name.
Proof.
  induction n as [|n IH]; intros [|m] path np ip name Hn Hm; try lia. cbn [namex_loop].
  pose proof (skipelem_spec path) as H. destruct (skipelem path) as [[nm r]|]; [|done].
  destruct H as (f & _ & _ & Hr). f_equal. apply functional_extensionality. intros _.
  f_equal. apply functional_extensionality. intros x. destruct (negb (i_type x =? T_DIR)); [done|].
  destruct (np && bool_decide (r = [])); [done|]. f_equal. apply functional_extensionality. intros [[nx o]|]; [|done].
  f_equal. apply functional_extensionality. intros _. apply IH; lia.
Qed.

(** Paths are split at slashes.  The elements that repeated calls of
    [skipelem] deliver are the non-empty fields of the path between its
    slashes, in order and each cut to the length of a directory name; and the
    loop of [namex] over them ends: with as many turns as the path is long, and
    one more, it does what it does with any greater number. *)
Theorem path_elements (path : list Z) (np : bool) (ip : nat) (name : list Z) (k : nat) :
  skipelems (S (length path)) path = Some (take (Z.to_nat DIRSIZ) <$> elems path) /\
  namex_loop (S (length path) + k) path np ip name = namex_loop (S (length path)) path np ip name.
Proof. split; [apply skipelems_spec; lia|apply namex_loop_fuel; lia]. Qed.
End Paths.
