(* ===== verification/NameSpec.v ===== *)
(** * Path names

    [namex] on the directories of the disk: the inode cache invariant, the
    effect of [ilock], [iunlock] and [iput], and the inode that a path names. *)

From stdpp Require Import base gmap strings list fin_maps.
From Stdlib Require Import ZArith Lia.
From S2P Require Import Prelude Mem Types Spinlock Kalloc Vm Proc ProcSpec Access Bytes Sleeplock Steady Disk Bio BioSpec Log LogSpec Inode TxnSpec Console Fs FileSpec DirSpec PathSpec.

(** ** Changes to the inode cache only *)

Definition calm_frame (s s' : kernel) : Prop :=
  exists pt bs lru ic, s' = s <| k_ptable := pt |> <| k_bufs := bs |> <| k_lru := lru |> <| k_icache := ic |>.

Record calm (s s' : kernel) (n : Z) : Prop := {
  cm_cache : cache s' n [];
  cm_view : forall b, view s' b = view s b;
  cm_dirty : forall b, dirty s' b <-> dirty s b;
  cm_env : forall i c me p, env s i c me p -> env s' i c me p;
  cm_frame : calm_frame s s'
}.

Lemma calm_trans s1 s2 s3 n : calm s1 s2 n -> calm s2 s3 n -> calm s1 s3 n.
Proof.
  intros [A1 A2 A3 A4 (? & ? & ? & ? & A5)] [B1 B2 B3 B4 (pt & bs & lru & ic & B5)]. split; [done| | |auto|].
  - intros b. by rewrite B2.
  - intros b. by rewrite B3.
  - exists pt, bs, lru, ic. by rewrite B5, A5.
Qed.

Lemma calm_quiet s s' n : quiet s s' n (k_mem s) -> calm s s' n.
Proof.
  intros [Q1 Q2 Q3 Q4 (pt & bs & lru & Q5)]. split; [done..|]. exists pt, bs, lru, (k_icache s). rewrite Q5. by destruct s.
Qed.

Lemma cache_inodes s n ic : cache s n [] -> cache (s <| k_icache := ic |>) n [].
Proof. intros [H1 H2 H3 H4 H5 H6 H7 H8]. split; try done. intros k x Hx Hk. by destruct (H7 k x Hx Hk). Qed.

Lemma calm_upd s n k f : cache s n [] -> calm s (upd_inode k f s) n.
Proof.
  intros Hc. split; [by apply (cache_inodes s)|done|done|eauto with kern|].
  exists (k_ptable s), (k_bufs s), (k_lru s), (alter f k (k_icache s)). by destruct s.
Qed.

Lemma calm_wake s n ch : cache s n [] -> calm s (s <| k_ptable ::= fmap (wake ch) |>) n.
Proof.
  intros Hc. split; [|done|done|eauto with kern|].
  - destruct Hc as [H1 H2 H3 H4 H5 H6 H7 H8]. split; try done. intros k x Hx Hk. by destruct (H7 k x Hx Hk).
  - exists (wake ch <$> k_ptable s), (k_bufs s), (k_lru s), (k_icache s). by destruct s.
Qed.

Lemma calm_roomy s s' n : calm s s' n -> roomy s -> roomy s'.
Proof. intros H (bl & Hd & Hl). exists bl. split; [|done]. intros b Hb. by apply Hd, (cm_dirty _ _ _ H). Qed.

Lemma calm_sb s s' n : calm s s' n -> k_sb s' = k_sb s /\ k_disksize s' = k_disksize s.
Proof. intros [_ _ _ _ (? & ? & ? & ? & ->)]. done. Qed.

(** ** Inodes on the disk *)

Definition disk_inode (s : kernel) (inum : Z) : dinode := decode_dinode (view s (IBLOCK inum (k_sb s))) (inum mod IPB * DINODE_SIZE).
Definition as_inode (d : dinode) : inode :=
  zero_inode <| i_dev := 1 |> <| i_type := d_type d |> <| i_size := d_size d |> <| i_addrs := d_addrs d |>.

(** The entries of the directory [inum]. *)
Definition dir_entry (s : kernel) (inum k : Z) : dirent := entry s (as_inode (disk_inode s inum)) k.

(** The inode that the entry [name] of [inum] leads to. *)
Definition step_to (s : kernel) (inum : Z) (name : list Z) : option Z :=
  (fun k => de_inum (dir_entry s inum k)) <$> search (dir_entry s inum) name (dir_entries (as_inode (disk_inode s inum))).

(** The inode that a path of the elements [es] names, from [inum] on; with
    [np], the directory that the last element is to be in. *)
Fixpoint resolve (s : kernel) (np : bool) (inum : Z) (es : list (list Z)) : option Z :=
  match es with
  | [] => if np then None else Some inum
  | e :: es' =>
      if decide (d_type (disk_inode s inum) = T_DIR) then
        if np && bool_decide (es' = []) then Some inum
        else step_to s inum e ≫= fun j => resolve s np j es'
      else None
  end.

(** The inodes of [ok] are in use, and the directories among them lead to inodes of [ok]. *)
Record tree_ok (s : kernel) (ok : Z -> Prop) : Prop := {
  to_inode : forall inum, ok inum -> 0 <= inum /\ block_ok s (IBLOCK inum (k_sb s)) /\
    d_type (disk_inode s inum) <> 0 /\ d_nlink (disk_inode s inum) <> 0;
  to_dir : forall inum, ok inum -> d_type (disk_inode s inum) = T_DIR -> dir_ok s (as_inode (disk_inode s inum));
  to_entry : forall inum name j, ok inum -> d_type (disk_inode s inum) = T_DIR -> step_to s inum name = Some j -> ok j
}.

Lemma calm_byte s s' n x k : calm s s' n -> file_byte s' x k = file_byte s x k.
Proof. intros H. unfold file_byte, blk. by rewrite !(cm_view _ _ _ H). Qed.
Lemma calm_disk_inode s s' n inum : calm s s' n -> disk_inode s' inum = disk_inode s inum.
Proof. intros H. unfold disk_inode. rewrite (cm_view _ _ _ H). by rewrite (proj1 (calm_sb _ _ _ H)). Qed.
Lemma calm_entry s s' n inum k : calm s s' n -> dir_entry s' inum k = dir_entry s inum k.
Proof.
  intros H. unfold dir_entry, entry. rewrite (calm_disk_inode _ _ _ _ H). f_equal. apply list_fmap_ext. intros. by apply (calm_byte _ _ _ _ _ H).
Qed.
Lemma calm_step_to s s' n inum name : calm s s' n -> step_to s' inum name = step_to s inum name.
Proof.
  intros H. unfold step_to. rewrite (calm_disk_inode _ _ _ _ H), (search_ext _ (dir_entry s inum)) by (intros; by apply (calm_entry _ _ _ _ _ H)).
  destruct (search _ _ _) as [k|]; [|done]. change (Some (de_inum (dir_entry s' inum k)) = Some (de_inum (dir_entry s inum k))).
  by rewrite (calm_entry _ _ _ _ _ H).
Qed.
Lemma calm_resolve s s' n np es : forall inum, calm s s' n -> resolve s' np inum es = resolve s np inum es.
Proof.
  induction es as [|e es IH]; intros inum H; [done|]. cbn [resolve]. rewrite (calm_disk_inode _ _ _ _ H), (calm_step_to _ _ _ _ _ H).
  destruct (decide _); [|done]. destruct (np && _); [done|]. destruct (step_to s inum e); [|done]. cbn. by apply IH.
Qed.
Lemma calm_dir_ok s s' n x : calm s s' n -> dir_ok s x -> dir_ok s' x.
Proof.
  intros H [D1 (nb & [F1 F2 F3 F4 F5] & D3) D4]. split; [done| |done]. exists nb. split; [|done].
  destruct (calm_sb _ _ _ H) as [_ Hsz]. split; [done|done|done| |]; unfold block_ok in *; rewrite Hsz; [|done].
  intros bn. unfold blk in *. rewrite (cm_view _ _ _ H). apply F4.
Qed.
Lemma calm_tree_ok s s' n ok : calm s s' n -> tree_ok s ok -> tree_ok s' ok.
Proof.
  intros H [T1 T2 T3]. destruct (calm_sb _ _ _ H) as [Hsb Hsz]. split; unfold block_ok in *.
  - intros inum. rewrite (calm_disk_inode _ _ _ _ H), Hsb, Hsz. apply T1.
  - intros inum Hi. rewrite (calm_disk_inode _ _ _ _ H). intros Ht. apply (calm_dir_ok _ _ _ _ H). by apply T2.
  - intros inum name j Hi. rewrite (calm_step_to _ _ _ _ _ H), (calm_disk_inode _ _ _ _ H). by apply T3.
Qed.

(** ** The invariant of the inode cache *)

(** Entry [k]: its references, the holder of its lock, and once it was read
    from the disk the fields of the inode. *)
Definition entry_ok (s : kernel) (n : Z) (h : option nat) (ref : nat -> Z) (k : nat) (x : inode) : Prop :=
  i_ref x = ref k /\ 0 <= ref k /\ i_lock x = (if decide (h = Some k) then locked_by n else zero_sleeplock) /\
  (0 < i_ref x -> i_dev x = 1 /\ (i_valid x = 0 \/ i_valid x = 1 /\ inode_image x = disk_inode s (i_inum x))).

Record icache_ok (s : kernel) (n : Z) (h : option nat) (ref : nat -> Z) : Prop := {
  io_len : length (k_icache s) = NINODE;
  io_entry : forall k x, k_icache s !! k = Some x -> entry_ok s n h ref k x;
  io_uniq : forall j k x y, k_icache s !! j = Some x -> k_icache s !! k = Some y ->
    0 < i_ref x -> 0 < i_ref y -> i_inum x = i_inum y -> j = k
}.

Lemma entry_ok_calm s s' n h ref k x : calm s s' n -> entry_ok s n h ref k x -> entry_ok s' n h ref k x.
Proof. intros H. unfold entry_ok. by rewrite (calm_disk_inode _ _ _ _ H). Qed.

Lemma icache_ok_calm s s' n h ref : calm s s' n -> k_icache s' = k_icache s -> icache_ok s n h ref -> icache_ok s' n h ref.
Proof.
  intros H I [I1 I2 I3]. split; rewrite I; [done| |done]. intros k x Hx. apply (entry_ok_calm s s'); auto.
Qed.

Lemma lookup_upd_inode s k f j : k_icache (upd_inode k f s) !! j = if decide (j = k) then f <$> k_icache s !! j else k_icache s !! j.
Proof.
  unfold upd_inode. cbn. case_decide as E; [subst; apply list_lookup_alter_eq|]. by apply list_lookup_alter_ne.
Qed.

Lemma icache_ok_upd s n h ref k f x h' ref' :
  cache s n [] -> icache_ok s n h ref -> k_icache s !! k = Some x ->
  (forall j, j <> k -> ref' j = ref j /\ (h' = Some j <-> h = Some j)) -> entry_ok s n h' ref' k (f x) ->
  (0 < i_ref (f x) -> forall j y, j <> k -> k_icache s !! j = Some y -> 0 < i_ref y -> i_inum y <> i_inum (f x)) ->
  icache_ok (upd_inode k f s) n h' ref'.
Proof.
  intros Hc [I1 I2 I3] Hx Hne Hf Hu. split.
  - unfold upd_inode. cbn. by rewrite length_alter.
  - intros j y Hy. apply (entry_ok_calm s); [by apply calm_upd|]. rewrite lookup_upd_inode in Hy. case_decide as E.
    + subst. rewrite Hx in Hy. injection Hy as <-. done.
    + destruct (Hne j E) as [Er Eh]. destruct (I2 j y Hy) as (E1 & E2 & E3 & E4). unfold entry_ok. rewrite Er. split; [done|]. split; [done|].
      split; [|done]. rewrite E3. by destruct (decide (h = Some j)), (decide (h' = Some j)); tauto.
  - intros j1 j2 y1 y2 H1 H2 R1 R2 En. rewrite lookup_upd_inode in H1, H2.
    destruct (decide (j1 = k)) as [->|N1], (decide (j2 = k)) as [->|N2]; [done| | |by apply (I3 j1 j2 y1 y2)].
    + rewrite Hx in H1. injection H1 as <-. exfalso. by apply (Hu R1 j2 y2).
    + rewrite Hx in H2. injection H2 as <-. exfalso. by apply (Hu R2 j1 y1).
Qed.

(** An entry that keeps its inode. *)
Lemma icache_ok_keep s n h ref k f x h' ref' :
  cache s n [] -> icache_ok s n h ref -> k_icache s !! k = Some x ->
  (forall j, j <> k -> ref' j = ref j /\ (h' = Some j <-> h = Some j)) -> entry_ok s n h' ref' k (f x) ->
  0 < i_ref x -> i_inum (f x) = i_inum x -> icache_ok (upd_inode k f s) n h' ref'.
Proof.
  intros Hc Hi Hx Hne Hf Hr Hn. apply (icache_ok_upd s n h ref k f x); try done. intros _ j y Hj Hy Hry E.
  apply Hj. apply (io_uniq _ _ _ _ Hi j k y x Hy Hx Hry Hr). congruence.
Qed.

Definition more (ref : nat -> Z) (k : nat) : nat -> Z := fun j => if decide (j = k) then ref j + 1 else ref j.
Definition fewer (ref : nat -> Z) (k : nat) : nat -> Z := fun j => if decide (j = k) then ref j - 1 else ref j.

(** Taking a reference keeps one entry for each inode. *)
Lemma icache_ok_take s n h ref inum ip :
  cache s n [] -> icache_ok s n h ref -> slot_for s inum ip -> icache_ok (upd_inode ip (take_ref inum) s) n h (more ref ip).
Proof.
  intros Hc Hi (x & Hx & Hs). destruct (io_entry _ _ _ _ Hi ip x Hx) as (E1 & E2 & E3 & E4).
  assert (Hm : more ref ip ip = ref ip + 1) by (unfold more; by rewrite decide_True).
  assert (Hne : forall j, j <> ip -> more ref ip j = ref j /\ (h = Some j <-> h = Some j)) by (intros j Hj; unfold more; by rewrite decide_False).
  unfold take_ref. destruct Hs as [(R & D & N)|[R Hno]].
  - apply (icache_ok_keep s n h ref ip _ x); [done|done|done|done| |done|]; rewrite decide_True by done; [|done].
    unfold entry_ok. rewrite Hm. cbn. split; [lia|]. split; [lia|]. split; [done|]. intros _. by apply E4.
  - apply (icache_ok_upd s n h ref ip _ x); [done|done|done|done| |]; rewrite decide_False by lia.
    + unfold entry_ok. rewrite Hm. cbn. split; [lia|]. split; [lia|]. split; [done|]. auto.
    + intros _ j y Hj Hy Hry En. apply (Hno j y Hy). split; [done|]. split; [|done]. by apply (io_entry _ _ _ _ Hi j y Hy).
Qed.

Section Names.
Context `{Pt : Patience} (Hpat : (0 < patience)%nat).
Variables (i : nat) (c : cpu) (me : nat) (p : proc).

(** The entry [ip] refers to inode [inum]. *)
Definition refers (s : kernel) (ip : nat) (inum : Z) : Prop := exists x, k_icache s !! ip = Some x /\ 0 < i_ref x /\ i_inum x = inum.

Definition inum_at (s : kernel) (j : nat) : option Z := i_inum <$> k_icache s !! j.

Lemma inum_at_alter s s' k f : k_icache s' = alter f k (k_icache s) -> (forall x, i_inum (f x) = i_inum x) -> forall j, inum_at s' j = inum_at s j.
Proof.
  intros E Hf j. unfold inum_at. rewrite E. destruct (decide (j = k)) as [->|Hj]; [|by rewrite list_lookup_alter_ne].
  rewrite list_lookup_alter_eq. destruct (k_icache s !! k); [|done]. cbn. by rewrite Hf.
Qed.

Lemma refers_iff s n h ref j inum : icache_ok s n h ref -> refers s j inum <-> inum_at s j = Some inum /\ 0 < ref j.
Proof.
  intros Hi. unfold refers, inum_at. split.
  - intros (x & Hx & Hr & <-). rewrite Hx. split; [done|]. by destruct (io_entry _ _ _ _ Hi j x Hx) as (<- & _).
  - intros [(x & Hx & ->)%fmap_Some Hr]. exists x. split; [done|]. by destruct (io_entry _ _ _ _ Hi j x Hx) as (-> & _).
Qed.

(** The entry [ip] is locked and read from the disk. *)
Definition loaded (s : kernel) (ip : nat) (inum : Z) : Prop :=
  exists x, k_icache s !! ip = Some x /\ 0 < i_ref x /\ i_inum x = inum /\ i_valid x = 1 /\ inode_image x = disk_inode s inum.

Lemma inode_lock_run s ref ip x h :
  env s i c me p -> icache_ok s (pid p) h ref -> h <> Some ip -> k_icache s !! ip = Some x ->
  acquiresleep (SInode ip) s = Ret tt (upd_inode ip (fun x => x <| i_lock := locked_by (pid p) |>) s).
Proof.
  intros He Hi Hh Hx. destruct (io_entry _ _ _ _ Hi ip x Hx) as (_ & _ & El & _). rewrite decide_False in El by done.
  apply (acquiresleep_run s i c me p (SInode ip) (i_lock x) He); [|cbn; by rewrite Hx|by rewrite El|done].
  cbn. rewrite <- (io_len _ _ _ _ Hi). by eapply lookup_lt_Some.
Qed.

Lemma inode_unlock_run s ref ip x :
  env s i c me p -> cache s (pid p) [] -> icache_ok s (pid p) (Some ip) ref -> k_icache s !! ip = Some x -> 0 < i_ref x ->
  exists s', releasesleep (SInode ip) s = Ret tt s' /\ calm s s' (pid p) /\ icache_ok s' (pid p) None ref /\
    k_icache s' = alter (fun x => x <| i_lock := zero_sleeplock |>) ip (k_icache s).
Proof.
  intros He Hc Hi Hx Hr. set (s1 := upd_inode ip (fun x => x <| i_lock := zero_sleeplock |>) s).
  assert (Hc1 : calm s s1 (pid p)) by (by apply calm_upd). pose proof (calm_wake s1 (pid p) (Some (Csleepinode ip)) (cm_cache _ _ _ Hc1)) as Hc2.
  exists (s1 <| k_ptable ::= fmap (wake (Some (Csleepinode ip))) |>). split.
  - apply (releasesleep_run s i c me p (SInode ip) He). cbn. rewrite <- (io_len _ _ _ _ Hi). by eapply lookup_lt_Some.
  - split; [exact (calm_trans _ _ _ _ Hc1 Hc2)|]. split; [|done]. apply (icache_ok_calm s1 _ _ _ _ Hc2 eq_refl).
    destruct (io_entry _ _ _ _ Hi ip x Hx) as (E1 & E2 & _ & E4).
    apply (icache_ok_keep s (pid p) (Some ip) ref ip _ x); try done. intros j Hj. split; [done|]. split; [done|congruence].
Qed.

Lemma set_inode_run k f s : set_inode k f s = Ret tt (upd_inode k f s).
Proof. done. Qed.

(** The fields that [ilock] reads. *)
Definition filled (d : dinode) (x : inode) : inode :=
  x <| i_type := d_type d |> <| i_major := d_major d |> <| i_minor := d_minor d |> <| i_nlink := d_nlink d |> <| i_size := d_size d |>
    <| i_addrs := d_addrs d |>.

Lemma fill_run {A} ip d (rest : KM A) s :
  (set_inode ip (fun x => x <| i_type := d_type d |>) ;;; set_inode ip (fun x => x <| i_major := d_major d |>) ;;;
   set_inode ip (fun x => x <| i_minor := d_minor d |>) ;;; set_inode ip (fun x => x <| i_nlink := d_nlink d |>) ;;;
   set_inode ip (fun x => x <| i_size := d_size d |>) ;;; set_inode ip (fun x => x <| i_addrs := d_addrs d |>) ;;; rest) s =
  rest (upd_inode ip (filled d) s).
Proof.
  do 6 (unfold kbind at 1; rewrite set_inode_run; cbn [obind]). by rewrite !upd_inode_compose.
Qed.

Lemma ilock_run s ref ip inum ok :
  env s i c me p -> cache s (pid p) [] -> roomy s -> icache_ok s (pid p) None ref -> refers s ip inum -> tree_ok s ok -> ok inum ->
  exists s', ilock (Some ip) s = Ret tt s' /\ calm s s' (pid p) /\ icache_ok s' (pid p) (Some ip) ref /\ loaded s' ip inum /\
    forall j, inum_at s' j = inum_at s j.
Proof.
  intros He Hc Hr Hi (x & Hx & Hrx & <-) Ht Hok. destruct (to_inode _ _ Ht _ Hok) as (Hin & Hb & Hty & Hnl).
  destruct (io_entry _ _ _ _ Hi ip x Hx) as (E1 & E2 & E3 & E4). destruct (E4 Hrx) as [Hdev Hval].
  unfold ilock. krun (get_inode_run s ip x Hx). replace (i_ref x <? 1) with false by lia.
  krun (inode_lock_run s ref ip x None He Hi ltac:(done) Hx). set (lk := fun x : inode => x <| i_lock := locked_by (pid p) |>).
  set (s1 := upd_inode ip lk s). assert (Hx1 : k_icache s1 !! ip = Some (lk x)) by (unfold s1; rewrite lookup_upd_inode, decide_True by done; by rewrite Hx).
  assert (C1 : calm s s1 (pid p)) by (by apply calm_upd).
  assert (Hi1 : icache_ok s1 (pid p) (Some ip) ref).
  { apply (icache_ok_keep s (pid p) None ref ip _ x); try done; [intros j Hj; split; [done|]; split; [congruence|done]|].
    unfold entry_ok. rewrite decide_True by done. done. }
  krun (get_inode_run s1 ip (lk x) Hx1). destruct Hval as [Hv|[Hv Him]]; change (i_valid (lk x)) with (i_valid x); rewrite Hv.
  2:{ exists s1. split; [done|]. split; [done|]. split; [done|]. split; [|by apply (inum_at_alter s s1 ip lk)].
      exists (lk x). split; [done|]. split; [done|]. split; [done|]. split; [done|]. rewrite (calm_disk_inode _ _ _ _ C1). exact Him. }
  change (0 =? 0) with true. cbv iota. unfold kget, kbind at 1. cbn [obind]. change (i_dev (lk x)) with (i_dev x). rewrite Hdev.
  change (i_inum (lk x)) with (i_inum x). change (k_sb s1) with (k_sb s).
  destruct (peek_inodes Hpat s1 i c me p (IBLOCK (i_inum x) (k_sb s)) (cm_env _ _ _ C1 _ _ _ _ He) (cm_cache _ _ _ C1) (calm_roomy _ _ _ C1 Hr) Hb)
    as (k & y & s2 & R1 & R2 & R3 & R4 & R5 & R6). krun R1. krun (get_buf_run k y s2 R2). rewrite R3.
  change (view s1 (IBLOCK (i_inum x) (k_sb s))) with (view s (IBLOCK (i_inum x) (k_sb s))). fold (disk_inode s (i_inum x)). set (d := disk_inode s (i_inum x)) in *.
  rewrite fill_run. destruct (R6 (k_mem s2) (alter (filled d) ip (k_icache s2))) as (s3 & E & Q).
  replace (s2 <| k_mem := k_mem s2 |> <| k_icache := alter (filled d) ip (k_icache s2) |>) with (upd_inode ip (filled d) s2) in E by (by destruct s2).
  krun E. rewrite R5 in Q. pose proof (calm_trans _ _ _ _ C1 (calm_quiet _ _ _ Q)) as C3. pose proof (quiet_icache _ _ _ _ Q) as I3.
  assert (E4' : s3 <| k_icache := alter (filled d) ip (k_icache s2) |> = upd_inode ip (filled d) s3) by (rewrite R4, <- I3; by destruct s3).
  rewrite E4'. krun (set_inode_run ip (fun x => x <| i_valid := 1 |>) (upd_inode ip (filled d) s3)). replace (d_type d =? 0) with false by lia.
  set (vl := fun x : inode => x <| i_valid := 1 |>). rewrite upd_inode_compose. set (s4 := upd_inode ip _ s3). assert (C4 : calm s s4 (pid p)) by (apply (calm_trans _ _ _ _ C3), calm_upd, C3).
  exists s4. rewrite <- I3 in Hx1. assert (Hx4 : k_icache s4 !! ip = Some (vl (filled d (lk x)))) by (unfold s4; rewrite lookup_upd_inode, decide_True, Hx1 by done; done).
  assert (Him : inode_image (vl (filled d (lk x))) = d) by (by destruct d).
  split; [done|]. split; [done|]. split; [|split].
  - apply (icache_ok_keep s3 (pid p) (Some ip) ref ip _ (lk x)); try done; [apply C3|apply (icache_ok_calm s1); [by apply calm_quiet|done|done]|].
    unfold entry_ok. rewrite decide_True by done. split; [done|]. split; [done|]. split; [done|]. intros _. split; [done|]. right. split; [done|].
    rewrite Him. unfold d. symmetry. exact (calm_disk_inode _ _ _ _ C3).
  - exists (vl (filled d (lk x))). split; [done|]. split; [done|]. split; [done|]. split; [done|]. rewrite Him. unfold d. symmetry. exact (calm_disk_inode _ _ _ _ C4).
  - intros j. rewrite (inum_at_alter s3 s4 ip (fun x => vl (filled d x))) by done. unfold inum_at at 1. rewrite I3. by apply (inum_at_alter s s1 ip lk).
Qed.

Lemma iunlock_run s ref ip x :
  env s i c me p -> cache s (pid p) [] -> icache_ok s (pid p) (Some ip) ref -> k_icache s !! ip = Some x -> 0 < i_ref x ->
  exists s', iunlock (Some ip) s = Ret tt s' /\ calm s s' (pid p) /\ icache_ok s' (pid p) None ref /\
    k_icache s' = alter (fun x => x <| i_lock := zero_sleeplock |>) ip (k_icache s).
Proof.
  intros He Hc Hi Hx Hr. destruct (inode_unlock_run s ref ip x He Hc Hi Hx Hr) as (s' & E & H). exists s'. split; [|done].
  destruct (io_entry _ _ _ _ Hi ip x Hx) as (_ & _ & El & _). rewrite decide_True in El by done.
  unfold iunlock. krun (holdingsleep_run s i c me p (SInode ip) (i_lock x) He ltac:(cbn; rewrite <- (io_len _ _ _ _ Hi); by eapply lookup_lt_Some) ltac:(cbn; by rewrite Hx)).
  rewrite El. cbn [sl_locked sl_pid locked_by]. rewrite Z.eqb_refl. change (negb (c_true 1 && true)) with false. cbv iota.
  krun (get_inode_run s ip x Hx). by replace (i_ref x <? 1) with false by lia.
Qed.

(** Dropping a reference to an inode with links. *)
Lemma iput_run s ref ip inum ok :
  env s i c me p -> cache s (pid p) [] -> icache_ok s (pid p) None ref -> refers s ip inum -> tree_ok s ok -> ok inum ->
  exists s', iput ip s = Ret tt s' /\ calm s s' (pid p) /\ icache_ok s' (pid p) None (fewer ref ip) /\ forall j, inum_at s' j = inum_at s j.
Proof.
  intros He Hc Hi (x & Hx & Hrx & <-) Ht Hok. destruct (to_inode _ _ Ht _ Hok) as (_ & _ & _ & Hnl).
  destruct (io_entry _ _ _ _ Hi ip x Hx) as (E1 & E2 & E3 & E4). destruct (E4 Hrx) as [Hdev Hval].
  unfold iput. krun (inode_lock_run s ref ip x None He Hi ltac:(done) Hx). set (lk := fun x : inode => x <| i_lock := locked_by (pid p) |>).
  set (s1 := upd_inode ip lk s). assert (Hx1 : k_icache s1 !! ip = Some (lk x)) by (unfold s1; rewrite lookup_upd_inode, decide_True by done; by rewrite Hx).
  assert (C1 : calm s s1 (pid p)) by (by apply calm_upd).
  assert (Hi1 : icache_ok s1 (pid p) (Some ip) ref).
  { apply (icache_ok_keep s (pid p) None ref ip _ x); try done; [intros j Hj; split; [done|]; split; [congruence|done]|].
    unfold entry_ok. by rewrite decide_True. }
  krun (get_inode_run s1 ip (lk x) Hx1).
  assert (Hskip : c_true (i_valid (lk x)) && (i_nlink (lk x) =? 0) = false).
  { change (i_valid (lk x)) with (i_valid x). change (i_nlink (lk x)) with (i_nlink x). destruct Hval as [->|[-> Him]]; [done|].
    change (i_nlink x) with (d_nlink (inode_image x)). rewrite Him. cbn [andb]. lia. }
  rewrite Hskip. unfold kret, kbind at 1. cbn [obind].
  destruct (inode_unlock_run s1 ref ip (lk x) (cm_env _ _ _ C1 _ _ _ _ He) (cm_cache _ _ _ C1) Hi1 Hx1 Hrx) as (s2 & R2 & C2 & Hi2 & I2). krun R2.
  pose proof (calm_trans _ _ _ _ C1 C2) as C12. pose proof (cm_env _ _ _ C12 _ _ _ _ He) as He2.
  krun (env_acquire s2 i c me p Licache He2 I). set (f := fun x : inode => x <| i_ref ::= fun n => n - 1 |>).
  krun (set_inode_acq s2 i Licache ip f). rewrite (env_release _ i c me p Licache (env_upd_inode _ _ _ _ _ ip f He2) I).
  exists (upd_inode ip f s2). split; [done|]. split; [apply (calm_trans _ _ _ _ C12), calm_upd, C12|]. split.
  - assert (Hx2 : k_icache s2 !! ip = Some ((lk x) <| i_lock := zero_sleeplock |>)) by (rewrite I2, list_lookup_alter_eq, Hx1; reflexivity).
    destruct (io_entry _ _ _ _ Hi2 ip _ Hx2) as (F1 & F2 & F3 & F4).
    apply (icache_ok_keep s2 (pid p) None ref ip _ _ _ _ (cm_cache _ _ _ C12) Hi2 Hx2); [| |done|done].
    + intros j Hj. unfold fewer. by rewrite decide_False.
    + unfold entry_ok, fewer. rewrite (decide_True (P := ip = ip)) by done. cbn in F1 |- *. split; [lia|]. split; [lia|]. split; [done|]. intros _. by apply F4.
  - intros j. rewrite (inum_at_alter s2 _ ip f) by done. rewrite (inum_at_alter s1 s2 ip (fun x => x <| i_lock := zero_sleeplock |>)) by done.
    by apply (inum_at_alter s s1 ip lk).
Qed.

Lemma iunlockput_run s ref ip inum ok :
  env s i c me p -> cache s (pid p) [] -> icache_ok s (pid p) (Some ip) ref -> refers s ip inum -> tree_ok s ok -> ok inum ->
  exists s', iunlockput ip s = Ret tt s' /\ calm s s' (pid p) /\ icache_ok s' (pid p) None (fewer ref ip) /\ forall j, inum_at s' j = inum_at s j.
Proof.
  intros He Hc Hi Hf Ht Hok. pose proof Hf as (x & Hx & Hr & _). destruct (iunlock_run s ref ip x He Hc Hi Hx Hr) as (s1 & E1 & C1 & Hi1 & I1).
  pose proof (inum_at_alter _ _ _ _ I1 ltac:(done)) as N1.
  destruct (iput_run s1 ref ip inum ok (cm_env _ _ _ C1 _ _ _ _ He) (cm_cache _ _ _ C1) Hi1) as (s2 & E2 & C2 & Hi2 & N2).
  - rewrite (refers_iff _ _ _ _ _ _ Hi1), N1. by rewrite <- (refers_iff _ _ _ _ _ _ Hi).
  - exact (calm_tree_ok _ _ _ _ C1 Ht).
  - done.
  - exists s2. unfold iunlockput. krun E1. split; [done|]. split; [exact (calm_trans _ _ _ _ C1 C2)|]. split; [done|]. intros j. by rewrite N2, N1.
Qed.
(** ** Walking a path *)

Lemma icache_ok_ext s n h ref ref' : (forall k, ref k = ref' k) -> icache_ok s n h ref -> icache_ok s n h ref'.
Proof. intros E [I1 I2 I3]. split; [done| |done]. intros k x Hx. unfold entry_ok. rewrite <- E. by apply I2. Qed.

Lemma dir_ok_image s x : i_dev x = 1 -> dir_ok s (as_inode (inode_image x)) -> dir_ok s x.
Proof. intros Hd [D1 (nb & [F1 F2 F3 F4 F5] & D3) D4]. split; [done| |done]. exists nb. split; [by split|done]. Qed.

(** Taking a reference through a slot. *)
Lemma take_inum s j ip k : slot_for s j ip -> inum_at (upd_inode ip (take_ref j) s) k = if decide (k = ip) then Some j else inum_at s k.
Proof.
  intros (x & Hx & Hs). unfold inum_at. rewrite lookup_upd_inode. case_decide as E; [|done]. subst. rewrite Hx. cbn. unfold take_ref.
  destruct Hs as [(R & _ & N)|[R _]]; case_decide; [cbn; congruence|done|lia|done].
Qed.

Variables (ok : Z -> Prop) (ref : nat -> Z).
Hypotheses (Hnn : forall k, 0 <= ref k) (Hfree : exists a b, a <> b /\ (a < NINODE)%nat /\ (b < NINODE)%nat /\ ref a = 0 /\ ref b = 0).

Lemma free_slot s n h ip : icache_ok s n h (more ref ip) -> exists k x, k_icache s !! k = Some x /\ i_ref x = 0.
Proof.
  intros Hi. destruct Hfree as (a & b & Hab & Ha & Hb & Ra & Rb). rewrite <- (io_len _ _ _ _ Hi) in Ha, Hb.
  assert (H : forall k, (k < length (k_icache s))%nat -> ref k = 0 -> k <> ip -> exists k x, k_icache s !! k = Some x /\ i_ref x = 0).
  { intros k Hk Rk Hne. destruct (lookup_lt_is_Some_2 _ _ Hk) as [x Hx]. exists k, x. split; [done|].
    destruct (io_entry _ _ _ _ Hi k x Hx) as (-> & _). unfold more. by rewrite decide_False. }
  destruct (decide (a = ip)) as [->|Ha']; [apply (H b); auto|by apply (H a)].
Qed.

(** One element: the lookup in the locked directory [ip], and its release. *)
Lemma descend_run s ip inum name :
  env s i c me p -> cache s (pid p) [] -> roomy s -> icache_ok s (pid p) (Some ip) (more ref ip) -> loaded s ip inum -> tree_ok s ok -> ok inum ->
  d_type (disk_inode s inum) = T_DIR -> 0 ∉ name -> (length name <= Z.to_nat DIRSIZ)%nat ->
  match step_to s inum name with
  | Some j => exists s1 s2 ip' o, dirlookup ip name s = Ret (Some (ip', o)) s1 /\ iunlockput ip s1 = Ret tt s2 /\ calm s s2 (pid p) /\
      icache_ok s2 (pid p) None (more ref ip') /\ inum_at s2 ip' = Some j
  | None => exists s1 s2, dirlookup ip name s = Ret None s1 /\ iunlockput ip s1 = Ret tt s2 /\ calm s s2 (pid p) /\ icache_ok s2 (pid p) None ref
  end.
Proof.
  intros He Hc Hr Hi (x & Hx & Hrx & Hn & Hv & Him) Ht Hok Hty Hz Hlen.
  destruct (io_entry _ _ _ _ Hi ip x Hx) as (_ & _ & _ & E4). destruct (E4 Hrx) as [Hdev _].
  assert (Hme : more ref ip ip = ref ip + 1) by (unfold more; by rewrite decide_True).
  assert (Hl : lookup_env s (pid p) ip x).
  { split; [done|done|done| |done|apply Hi|by apply (free_slot s (pid p) (Some ip) ip)].
    apply dir_ok_image; [done|]. rewrite Him. by apply (to_dir _ _ Ht). }
  pose proof (dirlookup_run Hpat s i c me p ip x name He Hl Hz Hlen) as H.
  assert (Es : search (entry s x) name (dir_entries x) = search (dir_entry s inum) name (dir_entries (as_inode (disk_inode s inum)))).
  { unfold dir_entry. by rewrite <- Him. }
  assert (Ee : forall k, entry s x k = dir_entry s inum k) by (intros k; unfold dir_entry; by rewrite <- Him).
  unfold step_to. rewrite <- Es. destruct (search (entry s x) name (dir_entries x)) as [k|] eqn:Ek.
  - destruct H as (s1 & ip' & Q & Hs & E). rewrite Ee in Hs, E. set (j := de_inum (dir_entry s inum k)) in *. cbn [fmap option_fmap option_map]. fold j.
    pose proof (calm_quiet _ _ _ Q) as C1. pose proof (icache_ok_calm _ _ _ _ _ C1 (quiet_icache _ _ _ _ Q) Hi) as Hi1.
    assert (Hs1 : slot_for s1 j ip') by (unfold slot_for; by rewrite (quiet_icache _ _ _ _ Q)).
    pose proof (icache_ok_take s1 _ _ _ j ip' (cm_cache _ _ _ C1) Hi1 Hs1) as Hi2. set (s2 := upd_inode ip' (take_ref j) s1) in *.
    assert (C2 : calm s s2 (pid p)) by (apply (calm_trans _ _ _ _ C1), calm_upd, C1).
    assert (Hip : refers s2 ip inum).
    { rewrite (refers_iff _ _ _ _ _ _ Hi2). unfold s2. rewrite (take_inum _ _ _ _ Hs1). split.
      - case_decide as Eip; [subst ip'|unfold inum_at; rewrite (quiet_icache _ _ _ _ Q), Hx; cbn; congruence].
        destruct Hs as (x' & Hx' & [(_ & _ & N)|[R0 _]]); simplify_eq; [congruence|lia].
      - pose proof (Hnn ip). unfold more in *. repeat case_decide; try done; lia. }
    destruct (iunlockput_run s2 _ ip inum ok (cm_env _ _ _ C2 _ _ _ _ He) (cm_cache _ _ _ C2) Hi2 Hip (calm_tree_ok _ _ _ _ C2 Ht) Hok) as (s3 & E3 & C3 & Hi3 & N3).
    exists s2, s3, ip', (k * DIRENT_SIZE). split; [done|]. split; [done|]. split; [exact (calm_trans _ _ _ _ C2 C3)|]. split.
    + eapply icache_ok_ext; [|exact Hi3]. intros q. unfold fewer, more. repeat case_decide; lia.
    + rewrite N3. unfold s2. rewrite (take_inum _ _ _ _ Hs1). by rewrite decide_True.
  - destruct H as (s1 & E & Q). pose proof (calm_quiet _ _ _ Q) as C1. pose proof (icache_ok_calm _ _ _ _ _ C1 (quiet_icache _ _ _ _ Q) Hi) as Hi1.
    destruct (iunlockput_run s1 _ ip inum ok (cm_env _ _ _ C1 _ _ _ _ He) (cm_cache _ _ _ C1) Hi1) as (s3 & E3 & C3 & Hi3 & _);
      [exists x; by rewrite (quiet_icache _ _ _ _ Q)|exact (calm_tree_ok _ _ _ _ C1 Ht)|done|].
    exists s1, s3. split; [done|]. split; [done|]. split; [exact (calm_trans _ _ _ _ C1 C3)|].
    eapply icache_ok_ext; [|exact Hi3]. intros q. unfold fewer, more. repeat case_decide; lia.
Qed.
(** What [namex] returns for the elements [es] from [inum] on: a reference to
    the inode they name, or none and no reference kept. *)
Definition names (s : kernel) (np : bool) (inum : Z) (es : list (list Z)) (o : outcome kernel (option nat * list Z)) : Prop :=
  exists s' name, calm s s' (pid p) /\
    match resolve s np inum es with
    | Some j => exists ip, o = Ret (Some ip, name) s' /\ icache_ok s' (pid p) None (more ref ip) /\ inum_at s' ip = Some j /\
        (np = true -> last es = Some name)
    | None => o = Ret (None, name) s' /\ icache_ok s' (pid p) None ref
    end.

Lemma rest_empty path name r : skipelem path = Some (name, r) -> bool_decide (r = []) = bool_decide (elems r = []).
Proof.
  intros H. assert (Hr : exists q, r = skip_slashes q).
  { unfold skipelem in H. destruct (skip_slashes path); [done|]. destruct (take_elem _). injection H as _ <-. eauto. }
  apply bool_decide_ext. split; [by intros ->|]. intros E. destruct Hr as [q Hq]. destruct r as [|ch r']; [done|].
  pose proof (skip_head q ch r' (eq_sym Hq)) as Hc. pose proof (skipelem_spec (ch :: r')) as Hs. unfold skipelem in Hs. cbn [skip_slashes] in Hs.
  replace (ch =? 47) with false in Hs by lia. destruct (take_elem (ch :: r')). destruct Hs as (f & Hf & _). by rewrite Hf in E.
Qed.

Lemma namex_loop_run np fuel : forall s path ip inum name,
  env s i c me p -> cache s (pid p) [] -> roomy s -> icache_ok s (pid p) None (more ref ip) -> inum_at s ip = Some inum -> tree_ok s ok -> ok inum ->
  Forall (fun e => 0 ∉ e) (elems path) -> (length path < fuel)%nat ->
  names s np inum (take (Z.to_nat DIRSIZ) <$> elems path) (namex_loop fuel path np ip name s).
Proof.
  induction fuel as [|fuel IH]; intros s path ip inum name He Hc Hr Hi Hn Ht Hok Hz Hfuel; [lia|]. cbn [namex_loop].
  assert (Href : refers s ip inum).
  { apply (refers_iff _ _ _ _ _ _ Hi). split; [done|]. pose proof (Hnn ip). unfold more. rewrite decide_True by done. lia. }
  pose proof (skipelem_spec path) as Hs. destruct (skipelem path) as [[nm r]|] eqn:Esk.
  2:{ rewrite Hs. cbn [fmap list_fmap]. destruct np.
      - destruct (iput_run s _ ip inum ok He Hc Hi Href Ht Hok) as (s' & E & C & Hi' & _). exists s', name. split; [done|]. split; [by krun E|].
        eapply icache_ok_ext; [|exact Hi']. intros q. unfold fewer, more. repeat case_decide; lia.
      - exists s, name. split; [|by exists ip]. split; [done|done|done|done|]. exists (k_ptable s), (k_bufs s), (k_lru s), (k_icache s). by destruct s. }
  destruct Hs as (f & Ef & -> & Hlr). rewrite Ef in Hz |- *. apply Forall_cons in Hz as [Hzf Hz]. cbn [fmap list_fmap].
  set (e := take (Z.to_nat DIRSIZ) f) in *. set (es := take (Z.to_nat DIRSIZ) <$> elems r).
  destruct (ilock_run s _ ip inum ok He Hc Hr Hi Href Ht Hok) as (s1 & E1 & C1 & Hi1 & Hld & N1). krun E1.
  pose proof (cm_env _ _ _ C1 _ _ _ _ He) as He1. pose proof (calm_tree_ok _ _ _ _ C1 Ht) as Ht1. pose proof (calm_roomy _ _ _ C1 Hr) as Hr1.
  destruct Hld as (x & Hx & Hrx & Hinum & Hval & Him). krun (get_inode_run s1 ip x Hx).
  assert (Hty : i_type x = d_type (disk_inode s inum)) by (rewrite <- (calm_disk_inode _ _ _ _ C1), <- Him; done).
  assert (Hrefs1 : refers s1 ip inum) by (by exists x). rewrite Hty. unfold names. cbn [resolve].
  destruct (decide (d_type (disk_inode s inum) = T_DIR)) as [Hdir|Hdir].
  2:{ apply Z.eqb_neq in Hdir. rewrite Hdir. cbn [negb].
      destruct (iunlockput_run s1 _ ip inum ok He1 (cm_cache _ _ _ C1) Hi1 Hrefs1 Ht1 Hok) as (s2 & E2 & C2 & Hi2 & _).
      exists s2, e. split; [exact (calm_trans _ _ _ _ C1 C2)|]. split; [by krun E2|].
      eapply icache_ok_ext; [|exact Hi2]. intros q. unfold fewer, more. repeat case_decide; lia. }
  rewrite Hdir, Z.eqb_refl. cbn [negb]. rewrite (rest_empty _ _ _ Esk).
  assert (Ees : bool_decide (elems r = []) = bool_decide (es = [])).
  { apply bool_decide_ext. unfold es. by destruct (elems r). }
  rewrite Ees. destruct (np && bool_decide (es = [])) eqn:Enp.
  { apply andb_true_iff in Enp as [-> Hes%bool_decide_eq_true].
    destruct (iunlock_run s1 _ ip x He1 (cm_cache _ _ _ C1) Hi1 Hx Hrx) as (s2 & E2 & C2 & Hi2 & I2).
    exists s2, e. split; [exact (calm_trans _ _ _ _ C1 C2)|]. exists ip. split; [by krun E2|]. split; [done|].
    split; [by rewrite (inum_at_alter _ _ _ _ I2 ltac:(done)), N1|]. intros _. by rewrite Hes. }
  pose proof (descend_run s1 ip inum e He1 (cm_cache _ _ _ C1) Hr1 Hi1) as H.
  rewrite (calm_step_to _ _ _ _ _ C1), (calm_disk_inode _ _ _ _ C1) in H.
  assert (Hze : 0 ∉ e) by (intros (q & Hq & _)%elem_of_take; apply Hzf; by eapply list_elem_of_lookup_2). assert (Hle : (length e <= Z.to_nat DIRSIZ)%nat) by (unfold e; rewrite length_take; lia).
  specialize (H ltac:(by exists x) Ht1 Hok Hdir Hze Hle). destruct (step_to s inum e) as [j|] eqn:Est; cbn [mbind option_bind].
  - destruct H as (s2 & s3 & ip' & o & E2 & E3 & C3 & Hi3 & N3). pose proof (calm_trans _ _ _ _ C1 C3) as C13.
    destruct (IH s3 r ip' j e (cm_env _ _ _ C13 _ _ _ _ He) (cm_cache _ _ _ C13) (calm_roomy _ _ _ C13 Hr) Hi3 N3 (calm_tree_ok _ _ _ _ C13 Ht)
      (to_entry _ _ Ht _ _ _ Hok Hdir Est) Hz ltac:(lia)) as (s' & nm & C & H). fold es in H. rewrite (calm_resolve _ _ _ _ _ _ C13) in H.
    exists s', nm. split; [exact (calm_trans _ _ _ _ C13 C)|]. destruct (resolve s np j es) as [q|];
      [|destruct H as [H1 H2]; split; [krun E2; krun E3; exact H1|done]].
    destruct H as (ipq & H1 & H2 & H3 & H4). exists ipq. split; [krun E2; krun E3; exact H1|]. split; [done|]. split; [done|]. intros Hnp. rewrite last_cons. by rewrite (H4 Hnp).
  - destruct H as (s2 & s3 & E2 & E3 & C3 & Hi3). exists s3, e. split; [exact (calm_trans _ _ _ _ C1 C3)|]. split; [krun E2; by krun E3|done].
Qed.
(** The inode where a path starts: the root, or the current directory. *)
Definition starts_at (s : kernel) (path : list Z) (inum : Z) : Prop :=
  if bool_decide (head path = Some 47) then inum = ROOTINO
  else exists d, cwd p = Some d /\ inum_at s d = Some inum /\ 0 < ref d.

Lemma start_run s path inum :
  env s i c me p -> cache s (pid p) [] -> icache_ok s (pid p) None ref -> starts_at s path inum ->
  exists ip s', (if bool_decide (head path = Some 47) then iget ROOTDEV ROOTINO else (c <- mine cwd ;; c <- deref c ;; idup c)) s = Ret ip s' /\
    calm s s' (pid p) /\ icache_ok s' (pid p) None (more ref ip) /\ inum_at s' ip = Some inum.
Proof.
  intros He Hc Hi. unfold starts_at. case_bool_decide as Hs.
  - intros ->. destruct (iget_run s i c me p ROOTINO He (io_len _ _ _ _ Hi)) as (ip & Hip & E).
    { destruct Hfree as (a & _ & _ & Ha & _ & Ra & _). rewrite <- (io_len _ _ _ _ Hi) in Ha.
      destruct (lookup_lt_is_Some_2 _ _ Ha) as [x Hx]. exists a, x. split; [done|]. by destruct (io_entry _ _ _ _ Hi a x Hx) as (-> & _). }
    exists ip, (upd_inode ip (take_ref ROOTINO) s). split; [done|]. split; [by apply calm_upd|]. split; [by apply icache_ok_take|].
    rewrite (take_inum _ _ _ _ Hip). by rewrite decide_True.
  - intros (d & Hd & Hn & Hr). pose proof Hn as (x & Hx & ->)%fmap_Some. destruct (io_entry _ _ _ _ Hi d x Hx) as (E1 & E2 & E3 & E4).
    exists d, (upd_inode d (fun x => x <| i_ref ::= fun n => n + 1 |>) s). krun (env_mine cwd s i c me p He). rewrite Hd.
    unfold deref, kret, kbind at 1. cbn [obind]. split.
    { unfold idup. krun (env_acquire s i c me p Licache He I). set (f := fun x : inode => x <| i_ref ::= fun n => n + 1 |>).
      krun (set_inode_acq s i Licache d f). by krun (env_release _ i c me p Licache (env_upd_inode _ _ _ _ _ d f He) I). }
    split; [by apply calm_upd|]. split; [|by rewrite (inum_at_alter s _ d (fun x => x <| i_ref ::= fun n => n + 1 |>))].
    apply (icache_ok_keep s (pid p) None ref d _ x None (more ref d) Hc Hi Hx); [| |lia|done].
    + intros j Hj. unfold more. by rewrite decide_False.
    + unfold entry_ok, more. rewrite (decide_True (P := d = d)) by done. cbn. split; [lia|]. split; [lia|]. split; [done|]. intros _. apply E4. lia.
Qed.

Lemma fields_in path : forall e ch, e ∈ fields path -> ch ∈ e -> ch ∈ path.
Proof.
  induction path as [|c' path IH]; intros e ch He Hch.
  - apply list_elem_of_singleton in He. subst. by apply not_elem_of_nil in Hch.
  - change (fields (c' :: path)) with (if c' =? 47 then [] :: fields path else match fields path with f :: r => (c' :: f) :: r | [] => [[c']] end) in He.
    apply elem_of_cons. destruct (c' =? 47).
    + apply elem_of_cons in He as [->|He]; [by apply not_elem_of_nil in Hch|]. right. by apply (IH e).
    + destruct (fields path) as [|f r] eqn:Ef.
      * apply list_elem_of_singleton in He. subst. apply list_elem_of_singleton in Hch. auto.
      * apply elem_of_cons in He as [->|He]; [|right; apply (IH e); [by apply elem_of_cons; right|done]].
        apply elem_of_cons in Hch as [->|Hch]; [by left|]. right. apply (IH f); [by apply elem_of_cons; left|done].
Qed.

Lemma elems_nonzero path : 0 ∉ path -> Forall (fun e => 0 ∉ e) (elems path).
Proof. intros H. apply Forall_forall. intros e [_ He]%list_elem_of_filter Hz. apply H. by apply (fields_in path e). Qed.

Lemma namex_run (s : kernel) path np inum :
  env s i c me p -> cache s (pid p) [] -> roomy s -> icache_ok s (pid p) None ref -> tree_ok s ok -> ok inum ->
  starts_at s path inum -> 0 ∉ path ->
  exists s' name, calm s s' (pid p) /\
    match resolve s np inum (take (Z.to_nat DIRSIZ) <$> elems path) with
    | Some j => exists ip, namex path np s = Ret (Some ip, name) s' /\ icache_ok s' (pid p) None (more ref ip) /\ inum_at s' ip = Some j /\
        (np = true -> last (take (Z.to_nat DIRSIZ) <$> elems path) = Some name)
    | None => namex path np s = Ret (None, name) s' /\ icache_ok s' (pid p) None ref
    end.
Proof.
  intros He Hc Hr Hi Ht Hok Hst Hz. destruct (start_run s path inum He Hc Hi Hst) as (ip & s1 & E1 & C1 & Hi1 & N1).
  assert (E : namex path np s = namex_loop (S (length path)) path np ip [] s1) by (unfold namex; by krun E1). rewrite E.
  destruct (namex_loop_run np (S (length path)) s1 path ip inum [] (cm_env _ _ _ C1 _ _ _ _ He) (cm_cache _ _ _ C1) (calm_roomy _ _ _ C1 Hr) Hi1 N1
    (calm_tree_ok _ _ _ _ C1 Ht) Hok (elems_nonzero path Hz) ltac:(lia)) as (s' & name & C & H).
  rewrite (calm_resolve _ _ _ _ _ _ C1) in H. exists s', name. split; [exact (calm_trans _ _ _ _ C1 C)|done].
Qed.

(** C4: A path names the inode that the directories on the disk say.  With the
    inode cache consistent and two of its entries free, [namex] of a path
    returns: it follows the elements of the path, from the root or from the
    current directory, through the entries of the directories; it returns
    nothing, and keeps no reference, when an element is missing or is looked
    up in something that is not a directory, and otherwise the cache entry of
    the inode with exactly one new reference (for [nameiparent] the directory
    of the last element, with that element's name).  The cache stays
    consistent, with one entry for each inode, every lock is free again, and no
    block changes. *)
Theorem namex_spec (s : kernel) path np inum :
  env s i c me p -> cache s (pid p) [] -> roomy s -> icache_ok s (pid p) None ref -> tree_ok s ok -> ok inum ->
  starts_at s path inum -> 0 ∉ path ->
  exists s' name, calm s s' (pid p) /\
    match resolve s np inum (take (Z.to_nat DIRSIZ) <$> elems path) with
    | Some j => exists ip, namex path np s = Ret (Some ip, name) s' /\ icache_ok s' (pid p) None (more ref ip) /\ inum_at s' ip = Some j /\
        (np = true -> last (take (Z.to_nat DIRSIZ) <$> elems path) = Some name)
    | None => namex path np s = Ret (None, name) s' /\ icache_ok s' (pid p) None ref
    end.
Proof. exact (namex_run s path np inum). Qed.
End Names.

(** ** A concrete file system *)

(** Inode 1 is the root, with the entries [.], [..] and [ab]; inode 2 is the
    file [ab].  Inodes start at block 32 and the root's entries are in block 60. *)
Definition demo_root : list Z :=
  encode_dirent (mk_dirent 1 (strncpy_str [46] 14)) ++ encode_dirent (mk_dirent 1 (strncpy_str [46; 46] 14)) ++
  encode_dirent (mk_dirent 2 (strncpy_str [97; 98] 14)) ++ replicate 464 0.
Definition demo_inodes : list Z :=
  encode_dinode (encode_dinode (replicate 512 0) 64 (mk_dinode 1 0 0 1 48 (60 :: replicate 12 0))) 128 (mk_dinode 2 0 0 1 0 (replicate 13 0)).
Definition demo_fs : kernel :=
  (with_bufs [] {[ 32 := demo_inodes; 60 := demo_root ]}) <| k_sb := mk_superblock 1000 941 200 30 2 32 58 |>.
Definition demo_ok (inum : Z) : Prop := inum = 1 \/ inum = 2.

Lemma demo_fs_env : env demo_fs 0 run_cpu 0 run_proc.
Proof. exact (env_ext running demo_fs 0 run_cpu 0 run_proc running_env eq_refl eq_refl eq_refl eq_refl eq_refl eq_refl). Qed.

Lemma demo_fs_cache : cache demo_fs (pid run_proc) [].
Proof.
  assert (H : cache (with_bufs [] {[ 32 := demo_inodes; 60 := demo_root ]}) (pid run_proc) []).
  { apply with_bufs_cache; [unfold NBUF; cbn; lia| |constructor|constructor]. intros b. unfold disk_block.
    change (k_disk (with_bufs [] {[ 32 := demo_inodes; 60 := demo_root ]})) with ({[ 32 := demo_inodes; 60 := demo_root ]} : gmap Z (list Z)).
    destruct (decide (b = 32)) as [->|H1]; [vm_compute; reflexivity|]. destruct (decide (b = 60)) as [->|H2]; [vm_compute; reflexivity|].
    rewrite lookup_insert_ne, lookup_singleton_ne by congruence. vm_compute. reflexivity. }
  destruct H as [H1 H2 H3 H4 H5 H6 H7 H8]. split; try done. intros k x Hx Hk. by destruct (H7 k x Hx Hk).
Qed.

Lemma demo_fs_roomy : roomy demo_fs.
Proof.
  exists []. split; [|unfold NBUF; cbn; lia]. intros b (k & x & Hx & _ & F). change (k_bufs (with_bufs [] ∅) !! k = Some x) in Hx.
  apply with_bufs_lookup in Hx as [Hx| ->]; [by apply not_elem_of_nil in Hx|discriminate].
Qed.

Lemma demo_fs_icache : icache_ok demo_fs (pid run_proc) None (fun _ => 0).
Proof.
  assert (H : forall k x, k_icache demo_fs !! k = Some x -> x = zero_inode).
  { intros k x Hx. change (replicate NINODE zero_inode !! k = Some x) in Hx. by apply lookup_replicate in Hx as [-> _]. }
  split; [reflexivity| |].
  - intros k x ->%H. split; [reflexivity|]. split; [reflexivity|]. split; [reflexivity|]. cbn. lia.
  - intros j k x y ->%H _ R. cbn in R. lia.
Qed.

Lemma demo_fs_tree : tree_ok demo_fs demo_ok.
Proof.
  split.
  - intros inum [->| ->]; (split; [lia|]; split; [vm_compute; split; [discriminate|reflexivity]|]; split; vm_compute; discriminate).
  - intros inum [->| ->] Hty; [|vm_compute in Hty; discriminate].
    assert (E : as_inode (disk_inode demo_fs 1) = zero_inode <| i_dev := 1 |> <| i_type := 1 |> <| i_size := 48 |> <| i_addrs := 60 :: replicate 12 0 |>)
      by (vm_compute; reflexivity).
    rewrite E. split; [reflexivity| |vm_compute; split; [discriminate|reflexivity]]. exists 1. split; [|vm_compute; discriminate].
    split; [reflexivity|vm_compute; discriminate|reflexivity| |unfold NDIRECT; lia].
    intros bn Hbn. replace bn with 0 by lia. vm_compute. split; [discriminate|split; [discriminate|reflexivity]].
  - intros inum name j [->| ->] _ Hj; unfold step_to, search in Hj.
    + apply fmap_Some in Hj as (k & Hk & ->). apply fmap_Some in Hk as ([q k'] & Hf & ->). apply list_find_Some in Hf as (Hq & _).
      change (dir_entries (as_inode (disk_inode demo_fs 1))) with [0; 1; 2] in Hq. cbn [snd].
      destruct q as [|[|[|q]]]; cbn in Hq; [| | |discriminate]; injection Hq as <-; [left|left|right]; vm_compute; reflexivity.
    + discriminate.
Qed.

Lemma namex_spec_witness :
  resolve demo_fs false 1 [[46]; [97; 98]] = Some 2 /\ resolve demo_fs false 1 [[97; 98]; [46]] = None /\
  exists s' name ip, namex (Pt := 1%nat) [47; 46; 47; 47; 97; 98] false demo_fs = Ret (Some ip, name) s' /\ inum_at s' ip = Some 2.
Proof.
  split; [vm_compute; reflexivity|]. split; [vm_compute; reflexivity|].
  destruct (namex_spec (Pt := 1%nat) ltac:(unfold patience; lia) 0 run_cpu 0 run_proc demo_ok (fun _ => 0)) with (s := demo_fs) (path := [47; 46; 47; 47; 97; 98]) (np := false) (inum := 1)
    as (s' & name & _ & H).
  - intros k. lia.
  - exists 0%nat, 1%nat. unfold NINODE. lia.
  - exact demo_fs_env.
  - exact demo_fs_cache.
  - exact demo_fs_roomy.
  - exact demo_fs_icache.
  - exact demo_fs_tree.
  - left. reflexivity.
  - reflexivity.
  - rewrite !not_elem_of_cons. repeat split; try discriminate. apply not_elem_of_nil.
  - change (elems [47; 46; 47; 47; 97; 98]) with [[46]; [97; 98]] in H.
    change (take (Z.to_nat DIRSIZ) <$> [[46]; [97; 98]]) with [[46]; [97; 98]] in H.
    assert (E : resolve demo_fs false 1 [[46]; [97; 98]] = Some 2) by (vm_compute; reflexivity). rewrite E in H.
    destruct H as (ip & H1 & _ & H2 & _). exists s', name, ip. split; [exact H1|exact H2].
Defined.
