(* ===== verification/LinkSpec.v ===== *)
(** * New directory entries

    [dirlink] puts a name into a directory: the next lookup of the name finds it,
    and every other name leads where it did. *)

From stdpp Require Import base gmap strings list fin_maps.
From Stdlib Require Import ZArith Lia.
From S2P Require Import Prelude Mem Types Spinlock Kalloc Vm Proc ProcSpec Access Bytes Sleeplock Steady Disk Bio BioSpec Log LogSpec Inode TxnSpec Console Fs FileSpec DirSpec PathSpec NameSpec.

(** ** Searching a changed directory *)

Lemma search_same f g name ks : (forall k, k ∈ ks -> entry_named name (f k) <-> entry_named name (g k)) -> search f name ks = search g name ks.
Proof.
  induction ks as [|k ks IH]; intros H; [done|]. rewrite !search_cons. pose proof (H k ltac:(by left)) as Hk.
  rewrite IH by (intros j Hj; apply H; by right). destruct (decide (entry_named name (f k))), (decide (entry_named name (g k))); tauto.
Qed.

Lemma search_None f name ks : search f name ks = None <-> forall k, k ∈ ks -> ~ entry_named name (f k).
Proof.
  induction ks as [|k ks IH]; [split; [by intros _ k ?%not_elem_of_nil|done]|]. rewrite search_cons. case_decide as D.
  - split; [done|]. intros H. destruct (H k); [by left|done].
  - rewrite IH. split; [intros H j [->|Hj]%elem_of_cons; auto|]. intros H j Hj. apply H. by right.
Qed.

Lemma search_unique f name k ks : k ∈ ks -> entry_named name (f k) -> (forall j, j ∈ ks -> entry_named name (f j) -> j = k) -> search f name ks = Some k.
Proof.
  induction ks as [|j ks IH]; intros Hk Hn Hu; [by apply not_elem_of_nil in Hk|]. rewrite search_cons. case_decide as D; [by rewrite (Hu j ltac:(by left) D)|].
  apply IH; [|done|by intros q Hq; apply Hu; right]. apply elem_of_cons in Hk as [->|Hk]; [done|done].
Qed.

Lemma search_app f name ks ks' : search f name ks = None -> search f name (ks ++ ks') = search f name ks'.
Proof. induction ks as [|k ks IH]; [done|]. cbn [app]. rewrite !search_cons. by case_decide. Qed.

(** The first entry that is not in use, or the one behind the last. *)
Definition free_entry (f : Z -> dirent) (n : Z) : Z := default n (snd <$> list_find (fun k => de_inum (f k) = 0) (seqZ 0 n)).

Lemma free_entry_spec f n : 0 <= n -> let k := free_entry f n in 0 <= k <= n /\ (k < n -> de_inum (f k) = 0).
Proof.
  intros Hn. unfold free_entry. destruct (list_find _ (seqZ 0 n)) as [[q k]|] eqn:E; cbn; [|lia].
  apply list_find_Some in E as (Hq & Hz & _). apply lookup_seqZ in Hq as [-> Hq]. split; [lia|done].
Qed.

(** Entry [k] becomes [de]. *)
Lemma search_link (f g : Z -> dirent) n n' name de :
  0 <= n -> let k := free_entry f n in n' = Z.max n (k + 1) -> entry_named name de -> (forall j, 0 <= j < n' -> g j = if decide (j = k) then de else f j) ->
  search f name (seqZ 0 n) = None ->
  search g name (seqZ 0 n') = Some k /\ forall nm, nm <> name -> search g nm (seqZ 0 n') = search f nm (seqZ 0 n).
Proof.
  intros Hn k Hn' Hde Hg Hno. destruct (free_entry_spec f n Hn) as [Hk Hz]. fold k in Hk, Hz. split.
  - apply search_unique; [apply elem_of_seqZ; lia|rewrite Hg, decide_True by lia; done|]. intros j Hj%elem_of_seqZ Hnm. rewrite Hg in Hnm by lia.
    case_decide; [done|]. destruct (proj1 (search_None f name (seqZ 0 n)) Hno j); [apply elem_of_seqZ; lia|done].
  - intros nm Hne. assert (Hsame : search g nm (seqZ 0 n) = search f nm (seqZ 0 n)).
    { apply search_same. intros j Hj%elem_of_seqZ. rewrite Hg by lia. destruct (decide (j = k)) as [->|]; [|done].
      unfold entry_named in *. destruct Hde as [D1 D2]. rewrite Hz by lia. split; [intros [_ H]; congruence|by intros [H _]]. }
    destruct (decide (k < n)); [replace n' with n by lia; done|]. replace n' with (n + 1) by lia. rewrite seqZ_app by lia. rewrite <- Hsame.
    assert (Hlast : search g nm (seqZ (0 + n) 1) = None).
    { apply search_None. intros j Hj%elem_of_seqZ Hnm. rewrite Hg, decide_True in Hnm by lia. destruct Hde as [_ D]. destruct Hnm as [_ D']. congruence. }
    destruct (search g nm (seqZ 0 n)) as [q|] eqn:E; [|by rewrite search_app].
    clear - E. revert E. generalize (seqZ 0 n). intros l. induction l as [|j l IH]; [done|]. cbn [app]. rewrite !search_cons. case_decide; auto.
Qed.

(** ** The entry written *)


Lemma length_encode_dirent inum name : length (encode_dirent (mk_dirent inum (strncpy_str name (Z.to_nat DIRSIZ)))) = 16%nat.
Proof.
  unfold encode_dirent, strncpy_str. cbn [de_name]. rewrite !length_app, length_take, length_replicate. change (Z.to_nat DIRSIZ) with 14%nat. cbn [length]. lia.
Qed.

Lemma decode_encode_dirent inum name : 0 <= inum < 65536 ->
  decode_dirent (encode_dirent (mk_dirent inum (strncpy_str name (Z.to_nat DIRSIZ)))) = mk_dirent inum (strncpy_str name (Z.to_nat DIRSIZ)).
Proof.
  intros Hi. unfold decode_dirent, encode_dirent. cbn [de_inum de_name]. f_equal.
  - change (u8 inum + 256 * u8 (inum / 256) = inum). unfold u8. Z.div_mod_to_equations. lia.
  - unfold get_bytes. change (Z.to_nat 2) with 2%nat. cbn [app drop]. change DIRSIZ with 14. apply take_ge. unfold strncpy_str. rewrite length_app, length_take, length_replicate. lia.
Qed.

Lemma dirent_bytes inum name : Forall (fun b => 0 <= b < 256) name ->
  Forall (fun b => 0 <= b < 256) (encode_dirent (mk_dirent inum (strncpy_str name (Z.to_nat DIRSIZ)))).
Proof.
  intros H. unfold encode_dirent, strncpy_str. cbn. constructor; [apply u8_range|]. constructor; [apply u8_range|].
  apply Forall_app. split; [by apply Forall_take|]. apply Forall_replicate. lia.
Qed.

Lemma patched_self f off l : Forall (fun b => 0 <= b < 256) l -> patched f off l <$> seqZ off (Z.of_nat (length l)) = l.
Proof.
  intros Hl. apply list_eq. intros k. rewrite list_lookup_fmap. destruct (decide (k < length l)%nat) as [Hk|Hk].
  - rewrite lookup_seqZ_lt by lia. cbn. unfold patched. rewrite decide_True by lia. unfold byte_at. replace (Z.to_nat (off + Z.of_nat k - off)) with k by lia.
    destruct (lookup_lt_is_Some_2 l k Hk) as [b Hb]. rewrite Hb. cbn. f_equal. unfold u8. apply Z.mod_small. exact (proj1 (Forall_lookup _ _) Hl _ _ Hb).
  - rewrite lookup_seqZ_ge by lia. symmetry. apply lookup_ge_None. lia.
Qed.

(** ** Reads before a write *)

Lemma quiet_file_sep s s' n m x nb st : quiet s s' n m -> file_sep s x nb st -> file_sep s' x nb st.
Proof.
  intros Q [F1 F2 F3]. split.
  - intros a b. rewrite !(quiet_blk _ _ _ _ _ _ Q). apply F1.
  - intros Hn a. rewrite (quiet_blk _ _ _ _ _ _ Q). by apply F2.
  - intros a. rewrite (quiet_blk _ _ _ _ _ _ Q). apply F3.
Qed.

Lemma quiet_iblock s s' n m x : quiet s s' n m -> iblock s' x = iblock s x /\ k_disksize s' = k_disksize s /\ k_disk s' = k_disk s /\ k_dwrites s' = k_dwrites s /\ k_sb s' = k_sb s.
Proof. intros Q. by destruct (qt_frame _ _ _ _ Q) as (? & ? & ? & ->). Qed.

Lemma quiet_inode_home s s' n m x nb st : quiet s s' n m -> inode_home s x nb st -> inode_home s' x nb st.
Proof.
  intros Q [H1 H2 H3 H4 H5 H6]. destruct (quiet_iblock _ _ _ _ x Q) as (E1 & E2 & _). split; rewrite ?E1; try done.
  - unfold block_ok in *. by rewrite E2.
  - intros a. rewrite (quiet_blk _ _ _ _ _ _ Q). apply H5.
Qed.

Lemma quiet_written s s1 s' n ip x x' nb off l : quiet s s1 n (k_mem s) -> written s1 s' n ip x x' nb off l -> written s s' n ip x x' nb off l.
Proof.
  intros Q [W1 Wi Ws W2 W3 W4 W5 W6 W7 W8]. destruct (quiet_iblock _ _ _ _ x Q) as (E1 & E2 & E3 & E4 & E5).
  split; [done|by rewrite Wi, (quiet_icache _ _ _ _ Q)|congruence|done|done| | |congruence|congruence|].
  - intros k Hk. rewrite W4 by done. unfold patched. case_decide; [done|]. exact (quiet_byte _ _ _ _ _ _ Q).
  - intros b Hb Hn. rewrite W5; [exact (qt_view _ _ _ _ Q b)|by rewrite E1|]. intros k Hk. rewrite (quiet_blk _ _ _ _ _ _ Q). by apply Hn.
  - intros i' c' me' p' He. exact (W8 _ _ _ _ (qt_env _ _ _ _ Q _ _ _ _ He)).
Qed.

(** The entries of a directory in which the bytes of one entry were replaced. *)
Lemma written_entry s s' n ip x x' nb k inum name j :
  let de := mk_dirent inum (strncpy_str name (Z.to_nat DIRSIZ)) in
  written s s' n ip x x' nb (k * DIRENT_SIZE) (encode_dirent de) -> 0 <= inum < 65536 -> Forall (fun b => 0 <= b < 256) name -> 0 <= k ->
  0 <= j -> j * DIRENT_SIZE + DIRENT_SIZE <= nb * BSIZE -> entry s' x' j = if decide (j = k) then de else entry s x j.
Proof.
  intros de W Hi Hn Hk Hj Hend. change DIRENT_SIZE with 16 in *. unfold entry. change DIRENT_SIZE with 16. pose proof (length_encode_dirent inum name) as Hl. fold de in Hl.
  assert (E : file_byte s' x' <$> seqZ (j * 16) 16 = patched (file_byte s x) (k * 16) (encode_dirent de) <$> seqZ (j * 16) 16).
  { apply list_fmap_ext. intros q b Hb%list_elem_of_lookup_2. apply elem_of_seqZ in Hb. apply (wr_byte _ _ _ _ _ _ _ _ _ W). lia. }
  rewrite E. case_decide as Ejk.
  - subst j. replace 16 with (Z.of_nat (length (encode_dirent de))) at 3 by (rewrite Hl; lia). rewrite patched_self by (by apply dirent_bytes). by apply decode_encode_dirent.
  - f_equal. apply list_fmap_ext. intros q b Hb%list_elem_of_lookup_2. apply elem_of_seqZ in Hb. unfold patched. rewrite decide_False; [done|]. rewrite Hl. lia.
Qed.

Section Link.
Context `{Pt : Patience} (Hpat : (0 < patience)%nat).
Variables (i : nat) (c : cpu) (me : nat) (p : proc).

Lemma free_scan dp x ks : forall s, env s i c me p -> lookup_env s (pid p) dp x -> (forall k, k ∈ ks -> k ∈ dir_entries x) ->
  exists s', kfor ((fun k => k * DIRENT_SIZE) <$> ks) (fun off =>
      r <- readi dp Local off DIRENT_SIZE ;;
      if negb (fst r =? DIRENT_SIZE) then kpanic "dirlink read" else
      kret (if de_inum (decode_dirent (snd r)) =? 0 then Some off else None)) s =
    Ret ((fun e => snd e * DIRENT_SIZE) <$> list_find (fun k => de_inum (entry s x k) = 0) ks) s' /\ quiet s s' (pid p) (k_mem s).
Proof.
  induction ks as [|k ks IH]; intros s He Hl Hks; cbn [fmap list_fmap kfor]; [exists s; split; [done|apply quiet_refl, Hl]|].
  destruct (read_entry Hpat s i c me p dp x k He (le_cache _ _ _ _ Hl) (le_roomy _ _ _ _ Hl) (le_inode _ _ _ _ Hl) (le_dir _ _ _ _ Hl) ltac:(apply Hks; by left)) as (s1 & E1 & Q1).
  unfold kbind at 1, kbind at 1. rewrite E1. cbn [obind fst snd]. rewrite Z.eqb_refl. cbn [negb]. unfold kret at 1. cbn [obind].
  change (decode_dirent (file_byte s x <$> seqZ (k * DIRENT_SIZE) DIRENT_SIZE)) with (entry s x k). cbn [list_find].
  destruct (Z.eqb_spec (de_inum (entry s x k)) 0) as [Hz|Hz]; [rewrite decide_True by done; by exists s1|rewrite decide_False by done].
  destruct (IH s1 (qt_env _ _ _ _ Q1 _ _ _ _ He) (quiet_lookup_env _ _ _ _ _ _ Q1 Hl) ltac:(intros j Hj; apply Hks; by right)) as (s2 & E2 & Q2).
  exists s2. split; [|rewrite (quiet_mem _ _ _ _ Q1) in Q2; exact (quiet_trans _ _ _ _ _ _ Q1 Q2)]. rewrite E2. f_equal.
  assert (Ef : list_find (fun k => de_inum (entry s1 x k) = 0) ks = list_find (fun k => de_inum (entry s x k) = 0) ks).
  { clear - Q1. induction ks as [|j ks IH]; [done|]. cbn [list_find]. rewrite IH. destruct (decide (de_inum (entry s1 x j) = 0)) as [D|D], (decide (de_inum (entry s x j) = 0)) as [D'|D']; try done;
      rewrite (quiet_entry _ _ _ _ _ _ Q1) in D; done. }
  rewrite Ef. assert (Hs : forall o : option (nat * Z), (fun e => snd e * DIRENT_SIZE) <$> o = (fun e => snd e * DIRENT_SIZE) <$> (prod_map S id <$> o)) by (by intros [[]|]). apply Hs.
Qed.

(** ** [dirlink] *)

Lemma dirlink_run s st bl dp x nb name inum :
  env s i c me p -> lookup_env s (pid p) dp x -> logging s st bl -> file_ok s x nb -> file_sep s x nb st -> inode_home s x nb st ->
  0 ∉ name -> (length name <= Z.to_nat DIRSIZ)%nat -> Forall (fun b => 0 <= b < 256) name -> 0 < inum < 65536 ->
  let k := free_entry (entry s x) (i_size x / DIRENT_SIZE) in
  let x' := resized x (Z.max (i_size x) (k * DIRENT_SIZE + DIRENT_SIZE)) in
  k * DIRENT_SIZE + DIRENT_SIZE <= nb * BSIZE -> i_size x <= nb * BSIZE -> Z.of_nat (length bl) + 2 < LOGSIZE -> dinode_ok (inode_image x') ->
  search (entry s x) name (dir_entries x) = None ->
  exists s', dirlink dp name inum s = Ret 0 s' /\
    written s s' (pid p) dp x x' nb (k * DIRENT_SIZE) (encode_dirent (mk_dirent inum (strncpy_str name (Z.to_nat DIRSIZ)))) /\
    (let bl' := logged bl (blk s x (k * DIRENT_SIZE / BSIZE)) in logging s' st (if i_size x <? k * DIRENT_SIZE + DIRENT_SIZE then logged bl' (iblock s x) else bl')) /\
    (i_size x < k * DIRENT_SIZE + DIRENT_SIZE -> decode_dinode (view s' (iblock s x)) (slot_of x) = inode_image x').
Proof.
  intros He Hl Hlog Hf Hsep Hh Hz Hlen Hby Hin k x' Hend Hsz Hroom Hok Hno. destruct (dk_size _ _ (le_dir _ _ _ _ Hl)) as [S0 S1].
  destruct (free_entry_spec (entry s x) (i_size x / DIRENT_SIZE) ltac:(change DIRENT_SIZE with 16; Z.div_mod_to_equations; lia)) as [Hk _]. fold k in Hk.
  pose proof (dirlookup_run Hpat s i c me p dp x name He Hl Hz Hlen) as H1. rewrite Hno in H1. destruct H1 as (s1 & E1 & Q1).
  unfold dirlink. krun E1. pose proof (quiet_lookup_env _ _ _ _ _ _ Q1 Hl) as Hl1. krun (get_inode_run s1 dp x (le_inode _ _ _ _ Hl1)).
  rewrite dir_offsets_entries by done. destruct (free_scan dp x (dir_entries x) s1 (qt_env _ _ _ _ Q1 _ _ _ _ He) Hl1 (fun _ H => H)) as (s2 & E2 & Q2). krun E2.
  assert (Q : quiet s s2 (pid p) (k_mem s)) by (rewrite (quiet_mem _ _ _ _ Q1) in Q2; exact (quiet_trans _ _ _ _ _ _ Q1 Q2)).
  assert (Eoff : default ((i_size x + DIRENT_SIZE - 1) / DIRENT_SIZE * DIRENT_SIZE)
      ((fun e : nat * Z => snd e * DIRENT_SIZE) <$> list_find (fun k => de_inum (entry s1 x k) = 0) (dir_entries x)) = k * DIRENT_SIZE).
  { unfold k, free_entry. assert (Ef : forall l, snd <$> list_find (fun k => de_inum (entry s1 x k) = 0) l = snd <$> list_find (fun k => de_inum (entry s x k) = 0) l).
    { clear - Q1. induction l as [|j l IH]; [done|]. cbn [list_find]. rewrite (quiet_entry _ _ _ _ _ _ Q1). case_decide; [done|]. rewrite <- !option_fmap_compose.
      change (snd ∘ prod_map S id) with (@snd nat Z). exact IH. }
    specialize (Ef (dir_entries x)). unfold dir_entries in *. change DIRENT_SIZE with 16 in *. destruct (list_find (fun k => de_inum (entry s1 x k) = 0) _) as [[q j]|], (list_find (fun k => de_inum (entry s x k) = 0) _) as [[q' j']|];
      cbn in Ef |- *; [by injection Ef as ->|done|done|]. Z.div_mod_to_equations. lia. }
  rewrite Eoff. unfold u16. rewrite Z.mod_small by lia. set (de := mk_dirent inum _). pose proof (length_encode_dirent inum name) as Hle. fold de in Hle.
  assert (Hturn : turns (k * DIRENT_SIZE) DIRENT_SIZE = 1) by (unfold turns; change DIRENT_SIZE with 16; change BSIZE with 512; change (16 <=? 0) with false; cbv iota; Z.div_mod_to_equations; lia).
  destruct (writei_run Hpat s2 i c me p st bl dp x nb (Bytes (encode_dirent de)) (k * DIRENT_SIZE) DIRENT_SIZE (qt_env _ _ _ _ Q _ _ _ _ He) (qt_cache _ _ _ _ Q)
    (quiet_logging _ _ _ _ _ _ Q Hlog)) as (s3 & E3 & W3 & L3 & D3).
  - rewrite (quiet_icache _ _ _ _ Q). apply Hl.
  - exact (quiet_file_ok _ _ _ _ _ _ Q Hf).
  - exact (quiet_file_sep _ _ _ _ _ _ _ Q Hsep).
  - exact (quiet_inode_home _ _ _ _ _ _ _ Q Hh).
  - by rewrite (dk_type _ _ (le_dir _ _ _ _ Hl)).
  - change DIRENT_SIZE with 16 in *. Z.div_mod_to_equations. lia.
  - done.
  - done.
  - change (Z.of_nat (length (encode_dirent de)) = DIRENT_SIZE). rewrite Hle. done.
  - rewrite Hturn. lia.
  - done.
  - destruct (quiet_iblock _ _ _ _ x Q) as (Ei & _). exists s3. split; [krun E3; by rewrite Z.eqb_refl|].
    assert (El : source_bytes (Bytes (encode_dirent de)) (k_mem s2) DIRENT_SIZE = encode_dirent de) by (cbn; done). rewrite El in W3.
    split; [exact (quiet_written _ _ _ _ _ _ _ _ _ _ Q W3)|]. rewrite Ei in *. split; [|exact D3].
    unfold touched in L3. rewrite Hturn in L3. rewrite (seqZ_cons _ 1) in L3 by lia. change (Z.pred 1) with 0 in L3. cbn [seqZ fmap list_fmap foldl] in L3.
    rewrite (quiet_blk _ _ _ _ _ _ Q) in L3. exact L3.
Qed.
End Link.

Section LinkSpec.
Context `{Pt : Patience} (Hpat : (0 < patience)%nat).

(** C6: [dirlink] adds a name to a directory, and nothing else.  Inside a
    transaction with room in the log, for a name that the directory does not
    have and a directory with an entry not in use or room behind its last one,
    the call returns 0.  It writes the first such entry: a lookup of the name then
    finds the inode there, and a lookup of any other name gives what it gave
    before; no other entry and no block but that of the entry, and that of the
    inode if the directory grew, changes, and both are in the log, the disk
    unchanged. *)
Theorem dirlink_spec (s : kernel) i c me p st bl dp x nb name inum :
  env s i c me p -> lookup_env s (pid p) dp x -> logging s st bl -> file_ok s x nb -> file_sep s x nb st -> inode_home s x nb st ->
  0 ∉ name -> (length name <= Z.to_nat DIRSIZ)%nat -> Forall (fun b => 0 <= b < 256) name -> 0 < inum < 65536 ->
  let k := free_entry (entry s x) (i_size x / DIRENT_SIZE) in
  let x' := resized x (Z.max (i_size x) (k * DIRENT_SIZE + DIRENT_SIZE)) in
  k * DIRENT_SIZE + DIRENT_SIZE <= nb * BSIZE -> i_size x <= nb * BSIZE -> Z.of_nat (length bl) + 2 < LOGSIZE -> dinode_ok (inode_image x') ->
  search (entry s x) name (dir_entries x) = None ->
  exists s', dirlink dp name inum s = Ret 0 s' /\ k_icache s' = <[dp := x']> (k_icache s) /\ k_disk s' = k_disk s /\
    (let bl' := logged bl (blk s x (k * DIRENT_SIZE / BSIZE)) in logging s' st (if i_size x <? k * DIRENT_SIZE + DIRENT_SIZE then logged bl' (iblock s x) else bl')) /\
    (i_size x < k * DIRENT_SIZE + DIRENT_SIZE -> decode_dinode (view s' (iblock s x)) (slot_of x) = inode_image x') /\
    (forall b, b <> iblock s x -> b <> blk s x (k * DIRENT_SIZE / BSIZE) -> view s' b = view s b) /\
    entry s' x' k = mk_dirent inum (strncpy_str name (Z.to_nat DIRSIZ)) /\
    (forall j, 0 <= j < i_size x / DIRENT_SIZE -> j <> k -> entry s' x' j = entry s x j) /\
    forall nm, 0 ∉ nm -> (length nm <= Z.to_nat DIRSIZ)%nat ->
      match (if decide (nm = name) then Some k else search (entry s x) nm (dir_entries x)) with
      | Some j => found s' (pid p) x' j (dirlookup dp nm s')
      | None => not_found s' (pid p) (dirlookup dp nm s')
      end.
Proof.
  intros He Hl Hlog Hf Hsep Hh Hz Hlen Hby Hin k x' Hend Hsz Hroom Hok Hno. pose proof Hl as [_ _ Hx Hd Hdev Hil Hfr]. destruct (dk_size _ _ Hd) as [S0 S1].
  destruct (dirlink_run Hpat i c me p s st bl dp x nb name inum He Hl Hlog Hf Hsep Hh Hz Hlen Hby Hin Hend Hsz Hroom Hok Hno) as (s' & E & W & L & D).
  fold k x' in W, L, D. set (de := mk_dirent inum _) in *. pose proof (length_encode_dirent inum name) as Hle. fold de in Hle.
  destruct (free_entry_spec (entry s x) (i_size x / DIRENT_SIZE) ltac:(change DIRENT_SIZE with 16; Z.div_mod_to_equations; lia)) as [Hk _]. fold k in Hk.
  assert (Hent : forall j, 0 <= j -> j * DIRENT_SIZE + DIRENT_SIZE <= nb * BSIZE -> entry s' x' j = if decide (j = k) then de else entry s x j).
  { intros j H1 H2. apply (written_entry s s' (pid p) dp x x' nb k inum name j W); [lia|done|lia|done|done]. }
  assert (Hn' : i_size x' / DIRENT_SIZE = Z.max (i_size x / DIRENT_SIZE) (k + 1)) by (cbn; change DIRENT_SIZE with 16 in *; Z.div_mod_to_equations; lia).
  assert (Hcov : forall j, 0 <= j < Z.max (i_size x / DIRENT_SIZE) (k + 1) -> j * DIRENT_SIZE + DIRENT_SIZE <= nb * BSIZE)
    by (intros j Hj; change DIRENT_SIZE with 16 in *; change BSIZE with 512 in *; Z.div_mod_to_equations; lia).
  destruct (search_link (entry s x) (entry s' x') (i_size x / DIRENT_SIZE) _ name de ltac:(lia) Hn') as [Hs1 Hs2]; fold k;
    [split; [cbn; lia|cbn; rewrite cname_strncpy by done; by apply take_ge]|intros j Hj; rewrite Hn' in Hj; apply Hent; [lia|by apply Hcov]|done|]. fold k in Hs1, Hs2.
  exists s'. split; [done|]. split; [apply W|]. split; [apply W|]. split; [done|]. split; [done|]. split; [|split; [|split]].
  - intros b Hb1 Hb2. apply (wr_view _ _ _ _ _ _ _ _ _ W); [done|]. intros q Hq. rewrite Hle in Hq. replace (q / BSIZE) with (k * DIRENT_SIZE / BSIZE); [done|].
    change DIRENT_SIZE with 16 in *. change BSIZE with 512 in *. Z.div_mod_to_equations. lia.
  - rewrite Hent, decide_True by (lia || done || (apply Hcov; lia)). done.
  - intros j Hj Hne. rewrite Hent, decide_False by (lia || done || (apply Hcov; lia)). done.
  - intros nm Hz' Hlen'. assert (Hl' : lookup_env s' (pid p) dp x').
    { split; [apply W|exact (logging_roomy _ _ _ L)|apply W| |done|by rewrite (wr_icache _ _ _ _ _ _ _ _ _ W), length_insert|].
      - split; [apply Hd|exists nb; split; [apply W|cbn; lia]|]. cbn. change DIRENT_SIZE with 16 in *. Z.div_mod_to_equations. lia.
      - destruct Hfr as (q & y & Hy & Ry). rewrite (wr_icache _ _ _ _ _ _ _ _ _ W). destruct (decide (q = dp)) as [->|Hne].
        + rewrite Hx in Hy. injection Hy as <-. exists dp, x'. split; [apply list_lookup_insert_eq; by eapply lookup_lt_Some|done].
        + exists q, y. by rewrite list_lookup_insert_ne. }
    pose proof (dirlookup_run Hpat s' i c me p dp x' nm (wr_env _ _ _ _ _ _ _ _ _ W _ _ _ _ He) Hl' Hz' Hlen') as H. unfold dir_entries in *.
    case_decide as Enm; [subst nm; by rewrite Hs1 in H|by rewrite Hs2 in H].
Qed.
End LinkSpec.

(** ** A concrete directory *)

(** Inode 19 is a directory of three entries, none in use, in block 100. *)
Definition demo_dir_inode : inode := demo_inode <| i_type := T_DIR |> <| i_size := 48 |>.
Definition demo_dir_open : kernel := upd_inode 0 (fun _ => demo_dir_inode) demo_open.

Lemma demo_dir_calm : calm demo_open demo_dir_open (pid run_proc).
Proof. exact (calm_upd demo_open (pid run_proc) 0 _ demo_open_cache). Qed.

Lemma logging_upd s st bl k f : logging s st bl -> logging (upd_inode k f s) st bl.
Proof. intros H. by apply (logging_ext s). Qed.

Lemma demo_dir_file : file_ok demo_dir_open demo_dir_inode 2.
Proof.
  split; [done|vm_compute; discriminate|done| |unfold NDIRECT; lia]. intros bn Hbn. unfold block_ok. change (k_disksize demo_dir_open) with 1000.
  assert (bn = 0 \/ bn = 1) as [->| ->] by lia; vm_compute; (split; [discriminate|split; [discriminate|reflexivity]]).
Qed.

Lemma demo_dir_blk bn : 0 <= bn < 2 -> blk demo_dir_open demo_dir_inode bn = 100 + bn.
Proof. intros Hbn. assert (bn = 0 \/ bn = 1) as [->| ->] by lia; vm_compute; reflexivity. Qed.

Lemma demo_dir_dinode : dinode_ok (inode_image (resized demo_dir_inode 48)).
Proof. split; [|cbn; lia|split; [reflexivity|]]; apply (bool_decide_unpack _); vm_compute; exact I. Qed.

Lemma demo_dir_lookup : lookup_env demo_dir_open (pid run_proc) 0 demo_dir_inode.
Proof.
  split; [exact (cm_cache _ _ _ demo_dir_calm)|exact (calm_roomy _ _ _ demo_dir_calm (logging_roomy _ _ _ demo_open_logging))|vm_compute; reflexivity| |reflexivity|vm_compute; reflexivity|].
  - split; [reflexivity|exists 2; split; [exact demo_dir_file|vm_compute; discriminate]|vm_compute; split; [discriminate|reflexivity]].
  - exists 1%nat, zero_inode. vm_compute. split; reflexivity.
Qed.

Lemma dirlink_spec_witness : exists s', dirlink (Pt := 1%nat) 0 [97; 98] 7 demo_dir_open = Ret 0 s' /\ logging s' 2 [100] /\
  found s' (pid run_proc) (resized demo_dir_inode 48) 0 (dirlookup (Pt := 1%nat) 0 [97; 98] s') /\ not_found s' (pid run_proc) (dirlookup (Pt := 1%nat) 0 [97] s').
Proof.
  assert (Ek : free_entry (entry demo_dir_open demo_dir_inode) (i_size demo_dir_inode / DIRENT_SIZE) = 0) by (vm_compute; reflexivity).
  assert (Hn1 : 0 ∉ [97; 98]) by (rewrite !not_elem_of_cons; repeat split; try discriminate; apply not_elem_of_nil).
  assert (Hn2 : 0 ∉ [97]) by (rewrite !not_elem_of_cons; repeat split; try discriminate; apply not_elem_of_nil).
  destruct (dirlink_spec (Pt := 1%nat) ltac:(unfold patience; lia) demo_dir_open 0 run_cpu 0 run_proc 2 [] 0 demo_dir_inode 2 [97; 98] 7)
    as (s' & E & _ & _ & L & _ & _ & _ & _ & H).
  - exact (cm_env _ _ _ demo_dir_calm _ _ _ _ demo_open_env).
  - exact demo_dir_lookup.
  - exact (logging_upd _ _ _ _ _ demo_open_logging).
  - exact demo_dir_file.
  - split.
    + intros a b Ha Hb. rewrite !demo_dir_blk by done. lia.
    + unfold NDIRECT. lia.
    + intros a Ha. rewrite demo_dir_blk by done. unfold LOGSIZE, MAXOPBLOCKS. lia.
  - split; try (vm_compute; (discriminate || reflexivity || split; (discriminate || reflexivity))).
    + right. vm_compute. discriminate.
    + intros a Ha. rewrite demo_dir_blk by done. change (iblock demo_dir_open demo_dir_inode) with 34. lia.
  - exact Hn1.
  - vm_compute. lia.
  - repeat constructor; lia.
  - lia.
  - rewrite Ek. vm_compute. discriminate.
  - vm_compute. discriminate.
  - vm_compute. reflexivity.
  - rewrite Ek. exact demo_dir_dinode.
  - vm_compute. reflexivity.
  - rewrite Ek in *. exists s'. split; [exact E|]. split; [exact L|]. split.
    + exact (H [97; 98] Hn1 ltac:(vm_compute; lia)).
    + exact (H [97] Hn2 ltac:(vm_compute; lia)).
Defined.
