(* ===== verification/Pipe.v ===== *)
(** * Pipes

    [pipe.c] without [pipealloc], which is with the files.  A pipe lives in a
    page of its own; [k_pipes] holds it by the address of the page. *)

From stdpp Require Import base gmap strings list fin_maps.
From Stdlib Require Import ZArith Lia.
From S2P Require Import Prelude Mem Types Spinlock Kalloc Vm Proc Access Sleeplock.

Definition PIPESIZE : Z := 512.

Definition get_pipe (p : Z) : KM pipe := fun s =>
  match k_pipes s !! p with
  | Some x => Ret x s
  | None => Undef "not a pipe" s
  end.
Definition set_pipe (p : Z) (f : pipe -> pipe) : KM unit := kmod (fun s => s <| k_pipes ::= alter f p |>).
Definition pipe_at (x : pipe) (k : Z) : Z := default 0 (pdata x !! Z.to_nat (k mod PIPESIZE)).

Section PipeDefs.
Context `{L : Layout} `{Pt : Patience}.

Definition pipeclose (p : Z) (writable0 : bool) : KM unit :=
  acquire (Lpipe p) ;;;
  (if writable0 then
     set_pipe p (fun x => x <| writeopen := 0 |>) ;;;
     wakeup (Some (Cpiperead p))
   else
     set_pipe p (fun x => x <| readopen := 0 |>) ;;;
     wakeup (Some (Cpipewrite p))) ;;;
  x <- get_pipe p ;;
  if (readopen x =? 0) && (writeopen x =? 0) then
    release (Lpipe p) ;;;
    kmod (fun s => s <| k_pipes ::= delete p |>) ;;;
    kfree p
  else release (Lpipe p).

(** [while(p->nwrite == p->nread + PIPESIZE)]: [false] when the write fails. *)
Fixpoint pipewrite_wait (fuel : nat) (p : Z) : KM bool :=
  match fuel with
  | O => NoFuel
  | S k =>
      x <- get_pipe p ;;
      if nwrite x =? u32 (nread x + PIPESIZE) then
        dead <- (if readopen x =? 0 then kret true else (d <- mine killed ;; kret (c_true d))) ;;
        if (dead : bool) then release (Lpipe p) ;;; kret false else
        wakeup (Some (Cpiperead p)) ;;;
        sleep (Some (Cpipewrite p)) (Some (Lpipe p)) ;;;
        pipewrite_wait k p
      else kret true
  end.

(** The body of the loop over the bytes: [Some tt] leaves the function. *)
Definition pipewrite_byte (p addr i : Z) : KM (option unit) :=
  ok <- pipewrite_wait patience p ;;
  if negb ok then kret (Some tt) else
  c <- load8 (u32 (addr + i)) ;;
  set_pipe p (fun x => x <| pdata ::= insert (Z.to_nat (nwrite x mod PIPESIZE)) c |>) ;;;
  set_pipe p (fun x => x <| nwrite ::= fun n => u32 (n + 1) |>) ;;;
  kret None.

Definition pipewrite (p addr n : Z) : KM Z :=
  acquire (Lpipe p) ;;;
  r <- kfor (seqZ 0 n) (pipewrite_byte p addr) ;;
  match r with
  | Some _ => kret (-1)
  | None =>
      wakeup (Some (Cpiperead p)) ;;;
      release (Lpipe p) ;;;
      kret n
  end.

(** [while(p->nread == p->nwrite && p->writeopen)]: [false] when killed. *)
Fixpoint piperead_wait (fuel : nat) (p : Z) : KM bool :=
  match fuel with
  | O => NoFuel
  | S k =>
      x <- get_pipe p ;;
      if (nread x =? nwrite x) && c_true (writeopen x) then
        d <- mine killed ;;
        if c_true d then release (Lpipe p) ;;; kret false else
        sleep (Some (Cpiperead p)) (Some (Lpipe p)) ;;;
        piperead_wait k p
      else kret true
  end.

(** The loop that copies; it breaks with the number of bytes copied. *)
Definition piperead_byte (p addr i : Z) : KM (option Z) :=
  x <- get_pipe p ;;
  if nread x =? nwrite x then kret (Some i) else
  set_pipe p (fun x => x <| nread ::= fun n => u32 (n + 1) |>) ;;;
  store8 (u32 (addr + i)) (pipe_at x (nread x)) ;;;
  kret None.

Definition piperead (p addr n : Z) : KM Z :=
  acquire (Lpipe p) ;;;
  ok <- piperead_wait patience p ;;
  if negb ok then kret (-1) else
  r <- kfor (seqZ 0 n) (piperead_byte p addr) ;;
  let i := default (Z.max 0 n) r in
  wakeup (Some (Cpipewrite p)) ;;;
  release (Lpipe p) ;;;
  kret i.
End PipeDefs.
