(* ===== verification/File.v ===== *)
(** * Open files

    [file.c], and [pipealloc] of [pipe.c].  An index of the file table stands for
    a [struct file *]. *)

From stdpp Require Import base gmap strings list fin_maps.
From Stdlib Require Import ZArith Lia.
From S2P Require Import Prelude Mem Types Spinlock Kalloc Vm Proc Access Sleeplock Disk Bio Log Inode Console Fs Pipe.

Definition get_file (f : nat) : KM file := fun s =>
  match k_ftable s !! f with
  | Some x => Ret x s
  | None => Undef "ftable index" s
  end.
Definition set_file (f : nat) (g : file -> file) : KM unit := kmod (fun s => s <| k_ftable ::= alter g f |>).

Definition fileinit : KM unit := initlock Lftable.

Definition filealloc : KM (option nat) :=
  acquire Lftable ;;;
  r <- kfor (seq 0 NFILE) (fun f =>
         x <- get_file f ;;
         if f_ref x =? 0 then
           set_file f (fun x => x <| f_ref := 1 |>) ;;;
           release Lftable ;;;
           kret (Some f)
         else kret None) ;;
  match r with
  | Some f => kret (Some f)
  | None => release Lftable ;;; kret None
  end.

(** A null pointer is dereferenced after the lock is taken. *)
Definition filedup (ofp : option nat) : KM (option nat) :=
  acquire Lftable ;;;
  f <- deref ofp ;;
  x <- get_file f ;;
  if f_ref x <? 1 then kpanic "filedup" else
  set_file f (fun x => x <| f_ref ::= fun n => n + 1 |>) ;;;
  release Lftable ;;;
  kret ofp.

Section FileDefs.
Context `{L : Layout} `{Pt : Patience} `{D : DiskDriver}.

Definition fileclose (f : nat) : KM unit :=
  acquire Lftable ;;;
  x <- get_file f ;;
  if f_ref x <? 1 then kpanic "fileclose" else
  set_file f (fun x => x <| f_ref ::= fun n => n - 1 |>) ;;;
  ff <- get_file f ;;
  if 0 <? f_ref ff then release Lftable else
  set_file f (fun x => x <| f_ref := 0 |>) ;;;
  set_file f (fun x => x <| f_type := FD_NONE |>) ;;;
  release Lftable ;;;
  match f_type ff with
  | FD_PIPE => pipeclose (f_pipe ff) (c_true (writable ff))
  | FD_INODE =>
      begin_op ;;;
      ip <- deref (f_ip ff) ;;
      iput ip ;;;
      end_op
  | FD_NONE => kret tt
  end.

Definition filestat (f : nat) (st : Z) : KM Z :=
  x <- get_file f ;;
  match f_type x with
  | FD_INODE =>
      ilock (f_ip x) ;;;
      ip <- deref (f_ip x) ;;
      stati ip st ;;;
      iunlock (f_ip x) ;;;
      kret 0
  | _ => kret (-1)
  end.

Definition fileread (f : nat) (addr n : Z) : KM Z :=
  x <- get_file f ;;
  if readable x =? 0 then kret (-1) else
  match f_type x with
  | FD_PIPE => piperead (f_pipe x) addr n
  | FD_INODE =>
      ilock (f_ip x) ;;;
      ip <- deref (f_ip x) ;;
      x <- get_file f ;;
      r <- readi ip (At addr) (f_off x) (u32 n) ;;
      let r := fst r in
      (when 0 <? r do set_file f (fun x => x <| f_off ::= fun o => u32 (o + r) |>)) ;;;
      iunlock (f_ip x) ;;;
      kret r
  | FD_NONE => kpanic "fileread"
  end.

Definition max_write : Z := (MAXOPBLOCKS - 1 - 1 - 2) / 2 * 512.

(** [while(i < n)]: every turn that goes on writes at least one byte. *)
Fixpoint filewrite_loop (fuel : nat) (f ip : nat) (addr i n : Z) : KM Z :=
  match fuel with
  | O => NoFuel
  | S k =>
      if negb (i <? n) then kret i else
      let n1 := if max_write <? n - i then max_write else n - i in
      begin_op ;;;
      ilock (Some ip) ;;;
      x <- get_file f ;;
      r <- writei ip (From (u32 (addr + i))) (f_off x) n1 ;;
      (when 0 <? r do set_file f (fun x => x <| f_off ::= fun o => u32 (o + r) |>)) ;;;
      iunlock (Some ip) ;;;
      end_op ;;;
      if r <? 0 then kret i else
      if negb (r =? n1) then kpanic "short filewrite" else
      filewrite_loop k f ip addr (i + r) n
  end.

Definition filewrite (f : nat) (addr n : Z) : KM Z :=
  x <- get_file f ;;
  if writable x =? 0 then kret (-1) else
  match f_type x with
  | FD_PIPE => pipewrite (f_pipe x) addr n
  | FD_INODE =>
      ip <- deref (f_ip x) ;;
      i <- filewrite_loop (Z.to_nat (n / max_write + 2)) f ip addr 0 n ;;
      kret (if i =? n then n else -1)
  | FD_NONE => kpanic "filewrite"
  end.

(** The variants for mappings. *)
Definition mmap_read (f : nat) (addr size : Z) : KM Z :=
  set_file f (fun x => x <| f_off := 0 |>) ;;;
  fileread f addr size.
Definition mmap_write2 (f : nat) (addr size : Z) : KM Z :=
  set_file f (fun x => x <| f_off := 0 |>) ;;;
  filewrite f addr size.
Definition mmap_write (f : nat) (addr size : Z) : KM Z := filewrite f addr size.

(** The pipe in the page [p]: its data are the bytes of the page behind the
    lock of 52 bytes. *)
Definition new_pipe (p : Z) (m : mem) : pipe :=
  mk_pipe ((fun k => ld8 m (p + 52 + Z.of_nat k)) <$> seq 0 (Z.to_nat PIPESIZE)) 0 0 1 1.

(** The label [bad] of [pipealloc], where no page was allocated. *)
Definition pipealloc_bad (f0 f1 : option nat) : KM (option (nat * nat)) :=
  (match f0 with Some f => fileclose f | None => kret tt end) ;;;
  (match f1 with Some f => fileclose f | None => kret tt end) ;;;
  kret None.

Definition pipealloc : KM (option (nat * nat)) :=
  o0 <- filealloc ;;
  match o0 with
  | None => pipealloc_bad None None
  | Some f0 =>
      o1 <- filealloc ;;
      match o1 with
      | None => pipealloc_bad (Some f0) None
      | Some f1 =>
          p <- kalloc ;;
          if p =? 0 then pipealloc_bad (Some f0) (Some f1) else
          kmod (fun s => s <| k_pipes ::= insert p (new_pipe p (k_mem s)) |>) ;;;
          initlock (Lpipe p) ;;;
          set_file f0 (fun x => x <| f_type := FD_PIPE |> <| readable := 1 |> <| writable := 0 |> <| f_pipe := p |>) ;;;
          set_file f1 (fun x => x <| f_type := FD_PIPE |> <| readable := 0 |> <| writable := 1 |> <| f_pipe := p |>) ;;;
          kret (Some (f0, f1))
      end
  end.
End FileDefs.
