(* ===== verification/ProcLife.v ===== *)
(** * The life of a process, and its mappings

    The rest of [proc.c]: the pages and descriptors of [mmap], [exit], [fork],
    [userinit] and [forkret].  A descriptor is given by the slot of its process
    and its index in [mmaps]. *)

From stdpp Require Import base gmap strings list fin_maps.
From Stdlib Require Import ZArith Lia.
From S2P Require Import Prelude Mem Types Spinlock Kalloc Vm Proc Access Sleeplock Disk Bio Log Inode Console Fs Pipe File.

(** The offsets of the fields of [struct trapframe] the kernel uses. *)
Definition TF_eax : Z := 28.
Definition TF_es : Z := 40.
Definition TF_ds : Z := 44.
Definition TF_trapno : Z := 48.
Definition TF_err : Z := 52.
Definition TF_eip : Z := 56.
Definition TF_cs : Z := 60.
Definition TF_eflags : Z := 64.
Definition TF_esp : Z := 68.
Definition TF_ss : Z := 72.

(** [p->mmaps[j]], with the bounds of the array. *)
Definition get_desc (i j : nat) : KM mmap_desc :=
  p <- get_proc i ;;
  match mmaps p !! j with
  | Some d => kret d
  | None => kundef "mmaps index"
  end.
Definition set_desc (i j : nat) (f : mmap_desc -> mmap_desc) : KM unit :=
  set_proc i (fun p => p <| mmaps ::= alter f j |>).

(** The address of the entry, and the page it names: both 0 without a table. *)
Definition get_physical_page (i : nat) (tempaddr : Z) : KM Z :=
  p <- get_proc i ;;
  pte <- walkpgdir (pgdir p) tempaddr false ;;
  if pte =? 0 then kret 0 else
  e <- mem_read pte ;;
  kret (PTE_ADDR e).

Section LifeDefs.
Context `{L : Layout} `{Pt : Patience} `{D : DiskDriver}.

(** ** Releasing a descriptor *)
Definition munmap_free (i j : nat) : KM unit :=
  d <- get_desc i j ;;
  if valid d =? 0 then kret tt else
  set_desc i j (fun d => d <| md_ref ::= fun n => n - 1 |>) ;;;
  d <- get_desc i j ;;
  if negb (md_ref d =? 0) then kret tt else
  set_desc i j (fun d => d <| md_length := 0 |> <| virtualAddress := 0 |> <| md_flags := 0 |>
    <| prot := 0 |> <| dirty := 0 |> <| shared := 0 |> <| valid := 0 |> <| guard_page := 0 |>
    <| md_f := None |> <| already_alloced := 0 |>) ;;;
  if md_page d =? 0 then kret tt else
  kfree (md_page d) ;;;
  set_desc i j (fun d => d <| md_page := 0 |>).

(** ** [exit] *)

Definition exit_files (me : nat) : KM unit :=
  keach (seq 0 NOFILE) (fun fd =>
    p <- get_proc me ;;
    match ofile p !! fd with
    | Some (Some f) => fileclose f ;;; set_proc me (fun p => p <| ofile ::= insert fd None |>)
    | _ => kret tt
    end).

(** Children go to [init]. *)
Definition exit_children (me : nat) : KM unit :=
  keach (seq 0 NPROC) (fun i =>
    p <- get_proc i ;;
    when bool_decide (parent p = Some me) do
      (init <- kget k_initproc ;;
       set_proc i (fun p => p <| parent := init |>) ;;;
       when bool_decide (state p = ZOMBIE) do wakeup1 (Cproc <$> init))).

Definition exit_maps (me : nat) : KM unit :=
  keach (seq 0 PAGE_LIMIT) (fun j =>
    d <- get_desc me j ;;
    when c_true (valid d) do
      ((match md_f d with
        | None => kret tt
        | Some f =>
            (if c_true (Z.land (md_flags d) MAP_PRIVATE) then kret tt
             else filewrite f (virtualAddress d) PGSIZE ;;; kret tt) ;;;
            fileclose f
        end) ;;;
       munmap_free me j)).

Definition exit : KM unit :=
  mp <- myproc ;;
  init <- kget k_initproc ;;
  if bool_decide (mp = init) then kpanic "init exiting" else
  me <- deref mp ;;
  exit_files me ;;;
  begin_op ;;;
  p <- get_proc me ;;
  c <- deref (cwd p) ;;
  iput c ;;;
  end_op ;;;
  set_proc me (fun p => p <| cwd := None |>) ;;;
  acquire Lptable ;;;
  p <- get_proc me ;;
  wakeup1 (Cproc <$> parent p) ;;;
  exit_children me ;;;
  exit_maps me ;;;
  set_proc me (fun p => p <| state := ZOMBIE |>) ;;;
  sched ;;;
  kpanic "zombie exit".

(** ** Pages of a mapping *)

(** The common end of the two functions below: the contents of the file. *)
Definition fill_page (i j : nat) (mem0 : Z) : KM unit :=
  d <- get_desc i j ;;
  if c_true (Z.land (md_flags d) MAP_ANON) then kret tt else
  buff <- kalloc ;;
  if buff =? 0 then kundef "null pointer" else
  k_memset buff 0 PGSIZE ;;;
  f <- deref (md_f d) ;;
  mmap_read f buff PGSIZE ;;;
  k_memmove mem0 buff PGSIZE ;;;
  set_desc i j (fun d => d <| md_page := buff |>).

Definition allocatePageNonGuard (i j : nat) (addr_head : Z) : KM unit :=
  mem0 <- kalloc ;;
  if mem0 =? 0 then kpanic "kalloc" else
  k_memset mem0 0 PGSIZE ;;;
  let addr_head := PGROUNDDOWN addr_head in
  p <- get_proc i ;;
  d <- get_desc i j ;;
  r <- mappages (pgdir p) addr_head PGSIZE (V2P mem0) (Z.lor (prot d) PTE_U) ;;
  (when negb (r =? 0) do
     (kfree mem0 ;;;
      mp <- myproc ;;
      me <- deref mp ;;
      set_proc me (fun p => p <| killed := 1 |>) ;;;
      exit)) ;;;
  fill_page i j mem0.

Definition allocatePageGuard (i j : nat) (addr_head : Z) : KM unit :=
  n <- get_desc i (S j) ;;
  if c_true (valid n) then
    cprintf "Segmentation Fault" ;;;
    set_proc i (fun p => p <| killed := 1 |>)
  else
    set_desc i j (fun d => d <| guard_page := 0 |>) ;;;
    mem0 <- kalloc ;;
    if mem0 =? 0 then kpanic "kalloc" else
    k_memset mem0 0 PGSIZE ;;;
    let addr_head := PGROUNDDOWN addr_head in
    p <- get_proc i ;;
    d <- get_desc i j ;;
    r <- mappages (pgdir p) addr_head PGSIZE (V2P mem0) (Z.lor (prot d) PTE_U) ;;
    if negb (r =? 0) then kpanic "mappapges" else
    set_desc i (S j) (fun d => d <| valid := 1 |>) ;;;
    set_desc i (S j) (fun d => d <| guard_page := 1 |>) ;;;
    fill_page i j mem0.

(** ** [fork] *)
Definition deep_copy (old : nat * nat) (new : nat * nat) : KM unit :=
  o <- get_desc (fst old) (snd old) ;;
  set_desc (fst new) (snd new) (fun d => d <| md_length := md_length o |> <| virtualAddress := virtualAddress o |>
    <| md_flags := md_flags o |> <| prot := prot o |> <| dirty := dirty o |> <| shared := shared o |>
    <| valid := valid o |> <| guard_page := guard_page o |>) ;;;
  f <- filedup (md_f o) ;;
  set_desc (fst new) (snd new) (fun d => d <| md_f := f |>) ;;;
  set_desc (fst new) (snd new) (fun d => d <| already_alloced := already_alloced o |>).

(** The two branches of [copy_maps] for a mapping whose page is present, up to
    the final [deep_copy]. *)
Definition share_page (parent0 child i : nat) (virt_addr protection parentPage : Z) : KM unit :=
  set_desc child i (fun d => d <| isChildOfParent := 0 |>) ;;;
  let parentmem := P2V parentPage in
  c <- get_proc child ;;
  r <- mappages (pgdir c) virt_addr PGSIZE (V2P parentmem) (Z.lor protection PTE_U) ;;
  if negb (r =? 0) then kpanic "mappages" else
  set_desc child i (fun d => d <| md_ref := 2 |>) ;;;
  set_desc parent0 i (fun d => d <| md_ref := 2 |>) ;;;
  md_p <- get_desc parent0 i ;;
  set_desc child i (fun d => d <| md_page := md_page md_p |>).

Definition copy_page (child i : nat) (virt_addr protection parentPage : Z) : KM unit :=
  set_desc child i (fun d => d <| isChildOfParent := 1 |>) ;;;
  mem0 <- kalloc ;;
  (when mem0 =? 0 do exit) ;;;
  let pmem := P2V parentPage in
  c <- get_proc child ;;
  r <- mappages (pgdir c) virt_addr PGSIZE (V2P mem0) (Z.lor protection PTE_U) ;;
  if negb (r =? 0) then kpanic "ahahah" else
  k_memmove mem0 pmem PGSIZE ;;;
  set_desc child i (fun d => d <| md_ref := 1 |>) ;;;
  set_desc child i (fun d => d <| md_page := mem0 |>).

Definition copy_map (parent0 child i : nat) : KM unit :=
  md_p <- get_desc parent0 i ;;
  if valid md_p =? 0 then kret tt else
  let virt_addr := u32 (virtualAddress md_p) in
  let protection := prot md_p in
  parentPage <- get_physical_page parent0 virt_addr ;;
  if c_true (Z.land (md_flags md_p) MAP_SHARED) then
    if (parentPage =? 0) && c_true (Z.land (md_flags md_p) MAP_GROWSUP) then kret tt else
    parentPage <- (if parentPage =? 0 then
                     allocatePageNonGuard parent0 i virt_addr ;;;
                     get_physical_page parent0 virt_addr
                   else kret parentPage) ;;
    share_page parent0 child i virt_addr protection parentPage ;;;
    deep_copy (parent0, i) (child, i)
  else if parentPage =? 0 then deep_copy (parent0, i) (child, i)
  else
    copy_page child i virt_addr protection parentPage ;;;
    deep_copy (parent0, i) (child, i).

Definition copy_maps (parent0 child : nat) : KM Z :=
  keach (seq 0 PAGE_LIMIT) (copy_map parent0 child) ;;;
  kret 0.

(** The open files and the directory of the child [np]. *)
Definition fork_files (me np : nat) : KM unit :=
  keach (seq 0 NOFILE) (fun i =>
    p <- get_proc me ;;
    match ofile p !! i with
    | Some (Some f) =>
        g <- filedup (Some f) ;;
        set_proc np (fun p => p <| ofile ::= insert i g |>)
    | _ => kret tt
    end) ;;;
  p <- get_proc me ;;
  c <- deref (cwd p) ;;
  c <- idup c ;;
  set_proc np (fun p => p <| cwd := Some c |>).

Definition fork : KM Z :=
  mp <- myproc ;;
  o <- allocproc ;;
  match o with
  | None => kret (-1)
  | Some np =>
      me <- deref mp ;;
      cur <- get_proc me ;;
      d <- copyuvm (pgdir cur) (sz cur) ;;
      set_proc np (fun p => p <| pgdir := d |>) ;;;
      if d =? 0 then
        p <- get_proc np ;;
        kfree (kstack p) ;;;
        set_proc np (fun p => p <| kstack := 0 |>) ;;;
        set_proc np (fun p => p <| state := UNUSED |>) ;;;
        kret (-1)
      else
        set_proc np (fun p => p <| sz := sz cur |>) ;;;
        set_proc np (fun p => p <| parent := Some me |>) ;;;
        n <- get_proc np ;;
        k_memmove (tf n) (tf cur) TF_SIZE ;;;
        mem_write (tf n + TF_eax) 0 ;;;
        fork_files me np ;;;
        cur <- get_proc me ;;
        set_proc np (fun p => p <| pname := take 15 (pname cur) |>) ;;;
        n <- get_proc np ;;
        let pid0 := pid n in
        acquire Lptable ;;;
        set_proc np (fun p => p <| state := RUNNABLE |>) ;;;
        release Lptable ;;;
        copy_maps me np ;;;
        kret pid0
  end.

(** ** The first process *)

(** The image of [initcode] is at [init], of [size] bytes. *)
Definition userinit (init size : Z) : KM unit :=
  o <- allocproc ;;
  kmod (fun s => s <| k_initproc := o |>) ;;;
  i <- deref o ;;
  d <- setupkvm ;;
  set_proc i (fun p => p <| pgdir := d |>) ;;;
  if d =? 0 then kpanic "userinit: out of memory?" else
  inituvm d init size ;;;
  set_proc i (fun p => p <| sz := PGSIZE |>) ;;;
  p <- get_proc i ;;
  k_memset (tf p) 0 TF_SIZE ;;;
  let ucode := Z.lor (Z.shiftl SEG_UCODE 3) DPL_USER in
  let udata := Z.lor (Z.shiftl SEG_UDATA 3) DPL_USER in
  mem_write16 (tf p + TF_cs) ucode ;;;
  mem_write16 (tf p + TF_ds) udata ;;;
  mem_write16 (tf p + TF_es) udata ;;;
  mem_write16 (tf p + TF_ss) udata ;;;
  mem_write (tf p + TF_eflags) FL_IF ;;;
  mem_write (tf p + TF_esp) PGSIZE ;;;
  mem_write (tf p + TF_eip) 0 ;;;
  set_proc i (fun p => p <| pname := str "initcode" |>) ;;;
  c <- namei [47] ;;
  set_proc i (fun p => p <| cwd := c |>) ;;;
  acquire Lptable ;;;
  set_proc i (fun p => p <| state := RUNNABLE |>) ;;;
  release Lptable.

Definition forkret : KM unit :=
  release Lptable ;;;
  first <- kget k_first ;;
  when c_true first do
    (kmod (fun s => s <| k_first := 0 |>) ;;;
     iinit ROOTDEV ;;;
     initlog ROOTDEV).
End LifeDefs.
