(* ===== verification/Args.v ===== *)
(** * System call arguments

    The argument functions of [syscall.c].  Results of a fallible function are
    options: [None] is the return value -1.  A string argument is given by its
    characters; the kernel's later reads of the string at its address are reads
    of these characters. *)

From stdpp Require Import base gmap strings list fin_maps.
From Stdlib Require Import ZArith Lia.
From S2P Require Import Prelude Mem Types Spinlock Kalloc Vm Proc Access ProcLife.

Definition fetchint (addr : Z) : KM (option Z) :=
  size <- mine sz ;;
  if (size <=? addr) || (size <? u32 (addr + 4)) then kret None else
  v <- load32 addr ;;
  kret (Some (i32 v)).

(** The characters from [s] up to the first zero below [ep]. *)
Fixpoint fetchstr_loop (fuel : nat) (s ep : Z) : KM (option (list Z)) :=
  match fuel with
  | O => kret None
  | S k =>
      if negb (s <? ep) then kret None else
      c <- load8 s ;;
      if c =? 0 then kret (Some []) else
      r <- fetchstr_loop k (s + 1) ep ;;
      kret (cons c <$> r)
  end.

Definition fetchstr (addr : Z) : KM (option (list Z)) :=
  size <- mine sz ;;
  if size <=? addr then kret None else
  fetchstr_loop (Z.to_nat (size - addr)) addr size.

Definition argint (n : Z) : KM (option Z) :=
  t <- mine tf ;;
  esp <- mem_read (t + TF_esp) ;;
  fetchint (u32 (esp + 4 + 4 * n)).

Definition argptr (n size : Z) : KM (option Z) :=
  o <- argint n ;;
  match o with
  | None => kret None
  | Some i =>
      top <- mine sz ;;
      if (size <? 0) || (top <=? u32 i) || (top <? u32 (u32 i + size)) then kret None else kret (Some (u32 i))
  end.

Definition argstr (n : Z) : KM (option (list Z)) :=
  o <- argint n ;;
  match o with
  | None => kret None
  | Some addr => fetchstr (u32 addr)
  end.

(** The [n]th argument as a descriptor and its open file ([argfd] of [sysfile.c]). *)
Definition argfd (n : Z) : KM (option (Z * nat)) :=
  o <- argint n ;;
  match o with
  | None => kret None
  | Some fd =>
      if (fd <? 0) || (Z.of_nat NOFILE <=? fd) then kret None else
      files <- mine ofile ;;
      match files !! Z.to_nat fd with
      | Some (Some f) => kret (Some (fd, f))
      | _ => kret None
      end
  end.

(** The first free descriptor, or -1 ([fdalloc] of [sysfile.c]). *)
Definition fdalloc (f : nat) : KM Z :=
  mp <- myproc ;;
  me <- deref mp ;;
  r <- kfor (seq 0 NOFILE) (fun fd =>
         p <- get_proc me ;;
         match ofile p !! fd with
         | Some None =>
             set_proc me (fun p => p <| ofile ::= insert fd (Some f) |>) ;;;
             kret (Some (Z.of_nat fd))
         | _ => kret None
         end) ;;
  kret (default (-1) r).
