(* ===== verification/ArgsSpec.v ===== *)
(** * System call arguments are checked

    The argument functions never touch memory the process does not have, and
    give the handlers only pointers into the process. *)

From stdpp Require Import base gmap strings list fin_maps.
From Stdlib Require Import ZArith Lia.
From S2P Require Import Prelude Mem Types Spinlock Kalloc Vm PageTable Uvm Kvm AddrSpace Proc ProcSpec Access Sleeplock Steady ProcLife Args.

(** The process can read its memory below [sz]. *)
Record user_space (s : kernel) (p : proc) : Prop := {
  us_size : 0 <= sz p <= KERNBASE;
  us_mapped : forall va, 0 <= va < sz p -> exists a, translate (k_mem s) (k_cr3 s) va false = Some a
}.

Definition ubyte (s : kernel) (va : Z) : Z :=
  match translate (k_mem s) (k_cr3 s) va false with
  | Some a => ld8 (k_mem s) a
  | None => 0
  end.
Definition uword (s : kernel) (va : Z) : Z :=
  ubyte s va + 256 * ubyte s (va + 1) + 65536 * ubyte s (va + 2) + 16777216 * ubyte s (va + 3).

Lemma load8_run s p va : user_space s p -> 0 <= va < sz p -> load8 va s = Ret (ubyte s va) s.
Proof. intros Hu Hva. unfold load8, ubyte. by destruct (us_mapped _ _ Hu va Hva) as [a ->]. Qed.

Lemma load32_run s p va : user_space s p -> 0 <= va -> va + 4 <= sz p -> load32 va s = Ret (uword s va) s.
Proof.
  intros Hu H1 H2. unfold load32.
  krun (load8_run s p va Hu ltac:(lia)). krun (load8_run s p (va + 1) Hu ltac:(lia)).
  krun (load8_run s p (va + 2) Hu ltac:(lia)). by krun (load8_run s p (va + 3) Hu ltac:(lia)).
Qed.

(** The word an argument is read from, when it is inside the process. *)
Definition int_at (s : kernel) (p : proc) (addr : Z) : option Z :=
  if (addr <? sz p) && (addr + 4 <=? sz p) then Some (i32 (uword s addr)) else None.

Lemma fetchint_run s i c me p addr :
  env s i c me p -> user_space s p -> 0 <= addr < 4294967296 -> fetchint addr s = Ret (int_at s p addr) s.
Proof.
  intros He Hu Ha. unfold fetchint, int_at. krun (env_mine sz s i c me p He). pose proof (us_size _ _ Hu) as Hsz.
  unfold KERNBASE in Hsz. destruct (Z.leb_spec (sz p) addr), (Z.ltb_spec addr (sz p)); try lia; cbn [orb andb]; [done|].
  rewrite u32_id by lia. destruct (Z.ltb_spec (sz p) (addr + 4)), (Z.leb_spec (addr + 4) (sz p)); try lia; [done|].
  by krun (load32_run s p addr Hu ltac:(lia) ltac:(lia)).
Qed.

Definition arg_addr (s : kernel) (p : proc) (n : Z) : Z := u32 (ld32 (k_mem s) (tf p + TF_esp) + 4 + 4 * n).

Lemma argint_run s i c me p n :
  env s i c me p -> user_space s p -> argint n s = Ret (int_at s p (arg_addr s p n)) s.
Proof.
  intros He Hu. unfold argint. krun (env_mine tf s i c me p He). unfold mem_read, kget, kbind at 1. cbn [obind].
  apply (fetchint_run s i c me p); [done|done|]. apply u32_range.
Qed.

(** C34: [argptr] accepts exactly the blocks of memory inside the process.  The
    function always returns, reads only the process's own stack and changes
    nothing.  If it gives a pointer, it is the argument, and all [size] bytes
    from it lie below the size of the process and the kernel can read them; it
    refuses an argument only if some of these bytes do not, or if the argument
    itself is outside the process. *)
Theorem argptr_safe (s : kernel) i c me p n size :
  env s i c me p -> user_space s p -> size < 2147483648 ->
  exists r, argptr n size s = Ret r s /\
    match r with
    | Some a => u32 <$> int_at s p (arg_addr s p n) = Some a /\ 0 <= a /\ a + size <= sz p /\ 0 <= size /\
        forall k, 0 <= k < size -> load8 (a + k) s = Ret (ubyte s (a + k)) s
    | None => forall v, int_at s p (arg_addr s p n) = Some v -> size < 0 \/ sz p <= u32 v \/ sz p < u32 v + size
    end.
Proof.
  intros He Hu Hs. unfold argptr. krun (argint_run s i c me p n He Hu). pose proof (us_size _ _ Hu) as Hsz. unfold KERNBASE in Hsz.
  destruct (int_at s p (arg_addr s p n)) as [v|]; [|by exists None]. krun (env_mine sz s i c me p He).
  pose proof (u32_range v) as Hv.
  destruct (Z.ltb_spec size 0), (Z.leb_spec (sz p) (u32 v)); cbn [orb];
    try (exists None; split; [done|]; intros w [= <-]; tauto).
  rewrite u32_id by lia. destruct (Z.ltb_spec (sz p) (u32 v + size)); [exists None; split; [done|]; intros w [= <-]; tauto|].
  exists (Some (u32 v)). split; [done|]. split; [done|]. split; [lia|]. split; [lia|]. split; [lia|].
  intros k Hk. apply (load8_run s p); [done|lia].
Qed.

(** The string at [addr]: the bytes up to the first zero below [ep]. *)
Fixpoint string_at (s : kernel) (fuel : nat) (addr ep : Z) : option (list Z) :=
  match fuel with
  | O => None
  | S k =>
      if negb (addr <? ep) then None
      else if ubyte s addr =? 0 then Some []
      else cons (ubyte s addr) <$> string_at s k (addr + 1) ep
  end.

Lemma fetchstr_loop_run s p fuel addr :
  user_space s p -> 0 <= addr -> fetchstr_loop fuel addr (sz p) s = Ret (string_at s fuel addr (sz p)) s.
Proof.
  intros Hu. revert addr. induction fuel as [|fuel IH]; intros addr Ha; [done|]. cbn [fetchstr_loop string_at].
  destruct (Z.ltb_spec addr (sz p)); cbn [negb]; [|done]. krun (load8_run s p addr Hu ltac:(lia)).
  destruct (ubyte s addr =? 0); [done|]. by krun (IH (addr + 1) ltac:(lia)).
Qed.

Lemma string_at_spec s fuel addr ep :
  (Z.to_nat (ep - addr) <= fuel)%nat ->
  match string_at s fuel addr ep with
  | Some cs => addr + Z.of_nat (length cs) < ep /\ ubyte s (addr + Z.of_nat (length cs)) = 0 /\
      forall k c, cs !! k = Some c -> c = ubyte s (addr + Z.of_nat k) /\ c <> 0
  | None => forall a, addr <= a < ep -> ubyte s a <> 0
  end.
Proof.
  revert addr. induction fuel as [|fuel IH]; intros addr Hf; cbn [string_at]; [intros a Ha; lia|].
  destruct (Z.ltb_spec addr ep); cbn [negb]; [|intros a Ha; lia].
  destruct (Z.eqb_spec (ubyte s addr) 0) as [E|E].
  - cbn. rewrite Z.add_0_r. split; [done|]. split; [done|]. intros k c Hk. by rewrite lookup_nil in Hk.
  - specialize (IH (addr + 1) ltac:(lia)). destruct (string_at s fuel (addr + 1) ep) as [cs|]; cbn.
    + destruct IH as (H1 & H2 & H3). replace (addr + Z.of_nat (S (length cs))) with (addr + 1 + Z.of_nat (length cs)) by lia.
      split; [lia|]. split; [done|]. intros [|k] c Hk; cbn in Hk.
      * injection Hk as <-. by rewrite Z.add_0_r.
      * replace (addr + Z.of_nat (S k)) with (addr + 1 + Z.of_nat k) by lia. by apply H3.
    + intros a Ha. destruct (decide (a = addr)) as [->|]; [done|]. apply IH. lia.
Qed.

(** [fetchstr] always returns and changes nothing.  It finds the string at
    an address exactly when there is a terminating zero inside the process: the
    characters it returns are the bytes of the process before that zero, and it
    fails only if the address is outside the process or no byte from it up to
    the end of the process is zero. *)
Theorem fetchstr_spec (s : kernel) i c me p addr :
  env s i c me p -> user_space s p -> 0 <= addr ->
  exists r, fetchstr addr s = Ret r s /\
    match r with
    | Some cs => addr + Z.of_nat (length cs) < sz p /\ ubyte s (addr + Z.of_nat (length cs)) = 0 /\
        forall k x, cs !! k = Some x -> x = ubyte s (addr + Z.of_nat k) /\ x <> 0
    | None => forall a, addr <= a < sz p -> ubyte s a <> 0
    end.
Proof.
  intros He Hu Ha. unfold fetchstr. krun (env_mine sz s i c me p He).
  destruct (Z.leb_spec (sz p) addr); [exists None; split; [done|]; intros a Hr; lia|].
  rewrite (fetchstr_loop_run s p _ addr Hu Ha). eexists. split; [done|]. by apply string_at_spec.
Qed.

(** ** A concrete process *)

(** Two pages of memory; the stack pointer is 64, the arguments are at 68. *)
Definition arg_proc : proc := run_proc <| pgdir := demo_dir |> <| sz := 8192 |> <| tf := 0x80320000 |>.
Definition demo_args : kernel :=
  (demo_as 6) <| k_cpus := [run_cpu] |> <| k_ptable ::= insert 0%nat arg_proc |> <| k_cr3 := V2P demo_dir |>
    <| k_mem ::= fun m => st32 (st32 (st8 m (demo_u0 + 200) 104) (demo_u0 + 68) 200) (0x80320000 + TF_esp) 64 |>.

Lemma demo_args_env : env demo_args 0 run_cpu 0 arg_proc.
Proof.
  destruct running_env as [H1 H2 H3 H4 H5 H6]. split; [|exact H2|done|done|done|done]. by apply (steady_ext running).
Qed.

Lemma demo_args_user : user_space demo_args arg_proc.
Proof.
  split; [cbn; unfold KERNBASE; lia|]. intros va Hva. cbn in Hva. unfold translate, KERNBASE.
  destruct (Z.leb_spec 0x80000000 va); [lia|]. rewrite pdx_eq, ptx_eq by lia.
  assert (E0 : va / 4194304 = 0) by (Z.div_mod_to_equations; lia).
  assert (E : va / 4096 mod 1024 = 0 \/ va / 4096 mod 1024 = 1) by (Z.div_mod_to_equations; lia).
  rewrite E0. change (negb (pte_allows (ld32 (k_mem demo_args) (P2V (k_cr3 demo_args) + 4 * 0)) false)) with false.
  cbv iota zeta. destruct E as [-> | ->].
  - exists (demo_u0 + va mod 4096). reflexivity.
  - exists (demo_u1 + va mod 4096). reflexivity.
Qed.

Lemma argptr_safe_witness :
  exists r, argptr 0 16 demo_args = Ret r demo_args /\
    match r with
    | Some a => u32 <$> int_at demo_args arg_proc (arg_addr demo_args arg_proc 0) = Some a /\ 0 <= a /\ a + 16 <= 8192 /\ 0 <= 16 /\
        forall k, 0 <= k < 16 -> load8 (a + k) demo_args = Ret (ubyte demo_args (a + k)) demo_args
    | None => forall v, int_at demo_args arg_proc (arg_addr demo_args arg_proc 0) = Some v -> 16 < 0 \/ 8192 <= u32 v \/ 8192 < u32 v + 16
    end.
Proof. apply (argptr_safe demo_args 0 run_cpu 0 arg_proc 0 16 demo_args_env demo_args_user). lia. Defined.

Lemma fetchstr_spec_witness :
  exists r, fetchstr 200 demo_args = Ret r demo_args /\
    match r with
    | Some cs => 200 + Z.of_nat (length cs) < 8192 /\ ubyte demo_args (200 + Z.of_nat (length cs)) = 0 /\
        forall k x, cs !! k = Some x -> x = ubyte demo_args (200 + Z.of_nat k) /\ x <> 0
    | None => forall a, 200 <= a < 8192 -> ubyte demo_args a <> 0
    end.
Proof. apply (fetchstr_spec demo_args 0 run_cpu 0 arg_proc 200 demo_args_env demo_args_user). lia. Defined.
