(* ===== verification/PipeSpec.v ===== *)
(** * A pipe is a bounded queue of bytes

    The ring buffer with its two wrapping counters implements a queue of at
    most [PIPESIZE] bytes; [pipewrite] and [piperead] refine its operations. *)

From stdpp Require Import base gmap strings list fin_maps.
From Stdlib Require Import ZArith Lia.
From S2P Require Import Prelude Mem Types Spinlock Kalloc Vm PageTable Uvm Kvm AddrSpace Proc ProcSpec Access Sleeplock Steady Pipe ProcLife Args ArgsSpec BioSpec.

(** ** The queue in the ring *)

Definition pipe_count (x : pipe) : Z := u32 (nwrite x - nread x).
Definition pipe_queue (x : pipe) : list Z := (fun k => pipe_at x (nread x + k)) <$> seqZ 0 (pipe_count x).

Record pipe_ok (x : pipe) : Prop := {
  po_len : length (pdata x) = Z.to_nat PIPESIZE;
  po_read : 0 <= nread x < 4294967296;
  po_write : 0 <= nwrite x < 4294967296;
  po_count : pipe_count x <= PIPESIZE
}.

Definition push (x : pipe) (c : Z) : pipe :=
  x <| pdata ::= insert (Z.to_nat (nwrite x mod PIPESIZE)) c |> <| nwrite ::= fun n => u32 (n + 1) |>.
Definition pop (x : pipe) : pipe := x <| nread ::= fun n => u32 (n + 1) |>.

Lemma pipe_count_range x : 0 <= pipe_count x.
Proof. apply u32_range. Qed.

Lemma length_pipe_queue x : Z.of_nat (length (pipe_queue x)) = pipe_count x.
Proof. pose proof (pipe_count_range x). unfold pipe_queue. rewrite length_fmap, length_seqZ. lia. Qed.

Lemma write_slot x : pipe_ok x -> nwrite x mod PIPESIZE = (nread x + pipe_count x) mod PIPESIZE.
Proof. intros [_ H1 H2 _]. unfold pipe_count, u32, PIPESIZE. Z.div_mod_to_equations. lia. Qed.

Lemma push_queue x c :
  pipe_ok x -> pipe_count x < PIPESIZE -> pipe_ok (push x c) /\ pipe_queue (push x c) = pipe_queue x ++ [c].
Proof.
  intros Hx Hc. pose proof (write_slot x Hx) as Hw. pose proof (pipe_count_range x) as H0. destruct Hx as [H1 H2 H3 H4].
  assert (Ec : pipe_count (push x c) = pipe_count x + 1).
  { unfold pipe_count in *. cbn. unfold PIPESIZE, u32 in *. Z.div_mod_to_equations. lia. }
  split.
  - split; [cbn; by rewrite length_insert|done|cbn; apply u32_range|rewrite Ec; unfold PIPESIZE in *; lia].
  - unfold pipe_queue. rewrite Ec, seqZ_app by lia. rewrite fmap_app. f_equal.
    + apply list_fmap_ext. intros j k Hk%list_elem_of_lookup_2%elem_of_seqZ. unfold pipe_at. cbn.
      rewrite list_lookup_insert_ne; [done|]. rewrite Hw. unfold PIPESIZE in *. Z.div_mod_to_equations. lia.
    + change (seqZ (0 + pipe_count x) 1) with [0 + pipe_count x]. cbn [fmap list_fmap]. f_equal. unfold pipe_at. cbn.
      rewrite Hw. rewrite list_lookup_insert_eq; [done|]. rewrite H1. unfold PIPESIZE in *. Z.div_mod_to_equations. lia.
Qed.

Lemma pop_queue x :
  pipe_ok x -> 0 < pipe_count x -> pipe_ok (pop x) /\ pipe_queue x = pipe_at x (nread x) :: pipe_queue (pop x).
Proof.
  intros Hx Hc. destruct Hx as [H1 H2 H3 H4].
  assert (Ec : pipe_count (pop x) = pipe_count x - 1).
  { unfold pipe_count in *. cbn. unfold PIPESIZE, u32 in *. Z.div_mod_to_equations. lia. }
  split; [split; [done|cbn; apply u32_range|done|rewrite Ec; unfold PIPESIZE in *; lia]|].
  unfold pipe_queue. rewrite Ec, seqZ_cons by lia. cbn [fmap list_fmap]. rewrite Z.add_0_r. f_equal.
  apply list_eq. intros k. rewrite !list_lookup_fmap. destruct (decide (Z.of_nat k < pipe_count x - 1)).
  - rewrite !lookup_seqZ_lt by lia. cbn. f_equal. unfold pipe_at. cbn. do 3 f_equal. unfold PIPESIZE, u32.
    Z.div_mod_to_equations. lia.
  - by rewrite !lookup_seqZ_ge by lia.
Qed.

Lemma pipe_full x : pipe_ok x -> (nwrite x =? u32 (nread x + PIPESIZE)) = (pipe_count x =? PIPESIZE).
Proof.
  intros [_ H1 H2 _]. unfold pipe_count, PIPESIZE, u32.
  destruct (Z.eqb_spec (nwrite x) ((nread x + 512) mod 4294967296)), (Z.eqb_spec ((nwrite x - nread x) mod 4294967296) 512);
    try done; exfalso; Z.div_mod_to_equations; lia.
Qed.

Lemma pipe_empty x : pipe_ok x -> (nread x =? nwrite x) = (pipe_count x =? 0).
Proof.
  intros [_ H1 H2 _]. unfold pipe_count, u32.
  destruct (Z.eqb_spec (nread x) (nwrite x)), (Z.eqb_spec ((nwrite x - nread x) mod 4294967296) 0);
    try done; exfalso; Z.div_mod_to_equations; lia.
Qed.

(** ** Writing *)

Definition with_pipe (pa : Z) (x : pipe) (s : kernel) : kernel := s <| k_pipes ::= insert pa x |>.
Definition pushes (x : pipe) (cs : list Z) : pipe := foldl push x cs.

(** The bytes [k .. k+m-1] of a user buffer, and that they can be read. *)
Definition ubytes (s : kernel) (addr k m : Z) : list Z := (fun j => ubyte s (u32 (addr + j))) <$> seqZ k m.
Definition readable_at (s : kernel) (addr n : Z) : Prop :=
  forall j, 0 <= j < n -> exists a, translate (k_mem s) (k_cr3 s) (u32 (addr + j)) false = Some a.

Lemma pushes_queue x cs :
  pipe_ok x -> pipe_count x + Z.of_nat (length cs) <= PIPESIZE ->
  pipe_ok (pushes x cs) /\ pipe_queue (pushes x cs) = pipe_queue x ++ cs.
Proof.
  revert x. induction cs as [|c cs IH]; intros x Hx Hc; [by rewrite app_nil_r|]. cbn in Hc.
  destruct (push_queue x c Hx) as [Hx' Hq]; [lia|]. pose proof (length_pipe_queue (push x c)) as Hl.
  rewrite Hq, length_app in Hl. cbn in Hl. pose proof (length_pipe_queue x).
  destruct (IH (push x c) Hx') as [H1 H2]; [lia|]. split; [done|].
  change (pushes x (c :: cs)) with (pushes (push x c) cs). by rewrite H2, Hq, <- app_assoc.
Qed.

Lemma pushes_open x cs : readopen (pushes x cs) = readopen x /\ writeopen (pushes x cs) = writeopen x.
Proof. revert x. induction cs as [|c cs IH]; intros x; [done|]. exact (IH (push x c)). Qed.

Lemma get_pipe_with pa x s i : get_pipe pa (acq i (Lpipe pa) (with_pipe pa x s)) = Ret x (acq i (Lpipe pa) (with_pipe pa x s)).
Proof. unfold get_pipe. cbn. by rewrite lookup_insert_eq. Qed.

Lemma set_pipe_with pa x s i f :
  set_pipe pa f (acq i (Lpipe pa) (with_pipe pa x s)) = Ret tt (acq i (Lpipe pa) (with_pipe pa (f x) s)).
Proof.
  unfold set_pipe, kmod. f_equal.
  transitivity (acq i (Lpipe pa) (s <| k_pipes := alter f pa (<[pa := x]> (k_pipes s)) |>)); [by destruct s|].
  rewrite alter_insert_eq. by destruct s.
Qed.

Section PipeSpec.
Context `{L : Layout} `{Pt : Patience} (Hpat : (0 < patience)%nat).

Lemma write_byte_run s i pa x addr j :
  pipe_ok x -> pipe_count x < PIPESIZE ->
  (exists a, translate (k_mem s) (k_cr3 s) (u32 (addr + j)) false = Some a) ->
  pipewrite_byte pa addr j (acq i (Lpipe pa) (with_pipe pa x s)) =
    Ret None (acq i (Lpipe pa) (with_pipe pa (push x (ubyte s (u32 (addr + j)))) s)).
Proof.
  intros Hx Hc [a Ha]. unfold pipewrite_byte.
  assert (E : pipewrite_wait patience pa (acq i (Lpipe pa) (with_pipe pa x s)) = Ret true (acq i (Lpipe pa) (with_pipe pa x s))).
  { destruct patience as [|k]; [lia|]. cbn [pipewrite_wait]. krun (get_pipe_with pa x s i). rewrite (pipe_full x Hx).
    destruct (Z.eqb_spec (pipe_count x) PIPESIZE); [lia|done]. }
  krun E. cbn [negb].
  assert (E2 : load8 (u32 (addr + j)) (acq i (Lpipe pa) (with_pipe pa x s)) = Ret (ubyte s (u32 (addr + j))) (acq i (Lpipe pa) (with_pipe pa x s))).
  { unfold load8, ubyte. change (k_mem (acq _ _ _)) with (k_mem s). change (k_cr3 (acq _ _ _)) with (k_cr3 s). by rewrite Ha. }
  krun E2. unfold kbind at 1. rewrite set_pipe_with. cbn [obind]. unfold kbind at 1. rewrite set_pipe_with. done.
Qed.

Lemma write_loop s i pa addr rest m : forall k x,
  pipe_ok x -> pipe_count x + m <= PIPESIZE -> 0 <= k -> 0 <= m -> readable_at s addr (k + m) ->
  kfor (seqZ k m ++ rest) (pipewrite_byte pa addr) (acq i (Lpipe pa) (with_pipe pa x s)) =
    kfor rest (pipewrite_byte pa addr) (acq i (Lpipe pa) (with_pipe pa (pushes x (ubytes s addr k m)) s)).
Proof.
  intros k x Hx Hc Hk Hm. revert m Hm k x Hx Hc Hk.
  apply (natlike_ind (fun m => forall k x, _ -> _ -> _ -> _ -> _)); cbn beta; [done|].
  intros m Hm IH k x Hx Hc Hk Hr. unfold ubytes. rewrite (seqZ_cons k (Z.succ m)) by lia.
  replace (Z.pred (Z.succ m)) with m by lia. cbn [app kfor fmap list_fmap]. unfold pushes. cbn [foldl].
  krun (write_byte_run s i pa x addr k Hx ltac:(lia) (Hr k ltac:(lia))). cbv iota.
  destruct (push_queue x (ubyte s (u32 (addr + k))) Hx) as [Hx' Hq]; [lia|].
  pose proof (length_pipe_queue (push x (ubyte s (u32 (addr + k))))) as Hl. rewrite Hq, length_app in Hl. cbn in Hl.
  pose proof (length_pipe_queue x). apply IH; [done|lia|lia|]. intros j Hj. apply Hr. lia.
Qed.

Lemma env_with_pipe s i c me p pa x : env s i c me p -> env (with_pipe pa x s) i c me p.
Proof. intros H. by apply (env_ext s). Qed.

Lemma with_pipe_id pa x s : k_pipes s !! pa = Some x -> with_pipe pa x s = s.
Proof. intros H. unfold with_pipe, update, upd_k_pipes. rewrite insert_id by done. by destruct s. Qed.

(** A full pipe without a reader, or a killed writer, ends the write. *)
Lemma write_byte_dead s i c me p pa x addr j :
  env s i c me p -> free s (Lpipe pa) -> pipe_ok x -> pipe_count x = PIPESIZE -> readopen x = 0 \/ killed p <> 0 ->
  pipewrite_byte pa addr j (acq i (Lpipe pa) (with_pipe pa x s)) = Ret (Some tt) (with_pipe pa x s).
Proof.
  intros He Hf Hx Hc Hd. unfold pipewrite_byte. pose proof (env_with_pipe s i c me p pa x He) as He'.
  assert (E : pipewrite_wait patience pa (acq i (Lpipe pa) (with_pipe pa x s)) = Ret false (with_pipe pa x s)); [|by krun E].
  destruct patience as [|k]; [lia|]. cbn [pipewrite_wait]. krun (get_pipe_with pa x s i). rewrite (pipe_full x Hx), Hc, Z.eqb_refl.
  assert (Ed : (if readopen x =? 0 then kret true else (d <- mine killed ;; kret (c_true d))) (acq i (Lpipe pa) (with_pipe pa x s)) =
    Ret true (acq i (Lpipe pa) (with_pipe pa x s))).
  { destruct (Z.eqb_spec (readopen x) 0); [done|]. krun (env_mine_acq killed (with_pipe pa x s) i c me p (Lpipe pa) He').
    unfold kret. f_equal. apply c_true_true. tauto. }
  krun Ed. by krun (release_acq (with_pipe pa x s) i c (Lpipe pa) (env_steady _ _ _ _ _ He') Hf).
Qed.

(** C26: [pipewrite] appends to the queue.  If the bytes fit, they are all
    appended in order, the readers are woken and the call returns the count.
    If they do not fit, and no reader is left or the writer is killed, the
    bytes that fit are appended and the call returns -1.  Nothing else of the
    kernel changes, and the lock is free again. *)
Theorem pipewrite_spec (s : kernel) i c me p pa x addr n :
  env s i c me p -> free s (Lpipe pa) -> k_pipes s !! pa = Some x -> pipe_ok x -> 0 <= n -> readable_at s addr n ->
  let room := PIPESIZE - pipe_count x in
  n <= room \/ readopen x = 0 \/ killed p <> 0 ->
  exists x', pipe_ok x' /\ readopen x' = readopen x /\ writeopen x' = writeopen x /\
    pipe_queue x' = pipe_queue x ++ ubytes s addr 0 (Z.min n room) /\
    pipewrite pa addr n s =
      if n <=? room then Ret n ((with_pipe pa x' s) <| k_ptable ::= fmap (wake (Some (Cpiperead pa))) |>)
      else Ret (-1) (with_pipe pa x' s).
Proof.
  intros He Hf Hp Hx Hn Hr room Hor. set (m := Z.min n room). set (x' := pushes x (ubytes s addr 0 m)).
  pose proof (po_count x Hx) as Hc. pose proof (pipe_count_range x) as Hc0.
  assert (Hm : 0 <= m <= room) by (unfold m, room; lia).
  assert (Hlen : Z.of_nat (length (ubytes s addr 0 m)) = m) by (unfold ubytes; rewrite length_fmap, length_seqZ; lia).
  destruct (pushes_queue x (ubytes s addr 0 m) Hx) as [Hx' Hq]; [unfold room in *; lia|].
  destruct (pushes_open x (ubytes s addr 0 m)) as [Hro Hwo]. fold x' in Hx', Hq, Hro, Hwo.
  exists x'. split; [done|]. split; [done|]. split; [done|]. split; [done|].
  unfold pipewrite. krun (acquire_steady s i c (Lpipe pa) (env_steady _ _ _ _ _ He) Hf).
  assert (Es : acq i (Lpipe pa) s = acq i (Lpipe pa) (with_pipe pa x s)) by (by rewrite with_pipe_id). rewrite Es.
  assert (Hsplit : seqZ 0 n = seqZ 0 m ++ seqZ m (n - m)).
  { replace n with (m + (n - m)) at 1 by lia. rewrite seqZ_app by (unfold m; lia). done. }
  rewrite Hsplit. unfold kbind at 1. rewrite write_loop; [|done|unfold room in *; lia|lia|lia|intros j Hj; apply Hr; unfold m in Hj; lia].
  fold x'. pose proof (env_with_pipe s i c me p pa x' He) as He'. destruct (Z.leb_spec n room) as [Hle|Hgt].
  - replace (n - m) with 0 by (unfold m; lia). change (seqZ m 0) with (@nil Z). cbn [kfor]. unfold kret at 1. cbn [obind]. cbv iota.
    krun (env_wakeup_acq (with_pipe pa x' s) i c me p (Lpipe pa) (Some (Cpiperead pa)) He' ltac:(done)).
    krun (release_acq ((with_pipe pa x' s) <| k_ptable ::= fmap (wake (Some (Cpiperead pa))) |>) i c (Lpipe pa)
      (env_steady _ _ _ _ _ (env_wake _ _ _ _ _ _ He')) Hf). done.
  - rewrite (seqZ_cons m) by (unfold m; lia). cbn [kfor].
    assert (Hfull : pipe_count x' = PIPESIZE).
    { pose proof (length_pipe_queue x') as Hl. rewrite Hq, length_app in Hl. pose proof (length_pipe_queue x). unfold m, room in *. lia. }
    krun (write_byte_dead s i c me p pa x' addr m He Hf Hx' Hfull ltac:(rewrite Hro; destruct Hor as [?|?]; [lia|done])). done.
Qed.

(** ** Reading *)

(** The user buffer of [n] bytes at [addr] is writable: byte [j] is at the
    address [f j] of the direct map, and writing to the buffer does not change
    where its bytes are. *)
Record writable_at (m0 : mem) (cr3 addr n : Z) (f : Z -> Z) : Prop := {
  wa_inj : forall j k, 0 <= j < n -> 0 <= k < n -> f j = f k -> j = k;
  wa_map : forall m j, 0 <= j < n -> (forall a, (forall k, 0 <= k < n -> a <> f k) -> ld8 m a = ld8 m0 a) ->
    translate m cr3 (u32 (addr + j)) true = Some (f j)
}.

Fixpoint stores (m : mem) (f : Z -> Z) (k : Z) (cs : list Z) : mem :=
  match cs with
  | [] => m
  | c :: cs' => stores (st8 m (f k) c) f (k + 1) cs'
  end.

Lemma stores_outside m f k cs a :
  (forall j, k <= j < k + Z.of_nat (length cs) -> a <> f j) -> ld8 (stores m f k cs) a = ld8 m a.
Proof.
  revert m k. induction cs as [|c cs IH]; intros m k H; [done|]. cbn [stores length] in *.
  rewrite IH by (intros j Hj; apply H; lia). apply ld8_st8_ne. apply not_eq_sym, H. lia.
Qed.

Lemma stores_inside m f k cs n j c :
  (forall j k, 0 <= j < n -> 0 <= k < n -> f j = f k -> j = k) -> 0 <= k -> k + Z.of_nat (length cs) <= n ->
  cs !! j = Some c -> ld8 (stores m f k cs) (f (k + Z.of_nat j)) = u8 c.
Proof.
  intros Hinj. revert m k j. induction cs as [|d cs IH]; intros m k j Hk Hl Hj; [by rewrite lookup_nil in Hj|].
  cbn [stores length] in *. destruct j as [|j]; cbn in Hj.
  - injection Hj as ->. rewrite Z.add_0_r, stores_outside; [apply ld8_st8_eq|].
    intros j' Hj' E. apply Hinj in E; lia.
  - replace (k + Z.of_nat (S j)) with (k + 1 + Z.of_nat j) by lia. apply IH; [lia|lia|done].
Qed.

(** The pipe without its first [t] bytes. *)
Definition pops (t : nat) (x : pipe) : pipe := Nat.iter t pop x.

Lemma pops_queue t x :
  pipe_ok x -> (Z.of_nat t <= pipe_count x) ->
  pipe_ok (pops t x) /\ pipe_queue (pops t x) = drop t (pipe_queue x) /\
  readopen (pops t x) = readopen x /\ writeopen (pops t x) = writeopen x.
Proof.
  revert x. induction t as [|t IH]; intros x Hx Ht; [by rewrite drop_0|].
  destruct (pop_queue x Hx) as [Hx' Hq]; [lia|]. pose proof (length_pipe_queue x) as Hl. pose proof (length_pipe_queue (pop x)) as Hl'.
  rewrite Hq in Hl. cbn [length] in Hl. destruct (IH (pop x) Hx') as (H1 & H2 & H3); [lia|].
  unfold pops in *. rewrite Nat.iter_succ_r. split; [done|]. split; [|done]. by rewrite H2, Hq.
Qed.

(** The state of the loop. *)
Definition reading (i : nat) (pa : Z) (x : pipe) (m : mem) (s : kernel) : kernel :=
  acq i (Lpipe pa) (with_pipe pa x (s <| k_mem := m |>)).

Lemma read_byte_run s i pa x m addr j a :
  pipe_ok x -> 0 < pipe_count x -> translate m (k_cr3 s) (u32 (addr + j)) true = Some a ->
  piperead_byte pa addr j (reading i pa x m s) = Ret None (reading i pa (pop x) (st8 m a (pipe_at x (nread x))) s).
Proof.
  intros Hx Hc Ha. unfold piperead_byte, reading. krun (get_pipe_with pa x (s <| k_mem := m |>) i). rewrite (pipe_empty x Hx).
  destruct (Z.eqb_spec (pipe_count x) 0); [lia|]. unfold kbind at 1. rewrite set_pipe_with. cbn [obind].
  unfold store8, kbind. change (k_mem (acq _ _ _)) with m. change (k_cr3 (acq _ _ _)) with (k_cr3 s). by rewrite Ha.
Qed.

Lemma pipe_read_loop s i pa addr n f m0 : writable_at m0 (k_cr3 s) addr n f -> forall d k x m,
  pipe_ok x -> 0 <= k -> k + Z.of_nat d <= n -> (forall a, (forall k, 0 <= k < n -> a <> f k) -> ld8 m a = ld8 m0 a) ->
  let t := Nat.min d (length (pipe_queue x)) in
  kfor (seqZ k (Z.of_nat d)) (piperead_byte pa addr) (reading i pa x m s) =
    Ret (if Nat.ltb t d then Some (k + Z.of_nat t) else None)
      (reading i pa (pops t x) (stores m f k (take t (pipe_queue x))) s).
Proof.
  intros [Hinj Hmap]. induction d as [|d IH]; intros k x m Hx Hk Hn Hm; [done|]. cbv zeta.
  rewrite seqZ_cons by lia. replace (Z.pred (Z.of_nat (S d))) with (Z.of_nat d) by lia. cbn [kfor].
  pose proof (length_pipe_queue x) as Hl. destruct (decide (0 < pipe_count x)) as [Hc|Hc].
  - krun (read_byte_run s i pa x m addr k (f k) Hx Hc (Hmap m k ltac:(lia) Hm)). cbv iota.
    destruct (pop_queue x Hx Hc) as [Hx' Hq]. rewrite (IH (k + 1) (pop x)); [|done|lia|lia|].
    + rewrite Hq. cbn [length Nat.min]. set (t := Nat.min d (length (pipe_queue (pop x)))).
      change (Nat.ltb (S t) (S d)) with (Nat.ltb t d). cbn [take stores]. unfold pops. rewrite Nat.iter_succ_r.
      replace (k + Z.of_nat (S t)) with (k + 1 + Z.of_nat t) by lia. done.
    + intros a Ha. rewrite ld8_st8_ne by (apply not_eq_sym, Ha; lia). by apply Hm.
  - assert (E : pipe_queue x = []) by (destruct (pipe_queue x); [done|cbn in Hl; lia]).
    rewrite E. cbn [length Nat.min take]. unfold kbind, piperead_byte, reading. unfold kbind. rewrite get_pipe_with. cbn [obind].
    pose proof (pipe_count_range x). rewrite (pipe_empty x Hx). destruct (Z.eqb_spec (pipe_count x) 0); [|lia].
    unfold kret. cbn. by rewrite Z.add_0_r.
Qed.

Lemma reading_start s i pa x : k_pipes s !! pa = Some x -> acq i (Lpipe pa) s = reading i pa x (k_mem s) s.
Proof.
  intros H. unfold reading. replace (s <| k_mem := k_mem s |>) with s by (by destruct s). by rewrite with_pipe_id.
Qed.

(** C27: [piperead] takes from the front of the queue.  On a pipe that has bytes
    or no writer it returns the number of bytes it took, at most [n] and as
    many as there are; they are in the user's buffer in the order in which they
    were written and are gone from the queue, and the writers are woken.  On an
    empty pipe with a writer a killed reader gets -1.  Nothing else changes and
    the lock is free again. *)
Theorem piperead_spec (s : kernel) i c me p pa x addr n f :
  env s i c me p -> free s (Lpipe pa) -> k_pipes s !! pa = Some x -> pipe_ok x -> 0 <= n ->
  writable_at (k_mem s) (k_cr3 s) addr n f ->
  if (pipe_count x =? 0) && c_true (writeopen x) then killed p <> 0 -> piperead pa addr n s = Ret (-1) s
  else
    let t := Z.min n (pipe_count x) in
    exists x' m, piperead pa addr n s = Ret t ((with_pipe pa x' (s <| k_mem := m |>)) <| k_ptable ::= fmap (wake (Some (Cpipewrite pa))) |>) /\
      pipe_ok x' /\ readopen x' = readopen x /\ writeopen x' = writeopen x /\
      pipe_queue x' = drop (Z.to_nat t) (pipe_queue x) /\
      (forall j b, Z.of_nat j < t -> pipe_queue x !! j = Some b -> ld8 m (f (Z.of_nat j)) = u8 b) /\
      (forall a, (forall j, 0 <= j < t -> a <> f j) -> ld8 m a = ld8 (k_mem s) a).
Proof.
  intros He Hf Hp Hx Hn Hw.
  assert (Hget : get_pipe pa (reading i pa x (k_mem s) s) = Ret x (reading i pa x (k_mem s) s)) by apply get_pipe_with.
  destruct ((pipe_count x =? 0) && c_true (writeopen x)) eqn:Ew.
  - intros Hk. rewrite <- (reading_start s i pa x Hp) in Hget.
    unfold piperead. krun (acquire_steady s i c (Lpipe pa) (env_steady _ _ _ _ _ He) Hf).
    assert (E : piperead_wait patience pa (acq i (Lpipe pa) s) = Ret false s); [|by krun E].
    destruct patience as [|k]; [lia|]. cbn [piperead_wait]. krun Hget. rewrite (pipe_empty x Hx), Ew.
    krun (env_mine_acq killed s i c me p (Lpipe pa) He). rewrite (proj2 (c_true_true _) Hk).
    by krun (release_acq s i c (Lpipe pa) (env_steady _ _ _ _ _ He) Hf).
  - assert (E : piperead_wait patience pa (reading i pa x (k_mem s) s) = Ret true (reading i pa x (k_mem s) s)).
    { destruct patience as [|k]; [lia|]. cbn [piperead_wait]. krun Hget. by rewrite (pipe_empty x Hx), Ew. }
    unfold piperead. krun (acquire_steady s i c (Lpipe pa) (env_steady _ _ _ _ _ He) Hf). rewrite (reading_start s i pa x Hp).
    krun E. cbn [negb]. cbv zeta. pose proof (pipe_read_loop s i pa addr n f (k_mem s) Hw (Z.to_nat n) 0 x (k_mem s) Hx) as Hloop.
    rewrite Z2Nat.id in Hloop by lia. cbv zeta in Hloop.
    set (t := Nat.min (Z.to_nat n) (length (pipe_queue x))) in *. set (m := stores (k_mem s) f 0 (take t (pipe_queue x))) in *.
    pose proof (length_pipe_queue x) as Hl. assert (Ht : Z.of_nat t = Z.min n (pipe_count x)) by (unfold t; lia).
    destruct (pops_queue t x Hx) as (Hx' & Hq & Hro & Hwo); [lia|].
    unfold kbind at 1. rewrite Hloop by (done || lia). cbn [obind]. clear Hloop.
    replace (default (Z.max 0 n) (if Nat.ltb t (Z.to_nat n) then Some (0 + Z.of_nat t) else None)) with (Z.of_nat t)
      by (destruct (Nat.ltb_spec t (Z.to_nat n)); cbn; lia).
    set (s' := with_pipe pa (pops t x) (s <| k_mem := m |>)). assert (He' : env s' i c me p) by (by apply (env_ext s)).
    unfold reading. fold s'. krun (env_wakeup_acq s' i c me p (Lpipe pa) (Some (Cpipewrite pa)) He' ltac:(done)).
    krun (release_acq (s' <| k_ptable ::= fmap (wake (Some (Cpipewrite pa))) |>) i c (Lpipe pa)
      (env_steady _ _ _ _ _ (env_wake _ _ _ _ _ _ He')) Hf).
    exists (pops t x), m. rewrite <- Ht. split; [done|]. split; [done|]. split; [done|]. split; [done|].
    rewrite Nat2Z.id. split; [done|]. assert (Hlt : length (take t (pipe_queue x)) = t) by (rewrite length_take; unfold t; lia). split.
    + intros j b Hj Hb. replace (Z.of_nat j) with (0 + Z.of_nat j) by lia. apply (stores_inside _ _ _ _ n); [apply Hw|lia|rewrite Hlt; lia|].
      by rewrite lookup_take_lt by lia.
    + intros a Ha. apply stores_outside. rewrite Hlt. exact Ha.
Qed.
End PipeSpec.

(** ** A concrete pipe *)

(** A pipe at [0x80330000] whose counters are about to wrap, with the bytes 7
    and 9 in it. *)
Definition demo_pipe : pipe := mk_pipe (replicate 510 0 ++ [7; 9]) 4294967294 0 1 1.
Definition demo_piped : kernel :=
  demo_args <| k_pipes ::= insert 0x80330000 demo_pipe |> <| k_locks ::= insert (Lpipe 0x80330000) unlocked |>.

Lemma env_add_pipe s i c me p pa x :
  env s i c me p -> env (s <| k_pipes ::= insert pa x |> <| k_locks ::= insert (Lpipe pa) unlocked |>) i c me p.
Proof.
  intros [H1 H2 H3 H4 H5 H6]. split; [by apply (steady_ext s)| |done|done|done|done].
  intros l Hl. unfold free. cbn. rewrite lookup_insert_ne; [by apply H2|]. by intros <-.
Qed.

Lemma demo_piped_env : env demo_piped 0 run_cpu 0 arg_proc.
Proof. apply env_add_pipe, demo_args_env. Qed.

Lemma user_add_pipe s p pa x :
  user_space s p -> user_space (s <| k_pipes ::= insert pa x |> <| k_locks ::= insert (Lpipe pa) unlocked |>) p.
Proof. intros [H1 H2]. by split. Qed.

Lemma demo_pipe_ok : pipe_ok demo_pipe.
Proof. split; [reflexivity|cbn; lia|cbn; lia|vm_compute; discriminate]. Qed.

Lemma demo_pipe_queue : pipe_queue demo_pipe = [7; 9].
Proof. vm_compute. reflexivity. Qed.

Lemma pipewrite_spec_witness :
  exists x', pipe_ok x' /\ pipe_queue x' = [7; 9] ++ ubytes demo_piped 200 0 2 /\
    pipewrite (Pt := 1%nat) 0x80330000 200 2 demo_piped =
      Ret 2 ((with_pipe 0x80330000 x' demo_piped) <| k_ptable ::= fmap (wake (Some (Cpiperead 0x80330000))) |>).
Proof.
  destruct (pipewrite_spec (Pt := 1%nat) ltac:(unfold patience; lia) demo_piped 0 run_cpu 0 arg_proc 0x80330000 demo_pipe 200 2)
    as (x' & H1 & _ & _ & H2 & H3).
  - apply demo_piped_env.
  - reflexivity.
  - reflexivity.
  - apply demo_pipe_ok.
  - lia.
  - intros j Hj. rewrite u32_id by lia. apply (us_mapped _ _ (user_add_pipe _ _ _ _ demo_args_user)). cbn. lia.
  - left. vm_compute. discriminate.
  - exists x'. split; [exact H1|]. split; [rewrite <- demo_pipe_queue; exact H2|exact H3].
Defined.

Lemma demo_writable : writable_at (k_mem demo_piped) (k_cr3 demo_piped) 300 3 (fun j => demo_u0 + 300 + j).
Proof.
  split; [intros; lia|]. intros m j Hj Hm. rewrite u32_id by lia. unfold translate, KERNBASE.
  destruct (Z.leb_spec 0x80000000 (300 + j)); [lia|]. rewrite pdx_eq, ptx_eq by lia.
  assert (E0 : (300 + j) / 4194304 = 0) by (Z.div_mod_to_equations; lia).
  assert (E1 : (300 + j) / 4096 mod 1024 = 0) by (Z.div_mod_to_equations; lia).
  assert (E2 : (300 + j) mod 4096 = 300 + j) by (Z.div_mod_to_equations; lia). rewrite E0, E1, E2.
  change (P2V (k_cr3 demo_piped) + 4 * 0) with demo_dir.
  assert (Ed : ld32 m demo_dir = ld32 (k_mem demo_piped) demo_dir).
  { apply ld32_ext. intros b Hb. apply Hm. intros k Hk. unfold demo_dir, demo_u0 in *. lia. }
  assert (Ed' : ld32 (k_mem demo_piped) demo_dir = 0x301007) by (vm_compute; reflexivity). rewrite Ed, Ed'.
  change (pte_allows 0x301007 true) with true. cbn [negb]. change (P2V (PTE_ADDR 0x301007) + 4 * 0) with demo_tab.
  assert (Et : ld32 m demo_tab = ld32 (k_mem demo_piped) demo_tab).
  { apply ld32_ext. intros b Hb. apply Hm. intros k Hk. unfold demo_tab, demo_u0 in *. lia. }
  assert (Et' : ld32 (k_mem demo_piped) demo_tab = 0x302007) by (vm_compute; reflexivity). rewrite Et, Et'.
  change (pte_allows 0x302007 true) with true. cbn [negb].
  change (P2V (PTE_ADDR 0x302007)) with demo_u0. f_equal. lia.
Qed.

Lemma piperead_spec_witness :
  exists x' m, piperead (Pt := 1%nat) 0x80330000 300 3 demo_piped =
      Ret 2 ((with_pipe 0x80330000 x' (demo_piped <| k_mem := m |>)) <| k_ptable ::= fmap (wake (Some (Cpipewrite 0x80330000))) |>) /\
    pipe_queue x' = [] /\ ld8 m (demo_u0 + 300) = 7 /\ ld8 m (demo_u0 + 301) = 9.
Proof.
  pose proof (piperead_spec (Pt := 1%nat) ltac:(unfold patience; lia) demo_piped 0 run_cpu 0 arg_proc 0x80330000 demo_pipe 300 3 _
    demo_piped_env eq_refl eq_refl demo_pipe_ok ltac:(lia) demo_writable) as H.
  change (pipe_count demo_pipe) with 2 in H. change ((2 =? 0) && c_true (writeopen demo_pipe)) with false in H. cbv iota zeta in H.
  change (Z.min 3 2) with 2 in H. rewrite demo_pipe_queue in H. destruct H as (x' & m & H1 & _ & _ & _ & H2 & H3 & _).
  exists x', m. split; [exact H1|]. split; [exact H2|]. split.
  - apply (H3 0%nat 7); [lia|reflexivity].
  - apply (H3 1%nat 9); [lia|reflexivity].
Defined.
