(* ===== verification/Mmap.v ===== *)
(** * [mmap] and [munmap]

    The system calls [sys_mmap] and [sys_munmap] of [sysfile.c].  Signed
    overflow of an [int] is [Undef] where the code lets it happen. *)

From stdpp Require Import base gmap strings list fin_maps.
From Stdlib Require Import ZArith Lia.
From S2P Require Import Prelude Mem Types Spinlock Kalloc Vm Proc Access Sleeplock Disk Bio Log Inode Console Fs Pipe File ProcLife Args.

Definition RETURN_ERR : Z := -1.

(** Whether the valid descriptor [d] covers the address [a]. *)
Definition covers (d : mmap_desc) (a : Z) : bool :=
  (virtualAddress d <=? a) && (a <? i32 (virtualAddress d + PAGE_SIZE)).

Section MmapDefs.
Context `{L : Layout} `{Pt : Patience} `{D : DiskDriver}.

(** ** [sys_munmap] *)

(** The descriptors of the current process that cover an address of the range,
    in the order in which the code finds them; [to_free] has [PAGE_LIMIT] slots. *)
Definition munmap_collect (addrs : list Z) : KM (list nat) :=
  mp <- myproc ;;
  me <- deref mp ;;
  p <- get_proc me ;;
  let found := flat_map (fun a =>
    List.filter (fun j => match mmaps p !! j with
                          | Some d => c_true (valid d) && covers d a
                          | None => false
                          end) (seq 0 PAGE_LIMIT)) addrs in
  if (PAGE_LIMIT <? length found)%nat then kundef "to_free index" else kret found.

Definition sys_munmap : KM Z :=
  oa <- argint 0 ;;
  match oa with
  | None => cprintf "Error getting the arguments" ;;; kret RETURN_ERR
  | Some addr =>
  ol <- argint 1 ;;
  match ol with
  | None => cprintf "Error getting the arguments" ;;; kret RETURN_ERR
  | Some length0 =>
  if negb (u32 addr mod PGSIZE =? 0) then cprintf "error, addr mod PAGE_SIZE is not 0" ;;; kret RETURN_ERR else
  let count := Z.max 0 ((i32 (length0 + addr) - addr + PGSIZE - 1) / PGSIZE) in
  if (0 <? count) && (2147483648 <=? addr + PGSIZE * count) then kundef "signed overflow" else
  to_free <- munmap_collect ((fun k => addr + PGSIZE * k) <$> seqZ 0 count) ;;
  mp <- myproc ;;
  me <- deref mp ;;
  (match to_free with
   | [] => kret tt
   | j :: _ =>
       d <- get_desc me j ;;
       f <- deref (md_f d) ;;
       set_file f (fun x => x <| f_off := 0 |>)
   end) ;;;
  keach to_free (fun j =>
    d <- get_desc me j ;;
    match md_f d with
    | None => kret tt
    | Some f =>
        (if c_true (Z.land (md_flags d) MAP_PRIVATE) then kret tt
         else filewrite f (virtualAddress d) PGSIZE ;;; kret tt) ;;;
        fileclose f
    end) ;;;
  keach to_free (munmap_free me) ;;;
  kret 0
  end
  end.

(** ** [sys_mmap] *)

(** [for(j = 0; j < length; j+=PGSIZE) numberOfPagesToAllocate++;] *)
Definition mmap_pages (length0 flags : Z) : Z :=
  (length0 + PGSIZE - 1) / PGSIZE + (if c_true (Z.land flags MAP_GROWSUP) then 1 else 0).

(** Whether a page of the fixed range is mapped already. *)
Definition mmap_overlap (ds : list mmap_desc) (addr pages : Z) : bool :=
  existsb (fun j => existsb (fun d => c_true (valid d) && covers d (i32 (addr + PAGE_SIZE * j))) ds) (seqZ 0 pages).

(** The loop that looks for [pages] invalid descriptors in a row: the first of
    them. *)
Fixpoint mmap_find (ds : list mmap_desc) (j run pages : Z) : option Z :=
  match ds with
  | [] => None
  | d :: ds' =>
      if c_true (valid d) then mmap_find ds' (j + 1) 0 pages
      else if run + 1 =? pages then Some (j - pages + 1)
      else mmap_find ds' (j + 1) (run + 1) pages
  end.

(** The body of the last loop, for descriptor [j] of the run [i .. i+run-1]; the
    result is the next address, or [None] for an early return. *)
Definition mmap_fill (me : nat) (j i run flags prot0 length0 va_start : Z) : KM (option Z) :=
  let jn := Z.to_nat j in
  d <- get_desc me jn ;;
  if c_true (valid d) then kret (Some va_start) else
  set_desc me jn (fun d => d <| valid := 1 |> <| dirty := 0 |> <| md_flags := flags |> <| prot := prot0 |>
    <| md_ref := 1 |>) ;;;
  set_desc me jn (fun d => d <| guard_page := c_bool ((j =? i + run - 1) && c_true (Z.land flags MAP_GROWSUP)) |>) ;;;
  ok <- (if negb (c_true (Z.land flags MAP_ANON)) then
           o <- argfd 4 ;;
           match o with
           | None => kret false
           | Some (_, f) => g <- filedup (Some f) ;; set_desc me jn (fun d => d <| md_f := g |>) ;;; kret true
           end
         else set_desc me jn (fun d => d <| md_f := None |>) ;;; kret true) ;;
  if negb ok then kret None else
  set_desc me jn (fun d => d <| md_length := length0 |>) ;;;
  set_desc me jn (fun d => d <| virtualAddress := va_start |>) ;;;
  kret (Some (i32 (va_start + PGSIZE))).

Fixpoint mmap_fill_all (me : nat) (js : list Z) (i run flags prot0 length0 va_start : Z) : KM (option Z) :=
  match js with
  | [] => kret (Some va_start)
  | j :: js' =>
      o <- mmap_fill me j i run flags prot0 length0 va_start ;;
      match o with
      | None => kret None
      | Some va_start => mmap_fill_all me js' i run flags prot0 length0 va_start
      end
  end.

(** The six integer arguments, in the order of the code; the first that is
    missing ends the call. *)
Fixpoint args (ns : list Z) : KM (option (list Z)) :=
  match ns with
  | [] => kret (Some [])
  | n :: ns' =>
      o <- argint n ;;
      match o with
      | None => kret None
      | Some v => r <- args ns' ;; kret (cons v <$> r)
      end
  end.

(** [sys_mmap] behind its arguments.  The end of a fixed mapping is an [int] sum
    that the compiler takes as unsigned for the comparison with [VIRT_ADDR_END];
    it wraps here as in the machine, where C leaves a sum of 2^31 or more
    undefined. *)
Definition mmap (addr length0 prot0 flags : Z) : KM Z :=
  if 2147483648 <=? (length0 + PGSIZE - 1) / PGSIZE * PGSIZE then kundef "signed overflow" else
  let pages := mmap_pages length0 flags in
  if negb (c_true (Z.land flags MAP_PRIVATE)) && negb (c_true (Z.land flags MAP_SHARED)) then kret RETURN_ERR else
  mp <- myproc ;;
  me <- deref mp ;;
  p <- get_proc me ;;
  va <- kget k_va_ptr ;;
  let fixed := c_true (Z.land flags MAP_FIXED) in
  if fixed && ((VIRT_ADDR_END <=? u32 (addr + length0)) || (addr <? VIRT_ADDR_START)) then kret RETURN_ERR else
  if fixed && mmap_overlap (mmaps p) addr pages then kret RETURN_ERR else
  let va_start := if fixed then addr else va in
  match mmap_find (mmaps p) 0 0 pages with
  | None => kret RETURN_ERR
  | Some i =>
      o <- mmap_fill_all me (seqZ i pages) i pages flags prot0 length0 va_start ;;
      match o with
      | None => kret RETURN_ERR
      | Some va_end =>
          (when negb fixed do kmod (fun s => s <| k_va_ptr := va_end |>)) ;;;
          d <- get_desc me (Z.to_nat i) ;;
          kret (virtualAddress d)
      end
  end.

Definition sys_mmap : KM Z :=
  o <- args [0; 1; 2; 3; 4; 5] ;;
  match o with
  | Some [addr; length0; prot0; flags; fd; offset] =>
      if (length0 <? 0) || (offset <? 0) then kret RETURN_ERR else
      mmap addr length0 prot0 flags
  | _ => kret RETURN_ERR
  end.
End MmapDefs.
