(* ===== verification/MmapSpec.v ===== *)
(** * What [mmap] does to the descriptors of a process

    The search for descriptors finds the first run that is long enough; an
    anonymous mapping takes exactly that run; and a mapping at an aligned address
    keeps the mappings of the process disjoint. *)

From stdpp Require Import base gmap strings list fin_maps.
From Stdlib Require Import ZArith Lia.
From S2P Require Import Prelude Mem Types Spinlock Kalloc Vm Proc ProcSpec Access Sleeplock Steady Disk Bio Log Inode Console Fs Pipe File ProcLife Args Mmap.

(** ** The search *)

(** The descriptors [i .. i+n-1] exist and are not in use. *)
Definition free_run (ds : list mmap_desc) (i n : Z) : Prop :=
  forall k, i <= k < i + n -> exists d, ds !! Z.to_nat k = Some d /\ valid d = 0.

Lemma mmap_find_from pre ds run n :
  0 <= run < n -> run <= Z.of_nat (length pre) ->
  (forall k, Z.of_nat (length pre) - run <= k < Z.of_nat (length pre) -> exists d, pre !! Z.to_nat k = Some d /\ valid d = 0) ->
  (run < Z.of_nat (length pre) -> exists d, pre !! Z.to_nat (Z.of_nat (length pre) - run - 1) = Some d /\ valid d <> 0) ->
  (forall i, 0 <= i -> i + n <= Z.of_nat (length pre) -> ~ free_run (pre ++ ds) i n) ->
  match mmap_find ds (Z.of_nat (length pre)) run n with
  | Some i => 0 <= i /\ free_run (pre ++ ds) i n /\ forall i', 0 <= i' < i -> ~ free_run (pre ++ ds) i' n
  | None => forall i', 0 <= i' -> ~ free_run (pre ++ ds) i' n
  end.
Proof.
  revert pre run. induction ds as [|d ds IH]; intros pre run Hrun Hle Hfree Hstop Hnone; cbn [mmap_find].
  { intros i Hi Hf. destruct (decide (i + n <= Z.of_nat (length pre))) as [Hl|Hl]; [by apply (Hnone i)|].
    destruct (Hf (i + n - 1)) as (d & Hd & _); [lia|]. apply lookup_lt_Some in Hd. rewrite app_nil_r in Hd. lia. }
  assert (Hj : (pre ++ d :: ds) !! length pre = Some d) by (by apply list_lookup_middle).
  assert (Hlen : Z.of_nat (length (pre ++ [d])) = Z.of_nat (length pre) + 1) by (rewrite length_app; cbn; lia).
  assert (Hpre : forall k x, pre !! k = Some x -> (pre ++ d :: ds) !! k = Some x) by (intros; by apply lookup_app_l_Some).
  destruct (c_true (valid d)) eqn:Ev.
  - apply c_true_true in Ev. rewrite <- Hlen. replace (pre ++ d :: ds) with ((pre ++ [d]) ++ ds) in * by (by rewrite <- app_assoc).
    apply IH; [lia|lia|lia| |].
    + intros _. exists d. split; [|done]. replace (Z.to_nat _) with (length pre) by lia. by apply list_lookup_middle.
    + intros i Hi Hl Hf. destruct (decide (i + n <= Z.of_nat (length pre))); [by apply (Hnone i)|].
      destruct (Hf (Z.of_nat (length pre))) as (d' & Hd & Hv); [lia|]. rewrite Nat2Z.id, Hj in Hd. by simplify_eq.
  - apply c_true_false in Ev. destruct (Z.eqb_spec (run + 1) n) as [En|En].
    + split; [lia|]. split.
      * intros k Hk. destruct (decide (k = Z.of_nat (length pre))) as [->|]; [exists d; by rewrite Nat2Z.id|].
        destruct (Hfree k) as (x & Hx & Hv); [lia|]. exists x. auto.
      * intros i' Hi' Hf. apply (Hnone i'); [lia|lia|done].
    + rewrite <- Hlen. replace (pre ++ d :: ds) with ((pre ++ [d]) ++ ds) in * by (by rewrite <- app_assoc).
      apply IH; [lia|lia| | |].
      * intros k Hk. destruct (decide (k = Z.of_nat (length pre))) as [->|].
        { exists d. rewrite Nat2Z.id. split; [by apply list_lookup_middle|done]. }
        destruct (Hfree k) as (x & Hx & Hv); [lia|]. exists x. split; [by apply lookup_app_l_Some|done].
      * intros Hlt. destruct Hstop as (x & Hx & Hv); [lia|]. exists x. split; [|done].
        replace (Z.of_nat (length (pre ++ [d])) - (run + 1) - 1) with (Z.of_nat (length pre) - run - 1) by lia.
        by apply lookup_app_l_Some.
      * intros i Hi Hl Hf. destruct (decide (i + n <= Z.of_nat (length pre))); [by apply (Hnone i)|].
        destruct Hstop as (x & Hx & Hv); [lia|]. destruct (Hf (Z.of_nat (length pre) - run - 1)) as (y & Hy & Hv'); [lia|].
        rewrite (Hpre _ _ Hx) in Hy. by simplify_eq.
Qed.

Lemma mmap_find_none ds j run n : 0 <= run -> n <= 0 -> mmap_find ds j run n = None.
Proof.
  revert j run. induction ds as [|d ds IH]; intros j run Hr Hn; [done|]. cbn. destruct (c_true (valid d)); [by apply IH|].
  destruct (Z.eqb_spec (run + 1) n); [lia|]. apply IH; lia.
Qed.

Lemma mmap_find_first ds n :
  match mmap_find ds 0 0 n with
  | Some i => 0 <= i /\ free_run ds i n /\ forall i', 0 <= i' < i -> ~ free_run ds i' n
  | None => 0 < n -> forall i', 0 <= i' -> ~ free_run ds i' n
  end.
Proof.
  destruct (decide (0 < n)) as [Hn|Hn].
  - pose proof (mmap_find_from [] ds 0 n) as H. cbn in H. change (Z.of_nat 0) with 0 in H. destruct (mmap_find ds 0 0 n); [|intros _]; apply H; try lia;
      intros i Hi Hl; lia.
  - rewrite mmap_find_none by lia. lia.
Qed.

(** ** Filling a run *)

(** The change to one descriptor, and to [n] of them from [k] on. *)
Definition mapped_desc (flags prot0 length0 va : Z) (guard : bool) (d : mmap_desc) : mmap_desc :=
  d <| valid := 1 |> <| dirty := 0 |> <| md_flags := flags |> <| prot := prot0 |> <| md_ref := 1 |>
    <| guard_page := c_bool guard |> <| md_f := None |> <| md_length := length0 |> <| virtualAddress := va |>.
Fixpoint mapped (flags prot0 length0 : Z) (ds : list mmap_desc) (k n : nat) (last va : Z) : list mmap_desc :=
  match n with
  | O => ds
  | S n' => mapped flags prot0 length0
      (alter (mapped_desc flags prot0 length0 va ((Z.of_nat k =? last) && c_true (Z.land flags MAP_GROWSUP))) k ds)
      (S k) n' last (i32 (va + PGSIZE))
  end.

Lemma i32_add_l a b : i32 (i32 a + b) = i32 (a + b).
Proof. unfold i32. f_equal. rewrite <- (Zplus_mod_idemp_l (a + b)). Z.div_mod_to_equations. lia. Qed.

Lemma lookup_mapped flags prot0 length0 ds k n last va j :
  mapped flags prot0 length0 ds k n last va !! j =
    if decide (k <= j < k + n)%nat then
      mapped_desc flags prot0 length0 (if decide (j = k) then va else i32 (va + PGSIZE * (Z.of_nat j - Z.of_nat k)))
        ((Z.of_nat j =? last) && c_true (Z.land flags MAP_GROWSUP)) <$> ds !! j
    else ds !! j.
Proof.
  revert ds k va. induction n as [|n IH]; intros ds k va; cbn [mapped]; [by rewrite decide_False by lia|].
  rewrite IH. destruct (decide (j = k)) as [->|Hj].
  - rewrite decide_False, decide_True by lia. by rewrite list_lookup_alter_eq.
  - rewrite list_lookup_alter_ne by done. destruct (decide (S k <= j < S k + n)%nat) as [H|H].
    + destruct (decide (k <= j < k + S n)%nat); [|lia]. unfold PGSIZE. do 2 f_equal.
      case_decide; [subst; f_equal; lia|]. rewrite i32_add_l. f_equal. lia.
    + by rewrite decide_False by lia.
Qed.

Lemma length_mapped flags prot0 length0 ds k n last va : length (mapped flags prot0 length0 ds k n last va) = length ds.
Proof. revert ds k va. induction n as [|n IH]; intros ds k va; [done|]. cbn. rewrite IH. apply length_alter. Qed.

(** The descriptors of process [me] become [ds]. *)
Definition set_maps (me : nat) (ds : list mmap_desc) (s : kernel) : kernel :=
  s <| k_ptable ::= alter (fun p => p <| mmaps := ds |>) me |>.

Lemma set_desc_run me j f s p :
  k_ptable s !! me = Some p -> set_desc me j f s = Ret tt (set_maps me (alter f j (mmaps p)) s).
Proof.
  intros Hp. unfold set_desc, set_proc, kmod, set_maps. f_equal. unfold update, upd_k_ptable. f_equal.
  apply list_alter_ext; [|done]. intros q Hq. by simplify_eq.
Qed.

Lemma lookup_set_maps me ds s p :
  k_ptable s !! me = Some p -> k_ptable (set_maps me ds s) !! me = Some (p <| mmaps := ds |>).
Proof. intros Hp. cbn. by rewrite list_lookup_alter_eq, Hp. Qed.

Lemma set_maps_set_maps me ds ds' s : set_maps me ds' (set_maps me ds s) = set_maps me ds' s.
Proof. unfold set_maps, update, upd_k_ptable. cbn. f_equal. by rewrite list_alter_alter_eq. Qed.

Lemma get_desc_run me j s p d :
  k_ptable s !! me = Some p -> mmaps p !! j = Some d -> get_desc me j s = Ret d s.
Proof. intros Hp Hd. unfold get_desc. krun (get_proc_run s me p Hp). by rewrite Hd. Qed.



Lemma mmap_fill_run s me p j i run flags prot0 length0 va d :
  k_ptable s !! me = Some p -> mmaps p !! j = Some d -> valid d = 0 -> c_true (Z.land flags MAP_ANON) = true ->
  mmap_fill me (Z.of_nat j) i run flags prot0 length0 va s =
    Ret (Some (i32 (va + PGSIZE)))
      (set_maps me (alter (mapped_desc flags prot0 length0 va
        ((Z.of_nat j =? i + run - 1) && c_true (Z.land flags MAP_GROWSUP))) j (mmaps p)) s).
Proof.
  intros Hp Hd Hv Ha. unfold mmap_fill. rewrite Nat2Z.id. krun (get_desc_run me j s p d Hp Hd).
  rewrite (proj2 (c_true_false _) Hv). cbv iota.
  krun (set_desc_run me j (fun d => d <| valid := 1 |> <| dirty := 0 |> <| md_flags := flags |> <| prot := prot0 |> <| md_ref := 1 |>) s p Hp).
  rewrite Ha. cbn [negb].
  unfold kbind at 1. erewrite set_desc_run by (by apply lookup_set_maps). cbn [obind]. rewrite set_maps_set_maps.
  unfold kbind at 1 2. erewrite set_desc_run by (by apply lookup_set_maps). cbn [obind]. rewrite set_maps_set_maps.
  unfold kret at 1. cbn [obind negb].
  unfold kbind at 1. erewrite set_desc_run by (by apply lookup_set_maps). cbn [obind]. rewrite set_maps_set_maps.
  unfold kbind at 1. erewrite set_desc_run by (by apply lookup_set_maps). cbn [obind]. rewrite set_maps_set_maps.
  unfold kret. f_equal. f_equal. cbn [mmaps update upd_mmaps]. by rewrite !list_alter_alter_eq.
Qed.

Lemma mmap_fill_all_run n : forall k s me p i run flags prot0 length0 va,
  k_ptable s !! me = Some p -> c_true (Z.land flags MAP_ANON) = true ->
  (forall j, (k <= j < k + n)%nat -> exists d, mmaps p !! j = Some d /\ valid d = 0) -> i32 va = va ->
  mmap_fill_all me (seqZ (Z.of_nat k) (Z.of_nat n)) i run flags prot0 length0 va s =
    Ret (Some (i32 (va + PGSIZE * Z.of_nat n))) (set_maps me (mapped flags prot0 length0 (mmaps p) k n (i + run - 1) va) s).
Proof.
  induction n as [|n IH]; intros k s me p i run flags prot0 length0 va Hp Ha Hrun Hva.
  - cbn. rewrite Z.mul_0_r, Z.add_0_r, Hva. unfold kret. f_equal. unfold set_maps, update, upd_k_ptable.
    rewrite (list_alter_id_at _ (k_ptable s) me p Hp); [by destruct s|by destruct p].
  - rewrite seqZ_cons by lia. cbn [mmap_fill_all]. destruct (Hrun k) as (d & Hd & Hv); [lia|].
    krun (mmap_fill_run s me p k i run flags prot0 length0 va d Hp Hd Hv Ha). cbv iota.
    replace (Z.succ (Z.of_nat k)) with (Z.of_nat (S k)) by lia. replace (Z.pred (Z.of_nat (S n))) with (Z.of_nat n) by lia.
    rewrite (IH (S k) _ me _ i run flags prot0 length0 (i32 (va + PGSIZE)) (lookup_set_maps _ _ _ _ Hp) Ha).
    + rewrite set_maps_set_maps, i32_add_l. cbn [mapped]. do 3 f_equal. unfold PGSIZE. lia.
    + intros j Hj. cbn. rewrite list_lookup_alter_ne by lia. apply Hrun. lia.
    + pose proof (i32_add_l (va + PGSIZE) 0) as E. by rewrite !Z.add_0_r in E.
Qed.

(** The requests that [mmap] refuses before it looks for descriptors. *)
Definition mmap_refused (p : proc) (addr length0 flags : Z) : bool :=
  negb (c_true (Z.land flags MAP_PRIVATE)) && negb (c_true (Z.land flags MAP_SHARED)) ||
  c_true (Z.land flags MAP_FIXED) &&
    ((VIRT_ADDR_END <=? u32 (addr + length0)) || (addr <? VIRT_ADDR_START) ||
     mmap_overlap (mmaps p) addr (mmap_pages length0 flags)).

Definition mmap_start (s : kernel) (addr flags : Z) : Z :=
  if c_true (Z.land flags MAP_FIXED) then addr else k_va_ptr s.

(** What a successful anonymous [mmap] leaves: the run [i] is mapped. *)
Record mmap_done (s s' : kernel) (me : nat) (p : proc) (length0 prot0 flags va pages i : Z) (ds : list mmap_desc) : Prop := {
  md_state : s' = (set_maps me ds s) <| k_va_ptr := if c_true (Z.land flags MAP_FIXED) then k_va_ptr s else i32 (va + PGSIZE * pages) |>;
  md_len : length ds = length (mmaps p);
  md_new : forall j, i <= Z.of_nat j < i + pages -> exists d, mmaps p !! j = Some d /\ valid d = 0 /\
    ds !! j = Some (mapped_desc flags prot0 length0 (i32 (va + PGSIZE * (Z.of_nat j - i)))
      ((Z.of_nat j =? i + pages - 1) && c_true (Z.land flags MAP_GROWSUP)) d);
  md_old : forall j, ~ i <= Z.of_nat j < i + pages -> ds !! j = mmaps p !! j
}.

(** The guards of [mmap], in one test. *)
Lemma mmap_guards s i c me p addr length0 prot0 flags :
  env s i c me p -> (length0 + PGSIZE - 1) / PGSIZE * PGSIZE < 2147483648 ->
  let pages := mmap_pages length0 flags in
  mmap addr length0 prot0 flags s =
    match (if mmap_refused p addr length0 flags then None else mmap_find (mmaps p) 0 0 pages) with
    | None => Ret (-1) s
    | Some j =>
        (o <- mmap_fill_all me (seqZ j pages) j pages flags prot0 length0 (mmap_start s addr flags) ;;
         match o with
         | None => kret RETURN_ERR
         | Some va_end =>
             (when negb (c_true (Z.land flags MAP_FIXED)) do kmod (fun s => s <| k_va_ptr := va_end |>)) ;;;
             d <- get_desc me (Z.to_nat j) ;;
             kret (virtualAddress d)
         end) s
    end.
Proof.
  intros He Hl pages. unfold mmap, mmap_refused, mmap_start. fold pages.
  destruct (Z.leb_spec 2147483648 ((length0 + PGSIZE - 1) / PGSIZE * PGSIZE)); [lia|].
  destruct (negb (c_true (Z.land flags MAP_PRIVATE)) && negb (c_true (Z.land flags MAP_SHARED))); [done|]. cbn [orb].
  krun (myproc_steady s i c (env_steady _ _ _ _ _ He)). rewrite (env_cur _ _ _ _ _ He).
  unfold deref, kret at 1, kbind at 1. cbn [obind]. krun (get_proc_run s me p (env_proc _ _ _ _ _ He)).
  unfold kget, kbind at 1. cbn [obind].
  destruct (c_true (Z.land flags MAP_FIXED)); cbn [andb].
  - destruct ((VIRT_ADDR_END <=? u32 (addr + length0)) || (addr <? VIRT_ADDR_START)); [done|]. cbn [orb].
    destruct (mmap_overlap (mmaps p) addr pages); [done|]. by destruct (mmap_find (mmaps p) 0 0 pages).
  - by destruct (mmap_find (mmaps p) 0 0 pages).
Qed.

Lemma mmap_anon_run s i c me p addr length0 prot0 flags :
  env s i c me p -> c_true (Z.land flags MAP_ANON) = true ->
  0 <= length0 -> (length0 + PGSIZE - 1) / PGSIZE * PGSIZE < 2147483648 ->
  let va := mmap_start s addr flags in
  let pages := mmap_pages length0 flags in
  i32 va = va ->
  match (if mmap_refused p addr length0 flags then None else mmap_find (mmaps p) 0 0 pages) with
  | None => mmap addr length0 prot0 flags s = Ret (-1) s
  | Some i => exists s' ds, mmap addr length0 prot0 flags s = Ret va s' /\ mmap_done s s' me p length0 prot0 flags va pages i ds
  end.
Proof.
  intros He Ha Hl0 Hl va pages Hva. rewrite (mmap_guards s i c me p addr length0 prot0 flags He Hl).
  fold pages va. destruct (mmap_refused p addr length0 flags); [done|].
  pose proof (mmap_find_first (mmaps p) pages) as Hfind. destruct (mmap_find (mmaps p) 0 0 pages) as [j|] eqn:Ej; [|done].
  destruct Hfind as (Hj & Hrun & _). pose proof (env_proc _ _ _ _ _ He) as Hp.
  assert (Hpos : 0 < pages).
  { destruct (decide (0 < pages)); [done|]. rewrite mmap_find_none in Ej by lia. done. }
  replace (seqZ j pages) with (seqZ (Z.of_nat (Z.to_nat j)) (Z.of_nat (Z.to_nat pages))) by (f_equal; lia).
  set (k := Z.to_nat j). set (n := Z.to_nat pages).
  krun (mmap_fill_all_run n k s me p j pages flags prot0 length0 va Hp Ha
    ltac:(intros x Hx; destruct (Hrun (Z.of_nat x)) as (d & Hd & Hv); [unfold k, n in Hx; lia|]; rewrite Nat2Z.id in Hd; eauto) Hva).
  cbv iota. set (ds := mapped flags prot0 length0 (mmaps p) k n (j + pages - 1) va).
  destruct (Hrun j) as (d & Hd & Hv); [lia|]. fold k in Hd.
  assert (Hdk : ds !! k = Some (mapped_desc flags prot0 length0 va ((Z.of_nat k =? j + pages - 1) && c_true (Z.land flags MAP_GROWSUP)) d)).
  { unfold ds. rewrite lookup_mapped, decide_True, decide_True, Hd by (unfold k, n; lia). done. }
  exists ((set_maps me ds s) <| k_va_ptr := if c_true (Z.land flags MAP_FIXED) then k_va_ptr s else i32 (va + PGSIZE * pages) |>), ds.
  split.
  - replace (Z.of_nat n) with pages by (unfold n; lia).
    assert (E : forall s', k_ptable s' = k_ptable (set_maps me ds s) ->
      (d0 <- get_desc me k ;; kret (virtualAddress d0)) s' = Ret va s').
    { intros s' Es. unfold kbind. erewrite (get_desc_run me k s'); [|rewrite Es; by apply lookup_set_maps|exact Hdk]. done. }
    destruct (c_true (Z.land flags MAP_FIXED)); cbn [negb].
    + unfold kret at 1, kbind at 1. cbn [obind]. rewrite E by done. by destruct s.
    + unfold kmod, kbind at 1. cbn [obind]. by rewrite E.
  - split; [done| | |].
    + apply length_mapped.
    + intros x Hx. destruct (Hrun (Z.of_nat x)) as (y & Hy & Hvy); [lia|]. rewrite Nat2Z.id in Hy. exists y.
      split; [done|]. split; [done|]. unfold ds. rewrite lookup_mapped, decide_True, Hy by (unfold k, n; lia). cbn. f_equal.
      replace (Z.of_nat k) with j by (unfold k; lia). f_equal. case_decide; [|done]. subst x.
      replace (Z.of_nat k) with j by (unfold k; lia). by rewrite Z.sub_diag, Z.mul_0_r, Z.add_0_r.
    + intros x Hx. unfold ds. by rewrite lookup_mapped, decide_False by (unfold k, n; lia).
Qed.

Lemma mmap_pages_pos length0 flags : 0 <= length0 -> 0 <= mmap_pages length0 flags.
Proof.
  intros H. unfold mmap_pages, PGSIZE. assert (0 <= (length0 + 4096 - 1) / 4096) by (apply Z.div_pos; lia).
  destruct (c_true (Z.land flags MAP_GROWSUP)); lia.
Qed.

(** C19: An anonymous [mmap].  Either the request is refused (neither private nor
    shared, or fixed and outside the region or on a mapped page), or it asks
    for no page, or no run of unused descriptors is long enough: then the call
    returns -1 and changes nothing.  Otherwise it takes the first such run, one
    descriptor per page at consecutive addresses from the fixed address or from
    [VA_PTR], the last one a guard page if the mapping grows, and returns the
    first address; every other descriptor and the rest of the kernel are
    unchanged, but that [VA_PTR] moves past a mapping placed by the kernel. *)
Theorem mmap_anon_spec (s : kernel) i c me p addr length0 prot0 flags :
  env s i c me p -> c_true (Z.land flags MAP_ANON) = true ->
  0 <= length0 -> (length0 + PGSIZE - 1) / PGSIZE * PGSIZE < 2147483648 ->
  let va := mmap_start s addr flags in
  let pages := mmap_pages length0 flags in
  i32 va = va ->
  (mmap_refused p addr length0 flags = true \/ pages = 0 \/ (forall j, 0 <= j -> ~ free_run (mmaps p) j pages)) /\
    mmap addr length0 prot0 flags s = Ret (-1) s \/
  mmap_refused p addr length0 flags = false /\
    exists j s' ds, 0 <= j /\ free_run (mmaps p) j pages /\ (forall j', 0 <= j' < j -> ~ free_run (mmaps p) j' pages) /\
      mmap addr length0 prot0 flags s = Ret va s' /\ mmap_done s s' me p length0 prot0 flags va pages j ds.
Proof.
  intros He Ha Hl0 Hl va pages Hva. pose proof (mmap_anon_run s i c me p addr length0 prot0 flags He Ha Hl0 Hl Hva) as H.
  destruct (mmap_refused p addr length0 flags); [left; split; [by left|done]|]. fold va pages in H.
  pose proof (mmap_find_first (mmaps p) pages) as Hf. destruct (mmap_find (mmaps p) 0 0 pages) as [j|].
  - right. split; [done|]. destruct Hf as (H1 & H2 & H3), H as (s' & ds & H4 & H5). by exists j, s', ds.
  - left. split; [|done]. right. destruct (decide (0 < pages)); [right; by apply Hf|left].
    pose proof (mmap_pages_pos length0 flags Hl0). unfold pages in *. lia.
Qed.

(** Descriptors in use name distinct pages of the region. *)
Record maps_ok (ds : list mmap_desc) : Prop := {
  mk_region : forall j d, ds !! j = Some d -> valid d <> 0 ->
    virtualAddress d mod PAGE_SIZE = 0 /\ VIRT_ADDR_START <= virtualAddress d /\ virtualAddress d + PAGE_SIZE <= VIRT_ADDR_END;
  mk_distinct : forall j k d e, ds !! j = Some d -> ds !! k = Some e -> valid d <> 0 -> valid e <> 0 ->
    virtualAddress d = virtualAddress e -> j = k
}.

Definition below (ds : list mmap_desc) (va : Z) : Prop :=
  forall j d, ds !! j = Some d -> valid d <> 0 -> virtualAddress d + PAGE_SIZE <= va.

(** The last page of the region is not mapped. *)
Definition last_unused (ds : list mmap_desc) : Prop :=
  forall j d, ds !! j = Some d -> valid d <> 0 -> virtualAddress d + PAGE_SIZE < VIRT_ADDR_END.

Lemma overlap_false ds addr pages d k :
  maps_ok ds -> last_unused ds -> mmap_overlap ds addr pages = false -> d ∈ ds -> valid d <> 0 ->
  0 <= k < pages -> VIRT_ADDR_START <= addr -> addr + PAGE_SIZE * pages <= VIRT_ADDR_END -> addr + PAGE_SIZE * k <> virtualAddress d.
Proof.
  intros Hok Hlast Ho Hd Hv Hk Ha1 Ha2 E. apply list_elem_of_lookup in Hd as Hd'. destruct Hd' as [j Hj].
  destruct (mk_region _ Hok j d Hj Hv) as (_ & H1 & _). pose proof (Hlast j d Hj Hv) as H2. unfold PAGE_SIZE, VIRT_ADDR_START, VIRT_ADDR_END in *.
  unfold mmap_overlap in Ho. apply not_true_iff_false in Ho. apply Ho. apply existsb_exists. exists k.
  split; [apply list_elem_of_In, elem_of_seqZ; lia|]. apply existsb_exists. exists d. split; [by apply list_elem_of_In|].
  rewrite (proj2 (c_true_true _) Hv). unfold covers, PAGE_SIZE. rewrite !i32_id by lia. lia.
Qed.

(** What the test of a fixed request leaves: without a guard page behind it, its
    pages end in the region. *)
Lemma fixed_in_region p addr length0 flags :
  c_true (Z.land flags MAP_FIXED) = true -> mmap_refused p addr length0 flags = false -> i32 addr = addr ->
  0 <= length0 -> (length0 + PGSIZE - 1) / PGSIZE * PGSIZE < 2147483648 -> addr mod PAGE_SIZE = 0 ->
  VIRT_ADDR_START <= addr /\ mmap_overlap (mmaps p) addr (mmap_pages length0 flags) = false /\
  (c_true (Z.land flags MAP_GROWSUP) = false -> addr + PAGE_SIZE * mmap_pages length0 flags <= VIRT_ADDR_END).
Proof.
  intros Hf Hr Ha Hl0 Hl Hal. unfold mmap_refused in Hr. rewrite Hf in Hr. cbn [andb] in Hr.
  apply orb_false_iff in Hr as [_ [[H1 H2]%orb_false_iff H3]%orb_false_iff]. split; [lia|]. split; [done|]. intros Hg.
  unfold mmap_pages. rewrite Hg. apply Z.leb_gt in H1. apply Z.ltb_ge in H2. pose proof (i32_range addr) as Hrng. rewrite Ha in Hrng.
  unfold VIRT_ADDR_START, VIRT_ADDR_END, PAGE_SIZE, PGSIZE in *. rewrite u32_id in H1 by (Z.div_mod_to_equations; lia). Z.div_mod_to_equations. lia.
Qed.

Lemma maps_ok_extend ds ds' j va pages :
  maps_ok ds -> va mod PAGE_SIZE = 0 -> VIRT_ADDR_START <= va -> va + PAGE_SIZE * pages <= VIRT_ADDR_END ->
  (forall k d, ds' !! k = Some d -> valid d <> 0 ->
    ds !! k = Some d \/ exists n, 0 <= n < pages /\ Z.of_nat k = j + n /\ virtualAddress d = va + PAGE_SIZE * n) ->
  (forall k d n, ds !! k = Some d -> valid d <> 0 -> 0 <= n < pages -> va + PAGE_SIZE * n <> virtualAddress d) ->
  maps_ok ds' /\ (below ds va -> 0 <= pages -> below ds' (va + PAGE_SIZE * pages)).
Proof.
  intros [H1 H2] Hal Hlo Hhi Hds Hno. split; [split|]; unfold below, PAGE_SIZE, VIRT_ADDR_START, VIRT_ADDR_END in *.
  - intros k d Hk Hv. destruct (Hds k d Hk Hv) as [H|(n & Hn & _ & E)]; [by apply (H1 k)|].
    split; [|lia]. rewrite E, Z.mul_comm, Z_mod_plus_full. done.
  - intros k k' d e Hk Hk' Hv Hv' E.
    destruct (Hds k d Hk Hv) as [H|(n & Hn & Ek & Ed)], (Hds k' e Hk' Hv') as [H'|(n' & Hn' & Ek' & Ee)].
    + by apply (H2 k k' d e).
    + destruct (Hno k d n' H Hv Hn'). lia.
    + destruct (Hno k' e n H' Hv' Hn). lia.
    + lia.
  - intros Hb Hp k d Hk Hv. destruct (Hds k d Hk Hv) as [H|(n & Hn & _ & E)]; [pose proof (Hb k d H Hv)|]; lia.
Qed.

Lemma mmap_done_desc s s' me p length0 prot0 flags va pages j ds k d :
  mmap_done s s' me p length0 prot0 flags va pages j ds ->
  VIRT_ADDR_START <= va -> va + PAGE_SIZE * pages <= VIRT_ADDR_END -> ds !! k = Some d -> valid d <> 0 ->
  mmaps p !! k = Some d \/ exists n, 0 <= n < pages /\ Z.of_nat k = j + n /\ virtualAddress d = va + PAGE_SIZE * n.
Proof.
  intros [_ _ Hnew Hold] Hlo Hhi Hk Hv. destruct (decide (j <= Z.of_nat k < j + pages)) as [Hin|Hout].
  - right. destruct (Hnew k Hin) as (e & _ & _ & Ee). rewrite Hk in Ee. injection Ee as ->.
    exists (Z.of_nat k - j). split; [lia|]. split; [lia|]. cbn. unfold PGSIZE, PAGE_SIZE, VIRT_ADDR_START, VIRT_ADDR_END in *.
    apply i32_id. lia.
  - left. by rewrite <- (Hold k Hout).
Qed.

(** C11: Mappings stay in the region and do not overlap.  From descriptors that
    name distinct aligned pages of the region, not its last page, an anonymous
    [mmap] returns and leaves descriptors that name distinct aligned pages of
    the region.  A request at a fixed address may name any aligned address,
    inside the region or not, mapped or not: the call refuses what does not
    fit.  Only a fixed mapping that grows is assumed to end in the region with
    its guard page, which the call does not test.  For an address of the
    kernel's choice, [VA_PTR] is assumed aligned, in the region with room for
    the mapping, and above every mapping, which it then still is. *)
Theorem mmap_disjoint (s : kernel) i c me p addr length0 prot0 flags :
  env s i c me p -> c_true (Z.land flags MAP_ANON) = true -> i32 addr = addr ->
  0 <= length0 -> (length0 + PGSIZE - 1) / PGSIZE * PGSIZE < 2147483648 ->
  let va := mmap_start s addr flags in
  let pages := mmap_pages length0 flags in
  maps_ok (mmaps p) -> last_unused (mmaps p) -> va mod PAGE_SIZE = 0 ->
  (if c_true (Z.land flags MAP_FIXED) then c_true (Z.land flags MAP_GROWSUP) = true -> va + PAGE_SIZE * pages <= VIRT_ADDR_END
   else VIRT_ADDR_START <= va /\ va + PAGE_SIZE * pages < VIRT_ADDR_END /\ below (mmaps p) va) ->
  exists r s' p', mmap addr length0 prot0 flags s = Ret r s' /\ k_ptable s' !! me = Some p' /\ maps_ok (mmaps p') /\
    (c_true (Z.land flags MAP_FIXED) = false -> below (mmaps p') (k_va_ptr s')).
Proof.
  intros He Ha Hai Hl0 Hl va pages Hok Hlast Hal Hcase. pose proof (mmap_pages_pos length0 flags Hl0) as Hpos. fold pages in Hpos.
  assert (Hva : i32 va = va).
  { unfold va, mmap_start in *. destruct (c_true (Z.land flags MAP_FIXED)); [done|]. apply i32_id. unfold VIRT_ADDR_START, VIRT_ADDR_END, PAGE_SIZE in *. lia. }
  pose proof (env_proc _ _ _ _ _ He) as Hp. pose proof (mmap_anon_run s i c me p addr length0 prot0 flags He Ha Hl0 Hl Hva) as H.
  destruct (if mmap_refused p addr length0 flags then None else _) as [j|] eqn:E.
  2:{ exists (-1), s, p. split; [done|]. split; [done|]. split; [done|]. intros Ef. unfold va, mmap_start in Hcase. rewrite Ef in Hcase. apply Hcase. }
  destruct H as (s' & ds & Hr & Hdone). fold va pages in Hr, Hdone. pose proof (md_state _ _ _ _ _ _ _ _ _ _ _ Hdone) as Hs.
  assert (Hfree : mmap_refused p addr length0 flags = false) by (by destruct (mmap_refused p addr length0 flags)).
  assert (Hreg : VIRT_ADDR_START <= va /\ va + PAGE_SIZE * pages <= VIRT_ADDR_END /\
    forall k d n, mmaps p !! k = Some d -> valid d <> 0 -> 0 <= n < pages -> va + PAGE_SIZE * n <> virtualAddress d).
  { unfold va, mmap_start in *. destruct (c_true (Z.land flags MAP_FIXED)) eqn:Ef.
    - destruct (fixed_in_region p addr length0 flags Ef Hfree Hai Hl0 Hl Hal) as (R1 & R2 & R3). fold pages in R2, R3.
      assert (R4 : addr + PAGE_SIZE * pages <= VIRT_ADDR_END) by (destruct (c_true (Z.land flags MAP_GROWSUP)); auto).
      split; [done|]. split; [done|]. intros k d n Hk Hv Hn. apply (overlap_false (mmaps p) addr pages); try done. by eapply list_elem_of_lookup_2.
    - destruct Hcase as (C1 & C2 & C3). split; [done|]. split; [lia|]. intros k d n Hk Hv Hn. pose proof (C3 k d Hk Hv). unfold PAGE_SIZE in *. lia. }
  destruct Hreg as (Hlo & Hhi & Hno). exists va, s', (p <| mmaps := ds |>). split; [done|]. split; [rewrite Hs; exact (lookup_set_maps me ds s p Hp)|].
  destruct (maps_ok_extend (mmaps p) ds j va pages Hok Hal Hlo Hhi) as [Hok' Hb']; [intros k d; by apply (mmap_done_desc _ _ _ _ _ _ _ _ _ _ _ _ _ Hdone)|done|].
  split; [done|]. intros Ef. rewrite Ef in Hcase. destruct Hcase as (C1 & C2 & C3). rewrite Hs. cbn. rewrite Ef.
  unfold PGSIZE, PAGE_SIZE, VIRT_ADDR_START, VIRT_ADDR_END in *. rewrite i32_id by lia. by apply Hb'.
Qed.

(** ** Concrete calls *)

Lemma run_maps j d : mmaps run_proc !! j = Some d -> valid d = 0.
Proof. cbn [mmaps run_proc]. intros H. by apply lookup_replicate in H as [-> _]. Qed.

Lemma mmap_anon_spec_witness :
  exists j s' ds, 0 <= j /\ free_run (mmaps run_proc) j 3 /\
    mmap 0 10000 3 5 running = Ret VIRT_ADDR_START s' /\
    mmap_done running s' 0 run_proc 10000 3 5 VIRT_ADDR_START 3 j ds.
Proof.
  destruct (mmap_anon_spec running 0 run_cpu 0 run_proc 0 10000 3 5)
    as [[[H|[H|H]] _]|(_ & j & s' & ds & H1 & H2 & _ & H3 & H4)].
  - apply running_env.
  - reflexivity.
  - lia.
  - vm_compute. reflexivity.
  - reflexivity.
  - vm_compute in H. discriminate.
  - vm_compute in H. discriminate.
  - destruct (H 0); [lia|]. intros k Hk. change (mmap_pages 10000 5) with 3 in Hk.
    exists zero_desc. split; [|reflexivity]. apply lookup_replicate_2. unfold PAGE_LIMIT. lia.
  - exists j, s', ds. split; [exact H1|]. split; [exact H2|]. split; [exact H3|exact H4].
Defined.

(** Two pages at the end of the region. *)
Lemma mmap_disjoint_witness :
  exists r s' p', mmap 0x7FFFE000 8000 3 13 running = Ret r s' /\
    k_ptable s' !! 0%nat = Some p' /\ maps_ok (mmaps p').
Proof.
  destruct (mmap_disjoint running 0 run_cpu 0 run_proc 0x7FFFE000 8000 3 13)
    as (r & s' & p' & H1 & H2 & H3 & _).
  - apply running_env.
  - reflexivity.
  - reflexivity.
  - lia.
  - vm_compute. reflexivity.
  - split; intros; exfalso; by eauto using run_maps.
  - intros j d Hj Hv. destruct Hv. exact (run_maps j d Hj).
  - reflexivity.
  - intros H. discriminate H.
  - exists r, s', p'. split; [exact H1|]. split; [exact H2|exact H3].
Defined.

(** The results of a call, and the pages in use after it. *)
Definition mmap_view (m : KM Z) (s : kernel) : option (Z * list Z) :=
  match m s with
  | Ret r s' => (fun p => (r, virtualAddress <$> List.filter (fun d => c_true (valid d)) (mmaps p))) <$> k_ptable s' !! 0%nat
  | _ => None
  end.

(** [VA_PTR] knows nothing of the mappings at fixed addresses: a mapping the
    kernel places can fall on one, and both descriptors name the same page. *)
Example mmap_collides :
  mmap_view (mmap 0x60001000 4096 3 13 ;;;
             mmap 0 8192 3 5) running =
    Some (0x60000000, [0x60001000; 0x60000000; 0x60001000]).
Proof. vm_compute. reflexivity. Qed.

(** A fixed address in the middle of a page is accepted. *)
Example mmap_misaligned :
  mmap_view (mmap 0x60000800 4096 3 13) running = Some (0x60000800, [0x60000800]).
Proof. vm_compute. reflexivity. Qed.

(** The test of a fixed request leaves out the guard page: it gets an address
    behind the end of the region, which is negative as an [int]. *)
Example mmap_guard_outside :
  mmap_view (mmap 0x7FFFF000 4000 3 29) running = Some (0x7FFFF000, [0x7FFFF000; -2147483648]).
Proof. vm_compute. reflexivity. Qed.

(** The end of the last page overflows in the test for overlaps: the page can be
    mapped again. *)
Example mmap_last_page_twice :
  mmap_view (mmap 0x7FFFF000 4000 3 13 ;;;
             mmap 0x7FFFF000 4000 3 13) running = Some (0x7FFFF000, [0x7FFFF000; 0x7FFFF000]).
Proof. vm_compute. reflexivity. Qed.
