(* ===== verification/SysFile.v ===== *)
(** * File system calls

    The rest of [sysfile.c]: a system call returns the value the user sees. *)

From stdpp Require Import base gmap strings list fin_maps.
From Stdlib Require Import ZArith Lia.
From S2P Require Import Prelude Mem Types Spinlock Kalloc Vm Proc Access Sleeplock Disk Bio Log Inode Console Fs Pipe File ProcLife Args.

Section SysFileDefs.
Context `{L : Layout} `{Pt : Patience} `{D : DiskDriver}.

Definition sys_dup : KM Z :=
  o <- argfd 0 ;;
  match o with
  | None => kret (-1)
  | Some (_, f) =>
      fd <- fdalloc f ;;
      if fd <? 0 then kret (-1) else
      filedup (Some f) ;;;
      kret fd
  end.

(** The file, the address and the count of [read] and [write]. *)
Definition arg_io : KM (option (nat * Z * Z)) :=
  o <- argfd 0 ;;
  match o with
  | None => kret None
  | Some (_, f) =>
      o <- argint 2 ;;
      match o with
      | None => kret None
      | Some n =>
          o <- argptr 1 n ;;
          match o with
          | None => kret None
          | Some p => kret (Some (f, p, n))
          end
      end
  end.

Definition sys_read : KM Z :=
  o <- arg_io ;;
  match o with
  | None => kret (-1)
  | Some (f, p, n) => fileread f p n
  end.

Definition sys_write : KM Z :=
  o <- arg_io ;;
  match o with
  | None => kret (-1)
  | Some (f, p, n) => filewrite f p n
  end.

Definition sys_close : KM Z :=
  o <- argfd 0 ;;
  match o with
  | None => kret (-1)
  | Some (fd, f) =>
      mp <- myproc ;;
      me <- deref mp ;;
      set_proc me (fun p => p <| ofile ::= insert (Z.to_nat fd) None |>) ;;;
      fileclose f ;;;
      kret 0
  end.

Definition sys_fstat : KM Z :=
  o <- argfd 0 ;;
  match o with
  | None => kret (-1)
  | Some (_, f) =>
      o <- argptr 1 20 ;;
      match o with
      | None => kret (-1)
      | Some st => filestat f st
      end
  end.

(** ** Links *)

(** The label [bad] of [sys_link]. *)
Definition link_bad (ip : nat) : KM Z :=
  ilock (Some ip) ;;;
  set_inode ip (fun x => x <| i_nlink ::= fun n => i16 (n - 1) |>) ;;;
  iupdate ip ;;;
  iunlockput ip ;;;
  end_op ;;;
  kret (-1).

(** [sys_link] behind its arguments. *)
Definition link (old new : list Z) : KM Z :=
  begin_op ;;;
  o <- namei old ;;
  match o with
  | None => end_op ;;; kret (-1)
  | Some ip =>
      ilock (Some ip) ;;;
      x <- get_inode ip ;;
      if i_type x =? T_DIR then iunlockput ip ;;; end_op ;;; kret (-1) else
      set_inode ip (fun x => x <| i_nlink ::= fun n => i16 (n + 1) |>) ;;;
      iupdate ip ;;;
      iunlock (Some ip) ;;;
      o <- nameiparent new ;;
      match o with
      | (None, _) => link_bad ip
      | (Some dp, name) =>
          ilock (Some dp) ;;;
          y <- get_inode dp ;;
          x <- get_inode ip ;;
          r <- (if negb (i_dev y =? i_dev x) then kret (-1) else dirlink dp name (i_inum x)) ;;
          if r <? 0 then iunlockput dp ;;; link_bad ip else
          iunlockput dp ;;;
          iput ip ;;;
          end_op ;;;
          kret 0
      end
  end.

Definition sys_link : KM Z :=
  o <- argstr 0 ;;
  match o with
  | None => kret (-1)
  | Some old =>
      o <- argstr 1 ;;
      match o with
      | None => kret (-1)
      | Some new => link old new
      end
  end.

Definition isdirempty (dp : nat) : KM bool :=
  x <- get_inode dp ;;
  r <- kfor (dir_offsets (2 * DIRENT_SIZE) (i_size x)) (fun off =>
         r <- readi dp Local off DIRENT_SIZE ;;
         if negb (fst r =? DIRENT_SIZE) then kpanic "isdirempty: readi" else
         kret (if negb (de_inum (decode_dirent (snd r)) =? 0) then Some tt else None)) ;;
  kret (match r with Some _ => false | None => true end).

(** The label [bad] of [sys_unlink]. *)
Definition unlink_bad (dp : nat) : KM Z :=
  iunlockput dp ;;;
  end_op ;;;
  kret (-1).

(** [sys_unlink] behind its argument. *)
Definition unlink (path : list Z) : KM Z :=
  begin_op ;;;
  o <- nameiparent path ;;
  match o with
  | (None, _) => end_op ;;; kret (-1)
  | (Some dp, name) =>
      ilock (Some dp) ;;;
      if (namecmp name [46] =? 0) || (namecmp name [46; 46] =? 0) then unlink_bad dp else
      o <- dirlookup dp name ;;
      match o with
      | None => unlink_bad dp
      | Some (ip, off) =>
          ilock (Some ip) ;;;
          x <- get_inode ip ;;
          if i_nlink x <? 1 then kpanic "unlink: nlink < 1" else
          full <- (if i_type x =? T_DIR then (e <- isdirempty ip ;; kret (negb e)) else kret false) ;;
          if (full : bool) then iunlockput ip ;;; unlink_bad dp else
          n <- writei dp (Bytes (replicate (Z.to_nat DIRENT_SIZE) 0)) off DIRENT_SIZE ;;
          if negb (n =? DIRENT_SIZE) then kpanic "unlink: writei" else
          x <- get_inode ip ;;
          (when i_type x =? T_DIR do
             (set_inode dp (fun x => x <| i_nlink ::= fun n => i16 (n - 1) |>) ;;;
              iupdate dp)) ;;;
          iunlockput dp ;;;
          set_inode ip (fun x => x <| i_nlink ::= fun n => i16 (n - 1) |>) ;;;
          iupdate ip ;;;
          iunlockput ip ;;;
          end_op ;;;
          kret 0
      end
  end.

Definition sys_unlink : KM Z :=
  o <- argstr 0 ;;
  match o with
  | None => kret (-1)
  | Some path => unlink path
  end.

(** ** Creating and opening *)
Definition create (path : list Z) (type major minor : Z) : KM (option nat) :=
  o <- nameiparent path ;;
  match o with
  | (None, _) => kret None
  | (Some dp, name) =>
      ilock (Some dp) ;;;
      o <- dirlookup dp name ;;
      match o with
      | Some (ip, _) =>
          iunlockput dp ;;;
          ilock (Some ip) ;;;
          x <- get_inode ip ;;
          if (type =? T_FILE) && (i_type x =? T_FILE) then kret (Some ip) else
          iunlockput ip ;;;
          kret None
      | None =>
          y <- get_inode dp ;;
          ip <- ialloc (i_dev y) type ;;
          ilock (Some ip) ;;;
          set_inode ip (fun x => x <| i_major := i16 major |>) ;;;
          set_inode ip (fun x => x <| i_minor := i16 minor |>) ;;;
          set_inode ip (fun x => x <| i_nlink := 1 |>) ;;;
          iupdate ip ;;;
          (when type =? T_DIR do
             (set_inode dp (fun x => x <| i_nlink ::= fun n => i16 (n + 1) |>) ;;;
              iupdate dp ;;;
              x <- get_inode ip ;;
              y <- get_inode dp ;;
              r <- dirlink ip [46] (i_inum x) ;;
              r <- (if r <? 0 then kret r else dirlink ip [46; 46] (i_inum y)) ;;
              if r <? 0 then kpanic "create dots" else kret tt)) ;;;
          x <- get_inode ip ;;
          r <- dirlink dp name (i_inum x) ;;
          if r <? 0 then kpanic "create: dirlink" else
          iunlockput dp ;;;
          kret (Some ip)
      end
  end.

(** The inode [sys_open] opens, locked, or [None] when the call fails. *)
Definition open_inode (path : list Z) (omode : Z) : KM (option nat) :=
  if c_true (Z.land omode O_CREATE) then
    o <- create path T_FILE 0 0 ;;
    match o with
    | None => end_op ;;; kret None
    | Some ip => kret (Some ip)
    end
  else
    o <- namei path ;;
    match o with
    | None => end_op ;;; kret None
    | Some ip =>
        ilock (Some ip) ;;;
        x <- get_inode ip ;;
        if (i_type x =? T_DIR) && negb (omode =? O_RDONLY) then
          iunlockput ip ;;; end_op ;;; kret None
        else kret (Some ip)
    end.

(** [sys_open] behind its arguments. *)
Definition open (path : list Z) (omode : Z) : KM Z :=
  begin_op ;;;
  o <- open_inode path omode ;;
  match o with
  | None => kret (-1)
  | Some ip =>
      o <- filealloc ;;
      match o with
      | None => iunlockput ip ;;; end_op ;;; kret (-1)
      | Some f =>
          fd <- fdalloc f ;;
          if fd <? 0 then fileclose f ;;; iunlockput ip ;;; end_op ;;; kret (-1) else
          iunlock (Some ip) ;;;
          end_op ;;;
          set_file f (fun x => x <| f_type := FD_INODE |> <| f_ip := Some ip |> <| f_off := 0 |>
            <| readable := c_bool (negb (c_true (Z.land omode O_WRONLY))) |>
            <| writable := c_bool (c_true (Z.land omode O_WRONLY) || c_true (Z.land omode O_RDWR)) |>) ;;;
          kret fd
      end
  end.

Definition sys_open : KM Z :=
  o <- argstr 0 ;;
  match o with
  | None => kret (-1)
  | Some path =>
      o <- argint 1 ;;
      match o with
      | None => kret (-1)
      | Some omode => open path omode
      end
  end.

(** The end of [sys_mkdir] and [sys_mknod]. *)
Definition made (o : option nat) : KM Z :=
  match o with
  | None => end_op ;;; kret (-1)
  | Some ip => iunlockput ip ;;; end_op ;;; kret 0
  end.

Definition sys_mkdir : KM Z :=
  begin_op ;;;
  o <- argstr 0 ;;
  r <- (match o with None => kret None | Some path => create path T_DIR 0 0 end) ;;
  made r.

Definition sys_mknod : KM Z :=
  begin_op ;;;
  o <- argstr 0 ;;
  r <- (match o with
        | None => kret None
        | Some path =>
            o <- argint 1 ;;
            match o with
            | None => kret None
            | Some major =>
                o <- argint 2 ;;
                match o with
                | None => kret None
                | Some minor => create path T_DEV major minor
                end
            end
        end) ;;
  made r.

Definition sys_chdir : KM Z :=
  mp <- myproc ;;
  begin_op ;;;
  o <- argstr 0 ;;
  r <- (match o with None => kret None | Some path => namei path end) ;;
  match r with
  | None => end_op ;;; kret (-1)
  | Some ip =>
      ilock (Some ip) ;;;
      x <- get_inode ip ;;
      if negb (i_type x =? T_DIR) then iunlockput ip ;;; end_op ;;; kret (-1) else
      iunlock (Some ip) ;;;
      me <- deref mp ;;
      p <- get_proc me ;;
      c <- deref (cwd p) ;;
      iput c ;;;
      end_op ;;;
      set_proc me (fun p => p <| cwd := Some ip |>) ;;;
      kret 0
  end.

Definition sys_pipe : KM Z :=
  o <- argptr 0 8 ;;
  match o with
  | None => kret (-1)
  | Some fd =>
      r <- pipealloc ;;
      match r with
      | None => kret (-1)
      | Some (rf, wf) =>
          fd0 <- fdalloc rf ;;
          fd1 <- (if fd0 <? 0 then kret (-1) else fdalloc wf) ;;
          if (fd0 <? 0) || (fd1 <? 0) then
            (when 0 <=? fd0 do
               (mp <- myproc ;;
                me <- deref mp ;;
                set_proc me (fun p => p <| ofile ::= insert (Z.to_nat fd0) None |>))) ;;;
            fileclose rf ;;;
            fileclose wf ;;;
            kret (-1)
          else
            store32 fd fd0 ;;;
            store32 (fd + 4) fd1 ;;;
            kret 0
      end
  end.
End SysFileDefs.
