(* ===== verification/Exec.v ===== *)
(** * Loading a program

    [exec.c], [loaduvm] of [vm.c], [sys_exec] of [sysfile.c] and the headers of
    [elf.h].  The path and the arguments are given by their characters. *)

From stdpp Require Import base gmap strings list fin_maps.
From Stdlib Require Import ZArith Lia.
From S2P Require Import Prelude Mem Types Spinlock Kalloc Vm Proc Access Sleeplock Disk Bio Log Inode Console Fs Pipe File ProcLife Args.

(** ** [elf.h] *)
Definition ELF_MAGIC : Z := 0x464C457F.
Definition ELF_PROG_LOAD : Z := 1.

Record elfhdr := mk_elfhdr { e_magic : Z; e_entry : Z; e_phoff : Z; e_phnum : Z }.
Definition ELFHDR_SIZE : Z := 52.
Definition decode_elfhdr (d : list Z) : elfhdr :=
  mk_elfhdr (get32 d 0) (get32 d 24) (get32 d 28) (get16 d 44).

Record proghdr := mk_proghdr { ph_type : Z; ph_off : Z; ph_vaddr : Z; ph_filesz : Z; ph_memsz : Z }.
Definition PROGHDR_SIZE : Z := 32.
Definition decode_proghdr (d : list Z) : proghdr :=
  mk_proghdr (get32 d 0) (get32 d 4) (get32 d 8) (get32 d 16) (get32 d 20).

Section ExecDefs.
Context `{L : Layout} `{Pt : Patience} `{D : DiskDriver}.

(** ** [loaduvm] *)
Fixpoint loaduvm_loop (fuel : nat) (pgdir addr : Z) (ip : nat) (offset size i : Z) : KM Z :=
  match fuel with
  | O => NoFuel
  | S k =>
      if negb (i <? size) then kret 0 else
      pte <- walkpgdir pgdir (u32 (addr + i)) false ;;
      if pte =? 0 then kpanic "loaduvm: address should exist" else
      e <- mem_read pte ;;
      let pa := PTE_ADDR e in
      let n := if size - i <? PGSIZE then size - i else PGSIZE in
      r <- readi ip (At (P2V pa)) (u32 (offset + i)) n ;;
      if negb (fst r =? n) then kret (-1) else
      loaduvm_loop k pgdir addr ip offset size (i + PGSIZE)
  end.

Definition loaduvm (pgdir addr : Z) (ip : nat) (offset size : Z) : KM Z :=
  if negb (addr mod PGSIZE =? 0) then kpanic "loaduvm: addr must be page aligned" else
  loaduvm_loop (Z.to_nat (size / PGSIZE + 2)) pgdir addr ip offset size 0.

(** [copyout] of [vm.c], for a source that is given by its bytes: the strings
    of the arguments and the words of [ustack]. *)
Fixpoint copyout_bytes_loop (fuel : nat) (pgdir va : Z) (l : list Z) : KM Z :=
  match fuel with
  | O => NoFuel
  | S k =>
      match l with
      | [] => kret 0
      | _ =>
          let va0 := PGROUNDDOWN va in
          pa0 <- uva2ka pgdir va0 ;;
          if pa0 =? 0 then kret (-1) else
          let n := Z.min (PGSIZE - (va - va0)) (Z.of_nat (length l)) in
          kmod (fun s => s <| k_mem ::= fun m =>
            fold_left (fun m kb => st8 m (pa0 + (va - va0) + fst kb) (snd kb))
              (combine (seqZ 0 n) l) m |>) ;;;
          copyout_bytes_loop k pgdir (u32 (va0 + PGSIZE)) (drop (Z.to_nat n) l)
      end
  end.
Definition copyout_bytes (pgdir va : Z) (l : list Z) : KM Z :=
  copyout_bytes_loop (S (S (length l))) pgdir va l.

(** ** The parts of [exec] *)

(** The label [bad]. *)
Definition exec_bad (pgdir : Z) (oip : option nat) : KM Z :=
  (when negb (pgdir =? 0) do freevm pgdir) ;;;
  (match oip with
   | Some ip => iunlockput ip ;;; end_op
   | None => kret tt
   end) ;;;
  kret (-1).

(** The loop over the [phnum] program headers from offset [off]: the size of the
    image, or [None] for [goto bad]. *)
Fixpoint exec_load (phnum : nat) (ip : nat) (pgdir off sz0 : Z) : KM (option Z) :=
  match phnum with
  | O => kret (Some sz0)
  | S k =>
      r <- readi ip Local (u32 off) PROGHDR_SIZE ;;
      if negb (fst r =? PROGHDR_SIZE) then kret None else
      let ph := decode_proghdr (snd r) in
      if negb (ph_type ph =? ELF_PROG_LOAD) then exec_load k ip pgdir (off + PROGHDR_SIZE) sz0 else
      if ph_memsz ph <? ph_filesz ph then kret None else
      if u32 (ph_vaddr ph + ph_memsz ph) <? ph_vaddr ph then kret None else
      sz1 <- allocuvm pgdir sz0 (u32 (ph_vaddr ph + ph_memsz ph)) ;;
      if sz1 =? 0 then kret None else
      if negb (ph_vaddr ph mod PGSIZE =? 0) then kret None else
      r <- loaduvm pgdir (ph_vaddr ph) ip (ph_off ph) (ph_filesz ph) ;;
      if r <? 0 then kret None else
      exec_load k ip pgdir (off + PROGHDR_SIZE) sz1
  end.

(** The loop that pushes the argument strings: the stack pointer and the
    addresses of the strings. *)
Fixpoint exec_args (pgdir sp : Z) (argc : Z) (argv : list (list Z)) : KM (option (Z * list Z)) :=
  match argv with
  | [] => kret (Some (sp, []))
  | a :: argv' =>
      if MAXARG <=? argc then kret None else
      let sp := Z.land (u32 (sp - (Z.of_nat (length a) + 1))) (Z.lnot 3) in
      r <- copyout_bytes pgdir sp (a ++ [0]) ;;
      if r <? 0 then kret None else
      o <- exec_args pgdir sp (argc + 1) argv' ;;
      kret (prod_map id (cons sp) <$> o)
  end.

(** The words of [ustack] for the strings at [ptrs] below [sp]. *)
Definition ustack (sp : Z) (ptrs : list Z) : list Z :=
  let argc := Z.of_nat (length ptrs) in
  [0xffffffff; argc; u32 (sp - (argc + 1) * 4)] ++ ptrs ++ [0].
Definition word_bytes (v : Z) : list Z := [u8 v; u8 (v / 256); u8 (v / 65536); u8 (v / 16777216)].

(** The last element of the path, [for(last=s=path; *s; s++)]. *)
Fixpoint last_elem (path last : list Z) : list Z :=
  match path with
  | [] => last
  | c :: r => last_elem r (if c =? 47 then r else last)
  end.

(** From the user stack to the new image of process [me]. *)
Definition exec_commit (me : nat) (path : list Z) (argv : list (list Z)) (entry pgdir0 size : Z) : KM Z :=
  let size := PGROUNDUP size in
  size <- allocuvm pgdir0 size (u32 (size + 2 * PGSIZE)) ;;
  if size =? 0 then exec_bad pgdir0 None else
  clearpteu pgdir0 (u32 (size - 2 * PGSIZE)) ;;;
  o <- exec_args pgdir0 size 0 argv ;;
  match o with
  | None => exec_bad pgdir0 None
  | Some (sp, ptrs) =>
      let words := ustack sp ptrs in
      let sp := u32 (sp - Z.of_nat (length words) * 4) in
      r <- copyout_bytes pgdir0 sp (words ≫= word_bytes) ;;
      if r <? 0 then exec_bad pgdir0 None else
      set_proc me (fun p => p <| pname := take 15 (last_elem path path) |>) ;;;
      cur <- get_proc me ;;
      let oldpgdir := pgdir cur in
      set_proc me (fun p => p <| pgdir := pgdir0 |>) ;;;
      set_proc me (fun p => p <| sz := size |>) ;;;
      mem_write (tf cur + TF_eip) entry ;;;
      mem_write (tf cur + TF_esp) sp ;;;
      switchuvm (Some me) ;;;
      freevm oldpgdir ;;;
      kret 0
  end.

Definition exec (path : list Z) (argv : list (list Z)) : KM Z :=
  mp <- myproc ;;
  begin_op ;;;
  o <- namei path ;;
  match o with
  | None => end_op ;;; cprintf "exec: fail" ;;; kret (-1)
  | Some ip =>
      ilock (Some ip) ;;;
      r <- readi ip Local 0 ELFHDR_SIZE ;;
      if negb (fst r =? ELFHDR_SIZE) then exec_bad 0 (Some ip) else
      let elf := decode_elfhdr (snd r) in
      if negb (e_magic elf =? ELF_MAGIC) then exec_bad 0 (Some ip) else
      pgdir0 <- setupkvm ;;
      if pgdir0 =? 0 then exec_bad 0 (Some ip) else
      o <- exec_load (Z.to_nat (e_phnum elf)) ip pgdir0 (i32 (e_phoff elf)) 0 ;;
      match o with
      | None => exec_bad pgdir0 (Some ip)
      | Some size =>
          iunlockput ip ;;;
          end_op ;;;
          me <- deref mp ;;
          exec_commit me path argv (e_entry elf) pgdir0 size
      end
  end.

(** The loop of [sys_exec] over the argument vector at [uargv]. *)
Fixpoint exec_argv (fuel : nat) (uargv i : Z) : KM (option (list (list Z))) :=
  match fuel with
  | O => kret None
  | S k =>
      o <- fetchint (u32 (uargv + 4 * i)) ;;
      match o with
      | None => kret None
      | Some uarg =>
          if uarg =? 0 then kret (Some []) else
          o <- fetchstr (u32 uarg) ;;
          match o with
          | None => kret None
          | Some a => r <- exec_argv k uargv (i + 1) ;; kret (cons a <$> r)
          end
      end
  end.

Definition sys_exec : KM Z :=
  o <- argstr 0 ;;
  match o with
  | None => kret (-1)
  | Some path =>
      o <- argint 1 ;;
      match o with
      | None => kret (-1)
      | Some uargv =>
          o <- exec_argv (Z.to_nat MAXARG) (u32 uargv) 0 ;;
          match o with
          | None => kret (-1)
          | Some argv => exec path argv
          end
      end
  end.
End ExecDefs.
