(* ===== verification/Syscall.v ===== *)
(** * System calls and traps

    [sysproc.c], the dispatch of [syscall.c] and [trap.c].  The interrupt handler
    of the disk driver is an argument: there are two drivers. *)

From stdpp Require Import base gmap strings list fin_maps.
From Stdlib Require Import ZArith Lia.
From S2P Require Import Prelude Mem Types Spinlock Kalloc Vm Proc Apic Access Sleeplock Disk Bio Log Inode Console Kbd Fs Pipe File ProcLife Args Mmap SysFile Exec.

(** ** [sysproc.c] *)
Definition sys_kill : KM Z :=
  o <- argint 0 ;;
  match o with
  | None => kret (-1)
  | Some n => kill n
  end.

Definition sys_getpid : KM Z := mine pid.

Definition sys_uptime : KM Z :=
  acquire Lticks ;;;
  t <- kget k_ticks ;;
  release Lticks ;;;
  kret (i32 t).

Section SysDefs.
Context `{L : Layout} `{Pt : Patience} `{D : DiskDriver}.

Definition sys_fork : KM Z := fork.
Definition sys_exit : KM Z := exit ;;; kret 0.
Definition sys_wait : KM Z := wait.

Definition sys_sbrk : KM Z :=
  o <- argint 0 ;;
  match o with
  | None => kret (-1)
  | Some n =>
      addr <- mine sz ;;
      r <- growproc n ;;
      if r <? 0 then kret (-1) else kret (i32 addr)
  end.

(** [while (ticks - ticks0 < n)]: the difference is unsigned, and so is the
    comparison. *)
Fixpoint sys_sleep_loop (fuel : nat) (ticks0 n : Z) : KM Z :=
  match fuel with
  | O => NoFuel
  | S k =>
      t <- kget k_ticks ;;
      if u32 (t - ticks0) <? u32 n then
        d <- mine killed ;;
        if c_true d then release Lticks ;;; kret (-1) else
        sleep (Some Cticks) (Some Lticks) ;;;
        sys_sleep_loop k ticks0 n
      else release Lticks ;;; kret 0
  end.

Definition sys_sleep : KM Z :=
  o <- argint 0 ;;
  match o with
  | None => kret (-1)
  | Some n =>
      acquire Lticks ;;;
      ticks0 <- kget k_ticks ;;
      sys_sleep_loop patience ticks0 n
  end.

(** ** The dispatch of [syscall.c] *)
Definition syscalls (num : Z) : option (KM Z) :=
  match num with
  | 1 => Some sys_fork
  | 2 => Some sys_exit
  | 3 => Some sys_wait
  | 4 => Some sys_pipe
  | 5 => Some sys_read
  | 6 => Some sys_kill
  | 7 => Some sys_exec
  | 8 => Some sys_fstat
  | 9 => Some sys_chdir
  | 10 => Some sys_dup
  | 11 => Some sys_getpid
  | 12 => Some sys_sbrk
  | 13 => Some sys_sleep
  | 14 => Some sys_uptime
  | 15 => Some sys_open
  | 16 => Some sys_write
  | 17 => Some sys_mknod
  | 18 => Some sys_unlink
  | 19 => Some sys_link
  | 20 => Some sys_mkdir
  | 21 => Some sys_close
  | 22 => Some sys_mmap
  | 23 => Some sys_munmap
  | _ => None
  end.

(** [curproc->tf->eax = v] *)
Definition set_eax (me : nat) (v : Z) : KM unit :=
  p <- get_proc me ;;
  mem_write (tf p + TF_eax) (u32 v).

Definition syscall : KM unit :=
  mp <- myproc ;;
  me <- deref mp ;;
  p <- get_proc me ;;
  num <- mem_read (tf p + TF_eax) ;;
  match syscalls (i32 num) with
  | Some f => r <- f ;; set_eax me r
  | None => cprintf "unknown sys call" ;;; set_eax me (-1)
  end.

(** ** [trap.c] *)
Definition T_PGFLT : Z := 14.
Definition T_SYSCALL : Z := 64.

(** [vectors] are the entry points of [vectors.S]. *)
Definition tvinit (vectors : Z -> Z) : KM unit :=
  keach (seqZ 0 256) (fun i =>
    kmod (fun s => s <| k_idt ::= insert i (SETGATE 0 (Z.shiftl SEG_KCODE 3) (vectors i) 0) |>)) ;;;
  kmod (fun s => s <| k_idt ::= insert T_SYSCALL
    (SETGATE 1 (Z.shiftl SEG_KCODE 3) (vectors T_SYSCALL) DPL_USER) |>) ;;;
  initlock Lticks.

(** The first valid descriptor that covers the address. *)
Fixpoint find_desc (ds : list mmap_desc) (j : nat) (a : Z) : option nat :=
  match ds with
  | [] => None
  | d :: ds' => if c_true (valid d) && covers d a then Some j else find_desc ds' (S j) a
  end.

(** The case [T_PGFLT]. *)
Definition page_fault : KM unit :=
  fault_addr <- kget (fun s => i32 (k_cr2 s)) ;;
  mp <- myproc ;;
  me <- deref mp ;;
  p <- get_proc me ;;
  match find_desc (mmaps p) 0 fault_addr with
  | None =>
      cprintf "Segmentation Fault" ;;;
      set_proc me (fun p => p <| killed := 1 |>)
  | Some j =>
      d <- get_desc me j ;;
      if c_true (guard_page d) then allocatePageGuard me j fault_addr
      else allocatePageNonGuard me j fault_addr
  end.

(** A killed process that was interrupted in user space exits. *)
Definition exit_if_killed (tf0 : Z) : KM unit :=
  mp <- myproc ;;
  match mp with
  | None => kret tt
  | Some me =>
      p <- get_proc me ;;
      cs <- mem_read (tf0 + TF_cs) ;;
      when c_true (killed p) && (Z.land cs 3 =? DPL_USER) do exit
  end.

Section TrapDefs.
Context (ideintr : KM unit).

Definition timer : KM unit :=
  c <- cpuid ;;
  (when c =? 0 do
    (acquire Lticks ;;;
     kmod (fun s => s <| k_ticks ::= fun t => u32 (t + 1) |>) ;;;
     wakeup (Some Cticks) ;;;
     release Lticks)) ;;;
  Lapic.lapiceoi.

(** The cases of the switch. *)
Definition trap_case (tf0 trapno : Z) : KM unit :=
  if trapno =? T_IRQ0 + IRQ_TIMER then timer
  else if trapno =? T_IRQ0 + IRQ_IDE then ideintr ;;; Lapic.lapiceoi
  else if trapno =? T_IRQ0 + IRQ_IDE + 1 then kret tt
  else if trapno =? T_IRQ0 + IRQ_KBD then kbdintr ;;; Lapic.lapiceoi
  else if trapno =? T_IRQ0 + IRQ_COM1 then uartintr ;;; Lapic.lapiceoi
  else if trapno =? T_PGFLT then page_fault
  else if (trapno =? T_IRQ0 + 7) || (trapno =? T_IRQ0 + IRQ_SPURIOUS) then
    cprintf "spurious interrupt" ;;; Lapic.lapiceoi
  else
    mp <- myproc ;;
    cs <- mem_read (tf0 + TF_cs) ;;
    match mp with
    | None => cprintf "unexpected trap" ;;; kpanic "trap"
    | Some me =>
        if Z.land cs 3 =? 0 then cprintf "unexpected trap" ;;; kpanic "trap" else
        cprintf "kill proc" ;;;
        set_proc me (fun p => p <| killed := 1 |>)
    end.

Definition trap (tf0 : Z) : KM unit :=
  trapno <- mem_read (tf0 + TF_trapno) ;;
  if trapno =? T_SYSCALL then
    mp <- myproc ;;
    me <- deref mp ;;
    p <- get_proc me ;;
    (when c_true (killed p) do exit) ;;;
    set_proc me (fun p => p <| tf := tf0 |>) ;;;
    syscall ;;;
    d <- mine killed ;;
    when c_true d do exit
  else
    trap_case tf0 trapno ;;;
    exit_if_killed tf0 ;;;
    mp <- myproc ;;
    (match mp with
     | None => kret tt
     | Some me =>
         p <- get_proc me ;;
         when bool_decide (state p = RUNNING) && (trapno =? T_IRQ0 + IRQ_TIMER) do yield
     end) ;;;
    exit_if_killed tf0.
End TrapDefs.
End SysDefs.
