(* ===== verification/Main.v ===== *)
(** * Starting the kernel

    [main.c]: the order of initialisation, the start of the other processors and
    the loop every processor ends in.  Symbols of the linker and of assembly
    code are arguments: the image of [entryother.S] in memory, the addresses of
    [mpenter] and [entrypgdir], the entry points [vectors], the image of the
    first process.  While the boot processor waits for another one, the other
    one runs: its work is the argument [others], run at each turn of the loop. *)

From stdpp Require Import base gmap strings list fin_maps.
From Stdlib Require Import ZArith Lia.
From S2P Require Import Prelude Mem Types Spinlock Kalloc Vm Proc Apic Access Sleeplock Disk Bio Log Inode Console Kbd Fs Pipe File ProcLife Args Mmap SysFile Exec Syscall.

(** [entrypgdir]: the boot page table, two 4 MB pages. *)
Definition PTE_PS : Z := 0x080.
Definition entrypgdir (i : Z) : Z :=
  if (i =? 0) || (i =? Z.shiftr KERNBASE PDXSHIFT) then Z.lor (Z.lor (Z.lor 0 PTE_P) PTE_W) PTE_PS else 0.

Section MainDefs.
Context `{L : Layout} `{Pt : Patience} `{P : Ports} `{LA : LocalApic} `{D : DiskDriver}.
Context (entryother_start entryother_size mpenter_addr entrypgdir_addr : Z) (vectors : Z -> Z) (init size : Z) (others : KM unit).

(** [lidt] makes the processor use the table [idt]. *)
Definition idtinit : KM unit := kret tt.

Definition mpmain : KM unit :=
  cpuid ;;;
  cpuid ;;;
  cprintf "cpu: starting" ;;;
  idtinit ;;;
  i <- mycpu ;;
  set_cpu i (fun c => c <| started := 1 |>) ;;;
  scheduler.

Definition mpenter : KM unit :=
  switchkvm ;;;
  seginit ;;;
  Lapic.lapicinit ;;;
  mpmain.

(** [while(c->started == 0);] *)
Fixpoint wait_started (fuel : nat) (i : nat) : KM unit :=
  match fuel with
  | O => NoFuel
  | S k =>
      c <- get_cpu i ;;
      if started c =? 0 then others ;;; wait_started k i else kret tt
  end.

(** The body of the loop of [startothers]. *)
Definition startother (i : nat) : KM unit :=
  me <- mycpu ;;
  if (i =? me)%nat then kret tt else
  let code := P2V 0x7000 in
  stack <- kalloc ;;
  mem_write (code - 4) (stack + KSTACKSIZE) ;;;
  mem_write (code - 8) mpenter_addr ;;;
  mem_write (code - 12) (V2P entrypgdir_addr) ;;;
  c <- get_cpu i ;;
  Lapic.lapicstartap (apicid c) (V2P code) ;;;
  wait_started patience i.

Definition startothers : KM unit :=
  k_memmove (P2V 0x7000) entryother_start entryother_size ;;;
  n <- kget k_ncpu ;;
  keach (seq 0 (Z.to_nat n)) startother.

(** The devices and tables, from [picinit] to [ideinit]. *)
Definition main_devices : KM unit :=
  picinit ;;;
  Ioapic.ioapicinit ;;;
  consoleinit ;;;
  Uart.uartinit ;;;
  pinit ;;;
  tvinit vectors ;;;
  binit ;;;
  fileinit ;;;
  Ide.ideinit_ide.

Definition main : KM unit :=
  kinit1 kend (P2V (4 * 1024 * 1024)) ;;;
  kvmalloc ;;;
  Mp.mpinit ;;;
  Lapic.lapicinit ;;;
  seginit ;;;
  main_devices ;;;
  startothers ;;;
  kinit2 (P2V (4 * 1024 * 1024)) (P2V PHYSTOP) ;;;
  userinit init size ;;;
  mpmain.
End MainDefs.
