(* ===== verification/MainSpec.v ===== *)
(** * The interrupts after the initialisation

    The devices that [main] initialises have their interrupts enabled at the I/O
    APIC, all others are masked, and [trap] has a handler for each enabled one. *)

From stdpp Require Import base gmap strings list fin_maps.
From Stdlib Require Import ZArith Lia.
From S2P Require Import Prelude Mem Types Spinlock Kalloc Vm Proc Apic Access Sleeplock Disk Bio Log Inode Console Kbd Fs Pipe File ProcLife Args Mmap SysFile Exec Syscall Main.
Import Ioapic.

(** ** The redirection table *)

(** Each interrupt has the given configuration word and destination. *)
Definition routed (maxintr : Z) (f : Z -> Z * Z) (s : kernel) : Prop :=
  forall irq, 0 <= irq <= maxintr ->
  hw_ioapic (k_hw s) !! (REG_TABLE + 2 * irq) = Some (fst (f irq)) /\ hw_ioapic (k_hw s) !! (REG_TABLE + 2 * irq + 1) = Some (snd (f irq)).

Definition masked (irq : Z) : Z * Z := (Z.lor INT_DISABLED (T_IRQ0 + irq), 0).
Definition enable (n dest : Z) (f : Z -> Z * Z) (irq : Z) : Z * Z := if irq =? n then (T_IRQ0 + n, dest) else f irq.

Lemma disabled_disjoint a : 0 <= a < 65536 -> Z.land INT_DISABLED a = 0.
Proof.
  intros Ha. apply Z.bits_inj_0. intros n. rewrite Z.land_spec. destruct (decide (0 <= n)) as [Hn|]; [|by rewrite Z.testbit_neg_r by lia].
  change INT_DISABLED with (2 ^ 16). rewrite Z.pow2_bits_eqb by lia. destruct (Z.eqb_spec 16 n) as [<-|]; [|done]. rewrite andb_true_l.
  rewrite Z.testbit_false by lia. change (2 ^ 16) with 65536. by rewrite Z.div_small by lia.
Qed.

(** Code that leaves the I/O APIC and the number of processors alone. *)
Definition calm {A} (m : KM A) : Prop := forall s, wp m (fun _ s' => k_hw s' = k_hw s /\ k_ncpu s' = k_ncpu s) s.

Lemma calm_mod f : (forall s, k_hw (f s) = k_hw s /\ k_ncpu (f s) = k_ncpu s) -> calm (kmod f).
Proof. intros H s. by apply wp_mod. Qed.

Lemma calm_bind {A B} (m : KM A) (k : A -> KM B) : calm m -> (forall a, calm (k a)) -> calm (kbind m k).
Proof.
  intros Hm Hk s. apply wp_bind. eapply wp_mono; [apply Hm|]. intros a s1 [E1 E2].
  eapply wp_mono; [apply Hk|]. intros b s2 [E3 E4]. by rewrite E3, E4.
Qed.

Lemma calm_ret {A} (a : A) : calm (kret a).
Proof. intros s. by apply wp_ret. Qed.

Lemma calm_get {A} (f : kernel -> A) : calm (kget f).
Proof. intros s. by apply wp_get. Qed.

Lemma calm_each {X} (l : list X) (body : X -> KM unit) : (forall x, calm (body x)) -> calm (keach l body).
Proof. intros H. induction l as [|x l IH]; [apply calm_ret|]. by apply calm_bind. Qed.

Lemma calm_outb port v : calm (outb port v).
Proof. by apply calm_mod. Qed.

Lemma calm_initlock l : calm (initlock l).
Proof. by apply calm_mod. Qed.
#[local] Hint Resolve calm_mod calm_bind calm_ret calm_get calm_each calm_outb calm_initlock : kern.

Lemma calm_uartputc c : calm (uartputc c).
Proof. apply calm_bind; [apply calm_get|]. intros u. destruct (negb _); auto with kern. Qed.

Lemma calm_binit : calm binit.
Proof.
  apply calm_bind; [apply calm_initlock|]. intros _. apply calm_bind; [by apply calm_mod|]. intros _. apply calm_each. intros i.
  apply calm_bind; [|intros _; by apply calm_mod]. apply calm_bind; auto with kern. intros _. by apply calm_mod.
Qed.

Lemma calm_tvinit vectors : calm (tvinit vectors).
Proof.
  apply calm_bind; [apply calm_each; intros i; by apply calm_mod|]. intros _. apply calm_bind; [by apply calm_mod|]. intros _. apply calm_initlock.
Qed.

Lemma mask_loop (n : nat) : forall a s c, 0 <= a -> a + Z.of_nat n <= 256 -> routed (a - 1) masked s -> k_ncpu s = c ->
  wp (keach (seqZ a (Z.of_nat n)) (fun i =>
    ioapicwrite (REG_TABLE + 2 * i) (Z.lor INT_DISABLED (T_IRQ0 + i)) ;;; ioapicwrite (REG_TABLE + 2 * i + 1) 0))
    (fun _ s' => routed (a + Z.of_nat n - 1) masked s' /\ k_ncpu s' = c) s.
Proof.
  induction n as [|n IH]; intros a s c Ha Hn Hs Hc.
  - change (seqZ a (Z.of_nat 0)) with (@nil Z). apply wp_ret. by replace (a + Z.of_nat 0 - 1) with (a - 1) by lia.
  - rewrite seqZ_cons by lia. cbn [keach]. apply wp_bind, wp_bind, wp_mod, wp_mod.
    replace (Z.pred (Z.of_nat (S n))) with (Z.of_nat n) by lia. replace (a + Z.of_nat (S n) - 1) with (Z.succ a + Z.of_nat n - 1) by lia.
    apply IH; [lia|lia| |done]. intros irq Hi. cbn. destruct (decide (irq = a)) as [->|Hne].
    + rewrite lookup_insert_ne, !lookup_insert_eq by lia. unfold masked. cbn [fst snd]. rewrite u32_id; [done|].
      assert (E : Z.lor INT_DISABLED (T_IRQ0 + a) = INT_DISABLED + (T_IRQ0 + a)).
      { rewrite <- Z.lxor_lor, <- Z.add_nocarry_lxor; [done|apply disabled_disjoint; unfold T_IRQ0; lia..]. }
      rewrite E. unfold INT_DISABLED, T_IRQ0. lia.
    + rewrite !lookup_insert_ne by lia. apply Hs. lia.
Qed.

Section Routing.
Context (maxintr : Z).

Lemma routed_calm {A} (m : KM A) f s n (Q : A -> kernel -> Prop) :
  calm m -> routed maxintr f s -> k_ncpu s = n -> (forall a s', routed maxintr f s' -> k_ncpu s' = n -> Q a s') -> wp m Q s.
Proof.
  intros Hm Hf Hn HQ. eapply wp_mono; [apply Hm|]. intros a s' [E1 E2]. apply HQ; [|by rewrite E2].
  intros irq Hi. rewrite E1. by apply Hf.
Qed.

Lemma routed_enable f s n irq cpunum (Q : unit -> kernel -> Prop) :
  routed maxintr f s -> k_ncpu s = n -> 0 <= irq < 256 ->
  (forall s', routed maxintr (enable irq (u32 (Z.shiftl cpunum 24)) f) s' -> k_ncpu s' = n -> Q tt s') -> wp (ioapicenable irq cpunum) Q s.
Proof.
  intros Hf Hn Hi HQ. apply wp_bind, wp_mod, wp_mod. apply HQ; [|done]. intros j Hj. unfold enable. cbn.
  destruct (Z.eqb_spec j irq) as [->|Hne]; cbn [fst snd].
  - rewrite lookup_insert_ne, !lookup_insert_eq by lia. rewrite u32_id by (unfold T_IRQ0; lia). done.
  - rewrite !lookup_insert_ne by lia. by apply Hf.
Qed.

Lemma ioapicinit_masks s n :
  Z.land (Z.shiftr (default 0 (hw_ioapic (k_hw s) !! REG_VER)) 16) 0xFF = maxintr -> 0 <= maxintr < 256 -> k_ncpu s = n ->
  wp ioapicinit (fun _ s' => routed maxintr masked s' /\ k_ncpu s' = n) s.
Proof.
  intros Hmax Hr Hn. unfold ioapicinit. apply wp_bind, wp_get. cbv zeta. rewrite Hmax. apply wp_bind, wp_get. apply wp_bind, wp_get.
  apply wp_bind. apply (wp_mono _ (fun _ s' => k_ncpu s' = n)); [destruct (negb _); [by apply wp_mod|by apply wp_ret]|].
  intros _ s1 Hn1. replace (maxintr + 1) with (Z.of_nat (Z.to_nat (maxintr + 1))) by lia.
  eapply wp_mono; [apply (mask_loop _ 0 s1 n); [lia|lia| |done]|].
  - intros irq Hi. lia.
  - intros _ s' [H1 H2]. split; [|done]. by replace (0 + Z.of_nat (Z.to_nat (maxintr + 1)) - 1) with maxintr in H1 by lia.
Qed.
End Routing.

Section Devices.
Context `{L : Layout} `{Pt : Patience} `{P : Ports} `{D : DiskDriver}.
Context (ports : Z -> Z) (maxintr : Z).
(** Reading a port yields the device's value and changes nothing the kernel
    sees; the disk is ready. *)
Hypothesis ports_read : forall port s, inb port s = Ret (ports port) s.
Hypothesis disk_ready : Z.land (ports 0x1f7) (Z.lor Ide.IDE_BSY Ide.IDE_DRDY) = Ide.IDE_DRDY.
Hypothesis patient : (0 < patience)%nat.
Hypothesis irqs : 14 <= maxintr < 256.

Lemma calm_inb port : calm (inb port).
Proof. intros s. unfold wp. by rewrite ports_read. Qed.

Definition serial_port : bool := negb (ports (Uart.COM1 + 5) =? 0xFF).
Definition with_uart (f : Z -> Z * Z) : Z -> Z * Z := if serial_port then enable IRQ_COM1 0 f else f.

Lemma uartinit_routes f s n :
  routed maxintr f s -> k_ncpu s = n -> wp Uart.uartinit (fun _ s' => routed maxintr (with_uart f) s' /\ k_ncpu s' = n) s.
Proof.
  intros Hf Hn. unfold Uart.uartinit. do 7 (apply wp_bind; eapply (routed_calm maxintr); [apply calm_outb|eassumption|eassumption|]; clear s Hf Hn; intros _ s Hf Hn).
  apply wp_bind. eapply wp_of_run; [apply ports_read|]. unfold with_uart, serial_port. destruct (_ =? 0xFF); cbn [negb]; [by apply wp_ret|].
  apply wp_bind. eapply (routed_calm maxintr); [by apply calm_mod|eassumption|eassumption|]. clear s Hf Hn. intros _ s Hf Hn.
  do 2 (apply wp_bind; eapply (routed_calm maxintr); [apply calm_inb|eassumption|eassumption|]; clear s Hf Hn; intros _ s Hf Hn).
  apply wp_bind. eapply (routed_enable maxintr); [eassumption|eassumption|unfold IRQ_COM1; lia|]. clear s Hf Hn. intros s Hf Hn.
  eapply (routed_calm maxintr); [apply calm_each, calm_uartputc|eassumption|eassumption|]. done.
Qed.

Lemma consoleinit_routes f s n :
  routed maxintr f s -> k_ncpu s = n -> wp consoleinit (fun _ s' => routed maxintr (enable IRQ_KBD 0 f) s' /\ k_ncpu s' = n) s.
Proof.
  intros Hf Hn. unfold consoleinit. do 3 (apply wp_bind; eapply (routed_calm maxintr); [by auto with kern|eassumption|eassumption|]; clear s Hf Hn; intros _ s Hf Hn).
  eapply (routed_enable maxintr); [eassumption|eassumption|unfold IRQ_KBD; lia|]. done.
Qed.

Lemma calm_idewait b : calm (Ide.idewait b).
Proof.
  intros s. unfold Ide.idewait. destruct patience as [|k] eqn:E; [lia|]. apply wp_bind. cbn [Ide.idewait_loop]. apply wp_bind.
  eapply wp_of_run; [apply ports_read|]. rewrite disk_ready, Z.eqb_refl. by apply wp_ret, wp_ret.
Qed.

Lemma ideinit_routes f s n :
  routed maxintr f s -> k_ncpu s = n ->
  wp Ide.ideinit_ide (fun _ s' => routed maxintr (enable IRQ_IDE (u32 (Z.shiftl (n - 1) 24)) f) s' /\ k_ncpu s' = n) s.
Proof.
  intros Hf Hn. unfold Ide.ideinit_ide. apply wp_bind. eapply (routed_calm maxintr); [apply calm_initlock|eassumption|eassumption|].
  clear s Hf Hn. intros _ s Hf Hn. apply wp_bind, wp_get. rewrite Hn. apply wp_bind.
  eapply (routed_enable maxintr); [eassumption|eassumption|unfold IRQ_IDE; lia|]. clear s Hf Hn. intros s Hf Hn.
  apply wp_bind. eapply (routed_calm maxintr); [apply calm_idewait|eassumption|eassumption|]. clear s Hf Hn. intros _ s Hf Hn.
  apply wp_bind. eapply (routed_calm maxintr); [apply calm_outb|eassumption|eassumption|]. clear s Hf Hn. intros _ s Hf Hn.
  apply wp_bind. eapply (routed_calm maxintr); [|eassumption|eassumption|].
  - generalize (seq 0 1000). intros l. induction l as [|x l IH]; [apply calm_ret|]. cbn [kfor]. apply calm_bind.
    + apply calm_bind; [apply calm_inb|]. intros r. destruct (negb _); [|apply calm_ret]. apply calm_bind; [by apply calm_mod|]. intros _. apply calm_ret.
    + intros [v|]; [apply calm_ret|done].
  - clear s Hf Hn. intros _ s Hf Hn. eapply (routed_calm maxintr); [apply calm_outb|eassumption|eassumption|]. done.
Qed.

(** The redirection table after the initialisation. *)
Definition main_routes (ncpu : Z) : Z -> Z * Z :=
  enable IRQ_IDE (u32 (Z.shiftl (ncpu - 1) 24)) (with_uart (enable IRQ_KBD 0 masked)).

(** C35: After the initialisation of the devices by [main], the I/O APIC delivers
    exactly the interrupts that the kernel handles.  The keyboard's and, if
    there is a serial port, the serial port's go to processor 0, the disk's to
    the last processor, each with the vector of its own number; every other
    interrupt is masked.  For each of the enabled ones [trap] runs the driver's
    interrupt handler and then acknowledges the interrupt. *)
Theorem interrupts_routed (vectors : Z -> Z) (ideintr : KM unit) (tf0 : Z) (s : kernel) :
  Z.land (Z.shiftr (default 0 (hw_ioapic (k_hw s) !! REG_VER)) 16) 0xFF = maxintr ->
  wp (main_devices vectors) (fun _ s' => routed maxintr (main_routes (k_ncpu s)) s' /\ k_ncpu s' = k_ncpu s) s /\
  (forall irq, 0 <= irq <= maxintr ->
     fst (main_routes (k_ncpu s) irq) = T_IRQ0 + irq /\ (irq = IRQ_KBD \/ irq = IRQ_COM1 /\ serial_port = true \/ irq = IRQ_IDE) \/
     main_routes (k_ncpu s) irq = masked irq /\ fst (masked irq) <> T_IRQ0 + irq) /\
  trap_case ideintr tf0 (T_IRQ0 + IRQ_KBD) = (kbdintr ;;; Lapic.lapiceoi) /\
  trap_case ideintr tf0 (T_IRQ0 + IRQ_COM1) = (uartintr ;;; Lapic.lapiceoi) /\
  trap_case ideintr tf0 (T_IRQ0 + IRQ_IDE) = (ideintr ;;; Lapic.lapiceoi).
Proof.
  intros Hmax. split; [|split; [|split; [reflexivity|split; reflexivity]]].
  - unfold main_devices. apply wp_bind. apply (wp_mono _ (fun _ s' => k_hw s' = k_hw s /\ k_ncpu s' = k_ncpu s)).
    { apply calm_bind; [apply calm_outb|]. intros _. apply calm_outb. }
    intros _ s1 [E1 E2]. apply wp_bind. eapply wp_mono; [apply (ioapicinit_masks maxintr s1 (k_ncpu s)); [by rewrite E1|lia|done]|].
    intros _ s2 [H2 N2]. apply wp_bind. eapply wp_mono; [by apply consoleinit_routes|]. intros _ s3 [H3 N3].
    apply wp_bind. eapply wp_mono; [by apply uartinit_routes|]. intros _ s4 [H4 N4].
    apply wp_bind. eapply (routed_calm maxintr); [apply calm_initlock|done|done|]. intros _ s5 H5 N5.
    apply wp_bind. eapply (routed_calm maxintr); [apply calm_tvinit|done|done|]. intros _ s6 H6 N6.
    apply wp_bind. eapply (routed_calm maxintr); [apply calm_binit|done|done|]. intros _ s7 H7 N7.
    apply wp_bind. eapply (routed_calm maxintr); [apply calm_initlock|done|done|]. intros _ s8 H8 N8.
    exact (ideinit_routes _ _ _ H8 N8).
  - intros irq Hi. unfold main_routes, enable, with_uart. destruct (Z.eqb_spec irq IRQ_IDE) as [->|]; [by left; auto|].
    assert (Hm : fst (masked irq) <> T_IRQ0 + irq).
    { unfold masked. cbn [fst]. rewrite <- Z.lxor_lor, <- Z.add_nocarry_lxor; [unfold INT_DISABLED; lia|apply disabled_disjoint; unfold T_IRQ0; lia..]. }
    destruct serial_port; unfold enable.
    + destruct (Z.eqb_spec irq IRQ_COM1) as [->|]; [left; auto|]. destruct (Z.eqb_spec irq IRQ_KBD) as [->|]; [left; auto|by right].
    + destruct (Z.eqb_spec irq IRQ_KBD) as [->|]; [left; auto|by right].
Qed.
End Devices.

Definition demo_ports (port : Z) : Z := if port =? 0x1f7 then 0x40 else 0.
Definition demo_boot : kernel := boot <| k_hw ::= fun d => d <| hw_ioapic := {[REG_VER := 0x170011]} |> |>.

Lemma interrupts_routed_witness :
  wp (main_devices (Pt := 1%nat) (P := fun p => kret (demo_ports p)) (fun v => v))
    (fun _ s' => routed 23 (main_routes demo_ports 1) s' /\ k_ncpu s' = 1) demo_boot /\
  main_routes demo_ports 1 IRQ_KBD = (33, 0) /\ main_routes demo_ports 1 3 = (0x10023, 0).
Proof.
  split; [|split; vm_compute; reflexivity].
  refine (proj1 (interrupts_routed (L := demo_layout) (Pt := 1%nat) (P := fun p => kret (demo_ports p)) demo_ports 23 _ _ _ _
    (fun v => v) (kret tt) 0 demo_boot _)); [reflexivity|vm_compute; reflexivity|unfold patience; lia|lia|vm_compute; reflexivity].
Defined.
