(* ===== verification/FaultSpec.v ===== *)
(** * The page fault handler

    What the case [T_PGFLT] of [trap] does to the address space of the process:
    it fills an anonymous mapping with zeroed pages, one fault at a time. *)

From stdpp Require Import base gmap strings list fin_maps.
From Stdlib Require Import ZArith Lia.
From S2P Require Import Prelude Mem Types Spinlock Kalloc Vm PageTable Uvm Kvm AddrSpace Proc ProcSpec Access Sleeplock Steady Disk Bio Log Inode Console Fs Pipe File ProcLife Args Mmap MmapSpec SysFile Exec Syscall.

Section Fault.
Context `{L : Layout} {LO : LayoutOk L} `{Pt : Patience} `{D : DiskDriver}.

Lemma pts_length m m' pgdir :
  (forall i, 0 <= i < 1024 -> present (pde_at m' pgdir i) = present (pde_at m pgdir i)) ->
  length (pts m' pgdir) = length (pts m pgdir).
Proof.
  intros H. rewrite !pts_eq.
  assert (Hl : forall i, i ∈ seqZ 0 1024 -> 0 <= i < 1024) by (intros i Hi%elem_of_seqZ; lia).
  revert Hl. generalize (seqZ 0 1024). intros l. induction l as [|i l IH]; intros Hl; [done|]. cbn.
  assert (Hi : 0 <= i < 1024) by (apply Hl, list_elem_of_here).
  assert (IH' : length (omap (pt_of m' pgdir) l) = length (omap (pt_of m pgdir) l)).
  { apply IH. intros j Hj. apply Hl. by apply list_elem_of_further. }
  destruct (pt_of m' pgdir i) eqn:E1, (pt_of m pgdir i) eqn:E2; cbn; try congruence;
    unfold pt_of in E1, E2; rewrite (H i Hi) in E1; by destruct (present (pde_at m pgdir i)).
Qed.

(** Mapping one page fails only without a free page for its table. *)
Lemma wp_map_room s pgdir l own a p perm :
  pt_inv s pgdir l (p :: upages (k_mem s) pgdir ++ own) ->
  a mod 4096 = 0 -> 0 <= a < KERNBASE -> 0 <= perm < 4096 ->
  present (pte_at (k_mem s) pgdir a) = false ->
  wp (mappages pgdir a PGSIZE (V2P p) perm) (fun r s' => r = -1 -> l = []) s.
Proof.
  intros Hinv Ham Ha Hperm Habs. destruct (pt_inv_own _ _ _ _ p Hinv) as (Hok & _); [apply list_elem_of_here|].
  destruct (pte_page_of p perm Hok Hperm) as (Hr & Hpg & Hpm & Hpr). unfold KERNBASE, PGSIZE in *.
  assert (Hlast : (a + 4096 - 1) / 4096 * 4096 = a) by (Z.div_mod_to_equations; lia).
  eapply wp_mono.
  { apply (wp_mappages s pgdir a 4096 (V2P p) perm l _ Hinv); try done; try lia.
    rewrite Hlast. intros v Hv Hin. rewrite <- Habs. f_equal. apply pte_at_page; [done|lia|unfold in_pages in Hin; lia]. }
  rewrite Hlast. intros r s' (l' & [_ _ Hp _ Hnew Hmono _ Hres]) ->.
  destruct Hres as [(? & _)|(_ & -> & (i & Hi & Hab) & _)]; [done|]. assert (i = PDX a) as -> by lia.
  assert (E : length (pts (k_mem s') pgdir) = length (pts (k_mem s) pgdir)).
  { apply pts_length. intros i Hi'. destruct (present (pde_at (k_mem s) pgdir i)) eqn:E1.
    - by apply Hmono.
    - destruct (present (pde_at (k_mem s') pgdir i)) eqn:E2; [|done].
      destruct (Hnew i Hi' E2) as [?|?]; [congruence|]. assert (i = PDX a) as -> by lia. congruence. }
  apply Permutation_length in Hp. rewrite !length_app in Hp. cbn in Hp. destruct l; [done|cbn in *; lia].
Qed.

Lemma wp_and {S A} (m : K S A) P Q s : wp m P s -> wp m Q s -> wp m (fun a s' => P a s' /\ Q a s') s.
Proof. unfold wp. by destruct (m s). Qed.

(** A page [q] from the free list is mapped, zeroed, at the page of [a]. *)
Record filled (s s' : kernel) (pgdir a perm : Z) (l own : list Z) : Prop := {
  fl_frame : mm_frame s s';
  fl_inv : exists l', as_inv s' pgdir l' own /\
    l' ++ pts (k_mem s') pgdir ++ upages (k_mem s') pgdir ≡ₚ l ++ pts (k_mem s) pgdir ++ upages (k_mem s) pgdir;
  fl_keeps : keeps (upages (k_mem s) pgdir ++ own) (k_mem s) (k_mem s');
  fl_page : exists q, q ∈ l /\ pte_at (k_mem s') pgdir a = mk_pte (V2P q) perm /\
    forall b, q <= b < q + 4096 -> ld8 (k_mem s') b = 0;
  fl_other : forall v, 0 <= v < 4294967296 -> v / 4096 <> a / 4096 ->
    pte_at (k_mem s') pgdir v = pte_at (k_mem s) pgdir v
}.

(** [fill_page] has nothing to do for an anonymous mapping. *)
Lemma fill_page_anon s me p j d mem0 :
  k_ptable s !! me = Some p -> mmaps p !! j = Some d -> c_true (Z.land (md_flags d) MAP_ANON) = true ->
  fill_page me j mem0 s = Ret tt s.
Proof. intros Hp Hd Ha. unfold fill_page. krun (get_desc_run me j s p d Hp Hd). by rewrite Ha. Qed.

Lemma mm_frame_ptable_eq s s' : mm_frame s s' -> k_ptable s' = k_ptable s.
Proof. by intros (m & km & cp & co & -> & _). Qed.

Lemma wp_nonguard s me p j d a l own :
  k_ptable s !! me = Some p -> mmaps p !! j = Some d -> c_true (Z.land (md_flags d) MAP_ANON) = true ->
  0 <= prot d < 4096 -> as_inv s (pgdir p) l own -> (2 <= length l)%nat -> 0 <= a < KERNBASE ->
  present (pte_at (k_mem s) (pgdir p) a) = false ->
  wp (allocatePageNonGuard me j a) (fun _ s' => filled s s' (pgdir p) a (Z.lor (prot d) PTE_U) l own) s.
Proof.
  intros Hp Hd Ha Hprot Hinv Hl Har Habs. unfold allocatePageNonGuard.
  apply wp_bind. eapply wp_mono; [apply wp_kalloc; [apply Hinv|by eapply pt_inv_heap]|].
  intros r s1 (Hf1 & Em1 & Hh). destruct l as [|q l]; [cbn in Hl; lia|]. destruct Hh as [-> Hh1].
  destruct (pt_inv_free _ _ _ _ q Hinv) as (Hqok & _); [apply list_elem_of_here|].
  pose proof (page_ok_pos q Hqok). destruct (Z.eqb_spec q 0); [lia|].
  apply wp_bind, wp_mod. cbv zeta. unfold PGSIZE at 1.
  assert (Ho : Kalloc.outside q (k_mem s) (memset (k_mem s1) q 0 4096)) by (rewrite Em1; apply outside_memset).
  destruct (kalloc_page s (pgdir p) l own s1 q Hinv Hf1 Em1 Hh1 _ Ho) as (Hf2 & Hi2 & Hk2 & Ht2 & Hu2 & Hv2).
  set (s2 := s1 <| k_mem := _ |>) in Hf2, Hi2, Hk2, Ht2, Hu2, Hv2. change (s1 <| k_mem ::= _ |>) with s2.
  pose proof (mm_frame_ptable_eq _ _ Hf2) as Hpt2.
  apply wp_bind. eapply wp_of_run; [apply (get_proc_run s2 me p); by rewrite Hpt2|].
  apply wp_bind. eapply wp_of_run; [apply (get_desc_run me j s2 p d); [by rewrite Hpt2|done]|].
  rewrite pgrounddown_eq by (unfold KERNBASE in *; lia). set (a0 := a / 4096 * 4096).
  assert (Ha0 : a0 mod 4096 = 0 /\ 0 <= a0 < KERNBASE /\ a0 / 4096 = a / 4096).
  { unfold a0, KERNBASE in *. rewrite Z.mod_mul, Z.div_mul by lia. split; [done|]. split; [|done]. Z.div_mod_to_equations. lia. }
  destruct Ha0 as (Ham & Ha0 & Hdiv).
  assert (Hperm : 0 <= Z.lor (prot d) PTE_U < 4096).
  { pose proof (lor_bound (prot d) PTE_U 12). unfold PTE_U in *. lia. }
  assert (Habs2 : present (pte_at (k_mem s2) (pgdir p) a0) = false).
  { rewrite Hv2, (pte_at_page _ _ a0 a); [done|unfold KERNBASE in *; lia|unfold KERNBASE in *; lia|done]. }
  apply wp_bind. eapply wp_mono; [apply wp_and; [by apply (wp_map_user s2 (pgdir p) l own a0 q _ Hi2)|by apply (wp_map_room s2 (pgdir p) l own a0 q _ Hi2)]|].
  intros r s3 [(l3 & Hf3 & Hk3 & Hp3 & Hcase) Hroom].
  destruct Hcase as [(-> & Hi3 & Hu3 & Hv3)|(-> & _)]; [|rewrite Hroom in Hl by done; cbn in Hl; lia].
  change (negb (0 =? 0)) with false. cbv iota. apply wp_bind, wp_ret.
  pose proof (mm_frame_ptable_eq _ _ Hf3) as Hpt3.
  eapply wp_of_run; [apply (fill_page_anon s3 me p j d q); [by rewrite Hpt3, Hpt2|done|done]|].
  split.
  - by eapply mm_frame_trans.
  - exists l3. split; [done|]. rewrite app_assoc, Hp3, Hu3, Ht2, Hu2. cbn. rewrite <- app_assoc.
    rewrite <- Permutation_middle. by rewrite (app_assoc l), <- Permutation_middle, <- app_assoc.
  - eapply keeps_trans; [exact Hk2|]. eapply keeps_sub; [|exact Hk3]. rewrite Hu2. intros x Hx. by apply list_elem_of_further.
  - exists q. split; [apply list_elem_of_here|]. split.
    + rewrite Hv3 by (unfold KERNBASE in *; lia). by rewrite decide_True.
    + intros b Hb. rewrite (Hk3 q) by (done || apply list_elem_of_here). unfold s2. cbn. rewrite ld8_memset by lia. by rewrite decide_True.
  - intros v Hv Hne. rewrite Hv3 by done. rewrite decide_False by congruence. apply Hv2.
Qed.

Lemma mappages_present s pgdir a size pa perm l own :
  pt_inv s pgdir l own -> 0 <= a < 4294963200 -> a mod 4096 = 0 -> size = PGSIZE -> present (pte_at (k_mem s) pgdir a) = true ->
  mappages pgdir a size pa perm s = Panic "remap" s.
Proof.
  intros Hinv Ha Ham -> Hpres. unfold mappages. rewrite (pgrounddown_eq a) by lia.
  replace (a / 4096 * 4096) with a by (Z.div_mod_to_equations; lia). cbn [mappages_loop].
  unfold pte_at in Hpres. destruct (present (pde_at (k_mem s) pgdir (PDX a))) eqn:Epde; [|done].
  krun (walk_present s pgdir a true Epde). destruct (Z.eqb_spec (slot (k_mem s) pgdir a) 0) as [E|_].
  { by destruct (slot_nonzero s pgdir l own a Hinv Epde). }
  unfold mem_read, kget, kbind at 1. cbn [obind]. unfold present in Hpres. by rewrite Hpres.
Qed.

(** On a page that is mapped already, mapping another one panics. *)
Lemma nonguard_remap s me p j d a l own :
  k_ptable s !! me = Some p -> mmaps p !! j = Some d -> as_inv s (pgdir p) l own -> l <> [] -> 0 <= a < KERNBASE ->
  present (pte_at (k_mem s) (pgdir p) a) = true ->
  exists s', allocatePageNonGuard me j a s = Panic "remap" s'.
Proof.
  intros Hp Hd Hinv Hl Har Hpres. destruct l as [|q l]; [done|].
  destruct (proj1 (wp_run _ _ _) (wp_kalloc s (q :: l) (pt_inv_ready _ _ _ _ Hinv) (pt_inv_heap _ _ _ _ Hinv)))
    as (r & s1 & Hrun & Hf1 & Em1 & -> & Hh1).
  destruct (pt_inv_free _ _ _ _ q Hinv) as (Hqok & _); [apply list_elem_of_here|].
  pose proof (page_ok_pos q Hqok). unfold allocatePageNonGuard. krun Hrun. destruct (Z.eqb_spec q 0); [lia|].
  unfold k_memset, kmod, kbind at 1. cbn [obind]. cbv zeta.
  assert (Ho : Kalloc.outside q (k_mem s) (memset (k_mem s1) q 0 PGSIZE)) by (rewrite Em1; apply outside_memset).
  destruct (kalloc_page s (pgdir p) l own s1 q Hinv Hf1 Em1 Hh1 _ Ho) as (Hf2 & Hi2 & _ & _ & _ & Hv2).
  set (s2 := s1 <| k_mem := _ |>) in Hf2, Hi2, Hv2. change (s1 <| k_mem ::= _ |>) with s2.
  pose proof (mm_frame_ptable_eq _ _ Hf2) as Hpt2.
  krun (get_proc_run s2 me p ltac:(by rewrite Hpt2)). krun (get_desc_run me j s2 p d ltac:(by rewrite Hpt2) Hd).
  exists s2. rewrite pgrounddown_eq by (unfold KERNBASE in *; lia). unfold kbind at 1.
  rewrite (mappages_present s2 (pgdir p) (a / 4096 * 4096) PGSIZE _ _ _ _ Hi2); [done|unfold KERNBASE in *; Z.div_mod_to_equations; lia|by rewrite Z.mod_mul|done|].
  rewrite Hv2, <- Hpres. f_equal. apply pte_at_page; unfold KERNBASE in *; [Z.div_mod_to_equations; lia|lia|by rewrite Z.div_mul].
Qed.

Lemma find_desc_some ds k a j :
  find_desc ds k a = Some j -> exists d, (k <= j)%nat /\ ds !! (j - k)%nat = Some d /\ valid d <> 0 /\ covers d a = true.
Proof.
  revert k. induction ds as [|d ds IH]; intros k; [done|]. cbn [find_desc].
  destruct (c_true (valid d)) eqn:Ev; cbn [andb]; [destruct (covers d a) eqn:Ec|].
  - intros [= ->]. exists d. rewrite Nat.sub_diag. apply c_true_true in Ev. split; [lia|done].
  - intros (e & He & Hl & H)%IH. exists e. split; [lia|]. replace (j - k)%nat with (S (j - S k)) by lia. done.
  - intros (e & He & Hl & H)%IH. exists e. split; [lia|]. replace (j - k)%nat with (S (j - S k)) by lia. done.
Qed.

End Fault.

(** ** A concrete fault *)

(** A process with one anonymous page at [0x60000000] and protection [pr],
    which faults at [a]. *)
Definition fault_desc (pr : Z) : mmap_desc := zero_desc <| valid := 1 |> <| virtualAddress := 0x60000000 |> <| md_flags := 5 |> <| prot := pr |>.
Definition fault_proc (pr : Z) : proc :=
  run_proc <| pgdir := demo_dir |> <| mmaps := fault_desc pr :: replicate 31 zero_desc |>.
Definition demo_fault (pr a : Z) : kernel :=
  (demo_as 6) <| k_cpus := [run_cpu] |> <| k_ptable ::= insert 0%nat (fault_proc pr) |> <| k_cr2 := a |>.

Lemma demo_fault_env pr a : env (demo_fault pr a) 0 run_cpu 0 (fault_proc pr).
Proof.
  destruct running_env as [H1 H2 H3 H4 H5 H6]. split; [|exact H2|done|done|done|done].
  by apply (steady_ext running).
Qed.

Lemma demo_fault_inv pr a : as_inv (L := demo_layout) (demo_fault pr a) demo_dir (demo_pages 6) [].
Proof.
  apply as_check_ok; [|vm_compute; reflexivity]. split; [exists 0%nat, run_cpu; apply (env_steady _ _ _ _ _ (demo_fault_env pr a))|].
  intros _. apply (env_locks _ _ _ _ _ (demo_fault_env pr a)). exact I.
Qed.


(** The frame that the faulting page is mapped to. *)
Definition fault_frame (pr : Z) : option Z :=
  match page_fault (L := demo_layout) (Pt := 1%nat) (demo_fault pr 0x60000123) with
  | Ret _ s' => Some (PTE_ADDR (pte_at (k_mem s') demo_dir 0x60000123))
  | _ => None
  end.

(** The protection given to [mmap] goes into the page table entry unchecked:
    bits above the flags choose another frame than the allocated one. *)
Example prot_chooses_frame :
  match fault_frame 3 with
  | Some f => fault_frame (0x1000000 + 3) = Some (f + 0x1000000)
  | None => False
  end.
Proof. vm_compute. reflexivity. Qed.
