(* ===== verification/Defects.v ===== *)
(** * Runs that end badly

    Concrete executions of the model in which the mapping code of this kernel
    dereferences a null pointer or panics, and one in which a process waits
    for a sleep lock that it holds itself. *)

From stdpp Require Import base gmap strings list fin_maps.
From Stdlib Require Import ZArith Lia.
From S2P Require Import Prelude Mem Types Spinlock Kalloc Vm PageTable Uvm Kvm AddrSpace Proc ProcSpec Access Sleeplock Steady Disk Bio BioSpec Log LogSpec Inode TxnSpec Console Fs FileSpec DirSpec PathSpec NameSpec Pipe File ProcLife Args ArgsSpec Mmap MmapSpec SysFile Exec Syscall FaultSpec.

(** How a run ends. *)
Inductive ending := Returns | Panics (msg : string) | Undefined (why : string) | Other.
Definition ending_of {A} (o : outcome kernel A) : ending :=
  match o with
  | Ret _ _ => Returns
  | Panic msg _ => Panics msg
  | Undef why _ => Undefined why
  | _ => Other
  end.

(** ** [munmap] of an anonymous mapping *)

(** The arguments are [0x60000000] and 4096. *)
Definition munmap_state (f : option nat) : kernel :=
  demo_args <| k_ptable ::= alter (fun p => p <| mmaps ::= insert 0%nat ((fault_desc 3) <| md_f := f |> <| md_ref := 1 |>) |>) 0%nat |>
    <| k_mem ::= fun m => st32 (st32 m (demo_u0 + 68) 0x60000000) (demo_u0 + 72) 4096 |>.

(** [to_free[0]->f->off = 0] runs before the test of [f]. *)
Example munmap_anonymous_null :
  ending_of (sys_munmap (L := demo_layout) (Pt := 1%nat) (munmap_state None)) = Undefined "null pointer".
Proof. vm_compute. reflexivity. Qed.

(** ** [fork] of an anonymous mapping: [deep_copy] calls [filedup] on no file *)

Example fork_anonymous_null :
  ending_of (copy_maps (L := demo_layout) (Pt := 1%nat) 0 1 (munmap_state None)) = Undefined "null pointer".
Proof. vm_compute. reflexivity. Qed.

(** ** [exit] with a file mapping *)

(** The file of the mapping was closed; the working directory is inode 0. *)
Definition exit_state : kernel :=
  (munmap_state (Some 0%nat)) <| k_initproc := Some 1%nat |>
    <| k_ptable ::= alter (fun p => p <| cwd := Some 0%nat |> <| parent := Some 1%nat |>) 0%nat |>
    <| k_ftable ::= insert 0%nat (zero_file <| f_type := FD_INODE |> <| f_ref := 1 |> <| f_ip := Some 0%nat |> <| readable := 1 |>) |>
    <| k_icache ::= insert 0%nat (zero_inode <| i_ref := 3 |> <| i_dev := 1 |> <| i_inum := 1 |>) |>.

(** [exit] closes the file while it holds [ptable.lock], which waking up the
    waiters of the inode takes again. *)
Example exit_mapping_panics :
  ending_of (exit (L := demo_layout) (Pt := 1%nat) exit_state) = Panics "acquire".
Proof. vm_compute. reflexivity. Qed.

(** ** [dirlink] of a name that the directory gives to itself *)

(** The root directory in slot 0, locked by the running process, as
    [sys_link] leaves it when the new path is "/.". *)
Definition dot_root : inode :=
  zero_inode <| i_dev := 1 |> <| i_inum := 1 |> <| i_ref := 1 |> <| i_lock := locked_by (pid run_proc) |>
    <| i_valid := 1 |> <| i_type := 1 |> <| i_nlink := 1 |> <| i_size := 48 |> <| i_addrs := 60 :: replicate 12 0 |>.
Definition dot_state : kernel := upd_inode 0 (fun _ => dot_root) demo_fs.

(** What a process that gave up the processor waits for, and the lock of
    inode slot 0 at that point. *)
Definition waits {A} (o : outcome kernel A) : option (procstate * option chan * sleeplock) :=
  match o with
  | Switch s _ =>
      match k_ptable s !! 0%nat, k_icache s !! 0%nat with
      | Some p, Some x => Some (state p, pchan p, i_lock x)
      | _, _ => None
      end
  | _ => None
  end.

(** [dirlookup] finds the directory itself and [iput] takes its sleep lock,
    which the process holds: it sleeps on the lock, still its owner. *)
Example dirlink_dot_waits :
  waits (dirlink (Pt := 1%nat) 0 (str ".") 2 dot_state)
  = Some (SLEEPING, Some (Csleepinode 0), locked_by (pid run_proc)).
Proof. vm_compute. reflexivity. Qed.
