(* ===== verification/Ulib.v ===== *)
(** * The C library of user programs

    The string functions of [ulib.c], [printf.c] and [grep.c].  A string is the
    list of its characters without the final zero; a buffer that may contain
    zeros is a list of bytes that ends where the C code puts the final zero.
    The system calls are parameters: [read] is given by the results of its
    successive calls. *)

From stdpp Require Import base gmap strings list fin_maps.
From Stdlib Require Import ZArith Lia.
From S2P Require Import Prelude Mem Types.

(** ** [ulib.c] *)
Module Ulib.
Fixpoint strcmp (p q : list Z) : Z :=
  match p, q with
  | c :: p', d :: q' => if c =? d then strcmp p' q' else u8 c - u8 d
  | c :: _, [] => u8 c
  | [], d :: _ => - u8 d
  | [], [] => 0
  end.

(** The index of the first [c] before the first zero. *)
Fixpoint strchr (s : list Z) (c : Z) : option nat :=
  match s with
  | [] => None
  | d :: s' => if d =? 0 then None else if d =? c then Some O else S <$> strchr s' c
  end.

(** [gets(buf, max)]: [input] holds the result of each [read] of one byte
    ([None] for a result below 1); the result is the string in the buffer and
    what is left of the input. *)
Fixpoint gets_loop (fuel : nat) (i max : Z) (input : list (option Z)) : list Z * list (option Z) :=
  match fuel with
  | O => ([], input)
  | S k =>
      if negb (i + 1 <? max) then ([], input) else
      match input with
      | Some c :: input' =>
          if (c =? 10) || (c =? 13) then ([c], input')
          else let (l, r) := gets_loop k (i + 1) max input' in (c :: l, r)
      | None :: input' => ([], input')
      | [] => ([], [])
      end
  end.
Definition gets (max : Z) (input : list (option Z)) : list Z * list (option Z) :=
  gets_loop (Z.to_nat max) 0 max input.

Fixpoint atoi_loop (s : list Z) (n : Z) : Z :=
  match s with
  | c :: s' => if (48 <=? c) && (c <=? 57) then atoi_loop s' (i32 (n * 10 + c - 48)) else n
  | [] => n
  end.
Definition atoi (s : list Z) : Z := atoi_loop s 0.

(** The routines that work in memory.  [memmove] copies upwards, whatever the
    order of the two areas; [strcpy] is given as much fuel as the string is
    long. *)
Definition ulib_memset (m : mem) (dst c n : Z) : mem := stosb m dst c (Z.to_nat n).
Definition ulib_memmove (m : mem) (dst src n : Z) : mem := copy_up m dst src (Z.to_nat n).
Definition ulib_strlen (m : mem) (s : Z) : option Z := strlen_loop m s 0 (S (size m)).
Fixpoint strcpy (fuel : nat) (m : mem) (s t : Z) : option mem :=
  match fuel with
  | O => None
  | S k =>
      let c := ld8 m t in
      let m := st8 m s c in
      if c_true c then strcpy k m (s + 1) (t + 1) else Some m
  end.
End Ulib.

(** ** [printf.c] *)
Module Printf.
(** [digits[d]] of the upper-case table. *)
Definition digit (d : Z) : Z := if d <? 10 then 48 + d else 55 + d.

Fixpoint digits_of (fuel : nat) (x base : Z) : list Z :=
  match fuel with
  | O => []
  | S k => digit (x mod base) :: (if x / base =? 0 then [] else digits_of k (x / base) base)
  end.

(** The characters given to [putc], in their order. *)
Definition printint (xx base : Z) (sgn : bool) : list Z :=
  let neg := sgn && (xx <? 0) in
  let x := if neg then u32 (- xx) else u32 xx in
  rev (digits_of 32 x base ++ (if neg then [45] else [])).

Inductive arg := AInt (z : Z) | AStr (s : option (list Z)).

(** [state] is whether the last character was a percent sign. *)
Fixpoint printf_loop (fmt : list Z) (state : bool) (ap : list arg) : option (list Z) :=
  match fmt with
  | [] => Some []
  | c :: fmt' =>
      if negb state then
        if c =? 37 then printf_loop fmt' true ap else cons c <$> printf_loop fmt' false ap
      else if c =? 100 then
        match ap with
        | AInt z :: ap' => app (printint (i32 z) 10 true) <$> printf_loop fmt' false ap'
        | _ => None
        end
      else if (c =? 120) || (c =? 112) then
        match ap with
        | AInt z :: ap' => app (printint (i32 z) 16 false) <$> printf_loop fmt' false ap'
        | _ => None
        end
      else if c =? 115 then
        match ap with
        | AStr s :: ap' => app (default [40; 110; 117; 108; 108; 41] s) <$> printf_loop fmt' false ap'
        | _ => None
        end
      else if c =? 99 then
        match ap with
        | AInt z :: ap' => cons (u8 z) <$> printf_loop fmt' false ap'
        | _ => None
        end
      else if c =? 37 then cons c <$> printf_loop fmt' false ap
      else app [37; c] <$> printf_loop fmt' false ap
  end.
Definition printf (fmt : list Z) (ap : list arg) : option (list Z) := printf_loop fmt false ap.
End Printf.

(** ** [grep.c] *)
Module Grep.
(** The loop of [matchstar]; [here] is [matchhere] for the rest of the pattern. *)
Section Star.
Variables (here : list Z -> bool) (c : Z).
Fixpoint matchstar (text : list Z) : bool :=
  here text ||
  match text with
  | [] => false
  | t :: text' => ((t =? c) || (c =? 46)) && matchstar text'
  end.
End Star.

Fixpoint matchhere (re text : list Z) : bool :=
  match re with
  | [] => true
  | c :: re1 =>
      match re1 with
      | 42 :: re2 => matchstar (matchhere re2) c text
      | _ =>
          if (c =? 36) && bool_decide (re1 = []) then bool_decide (text = [])
          else match text with
               | [] => false
               | t :: text' => ((c =? 46) || (c =? t)) && matchhere re1 text'
               end
      end
  end.

(** The [do]-[while] loop of [match]. *)
Fixpoint match_loop (re text : list Z) : bool :=
  matchhere re text ||
  match text with
  | [] => false
  | _ :: text' => match_loop re text'
  end.
Definition matches (re text : list Z) : bool :=
  match re with
  | 94 :: re' => matchhere re' text
  | _ => match_loop re text
  end.

(** The inner loop of [grep] over the lines of the buffer from [p]: what each
    [write] writes, and what is left from [p] on, with whether [p] moved. *)
Fixpoint scan (fuel : nat) (pattern p : list Z) (moved : bool) : list (list Z) * list Z * bool :=
  match fuel with
  | O => ([], p, moved)
  | S k =>
      match Ulib.strchr p 10 with
      | None => ([], p, moved)
      | Some q =>
          let line := take q p in
          let '(out, rest, m) := scan k pattern (drop (S q) p) true in
          ((if matches pattern line then [line ++ [10]] else []) ++ out, rest, m)
      end
  end.

(** The outer loop; [reads] are the bytes that each call of [read] returns, at
    most as many as the buffer has room for, and an empty result ends it. *)
Fixpoint grep_loop (pattern : list Z) (reads : list (list Z)) (buf : list Z) : list Z :=
  match reads with
  | [] => []
  | [] :: _ => []
  | n :: reads' =>
      let b := buf ++ n in
      let '(out, rest, moved) := scan (S (length b)) pattern b false in
      concat out ++ grep_loop pattern reads' (if moved then rest else [])
  end.
Definition grep (pattern : list Z) (reads : list (list Z)) : list Z := grep_loop pattern reads [].
End Grep.
