(* ===== verification/UlibSpec.v ===== *)
(** * What the programs of the user library compute

    The matcher of [grep.c] against a declarative semantics of patterns, the
    lines [grep] prints, and numbers printed by [printf] and read by [atoi]. *)

From stdpp Require Import base gmap strings list fin_maps.
From Stdlib Require Import ZArith Lia.
From S2P Require Import Prelude Mem Types Ulib.

(** ** Patterns *)
Import Grep.

(** A pattern is a sequence of items; a dot accepts every character. *)
Inductive item := One (c : Z) | Star (c : Z) | End.

Fixpoint parse (re : list Z) : list item :=
  match re with
  | [] => []
  | c :: re1 =>
      match re1 with
      | 42 :: re2 => Star c :: parse re2
      | [] => if c =? 36 then [End] else [One c]
      | _ => One c :: parse re1
      end
  end.

Definition accepts (c t : Z) : Prop := c = 46 \/ c = t.

(** [here is t]: the items match a prefix of [t]. *)
Inductive here : list item -> list Z -> Prop :=
  | here_nil t : here [] t
  | here_end : here [End] []
  | here_one c t is' ts : accepts c t -> here is' ts -> here (One c :: is') (t :: ts)
  | here_star c us is' ts : Forall (accepts c) us -> here is' ts -> here (Star c :: is') (us ++ ts).

Lemma star_dec (re1 : list Z) : (exists re2, re1 = 42 :: re2) \/ head re1 <> Some 42.
Proof.
  destruct re1 as [|d r]; [by right|]. destruct (decide (d = 42)) as [->|E]; [left; eauto|].
  right. intros H. by injection H.
Qed.

Ltac literal d := destruct d as [|d|d]; try done; repeat (destruct d as [d|d|]; try done).

Lemma matchhere_other c re1 text :
  head re1 <> Some 42 ->
  matchhere (c :: re1) text =
  if (c =? 36) && bool_decide (re1 = []) then bool_decide (text = [])
  else match text with [] => false | t :: text' => ((c =? 46) || (c =? t)) && matchhere re1 text' end.
Proof. destruct re1 as [|d r]; [done|]. intros H. assert (Hd : d <> 42) by (intros ->; done). clear H. literal d. Qed.

Lemma parse_other c re1 :
  head re1 <> Some 42 ->
  parse (c :: re1) = if (c =? 36) && bool_decide (re1 = []) then [End] else One c :: parse re1.
Proof.
  destruct re1 as [|d r]; [cbn; by destruct (c =? 36)|]. intros H. assert (Hd : d <> 42) by (intros ->; done). clear H.
  rewrite (bool_decide_eq_false_2 (d :: r = [])) by done. rewrite andb_false_r. literal d.
Qed.

Lemma accepts_spec c t : (c =? 46) || (c =? t) = true <-> accepts c t.
Proof. unfold accepts. rewrite orb_true_iff, !Z.eqb_eq. done. Qed.

Lemma matchstar_spec h c text :
  matchstar h c text = true <-> exists us ts, text = us ++ ts /\ Forall (accepts c) us /\ h ts = true.
Proof.
  induction text as [|t text IH]; cbn [matchstar].
  - rewrite orb_false_r. split; [intros H; by exists [], []|]. by intros ([|] & [|] & E & _ & H).
  - rewrite orb_true_iff, andb_true_iff, IH, (Z.eqb_sym t c), orb_comm, accepts_spec. split.
    + intros [H|[Ha (us & ts & -> & Hu & H)]]; [by exists [], (t :: text)|]. exists (t :: us), ts. split; [done|]. split; [by apply Forall_cons|done].
    + intros ([|u us] & ts & E & Hu & H); cbn in E; [left; by subst|]. injection E as <- ->. right.
      apply Forall_cons in Hu as [Ha Hu]. split; [done|]. by exists us, ts.
Qed.

Lemma matchhere_spec n : forall re text, (length re <= n)%nat -> matchhere re text = true <-> here (parse re) text.
Proof.
  induction n as [|n IH]; intros [|c re1] text Hn; cbn in Hn; try lia.
  - split; [constructor|done].
  - split; [constructor|done].
  - destruct (star_dec re1) as [[re2 ->]|Hs].
    + cbn in Hn. change (matchhere (c :: 42 :: re2) text) with (matchstar (matchhere re2) c text).
      change (parse (c :: 42 :: re2)) with (Star c :: parse re2). rewrite matchstar_spec. split.
      * intros (us & ts & -> & Hu & H). constructor; [done|]. apply IH; [lia|done].
      * inversion 1; subst. eexists _, _. split; [done|]. split; [done|]. apply IH; [lia|done].
    + rewrite (matchhere_other c re1 text Hs), (parse_other c re1 Hs).
      destruct ((c =? 36) && bool_decide (re1 = [])).
      * rewrite bool_decide_eq_true. split; [intros ->; constructor|by inversion 1].
      * destruct text as [|t text]; [split; [done|by inversion 1]|].
        rewrite andb_true_iff, accepts_spec, IH by lia. split; [by intros [??]; constructor|by inversion 1].
Qed.

Lemma match_loop_spec re text :
  match_loop re text = true <-> exists us ts, text = us ++ ts /\ here (parse re) ts.
Proof.
  induction text as [|t text IH]; cbn [match_loop]; rewrite orb_true_iff, (matchhere_spec (length re)) by done.
  - split; [intros [H|H]; [by exists [], []|done]|]. intros ([|] & [|] & E & H); try done. by left.
  - rewrite IH. split.
    + intros [H|(us & ts & -> & H)]; [by exists [], (t :: text)|by exists (t :: us), ts].
    + intros ([|u us] & ts & E & H); cbn in E; [left; by subst|]. injection E as <- ->. right. by exists us, ts.
Qed.

(** C28: The matcher of [grep] decides its pattern language.  On every pattern
    and text it terminates, and it answers yes exactly if the items of the
    pattern match, in order, some part of the text: a character matches itself,
    a dot any character, a star any number of repetitions including none, a
    dollar sign at the end of the pattern only the end of the text, and with a
    caret in front the matched part starts at the start of the text. *)
Theorem match_spec (re text : list Z) :
  matches re text = true <->
  if bool_decide (head re = Some 94) then here (parse (tail re)) text
  else exists us ts, text = us ++ ts /\ here (parse re) ts.
Proof.
  case_bool_decide as H.
  - destruct re as [|c re]; [done|]. injection H as ->. apply (matchhere_spec (length re)). done.
  - rewrite <- match_loop_spec. destruct re as [|c re]; [done|]. assert (Hc : c <> 94) by (intros ->; done). clear H.
    unfold matches. literal c.
Qed.

(** ** The lines [grep] prints *)

(** The complete lines of a text, and what follows the last newline. *)
Fixpoint lines (l : list Z) : list (list Z) * list Z :=
  match l with
  | [] => ([], [])
  | c :: l' =>
      let (ls, r) := lines l' in
      if c =? 10 then ([] :: ls, r)
      else match ls with
           | [] => ([], c :: r)
           | x :: xs => ((c :: x) :: xs, r)
           end
  end.

(** The matching ones, each with its newline. *)
Definition hits (pattern : list Z) (ls : list (list Z)) : list (list Z) := (fun x => x ++ [10]) <$> filter (fun x => matches pattern x = true) ls.
Definition matching (pattern : list Z) (ls : list (list Z)) : list Z := concat (hits pattern ls).

Lemma lines_app a b :
  lines (a ++ b) = (fst (lines a) ++ fst (lines (snd (lines a) ++ b)), snd (lines (snd (lines a) ++ b))).
Proof.
  induction a as [|c a IH]; [cbn; by destruct (lines b)|]. cbn [app lines]. rewrite IH.
  destruct (lines a) as [ls r]. cbn [fst snd]. destruct (c =? 10) eqn:Ec; [done|].
  destruct ls as [|x xs]; [|done]. cbn [fst snd app lines]. rewrite Ec. destruct (lines (r ++ b)) as [[|y ys] r']; done.
Qed.

Lemma lines_rest l : lines (snd (lines l)) = ([], snd (lines l)).
Proof.
  induction l as [|c l IH]; [done|]. cbn [lines]. destruct (lines l) as [ls r]. cbn [snd] in IH.
  destruct (c =? 10) eqn:Ec; [done|]. destruct ls; [|done]. cbn [snd lines]. by rewrite IH, Ec.
Qed.

Lemma lines_rest_elem x l : x ∈ snd (lines l) -> x ∈ l.
Proof.
  induction l as [|c l IH]; [done|]. cbn [lines]. destruct (lines l) as [ls r]. cbn [snd] in IH. rewrite elem_of_cons.
  destruct (c =? 10); [by auto|]. destruct ls; cbn [snd]; [rewrite elem_of_cons|]; tauto.
Qed.

Lemma lines_newline l : 10 ∈ l -> fst (lines l) <> [].
Proof.
  induction l as [|c l IH]; [by intros ?%not_elem_of_nil|]. cbn [lines]. destruct (lines l) as [ls r].
  destruct (Z.eqb_spec c 10) as [Ec|Ec]; [done|]. intros [?|H]%elem_of_cons; [congruence|].
  destruct ls; [by destruct (IH H)|done].
Qed.

Lemma strchr_lines p :
  0 ∉ p ->
  match Ulib.strchr p 10 with
  | None => lines p = ([], p)
  | Some q => lines p = (take q p :: fst (lines (drop (S q) p)), snd (lines (drop (S q) p))) /\ (q < length p)%nat
  end.
Proof.
  induction p as [|d p IH]; [done|]. rewrite not_elem_of_cons. intros [H0 Hp]. specialize (IH Hp). cbn [Ulib.strchr].
  destruct (Z.eqb_spec d 0); [congruence|]. destruct (Z.eqb_spec d 10) as [->|Hd].
  - cbn. rewrite drop_0. destruct (lines p). split; [done|lia].
  - cbn [lines]. destruct (Ulib.strchr p 10) as [q|]; cbn [fmap option_fmap option_map].
    + destruct IH as [-> Hq]. destruct (Z.eqb_spec d 10); [done|]. cbn. split; [done|lia].
    + rewrite IH. by destruct (Z.eqb_spec d 10).
Qed.

Lemma scan_lines fuel pattern : forall p moved,
  0 ∉ p -> (length p < fuel)%nat ->
  scan fuel pattern p moved =
  (hits pattern (fst (lines p)), snd (lines p), moved || bool_decide (fst (lines p) <> [])).
Proof.
  induction fuel as [|fuel IH]; intros p moved H0 Hf; [lia|]. cbn [scan]. pose proof (strchr_lines p H0) as H.
  destruct (Ulib.strchr p 10) as [q|].
  - destruct H as [-> Hq]. rewrite IH; [|intros H; apply H0; by apply (subseteq_drop (S q))|rewrite length_drop; lia].
    cbn [fst snd orb]. rewrite (bool_decide_eq_true_2 (_ :: _ <> [])), orb_true_r by done.
    unfold hits. rewrite filter_cons. by destruct (matches pattern (take q p)); case_decide.
  - rewrite H. cbn. by rewrite orb_false_r.
Qed.

Lemma matching_app pattern a b : matching pattern (a ++ b) = matching pattern a ++ matching pattern b.
Proof. unfold matching, hits. by rewrite filter_app, fmap_app, concat_app. Qed.

Lemma grep_loop_lines pattern reads : forall buf,
  lines buf = ([], buf) -> 0 ∉ buf -> Forall (fun n => 10 ∈ n /\ 0 ∉ n) reads ->
  grep_loop pattern reads buf = matching pattern (fst (lines (buf ++ concat reads))).
Proof.
  induction reads as [|n reads IH]; intros buf Hb H0 Hr; [cbn; by rewrite app_nil_r, Hb|].
  apply Forall_cons in Hr as [[Hn Hz] Hr]. cbn [grep_loop concat]. destruct n as [|x n]; [by apply not_elem_of_nil in Hn|].
  remember (x :: n) as m eqn:Em. assert (H0' : 0 ∉ buf ++ m) by (rewrite elem_of_app; tauto).
  rewrite scan_lines by (done || lia). cbn [orb]. fold (matching pattern (fst (lines (buf ++ m)))).
  rewrite bool_decide_eq_true_2 by (apply lines_newline, elem_of_app; by right).
  rewrite app_assoc, (lines_app (buf ++ m)). cbn [fst]. rewrite matching_app. f_equal.
  apply IH; [apply lines_rest|by intros ?%lines_rest_elem|done].
Qed.

(** [grep] prints exactly the matching lines.  When every [read] returns
    some text with at least one newline, however the text is cut into reads,
    the output is the matching complete lines of the whole input, in order and
    each with its newline; a line that is split over two reads is put together
    again. *)
Theorem grep_spec (pattern : list Z) (reads : list (list Z)) :
  Forall (fun n => 10 ∈ n /\ 0 ∉ n) reads ->
  grep pattern reads = matching pattern (fst (lines (concat reads))).
Proof. intros H. apply (grep_loop_lines pattern reads []); [done|by apply not_elem_of_nil|done]. Qed.

Lemma grep_spec_witness :
  Forall (fun n : list Z => 10 ∈ n /\ 0 ∉ n) [[97; 10; 98]; [99; 10; 97]] /\
  grep [98; 42; 99; 36] [[97; 10; 98]; [99; 10; 97]] = [98; 99; 10].
Proof.
  assert (H : Forall (fun n : list Z => 10 ∈ n /\ 0 ∉ n) [[97; 10; 98]; [99; 10; 97]]).
  { repeat constructor; apply (bool_decide_unpack _); vm_compute; exact I. }
  split; [exact H|]. rewrite (grep_spec [98; 42; 99; 36] _ H). vm_compute. reflexivity.
Defined.

(** A read without a newline is thrown away: the input is one line "abc", which
    the pattern "abc" matches, but it arrives in two reads and is not printed. *)
Example grep_drops_partial :
  grep [97; 98; 99] [[97; 98; 99; 10]] = [97; 98; 99; 10] /\ grep [97; 98; 99] [[97; 98]; [99; 10]] = [].
Proof. vm_compute. done. Qed.

(** ** Memory *)

(** [memmove] is right if the destination is not above the source inside it;
    this is how [grep] and [ls] call it. *)
Lemma ulib_memmove_up m d s n a : 0 <= n -> d <= s \/ s + n <= d ->
  ld8 (Ulib.ulib_memmove m d s n) a = if decide (d <= a < d + n) then ld8 m (s + (a - d)) else ld8 m a.
Proof. intros Hn Hd. unfold Ulib.ulib_memmove. rewrite ld8_copy_up by lia. rewrite Z2Nat.id by done. done. Qed.

(** Otherwise what it copies may be what it has just written: moving three bytes
    up by one gives the first of them three times. *)
Example ulib_memmove_overlap :
  let m := st8 (st8 (st8 ∅ 8 1) 9 2) 10 3 in
  ld8 (Ulib.ulib_memmove m 9 8 3) <$> [9; 10; 11] = [1; 1; 1] /\ ld8 (memmove m 9 8 3) <$> [9; 10; 11] = [1; 2; 3].
Proof. vm_compute. done. Qed.

(** [strcpy] copies the string with its zero, and nothing else. *)
Lemma strcpy_run n : forall m s t, (forall k, 0 <= k < Z.of_nat n -> ld8 m (t + k) <> 0) -> ld8 m (t + Z.of_nat n) = 0 -> s + Z.of_nat n < t \/ t + Z.of_nat n < s ->
  exists m', Ulib.strcpy (S n) m s t = Some m' /\ forall a, ld8 m' a = if decide (s <= a <= s + Z.of_nat n) then ld8 m (t + (a - s)) else ld8 m a.
Proof.
  induction n as [|n IH]; intros m s t Hn Hz Hd; cbn [Ulib.strcpy].
  - rewrite Z.add_0_r in Hz. rewrite Hz. change (c_true 0) with false. cbv iota. eexists. split; [done|]. intros a. rewrite ld8_st8.
    repeat case_decide; try lia; try done. subst. by rewrite Z.sub_diag, Z.add_0_r, Hz.
  - pose proof (Hn 0 ltac:(lia)) as H0. rewrite Z.add_0_r in H0. rewrite (proj2 (c_true_true _) H0).
    destruct (IH (st8 m s (ld8 m t)) (s + 1) (t + 1)) as (m' & E & H).
    + intros k Hk. rewrite ld8_st8_ne by lia. replace (t + 1 + k) with (t + (k + 1)) by lia. apply Hn. lia.
    + rewrite ld8_st8_ne by lia. by replace (t + 1 + Z.of_nat n) with (t + Z.of_nat (S n)) by lia.
    + lia.
    + exists m'. split; [done|]. intros a. rewrite H, !ld8_st8, u8_ld8. repeat case_decide; try lia; try done; f_equal; lia.
Qed.

(** ** Numbers *)
Import Ulib Printf.

Lemma atoi_digits k : forall x t,
  0 <= x < 10 ^ Z.of_nat k -> x < 2147483648 -> (0 < k)%nat ->
  atoi_loop (rev (digits_of k x 10) ++ t) 0 = atoi_loop t x.
Proof.
  induction k as [|k IH]; intros x t Hx Hm Hk; [lia|]. cbn [digits_of rev]. rewrite <- app_assoc. cbn [app].
  pose proof (Z.div_mod x 10 ltac:(lia)) as Hdm. pose proof (Z.mod_pos_bound x 10 ltac:(lia)) as Hr.
  set (r := x mod 10) in *. set (q := x / 10) in *.
  assert (Hd : forall n, atoi_loop (digit r :: t) n = atoi_loop t (i32 (n * 10 + r))).
  { intros n. unfold digit. destruct (Z.ltb_spec r 10); [|lia]. cbn [atoi_loop].
    destruct (Z.leb_spec 48 (48 + r)), (Z.leb_spec (48 + r) 57); try lia. cbn [andb]. do 2 f_equal. lia. }
  destruct (Z.eqb_spec q 0) as [Hq|Hq].
  - cbn [rev app]. rewrite Hd, i32_id by lia. f_equal. lia.
  - rewrite Nat2Z.inj_succ, Z.pow_succ_r in Hx by lia. assert (k <> 0%nat) by (intros ->; cbn in Hx; lia).
    rewrite IH by lia. rewrite Hd, i32_id by lia. f_equal. lia.
Qed.

Lemma length_digits k : forall x base m,
  2 <= base -> 0 <= x < base ^ Z.of_nat m -> (0 < m)%nat -> (length (digits_of k x base) <= m)%nat.
Proof.
  induction k as [|k IH]; intros x base m Hb Hx Hm; [cbn; lia|]. cbn [digits_of length].
  destruct (Z.eqb_spec (x / base) 0) as [Hq|Hq]; [cbn; lia|].
  destruct m as [|[|m]]; [lia|rewrite Z.div_small in Hq by (cbn in Hx; lia); done|].
  pose proof (IH (x / base) base (S m) Hb) as H. rewrite Nat2Z.inj_succ, Z.pow_succ_r in Hx by lia.
  enough (length (digits_of k (x / base) base) <= S m)%nat by lia. apply H; [|lia].
  split; [apply Z.div_pos; lia|]. apply Z.div_lt_upper_bound; lia.
Qed.

(** A number that is printed reads back.  [atoi] of what [printf] prints for
    a number that is not negative is the number, whatever follows it that is
    not a digit, and of a negative one 0; and no number overflows the buffer of [printint], in decimal
    or in hexadecimal. *)
Theorem atoi_printint (xx : Z) (rest : list Z) :
  -2147483648 <= xx < 2147483648 ->
  match rest with [] => True | c :: _ => c < 48 \/ 57 < c end ->
  (exists out, printf [37; 100] [AInt xx] = Some out /\ atoi (out ++ rest) = if xx <? 0 then 0 else xx) /\
  (length (printint xx 10 true) <= 16)%nat /\ (length (printint xx 16 false) <= 16)%nat.
Proof.
  intros Hx Hrest. split.
  - exists (printint xx 10 true). split; [cbn; by rewrite app_nil_r, i32_id|].
    unfold printint, atoi. destruct (Z.ltb_spec xx 0) as [Hn|Hn]; cbn [andb].
    + rewrite rev_app_distr. cbn [rev app]. done.
    + rewrite app_nil_r, u32_id by lia. rewrite atoi_digits; [|cbn; lia|lia|lia].
      destruct rest as [|c r]; [done|]. cbn [atoi_loop]. destruct (Z.leb_spec 48 c), (Z.leb_spec c 57); try done. lia.
  - assert (Hu : forall y, 0 <= u32 y < 4294967296) by (intros y; apply Z.mod_pos_bound; lia).
    assert (Hl : forall y, (length (digits_of 32 (u32 y) 10) <= 10)%nat /\ (length (digits_of 32 (u32 y) 16) <= 8)%nat).
    { intros y. specialize (Hu y). split; apply length_digits; cbn; lia. }
    unfold printint. rewrite !length_rev, !length_app. pose proof (Hl xx). pose proof (Hl (- xx)).
    destruct (xx <? 0); cbn [andb length]; lia.
Qed.

Lemma atoi_printint_witness :
  (exists out, printf [37; 100] [AInt 2147483647] = Some out /\ atoi (out ++ [10]) = if 2147483647 <? 0 then 0 else 2147483647) /\
  (length (printint 2147483647 10 true) <= 16)%nat /\ (length (printint 2147483647 16 false) <= 16)%nat.
Proof. apply atoi_printint; [lia|left; lia]. Defined.
