(* ===== verification/Sh.v ===== *)
(** * The shell

    [sh.c]: the parser of command lines and what the processes of a command do.
    A line is the list of its characters without the final zero; a pointer into
    it is an index, and [char_at] reads the zero at the end.  The pointer [*ps]
    of the parser is its state.  A command is a tree over its words; the parser
    builds it with the bounds of the words in the line, and [nulterminate]
    writes the zeros that make strings of them.  The nodes come from [malloc],
    whose failure the code does not test; here it succeeds. *)

From stdpp Require Import base gmap strings list fin_maps.
From Stdlib Require Import ZArith Lia.
From S2P Require Import Prelude Mem Types Ulib.

(** ** Commands *)
Inductive cmd (W : Type) :=
| EXEC (argv : list W)
| REDIR (c : cmd W) (file : W) (mode fd : Z)
| PIPE (l r : cmd W)
| LIST (l r : cmd W)
| BACK (c : cmd W).
Arguments EXEC {W} argv.
Arguments REDIR {W} c file mode fd.
Arguments PIPE {W} l r.
Arguments LIST {W} l r.
Arguments BACK {W} c.

Definition MAXARGS : nat := 10.

(** ** Tokens *)
Definition whitespace : list Z := [32; 9; 13; 10; 11].
Definition symbols : list Z := [60; 124; 62; 38; 59; 40; 41].
Definition in_set (set : list Z) (c : Z) : bool := bool_decide (is_Some (Ulib.strchr set c)).

(** The number of characters a loop [while(s < es && f) s++] passes. *)
Fixpoint span (f : Z -> bool) (l : list Z) : nat :=
  match l with
  | c :: l' => if f c then S (span f l') else O
  | [] => O
  end.

Section Parser.
Variable line : list Z.

Definition char_at (s : nat) : Z := default 0 (line !! s).
Definition skip (f : Z -> bool) (s : nat) : nat := (s + span f (drop s line))%nat.
Definition skip_space : nat -> nat := skip (in_set whitespace).
Definition word_char (c : Z) : bool := negb (in_set whitespace c) && negb (in_set symbols c).

(** The token and its bounds. *)
Definition gettoken : K nat (Z * (nat * nat)) := fun s0 =>
  let q := skip_space s0 in
  let c := char_at q in
  let '(ret, eq) :=
    if c =? 0 then (0, q)
    else if in_set [124; 40; 41; 59; 38; 60] c then (c, S q)
    else if c =? 62 then (if char_at (S q) =? 62 then (43, S (S q)) else (62, S q))
    else (97, skip word_char q) in
  Ret (ret, (q, eq)) (skip_space eq).

Definition peek (toks : list Z) : K nat bool := fun s0 =>
  let s := skip_space s0 in
  Ret (negb (char_at s =? 0) && in_set toks (char_at s)) s.

(** ** The parser

    Every turn of a loop takes a token, so that the length of the line is
    enough fuel. *)
Fixpoint parseredirs_loop (fuel : nat) (c : cmd (nat * nat)) : K nat (cmd (nat * nat)) :=
  match fuel with
  | O => NoFuel
  | S k =>
      p <- peek [60; 62] ;;
      if negb p then kret c else
      t <- gettoken ;;
      f <- gettoken ;;
      if negb (fst f =? 97) then kpanic "missing file for redirection" else
      parseredirs_loop k
        (if fst t =? 60 then REDIR c (snd f) O_RDONLY 0
         else if fst t =? 62 then REDIR c (snd f) (Z.lor O_WRONLY O_CREATE) 1
         else if fst t =? 43 then REDIR c (snd f) (Z.lor O_WRONLY O_CREATE) 1
         else c)
  end.
Definition parseredirs : cmd (nat * nat) -> K nat (cmd (nat * nat)) := parseredirs_loop (S (length line)).

(** [cmd->argv[argc] = q]: the node [cmd] is inside the redirections of [ret]. *)
Fixpoint add_arg (ret : cmd (nat * nat)) (w : nat * nat) : cmd (nat * nat) :=
  match ret with
  | EXEC argv => EXEC (argv ++ [w])
  | REDIR c f m d => REDIR (add_arg c w) f m d
  | c => c
  end.

Fixpoint parseargs (fuel argc : nat) (ret : cmd (nat * nat)) : K nat (cmd (nat * nat)) :=
  match fuel with
  | O => NoFuel
  | S k =>
      p <- peek [124; 41; 38; 59] ;;
      if p : bool then kret ret else
      t <- gettoken ;;
      if fst t =? 0 then kret ret else
      if negb (fst t =? 97) then kpanic "syntax" else
      let ret := add_arg ret (snd t) in
      if (MAXARGS <=? S argc)%nat then kpanic "too many args" else
      ret <- parseredirs ret ;;
      parseargs k (S argc) ret
  end.

(** [while(peek(ps, es, "&"))] of [parseline]. *)
Fixpoint parseback (fuel : nat) (c : cmd (nat * nat)) : K nat (cmd (nat * nat)) :=
  match fuel with
  | O => NoFuel
  | S k =>
      p <- peek [38] ;;
      if p : bool then gettoken ;;; parseback k (BACK c) else kret c
  end.

Fixpoint parseline (fuel : nat) : K nat (cmd (nat * nat)) :=
  match fuel with
  | O => NoFuel
  | S k =>
      c <- parsepipe k ;;
      c <- parseback (S (length line)) c ;;
      p <- peek [59] ;;
      if p : bool then gettoken ;;; r <- parseline k ;; kret (LIST c r) else kret c
  end
with parsepipe (fuel : nat) : K nat (cmd (nat * nat)) :=
  match fuel with
  | O => NoFuel
  | S k =>
      c <- parseexec k ;;
      p <- peek [124] ;;
      if p : bool then gettoken ;;; r <- parsepipe k ;; kret (PIPE c r) else kret c
  end
with parseexec (fuel : nat) : K nat (cmd (nat * nat)) :=
  match fuel with
  | O => NoFuel
  | S k =>
      p <- peek [40] ;;
      if p : bool then parseblock k else
      ret <- parseredirs (EXEC []) ;;
      parseargs (S (length line)) 0 ret
  end
with parseblock (fuel : nat) : K nat (cmd (nat * nat)) :=
  match fuel with
  | O => NoFuel
  | S k =>
      p <- peek [40] ;;
      if negb p then kpanic "parseblock" else
      gettoken ;;;
      c <- parseline k ;;
      p <- peek [41] ;;
      if negb p then kpanic "syntax - missing )" else
      gettoken ;;;
      parseredirs c
  end.

(** ** Strings *)
Fixpoint nulterminate (buf : list Z) (c : cmd (nat * nat)) : list Z :=
  match c with
  | EXEC argv => foldl (fun b w => <[snd w := 0]> b) buf argv
  | REDIR c f _ _ => <[snd f := 0]> (nulterminate buf c)
  | PIPE l r => nulterminate (nulterminate buf l) r
  | LIST l r => nulterminate (nulterminate buf l) r
  | BACK c => nulterminate buf c
  end.

(** The tree and the line with the zeros, its own final one included. *)
Definition parsecmd : K nat (cmd (nat * nat) * list Z) :=
  c <- parseline (4 * length line + 4) ;;
  peek [] ;;;
  s <- kget id ;;
  if negb (s =? length line)%nat then kpanic "syntax" else
  kret (c, nulterminate (line ++ [0]) c).
End Parser.

(** The string at an index of a buffer. *)
Definition cstring (buf : list Z) (s : nat) : list Z := take (span (fun c => negb (c =? 0)) (drop s buf)) (drop s buf).

Fixpoint cmd_map {A B : Type} (f : A -> B) (c : cmd A) : cmd B :=
  match c with
  | EXEC argv => EXEC (f <$> argv)
  | REDIR c w m d => REDIR (cmd_map f c) (f w) m d
  | PIPE l r => PIPE (cmd_map f l) (cmd_map f r)
  | LIST l r => LIST (cmd_map f l) (cmd_map f r)
  | BACK c => BACK (cmd_map f c)
  end.

(** ** Running a command

    The system calls of a process in their order; a call with a result goes on
    with it.  [Fork child parent]; [Exec] goes on only if it fails. *)
Inductive calls :=
| Exit
| Exec (argv : list (list Z)) (k : calls)
| Print (msg : string) (k : calls)
| Close (fd : Z) (k : calls)
| Dup (fd : Z) (k : calls)
| Open (file : list Z) (mode : Z) (k : Z -> calls)
| Pipe (k : option (Z * Z) -> calls)
| Fork (child parent failed : calls)
| Wait (k : calls).

Definition sh_panic (msg : string) : calls := Print msg Exit.
Definition fork1 (child parent : calls) : calls := Fork child parent (sh_panic "fork").

Fixpoint runcmd (c : cmd (list Z)) : calls :=
  match c with
  | EXEC argv =>
      match argv with
      | [] => Exit
      | _ => Exec argv (Print "exec failed" Exit)
      end
  | REDIR c file mode fd =>
      Close fd (Open file mode (fun r => if r <? 0 then Print "open failed" Exit else runcmd c))
  | LIST l r => fork1 (runcmd l) (Wait (runcmd r))
  | PIPE l r =>
      Pipe (fun p =>
        match p with
        | None => sh_panic "pipe"
        | Some (p0, p1) =>
            fork1 (Close 1 (Dup p1 (Close p0 (Close p1 (runcmd l)))))
              (fork1 (Close 0 (Dup p0 (Close p0 (Close p1 (runcmd r)))))
                 (Close p0 (Close p1 (Wait (Wait Exit)))))
        end)
  | BACK c => fork1 (runcmd c) Exit
  end.

(** What the shell does with a line it has read: [cd] is its own work, anything
    else is run by a child. *)
Inductive job := Chdir (path : list Z) | Run (c : cmd (list Z)) | Syntax (msg : string) | Stuck.
Definition main_line (line : list Z) : job :=
  if bool_decide (take 3 line = [99; 100; 32]) then Chdir (drop 3 (take (length line - 1) line)) else
  match parsecmd line 0%nat with
  | Ret (c, buf) _ => Run (cmd_map (fun w => cstring buf (fst w)) c)
  | Panic msg _ => Syntax msg
  | _ => Stuck
  end.

(** The string that [getcmd] leaves in the buffer of [nbuf] characters, and the
    rest of the input; at its end the string is empty. *)
Definition getcmd (nbuf : Z) (input : list (option Z)) : list Z * list (option Z) :=
  let '(buf, rest) := Ulib.gets nbuf input in (cstring (buf ++ [0]) 0, rest).

(** The loop of [main] over the lines of the input; [gets] takes at least one
    character of an input that has not ended. *)
Fixpoint sh_loop (fuel : nat) (input : list (option Z)) : list job :=
  match fuel with
  | O => []
  | S k =>
      let '(line, rest) := getcmd 100 input in
      match line with
      | [] => []
      | _ => main_line line :: sh_loop k rest
      end
  end.
Definition sh_jobs (input : list (option Z)) : list job := sh_loop (S (length input)) input.
