(* ===== verification/ShSpec.v ===== *)
(** * The shell: parsing and running commands

    The parser ends on every line and the words of its result are strings of the
    line; it reads back every command that is printed in its syntax; and the
    processes of a command have the descriptors they should have. *)

From stdpp Require Import base gmap strings list fin_maps.
From Stdlib Require Import ZArith Lia.
From S2P Require Import Prelude Mem Types Ulib Sh.

(** ** Spans of characters *)
Lemma span_le f l : (span f l <= length l)%nat.
Proof. induction l as [|c l IH]; cbn; [done|]. destruct (f c); lia. Qed.

Lemma span_all f l i c : (i < span f l)%nat -> l !! i = Some c -> f c = true.
Proof.
  revert i. induction l as [|d l IH]; intros i Hi Hc; [done|]. cbn in Hi. destruct (f d) eqn:E; [|lia].
  destruct i as [|i]; cbn in Hc; [by simplify_eq|]. apply (IH i); [lia|done].
Qed.

Lemma span_stop f l c : l !! span f l = Some c -> f c = false.
Proof. induction l as [|d l IH]; cbn; [done|]. destruct (f d) eqn:E; cbn; [done|]. intros H. by simplify_eq. Qed.

Lemma span_app f u c l : Forall (fun x => f x = true) u -> f c = false -> span f (u ++ c :: l) = length u.
Proof. intros Hu Hc. induction Hu as [|x u Hx Hu IH]; cbn; [by rewrite Hc|]. by rewrite Hx, IH. Qed.

Lemma in_set_elem set c : 0 ∉ set -> in_set set c = true <-> c ∈ set.
Proof.
  unfold in_set. rewrite bool_decide_eq_true. induction set as [|d set IH]; intros H0; cbn.
  - split; [by intros [? ?]|by intros ?%not_elem_of_nil].
  - apply not_elem_of_cons in H0 as [H0 H1]. destruct (Z.eqb_spec d 0); [done|]. rewrite elem_of_cons.
    destruct (Z.eqb_spec d c) as [->|Hd]; [split; [by left|by eexists]|].
    rewrite fmap_is_Some, IH by done. split; [by right|]. by intros [?|?].
Qed.

Lemma elem_dec_In (set : list Z) c : bool_decide (c ∈ set) = true -> c ∈ set.
Proof. by rewrite bool_decide_eq_true. Qed.

(** ** Runs that return or panic *)

(** [pwp m Q s]: [m] comes to an end from [s], and if it returns, then [Q]. *)
Definition pwp {A} (m : K nat A) (Q : A -> nat -> Prop) (s : nat) : Prop :=
  match m s with
  | Ret a s' => Q a s'
  | Panic _ _ => True
  | _ => False
  end.

Lemma pwp_ret {A} (a : A) Q s : Q a s -> pwp (kret a) Q s.
Proof. done. Qed.

Lemma pwp_panic {A} msg (Q : A -> nat -> Prop) s : pwp (kpanic msg) Q s.
Proof. done. Qed.

Lemma pwp_bind {A B} (m : K nat A) (f : A -> K nat B) Q s : pwp m (fun a => pwp (f a) Q) s -> pwp (kbind m f) Q s.
Proof. unfold pwp, kbind. by destruct (m s). Qed.

Lemma pwp_mono {A} (m : K nat A) (P Q : A -> nat -> Prop) s : pwp m P s -> (forall a s', P a s' -> Q a s') -> pwp m Q s.
Proof. unfold pwp. destruct (m s); auto. Qed.
#[local] Hint Resolve pwp_ret pwp_panic : kern.

Section Safe.
Variable line : list Z.
Hypothesis Hline : 0 ∉ line.
Local Notation len := (length line).
Local Notation char_at := (char_at line).

Lemma char_at_lt s c : line !! s = Some c -> char_at s = c.
Proof. unfold Sh.char_at. by intros ->. Qed.

Lemma char_at_end s : (s <= len)%nat -> char_at s = 0 <-> s = len.
Proof.
  intros Hs. unfold Sh.char_at. split.
  - intros H. destruct (decide (s < len)%nat) as [Hl|]; [|lia]. destruct (lookup_lt_is_Some_2 line s Hl) as [c Hc].
    rewrite Hc in H. cbn in H. subst. exfalso. apply Hline. by eapply list_elem_of_lookup_2.
  - intros ->. by rewrite lookup_ge_None_2.
Qed.

Lemma skip_spec f s :
  (s <= len)%nat ->
  (s <= skip line f s <= len)%nat /\ (forall i, (s <= i < skip line f s)%nat -> f (char_at i) = true) /\
  ((skip line f s < len)%nat -> f (char_at (skip line f s)) = false).
Proof.
  intros Hs. unfold skip. pose proof (span_le f (drop s line)) as H. rewrite length_drop in H.
  split; [lia|]. split.
  - intros i Hi. destruct (lookup_lt_is_Some_2 line i ltac:(lia)) as [c Hc]. rewrite (char_at_lt i c Hc).
    apply (span_all f (drop s line) (i - s)%nat); [lia|]. rewrite lookup_drop. by replace (s + (i - s))%nat with i by lia.
  - intros Hl. destruct (lookup_lt_is_Some_2 line _ Hl) as [c Hc]. rewrite (char_at_lt _ c Hc).
    apply (span_stop f (drop s line)). by rewrite lookup_drop.
Qed.

(** A word of the line: it ends at its first character that is not one of a word. *)
Definition word_at (w : nat * nat) : Prop :=
  (fst w < snd w <= len)%nat /\ (forall i, (fst w <= i < snd w)%nat -> word_char (char_at i) = true /\ char_at i <> 0) /\
  ((snd w < len)%nat -> word_char (char_at (snd w)) = false).

Lemma gettoken_spec s :
  (s <= len)%nat ->
  exists t q e s', gettoken line s = Ret (t, (q, e)) s' /\ (s <= q <= e)%nat /\ (e <= s' <= len)%nat /\
    (t <> 0 -> (q < e)%nat) /\ (t = 97 -> word_at (q, e)).
Proof.
  intros Hs. unfold gettoken. destruct (skip_spec (in_set whitespace) s Hs) as (Hq & _ & Hstop). fold (skip_space line s) in *.
  set (q := skip_space line s) in *. set (c := char_at q).
  assert (Hend : forall t e, (q <= e <= len)%nat -> (t <> 0 -> (q < e)%nat) -> (t = 97 -> word_at (q, e)) ->
    exists t' q' e' s', Ret (t, (q, e)) (skip_space line e) = Ret (t', (q', e')) s' /\ (s <= q' <= e')%nat /\ (e' <= s' <= len)%nat /\
      (t' <> 0 -> (q' < e')%nat) /\ (t' = 97 -> word_at (q', e'))).
  { intros t e He H1 H2. destruct (skip_spec (in_set whitespace) e (proj2 He)) as (He' & _). fold (skip_space line e) in He'.
    exists t, q, e, (skip_space line e). split; [done|]. split; [lia|]. split; [lia|]. done. }
  destruct (Z.eqb_spec c 0) as [Hc|Hc]; [apply Hend; [lia|done|done]|].
  assert (Hql : (q < len)%nat). { destruct (decide (q = len)) as [E|]; [|lia]. destruct Hc. exact (proj2 (char_at_end q ltac:(lia)) E). }
  destruct (in_set [124; 40; 41; 59; 38; 60] c) eqn:Es.
  { apply Hend; [lia|lia|]. intros E. rewrite E in Es. vm_compute in Es. done. }
  destruct (Z.eqb_spec c 62) as [E62|E62].
  { destruct (Z.eqb_spec (char_at (S q)) 62) as [E|E]; (apply Hend; [|lia|done]); [|lia].
    destruct (decide (S q = len)) as [E'|]; [|lia]. rewrite (proj2 (char_at_end (S q) ltac:(lia)) E') in E. done. }
  destruct (skip_spec word_char q ltac:(lia)) as (Hw & Hall & Hwstop).
  assert (Hqe : (q < skip line word_char q)%nat).
  { destruct (decide (q = skip line word_char q)) as [E|]; [|lia]. rewrite <- E in Hwstop. specialize (Hwstop Hql).
    fold c in Hwstop. unfold word_char in Hwstop. specialize (Hstop Hql). fold c in Hstop. rewrite Hstop in Hwstop. cbn in Hwstop.
    apply negb_false_iff, in_set_elem in Hwstop; [|apply (bool_decide_unpack _); by vm_compute].
    rewrite <- not_true_iff_false, in_set_elem in Es by (apply (bool_decide_unpack _); by vm_compute).
    destruct Es. unfold symbols in Hwstop. rewrite !elem_of_cons in *. tauto. }
  apply Hend; [lia|lia|]. intros _. split; [cbn; lia|]. split; [|done].
  cbn. intros i Hi. split; [by apply Hall|]. intros E. apply char_at_end in E; lia.
Qed.

Lemma pwp_gettoken s Q :
  (s <= len)%nat ->
  (forall t w s', (s <= s' <= len)%nat -> ((s < len)%nat -> (s < s')%nat) -> (t = 97 -> word_at w) ->
     (t <> 0 -> (s < s')%nat) -> Q (t, w) s') ->
  pwp (gettoken line) Q s.
Proof.
  intros Hs H. unfold pwp. destruct (gettoken_spec s Hs) as (t & q & e & s' & E & H1 & H2 & H3 & H4). rewrite E.
  assert (Ht : t = 0 -> q = len).
  { intros ->. unfold gettoken in E. destruct (skip_spec (in_set whitespace) s Hs) as (Hq & _). fold (skip_space line s) in *.
    destruct (Z.eqb_spec (char_at (skip_space line s)) 0) as [Hc|Hc].
    - injection E as <- _ _. exact (proj1 (char_at_end _ (proj2 Hq)) Hc).
    - exfalso. destruct (in_set _ _); [by injection E|]. destruct (_ =? 62); [destruct (_ =? 62)|]; by injection E. }
  apply H; [lia| |done|lia]. intros Hl. destruct (decide (t = 0)) as [E0|E0]; [rewrite (Ht E0) in *; lia|]. specialize (H3 E0). lia.
Qed.

Lemma pwp_peek toks s Q :
  (s <= len)%nat -> (forall b s', (s <= s' <= len)%nat -> (b = true -> (s' < len)%nat) -> Q b s') -> pwp (peek line toks) Q s.
Proof.
  intros Hs H. unfold pwp, peek. destruct (skip_spec (in_set whitespace) s Hs) as (Hq & _). fold (skip_space line s) in *.
  apply H; [done|]. intros [Hb _]%andb_true_iff. apply negb_true_iff, Z.eqb_neq in Hb.
  destruct (decide (skip_space line s = len)) as [E|]; [|lia]. destruct Hb. exact (proj2 (char_at_end _ (proj2 Hq)) E).
Qed.

(** Trees whose words are words of the line, with room for the null pointer
    after the arguments and with redirections of descriptors 0 and 1. *)
Fixpoint cmd_ok (c : cmd (nat * nat)) : Prop :=
  match c with
  | EXEC argv => Forall word_at argv /\ (length argv < MAXARGS)%nat
  | REDIR c f m d => cmd_ok c /\ word_at f /\ (m = O_RDONLY /\ d = 0 \/ m = Z.lor O_WRONLY O_CREATE /\ d = 1)
  | PIPE l r => cmd_ok l /\ cmd_ok r
  | LIST l r => cmd_ok l /\ cmd_ok r
  | BACK c => cmd_ok c
  end.

(** The number of arguments of the command under the redirections. *)
Fixpoint nargs (c : cmd (nat * nat)) : option nat :=
  match c with
  | EXEC argv => Some (length argv)
  | REDIR c _ _ _ => nargs c
  | _ => None
  end.

Lemma nargs_add c w : nargs (add_arg c w) = S <$> nargs c.
Proof. induction c as [argv|c IH f m d|l _ r _|l _ r _|c _]; cbn; [by rewrite length_app, Nat.add_1_r|done..]. Qed.

Lemma cmd_ok_add c w n : cmd_ok c -> word_at w -> nargs c = Some n -> (S n < MAXARGS)%nat -> cmd_ok (add_arg c w).
Proof.
  intros Hc Hw Hn Hlt. induction c as [argv|c IH f m d|l _ r _|l _ r _|c _]; cbn in *; try done.
  - injection Hn as <-. destruct Hc as [Hc _]. split; [apply Forall_app; split; [done|by apply Forall_singleton]|]. rewrite length_app. cbn. lia.
  - destruct Hc. split; [by apply IH|done].
Qed.

Lemma pwp_redirs fuel : forall c s n,
  (s <= len)%nat -> (len - s < fuel)%nat -> cmd_ok c -> nargs c = n ->
  pwp (parseredirs_loop line fuel c) (fun c' s' => (s <= s' <= len)%nat /\ cmd_ok c' /\ nargs c' = n) s.
Proof.
  induction fuel as [|fuel IH]; intros c s n Hs Hf Hc Hn; [lia|]. cbn [parseredirs_loop].
  apply pwp_bind, pwp_peek; [done|]. intros b s1 H1 Hb. destruct b; cbn [negb]; [|by apply pwp_ret].
  specialize (Hb eq_refl). apply pwp_bind, pwp_gettoken; [lia|]. intros t w s2 H2 P2 _ _. specialize (P2 Hb).
  apply pwp_bind, pwp_gettoken; [lia|]. intros t' w' s3 H3 _ W3 _. cbn [fst snd].
  destruct (Z.eqb_spec t' 97) as [E|E]; cbn [negb]; [|apply pwp_panic]. specialize (W3 E).
  eapply pwp_mono; [apply (IH _ s3 n); [lia|lia| |]|].
  - destruct (t =? 60), (t =? 62), (t =? 43); cbn; auto.
  - by destruct (t =? 60), (t =? 62), (t =? 43).
  - intros c' s' (? & ? & ?). split; [lia|done].
Qed.

Lemma pwp_args fuel : forall argc ret s,
  (s <= len)%nat -> (len - s < fuel)%nat -> cmd_ok ret -> nargs ret = Some argc -> (argc < MAXARGS)%nat ->
  pwp (parseargs line fuel argc ret) (fun c' s' => (s <= s' <= len)%nat /\ cmd_ok c') s.
Proof.
  induction fuel as [|fuel IH]; intros argc ret s Hs Hf Hc Hn Hlt; [lia|]. cbn [parseargs].
  apply pwp_bind, pwp_peek; [done|]. intros b s1 H1 _. destruct b; [by apply pwp_ret|].
  apply pwp_bind, pwp_gettoken; [lia|]. intros t w s2 H2 _ W2 P2. cbn [fst snd].
  destruct (Z.eqb_spec t 0) as [E0|E0]; [apply pwp_ret; split; [lia|done]|].
  destruct (Z.eqb_spec t 97) as [E|E]; cbn [negb]; [|apply pwp_panic].
  destruct (Nat.leb_spec MAXARGS (S argc)) as [|Hmax]; [apply pwp_panic|]. specialize (P2 E0).
  apply pwp_bind. eapply pwp_mono; [apply (pwp_redirs _ _ s2 (Some (S argc))); [lia|lia| |by rewrite nargs_add, Hn]|].
  - by apply (cmd_ok_add ret w argc); auto.
  - intros c' s3 (H3 & Hc' & Hn'). eapply pwp_mono; [by apply (IH (S argc) c' s3); auto; lia|]. intros c'' s' (? & ?). split; [lia|done].
Qed.

Lemma pwp_back fuel : forall c s,
  (s <= len)%nat -> (len - s < fuel)%nat -> cmd_ok c ->
  pwp (parseback line fuel c) (fun c' s' => (s <= s' <= len)%nat /\ cmd_ok c') s.
Proof.
  induction fuel as [|fuel IH]; intros c s Hs Hf Hc; [lia|]. cbn [parseback].
  apply pwp_bind, pwp_peek; [done|]. intros b s1 H1 Hb. destruct b; [|by apply pwp_ret]. specialize (Hb eq_refl).
  apply pwp_bind, pwp_gettoken; [lia|]. intros t w s2 H2 P2 _ _. specialize (P2 Hb).
  eapply pwp_mono; [apply (IH _ s2); [lia|lia|done]|]. intros c' s' (? & ?). split; [lia|done].
Qed.

Definition parses (m : K nat (cmd (nat * nat))) (s : nat) : Prop := pwp m (fun c s' => (s <= s' <= len)%nat /\ cmd_ok c) s.

(** The four functions of the grammar, with the fuel they need: a level less
    for each call, and four levels for each parenthesis. *)
Lemma parses_all fuel :
  (forall s, (s <= len)%nat -> (4 * (len - s) + 3 < fuel)%nat -> parses (parseline line fuel) s) /\
  (forall s, (s <= len)%nat -> (4 * (len - s) + 2 < fuel)%nat -> parses (parsepipe line fuel) s) /\
  (forall s, (s <= len)%nat -> (4 * (len - s) + 1 < fuel)%nat -> parses (parseexec line fuel) s) /\
  (forall s, (s <= len)%nat -> (4 * (len - s) + 0 < fuel)%nat -> parses (parseblock line fuel) s).
Proof.
  induction fuel as [|fuel (IHl & IHp & IHe & IHb)]; [split_and!; intros; lia|]. split_and!; intros s Hs Hf; unfold parses.
  - cbn [parseline]. apply pwp_bind. eapply pwp_mono; [apply IHp; lia|]. intros c s1 (H1 & Hc).
    apply pwp_bind. eapply pwp_mono; [apply pwp_back; [lia|lia|done]|]. intros c2 s2 (H2 & Hc2).
    apply pwp_bind, pwp_peek; [lia|]. intros b s3 H3 Hb. destruct b; [|apply pwp_ret; split; [lia|done]]. specialize (Hb eq_refl).
    apply pwp_bind, pwp_gettoken; [lia|]. intros t w s4 H4 P4 _ _. specialize (P4 Hb).
    apply pwp_bind. eapply pwp_mono; [apply IHl; lia|]. intros r s5 (H5 & Hr). apply pwp_ret. split; [lia|done].
  - cbn [parsepipe]. apply pwp_bind. eapply pwp_mono; [apply IHe; lia|]. intros c s1 (H1 & Hc).
    apply pwp_bind, pwp_peek; [lia|]. intros b s3 H3 Hb. destruct b; [|apply pwp_ret; split; [lia|done]]. specialize (Hb eq_refl).
    apply pwp_bind, pwp_gettoken; [lia|]. intros t w s4 H4 P4 _ _. specialize (P4 Hb).
    apply pwp_bind. eapply pwp_mono; [apply IHp; lia|]. intros r s5 (H5 & Hr). apply pwp_ret. split; [lia|done].
  - cbn [parseexec]. apply pwp_bind, pwp_peek; [lia|]. intros b s1 H1 Hb. destruct b.
    + eapply pwp_mono; [apply IHb; lia|]. intros c s2 (? & ?). split; [lia|done].
    + apply pwp_bind. eapply pwp_mono; [apply (pwp_redirs _ _ s1 (Some 0%nat)); [lia|lia| |done]|].
      { split; [constructor|unfold MAXARGS; cbn; lia]. }
      intros c s2 (H2 & Hc & Hn). eapply pwp_mono; [apply (pwp_args _ 0 c s2); [lia|lia|done|done|unfold MAXARGS; lia]|].
      intros c' s' (? & ?). split; [lia|done].
  - cbn [parseblock]. apply pwp_bind, pwp_peek; [lia|]. intros b s1 H1 Hb. destruct b; cbn [negb]; [|apply pwp_panic].
    specialize (Hb eq_refl). apply pwp_bind, pwp_gettoken; [lia|]. intros t w s2 H2 P2 _ _. specialize (P2 Hb).
    apply pwp_bind. eapply pwp_mono; [apply IHl; lia|]. intros c s3 (H3 & Hc).
    apply pwp_bind, pwp_peek; [lia|]. intros b s4 H4 _. destruct b; cbn [negb]; [|apply pwp_panic].
    apply pwp_bind, pwp_gettoken; [lia|]. intros t' w' s5 H5 _ _ _.
    eapply pwp_mono; [apply (pwp_redirs _ c s5 (nargs c)); [lia|lia|done|done]|]. intros c' s' (? & ? & _). split; [lia|done].
Qed.

(** ** Strings *)
Fixpoint words (c : cmd (nat * nat)) : list (nat * nat) :=
  match c with
  | EXEC argv => argv
  | REDIR c f _ _ => words c ++ [f]
  | PIPE l r => words l ++ words r
  | LIST l r => words l ++ words r
  | BACK c => words c
  end.

Definition cut (b : list Z) (ws : list (nat * nat)) : list Z := foldl (fun b w => <[snd w := 0]> b) b ws.

Lemma nulterminate_cut c : forall b, nulterminate b c = cut b (words c).
Proof.
  unfold cut. induction c as [argv|c IH f m d|l IHl r IHr|l IHl r IHr|c IH]; intros b; cbn; rewrite ?foldl_app; [done|by rewrite IH| | |done].
  - by rewrite IHl, IHr.
  - by rewrite IHl, IHr.
Qed.

Lemma cmd_ok_words c : cmd_ok c -> Forall word_at (words c).
Proof.
  induction c as [argv|c IH f m d|l IHl r IHr|l IHl r IHr|c IH]; cbn; rewrite ?Forall_app, ?Forall_singleton; tauto.
Qed.

Lemma length_cut ws : forall b, length (cut b ws) = length b.
Proof. unfold cut. induction ws as [|w ws IH]; intros b; cbn; [done|]. by rewrite IH, length_insert. Qed.

Lemma lookup_cut ws i : forall b, (i < length b)%nat ->
  cut b ws !! i = if bool_decide (i ∈ ws.*2) then Some 0 else b !! i.
Proof.
  unfold cut. induction ws as [|w ws IH]; intros b Hi; cbn [foldl]; [by rewrite bool_decide_eq_false_2 by apply not_elem_of_nil|].
  rewrite IH by (by rewrite length_insert). cbn [fmap list_fmap]. destruct (decide (i ∈ ws.*2)) as [H|H].
  - rewrite !bool_decide_eq_true_2; [done|by right|done].
  - rewrite (bool_decide_eq_false_2 (i ∈ ws.*2)) by done. destruct (decide (i = snd w)) as [->|Hne].
    + rewrite bool_decide_eq_true_2 by left. by apply list_lookup_insert_eq.
    + rewrite bool_decide_eq_false_2 by (rewrite elem_of_cons; tauto). by apply list_lookup_insert_ne.
Qed.

Definition slice (w : nat * nat) : list Z := take (snd w - fst w) (drop (fst w) line).

Lemma cut_string ws w :
  Forall word_at ws -> w ∈ ws -> cstring (cut (line ++ [0]) ws) (fst w) = slice w.
Proof.
  intros Hws Hw. rewrite Forall_forall in Hws. destruct (Hws w Hw) as (H1 & H2 & H3). destruct w as [q e]. cbn [fst snd] in *.
  set (b := cut (line ++ [0]) ws). assert (Hlen : length b = S len) by (unfold b; rewrite length_cut, length_app; cbn; lia).
  assert (Hin : forall i, (q <= i < e)%nat -> b !! i = line !! i).
  { intros i Hi. unfold b. rewrite lookup_cut by (rewrite length_app; lia). rewrite bool_decide_eq_false_2; [by apply lookup_app_l; lia|].
    intros ([q' e'] & E & Hw')%list_elem_of_fmap. cbn in E. subst e'. destruct (Hws _ Hw') as (_ & _ & H3').
    specialize (H3' ltac:(cbn; lia)). cbn in H3'. destruct (H2 i Hi). congruence. }
  assert (Hsplit : drop q b = slice (q, e) ++ 0 :: drop (S e) b).
  { rewrite <- (take_drop (e - q) (drop q b)). f_equal.
    - unfold slice. cbn [fst snd]. apply list_eq. intros i. destruct (decide (i < e - q)%nat); [|by rewrite !lookup_take_ge by lia].
      rewrite !lookup_take_lt, !lookup_drop by lia. apply Hin. lia.
    - rewrite drop_drop. replace (q + (e - q))%nat with e by lia. apply drop_S. unfold b. rewrite lookup_cut by (rewrite length_app; cbn; lia).
      rewrite bool_decide_eq_true_2; [done|]. apply list_elem_of_fmap. by exists (q, e). }
  unfold cstring. rewrite Hsplit. rewrite span_app; [by rewrite take_app_length|apply Forall_forall|done].
  intros c (i & Hi)%list_elem_of_lookup. unfold slice in Hi. cbn [fst snd] in Hi.
  apply lookup_take_Some in Hi as [Hi Hlt]. rewrite lookup_drop in Hi. destruct (H2 (q + i)%nat ltac:(lia)) as [_ Hne].
  rewrite (char_at_lt _ c Hi) in Hne. by apply negb_true_iff, Z.eqb_neq.
Qed.
End Safe.

Lemma words_string (f g : nat * nat -> list Z) c : (forall w, w ∈ words c -> f w = g w) -> cmd_map f c = cmd_map g c.
Proof.
  induction c as [argv|c IH w m d|l IHl r IHr|l IHl r IHr|c IH]; cbn; intros Hstr; f_equal; auto with set_solver.
  - apply list_fmap_ext. intros i w Hw. apply Hstr. by eapply list_elem_of_lookup_2.
Qed.

Lemma pwp_parsecmd line :
  0 ∉ line ->
  pwp (parsecmd line) (fun r s => s = length line /\ length (snd r) = S (length line) /\ cmd_ok line (fst r) /\
    cmd_map (fun w => cstring (snd r) (fst w)) (fst r) = cmd_map (slice line) (fst r)) 0%nat.
Proof.
  intros H0. unfold parsecmd. apply pwp_bind. eapply pwp_mono; [apply (proj1 (parses_all line H0 _)); lia|]. intros c s (Hs & Hc).
  apply pwp_bind, (pwp_peek line H0); [lia|]. intros b s1 H1 _. apply pwp_bind. unfold pwp, kget, id.
  destruct (Nat.eqb_spec s1 (length line)) as [->|]; cbn [negb]; [|done]. cbn [kret fst snd]. split; [done|].
  rewrite nulterminate_cut, length_cut, length_app, Nat.add_1_r. split; [done|]. split; [done|].
  apply words_string. intros w Hw. apply cut_string; [by apply cmd_ok_words|done].
Qed.

(** C25: The parser of the shell is safe on every line.  It always comes to an
    end: it refuses the line, or it returns a tree whose commands have fewer
    than [MAXARGS] arguments, so that the null pointer fits behind them, and
    which redirects the descriptors 0, for reading, and 1 only; and after
    [nulterminate] every word of the tree is, as a string, the text of the word
    in the line, although the zeros are written into the line itself. *)
Theorem parsecmd_safe (line : list Z) :
  0 ∉ line ->
  match parsecmd line 0%nat with
  | Ret (c, buf) s => s = length line /\ length buf = S (length line) /\ cmd_ok line c /\
      cmd_map (fun w => cstring buf (fst w)) c = cmd_map (slice line) c
  | Panic _ _ => True
  | _ => False
  end.
Proof.
  intros H0. pose proof (pwp_parsecmd line H0) as H. unfold pwp in H. by destruct (parsecmd line 0%nat) as [[c b] s|msg s|w s|s|s k|s].
Qed.

(** [ls < a | (wc ; x) > b &] *)
Definition demo_line : list Z := [108; 115; 32; 60; 32; 97; 32; 124; 32; 40; 119; 99; 32; 59; 32; 120; 41; 32; 62; 32; 98; 32; 38].

Lemma parsecmd_safe_witness :
  main_line demo_line = Run (BACK (PIPE (REDIR (EXEC [[108; 115]]) [97] 0 0) (REDIR (LIST (EXEC [[119; 99]]) (EXEC [[120]])) [98] 513 1))) /\
  match parsecmd demo_line 0%nat with
  | Ret (c, buf) s => s = length demo_line /\ length buf = S (length demo_line) /\ cmd_ok demo_line c /\
      cmd_map (fun w => cstring buf (fst w)) c = cmd_map (slice demo_line) c
  | Panic _ _ => True
  | _ => False
  end.
Proof. split; [by vm_compute|]. apply (parsecmd_safe demo_line). apply (bool_decide_unpack _). by vm_compute. Defined.

(** ** Printing commands

    The tokens of a command; the level says how tightly the context binds: 0 for
    a line, 1 under a background mark, 2 in a pipeline, 3 for one command. *)
Definition redir_sign (fd : Z) : list Z := if fd =? 0 then [60] else [62].
Definition paren (b : bool) (ts : list (list Z)) : list (list Z) := if b then [40] :: ts ++ [[41]] else ts.
Fixpoint show (t : cmd (list Z)) (lvl : nat) : list (list Z) :=
  match t with
  | EXEC argv => argv
  | REDIR c f _ d => show c 3 ++ [redir_sign d; f]
  | PIPE l r => paren (2 <? lvl)%nat (show l 3 ++ [124] :: show r 2)
  | BACK c => paren (1 <? lvl)%nat (show c 1 ++ [[38]])
  | LIST l r => paren (0 <? lvl)%nat (show l 1 ++ [59] :: show r 0)
  end.
Definition encode (ts : list (list Z)) : list Z := concat ((fun t => t ++ [32]) <$> ts).

Definition word_ok (w : list Z) : Prop := w <> [] /\ Forall (fun c => word_char c = true /\ c <> 0) w.
Fixpoint printable (t : cmd (list Z)) : Prop :=
  match t with
  | EXEC argv => Forall word_ok argv /\ (length argv < MAXARGS)%nat
  | REDIR c f m d => printable c /\ word_ok f /\ (m = O_RDONLY /\ d = 0 \/ m = Z.lor O_WRONLY O_CREATE /\ d = 1)
  | PIPE l r => printable l /\ printable r
  | LIST l r => printable l /\ printable r
  | BACK c => printable c
  end.

Definition token_ok (t : list Z) : Prop := word_ok t \/ exists c, t = [c] /\ c ∈ symbols.

Lemma symbol_facts c : c ∈ symbols -> in_set whitespace c = false /\ c <> 0 /\ word_char c = false.
Proof. unfold symbols. rewrite !elem_of_cons, elem_of_nil. intros H. repeat destruct H as [->|H]; done. Qed.

Lemma token_head t : token_ok t -> exists c t', t = c :: t' /\ in_set whitespace c = false /\ c <> 0.
Proof.
  intros [[Hn Hw]|(c & -> & Hc)].
  - destruct t as [|c t]; [done|]. apply Forall_cons in Hw as [[H1 H2] _]. exists c, t. split; [done|].
    unfold word_char in H1. apply andb_true_iff in H1 as [H1%negb_true_iff _]. done.
  - destruct (symbol_facts c Hc) as (? & ? & _). by exists c, [].
Qed.

#[local] Arguments skip_space : simpl never.
#[local] Arguments in_set : simpl never.

(** Tests of characters that are given. *)
Ltac decide_sets :=
  repeat match goal with
  | |- context [in_set ?l ?c] => let v := eval vm_compute in (in_set l c) in change (in_set l c) with v
  | |- context [Z.eqb ?a ?b] => let v := eval vm_compute in (Z.eqb a b) in
      match v with true => change (Z.eqb a b) with true | false => change (Z.eqb a b) with false end
  end; cbv zeta iota.

(** The characters in which the tokens are given. *)
Section Read.
Variable line : list Z.
Local Notation len := (length line).

Record rest_at (s : nat) (ts : list (list Z)) : Prop := {
  at_le : (s <= len)%nat;
  at_drop : drop s line = encode ts;
  at_ok : Forall token_ok ts
}.

Lemma at_skip s ts : rest_at s ts -> skip_space line s = s.
Proof.
  intros [H1 H2 H3]. unfold skip_space, skip. rewrite H2. destruct H3 as [|t ts Ht _]; [cbn; lia|].
  destruct (token_head t Ht) as (c & t' & -> & Hc & _). cbn. rewrite Hc. lia.
Qed.

Lemma at_char s ts : rest_at s ts -> char_at line s = match ts with t :: _ => default 0 (head t) | [] => 0 end.
Proof.
  intros [H1 H2 H3]. unfold char_at. rewrite <- (Nat.add_0_r s), <- lookup_drop, H2. destruct H3 as [|t ts Ht _]; [done|].
  destruct (token_head t Ht) as (c & t' & -> & _). done.
Qed.

Lemma at_next s t ts : rest_at s (t :: ts) -> rest_at (s + length t + 1) ts /\ (s + length t < len)%nat /\
  char_at line (s + length t) = 32 /\ slice line (s, s + length t)%nat = t.
Proof.
  intros [H1 H2 H3]. apply Forall_cons in H3 as [Ht H3].
  change (encode (t :: ts)) with ((t ++ [32]) ++ encode ts) in H2. rewrite <- app_assoc in H2.
  assert (Hl : (len - s = length t + 1 + length (encode ts))%nat).
  { rewrite <- length_drop, H2, !length_app. cbn. lia. }
  split; [split; [lia| |done]|].
  - replace (s + length t + 1)%nat with (s + (length t + 1))%nat by lia. rewrite <- drop_drop, H2, app_assoc.
    by rewrite drop_app_length' by (rewrite length_app; cbn; lia).
  - split; [lia|]. split.
    + unfold char_at. rewrite <- lookup_drop, H2, lookup_app_r by lia. by rewrite Nat.sub_diag.
    + unfold slice. cbn [fst snd]. rewrite H2. replace (s + length t - s)%nat with (length t) by lia. by rewrite take_app_length.
Qed.

Lemma peek_at toks s ts :
  rest_at s ts -> peek line toks s = Ret (match ts with t :: _ => in_set toks (default 0 (head t)) | [] => false end) s.
Proof.
  intros H. unfold peek. rewrite (at_skip s ts H), (at_char s ts H). destruct ts as [|t ts]; [done|].
  pose proof (at_ok _ _ H) as Hok. apply Forall_cons in Hok as [Ht _]. destruct (token_head t Ht) as (c & t' & -> & _ & Hc). cbn.
  by destruct (Z.eqb_spec c 0).
Qed.

Lemma gettoken_end s : rest_at s [] -> exists w, gettoken line s = Ret (0, w) s.
Proof.
  intros H. unfold gettoken. rewrite (at_skip s [] H), (at_char s [] H). cbv zeta. change (0 =? 0) with true. cbv iota. rewrite (at_skip s [] H). by eexists.
Qed.

Lemma gettoken_symbol s c ts :
  rest_at s ([c] :: ts) -> c ∈ symbols -> gettoken line s = Ret (c, (s, s + 1)%nat) (s + 2)%nat /\ rest_at (s + 2) ts.
Proof.
  intros H Hc. destruct (at_next s [c] ts H) as (H1 & H2 & H3 & _). cbn [length] in *.
  replace (s + 1 + 1)%nat with (s + 2)%nat in H1 by lia. split; [|done].
  unfold gettoken. rewrite (at_skip _ _ H), (at_char _ _ H). cbn [head default from_option id].
  destruct (symbol_facts c Hc) as (Hw & H0 & _). destruct (Z.eqb_spec c 0); [done|].
  assert (Hs : skip_space line (S s) = (s + 2)%nat).
  { transitivity (skip_space line (s + 2)); [|by apply (at_skip _ ts)]. unfold skip_space, skip.
    rewrite (drop_S line 32 (S s)); [cbn [span]; change (in_set whitespace 32) with true; cbv iota; replace (S (S s)) with (s + 2)%nat by lia; lia|].
    unfold char_at in H3. rewrite Nat.add_1_r in H3, H2. by destruct (lookup_lt_is_Some_2 line (S s) H2) as [x Hx]; rewrite Hx in *; cbn in H3; subst. }
  rewrite Nat.add_1_r in H3. rewrite Nat.add_1_r. unfold symbols in Hc. rewrite !elem_of_cons, elem_of_nil in Hc.
  repeat destruct Hc as [->|Hc]; try done; decide_sets; rewrite ?H3; decide_sets; by rewrite Hs.
Qed.

Lemma gettoken_word s w ts :
  rest_at s (w :: ts) -> word_ok w ->
  gettoken line s = Ret (97, (s, s + length w)%nat) (s + length w + 1)%nat /\ rest_at (s + length w + 1) ts.
Proof.
  intros H Hw. destruct (at_next s w ts H) as (H1 & H2 & H3 & H4). split; [|done].
  unfold gettoken. rewrite (at_skip _ _ H), (at_char _ _ H). destruct Hw as [Hn Hw].
  destruct w as [|c w]; [done|]. pose proof Hw as [[Hc H0] _]%Forall_cons. cbn [head default from_option id].
  destruct (Z.eqb_spec c 0); [done|]. destruct (in_set [124; 40; 41; 59; 38; 60] c) eqn:Es.
  { apply in_set_elem in Es; [|apply (bool_decide_unpack _); by vm_compute]. rewrite !elem_of_cons, elem_of_nil in Es.
    repeat destruct Es as [->|Es]; done. }
  destruct (Z.eqb_spec c 62) as [->|_]; [done|].
  assert (Hskip : skip line word_char s = (s + length (c :: w))%nat).
  { unfold skip. rewrite (at_drop _ _ H). f_equal. change (encode ((c :: w) :: ts)) with (((c :: w) ++ [32]) ++ encode ts).
    rewrite <- app_assoc. cbn [app]. rewrite (app_comm_cons w _ c). apply span_app; [|done]. eapply Forall_impl; [exact Hw|]. by intros ? []. }
  rewrite Hskip. do 2 f_equal. transitivity (skip_space line (s + length (c :: w) + 1)); [|by apply (at_skip _ ts)].
  unfold skip_space, skip. rewrite (drop_S line 32 (s + length (c :: w))).
  - cbn [span]. change (in_set whitespace 32) with true. cbv iota. rewrite Nat.add_1_r. lia.
  - unfold char_at in H3. by destruct (lookup_lt_is_Some_2 line _ H2) as [x Hx]; rewrite Hx in *; cbn in H3; subst.
Qed.

(** [pstep]: a lemma about the next token, run. *)
Ltac pstep lem := unfold kbind at 1; rewrite lem; cbn [obind].

Definition reads (r : outcome nat (cmd (nat * nat))) (t : cmd (list Z)) (ts : list (list Z)) : Prop :=
  exists c s, r = Ret c s /\ cmd_map (slice line) c = t /\ rest_at s ts.

(** What may follow: no token of the given set of first characters, and no word
    where arguments are read. *)
Definition follow (set : list Z) (ts : list (list Z)) : Prop :=
  match ts with [] => True | t :: _ => exists c, t = [c] /\ c ∈ set end.

Lemma follow_weaken set set' ts : follow set ts -> (forall c, c ∈ set -> c ∈ set') -> follow set' ts.
Proof. destruct ts as [|t ts]; [done|]. intros (c & -> & Hc) H. exists c. auto. Qed.

Lemma follow_symbol c set ts : bool_decide (c ∈ set) = true -> follow set ([c] :: ts).
Proof. intros H. exists c. split; [done|]. by apply elem_dec_In. Qed.

(** Redirections: the file and whether it is for output. *)
Definition redir_tokens (rs : list (bool * list Z)) : list (list Z) := concat ((fun r : bool * list Z => [[if r.1 then 62 else 60]; r.2]) <$> rs).
Definition wrap (t : cmd (list Z)) (rs : list (bool * list Z)) : cmd (list Z) :=
  foldl (fun t (r : bool * list Z) => if r.1 then REDIR t (r.2) (Z.lor O_WRONLY O_CREATE) 1 else REDIR t (r.2) O_RDONLY 0) t rs.

Lemma redirs_read fuel : forall rs c s ts,
  rest_at s (redir_tokens rs ++ ts) -> Forall (fun r => word_ok (snd r)) rs -> (len - s < fuel)%nat ->
  match ts with t :: _ => in_set [60; 62] (default 0 (head t)) = false | [] => True end ->
  reads (parseredirs_loop line fuel c s) (wrap (cmd_map (slice line) c) rs) ts.
Proof.
  induction fuel as [|fuel IH]; intros rs c s ts H Hrs Hf Hts; [lia|]. cbn [parseredirs_loop].
  pstep (peek_at [60; 62] s _ H). destruct rs as [|[out f] rs].
  - destruct ts as [|t ts]; [cbn|cbn; rewrite Hts]; by exists c, s.
  - apply Forall_cons in Hrs as [Hw Hrs]. cbn [snd] in Hw.
    change (redir_tokens ((out, f) :: rs) ++ ts) with ([if out then 62 else 60] :: f :: redir_tokens rs ++ ts) in *.
    cbn [head default from_option id]. replace (in_set [60; 62] (if out then 62 else 60)) with true by (by destruct out). cbn [negb].
    destruct (gettoken_symbol s _ _ H) as [E1 H1]; [destruct out; by apply elem_dec_In|]. pstep E1.
    destruct (gettoken_word _ f _ H1 Hw) as [E2 H2]. pstep E2. cbn [fst snd]. decide_sets. cbn [negb].
    pose proof (at_le _ _ H2) as Hle2. pose proof (at_next _ _ _ H1) as (_ & _ & _ & Hsl).
    destruct out; decide_sets;
      match goal with |- reads (parseredirs_loop _ _ ?c1 _) _ _ => pose proof (IH rs c1 _ ts H2 Hrs ltac:(lia) Hts) as HI end;
      cbn [cmd_map] in HI; by rewrite Hsl in HI.
Qed.

Definition ends : list Z := [124; 41; 38; 59].

Lemma args_end k argc ret s ts : rest_at s ts -> follow ends ts -> parseargs line (S k) argc ret s = Ret ret s.
Proof.
  intros H Hf. cbn [parseargs]. pstep (peek_at [124; 41; 38; 59] s ts H). destruct ts as [|t ts].
  - destruct (gettoken_end s H) as [w E]. pstep E. cbn [fst]. by decide_sets.
  - destruct Hf as (c & -> & Hc). cbn. by rewrite (proj2 (in_set_elem [124; 41; 38; 59] c ltac:(by apply (bool_decide_unpack _))) Hc).
Qed.

Lemma word_head set w : forallb (fun c => negb (word_char c || (c =? 0))) set = true -> word_ok w -> in_set set (default 0 (head w)) = false.
Proof.
  intros Hset [Hn Hw]. destruct w as [|c w]; [done|]. apply Forall_cons in Hw as [[Hc H0] _]. cbn.
  rewrite forallb_forall in Hset. apply not_true_iff_false. intros Hin. apply in_set_elem in Hin.
  - apply list_elem_of_In, Hset in Hin. by rewrite Hc in Hin.
  - intros Hz. apply list_elem_of_In, Hset in Hz. vm_compute in Hz. done.
Qed.

Lemma follow_head set toks ts :
  follow set ts -> forallb (fun c => negb (in_set toks c)) set = true ->
  match ts with t :: _ => in_set toks (default 0 (head t)) = false | [] => True end.
Proof.
  intros Hf Hall. destruct ts as [|t ts]; [done|]. destruct Hf as (c & -> & Hc). cbn.
  rewrite forallb_forall in Hall. apply list_elem_of_In, Hall in Hc. by apply negb_true_iff.
Qed.

Lemma redirs_none c s ts :
  rest_at s ts -> match ts with t :: _ => in_set [60; 62] (default 0 (head t)) = false | [] => True end ->
  parseredirs line c s = Ret c s.
Proof.
  intros H Hh. unfold parseredirs. cbn [parseredirs_loop]. pstep (peek_at [60; 62] s ts H). destruct ts as [|t ts]; [done|]. by rewrite Hh.
Qed.

Lemma args_read rs ts : Forall (fun r => word_ok (snd r)) rs -> follow ends ts -> forall argv k ws s,
  rest_at s (argv ++ redir_tokens rs ++ ts) -> Forall word_ok argv -> (argv = [] -> rs = []) -> (len - s < k)%nat ->
  (length ws + length argv < MAXARGS)%nat ->
  reads (parseargs line k (length ws) (EXEC ws) s) (wrap (EXEC ((slice line <$> ws) ++ argv)) rs) ts.
Proof.
  intros Hrs Hf. induction argv as [|w argv IH]; intros k ws s H Hw Hnil Hk Hmax; (destruct k as [|k]; [lia|]).
  - rewrite Hnil in * by done. rewrite (args_end k _ _ s ts H Hf). exists (EXEC ws), s. cbn. by rewrite app_nil_r.
  - apply Forall_cons in Hw as [Hw Hws]. cbn [parseargs]. pstep (peek_at [124; 41; 38; 59] s _ H). cbn [app] in *.
    rewrite (word_head [124; 41; 38; 59] w) by done.
    destruct (gettoken_word s w _ H Hw) as [E H1]. pstep E. cbn [fst snd]. decide_sets. cbn [negb add_arg].
    cbn [length] in Hmax. destruct (Nat.leb_spec MAXARGS (S (length ws))) as [|_]; [lia|].
    pose proof (at_le _ _ H1) as Hle1. pose proof (at_next _ _ _ H) as (_ & _ & _ & Hsl). set (ws' := ws ++ [(s, s + length w)%nat]).
    assert (Hl : length ws' = S (length ws)) by (unfold ws'; rewrite length_app; cbn; lia). rewrite <- Hl.
    assert (Hs : (slice line <$> ws) ++ w :: argv = (slice line <$> ws') ++ argv).
    { unfold ws'. rewrite fmap_app, <- app_assoc. cbn [fmap list_fmap app]. by rewrite Hsl. }
    rewrite Hs. destruct argv as [|w' argv].
    + destruct (redirs_read (S len) rs (EXEC ws') _ ts H1 Hrs ltac:(lia) (follow_head ends [60; 62] ts Hf eq_refl)) as (c & s2 & E2 & Hc & H2).
      unfold kbind, parseredirs. rewrite E2. cbn [obind]. destruct k as [|k]; [lia|]. rewrite (args_end k _ _ s2 ts H2 Hf).
      exists c, s2. split; [done|]. rewrite Hc. cbn [cmd_map]. by rewrite app_nil_r.
    + pose proof Hws as [Hw' _]%Forall_cons. pstep (redirs_none (EXEC ws') _ _ H1 (word_head [60; 62] w' eq_refl Hw')).
      apply IH; [done..|lia|cbn [length] in *; lia].
Qed.

(** ** Commands with their redirections *)
Definition is_core (t : cmd (list Z)) : Prop := match t with REDIR _ _ _ _ => False | _ => True end.

Lemma unwrap t : printable t -> exists core rs,
  t = wrap core rs /\ is_core core /\ printable core /\ Forall (fun r => word_ok (snd r)) rs /\ show t 3 = show core 3 ++ redir_tokens rs.
Proof.
  induction t as [argv|c IH f m d|l _ r _|l _ r _|c _]; intros Hp;
    try (eexists _, []; split_and!; [reflexivity|done|done|constructor|by rewrite app_nil_r]).
  destruct Hp as (Hp & Hf & Hm). destruct (IH Hp) as (core & rs & -> & H1 & H2 & H3 & H4).
  assert (He : exists out : bool, m = (if out then Z.lor O_WRONLY O_CREATE else O_RDONLY) /\ d = (if out then 1 else 0)).
  { destruct Hm as [[-> ->]|[-> ->]]; [by exists false|by exists true]. }
  destruct He as (out & -> & ->). exists core, (rs ++ [(out, f)]). split_and!.
  - unfold wrap. rewrite foldl_app. by destruct out.
  - done.
  - done.
  - apply Forall_app. split; [done|]. by apply Forall_singleton.
  - cbn [show]. rewrite H4. unfold redir_tokens. rewrite fmap_app, concat_app, <- app_assoc. by destruct out.
Qed.

Lemma core_tokens t : is_core t -> (exists argv, t = EXEC argv) \/ show t 3 = [40] :: show t 0 ++ [[41]].
Proof. destruct t; try done; [left; by eexists|by right..]. Qed.

Lemma at_len s ts : rest_at s ts -> (len - s)%nat = length (encode ts).
Proof. intros [_ H _]. by rewrite <- H, length_drop. Qed.

Lemma length_encode_app a b : length (encode (a ++ b)) = (length (encode a) + length (encode b))%nat.
Proof. unfold encode. by rewrite fmap_app, concat_app, length_app. Qed.

Lemma length_encode_cons t b : length (encode (t :: b)) = (length t + 1 + length (encode b))%nat.
Proof. unfold encode. cbn. rewrite !length_app. cbn. lia. Qed.

(** Tokens further on are further on in the line. *)
Lemma at_later s s' a t b : rest_at s (a ++ t :: b) -> rest_at s' b -> (s + length t + 1 <= s')%nat.
Proof.
  intros H H'. pose proof (at_len _ _ H) as E. pose proof (at_len _ _ H') as E'. pose proof (at_le _ _ H). pose proof (at_le _ _ H').
  rewrite length_encode_app, length_encode_cons in E. lia.
Qed.

(** A command is read at a level: by [parseline] (0), by [parsepipe] and the
    loop for the background marks (1), by [parsepipe] (2), by [parseexec] (3). *)
Definition slack (lvl : nat) : nat := (match lvl with 0 => 3 | 1 | 2 => 2 | _ => 1 end)%nat.
Definition level (lvl : nat) (t : cmd (list Z)) : Prop :=
  forall s ts fuel, rest_at s (show t lvl ++ ts) -> (4 * (len - s) + slack lvl < fuel)%nat ->
  match lvl with
  | 0%nat => follow [41] ts -> reads (parseline line fuel s) t ts
  | 1%nat => follow [38; 59; 41] ts -> exists c s1, parsepipe line fuel s = Ret c s1 /\
      forall k, (len - s1 < k)%nat -> exists c' s' k', parseback line k c s1 = parseback line k' c' s' /\ (len - s' < k')%nat /\
        cmd_map (slice line) c' = t /\ rest_at s' ts
  | 2%nat => follow [38; 59; 41] ts -> reads (parsepipe line fuel s) t ts
  | _ => follow ends ts -> reads (parseexec line fuel s) t ts
  end.

Definition measure (lvl : nat) (t : cmd (list Z)) : nat := (4 * length (show t lvl) + (3 - lvl))%nat.
Definition smaller (n : nat) : Prop := forall lvl t, (lvl <= 3)%nat -> (measure lvl t < n)%nat -> printable t -> level lvl t.

Lemma peek_symbol toks c s ts : rest_at s ([c] :: ts) -> peek line toks s = Ret (in_set toks c) s.
Proof. intros H. exact (peek_at toks s _ H). Qed.

Lemma peek_none set toks s ts :
  rest_at s ts -> follow set ts -> forallb (fun c => negb (in_set toks c)) set = true -> peek line toks s = Ret false s.
Proof.
  intros H Hf Hall. rewrite (peek_at toks s ts H). pose proof (follow_head set toks ts Hf Hall) as Hh. destruct ts; [done|]. by rewrite Hh.
Qed.

Lemma level_exec t : printable t -> smaller (measure 3 t) -> level 3 t.
Proof.
  intros Hp IH s ts fuel H Hfuel Hf. cbn [slack] in Hfuel. destruct (unwrap t Hp) as (core & rs & -> & Hcore & Hpc & Hrs & Hshow).
  unfold measure in IH. rewrite Hshow in H, IH. destruct fuel as [|fuel]; [lia|]. cbn [parseexec].
  destruct (core_tokens core Hcore) as [[argv ->]|Hpar].
  - destruct Hpc as [Hargv Hmax]. cbn [show] in H. rewrite <- app_assoc in H. 
    assert (Hpeek : peek line [40] s = Ret false s).
    { rewrite (peek_at [40] s _ H). destruct argv as [|w argv]; cbn [app]; [|apply Forall_cons in Hargv as [Hw _]; by rewrite (word_head [40] w eq_refl Hw)].
      destruct rs as [|[[] f] rs]; [|done..]. pose proof (follow_head ends [40] ts Hf eq_refl) as Hh. change (redir_tokens [] ++ ts) with ts. destruct ts; [done|]. by rewrite Hh. }
    pstep Hpeek. destruct argv as [|w argv].
    + destruct (redirs_read (S len) rs (EXEC []) s ts H Hrs ltac:(lia) (follow_head ends [60; 62] ts Hf eq_refl)) as (c & s2 & E2 & Hc & H2).
      unfold kbind, parseredirs. rewrite E2. cbn [obind]. rewrite (args_end _ _ _ s2 ts H2 Hf). by exists c, s2.
    + pose proof Hargv as [Hw _]%Forall_cons. pstep (redirs_none (EXEC []) s _ H (word_head [60; 62] w eq_refl Hw)).
      by apply (args_read rs ts Hrs Hf (w :: argv) (S len) [] s H); [..|lia|cbn [length] in *; lia].
  - rewrite Hpar in H, IH. cbn [app] in H. rewrite <- !app_assoc in H. cbn [app] in H. pstep (peek_symbol [40] 40 s _ H). decide_sets.
    destruct fuel as [|fuel]; [lia|]. cbn [parseblock]. pstep (peek_symbol [40] 40 s _ H). decide_sets. cbn [negb].
    destruct (gettoken_symbol s 40 _ H ltac:(by apply elem_dec_In)) as [E1 H1]. pstep E1. pose proof (at_le _ _ H1) as Hle1.
    destruct (IH 0%nat core ltac:(lia) ltac:(unfold measure; rewrite !length_app; cbn [length]; rewrite length_app; cbn [length]; lia) Hpc
      (s + 2)%nat _ fuel H1 ltac:(cbn [slack]; lia) (follow_symbol 41 [41] _ eq_refl)) as (c & s2 & E2 & Hc & H2).
    pstep E2. pstep (peek_symbol [41] 41 s2 _ H2). decide_sets. cbn [negb].
    destruct (gettoken_symbol s2 41 _ H2 ltac:(by apply elem_dec_In)) as [E3 H3]. pstep E3. pose proof (at_le _ _ H3) as Hle3. rewrite <- Hc.
    by apply (redirs_read (S len) rs c _ ts H3 Hrs); [lia|apply (follow_head ends)].
Qed.

Ltac by_measure := unfold measure; cbn [show paren Nat.ltb Nat.leb]; rewrite ?length_app; cbn [length]; rewrite ?length_app; cbn [length]; lia.

Lemma level_pipe t : printable t -> smaller (measure 2 t) -> level 2 t.
Proof.
  intros Hp IH s ts fuel H Hfuel Hf. cbn [slack] in Hfuel. destruct fuel as [|fuel]; [lia|]. cbn [parsepipe].
  assert (Hcase : (exists l r, t = PIPE l r) \/ show t 2 = show t 3) by (destruct t; [by right|by right|left; eauto|by right|by right]).
  destruct Hcase as [(l & r & ->)|Hs].
  - cbn [show] in H. change (paren (2 <? 2)%nat (show l 3 ++ [124] :: show r 2)) with (show l 3 ++ [124] :: show r 2) in H.
    rewrite <- app_assoc in H. cbn [app] in H. destruct Hp as [Hl Hr].
    destruct (IH 3%nat l ltac:(lia) ltac:(by_measure) Hl s _ fuel H ltac:(cbn [slack]; lia) (follow_symbol 124 ends _ eq_refl)) as (c & s1 & E1 & Hc & H1).
    pstep E1. pstep (peek_symbol [124] 124 s1 _ H1). decide_sets.
    destruct (gettoken_symbol s1 124 _ H1 ltac:(by apply elem_dec_In)) as [E2 H2]. pstep E2.
    pose proof (at_later _ _ _ _ _ H H2) as Hlater. cbn [length] in *. pose proof (at_le _ _ H2) as Hle2.
    destruct (IH 2%nat r ltac:(lia) ltac:(by_measure) Hr _ _ fuel H2 ltac:(cbn [slack]; lia) Hf) as (c' & s3 & E3 & Hc' & H3).
    pstep E3. exists (PIPE c c'), s3. split; [done|]. split; [|done]. cbn. by rewrite Hc, Hc'.
  - rewrite Hs in H. destruct (IH 3%nat t ltac:(lia) ltac:(unfold measure; rewrite Hs; lia) Hp s ts fuel H ltac:(cbn [slack]; lia)) as (c & s1 & E1 & Hc & H1).
    { eapply follow_weaken; [exact Hf|]. intros x. unfold ends. rewrite !elem_of_cons. tauto. }
    pstep E1. pstep (peek_none _ [124] s1 ts H1 Hf eq_refl). by exists c, s1.
Qed.

Lemma level_back t : printable t -> smaller (measure 1 t) -> level 1 t.
Proof.
  intros Hp IH s ts fuel H Hfuel Hf. cbn [slack] in Hfuel.
  assert (Hcase : (exists c, t = BACK c) \/ show t 1 = show t 2) by (destruct t; [by right|by right|by right|by right|left; eauto]).
  destruct Hcase as [(c & ->)|Hs].
  - cbn [show] in H. change (paren (1 <? 1)%nat (show c 1 ++ [[38]])) with (show c 1 ++ [[38]]) in H.
    rewrite <- app_assoc in H. cbn [app] in H.
    destruct (IH 1%nat c ltac:(lia) ltac:(by_measure) Hp s _ fuel H ltac:(cbn [slack]; lia) (follow_symbol 38 [38; 59; 41] _ eq_refl)) as (c1 & s1 & E1 & Hback).
    exists c1, s1. split; [done|]. intros k Hk. destruct (Hback k Hk) as (c2 & s2 & k2 & E2 & Hk2 & Hc2 & H2). rewrite E2.
    destruct k2 as [|k2]; [lia|]. cbn [parseback]. pstep (peek_symbol [38] 38 s2 _ H2). decide_sets.
    destruct (gettoken_symbol s2 38 _ H2 ltac:(by apply elem_dec_In)) as [E3 H3]. pstep E3. pose proof (at_le _ _ H3) as Hle3.
    exists (BACK c2), (s2 + 2)%nat, k2. split; [done|]. split; [lia|]. split; [|done]. cbn. by rewrite Hc2.
  - rewrite Hs in H. destruct (IH 2%nat t ltac:(lia) ltac:(unfold measure; rewrite Hs; lia) Hp s ts fuel H ltac:(cbn [slack]; lia) Hf) as (c & s1 & E1 & Hc & H1).
    exists c, s1. split; [done|]. intros k Hk. by exists c, s1, k.
Qed.

Lemma back_stop set k c s ts : rest_at s ts -> follow set ts -> forallb (fun c => negb (in_set [38] c)) set = true ->
  (len - s < k)%nat -> parseback line k c s = Ret c s.
Proof. intros H Hf Hall Hk. destruct k as [|k]; [lia|]. cbn [parseback]. by pstep (peek_none set [38] s ts H Hf Hall). Qed.

Lemma level_line t : printable t -> smaller (measure 0 t) -> level 0 t.
Proof.
  intros Hp IH s ts fuel H Hfuel Hf. cbn [slack] in Hfuel. destruct fuel as [|fuel]; [lia|]. cbn [parseline].
  assert (Hcase : (exists l r, t = LIST l r) \/ show t 0 = show t 1) by (destruct t; [by right|by right|by right|left; eauto|by right]).
  destruct Hcase as [(l & r & ->)|Hs].
  - cbn [show] in H. change (paren (0 <? 0)%nat (show l 1 ++ [59] :: show r 0)) with (show l 1 ++ [59] :: show r 0) in H.
    rewrite <- app_assoc in H. cbn [app] in H. destruct Hp as [Hl Hr].
    destruct (IH 1%nat l ltac:(lia) ltac:(by_measure) Hl s _ fuel H ltac:(cbn [slack]; lia) (follow_symbol 59 [38; 59; 41] _ eq_refl)) as (c1 & s1 & E1 & Hback).
    pstep E1. destruct (Hback (S len) ltac:(lia)) as (c2 & s2 & k2 & E2 & Hk2 & Hc2 & H2).
    rewrite (back_stop [59] k2 c2 s2 _ H2 (follow_symbol 59 [59] _ eq_refl) eq_refl Hk2) in E2. pstep E2.
    pstep (peek_symbol [59] 59 s2 _ H2). decide_sets.
    destruct (gettoken_symbol s2 59 _ H2 ltac:(by apply elem_dec_In)) as [E3 H3]. pstep E3.
    pose proof (at_later _ _ _ _ _ H H3) as Hlater. cbn [length] in *. pose proof (at_le _ _ H3) as Hle3.
    destruct (IH 0%nat r ltac:(lia) ltac:(by_measure) Hr _ _ fuel H3 ltac:(cbn [slack]; lia) Hf) as (c' & s4 & E4 & Hc' & H4).
    pstep E4. exists (LIST c2 c'), s4. split; [done|]. split; [|done]. cbn. by rewrite Hc2, Hc'.
  - rewrite Hs in H. destruct (IH 1%nat t ltac:(lia) ltac:(unfold measure; rewrite Hs; lia) Hp s ts fuel H ltac:(cbn [slack]; lia)) as (c1 & s1 & E1 & Hback).
    { eapply follow_weaken; [exact Hf|]. intros x. rewrite !elem_of_cons. tauto. }
    pstep E1. destruct (Hback (S len) ltac:(lia)) as (c2 & s2 & k2 & E2 & Hk2 & Hc2 & H2).
    rewrite (back_stop [41] k2 c2 s2 _ H2 Hf eq_refl Hk2) in E2. pstep E2. pstep (peek_none _ [59] s2 ts H2 Hf eq_refl). by exists c2, s2.
Qed.

Lemma levels n : smaller n.
Proof.
  induction n as [n IH] using lt_wf_ind. intros lvl t Hl Hn Hp. specialize (IH (measure lvl t) Hn).
  destruct lvl as [|[|[|[|]]]]; [by apply level_line|by apply level_back|by apply level_pipe|by apply level_exec|lia].
Qed.
End Read.

Lemma symbol_ok c : bool_decide (c ∈ symbols) = true -> token_ok [c].
Proof. intros H. right. exists c. split; [done|]. by apply elem_dec_In. Qed.

Lemma show_tokens t : forall lvl, printable t -> Forall token_ok (show t lvl).
Proof.
  assert (Hpar : forall b ts, Forall token_ok ts -> Forall token_ok (paren b ts)).
  { intros [] ts H; cbn; [|done]. rewrite Forall_cons, Forall_app, Forall_singleton. auto using symbol_ok. }
  induction t as [argv|c IH f m d|l IHl r IHr|l IHl r IHr|c IH]; intros lvl Hp; cbn [show printable] in *.
  - eapply Forall_impl; [apply Hp|]. intros w Hw. by left.
  - destruct Hp as (Hp & Hf & Hm). rewrite Forall_app, !Forall_cons. split; [by apply IH|]. split; [|by split; [left|constructor]].
    destruct Hm as [[_ ->]|[_ ->]]; by apply symbol_ok.
  - destruct Hp. apply Hpar. rewrite Forall_app, Forall_cons. auto using symbol_ok.
  - destruct Hp. apply Hpar. rewrite Forall_app, Forall_cons. auto using symbol_ok.
  - apply Hpar. rewrite Forall_app, Forall_singleton. auto using symbol_ok.
Qed.

Lemma token_nonzero t : token_ok t -> 0 ∉ t.
Proof.
  intros [[_ Hw]|(c & -> & Hc)].
  - rewrite Forall_forall in Hw. intros H0. by destruct (Hw 0 H0).
  - rewrite list_elem_of_singleton. intros <-. by destruct (symbol_facts 0 Hc) as (_ & ? & _).
Qed.

Lemma encode_nonzero ts : Forall token_ok ts -> 0 ∉ encode ts.
Proof.
  intros H. unfold encode. induction H as [|t ts Ht _ IH]; cbn; [apply not_elem_of_nil|].
  rewrite !elem_of_app, list_elem_of_singleton. intros [[H|H]|H]; [by apply (token_nonzero t)|done|by apply IH].
Qed.

(** C16: The shell reads back what is written in its syntax.  For every command
    tree whose words are words and whose redirections are those of the
    operators, the line that [show] writes for it, with parentheses where the
    precedence of the operators needs them, is accepted, and the tree the
    parser builds is the given one, word for word after [nulterminate].  So
    the pipe binds tighter than the background mark, that tighter than the
    semicolon, the pipe and the semicolon group to the right, and
    redirections after a parenthesis are those of the group. *)
Theorem parsecmd_show (t : cmd (list Z)) :
  printable t -> exists c buf s,
  parsecmd (encode (show t 0)) 0%nat = Ret (c, buf) s /\ cmd_map (fun w => cstring buf (fst w)) c = t.
Proof.
  intros Hp. set (line := encode (show t 0)). pose proof (show_tokens t 0 Hp) as Htok.
  assert (H : rest_at line 0 (show t 0 ++ [])). { rewrite app_nil_r. split; [lia|done|done]. }
  destruct (levels line _ 0%nat t ltac:(lia) (Nat.lt_succ_diag_r _) Hp 0%nat [] (4 * length line + 4)%nat H ltac:(cbn [slack]; lia) I) as (c & s & E & Hc & Hs).
  assert (Hend : s = length line).
  { pose proof (at_len _ _ _ Hs) as Hl. pose proof (at_le _ _ _ Hs). cbn in Hl. lia. }
  assert (Erun : parsecmd line 0%nat = Ret (c, nulterminate (line ++ [0]) c) s).
  { unfold parsecmd. unfold kbind at 1. rewrite E. cbn [obind]. unfold kbind at 1. rewrite (peek_at line [] s [] Hs). cbn [obind].
    unfold kbind, kget, id. cbn [obind]. by rewrite (proj2 (Nat.eqb_eq s _) Hend). }
  pose proof (pwp_parsecmd line (encode_nonzero _ Htok)) as Hsafe. unfold pwp in Hsafe. rewrite Erun in Hsafe.
  destruct Hsafe as (_ & _ & _ & Hstr). eexists _, _, _. split; [exact Erun|]. by rewrite <- Hc.
Qed.

(** [(a > f ; b &) | c] *)
Definition demo_tree : cmd (list Z) :=
  PIPE (LIST (REDIR (EXEC [[97]]) [102] (Z.lor O_WRONLY O_CREATE) 1) (BACK (EXEC [[98]]))) (EXEC [[99]]).

Lemma parsecmd_show_witness :
  encode (show demo_tree 0) = [40; 32; 97; 32; 62; 32; 102; 32; 59; 32; 98; 32; 38; 32; 41; 32; 124; 32; 99; 32] /\
  exists c buf s, parsecmd (encode (show demo_tree 0)) 0%nat = Ret (c, buf) s /\ cmd_map (fun w => cstring buf (fst w)) c = demo_tree.
Proof.
  split; [by vm_compute|]. apply (parsecmd_show demo_tree). unfold demo_tree. cbn. unfold MAXARGS.
  assert (Hw : forall c, word_char c = true -> c <> 0 -> word_ok [c]) by (intros c H1 H2; split; [done|by apply Forall_singleton]).
  split_and!; rewrite ?Forall_singleton; try (apply Hw; [by vm_compute|done]); try lia.
Defined.
