(* ===== verification/ShRun.v ===== *)
(** * The shell: the descriptors of a command's processes

    [runcmd] of [sh.c] sets up pipes and redirections with [close], [dup],
    [open] and [pipe], relying on the kernel giving out the lowest free
    descriptor.  Its system calls are run here over descriptor tables; the
    rule for descriptors is that of [fdalloc] of [sysfile.c]. *)

From stdpp Require Import base gmap strings list fin_maps.
From Stdlib Require Import ZArith Lia.
From S2P Require Import Prelude Mem Types Spinlock Kalloc Vm PageTable Uvm Kvm AddrSpace Proc ProcSpec Sleeplock Steady BioSpec Args Ulib Sh ShSpec.

(** ** Descriptor tables *)

(** The lowest free descriptor. *)
Definition free_fd {A} (fds : list (option A)) : option nat := fst <$> list_find (fun o => o = None) fds.

Lemma free_fd_Some {A} (fds : list (option A)) i :
  free_fd fds = Some i <-> fds !! i = Some None /\ forall j, (j < i)%nat -> exists x, fds !! j = Some (Some x).
Proof.
  unfold free_fd. rewrite fmap_Some. split.
  - intros ([k o] & H & ->). apply list_find_Some in H as (Hk & -> & Hlow). split; [done|]. intros j Hj. cbn in *.
    destruct (lookup_lt_is_Some_2 fds j) as [[x|] Hx]; [apply lookup_lt_Some in Hk; lia|by exists x|]. by destruct (Hlow j None Hx Hj).
  - intros [Hi Hlow]. exists (i, None). split; [|done]. apply list_find_Some. split; [done|]. split; [done|].
    intros j y Hy Hj. destruct (Hlow j Hj) as [x Hx]. rewrite Hx in Hy. by injection Hy as <-.
Qed.

Lemma free_fd_None {A} (fds : list (option A)) : free_fd fds = None <-> forall j, fds !! j <> Some None.
Proof.
  unfold free_fd. rewrite fmap_None, list_find_None, Forall_lookup. split.
  - intros H j Hj. by apply (H j None Hj).
  - intros H j x Hx ->. by apply (H j).
Qed.

(** The kernel's rule: [fdalloc] takes the lowest free entry of [ofile], and
    fails if there is none. *)
Lemma fdalloc_lowest s i c me p f :
  env s i c me p -> length (ofile p) = NOFILE ->
  fdalloc f s = match free_fd (ofile p) with
    | Some fd => Ret (Z.of_nat fd) (s <| k_ptable ::= alter (fun p => p <| ofile ::= insert fd (Some f) |>) me |>)
    | None => Ret (-1) s
    end.
Proof.
  intros He Hlen. unfold fdalloc. krun (myproc_steady s i c (env_steady _ _ _ _ _ He)). rewrite (env_cur _ _ _ _ _ He).
  unfold deref. unfold kbind at 1, kret at 1. cbn [obind]. pose proof (get_proc_run s me p (env_proc _ _ _ _ _ He)) as Hget.
  set (body := fun fd => _). destruct (free_fd (ofile p)) as [fd|] eqn:E.
  - apply free_fd_Some in E as [Hfd Hlow]. pose proof (lookup_lt_Some _ _ _ Hfd) as Hlt.
    replace (seq 0 NOFILE) with (seq 0 fd ++ fd :: seq (S fd) (NOFILE - S fd)).
    + unfold kbind at 1. rewrite kfor_skip.
      * rewrite (kfor_hit body fd _ s (Z.of_nat fd) (s <| k_ptable ::= alter (fun p => p <| ofile ::= insert fd (Some f) |>) me |>)); [done|].
        unfold body. krun Hget. by rewrite Hfd.
      * intros j Hj%elem_of_seq. unfold body. krun Hget. destruct (Hlow j) as [x Hx]; [lia|]. by rewrite Hx.
    + replace NOFILE with (fd + (1 + (NOFILE - S fd)))%nat at 2 by lia. rewrite seq_app. done.
  - unfold kbind at 1. rewrite kfor_all; [done|]. intros j _. unfold body. krun Hget.
    destruct (ofile p !! j) as [[x|]|] eqn:Ej; [done| |done]. by destruct (proj1 (free_fd_None (ofile p)) E j).
Qed.

(** ** Running the system calls

    What a descriptor refers to: the shell's own files, a file opened by a
    redirection, an end of the pipe made for the node at a position of the
    command. *)
Inductive obj := Given (n : nat) | Opened (file : list Z) (mode : Z) | ReadEnd (pos : list bool) | WriteEnd (pos : list bool).
Notation table := (list (option obj)).

(** What is observed of a process: it starts a program, or it waits for a child. *)
Inductive act := Starts (argv : list (list Z)) (fds : table) | Waits (fds : table).

(** Redirections of the standard descriptors only. *)
Fixpoint std_redirs {W} (c : cmd W) : Prop :=
  match c with
  | EXEC _ => True
  | REDIR c _ _ d => std_redirs c /\ 0 <= d < 3
  | PIPE l r | LIST l r => std_redirs l /\ std_redirs r
  | BACK c => std_redirs c
  end.

Lemma cmd_ok_redirs {B} line (f : nat * nat -> B) c : cmd_ok line c -> std_redirs (cmd_map f c).
Proof.
  induction c as [argv|c IH w m d|l IHl r IHr|l IHl r IHr|c IH]; cbn; try tauto. intros (H1 & _ & H2). split; [by apply IH|lia].
Qed.

Section Run.
(** The files that can be opened. *)
Variable openable : list Z -> Z -> bool.

Definition do_close (fd : Z) (fds : table) : table := <[Z.to_nat fd := None]> fds.
Definition do_dup (fd : Z) (fds : table) : table :=
  match fds !! Z.to_nat fd, free_fd fds with
  | Some (Some o), Some i => <[i := Some o]> fds
  | _, _ => fds
  end.
Definition do_open (file : list Z) (mode : Z) (fds : table) : Z * table :=
  match free_fd fds with
  | Some i => if openable file mode then (Z.of_nat i, <[i := Some (Opened file mode)]> fds) else (-1, fds)
  | None => (-1, fds)
  end.
Definition do_pipe (pos : list bool) (fds : table) : option (Z * Z) * table :=
  match free_fd fds with
  | Some i =>
      let fds1 := <[i := Some (ReadEnd pos)]> fds in
      match free_fd fds1 with
      | Some j => (Some (Z.of_nat i, Z.of_nat j), <[j := Some (WriteEnd pos)]> fds1)
      | None => (None, fds)
      end
  | None => (None, fds)
  end.

(** What a process and its children do, when [fork] succeeds: the programs they
    start and the calls of [wait], each with the descriptors the process has at
    that time.  A child is at position [true], what the parent goes on with at
    [false]. *)
Fixpoint run (prog : calls) (pos : list bool) (fds : table) : list act :=
  match prog with
  | Exit => []
  | Exec argv k => [Starts argv fds]
  | Print _ k => run k pos fds
  | Close fd k => run k pos (do_close fd fds)
  | Dup fd k => run k pos (do_dup fd fds)
  | Open file mode k => run (k (fst (do_open file mode fds))) pos (snd (do_open file mode fds))
  | Pipe k => run (k (fst (do_pipe pos fds))) pos (snd (do_pipe pos fds))
  | Fork child parent _ => run child (true :: pos) fds ++ run parent (false :: pos) fds
  | Wait k => Waits fds :: run k pos fds
  end.

(** ** What a command should do *)
Fixpoint starts (c : cmd (list Z)) (pos : list bool) (fds : table) : list act :=
  match c with
  | EXEC [] => []
  | EXEC argv => [Starts argv fds]
  | REDIR c file mode fd => if openable file mode then starts c pos (<[Z.to_nat fd := Some (Opened file mode)]> fds) else []
  | LIST l r => starts l (true :: pos) fds ++ Waits fds :: starts r (false :: pos) fds
  | PIPE l r => starts l (true :: pos) (<[1%nat := Some (WriteEnd pos)]> fds) ++
                starts r (true :: false :: pos) (<[0%nat := Some (ReadEnd pos)]> fds) ++ [Waits fds; Waits fds]
  | BACK c => starts c (true :: pos) fds
  end.

(** Standard descriptors open and room for a pipe. *)
Record table_ok (fds : table) : Prop := {
  tb_std : forall i, (i < 3)%nat -> exists o, fds !! i = Some (Some o);
  tb_room : exists i j, (i < j)%nat /\ fds !! i = Some None /\ fds !! j = Some None
}.

Lemma table_ok_std fds i o : table_ok fds -> (i < 3)%nat -> table_ok (<[i := Some o]> fds).
Proof.
  intros [H1 (a & b & Hab & Ha & Hb)] Hi. destruct (H1 i Hi) as [o' Ho']. split.
  - intros j Hj. destruct (decide (i = j)) as [->|Hne]; [|destruct (H1 j Hj) as [x Hx]; exists x; by rewrite list_lookup_insert_ne].
    exists o. apply list_lookup_insert_eq. by eapply lookup_lt_Some.
  - exists a, b. rewrite !list_lookup_insert_ne; [done| |]; intros ->; congruence.
Qed.

Lemma free_fd_closed fds i : table_ok fds -> (i < 3)%nat -> free_fd (<[i := None]> fds) = Some i.
Proof.
  intros H Hi. destruct (tb_std _ H i Hi) as [o Ho]. apply free_fd_Some. split; [apply list_lookup_insert_eq; by eapply lookup_lt_Some|].
  intros j Hj. destruct (tb_std _ H j ltac:(lia)) as [x Hx]. exists x. by rewrite list_lookup_insert_ne by lia.
Qed.

Lemma pipe_descriptors fds pos : table_ok fds -> exists i j,
  (3 <= i)%nat /\ (i < j)%nat /\ fds !! i = Some None /\ fds !! j = Some None /\
  do_pipe pos fds = (Some (Z.of_nat i, Z.of_nat j), <[j := Some (WriteEnd pos)]> (<[i := Some (ReadEnd pos)]> fds)).
Proof.
  intros [Hstd (a & b & Hab & Ha & Hb)]. unfold do_pipe.
  destruct (free_fd fds) as [i|] eqn:Ei; [|by destruct (proj1 (free_fd_None _) Ei a)].
  apply free_fd_Some in Ei as [Hi Hlow]. destruct (free_fd (<[i := _]> fds)) as [j|] eqn:Ej.
  - apply free_fd_Some in Ej as [Hj Hlow']. assert (Hne : i <> j).
    { intros ->. rewrite list_lookup_insert_eq in Hj by (by eapply lookup_lt_Some). done. }
    rewrite list_lookup_insert_ne in Hj by done. exists i, j. split_and!; [| |done..].
    + destruct (decide (i < 3)%nat) as [Hl|]; [|lia]. destruct (Hstd i Hl) as [o Ho]. congruence.
    + destruct (decide (j < i)%nat) as [Hl|]; [|lia]. destruct (Hlow j Hl) as [o Ho]. congruence.
  - exfalso. apply (proj1 (free_fd_None _) Ej b). rewrite list_lookup_insert_ne; [done|]. intros ->.
    destruct (Hlow a Hab) as [o Ho]. congruence.
Qed.

(** A child of a pipeline: the end of the pipe is its descriptor [d], and it has
    no other descriptor of the pipe. *)
Lemma pipe_child fds i j d o1 o2 (e : bool) :
  table_ok fds -> (3 <= i)%nat -> (i < j)%nat -> fds !! i = Some None -> fds !! j = Some None -> (d < 2)%nat ->
  do_close (Z.of_nat j) (do_close (Z.of_nat i) (do_dup (if e then Z.of_nat j else Z.of_nat i)
    (do_close (Z.of_nat d) (<[j := Some o2]> (<[i := Some o1]> fds))))) = <[d := Some (if e then o2 else o1)]> fds.
Proof.
  intros H Hi Hij Hfi Hfj Hd. unfold do_close. rewrite !Nat2Z.id.
  rewrite (list_insert_insert_ne _ d j), (list_insert_insert_ne _ d i) by lia.
  set (g := <[d := None]> fds). assert (Hli : (i < length g)%nat) by (unfold g; rewrite length_insert; by eapply lookup_lt_Some).
  assert (Hlj : (j < length g)%nat) by (unfold g; rewrite length_insert; by eapply lookup_lt_Some).
  assert (Hfree : free_fd (<[j := Some o2]> (<[i := Some o1]> g)) = Some d).
  { pose proof (free_fd_closed fds d H ltac:(lia)) as Hg. fold g in Hg. apply free_fd_Some in Hg as [Hg Hlow]. apply free_fd_Some.
    rewrite !list_lookup_insert_ne by lia. split; [done|]. intros k Hk. destruct (Hlow k Hk) as [x Hx]. exists x. by rewrite !list_lookup_insert_ne by lia. }
  unfold do_dup. rewrite Hfree. replace (Z.to_nat (if e then Z.of_nat j else Z.of_nat i)) with (if e then j else i) by (destruct e; lia).
  assert (Hend : <[j := Some o2]> (<[i := Some o1]> g) !! (if e then j else i) = Some (Some (if e then o2 else o1))).
  { destruct e; [|rewrite list_lookup_insert_ne by lia]; by rewrite list_lookup_insert_eq by (rewrite ?length_insert; done). }
  rewrite Hend. subst g. rewrite length_insert in Hli, Hlj. apply list_eq. intros k. destruct (decide (k = i)) as [->|Hki]; [|destruct (decide (k = j)) as [->|Hkj]].
  - rewrite list_lookup_insert_ne, list_lookup_insert_eq by (rewrite ?length_insert; lia). rewrite list_lookup_insert_ne by lia. done.
  - rewrite list_lookup_insert_eq by (rewrite !length_insert; lia). rewrite list_lookup_insert_ne by lia. done.
  - rewrite !(list_lookup_insert_ne _ j), !(list_lookup_insert_ne _ i) by done. destruct (decide (k = d)) as [->|Hkd].
    + assert ((d < length fds)%nat) by (destruct (tb_std _ H d ltac:(lia)) as [? ?]; by eapply lookup_lt_Some).
      rewrite !list_lookup_insert_eq by (rewrite ?length_insert; done). done.
    + by rewrite !(list_lookup_insert_ne _ d), (list_lookup_insert_ne _ j), (list_lookup_insert_ne _ i), (list_lookup_insert_ne _ d) by done.
Qed.

(** The process that makes a pipe closes both its ends. *)
Lemma pipe_parent (fds : table) i j o1 o2 :
  (i < j)%nat -> fds !! i = Some None -> fds !! j = Some None ->
  do_close (Z.of_nat j) (do_close (Z.of_nat i) (<[j := Some o2]> (<[i := Some o1]> fds))) = fds.
Proof.
  intros Hij Hi Hj. unfold do_close. rewrite !Nat2Z.id. rewrite (list_insert_insert_ne _ i j) by lia.
  rewrite !list_insert_insert_eq. rewrite (list_insert_id fds i) by done. by apply list_insert_id.
Qed.

Lemma run_runcmd c : std_redirs c -> forall pos fds, table_ok fds -> run (runcmd c) pos fds = starts c pos fds.
Proof.
  induction c as [argv|c IH file mode d|l IHl r IHr|l IHl r IHr|c IH]; intros Hc pos fds H; cbn [runcmd starts fork1 run] in *.
  - by destruct argv.
  - destruct Hc as [Hc Hd]. unfold do_open, do_close. rewrite (free_fd_closed fds (Z.to_nat d) H) by lia.
    destruct (openable file mode); cbn [fst snd]; [|done]. destruct (Z.ltb_spec (Z.of_nat (Z.to_nat d)) 0); [lia|].
    rewrite list_insert_insert_eq. apply IH; [done|]. apply table_ok_std; [done|lia].
  - destruct Hc as [Hl Hr]. destruct (pipe_descriptors fds pos H) as (i & j & Hi & Hij & Hfi & Hfj & ->). cbn [fst snd run fork1].
    rewrite (pipe_parent fds i j) by done. f_equal; [|f_equal].
    + change 1 with (Z.of_nat 1). rewrite (pipe_child fds i j 1 (ReadEnd pos) (WriteEnd pos) true) by (done || lia). apply IHl, table_ok_std; [done|done|lia].
    + change 0 with (Z.of_nat 0). rewrite (pipe_child fds i j 0 (ReadEnd pos) (WriteEnd pos) false) by (done || lia). apply IHr, table_ok_std; [done|done|lia].
  - destruct Hc as [Hl Hr]. by rewrite IHl, IHr.
  - by rewrite IH, app_nil_r.
Qed.

(** The loop of [main] that opens the console until three descriptors are open;
    each turn but the last fills a descriptor below 3. *)
Definition console : list Z := [99; 111; 110; 115; 111; 108; 101].
Fixpoint open_console (fuel : nat) (fds : table) : table :=
  match fuel with
  | O => fds
  | S k =>
      let '(fd, fds') := do_open console O_RDWR fds in
      if fd <? 0 then fds'
      else if 3 <=? fd then do_close fd fds'
      else open_console k fds'
  end.

(** With more fuel than descriptors below 3 that are free, only these change. *)
Lemma open_console_std (fuel : nat) : forall fds n, (3 - n < fuel)%nat -> (n <= 3)%nat ->
  openable console O_RDWR = true -> (forall i, (i < n)%nat -> exists o, fds !! i = Some (Some o)) -> (3 < length fds)%nat ->
  (exists i, (3 <= i)%nat /\ fds !! i = Some None) ->
  (forall i, (i < 3)%nat -> exists o, open_console fuel fds !! i = Some (Some o) /\
     forall o', fds !! i = Some (Some o') -> o = o') /\
  (forall i, (3 <= i)%nat -> open_console fuel fds !! i = fds !! i).
Proof.
  induction fuel as [|fuel IH]; intros fds n Hf Hn Hop Hlow Hlen (e & He & Hfree); [lia|]. cbn [open_console]. unfold do_open.
  destruct (free_fd fds) as [k|] eqn:Ek; [|by destruct (proj1 (free_fd_None _) Ek e)]. rewrite Hop.
  apply free_fd_Some in Ek as [Hk Hbelow]. destruct (Z.ltb_spec (Z.of_nat k) 0); [lia|]. destruct (Z.leb_spec 3 (Z.of_nat k)).
  - unfold do_close. rewrite Nat2Z.id, list_insert_insert_eq, list_insert_id by done. split; [|done].
    intros i Hi. destruct (Hbelow i ltac:(lia)) as [o Ho]. exists o. split; [done|]. intros o' Ho'. congruence.
  - assert (Hnk : (n <= k)%nat). { destruct (decide (k < n)%nat) as [Hl|]; [|lia]. destruct (Hlow k Hl) as [o Ho]. congruence. }
    destruct (IH (<[k := Some (Opened console O_RDWR)]> fds) (S k)) as [IH1 IH2]; [lia|lia|done| |by rewrite length_insert|exists e; by rewrite list_lookup_insert_ne by lia|].
    { intros i Hi. destruct (decide (i = k)) as [->|]; [eexists; apply list_lookup_insert_eq; lia|].
      destruct (Hbelow i ltac:(lia)) as [o Ho]. exists o. by rewrite list_lookup_insert_ne. }
    split; intros i Hi; [|rewrite IH2 by done; apply list_lookup_insert_ne; lia].
    destruct (IH1 i Hi) as (o & Ho & Hsame). exists o. split; [done|]. intros o' Ho'. apply Hsame.
    rewrite list_lookup_insert_ne; [done|]. intros ->. congruence.
Qed.
End Run.

Lemma cstring_nonzero b s : 0 ∉ cstring b s.
Proof.
  intros (i & Hi)%list_elem_of_lookup. unfold cstring in Hi. apply lookup_take_Some in Hi as [Hi Hlt].
  by pose proof (span_all _ _ i 0 Hlt Hi).
Qed.

Lemma sh_loop_lines fuel : forall input j, j ∈ sh_loop fuel input -> exists line, 0 ∉ line /\ j = main_line line.
Proof.
  induction fuel as [|fuel IH]; intros input j Hj; cbn [sh_loop] in Hj; [by apply not_elem_of_nil in Hj|].
  unfold getcmd in Hj. destruct (Ulib.gets 100 input) as [buf rest]. pose proof (cstring_nonzero (buf ++ [0]) 0) as Hnz.
  destruct (cstring (buf ++ [0]) 0) as [|x line]; [by apply not_elem_of_nil in Hj|]. apply elem_of_cons in Hj as [->|Hj]; [by eexists|by apply (IH rest)].
Qed.

Lemma main_line_redirs line c : 0 ∉ line -> main_line line = Run c -> std_redirs c.
Proof.
  intros H0 Hm. unfold main_line in Hm. case_bool_decide; [done|]. pose proof (pwp_parsecmd line H0) as Hp. unfold pwp in Hp.
  destruct (parsecmd line 0%nat) as [[t b] s|msg s|w s|s|s k|s]; try done. injection Hm as <-. apply (cmd_ok_redirs line), Hp.
Qed.

(** C13: The processes of the shell's commands start with the descriptors they
    should have.  Let the shell be started with a descriptor table in which two
    descriptors from 3 on are free, let the console be a file that can be
    opened, and let any input be given.  After the first loop of [main] the
    standard descriptors are open, those that were open are unchanged and so
    are the ones from 3 on.  For each command the shell runs, the programs
    started by [runcmd]'s system calls and its calls of [wait], with the
    descriptor table of the process at that time, are those of the command: the
    left side of a pipe has the write end as descriptor 1, the right side the
    read end as descriptor 0, a redirection has the file as its descriptor, and
    nothing else differs from the table of the command.  The process that made
    a pipe waits twice, and that of a list once before its right side, with the
    table of the command, which has neither end of the pipe.  So neither a
    program nor a process that waits holds a second descriptor of a pipe, which
    would keep its reader from seeing the end of the data. *)
Theorem shell_starts (openable : list Z -> Z -> bool) (input : list (option Z)) (fds : list (option obj)) i j :
  openable console O_RDWR = true -> (3 <= i)%nat -> (i < j)%nat -> fds !! i = Some None -> fds !! j = Some None ->
  let fds' := open_console openable 4 fds in
  (forall d, (d < 3)%nat -> exists o, fds' !! d = Some (Some o) /\ forall o', fds !! d = Some (Some o') -> o = o') /\
  (forall d, (3 <= d)%nat -> fds' !! d = fds !! d) /\
  (forall c pos, Run c ∈ sh_jobs input -> run openable (runcmd c) pos fds' = starts openable c pos fds').
Proof.
  intros Hop Hi Hij Hfi Hfj fds'. destruct (open_console_std openable 4 fds 0) as [H1 H2]; [lia|lia|done|lia|apply lookup_lt_Some in Hfi; lia|by exists i|].
  split; [done|]. split; [done|]. intros c pos Hc. apply run_runcmd.
  - destruct (sh_loop_lines _ _ _ Hc) as (line & H0 & Hm). by apply (main_line_redirs line).
  - split; [|exists i, j; split; [done|]; unfold fds'; rewrite !H2 by lia; done]. intros d Hd. destruct (H1 d Hd) as (o & Ho & _). by exists o.
Qed.

Definition demo_fds : list (option obj) := [Some (Given 0); None; None; None; None].

Lemma shell_starts_witness :
  run (fun _ _ => true) (runcmd (BACK (PIPE (REDIR (EXEC [[108; 115]]) [97] 0 0) (REDIR (LIST (EXEC [[119; 99]]) (EXEC [[120]])) [98] 513 1)))) []
    (open_console (fun _ _ => true) 4 demo_fds) =
  [Starts [[108; 115]] [Some (Opened [97] 0); Some (WriteEnd [true]); Some (Opened console 2); None; None];
   Starts [[119; 99]] [Some (ReadEnd [true]); Some (Opened [98] 513); Some (Opened console 2); None; None];
   Waits [Some (ReadEnd [true]); Some (Opened [98] 513); Some (Opened console 2); None; None];
   Starts [[120]] [Some (ReadEnd [true]); Some (Opened [98] 513); Some (Opened console 2); None; None];
   Waits [Some (Given 0); Some (Opened console 2); Some (Opened console 2); None; None];
   Waits [Some (Given 0); Some (Opened console 2); Some (Opened console 2); None; None]].
Proof.
  rewrite (proj2 (proj2 (shell_starts (fun _ _ => true) ((Some <$> demo_line) ++ [Some 10]) demo_fds 3 4 eq_refl ltac:(lia) ltac:(lia) eq_refl eq_refl))).
  - by vm_compute.
  - replace (sh_jobs _) with [Run (BACK (PIPE (REDIR (EXEC [[108; 115]]) [97] 0 0) (REDIR (LIST (EXEC [[119; 99]]) (EXEC [[120]])) [98] 513 1)))] by (by vm_compute).
    apply list_elem_of_here.
Defined.
