(* ===== verification/Umalloc.v ===== *)
(** * The allocator of user programs

    [umalloc.c].  The state is the memory as far as headers are concerned (the
    words [s.ptr] and [s.size] at an address), the variable [freep] and the size
    of the process.  [sbrk] is the system call: it gives the old size of the
    process and grows it, or fails; which requests fail is an argument.  The
    loops of [free] and [malloc] follow the circular list; they take fuel. *)

From stdpp Require Import base gmap strings list fin_maps.
From Stdlib Require Import ZArith Lia.
From S2P Require Import Prelude Mem Types.

Record heap := mk_heap { h_hdr : gmap Z (Z * Z); h_freep : Z; h_brk : Z }.
Definition eta_heap (x : heap) : heap := mk_heap (h_hdr x) (h_freep x) (h_brk x).
#[global] Instance upd_h_hdr : Updater h_hdr := ltac:(solve_updater eta_heap h_hdr).
#[global] Instance upd_h_freep : Updater h_freep := ltac:(solve_updater eta_heap h_freep).
#[global] Instance upd_h_brk : Updater h_brk := ltac:(solve_updater eta_heap h_brk).

(** The address of the header [base], which lies in the data of the program. *)
Class Base := base : Z.

Definition ptr_of (h : gmap Z (Z * Z)) (p : Z) : Z := fst (default (0, 0) (h !! p)).
Definition size_of (h : gmap Z (Z * Z)) (p : Z) : Z := snd (default (0, 0) (h !! p)).
Definition put_ptr (p q : Z) (h : gmap Z (Z * Z)) : gmap Z (Z * Z) := <[p := (q, size_of h p)]> h.
Definition put_size (p n : Z) (h : gmap Z (Z * Z)) : gmap Z (Z * Z) := <[p := (ptr_of h p, n)]> h.

Definition ptr (p : Z) : K heap Z := kget (fun s => ptr_of (h_hdr s) p).
Definition size (p : Z) : K heap Z := kget (fun s => size_of (h_hdr s) p).
Definition set_ptr (p q : Z) : K heap unit := kmod (fun s => s <| h_hdr ::= put_ptr p q |>).
Definition set_size (p n : Z) : K heap unit := kmod (fun s => s <| h_hdr ::= put_size p (u32 n) |>).
Definition set_freep (p : Z) : K heap unit := kmod (fun s => s <| h_freep := p |>).

(** [p + n] for a [Header *] *)
Definition header : Z := 8.
Definition hdr_add (p n : Z) : Z := u32 (p + header * n).

Section UmallocDefs.
Context `{B : Base} (grows : Z -> Z -> bool).

(** The search of [free] for the place of [bp]. *)
Fixpoint free_loop (fuel : nat) (bp p : Z) : K heap Z :=
  match fuel with
  | O => NoFuel
  | S k =>
      q <- ptr p ;;
      if (p <? bp) && (bp <? q) then kret p
      else if (q <=? p) && ((p <? bp) || (bp <? q)) then kret p
      else free_loop k bp q
  end.

Definition free (fuel : nat) (ap : Z) : K heap unit :=
  let bp := hdr_add ap (-1) in
  fp <- kget h_freep ;;
  p <- free_loop fuel bp fp ;;
  bn <- size bp ;;
  q <- ptr p ;;
  (if hdr_add bp bn =? q then
     qn <- size q ;;
     set_size bp (bn + qn) ;;;
     qq <- ptr q ;;
     set_ptr bp qq
   else set_ptr bp q) ;;;
  n <- size p ;;
  (if hdr_add p n =? bp then
     bn <- size bp ;;
     set_size p (n + bn) ;;;
     bq <- ptr bp ;;
     set_ptr p bq
   else set_ptr p bp) ;;;
  set_freep p.

(** [sbrk(n)]; -1 if it fails. *)
Definition sbrk (n : Z) : K heap Z := fun s =>
  if grows (h_brk s) n then Ret (h_brk s) (s <| h_brk ::= fun b => b + n |>) else Ret (-1) s.

Definition morecore (fuel : nat) (nu : Z) : K heap Z :=
  let nu := if nu <? 4096 then 4096 else nu in
  p <- sbrk (i32 (nu * header)) ;;
  if p =? -1 then kret 0 else
  set_size p nu ;;;
  free fuel (hdr_add p 1) ;;;
  kget h_freep.

Fixpoint malloc_loop (fuel : nat) (nunits prevp p : Z) : K heap Z :=
  match fuel with
  | O => NoFuel
  | S k =>
      n <- size p ;;
      if nunits <=? n then
        r <- (if n =? nunits then
                q <- ptr p ;;
                set_ptr prevp q ;;;
                kret p
              else
                set_size p (n - nunits) ;;;
                n <- size p ;;
                let p := hdr_add p n in
                set_size p nunits ;;;
                kret p) ;;
        set_freep prevp ;;;
        kret (hdr_add r 1)
      else
        fp <- kget h_freep ;;
        if p =? fp then
          p <- morecore k nunits ;;
          if p =? 0 then kret 0 else
          q <- ptr p ;;
          malloc_loop k nunits p q
        else
          q <- ptr p ;;
          malloc_loop k nunits p q
  end.

Definition malloc (fuel : nat) (nbytes : Z) : K heap Z :=
  let nunits := u32 (u32 (nbytes + header - 1) / header + 1) in
  fp <- kget h_freep ;;
  (when fp =? 0 do
     (set_freep base ;;;
      set_ptr base base ;;;
      set_size base 0)) ;;;
  prevp <- kget h_freep ;;
  p <- ptr prevp ;;
  malloc_loop fuel nunits prevp p.
End UmallocDefs.
