(* ===== verification/UmallocSpec.v ===== *)
(** * The allocator of user programs never gives out memory twice

    The free list is a circular list of disjoint blocks in ascending order with
    no two touching; [free] adds a block to the free memory, and [malloc] takes
    one out of it. *)

From stdpp Require Import base gmap strings list fin_maps.
From Stdlib Require Import ZArith Lia.
From S2P Require Import Prelude Mem Types Umalloc.

(** ** Lists of headers *)
Definition end_of (h : gmap Z (Z * Z)) (p : Z) : Z := p + header * size_of h p.

(** Each header points to the next one. *)
Fixpoint chain (h : gmap Z (Z * Z)) (l : list Z) : Prop :=
  match l with
  | a :: (b :: _) as l' => ptr_of h a = b /\ chain h l'
  | _ => True
  end.

(** Each block ends before the next one, with a gap. *)
Fixpoint asc (h : gmap Z (Z * Z)) (l : list Z) : Prop :=
  match l with
  | a :: (b :: _) as l' => end_of h a < b /\ asc h l'
  | _ => True
  end.

Lemma chain_app h l x m : chain h (l ++ x :: m) <-> chain h (l ++ [x]) /\ chain h (x :: m).
Proof. induction l as [|a l IH]; [cbn; tauto|]. destruct l as [|b l]; cbn in *; tauto. Qed.

Lemma asc_app h l x m : asc h (l ++ x :: m) <-> asc h (l ++ [x]) /\ asc h (x :: m).
Proof. induction l as [|a l IH]; [cbn; tauto|]. destruct l as [|b l]; cbn in *; tauto. Qed.

Lemma chain_suffix h l m : chain h (l ++ m) -> chain h m.
Proof. destruct m as [|x m]; [done|]. intros H. exact (proj2 (proj1 (chain_app _ _ _ _) H)). Qed.

Lemma asc_suffix h l m : asc h (l ++ m) -> asc h m.
Proof. destruct m as [|x m]; [done|]. intros H. exact (proj2 (proj1 (asc_app _ _ _ _) H)). Qed.

Lemma asc_prefix h l m : asc h (l ++ m) -> asc h l.
Proof.
  destruct l as [|x l _] using rev_ind; [done|]. rewrite <- app_assoc. intros H. exact (proj1 (proj1 (asc_app _ _ _ _) H)).
Qed.

Lemma blocks_ext h h' l y : (forall x, x ∈ l -> ptr_of h' x = ptr_of h x) -> chain h (l ++ [y]) -> chain h' (l ++ [y]).
Proof.
  induction l as [|a l IH]; intros Hx H; [done|]. destruct l as [|b l]; cbn in *.
  - rewrite Hx by left. done.
  - rewrite Hx by left. destruct H as [H1 H2]. split; [done|]. apply IH; [|done]. intros x Hin. apply Hx. by right.
Qed.

Lemma asc_ext h h' l y : (forall x, x ∈ l -> end_of h' x = end_of h x) -> asc h (l ++ [y]) -> asc h' (l ++ [y]).
Proof.
  induction l as [|a l IH]; intros Hx H; [done|]. destruct l as [|b l]; cbn in *.
  - rewrite Hx by left. done.
  - rewrite Hx by left. destruct H as [H1 H2]. split; [done|]. apply IH; [|done]. intros x Hin. apply Hx. by right.
Qed.

Lemma asc_ext_all h h' l : (forall x, x ∈ l -> end_of h' x = end_of h x) -> asc h l -> asc h' l.
Proof.
  destruct l as [|y l _] using rev_ind; [done|]. intros Hx. apply asc_ext. intros x Hin. apply Hx, elem_of_app. by left.
Qed.

Lemma asc_tail h a l : asc h (a :: l) -> asc h l.
Proof. destruct l as [|b l]; [done|]. by intros [_ H]. Qed.

(** Later blocks are higher up. *)
Lemma asc_above h a l : asc h (a :: l) -> (forall x, x ∈ a :: l -> 0 <= size_of h x) -> forall x, x ∈ l -> end_of h a < x.
Proof.
  revert a. induction l as [|b l IH]; intros a H Hs x Hx; [by apply not_elem_of_nil in Hx|]. cbn in H. destruct H as [H1 H2].
  apply elem_of_cons in Hx as [->|Hx]; [done|]. pose proof (Hs b ltac:(right; left)) as Hb.
  assert (end_of h b < x) by (apply (IH b H2); [intros y Hy; apply Hs; by right|done]). unfold end_of, header in *. lia.
Qed.

Lemma asc_NoDup h l : asc h l -> (forall x, x ∈ l -> 0 <= size_of h x) -> NoDup l.
Proof.
  induction l as [|a l IH]; intros H Hs; constructor.
  - intros Hin. pose proof (asc_above h a l H Hs a Hin) as Ha. pose proof (Hs a ltac:(left)). unfold end_of, header in Ha. lia.
  - apply IH; [|intros x Hx; apply Hs; by right]. by apply (asc_tail _ a).
Qed.

Lemma asc_split h l x m :
  asc h (l ++ x :: m) -> (forall y, y ∈ l ++ x :: m -> 0 <= size_of h y) ->
  (forall y, y ∈ l -> end_of h y < x) /\ (forall y, y ∈ m -> end_of h x < y).
Proof.
  intros H Hs. split; [|apply asc_above; [exact (proj2 (proj1 (asc_app _ _ _ _) H))|intros y Hy; apply Hs, elem_of_app; by right]].
  induction l as [|a l IH]; intros y Hy; [by apply not_elem_of_nil in Hy|]. apply elem_of_cons in Hy as [->|Hy].
  - apply (asc_above h a (l ++ x :: m) H Hs). apply elem_of_app. right. left.
  - apply IH; [|intros z Hz; apply Hs; by right|done]. apply (asc_tail _ a). done.
Qed.

(** ** Writing headers *)
Lemma ptr_of_ptr h p q : ptr_of (put_ptr p q h) p = q.
Proof. unfold ptr_of, put_ptr. by rewrite lookup_insert_eq. Qed.
Lemma ptr_of_size h p n : ptr_of (put_size p n h) p = ptr_of h p.
Proof. unfold ptr_of at 1, put_size. by rewrite lookup_insert_eq. Qed.
Lemma size_of_ptr h p q : size_of (put_ptr p q h) p = size_of h p.
Proof. unfold size_of at 1, put_ptr. by rewrite lookup_insert_eq. Qed.
Lemma size_of_size h p n : size_of (put_size p n h) p = n.
Proof. unfold size_of, put_size. by rewrite lookup_insert_eq. Qed.
Lemma put_ptr_ne h p q x : x <> p -> put_ptr p q h !! x = h !! x.
Proof. intros H. unfold put_ptr. by rewrite lookup_insert_ne. Qed.
Lemma put_size_ne h p n x : x <> p -> put_size p n h !! x = h !! x.
Proof. intros H. unfold put_size. by rewrite lookup_insert_ne. Qed.
Lemma ptr_of_same h h' x : h' !! x = h !! x -> ptr_of h' x = ptr_of h x.
Proof. unfold ptr_of. by intros ->. Qed.
Lemma size_of_same h h' x : h' !! x = h !! x -> size_of h' x = size_of h x.
Proof. unfold size_of. by intros ->. Qed.
Lemma end_of_same h h' x : h' !! x = h !! x -> end_of h' x = end_of h x.
Proof. intros H. unfold end_of. by rewrite (size_of_same h h'). Qed.
#[export] Hint Rewrite ptr_of_ptr ptr_of_size size_of_ptr size_of_size : hdr.

(** ** The invariant *)
Section Spec.
Context `{B : Base}.

(** The blocks [bs] of the free list, without [base]. *)
Record heap_ok (s : heap) (bs : list Z) : Prop := {
  ok_base : 0 < base < h_brk s;
  ok_brk : h_brk s <= KERNBASE;
  ok_chain : chain (h_hdr s) (base :: bs ++ [base]);
  ok_asc : asc (h_hdr s) (base :: bs);
  ok_size0 : size_of (h_hdr s) base = 0;
  ok_size : forall b, b ∈ bs -> 1 <= size_of (h_hdr s) b /\ end_of (h_hdr s) b <= h_brk s;
  ok_freep : h_freep s ∈ base :: bs
}.

Lemma ok_sizes s bs : heap_ok s bs -> forall x, x ∈ base :: bs -> 0 <= size_of (h_hdr s) x.
Proof. intros H x [->|Hx]%elem_of_cons; [by rewrite (ok_size0 _ _ H)|]. pose proof (ok_size _ _ H x Hx). lia. Qed.

Lemma ok_above s bs : heap_ok s bs -> forall b, b ∈ bs -> base < b < h_brk s.
Proof.
  intros H b Hb. pose proof (asc_above _ _ _ (ok_asc _ _ H) (ok_sizes _ _ H) b Hb) as Ha. destruct (ok_size _ _ H b Hb) as [H1 H2].
  unfold end_of, header in *. rewrite (ok_size0 _ _ H) in Ha. lia.
Qed.

(** The free memory. *)
Definition free_at (h : gmap Z (Z * Z)) (l : list Z) (a : Z) : Prop := exists b, b ∈ l /\ b <= a < end_of h b.

(** The place of a block in the list. *)
Lemma place bs bp h : asc h (base :: bs) -> (forall x, x ∈ base :: bs -> 0 <= size_of h x) -> base < bp -> bp ∉ bs ->
  exists l1 q l2, base :: bs = l1 ++ q :: l2 /\ q < bp /\ (forall x, x ∈ l1 -> x < bp) /\ (forall x, x ∈ l2 -> bp < x).
Proof.
  generalize base. induction bs as [|b bs IH]; intros a H Hs Ha Hn.
  - exists [], a, []. split_and!; [done|done|intros x Hx; by apply not_elem_of_nil in Hx..].
  - apply not_elem_of_cons in Hn as [Hb Hn]. cbn in H. destruct H as [H1 H2]. destruct (decide (b < bp)) as [Hl|Hl].
    + destruct (IH b H2) as (l1 & q & l2 & E & Hq & Hl1 & Hl2); [intros x Hx; apply Hs; by right|done|done|].
      exists (a :: l1), q, l2. split_and!; [by rewrite E|done| |done]. intros x [->|Hx]%elem_of_cons; [done|by apply Hl1].
    + exists [], a, (b :: bs). split_and!; [done|done|intros x Hx; by apply not_elem_of_nil in Hx|].
      assert (Hsb : forall x, x ∈ b :: bs -> 0 <= size_of h x) by (intros x Hx; apply Hs; by right).
      intros x [->|Hx]%elem_of_cons; [lia|]. pose proof (asc_above h b bs H2 Hsb x Hx) as Hab. pose proof (Hsb b ltac:(left)).
      unfold end_of, header in Hab. lia.
Qed.

Lemma last_cons (k : list Z) : forall x p, List.last (x :: k) p = List.last k x.
Proof. induction k as [|y k IH]; intros x p; [done|]. change (List.last (y :: k) p = List.last (y :: k) x). by rewrite !IH. Qed.

Lemma last_app_cons (k1 k2 : list Z) p d : List.last (k1 ++ p :: k2) d = List.last k2 p.
Proof.
  revert d. induction k1 as [|x k1 IH]; intros d; cbn [app]; [apply last_cons|]. by rewrite last_cons, IH.
Qed.

(** *** The search of [free] *)
Lemma search_forward s bp l2 : forall k p fuel, chain (h_hdr s) (p :: k ++ l2 ++ [base]) ->
  (forall x, x ∈ p :: k -> base <= x < bp) -> asc (h_hdr s) (p :: k) -> (forall x, x ∈ p :: k -> 0 <= size_of (h_hdr s) x) ->
  (forall x, x ∈ l2 -> bp < x) -> (length k < fuel)%nat ->
  free_loop fuel bp p s = Ret (List.last k p) s.
Proof.
  induction k as [|x k IH]; intros p fuel Hc Hlt Ha Hs Hgt Hf; (destruct fuel as [|fuel]; [cbn in Hf; lia|]); cbn [free_loop];
    unfold kbind at 1, ptr, kget at 1; cbn [obind]; pose proof (Hlt p ltac:(left)) as Hp.
  - cbn [List.last]. assert (Hn : exists n, ptr_of (h_hdr s) p = n /\ (n = base \/ bp < n)).
    { cbn [app] in Hc. destruct l2 as [|b l2]; cbn in Hc; destruct Hc as [Hc _]; eexists; (split; [exact Hc|]); [by left|right; apply Hgt; left]. }
    destruct Hn as (n & -> & [->|Hn]).
    + destruct (Z.ltb_spec p bp); [|lia]. destruct (Z.ltb_spec bp base); [lia|]. cbn [andb]. destruct (Z.leb_spec base p); [|lia]. done.
    + destruct (Z.ltb_spec p bp); [|lia]. destruct (Z.ltb_spec bp n); [|lia]. done.
  - cbn [app] in Hc. destruct Hc as [Hpx Hc]. rewrite Hpx. pose proof (Hlt x ltac:(right; left)) as Hx.
    pose proof (asc_above _ _ _ Ha Hs x ltac:(left)) as Hpos. pose proof (Hs p ltac:(left)). unfold end_of, header in Hpos.
    destruct (Z.ltb_spec bp x); [lia|]. rewrite andb_false_r. destruct (Z.leb_spec x p); [lia|]. cbn [andb].
    rewrite last_cons. apply IH; [done|intros y Hy; apply Hlt; by right|by destruct Ha|intros y Hy; apply Hs; by right|done|cbn in Hf; lia].
Qed.

Lemma search_back s bp : forall k p fuel, chain (h_hdr s) (p :: k ++ [base]) -> base < bp ->
  (forall x, x ∈ p :: k -> bp < x) -> asc (h_hdr s) (p :: k) -> (forall x, x ∈ p :: k -> 0 <= size_of (h_hdr s) x) ->
  free_loop (S (length k) + fuel) bp p s = free_loop fuel bp base s.
Proof.
  induction k as [|x k IH]; intros p fuel Hc Hb Hgt Ha Hs; cbn [length Nat.add free_loop]; unfold kbind at 1, ptr, kget at 1; cbn [obind];
    pose proof (Hgt p ltac:(left)) as Hp.
  - cbn [app] in Hc. destruct Hc as [-> _]. destruct (Z.ltb_spec p bp); [lia|]. destruct (Z.ltb_spec bp base); [lia|]. cbn [andb orb].
    by rewrite andb_false_r.
  - cbn [app] in Hc. destruct Hc as [-> Hc]. pose proof (asc_above _ _ _ Ha Hs x ltac:(left)) as Hpos. pose proof (Hs p ltac:(left)).
    unfold end_of, header in Hpos. destruct (Z.ltb_spec p bp); [lia|]. destruct (Z.leb_spec x p); [lia|]. cbn [andb].
    apply (IH x fuel); [done|done|intros y Hy; apply Hgt; by right|by destruct Ha|intros y Hy; apply Hs; by right].
Qed.

Lemma free_search s bs bp fuel : heap_ok s bs -> base < bp -> bp ∉ bs -> (2 * length bs + 2 < fuel)%nat ->
  exists l1 q l2, base :: bs = l1 ++ q :: l2 /\ q < bp /\ (forall x, x ∈ l2 -> bp < x) /\ free_loop fuel bp (h_freep s) s = Ret q s.
Proof.
  intros H Hb Hn Hf. pose proof (ok_sizes _ _ H) as Hs. pose proof (ok_asc _ _ H) as Ha. pose proof (ok_chain _ _ H) as Hc.
  destruct (place bs bp (h_hdr s) Ha Hs Hb Hn) as (l1 & q & l2 & E & Hq & Hl1 & Hl2). exists l1, q, l2. split_and!; [done..|].
  assert (Hlen : (length l1 + length l2 = length bs)%nat) by (apply (f_equal length) in E; rewrite length_app in E; cbn in E; lia).
  change (base :: bs ++ [base]) with ((base :: bs) ++ [base]) in Hc. rewrite E in *.
  assert (Hbase : forall x, x ∈ l1 ++ [q] -> base <= x < bp).
  { intros x Hx. assert (Hx' : x ∈ base :: bs) by (rewrite E, elem_of_app, elem_of_cons; apply elem_of_app in Hx as [?| ->%list_elem_of_singleton]; auto).
    split; [apply elem_of_cons in Hx' as [->|Hx']; [done|pose proof (ok_above _ _ H x Hx'); lia]|].
    apply elem_of_app in Hx as [Hx| ->%list_elem_of_singleton]; [by apply Hl1|done]. }
  assert (Hfwd : forall k1 p k2 n, l1 ++ [q] = k1 ++ p :: k2 -> (length k2 < n)%nat -> free_loop n bp p s = Ret q s).
  { intros k1 p k2 n Ek Hk.
    assert (El : l1 ++ q :: l2 = k1 ++ (p :: k2) ++ l2) by (rewrite app_assoc, <- Ek, <- app_assoc; done). rewrite El in Hc, Ha, Hs.
    rewrite (search_forward s bp l2 k2 p n); [|..|done|done].
    - f_equal. apply (f_equal (fun l => List.last l 0)) in Ek. by rewrite last_app_cons, last_app_cons in Ek.
    - rewrite <- !app_assoc in Hc. by apply chain_suffix in Hc.
    - intros x Hx. apply Hbase. rewrite Ek. apply elem_of_app. by right.
    - by apply asc_suffix, asc_prefix in Ha.
    - intros x Hx. apply Hs. rewrite !elem_of_app. auto. }
  pose proof (ok_freep _ _ H) as Hfp. rewrite E in Hfp. replace (l1 ++ q :: l2) with ((l1 ++ [q]) ++ l2) in Hfp by (by rewrite <- app_assoc).
  apply elem_of_app in Hfp as [Hfp|Hfp].
  - apply list_elem_of_split in Hfp as (k1 & k2 & Ek). apply (Hfwd k1 _ k2); [done|].
    apply (f_equal length) in Ek. rewrite !length_app in Ek. cbn in Ek. lia.
  - apply list_elem_of_split in Hfp as (k1 & k2 & ->). rewrite length_app in Hlen. cbn in Hlen.
    replace fuel with (S (length k2) + (fuel - S (length k2)))%nat by lia.
    assert (El : l1 ++ q :: k1 ++ h_freep s :: k2 = (l1 ++ q :: k1) ++ h_freep s :: k2) by (by rewrite <- app_assoc).
    rewrite El in Hc, Ha, Hs. rewrite (search_back s bp k2 (h_freep s)); [..|intros x Hx; apply Hs, elem_of_app; by right].
    + destruct l1 as [|b l1]; cbn in E; injection E as E0 E1.
      * apply (Hfwd [] base []); [by rewrite E0|cbn; lia].
      * apply (Hfwd [] base (l1 ++ [q])); [by rewrite E0|rewrite length_app; cbn in *; lia].
    + rewrite <- app_assoc in Hc. by apply chain_suffix in Hc.
    + done.
    + intros x Hx. apply Hl2, elem_of_app. by right.
    + by apply asc_suffix in Ha.
Qed.

(** ** Joining a block to the list after it

    Both halves of [free] do this: first for the new block, then for the one
    before it. *)
Definition join (a x : Z) : K heap unit :=
  n <- size a ;;
  if hdr_add a n =? x then
    xn <- size x ;;
    set_size a (n + xn) ;;;
    xx <- ptr x ;;
    set_ptr a xx
  else set_ptr a x.

Record joined (brk a : Z) (l l' : list Z) (h h' : gmap Z (Z * Z)) : Prop := {
  jn_same : forall y, y <> a -> h' !! y = h !! y;
  jn_chain : chain h' (a :: l' ++ [base]);
  jn_asc : asc h' (a :: l');
  jn_size : size_of h a <= size_of h' a;
  jn_end : end_of h' a <= brk;
  jn_sub : forall y, y ∈ l' -> y ∈ l;
  jn_len : (length l' <= length l)%nat;
  jn_keep : end_of h a <> List.hd base l -> size_of h' a = size_of h a;
  jn_cover : forall y, y ∈ a :: l -> exists y', y' ∈ a :: l' /\ size_of h y <= size_of h' y';
  jn_free : forall z, free_at h' (a :: l') z <-> free_at h (a :: l) z
}.

Lemma free_at_cons h a l z : free_at h (a :: l) z <-> a <= z < end_of h a \/ free_at h l z.
Proof. unfold free_at. setoid_rewrite elem_of_cons. naive_solver. Qed.

Lemma free_at_same h h' l z : (forall y, y ∈ l -> h' !! y = h !! y) -> free_at h' l z <-> free_at h l z.
Proof.
  intros H. unfold free_at. split; intros (b & Hb & Hz); exists b; (split; [done|]).
  - by rewrite <- (end_of_same h h') by auto.
  - by rewrite (end_of_same h h') by auto.
Qed.

Lemma join_run s a l :
  let h := h_hdr s in let x := List.hd base l in
  chain h (l ++ [base]) -> asc h l -> (forall y, y ∈ l -> end_of h a <= y /\ 1 <= size_of h y /\ end_of h y <= h_brk s) ->
  0 < a -> 0 <= size_of h a -> end_of h a <= h_brk s -> h_brk s <= KERNBASE -> a ∉ l -> (l = [] -> base < a) ->
  exists h' l', join a x s = Ret tt (s <| h_hdr := h' |>) /\ joined (h_brk s) a l l' h h'.
Proof.
  intros h x Hc Ha Hl Ha0 Hn Hend Hbrk Hnin Hnil. unfold join. unfold kbind at 1, size at 1, kget at 1. cbn [obind]. fold h.
  assert (Hadd : hdr_add a (size_of h a) = end_of h a) by (unfold hdr_add, end_of, header, KERNBASE in *; apply u32_id; lia).
  rewrite Hadd. destruct (Z.eqb_spec (end_of h a) x) as [Ex|Ex].
  - destruct l as [|y l]; [specialize (Hnil eq_refl); cbn in Ex; unfold end_of, header in Ex; lia|]. cbn in x. subst x.
    apply not_elem_of_cons in Hnin as [Hay Hal]. destruct (Hl y ltac:(left)) as (_ & Hy1 & Hy2).
    set (h' := put_ptr a (ptr_of h y) (put_size a (size_of h a + size_of h y) h)).
    assert (Hsame : forall z, z <> a -> h' !! z = h !! z) by (intros z Hz; unfold h'; by rewrite put_ptr_ne, put_size_ne).
    assert (Hsz : size_of h' a = size_of h a + size_of h y) by (unfold h'; by autorewrite with hdr).
    assert (He : end_of h' a = end_of h y) by (unfold end_of, header in *; rewrite Hsz; lia).
    exists h', l. split.
    + unfold kbind, size, kget, set_size, kmod, ptr, set_ptr. cbn [obind]. f_equal. cbn. unfold h'. fold h.
      rewrite u32_id by (unfold end_of, header, KERNBASE in *; lia).
      rewrite (ptr_of_same h (put_size a (size_of h a + size_of h y) h) y) by (by apply put_size_ne). done.
    + pose proof (fun z Hz => asc_above h y l Ha (fun w Hw => Z.le_trans 0 1 _ ltac:(lia) (proj1 (proj2 (Hl w Hw)))) z Hz) as Habove. split.
      * done.
      * destruct l as [|z l]; cbn in Hc |- *; destruct Hc as [Hc1 Hc2].
        { unfold h'. by autorewrite with hdr. }
        split; [unfold h'; by autorewrite with hdr|]. apply (blocks_ext h h' (z :: l)); [|done].
        intros w Hw. apply ptr_of_same, Hsame. intros ->. done.
      * apply asc_tail in Ha as Ha'. assert (Hal' : asc h' l) by (apply (asc_ext_all h); [intros w Hw; apply end_of_same, Hsame; by intros -> |done]).
        destruct l as [|z l]; [done|]. split; [|done]. rewrite He. apply Habove. left.
      * lia.
      * lia.
      * intros z Hz. by right.
      * cbn. lia.
      * done.
      * intros w Hw. apply elem_of_cons in Hw as [->|[->|Hw]%elem_of_cons].
        -- exists a. split; [left|lia].
        -- exists a. split; [left|lia].
        -- exists w. split; [by right|]. rewrite (size_of_same h h' w); [done|]. apply Hsame. by intros ->.
      * intros z. rewrite !free_at_cons, He, (free_at_same h h' l) by (intros w Hw; apply Hsame; by intros ->).
        unfold end_of, header in *. split; [intros [?|?]; [|auto]|intros [?|[?|?]]; auto; left; lia].
        destruct (decide (z < y)); [left; lia|right; left; lia].
  - set (h' := put_ptr a x h). assert (Hsame : forall z, z <> a -> h' !! z = h !! z) by (intros z Hz; unfold h'; by rewrite put_ptr_ne).
    assert (Hsz : size_of h' a = size_of h a) by (unfold h'; by autorewrite with hdr).
    assert (He : end_of h' a = end_of h a) by (unfold end_of; by rewrite Hsz).
    exists h', l. split; [done|]. split; [done| | |lia|lia|done|done|done| |].
    + destruct l as [|y l]; cbn in *; (split; [unfold h'; by autorewrite with hdr|]); [done|].
      apply (blocks_ext h h' (y :: l)); [|done]. intros w Hw. apply ptr_of_same, Hsame. by intros ->.
    + assert (Hal' : asc h' l) by (apply (asc_ext_all h); [intros w Hw; apply end_of_same, Hsame; by intros -> |done]).
      destruct l as [|y l]; [done|]. split; [|done]. rewrite He. pose proof (proj1 (Hl y ltac:(left))). cbn in Ex. lia.
    + intros w Hw. exists w. split; [done|]. apply elem_of_cons in Hw as [->|Hw]; [lia|]. rewrite (size_of_same h h' w); [done|]. apply Hsame. by intros ->.
    + intros z. rewrite !free_at_cons, He, (free_at_same h h' l); [done|]. intros w Hw. apply Hsame. by intros ->.
Qed.

(** ** [free] *)
Lemma free_at_app h l m z : free_at h (l ++ m) z <-> free_at h l z \/ free_at h m z.
Proof. unfold free_at. setoid_rewrite elem_of_app. naive_solver. Qed.

(** A block in use: its header is above [base], it lies in the process and
    meets no free block. *)
Record in_use (s : heap) (bs : list Z) (bp : Z) : Prop := {
  iu_low : base < bp;
  iu_size : 1 <= size_of (h_hdr s) bp;
  iu_high : end_of (h_hdr s) bp <= h_brk s;
  iu_apart : forall b, b ∈ bs -> end_of (h_hdr s) b <= bp \/ end_of (h_hdr s) bp <= b
}.

Lemma in_use_notin s bs bp : heap_ok s bs -> in_use s bs bp -> bp ∉ bs.
Proof.
  intros H Hu Hin. destruct (ok_size _ _ H bp Hin) as [H1 _]. destruct (iu_apart _ _ _ Hu bp Hin); unfold end_of, header in *; lia.
Qed.

(** The parts before and after a node, put together again. *)
Lemma heap_ok_rebuild s bs s' l1 q l2 l3 :
  heap_ok s bs -> base :: bs = l1 ++ q :: l2 -> h_brk s' = h_brk s -> h_freep s' = q ->
  (forall y, y ∈ l1 -> h_hdr s' !! y = h_hdr s !! y) ->
  chain (h_hdr s') (q :: l3 ++ [base]) -> asc (h_hdr s') (q :: l3) ->
  (q = base -> size_of (h_hdr s') q = 0) -> (q <> base -> 1 <= size_of (h_hdr s') q /\ end_of (h_hdr s') q <= h_brk s) ->
  (forall y, y ∈ l3 -> 1 <= size_of (h_hdr s') y /\ end_of (h_hdr s') y <= h_brk s) ->
  exists bs', base :: bs' = l1 ++ q :: l3 /\ heap_ok s' bs'.
Proof.
  intros H E Hbrk Hfp Hsame Hc Ha Hq0 Hq Hl3. pose proof (ok_chain _ _ H) as Hc0. change (base :: bs ++ [base]) with ((base :: bs) ++ [base]) in Hc0.
  pose proof (ok_asc _ _ H) as Ha0. rewrite E in Hc0, Ha0. rewrite <- app_assoc in Hc0.
  assert (Hex : exists bs', base :: bs' = l1 ++ q :: l3) by (destruct l1; injection E as <- _; eexists; reflexivity).
  destruct Hex as [bs' E']. exists bs'. split; [done|].
  assert (Hsz0 : size_of (h_hdr s') base = 0).
  { destruct l1 as [|b l1]; injection E as <- _; [by apply Hq0|]. rewrite (size_of_same (h_hdr s) _ base) by (apply Hsame; left). apply H. }
  split; [rewrite Hbrk; apply H|rewrite Hbrk; apply H| | |done| |rewrite E', Hfp; apply elem_of_app; right; left].
  - change (base :: bs' ++ [base]) with ((base :: bs') ++ [base]). rewrite E', <- app_assoc. apply chain_app. split; [|done].
    apply (blocks_ext (h_hdr s)); [|exact (proj1 (proj1 (chain_app _ _ _ _) Hc0))]. intros x Hx. by apply ptr_of_same, Hsame.
  - rewrite E'. apply asc_app. split; [|done]. apply (asc_ext (h_hdr s)); [|exact (proj1 (proj1 (asc_app _ _ _ _) Ha0))].
    intros x Hx. by apply end_of_same, Hsame.
  - rewrite Hbrk. intros b Hb. assert (Hb' : b ∈ l1 ++ q :: l3) by (rewrite <- E'; by right).
    assert (Hnb : b <> base).
    { intros ->. assert (Hnd : NoDup (base :: bs')); [|by inversion Hnd].
      rewrite E'. apply (asc_NoDup (h_hdr s')).
      - apply asc_app. split; [|done]. apply (asc_ext (h_hdr s)); [|exact (proj1 (proj1 (asc_app _ _ _ _) Ha0))]. intros x Hx. by apply end_of_same, Hsame.
      - intros x [Hx|[->|Hx]%elem_of_cons]%elem_of_app.
        + rewrite (size_of_same (h_hdr s)) by auto. apply (ok_sizes _ _ H). rewrite E. apply elem_of_app. by left.
        + destruct (decide (q = base)) as [Eq|Nq]; [by rewrite (Hq0 Eq)|]. pose proof (Hq Nq). lia.
        + pose proof (Hl3 x Hx). lia. }
    apply elem_of_app in Hb' as [Hb'|[->|Hb']%elem_of_cons]; [|by apply Hq|by apply Hl3].
    rewrite (size_of_same (h_hdr s)), (end_of_same (h_hdr s)) by auto. apply (ok_size _ _ H).
    assert (Hin : b ∈ base :: bs) by (rewrite E; apply elem_of_app; by left). apply elem_of_cons in Hin as [->|?]; done.
Qed.

Lemma hdr_of bp : 0 <= bp < 2147483648 -> hdr_add (bp + header) (-1) = bp.
Proof. intros H. unfold hdr_add, header. rewrite u32_id; lia. Qed.

Record freed (s s' : heap) (bs bs' : list Z) (bp : Z) : Prop := {
  fr_ok : heap_ok s' bs';
  fr_brk : h_brk s' = h_brk s;
  fr_len : (length bs' <= S (length bs))%nat;
  fr_free : forall z, free_at (h_hdr s') bs' z <-> free_at (h_hdr s) bs z \/ bp <= z < end_of (h_hdr s) bp;
  fr_big : exists b, b ∈ bs' /\ size_of (h_hdr s) bp <= size_of (h_hdr s') b;
  fr_other : forall y, y <> bp -> y ∉ bs -> y <> base -> h_hdr s' !! y = h_hdr s !! y
}.

Lemma free_at_base s bs z : heap_ok s bs -> free_at (h_hdr s) (base :: bs) z <-> free_at (h_hdr s) bs z.
Proof. intros H. rewrite free_at_cons. unfold end_of. rewrite (ok_size0 _ _ H). unfold header. split; [intros [?|?]; [lia|done]|by right]. Qed.

Record free_shape (s : heap) (bs : list Z) (bp q : Z) (l1 l2 l2' l3 : list Z) (h1 h2 : gmap Z (Z * Z)) : Prop := {
  fs_nodes : base :: bs = l1 ++ q :: l2;
  fs_q : q < bp;
  fs_qin : q = base \/ q ∈ bs;
  fs_before : forall y, y ∈ l1 -> y < q;
  fs_after : forall x, x ∈ l2 -> bp < x /\ x ∈ bs;
  fs_right : joined (h_brk s) bp l2 l2' (h_hdr s) h1;
  fs_left : joined (h_brk s) q (bp :: l2') l3 h1 h2
}.

Lemma free_joins s bs bp fuel :
  heap_ok s bs -> in_use s bs bp -> (2 * length bs + 2 < fuel)%nat ->
  exists q l1 l2 l2' l3 h1 h2, free_shape s bs bp q l1 l2 l2' l3 h1 h2 /\
    free fuel (bp + header) s = Ret tt (s <| h_hdr := h2 |> <| h_freep := q |>).
Proof.
  intros H Hu Hf. pose proof (in_use_notin _ _ _ H Hu) as Hnin. destruct Hu as [Hlow Hn Hhigh Hapart].
  destruct (free_search s bs bp fuel H Hlow Hnin Hf) as (l1 & q & l2 & E & Hq & Hl2 & Hrun).
  pose proof (ok_base _ _ H) as Hbase. pose proof (ok_brk _ _ H) as Hbrk. pose proof (ok_sizes _ _ H) as Hs. pose proof (ok_chain _ _ H) as Hc.
  pose proof (ok_asc _ _ H) as Ha. change (base :: bs ++ [base]) with ((base :: bs) ++ [base]) in Hc.
  assert (Hin : forall x, x ∈ l1 ++ q :: l2 -> x = base \/ x ∈ bs) by (intros x; rewrite <- E; apply elem_of_cons).
  rewrite E in Hc, Ha, Hs. rewrite <- app_assoc in Hc. destruct (asc_split _ _ _ _ Ha Hs) as [Hbefore Hafter].
  pose proof (proj2 (proj1 (chain_app _ _ _ _) Hc)) as Hcq. cbn [app] in Hcq.
  assert (Hbs2 : forall x, x ∈ l2 -> x ∈ bs) by (intros x Hx; destruct (Hin x) as [->|?]; [rewrite elem_of_app, elem_of_cons; auto|specialize (Hl2 _ Hx); lia|done]).
  assert (Hqb : q = base \/ q ∈ bs) by (apply Hin, elem_of_app; right; left).
  assert (Hqend : end_of (h_hdr s) q <= bp).
  { destruct Hqb as [->|Hqb]; [unfold end_of, header; rewrite (ok_size0 _ _ H); lia|].
    destruct (Hapart q Hqb) as [?|?]; [done|]. pose proof (ok_size _ _ H q Hqb). unfold end_of, header in *. lia. }
  assert (Hptr : ptr_of (h_hdr s) q = List.hd base l2) by (by destruct l2; destruct Hcq).
  (* the new block *)
  destruct (join_run s bp l2) as (h1 & l2' & Hj1 & J1); try done; [by apply (chain_suffix _ [q])|by apply (asc_suffix _ [q]), (asc_suffix _ l1)| |lia|lia| |].
  { intros y Hy. pose proof (ok_size _ _ H y (Hbs2 y Hy)). destruct (Hapart y (Hbs2 y Hy)) as [?|?]; [|done].
    specialize (Hl2 y Hy). unfold end_of, header in *. lia. }
  { intros Hx. specialize (Hl2 bp Hx). lia. }
  (* the block before it *)
  set (s1 := s <| h_hdr := h1 |>). assert (Hqne : q <> bp) by lia.
  destruct (join_run s1 q (bp :: l2')) as (h2 & l3 & Hj2 & J2); try done.
  { exact (jn_chain _ _ _ _ _ _ J1). }
  { exact (jn_asc _ _ _ _ _ _ J1). }
  { cbn. rewrite (end_of_same (h_hdr s) h1 q) by (by apply (jn_same _ _ _ _ _ _ J1)). intros y [->|Hy]%elem_of_cons.
    - pose proof (jn_size _ _ _ _ _ _ J1). pose proof (jn_end _ _ _ _ _ _ J1). lia.
    - pose proof (jn_sub _ _ _ _ _ _ J1 y Hy) as Hy2. specialize (Hl2 y Hy2). pose proof (ok_size _ _ H y (Hbs2 y Hy2)) as Hy3.
      rewrite (size_of_same (h_hdr s) h1 y), (end_of_same (h_hdr s) h1 y) by (apply (jn_same _ _ _ _ _ _ J1); lia). lia. }
  { destruct Hqb as [->|Hqb]; [lia|]. pose proof (ok_above _ _ H q Hqb). lia. }
  { cbn. rewrite (size_of_same (h_hdr s) h1 q) by (by apply (jn_same _ _ _ _ _ _ J1)). apply Hs, elem_of_app. right. left. }
  { cbn. rewrite (end_of_same (h_hdr s) h1 q) by (by apply (jn_same _ _ _ _ _ _ J1)). unfold end_of, header in *. lia. }
  { intros [->|Hx]%elem_of_cons; [done|]. apply (jn_sub _ _ _ _ _ _ J1) in Hx. specialize (Hl2 q Hx). lia. }
  exists q, l1, l2, l2', l3, h1, h2. split; [split; try done|].
  - intros y Hy. specialize (Hbefore y Hy). assert (0 <= size_of (h_hdr s) y) by (apply Hs, elem_of_app; by left). unfold end_of, header in Hbefore. lia.
  - auto.
  - transitivity ((join bp (ptr_of (h_hdr s) q) ;;; join q bp ;;; set_freep q) s).
    + unfold free. rewrite hdr_of by (clear - Hlow Hbase Hhigh Hn Hbrk; unfold end_of, header, KERNBASE in *; lia).
      unfold kbind at 1, kget at 1. cbn [obind]. unfold kbind at 1. rewrite Hrun. reflexivity.
    + rewrite Hptr. unfold kbind at 1. rewrite Hj1. cbn [obind]. unfold kbind at 1. fold s1. cbn [List.hd] in Hj2. rewrite Hj2. reflexivity.
Qed.

Lemma free_run s bs bp fuel :
  heap_ok s bs -> in_use s bs bp -> (2 * length bs + 2 < fuel)%nat ->
  wp (free fuel (bp + header)) (fun _ s' => exists bs', freed s s' bs bs' bp) s.
Proof.
  intros H Hu Hf. destruct (free_joins s bs bp fuel H Hu Hf) as (q & l1 & l2 & l2' & l3 & h1 & h2 & [E Hq Hqb Hl1 Hl2 J1 J2] & Hfree).
  eapply wp_of_run; [exact Hfree|]. set (s' := s <| h_hdr := h2 |> <| h_freep := q |>).
  pose proof (iu_size _ _ _ Hu) as Hn. pose proof (iu_low _ _ _ Hu) as Hlow.
  assert (S1 : forall y, y <> bp -> h1 !! y = h_hdr s !! y) by apply J1. assert (S2 : forall y, y <> q -> h2 !! y = h1 !! y) by apply J2.
  assert (Hl3 : forall y, y ∈ l3 -> 1 <= size_of h2 y /\ end_of h2 y <= h_brk s).
  { intros y Hy. apply (jn_sub _ _ _ _ _ _ J2) in Hy. apply elem_of_cons in Hy as [->|Hy].
    - rewrite (size_of_same h1), (end_of_same h1) by (apply S2; lia). pose proof (jn_size _ _ _ _ _ _ J1). pose proof (jn_end _ _ _ _ _ _ J1). lia.
    - apply (jn_sub _ _ _ _ _ _ J1) in Hy. destruct (Hl2 y Hy) as [Hy1 Hy2]. rewrite (size_of_same h1), (end_of_same h1) by (apply S2; lia).
      rewrite (size_of_same (h_hdr s)), (end_of_same (h_hdr s)) by (apply S1; lia). by apply (ok_size _ _ H). }
  destruct (heap_ok_rebuild s bs s' l1 q l2 l3 H E) as (bs' & E' & Hok'); try done.
  { intros y Hy. specialize (Hl1 y Hy). cbn. rewrite S2, S1 by lia. done. }
  { apply J2. }
  { apply J2. }
  { intros ->. cbn. rewrite (jn_keep _ _ _ _ _ _ J2); [cbn; rewrite (size_of_same (h_hdr s)) by (apply S1; lia); apply H|].
    cbn. rewrite (end_of_same (h_hdr s)) by (apply S1; lia). unfold end_of, header. rewrite (ok_size0 _ _ H). lia. }
  { intros Hnb. cbn. pose proof (jn_size _ _ _ _ _ _ J2) as Hjs. cbn in Hjs. rewrite (size_of_same (h_hdr s)) in Hjs by (apply S1; lia).
    destruct Hqb as [?|Hqb]; [done|]. pose proof (ok_size _ _ H q Hqb). pose proof (jn_end _ _ _ _ _ _ J2) as Hje. cbn in Hje. lia. }
  assert (Hfr : forall z, free_at h2 (l1 ++ q :: l3) z <-> free_at (h_hdr s) (l1 ++ q :: l2) z \/ bp <= z < end_of (h_hdr s) bp).
  { intros z. rewrite !free_at_app, (jn_free _ _ _ _ _ _ J2). cbn [h_hdr]. rewrite free_at_cons, (jn_free _ _ _ _ _ _ J1).
    rewrite (end_of_same (h_hdr s)) by (apply S1; lia). rewrite !free_at_cons.
    rewrite (free_at_same (h_hdr s) h2 l1) by (intros y Hy; specialize (Hl1 y Hy); rewrite S2, S1 by lia; done). tauto. }
  exists bs'. split; [done|done| | | |].
  - apply (f_equal length) in E, E'. rewrite !length_app in E, E'. cbn in E, E'. pose proof (jn_len _ _ _ _ _ _ J1). pose proof (jn_len _ _ _ _ _ _ J2) as Hlen. cbn in Hlen. lia.
  - intros z. rewrite <- (free_at_base s' bs' z Hok'), <- (free_at_base s bs z H), E', E. apply Hfr.
  - destruct (jn_cover _ _ _ _ _ _ J2 bp ltac:(right; left)) as (y & Hy & Hsz). cbn in Hsz. pose proof (jn_size _ _ _ _ _ _ J1).
    exists y. split; [|cbn; lia]. assert (Hy' : y ∈ base :: bs') by (rewrite E'; apply elem_of_app; by right).
    apply elem_of_cons in Hy' as [->|?]; [|done]. pose proof (ok_size0 _ _ Hok') as Hz0. cbn in Hz0. lia.
  - intros y H1 H2 H3. cbn. rewrite S2, S1; [done|done|]. intros ->. by destruct Hqb.
Qed.

(** ** Taking a block out of the list *)
Record taken (s s' : heap) (bs bs' : list Z) (r n : Z) : Prop := {
  tk_ok : heap_ok s' bs';
  tk_len : (length bs' <= length bs)%nat;
  tk_brk : h_brk s' = h_brk s;
  tk_size : size_of (h_hdr s') r = n;
  tk_use : in_use s' bs' r;
  tk_free : forall z, free_at (h_hdr s) bs z <-> free_at (h_hdr s') bs' z \/ r <= z < end_of (h_hdr s') r;
  tk_other : forall o, in_use s bs o ->
    h_hdr s' !! o = h_hdr s !! o /\ in_use s' bs' o /\ (end_of (h_hdr s) o <= r \/ end_of (h_hdr s') r <= o)
}.

(** The two ways to do it, for the node [x] after [prev]. *)
Definition take_whole (prev x : Z) (s : heap) : heap := s <| h_hdr ::= put_ptr prev (ptr_of (h_hdr s) x) |> <| h_freep := prev |>.
Definition take_tail (prev x n : Z) (s : heap) : heap :=
  s <| h_hdr ::= fun h => put_size (x + header * (size_of h x - n)) n (put_size x (size_of h x - n) h) |> <| h_freep := prev |>.

Section Take.
Context (s : heap) (bs : list Z) (prev x n : Z) (k1 k2 : list Z).
Hypothesis H : heap_ok s bs.
Hypothesis E : base :: bs = k1 ++ prev :: x :: k2.
Hypothesis Hn : 1 <= n <= size_of (h_hdr s) x.
Local Notation h := (h_hdr s).

Lemma take_in y : y ∈ k1 ++ prev :: x :: k2 -> y = base \/ y ∈ bs.
Proof. rewrite <- E. apply elem_of_cons. Qed.

Lemma take_order : (forall y, y ∈ k1 ++ [prev] -> y < x /\ end_of h y < x) /\ (forall y, y ∈ k2 -> end_of h x < y) /\ (forall y, y ∈ k1 -> y < prev) /\ x ∈ bs.
Proof.
  pose proof (ok_asc _ _ H) as Ha. pose proof (ok_sizes _ _ H) as Hs. rewrite E in Ha, Hs.
  replace (k1 ++ prev :: x :: k2) with ((k1 ++ [prev]) ++ x :: k2) in Ha, Hs by (by rewrite <- app_assoc).
  destruct (asc_split _ _ _ _ Ha Hs) as [H1 H2].
  assert (H1' : forall y, y ∈ k1 ++ [prev] -> y < x /\ end_of h y < x).
  { intros y Hy. specialize (H1 y Hy). assert (0 <= size_of h y) by (apply Hs, elem_of_app; by left). unfold end_of, header in *. lia. }
  split; [done|]. split; [done|]. split.
  - rewrite <- app_assoc in Ha, Hs. destruct (asc_split _ _ _ _ Ha Hs) as [H3 _]. intros y Hy. specialize (H3 y Hy).
    assert (0 <= size_of h y) by (apply Hs, elem_of_app; by left). unfold end_of, header in *. lia.
  - destruct (take_in x) as [->|?]; [rewrite elem_of_app, !elem_of_cons; auto| |done]. rewrite (ok_size0 _ _ H) in Hn. lia.
Qed.

Lemma prev_size : (prev = base -> size_of h prev = 0) /\ (prev <> base -> 1 <= size_of h prev /\ end_of h prev <= h_brk s).
Proof.
  split; [intros ->; apply H|]. intros Hne. apply (ok_size _ _ H). destruct (take_in prev) as [?|?]; [apply elem_of_app; right; left|done|done].
Qed.

Lemma k2_in y : y ∈ k2 -> y ∈ bs.
Proof.
  intros Hy. destruct take_order as (_ & Ho & _ & Hx). specialize (Ho y Hy). pose proof (ok_above _ _ H x Hx). pose proof (ok_size _ _ H x Hx).
  destruct (take_in y) as [->|?]; [rewrite elem_of_app, !elem_of_cons; auto| |done]. unfold end_of, header in *. lia.
Qed.

(** Every block but [x] is on one side of it. *)
Lemma take_apart b : b ∈ k1 ++ prev :: k2 -> end_of h b < x \/ end_of h x < b.
Proof.
  intros Hb. destruct take_order as (H1 & H2 & _). apply elem_of_app in Hb as [Hb|[->|Hb]%elem_of_cons].
  - left. apply H1, elem_of_app. by left.
  - left. apply H1, elem_of_app. right. left.
  - right. by apply H2.
Qed.

Lemma other_apart o : in_use s bs o -> o <> prev /\ o <> x /\ (end_of h o <= x \/ end_of h x <= o).
Proof.
  intros Hu. pose proof (in_use_notin _ _ _ H Hu) as Hn'. destruct take_order as (_ & _ & _ & Hx).
  split; [|split; [by intros ->|destruct (iu_apart _ _ _ Hu x Hx); auto]].
  intros ->. destruct (take_in prev) as [Eb|?]; [apply elem_of_app; right; left| |done]. pose proof (iu_low _ _ _ Hu). lia.
Qed.

Lemma take_whole_ok : size_of h x = n -> exists bs', base :: bs' = k1 ++ prev :: k2 /\ taken s (take_whole prev x s) bs bs' x n.
Proof.
  intros Hsz. destruct take_order as (Ho1 & Ho2 & Ho3 & Hx). set (s' := take_whole prev x s).
  assert (Hsame : forall y, y <> prev -> h_hdr s' !! y = h !! y) by (intros y Hy; cbn; by apply put_ptr_ne).
  assert (Hsz' : forall y, size_of (h_hdr s') y = size_of h y).
  { intros y. destruct (decide (y = prev)) as [->|Hy]; [cbn; by autorewrite with hdr|by apply size_of_same, Hsame]. }
  assert (Hend : forall y, end_of (h_hdr s') y = end_of h y) by (intros y; unfold end_of; by rewrite Hsz').
  pose proof (ok_chain _ _ H) as Hc. change (base :: bs ++ [base]) with ((base :: bs) ++ [base]) in Hc. pose proof (ok_asc _ _ H) as Ha.
  rewrite E in Hc, Ha. rewrite <- app_assoc in Hc. apply chain_suffix in Hc. cbn [app] in Hc. destruct Hc as [_ Hc].
  pose proof (Ho1 prev ltac:(apply elem_of_app; right; left)) as Hpx.
  assert (Hk2 : forall y, y ∈ k2 -> y <> prev) by (intros y Hy; specialize (Ho2 y Hy); unfold end_of, header in Ho2; lia).
  destruct (heap_ok_rebuild s bs s' k1 prev (x :: k2) k2 H E) as (bs' & E' & Hok'); try done.
  - intros y Hy. apply Hsame. specialize (Ho3 y Hy). lia.
  - destruct k2 as [|y l]; cbn in *; destruct Hc as [Hc1 Hc2]; (split; [by autorewrite with hdr|]); [done|].
    apply (blocks_ext h (h_hdr s') (y :: l)); [|done]. intros w Hw. by apply ptr_of_same, Hsame, Hk2.
  - assert (Hk : asc h k2) by (by apply (asc_suffix _ [x]), (asc_suffix _ [prev]), (asc_suffix _ k1)). destruct k2 as [|y l]; [done|].
    split; [rewrite Hend; specialize (Ho2 y ltac:(left)); unfold end_of, header in *; lia|]. apply (asc_ext_all h); [intros w _; apply Hend|done].
  - rewrite Hsz'. apply prev_size.
  - rewrite Hsz', Hend. apply prev_size.
  - intros y Hy. rewrite Hsz', Hend. by apply (ok_size _ _ H), k2_in.
  - exists bs'. split; [done|]. pose proof (ok_size _ _ H x Hx) as [Hx1 Hx2]. pose proof (ok_above _ _ H x Hx).
    assert (Hbs' : forall b, b ∈ bs' -> b ∈ k1 ++ prev :: k2) by (intros b Hb; rewrite <- E'; by right).
    split; [done| |done|by rewrite Hsz'| | |].
    + apply (f_equal length) in E, E'. rewrite !length_app in E, E'. cbn in E, E'. lia.
    + split; [lia|rewrite Hsz'; lia|by rewrite Hend|]. intros b Hb. rewrite !Hend. destruct (take_apart b (Hbs' b Hb)); lia.
    + intros z. rewrite <- (free_at_base s bs z H), <- (free_at_base s' bs' z Hok'), E, E', !free_at_app, !free_at_cons, !Hend.
      rewrite (free_at_same h (h_hdr s') k1), (free_at_same h (h_hdr s') k2) by (intros y Hy; apply Hsame; try (specialize (Ho3 y Hy); lia); by apply Hk2). tauto.
    + intros o Hu. destruct (other_apart o Hu) as (N1 & N2 & Hap). split; [by apply Hsame|]. split; [|by rewrite Hend].
      destruct Hu as [U1 U2 U3 U4]. split; [done|by rewrite Hsz'|by rewrite Hend|]. intros b Hb. rewrite !Hend.
      destruct (take_in b) as [->|Hb']; [apply Hbs' in Hb; apply elem_of_app in Hb as [?|[?|?]%elem_of_cons]; rewrite elem_of_app, !elem_of_cons; auto| |by apply U4].
      left. unfold end_of, header. rewrite (ok_size0 _ _ H). lia.
Qed.

Record tail_facts (s' : heap) (r : Z) : Prop := {
  tf_r : x < r < end_of h x;
  tf_same : forall y, y <> x -> y <> r -> h_hdr s' !! y = h !! y;
  tf_ptr : forall y, ptr_of (h_hdr s') y = ptr_of h y;
  tf_sizer : size_of (h_hdr s') r = n;
  tf_sizex : 1 <= size_of (h_hdr s') x;
  tf_endx : end_of (h_hdr s') x = r;
  tf_endr : end_of (h_hdr s') r = end_of h x;
  tf_keep : forall y, y ∈ k1 ++ prev :: k2 -> h_hdr s' !! y = h !! y
}.

Lemma take_tail_facts : n < size_of h x -> tail_facts (take_tail prev x n s) (x + header * (size_of h x - n)).
Proof.
  intros Hsz. set (s' := take_tail prev x n s). set (r := x + header * (size_of h x - n)).
  assert (Hr : x < r < end_of h x) by (unfold r, end_of, header; lia).
  assert (Hsame : forall y, y <> x -> y <> r -> h_hdr s' !! y = h !! y).
  { intros y H1 H2. cbn. fold r. rewrite put_size_ne by done. by rewrite put_size_ne. }
  assert (Hszr : size_of (h_hdr s') r = n) by (cbn; fold r; by autorewrite with hdr).
  assert (Hszx : size_of (h_hdr s') x = size_of h x - n).
  { cbn. fold r. rewrite (size_of_same (put_size x (size_of h x - n) h)) by (apply put_size_ne; lia). by autorewrite with hdr. }
  split; [done|done| |done|lia|unfold end_of, r; by rewrite Hszx|unfold end_of; rewrite Hszr; unfold r, header; lia|].
  - intros y. cbn. fold r. destruct (decide (y = r)) as [->|Hy]; [autorewrite with hdr; apply ptr_of_same; by apply put_size_ne; lia|].
    rewrite (ptr_of_same (put_size x (size_of h x - n) h)) by (by apply put_size_ne).
    destruct (decide (y = x)) as [->|Hy']; [by autorewrite with hdr|by apply ptr_of_same, put_size_ne].
  - intros y Hy. destruct (take_apart y Hy) as [Hl|Hl]; [|apply Hsame; lia].
    assert (0 <= size_of h y) by (apply (ok_sizes _ _ H); rewrite E; apply elem_of_app in Hy as [?|[?|?]%elem_of_cons]; rewrite elem_of_app, !elem_of_cons; auto).
    unfold end_of, header in Hl. apply Hsame; lia.
Qed.

Lemma take_tail_heap : n < size_of h x -> heap_ok (take_tail prev x n s) bs.
Proof.
  intros Hsz. destruct (take_tail_facts Hsz) as [Hr Hsame Hptr Hszr Hszx Hendx Hendr Hk]. set (s' := take_tail prev x n s) in *.
  destruct take_order as (Ho1 & Ho2 & Ho3 & Hx). pose proof (ok_size _ _ H x Hx) as [Hx1 Hx2].
  pose proof (ok_chain _ _ H) as Hc. change (base :: bs ++ [base]) with ((base :: bs) ++ [base]) in Hc. pose proof (ok_asc _ _ H) as Ha.
  rewrite E in Hc, Ha. rewrite <- app_assoc in Hc. apply chain_suffix in Hc. apply asc_suffix in Ha.
  assert (Hkp : h_hdr s' !! prev = h !! prev) by (apply Hk, elem_of_app; right; left).
  destruct (heap_ok_rebuild s bs s' k1 prev (x :: k2) (x :: k2) H E) as (bs' & E' & Hok'); try done.
  - intros y Hy. apply Hk, elem_of_app. by left.
  - apply (blocks_ext h (h_hdr s') (prev :: x :: k2)); [|done]. intros w _. apply Hptr.
  - destruct Ha as [Ha1 Ha2]. split; [by rewrite (end_of_same h)|]. destruct k2 as [|y l]; [done|]. destruct Ha2 as [Ha2 Ha3]. split; [lia|].
    apply (asc_ext_all h); [|done]. intros w Hw. apply end_of_same, Hk, elem_of_app. right. by right.
  - rewrite (size_of_same h) by done. apply prev_size.
  - rewrite (size_of_same h), (end_of_same h) by done. apply prev_size.
  - intros y [->|Hy]%elem_of_cons; [lia|].
    assert (h_hdr s' !! y = h !! y) by (apply Hk, elem_of_app; right; by right). rewrite (size_of_same h), (end_of_same h) by done. by apply (ok_size _ _ H), k2_in.
  - rewrite <- E in E'. by injection E' as ->.
Qed.

Lemma take_tail_ok : n < size_of h x -> taken s (take_tail prev x n s) bs bs (x + header * (size_of h x - n)) n.
Proof.
  intros Hsz. destruct (take_tail_facts Hsz) as [Hr Hsame Hptr Hszr Hszx Hendx Hendr Hk]. pose proof (take_tail_heap Hsz) as Hok.
  set (s' := take_tail prev x n s) in *. set (r := x + header * (size_of h x - n)) in *.
  destruct take_order as (_ & _ & _ & Hx). pose proof (ok_size _ _ H x Hx) as [Hx1 Hx2]. pose proof (ok_above _ _ H x Hx).
  assert (Hbs : forall b, b ∈ bs -> b = x \/ b ∈ k1 ++ prev :: k2).
  { intros b Hb. assert (Hb' : b ∈ base :: bs) by (by right). rewrite E, elem_of_app, !elem_of_cons in Hb'. rewrite elem_of_app, elem_of_cons. tauto. }
  split; [done|done|done|done| | |].
  - split; [lia|lia|rewrite Hendr; done|]. rewrite Hendr. intros b Hb. destruct (Hbs b Hb) as [->|Hb']; [left; lia|].
    rewrite (end_of_same h) by auto. destruct (take_apart b Hb'); lia.
  - intros z. rewrite <- (free_at_base s bs z H), <- (free_at_base s' bs z Hok), E, !free_at_app, !free_at_cons, Hendx, Hendr.
    rewrite (free_at_same h (h_hdr s') k1), (free_at_same h (h_hdr s') k2), (end_of_same h (h_hdr s') prev)
      by (try intros y Hy; apply Hk; rewrite elem_of_app, elem_of_cons; auto). split; [|naive_solver lia].
    intros [?|[?|[?|?]]]; auto. destruct (decide (z < r)); [left; right; right; left; lia|right; lia].
  - intros o Hu. destruct (other_apart o Hu) as (N1 & N2 & Hap). assert (Ho : h_hdr s' !! o = h !! o).
    { apply Hsame; [done|]. intros ->. pose proof (iu_size _ _ _ Hu). unfold end_of, header in *. lia. }
    split; [done|]. split; [|rewrite Hendr; lia]. destruct Hu as [U1 U2 U3 U4].
    split; [done|by rewrite (size_of_same h)|by rewrite (end_of_same h)|]. rewrite (end_of_same h _ o) by done. intros b Hb.
    destruct (Hbs b Hb) as [->|Hb']; [rewrite Hendx; lia|]. rewrite (end_of_same h) by auto. by apply U4.
Qed.
End Take.

(** ** The walk of [malloc] *)
Context (grows : Z -> Z -> bool).

Lemma walk n : forall o prev x s fuel,
  chain (h_hdr s) (prev :: o ++ [x]) -> (forall y, y ∈ o -> size_of (h_hdr s) y < n /\ y <> h_freep s) ->
  malloc_loop grows (length o + fuel) n prev (List.hd x o) s = malloc_loop grows fuel n (List.last o prev) x s.
Proof.
  induction o as [|y o IH]; intros prev x s fuel Hc Ho; [done|]. cbn [length Nat.add List.hd malloc_loop].
  destruct (Ho y ltac:(left)) as [H1 H2]. unfold kbind at 1, size at 1, kget at 1. cbn [obind]. destruct (Z.leb_spec n (size_of (h_hdr s) y)); [lia|].
  unfold kbind at 1, kget at 1. cbn [obind]. destruct (Z.eqb_spec y (h_freep s)); [done|]. unfold kbind at 1, ptr, kget at 1. cbn [obind].
  cbn [app] in Hc. destruct Hc as [_ Hc]. rewrite last_cons. assert (Hp : ptr_of (h_hdr s) y = List.hd x o) by (by destruct o; destruct Hc).
  rewrite Hp. apply IH; [done|]. intros z Hz. apply Ho. by right.
Qed.

(** The nodes in the order of the walk. *)
Lemma around s bs : heap_ok s bs -> exists o, chain (h_hdr s) (h_freep s :: o ++ [h_freep s]) /\
  (forall y, y ∈ o ++ [h_freep s] <-> y ∈ base :: bs) /\ h_freep s ∉ o /\ length o = length bs.
Proof.
  intros H. pose proof (ok_chain _ _ H) as Hc. change (base :: bs ++ [base]) with ((base :: bs) ++ [base]) in Hc.
  pose proof (asc_NoDup _ _ (ok_asc _ _ H) (ok_sizes _ _ H)) as Hnd.
  destruct (list_elem_of_split _ _ (ok_freep _ _ H)) as (l1 & l2 & E). set (f := h_freep s) in *. rewrite E in Hc, Hnd. exists (l2 ++ l1).
  apply NoDup_app in Hnd as (_ & Hd & Hnd). apply NoDup_cons in Hnd as [Hf _]. split_and!.
  - rewrite <- app_assoc in Hc. destruct l1 as [|b l1]; injection E as Eb E2.
    + subst f. rewrite app_nil_r. cbn in Hc. by rewrite <- Eb in *.
    + subst b. cbn [app] in Hc. rewrite app_comm_cons in Hc. apply chain_app in Hc as [Hc1 Hc2].
      replace (f :: (l2 ++ base :: l1) ++ [f]) with ((f :: l2) ++ base :: l1 ++ [f]) by (cbn; by rewrite <- app_assoc).
      apply chain_app. split; [exact Hc2|exact Hc1].
  - intros y. rewrite E, !elem_of_app, !elem_of_cons, ?elem_of_nil. tauto.
  - rewrite elem_of_app. intros [?|?]; [done|]. by apply (Hd f ltac:(done)); left.
  - apply (f_equal length) in E. rewrite !length_app in *. cbn in E. lia.
Qed.

Lemma first_fit (h : gmap Z (Z * Z)) n (l : list Z) :
  (exists a x b, l = a ++ x :: b /\ (forall y, y ∈ a -> size_of h y < n) /\ n <= size_of h x) \/ (forall y, y ∈ l -> size_of h y < n).
Proof.
  induction l as [|z l IH]; [right; intros y Hy; by apply not_elem_of_nil in Hy|]. destruct (decide (n <= size_of h z)) as [Hz|Hz].
  - left. exists [], z, l. split; [done|]. split; [|done]. intros y Hy. by apply not_elem_of_nil in Hy.
  - destruct IH as [(a & x & b & -> & Ha & Hx)|IH].
    + left. exists (z :: a), x, b. split; [done|]. split; [|done]. intros y [->|Hy]%elem_of_cons; [lia|by apply Ha].
    + right. intros y [->|Hy]%elem_of_cons; [lia|by apply IH].
Qed.

Lemma fit_run s bs prev x n k :
  heap_ok s bs -> prev ∈ base :: bs -> ptr_of (h_hdr s) prev = x -> 1 <= n <= size_of (h_hdr s) x ->
  exists r s' bs', malloc_loop grows (S k) n prev x s = Ret (r + header) s' /\ taken s s' bs bs' r n.
Proof.
  intros H Hin Hp Hn. assert (Hxb : x <> base) by (intros ->; rewrite (ok_size0 _ _ H) in Hn; lia).
  destruct (list_elem_of_split _ _ Hin) as (k1 & k2 & E). pose proof (ok_chain _ _ H) as Hc.
  change (base :: bs ++ [base]) with ((base :: bs) ++ [base]) in Hc. rewrite E, <- app_assoc in Hc. apply chain_suffix in Hc.
  destruct k2 as [|x' k2]; cbn in Hc; destruct Hc as [Hc1 _]; [congruence|]. assert (x' = x) as -> by congruence.
  destruct (take_order s bs prev x n k1 k2 H E Hn) as (_ & _ & _ & Hx). pose proof (ok_size _ _ H x Hx) as [_ Hxe]. pose proof (ok_above _ _ H x Hx).
  pose proof (ok_brk _ _ H) as Hbrk. pose proof (ok_base _ _ H) as Hbase. unfold KERNBASE in Hbrk.
  cbn [malloc_loop]. unfold kbind at 1, size at 1, kget at 1. cbn [obind]. destruct (Z.leb_spec n (size_of (h_hdr s) x)); [|lia].
  destruct (Z.eqb_spec (size_of (h_hdr s) x) n) as [En|En].
  - destruct (take_whole_ok s bs prev x n k1 k2 H E Hn En) as (bs' & _ & HT). exists x, (take_whole prev x s), bs'. split; [|done].
    unfold kbind, ptr, kget, set_ptr, set_freep, kmod, kret. cbn [obind]. f_equal. unfold hdr_add, end_of, header in *. rewrite u32_id; lia.
  - pose proof (take_tail_ok s bs prev x n k1 k2 H E Hn ltac:(lia)) as HT. eexists _, _, bs. split; [|exact HT].
    unfold kbind, size, kget, set_size, set_freep, kmod, kret. cbn [obind]. unfold end_of, header in *. set (d := size_of (h_hdr s) x - n).
    assert (Hd : 1 <= d /\ x + 8 * d + 8 * n <= h_brk s) by (unfold d; lia). rewrite (u32_id d), (u32_id n) by lia. cbn. rewrite size_of_size.
    unfold hdr_add, header. rewrite (u32_id (x + 8 * d)) by lia. rewrite (u32_id (x + 8 * d + 8 * 1)) by lia. done.
Qed.

(** ** Growing the process *)

(** The kernel grows no process into its own memory. *)
Hypothesis grows_user : forall b n, grows b n = true -> b + n <= KERNBASE.

(** The process with a new block of [n] units at its end. *)
Definition grown (n : Z) (s : heap) : heap := s <| h_brk ::= fun b => b + header * n |> <| h_hdr ::= put_size (h_brk s) n |>.

Lemma grown_same n s bs : heap_ok s bs -> forall y, y ∈ base :: bs \/ y < h_brk s -> h_hdr (grown n s) !! y = h_hdr s !! y.
Proof.
  intros H y Hy. cbn. apply put_size_ne. pose proof (ok_base _ _ H). destruct Hy as [[->|Hy]%elem_of_cons|?]; [lia| |lia].
  pose proof (ok_above _ _ H y Hy). lia.
Qed.

Lemma grown_ok n s bs : heap_ok s bs -> 1 <= n -> h_brk s + header * n <= KERNBASE -> heap_ok (grown n s) bs /\ in_use (grown n s) bs (h_brk s).
Proof.
  intros H Hn Hk. pose proof (grown_same n s bs H) as Hs. pose proof (ok_base _ _ H) as Hb. pose proof H as [H1 H2 H3 H4 H5 H6 H7].
  assert (Hsz : size_of (h_hdr (grown n s)) (h_brk s) = n) by (cbn; by autorewrite with hdr).
  split; [split; [cbn; unfold header; lia|done| | | | |done]|].
  - apply (blocks_ext (h_hdr s) _ (base :: bs)); [|done]. intros x Hx. apply ptr_of_same, Hs. by left.
  - apply (asc_ext_all (h_hdr s)); [|done]. intros x Hx. apply end_of_same, Hs. by left.
  - rewrite (size_of_same (h_hdr s)); [done|]. apply Hs. left. left.
  - intros b Hin. assert (Hsame : h_hdr (grown n s) !! b = h_hdr s !! b) by (apply Hs; left; by right).
    rewrite (size_of_same (h_hdr s)), (end_of_same (h_hdr s)) by done. destruct (H6 b Hin). cbn. unfold header in *. lia.
  - split; [cbn; lia|rewrite Hsz; lia|unfold end_of; rewrite Hsz; cbn; lia|]. intros b Hin. left.
    rewrite (end_of_same (h_hdr s)) by (apply Hs; left; by right). by destruct (H6 b Hin).
Qed.

Definition core_units (n : Z) : Z := if n <? 4096 then 4096 else n.

Lemma morecore_run s bs n fuel :
  heap_ok s bs -> 1 <= n < 268435456 -> (2 * length bs + 2 < fuel)%nat ->
  morecore grows fuel n s = Ret 0 s \/
  exists s' bs', morecore grows fuel n s = Ret (h_freep s') s' /\ freed (grown (core_units n) s) s' bs bs' (h_brk s) /\ h_freep s' <> 0 /\
    heap_ok (grown (core_units n) s) bs /\ in_use (grown (core_units n) s) bs (h_brk s).
Proof.
  intros H Hn Hf. set (m := core_units n).
  assert (Hm : 1 <= m < 268435456 /\ n <= m) by (unfold m, core_units; destruct (Z.ltb_spec n 4096); lia).
  assert (Hi : i32 (m * header) = header * m) by (unfold header; rewrite i32_id; lia).
  pose proof (ok_base _ _ H) as Hb. destruct (grows (h_brk s) (header * m)) eqn:Eg.
  2:{ left. unfold morecore. fold (core_units n). fold m. rewrite Hi. unfold kbind, sbrk. by rewrite Eg. }
  right. pose proof (grows_user _ _ Eg) as Hk. destruct (grown_ok m s bs H ltac:(lia) Hk) as [Hok Huse].
  assert (Erun : morecore grows fuel n s = (free fuel (h_brk s + header) ;;; kget h_freep) (grown m s)).
  { unfold morecore. fold (core_units n). fold m. rewrite Hi. unfold kbind at 1, sbrk. rewrite Eg. cbn [obind].
    destruct (Z.eqb_spec (h_brk s) (-1)); [lia|]. unfold set_size. rewrite (u32_id m) by lia. unfold kbind at 1, kmod. cbn [obind].
    replace (hdr_add (h_brk s) 1) with (h_brk s + header) by (unfold hdr_add, header, KERNBASE in *; rewrite u32_id; lia). done. }
  pose proof (free_run (grown m s) bs (h_brk s) fuel Hok Huse Hf) as Hfree. unfold wp in Hfree. unfold kbind in Erun.
  destruct (free fuel (h_brk s + header) (grown m s)) as [[] s'| | | | |]; try done. destruct Hfree as [bs' Hfr].
  exists s', bs'. split; [done|]. split; [done|]. split; [|done]. pose proof (ok_freep _ _ (fr_ok _ _ _ _ _ Hfr)) as Hin.
  pose proof (ok_base _ _ (fr_ok _ _ _ _ _ Hfr)). apply elem_of_cons in Hin as [->|Hin]; [lia|]. pose proof (ok_above _ _ (fr_ok _ _ _ _ _ Hfr) _ Hin). lia.
Qed.

(** ** [malloc] *)
Lemma chain_last h x : forall a p, chain h (p :: a ++ [x]) -> ptr_of h (List.last a p) = x /\ ptr_of h p = List.hd x a.
Proof.
  induction a as [|y a IH]; intros p Hc; cbn [app] in Hc; [by destruct Hc as [? _]|]. destruct Hc as [H1 H2]. rewrite last_cons.
  split; [apply (IH y H2)|done].
Qed.

Lemma last_in (a : list Z) p : List.last a p ∈ p :: a.
Proof. revert p. induction a as [|y a IH]; intros p; [left|]. rewrite last_cons. right. apply IH. Qed.

(** The walk finds a block, if there is one that is large enough. *)
Lemma malloc_fits s bs n fuel :
  heap_ok s bs -> (exists b, b ∈ bs /\ n <= size_of (h_hdr s) b) -> 1 <= n -> (S (length bs) < fuel)%nat ->
  exists r s' bs', malloc_loop grows fuel n (h_freep s) (ptr_of (h_hdr s) (h_freep s)) s = Ret (r + header) s' /\ taken s s' bs bs' r n.
Proof.
  intros H (b & Hb & Hbn) Hn Hf. destruct (around s bs H) as (o & Hc & Hin & Hfo & Hlen). set (f := h_freep s) in *.
  destruct (first_fit (h_hdr s) n (o ++ [f])) as [(a & x & c & E & Ha & Hx)|Hno].
  2:{ specialize (Hno b (proj2 (Hin b) ltac:(by right))). lia. }
  rewrite E in Hc. rewrite app_comm_cons in Hc. apply chain_app in Hc as [Hc _]. cbn [app] in Hc. destruct (chain_last _ _ _ _ Hc) as [Hlast Hhd].
  assert (Hla : (length a <= length o)%nat) by (apply (f_equal length) in E; rewrite !length_app in E; cbn in E; lia).
  assert (Hao : forall y, y ∈ a -> y ∈ o).
  { intros y Hy. assert (Ea : a = take (length a) o) by (rewrite <- (take_app_le o [f]) by done; by rewrite E, take_app_length). rewrite Ea in Hy.
    apply elem_of_take in Hy as (i & Hi & _). by eapply list_elem_of_lookup_2. }
  rewrite Hhd. replace fuel with (length a + (fuel - length a))%nat by lia. rewrite walk; [|done|].
  - replace (fuel - length a)%nat with (S (fuel - length a - 1)) by lia. apply (fit_run s bs); [done| |done|done].
    apply Hin. pose proof (last_in a f) as Hl. apply elem_of_cons in Hl as [-> |Hl]; rewrite elem_of_app; [right; left|left; by apply Hao].
  - intros y Hy. split; [by apply Ha|]. fold f. intros ->. by apply Hfo, Hao.
Qed.

(** Otherwise it comes back to where it started. *)
Lemma malloc_grows s bs n fuel :
  heap_ok s bs -> (forall b, b ∈ bs -> size_of (h_hdr s) b < n) -> 1 <= n -> (length bs < fuel)%nat ->
  exists k, (fuel = length bs + S k)%nat /\
  malloc_loop grows fuel n (h_freep s) (ptr_of (h_hdr s) (h_freep s)) s =
  (p <- morecore grows k n ;; if p =? 0 then kret 0 else q <- ptr p ;; malloc_loop grows k n p q) s.
Proof.
  intros H Hall Hn Hf. destruct (around s bs H) as (o & Hc & Hin & Hfo & Hlen). set (f := h_freep s) in *.
  assert (Hno : forall y, y ∈ o ++ [f] -> size_of (h_hdr s) y < n).
  { intros y [->|Hy]%Hin%elem_of_cons; [rewrite (ok_size0 _ _ H); lia|by apply Hall]. }
  destruct (chain_last _ _ _ _ Hc) as [_ Hhd]. exists (fuel - S (length bs))%nat. split; [lia|].
  rewrite Hhd. replace fuel with (length o + S (fuel - S (length bs)))%nat at 1 by lia. rewrite walk; [|done|].
  - cbn [malloc_loop]. unfold kbind at 1, size at 1, kget at 1. cbn [obind]. specialize (Hno f ltac:(apply elem_of_app; right; left)).
    destruct (Z.leb_spec n (size_of (h_hdr s) f)); [lia|]. unfold kbind at 1, kget at 1. cbn [obind]. fold f. by rewrite Z.eqb_refl.
  - intros y Hy. split; [apply Hno, elem_of_app; by left|]. fold f. by intros ->.
Qed.

Definition apart (h : gmap Z (Z * Z)) (a b : Z) : Prop := end_of h a <= b \/ end_of h b <= a.

Record allocated (s s' : heap) (bs bs' : list Z) (r n : Z) : Prop := {
  al_ok : heap_ok s' bs';
  al_len : (length bs' <= S (length bs))%nat;
  al_brk : h_brk s <= h_brk s';
  al_size : size_of (h_hdr s') r = n;
  al_use : in_use s' bs' r;
  al_free : forall z, free_at (h_hdr s') bs' z \/ r <= z < end_of (h_hdr s') r <-> free_at (h_hdr s) bs z \/ h_brk s <= z < h_brk s';
  al_other : forall o, in_use s bs o -> h_hdr s' !! o = h_hdr s !! o /\ in_use s' bs' o /\ apart (h_hdr s') o r
}.

Lemma taken_allocated s s' bs bs' r n : taken s s' bs bs' r n -> allocated s s' bs bs' r n.
Proof.
  intros [T1 T2 T3 T4 T5 T6 T7]. split; [done|lia|lia|done|done| |].
  - intros z. rewrite T6, T3. split; [by left|]. intros [?|?]; [done|lia].
  - intros o Hu. destruct (T7 o Hu) as (H1 & H2 & H3). split; [done|]. split; [done|]. unfold apart. by rewrite (end_of_same (h_hdr s) _ o).
Qed.

(** Other blocks in use stay so when a block is freed. *)
Lemma freed_other s s' bs bs' bp o :
  freed s s' bs bs' bp -> heap_ok s bs -> in_use s bs bp -> in_use s bs o -> apart (h_hdr s) o bp -> h_hdr s' !! o = h_hdr s !! o /\ in_use s' bs' o.
Proof.
  intros [F1 F2 F3 F4 F5 F6] H Hbp Hu Hap. pose proof (in_use_notin _ _ _ H Hu) as Hn. destruct Hu as [U1 U2 U3 U4]. pose proof (iu_size _ _ _ Hbp) as Hb.
  assert (Hsame : h_hdr s' !! o = h_hdr s !! o) by (apply F6; [intros ->; unfold apart, end_of, header in Hap; lia|done|lia]).
  split; [done|]. split; [done|by rewrite (size_of_same (h_hdr s))|rewrite (end_of_same (h_hdr s)) by done; lia|].
  rewrite (end_of_same (h_hdr s) _ o) by done. intros b Hin. destruct (decide (end_of (h_hdr s') b <= o)) as [?|N1]; [by left|].
  destruct (decide (end_of (h_hdr s) o <= b)) as [?|N2]; [by right|]. exfalso. set (z := Z.max b o).
  assert (Hz : o <= z < end_of (h_hdr s) o) by (unfold z, end_of, header in *; lia).
  assert (Hfz : free_at (h_hdr s') bs' z) by (exists b; split; [done|]; destruct (ok_size _ _ F1 b Hin); unfold z, end_of, header in *; lia).
  apply F4 in Hfz as [(c & Hc & Hcz)|Hcz]; [destruct (U4 c Hc); lia|]. unfold apart in Hap. lia.
Qed.

Lemma grown_other m s bs o : heap_ok s bs -> 1 <= m -> in_use s bs o ->
  h_hdr (grown m s) !! o = h_hdr s !! o /\ in_use (grown m s) bs o /\ apart (h_hdr (grown m s)) o (h_brk s).
Proof.
  intros H Hm [U1 U2 U3 U4]. assert (Ho : o < h_brk s) by (unfold end_of, header in *; lia).
  pose proof (grown_same m s bs H o ltac:(by right)) as Hs. split; [done|].
  assert (He : end_of (h_hdr (grown m s)) o = end_of (h_hdr s) o) by (by apply end_of_same).
  split; [|left; by rewrite He]. split; [done|by rewrite (size_of_same (h_hdr s))|rewrite He; cbn; unfold header; lia|].
  intros b Hb. rewrite He, (end_of_same (h_hdr s) _ b) by (apply (grown_same m s bs H); left; by right). by apply U4.
Qed.

Lemma grown_allocated m s s1 s' bs bs1 bs' r n :
  heap_ok s bs -> 1 <= m -> heap_ok (grown m s) bs -> in_use (grown m s) bs (h_brk s) ->
  freed (grown m s) s1 bs bs1 (h_brk s) -> taken s1 s' bs1 bs' r n -> allocated s s' bs bs' r n.
Proof.
  intros H Hm Hg Hgu Hfr Htk. pose proof Hfr as [F1 F2 F3 F4 F5 F6]. pose proof Htk as [T1 T2 T3 T4 T5 T6 T7].
  assert (Hbrk : h_brk s' = h_brk s + header * m) by (rewrite T3, F2; done).
  split; [done|lia|unfold header in *; lia|done|done| |].
  - intros z. rewrite <- T6, F4. rewrite (free_at_same (h_hdr s)) by (intros y Hy; apply (grown_same m s bs H); left; by right).
    assert (He : end_of (h_hdr (grown m s)) (h_brk s) = h_brk s') by (unfold end_of; cbn; autorewrite with hdr; lia). by rewrite He.
  - intros o Hu. destruct (grown_other m s bs o H Hm Hu) as (G1 & G2 & G3). destruct (freed_other _ _ _ _ _ _ Hfr Hg Hgu G2 G3) as [O1 O2].
    destruct (T7 o O2) as (P1 & P2 & P3). split; [by rewrite P1, O1|]. split; [done|]. unfold apart. by rewrite (end_of_same (h_hdr s1) _ o).
Qed.

Lemma malloc_loop_run s bs n fuel :
  heap_ok s bs -> 1 <= n < 268435456 -> (4 * length bs + 8 < fuel)%nat ->
  let run := malloc_loop grows fuel n (h_freep s) (ptr_of (h_hdr s) (h_freep s)) s in
  run = Ret 0 s \/ exists r s' bs', run = Ret (r + header) s' /\ allocated s s' bs bs' r n.
Proof.
  intros H Hn Hf run. destruct (first_fit (h_hdr s) n bs) as [(a & x & c & E & _ & Hx)|Hno].
  - right. destruct (malloc_fits s bs n fuel H) as (r & s' & bs' & Hrun & Ht); [|lia|lia|].
    { exists x. split; [|done]. rewrite E. apply elem_of_app. right. left. }
    exists r, s', bs'. split; [done|by apply taken_allocated].
  - destruct (malloc_grows s bs n fuel H Hno ltac:(lia) ltac:(lia)) as (k & Hk & Hrun). subst run.
    destruct (morecore_run s bs n k H Hn ltac:(lia)) as [E|(s1 & bs1 & E & Hfr & Hfp & Hg & Hgu)]; unfold kbind at 1 in Hrun; rewrite E in Hrun; cbn [obind] in Hrun; [by left|].
    right. destruct (Z.eqb_spec (h_freep s1) 0); [done|]. unfold kbind at 1, ptr at 1, kget at 1 in Hrun. cbn [obind] in Hrun.
    assert (Hm : n <= core_units n) by (unfold core_units; destruct (Z.ltb_spec n 4096); lia).
    destruct (malloc_fits s1 bs1 n k (fr_ok _ _ _ _ _ Hfr)) as (r & s' & bs' & Hrun' & Ht); [|lia|pose proof (fr_len _ _ _ _ _ Hfr); lia|].
    { destruct (fr_big _ _ _ _ _ Hfr) as (b & Hb & Hsz). exists b. split; [done|]. cbn in Hsz. autorewrite with hdr in Hsz. lia. }
    exists r, s', bs'. split; [by rewrite Hrun|]. apply (grown_allocated (core_units n) s s1 s' bs bs1); (done || lia).
Qed.

(** ** A program that allocates and frees

    It asks for bytes, or releases one of the blocks it has; [live] lists the
    blocks with the bytes asked for. *)
Inductive request := Alloc (nbytes : Z) | Release (k : nat).

Fixpoint client (fuel : nat) (live : list (Z * Z)) (rs : list request) : K heap (list (Z * Z)) :=
  match rs with
  | [] => kret live
  | Alloc n :: rs => p <- malloc grows fuel n ;; client fuel (if p =? 0 then live else live ++ [(p, n)]) rs
  | Release k :: rs =>
      match live !! k with
      | Some (p, _) => free fuel p ;;; client fuel (delete k live) rs
      | None => client fuel live rs
      end
  end.

(** The blocks in use are apart from each other and from the free ones. *)
Record good (s : heap) (bs : list Z) (live : list (Z * Z)) : Prop := {
  gd_ok : heap_ok s bs;
  gd_use : forall p n, (p, n) ∈ live -> in_use s bs (p - header) /\ 0 <= n /\ p + n <= end_of (h_hdr s) (p - header);
  gd_apart : forall i j p q m n, i <> j -> live !! i = Some (p, m) -> live !! j = Some (q, n) -> apart (h_hdr s) (p - header) (q - header)
}.

(** A process that has not allocated yet. *)
Definition fresh (s : heap) : Prop := h_freep s = 0 /\ 0 < base < h_brk s /\ h_brk s <= KERNBASE.
Definition inited (s : heap) : heap := s <| h_freep := base |> <| h_hdr ::= fun h => put_size base 0 (put_ptr base base h) |>.

Lemma fresh_ok s : fresh s -> heap_ok (inited s) [].
Proof.
  intros (H1 & H2 & H3). split; [done|done| |done| |intros b Hb; by apply not_elem_of_nil in Hb|left].
  - cbn. autorewrite with hdr. done.
  - cbn. by autorewrite with hdr.
Qed.

Definition units (nbytes : Z) : Z := (nbytes + 7) / 8 + 1.

Lemma malloc_run s bs nbytes fuel :
  (heap_ok s bs \/ fresh s /\ bs = []) -> 0 <= nbytes < 1073741824 -> (4 * length bs + 8 < fuel)%nat ->
  exists s0, heap_ok s0 bs /\ (heap_ok s bs -> s0 = s) /\
  (malloc grows fuel nbytes s = Ret 0 s0 \/
   exists r s' bs', malloc grows fuel nbytes s = Ret (r + header) s' /\ allocated s0 s' bs bs' r (units nbytes)).
Proof.
  intros H Hn Hf. assert (Hu : u32 (u32 (nbytes + header - 1) / header + 1) = units nbytes /\ 1 <= units nbytes < 268435456).
  { unfold units, header. replace (nbytes + 8 - 1) with (nbytes + 7) by lia. rewrite (u32_id (nbytes + 7)) by lia.
    assert (0 <= (nbytes + 7) / 8 < 268435455) by (Z.div_mod_to_equations; lia). rewrite u32_id; lia. }
  destruct Hu as [Eu Hu]. assert (Hcase : exists s0, heap_ok s0 bs /\ (heap_ok s bs -> s0 = s) /\
    malloc grows fuel nbytes s = malloc_loop grows fuel (units nbytes) (h_freep s0) (ptr_of (h_hdr s0) (h_freep s0)) s0).
  { destruct H as [H|[Hfr ->]].
    - exists s. split; [done|]. split; [done|]. unfold malloc. rewrite Eu. unfold kbind at 1, kget at 1. cbn [obind].
      assert (Hfp : h_freep s <> 0).
      { pose proof (ok_base _ _ H). pose proof (ok_freep _ _ H) as Hin. apply elem_of_cons in Hin as [->|Hin]; [lia|]. pose proof (ok_above _ _ H _ Hin). lia. }
      destruct (Z.eqb_spec (h_freep s) 0); [done|]. reflexivity.
    - exists (inited s). split; [by apply fresh_ok|]. split.
      + intros H. pose proof (ok_base _ _ H). pose proof (ok_freep _ _ H) as Hin%list_elem_of_singleton. destruct Hfr as (E & _). lia.
      + unfold malloc. rewrite Eu. unfold kbind at 1, kget at 1. cbn [obind]. destruct Hfr as (-> & _). reflexivity. }
  destruct Hcase as (s0 & H0 & Hs0 & ->). exists s0. split; [done|]. split; [done|]. by apply (malloc_loop_run s0 bs).
Qed.

Lemma good_alloc s0 s' bs bs' live r nbytes :
  good s0 bs live -> 0 <= nbytes -> allocated s0 s' bs bs' r (units nbytes) -> good s' bs' (live ++ [(r + header, nbytes)]).
Proof.
  intros [G1 G2 G3] Hn [A1 A2 A3 A4 A5 A6 A7].
  assert (Hold : forall p n, (p, n) ∈ live -> end_of (h_hdr s') (p - header) = end_of (h_hdr s0) (p - header) /\ in_use s' bs' (p - header) /\ apart (h_hdr s') (p - header) r).
  { intros p n Hp. destruct (G2 p n Hp) as (Hu & _). destruct (A7 _ Hu) as (E & Hu' & Hap). split; [by apply end_of_same|done]. }
  split; [done| |].
  - intros p n [Hp|Hp%list_elem_of_singleton]%elem_of_app.
    + destruct (Hold p n Hp) as (-> & Hu & _). destruct (G2 p n Hp) as (_ & ? & ?). done.
    + injection Hp as -> ->. replace (r + header - header) with r by lia. split; [done|]. split; [done|]. unfold end_of. rewrite A4.
      unfold units, header. Z.div_mod_to_equations. lia.
  - assert (Hsnoc : forall i p n, (live ++ [(r + header, nbytes)]) !! i = Some (p, n) -> live !! i = Some (p, n) \/ i = length live /\ p = r + header).
    { intros i p n Hi. apply lookup_snoc_Some in Hi as [[_ Hi]|[-> Hi]]; [by left|]. injection Hi as -> ->. by right. }
    intros i j p q m n Hij Hi Hj. destruct (Hsnoc i p m Hi) as [Hi'|[-> ->]], (Hsnoc j q n Hj) as [Hj'|[-> ->]]; [| | |done].
    + destruct (Hold p m ltac:(by eapply list_elem_of_lookup_2)) as (E1 & _). destruct (Hold q n ltac:(by eapply list_elem_of_lookup_2)) as (E2 & _).
      unfold apart. rewrite E1, E2. by apply (G3 i j p q m n).
    + replace (r + header - header) with r by lia. by destruct (Hold p m ltac:(by eapply list_elem_of_lookup_2)) as (_ & _ & ?).
    + replace (r + header - header) with r by lia. destruct (Hold q n ltac:(by eapply list_elem_of_lookup_2)) as (_ & _ & [?|?]); [by right|by left].
Qed.

Lemma good_free s s' bs bs' live k p n :
  good s bs live -> live !! k = Some (p, n) -> freed s s' bs bs' (p - header) -> good s' bs' (delete k live).
Proof.
  intros [G1 G2 G3] Hk Hfr. destruct (G2 p n ltac:(by eapply list_elem_of_lookup_2)) as (Hu & _).
  assert (Hd : forall i q m, delete k live !! i = Some (q, m) -> exists i', i' <> k /\ live !! i' = Some (q, m) /\ i' = (if decide (i < k)%nat then i else S i)).
  { intros i q m Hi. destruct (decide (i < k)%nat) as [Hl|Hl].
    - rewrite list_lookup_delete_lt in Hi by lia. exists i. split; [lia|done].
    - rewrite list_lookup_delete_ge in Hi by lia. exists (S i). split; [lia|done]. }
  assert (Hold : forall i q m, i <> k -> live !! i = Some (q, m) -> end_of (h_hdr s') (q - header) = end_of (h_hdr s) (q - header) /\ in_use s' bs' (q - header)).
  { intros i q m Hne Hi. destruct (G2 q m ltac:(by eapply list_elem_of_lookup_2)) as (Hq & _).
    destruct (freed_other _ _ _ _ _ (q - header) Hfr G1 Hu Hq (G3 i k q p m n Hne Hi Hk)) as [E Hu']. split; [by apply end_of_same|done]. }
  split; [apply Hfr| |].
  - intros q m (i & Hi)%list_elem_of_lookup. destruct (Hd i q m Hi) as (i' & Hne & Hi' & _). destruct (Hold i' q m Hne Hi') as (-> & Hu').
    split; [done|]. by apply (G2 q m), (list_elem_of_lookup_2 _ i').
  - intros i j q1 q2 m1 m2 Hij Hi Hj. destruct (Hd i q1 m1 Hi) as (i' & Hne & Hi' & Ei). destruct (Hd j q2 m2 Hj) as (j' & Hne' & Hj' & Ej).
    unfold apart. rewrite (proj1 (Hold i' q1 m1 Hne Hi')), (proj1 (Hold j' q2 m2 Hne' Hj')). apply (G3 i' j' q1 q2 m1 m2); [|done|done].
    destruct (decide (i < k)%nat), (decide (j < k)%nat); lia.
Qed.

Definition request_ok (r : request) : Prop := match r with Alloc n => 0 <= n < 1073741824 | Release _ => True end.

Lemma client_run fuel rs : Forall request_ok rs -> forall s bs live,
  (good s bs live \/ fresh s /\ bs = [] /\ live = []) -> (4 * (length bs + length rs) + 8 < fuel)%nat ->
  wp (client fuel live rs) (fun live' s' => fresh s' /\ live' = [] \/ exists bs', good s' bs' live') s.
Proof.
  induction 1 as [|r rs Hr _ IH]; intros s bs live Hg Hf; cbn [client].
  - apply wp_ret. destruct Hg as [Hg|(H1 & _ & H2)]; [right; by exists bs|by left].
  - cbn [length] in Hf. destruct r as [n|k].
    + apply wp_bind. destruct (malloc_run s bs n fuel) as (s0 & H0 & Hs0 & Hrun); [destruct Hg as [[? _ _]|(? & ? & _)]; auto|done|lia|].
      assert (Hg0 : good s0 bs live).
      { destruct Hg as [Hg|(Hfr & -> & ->)]; [by rewrite (Hs0 (gd_ok _ _ _ Hg))|]. split; [done|intros p m Hp; by apply not_elem_of_nil in Hp|].
        intros i j p q m m' _ Hi. done. }
      destruct Hrun as [Hrun|(r & s' & bs' & Hrun & Ha)]; (eapply wp_of_run; [exact Hrun|]).
      * cbn. apply (IH s0 bs); [by left|lia].
      * assert (Hp : (r + header =? 0) = false).
        { apply Z.eqb_neq. pose proof (iu_low _ _ _ (al_use _ _ _ _ _ _ Ha)). pose proof (ok_base _ _ H0). unfold header. lia. }
        rewrite Hp. apply (IH s' bs'); [left; apply (good_alloc s0 s' bs); [done|apply Hr|done]|]. pose proof (al_len _ _ _ _ _ _ Ha). lia.
    + destruct (live !! k) as [[p n]|] eqn:Ek; [|apply (IH s bs); [done|lia]].
      destruct Hg as [Hg|(_ & _ & ->)]; [|done]. destruct (gd_use _ _ _ Hg p n ltac:(by eapply list_elem_of_lookup_2)) as (Hu & _).
      apply wp_bind. replace p with (p - header + header) at 1 by lia.
      eapply wp_mono; [apply (free_run s bs (p - header) fuel (gd_ok _ _ _ Hg) Hu); lia|]. intros [] s' (bs' & Hfr).
      apply (IH s' bs'); [left; by apply (good_free s s' bs bs' live k p n)|]. pose proof (fr_len _ _ _ _ _ Hfr). lia.
Qed.

(** C12: The allocator is safe for every program.  Take any sequence of requests,
    each for less than 1 GB or to free a block that is in use, and any behaviour
    of [sbrk] that keeps the process below the kernel.  Every request returns:
    the loops over the circular list end.  At the end the blocks the program
    holds lie in its memory, each has the bytes that were asked for behind its
    header, no two of them overlap, headers included, and none overlaps a block
    of the free list; the free list is a circular list through [base] in
    ascending order, in which no two blocks touch. *)
Theorem umalloc_safe (s : heap) (rs : list request) (fuel : nat) :
  fresh s -> Forall request_ok rs -> (4 * length rs + 8 < fuel)%nat ->
  wp (client fuel [] rs) (fun live s' =>
    (forall i j p q m n, i <> j -> live !! i = Some (p, m) -> live !! j = Some (q, n) -> p + m <= q - header \/ q + n <= p - header) /\
    (forall p n, (p, n) ∈ live -> base < p - header /\ p + n <= h_brk s' <= KERNBASE) /\
    (fresh s' /\ live = [] \/ exists bs, heap_ok s' bs /\ forall p n b, (p, n) ∈ live -> b ∈ bs ->
       end_of (h_hdr s') b <= p - header \/ p + n <= b)) s.
Proof.
  intros Hs Hrs Hf. eapply wp_mono; [apply (client_run fuel rs Hrs s [] []); [by right|cbn; lia]|].
  intros live s' [[Hfr ->]|(bs & [G1 G2 G3])].
  - split; [intros i j p q m n _ Hi; done|]. split; [intros p n Hp; by apply not_elem_of_nil in Hp|by left].
  - assert (Hin : forall i p n, live !! i = Some (p, n) -> p + n <= end_of (h_hdr s') (p - header)).
    { intros i p n Hi. by apply (G2 p n), (list_elem_of_lookup_2 _ i). }
    split; [|split].
    + intros i j p q m n Hij Hi Hj. pose proof (Hin i p m Hi). pose proof (Hin j q n Hj). destruct (G3 i j p q m n Hij Hi Hj); lia.
    + intros p n Hp. destruct (G2 p n Hp) as ([U1 U2 U3 U4] & ? & ?). pose proof (ok_brk _ _ G1). lia.
    + right. exists bs. split; [done|]. intros p n b Hp Hb. destruct (G2 p n Hp) as ([U1 U2 U3 U4] & ? & ?). destruct (U4 b Hb); lia.
Qed.
End Spec.

Definition demo_heap : heap := mk_heap ∅ 0 8192.
Definition demo_requests : list request := [Alloc 100; Alloc 40000; Alloc 8; Release 1; Release 0; Alloc 24].
Definition demo_grows (b n : Z) : bool := b + n <=? KERNBASE.


Lemma umalloc_safe_witness :
  (match client (B := 4096) demo_grows 33 [] demo_requests demo_heap with Ret live s => live = [(40840, 8); (80944, 24)] | _ => False end) /\
  wp (client (B := 4096) demo_grows 33 [] demo_requests) (fun live s' =>
    (forall i j p q m n, i <> j -> live !! i = Some (p, m) -> live !! j = Some (q, n) -> p + m <= q - header \/ q + n <= p - header) /\
    (forall p n, (p, n) ∈ live -> 4096 < p - header /\ p + n <= h_brk s' <= KERNBASE) /\
    (fresh (B := 4096) s' /\ live = [] \/ exists bs, heap_ok (B := 4096) s' bs /\ forall p n b, (p, n) ∈ live -> b ∈ bs ->
       end_of (h_hdr s') b <= p - header \/ p + n <= b)) demo_heap.
Proof.
  split; [vm_compute; reflexivity|]. apply (umalloc_safe (B := 4096) demo_grows).
  - intros b n Hb. unfold demo_grows in Hb. lia.
  - split; [done|]. cbn. unfold KERNBASE, base. lia.
  - repeat constructor; cbn; lia.
  - cbn. lia.
Defined.
