(* ===== verification/Mkfs.v ===== *)
(** * The image builder

    [mkfs.c], which runs on the host.  The state is the image, by blocks, and
    the two variables that say which inode and which block is the next free
    one.  The host stores integers in Intel byte order, so that [xint] and
    [xshort] only cut a value to its width.  Calls of the host: a write to the
    image succeeds, a read fails past its end; a program that ends with an error
    is a [Panic].  The arguments are the names of the files, each with the
    results of [read] on it, or without them if it cannot be opened. *)

From stdpp Require Import base gmap strings list fin_maps.
From Stdlib Require Import ZArith Lia.
From S2P Require Import Prelude Mem Types Spinlock Kalloc Vm Proc Access Sleeplock Disk Bio Log Inode Console Fs.

Module Image.
Record mkfs := mk_mkfs { m_img : gmap Z (list Z); m_freeinode : Z; m_freeblock : Z }.
Definition eta_mkfs (x : mkfs) : mkfs := mk_mkfs (m_img x) (m_freeinode x) (m_freeblock x).
#[global] Instance upd_m_img : Updater m_img := ltac:(solve_updater eta_mkfs m_img).
#[global] Instance upd_m_freeinode : Updater m_freeinode := ltac:(solve_updater eta_mkfs m_freeinode).
#[global] Instance upd_m_freeblock : Updater m_freeblock := ltac:(solve_updater eta_mkfs m_freeblock).

Definition NINODES : Z := 200.
Definition nbitmap : Z := FSSIZE / (BSIZE * 8) + 1.
Definition ninodeblocks : Z := NINODES / IPB + 1.
Definition nlog : Z := LOGSIZE.
Definition nmeta : Z := 2 + nlog + ninodeblocks + nbitmap.
Definition nblocks : Z := FSSIZE - nmeta.
Definition zeroes : list Z := replicate (Z.to_nat BSIZE) 0.

Definition xshort (x : Z) : Z := u16 x.
Definition xint (x : Z) : Z := u32 x.

Definition sb : superblock :=
  mk_superblock (xint FSSIZE) (xint nblocks) (xint NINODES) (xint nlog) (xint 2) (xint (2 + nlog)) (xint (2 + nlog + ninodeblocks)).

(** The state at the start: the image was truncated. *)
Definition empty : mkfs := mk_mkfs ∅ 1 0.

Definition wsect (sec : Z) (buf : list Z) : K mkfs unit := kmod (fun s => s <| m_img ::= insert sec buf |>).
Definition rsect (sec : Z) : K mkfs (list Z) := fun s =>
  match m_img s !! sec with
  | Some b => Ret b s
  | None => Panic "read" s
  end.

Definition slot (inum : Z) : Z := inum mod IPB * DINODE_SIZE.
Definition winode (inum : Z) (ip : dinode) : K mkfs unit :=
  let bn := IBLOCK inum sb in
  buf <- rsect bn ;;
  wsect bn (encode_dinode buf (slot inum) ip).
Definition rinode (inum : Z) : K mkfs dinode :=
  let bn := IBLOCK inum sb in
  buf <- rsect bn ;;
  kret (decode_dinode buf (slot inum)).

Definition ialloc (type : Z) : K mkfs Z :=
  inum <- kget m_freeinode ;;
  kmod (fun s => s <| m_freeinode ::= fun n => u32 (n + 1) |>) ;;;
  winode inum (mk_dinode (xshort type) 0 0 (xshort 1) (xint 0) (replicate 13 0)) ;;;
  kret inum.

(** [freeblock++] *)
Definition next_block : K mkfs Z :=
  b <- kget m_freeblock ;;
  kmod (fun s => s <| m_freeblock ::= fun n => u32 (n + 1) |>) ;;;
  kret b.

(** The block of the file that [iappend] writes to, and the inode's block
    numbers; it is allocated if it is not there. *)
Definition append_block (addrs : list Z) (fbn : Z) : K mkfs (Z * list Z) :=
  if fbn <? NDIRECT then
    addrs <- (if default 0 (addrs !! Z.to_nat fbn) =? 0 then
                b <- next_block ;;
                kret (<[Z.to_nat fbn := xint b]> addrs)
              else kret addrs) ;;
    kret (default 0 (addrs !! Z.to_nat fbn), addrs)
  else
    addrs <- (if default 0 (addrs !! Z.to_nat NDIRECT) =? 0 then
                b <- next_block ;;
                kret (<[Z.to_nat NDIRECT := xint b]> addrs)
              else kret addrs) ;;
    let ind := default 0 (addrs !! Z.to_nat NDIRECT) in
    indirect <- rsect ind ;;
    indirect <- (if get32 indirect (4 * (fbn - NDIRECT)) =? 0 then
                   b <- next_block ;;
                   let indirect := put32 indirect (4 * (fbn - NDIRECT)) (xint b) in
                   wsect ind indirect ;;;
                   kret indirect
                 else kret indirect) ;;
    kret (get32 indirect (4 * (fbn - NDIRECT)), addrs).

Fixpoint iappend_loop (fuel : nat) (p : list Z) (off : Z) (addrs : list Z) : K mkfs (Z * list Z) :=
  match fuel with
  | O => NoFuel
  | S k =>
      match p with
      | [] => kret (off, addrs)
      | _ =>
          let fbn := off / BSIZE in
          if negb (fbn <? MAXFILE) then kpanic "assert" else
          r <- append_block addrs fbn ;;
          let x := fst r in
          let addrs := snd r in
          let n1 := Z.min (Z.of_nat (length p)) ((fbn + 1) * BSIZE - off) in
          buf <- rsect x ;;
          wsect x (put_bytes buf (off - fbn * BSIZE) (take (Z.to_nat n1) p)) ;;;
          iappend_loop k (drop (Z.to_nat n1) p) (off + n1) addrs
      end
  end.

(** [iappend(inum, xp, n)] with the [n] bytes at [xp]. *)
Definition iappend (inum : Z) (xp : list Z) : K mkfs unit :=
  din <- rinode inum ;;
  r <- iappend_loop (io_fuel (Z.of_nat (length xp))) xp (d_size din) (d_addrs din) ;;
  winode inum (mk_dinode (d_type din) (d_major din) (d_minor din) (d_nlink din) (xint (fst r)) (snd r)).

Definition balloc (used : Z) : K mkfs unit :=
  if negb (used <? BSIZE * 8) then kpanic "assert" else
  let buf := foldl (fun buf i => put8 buf (i / 8) (Z.lor (byte_at buf (i / 8)) (Z.shiftl 1 (i mod 8)))) zeroes (seqZ 0 used) in
  wsect (sb_bmapstart sb) buf.

Definition put_sb (buf : list Z) (x : superblock) : list Z :=
  put_words buf 0 [sb_size x; sb_nblocks x; sb_ninodes x; sb_nlog x; sb_logstart x; sb_inodestart x; sb_bmapstart x].

(** The body of the loop of [main] over the files. *)
Definition add_file (rootino : Z) (f : list Z * option (list (list Z))) : K mkfs unit :=
  let argv := fst f in
  if bool_decide (47 ∈ argv) then kpanic "assert" else
  match snd f with
  | None => kpanic "open"
  | Some reads =>
      let argv := if bool_decide (head argv = Some 95) then tail argv else argv in
      inum <- ialloc T_FILE ;;
      iappend rootino (encode_dirent (mk_dirent (xshort inum) (strncpy_str argv (Z.to_nat DIRSIZ)))) ;;;
      keach reads (iappend inum)
  end.

Definition main (files : list (list Z * option (list (list Z)))) : K mkfs unit :=
  kmod (fun s => s <| m_freeblock := nmeta |>) ;;;
  keach (seqZ 0 FSSIZE) (fun i => wsect i zeroes) ;;;
  wsect 1 (put_sb zeroes sb) ;;;
  rootino <- ialloc T_DIR ;;
  if negb (rootino =? ROOTINO) then kpanic "assert" else
  iappend rootino (encode_dirent (mk_dirent (xshort rootino) (strncpy_str [46] (Z.to_nat DIRSIZ)))) ;;;
  iappend rootino (encode_dirent (mk_dirent (xshort rootino) (strncpy_str [46; 46] (Z.to_nat DIRSIZ)))) ;;;
  keach files (add_file rootino) ;;;
  din <- rinode rootino ;;
  let off := d_size din in
  let off := u32 ((off / BSIZE + 1) * BSIZE) in
  winode rootino (mk_dinode (d_type din) (d_major din) (d_minor din) (d_nlink din) (xint off) (d_addrs din)) ;;;
  used <- kget m_freeblock ;;
  balloc used.
End Image.

