(* ===== verification/MkfsSpec.v ===== *)
(** * The file system that the image builder makes

    Every step of [mkfs] keeps the image consistent: each block belongs to one
    part of one file, inodes describe the contents, blocks not taken are zero. *)

From stdpp Require Import base gmap strings list fin_maps.
From Stdlib Require Import ZArith Lia.
From S2P Require Import Prelude Mem Types Spinlock Kalloc Vm Proc ProcSpec Access Bytes Sleeplock Steady Disk Bio BioSpec Log LogSpec Inode TxnSpec Console Fs FileSpec AllocSpec Mkfs.

Import Image.

(** ** The blocks of a file in the image *)

Definition blockof (m : mkfs) (b : Z) : list Z := default zero_block (m_img m !! b).
Definition addr (addrs : list Z) (k : Z) : Z := default 0 (addrs !! Z.to_nat k).
Definition blkno (m : mkfs) (addrs : list Z) (bn : Z) : Z :=
  if bn <? NDIRECT then addr addrs bn else get32 (blockof m (addr addrs NDIRECT)) (4 * (bn - NDIRECT)).

(** The blocks that [n] bytes take, and with the indirect block. *)
Definition nblk (n : Z) : Z := (n + 511) / 512.
Definition cost (nb : Z) : Z := nb + (if 12 <? nb then 1 else 0).

(** File [inum] has the contents [c] in its first [nb] blocks, and with [ib] an
    indirect block; [own] says which file, and which part of it, each block
    belongs to. *)
Record file_rep (m : mkfs) (own : Z -> Z * Z) (inum : Z) (addrs : list Z) (nb : Z) (ib : bool) (c : list Z) : Prop := {
  fr_nb : 0 <= nb <= 140 /\ Z.of_nat (length c) <= nb * 512;
  fr_addrs : length addrs = 13%nat /\ Forall (fun a => 0 <= a < 4294967296) addrs;
  fr_blk : forall bn, 0 <= bn < nb -> let b := blkno m addrs bn in
    nmeta <= b < m_freeblock m /\ own b = (inum, bn) /\ forall o, 0 <= o < 512 -> byte_at (blockof m b) o = byte_at c (bn * 512 + o);
  fr_none : (forall k, nb <= k < 12 -> addr addrs k = 0) /\ (ib = false -> addr addrs 12 = 0 /\ nb <= 12);
  fr_ind : ib = true -> let b := addr addrs 12 in
    nmeta <= b < m_freeblock m /\ own b = (inum, -1) /\ forall k, nb - 12 <= k < 128 -> get32 (blockof m b) (4 * k) = 0
}.

(** The image as a whole: every block is there, those not yet taken are zero. *)
Record sound (m : mkfs) : Prop := {
  so_dom : forall b, 0 <= b < FSSIZE -> is_Some (m_img m !! b);
  so_len : forall b, length (blockof m b) = 512%nat;
  so_range : nmeta <= m_freeblock m <= FSSIZE;
  so_fresh : forall b, m_freeblock m <= b -> blockof m b = zero_block
}.

(** From [m] to [m'] only blocks of file [inum] change, among them new ones. *)
Record grown (inum : Z) (m : mkfs) (own : Z -> Z * Z) (m' : mkfs) (own' : Z -> Z * Z) : Prop := {
  gr_sound : sound m';
  gr_fb : m_freeblock m <= m_freeblock m';
  gr_meta : forall b, b < nmeta -> blockof m' b = blockof m b;
  gr_other : forall b, b < m_freeblock m -> fst (own b) <> inum -> blockof m' b = blockof m b;
  gr_own : forall b, b < m_freeblock m -> own' b = own b;
  gr_inode : m_freeinode m' = m_freeinode m
}.

Lemma grown_refl inum m own : sound m -> grown inum m own m own.
Proof. intros H. split; [done|lia|done|done|done|done]. Qed.

Lemma grown_trans inum m1 o1 m2 o2 m3 o3 : grown inum m1 o1 m2 o2 -> grown inum m2 o2 m3 o3 -> grown inum m1 o1 m3 o3.
Proof.
  intros [A1 A2 A3 A4 A5 A6] [B1 B2 B3 B4 B5 B6]. split; [done|lia| | | |congruence].
  - intros b Hb. by rewrite B3, A3.
  - intros b Hb Ho. rewrite B4, A4; [done|done|done|lia|by rewrite A5].
  - intros b Hb. rewrite B5, A5; [done|done|lia].
Qed.

(** A file that shares no block keeps its contents. *)
Lemma file_rep_frame inum j m own m' own' addrs nb ib c :
  grown inum m own m' own' -> j <> inum -> file_rep m own j addrs nb ib c -> file_rep m' own' j addrs nb ib c.
Proof.
  intros G Hj [R1 R2 R3 R4 R5]. pose proof (gr_fb _ _ _ _ _ G) as Hfb.
  assert (Hind : ib = true -> blockof m' (addr addrs 12) = blockof m (addr addrs 12)).
  { intros H. destruct (R5 H) as ([? ?] & Ho & _). apply (gr_other _ _ _ _ _ G); [lia|by rewrite Ho]. }
  assert (Hblk : forall bn, 0 <= bn < nb -> blkno m' addrs bn = blkno m addrs bn).
  { intros bn Hbn. unfold blkno. destruct (bn <? NDIRECT) eqn:E; [done|]. change NDIRECT with 12 in *. rewrite Hind; [done|].
    destruct ib; [done|]. destruct (proj2 R4 eq_refl). lia. }
  split; [done|done| |done|].
  - intros bn Hbn. cbn zeta. rewrite Hblk by done. destruct (R3 bn Hbn) as ([? ?] & Ho & Hb). split; [lia|].
    split; [rewrite (gr_own _ _ _ _ _ G) by lia; done|]. rewrite (gr_other _ _ _ _ _ G) by (lia || by rewrite Ho). done.
  - intros H. cbn zeta. destruct (R5 H) as ([? ?] & Ho & Hb). split; [lia|]. split; [rewrite (gr_own _ _ _ _ _ G) by lia; done|].
    by rewrite Hind.
Qed.

(** ** Reading and writing sectors *)

Lemma rsect_run m b : sound m -> 0 <= b < FSSIZE -> rsect b m = Ret (blockof m b) m.
Proof. intros H Hb. unfold rsect, blockof. destruct (so_dom _ H b Hb) as [d ->]. done. Qed.

Definition put_block (b : Z) (d : list Z) (m : mkfs) : mkfs := m <| m_img ::= insert b d |>.

Lemma blockof_put m b d b' : blockof (put_block b d m) b' = if decide (b' = b) then d else blockof m b'.
Proof.
  unfold blockof, put_block. cbn. case_decide as E; [subst; by rewrite lookup_insert_eq|by rewrite lookup_insert_ne].
Qed.

Lemma sound_put m b d : sound m -> 0 <= b < m_freeblock m -> length d = 512%nat -> sound (put_block b d m).
Proof.
  intros [S1 S2 S3 S4] Hb Hd. split; [| |done|].
  - intros b' Hb'. unfold put_block. cbn. destruct (decide (b' = b)) as [->|E]; [by rewrite lookup_insert_eq|rewrite lookup_insert_ne by congruence; by apply S1].
  - intros b'. rewrite blockof_put. by case_decide.
  - intros b' Hb'. rewrite blockof_put, decide_False; [by apply S4|]. unfold put_block in *. cbn in Hb'. lia.
Qed.

Lemma grown_put inum m own b d k :
  sound m -> nmeta <= b < m_freeblock m -> own b = (inum, k) -> length d = 512%nat -> grown inum m own (put_block b d m) own.
Proof.
  intros Hs Hb Ho Hd. assert (0 <= nmeta) by done. split; [apply sound_put; [done|lia|done]|done| | |done|done].
  - intros b' Hb'. by rewrite blockof_put, decide_False by lia.
  - intros b' Hb' Hne. rewrite blockof_put, decide_False; [done|]. intros ->. by rewrite Ho in Hne.
Qed.

(** The next free block, given to part [k] of file [inum]. *)
Definition take_block (m : mkfs) : mkfs := m <| m_freeblock ::= fun n => n + 1 |>.
Definition give (own : Z -> Z * Z) (b : Z) (o : Z * Z) : Z -> Z * Z := fun b' => if decide (b' = b) then o else own b'.

Lemma next_block_run m : sound m -> m_freeblock m < FSSIZE -> next_block m = Ret (m_freeblock m) (take_block m).
Proof.
  intros Hs Hlt. destruct (so_range _ Hs). assert (0 <= nmeta) by done. change FSSIZE with 1000 in *. unfold next_block, kget, kmod, kret, kbind. cbn [obind]. unfold take_block, update, upd_m_freeblock. cbn.
  rewrite u32_id by lia. done.
Qed.

Lemma grown_take inum m own k : sound m -> m_freeblock m < FSSIZE -> grown inum m own (take_block m) (give own (m_freeblock m) (inum, k)).
Proof.
  intros [S1 S2 S3 S4] Hlt. split.
  - split; [done|done|unfold take_block; cbn; lia|]. intros b Hb. unfold take_block in Hb. cbn in Hb. apply S4. lia.
  - unfold take_block. cbn. lia.
  - done.
  - done.
  - intros b Hb. unfold give. by rewrite decide_False by lia.
  - done.
Qed.

(** ** A block for the next bytes *)

Lemma addr_insert addrs k v j : (Z.to_nat k < length addrs)%nat -> 0 <= k -> 0 <= j -> addr (<[Z.to_nat k := v]> addrs) j = if decide (j = k) then v else addr addrs j.
Proof.
  intros Hk H0 Hj. unfold addr. case_decide as E; [subst; by rewrite list_lookup_insert_eq|rewrite list_lookup_insert_ne by lia; done].
Qed.

Lemma byte_at_replicate n o : byte_at (replicate n 0) o = 0.
Proof. unfold byte_at. destruct (replicate n 0 !! Z.to_nat o) as [v|] eqn:E; [|done]. by apply lookup_replicate in E as [-> _]. Qed.
Lemma byte_at_zero o : byte_at zero_block o = 0.
Proof. apply byte_at_replicate. Qed.
Lemma get32_zero o : get32 zero_block o = 0.
Proof. unfold get32. by rewrite !byte_at_zero. Qed.
Lemma byte_at_end c o : Z.of_nat (length c) <= o -> byte_at c o = 0.
Proof. intros H. unfold byte_at. by rewrite lookup_ge_None_2 by lia. Qed.

(** A direct block. *)
Lemma direct_new m own inum addrs nb c :
  sound m -> file_rep m own inum addrs nb false c -> nb < 12 -> m_freeblock m < FSSIZE ->
  let b := m_freeblock m in let m' := take_block m in let own' := give own b (inum, nb) in let addrs' := <[Z.to_nat nb := b]> addrs in
  grown inum m own m' own' /\ file_rep m' own' inum addrs' (nb + 1) false c /\ blkno m' addrs' nb = b.
Proof.
  intros Hs [R1 [R2 R2'] R3 [R4 R4'] R5] Hnb Hlt b m' own' addrs'. assert (Hm : 0 <= nmeta) by done. pose proof (so_range _ Hs) as Hr.
  change FSSIZE with 1000 in *. split; [by apply grown_take|].
  assert (Ha : forall k, 0 <= k -> addr addrs' k = if decide (k = nb) then b else addr addrs k) by (intros k Hk; apply addr_insert; lia).
  assert (Hbn : blkno m' addrs' nb = b) by (unfold blkno; change NDIRECT with 12; rewrite (proj2 (Z.ltb_lt nb 12)), Ha, decide_True by lia; done).
  split; [|done]. split.
  - lia.
  - split; [by unfold addrs'; rewrite length_insert|]. apply Forall_insert; [done|]. unfold b. lia.
  - intros bn Hbn'. cbn zeta. destruct (decide (bn = nb)) as [->|Hne].
    + rewrite Hbn. split; [unfold m', take_block; cbn; unfold b; lia|]. split; [unfold own', give; by rewrite decide_True|].
      intros o Ho. change (blockof m' b) with (blockof m b). rewrite (so_fresh _ Hs) by done. rewrite byte_at_zero, byte_at_end by lia. done.
    + assert (E : blkno m' addrs' bn = blkno m addrs bn).
      { unfold blkno. change NDIRECT with 12. rewrite (proj2 (Z.ltb_lt bn 12)), Ha, decide_False by lia. done. }
      rewrite E. destruct (R3 bn ltac:(lia)) as ([? ?] & Ho & Hb). split; [unfold m', take_block; cbn; lia|]. split; [|done].
      unfold own', give. rewrite decide_False; [done|]. unfold b. lia.
  - split; [|intros _; rewrite Ha, decide_False by lia; split; [by apply R4'|lia]]. intros k Hk. rewrite Ha, decide_False by lia. apply R4. lia.
  - done.
Qed.

(** The indirect block. *)
Lemma indirect_new m own inum addrs c :
  sound m -> file_rep m own inum addrs 12 false c -> m_freeblock m < FSSIZE ->
  let b := m_freeblock m in let m' := take_block m in let own' := give own b (inum, -1) in let addrs' := <[12%nat := b]> addrs in
  grown inum m own m' own' /\ file_rep m' own' inum addrs' 12 true c.
Proof.
  intros Hs [R1 [R2 R2'] R3 [R4 R4'] R5] Hlt b m' own' addrs'. assert (Hm : 0 <= nmeta) by done. pose proof (so_range _ Hs) as Hr.
  change FSSIZE with 1000 in *. split; [by apply grown_take|].
  assert (Ha : forall k, 0 <= k -> addr addrs' k = if decide (k = 12) then b else addr addrs k) by (intros k Hk; apply (addr_insert addrs 12); lia).
  split.
  - lia.
  - split; [by unfold addrs'; rewrite length_insert|]. apply Forall_insert; [done|]. unfold b. lia.
  - intros bn Hbn. cbn zeta. assert (E : blkno m' addrs' bn = blkno m addrs bn).
    { unfold blkno. change NDIRECT with 12. rewrite (proj2 (Z.ltb_lt bn 12)), Ha, decide_False by lia. done. }
    rewrite E. destruct (R3 bn ltac:(lia)) as ([? ?] & Ho & Hb). split; [unfold m', take_block; cbn; lia|]. split; [|done].
    unfold own', give. rewrite decide_False; [done|]. unfold b. lia.
  - split; [lia|done].
  - intros _. cbn zeta. rewrite Ha, decide_True by lia. split; [unfold m', take_block; cbn; unfold b; lia|].
    split; [unfold own', give; by rewrite decide_True|]. intros k Hk. change (blockof m' b) with (blockof m b). rewrite (so_fresh _ Hs) by done. apply get32_zero.
Qed.

(** An entry of the indirect block. *)
Lemma entry_new m own inum addrs nb c :
  sound m -> file_rep m own inum addrs nb true c -> 12 <= nb < 140 -> m_freeblock m < FSSIZE ->
  let b := m_freeblock m in let ind := addr addrs 12 in
  let m' := put_block ind (put32 (blockof m ind) (4 * (nb - 12)) b) (take_block m) in let own' := give own b (inum, nb) in
  grown inum m own m' own' /\ file_rep m' own' inum addrs (nb + 1) true c /\ blkno m' addrs nb = b.
Proof.
  intros Hs [R1 [R2 R2'] R3 [R4 R4'] R5] Hnb Hlt b ind m' own'. assert (Hm : 0 <= nmeta) by done. pose proof (so_range _ Hs) as Hr.
  change FSSIZE with 1000 in *. destruct (R5 eq_refl) as ([I1 I2] & I3 & I4). fold ind in I1, I2, I3, I4.
  pose proof (grown_take inum m own nb Hs Hlt) as G1. fold b own' in G1.
  assert (Hl : length (put32 (blockof m ind) (4 * (nb - 12)) b) = 512%nat) by (rewrite length_put32; apply (so_len _ Hs)).
  assert (Hoi : own' ind = (inum, -1)) by (unfold own', give; rewrite decide_False; [done|unfold b; lia]).
  assert (G2 : grown inum (take_block m) own' m' own').
  { apply (grown_put inum _ own' ind _ (-1)); [apply G1|unfold take_block; cbn; lia|done|done]. }
  split; [exact (grown_trans _ _ _ _ _ _ _ G1 G2)|].
  assert (Hgi : blockof m' ind = put32 (blockof m ind) (4 * (nb - 12)) b) by (unfold m'; by rewrite blockof_put, decide_True).
  assert (Hgo : forall b', b' <> ind -> blockof m' b' = blockof m b') by (intros b' Hne; unfold m'; by rewrite blockof_put, decide_False).
  pose proof (so_len _ Hs ind) as Hli.
  assert (Hbn : blkno m' addrs nb = b).
  { unfold blkno. change NDIRECT with 12. rewrite (proj2 (Z.ltb_ge nb 12)) by lia. fold ind. rewrite Hgi, get32_put32_eq, u32_id; [done|unfold b; lia|lia|lia]. }
  assert (Hblk : forall bn, 0 <= bn < nb -> blkno m' addrs bn = blkno m addrs bn).
  { intros bn H. unfold blkno. change NDIRECT with 12. destruct (bn <? 12) eqn:E; [done|]. fold ind. rewrite Hgi, get32_put32_ne by lia. done. }
  split; [|done]. split; [lia|done| | |].
  - intros bn Hbn'. cbn zeta. destruct (decide (bn = nb)) as [->|Hne].
    + rewrite Hbn. split; [unfold m', take_block; cbn; unfold b; lia|]. split; [unfold own', give; by rewrite decide_True|].
      intros o Ho. rewrite Hgo by (unfold b; lia). rewrite (so_fresh _ Hs) by done. rewrite byte_at_zero, byte_at_end by lia. done.
    + rewrite Hblk by lia. destruct (R3 bn ltac:(lia)) as ([? ?] & Ho & Hb). split; [unfold m', take_block; cbn; lia|].
      split; [unfold own', give; rewrite decide_False; [done|unfold b; lia]|]. rewrite Hgo; [done|]. intros E. rewrite E, I3 in Ho. injection Ho. lia.
  - split; [lia|done].
  - intros _. cbn zeta. fold ind. split; [unfold m', take_block; cbn; lia|]. split; [done|]. intros k Hk. rewrite Hgi, get32_put32_ne by lia. apply I4. lia.
Qed.

(** The block behind the indirect block. *)
Lemma indirect_run m own inum addrs nb c fbn :
  let nb' := Z.max nb (fbn + 1) in let ind := addr addrs 12 in
  sound m -> file_rep m own inum addrs nb true c -> 12 <= fbn <= nb -> fbn < 140 -> m_freeblock m + nb' - nb <= FSSIZE ->
  exists m' own',
    (indirect <- rsect ind ;;
     indirect <- (if get32 indirect (4 * (fbn - NDIRECT)) =? 0 then
                    b <- next_block ;;
                    let indirect := put32 indirect (4 * (fbn - NDIRECT)) (xint b) in
                    wsect ind indirect ;;;
                    kret indirect
                  else kret indirect) ;;
     kret (get32 indirect (4 * (fbn - NDIRECT)), addrs)) m = Ret (blkno m' addrs fbn, addrs) m' /\
    grown inum m own m' own' /\ file_rep m' own' inum addrs nb' true c /\ m_freeblock m' = m_freeblock m + nb' - nb.
Proof.
  intros nb' ind Hs Hf Hfbn Hmax Hroom. assert (Hm : nmeta = 59) by done. pose proof (so_range _ Hs) as Hr. change FSSIZE with 1000 in *.
  destruct (fr_ind _ _ _ _ _ _ _ Hf eq_refl) as ([I1 I2] & _ & I3). fold ind in I1, I2, I3. change NDIRECT with 12.
  krun (rsect_run m ind Hs ltac:(change FSSIZE with 1000; lia)).
  assert (Hb : forall m, blkno m addrs fbn = get32 (blockof m ind) (4 * (fbn - 12))).
  { intros m'. unfold blkno. change NDIRECT with 12. by rewrite (proj2 (Z.ltb_ge fbn 12)) by lia. }
  destruct (decide (fbn < nb)) as [Hold|Hnew].
  - replace nb' with nb by (unfold nb'; lia). exists m, own. split; [|split; [by apply grown_refl|]; split; [done|lia]].
    destruct (fr_blk _ _ _ _ _ _ _ Hf fbn ltac:(lia)) as ([B1 _] & _). rewrite Hb in *.
    replace (get32 (blockof m ind) (4 * (fbn - 12)) =? 0) with false by lia. done.
  - assert (fbn = nb) as -> by lia. replace nb' with (nb + 1) in * by (unfold nb'; lia). rewrite I3 by lia. change (0 =? 0) with true. cbv iota.
    destruct (entry_new m own inum addrs nb c Hs Hf ltac:(lia) ltac:(change FSSIZE with 1000; lia)) as (G & F & B). fold ind in G, F, B.
    eexists _, _. split; [|split; [exact G|]; split; [exact F|unfold take_block; cbn; lia]].
    unfold kbind at 1. krun (next_block_run m Hs ltac:(change FSSIZE with 1000; lia)). unfold xint. rewrite u32_id by lia.
    unfold wsect, kmod, kret, kbind. cbn [obind]. rewrite Hb. rewrite blockof_put, decide_True by done. reflexivity.
Qed.

(** The block of the file that is written next: it is there, or it is new. *)
Lemma append_block_run m own inum addrs nb c fbn :
  let nb' := Z.max nb (fbn + 1) in
  sound m -> file_rep m own inum addrs nb (12 <? nb) c -> 0 <= fbn <= nb -> fbn < 140 -> m_freeblock m + cost nb' - cost nb <= FSSIZE ->
  exists addrs' m' own', append_block addrs fbn m = Ret (blkno m' addrs' fbn, addrs') m' /\ grown inum m own m' own' /\
    file_rep m' own' inum addrs' nb' (12 <? nb') c /\ m_freeblock m' = m_freeblock m + cost nb' - cost nb.
Proof.
  intros nb' Hs Hf Hfbn Hmax Hroom. assert (Hm : nmeta = 59) by done. pose proof (so_range _ Hs) as Hr. change FSSIZE with 1000 in *.
  destruct (fr_none _ _ _ _ _ _ _ Hf) as [N1 N2]. unfold append_block, cost in *. change (Z.to_nat NDIRECT) with 12%nat.
  change (default 0 (addrs !! 12%nat)) with (addr addrs 12). change (default 0 (addrs !! Z.to_nat fbn)) with (addr addrs fbn).
  destruct (fbn <? NDIRECT) eqn:E; change NDIRECT with 12 in *.
  - destruct (decide (fbn < nb)) as [Hold|Hnew].
    + replace nb' with nb by (unfold nb'; lia). exists addrs, m, own. split; [|split; [by apply grown_refl|]; split; [done|lia]].
      destruct (fr_blk _ _ _ _ _ _ _ Hf fbn ltac:(lia)) as ([B1 _] & _). unfold blkno in *. change NDIRECT with 12 in *. rewrite E in *.
      replace (addr addrs fbn =? 0) with false by lia. done.
    + assert (fbn = nb) as -> by lia. replace nb' with (nb + 1) in * by (unfold nb'; lia). replace (12 <? nb) with false in * by lia.
      replace (12 <? nb + 1) with false in * by lia. rewrite N1 by lia. change (0 =? 0) with true. cbv iota.
      destruct (direct_new m own inum addrs nb c Hs Hf ltac:(lia) ltac:(change FSSIZE with 1000; lia)) as (G & F & B).
      eexists _, _, _. split; [|split; [exact G|]; split; [exact F|unfold take_block; cbn; lia]].
      unfold kbind at 1. krun (next_block_run m Hs ltac:(change FSSIZE with 1000; lia)). unfold kret. cbn [obind]. unfold xint. rewrite u32_id by lia.
      unfold kbind. cbn [obind]. unfold blkno. change NDIRECT with 12. rewrite E. done.
  - destruct (12 <? nb) eqn:E2.
    + replace (12 <? nb') with true in * by (unfold nb'; lia). destruct (fr_ind _ _ _ _ _ _ _ Hf eq_refl) as ([I1 _] & _).
      replace (addr addrs 12 =? 0) with false by lia. unfold kret at 1, kbind at 1. cbn [obind].
      destruct (indirect_run m own inum addrs nb c fbn Hs Hf ltac:(lia) Hmax ltac:(change FSSIZE with 1000; lia)) as (m' & own' & R & G & F & B).
      exists addrs, m', own'. split; [exact R|]. split; [done|]. split; [done|]. lia.
    + destruct (N2 eq_refl) as [N3 N4]. assert (nb = 12) as -> by lia. assert (fbn = 12) as -> by lia.
      assert (En : nb' = 13) by done. rewrite En in *. change (12 <? 13) with true in *. cbv iota in Hroom. rewrite N3. change (0 =? 0) with true. cbv iota.
      destruct (indirect_new m own inum addrs c Hs Hf ltac:(change FSSIZE with 1000; lia)) as (G1 & F1).
      unfold kbind at 1. unfold kbind at 1. rewrite (next_block_run m Hs) by (change FSSIZE with 1000; lia). cbn [obind]. unfold kret at 1. cbn [obind].
      replace (xint (m_freeblock m)) with (m_freeblock m) by (unfold xint; rewrite u32_id; lia).
      destruct (indirect_run _ _ inum _ 12 c 12 (gr_sound _ _ _ _ _ G1) F1 ltac:(lia) Hmax) as (m' & own' & R & G & F & B);
        [unfold take_block; change FSSIZE with 1000; cbn; lia|].
      eexists _, m', own'. split; [exact R|]. split; [exact (grown_trans _ _ _ _ _ _ _ G1 G)|]. split; [done|]. rewrite B. unfold take_block. cbn. lia.
Qed.

(** ** Appending bytes *)

Definition bytes (l : list Z) : Prop := Forall (fun b => 0 <= b < 256) l.

Lemma bytes_at l o : bytes l -> 0 <= byte_at l o < 256.
Proof.
  intros H. unfold byte_at. destruct (l !! Z.to_nat o) as [v|] eqn:E; cbn; [|lia]. exact (proj1 (Forall_lookup _ _) H _ _ E).
Qed.
Lemma byte_at_app l l' o : 0 <= o -> byte_at (l ++ l') o = if decide (o < Z.of_nat (length l)) then byte_at l o else byte_at l' (o - Z.of_nat (length l)).
Proof.
  intros Ho. unfold byte_at. case_decide; [by rewrite lookup_app_l by lia|]. rewrite lookup_app_r by lia. do 2 f_equal. lia.
Qed.

(** The bytes [l] written behind [c], in the last block of the file. *)
Lemma chunk_write m own inum addrs nb ib c l :
  let off := Z.of_nat (length c) in let fbn := off / 512 in let x := blkno m addrs fbn in
  sound m -> file_rep m own inum addrs nb ib c -> nb = fbn + 1 -> off + Z.of_nat (length l) <= nb * 512 -> bytes l ->
  let m' := put_block x (put_bytes (blockof m x) (off - fbn * 512) l) m in
  grown inum m own m' own /\ file_rep m' own inum addrs nb ib (c ++ l).
Proof.
  intros off fbn x Hs Hf Hnb Hl Hb m'. assert (Ho : 0 <= off) by (unfold off; lia). assert (Hfb : 0 <= fbn) by (unfold fbn; Z.div_mod_to_equations; lia).
  destruct (fr_blk _ _ _ _ _ _ _ Hf fbn ltac:(lia)) as ([X1 X2] & X3 & X4). fold x in X1, X2, X3, X4.
  pose proof (so_len _ Hs x) as Hlx. assert (Hofs : 0 <= off - fbn * 512 < 512) by (unfold fbn; Z.div_mod_to_equations; lia).
  assert (G : grown inum m own m' own) by (apply (grown_put inum m own x _ fbn); [done|lia|done|by rewrite length_put_bytes]). split; [done|].
  assert (Hother : forall b, own b <> own x -> blockof m' b = blockof m b).
  { intros b Hne. unfold m'. rewrite blockof_put, decide_False; [done|congruence]. }
  destruct Hf as [R1 R2 R3 R4 R5].
  assert (Hind : ib = true -> blockof m' (addr addrs 12) = blockof m (addr addrs 12)).
  { intros H. apply Hother. destruct (R5 H) as (_ & -> & _). rewrite X3. injection. lia. }
  assert (Hblk : forall bn, 0 <= bn < nb -> blkno m' addrs bn = blkno m addrs bn).
  { intros bn Hbn. unfold blkno. destruct (bn <? NDIRECT) eqn:E; [done|]. change NDIRECT with 12 in *. rewrite Hind; [done|].
    destruct ib; [done|]. destruct (proj2 R4 eq_refl). lia. }
  split; [rewrite length_app; lia|done| |done|].
  - intros bn Hbn. cbn zeta. rewrite Hblk by done. destruct (R3 bn Hbn) as (B1 & B2 & B3). split; [done|]. split; [done|]. intros o Hoo.
    rewrite byte_at_app by lia. destruct (decide (bn = fbn)) as [->|Hne].
    + fold x. unfold m'. rewrite blockof_put, decide_True, byte_at_put_bytes by (done || lia). fold off. rewrite <- (B3 o Hoo). fold x.
      destruct (decide (fbn * 512 + o < off)); [by rewrite decide_False by lia|]. case_decide.
      * unfold u8. rewrite Z.mod_small by (by apply bytes_at). f_equal. lia.
      * rewrite B3, !byte_at_end by (lia || done). done.
    + rewrite Hother by (rewrite B2, X3; congruence). rewrite decide_True by (fold off; unfold fbn in *; Z.div_mod_to_equations; lia). by apply B3.
  - intros H1. cbn zeta. rewrite Hind by done. by apply R5.
Qed.

Lemma cost_mono a b : a <= b -> cost a <= cost b.
Proof. intros H. unfold cost. destruct (12 <? a) eqn:?, (12 <? b) eqn:?; lia. Qed.
Lemma nblk_mono a b : a <= b -> nblk a <= nblk b.
Proof. intros H. unfold nblk. Z.div_mod_to_equations. lia. Qed.

Lemma iappend_loop_run inum fuel : forall l c addrs m own,
  let off := Z.of_nat (length c) in let n := Z.of_nat (length l) in
  (Z.to_nat (turns off n) < fuel)%nat -> sound m -> file_rep m own inum addrs (nblk off) (12 <? nblk off) c -> bytes l ->
  off + n <= 71680 -> m_freeblock m + cost (nblk (off + n)) - cost (nblk off) <= FSSIZE ->
  exists addrs' m' own', iappend_loop fuel l off addrs m = Ret (off + n, addrs') m' /\ grown inum m own m' own' /\
    file_rep m' own' inum addrs' (nblk (off + n)) (12 <? nblk (off + n)) (c ++ l) /\ m_freeblock m' = m_freeblock m + cost (nblk (off + n)) - cost (nblk off).
Proof.
  induction fuel as [|fuel IH]; intros l c addrs m own off n Hfuel Hs Hf Hb Hmax Hroom; [lia|]. destruct l as [|b0 l0].
  - exists addrs, m, own. unfold n. cbn [length Z.of_nat]. rewrite Z.add_0_r, app_nil_r. split; [done|]. split; [by apply grown_refl|]. split; [done|lia].
  - remember (b0 :: l0) as l eqn:El. assert (Hn : 0 < n) by (unfold n; subst l; cbn; lia). assert (Ho : 0 <= off) by (unfold off; lia).
    destruct (turns_step off n Ho Hn) as (T1 & T2 & T3). change BSIZE with 512 in *. set (n1 := Z.min n (512 - off mod 512)) in *.
    assert (E : iappend_loop (S fuel) l off addrs = (let fbn := off / 512 in
      if negb (fbn <? MAXFILE) then kpanic "assert" else
      r <- append_block addrs fbn ;; buf <- rsect (fst r) ;;
      let n1 := Z.min n ((fbn + 1) * 512 - off) in
      wsect (fst r) (put_bytes buf (off - fbn * 512) (take (Z.to_nat n1) l)) ;;;
      iappend_loop fuel (drop (Z.to_nat n1) l) (off + n1) (snd r))) by (by subst l). rewrite E. cbv zeta. clear E.
    set (fbn := off / 512) in *. replace (Z.min n ((fbn + 1) * 512 - off)) with n1 by (unfold n1, fbn; Z.div_mod_to_equations; lia).
    assert (Hfb : 0 <= fbn < 140) by (unfold fbn; Z.div_mod_to_equations; lia). change MAXFILE with 140. replace (fbn <? 140) with true by lia. cbv iota beta delta [negb].
    assert (Hnb : fbn <= nblk off <= fbn + 1) by (unfold nblk, fbn; Z.div_mod_to_equations; lia).
    assert (Hnb1 : nblk (off + n1) = fbn + 1) by (unfold nblk, fbn, n1; Z.div_mod_to_equations; lia).
    assert (Hmx : Z.max (nblk off) (fbn + 1) = fbn + 1) by lia.
    assert (Hc1 : cost (fbn + 1) <= cost (nblk (off + n))) by (rewrite <- Hnb1; apply cost_mono, nblk_mono; lia).
    destruct (append_block_run m own inum addrs (nblk off) c fbn Hs Hf) as (a1 & m1 & o1 & E1 & G1 & F1 & B1); [lia|lia|rewrite Hmx; lia|]. rewrite Hmx in *.
    krun E1. cbn [fst snd]. set (x := blkno m1 a1 fbn) in *. pose proof (gr_sound _ _ _ _ _ G1) as S1. pose proof (so_range _ S1) as Hr. assert (Hm : 0 <= nmeta) by done.
    destruct (fr_blk _ _ _ _ _ _ _ F1 fbn ltac:(lia)) as ([X1 X2] & _). fold x in X1, X2. krun (rsect_run m1 x S1 ltac:(lia)).
    set (chunk := take (Z.to_nat n1) l). assert (Hlc : Z.of_nat (length chunk) = n1) by (unfold chunk; rewrite length_take; unfold n in *; lia).
    destruct (chunk_write m1 o1 inum a1 (fbn + 1) (12 <? fbn + 1) c chunk S1 F1) as (G2 & F2); [done|fold off; unfold n1, fbn in *; Z.div_mod_to_equations; lia|by apply Forall_take|].
    fold off fbn x in G2, F2. set (m2 := put_block x _ m1) in *.
    assert (E2 : wsect x (put_bytes (blockof m1 x) (off - fbn * 512) chunk) m1 = Ret tt m2) by done. krun E2.
    assert (Hl2 : Z.of_nat (length (c ++ chunk)) = off + n1) by (rewrite length_app; unfold off; lia).
    assert (Hl3 : Z.of_nat (length (drop (Z.to_nat n1) l)) = n - n1) by (rewrite length_drop; unfold n; lia).
    destruct (IH (drop (Z.to_nat n1) l) (c ++ chunk) a1 m2 o1) as (a3 & m3 & o3 & E3 & G3 & F3 & B3); rewrite ?Hl2, ?Hl3, ?Hnb1 in *.
    + rewrite T2 in Hfuel. pose proof (turns_pos (off + n1) (n - n1)). lia.
    + apply G2.
    + done.
    + by apply Forall_drop.
    + lia.
    + replace (off + n1 + (n - n1)) with (off + n) by lia. change (m_freeblock m2) with (m_freeblock m1). lia.
    + replace (off + n1 + (n - n1)) with (off + n) in * by lia. exists a3, m3, o3. split; [exact E3|].
      split; [exact (grown_trans _ _ _ _ _ _ _ G1 (grown_trans _ _ _ _ _ _ _ G2 G3))|]. split; [|rewrite B3; change (m_freeblock m2) with (m_freeblock m1); lia].
      rewrite <- app_assoc in F3. unfold chunk in F3. by rewrite take_drop in F3.
Qed.

(** ** The inodes of the image *)

Definition dinode_of (m : mkfs) (inum : Z) : dinode := decode_dinode (blockof m (IBLOCK inum sb)) (slot inum).

(** The image holds the files [F]: by the number of the inode, its type and contents. *)
Record image (m : mkfs) (own : Z -> Z * Z) (F : gmap Z (Z * list Z)) : Prop := {
  im_sound : sound m;
  im_inodes : 1 <= m_freeinode m <= NINODES;
  im_dom : forall inum, is_Some (F !! inum) -> 0 < inum < m_freeinode m;
  im_file : forall inum t c, F !! inum = Some (t, c) ->
    let n := Z.of_nat (length c) in (t = T_DIR \/ t = T_FILE) /\ bytes c /\ n <= 71680 /\
    exists addrs, dinode_of m inum = mk_dinode t 0 0 1 n addrs /\ file_rep m own inum addrs (nblk n) (12 <? nblk n) c
}.

Definition put_dinode (inum : Z) (d : dinode) (m : mkfs) : mkfs :=
  put_block (IBLOCK inum sb) (encode_dinode (blockof m (IBLOCK inum sb)) (slot inum) d) m.

Lemma iblock_eq inum : 0 <= inum < NINODES -> IBLOCK inum sb = inum / 8 + 32.
Proof.
  unfold IBLOCK. change (sb_inodestart sb) with 32. change IPB with 8. change NINODES with 200. intros H. apply u32_id. Z.div_mod_to_equations. lia.
Qed.

Lemma iblock_range inum : 0 <= inum < NINODES -> 32 <= IBLOCK inum sb < 58 /\ 0 <= slot inum /\ slot inum + 64 <= 512.
Proof.
  intros H. rewrite iblock_eq by done. unfold slot. change IPB with 8. change NINODES with 200 in *. change DINODE_SIZE with 64. Z.div_mod_to_equations. lia.
Qed.

Lemma rinode_run m inum : sound m -> 0 <= inum < NINODES -> rinode inum m = Ret (dinode_of m inum) m.
Proof.
  intros Hs Hi. destruct (iblock_range inum Hi) as [H _]. unfold rinode. krun (rsect_run m (IBLOCK inum sb) Hs ltac:(change FSSIZE with 1000; lia)). done.
Qed.
Lemma winode_run m inum d : sound m -> 0 <= inum < NINODES -> winode inum d m = Ret tt (put_dinode inum d m).
Proof.
  intros Hs Hi. destruct (iblock_range inum Hi) as [H _]. unfold winode. krun (rsect_run m (IBLOCK inum sb) Hs ltac:(change FSSIZE with 1000; lia)). done.
Qed.

Lemma dinode_put m inum d j : sound m -> dinode_ok d -> 0 <= inum < NINODES -> 0 <= j < NINODES ->
  dinode_of (put_dinode inum d m) j = if decide (j = inum) then d else dinode_of m j.
Proof.
  intros Hs Hd Hi Hj. destruct (iblock_range inum Hi) as (I1 & I2 & I3). destruct (iblock_range j Hj) as (J1 & J2 & J3). pose proof (so_len _ Hs (IBLOCK inum sb)) as Hl.
  unfold dinode_of, put_dinode. rewrite blockof_put. destruct (decide (j = inum)) as [->|Hne].
  - rewrite decide_True by done. apply decode_encode; [done|lia|lia].
  - case_decide as E; [|done]. rewrite E. apply decode_encode_other; [apply Hd|lia|lia|lia|].
    rewrite !iblock_eq in E by done. unfold slot. change IPB with 8 in *. change DINODE_SIZE with 64 in *. Z.div_mod_to_equations. lia.
Qed.

(** Files do not depend on the blocks before the first free one. *)
Lemma file_rep_meta m m' own inum addrs nb ib c :
  (forall b, nmeta <= b -> blockof m' b = blockof m b) -> m_freeblock m' = m_freeblock m -> file_rep m own inum addrs nb ib c -> file_rep m' own inum addrs nb ib c.
Proof.
  intros Hb Hf [R1 R2 R3 R4 R5].
  assert (Hblk : forall bn, 0 <= bn < nb -> blkno m' addrs bn = blkno m addrs bn).
  { intros bn Hbn. unfold blkno. destruct (bn <? NDIRECT) eqn:E; [done|]. change NDIRECT with 12 in *. rewrite Hb; [done|].
    destruct ib; [by destruct (R5 eq_refl) as ([? ?] & _)|]. destruct (proj2 R4 eq_refl). lia. }
  split; [done|done| |done|]; rewrite Hf.
  - intros bn Hbn. cbn zeta. rewrite Hblk by done. destruct (R3 bn Hbn) as (B1 & B2 & B3). rewrite Hb by lia. done.
  - intros H. cbn zeta. destruct (R5 H) as (B1 & B2 & B3). rewrite Hb by lia. done.
Qed.

Lemma put_dinode_data m inum d b : 0 <= inum < NINODES -> b < 32 \/ 58 <= b -> blockof (put_dinode inum d m) b = blockof m b.
Proof. intros Hi Hb. destruct (iblock_range inum Hi) as (I1 & _). unfold put_dinode. by rewrite blockof_put, decide_False by lia. Qed.

Lemma sound_put_dinode m inum d : sound m -> 0 <= inum < NINODES -> sound (put_dinode inum d m).
Proof.
  intros Hs Hi. destruct (iblock_range inum Hi) as (I1 & _). pose proof (so_range _ Hs). assert (nmeta = 59) by done.
  apply sound_put; [done|lia|]. rewrite length_encode. apply (so_len _ Hs).
Qed.

(** The boot block, the superblock and the log are left alone. *)
Definition keeps (m m' : mkfs) : Prop := forall b, b < 32 -> blockof m' b = blockof m b.
Lemma img_keeps_trans m1 m2 m3 : keeps m1 m2 -> keeps m2 m3 -> keeps m1 m3.
Proof. intros A B b Hb. by rewrite B, A. Qed.

Lemma dinode_grown inum m own m' own' j : grown inum m own m' own' -> 0 <= j < NINODES -> dinode_of m' j = dinode_of m j.
Proof.
  intros G Hj. destruct (iblock_range j Hj) as (I1 & _). assert (nmeta = 59) by done. unfold dinode_of. by rewrite (gr_meta _ _ _ _ _ G) by lia.
Qed.

Lemma image_dinode_ok t n addrs : t = T_DIR \/ t = T_FILE -> 0 <= n < 4294967296 -> length addrs = 13%nat /\ Forall (fun a => 0 <= a < 4294967296) addrs ->
  dinode_ok (mk_dinode t 0 0 1 n addrs).
Proof.
  intros Ht Hn Ha. split; [|done|done]. cbn. assert (1 <= t <= 2) by (destruct Ht; subst; done). rewrite !Forall_cons. repeat split; (lia || constructor).
Qed.

(** Writing the inode of a file whose blocks are in place. *)
Lemma image_put m own F inum t c addrs :
  let n := Z.of_nat (length c) in
  image m own (delete inum F) -> 0 < inum < m_freeinode m -> t = T_DIR \/ t = T_FILE -> bytes c -> n <= 71680 ->
  file_rep m own inum addrs (nblk n) (12 <? nblk n) c -> image (put_dinode inum (mk_dinode t 0 0 1 n addrs) m) own (<[inum := (t, c)]> F).
Proof.
  intros n [I1 I2 I3 I4] Hi' Ht Hc Hn Hf. assert (Hi : 0 <= inum < NINODES) by lia. set (d := mk_dinode t 0 0 1 n addrs).
  assert (Hok : dinode_ok d) by (apply image_dinode_ok; [done|lia|apply Hf]). assert (Hm : nmeta = 59) by done.
  assert (Hrep : forall j a nb ib c', file_rep m own j a nb ib c' -> file_rep (put_dinode inum d m) own j a nb ib c').
  { intros j a nb ib c'. apply file_rep_meta; [|done]. intros b Hbb. apply put_dinode_data; [done|lia]. }
  split; [by apply sound_put_dinode|done| |].
  - intros j Hj. change (m_freeinode (put_dinode inum d m)) with (m_freeinode m). destruct (decide (j = inum)) as [->|]; [done|].
    rewrite lookup_insert_ne in Hj by congruence. apply I3. by rewrite lookup_delete_ne by congruence.
  - intros j t' c' Hj. cbn zeta. destruct (decide (j = inum)) as [->|Hne].
    + rewrite lookup_insert_eq in Hj. injection Hj as <- <-. split; [done|]. split; [done|]. split; [done|].
      exists addrs. split; [by rewrite dinode_put, decide_True|]. by apply Hrep.
    + rewrite lookup_insert_ne in Hj by congruence. assert (Hj2 : delete inum F !! j = Some (t', c')) by (by rewrite lookup_delete_ne by congruence).
      destruct (I4 _ _ _ Hj2) as (J1 & J2 & J3 & a & J4 & J5). split; [done|]. split; [done|]. split; [done|].
      exists a. split; [|by apply Hrep]. rewrite dinode_put, decide_False by (done || (pose proof (I3 j ltac:(eauto)); lia)). done.
Qed.

Lemma image_delete m own F inum : image m own F -> image m own (delete inum F).
Proof.
  intros [I1 I2 I3 I4]. split; [done|done| |].
  - intros j [x Hx]. apply lookup_delete_Some in Hx as [_ Hx]. eauto.
  - intros j t c Hx. apply lookup_delete_Some in Hx as [_ Hx]. eauto.
Qed.

(** The other files, while the blocks of one grow. *)
Lemma image_grown m own m' own' F inum : image m own F -> grown inum m own m' own' -> image m' own' (delete inum F).
Proof.
  intros [I1 I2 I3 I4] G. pose proof (gr_inode _ _ _ _ _ G) as Hfi. split; [apply G|by rewrite Hfi| |].
  - intros j [x Hx]. apply lookup_delete_Some in Hx as [_ Hx]. rewrite Hfi. eauto.
  - intros j t c Hx. apply lookup_delete_Some in Hx as [Hne Hx]. destruct (I4 _ _ _ Hx) as (J1 & J2 & J3 & a & J4 & J5). split; [done|]. split; [done|]. split; [done|].
    exists a. split; [|by apply (file_rep_frame inum j m own)]. rewrite (dinode_grown _ _ _ _ _ _ G); [done|]. pose proof (I3 j ltac:(eauto)). lia.
Qed.

Definition file_cost (n : Z) : Z := cost (nblk n).

Lemma iappend_run m own F inum t c l :
  let n := Z.of_nat (length c) in let n' := Z.of_nat (length (c ++ l)) in
  image m own F -> F !! inum = Some (t, c) -> bytes l -> n' <= 71680 -> m_freeblock m + file_cost n' - file_cost n <= FSSIZE ->
  exists m' own', iappend inum l m = Ret tt m' /\ image m' own' (<[inum := (t, c ++ l)]> F) /\ keeps m m' /\
    m_freeinode m' = m_freeinode m /\ m_freeblock m' = m_freeblock m + file_cost n' - file_cost n.
Proof.
  intros n n' [I1 I2 I3 I4] HF Hb Hmax Hroom. destruct (I4 _ _ _ HF) as (Ht & Hc & _ & addrs & Hd & Hf). fold n in Hd, Hf.
  assert (Hi : 0 <= inum < NINODES) by (pose proof (I3 inum ltac:(eauto)); lia). assert (En : n' = n + Z.of_nat (length l)) by (unfold n', n; rewrite length_app; lia).
  unfold iappend. krun (rinode_run m inum I1 Hi). rewrite Hd. cbn [d_size d_addrs d_type d_major d_minor d_nlink].
  destruct (iappend_loop_run inum (io_fuel (Z.of_nat (length l))) l c addrs m own) as (a1 & m1 & o1 & E1 & G1 & F1 & B1);
    [apply turns_fuel; lia|done|done|done|fold n; lia|fold n; rewrite <- En; done|]. fold n in E1, F1, B1. rewrite <- En in *.
  krun E1. cbn [fst snd]. pose proof (gr_sound _ _ _ _ _ G1) as S1. unfold xint. rewrite u32_id by lia.
  set (d := mk_dinode t 0 0 1 n' a1). rewrite (winode_run m1 inum d S1 Hi). exists (put_dinode inum d m1), o1. split; [done|]. assert (Hm : nmeta = 59) by done.
  split; [|split; [|split; [exact (gr_inode _ _ _ _ _ G1)|exact B1]]].
  - apply image_put; [exact (image_grown _ _ _ _ _ _ (Build_image _ _ _ I1 I2 I3 I4) G1)|rewrite (gr_inode _ _ _ _ _ G1); apply I3; eauto|done|by apply Forall_app|done|done].
  - intros b Hbb. rewrite put_dinode_data by (done || lia). apply (gr_meta _ _ _ _ _ G1). lia.
Qed.

(** A new file has no block. *)
Lemma file_rep_new m own inum : file_rep m own inum (replicate 13 0) 0 false [].
Proof.
  split; [cbn; lia| |lia| |done].
  - split; [done|]. apply Forall_replicate. lia.
  - split; [|done]. intros k Hk. unfold addr. destruct (replicate 13 0 !! Z.to_nat k) as [v|] eqn:E; [|done]. by apply lookup_replicate in E as [-> _].
Qed.

Lemma ialloc_run m own F t :
  let inum := m_freeinode m in image m own F -> t = T_DIR \/ t = T_FILE -> inum < NINODES ->
  exists m', ialloc t m = Ret inum m' /\ image m' own (<[inum := (t, [])]> F) /\ keeps m m' /\ m_freeinode m' = inum + 1 /\ m_freeblock m' = m_freeblock m.
Proof.
  intros inum [I1 I2 I3 I4] Ht Hlt. fold inum in I2, I3. assert (Hi : 0 <= inum < NINODES) by lia. change NINODES with 200 in Hlt.
  set (m1 := m <| m_freeinode ::= fun n => u32 (n + 1) |>). assert (S1 : sound m1) by (destruct I1; split; done).
  assert (Hfi : m_freeinode m1 = inum + 1) by (unfold m1; cbn; apply u32_id; fold inum; lia). set (d := mk_dinode t 0 0 1 0 (replicate 13 0)).
  assert (E : ialloc t m = Ret inum (put_dinode inum d m1)).
  { unfold ialloc, kget, kmod. unfold kbind at 1. cbn [obind]. unfold kbind at 1. cbn [obind]. fold inum m1.
    replace (mk_dinode _ _ _ _ _ _) with d by (destruct Ht; subst; done). krun (winode_run m1 inum d S1 Hi). done. }
  exists (put_dinode inum d m1). split; [done|]. assert (Hm : nmeta = 59) by done.
  split; [|split; [|split; [exact Hfi|done]]].
  - apply (image_put m1 own F inum t []); [|rewrite Hfi; lia|done|constructor|done|apply file_rep_new].
    apply image_delete. split; [done|rewrite Hfi; change NINODES with 200; lia| |].
    + intros j Hj. rewrite Hfi. apply I3 in Hj. lia.
    + intros j t' c' Hj. destruct (I4 _ _ _ Hj) as (J1 & J2 & J3 & a & J4 & J5). split; [done|]. split; [done|]. split; [done|]. exists a. split; [done|].
      by apply (file_rep_meta m).
  - intros b Hbb. by rewrite put_dinode_data by (done || lia).
Qed.

(** ** The files *)

(** The name in the directory, and the contents. *)
Definition stored (f : list Z * option (list (list Z))) : list Z := if bool_decide (head (fst f) = Some 95) then tail (fst f) else fst f.
Definition contents (f : list Z * option (list (list Z))) : list Z := concat (default [] (snd f)).
Definition root_entries (files : list (list Z * option (list (list Z)))) : list (Z * list Z) :=
  [(1, [46]); (1, [46; 46])] ++ imap (fun i f => (Z.of_nat i + 2, stored f)) files.
Definition entry_bytes (e : Z * list Z) : list Z := encode_dirent (mk_dirent (xshort (fst e)) (strncpy_str (snd e) (Z.to_nat DIRSIZ))).
Definition root_bytes (es : list (Z * list Z)) : list Z := concat (entry_bytes <$> es).
Definition sum_cost (files : list (list Z * option (list (list Z)))) : Z := foldr (fun f n => file_cost (Z.of_nat (length (contents f))) + n) 0 files.

(** The blocks that the root directory and the files take. *)
Definition used_blocks (files : list (list Z * option (list (list Z)))) : Z := file_cost (16 * (Z.of_nat (length files) + 2)) + sum_cost files.

Record good_file (f : list Z * option (list (list Z))) : Prop := {
  gf_name : 47 ∉ fst f /\ bytes (fst f);
  gf_open : is_Some (snd f);
  gf_bytes : bytes (contents f) /\ Z.of_nat (length (contents f)) <= 71680
}.

Lemma file_cost_mono a b : a <= b -> file_cost a <= file_cost b.
Proof. intros H. by apply cost_mono, nblk_mono. Qed.
Lemma file_cost_pos a : 0 <= a -> 0 <= file_cost a.
Proof. intros H. exact (file_cost_mono 0 a H). Qed.

Lemma appends_run reads : forall m own F inum t c,
  let n := Z.of_nat (length c) in let n' := Z.of_nat (length (c ++ concat reads)) in
  image m own F -> F !! inum = Some (t, c) -> bytes (concat reads) -> n' <= 71680 -> m_freeblock m + file_cost n' - file_cost n <= FSSIZE ->
  exists m' own', keach reads (iappend inum) m = Ret tt m' /\ image m' own' (<[inum := (t, c ++ concat reads)]> F) /\ keeps m m' /\
    m_freeinode m' = m_freeinode m /\ m_freeblock m' = m_freeblock m + file_cost n' - file_cost n.
Proof.
  induction reads as [|l reads IH]; intros m own F inum t c n n' Hm HF Hb Hmax Hroom; unfold n' in *; cbn [concat keach] in *.
  - rewrite app_nil_r in *. exists m, own. split; [done|]. split; [by rewrite insert_id|]. split; [done|]. split; [done|]. unfold n. lia.
  - apply Forall_app in Hb as [Hb1 Hb2]. rewrite app_assoc in *. pose proof (length_app (c ++ l) (concat reads)) as El.
    assert (Hmono : file_cost (Z.of_nat (length (c ++ l))) <= file_cost (Z.of_nat (length ((c ++ l) ++ concat reads)))) by (apply file_cost_mono; lia).
    destruct (iappend_run m own F inum t c l Hm HF Hb1) as (m1 & o1 & E1 & I1 & K1 & N1 & B1); [lia|fold n; lia|]. fold n in B1. krun E1.
    destruct (IH m1 o1 _ inum t (c ++ l) I1) as (m2 & o2 & E2 & I2 & K2 & N2 & B2); [by rewrite lookup_insert_eq|done|done|lia|].
    exists m2, o2. split; [done|]. split; [by rewrite insert_insert_eq in I2|]. split; [by apply (img_keeps_trans m m1)|]. split; [congruence|lia].
Qed.

Lemma length_entry_bytes e : length (entry_bytes e) = 16%nat.
Proof.
  unfold entry_bytes, encode_dirent, strncpy_str. cbn [de_name]. rewrite !length_app, length_take, length_replicate. change (Z.to_nat DIRSIZ) with 14%nat.
  cbn [length]. lia.
Qed.
Lemma bytes_entry e : bytes (snd e) -> bytes (entry_bytes e).
Proof.
  intros H. unfold entry_bytes, encode_dirent, strncpy_str. cbn. constructor; [apply u8_range|]. constructor; [apply u8_range|].
  apply Forall_app. split; [by apply Forall_take|]. apply Forall_replicate. lia.
Qed.
Lemma length_root_bytes es : length (root_bytes es) = (16 * length es)%nat.
Proof. induction es as [|e es IH]; [done|]. unfold root_bytes in *. cbn [fmap list_fmap concat]. rewrite length_app, length_entry_bytes, IH. cbn. lia. Qed.
Lemma root_bytes_snoc es e : root_bytes (es ++ [e]) = root_bytes es ++ entry_bytes e.
Proof. unfold root_bytes. rewrite fmap_app, concat_app. cbn. by rewrite app_nil_r. Qed.
Lemma root_entries_snoc files f : root_entries (files ++ [f]) = root_entries files ++ [(Z.of_nat (length files) + 2, stored f)].
Proof. unfold root_entries. rewrite imap_app. cbn. by rewrite Nat.add_0_r. Qed.
Lemma length_root_entries files : length (root_entries files) = (2 + length files)%nat.
Proof. unfold root_entries. by rewrite length_app, length_imap. Qed.
Lemma sum_cost_snoc files f : sum_cost (files ++ [f]) = sum_cost files + file_cost (Z.of_nat (length (contents f))).
Proof. unfold sum_cost. induction files as [|g files IH]; cbn [foldr app]; [lia|]. rewrite IH. lia. Qed.

(** The image after the files [files]. *)
Record laid (m : mkfs) (own : Z -> Z * Z) (files : list (list Z * option (list (list Z)))) (F : gmap Z (Z * list Z)) : Prop := {
  la_image : image m own F;
  la_root : F !! 1 = Some (T_DIR, root_bytes (root_entries files));
  la_files : forall i f, files !! i = Some f -> F !! (Z.of_nat i + 2) = Some (T_FILE, contents f);
  la_inode : m_freeinode m = Z.of_nat (length files) + 2;
  la_block : m_freeblock m = nmeta + used_blocks files
}.

Lemma add_file_run m own files F f :
  laid m own files F -> good_file f -> Z.of_nat (length files) < 198 -> nmeta + used_blocks (files ++ [f]) <= FSSIZE ->
  exists m' own' F', add_file 1 f m = Ret tt m' /\ laid m' own' (files ++ [f]) F' /\ keeps m m'.
Proof.
  intros [I R A N B] [[G1 G2] [reads Gr] [G3 G4]] Hn Hroom. unfold used_blocks in B, Hroom. rewrite sum_cost_snoc, length_app in Hroom. cbn [length] in Hroom.
  set (k := Z.of_nat (length files)) in *. set (c := contents f) in *. replace (Z.of_nat (length files + 1)) with (k + 1) in Hroom by lia.
  assert (Hc : 0 <= file_cost (Z.of_nat (length c))) by (apply file_cost_pos; lia).
  assert (Hst : bytes (stored f)) by (unfold stored; case_bool_decide; [by destruct (fst f); [|apply Forall_cons in G2 as [_ G2]]|done]).
  unfold add_file. rewrite bool_decide_eq_false_2, Gr by done. fold (stored f).
  destruct (ialloc_run m own F T_FILE I ltac:(by right)) as (m1 & E1 & I1 & K1 & N1 & B1); [rewrite N; change NINODES with 200; lia|]. rewrite N in *. krun E1.
  set (e := (k + 2, stored f)). change (encode_dirent _) with (entry_bytes e).
  assert (Hle : Z.of_nat (length (root_bytes (root_entries files) ++ entry_bytes e)) = 16 * (k + 1 + 2)) by (rewrite length_app, length_root_bytes, length_root_entries, length_entry_bytes; lia).
  assert (Hlr : Z.of_nat (length (root_bytes (root_entries files))) = 16 * (k + 2)) by (rewrite length_root_bytes, length_root_entries; lia).
  destruct (iappend_run m1 own _ 1 T_DIR (root_bytes (root_entries files)) (entry_bytes e) I1) as (m2 & o2 & E2 & I2 & K2 & N2 & B2);
    [by rewrite lookup_insert_ne by lia|by apply bytes_entry|rewrite Hle; lia|rewrite Hle, Hlr; lia|]. rewrite Hle, Hlr in B2. krun E2.
  assert (Ec : concat reads = c) by (unfold c, contents; by rewrite Gr).
  destruct (appends_run reads m2 o2 _ (k + 2) T_FILE [] I2) as (m3 & o3 & E3 & I3 & K3 & N3 & B3); cbn [app length] in *; rewrite ?Ec in *;
    [by rewrite lookup_insert_ne, lookup_insert_eq by lia|done|done|change (file_cost (Z.of_nat 0)) with 0; lia|]. change (file_cost (Z.of_nat 0)) with 0 in B3.
  eexists m3, o3, _. split; [exact E3|]. split; [|exact (img_keeps_trans _ _ _ K1 (img_keeps_trans _ _ _ K2 K3))]. split; [exact I3| | | |].
  - rewrite lookup_insert_ne, lookup_insert_eq by lia. rewrite root_entries_snoc, root_bytes_snoc. done.
  - intros i g Hg. apply lookup_app_Some in Hg as [Hg|[Hge Hg]].
    + pose proof (lookup_lt_Some _ _ _ Hg). rewrite !lookup_insert_ne by lia. by apply A.
    + apply list_lookup_singleton_Some in Hg as [Hi <-]. replace (Z.of_nat i + 2) with (k + 2) by lia. by rewrite lookup_insert_eq.
  - rewrite N3, N2, N1, length_app. cbn. lia.
  - unfold used_blocks. rewrite sum_cost_snoc, length_app. cbn [length]. replace (Z.of_nat (length files + 1)) with (k + 1) by lia. fold c. lia.
Qed.

Lemma add_files_run rest : forall m own files F,
  laid m own files F -> Forall good_file rest -> Z.of_nat (length (files ++ rest)) <= 198 -> nmeta + used_blocks (files ++ rest) <= FSSIZE ->
  exists m' own' F', keach rest (add_file 1) m = Ret tt m' /\ laid m' own' (files ++ rest) F' /\ keeps m m'.
Proof.
  induction rest as [|f rest IH]; intros m own files F L G Hn Hroom; cbn [keach].
  - rewrite app_nil_r in *. by exists m, own, F.
  - apply Forall_cons in G as [Gf G]. replace (files ++ f :: rest) with ((files ++ [f]) ++ rest) in * by (by rewrite <- app_assoc).
    assert (Hmono : used_blocks (files ++ [f]) <= used_blocks ((files ++ [f]) ++ rest)).
    { unfold used_blocks. assert (H : file_cost (16 * (Z.of_nat (length (files ++ [f])) + 2)) <= file_cost (16 * (Z.of_nat (length ((files ++ [f]) ++ rest)) + 2)))
        by (apply file_cost_mono; rewrite (length_app _ rest); lia).
      assert (H2 : forall a b, sum_cost a <= sum_cost (a ++ b)).
      { intros a b. induction b as [|g b IHb] using rev_ind; [rewrite app_nil_r; lia|]. rewrite app_assoc, sum_cost_snoc.
        pose proof (file_cost_pos (Z.of_nat (length (contents g))) ltac:(lia)). lia. }
      pose proof (H2 (files ++ [f]) rest). lia. }
    rewrite !length_app in Hn. cbn in Hn.
    destruct (add_file_run m own files F f L Gf ltac:(lia) ltac:(lia)) as (m1 & o1 & F1 & E1 & L1 & K1). krun E1.
    destruct (IH m1 o1 _ F1 L1 G) as (m2 & o2 & F2 & E2 & L2 & K2); [rewrite !length_app; cbn; lia|done|].
    exists m2, o2, F2. split; [done|]. split; [done|]. by apply (img_keeps_trans m m1).
Qed.

(** ** The free-block bitmap *)

Lemma bit_of_fold l : forall buf b, length buf = 512%nat -> Forall (fun i => 0 <= i < 4096) l -> 0 <= b ->
  length (foldl set_bit buf l) = 512%nat /\ bit_of (foldl set_bit buf l) b = bool_decide (b ∈ l) || bit_of buf b.
Proof.
  induction l as [|i l IH]; intros buf b Hl Hf Hb; cbn [foldl]; [done|]. apply Forall_cons in Hf as [Hi Hf].
  destruct (IH (set_bit buf i) b) as [H1 H2]; [by unfold set_bit; rewrite length_put8|done|done|]. split; [done|]. rewrite H2, bit_of_set by done.
  rewrite orb_assoc. f_equal. rewrite (bool_decide_ext (b ∈ i :: l) (b ∈ l \/ b = i)) by set_solver. rewrite bool_decide_or. f_equal.
  destruct (Z.eqb_spec b i); [by rewrite bool_decide_eq_true_2|by rewrite bool_decide_eq_false_2].
Qed.

Lemma mkfs_balloc_run m used : 0 <= used < 4096 ->
  exists d, balloc used m = Ret tt (put_block 58 d m) /\ length d = 512%nat /\ forall b, 0 <= b -> bit_of d b = (b <? used).
Proof.
  intros Hu. assert (Hf : Forall (fun i => 0 <= i < 4096) (seqZ 0 used)) by (apply Forall_forall; intros i Hi%elem_of_seqZ; lia).
  exists (foldl set_bit zeroes (seqZ 0 used)). split; [|split].
  - unfold balloc. change (BSIZE * 8) with 4096. replace (used <? 4096) with true by lia. done.
  - by apply (bit_of_fold _ zeroes 0).
  - intros b Hb. destruct (bit_of_fold (seqZ 0 used) zeroes b eq_refl Hf Hb) as [_ ->].
    assert (E : bit_of zeroes b = false) by (unfold bit_of; change zeroes with zero_block; rewrite byte_at_zero; apply Z.testbit_0_l). rewrite E, orb_false_r.
    apply eq_true_iff_eq. rewrite bool_decide_eq_true, elem_of_seqZ, Z.ltb_lt. lia.
Qed.

(** ** The whole image *)

(** Zeros behind the contents, in the last block. *)
Lemma file_rep_pad m own inum addrs nb ib c k :
  file_rep m own inum addrs nb ib c -> Z.of_nat (length c + k) <= nb * 512 -> file_rep m own inum addrs nb ib (c ++ replicate k 0).
Proof.
  intros [R1 R2 R3 R4 R5] Hk. split; [rewrite length_app, length_replicate; lia|done| |done|done].
  intros bn Hbn. destruct (R3 bn Hbn) as (B1 & B2 & B3). split; [done|]. split; [done|]. intros o Ho. rewrite B3 by done. rewrite byte_at_app by lia.
  case_decide; [done|]. by rewrite byte_at_end, byte_at_replicate by lia.
Qed.

Definition blank (m : mkfs) (l : list Z) : mkfs := m <| m_img ::= fun g => foldl (fun g i => <[i := zeroes]> g) g l |>.

Lemma blank_run l : forall m, keach l (fun i => wsect i zeroes) m = Ret tt (blank m l).
Proof.
  induction l as [|i l IH]; intros m; cbn [keach]; [by destruct m|]. unfold wsect at 1, kmod, kbind. cbn [obind]. rewrite IH. by destruct m.
Qed.

Lemma blank_lookup l b : forall g : gmap Z (list Z),
  foldl (fun g i => <[i := zeroes]> g) g l !! b = if bool_decide (b ∈ l) then Some zeroes else g !! b.
Proof.
  induction l as [|i l IH]; intros g; cbn [foldl]; [done|]. rewrite IH. destruct (decide (b ∈ l)) as [H|H].
  - rewrite !bool_decide_eq_true_2 by set_solver. done.
  - rewrite (bool_decide_eq_false_2 (b ∈ l)) by done. destruct (decide (b = i)) as [->|Hne].
    + rewrite bool_decide_eq_true_2 by set_solver. by rewrite lookup_insert_eq.
    + rewrite bool_decide_eq_false_2 by set_solver. by rewrite lookup_insert_ne.
Qed.

(** The state after the superblock is written. *)
Definition fresh : mkfs := put_block 1 (put_sb zeroes sb) (blank (empty <| m_freeblock := nmeta |>) (seqZ 0 FSSIZE)).

Lemma fresh_image : image fresh (fun _ => (0, 0)) ∅ /\ m_freeinode fresh = 1 /\ m_freeblock fresh = nmeta.
Proof.
  set (m0 := blank (empty <| m_freeblock := nmeta |>) (seqZ 0 FSSIZE)).
  assert (H : forall b, m_img m0 !! b = if bool_decide (b ∈ seqZ 0 FSSIZE) then Some zeroes else None) by (intros b; exact (blank_lookup _ _ ∅)).
  assert (Hz : forall b, blockof m0 b = zero_block) by (intros b; unfold blockof; rewrite H; by case_bool_decide).
  assert (S0 : sound m0).
  { split; [| |done|done].
    - intros b Hb. rewrite H, bool_decide_eq_true_2; [eauto|]. apply elem_of_seqZ. lia.
    - intros b. by rewrite Hz. }
  split; [|done]. split; [|done| |].
  - apply sound_put; [done|change (m_freeblock m0) with nmeta; by split|]. unfold put_sb. by rewrite length_put_words.
  - intros inum [? ?]. by rewrite lookup_empty in *.
  - intros inum t c Hx. by rewrite lookup_empty in Hx.
Qed.

(** The root directory with its two entries. *)
Lemma root_run : exists m own F, (rootino <- ialloc T_DIR ;;
    if negb (rootino =? ROOTINO) then kpanic "assert" else
    iappend rootino (entry_bytes (rootino, [46])) ;;; iappend rootino (entry_bytes (rootino, [46; 46])) ;;; kret rootino) fresh = Ret 1 m /\
  laid m own [] F /\ keeps fresh m.
Proof.
  destruct fresh_image as (I0 & N0 & B0). assert (Hnm : nmeta = 59) by done. assert (Hfs : FSSIZE = 1000) by done.
  destruct (ialloc_run fresh _ ∅ T_DIR I0 ltac:(by left)) as (m1 & E1 & I1 & K1 & N1 & B1); [rewrite N0; done|]. rewrite N0 in *. krun E1. change (negb (1 =? ROOTINO)) with false. cbv iota.
  destruct (iappend_run m1 _ _ 1 T_DIR [] (entry_bytes (1, [46])) I1) as (m2 & o2 & E2 & I2 & K2 & N2 & B2);
    [by rewrite lookup_insert_eq|apply bytes_entry; repeat constructor; cbn; lia|done|rewrite B1, B0, Hnm, Hfs; vm_compute; discriminate|]. krun E2.
  destruct (iappend_run m2 _ _ 1 T_DIR _ (entry_bytes (1, [46; 46])) I2 (lookup_insert_eq _ _ _)) as (m3 & o3 & E3 & I3 & K3 & N3 & B3);
    [apply bytes_entry; repeat constructor; cbn; lia|done|rewrite B2, B1, B0, Hnm, Hfs; vm_compute; discriminate|]. krun E3.
  eexists m3, o3, _. split; [done|]. split; [|exact (img_keeps_trans _ _ _ K1 (img_keeps_trans _ _ _ K2 K3))].
  split; [exact I3|by rewrite lookup_insert_eq|intros i f Hf; by rewrite lookup_nil in Hf|cbn; lia|].
  rewrite B3, B2, B1, B0. reflexivity.
Qed.

(** The directory as it is left: its size is rounded up to whole blocks. *)
Definition root_file (files : list (list Z * option (list (list Z)))) : list Z :=
  let n := 16 * (Z.of_nat (length files) + 2) in root_bytes (root_entries files) ++ replicate (Z.to_nat ((n / 512 + 1) * 512 - n)) 0.

(** What can be put on the image: the names and sizes, the number of inodes
    and blocks, and a directory that does not end with its last block. *)
Record fits (files : list (list Z * option (list (list Z)))) : Prop := {
  ft_files : Forall good_file files;
  ft_inodes : Z.of_nat (length files) <= 198;
  ft_blocks : nmeta + used_blocks files <= FSSIZE;
  ft_root : (Z.of_nat (length files) + 2) mod 32 <> 0
}.

(** The image of the files: the inodes, the superblock, and the bitmap. *)
Record built (m : mkfs) (own : Z -> Z * Z) (files : list (list Z * option (list (list Z)))) (F : gmap Z (Z * list Z)) : Prop := {
  bu_image : image m own F;
  bu_root : F !! 1 = Some (T_DIR, root_file files);
  bu_files : forall i f, files !! i = Some f -> F !! (Z.of_nat i + 2) = Some (T_FILE, contents f);
  bu_inodes : m_freeinode m = Z.of_nat (length files) + 2;
  bu_sb : decode_sb (blockof m 1) = sb;
  bu_bits : forall b, 0 <= b -> bit_of (blockof m 58) b = (b <? nmeta + used_blocks files)
}.

Lemma image_bitmap m own F d : image m own F -> length d = 512%nat -> image (put_block 58 d m) own F.
Proof.
  intros [I1 I2 I3 I4] Hd. assert (Hm : nmeta = 59) by done. pose proof (so_range _ I1). split; [by apply sound_put; [|lia|]|done|done|].
  intros inum t c Hx. destruct (I4 _ _ _ Hx) as (J1 & J2 & J3 & a & J4 & J5). split; [done|]. split; [done|]. split; [done|]. exists a.
  assert (Hi : 0 <= inum < NINODES) by (pose proof (I3 inum ltac:(eauto)); lia). destruct (iblock_range inum Hi) as (B1 & _). split.
  - unfold dinode_of. by rewrite blockof_put, decide_False by lia.
  - apply (file_rep_meta m); [|done|done]. intros b Hb. by rewrite blockof_put, decide_False by lia.
Qed.

(** Fixing the size of the root directory. *)
Lemma root_fix_run m own files F :
  laid m own files F -> fits files ->
  exists m', (din <- rinode 1 ;; winode 1 (mk_dinode (d_type din) (d_major din) (d_minor din) (d_nlink din)
                (xint (u32 ((d_size din / BSIZE + 1) * BSIZE))) (d_addrs din))) m = Ret tt m' /\
    image m' own (<[1 := (T_DIR, root_file files)]> F) /\ keeps m m' /\ m_freeblock m' = m_freeblock m /\ m_freeinode m' = m_freeinode m.
Proof.
  intros [I R A N B] [_ H1 _ H2]. destruct (im_file _ _ _ I _ _ _ R) as (_ & Hb & _ & a & Hd & Hf). set (n := 16 * (Z.of_nat (length files) + 2)).
  assert (Hl : Z.of_nat (length (root_bytes (root_entries files))) = n) by (rewrite length_root_bytes, length_root_entries; unfold n; lia). rewrite Hl in *.
  krun (rinode_run m 1 (im_sound _ _ _ I) ltac:(by split)). rewrite Hd. cbn [d_type d_major d_minor d_nlink d_size d_addrs]. change BSIZE with 512.
  set (n' := (n / 512 + 1) * 512). assert (Hn' : 0 <= n' <= 71680 /\ n <= n') by (unfold n', n; Z.div_mod_to_equations; lia). unfold xint. rewrite !(u32_id n') by lia.
  assert (Hlen : Z.of_nat (length (root_file files)) = n') by (unfold root_file; cbn zeta; rewrite length_app, length_replicate; fold n; fold n'; lia).
  assert (Hnb : nblk n' = nblk n) by (unfold nblk, n', n; Z.div_mod_to_equations; lia).
  rewrite (winode_run m 1 _ (im_sound _ _ _ I) ltac:(by split)), <- Hlen. eexists. split; [reflexivity|]. split; [|split; [|done]].
  - apply image_put; [by apply image_delete|rewrite N; lia|by left| |lia|].
    + apply Forall_app. split; [done|]. apply Forall_replicate. lia.
    + rewrite Hlen, Hnb. unfold root_file. cbn zeta. apply file_rep_pad; [done|]. fold n. fold n'. unfold nblk, n' in *. Z.div_mod_to_equations. lia.
  - intros b Hb'. by rewrite put_dinode_data by (done || lia || by split).
Qed.

Lemma main_run files : fits files -> exists m own F, main files empty = Ret tt m /\ built m own files F.
Proof.
  intros Hf. destruct root_run as (m1 & o1 & F1 & E1 & L1 & K1). pose proof (ft_blocks _ Hf) as Hroom. assert (Hfs : FSSIZE = 1000) by done. assert (Hnm : nmeta = 59) by done.
  destruct (add_files_run files m1 o1 [] F1 L1 (ft_files _ Hf) (ft_inodes _ Hf) Hroom) as (m2 & o2 & F2 & E2 & L2 & K2). cbn [app] in L2.
  destruct (root_fix_run m2 o2 files F2 L2 Hf) as (m3 & E3 & I3 & K3 & B3 & N3). pose proof (la_block _ _ _ _ L2) as B2. pose proof (so_range _ (im_sound _ _ _ (la_image _ _ _ _ L2))) as Hr.
  destruct (mkfs_balloc_run m3 (m_freeblock m3)) as (d & E4 & Hd & Hbits); [lia|].
  exists (put_block 58 d m3), o2, (<[1 := (T_DIR, root_file files)]> F2). split.
  - unfold main. unfold kmod at 1, kbind at 1. cbn [obind]. krun (blank_run (seqZ 0 FSSIZE) (empty <| m_freeblock := nmeta |>)).
    assert (E0 : wsect 1 (put_sb zeroes sb) (blank (empty <| m_freeblock := nmeta |>) (seqZ 0 FSSIZE)) = Ret tt fresh) by reflexivity. krun E0.
    apply kbind_ret_inv in E1 as (r & s & Ea & E1). revert E1.
    destruct (negb (r =? ROOTINO)) eqn:Er; [discriminate|]. apply negb_false_iff, Z.eqb_eq in Er as ->. change ROOTINO with 1 in Ea |- *. unfold entry_bytes. cbn [fst snd]. intros E1. krun Ea. change (negb (1 =? 1)) with false. cbv iota.
    apply kbind_ret_inv in E1 as (u1 & s1 & A1 & E1). krun A1. apply kbind_ret_inv in E1 as (u2 & s2 & A2 & E1). krun A2. injection E1 as ->.
    krun E2. apply kbind_ret_inv in E3 as (din & s3 & A3 & E3). krun A3. cbv zeta. krun E3. unfold kget, kbind. cbn [obind]. exact E4.
  - split; [by apply image_bitmap|by rewrite lookup_insert_eq| | | |].
    + intros i f Hi. rewrite lookup_insert_ne by lia. by apply (la_files _ _ _ _ L2).
    + change (m_freeinode (put_block 58 d m3)) with (m_freeinode m3). rewrite N3. exact (la_inode _ _ _ _ L2).
    + rewrite blockof_put, decide_False by lia. rewrite (K3 1), (K2 1), (K1 1) by lia. unfold fresh. rewrite blockof_put, decide_True by done. vm_compute. reflexivity.
    + intros b Hb. rewrite blockof_put, decide_True, Hbits, B3, B2 by done. done.
Qed.

(** C5: [mkfs] builds a file system with the given files.  If the files fit
    (names without a slash, at most 140 blocks each, at most 198 of them, and
    enough blocks), the program ends without an error, and on the image: block 1
    is the superblock; inode 1 is the root directory, with the entries [.] and
    [..], then one for each file under its name without the leading underscore,
    then empty ones; inode [i + 2] is a regular file with exactly the bytes of
    file [i], in direct blocks and behind the indirect block, no block shared
    with another file; and the bitmap marks the blocks in use and no others. *)
Theorem mkfs_spec files : fits files -> exists m own F, main files empty = Ret tt m /\ built m own files F.
Proof. exact (main_run files). Qed.

(** Two files: [_ls] with three bytes, read in two parts, and [a] with 6660 bytes. *)
Definition demo_files : list (list Z * option (list (list Z))) :=
  [([95; 108; 115], Some [[1; 2]; [3]]); ([97], Some (replicate 13 (replicate 512 7) ++ [[1; 2; 3; 4]]))].

Lemma demo_fits : fits demo_files.
Proof.
  split; [|cbn; lia|vm_compute; discriminate|vm_compute; discriminate].
  apply Forall_cons; split; [|apply Forall_singleton]; (split; [split| |split]; [| |by eexists| |]); unfold bytes;
    refine (bool_decide_unpack _ _); vm_compute; exact I.
Qed.

Lemma mkfs_spec_witness : exists m own F, main demo_files empty = Ret tt m /\ built m own demo_files F /\ length (contents (demo_files !!! 1%nat)) = 6660%nat.
Proof.
  destruct (mkfs_spec demo_files demo_fits) as (m & own & F & E & B). exists m, own, F. split; [exact E|]. split; [exact B|vm_compute; reflexivity].
Defined.
