(* ===== verification/MountSpec.v ===== *)
(** * The kernel on the image

    The kernel, with the image that [mkfs] built as its disk, finds each file by
    its name and reads its contents. *)

From stdpp Require Import base gmap strings list fin_maps.
From Stdlib Require Import ZArith Lia.
From S2P Require Import Prelude Mem Types Spinlock Kalloc Vm Proc ProcSpec Access Bytes Sleeplock Steady Disk Bio BioSpec Log LogSpec Inode TxnSpec Console Fs FileSpec DirSpec PathSpec NameSpec Mkfs MkfsSpec.

Import Image.

(** The kernel's disk is the image, and its superblock is that of the image. *)
Record mounted (m : mkfs) (s : kernel) : Prop := {
  mt_view : forall b, 0 <= b < FSSIZE -> view s b = blockof m b;
  mt_sb : k_sb s = decode_sb (view s 1);
  mt_size : k_disksize s = FSSIZE
}.

(** ** Files *)

Section Mounted.
Context (m : mkfs) (own : Z -> Z * Z) (s : kernel) (Hs : sound m) (Hm : mounted m s).

Lemma rep_file inum x nb ib c :
  file_rep m own inum (i_addrs x) nb ib c -> i_dev x = 1 ->
  file_ok s x nb /\ forall k, 0 <= k < nb * 512 -> file_byte s x k = byte_at c k.
Proof.
  intros [R1 R2 R3 R4 R5] Hdev. pose proof (so_range _ Hs) as Hr. assert (Hnm : nmeta = 59) by done.
  assert (Hind : ib = true -> view s (addr (i_addrs x) 12) = blockof m (addr (i_addrs x) 12)).
  { intros H. apply (mt_view _ _ Hm). destruct (R5 H) as (? & _). lia. }
  assert (Hib : 12 < nb -> ib = true) by (intros H; destruct ib; [done|]; destruct (proj2 R4 eq_refl); lia).
  assert (Hblk : forall bn, 0 <= bn < nb -> blk s x bn = blkno m (i_addrs x) bn).
  { intros bn Hbn. unfold blk, blkno. destruct (bn <? NDIRECT) eqn:E; [done|]. change NDIRECT with 12 in *. change (addr_of x 12) with (addr (i_addrs x) 12).
    rewrite Hind; [done|]. apply Hib. lia. }
  split; [split|].
  - done.
  - change MAXFILE with 140. lia.
  - apply R2.
  - intros bn Hbn. rewrite Hblk by done. destruct (R3 bn Hbn) as (? & _). unfold block_ok. rewrite (mt_size _ _ Hm). lia.
  - change NDIRECT with 12. intros H. change (addr_of x 12) with (addr (i_addrs x) 12). destruct (R5 (Hib H)) as (? & _). unfold block_ok. rewrite (mt_size _ _ Hm). lia.
  - intros k Hk. unfold file_byte. change BSIZE with 512. assert (Hb : 0 <= k / 512 < nb) by (Z.div_mod_to_equations; lia). rewrite Hblk by done.
    destruct (R3 _ Hb) as (B1 & _ & B3). rewrite (mt_view _ _ Hm) by lia. rewrite B3 by (Z.div_mod_to_equations; lia). f_equal. Z.div_mod_to_equations. lia.
Qed.
End Mounted.

(** ** Entries of the root directory *)

Lemma bytes_of_entry es : forall k e o, es !! k = Some e -> 0 <= o < 16 -> byte_at (root_bytes es) (Z.of_nat k * 16 + o) = byte_at (entry_bytes e) o.
Proof.
  induction es as [|e0 es IH]; intros k e o Hk Ho; [by rewrite lookup_nil in Hk|]. unfold root_bytes in *. cbn [fmap list_fmap concat].
  rewrite byte_at_app, length_entry_bytes by lia. destruct k as [|k]; cbn in Hk.
  - injection Hk as ->. rewrite decide_True by lia. by f_equal.
  - rewrite decide_False by lia. rewrite <- (IH k e o Hk Ho). f_equal. lia.
Qed.

Lemma decode_entry e : 0 <= fst e < 65536 -> decode_dirent (entry_bytes e) = mk_dirent (fst e) (strncpy_str (snd e) (Z.to_nat DIRSIZ)).
Proof.
  intros He. unfold decode_dirent, entry_bytes, encode_dirent. cbn [de_inum de_name]. f_equal.
  - assert (Ex : xshort (fst e) = fst e) by (apply Z.mod_small; lia). rewrite Ex. change (u8 (fst e) + 256 * u8 (fst e / 256) = fst e).
    unfold u8. Z.div_mod_to_equations. lia.
  - unfold get_bytes. change (Z.to_nat 2) with 2%nat. cbn [app drop]. change DIRSIZ with 14. apply take_ge. unfold strncpy_str. rewrite length_app, length_take, length_replicate. lia.
Qed.

Lemma seqZ_shift {A} (f g : Z -> A) a n : (forall o, 0 <= o < n -> f (a + o) = g o) -> f <$> seqZ a n = g <$> seqZ 0 n.
Proof.
  intros H. apply list_eq. intros k. rewrite !list_lookup_fmap. destruct (decide (Z.of_nat k < n)).
  - rewrite !lookup_seqZ_lt by lia. cbn. f_equal. rewrite H by lia. done.
  - by rewrite !lookup_seqZ_ge by lia.
Qed.

(** The first entry with a name. *)
Definition find_entry (l : list (Z * list Z)) (name : list Z) : option (Z * list Z) := snd <$> list_find (fun e => take (Z.to_nat DIRSIZ) (snd e) = name) l.
Definition entry_at (l : list (Z * list Z)) (k : Z) : dirent :=
  match l !! Z.to_nat k with
  | Some e => mk_dirent (fst e) (strncpy_str (snd e) (Z.to_nat DIRSIZ))
  | None => mk_dirent 0 (replicate 14 0)
  end.
Definition usable (e : Z * list Z) : Prop := fst e <> 0 /\ 0 ∉ snd e.

Lemma find_entry_cons e l name : find_entry (e :: l) name = if decide (take (Z.to_nat DIRSIZ) (snd e) = name) then Some e else find_entry l name.
Proof. unfold find_entry. cbn [list_find]. case_decide; [done|]. by destruct (list_find _ l) as [[]|]. Qed.

Lemma search_none f name l : (forall k, k ∈ l -> de_inum (f k) = 0) -> search f name l = None.
Proof.
  induction l as [|k l IH]; intros H; [done|]. rewrite search_cons, decide_False; [apply IH; set_solver|]. intros [Hn _]. apply Hn, H. set_solver.
Qed.

Lemma search_entries f name l : forall a n, (forall k, 0 <= k < n -> f (a + k) = entry_at l k) -> Z.of_nat (length l) <= n -> Forall usable l ->
  (fun k => de_inum (f k)) <$> search f name (seqZ a n) = fst <$> find_entry l name.
Proof.
  induction l as [|e l IH]; intros a n Hk Hn Hu.
  - rewrite search_none; [done|]. intros k H%elem_of_seqZ. replace k with (a + (k - a)) by lia. rewrite Hk by lia. unfold entry_at. by rewrite lookup_nil.
  - apply Forall_cons in Hu as [[U1 U2] Hu]. cbn [length] in Hn. rewrite (seqZ_cons a n) by lia. rewrite search_cons, find_entry_cons.
    assert (E : f a = mk_dirent (fst e) (strncpy_str (snd e) (Z.to_nat DIRSIZ))) by (rewrite <- (Z.add_0_r a), Hk by lia; done).
    assert (Hd : entry_named name (f a) <-> take (Z.to_nat DIRSIZ) (snd e) = name).
    { unfold entry_named. rewrite E. cbn [de_inum de_name]. rewrite cname_strncpy by done. tauto. }
    destruct (decide (take _ (snd e) = name)) as [Ht|Ht].
    + rewrite decide_True by tauto. cbn [fmap option_fmap option_map]. by rewrite E.
    + rewrite decide_False by tauto. apply IH; [|lia|done]. intros k Hk'. replace (Z.succ a + k) with (a + (k + 1)) by lia. rewrite Hk by lia.
      unfold entry_at. replace (Z.to_nat (k + 1)) with (S (Z.to_nat k)) by lia. done.
Qed.

Section Root.
Context (m : mkfs) (own : Z -> Z * Z) (files : list (list Z * option (list (list Z)))) (F : gmap Z (Z * list Z)) (s : kernel).
Hypotheses (Hf : fits files) (Hb : built m own files F) (Hm : mounted m s).

Definition es : list (Z * list Z) := root_entries files.
Definition nfiles : Z := Z.of_nat (length files).
Definition root_len : Z := (16 * (nfiles + 2) / 512 + 1) * 512.

Lemma mounted_sb : k_sb s = sb.
Proof. rewrite (mt_sb _ _ Hm), (mt_view _ _ Hm) by done. exact (bu_sb _ _ _ _ Hb). Qed.

Lemma disk_file inum t c : F !! inum = Some (t, c) ->
  let n := Z.of_nat (length c) in
  0 < inum < NINODES /\ block_ok s (IBLOCK inum (k_sb s)) /\
  exists addrs, disk_inode s inum = mk_dinode t 0 0 1 n addrs /\ n <= nblk n * 512 /\
    forall x, i_dev x = 1 -> i_addrs x = addrs -> file_ok s x (nblk n) /\ forall k, 0 <= k < nblk n * 512 -> file_byte s x k = byte_at c k.
Proof.
  intros HF. destruct (bu_image _ _ _ _ Hb) as [I1 I2 I3 I4]. destruct (I4 _ _ _ HF) as (_ & _ & _ & addrs & Hd & Hr). cbn zeta.
  assert (Hi : 0 < inum < NINODES) by (pose proof (I3 inum ltac:(eauto)); lia). destruct (iblock_range inum ltac:(lia)) as (B1 & _). assert (Hfs : FSSIZE = 1000) by done.
  rewrite mounted_sb. split; [done|]. split; [unfold block_ok; rewrite (mt_size _ _ Hm); lia|].
  exists addrs. split; [|split; [apply Hr|]].
  - unfold disk_inode. rewrite mounted_sb, (mt_view _ _ Hm) by lia. exact Hd.
  - intros x Hdev <-. exact (rep_file m own s I1 Hm inum x _ _ c Hr Hdev).
Qed.

Lemma root_len_spec : Z.of_nat (length (root_file files)) = root_len /\ 16 * (nfiles + 2) <= root_len /\ nblk root_len * 512 = root_len.
Proof.
  unfold root_file. cbn zeta. rewrite length_app, length_replicate, length_root_bytes, length_root_entries. fold nfiles. unfold root_len, nblk.
  assert (0 <= nfiles) by (unfold nfiles; lia). assert (E : Z.of_nat (length files) = nfiles) by done. clear - H E. Z.div_mod_to_equations. lia.
Qed.

Lemma root_entry k : 0 <= k < root_len / 16 ->
  dir_entry s 1 k = entry_at es k.
Proof.
  intros Hk. unfold entry_at. destruct (disk_file 1 _ _ (bu_root _ _ _ _ Hb)) as (_ & _ & addrs & Hd & _ & Hx). destruct root_len_spec as (L1 & L2 & L3). rewrite L1, L3 in *.
  unfold dir_entry, entry. rewrite Hd. destruct (Hx (as_inode (mk_dinode T_DIR 0 0 1 root_len addrs)) eq_refl eq_refl) as [_ Hbyte]. change DIRENT_SIZE with 16.
  assert (Hk' : k * 16 + 16 <= root_len) by (clear - Hk; Z.div_mod_to_equations; lia).
  assert (Hlr : Z.of_nat (length (root_bytes es)) = 16 * (nfiles + 2)) by (rewrite length_root_bytes; unfold es; rewrite length_root_entries; unfold nfiles; lia).
  destruct (es !! Z.to_nat k) as [e|] eqn:E.
  - assert (Hlt : k < nfiles + 2) by (apply lookup_lt_Some in E; unfold es in E; rewrite length_root_entries in E; unfold nfiles; lia).
    rewrite (seqZ_shift _ (byte_at (entry_bytes e))).
    + rewrite <- get_bytes_seq by (rewrite ?length_entry_bytes; lia). unfold get_bytes. rewrite drop_0, take_ge by (rewrite length_entry_bytes; lia).
      apply decode_entry. unfold es, root_entries in E. apply lookup_app_Some in E as [E|[_ E]].
      * destruct (Z.to_nat k) as [|[|q]]; cbn in E; [injection E as <-; cbn; lia..|discriminate].
      * rewrite list_lookup_imap in E. apply fmap_Some in E as (f & Hfl & ->). apply lookup_lt_Some in Hfl. pose proof (ft_inodes _ Hf). cbn [fst]. lia.
    + intros o Ho. rewrite Hbyte by lia. unfold root_file. cbn zeta. fold es. rewrite byte_at_app, decide_True by lia.
      rewrite <- (bytes_of_entry es (Z.to_nat k) e o E Ho). f_equal. lia.
  - apply lookup_ge_None in E. unfold es in E. rewrite length_root_entries in E. rewrite (seqZ_shift _ (byte_at (replicate 16 0))); [done|].
    intros o Ho. rewrite Hbyte by lia. unfold root_file. cbn zeta. fold es. rewrite byte_at_app, decide_False by (unfold nfiles in *; lia).
    by rewrite !byte_at_replicate.
Qed.
(** The names can be looked up. *)
Hypotheses (Hn : Forall (fun f => 0 ∉ stored f) files).

Lemma es_usable : Forall usable es.
Proof.
  unfold es, root_entries. apply Forall_app. split.
  - repeat constructor; cbn; try lia; rewrite ?not_elem_of_cons; repeat split; (lia || apply not_elem_of_nil).
  - apply Forall_lookup. intros i e E. rewrite list_lookup_imap in E. apply fmap_Some in E as (f & Hfl & ->). split; cbn [fst snd]; [lia|].
    exact (proj1 (Forall_lookup _ _) Hn _ _ Hfl).
Qed.

Lemma root_inode : exists addrs, disk_inode s 1 = mk_dinode T_DIR 0 0 1 root_len addrs.
Proof.
  destruct (disk_file 1 _ _ (bu_root _ _ _ _ Hb)) as (_ & _ & addrs & Hd & _). destruct root_len_spec as (L1 & _). rewrite L1 in Hd. by exists addrs.
Qed.

Lemma root_step name : step_to s 1 name = fst <$> find_entry es name.
Proof.
  destruct root_inode as [addrs Hd]. destruct root_len_spec as (_ & L2 & _). unfold step_to. rewrite Hd. unfold dir_entries.
  change (i_size (as_inode (mk_dinode T_DIR 0 0 1 root_len addrs))) with root_len. change DIRENT_SIZE with 16. apply search_entries.
  - intros k Hk. rewrite Z.add_0_l. by apply root_entry.
  - unfold es. rewrite length_root_entries. assert (E : Z.of_nat (length files) = nfiles) by done. clear - E L2. Z.div_mod_to_equations. lia.
  - apply es_usable.
Qed.

Lemma es_inode e : e ∈ es -> is_Some (F !! fst e).
Proof.
  unfold es, root_entries. rewrite elem_of_app, !elem_of_cons. intros [[->|[->|H]]|H].
  - cbn [fst]. rewrite (bu_root _ _ _ _ Hb). by eexists.
  - cbn [fst]. rewrite (bu_root _ _ _ _ Hb). by eexists.
  - by apply not_elem_of_nil in H.
  - apply list_elem_of_lookup in H as (i & E). rewrite list_lookup_imap in E. apply fmap_Some in E as (f & Hfl & ->). cbn [fst].
    rewrite (bu_files _ _ _ _ Hb _ _ Hfl). by eexists.
Qed.

(** The image is a tree in the sense of the kernel. *)
Lemma image_tree : tree_ok s (fun inum => is_Some (F !! inum)).
Proof.
  assert (Hdir : forall inum t c, F !! inum = Some (t, c) -> t = T_DIR -> inum = 1).
  { intros inum t c HF ->. pose proof (im_dom _ _ _ (bu_image _ _ _ _ Hb) inum ltac:(eauto)) as Hi. rewrite (bu_inodes _ _ _ _ Hb) in Hi.
    destruct (decide (inum = 1)) as [|Hne]; [done|]. destruct (lookup_lt_is_Some_2 files (Z.to_nat (inum - 2))) as [f Hfl]; [lia|].
    pose proof (bu_files _ _ _ _ Hb _ _ Hfl) as H. replace (Z.of_nat (Z.to_nat (inum - 2)) + 2) with inum in H by lia. rewrite HF in H. discriminate. }
  split.
  - intros inum [[t c] HF]. destruct (disk_file inum t c HF) as (Hi & Hbk & addrs & Hd & _). rewrite Hd. cbn [d_type d_nlink].
    destruct (im_file _ _ _ (bu_image _ _ _ _ Hb) _ _ _ HF) as ([-> | ->] & _); (split; [lia|]; split; [exact Hbk|]; done).
  - intros inum [[t c] HF] Hty. destruct (disk_file inum t c HF) as (_ & _ & addrs & Hd & Hle & Hx). rewrite Hd in *. cbn [d_type] in Hty.
    assert (inum = 1) as -> by (by apply (Hdir _ _ _ HF)). rewrite (bu_root _ _ _ _ Hb) in HF. injection HF as <- <-. destruct root_len_spec as (L1 & L2 & L3).
    rewrite L1 in *. split; [done| |].
    + exists (nblk root_len). split; [by apply Hx|]. change (i_size _) with root_len. change BSIZE with 512. lia.
    + change (i_size _) with root_len. unfold root_len. change DIRENT_SIZE with 16. assert (0 <= nfiles) by (unfold nfiles; lia). clear - H. Z.div_mod_to_equations. lia.
  - intros inum name j [[t c] HF] Hty Hs. destruct (disk_file inum t c HF) as (_ & _ & addrs & Hd & _). rewrite Hd in Hty. cbn [d_type] in Hty.
    assert (inum = 1) as -> by (by apply (Hdir _ _ _ HF)). rewrite root_step in Hs. apply fmap_Some in Hs as (e & He & ->). apply es_inode.
    unfold find_entry in He. apply fmap_Some in He as ([q e'] & Hl & ->). apply list_find_Some in Hl as (Hl & _). by eapply list_elem_of_lookup_2.
Qed.
End Root.

(** ** The kernel reads the files *)

(** Every file has a name of its own, also when it is cut to fit an entry. *)
Record named (files : list (list Z * option (list (list Z)))) : Prop := {
  nm_chars : Forall (fun f => stored f <> [] /\ 0 ∉ stored f) files;
  nm_distinct : NoDup ((fun e => take (Z.to_nat DIRSIZ) (snd e)) <$> root_entries files)
}.

Lemma named_nonzero files : named files -> Forall (fun f => 0 ∉ stored f) files.
Proof. intros [H _]. eapply Forall_impl; [exact H|]. by intros f [_ ?]. Qed.

Lemma find_entry_unique l k e : NoDup ((fun e : Z * list Z => take (Z.to_nat DIRSIZ) (snd e)) <$> l) -> l !! k = Some e ->
  find_entry l (take (Z.to_nat DIRSIZ) (snd e)) = Some e.
Proof.
  intros Hd Hk. unfold find_entry. assert (E : list_find (fun e' => take (Z.to_nat DIRSIZ) (snd e') = take (Z.to_nat DIRSIZ) (snd e)) l = Some (k, e)).
  { apply list_find_Some. split; [done|]. split; [done|]. intros j y Hj Hlt Hy.
    assert (j = k); [|lia]. apply (NoDup_lookup _ j k (take (Z.to_nat DIRSIZ) (snd e)) Hd); rewrite list_lookup_fmap; [rewrite Hj|rewrite Hk]; cbn; congruence. }
  by rewrite E.
Qed.

Lemma find_entry_none l name : (forall e, e ∈ l -> take (Z.to_nat DIRSIZ) (snd e) <> name) -> find_entry l name = None.
Proof. intros H. unfold find_entry. by rewrite (proj2 (list_find_None _ _)) by (apply Forall_forall, H). Qed.

Lemma elems_name nm : nm <> [] -> 47 ∉ nm -> elems (47 :: nm) = [nm].
Proof.
  intros Hne Hs. assert (E : fields nm = [nm]).
  { clear Hne. induction nm as [|ch nm IH]; [done|]. apply not_elem_of_cons in Hs as [Hc Hs]. unfold fields in *. cbn [foldr]. rewrite IH by done.
    by replace (ch =? 47) with false by lia. }
  unfold elems, fields. cbn [foldr]. fold (fields nm). rewrite E. change (47 =? 47) with true. cbv iota. rewrite filter_cons_False by tauto.
  by rewrite filter_cons_True by done.
Qed.

Section Reads.
Context `{Pt : Patience} (Hpat : (0 < patience)%nat).
Variables (i : nat) (c : cpu) (me : nat) (p : proc) (ref : nat -> Z).
Hypotheses (Hnn : forall k, 0 <= ref k) (Hfree : exists a b, a <> b /\ (a < NINODE)%nat /\ (b < NINODE)%nat /\ ref a = 0 /\ ref b = 0).

Lemma calm_mounted m s s' n : calm s s' n -> mounted m s -> mounted m s'.
Proof.
  intros C [M1 M2 M3]. destruct (calm_sb _ _ _ C) as [E1 E2]. split; [|by rewrite E1, (cm_view _ _ _ C)|by rewrite E2].
  intros b Hb. rewrite (cm_view _ _ _ C). by apply M1.
Qed.

(** The name, from the root. *)
Lemma image_name m own files F s nm :
  fits files -> named files -> built m own files F -> mounted m s ->
  env s i c me p -> cache s (pid p) [] -> roomy s -> icache_ok s (pid p) None ref -> nm <> [] -> 47 ∉ nm -> 0 ∉ nm ->
  exists s' name, calm s s' (pid p) /\
    match find_entry (root_entries files) (take (Z.to_nat DIRSIZ) nm) with
    | Some e => exists ip, namex (47 :: nm) false s = Ret (Some ip, name) s' /\ icache_ok s' (pid p) None (more ref ip) /\ inum_at s' ip = Some (fst e)
    | None => namex (47 :: nm) false s = Ret (None, name) s'
    end.
Proof.
  intros Hf Hn Hb Hm He Hc Hr Hi N1 N2 N3. assert (Hz : Forall (fun f => 0 ∉ stored f) files) by exact (named_nonzero files Hn).
  destruct (namex_run Hpat i c me p (fun inum => is_Some (F !! inum)) ref Hnn Hfree s (47 :: nm) false 1 He Hc Hr Hi (image_tree m own files F s Hf Hb Hm Hz))
    as (s' & name & C & H); [rewrite (bu_root _ _ _ _ Hb); by eexists|done|by apply not_elem_of_cons|].
  rewrite elems_name in H by done. cbn [fmap list_fmap resolve] in H. destruct (root_inode m own files F s Hb Hm) as [addrs Hd]. rewrite Hd in H. cbn [d_type] in H.
  rewrite decide_True in H by done. cbn [andb] in H. rewrite (root_step m own files F s Hf Hb Hm Hz) in H. unfold es in H.
  exists s', name. split; [done|]. destruct (find_entry _ _) as [e|]; cbn in H; [|by destruct H]. destruct H as (ip & H1 & H2 & H3 & _). eauto.
Qed.

(** An inode of the image, locked and read. *)
Lemma image_inode m own files F s ref' ip j t l dst n :
  fits files -> named files -> built m own files F -> mounted m s ->
  env s i c me p -> cache s (pid p) [] -> roomy s -> icache_ok s (pid p) None ref' -> inum_at s ip = Some j -> 0 < ref' ip ->
  F !! j = Some (t, l) -> Z.of_nat (length l) <= n < 4294967296 -> place_ok dst n ->
  exists s1 s2, ilock (Some ip) s = Ret tt s1 /\ readi ip dst 0 n s1 = Ret (Z.of_nat (length l), l) s2 /\ k_mem s2 = landed dst (k_mem s) 0 l.
Proof.
  intros Hf Hn Hb Hm He Hc Hr Hi Hin Href HF Hlen Hpl. assert (Hz : Forall (fun f => 0 ∉ stored f) files) by exact (named_nonzero files Hn).
  destruct (ilock_run Hpat i c me p s ref' ip j (fun inum => is_Some (F !! inum)) He Hc Hr Hi) as (s1 & E1 & C1 & Hi1 & (x & Hx & Hrx & _ & _ & Him) & _);
    [by rewrite (refers_iff _ _ _ _ _ _ Hi)|exact (image_tree m own files F s Hf Hb Hm Hz)|by eexists|].
  pose proof (calm_mounted _ _ _ _ C1 Hm) as Hm1. destruct (disk_file m own files F s1 Hb Hm1 j t l HF) as (_ & _ & addrs & Hd & Hnb & Hfile). rewrite Hd in Him.
  destruct (io_entry _ _ _ _ Hi1 ip x Hx) as (_ & _ & _ & E4). destruct (E4 Hrx) as [Hdev _].
  assert (Hty : i_type x = t /\ i_size x = Z.of_nat (length l) /\ i_addrs x = addrs) by (by injection Him). destruct Hty as (T1 & T2 & T3).
  destruct (Hfile x Hdev T3) as [Hok Hbytes]. assert (Ht : t <> T_DEV) by (destruct (im_file _ _ _ (bu_image _ _ _ _ Hb) _ _ _ HF) as ([-> | ->] & _); done).
  pose proof (readi_run Hpat s1 i c me p ip x (nblk (Z.of_nat (length l))) dst 0 n (cm_env _ _ _ C1 _ _ _ _ He) (cm_cache _ _ _ C1) (calm_roomy _ _ _ C1 Hr) Hx Hok
    ltac:(congruence) ltac:(rewrite T2; change BSIZE with 512; lia) ltac:(lia) ltac:(lia) Hpl) as H.
  rewrite decide_False in H by lia. cbn zeta in H. rewrite T2, Z.sub_0_r, Z.min_r in H by lia.
  assert (El : file_byte s1 x <$> seqZ 0 (Z.of_nat (length l)) = l).
  { rewrite (seqZ_shift _ (byte_at l)) by (intros o Ho; apply Hbytes; lia). rewrite <- get_bytes_seq by lia. unfold get_bytes. rewrite drop_0. apply take_ge. lia. }
  rewrite El in H. destruct H as (s2 & E2 & Q2). exists s1, s2. split; [done|]. split; [done|]. rewrite (quiet_mem _ _ _ _ Q2).
  destruct (cm_frame _ _ _ C1) as (? & ? & ? & ? & ->). done.
Qed.

(** C2: the kernel finds the files of the image and reads back their bytes.
    Take any files that fit on the image and have names of their own.  Then
    [mkfs] succeeds, and a kernel whose disk is the image, with a consistent
    buffer and inode cache, does this: [namex] on a slash and the name of a file
    returns a reference to an inode; [ilock] on it succeeds; and [readi] from
    its start returns the length of the file and its bytes, stored at the
    destination.  For a name that no file has [namex] returns no inode. *)
Theorem image_read files : fits files -> named files -> exists m, main files empty = Ret tt m /\ forall s : kernel,
  mounted m s -> env s i c me p -> cache s (pid p) [] -> roomy s -> icache_ok s (pid p) None ref ->
  (forall k f dst n, files !! k = Some f -> let l := contents f in Z.of_nat (length l) <= n < 4294967296 -> place_ok dst n ->
     exists s1 s2 s3 name ip, namex (47 :: stored f) false s = Ret (Some ip, name) s1 /\ ilock (Some ip) s1 = Ret tt s2 /\
       readi ip dst 0 n s2 = Ret (Z.of_nat (length l), l) s3 /\ k_mem s3 = landed dst (k_mem s) 0 l) /\
  (forall nm, nm <> [] -> 47 ∉ nm -> 0 ∉ nm -> (forall e, e ∈ root_entries files -> take (Z.to_nat DIRSIZ) (snd e) <> take (Z.to_nat DIRSIZ) nm) ->
     exists s1 name, namex (47 :: nm) false s = Ret (None, name) s1).
Proof.
  intros Hf Hn. destruct (main_run files Hf) as (m & own & F & E & Hb). exists m. split; [done|]. intros s Hm He Hc Hr Hi. split.
  - intros k f dst n Hk l Hlen Hpl. destruct (proj1 (Forall_lookup _ _) (nm_chars _ Hn) _ _ Hk) as [N1 N2].
    assert (N3 : 47 ∉ stored f).
    { destruct (gf_name _ (proj1 (Forall_lookup _ _) (ft_files _ Hf) _ _ Hk)) as [H _]. unfold stored. case_bool_decide; [|done]. destruct (fst f); [done|]. by apply not_elem_of_cons in H as [_ H]. }
    destruct (image_name m own files F s (stored f) Hf Hn Hb Hm He Hc Hr Hi N1 N3 N2) as (s1 & name & C1 & H).
    assert (Hke : root_entries files !! (2 + k)%nat = Some (Z.of_nat k + 2, stored f)) by (unfold root_entries; rewrite lookup_app_r by (cbn; lia); cbn [length]; rewrite list_lookup_imap; replace (2 + k - 2)%nat with k by lia; by rewrite Hk).
    change (stored f) with (snd (Z.of_nat k + 2, stored f)) in H at 1. rewrite (find_entry_unique _ _ _ (nm_distinct _ Hn) Hke) in H. destruct H as (ip & H1 & H2 & H3).
    destruct (image_inode m own files F s1 (more ref ip) ip (Z.of_nat k + 2) T_FILE l dst n Hf Hn Hb (calm_mounted _ _ _ _ C1 Hm) (cm_env _ _ _ C1 _ _ _ _ He)
      (cm_cache _ _ _ C1) (calm_roomy _ _ _ C1 Hr) H2 H3) as (s2 & s3 & E2 & E3 & Hmem); [unfold more; rewrite decide_True by done; pose proof (Hnn ip); lia|by apply (bu_files _ _ _ _ Hb)|done|done|].
    exists s1, s2, s3, name, ip. split; [done|]. split; [done|]. split; [done|]. rewrite Hmem. by destruct (cm_frame _ _ _ C1) as (? & ? & ? & ? & ->).
  - intros nm N1 N2 N3 Hno. destruct (image_name m own files F s nm Hf Hn Hb Hm He Hc Hr Hi N1 N2 N3) as (s1 & name & _ & H).
    rewrite find_entry_none in H by done. eauto.
Qed.
End Reads.

(** ** A kernel that was just started *)

(** No buffer and no inode is in use; the disk is the image. *)
Definition just_mounted (m : mkfs) : kernel := (with_bufs [] (m_img m)) <| k_sb := decode_sb (blockof m 1) |>.

Lemma just_bufs m k x : k_bufs (just_mounted m) !! k = Some x -> x = zero_buf.
Proof. intros Hx. change (k_bufs (with_bufs [] ∅) !! k = Some x) in Hx. apply with_bufs_lookup in Hx as [Hx| ->]; [by apply not_elem_of_nil in Hx|done]. Qed.

Lemma just_view m b : view (just_mounted m) b = blockof m b.
Proof. rewrite view_disk; [done|]. intros k x ->%just_bufs [D _]. discriminate. Qed.

Lemma just_ok m : sound m ->
  mounted m (just_mounted m) /\ env (just_mounted m) 0 run_cpu 0 run_proc /\ cache (just_mounted m) (pid run_proc) [] /\ roomy (just_mounted m) /\
  icache_ok (just_mounted m) (pid run_proc) None (fun _ => 0).
Proof.
  intros Hs. split; [|split; [|split; [|split]]].
  - split; [intros b _; apply just_view|rewrite just_view; done|done].
  - exact (env_ext running (just_mounted m) 0 run_cpu 0 run_proc running_env eq_refl eq_refl eq_refl eq_refl eq_refl eq_refl).
  - assert (H : cache (with_bufs [] (m_img m)) (pid run_proc) []) by (apply with_bufs_cache; [unfold NBUF; cbn; lia|exact (so_len _ Hs)|constructor|constructor]).
    destruct H as [H1 H2 H3 H4 H5 H6 H7 H8]. split; [exact H1|exact H2|exact H3|exact H4|exact H5|exact H6| |exact H8]. intros k x Hx Hk. destruct (H7 k x Hx Hk); split; assumption.
  - exists []. split; [|unfold NBUF; cbn; lia]. intros b (k & x & ->%just_bufs & _ & Fl). discriminate.
  - assert (H : forall k x, k_icache (just_mounted m) !! k = Some x -> x = zero_inode).
    { intros k x Hx. change (replicate NINODE zero_inode !! k = Some x) in Hx. by apply lookup_replicate in Hx as [-> _]. }
    split; [reflexivity| |].
    + intros k x ->%H. split; [reflexivity|]. split; [reflexivity|]. split; [reflexivity|]. cbn. lia.
    + intros j k x y ->%H _ R. cbn in R. lia.
Qed.

Lemma demo_named : named demo_files.
Proof.
  split.
  - apply Forall_cons; split; [|apply Forall_singleton]; refine (bool_decide_unpack _ _); vm_compute; exact I.
  - refine (bool_decide_unpack _ _). vm_compute. exact I.
Qed.

Lemma demo_entries : root_entries demo_files = [(1, [46]); (1, [46; 46]); (2, [108; 115]); (3, [97])].
Proof. vm_compute. reflexivity. Qed.

Lemma not_98 z : z ∈ [98] -> (z =? 98) = false -> False.
Proof. intros ->%list_elem_of_singleton. discriminate. Qed.

Lemma image_read_witness : exists m, main demo_files empty = Ret tt m /\
  (exists s1 s2 s3 name ip, namex (Pt := 1%nat) [47; 97] false (just_mounted m) = Ret (Some ip, name) s1 /\ ilock (Pt := 1%nat) (Some ip) s1 = Ret tt s2 /\
     readi (Pt := 1%nat) ip Local 0 8192 s2 = Ret (6660, contents (demo_files !!! 1%nat)) s3) /\
  exists s1 name, namex (Pt := 1%nat) [47; 98] false (just_mounted m) = Ret (None, name) s1.
Proof.
  destruct (image_read (Pt := 1%nat) ltac:(unfold patience; lia) 0 run_cpu 0 run_proc (fun _ => 0)) with (files := demo_files) as (m & E & H).
  - intros k. lia.
  - exists 0%nat, 1%nat. unfold NINODE. lia.
  - exact demo_fits.
  - exact demo_named.
  - exists m. split; [exact E|]. assert (Hs : sound m).
    { destruct (main_run demo_files demo_fits) as (m' & own & F & E' & B). rewrite E in E'. injection E' as <-. exact (im_sound _ _ _ (bu_image _ _ _ _ B)). }
    destruct (just_ok m Hs) as (J1 & J2 & J3 & J4 & J5). destruct (H (just_mounted m) J1 J2 J3 J4 J5) as [Hin Hout]. split.
    + destruct (Hin 1%nat (demo_files !!! 1%nat) Local 8192) as (s1 & s2 & s3 & name & ip & H1 & H2 & H3 & _); [reflexivity|vm_compute; split; [discriminate|reflexivity]|exact I|].
      exists s1, s2, s3, name, ip. split; [exact H1|]. split; [exact H2|exact H3].
    + apply (Hout [98]); [discriminate|exact (fun Hx => not_98 47 Hx eq_refl)|exact (fun Hx => not_98 0 Hx eq_refl)|]. rewrite demo_entries. intros e He.
      repeat (apply elem_of_cons in He as [->|He]; [vm_compute; discriminate|]). destruct (not_elem_of_nil _ He).
Defined.
