(* ===== verification/Progs.v ===== *)
(** * User programs

    The programs of the user side, as interaction trees over the system calls:
    a node is a call with its arguments, and the program goes on with the
    result.  A string is the list of its characters without the final zero, a
    buffer the list of its bytes.  [printf] writes character by character, as
    [putc] of [printf.c] does.  What a call does is up to the kernel that the
    program runs on; see [ProgsSpec]. *)

From ITree Require Import ITree.
From stdpp Require Import base gmap strings list fin_maps.
From Stdlib Require Import ZArith Lia Ascii.
From S2P Require Import Prelude Mem Types Spinlock Kalloc Vm Proc Access Sleeplock Disk Bio Log Inode Console Fs Ulib.

(** ** System calls *)

(** [struct stat]. *)
Record stat := mk_stat { st_type : Z; st_dev : Z; st_ino : Z; st_nlink : Z; st_size : Z }.

(** The call [read] gives its result and the bytes it stored. *)
Inductive sysE : Type -> Type :=
| Fork : sysE Z
| Exit : sysE Empty_set
| Wait : sysE Z
| Kill (pid : Z) : sysE Z
| Exec (path : list Z) (argv : list (list Z)) : sysE Z
| Open (path : list Z) (omode : Z) : sysE Z
| Mknod (path : list Z) (major minor : Z) : sysE Z
| Unlink (path : list Z) : sysE Z
| Fstat (fd : Z) : sysE (Z * stat)
| Link (old new : list Z) : sysE Z
| Mkdir (path : list Z) : sysE Z
| Dup (fd : Z) : sysE Z
| Read (fd n : Z) : sysE (Z * list Z)
| Write (fd : Z) (l : list Z) : sysE Z
| Close (fd : Z) : sysE Z
| Sleep (n : Z) : sysE Z
| Mmap (addr len prot flags fd off : Z) : sysE Z
| Munmap (addr len : Z) : sysE Z
(** not calls: a byte of mapped memory read and written *)
| Load (addr : Z) : sysE Z
| Store (addr v : Z) : sysE unit
(** not a call: behaviour that C leaves undefined *)
| Undefined : sysE Empty_set.

Definition prog := itree sysE.
Definition pret {A} (a : A) : prog A := go (RetF a).
Definition call {R} (e : sysE R) : prog R := go (VisF e pret).

Declare Scope prog_scope.
Delimit Scope prog_scope with prog.
Notation "x <~ t ;; k" := (ITree.bind t (fun x => k)) (at level 100, t at next level, right associativity) : prog_scope.
Notation "t ;~ k" := (ITree.bind t (fun _ => k)) (at level 100, right associativity) : prog_scope.
Open Scope prog_scope.

Definition exit {A} : prog A := v <~ call Exit ;; match v with end.
Definition undefined {A} : prog A := v <~ call Undefined ;; match v with end.

(** A loop over a list, and one that a turn of the body can leave. *)
Fixpoint each {X} (l : list X) (body : X -> prog unit) : prog unit :=
  match l with
  | [] => pret tt
  | x :: l' => body x ;~ each l' body
  end.
Fixpoint until {X} (l : list X) (body : X -> prog bool) : prog unit :=
  match l with
  | [] => pret tt
  | x :: l' => stop <~ body x ;; if stop : bool then pret tt else until l' body
  end.

(** The characters of a literal. *)
Fixpoint str (s : string) : list Z :=
  match s with
  | EmptyString => []
  | String c s' => Z.of_N (N_of_ascii c) :: str s'
  end.

Definition printf (fd : Z) (fmt : list Z) (ap : list Printf.arg) : prog unit :=
  match Printf.printf fmt ap with
  | Some l => each l (fun c => call (Write fd [c]) ;~ pret tt)
  | None => undefined
  end.

(** ** [ulib.c] *)
Definition stat_of (n : list Z) : prog (Z * stat) :=
  fd <~ call (Open n O_RDONLY) ;;
  if fd <? 0 then pret (-1, mk_stat 0 0 0 0 0) else
  r <~ call (Fstat fd) ;;
  call (Close fd) ;~
  pret r.

(** ** [cat.c] *)
Module Cat.
(** A turn of the loop of [cat]; it ends with the result of [read]. *)
Definition cat_turn (fd : Z) (_ : unit) : prog (unit + Z) :=
  r <~ call (Read fd 512) ;;
  if 0 <? fst r then
    w <~ call (Write 1 (snd r)) ;;
    if negb (w =? fst r) then printf 1 (str "cat: write error" ++ [10]) [] ;~ exit else pret (inl tt)
  else pret (inr (fst r)).
Definition cat (fd : Z) : prog unit :=
  n <~ ITree.iter (cat_turn fd) tt ;;
  if n <? 0 then printf 1 (str "cat: read error" ++ [10]) [] ;~ exit else pret tt.

Definition cat_file (arg : list Z) : prog unit :=
  fd <~ call (Open arg 0) ;;
  if fd <? 0 then printf 1 (str "cat: cannot open %s" ++ [10]) [Printf.AStr (Some arg)] ;~ exit else
  cat fd ;~
  call (Close fd) ;~
  pret tt.
Definition cat_main (args : list (list Z)) : prog unit :=
  match args with
  | [] => cat 0 ;~ exit
  | _ => each args cat_file ;~ exit
  end.
End Cat.

(** ** [wc.c] *)
Module Wc.
Record counts := mk_counts { c_l : Z; c_w : Z; c_c : Z; c_inword : bool }.

(** The body of the loop over the bytes. *)
Definition count (s : counts) (b : Z) : counts :=
  let c := i32 (c_c s + 1) in
  let l := if b =? 10 then i32 (c_l s + 1) else c_l s in
  match Ulib.strchr [32; 13; 9; 10; 11] b with
  | Some _ => mk_counts l (c_w s) c false
  | None => if c_inword s then mk_counts l (c_w s) c true else mk_counts l (i32 (c_w s + 1)) c true
  end.

Definition wc_turn (fd : Z) (s : counts) : prog (counts + Z * counts) :=
  r <~ call (Read fd 512) ;;
  if 0 <? fst r then pret (inl (foldl count s (snd r))) else pret (inr (fst r, s)).
Definition wc (fd : Z) (name : list Z) : prog unit :=
  r <~ ITree.iter (wc_turn fd) (mk_counts 0 0 0 false) ;;
  if fst r <? 0 then printf 1 (str "wc: read error" ++ [10]) [] ;~ exit else
  printf 1 (str "%d %d %d %s" ++ [10])
    [Printf.AInt (c_l (snd r)); Printf.AInt (c_w (snd r)); Printf.AInt (c_c (snd r)); Printf.AStr (Some name)].

Definition wc_file (arg : list Z) : prog unit :=
  fd <~ call (Open arg 0) ;;
  if fd <? 0 then printf 1 (str "wc: cannot open %s" ++ [10]) [Printf.AStr (Some arg)] ;~ exit else
  wc fd arg ;~
  call (Close fd) ;~
  pret tt.
Definition wc_main (args : list (list Z)) : prog unit :=
  match args with
  | [] => wc 0 [] ;~ exit
  | _ => each args wc_file ;~ exit
  end.
End Wc.

(** ** [echo.c] *)
Module Echo.
Fixpoint echo_loop (args : list (list Z)) : prog unit :=
  match args with
  | [] => pret tt
  | arg :: rest =>
      printf 1 (str "%s%s") [Printf.AStr (Some arg); Printf.AStr (Some (match rest with [] => [10] | _ => [32] end))] ;~
      echo_loop rest
  end.
Definition echo_main (args : list (list Z)) : prog unit := echo_loop args ;~ exit.
End Echo.

(** ** [grep.c]: the loop over the input, and [main] *)
Module GrepMain.
(** A turn of the loop; the buffer holds the [m] characters [buf]. *)
Definition grep_turn (pattern : list Z) (fd : Z) (buf : list Z) : prog (list Z + unit) :=
  r <~ call (Read fd (1023 - Z.of_nat (length buf))) ;;
  if 0 <? fst r then
    let b := buf ++ snd r in
    let '(out, rest, moved) := Grep.scan (S (length b)) pattern b false in
    each out (fun line => call (Write 1 line) ;~ pret tt) ;~
    pret (inl (if moved : bool then rest else []))
  else pret (inr tt).
Definition grep (pattern : list Z) (fd : Z) : prog unit := ITree.iter (grep_turn pattern fd) [].

Definition grep_file (pattern arg : list Z) : prog unit :=
  fd <~ call (Open arg 0) ;;
  if fd <? 0 then printf 1 (str "grep: cannot open %s" ++ [10]) [Printf.AStr (Some arg)] ;~ exit else
  grep pattern fd ;~
  call (Close fd) ;~
  pret tt.
Definition grep_main (args : list (list Z)) : prog unit :=
  match args with
  | [] => printf 2 (str "usage: grep pattern [file ...]" ++ [10]) [] ;~ exit
  | [pattern] => grep pattern 0 ;~ exit
  | pattern :: files => each files (grep_file pattern) ;~ exit
  end.
End GrepMain.

(** ** [ls.c] *)
Module Ls.
(** What is behind the last slash. *)
Fixpoint after_slash (path : list Z) : list Z :=
  match path with
  | [] => []
  | c :: path' => if bool_decide (47 ∈ path) then after_slash path' else path
  end.
Definition fmtname (path : list Z) : list Z :=
  let p := after_slash path in
  if DIRSIZ <=? Z.of_nat (length p) then p else p ++ replicate (Z.to_nat DIRSIZ - length p) 32.

(** The string at the start of [DIRSIZ] characters and a zero. *)
Fixpoint name_of (l : list Z) : list Z :=
  match l with
  | [] => []
  | c :: l' => if c =? 0 then [] else c :: name_of l'
  end.

Definition print_stat (path : list Z) (st : stat) : prog unit :=
  printf 1 (str "%s %d %d %d" ++ [10]) [Printf.AStr (Some (fmtname path)); Printf.AInt (st_type st); Printf.AInt (st_ino st); Printf.AInt (st_size st)].

(** The body of the loop over the entries. *)
Definition show_entry (path : list Z) (de : dirent) : prog unit :=
  if de_inum de =? 0 then pret tt else
  let buf := path ++ [47] ++ name_of (de_name de) in
  r <~ stat_of buf ;;
  if fst r <? 0 then printf 1 (str "ls: cannot stat %s" ++ [10]) [Printf.AStr (Some buf)]
  else print_stat buf (snd r).
Definition ls_turn (path : list Z) (fd : Z) (_ : unit) : prog (unit + unit) :=
  r <~ call (Read fd DIRENT_SIZE) ;;
  if negb (fst r =? DIRENT_SIZE) then pret (inr tt) else
  show_entry path (decode_dirent (snd r)) ;~
  pret (inl tt).

Definition ls (path : list Z) : prog unit :=
  fd <~ call (Open path 0) ;;
  if fd <? 0 then printf 2 (str "ls: cannot open %s" ++ [10]) [Printf.AStr (Some path)] else
  r <~ call (Fstat fd) ;;
  if fst r <? 0 then
    printf 2 (str "ls: cannot stat %s" ++ [10]) [Printf.AStr (Some path)] ;~
    call (Close fd) ;~
    pret tt
  else
  let st := snd r in
  (if st_type st =? T_FILE then print_stat path st
   else if st_type st =? T_DIR then
     if 512 <? Z.of_nat (length path) + 1 + DIRSIZ + 1 then printf 1 (str "ls: path too long" ++ [10]) [] else
     ITree.iter (ls_turn path fd) tt
   else pret tt) ;~
  call (Close fd) ;~
  pret tt.

Definition ls_main (args : list (list Z)) : prog unit :=
  match args with
  | [] => ls (str ".") ;~ exit
  | _ => each args ls ;~ exit
  end.
End Ls.

(** ** [kill.c], [ln.c], [rm.c] and [mkdir.c] *)
Module Kill.
Definition kill_main (args : list (list Z)) : prog unit :=
  match args with
  | [] => printf 2 (str "usage: kill pid..." ++ [10]) [] ;~ exit
  | _ => each args (fun arg => call (Kill (Ulib.atoi arg)) ;~ pret tt) ;~ exit
  end.
End Kill.

Module Ln.
Definition ln_main (args : list (list Z)) : prog unit :=
  match args with
  | [old; new] =>
      r <~ call (Link old new) ;;
      (if r <? 0 then printf 2 (str "link %s %s: failed" ++ [10]) [Printf.AStr (Some old); Printf.AStr (Some new)] else pret tt) ;~
      exit
  | _ => printf 2 (str "Usage: ln old new" ++ [10]) [] ;~ exit
  end.
End Ln.

Module Rm.
Definition rm_main (args : list (list Z)) : prog unit :=
  match args with
  | [] => printf 2 (str "Usage: rm files..." ++ [10]) [] ;~ exit
  | _ =>
      until args (fun arg =>
        r <~ call (Unlink arg) ;;
        if r <? 0 then printf 2 (str "rm: %s failed to delete" ++ [10]) [Printf.AStr (Some arg)] ;~ pret true else pret false) ;~
      exit
  end.
End Rm.

Module Mkdir.
Definition mkdir_main (args : list (list Z)) : prog unit :=
  match args with
  | [] => printf 2 (str "Usage: mkdir files..." ++ [10]) [] ;~ exit
  | _ =>
      until args (fun arg =>
        r <~ call (Mkdir arg) ;;
        if r <? 0 then printf 2 (str "mkdir: %s failed to create" ++ [10]) [Printf.AStr (Some arg)] ;~ pret true else pret false) ;~
      exit
  end.
End Mkdir.

(** ** [init.c] *)
Module Init.
Definition start_sh : prog unit :=
  printf 1 (str "init: starting sh" ++ [10]) [] ;~
  pid <~ call Fork ;;
  if pid <? 0 then printf 1 (str "init: fork failed" ++ [10]) [] ;~ exit else
  if pid =? 0 then
    call (Exec (str "sh") [str "sh"]) ;~
    printf 1 (str "init: exec sh failed" ++ [10]) [] ;~
    exit
  else
  ITree.iter (fun _ : unit =>
    wpid <~ call Wait ;;
    if (0 <=? wpid) && negb (wpid =? pid) then printf 1 (str "zombie!" ++ [10]) [] ;~ pret (inl tt) else pret (inr tt)) tt.

Definition init_main : prog unit :=
  fd <~ call (Open (str "console") O_RDWR) ;;
  (if fd <? 0 then
     call (Mknod (str "console") 1 1) ;~
     call (Open (str "console") O_RDWR) ;~
     pret tt
   else pret tt) ;~
  call (Dup 0) ;~
  call (Dup 0) ;~
  ITree.iter (fun _ : unit => start_sh ;~ pret (inl tt)) tt.
End Init.

(** ** [zombie.c], [forktest.c] and [stressfs.c] *)
Module Zombie.
Definition zombie_main : prog unit :=
  pid <~ call Fork ;;
  (if 0 <? pid then call (Sleep 5) ;~ pret tt else pret tt) ;~
  exit.
End Zombie.

Module Forktest.
Definition N : Z := 1000.
Definition print (fd : Z) (s : list Z) : prog unit := call (Write fd s) ;~ pret tt.

Definition forktest : prog unit :=
  print 1 (str "fork test" ++ [10]) ;~
  n <~ ITree.iter (fun n : Z =>
    if negb (n <? N) then pret (inr n) else
    pid <~ call Fork ;;
    if pid <? 0 then pret (inr n) else
    if pid =? 0 then exit else pret (inl (n + 1))) 0 ;;
  if n =? N then print 1 (str "fork claimed to work N times!" ++ [10]) ;~ exit else
  ITree.iter (fun n : Z =>
    if negb (0 <? n) then pret (inr tt) else
    w <~ call Wait ;;
    if w <? 0 then print 1 (str "wait stopped early" ++ [10]) ;~ exit else pret (inl (n - 1))) n ;~
  w <~ call Wait ;;
  if negb (w =? -1) then print 1 (str "wait got too many" ++ [10]) ;~ exit else
  print 1 (str "fork test OK" ++ [10]).
Definition forktest_main : prog unit := forktest ;~ exit.
End Forktest.

Module Stressfs.
(** The loop that leaves the parent with [i]. *)
Fixpoint forks (fuel : nat) (i : Z) : prog Z :=
  match fuel with
  | O => pret i
  | S k => pid <~ call Fork ;; if 0 <? pid then pret i else forks k (i + 1)
  end.

Definition stressfs_main : prog unit :=
  printf 1 (str "stressfs starting" ++ [10]) [] ;~
  let data := replicate 512 97 in
  i <~ forks 4 0 ;;
  printf 1 (str "write %d" ++ [10]) [Printf.AInt i] ;~
  let path := str "stressfs" ++ [48 + i] in
  fd <~ call (Open path (Z.lor O_CREATE O_RDWR)) ;;
  each (seqZ 0 20) (fun _ => call (Write fd data) ;~ pret tt) ;~
  call (Close fd) ;~
  printf 1 (str "read" ++ [10]) [] ;~
  fd <~ call (Open path O_RDONLY) ;;
  each (seqZ 0 20) (fun _ => call (Read fd 512) ;~ pret tt) ;~
  call (Close fd) ;~
  call Wait ;~
  exit.
End Stressfs.

(** ** [mmap.c] and [munmap.c] *)
Module MmapTest.
Definition PROT_READ : Z := 1.
Definition PROT_WRITE : Z := 2.

(** [my_strcmp(a, b, n)] with [a] mapped memory and [b] a buffer. *)
Fixpoint my_strcmp (a : Z) (b : list Z) : prog Z :=
  match b with
  | [] => pret 0
  | c :: b' => v <~ call (Load a) ;; if negb (v =? c) then pret 1 else my_strcmp (a + 1) b'
  end.

(** Storing ['a'] in mapped memory; the result is what is read back. *)
Fixpoint fill (mem : Z) (n : nat) : prog (list Z) :=
  match n with
  | O => pret []
  | S k => call (Store mem 97) ;~ v <~ call (Load mem) ;; l <~ fill (mem + 1) k ;; pret (v :: l)
  end.

Definition failed (msg : list Z) : prog unit :=
  printf 1 msg [] ;~
  printf 1 (str "MMAP" ++ [9] ++ str " FAILED" ++ [10]) [] ;~
  exit.

Definition mmap_main : prog unit :=
  let len := 100 in
  fd <~ call (Open (str "test_file.txt") (Z.lor O_CREATE O_RDWR)) ;;
  if fd <? 0 then failed (str "Error opening file" ++ [10]) else
  let buff := (fun i => i mod 256) <$> seqZ 0 len in
  w <~ call (Write fd buff) ;;
  if negb (w =? len) then failed (str "Error: Write to file FAILED" ++ [10]) else
  mem <~ call (Mmap 0 len (Z.lor PROT_READ PROT_WRITE) MAP_PRIVATE fd 0) ;;
  if mem =? -1 then failed (str "mmap FAILED" ++ [10]) else
  new_buff <~ fill mem (Z.to_nat len) ;;
  pid <~ call Fork ;;
  if pid =? 0 then
    r <~ my_strcmp mem new_buff ;;
    if negb (r =? 0) then failed (str "Data mismatch in child" ++ [10]) else
    each (seqZ 0 len) (fun i => call (Store (mem + i) 98)) ;~
    exit
  else
    call Wait ;~
    r <~ my_strcmp mem new_buff ;;
    if negb (r =? 0) then failed (str "Parent data corrupted by child" ++ [10]) else
    ret <~ call (Munmap mem len) ;;
    if ret <? 0 then failed (str "munmap failed" ++ [10]) else
    call (Close fd) ;~
    printf 1 (str "MMAP" ++ [9] ++ str " SUCCESS" ++ [10]) [] ;~
    exit.
End MmapTest.

Module MunmapTest.
(** [var] is the address of the local variable. *)
Definition munmap_main (var : Z) : prog unit :=
  printf 1 (str "This is the munmap system call, printed in munmap.c" ++ [10]) [] ;~
  call (Munmap var 4096) ;~
  exit.
End MunmapTest.
