(* ===== verification/ProgsSpec.v ===== *)
(** * What the user programs do

    A program is run on a kernel given by a relation: the results that a system
    call may have, and the state after it.  [must] says that every run of the
    program ends, whatever results the kernel picks, in a state as stated. *)

From ITree Require Import ITree.
From stdpp Require Import base gmap strings list fin_maps.
From Stdlib Require Import ZArith Lia Ascii.
From S2P Require Import Prelude Mem Types Spinlock Kalloc Vm Proc Access Sleeplock Disk Bio Log Inode Console Fs Ulib UlibSpec Progs.

(** ** Runs of a program *)

Variant ending (A : Type) := Returned (a : A) | Exited.
Arguments Returned {A} a.
Arguments Exited {A}.

Lemma observe_bind {A B} (t : prog A) (k : A -> prog B) :
  observe (ITree.bind t k) = observe (match observe t with
    | RetF a => k a
    | TauF u => go (TauF (ITree.bind u k))
    | VisF e h => go (VisF e (fun x => ITree.bind (h x) k))
    end).
Proof. reflexivity. Qed.

Section Must.
Context {W : Type} (sys : W -> forall R, sysE R -> R -> W -> Prop).

Inductive must {A} (Q : ending A -> W -> Prop) : prog A -> W -> Prop :=
| must_ret t w a : observe t = RetF a -> Q (Returned a) w -> must Q t w
| must_tau t t' w : observe t = TauF t' -> must Q t' w -> must Q t w
| must_exit t w k : observe t = VisF Exit k -> Q Exited w -> must Q t w
| must_vis t w R (e : sysE R) k : observe t = VisF e k -> (exists r w', sys w R e r w') ->
    (forall r w', sys w R e r w' -> must Q (k r) w') -> must Q t w.

Lemma must_same {A} (Q : ending A -> W -> Prop) t t' w : observe t = observe t' -> must Q t' w -> must Q t w.
Proof.
  intros E H. destruct H as [t' w a E' HQ|t' u w E' H|t' w k E' HQ|t' w R e k E' Hex H]; rewrite <- E in E';
    [by eapply must_ret|by eapply must_tau|by eapply must_exit|by eapply must_vis].
Qed.

Lemma must_mono {A} (P Q : ending A -> W -> Prop) t w : must P t w -> (forall o w', P o w' -> Q o w') -> must Q t w.
Proof.
  intros H Himp. induction H as [t w a E HQ|t u w E _ IH|t w k E HQ|t w R e k E Hex _ IH];
    [eapply must_ret; eauto|eapply must_tau; eauto|eapply must_exit; eauto|eapply must_vis; eauto].
Qed.

(** What is to hold after the first part of a program. *)
Definition onward {A B} (Q : ending B -> W -> Prop) (k : A -> prog B) (o : ending A) (w : W) : Prop :=
  match o with Returned a => must Q (k a) w | Exited => Q Exited w end.

Lemma must_bind {A B} (Q : ending B -> W -> Prop) (t : prog A) (k : A -> prog B) w : must (onward Q k) t w -> must Q (ITree.bind t k) w.
Proof.
  intros H. induction H as [t w a E HQ|t u w E _ IH|t w h E HQ|t w R e h E Hex _ IH].
  - eapply must_same; [|exact HQ]. by rewrite observe_bind, E.
  - apply (must_tau _ _ (ITree.bind u k)); [|done]. by rewrite observe_bind, E.
  - apply (must_exit _ _ _ (fun x => ITree.bind (h x) k)); [|done]. by rewrite observe_bind, E.
  - apply (must_vis _ _ _ R e (fun x => ITree.bind (h x) k)); [|done|done]. by rewrite observe_bind, E.
Qed.

Lemma must_pret {A} (Q : ending A -> W -> Prop) a w : Q (Returned a) w -> must Q (pret a) w.
Proof. by apply must_ret. Qed.

Lemma must_call {R} (Q : ending R -> W -> Prop) (e : sysE R) w :
  (exists r w', sys w R e r w') -> (forall r w', sys w R e r w' -> Q (Returned r) w') -> must Q (call e) w.
Proof. intros Hex H. eapply must_vis; [reflexivity|done|]. intros r w' Hr. apply must_pret. auto. Qed.

Lemma must_leave {A} (Q : ending A -> W -> Prop) w : Q Exited w -> must Q exit w.
Proof. intros H. apply must_bind. eapply must_exit; [reflexivity|exact H]. Qed.

Lemma must_iter {I R} (Q : ending R -> W -> Prop) (body : I -> prog (I + R)) i w :
  must (fun o w' => match o with
                    | Returned (inl j) => must Q (ITree.iter body j) w'
                    | Returned (inr r) => Q (Returned r) w'
                    | Exited => Q Exited w'
                    end) (body i) w ->
  must Q (ITree.iter body i) w.
Proof.
  intros H. eapply (must_same _ _ (ITree.bind (body i) (fun lr => match lr with inl l => go (TauF (ITree.iter body l)) | inr r => pret r end))).
  - reflexivity.
  - apply must_bind. eapply must_mono; [exact H|]. intros [[j|r]|] w' Hw; cbn; [by eapply must_tau|by apply must_pret|done].
Qed.
End Must.

(** ** A kernel with files *)

(** The files, what is left to read on the open descriptors, and what was
    written to each descriptor. *)
Record files := mk_files { f_disk : list Z -> option (stat * list Z); f_fds : gmap Z (stat * list Z); f_out : gmap Z (list Z) }.
Definition out (w : files) (fd : Z) : list Z := default [] (f_out w !! fd).

(** [open] gives an unused descriptor at the start of the file; [read] gives
    some of the bytes left, and none only at their end; with [full] it gives as
    many as there are and were asked for; [write] takes all. *)
Definition files_sys (full : bool) (w : files) (R : Type) (e : sysE R) : R -> files -> Prop :=
  match e in sysE R return R -> files -> Prop with
  | Open path _ => fun fd w' =>
      match f_disk w path with
      | Some f => 0 <= fd /\ f_fds w !! fd = None /\ w' = mk_files (f_disk w) (<[fd := f]> (f_fds w)) (f_out w)
      | None => fd = -1 /\ w' = w
      end
  | Read fd n => fun r w' =>
      exists st l k, f_fds w !! fd = Some (st, l) /\ r = (Z.of_nat k, take k l) /\ (k <= length l)%nat /\ Z.of_nat k <= Z.max 0 n /\
        (k = 0%nat -> l = [] \/ n <= 0) /\ (full = true -> Z.of_nat k = Z.min (Z.max 0 n) (Z.of_nat (length l))) /\
        w' = mk_files (f_disk w) (<[fd := (st, drop k l)]> (f_fds w)) (f_out w)
  | Write fd l => fun r w' => r = Z.of_nat (length l) /\ w' = mk_files (f_disk w) (f_fds w) (<[fd := out w fd ++ l]> (f_out w))
  | Fstat fd => fun r w' => exists f, f_fds w !! fd = Some f /\ r = (0, fst f) /\ w' = w
  | Close fd => fun r w' => r = 0 /\ w' = mk_files (f_disk w) (delete fd (f_fds w)) (f_out w)
  | _ => fun _ _ => False
  end.

(** ** Output *)

Definition wrote (fd : Z) (l : list Z) (w : files) : files := mk_files (f_disk w) (f_fds w) (<[fd := out w fd ++ l]> (f_out w)).

Lemma out_wrote fd l w fd' : out (wrote fd l w) fd' = if decide (fd' = fd) then out w fd' ++ l else out w fd'.
Proof. unfold out, wrote. cbn. case_decide as E; [subst; by rewrite lookup_insert_eq|by rewrite lookup_insert_ne]. Qed.

Lemma wrote_app fd l l' w : wrote fd l' (wrote fd l w) = wrote fd (l ++ l') w.
Proof. unfold wrote at 1 3. cbn. rewrite out_wrote, decide_True by done. by rewrite insert_insert_eq, app_assoc. Qed.

Section Files.
Context (full : bool).
Notation must := (must (files_sys full)).

Lemma must_write (Q : ending Z -> files -> Prop) fd l w : Q (Returned (Z.of_nat (length l))) (wrote fd l w) -> must Q (call (Write fd l)) w.
Proof. intros H. apply must_call; [by eexists _, _|]. by intros r w' [-> ->]. Qed.

Lemma must_close (Q : ending Z -> files -> Prop) fd w :
  Q (Returned 0) (mk_files (f_disk w) (delete fd (f_fds w)) (f_out w)) -> must Q (call (Close fd)) w.
Proof. intros H. apply must_call; [by eexists _, _|]. by intros r w' [-> ->]. Qed.

(** Several writes in a row; [printf] is one character at a time. *)
Lemma must_writes (Q : ending unit -> files -> Prop) fd ls : forall w,
  (ls = [] -> Q (Returned tt) w) -> Q (Returned tt) (wrote fd (concat ls) w) -> must Q (each ls (fun l => call (Write fd l) ;~ pret tt)) w.
Proof.
  induction ls as [|l ls IH]; intros w H0 H; cbn [each]; [apply must_pret; by apply H0|].
  apply must_bind, must_bind, must_write, must_pret. cbn. apply IH; [|by rewrite wrote_app].
  intros ->. cbn in H. by rewrite app_nil_r in H.
Qed.

Lemma must_printf (Q : ending unit -> files -> Prop) fd fmt ap s w :
  Printf.printf fmt ap = Some s -> s <> [] -> Q (Returned tt) (wrote fd s w) -> must Q (printf fd fmt ap) w.
Proof.
  intros E Hs H. unfold printf. rewrite E. clear E. revert w H. induction s as [|ch s IH]; [done|]. intros w H. cbn [each].
  apply must_bind, must_bind, must_write, must_pret. cbn. destruct s as [|ch' s]; [by apply must_pret|]. apply IH; [done|]. by rewrite wrote_app.
Qed.
End Files.

(** ** [cat] *)

(** From [w] to [w'] the bytes [l] are written to the standard output. *)
Record said (w w' : files) (l : list Z) : Prop := {
  sd_disk : f_disk w' = f_disk w;
  sd_out : forall d, out w' d = if decide (d = 1) then out w d ++ l else out w d
}.

Lemma said_refl w : said w w [].
Proof. split; [done|]. intros d. by case_decide; rewrite ?app_nil_r. Qed.
Lemma said_trans w1 w2 w3 l l' : said w1 w2 l -> said w2 w3 l' -> said w1 w3 (l ++ l').
Proof. intros [A1 A2] [B1 B2]. split; [congruence|]. intros d. rewrite B2, A2. case_decide; [by rewrite app_assoc|done]. Qed.
Lemma said_wrote l w : said w (wrote 1 l w) l.
Proof. split; [done|]. intros d. rewrite out_wrote. by case_decide. Qed.
Lemma said_fds fds w : said w (mk_files (f_disk w) fds (f_out w)) [].
Proof. split; [done|]. intros d. change (out (mk_files (f_disk w) fds (f_out w)) d) with (out w d). by case_decide; rewrite ?app_nil_r. Qed.

Section Cat.
Context (full : bool).
Notation must := (must (files_sys full)).

(** One [read], with what it can return. *)
Lemma must_read (Q : ending (Z * list Z) -> files -> Prop) fd n st l w :
  f_fds w !! fd = Some (st, l) -> 0 < n ->
  (forall k, (k <= length l)%nat -> Z.of_nat k <= n -> (k = 0%nat -> l = []) -> (full = true -> Z.of_nat k = Z.min n (Z.of_nat (length l))) ->
     Q (Returned (Z.of_nat k, take k l)) (mk_files (f_disk w) (<[fd := (st, drop k l)]> (f_fds w)) (f_out w))) ->
  must Q (call (Read fd n)) w.
Proof.
  intros E Hn H. apply must_call.
  - set (k := Nat.min (Z.to_nat n) (length l)). exists (Z.of_nat k, take k l), (mk_files (f_disk w) (<[fd := (st, drop k l)]> (f_fds w)) (f_out w)).
    exists st, l, k. split; [done|]. split; [done|]. split; [lia|]. split; [lia|]. split; [|split; [lia|done]]. intros Hk. left. destruct l; [done|]. cbn in k. lia.
  - intros r w' (st' & l' & k & E' & -> & Hk1 & Hk2 & Hk3 & Hk4 & ->). rewrite E in E'. injection E' as <- <-. apply H; [done|lia| |].
    + intros Hk. destruct (Hk3 Hk); [done|lia].
    + intros Hfull. rewrite (Hk4 Hfull). lia.
Qed.

Lemma cat_loop st fd n : forall l w, (length l <= n)%nat -> f_fds w !! fd = Some (st, l) ->
  must (fun o w' => o = Returned 0 /\ said w w' l /\ f_fds w' = <[fd := (st, [])]> (f_fds w)) (ITree.iter (Cat.cat_turn fd) tt) w.
Proof.
  induction n as [|n IH]; intros l w Hl E; apply must_iter; unfold Cat.cat_turn at 1; apply must_bind, (must_read _ fd 512 st l w E ltac:(lia)); intros k K1 K2 K3 _; cbn [onward fst snd].
  - destruct l; [|cbn in Hl; lia]. assert (k = 0%nat) as -> by (cbn in K1; lia). apply must_pret. split; [done|]. split; [apply said_fds|done].
  - destruct (decide (k = 0%nat)) as [->|Hk]; [rewrite (K3 eq_refl) in *; apply must_pret; split; [done|]; split; [apply said_fds|done]|].
    replace (0 <? Z.of_nat k) with true by lia. apply must_bind, must_write. cbn [onward]. rewrite length_take, Nat.min_l, Z.eqb_refl by done. cbn [negb]. apply must_pret.
    set (w1 := wrote _ _ _). assert (E1 : f_fds w1 !! fd = Some (st, drop k l)) by apply lookup_insert_eq.
    eapply must_mono; [apply (IH (drop k l) w1); [rewrite length_drop; lia|exact E1]|]. intros o w' (-> & S & F). split; [done|].
    split; [|by rewrite F; unfold w1; cbn; rewrite insert_insert_eq].
    rewrite <- (take_drop k l). change (take k l) with ([] ++ take k l) at 1. exact (said_trans _ _ _ _ _ (said_trans _ _ _ _ _ (said_fds _ _) (said_wrote _ _)) S).
Qed.

Lemma cat_run fd st l w : f_fds w !! fd = Some (st, l) ->
  must (fun o w' => o = Returned tt /\ said w w' l /\ f_fds w' = <[fd := (st, [])]> (f_fds w)) (Cat.cat fd) w.
Proof.
  intros E. apply must_bind. eapply must_mono; [exact (cat_loop st fd (length l) l w ltac:(lia) E)|]. intros o w' (-> & S & F). apply must_pret. done.
Qed.
End Cat.

(** ** Programs that go through files *)

Lemma fresh_fd (m : gmap Z (stat * list Z)) : exists fd, 0 <= fd /\ m !! fd = None.
Proof.
  assert (H : forall l x, x ∈ l -> x <= foldr Z.max 0 l /\ 0 <= foldr Z.max 0 l).
  { induction l as [|y l IH]; [by intros x ?%not_elem_of_nil|]. cbn. assert (0 <= foldr Z.max 0 l) by (destruct l as [|z l]; [done|]; by apply (IH z), list_elem_of_here).
    intros x [->|Hx]%elem_of_cons; [lia|]. apply IH in Hx. lia. }
  set (l := elements (dom m)). exists (foldr Z.max 0 (0 :: l) + 1). pose proof (H (0 :: l) 0 ltac:(by left)). split; [lia|].
  apply not_elem_of_dom. intros Hin. destruct (H (0 :: l) (foldr Z.max 0 (0 :: l) + 1)); [|lia]. right. by apply elem_of_elements.
Qed.

Section Tool.
Context (full : bool).
Notation must := (must (files_sys full)).

Lemma must_open_some (Q : ending Z -> files -> Prop) path m f w : f_disk w path = Some f ->
  (forall fd, 0 <= fd -> f_fds w !! fd = None -> Q (Returned fd) (mk_files (f_disk w) (<[fd := f]> (f_fds w)) (f_out w))) -> must Q (call (Open path m)) w.
Proof.
  intros E H. apply must_call.
  - destruct (fresh_fd (f_fds w)) as (fd & H1 & H2). eexists fd, _. cbn. rewrite E. done.
  - cbn. rewrite E. intros r w' (H1 & H2 & ->). by apply H.
Qed.

Lemma must_open_none (Q : ending Z -> files -> Prop) path m w : f_disk w path = None -> Q (Returned (-1)) w -> must Q (call (Open path m)) w.
Proof. intros E H. apply must_call; cbn; rewrite E; [by eexists _, _|]. by intros r w' [-> ->]. Qed.

(** The work on one file: what it prints is [res], of the name and the contents. *)
Context (tool : Z -> list Z -> prog unit) (res : list Z -> list Z -> list Z) (fmt : list Z) (msg : list Z -> list Z) (ok : list Z -> Prop).
Hypothesis Htool : forall fd arg st l w, ok l -> f_fds w !! fd = Some (st, l) ->
  must (fun o w' => o = Returned tt /\ said w w' (res arg l) /\ f_fds w' = <[fd := (st, [])]> (f_fds w)) (tool fd arg) w.
Hypothesis Hmsg : forall arg, Printf.printf fmt [Printf.AStr (Some arg)] = Some (msg arg) /\ msg arg <> [].

Definition tool_file (arg : list Z) : prog unit :=
  fd <~ call (Open arg 0) ;;
  if fd <? 0 then printf 1 fmt [Printf.AStr (Some arg)] ;~ exit else
  tool fd arg ;~
  call (Close fd) ;~
  pret tt.

(** What is printed for the files, up to the first that cannot be opened. *)
Fixpoint outputs (disk : list Z -> option (stat * list Z)) (args : list (list Z)) : list Z :=
  match args with
  | [] => []
  | arg :: rest =>
      match disk arg with
      | Some f => res arg (snd f) ++ outputs disk rest
      | None => msg arg
      end
  end.

Lemma tool_each args : forall w, (forall arg f, arg ∈ args -> f_disk w arg = Some f -> ok (snd f)) ->
  must (fun o w' => said w w' (outputs (f_disk w) args) /\ f_fds w' = f_fds w) (each args tool_file) w.
Proof.
  induction args as [|arg args IH]; intros w Hok; cbn [each outputs]; [apply must_pret; split; [apply said_refl|done]|].
  apply must_bind, must_bind. destruct (f_disk w arg) as [f|] eqn:E.
  - apply (must_open_some _ arg 0 f w E). intros fd F1 F2. cbn [onward]. replace (fd <? 0) with false by lia. set (w1 := mk_files _ _ _).
    apply must_bind. destruct f as [st l]. eapply must_mono; [apply (Htool fd arg st l w1); [exact (Hok arg _ ltac:(by left) E)|apply lookup_insert_eq]|].
    intros o w2 (-> & S2 & F3). cbn [onward]. apply must_bind, must_close, must_pret. set (w3 := mk_files _ _ _). cbn [onward].
    assert (S3 : said w w3 (res arg l)).
    { rewrite <- (app_nil_r (res arg l)), <- (app_nil_l (res arg l)). exact (said_trans _ _ _ _ _ (said_trans _ _ _ _ _ (said_fds _ _) S2) (said_fds _ _)). }
    assert (F4 : f_fds w3 = f_fds w) by (unfold w3; cbn; rewrite F3; unfold w1; cbn; by rewrite insert_insert_eq, delete_insert_id).
    eapply must_mono; [apply (IH w3)|].
    + intros a f Ha Hf. apply (Hok a f); [by right|]. by rewrite <- (sd_disk _ _ _ S3).
    + intros o w' [S4 F5]. rewrite (sd_disk _ _ _ S3) in S4. split; [exact (said_trans _ _ _ _ _ S3 S4)|congruence].
  - apply (must_open_none _ arg 0 w E). cbn [onward]. change (-1 <? 0) with true. cbv iota. apply must_bind. destruct (Hmsg arg) as [M1 M2].
    apply (must_printf full _ 1 fmt _ (msg arg) w M1 M2). cbn [onward]. apply must_leave. cbn. split; [apply said_wrote|done].
Qed.
(** The program: its arguments, or with none its standard input. *)
Definition tool_main (args : list (list Z)) : prog unit :=
  match args with
  | [] => tool 0 [] ;~ exit
  | _ => each args tool_file ;~ exit
  end.
Definition expected (w : files) (args : list (list Z)) : option (list Z) :=
  match args with
  | [] => (fun f => res [] (snd f)) <$> f_fds w !! 0
  | _ => Some (outputs (f_disk w) args)
  end.
Definition inputs_ok (w : files) (args : list (list Z)) : Prop :=
  match args with
  | [] => forall f, f_fds w !! 0 = Some f -> ok (snd f)
  | _ => forall arg f, arg ∈ args -> f_disk w arg = Some f -> ok (snd f)
  end.

Lemma tool_main_run args w l : inputs_ok w args -> expected w args = Some l -> must (fun o w' => o = Exited /\ said w w' l) (tool_main args) w.
Proof.
  intros Hok Hl. destruct args as [|arg args]; apply must_bind.
  - cbn in Hl. apply fmap_Some in Hl as ([st c] & E & ->). eapply must_mono; [exact (Htool 0 [] st c w (Hok _ E) E)|]. intros o w' (-> & S & _). cbn [onward]. by apply must_leave.
  - eapply must_mono; [exact (tool_each (arg :: args) w Hok)|]. cbn in Hl. injection Hl as <-. intros [[]|] w' [S _]; cbn [onward]; [by apply must_leave|done].
Qed.
End Tool.

Lemma cannot_open (tool : string) (arg : list Z) :
  tool = "cat"%string \/ tool = "wc"%string \/ tool = "grep"%string ->
  Printf.printf (str (String.append tool ": cannot open %s") ++ [10]) [Printf.AStr (Some arg)] = Some (str (String.append tool ": cannot open ") ++ arg ++ [10]) /\
  str (String.append tool ": cannot open ") ++ arg ++ [10] <> [].
Proof. intros [->|[->| ->]]; (split; [reflexivity|discriminate]). Qed.

(** C29: [cat] copies its files to the standard output.  However [read] cuts the
    files into parts, the program ends by [exit], and what it has written to
    descriptor 1, and to no other, is the contents of its arguments in order, up
    to the first that cannot be opened, for which it prints a message; without
    arguments it is what is left of the standard input. *)
Theorem cat_spec full args w l :
  expected (fun _ c => c) (fun arg => str "cat: cannot open " ++ arg ++ [10]) w args = Some l ->
  must (files_sys full) (fun o w' => o = Exited /\ said w w' l) (Cat.cat_main args) w.
Proof.
  apply (tool_main_run full (fun fd _ => Cat.cat fd) (fun _ c => c) (str "cat: cannot open %s" ++ [10]) _ (fun _ => True)).
  - intros fd arg st c w' _. apply cat_run.
  - intros arg. apply (cannot_open "cat"). by left.
  - by destruct args.
Qed.

(** ** [wc] *)

Definition white (c : Z) : bool := bool_decide (c ∈ [32; 13; 9; 10; 11]).
(** The fields between white space; the words are those that are not empty. *)
Definition blanks (l : list Z) : list (list Z) :=
  foldr (fun c fs => if white c then [] :: fs else match fs with f :: r => (c :: f) :: r | [] => [[c]] end) [[]] l.
Definition words (l : list Z) : Z := Z.of_nat (length (filter (fun f => f <> []) (blanks l))).
Definition newlines (l : list Z) : Z := Z.of_nat (length (filter (fun c => c = 10) l)).

(** The line that [wc] prints. *)
Definition decimal (n : Z) : list Z := Printf.printint n 10 true.
Definition wc_line (name l : list Z) : list Z :=
  decimal (newlines l) ++ [32] ++ decimal (words l) ++ [32] ++ decimal (Z.of_nat (length l)) ++ [32] ++ name ++ [10].

Lemma strchr_white c : is_Some (Ulib.strchr [32; 13; 9; 10; 11] c) <-> white c = true.
Proof.
  unfold white. rewrite bool_decide_eq_true, !elem_of_cons. cbn.
  destruct (Z.eqb_spec 32 c); [subst; split; [tauto|by eexists]|]. destruct (Z.eqb_spec 13 c); [subst; split; [tauto|by eexists]|].
  destruct (Z.eqb_spec 9 c); [subst; split; [tauto|by eexists]|]. destruct (Z.eqb_spec 10 c); [subst; split; [tauto|by eexists]|].
  destruct (Z.eqb_spec 11 c); [subst; split; [tauto|by eexists]|]. cbn. split; [by intros [? ?]|]. intros [?|[?|[?|[?|[?|H]]]]]; try congruence. by apply not_elem_of_nil in H.
Qed.

(** Words that start in [l], when what is before it ends in a word or not. *)
Definition words_after (inword : bool) (l : list Z) : Z :=
  match blanks l with
  | f :: r => Z.of_nat (length (filter (fun f => f <> []) (if inword then r else f :: r)))
  | [] => 0
  end.

Lemma words_after_cons b c l : words_after b (c :: l) = if white c then words_after false l else words_after true l + (if b then 0 else 1).
Proof.
  unfold words_after. cbn [blanks foldr]. fold (blanks l). assert (H : exists f r, blanks l = f :: r).
  { destruct l as [|d l]; [by eexists _, _|]. cbn. destruct (white d); [by eexists _, _|]. destruct (foldr _ _ l); by eexists _, _. }
  destruct H as (f & r & ->). destruct (white c).
  - destruct b; [done|]. by rewrite filter_cons_False by tauto.
  - destruct b; [lia|]. rewrite filter_cons_True by done. cbn. lia.
Qed.

Lemma words_after_nil b : words_after b [] = 0.
Proof. by destruct b. Qed.

Lemma words_after_bound b l : 0 <= words_after b l <= Z.of_nat (length l).
Proof.
  revert b. induction l as [|c l IH]; intros b; [by destruct b|]. rewrite words_after_cons. cbn [length].
  pose proof (IH false). pose proof (IH true). destruct (white c), b; lia.
Qed.

Lemma newlines_cons c l : newlines (c :: l) = (if c =? 10 then 1 else 0) + newlines l.
Proof. unfold newlines. rewrite filter_cons. destruct (Z.eqb_spec c 10); case_decide; try congruence; cbn [length]; lia. Qed.
Lemma newlines_bound l : 0 <= newlines l <= Z.of_nat (length l).
Proof. unfold newlines. pose proof (length_filter (fun c => c = 10) l). lia. Qed.

Lemma count_step s c : 0 <= Wc.c_l s < 2147483647 -> 0 <= Wc.c_w s < 2147483647 -> 0 <= Wc.c_c s < 2147483647 ->
  Wc.count s c = Wc.mk_counts (Wc.c_l s + (if c =? 10 then 1 else 0)) (Wc.c_w s + (if white c || Wc.c_inword s then 0 else 1)) (Wc.c_c s + 1) (negb (white c)).
Proof.
  intros H1 H2 H3. unfold Wc.count. pose proof (strchr_white c) as Hw. rewrite !i32_id by lia.
  destruct (Ulib.strchr _ c) as [q|]; [rewrite (proj1 Hw ltac:(by eexists))|destruct (white c); [by destruct (proj2 Hw eq_refl)|]];
    destruct (c =? 10), (Wc.c_inword s); cbn; f_equal; lia.
Qed.

Lemma count_run l : forall s, let n := Z.of_nat (length l) in
  0 <= Wc.c_l s -> 0 <= Wc.c_w s -> 0 <= Wc.c_c s -> Wc.c_l s + n < 2147483648 -> Wc.c_w s + n < 2147483648 -> Wc.c_c s + n < 2147483648 ->
  let s' := foldl Wc.count s l in
  Wc.c_l s' = Wc.c_l s + newlines l /\ Wc.c_w s' = Wc.c_w s + words_after (Wc.c_inword s) l /\ Wc.c_c s' = Wc.c_c s + n.
Proof.
  induction l as [|c l IH]; intros s n H1 H2 H3 H4 H5 H6; cbn [foldl]; [change (newlines []) with 0; rewrite words_after_nil; unfold n; cbn; lia|].
  unfold n in *. cbn [length] in *. rewrite newlines_cons, words_after_cons, count_step by lia. set (s1 := Wc.mk_counts _ _ _ _).
  destruct (IH s1) as (R1 & R2 & R3); [unfold s1; cbn; destruct (c =? 10), (white c), (Wc.c_inword s); cbn; lia..|]. cbv zeta. rewrite R1, R2, R3. unfold s1. cbn.
  destruct (c =? 10), (white c), (Wc.c_inword s); cbn; lia.
Qed.

#[local] Opaque Printf.printint.
Lemma wc_format a b c name : Printf.printf (str "%d %d %d %s" ++ [10]) [Printf.AInt a; Printf.AInt b; Printf.AInt c; Printf.AStr (Some name)] =
  Some (decimal (i32 a) ++ [32] ++ decimal (i32 b) ++ [32] ++ decimal (i32 c) ++ [32] ++ name ++ [10]).
Proof. reflexivity. Qed.
#[local] Transparent Printf.printint.

Section Wc.
Context (full : bool).
Notation must := (must (files_sys full)).

Lemma wc_loop st fd n : forall l s w, (length l <= n)%nat -> f_fds w !! fd = Some (st, l) ->
  must (fun o w' => o = Returned (0, foldl Wc.count s l) /\ said w w' [] /\ f_fds w' = <[fd := (st, [])]> (f_fds w)) (ITree.iter (Wc.wc_turn fd) s) w.
Proof.
  induction n as [|n IH]; intros l s w Hl E; apply must_iter; unfold Wc.wc_turn at 1; apply must_bind, (must_read full _ fd 512 st l w E ltac:(lia)); intros k K1 K2 K3 _; cbn [onward fst snd].
  - destruct l; [|cbn in Hl; lia]. assert (k = 0%nat) as -> by (cbn in K1; lia). apply must_pret. split; [done|]. split; [apply said_fds|done].
  - destruct (decide (k = 0%nat)) as [->|Hk]; [rewrite (K3 eq_refl) in *; apply must_pret; split; [done|]; split; [apply said_fds|done]|].
    replace (0 <? Z.of_nat k) with true by lia. apply must_pret. set (w1 := mk_files _ _ _).
    eapply must_mono; [apply (IH (drop k l) _ w1); [rewrite length_drop; lia|apply lookup_insert_eq]|]. intros o w' (-> & S & F).
    split; [by rewrite <- foldl_app, take_drop|]. split; [exact (said_trans _ _ _ [] [] (said_fds _ _) S)|by rewrite F; unfold w1; cbn; rewrite insert_insert_eq].
Qed.

Lemma wc_run fd name st l w : Z.of_nat (length l) < 2147483648 -> f_fds w !! fd = Some (st, l) ->
  must (fun o w' => o = Returned tt /\ said w w' (wc_line name l) /\ f_fds w' = <[fd := (st, [])]> (f_fds w)) (Wc.wc fd name) w.
Proof.
  intros Hlen E. apply must_bind. eapply must_mono; [exact (wc_loop st fd (length l) l (Wc.mk_counts 0 0 0 false) w ltac:(lia) E)|].
  intros o w' (-> & S & F). cbn [onward fst snd]. change (0 <? 0) with false. cbv iota.
  destruct (count_run l (Wc.mk_counts 0 0 0 false)) as (R1 & R2 & R3); [cbn; lia..|]. cbn [Wc.c_l Wc.c_w Wc.c_c Wc.c_inword] in R1, R2, R3.
  assert (Ew : words_after false l = words l) by (unfold words_after, words; by destruct (blanks l)).
  pose proof (newlines_bound l). pose proof (words_after_bound false l). rewrite R1, R2, R3, Ew in *.
  eapply (must_printf full _ 1 _ _ (wc_line name l)).
  - rewrite wc_format, !Z.add_0_l, !i32_id by lia. reflexivity.
  - unfold wc_line. intros H'. apply app_eq_nil in H' as [_ H']. discriminate.
  - split; [done|]. split; [exact (said_trans _ _ _ [] _ S (said_wrote _ _))|done].
Qed.
End Wc.

(** C14: [wc] counts lines, words and characters.  However [read] cuts the files
    into parts, also within a word, the program ends by [exit], and prints for
    each argument a line with the number of its newlines, of its words (the
    non-empty pieces between white space) and of its bytes, and its name, up to
    the first file that cannot be opened. *)
Theorem wc_spec full args w l :
  inputs_ok (fun c => Z.of_nat (length c) < 2147483648) w args ->
  expected wc_line (fun arg => str "wc: cannot open " ++ arg ++ [10]) w args = Some l ->
  must (files_sys full) (fun o w' => o = Exited /\ said w w' l) (Wc.wc_main args) w.
Proof.
  intros Hok. refine (tool_main_run full Wc.wc wc_line (str "wc: cannot open %s" ++ [10]) _ (fun c => Z.of_nat (length c) < 2147483648) _ _ args w l Hok).
  - intros fd arg st c w' Hc. by apply wc_run.
  - intros arg. apply (cannot_open "wc"). by right; left.
Qed.

(** ** [grep] *)

(** Text whose lines all end and are shorter than half of the buffer. *)
Record short_lines (l : list Z) : Prop := {
  sl_zero : 0 ∉ l;
  sl_end : snd (lines l) = [];
  sl_short : Forall (fun x => (length x < 512)%nat) (fst (lines l))
}.

(** What has no newline is part of the first line. *)
Lemma first_line a rest : snd (lines (a ++ rest)) = [] -> fst (lines a) = [] -> a <> [] ->
  exists x xs, fst (lines (a ++ rest)) = x :: xs /\ (length a <= length x)%nat.
Proof.
  induction a as [|ch a IH]; [done|]. intros He Hl _. cbn [app lines] in *. destruct (lines a) as [ls r] eqn:Ea. destruct (lines (a ++ rest)) as [ls2 r2] eqn:Er.
  destruct (ch =? 10); [done|]. destruct ls; [|done]. destruct ls2 as [|x xs]; [done|]. exists (ch :: x), xs. split; [done|]. cbn.
  destruct a as [|d a]; [cbn; lia|]. destruct (IH He eq_refl ltac:(done)) as (y & ys & [= -> ->] & Hle). cbn in *. lia.
Qed.

Lemma partial_short buf rest : short_lines (buf ++ rest) -> fst (lines buf) = [] -> (length buf < 512)%nat.
Proof.
  intros [_ He Hs] H. destruct buf as [|ch buf]; [cbn; lia|]. destruct (first_line (ch :: buf) rest He H ltac:(done)) as (x & xs & E & Hle).
  rewrite E in Hs. apply Forall_cons in Hs as [Hx _]. lia.
Qed.

Lemma short_rest b rest : short_lines (b ++ rest) -> short_lines (snd (lines b) ++ rest).
Proof.
  intros [Hz He Hs]. rewrite lines_app in He, Hs. cbn [fst snd] in He, Hs. apply Forall_app in Hs as [_ Hs]. split; [|done|done].
  rewrite elem_of_app in *. intros [H|H]; [apply Hz; left; by apply lines_rest_elem|tauto].
Qed.

Section Grep.
Notation must := (must (files_sys true)).

Lemma grep_loop_run pattern st fd n : forall rest buf w, (length rest <= n)%nat -> f_fds w !! fd = Some (st, rest) -> lines buf = ([], buf) -> short_lines (buf ++ rest) ->
  must (fun o w' => o = Returned tt /\ said w w' (matching pattern (fst (lines (buf ++ rest)))) /\ f_fds w' = <[fd := (st, [])]> (f_fds w))
    (ITree.iter (GrepMain.grep_turn pattern fd) buf) w.
Proof.
  induction n as [|n IH]; intros rest buf w Hl E Hb Hsl; pose proof (partial_short buf rest Hsl ltac:(by rewrite Hb)) as Hlen; apply must_iter; unfold GrepMain.grep_turn at 1;
    apply must_bind, (must_read true _ fd (1023 - Z.of_nat (length buf)) st rest w E ltac:(lia)); intros k K1 K2 K3 K4; cbn [onward fst snd]; specialize (K4 eq_refl).
  - destruct rest; [|cbn in Hl; lia]. assert (k = 0%nat) as -> by (cbn in K1; lia). apply must_pret. rewrite app_nil_r, Hb. split; [done|]. split; [apply said_fds|done].
  - destruct (decide (k = 0%nat)) as [->|Hk].
    { rewrite (K3 eq_refl) in *. apply must_pret. rewrite app_nil_r, Hb. split; [done|]. split; [apply said_fds|done]. }
    replace (0 <? Z.of_nat k) with true by lia. set (b := buf ++ take k rest). assert (Eb : buf ++ rest = b ++ drop k rest) by (unfold b; by rewrite <- app_assoc, take_drop).
    rewrite Eb in *. assert (Hne : fst (lines b) <> []).
    { intros Hno. pose proof (partial_short b (drop k rest) Hsl Hno) as Hs. unfold b in Hs. rewrite length_app, length_take in Hs.
      assert (Hall : drop k rest = []) by (apply drop_ge; lia). rewrite Hall, app_nil_r in Hsl.
      destruct (first_line b [] ltac:(rewrite app_nil_r; apply (sl_end _ Hsl)) Hno) as (x & xs & Ex & _); [|rewrite app_nil_r in Ex; congruence].
      unfold b. intros Hnil. apply app_eq_nil in Hnil as [_ Hnil]. apply (f_equal length) in Hnil. rewrite length_take in Hnil. cbn in Hnil. lia. }
    rewrite scan_lines; [|intros Hin; apply (sl_zero _ Hsl), elem_of_app; by left|lia]. cbn [orb]. rewrite bool_decide_eq_true_2 by done. cbv iota.
    set (w1 := mk_files _ _ _). apply must_bind.
    assert (Hout : must (fun o w' => o = Returned tt /\ said w1 w' (matching pattern (fst (lines b))) /\ f_fds w' = f_fds w1)
      (each (hits pattern (fst (lines b))) (fun line => call (Write 1 line) ;~ pret tt)) w1).
    { apply must_writes; unfold matching; [intros ->|]; (split; [done|]; split; [apply said_refl || apply said_wrote|done]). }
    eapply must_mono; [exact Hout|]. intros o w2 (-> & S2 & F2). cbn [onward]. apply must_pret.
    eapply must_mono; [apply (IH (drop k rest) (snd (lines b)) w2); [rewrite length_drop; lia|by rewrite F2; apply lookup_insert_eq|apply lines_rest|by apply short_rest]|].
    intros o w3 (-> & S3 & F3). split; [done|]. split; [|by rewrite F3, F2; unfold w1; cbn; rewrite insert_insert_eq].
    rewrite (lines_app b). cbn [fst]. rewrite matching_app. exact (said_trans _ _ _ [] _ (said_fds _ _) (said_trans _ _ _ _ _ S2 S3)).
Qed.
End Grep.

(** C15: [grep] prints the matching lines of its files.  On regular files, which
    [read] fills the buffer from, that hold text with lines shorter than 512
    characters, each ended by a newline, the program ends by [exit], and what it
    prints is for each argument the lines that the pattern matches, whole and in
    order, also those that lie across two reads, up to the first file that
    cannot be opened. *)
Theorem grep_main_spec pattern args w l :
  inputs_ok short_lines w args ->
  expected (fun _ c => matching pattern (fst (lines c))) (fun arg => str "grep: cannot open " ++ arg ++ [10]) w args = Some l ->
  must (files_sys true) (fun o w' => o = Exited /\ said w w' l) (GrepMain.grep_main (pattern :: args)) w.
Proof.
  intros Hok. replace (GrepMain.grep_main (pattern :: args)) with (tool_main (fun fd _ => GrepMain.grep pattern fd) (str "grep: cannot open %s" ++ [10]) args) by (by destruct args).
  refine (tool_main_run true (fun fd _ => GrepMain.grep pattern fd) _ (str "grep: cannot open %s" ++ [10]) _ short_lines _ _ args w l Hok).
  - intros fd arg st c w' Hc E. exact (grep_loop_run pattern st fd (length c) c [] w' ltac:(lia) E eq_refl Hc).
  - intros arg. apply (cannot_open "grep"). by right; right.
Qed.

(** ** [ls] *)

(** The line for a file. *)
Definition stat_line (path : list Z) (st : stat) : list Z :=
  Ls.fmtname path ++ [32] ++ decimal (i32 (st_type st)) ++ [32] ++ decimal (i32 (st_ino st)) ++ [32] ++ decimal (i32 (st_size st)) ++ [10].

(** The line for the entry of a directory; there is none if it is not in use. *)
Definition entry_line (disk : list Z -> option (stat * list Z)) (path : list Z) (de : dirent) : list Z :=
  if de_inum de =? 0 then [] else
  let buf := path ++ [47] ++ Ls.name_of (de_name de) in
  match disk buf with
  | Some f => stat_line buf (fst f)
  | None => str "ls: cannot stat " ++ buf ++ [10]
  end.

#[local] Opaque Printf.printint.
Lemma stat_format path st : Printf.printf (str "%s %d %d %d" ++ [10])
    [Printf.AStr (Some (Ls.fmtname path)); Printf.AInt (st_type st); Printf.AInt (st_ino st); Printf.AInt (st_size st)] = Some (stat_line path st).
Proof. reflexivity. Qed.
#[local] Transparent Printf.printint.

Section Ls.
Notation must := (must (files_sys true)).

Lemma stat_of_run path w :
  must (fun o w' => o = Returned (match f_disk w path with Some f => (0, fst f) | None => (-1, mk_stat 0 0 0 0 0) end) /\ said w w' [] /\ f_fds w' = f_fds w) (stat_of path) w.
Proof.
  apply must_bind. destruct (f_disk w path) as [f|] eqn:E.
  - apply (must_open_some true _ path _ f w E). intros fd F1 F2. cbn [onward]. replace (fd <? 0) with false by lia. set (w1 := mk_files _ _ _).
    assert (E1 : f_fds w1 !! fd = Some f) by apply lookup_insert_eq. apply must_bind, must_call; [by eexists _, _, f|]. intros r w2 (f' & E2 & -> & ->).
    rewrite E1 in E2. injection E2 as <-. cbn [onward]. apply must_bind, must_close, must_pret. split; [done|].
    split; [exact (said_trans _ _ _ [] [] (said_fds _ _) (said_fds _ _))|]. cbn. by rewrite delete_insert_id.
  - apply (must_open_none true _ path _ w E). cbn [onward]. change (-1 <? 0) with true. cbv iota. apply must_pret. split; [done|]. split; [apply said_refl|done].
Qed.

Lemma print_stat_run path st w :
  must (fun o w' => o = Returned tt /\ said w w' (stat_line path st) /\ f_fds w' = f_fds w) (Ls.print_stat path st) w.
Proof.
  eapply (must_printf true _ 1 _ _ _ w (stat_format path st)); [|split; [done|]; split; [apply said_wrote|done]].
  unfold stat_line. intros H. apply app_eq_nil in H as [_ H]. discriminate.
Qed.

Lemma show_entry_run path de w :
  must (fun o w' => o = Returned tt /\ said w w' (entry_line (f_disk w) path de) /\ f_fds w' = f_fds w) (Ls.show_entry path de) w.
Proof.
  unfold entry_line, Ls.show_entry. destruct (de_inum de =? 0); [apply must_pret; split; [done|]; split; [apply said_refl|done]|].
  set (buf := path ++ _). apply must_bind. eapply must_mono; [apply stat_of_run|]. intros o w2 (-> & S2 & F2). cbn [onward].
  destruct (f_disk w buf) as [f|]; cbn [fst snd]; [change (0 <? 0) with false|change (-1 <? 0) with true]; cbv iota.
  - eapply must_mono; [apply print_stat_run|]. intros o w3 (-> & S3 & F3). split; [done|]. split; [exact (said_trans _ _ _ [] _ S2 S3)|congruence].
  - apply (must_printf true _ 1 _ _ (str "ls: cannot stat " ++ buf ++ [10])); [reflexivity|discriminate|]. split; [done|].
    split; [exact (said_trans _ _ _ [] _ S2 (said_wrote _ _))|exact F2].
Qed.

Lemma ls_loop path st fd bs : forall w, Forall (fun b => length b = 16%nat) bs -> f_fds w !! fd = Some (st, concat bs) ->
  must (fun o w' => o = Returned tt /\ said w w' (concat ((fun b => entry_line (f_disk w) path (decode_dirent b)) <$> bs)) /\ f_fds w' = <[fd := (st, [])]> (f_fds w))
    (ITree.iter (Ls.ls_turn path fd) tt) w.
Proof.
  induction bs as [|b bs IH]; intros w Hb E; apply must_iter; unfold Ls.ls_turn at 1; change DIRENT_SIZE with 16;
    apply must_bind, (must_read true _ fd 16 st _ w E ltac:(lia)); intros k K1 K2 K3 K4; cbn [onward fst snd]; specialize (K4 eq_refl).
  - assert (k = 0%nat) as -> by (cbn in K1; lia). apply must_pret. split; [done|]. split; [apply said_fds|done].
  - apply Forall_cons in Hb as [Hb Hbs]. cbn [concat] in *. assert (k = 16%nat) as -> by (rewrite length_app in K4; lia).
    replace (take 16 (b ++ concat bs)) with b by (rewrite <- Hb; by rewrite take_app_length). replace (drop 16 (b ++ concat bs)) with (concat bs) by (rewrite <- Hb; by rewrite drop_app_length).
    change (negb (Z.of_nat 16 =? 16)) with false. cbv iota. set (w1 := mk_files _ _ _). assert (E1 : f_fds w1 !! fd = Some (st, concat bs)) by apply lookup_insert_eq.
    apply must_bind. eapply must_mono; [apply show_entry_run|]. intros o w2 (-> & S2 & F2). cbn [onward]. apply must_pret.
    eapply must_mono; [apply (IH w2 Hbs); by rewrite F2|]. intros o w3 (-> & S3 & F3). split; [done|].
    split; [|by rewrite F3, F2; unfold w1; cbn; rewrite insert_insert_eq]. rewrite (sd_disk _ _ _ S2) in S3.
    exact (said_trans _ _ _ [] _ (said_fds _ _) (said_trans _ _ _ _ _ S2 S3)).
Qed.

End Ls.

(** C30: [ls] lists a directory.  For a directory that [open] finds, given by
    its entries of 16 bytes, and a path that fits the buffer, [ls] prints, in
    their order, one line for each entry in use, with the padded name and the
    type, inode number and size that [stat] gives for it, or a message if there
    is no such file; it skips the entries not in use, and it closes what it
    opened. *)
Theorem ls_spec path st bs w :
  f_disk w path = Some (st, concat bs) -> Forall (fun b => length b = 16%nat) bs -> st_type st = T_DIR -> Z.of_nat (length path) <= 496 ->
  must (files_sys true) (fun o w' => o = Returned tt /\ f_fds w' = f_fds w /\
    said w w' (concat ((fun b => entry_line (f_disk w) path (decode_dirent b)) <$> bs))) (Ls.ls path) w.
Proof.
  intros E Hb Ht Hp. apply must_bind, (must_open_some true _ path _ _ w E). intros fd F1 F2. cbn [onward]. replace (fd <? 0) with false by lia. set (w1 := mk_files _ _ _).
  assert (E1 : f_fds w1 !! fd = Some (st, concat bs)) by apply lookup_insert_eq. apply must_bind, must_call; [by eexists _, _, _|]. intros r w2 (f & E2 & -> & ->).
  rewrite E1 in E2. injection E2 as <-. cbn [onward fst snd]. change (0 <? 0) with false. cbv iota. rewrite Ht. change (T_DIR =? T_FILE) with false. change (T_DIR =? T_DIR) with true. cbv iota.
  change DIRSIZ with 14. replace (512 <? Z.of_nat (length path) + 1 + 14 + 1) with false by lia. apply must_bind. eapply must_mono; [exact (ls_loop path st fd bs w1 Hb E1)|].
  intros o w2 (-> & S2 & F3). cbn [onward]. apply must_bind, must_close, must_pret. split; [done|]. split; [|rewrite <- (app_nil_r (concat _)); exact (said_trans _ _ _ [] _ (said_fds _ _) (said_trans _ _ _ _ [] S2 (said_fds _ _)))].
  cbn. rewrite F3. unfold w1. cbn. by rewrite insert_insert_eq, delete_insert_id.
Qed.

(** ** Concrete files *)

Definition demo_stat (t ino n : Z) : stat := mk_stat t 1 ino 1 n.
(** A text file, and a directory with it, an entry not in use, and an entry without a file. *)
Definition demo_text : list Z := str "one two" ++ [10] ++ str " three" ++ [10].
Definition demo_dir : list (list Z) :=
  [encode_dirent (mk_dirent 5 (strncpy_str (str "text") 14)); encode_dirent (mk_dirent 0 (strncpy_str (str "old") 14)); encode_dirent (mk_dirent 9 (strncpy_str (str "gone") 14))].
Definition demo_disk (path : list Z) : option (stat * list Z) :=
  if bool_decide (path = str "text" \/ path = str "d/text") then Some (demo_stat T_FILE 5 15, demo_text)
  else if bool_decide (path = str "d") then Some (demo_stat T_DIR 4 48, concat demo_dir) else None.
Definition demo_world : files := mk_files demo_disk {[0 := (demo_stat T_FILE 7 3, str "abc")]} ∅.

Lemma demo_text_inputs (ok : list Z -> Prop) args : ok demo_text -> (forall a, a ∈ args -> a = str "text" \/ demo_disk a = None) -> args <> [] -> inputs_ok ok demo_world args.
Proof.
  intros Hok Ha Hne. destruct args as [|a args]; [done|]. intros arg f Hin Hf. cbn in Hf. destruct (Ha arg Hin) as [->|E]; [|congruence]. vm_compute in Hf. injection Hf as <-. exact Hok.
Qed.

Lemma demo_args a : a ∈ [str "text"; str "no"] -> a = str "text" \/ demo_disk a = None.
Proof. rewrite !elem_of_cons. intros [->|[->|H]]; [by left|by right|by apply not_elem_of_nil in H]. Qed.

Lemma cat_spec_witness :
  must (files_sys false) (fun o w' => o = Exited /\ said demo_world w' (demo_text ++ str "cat: cannot open no" ++ [10])) (Cat.cat_main [str "text"; str "no"]) demo_world.
Proof. apply cat_spec. vm_compute. reflexivity. Defined.

Lemma wc_spec_witness :
  must (files_sys false) (fun o w' => o = Exited /\ said demo_world w' (str "2 3 15 text" ++ [10] ++ str "wc: cannot open no" ++ [10])) (Wc.wc_main [str "text"; str "no"]) demo_world.
Proof.
  apply wc_spec; [|vm_compute; reflexivity]. apply demo_text_inputs; [vm_compute; reflexivity|exact demo_args|discriminate].
Defined.

Lemma demo_short : short_lines demo_text.
Proof. split; [by apply (bool_decide_unpack _)|reflexivity|]. repeat constructor; vm_compute; lia. Qed.

Lemma grep_main_spec_witness :
  must (files_sys true) (fun o w' => o = Exited /\ said demo_world w' (str "one two" ++ [10])) (GrepMain.grep_main [str "t.o$"; str "text"]) demo_world.
Proof.
  apply grep_main_spec; [|vm_compute; reflexivity]. apply demo_text_inputs; [exact demo_short| |discriminate].
  intros a Ha. apply list_elem_of_singleton in Ha. left. exact Ha.
Defined.

Lemma ls_spec_witness :
  must (files_sys true) (fun o w' => o = Returned tt /\ f_fds w' = f_fds demo_world /\
    said demo_world w' (str "text           2 5 15" ++ [10] ++ str "ls: cannot stat d/gone" ++ [10])) (Ls.ls (str "d")) demo_world.
Proof.
  apply (ls_spec (str "d") (demo_stat T_DIR 4 48) demo_dir demo_world); [reflexivity|repeat constructor|reflexivity|vm_compute; discriminate].
Defined.
